(* ===== verification/_CoqProject ===== *)
-Q . S2P
Prelude.v
JsString.v
JsUri.v
JsArray.v
Host.v
Types.v
Doubles.v
Format.v
MatcherRules.v
Membership.v
MessageFilters.v
Json.v
JsonParse.v
RegExp.v
Liquid.v
Csv.v
Feed.v
SearchViews.v
Checks.v
Trace.v
SpanGraph.v
Flow.v
Environment.v
Client.v
Endpoints.v
RuleServer.v
RuleSenders.v
Mirrors.v
Topology.v
CompletionRules.v
Completion.v
Maintenance.v
Session.v
Caches.v
CacheVariants.v
Catalog.v
CodeFormat.v
Trim.v
MembershipEditor.v
ListPages.v
Profiles.v
Rollup.v
Logs.v
LogRules.v
Metrics.v
Troubles.v
Shell.v
PolicyExpr.v
Policies.v
Boards.v
DashboardServer.v
DashboardPage.v
