(* ===== verification/Prelude.v ===== *)
(** * Sluicio: verification library of the frontend and the rules it relies on (root file)

    ** The program

    Sluicio shows the integrations of an organization: the services that take
    part, the messages (traces) that pass through them, and the health checks on
    both.  Services written in Go ingest telemetry, evaluate rules and answer an
    HTTP API; the frontend, a React application under frontend/src, is the
    JavaScript part of the repository and the one this library covers.  Where what
    a page means depends on what the server makes of its request, the Go code of
    that contract is modelled as well (services/cell-api).  Paths below are
    relative to frontend/src unless they name a Go file.

    The frontend's own logic sits in pure modules (lib/, and helpers inside
    components/ and pages/); pages fetch data with api/client.ts, pass it through
    those modules and draw the result.  State is kept in the URL (filters, time
    range, environment, columns), in browser storage, in module-level caches and
    in components.

    ** Files

    The language and the browser:
    - Prelude.v, JsString.v, JsUri.v, JsArray.v, Json.v, JsonParse.v, RegExp.v,
      Doubles.v: the parts of JavaScript the source uses.  A string is the list of
      its UTF-8 bytes; UTF-16 lengths are computed where the source cuts a string.
      [encodeURIComponent], [URLSearchParams], [JSON.stringify] and [JSON.parse] are
      defined and their round trips proved; [Array.prototype.sort] is a stable
      insertion sort; a [Map] or an object used as one is an association list in
      insertion order; a regular expression is run by a backtracking matcher; a
      binary fraction is an integer over a power of two.
    - Host.v: what belongs to the browser rather than to the language or the
      repository (collation, case mapping, date parsing, the regular expression
      engine for patterns a user types).  [Host] is a class with the laws the
      source relies on in [HostLaws]; [plain_host] is a concrete instance, used by
      the witnesses.
    - Types.v: the interfaces of api/types.ts.

    Members, messages and traces:
    - MatcherRules.v (components/MatcherRules.tsx), Membership.v
      (components/matcher/membership.ts) and MembershipEditor.v
      (components/matcher/MembershipEditor.tsx): the members of an integration, the
      rows they are stored as, the editor with its previews, the box that adds a
      member, its suggestions and its save bar.
    - MessageFilters.v (lib/messageFilterUrl.ts, components/search/): filter rows,
      their wire and URL forms.  Feed.v (pages/Search.tsx,
      pages/IntegrationMessages.tsx): the message table as an event machine.
      SearchViews.v (the same pages, SaveAsViewDialog.tsx): saved views.
    - Csv.v (lib/messagesCsv.ts, lib/slugify.ts): exports.
    - Trace.v (components/TraceWaterfall.tsx), SpanGraph.v (lib/spanGraph.ts,
      components/SpanGraph.tsx) and Flow.v (lib/serviceFlow.ts,
      lib/serviceSignature.ts, components/ServiceFlowGraph.tsx and others): the
      three pictures of a trace.
    - Topology.v (pages/Topology.tsx, components/ExpandableTree.tsx,
      handlers_metadata_graph.go): the four trees of the topology page.

    Health:
    - Checks.v (lib/check*.ts, lib/alertRule.ts, lib/needsAttention.ts and the like):
      health checks and the health page.
    - RuleServer.v (handlers_alerts.go, alerting/store.go): what a POST or a PUT of
      an alert rule checks, writes and reads back.  RuleSenders.v (components/health/HealthChecks.tsx,
      pages/Alerts.tsx, IntegrationSettings.tsx, ServiceDetail.tsx): the editors and
      switches that send one.
    - CompletionRules.v and Completion.v (pages/IntegrationSettings.tsx, the Go
      package tracecompletion): the rules on delayed traces, their form, their
      storage and their evaluator, with the loop of alerting/engine.go that sends
      firings again and shares its tables.
    - Maintenance.v (components/MaintenanceWindows.tsx, the Go package maintenance):
      maintenance windows, what they silence, recurrences.
    - Troubles.v (pages/StuckMessages.tsx, pages/IntegrationErrors.tsx): the error
      pages.
    - Profiles.v (components/NotificationProfiles.tsx, IntegrationProfileSelect.tsx,
      the Go packages notifyprofiles and envrole, configtransfer/import.go):
      notification profiles, and the choice of the one an alert goes by.

    Logs and metrics:
    - Rollup.v (components/groups/, components/logs/AttributeSuggest.tsx): the list of
      groups and the attribute pickers both pages share.
    - Logs.v (components/logs/LogsView.tsx): the log page.  LogRules.v (the same file,
      store/clickhouse.go, handlers_logs.go): the rule made from its filters, and
      the predicates the server runs for the page and for the rule.
    - Metrics.v (components/metrics/MetricsExplorer.tsx): the metric explorer.
    - Trim.v (the panels TrimIngestionPanel, TraceTrimPanel, LogTrimPanel and
      advisor/snippets.go): the collector configurations that drop telemetry.  The
      collector is a class, [Collector], with the documented rules the panels rely
      on in [CollectorLaws]; [reader] is a concrete instance.

    Requests, session and shell:
    - Environment.v (lib/activeEnvironment.ts, lib/useTimeWindow.ts): the
      environments and the time range every page reads.
    - Client.v ([request] of api/client.ts) and Endpoints.v (the methods of
      [api]): what is sent to the server, and how an answer becomes a value or an
      error.  Client.v uses Environment.v, as the code does.
    - Session.v (components/UserProvider.tsx, lib/useCurrentUser.ts,
      lib/activeOrg.ts, lib/useAccess.ts, lib/settingsAccess.ts and the tabs of
      pages/Settings.tsx): the fetch of /me and what follows from its answer.  It
      sends through Client.v and Endpoints.v.
    - Shell.v (components/AppShell.tsx, lib/breadcrumb.tsx, App.tsx): the sidebar,
      the routes and the breadcrumb.
    - Caches.v (lib/useBranding.ts and its siblings) and CacheVariants.v
      (lib/useLicense.ts, lib/keyAttributes.ts, EnvironmentPicker.tsx): the
      module-level caches as event machines.
    - PolicyExpr.v and Policies.v (pages/Settings.tsx, identity/policies_expr.go,
      identity/policies.go): access policies, from the form to what they grant.

    Lists, boards, texts:
    - Boards.v (lib/dashboardItems.ts, lib/dashboardPick.ts, pages/Health.tsx,
      lib/columnLayout.ts, lib/useTableSort.ts): dashboards, columns, sorting.
      DashboardServer.v (the Go package dashboards, handlers_dashboards.go,
      configtransfer/import.go): the tables, the requests on them and the import of
      bundles.  DashboardPage.v (pages/Health.tsx): the
      health page, its editor and its dialogs.
    - ListPages.v (components/integrations/IntegrationFilterBar.tsx,
      pages/Integrations.tsx, pages/Services.tsx): the two lists.
    - Format.v (lib/format.ts, lib/uid.ts): times, sizes, durations, identifiers.
    - Liquid.v (lib/liquidVars.ts, lib/jsonCaret.ts): the check of templates and the
      insertion of variables.  CodeFormat.v (components/CodeEditor.tsx): the
      formatters of the code editor.
    - Mirrors.v: rules written in both languages (slugs, labels, versions, colours).
      Catalog.v (lib/systemKinds.ts, system_templates.go): system types.

    ** How the code is modelled

    A function of the source is a definition of the same name and argument order;
    a helper that is inline in the source has a name of its own and its place in
    the map of the manifest.  [undefined] and [null] are [None], and [o ?? d] is
    the source's operator.  [if (s)] on a string is [truthy].  Loops over arrays
    are folds, early returns are [match].  A loop that mutates a [Map] threads an
    association list.  Records and closed unions are records and, where the code
    compares them with literals, strings.  Errors are sums, with the message on
    the left, and [let*] sequences them as Go's early returns do.

    A [number] is an integer where it is a count, an index or milliseconds, a
    decimal [num] where a user types it, and a binary fraction of Doubles.v where
    the code divides and prints the result.

    Pages that wait for answers, and the caches, are step functions on explicit
    states (Caches.v, CacheVariants.v, Feed.v, SearchViews.v, Rollup.v, Logs.v,
    Metrics.v, DashboardPage.v, MembershipEditor.v).  A request under way is an element of the state, and the event that
    answers it may come at any time; a run is a list of events, so every
    interleaving of answers, clicks and refreshes is a run, and invariants are
    proved by induction on it.  The trace-completion evaluator is a step function
    on its tables in the same way.

    What no file of the repository defines is an argument or the operation of a
    class: the browser ([Host], [Locale]), the database ([ClickHouse]), the collector
    ([Collector]), packages
    (the YAML printer, [uuid.Parse], the template parsers), the zone database
    (Maintenance.v, where [good_location] asks of a zone that its days begin one
    after the other).

    Recursion that is not structural takes fuel: the walk of the waterfall, the
    columns of the span graph, the layers and the search of a flow, the loops of
    the expression matcher and of the reader of JSON.  The fuel is computed from the
    input (the number of spans, nodes or edges, the length of the text), and theorems
    show that it is enough: every span has its row, every node gets its column, the
    search and the reader give the same answer with more.  The loop over the days of
    a recurrence takes its fuel as an argument: some fuel is enough in a zone
    whose days begin one after the other, and none is where a midnight is missing.

    ** What the theorems show

    - Round trips: members and matcher rows, typed patterns, filters and links,
      saved views, CSV files, JSON texts, formatted XML, environments, column
      layouts, the addresses of the lists and of the log page.
    - Nothing is lost or invented: every span of a trace that has a length in the
      waterfall, every span in one node of the graph, every service in a flow and its signature, every check in a
      bucket and on the error page, every card and system of a dashboard when one
      is removed or saved, every integration of a metadata value.
    - Pictures: children below and to the right of parents, no overlap.
    - Requests: reads follow the environment of the page, a request that changes
      something addresses one resource, whatever its arguments hold beside a lone
      [.] or [..].
    - What the server keeps: policies, and rules made by a POST, are well formed
      whatever the request, and rules changed by a PUT exactly when it keeps their
      signal; an editor, a switch or a form saved without a change keeps what it
      keeps, stated exactly; which submitted rules are accepted.
    - What the server does with it: an access tree grants what it says; a stalled
      trace is reported while its time is up, the evaluator pages a channel once for
      a firing, and who else may page it is stated; a
      window silences the checks it names and lists its occurrences; the rule made
      from the log page counts the logs the page lists; an alert goes by the most
      specific profile that applies to it.
    - Pages under any order of answers: the table and the log page show the first
      pages of the query on screen when nothing is overtaken, components agree with
      the caches, the health page has a dashboard open while there is one, a member
      has its preview.
    - Dashboards and profiles: every request keeps the tables sound, and consistent
      until a bundle is imported; only managers change a dashboard, saving one
      untouched keeps it.
    - Session: the tab follows the server's answer, the pinned organization is
      dropped exactly when it is refused, permissions are those of the role in the
      active organization, instance settings and the entries of the sidebar open
      for those who own them.
    - Where the code departs from what it means to do, a theorem states what it
      does, and the manifest lists it as a finding: answers that overtake one
      another and put old rows back, a rule that loses its scope when it is saved,
      a failed page asked for without end, a delay paged at every tick, a reminder
      that is never sent, an import that leaves two defaults, a feed that cannot be
      read and looks clear.

    ** What is not modelled

    Rendering, and effects that only fetch and set state.  The maps page, the
    account, usage, login and operator pages and most forms of the settings page
    post what was typed and draw what was fetched; their requests are in
    Endpoints.v.  Of maintenance, the announcements and the job that turns
    schedules into windows; of the Go services, everything but the contracts named
    above: ingestion, storage, the delivery of notifications, the
    evaluators of metric and trace rules, the MCP server.  SQL is modelled by the set or the test its text states,
    never by its text.

    [Client.answer] takes the reader of an answer as an argument (the one of
    JsonParse.v is such a reader), and Session.v takes the reading of /me as a
    record as one.  Strings that are not well-formed UTF-16 have no counterpart
    here.  Tests, deployment and documentation are not modelled. *)

From stdpp Require Export base tactics option list numbers strings sets gmap.
From Stdlib Require Export Ascii ZArith Lia.

(** ** Notations

    [o ?? d] is the nullish coalescing operator of JavaScript on a value
    that may be [undefined] or [null], both of which are [None]. *)
Declare Scope slu_scope.
Delimit Scope slu_scope with slu.
Notation "o ?? d" := (default d o) (at level 40, left associativity) : slu_scope.
Notation "a =s b" := (String.eqb a b) (at level 70, no associativity) : slu_scope.
#[global] Open Scope slu_scope.

(** Computations that may fail with an error: the first error is the result. *)
Definition err_bind {E A B} (e : E + A) (k : A -> E + B) : E + B :=
  match e with inl m => inl m | inr x => k x end.
Notation "'let*' x := e 'in' k" := (err_bind e (fun x => k))
  (at level 200, x name, e at level 100, k at level 200, right associativity) : slu_scope.

(** Maps a computation over a list, from the left, up to the first error. *)
Fixpoint err_map {E A B} (f : A -> E + B) (l : list A) : E + list B :=
  match l with
  | [] => inr []
  | x :: l => err_bind (f x) (fun y => err_bind (err_map f l) (fun ys => inr (y :: ys)))
  end.

Lemma err_map_Forall2 {E A B} (f : A -> E + B) l l' :
  err_map f l = inr l' <-> Forall2 (fun x y => f x = inr y) l l'.
Proof.
  revert l'. induction l as [|x l IH]; intros l'; simpl.
  - split; [intros [= <-]; constructor|]. intros H. by inversion H.
  - split.
    + destruct (f x) as [e|y] eqn:E1; [done|]. cbn. destruct (err_map f l) as [e|ys] eqn:E2; [done|]. cbn.
      intros [= <-]. constructor; [done|]. by apply IH.
    + intros H. inversion H as [|? y ? ys Hx Hl]; subst. rewrite Hx. cbn. apply IH in Hl. by rewrite Hl.
Qed.

Lemma err_bind_inr {E A B} (e : E + A) (k : A -> E + B) y : err_bind e k = inr y <-> exists x, e = inr x /\ k x = inr y.
Proof. destruct e as [m|x]; simpl; [split; [done|intros (? & ? & _); done]|]. split; [by exists x|intros (? & [= <-] & ?); done]. Qed.

(** The steps of a computation that succeeded. *)
Ltac err_inv :=
  repeat match goal with H : err_bind _ _ = inr _ |- _ => apply err_bind_inr in H as (? & ? & H) end.

(** A function that changes no element changes no list. *)
Lemma err_map_id {E A} (f : A -> E + A) l : Forall (fun x => f x = inr x) l -> err_map f l = inr l.
Proof. intros H. apply err_map_Forall2. by induction H; constructor. Qed.

(** Concatenation of concrete strings evaluates under [simpl]. *)
#[global] Arguments String.append !_ _ / : simpl nomatch.

(** ** Automation

    [slu] collects the rewriting lemmas of the library, [slu_res] the
    lemmas [eauto] may apply. *)
Create Rewrite HintDb slu.
Create HintDb slu_res discriminated.

(** Case analysis on the first boolean condition of the goal. *)
Ltac case_if :=
  match goal with
  | |- context [if ?b then _ else _] => destruct b eqn:?
  end.

(** Case analysis on the innermost [match] of the goal. *)
Ltac case_goal :=
  match goal with
  | |- context [match ?x with _ => _ end] =>
      lazymatch x with context [match _ with _ => _ end] => fail | _ => destruct x eqn:? end
  end.

(** Boolean hypotheses as propositions. *)
Ltac bool_prop :=
  repeat match goal with
  | H : andb _ _ = true |- _ => apply andb_true_iff in H as [? ?]
  | H : orb _ _ = false |- _ => apply orb_false_iff in H as [? ?]
  | H : negb _ = true |- _ => apply negb_true_iff in H
  | H : negb _ = false |- _ => apply negb_false_iff in H
  | H : String.eqb _ _ = true |- _ => apply String.eqb_eq in H
  | H : String.eqb _ _ = false |- _ => apply String.eqb_neq in H
  | H : Ascii.eqb _ _ = true |- _ => apply Ascii.eqb_eq in H
  | H : Ascii.eqb _ _ = false |- _ => apply Ascii.eqb_neq in H
  | H : Z.eqb _ _ = true |- _ => apply Z.eqb_eq in H
  | H : Z.eqb _ _ = false |- _ => apply Z.eqb_neq in H
  | H : Z.ltb _ _ = true |- _ => apply Z.ltb_lt in H
  | H : Z.ltb _ _ = false |- _ => apply Z.ltb_ge in H
  | H : Z.leb _ _ = true |- _ => apply Z.leb_le in H
  | H : Z.leb _ _ = false |- _ => apply Z.leb_gt in H
  end.

(** Membership in a list built with [::], from the hypotheses. *)
Ltac in_cons := solve [repeat first [apply list_elem_of_here | apply list_elem_of_further | assumption]].

(** A goal that is closed by evaluation. *)
Ltac by_compute := vm_compute; reflexivity.

(** ** Lists *)

Section lists.
Context {A B : Type}.
Implicit Types (l : list A) (p : A -> bool).

Lemma find_Some_elem p l x : List.find p l = Some x -> x ∈ l /\ p x = true.
Proof.
  intros H. apply List.find_some in H as [H1 H2].
  split; [by apply list_elem_of_In | done].
Qed.

Lemma existsb_elem p l : List.existsb p l = true <-> exists x, x ∈ l /\ p x = true.
Proof.
  rewrite List.existsb_exists. setoid_rewrite list_elem_of_In. done.
Qed.

Lemma filterb_elem p l x : x ∈ List.filter p l <-> x ∈ l /\ p x = true.
Proof. rewrite !list_elem_of_In. apply List.filter_In. Qed.

Lemma NoDup_map_inv (f : A -> B) l : NoDup (f <$> l) -> NoDup l.
Proof.
  induction l as [|x l IH]; simpl; [constructor|].
  intros [Hx Hl]%NoDup_cons. constructor; [|auto].
  intros Hin. apply Hx. by apply list_elem_of_fmap_2.
Qed.

Lemma NoDup_map_eq (f : A -> B) l x y :
  NoDup (f <$> l) -> x ∈ l -> y ∈ l -> f x = f y -> x = y.
Proof.
  induction l as [|z l IH]; simpl; intros Hnd Hx Hy Heq.
  { by apply elem_of_nil in Hx. }
  apply NoDup_cons in Hnd as [Hz Hnd].
  apply elem_of_cons in Hx as [->|Hx]; apply elem_of_cons in Hy as [->|Hy]; auto.
  - destruct Hz. rewrite Heq. by apply list_elem_of_fmap_2.
  - destruct Hz. rewrite <- Heq. by apply list_elem_of_fmap_2.
Qed.

(** A list split by a boolean test is a permutation of the list. *)
Lemma filter_partition_perm p l :
  List.filter p l ++ List.filter (fun x => negb (p x)) l ≡ₚ l.
Proof.
  induction l as [|x l IH]; simpl; [done|].
  destruct (p x); simpl.
  - by rewrite IH.
  - rewrite <- Permutation_middle. by rewrite IH.
Qed.

(** A stronger test keeps fewer elements, strictly fewer if it drops one. *)
Lemma filterb_length_mono p q l :
  (forall x, p x = true -> q x = true) -> (length (List.filter p l) <= length (List.filter q l))%nat.
Proof.
  intros H. induction l as [|x l IH]; simpl; [done|].
  destruct (p x) eqn:Ep; [rewrite (H x Ep); simpl; lia|]. destruct (q x); simpl; lia.
Qed.

Lemma filterb_length_strict p q l x :
  (forall x, p x = true -> q x = true) -> x ∈ l -> p x = false -> q x = true ->
  (length (List.filter p l) < length (List.filter q l))%nat.
Proof.
  intros H. induction l as [|y l IH]; intros Hx Hp Hq; [by apply elem_of_nil in Hx|]. simpl.
  apply elem_of_cons in Hx as [<-|Hx].
  - rewrite Hp, Hq. simpl. pose proof (filterb_length_mono p q l H). lia.
  - specialize (IH Hx Hp Hq). destruct (p y) eqn:Ep; [rewrite (H y Ep); simpl; lia|]. destruct (q y); simpl; lia.
Qed.

Lemma filterb_NoDup p l : NoDup l -> NoDup (List.filter p l).
Proof.
  induction 1 as [|x l Hx Hl IH]; simpl; [constructor|]. destruct (p x); [|done].
  constructor; [|done]. intros [? _]%filterb_elem. done.
Qed.

Lemma filterb_map_NoDup (f : A -> B) p l : NoDup (f <$> l) -> NoDup (f <$> List.filter p l).
Proof.
  induction l as [|x l IH]; simpl; [done|]. intros [Hx Hl]%NoDup_cons. destruct (p x); simpl; [|by apply IH].
  constructor; [|by apply IH]. intros Hin. apply Hx.
  apply list_elem_of_fmap in Hin as (y & -> & [Hy _]%filterb_elem). by apply list_elem_of_fmap_2.
Qed.

Lemma filterb_perm p l l' : l ≡ₚ l' -> List.filter p l ≡ₚ List.filter p l'.
Proof.
  induction 1 as [|x l l' H IH|x y l|l1 l2 l3 H1 IH1 H2 IH2]; simpl; [done| | |by etrans].
  - destruct (p x); [by rewrite IH|done].
  - destruct (p x), (p y); try done. constructor.
Qed.

Lemma filterb_all p l : (forall x, x ∈ l -> p x = true) -> List.filter p l = l.
Proof.
  induction l as [|x l IH]; simpl; intros H; [done|].
  rewrite (H x) by set_solver. f_equal. apply IH. set_solver.
Qed.

Lemma filterb_none p l : (forall x, x ∈ l -> p x = false) -> List.filter p l = [].
Proof.
  induction l as [|x l IH]; simpl; intros H; [done|].
  rewrite (H x) by set_solver. apply IH. set_solver.
Qed.
End lists.

(** *** Requests under way, by increasing number *)

Lemma fresh_snoc {A} (id_of : A -> nat) l x :
  Forall (fun y => id_of y < id_of x)%nat l -> NoDup (id_of <$> l) ->
  Forall (fun y => id_of y < S (id_of x))%nat (l ++ [x]) /\ NoDup (id_of <$> l ++ [x]).
Proof.
  intros HF HN. split.
  - apply Forall_app. split; [eapply Forall_impl; [exact HF|]; cbn; lia|]. repeat constructor.
  - rewrite fmap_app. apply NoDup_app. split; [done|]. split; [|apply NoDup_singleton].
    intros i Hi Hn. apply list_elem_of_singleton in Hn. cbn in Hn. subst i.
    apply list_elem_of_fmap in Hi as (f & Hf & Hin). rewrite Forall_forall in HF. apply HF in Hin. lia.
Qed.
Lemma removed_id_count {A} (id_of : A -> nat) (p : A -> bool) i l x :
  NoDup (id_of <$> l) -> List.find (fun y => Nat.eqb (id_of y) i) l = Some x ->
  length (List.filter p l) =
    (length (List.filter p (List.filter (fun y => negb (Nat.eqb (id_of y) i)) l)) + (if p x then 1 else 0))%nat.
Proof.
  induction l as [|y l IH]; [done|]. cbn. intros HN HF. apply NoDup_cons in HN as [Hn HN].
  destruct (Nat.eqb (id_of y) i) eqn:Hy; cbn.
  - injection HF as ->. apply Nat.eqb_eq in Hy. rewrite (filterb_all (fun y => negb (Nat.eqb (id_of y) i))); [destruct (p x); cbn; lia|].
    intros z Hz. apply negb_true_iff, Nat.eqb_neq. intros Hi. apply Hn. rewrite Hy, <- Hi. by apply list_elem_of_fmap_2.
  - specialize (IH HN HF). destruct (p y); cbn; lia.
Qed.

Lemma filterb_ext_in {A} (p q : A -> bool) l : (forall x, x ∈ l -> p x = q x) -> List.filter p l = List.filter q l.
Proof.
  induction l as [|x l IH]; intros H; [done|]. simpl. rewrite (H x) by in_cons.
  rewrite IH by (intros y Hy; apply H; in_cons). done.
Qed.

Lemma filterb_filterb {A} (p q : A -> bool) l : List.filter p (List.filter q l) = List.filter (fun x => q x && p x) l.
Proof. induction l as [|x l IH]; [done|]. simpl. destruct (q x); simpl; [|done]. by rewrite IH. Qed.

Lemma imap_elements {A} (l : list A) : imap (fun _ x => x) l = l.
Proof. induction l as [|x l IH]; simpl; [done|]. f_equal. exact IH. Qed.

Lemma elem_of_concat {A} (x : A) (ls : list (list A)) : x ∈ concat ls <-> exists l, l ∈ ls /\ x ∈ l.
Proof.
  rewrite list_elem_of_In, List.in_concat. split; intros (l & ? & ?); exists l; by rewrite ?list_elem_of_In in *.
Qed.
