(* ===== verification/JsString.v ===== *)
(** * JavaScript strings

    A JavaScript string without lone surrogates is the list of bytes of its
    UTF-8 encoding, a Rocq [string]; literals written here are UTF-8 too, so
    [EmDash] or the ellipsis are the same characters as in the source.  The
    operations below are those of ECMAScript the frontend uses; positions
    found by searching for an ASCII character delimit the same substrings in
    bytes as in code units.  [URLSearchParams] is the list of pairs of the
    WHATWG URL standard, with its form-urlencoded printer and parser. *)

From S2P Require Import Prelude.
From Stdlib Require Import DecimalString DecimalZ.

Local Open Scope char_scope.
Local Open Scope string_scope.
Local Open Scope list_scope.

(** ** Building strings *)

(** A template literal: the concatenation of its pieces. *)
Fixpoint tpl (l : list string) : string :=
  match l with [] => "" | s :: l => s +:+ tpl l end.

(** [Array.prototype.join]. *)
Fixpoint join (sep : string) (l : list string) : string :=
  match l with
  | [] => ""
  | [s] => s
  | s :: l => s +:+ sep +:+ join sep l
  end.

(** A JavaScript number holding an integer, in a template literal. *)
Definition show_Z (n : Z) : string := NilZero.string_of_int (Z.to_int n).

Definition NUL : string := String "000"%char "".

(** The truth value of a string, and of one that may be [undefined]. *)
Definition truthy (s : string) : bool := negb (s =s "").
Definition truthy_opt (o : option string) : bool := truthy (o ?? "").

(** [o || d] on strings. *)
Definition or_str (o : option string) (d : string) : string :=
  if truthy_opt o then o ?? "" else d.

Lemma truthy_spec s : truthy s = true <-> s <> "".
Proof. unfold truthy. rewrite negb_true_iff. apply String.eqb_neq. Qed.

Lemma sapp_assoc s1 s2 s3 : s1 +:+ (s2 +:+ s3) = (s1 +:+ s2) +:+ s3.
Proof. induction s1 as [|c s1 IH]; simpl; congruence. Qed.

Lemma sapp_nil_r s : s +:+ "" = s.
Proof. induction s as [|c s IH]; simpl; congruence. Qed.

Lemma sapp_length s1 s2 : String.length (s1 +:+ s2) = (String.length s1 + String.length s2)%nat.
Proof. induction s1 as [|c s1 IH]; simpl; congruence. Qed.

Lemma sapp_inj_l s s1 s2 : s +:+ s1 = s +:+ s2 -> s1 = s2.
Proof. induction s as [|c s IH]; simpl; [done|]. intros [= H]. auto. Qed.

Lemma tpl_app l1 l2 : tpl (l1 ++ l2) = tpl l1 +:+ tpl l2.
Proof. induction l1 as [|s l1 IH]; simpl; [done|]. by rewrite IH, sapp_assoc. Qed.

Fixpoint srev (s : string) : string :=
  match s with "" => "" | String c s' => srev s' +:+ String c "" end.

(** ** Searching *)

Definition startsWith (s p : string) : bool := String.prefix p s.

Fixpoint includes (s p : string) : bool :=
  if String.prefix p s then true
  else match s with "" => false | String _ s' => includes s' p end.

Fixpoint endsWith (s p : string) : bool :=
  if s =s p then true
  else match s with "" => false | String _ s' => endsWith s' p end.

(** [indexOf] of a one-character string; [None] is -1. *)
Fixpoint index_of (c : ascii) (s : string) : option nat :=
  match s with
  | "" => None
  | String d s' => if Ascii.eqb c d then Some 0%nat else S <$> index_of c s'
  end.

(** [s.slice(0, n)] and [s.slice(n)]. *)
Fixpoint slice_to (n : nat) (s : string) : string :=
  match n, s with S n, String c s' => String c (slice_to n s') | _, _ => "" end.
Fixpoint slice_from (n : nat) (s : string) : string :=
  match n, s with S n, String _ s' => slice_from n s' | _, _ => s end.

(** [s.slice(0, -1)]. *)
Definition drop_last (s : string) : string := slice_to (String.length s - 1) s.

(** [no_char c s]: the character does not occur. *)
Fixpoint no_char (c : ascii) (s : string) : bool :=
  match s with "" => true | String d s' => negb (Ascii.eqb c d) && no_char c s' end.

(** [split] on a one-character separator; never empty. *)
Fixpoint split (c : ascii) (s : string) : list string :=
  match s with
  | "" => [""]
  | String d s' =>
      if Ascii.eqb c d then "" :: split c s'
      else match split c s' with x :: xs => String d x :: xs | [] => [String d ""] end
  end.

(** [s.replace(/c/g, r)]. *)
Fixpoint replace_char (c : ascii) (r s : string) : string :=
  match s with
  | "" => ""
  | String d s' => if Ascii.eqb c d then r +:+ replace_char c r s' else String d (replace_char c r s')
  end.

(** ** White space

    [trim] removes the white space and line terminators of ECMAScript, in
    their UTF-8 encodings of one, two and three bytes. *)
Definition byte_of (c : ascii) : Z := Z.of_nat (Ascii.nat_of_ascii c).
Definition ws1 (c : ascii) : bool :=
  let n := byte_of c in ((9 <=? n) && (n <=? 13) || (n =? 32))%Z.
Definition ws2 (c d : ascii) : bool := ((byte_of c =? 194) && (byte_of d =? 160))%Z.
Definition ws3 (c d e : ascii) : bool :=
  let n := (byte_of c * 65536 + byte_of d * 256 + byte_of e)%Z in
  ((n =? 0xE19A80) || ((0xE28080 <=? n) && (n <=? 0xE2808A)) || (n =? 0xE280A8) || (n =? 0xE280A9)
   || (n =? 0xE280AF) || (n =? 0xE2819F) || (n =? 0xE38080) || (n =? 0xEFBBBF))%Z.

Section strip.
Context (p1 : ascii -> bool) (p2 : ascii -> ascii -> bool) (p3 : ascii -> ascii -> ascii -> bool).

(** Drops the leading characters that one of the tests accepts. *)
Fixpoint strip (s : string) : string :=
  match s with
  | "" => ""
  | String c s1 =>
      if p1 c then strip s1
      else match s1 with
           | "" => s
           | String d s2 =>
               if p2 c d then strip s2
               else match s2 with
                    | "" => s
                    | String e s3 => if p3 c d e then strip s3 else s
                    end
           end
  end.

Definition strips (s : string) : bool :=
  match s with
  | "" => false
  | String c s1 =>
      p1 c || match s1 with
              | "" => false
              | String d s2 => p2 c d || match s2 with "" => false | String e _ => p3 c d e end
              end
  end.
End strip.

Definition trimStart (s : string) : string := strip ws1 ws2 ws3 s.
Definition trimEnd (s : string) : string :=
  srev (strip ws1 (fun d c => ws2 c d) (fun e d c => ws3 c d e) (srev s)).
Definition trim (s : string) : string := trimEnd (trimStart s).
#[global] Arguments trim : simpl never.
#[global] Arguments show_Z : simpl never.

(** ** Lemmas *)

Lemma startsWith_app p s : startsWith (p +:+ s) p = true.
Proof.
  unfold startsWith. induction p as [|c p IH]; simpl; [by destruct s|].
  destruct (Ascii.ascii_dec c c); [exact IH | done].
Qed.

Lemma startsWith_spec s p : startsWith s p = true <-> exists t, s = p +:+ t.
Proof.
  split; [|intros [t ->]; apply startsWith_app].
  unfold startsWith. revert s. induction p as [|c p IH]; intros s H; [by exists s|].
  destruct s as [|d s]; simpl in H; [done|].
  destruct (Ascii.ascii_dec c d) as [->|]; [|done].
  destruct (IH s H) as [t ->]. by exists t.
Qed.

Lemma startsWith_includes s p : startsWith s p = true -> includes s p = true.
Proof.
  unfold startsWith. intros H. destruct s as [|c s]; cbn [includes]; by rewrite H.
Qed.

Lemma includes_spec s p : includes s p = true <-> exists a b, s = a +:+ (p +:+ b).
Proof.
  split.
  - induction s as [|c s IH]; cbn [includes].
    + destruct (String.prefix p "") eqn:E; [|discriminate]. intros _.
      apply startsWith_spec in E as [t E]. by exists "", t.
    + destruct (String.prefix p (String c s)) eqn:E.
      * intros _. apply startsWith_spec in E as [t E]. by exists "", t.
      * intros H. destruct (IH H) as (a & b & ->). by exists (String c a), b.
  - intros (a & b & ->). induction a as [|c a IH].
    + apply startsWith_includes. exact (startsWith_app p b).
    + change (String c a +:+ (p +:+ b)) with (String c (a +:+ (p +:+ b))).
      cbn [includes]. rewrite IH. by case_if.
Qed.

Lemma endsWith_app a p : endsWith (a +:+ p) p = true.
Proof.
  induction a as [|c a IH]; simpl.
  - destruct p; simpl; by rewrite ?String.eqb_refl, ?Ascii.eqb_refl.
  - rewrite IH. by case_if.
Qed.

Lemma endsWith_spec s p : endsWith s p = true <-> exists a, s = a +:+ p.
Proof.
  split; [|intros [a ->]; apply endsWith_app].
  induction s as [|c s IH]; cbn [endsWith].
  - destruct ("" =s p) eqn:E; [|done]. intros _. bool_prop. by exists "".
  - destruct (String c s =s p) eqn:E.
    + intros _. bool_prop. exists "". done.
    + intros H. destruct (IH H) as [a ->]. by exists (String c a).
Qed.

Lemma no_char_app c s1 s2 : no_char c (s1 +:+ s2) = no_char c s1 && no_char c s2.
Proof.
  induction s1 as [|d s1 IH]; simpl; [done|]. by rewrite IH, andb_assoc.
Qed.

Lemma no_char_join c sep l :
  no_char c sep = true -> Forall (fun s => no_char c s = true) l -> no_char c (join sep l) = true.
Proof.
  intros Hs. induction 1 as [|s l Hc Hl IH]; [done|].
  destruct l as [|s' l]; [done|].
  change (join sep (s :: s' :: l)) with (s +:+ (sep +:+ join sep (s' :: l))).
  by rewrite !no_char_app, Hc, Hs, IH.
Qed.

Lemma index_of_None c s : index_of c s = None <-> no_char c s = true.
Proof.
  induction s as [|d s IH]; simpl; [done|].
  destruct (Ascii.eqb c d); simpl; [by split|].
  rewrite fmap_None. exact IH.
Qed.

Lemma index_of_app c s1 s2 :
  no_char c s1 = true -> index_of c (s1 +:+ String c s2) = Some (String.length s1).
Proof.
  induction s1 as [|d s1 IH]; simpl; intros H.
  - by rewrite Ascii.eqb_refl.
  - destruct (Ascii.eqb c d); simpl in *; [done|].
    by rewrite IH.
Qed.

Lemma slice_to_app s1 s2 : slice_to (String.length s1) (s1 +:+ s2) = s1.
Proof. induction s1 as [|c s1 IH]; simpl; [by destruct s2|congruence]. Qed.

Lemma slice_from_app s1 s2 : slice_from (String.length s1) (s1 +:+ s2) = s2.
Proof. induction s1 as [|c s1 IH]; simpl; [by destruct s2|congruence]. Qed.

Lemma slice_from_cut s1 c s2 : slice_from (S (String.length s1)) (s1 +:+ String c s2) = s2.
Proof. induction s1 as [|d s1 IH]; [by destruct s2|exact IH]. Qed.

Lemma drop_last_app s c : drop_last (s +:+ String c "") = s.
Proof.
  unfold drop_last. rewrite sapp_length; simpl.
  replace (String.length s + 1 - 1)%nat with (String.length s) by lia.
  apply slice_to_app.
Qed.

Lemma split_no_char c s : no_char c s = true -> split c s = [s].
Proof.
  induction s as [|d s IH]; simpl; intros H; [done|].
  destruct (Ascii.eqb c d); simpl in *; [done|]. by rewrite IH.
Qed.

Lemma split_cut c s1 s2 :
  no_char c s1 = true -> split c (s1 +:+ String c s2) = s1 :: split c s2.
Proof.
  induction s1 as [|d s1 IH]; simpl; intros H; [by rewrite Ascii.eqb_refl|].
  destruct (Ascii.eqb c d); simpl in *; [done|]. by rewrite IH.
Qed.

(** [split] undoes [join] when no piece holds the separator. *)
Lemma split_join c l :
  l <> [] -> Forall (fun s => no_char c s = true) l -> split c (join (String c "") l) = l.
Proof.
  induction l as [|s l IH]; intros Hne H; [done|].
  apply Forall_cons in H as [Hs Hl]. destruct l as [|s' l].
  - simpl. by apply split_no_char.
  - change (join (String c "") (s :: s' :: l))
      with (s +:+ String c (join (String c "") (s' :: l))).
    rewrite split_cut by done. f_equal. by apply IH.
Qed.

Lemma split_not_nil c s : split c s <> [].
Proof. destruct s as [|d s]; simpl; [done|]. repeat case_goal; done. Qed.

Lemma join_split c s : join (String c "") (split c s) = s.
Proof.
  induction s as [|d s IH]; simpl; [done|].
  destruct (Ascii.eqb c d) eqn:E.
  - bool_prop. subst d. pose proof (split_not_nil c s).
    destruct (split c s) as [|x xs] eqn:Es; [done|]. cbn [join] in *. by rewrite <- IH.
  - pose proof (split_not_nil c s). destruct (split c s) as [|x xs]; [done|].
    destruct xs as [|y ys]; cbn [join] in *; rewrite <- IH; done.
Qed.

Lemma show_Z_inj n m : show_Z n = show_Z m -> n = m.
Proof.
  unfold show_Z. intros H. apply (f_equal NilZero.int_of_string) in H.
  assert (Hz : forall z, NilZero.int_of_string (NilZero.string_of_int (Z.to_int z)) = Some (Z.to_int z)).
  { intros z. apply NilZero.isi; intros E; pose proof (f_equal Z.of_int E) as Ez;
      rewrite DecimalZ.of_to in Ez; simpl in Ez; subst z; discriminate. }
  rewrite !Hz in H. injection H as H. apply (f_equal Z.of_int) in H.
  by rewrite !DecimalZ.of_to in H.
Qed.

(** *** [trim] *)

Section strip_lemmas.
Context (p1 : ascii -> bool) (p2 : ascii -> ascii -> bool) (p3 : ascii -> ascii -> ascii -> bool).
Abbreviation strip := (strip p1 p2 p3).
Abbreviation strips := (strips p1 p2 p3).

(** Induction on the length of a string. *)
Lemma string_len_ind (P : string -> Prop) :
  (forall s, (forall t, String.length t < String.length s -> P t)%nat -> P s) -> forall s, P s.
Proof.
  intros H s. remember (String.length s) as n eqn:En. revert s En.
  induction (lt_wf n) as [n _ IH]. intros s ->. apply H. intros t Ht. by eapply IH.
Qed.

Lemma strip_strips s : strips (strip s) = false.
Proof.
  induction s as [s IH] using string_len_ind.
  destruct s as [|c s1]; [done|]. cbn [JsString.strip].
  destruct (p1 c) eqn:E1; [apply IH; simpl; lia|].
  destruct s1 as [|d s2]; [simpl; by rewrite E1|].
  destruct (p2 c d) eqn:E2; [apply IH; simpl; lia|].
  destruct s2 as [|e s3]; [simpl; by rewrite E1, E2|].
  destruct (p3 c d e) eqn:E3; [apply IH; simpl; lia|].
  simpl. by rewrite E1, E2, E3.
Qed.

Lemma strip_id s : strips s = false -> strip s = s.
Proof.
  destruct s as [|c s1]; [done|]. simpl. intros H. apply orb_false_iff in H as [-> H].
  destruct s1 as [|d s2]; [done|]. apply orb_false_iff in H as [-> H].
  destruct s2 as [|e s3]; [done|]. by rewrite H.
Qed.

Lemma strip_suffix s : exists p, s = p +:+ strip s.
Proof.
  induction s as [s IH] using string_len_ind.
  destruct s as [|c s1]; [by exists ""|]. cbn [JsString.strip].
  destruct (p1 c); [destruct (IH s1) as [p Hp]; [simpl; lia|]; exists (String c p);
    simpl; by rewrite <- Hp|].
  destruct s1 as [|d s2]; [by exists ""|].
  destruct (p2 c d); [destruct (IH s2) as [p Hp]; [simpl; lia|]; exists (String c (String d p));
    simpl; by rewrite <- Hp|].
  destruct s2 as [|e s3]; [by exists ""|].
  destruct (p3 c d e); [|by exists ""].
  destruct (IH s3) as [p Hp]; [simpl; lia|]. exists (String c (String d (String e p))).
  simpl. by rewrite <- Hp.
Qed.

Lemma strips_app s t : strips s = true -> strips (s +:+ t) = true.
Proof.
  destruct s as [|c [|d [|e s]]]; simpl; intros H; try done.
  - rewrite orb_false_r in H. by rewrite H.
  - destruct (p1 c); [done|]. simpl in *. rewrite orb_false_r in H. by rewrite H.
Qed.
End strip_lemmas.

Lemma srev_app s t : srev (s +:+ t) = srev t +:+ srev s.
Proof.
  induction s as [|c s IH]; simpl; [by rewrite sapp_nil_r|]. by rewrite IH, sapp_assoc.
Qed.

Lemma srev_involutive s : srev (srev s) = s.
Proof. induction s as [|c s IH]; simpl; [done|]. by rewrite srev_app, IH. Qed.

Lemma trimEnd_prefix s : exists t, s = trimEnd s +:+ t.
Proof.
  unfold trimEnd.
  destruct (strip_suffix ws1 (fun d c => ws2 c d) (fun e d c => ws3 c d e) (srev s)) as [p Hp].
  exists (srev p). apply (f_equal srev) in Hp.
  rewrite srev_app, srev_involutive in Hp. exact Hp.
Qed.

Lemma trimStart_id s : strips ws1 ws2 ws3 s = false -> trimStart s = s.
Proof. apply strip_id. Qed.

Lemma trimEnd_idem s : trimEnd (trimEnd s) = trimEnd s.
Proof.
  unfold trimEnd. rewrite srev_involutive. f_equal.
  apply strip_id, strip_strips.
Qed.

Lemma trimStart_trim s : trimStart (trim s) = trim s.
Proof.
  apply trimStart_id. unfold trim.
  destruct (trimEnd_prefix (trimStart s)) as [t Ht].
  destruct (strips ws1 ws2 ws3 (trimEnd (trimStart s))) eqn:E; [|done].
  apply (strips_app _ _ _ _ t) in E. rewrite <- Ht in E.
  unfold trimStart in E. by rewrite strip_strips in E.
Qed.

(** Trimming is idempotent. *)
Lemma trim_trim s : trim (trim s) = trim s.
Proof.
  unfold trim at 1. rewrite trimStart_trim. unfold trim. apply trimEnd_idem.
Qed.

(** Trimming any set of characters is idempotent. *)
Definition trim_by (p1 : ascii -> bool) (p2 : ascii -> ascii -> bool) (p3 : ascii -> ascii -> ascii -> bool) (s : string) : string :=
  srev (strip p1 (fun d c => p2 c d) (fun e d c => p3 c d e) (srev (strip p1 p2 p3 s))).

Lemma trim_by_idem p1 p2 p3 s : trim_by p1 p2 p3 (trim_by p1 p2 p3 s) = trim_by p1 p2 p3 s.
Proof.
  unfold trim_by at 1.
  set (q2 := fun d c => p2 c d). set (q3 := fun e d c => p3 c d e).
  assert (Hs : strip p1 p2 p3 (trim_by p1 p2 p3 s) = trim_by p1 p2 p3 s).
  { apply strip_id. unfold trim_by. fold q2 q3. set (t := strip p1 p2 p3 s).
    destruct (strip_suffix p1 q2 q3 (srev t)) as [p Hp]. set (u := strip p1 q2 q3 (srev t)) in *.
    apply (f_equal srev) in Hp. rewrite srev_app, srev_involutive in Hp.
    destruct (strips p1 p2 p3 (srev u)) eqn:E; [|done].
    apply (strips_app _ _ _ _ (srev p)) in E. rewrite <- Hp in E. unfold t in E. by rewrite strip_strips in E. }
  rewrite Hs. unfold trim_by. fold q2 q3. rewrite srev_involutive. f_equal. apply strip_id, strip_strips.
Qed.

(** A string that starts with a character that is not white space and ends
    with an ASCII character that is not white space is its own trim. *)
Definition plain_char (a : ascii) : bool := (byte_of a <? 128)%Z && negb (ws1 a).

Lemma byte_of_range c : (0 <= byte_of c < 256)%Z.
Proof. unfold byte_of. pose proof (nat_ascii_bounded c). lia. Qed.

Ltac ws_bytes :=
  unfold plain_char, ws1, ws2, ws3 in *; bool_prop;
  repeat match goal with c : ascii |- _ => lazymatch goal with
    | _ : (0 <= byte_of c < 256)%Z |- _ => fail | _ => pose proof (byte_of_range c) end end;
  repeat match goal with
  | |- orb _ _ = false => apply orb_false_iff; split
  | |- andb _ _ = false => apply andb_false_iff
  | H : orb _ _ = true |- _ => apply orb_true_iff in H as [H|H]
  | H : andb _ _ = true |- _ => apply andb_true_iff in H as [? ?]
  | |- Z.eqb _ _ = false => apply Z.eqb_neq
  end; bool_prop; try lia.

Lemma ws_second a c e : plain_char a = true -> ws2 c a = false /\ ws3 c a e = false.
Proof. intros H. split; apply not_true_iff_false; intros E; ws_bytes. Qed.

Lemma ws_third a c d : plain_char a = true -> ws3 c d a = false.
Proof. intros H. apply not_true_iff_false. intros E. ws_bytes. Qed.

Lemma strips_app_plain s a t :
  strips ws1 ws2 ws3 s = false -> plain_char a = true ->
  strips ws1 ws2 ws3 (s +:+ String a t) = false.
Proof.
  intros Hs Ha. pose proof Ha as Hp. unfold plain_char in Hp. apply andb_true_iff in Hp as [Hlt Hw].
  apply negb_true_iff in Hw. destruct s as [|c [|d [|e s]]]; simpl in *.
  - rewrite Hw. destruct t as [|b [|b' t]]; simpl; [done| |].
    + rewrite orb_false_r. apply not_true_iff_false. intros E. ws_bytes.
    + apply orb_false_iff; split; apply not_true_iff_false; intros E; ws_bytes.
  - rewrite orb_false_r in Hs. rewrite Hs. simpl. destruct (ws_second a c (default a (match t with String b _ => Some b | _ => None end)) Ha) as [-> H2].
    by destruct t.
  - rewrite orb_false_r in Hs. apply orb_false_iff in Hs as [-> ->]. apply (ws_third a c d Ha).
  - done.
Qed.

Lemma trimEnd_plain s a : plain_char a = true -> trimEnd (s +:+ String a "") = s +:+ String a "".
Proof.
  intros Ha. unfold trimEnd. rewrite strip_id; [apply srev_involutive|]. rewrite srev_app. simpl.
  pose proof Ha as Hp. unfold plain_char in Hp. apply andb_true_iff in Hp as [_ Hw].
  apply negb_true_iff in Hw. rewrite Hw. simpl.
  destruct (srev s) as [|c r]; [done|]. destruct (ws_second a c a Ha) as [-> _]. simpl.
  destruct r as [|e r]; [done|]. by apply ws_third.
Qed.

Lemma trim_plain s t a :
  strips ws1 ws2 ws3 s = false -> s = t +:+ String a "" -> plain_char a = true -> trim s = s.
Proof. intros Hs E Ha. unfold trim. rewrite trimStart_id by done. subst s. by apply trimEnd_plain. Qed.

(** White space of one byte around a string does not survive [trim]. *)
Lemma trim_ws_l a s : ws1 a = true -> trim (String a s) = trim s.
Proof. intros Ha. unfold trim, trimStart. cbn [strip]. by rewrite Ha. Qed.

Lemma ws1_after a c d : ws1 a = true -> ws2 c a = false /\ ws3 c a d = false /\ ws3 c d a = false.
Proof. intros H. repeat split; apply not_true_iff_false; intros E; ws_bytes. Qed.

Lemma trimStart_ws_r s a : ws1 a = true ->
  trimStart (s +:+ String a "") = if trimStart s =s "" then "" else trimStart s +:+ String a "".
Proof.
  intros Ha. unfold trimStart. induction s as [s IH] using string_len_ind. destruct s as [|c s1]; [cbn; by rewrite Ha|]. cbn [strip String.append].
  destruct (ws1 c); [apply IH; simpl; lia|]. destruct s1 as [|d s2]; cbn [String.append].
  - destruct (ws1_after a c c Ha) as (-> & _ & _). done.
  - destruct (ws2 c d); [apply IH; simpl; lia|]. destruct s2 as [|e s3]; cbn [String.append].
    + destruct (ws1_after a c d Ha) as (_ & _ & ->). done.
    + destruct (ws3 c d e); [apply IH; simpl; lia|done].
Qed.

Lemma trim_ws_r s a : ws1 a = true -> trim (s +:+ String a "") = trim s.
Proof.
  intros Ha. unfold trim. rewrite trimStart_ws_r by done. destruct (trimStart s =s "") eqn:E; [by apply String.eqb_eq in E as ->|].
  unfold trimEnd. rewrite srev_app. cbn [srev String.append strip]. by rewrite Ha.
Qed.

(** A string without its first [pre] and its last [post] characters. *)
Definition inner (pre post : nat) (s : string) : string := slice_to (String.length s - pre - post) (slice_from pre s).
Lemma inner_app pre post s : inner (String.length pre) (String.length post) (pre +:+ (s +:+ post)) = s.
Proof.
  unfold inner. rewrite slice_from_app, !sapp_length.
  replace (String.length pre + (String.length s + String.length post) - String.length pre - String.length post)%nat with (String.length s) by lia.
  apply slice_to_app.
Qed.

Lemma replace_char_app c r s t : replace_char c r (s +:+ t) = replace_char c r s +:+ replace_char c r t.
Proof. induction s as [|a s IH]; [done|]. cbn. destruct (Ascii.eqb c a); rewrite IH; [by rewrite sapp_assoc|done]. Qed.

Lemma app_cases s t w u : s +:+ t = w +:+ u ->
  (exists x, s = w +:+ x /\ u = x +:+ t) \/ (exists x, w = s +:+ x /\ t = x +:+ u).
Proof.
  revert w. induction s as [|a s IH]; intros w H; [right; by exists w|]. destruct w as [|b w]; [left; exists (String a s); by cbn in *|].
  cbn in H. injection H as -> H. destruct (IH w H) as [(x & -> & ->)|(x & -> & ->)]; [left|right]; by exists x.
Qed.

Lemma split_app_no_char c n s : no_char c n = true ->
  split c (n +:+ s) = match split c s with x :: xs => (n +:+ x) :: xs | [] => [] end.
Proof.
  induction n as [|a n IH]; cbn [no_char String.append split]; [by destruct (split c s)|]. intros [Ha Hn]%andb_true_iff.
  apply negb_true_iff in Ha. rewrite Ha, IH by done. pose proof (split_not_nil c s). by destruct (split c s).
Qed.

Lemma split_clean c s : Forall (fun p => no_char c p = true) (split c s).
Proof.
  induction s as [|a s IH]; [by repeat constructor|]. cbn [split]. destruct (Ascii.eqb c a) eqn:E; [by constructor|].
  destruct (split c s) as [|x xs]; [constructor; [cbn; by rewrite E|done]|]. apply Forall_cons in IH as [Hx Hxs]. constructor; [|done].
  cbn. by rewrite E, Hx.
Qed.

Lemma trim_no_char c t : no_char c t = true -> no_char c (trim t) = true.
Proof.
  intros Hn. unfold trim. destruct (strip_suffix ws1 ws2 ws3 t) as [p Hp]. rewrite Hp, no_char_app in Hn. apply andb_true_iff in Hn as [_ Hn].
  fold (trimStart t) in Hn. destruct (trimEnd_prefix (trimStart t)) as [q Hq]. rewrite Hq, no_char_app in Hn. by apply andb_true_iff in Hn as [? _].
Qed.

(** Two parts joined by a NUL that the first does not hold. *)
Lemma nul_key_inj a b a' b' :
  no_char "000" a = true -> no_char "000" a' = true ->
  a +:+ String "000" b = a' +:+ String "000" b' -> a = a' /\ b = b'.
Proof.
  intros Ha Ha' E. pose proof (f_equal (index_of "000") E) as Ei. rewrite !index_of_app in Ei by done. injection Ei as Ei.
  pose proof (f_equal (slice_to (String.length a)) E) as E1. rewrite slice_to_app, Ei, slice_to_app in E1. subst a'.
  split; [done|]. apply sapp_inj_l in E. by injection E.
Qed.

(** [s.repeat(n)] *)
Fixpoint str_repeat (n : nat) (s : string) : string := match n with O => "" | S n => s +:+ str_repeat n s end.

(** The last character of a string that is not empty. *)
Lemma string_snoc s : s <> "" -> exists t a, s = t +:+ String a "".
Proof.
  intros H. destruct (srev s) as [|a t] eqn:E.
  - apply (f_equal srev) in E. by rewrite srev_involutive in E.
  - exists (srev t), a. apply (f_equal srev) in E. by rewrite srev_involutive in E.
Qed.

Lemma endsWith_app_ne s t c :
  t <> "" -> endsWith (s +:+ t) (String c "") = endsWith t (String c "").
Proof.
  intros Ht. apply eq_true_iff_eq. rewrite !endsWith_spec. split.
  - intros [a Ha]. destruct (string_snoc t Ht) as (u & d & ->). exists u.
    rewrite sapp_assoc in Ha. apply (f_equal srev) in Ha. rewrite !srev_app in Ha. simpl in Ha.
    by injection Ha as -> _.
  - intros [a ->]. exists (s +:+ a). by rewrite sapp_assoc.
Qed.

(** ** Lengths in UTF-16 code units

    [s.length], and [s.slice(0, n)] of a string that does not cut a character
    in half; a half that a cut would leave is dropped here. *)
Definition utf16_units (c : ascii) : nat :=
  let n := byte_of c in
  if ((128 <=? n) && (n <? 192))%Z then 0 else if (240 <=? n)%Z then 2 else 1.

Fixpoint utf16_length (s : string) : nat :=
  match s with "" => 0 | String c s' => utf16_units c + utf16_length s' end.

Fixpoint utf16_slice_to (n : nat) (s : string) : string :=
  match s with
  | "" => ""
  | String c s' => if (utf16_units c <=? n)%nat then String c (utf16_slice_to (n - utf16_units c) s') else ""
  end.

Lemma utf16_slice_to_all n s : (utf16_length s <= n)%nat -> utf16_slice_to n s = s.
Proof.
  revert n. induction s as [|c s IH]; intros n H; [done|]. cbn [utf16_length utf16_slice_to] in *.
  destruct (Nat.leb_spec (utf16_units c) n); [|lia]. f_equal. apply IH. lia.
Qed.
