(* ===== verification/JsUri.v ===== *)
(** * Percent-encoding and query strings

    [encodeURIComponent], [decodeURIComponent] of ECMAScript on the UTF-8
    bytes of a string, and [URLSearchParams] of the WHATWG URL standard: an
    ordered list of name-value pairs with its form-urlencoded printer and
    parser. *)

From S2P Require Import Prelude JsString.
From Stdlib Require Import DecimalString.

Local Open Scope char_scope.
Local Open Scope string_scope.
Local Open Scope list_scope.

(** ** Characters *)

Definition in_range (lo hi : Z) (c : ascii) : bool := ((lo <=? byte_of c) && (byte_of c <=? hi))%Z.
Definition is_digit : ascii -> bool := in_range 48 57.
Definition is_upper : ascii -> bool := in_range 65 90.
Definition is_lower : ascii -> bool := in_range 97 122.
Definition is_alnum (c : ascii) : bool := is_digit c || is_upper c || is_lower c.

Definition char_in (s : string) (c : ascii) : bool := negb (no_char c s).

(** The characters [encodeURIComponent] leaves alone. *)
Definition uri_unreserved (c : ascii) : bool := is_alnum c || char_in "-_.!~*'()" c.
(** The characters the form-urlencoded printer leaves alone. *)
Definition form_unreserved (c : ascii) : bool := is_alnum c || char_in "*-._" c.

(** ** Percent-encoding of bytes *)

Definition hex_digit (n : Z) : ascii :=
  ascii_of_nat (Z.to_nat (if n <? 10 then 48 + n else 55 + n)%Z).
Definition hex_value (c : ascii) : option Z :=
  let n := byte_of c in
  if is_digit c then Some (n - 48)%Z
  else if in_range 65 70 c then Some (n - 55)%Z
  else if in_range 97 102 c then Some (n - 87)%Z
  else None.
Definition byte_of_hex (a b : ascii) : option ascii :=
  match hex_value a, hex_value b with
  | Some h, Some l => Some (ascii_of_nat (Z.to_nat (h * 16 + l)%Z))
  | _, _ => None
  end.
Definition pct (c : ascii) : string :=
  String "%" (String (hex_digit (byte_of c / 16)%Z) (String (hex_digit (byte_of c mod 16)%Z) "")).

Section pct.
Context (keep : ascii -> bool).

Fixpoint pct_encode (s : string) : string :=
  match s with
  | "" => ""
  | String c s' => (if keep c then String c "" else pct c) +:+ pct_encode s'
  end.
End pct.

(** Decoding that fails on a malformed escape. *)
Fixpoint pct_decode (s : string) : option string :=
  match s with
  | "" => Some ""
  | String c s1 =>
      if Ascii.eqb c "%" then
        match s1 with
        | String a (String b s3) =>
            match byte_of_hex a b with
            | Some d => String d <$> pct_decode s3
            | None => None
            end
        | _ => None
        end
      else String c <$> pct_decode s1
  end.

(** Decoding that keeps a malformed escape as it is. *)
Fixpoint pct_decode_lenient (s : string) : string :=
  match s with
  | "" => ""
  | String c s1 =>
      if Ascii.eqb c "%" then
        match s1 with
        | String a (String b s3) =>
            match byte_of_hex a b with
            | Some d => String d (pct_decode_lenient s3)
            | None => String c (pct_decode_lenient s1)
            end
        | _ => String c (pct_decode_lenient s1)
        end
      else String c (pct_decode_lenient s1)
  end.

(** ** UTF-8

    The well-formed byte sequences of Unicode (no overlong form, no
    surrogate, nothing above U+10FFFF). *)
Definition is_cont : ascii -> bool := in_range 128 191.

Definition utf8_three (c d : ascii) : bool :=
  (in_range 224 224 c && in_range 160 191 d) || (in_range 225 236 c && is_cont d)
  || (in_range 237 237 c && in_range 128 159 d) || (in_range 238 239 c && is_cont d).
Definition utf8_four (c d : ascii) : bool :=
  (in_range 240 240 c && in_range 144 191 d) || (in_range 241 243 c && is_cont d)
  || (in_range 244 244 c && in_range 128 143 d).

Fixpoint utf8_valid (s : string) : bool :=
  match s with
  | "" => true
  | String c s1 =>
      if in_range 0 127 c then utf8_valid s1
      else match s1 with
           | "" => false
           | String d s2 =>
               if in_range 194 223 c && is_cont d then utf8_valid s2
               else match s2 with
                    | "" => false
                    | String e s3 =>
                        if utf8_three c d && is_cont e then utf8_valid s3
                        else match s3 with
                             | "" => false
                             | String f s4 =>
                                 if utf8_four c d && is_cont e && is_cont f then utf8_valid s4 else false
                             end
                    end
           end
  end.

(** ** The functions of the language *)

Definition encodeURIComponent (s : string) : string := pct_encode uri_unreserved s.

(** [None] is the [URIError] thrown on a malformed escape or on escapes that
    do not spell UTF-8. *)
Definition decodeURIComponent (s : string) : option string :=
  match pct_decode s with
  | Some t => if utf8_valid t then Some t else None
  | None => None
  end.

(** ** URLSearchParams *)

Definition params : Type := list (string * string).

Definition usp_get (ps : params) (k : string) : option string :=
  snd <$> List.find (fun p => fst p =s k) ps.
Definition usp_getAll (ps : params) (k : string) : list string :=
  snd <$> List.filter (fun p => fst p =s k) ps.
Definition usp_delete (k : string) (ps : params) : params :=
  List.filter (fun p => negb (fst p =s k)) ps.
Definition usp_append (k v : string) (ps : params) : params := ps ++ [(k, v)].

(** [set] replaces the first pair of that name, drops the others, and
    appends when there is none. *)
Fixpoint usp_set (k v : string) (ps : params) : params :=
  match ps with
  | [] => [(k, v)]
  | p :: ps => if fst p =s k then (k, v) :: usp_delete k ps else p :: usp_set k v ps
  end.

Definition form_encode (s : string) : string :=
  replace_char " " "+" (pct_encode (fun c => form_unreserved c || Ascii.eqb c " ") s).
Definition form_decode (s : string) : string := pct_decode_lenient (replace_char "+" " " s).

Definition usp_toString (ps : params) : string :=
  join "&" ((fun p => tpl [form_encode (fst p); "="; form_encode (snd p)]) <$> ps).

(** One piece of a query: what is before the first [=], and what is after. *)
Definition usp_pair (piece : string) : string * string :=
  match index_of "=" piece with
  | Some i => (form_decode (slice_to i piece), form_decode (slice_from (S i) piece))
  | None => (form_decode piece, "")
  end.

(** [new URLSearchParams(search)].  Escapes that do not spell UTF-8 keep
    their bytes here, where a browser puts U+FFFD. *)
Definition drop_qmark (s : string) : string :=
  match s with String c t => if Ascii.eqb "?" c then t else s | "" => "" end.
Definition usp_parse (search : string) : params :=
  usp_pair <$> List.filter truthy (split "&" (drop_qmark search)).

(** ** Lemmas *)

(** A property of all characters, decided by evaluation. *)
Definition all_ascii : list ascii := ascii_of_nat <$> seq 0 256.

Lemma ascii_all (f : ascii -> bool) : forallb f all_ascii = true -> forall c, f c = true.
Proof.
  intros H c. rewrite List.forallb_forall in H. apply H. apply list_elem_of_In.
  rewrite <- (ascii_nat_embedding c). apply list_elem_of_fmap_2. apply elem_of_seq.
  pose proof (nat_ascii_bounded c). lia.
Qed.

Lemma byte_of_hex_pct c :
  byte_of_hex (hex_digit (byte_of c / 16)) (hex_digit (byte_of c mod 16)) = Some c.
Proof.
  pose proof (ascii_all (fun c => match byte_of_hex (hex_digit (byte_of c / 16))
    (hex_digit (byte_of c mod 16)) with Some d => Ascii.eqb d c | None => false end)) as H.
  cbv beta in H. specialize (H ltac:(by_compute) c).
  destruct (byte_of_hex _ _) as [d|]; [|discriminate]. bool_prop. by subst.
Qed.

Section pct_lemmas.
Context (keep : ascii -> bool).
Hypothesis keep_pct : keep "%" = false.

Lemma pct_decode_encode s : pct_decode (pct_encode keep s) = Some s.
Proof using keep_pct.
  induction s as [|c s IH]; [done|]. cbn [pct_encode].
  destruct (keep c) eqn:E; cbn -[byte_of_hex hex_digit byte_of].
  - destruct (Ascii.eqb c "%") eqn:Ec; [bool_prop; congruence|]. by rewrite IH.
  - by rewrite byte_of_hex_pct, IH.
Qed.

Lemma pct_decode_lenient_encode s : pct_decode_lenient (pct_encode keep s) = s.
Proof using keep_pct.
  induction s as [|c s IH]; [done|]. cbn [pct_encode].
  destruct (keep c) eqn:E; cbn -[byte_of_hex hex_digit byte_of].
  - destruct (Ascii.eqb c "%") eqn:Ec; [bool_prop; congruence|]. by rewrite IH.
  - by rewrite byte_of_hex_pct, IH.
Qed.

(** A character that is neither kept nor part of an escape never occurs
    in an encoded string. *)
Lemma pct_encode_no_char d s :
  keep d = false -> is_alnum d = false -> d <> "%"%char -> no_char d (pct_encode keep s) = true.
Proof using keep_pct.
  intros Hk Ha Hp. induction s as [|c s IH]; [done|]. cbn [pct_encode].
  rewrite no_char_app, IH, andb_true_r. destruct (keep c) eqn:E.
  - simpl. destruct (Ascii.eqb d c) eqn:Ed; [bool_prop; congruence|done].
  - assert (Hx : forall n, (0 <= n < 16)%Z -> Ascii.eqb d (hex_digit n) = false).
    { intros n Hn. destruct (Ascii.eqb d (hex_digit n)) eqn:Ed; [|done]. bool_prop. subst d.
      exfalso. revert Ha. destruct (Z_of_nat_complete n ltac:(lia)) as [k ->].
      assert (Hk16 : (k < 16)%nat) by lia. clear Hn.
      do 16 (destruct k as [|k]; [by vm_compute|]). lia. }
    assert (Hb : (0 <= byte_of c < 256)%Z).
    { unfold byte_of. pose proof (nat_ascii_bounded c). lia. }
    cbn [pct no_char]. rewrite !Hx.
    + destruct (Ascii.eqb d "%") eqn:Ed; [bool_prop; congruence|done].
    + apply Z.mod_pos_bound. lia.
    + split; [apply Z.div_pos; lia | apply Z.div_lt_upper_bound; lia].
Qed.
End pct_lemmas.

(** Decoding undoes encoding on every string that is well-formed UTF-8. *)
Lemma decode_encode_uri s :
  utf8_valid s = true -> decodeURIComponent (encodeURIComponent s) = Some s.
Proof.
  intros H. unfold decodeURIComponent, encodeURIComponent.
  rewrite pct_decode_encode by by_compute. by rewrite H.
Qed.

(** The characters an encoded component is made of. *)
Lemma encode_uri_no_char d s :
  uri_unreserved d = false -> d <> "%"%char -> no_char d (encodeURIComponent s) = true.
Proof.
  intros Hd Hp. apply pct_encode_no_char; [by_compute|done| |done].
  unfold uri_unreserved in Hd. by apply orb_false_iff in Hd as [? _].
Qed.

Lemma encode_uri_inj s t : encodeURIComponent s = encodeURIComponent t -> s = t.
Proof.
  intros H. apply (f_equal pct_decode) in H. unfold encodeURIComponent in H.
  rewrite !pct_decode_encode in H by by_compute. congruence.
Qed.

Lemma replace_char_inv c d s :
  no_char d s = true -> replace_char d (String c "") (replace_char c (String d "") s) = s.
Proof.
  induction s as [|e s IH]; simpl; [done|]. intros H. apply andb_true_iff in H as [H1 H2].
  apply negb_true_iff in H1.
  destruct (Ascii.eqb c e) eqn:E; simpl.
  - rewrite Ascii.eqb_refl. simpl. rewrite IH by done. bool_prop. by subst.
  - rewrite H1. by rewrite IH.
Qed.

Lemma replace_no_char a c r s :
  no_char a s = true -> no_char a r = true -> no_char a (replace_char c r s) = true.
Proof.
  intros H Hr. induction s as [|e s IH]; simpl in *; [done|].
  apply andb_true_iff in H as [H1 H2].
  destruct (Ascii.eqb c e); simpl; [by rewrite no_char_app, Hr, IH | by rewrite H1, IH].
Qed.

Lemma form_decode_encode s : form_decode (form_encode s) = s.
Proof.
  unfold form_decode, form_encode. rewrite replace_char_inv.
  - apply pct_decode_lenient_encode. by_compute.
  - by apply pct_encode_no_char.
Qed.

Lemma form_encode_no_char d s :
  form_unreserved d = false -> d <> " "%char -> d <> "%"%char -> d <> "+"%char -> no_char d (form_encode s) = true.
Proof.
  intros Hf Hs Hp Hq. unfold form_encode. apply replace_no_char.
  - apply pct_encode_no_char; [by_compute| | |done].
    + rewrite Hf. by apply Ascii.eqb_neq.
    + unfold form_unreserved in Hf. by apply orb_false_iff in Hf as [? _].
  - simpl. rewrite andb_true_r. apply negb_true_iff. by apply Ascii.eqb_neq.
Qed.

Lemma usp_pair_print p : usp_pair (tpl [form_encode (fst p); "="; form_encode (snd p)]) = p.
Proof.
  destruct p as [k v]. unfold usp_pair. cbn [tpl fst snd]. rewrite sapp_nil_r.
  change (form_encode k +:+ ("=" +:+ form_encode v))
    with (form_encode k +:+ String "=" (form_encode v)).
  rewrite index_of_app by by apply form_encode_no_char.
  by rewrite slice_to_app, slice_from_cut, !form_decode_encode.
Qed.

Lemma usp_pieces_no_char d (ps : params) :
  form_unreserved d = false -> d <> " "%char -> d <> "%"%char -> d <> "+"%char -> d <> "="%char ->
  Forall (fun s => no_char d s = true)
    ((fun p => tpl [form_encode (fst p); "="; form_encode (snd p)]) <$> ps).
Proof.
  intros Hf H1 H2 H3 H4. apply Forall_fmap, Forall_true. intros [k v]. cbn [tpl fst snd compose].
  unfold compose. cbn [tpl fst snd]. rewrite !no_char_app.
  rewrite !form_encode_no_char by done. simpl.
  destruct (Ascii.eqb d "=") eqn:E; [bool_prop; congruence|done].
Qed.

(** Parsing a printed list of parameters gives the list back. *)
Lemma usp_parse_toString (ps : params) : usp_parse (usp_toString ps) = ps.
Proof.
  unfold usp_parse.
  assert (Hq : drop_qmark (usp_toString ps) = usp_toString ps).
  { assert (Hn : no_char "?" (usp_toString ps) = true).
    { apply no_char_join; [done|]. by apply usp_pieces_no_char. }
    unfold drop_qmark. destruct (usp_toString ps) as [|c s]; [done|]. cbn [no_char] in Hn.
    by destruct (Ascii.eqb "?" c). }
  rewrite Hq. unfold usp_toString. destruct ps as [|p ps]; [done|].
  rewrite split_join by (done || by apply usp_pieces_no_char).
  rewrite filterb_all.
  - rewrite <- list_fmap_compose. rewrite <- (list_fmap_id (p :: ps)) at 2.
    apply list_fmap_ext. intros i x _. apply usp_pair_print.
  - intros x Hx. apply list_elem_of_fmap in Hx as ([k v] & -> & _). cbn [tpl fst snd].
    destruct (form_encode k); reflexivity.
Qed.

Lemma usp_get_set k v ps : usp_get (usp_set k v ps) k = Some v.
Proof.
  unfold usp_get. induction ps as [|p ps IH]; simpl; [by rewrite String.eqb_refl|].
  destruct (fst p =s k) eqn:E; simpl; [by rewrite String.eqb_refl|]. by rewrite E.
Qed.

Lemma usp_get_delete_ne k k' ps : k <> k' -> usp_get (usp_delete k ps) k' = usp_get ps k'.
Proof.
  intros Hne. unfold usp_get, usp_delete. induction ps as [|p ps IH]; simpl; [done|].
  destruct (fst p =s k) eqn:E; simpl.
  - bool_prop. destruct (fst p =s k') eqn:E'; [bool_prop; congruence|]. done.
  - destruct (fst p =s k'); done.
Qed.

Lemma usp_get_set_ne k k' v ps : k <> k' -> usp_get (usp_set k v ps) k' = usp_get ps k'.
Proof.
  intros Hne. induction ps as [|p ps IH]; simpl.
  - unfold usp_get; simpl. by apply String.eqb_neq in Hne as ->.
  - destruct (fst p =s k) eqn:E.
    + pose proof (usp_get_delete_ne k k' ps Hne) as Hd. unfold usp_get in *; simpl.
      bool_prop. rewrite E. apply String.eqb_neq in Hne as Hk. by rewrite Hk.
    + unfold usp_get in *; simpl. by destruct (fst p =s k').
Qed.

Lemma usp_get_delete k ps : usp_get (usp_delete k ps) k = None.
Proof.
  unfold usp_get, usp_delete. induction ps as [|p ps IH]; simpl; [done|].
  destruct (fst p =s k) eqn:E; simpl; [done|]. by rewrite E.
Qed.

#[export] Hint Rewrite usp_get_set usp_get_delete : slu.

(** Every character of an encoded component is printable ASCII. *)
Lemma encode_uri_last s t a : encodeURIComponent s = t +:+ String a "" -> plain_char a = true.
Proof.
  intros H. destruct (plain_char a) eqn:E; [done|].
  assert (Hn : no_char a (encodeURIComponent s) = true).
  { pose proof (ascii_all (fun c => plain_char c || (negb (uri_unreserved c) && negb (Ascii.eqb c "%")))
      ltac:(by_compute) a) as Ha. cbv beta in Ha. rewrite E in Ha. cbn [orb] in Ha.
    apply andb_true_iff in Ha as [Hu Hp]. bool_prop. by apply encode_uri_no_char. }
  rewrite H, no_char_app in Hn. simpl in Hn. rewrite Ascii.eqb_refl in Hn. simpl in Hn.
  by rewrite andb_false_r in Hn.
Qed.

Lemma usp_get_fold {A} (f : params -> A -> params) k ps l :
  (forall ps x, usp_get (f ps x) k = usp_get ps k) -> usp_get (foldl f ps l) k = usp_get ps k.
Proof. intros H. revert ps. induction l as [|x l IH]; intros ps; simpl; [done|]. by rewrite IH, H. Qed.

(** ** Strings over an alphabet *)

Fixpoint all_chars (p : ascii -> bool) (s : string) : bool :=
  match s with "" => true | String c s' => p c && all_chars p s' end.

Lemma all_chars_app p s t : all_chars p (s +:+ t) = all_chars p s && all_chars p t.
Proof. induction s as [|c s IH]; simpl; [done|]. by rewrite IH, andb_assoc. Qed.

Lemma all_chars_srev p s : all_chars p (srev s) = all_chars p s.
Proof.
  induction s as [|c s IH]; simpl; [done|]. rewrite all_chars_app, IH. simpl.
  by rewrite andb_true_r, andb_comm.
Qed.

Lemma all_chars_impl (p q : ascii -> bool) s :
  (forall c, p c = true -> q c = true) -> all_chars p s = true -> all_chars q s = true.
Proof.
  intros H. induction s as [|c s IH]; simpl; [done|]. intros [? ?]%andb_true_iff.
  apply andb_true_iff. auto.
Qed.

Lemma all_chars_no_char p c s : all_chars p s = true -> p c = false -> no_char c s = true.
Proof.
  intros H Hc. induction s as [|d s IH]; [done|]. simpl in *. apply andb_true_iff in H as [Hd H].
  rewrite IH by done. rewrite andb_true_r. apply negb_true_iff, Ascii.eqb_neq. intros ->. congruence.
Qed.

(** An integer prints as digits, after a minus sign if it is negative. *)
Lemma uint_digits u : all_chars is_digit (NilEmpty.string_of_uint u) = true.
Proof. induction u; simpl; done. Qed.

Lemma show_Z_chars n : all_chars (fun c => is_digit c || Ascii.eqb "-" c) (show_Z n) = true.
Proof.
  assert (H : forall u, all_chars (fun c => is_digit c || Ascii.eqb "-" c) (NilZero.string_of_uint u) = true).
  { intros u. assert (Hu := uint_digits u). destruct u; try done;
      (eapply all_chars_impl; [|exact Hu]; intros c ->; done). }
  unfold show_Z, NilZero.string_of_int. destruct (Z.to_int n); [apply H|]. simpl. apply H.
Qed.

Lemma replace_char_none c r s : no_char c s = true -> replace_char c r s = s.
Proof.
  induction s as [|d s IH]; [done|]. cbn [no_char replace_char]. intros [H1 H2]%andb_true_iff.
  apply negb_true_iff in H1. rewrite H1. by rewrite IH.
Qed.

(** A component encoded with [encodeURIComponent] reads back through
    [URLSearchParams]. *)
Lemma form_decode_encode_uri s : form_decode (encodeURIComponent s) = s.
Proof.
  unfold form_decode. rewrite replace_char_none by by apply encode_uri_no_char.
  apply pct_decode_lenient_encode. by_compute.
Qed.
