(* ===== verification/JsArray.v ===== *)
(** * JavaScript arrays, sorting, insertion-ordered maps

    [Array.prototype.sort] with a comparison function is a stable sort; the
    result is determined by the comparator when it is a total preorder, which
    the class [Comparator] states.  [Map] and [Set] of JavaScript iterate in
    insertion order, so a map is an association list that [omap_set] extends
    at the end or updates in place. *)

From S2P Require Import Prelude.
From Stdlib Require Export Sorting.Sorted.

Local Open Scope Z_scope.

(** ** Comparators *)

(** A comparison function: negative, zero or positive. *)
Class Comparator {A} (cmp : A -> A -> Z) : Prop := {
  cmp_refl x : cmp x x = 0;
  cmp_flip x y : 0 < cmp x y <-> cmp y x < 0;
  cmp_trans x y z : cmp x y <= 0 -> cmp y z <= 0 -> cmp x z <= 0
}.

(** [(a, b) => f(a) - f(b)] *)
Definition cmp_by {A} (f : A -> Z) (a b : A) : Z := f a - f b.
(** [(a, b) => f(b) - f(a)] *)
Definition cmp_desc {A} (f : A -> Z) (a b : A) : Z := f b - f a.
(** [c(a, b) || d(a, b)] *)
Definition cmp_or {A} (c d : A -> A -> Z) (a b : A) : Z := if c a b =? 0 then d a b else c a b.
(** A comparator on a projection. *)
Definition cmp_on {A B} (f : A -> B) (c : B -> B -> Z) (a b : A) : Z := c (f a) (f b).

#[export] Instance cmp_by_comparator {A} (f : A -> Z) : Comparator (cmp_by f).
Proof. unfold cmp_by. split; lia. Qed.
#[export] Instance cmp_desc_comparator {A} (f : A -> Z) : Comparator (cmp_desc f).
Proof. unfold cmp_desc. split; lia. Qed.
#[export] Instance cmp_on_comparator {A B} (f : A -> B) c `{!Comparator c} : Comparator (cmp_on f c).
Proof.
  unfold cmp_on. split; intros; [apply cmp_refl | apply cmp_flip | by eapply cmp_trans].
Qed.
#[export] Instance cmp_or_comparator {A} (c d : A -> A -> Z) `{!Comparator c, !Comparator d} :
  Comparator (cmp_or c d).
Proof.
  unfold cmp_or. split.
  - intros x. rewrite cmp_refl. simpl. apply cmp_refl.
  - intros x y. pose proof (cmp_flip (cmp := c) x y). pose proof (cmp_flip (cmp := c) y x).
    pose proof (cmp_flip (cmp := d) x y).
    destruct (Z.eqb_spec (c x y) 0), (Z.eqb_spec (c y x) 0); lia.
  - intros x y z Hxy Hyz. pose proof (cmp_trans (cmp := c) x y z) as Hc.
    pose proof (cmp_trans (cmp := c) z y x) as Hc'. pose proof (cmp_trans (cmp := d) x y z).
    pose proof (cmp_trans (cmp := c) y z x) as Hc1. pose proof (cmp_trans (cmp := c) z x y) as Hc2.
    pose proof (cmp_flip (cmp := c) x y). pose proof (cmp_flip (cmp := c) y x).
    pose proof (cmp_flip (cmp := c) z y). pose proof (cmp_flip (cmp := c) y z).
    pose proof (cmp_flip (cmp := c) z x). pose proof (cmp_flip (cmp := c) x z).
    destruct (Z.eqb_spec (c x y) 0), (Z.eqb_spec (c y z) 0), (Z.eqb_spec (c x z) 0); lia.
Qed.

(** ** Stable sort *)

Section sort.
Context {A : Type} (cmp : A -> A -> Z).

Fixpoint insert_by (x : A) (l : list A) : list A :=
  match l with
  | [] => [x]
  | y :: l' => if cmp x y <=? 0 then x :: l else y :: insert_by x l'
  end.

Fixpoint sort (l : list A) : list A :=
  match l with [] => [] | x :: l => insert_by x (sort l) end.

Definition cmp_le (x y : A) : Prop := cmp x y <= 0.

Lemma insert_by_perm x l : insert_by x l ≡ₚ x :: l.
Proof.
  induction l as [|y l IH]; simpl; [done|].
  destruct (cmp x y <=? 0); [done|]. rewrite IH. by apply Permutation_swap.
Qed.

Lemma sort_perm l : sort l ≡ₚ l.
Proof. induction l as [|x l IH]; simpl; [done|]. by rewrite insert_by_perm, IH. Qed.

Lemma sort_elem x l : x ∈ sort l <-> x ∈ l.
Proof. by rewrite sort_perm. Qed.

Lemma sort_length l : length (sort l) = length l.
Proof. apply Permutation_length, sort_perm. Qed.

(** Elements a test groups together keep their order when they compare
    equal: the sort is stable. *)
Lemma sort_stable p l :
  (forall x y, x ∈ l -> y ∈ l -> p x = true -> p y = true -> cmp x y = 0) ->
  List.filter p (sort l) = List.filter p l.
Proof.
  induction l as [|x l IH]; simpl; intros H; [done|].
  assert (Hl : forall y, y ∈ sort l -> p x = true -> p y = true -> cmp x y = 0).
  { intros y Hy. apply (proj1 (sort_elem _ _)) in Hy. apply H; in_cons. }
  rewrite <- IH by (intros; apply H; solve [in_cons | done]). clear IH H.
  induction (sort l) as [|y m IHm]; simpl; [done|].
  destruct (Z.leb_spec (cmp x y) 0) as [Hle|Hgt]; simpl; [done|].
  rewrite IHm by (intros; apply Hl; solve [in_cons | done]).
  destruct (p x) eqn:Ex; [|done]. destruct (p y) eqn:Ey; [|done].
  rewrite (Hl y) in Hgt by solve [in_cons | done]. lia.
Qed.

Context `{!Comparator cmp}.

Lemma insert_by_sorted x l : StronglySorted cmp_le l -> StronglySorted cmp_le (insert_by x l).
Proof.
  induction l as [|y l IH]; simpl; intros Hs; [by repeat constructor|].
  inversion Hs as [|? ? Hl Hy]; subst.
  destruct (Z.leb_spec (cmp x y) 0) as [Hle|Hgt].
  - constructor; [done|]. constructor; [done|].
    eapply Forall_impl; [exact Hy|]. intros z Hz. by eapply cmp_trans.
  - constructor; [by apply IH|]. rewrite insert_by_perm. constructor; [|done].
    apply cmp_flip in Hgt. unfold cmp_le. lia.
Qed.

Lemma sort_sorted l : StronglySorted cmp_le (sort l).
Proof. induction l as [|x l IH]; simpl; [constructor | by apply insert_by_sorted]. Qed.

Lemma sort_id l : StronglySorted cmp_le l -> sort l = l.
Proof.
  induction 1 as [|x l Hl IH Hx]; simpl; [done|]. rewrite IH.
  destruct l as [|y l]; simpl; [done|]. inversion Hx; subst.
  unfold cmp_le in *. destruct (Z.leb_spec (cmp x y) 0); [done|lia].
Qed.

(** The first element of a sorted list is a least one. *)
Lemma sort_head_least l x m : sort l = x :: m -> x ∈ l /\ forall y, y ∈ l -> cmp x y <= 0.
Proof.
  intros H. assert (Hin : forall y, y ∈ l <-> y ∈ x :: m) by (intros; by rewrite <- H, sort_elem).
  split; [apply Hin; set_solver|]. intros y Hy. apply Hin in Hy.
  pose proof (sort_sorted l) as Hs. rewrite H in Hs. inversion Hs as [|? ? _ Hf]; subst.
  apply elem_of_cons in Hy as [->|Hy]; [rewrite cmp_refl; lia|].
  rewrite Forall_forall in Hf. by apply Hf.
Qed.

(** Two elements in strict order keep that order in the result. *)
Lemma sort_before l l1 l2 x y :
  sort l = l1 ++ x :: l2 -> y ∈ l2 -> cmp x y <= 0.
Proof.
  intros H Hy. pose proof (sort_sorted l) as Hs. rewrite H in Hs. clear H.
  induction l1 as [|z l1 IH]; inversion Hs as [|? ? Hs' Hf]; subst; [|by apply IH].
  rewrite Forall_forall in Hf. by apply Hf.
Qed.
End sort.

(** Sorting a list of projections sorts the list by the projection. *)
Lemma sort_fmap {A B} (f : A -> B) (c : B -> B -> Z) l : sort c (f <$> l) = f <$> sort (cmp_on f c) l.
Proof.
  assert (Hi : forall x l, insert_by c (f x) (f <$> l) = f <$> insert_by (cmp_on f c) x l).
  { intros x m. induction m as [|y m IH]; csimpl; [done|]. unfold cmp_on at 1.
    destruct (c (f x) (f y) <=? 0); csimpl; [done|]. by rewrite IH. }
  induction l as [|x l IH]; csimpl; [done|]. by rewrite IH, Hi.
Qed.

(** Comparators that agree on the elements sort them alike. *)
Lemma sort_ext_in {A} (c d : A -> A -> Z) l :
  (forall x y, x ∈ l -> y ∈ l -> c x y = d x y) -> sort c l = sort d l.
Proof.
  induction l as [|x l IH]; intros H; [done|]. simpl.
  rewrite IH by (intros; apply H; in_cons).
  assert (Hm : forall y, y ∈ sort d l -> c x y = d x y).
  { intros y Hy. apply (proj1 (sort_elem _ _ _)) in Hy. apply H; in_cons. }
  clear IH H. induction (sort d l) as [|y m IH]; simpl; [done|]. rewrite Hm by in_cons.
  rewrite IH; [done|]. intros z Hz. apply Hm. in_cons.
Qed.

(** ** Insertion-ordered maps *)

Section omap.
Context {K V : Type} `{!EqDecision K}.
Implicit Types (m : list (K * V)) (k : K) (v : V).

Fixpoint omap_get k m : option V :=
  match m with
  | [] => None
  | (k', v) :: m => if decide (k = k') then Some v else omap_get k m
  end.

Fixpoint omap_set k v m : list (K * V) :=
  match m with
  | [] => [(k, v)]
  | (k', v') :: m => if decide (k = k') then (k, v) :: m else (k', v') :: omap_set k v m
  end.

Definition omap_has k m : bool := match omap_get k m with Some _ => true | None => false end.
Definition omap_keys m : list K := m.*1.
Definition omap_values m : list V := m.*2.

(** [new Map(entries)]: later entries overwrite earlier ones. *)
Definition omap_of (l : list (K * V)) : list (K * V) :=
  foldl (fun m kv => omap_set kv.1 kv.2 m) [] l.

Lemma omap_get_set k k' v m :
  omap_get k' (omap_set k v m) = if decide (k' = k) then Some v else omap_get k' m.
Proof.
  induction m as [|[k1 v1] m IH]; simpl.
  - by repeat case_decide.
  - repeat (case_decide; simplify_eq; simpl; try done); rewrite ?IH; by case_decide.
Qed.

Lemma omap_get_elem k v m : omap_get k m = Some v -> (k, v) ∈ m.
Proof.
  induction m as [|[k1 v1] m IH]; simpl; [done|].
  case_decide; intros ?; simplify_eq; set_solver.
Qed.

Lemma omap_get_None k m : omap_get k m = None <-> k ∉ omap_keys m.
Proof.
  unfold omap_keys. induction m as [|[k1 v1] m IH]; simpl; [set_solver|].
  case_decide; set_solver.
Qed.

Lemma omap_elem_get k v m : NoDup (omap_keys m) -> (k, v) ∈ m -> omap_get k m = Some v.
Proof.
  unfold omap_keys. induction m as [|[k1 v1] m IH]; simpl; intros Hnd Hin; [set_solver|].
  apply NoDup_cons in Hnd as [Hk Hnd]. apply elem_of_cons in Hin as [?|Hin]; simplify_eq.
  - by rewrite decide_True.
  - case_decide; [|auto]. subst. destruct Hk. by apply (list_elem_of_fmap_2 fst) in Hin.
Qed.

Lemma omap_set_keys k v m :
  omap_keys (omap_set k v m) = if decide (k ∈ omap_keys m) then omap_keys m else omap_keys m ++ [k].
Proof.
  unfold omap_keys. induction m as [|[k1 v1] m IH]; csimpl; [done|].
  destruct (decide (k = k1)) as [->|E]; csimpl.
  - rewrite decide_True; [done|]. apply list_elem_of_here.
  - rewrite IH. destruct (decide (k ∈ m.*1)).
    + by rewrite decide_True by set_solver.
    + by rewrite decide_False by set_solver.
Qed.

Lemma omap_set_NoDup k v m : NoDup (omap_keys m) -> NoDup (omap_keys (omap_set k v m)).
Proof.
  intros H. rewrite omap_set_keys. case_decide as E; [done|].
  apply NoDup_app. split; [done|]. split; [set_solver|apply NoDup_singleton].
Qed.

Lemma omap_of_app l x : omap_of (l ++ [x]) = omap_set x.1 x.2 (omap_of l).
Proof. unfold omap_of. by rewrite foldl_app. Qed.

Lemma omap_of_NoDup l : NoDup (omap_keys (omap_of l)).
Proof.
  induction l as [|x l IH] using rev_ind; [constructor|].
  rewrite omap_of_app. by apply omap_set_NoDup.
Qed.

Lemma omap_of_id l : NoDup (l.*1) -> omap_of l = l.
Proof.
  induction l as [|[k v] l IH] using rev_ind; intros H; [done|].
  rewrite fmap_app in H. apply NoDup_app in H as (Hl & Hd & _).
  rewrite omap_of_app, IH by done. simpl in *.
  assert (Hk : k ∉ l.*1) by set_solver. clear -Hk.
  induction l as [|[k1 v1] l IH]; simpl in *; [done|].
  rewrite decide_False by set_solver. rewrite IH; set_solver.
Qed.

Lemma omap_of_elem k v l : (k, v) ∈ omap_of l -> (k, v) ∈ l.
Proof.
  induction l as [|[k1 v1] l IH] using rev_ind; [done|].
  rewrite omap_of_app. simpl. intros H.
  apply omap_elem_get in H; [|apply omap_set_NoDup, omap_of_NoDup].
  rewrite omap_get_set in H. case_decide; simplify_eq; [set_solver|].
  apply omap_get_elem in H. set_solver.
Qed.

Lemma omap_of_has k l : is_Some (omap_get k (omap_of l)) <-> k ∈ l.*1.
Proof.
  induction l as [|[k1 v1] l IH] using rev_ind; simpl.
  - split; [by intros [? ?]|set_solver].
  - rewrite omap_of_app, fmap_app. simpl. rewrite omap_get_set.
    case_decide; subst; set_solver.
Qed.
Lemma omap_set_fresh k v m : k ∉ omap_keys m -> omap_set k v m = m ++ [(k, v)].
Proof.
  unfold omap_keys. induction m as [|[k1 v1] m IH]; csimpl; intros H; [done|].
  rewrite decide_False by set_solver. by rewrite IH by set_solver.
Qed.

Lemma omap_set_last k v v' m : k ∉ omap_keys m -> omap_set k v (m ++ [(k, v')]) = m ++ [(k, v)].
Proof.
  unfold omap_keys. induction m as [|[k1 v1] m IH]; csimpl; intros H; [by rewrite decide_True|].
  rewrite decide_False by set_solver. by rewrite IH by set_solver.
Qed.

Lemma omap_get_last k v m : k ∉ omap_keys m -> omap_get k (m ++ [(k, v)]) = Some v.
Proof.
  unfold omap_keys. induction m as [|[k1 v1] m IH]; csimpl; intros H; [by rewrite decide_True|].
  rewrite decide_False by set_solver. by rewrite IH by set_solver.
Qed.

(** Reading a map at its own keys gives its values. *)
Lemma omap_get_keys d m :
  NoDup (omap_keys m) -> (fun k => omap_get k m ?? d) <$> omap_keys m = omap_values m.
Proof.
  intros Hnd. unfold omap_keys, omap_values. rewrite <- list_fmap_compose.
  apply list_fmap_ext. intros i [k v] Hi. cbn.
  by rewrite (omap_elem_get k v m Hnd) by (apply list_elem_of_lookup; eauto).
Qed.
End omap.

Lemma foldl_fmap {A B C} (f : C -> B -> C) (g : A -> B) l c :
  foldl f c (g <$> l) = foldl (fun c a => f c (g a)) c l.
Proof. revert c. induction l as [|a l IH]; intros c; simpl; auto. Qed.

(** ** Grouping

    [arr = m.get(k) ?? []; arr.push(x); m.set(k, arr)] *)
Section group.
Context {K A : Type} `{!EqDecision K} (key : A -> K).

Definition omap_push (k : K) (x : A) (m : list (K * list A)) : list (K * list A) :=
  omap_set k ((omap_get k m ?? []) ++ [x]) m.

Definition group_by (l : list A) : list (K * list A) :=
  foldl (fun m x => omap_push (key x) x m) [] l.

Lemma group_by_snoc l x : group_by (l ++ [x]) = omap_push (key x) x (group_by l).
Proof. unfold group_by. by rewrite foldl_app. Qed.

Lemma group_by_NoDup l : NoDup (omap_keys (group_by l)).
Proof.
  induction l as [|x l IH] using rev_ind; [constructor|].
  rewrite group_by_snoc. by apply omap_set_NoDup.
Qed.

(** A group holds exactly the elements of its key, in order. *)
Lemma group_by_get l k :
  omap_get k (group_by l) ?? [] = List.filter (fun x => bool_decide (key x = k)) l.
Proof.
  induction l as [|x l IH] using rev_ind; [done|].
  rewrite group_by_snoc, List.filter_app. unfold omap_push. rewrite omap_get_set. simpl.
  case_decide as E; subst; simpl.
  - rewrite bool_decide_true by done. by rewrite IH.
  - rewrite bool_decide_false by done. by rewrite app_nil_r, IH.
Qed.

Lemma group_by_keys l k : k ∈ omap_keys (group_by l) <-> exists x, x ∈ l /\ key x = k.
Proof.
  induction l as [|x l IH] using rev_ind; [set_solver|].
  rewrite group_by_snoc. unfold omap_push. rewrite omap_set_keys. case_decide; set_solver.
Qed.

(** A group, read from the map's entries. *)
Lemma group_by_elem l k g : (k, g) ∈ group_by l -> g = List.filter (fun x => bool_decide (key x = k)) l.
Proof.
  intros H. rewrite <- group_by_get. by rewrite (omap_elem_get k g _ (group_by_NoDup l) H).
Qed.

Lemma group_by_covers l x : x ∈ l -> exists g, g ∈ omap_values (group_by l) /\ x ∈ g.
Proof.
  intros Hx. assert (Hk : key x ∈ omap_keys (group_by l)) by (apply group_by_keys; eauto).
  apply list_elem_of_fmap in Hk as ([k g] & Ek & Hg). cbn in Ek. subst k. exists g.
  split; [by apply (list_elem_of_fmap_2 snd) in Hg|]. rewrite (group_by_elem _ _ _ Hg).
  apply filterb_elem. by rewrite bool_decide_true.
Qed.

Lemma group_by_nonempty l k g : (k, g) ∈ group_by l -> g <> [].
Proof.
  intros H. pose proof (omap_elem_get k g _ (group_by_NoDup l) H) as Hg.
  pose proof (group_by_get l k) as Hf. rewrite Hg in Hf. simpl in Hf. subst g.
  assert (Hk : k ∈ omap_keys (group_by l)) by (by apply (list_elem_of_fmap_2 fst) in H).
  apply group_by_keys in Hk as (x & Hx & <-). intros E.
  assert (x ∈ List.filter (fun y => bool_decide (key y = key x)) l) as Hin.
  { apply filterb_elem. split; [done|]. by apply bool_decide_true. }
  rewrite E in Hin. set_solver.
Qed.

(** Consecutive elements of a key not seen before form the last group. *)
Lemma group_by_app_fresh l1 l2 k :
  l2 <> [] -> Forall (fun x => key x = k) l2 -> k ∉ omap_keys (group_by l1) ->
  group_by (l1 ++ l2) = group_by l1 ++ [(k, l2)].
Proof.
  intros Hne Hk Hf. induction l2 as [|x l2 IH] using rev_ind; [done|].
  apply Forall_app in Hk as [Hk Hx]. inversion_clear Hx as [|? ? Hk' _].
  rewrite (assoc_L (++)), group_by_snoc. unfold omap_push. rewrite Hk'.
  destruct (decide (l2 = [])) as [->|Hl].
  - rewrite app_nil_r. rewrite omap_set_fresh by done.
    apply omap_get_None in Hf as ->. done.
  - rewrite IH by done. rewrite omap_get_last by done. by rewrite omap_set_last.
Qed.

Lemma concat_omap_set k v (m : list (K * list A)) x :
  omap_get k m ?? [] = v -> concat (omap_values (omap_set k (v ++ [x]) m)) ≡ₚ x :: concat (omap_values m).
Proof.
  unfold omap_values. revert v. induction m as [|[k1 v1] m IH]; simpl; intros v H.
  - by subst.
  - case_decide; simpl in *; simplify_eq; simpl.
    + rewrite <- (assoc_L (++)). simpl. by rewrite <- Permutation_middle.
    + rewrite IH by done. by rewrite <- Permutation_middle.
Qed.

(** Grouping loses nothing and duplicates nothing. *)
Lemma group_by_perm l : concat (omap_values (group_by l)) ≡ₚ l.
Proof.
  induction l as [|x l IH] using rev_ind; [done|].
  rewrite group_by_snoc. unfold omap_push. rewrite concat_omap_set by done.
  rewrite IH. by rewrite Permutation_app_comm.
Qed.
End group.
