(* ===== verification/Host.v ===== *)
(** * What the frontend asks of its host

    String collation, case mapping, date parsing and the regular-expression
    engine for patterns typed by a user belong to the
    JavaScript engine and its locale data, not to this repository.
    [Host] collects them; [HostLaws] states the documented behaviour the
    frontend relies on.  [plain_host] is a concrete host (code-point order,
    ASCII case mapping, ISO 8601 dates in UTC, patterns read literally) used by
    the examples. *)

From Stdlib Require Import DecimalString DecimalZ DecimalPos.
From S2P Require Import Prelude JsString JsUri JsArray.

Local Open Scope string_scope.
Local Open Scope list_scope.
Local Open Scope Z_scope.

Class Host : Type := {
  localeCompare : string -> string -> Z;
  toLowerCase : string -> string;
  toUpperCase : string -> string;
  (** [new Date(iso).getTime()]: milliseconds, [None] for [NaN]. *)
  date_ms : string -> option Z;
  (** [new RegExp(re).test(s)]; [None] is the [SyntaxError]. *)
  regex_test : string -> string -> option bool
}.

(** [localeCompare] orders strings; case mapping is idempotent and keeps
    the empty string. *)
Class HostLaws (H : Host) : Prop := {
  localeCompare_comparator :: Comparator localeCompare;
  toLowerCase_idem s : toLowerCase (toLowerCase s) = toLowerCase s;
  toLowerCase_nil : toLowerCase "" = ""
}.

(** Subtraction of two instants in a comparator; [NaN] counts as zero. *)
Definition sub_ms (a b : option Z) : Z :=
  match a, b with Some x, Some y => x - y | _, _ => 0 end.

(** ** A concrete host *)

Fixpoint string_cmp (s t : string) : Z :=
  match s, t with
  | "", "" => 0
  | "", _ => -1
  | _, "" => 1
  | String c s', String d t' =>
      if byte_of c =? byte_of d then string_cmp s' t' else byte_of c - byte_of d
  end.

Fixpoint map_chars (f : ascii -> ascii) (s : string) : string :=
  match s with "" => "" | String c s' => String (f c) (map_chars f s') end.
Definition lower_char (c : ascii) : ascii :=
  if is_upper c then ascii_of_nat (Z.to_nat (byte_of c + 32)) else c.
Definition upper_char (c : ascii) : ascii :=
  if is_lower c then ascii_of_nat (Z.to_nat (byte_of c - 32)) else c.

(** Decimal digits as a number. *)
Fixpoint digits_acc (acc : Z) (s : string) : option Z :=
  match s with
  | "" => Some acc
  | String c s' => if is_digit c then digits_acc (acc * 10 + (byte_of c - 48)) s' else None
  end.
Definition digits (s : string) : option Z := if s =s "" then None else digits_acc 0 s.
(** The digits a string starts with, and the rest. *)
Fixpoint span_digits (s : string) : string * string :=
  match s with
  | String c s' => if is_digit c then let '(d, r) := span_digits s' in (String c d, r) else ("", s)
  | "" => ("", "")
  end.

(** Days from 1970-01-01 of a proleptic Gregorian date. *)
Definition days_from_civil (y m d : Z) : Z :=
  let y' := if m <=? 2 then y - 1 else y in
  let era := y' / 400 in
  let yoe := y' - era * 400 in
  let mp := (m + 9) mod 12 in
  let doy := (153 * mp + 2) / 5 + d - 1 in
  let doe := yoe * 365 + yoe / 4 - yoe / 100 + doy in
  era * 146097 + doe - 719468.

(** ["YYYY-MM-DDTHH:MM:SSZ"] and ["YYYY-MM-DDTHH:MM:SS.mmmZ"]. *)
Definition iso_ms (s : string) : option Z :=
  let f a n := digits (slice_to n (slice_from a s)) in
  match f 0%nat 4%nat, f 5%nat 2%nat, f 8%nat 2%nat, f 11%nat 2%nat, f 14%nat 2%nat, f 17%nat 2%nat with
  | Some y, Some mo, Some d, Some h, Some mi, Some se =>
      let base := (days_from_civil y mo d * 86400 + h * 3600 + mi * 60 + se) * 1000 in
      let tail := slice_from 19%nat s in
      if tail =s "Z" then Some base
      else match digits (slice_to 3%nat (slice_from 1%nat tail)) with
           | Some ms => if slice_from 4%nat tail =s "Z" then Some (base + ms) else None
           | None => None
           end
  | _, _, _, _, _, _ => None
  end.

Definition plain_host : Host := {|
  localeCompare := string_cmp;
  toLowerCase := map_chars lower_char;
  toUpperCase := map_chars upper_char;
  date_ms := iso_ms;
  regex_test := fun re s => Some (includes s re)
|}.

Lemma byte_of_inj c d : byte_of c = byte_of d -> c = d.
Proof.
  unfold byte_of. intros H. apply Nat2Z.inj in H.
  by rewrite <- (ascii_nat_embedding c), <- (ascii_nat_embedding d), H.
Qed.

#[export] Instance string_cmp_comparator : Comparator string_cmp.
Proof.
  split.
  - induction x as [|c s IH]; simpl; [done|]. by rewrite Z.eqb_refl.
  - induction x as [|c s IH]; intros [|d t]; simpl; try lia.
    rewrite (Z.eqb_sym (byte_of d)). destruct (Z.eqb_spec (byte_of c) (byte_of d)); [apply IH|lia].
  - induction x as [|c s IH]; intros [|d t] [|e u]; simpl; try lia.
    repeat match goal with |- context [?a =? ?b] => destruct (Z.eqb_spec a b) end; try lia.
    apply IH.
Qed.

#[export] Instance plain_host_laws : HostLaws plain_host.
Proof.
  split; [exact _ | | done]. simpl. intros s. induction s as [|c s IH]; simpl; [done|].
  rewrite IH. f_equal.
  pose proof (ascii_all (fun c => Ascii.eqb (lower_char (lower_char c)) (lower_char c)) ltac:(by_compute) c) as H.
  by apply Ascii.eqb_eq in H.
Qed.

Example iso_ms_epoch : iso_ms "2026-05-12T05:15:00.250Z" = Some 1778562900250.
Proof. by_compute. Qed.

(** Digits are read back as they are printed. *)
Lemma digits_acc_pos u acc : digits_acc (Zpos acc) (NilEmpty.string_of_uint u) = Some (Zpos (Pos.of_uint_acc u acc)).
Proof.
  revert acc. induction u as [|u IH|u IH|u IH|u IH|u IH|u IH|u IH|u IH|u IH|u IH]; intros acc; [done|..];
    (etransitivity; [|apply IH]; cbn [NilEmpty.string_of_uint digits_acc];
     match goal with |- (if ?b then _ else _) = _ => change b with true end; cbv iota;
     match goal with |- digits_acc (_ + (byte_of ?c - 48))%Z _ = _ => let b := eval vm_compute in (byte_of c) in change (byte_of c) with b end;
     f_equal; lia).
Qed.
Lemma digits_acc_zero u : digits_acc 0 (NilEmpty.string_of_uint u) = Some (Z.of_N (Pos.of_uint u)).
Proof.
  induction u as [|u IH|u IH|u IH|u IH|u IH|u IH|u IH|u IH|u IH|u IH]; [done|exact IH|..]; exact (digits_acc_pos u _).
Qed.
Lemma digits_show n : (0 <= n)%Z -> digits (show_Z n) = Some n.
Proof.
  intros Hn. unfold show_Z, digits. pose proof (DecimalZ.of_to n) as Hof.
  assert (Hu : exists u, Z.to_int n = Decimal.Pos u).
  { destruct n; [by eexists|by eexists|lia]. }
  destruct Hu as [u Hu]. rewrite Hu in *. cbn in Hof. unfold NilZero.string_of_int, NilZero.string_of_uint.
  destruct u eqn:E; [by subst n|..]; rewrite <- E in *; (replace (NilEmpty.string_of_uint u =s "") with false by (by rewrite E));
    rewrite digits_acc_zero; by rewrite <- Hof.
Qed.
