(* ===== verification/Types.v ===== *)
(** * The data of the API

    The interfaces of [api/types.ts] the library uses, field by field and in
    the source's order, one record each; the field names carry a prefix.  A
    [number] is an integer [Z] where the API documents a count, and a decimal
    [num] where it is a threshold a user types.  Closed unions of string
    literals are strings, as the code compares them with literals and has a
    default for anything else. *)

From S2P Require Import Prelude JsString.

Local Open Scope char_scope.
Local Open Scope string_scope.
Local Open Scope list_scope.

(** ** Decimal numbers

    [Num m s] is m times 10 to the power -s.  [show_num] prints it as
    JavaScript prints a number with at most fifteen significant digits that
    is below 10^21 and not smaller than 10^-6. *)
Record num := Num { n_mant : Z; n_scale : nat }.

(** Left-pads with zeros. *)
Fixpoint zeros (n : nat) : string := match n with O => "" | S n => String "0" (zeros n) end.
Definition pad_zeros (n : nat) (s : string) : string := zeros (n - String.length s) +:+ s.

(** Drops the zeros at the end of a fraction. *)
Fixpoint norm_num (m : Z) (s : nat) : Z * nat :=
  match s with
  | O => (m, O)
  | S s' => if (m mod 10 =? 0)%Z then norm_num (m / 10)%Z s' else (m, s)
  end.

Definition show_num (n : num) : string :=
  let '(m, s) := norm_num (n_mant n) (n_scale n) in
  let p := (10 ^ Z.of_nat s)%Z in
  let sign := if (m <? 0)%Z then "-" else "" in
  let a := Z.abs m in
  match s with
  | O => show_Z m
  | _ => tpl [sign; show_Z (a / p); "."; pad_zeros s (show_Z (a mod p))]
  end.

(** ** Records *)

Record Window := {
  win_from_ : string;
  win_to : string
}.

Record IntegrationRef := {
  ir_id : string;
  ir_slug : string;
  ir_name : string
}.

Record ServiceFacetRef := {
  sf_slug : string;
  sf_name : string;
  sf_source : option string;
  sf_detected_since : option string
}.

Record Tag := {
  tg_id : string;
  tg_organization_id : string;
  tg_slug : string;
  tg_name : string;
  tg_color : string;
  tg_created_at : string;
  tg_updated_at : string
}.

Record EnvironmentStatus := {
  es_environment : string;
  es_status : string;
  es_trace_count : Z;
  es_error_trace_count : Z;
  es_declared : bool;
  es_production : option bool
}.

Record ServiceSummary := {
  ss_service_name : string;
  ss_service_namespace : string;
  ss_first_seen : option string;
  ss_last_seen : string;
  ss_trace_count : Z;
  ss_error_trace_count : Z;
  ss_integrations : list IntegrationRef;
  ss_service_facets : list ServiceFacetRef;
  ss_tags : option (list Tag);
  ss_status : string;
  ss_metadata_values : option (list (string * string));
  ss_upstream_count : option Z;
  ss_downstream_count : option Z;
  ss_is_system : option bool;
  ss_system_kind : option string;
  ss_environments : option (list EnvironmentStatus)
}.

Record RuleAttrFilter := {
  ra_key : string;
  ra_op : string;
  ra_value : string
}.

Record FailingCheck := {
  fc_id : string;
  fc_rule_id : string;
  fc_rule_name : string;
  fc_severity : string;
  fc_started_at : string;
  fc_handled_at : option string;
  fc_summary : option string;
  fc_target_kind : string;
  fc_service_name : option string;
  fc_integration_id : option string;
  fc_integration_name : option string;
  fc_system_id : option string;
  fc_system_name : option string;
  fc_attrs : option (list RuleAttrFilter)
}.

Record OpenServiceError := {
  oe_service_name : string;
  oe_error_traces : Z;
  oe_first_error_at : string;
  oe_last_error_at : string;
  oe_sample_trace_id : option string
}.

Record SpanEvent := {
  ev_timestamp : string;
  ev_name : string;
  ev_attributes : option (list (string * string))
}.

Record SpanLink := {
  sl_trace_id : string;
  sl_span_id : string
}.

Record SpanSummary := {
  sp_timestamp : string;
  sp_trace_id : string;
  sp_span_id : string;
  sp_parent_span_id : option string;
  sp_service_name : string;
  sp_span_name : string;
  sp_span_kind : string;
  sp_status_code : string;
  sp_status_message : option string;
  sp_duration_ms : Z;
  sp_attributes : option (list (string * string));
  sp_resource_attributes : option (list (string * string));
  sp_span_attributes : option (list (string * string));
  sp_links : option (list SpanLink);
  sp_links_total : option Z;
  sp_events : option (list SpanEvent);
  sp_events_total : option Z
}.

Record LinkedTrace := {
  lt_trace_id : string;
  lt_service_name : string;
  lt_span_name : string;
  lt_started_at : string;
  lt_span_count : Z;
  lt_has_error : bool;
  lt_from_span_id : option string
}.

Record FlowNode := {
  fn_service_name : string;
  fn_trace_count : Z;
  fn_error_trace_count : Z;
  fn_status : option string
}.

Record FlowEdge := {
  fe_source : string;
  fe_target : string;
  fe_call_count : Z;
  fe_error_count : Z;
  fe_kind : option string
}.

Record FlowSchemaRef := {
  fs_schema_id : string;
  fs_name : string;
  fs_direction : string
}.

Record FlowMap := {
  fm_id : string;
  fm_name : string;
  fm_from_schema : option string;
  fm_to_schema : option string;
  fm_format : option string
}.

Record TraceNodeState := {
  tn_service_name : string;
  tn_state : string;
  tn_span_count : Z;
  tn_error_count : Z;
  tn_first_seen : option string;
  tn_last_seen : option string;
  tn_after_service : option string
}.

Record TraceProjection := {
  tp_trace_id : string;
  tp_nodes : list TraceNodeState;
  tp_traversed_edges : list string;
  tp_last_reached : option string;
  tp_spans_outside_integration : Z;
  tp_started : option string;
  tp_ended : option string
}.

Record FlowResponse := {
  fr_window : Window;
  fr_nodes : list FlowNode;
  fr_edges : list FlowEdge;
  fr_service_schemas : option (list (string * list FlowSchemaRef));
  fr_maps : option (list FlowMap);
  fr_historical : option bool;
  fr_historical_available : option bool;
  fr_trace : option TraceProjection;
  fr_trace_outside_window : option bool
}.

Record MessageColumn := {
  mc_kind : option string;
  mc_key : string;
  mc_label : string
}.

Record Integration := {
  i_id : string;
  i_service_facets : option (list ServiceFacetRef);
  i_organization_id : string;
  i_slug : string;
  i_name : string;
  i_description : string;
  i_badge_public : option bool;
  i_rule_match : option string;
  i_message_columns : option (list MessageColumn);
  i_message_filters : option (list MessageColumn);
  i_created_at : string;
  i_updated_at : string;
  i_status : option string;
  i_service_count : option Z;
  i_services : option (list string);
  i_unhealthy_count : option Z;
  i_trace_count : option Z;
  i_error_trace_count : option Z;
  i_delayed_trace_count : option Z;
  i_traffic_series : option (list Z);
  i_p95_duration_ms : option Z;
  i_metadata_values : option (list (string * string));
  i_tags : option (list Tag);
  i_declared_environments : option (list string);
  i_environments : option (list EnvironmentStatus)
}.

Record Matcher := {
  ma_id : string;
  ma_integration_id : string;
  ma_attribute : string;
  ma_operator : string;
  ma_value : string;
  ma_match_group : Z;
  ma_include_descendants : option bool;
  ma_member : option Z;
  ma_created_at : string
}.

Record MetadataField := {
  mf_id : string;
  mf_key : string;
  mf_label : string;
  mf_type : string;
  mf_options : option (list string);
  mf_description : string;
  mf_applies_to_integration : bool;
  mf_applies_to_service : bool;
  mf_applies_to_system : bool;
  mf_system_type_key : string;
  mf_required : bool;
  mf_created_at : option string;
  mf_updated_at : option string
}.

(** The anonymous type of a source condition. *)
Record SourceCondition := { sc_attribute : string; sc_operator : string; sc_value : string }.

Record IntegrationSource := {
  is_signal : string;
  is_origin_kind : string;
  is_origin : string;
  is_conditions : list SourceCondition;
  is_metric_names : list string
}.

Record IntegrationSourceView := {
  iv_base : IntegrationSource;
  iv_id : string;
  iv_origin_name : string;
  iv_origin_services : list string
}.

Record IntegrationDetail := {
  id_can_manage : option bool;
  id_integration : Integration;
  id_matchers : list Matcher;
  id_sources : option (list IntegrationSourceView);
  id_services : option (list ServiceSummary);
  id_status : option string;
  id_tags : option (list Tag);
  id_window : option Window;
  id_message_count : option Z;
  id_error_message_count : option Z;
  id_delayed_message_count : option Z;
  id_failing_check_count : option Z;
  id_open_error_count : option Z;
  id_metadata_fields : option (list MetadataField);
  id_metadata_values : option (list (string * string))
}.

Record MetricRuleSpec := {
  ms_metric_name : string;
  ms_aggregation : string;
  ms_operator : string;
  ms_threshold : num;
  ms_for_window : string;
  ms_attrs : option (list RuleAttrFilter);
  ms_split_by : option string;
  ms_fire_on_no_data : option bool
}.

Record LogRuleSpec := {
  ls_min_severity : Z;
  ls_body_contains : string;
  ls_attrs : option (list RuleAttrFilter);
  ls_threshold : Z;
  ls_window_seconds : Z;
  ls_comparison : option string
}.

Record LogAttrFilter := {
  la_key : string;
  la_op : string;
  la_value : string
}.

Record TraceErrorRuleSpec := {
  te_threshold : Z;
  te_window_seconds : Z;
  te_attrs : option (list LogAttrFilter)
}.

Record TraceLatencyRuleSpec := {
  tl_threshold_ms : Z;
  tl_window_seconds : Z;
  tl_aggregation : string
}.

Record TraceVolumeRuleSpec := {
  tv_threshold : Z;
  tv_window_seconds : Z
}.

Record TraceAttributeRuleSpec := {
  ta_threshold : Z;
  ta_window_seconds : Z;
  ta_attrs : list LogAttrFilter
}.

Record NotificationContent := {
  nc_service : option bool;
  nc_integration : option bool;
  nc_service_metadata : option bool;
  nc_integration_metadata : option bool;
  nc_check : option bool;
  nc_email_subject : option string;
  nc_email_body : option string;
  nc_slack_title : option string;
  nc_slack_body : option string
}.

Record AlertRule := {
  ar_id : string;
  ar_environment_mode : option string;
  ar_environments : option (list string);
  ar_organization_id : string;
  ar_integration_id : option string;
  ar_system_id : option string;
  ar_service_name : option string;
  ar_group_id : option string;
  ar_name : string;
  ar_description : string;
  ar_runbook : option string;
  ar_signal : string;
  ar_spec : MetricRuleSpec;
  ar_log_spec : option LogRuleSpec;
  ar_trace_error_spec : option TraceErrorRuleSpec;
  ar_trace_latency_spec : option TraceLatencyRuleSpec;
  ar_trace_volume_spec : option TraceVolumeRuleSpec;
  ar_trace_attribute_spec : option TraceAttributeRuleSpec;
  ar_severity : string;
  ar_evaluation_seconds : Z;
  ar_enabled : bool;
  ar_source : string;
  ar_display_on_service : bool;
  ar_unit : option string;
  ar_resolve_mode : string;
  ar_channel_ids : list string;
  ar_title_template : option string;
  ar_body_template : option string;
  ar_notification_config : option NotificationContent;
  ar_created_at : string;
  ar_updated_at : string
}.

Record AlertInstance := {
  ai_id : string;
  ai_alert_rule_id : string;
  ai_rule_name : string;
  ai_severity : string;
  ai_state : string;
  ai_started_at : string;
  ai_ended_at : option string;
  ai_summary : string;
  ai_handled_at : option string
}.

Record MonitoringTemplateCheck := {
  mt_name : string;
  mt_description : option string;
  mt_signal : option string;
  mt_metric : option string;
  mt_agg : option string;
  mt_op : option string;
  mt_threshold : option num;
  mt_attrs : option (list RuleAttrFilter);
  mt_min_severity : option Z;
  mt_body_contains : option string;
  mt_log_threshold : option Z;
  mt_split_by : option string;
  mt_trace_threshold : option Z;
  mt_threshold_ms : option Z;
  mt_window_seconds : option Z;
  mt_severity : option string;
  mt_unit : option string;
  mt_display : option bool
}.

Record MonitoringTemplate := {
  mo_id : string;
  mo_name : string;
  mo_description : string;
  mo_source : string;
  mo_checks : list MonitoringTemplateCheck;
  mo_created_at : string;
  mo_updated_at : string
}.

Record MaintenanceRecurrence := {
  mr_frequency : string;
  mr_weekdays : option (list Z);
  mr_month_week : option Z;
  mr_month_weekday : option Z;
  mr_start_time : string;
  mr_duration_minutes : Z;
  mr_timezone : string;
  mr_ends_on : option string
}.

Record SystemType := {
  st_id : string;
  st_key : string;
  st_label : string;
  st_is_system : bool;
  st_detect_prefixes : list string;
  st_checks : list MonitoringTemplateCheck;
  st_built_in : bool
}.

Record System := {
  sy_id : string;
  sy_name : string;
  sy_type_key : string;
  sy_description : string;
  sy_members : list string;
  sy_member_count : Z;
  sy_status : option string;
  sy_badge_public : option bool
}.

Record DashboardIncludeRule := {
  dr_kind : string;
  dr_key : option string;
  dr_value : string
}.

Record DashboardItem := {
  di_id : string;
  di_entityKind : string;
  di_integrationId : string;
  di_systemName : option string;
  di_systemId : option string;
  di_widgetType : string;
  di_position : Z;
  di_createdAt : string
}.

Record Dashboard := {
  da_canManage : option bool;
  da_groupId : option (option string);
  da_id : string;
  da_name : string;
  da_isDefault : bool;
  da_autoIncludeAll : bool;
  da_defaultWidgetType : string;
  da_position : Z;
  da_mine : bool;
  da_environments : option (list string);
  da_includeRule : option (option DashboardIncludeRule);
  da_items : list DashboardItem;
  da_createdAt : string;
  da_updatedAt : string
}.

(** [slug] and [name] are [None] for a role of the server that the adapter does
    not know: its [switch] then returns [undefined]. *)
Record Role := {
  ro_slug : option string;
  ro_name : option string
}.

Record Organization := {
  og_id : string;
  og_slug : string;
  og_name : string
}.

Record OrganizationMembership := {
  om_organization : Organization;
  om_roles : list Role
}.

Record User := {
  us_id : string;
  us_email : string;
  us_name : string;
  us_initials : string;
  us_isOperator : bool;
  us_isDemo : option bool;
  us_mustResetPassword : option bool;
  us_memberships : list OrganizationMembership
}.

Record CurrentUserResponse := {
  cu_user : User;
  cu_active_organization_id : string;
  cu_managed : option bool;
  cu_email_disabled : option bool;
  cu_org_management_disabled : option bool
}.

Record AuthUser := {
  au_id : string;
  au_email : string;
  au_name : string;
  au_is_operator : option bool;
  au_is_demo : option bool;
  au_must_reset_password : bool;
  au_last_login_at : option (option string);
  au_created_at : option string;
  au_updated_at : option string;
  au_login_count : option Z;
  au_failed_login_count : option Z;
  au_last_active_at : option (option string);
  au_mfa_enabled : option bool
}.

Record AuthOrg := {
  ao_id : string;
  ao_slug : string;
  ao_name : string;
  ao_created_at : option string;
  ao_updated_at : option string
}.

Record AuthMembership := {
  am_org : AuthOrg;
  am_role : string;
  am_joined_at : option string
}.

Record AuthPrincipal := {
  ap_kind : string;
  ap_user_id : option string;
  ap_service_account_id : option string;
  ap_org_id : string;
  ap_role : string;
  ap_email : option string;
  ap_name : option string
}.

Record MeResponse := {
  me_user : AuthUser;
  me_memberships : list AuthMembership;
  me_principal : AuthPrincipal;
  me_mfa_enrollment_required : option bool;
  me_managed : option bool;
  me_email_disabled : option bool;
  me_org_management_disabled : option bool
}.

(** The anonymous type of an editor group. *)
Record EditorGroup := { eg_id : string; eg_slug : string; eg_name : string }.

Record MeAccess := {
  mx_write_anywhere : bool;
  mx_manage_all : bool;
  mx_managed_services : list string;
  mx_editor_groups : list EditorGroup
}.

Record AlertRuleInput := {
  ri_name : string;
  ri_description : option string;
  ri_severity : string;
  ri_enabled : option bool;
  ri_channel_ids : list string;
  ri_signal : option string;
  ri_spec : option MetricRuleSpec;
  ri_log_spec : option LogRuleSpec;
  ri_trace_error_spec : option TraceErrorRuleSpec;
  ri_trace_latency_spec : option TraceLatencyRuleSpec;
  ri_trace_volume_spec : option TraceVolumeRuleSpec;
  ri_trace_attribute_spec : option TraceAttributeRuleSpec;
  ri_service_name : option string;
  ri_integration_id : option string;
  ri_system_id : option string;
  ri_group_id : option string;
  ri_runbook : option string;
  ri_title_template : option string;
  ri_body_template : option string;
  ri_notification_config : option NotificationContent;
  ri_source : option string;
  ri_display_on_service : option bool;
  ri_unit : option string;
  ri_resolve_mode : option string;
  ri_environment_mode : option string;
  ri_environments : option (list string)
}.
