(* ===== verification/Doubles.v ===== *)
(** * Binary fractions

    What the source does with numbers that are not whole: a finite double is
    an integer over a power of two, division rounds to 53 bits, half to even,
    [Math.round], [Math.floor] and [toFixed] read the exact value. *)

From S2P Require Import Prelude JsString Types.

Local Open Scope Z_scope.

(** ** Division *)

(** The quotient n/d in units of 2^-sh, rounded half to even. *)
Definition round_bits (n d : Z) (sh : Z) : Z :=
  let n := n * 2 ^ Z.max 0 sh in
  let d := d * 2 ^ Z.max 0 (- sh) in
  let q := n / d in
  let r := n mod d in
  if (d <? 2 * r) || ((d =? 2 * r) && Z.odd q) then q + 1 else q.
(** The binary exponent of a positive fraction. *)
Definition fexp (n d : Z) : Z :=
  let e := Z.log2 n - Z.log2 d in if d * 2 ^ Z.max 0 e <=? n * 2 ^ Z.max 0 (- e) then e else e - 1.
(** The quotient of two positive numbers, rounded to 53 bits, as a fraction over 2^sh. *)
Definition fdiv (n d : Z) : Z * Z :=
  if n <=? 0 then (0, 0) else let sh := 52 - fexp n d in (round_bits n d sh, sh).

(** ** Numbers *)

(** [d_num] over 2^[d_shift]. *)
Record dbl := Dbl { d_num : Z; d_shift : Z }.
Inductive number := NaN | Infinite (neg : bool) | Finite (x : dbl).

Definition numer (x : dbl) : Z := d_num x * 2 ^ Z.max 0 (- d_shift x).
Definition denom (x : dbl) : Z := 2 ^ Z.max 0 (d_shift x).
Definition of_Z (n : Z) : dbl := Dbl n 0.
Definition neg (x : dbl) : dbl := Dbl (- d_num x) (d_shift x).

(** Comparisons with a whole number. *)
Definition lt_Z (x : dbl) (c : Z) : bool := numer x <? c * denom x.
Definition le_Z (x : dbl) (c : Z) : bool := numer x <=? c * denom x.

Definition floor (x : dbl) : Z := numer x / denom x.
(** [Math.round]: halves go up. *)
Definition round (x : dbl) : Z := (2 * numer x + denom x) / (2 * denom x).
(** [x / 1000], for an [x] that is not negative. *)
Definition div_1000 (x : dbl) : dbl :=
  let '(m, sh) := fdiv (numer x) (1000 * denom x) in Dbl m sh.

(** The digits of [x.toFixed(k)] for an [x] that is not negative, as an integer. *)
Definition fixed (k : nat) (x : dbl) : Z := (2 * numer x * 10 ^ Z.of_nat k + denom x) / (2 * denom x).
Definition show_fixed (k : nat) (v : Z) : string :=
  match k with
  | O => show_Z v
  | _ => tpl [show_Z (v / 10 ^ Z.of_nat k); "."; pad_zeros k (show_Z (v mod 10 ^ Z.of_nat k))]
  end.

(** [number_to_string] prints a double of at least 10^21. *)
Definition toFixed (number_to_string : dbl -> string) (k : nat) (v : number) : string :=
  match v with
  | NaN => "NaN"
  | Infinite false => "Infinity"
  | Infinite true => "-Infinity"
  | Finite x =>
      if numer x <? 0 then
        if 10 ^ 21 * denom x <=? - numer x then number_to_string x else tpl ["-"; show_fixed k (fixed k (neg x))]
      else if 10 ^ 21 * denom x <=? numer x then number_to_string x else show_fixed k (fixed k x)
  end.

(** ** Facts *)

Lemma denom_pos x : 0 < denom x.
Proof. unfold denom. apply Z.pow_pos_nonneg; [done|apply Z.le_max_l]. Qed.

Lemma denom_of_Z n : denom (of_Z n) = 1.
Proof. reflexivity. Qed.
Lemma numer_of_Z n : numer (of_Z n) = n.
Proof. unfold numer, of_Z. cbn [d_num d_shift]. change (2 ^ Z.max 0 (- 0)) with 1. lia. Qed.

(** Rounding is off by at most half a unit. *)
Lemma round_spec x : - denom x <= 2 * (numer x - round x * denom x) < denom x.
Proof.
  pose proof (denom_pos x) as Hd. unfold round. set (d := denom x) in *. set (n := numer x). clearbody n d.
  pose proof (Z.div_mod (2 * n + d) (2 * d) ltac:(lia)) as E.
  pose proof (Z.mod_pos_bound (2 * n + d) (2 * d) ltac:(lia)). nia.
Qed.

Lemma fixed_spec k x :
  - denom x <= 2 * (numer x * 10 ^ Z.of_nat k - fixed k x * denom x) < denom x.
Proof.
  pose proof (denom_pos x) as Hd. unfold fixed. set (d := denom x) in *. set (n := numer x). set (p := 10 ^ Z.of_nat k).
  clearbody n d p.
  pose proof (Z.div_mod (2 * n * p + d) (2 * d) ltac:(lia)) as E.
  pose proof (Z.mod_pos_bound (2 * n * p + d) (2 * d) ltac:(lia)). nia.
Qed.

Lemma floor_spec x : floor x * denom x <= numer x < (floor x + 1) * denom x.
Proof.
  pose proof (denom_pos x) as Hd. unfold floor. set (d := denom x) in *. set (n := numer x). clearbody n d.
  pose proof (Z.div_mod n d ltac:(lia)) as E. pose proof (Z.mod_pos_bound n d ltac:(lia)). nia.
Qed.

Lemma round_nonneg x : 0 <= numer x -> 0 <= round x.
Proof. pose proof (denom_pos x). pose proof (round_spec x). nia. Qed.

Lemma round_of_Z n : round (of_Z n) = n.
Proof. pose proof (round_spec (of_Z n)) as H. rewrite denom_of_Z, numer_of_Z in H. lia. Qed.

(** A rounded quotient is off by at most half a unit of its last place. *)
Lemma round_bits_spec n d sh :
  0 < d ->
  2 * Z.abs (n * 2 ^ Z.max 0 sh - round_bits n d sh * (d * 2 ^ Z.max 0 (- sh))) <= d * 2 ^ Z.max 0 (- sh).
Proof.
  intros Hd. unfold round_bits. cbn zeta.
  assert (Hp : 0 < 2 ^ Z.max 0 (- sh)) by (apply Z.pow_pos_nonneg; [done|apply Z.le_max_l]).
  set (d' := d * _). assert (Hd' : 0 < d') by (unfold d'; nia). set (n' := n * _). clearbody d' n'.
  pose proof (Z.div_mod n' d' ltac:(lia)) as E. pose proof (Z.mod_pos_bound n' d' ltac:(lia)).
  set (q := n' / d') in *. set (r := n' mod d') in *. clearbody q r.
  destruct (Z.ltb_spec d' (2 * r)); cbn [orb]; [nia|].
  destruct (Z.eqb_spec d' (2 * r)); cbn [andb]; [|nia]. destruct (Z.odd q); nia.
Qed.

Lemma round_bits_nonneg n d sh : 0 <= n -> 0 < d -> 0 <= round_bits n d sh.
Proof.
  intros Hn Hd. unfold round_bits. cbn zeta.
  assert (0 <= n * 2 ^ Z.max 0 sh / (d * 2 ^ Z.max 0 (- sh))).
  { apply Z.div_pos; [apply Z.mul_nonneg_nonneg; [done|apply Z.pow_nonneg; lia]|].
    apply Z.mul_pos_pos; [done|apply Z.pow_pos_nonneg; [done|apply Z.le_max_l]]. }
  destruct (_ || _); lia.
Qed.

(** A whole number below 2^53 is its own double. *)
Lemma fdiv_whole n : 0 < n < 2 ^ 53 -> exists sh, 0 <= sh /\ fdiv n 1 = (n * 2 ^ sh, sh).
Proof.
  intros [Hn Hm]. unfold fdiv. destruct (Z.leb_spec n 0); [lia|].
  assert (Hlog : 0 <= Z.log2 n <= 52).
  { split; [apply Z.log2_nonneg|]. enough (Z.log2 n < 53) by lia. apply Z.log2_lt_pow2; lia. }
  assert (He : fexp n 1 = Z.log2 n).
  { unfold fexp. change (Z.log2 1) with 0. rewrite Z.sub_0_r, Z.max_r, Z.max_l by lia.
    rewrite Z.mul_1_l, Z.mul_1_r. destruct (Z.leb_spec (2 ^ Z.log2 n) n); [done|].
    pose proof (Z.log2_spec n Hn). lia. }
  rewrite He. exists (52 - Z.log2 n). split; [lia|]. f_equal. unfold round_bits. cbn zeta.
  set (sh := 52 - Z.log2 n). rewrite (Z.max_r 0 sh), (Z.max_l 0 (- sh)) by (unfold sh; lia).
  change (1 * 2 ^ 0) with 1. rewrite Z.mod_1_r, Z.div_1_r. done.
Qed.

Lemma floor_whole n sh : 0 <= sh -> floor (Dbl (n * 2 ^ sh) sh) = n.
Proof.
  intros Hs. unfold floor, numer, denom. cbn [d_num d_shift]. rewrite (Z.max_l 0 (- sh)), Z.max_r by lia.
  rewrite Z.pow_0_r, Z.mul_1_r. apply Z.div_mul. apply Z.pow_nonzero; lia.
Qed.
