(* ===== verification/Format.v ===== *)
(** * Formatting

    [lib/format.ts]: times relative to now, dates, byte sizes, metric values,
    durations; [lib/uid.ts]: identifiers.  Dates and numbers of the user's
    locale are the browser's ([Locale]). *)

From S2P Require Import Prelude JsString Host Types Doubles.

Local Open Scope string_scope.
Local Open Scope list_scope.
Local Open Scope Z_scope.

(** What the browser's locale and its [Math.log] decide. *)
Class Locale : Type := {
  getFullYear : Z -> Z;
  (** [toLocaleDateString] and [toLocaleString] of a date, with the year or without; [None] is an
      invalid date. *)
  localeDate : bool -> option Z -> string;
  localeDateTime : bool -> option Z -> string;
  (** [n.toLocaleString()], with [maximumFractionDigits: 2], and with [notation: "compact"] as well. *)
  localeNumber : number -> string;
  localeNumber2 : number -> string;
  localeCompact : number -> string;
  toISOString : Z -> string;
  number_to_string : dbl -> string;
  (** [Math.floor(Math.log(n) / Math.log(1024))] *)
  log1024 : dbl -> Z
}.

Section format.
Context `{Host} `{Locale}.

(** ** Times *)

(** [Math.round(a / b)] of whole numbers; the quotient of two dates in seconds is far from the
    limits of a double, so its rounding changes nothing. *)
Definition round_div (a b : Z) : Z := (2 * a + b) / (2 * b).

Inductive Relative := JustNow | SecondsAgo (n : Z) | MinutesAgo (n : Z) | HoursAgo (n : Z) | DaysAgo (n : Z) | OnDate.

(** The ladder of [formatRelative], from a difference in milliseconds. *)
Definition relative (diff : Z) : Relative :=
  let diffSec := Z.max 0 (round_div diff 1000) in
  if diffSec <? 5 then JustNow else if diffSec <? 60 then SecondsAgo diffSec
  else let diffMin := round_div diffSec 60 in
    if diffMin <? 60 then MinutesAgo diffMin
    else let diffHour := round_div diffMin 60 in
      if diffHour <? 24 then HoursAgo diffHour
      else let diffDay := round_div diffHour 24 in
        if diffDay <? 30 then DaysAgo diffDay else OnDate.

(** [{ year: "numeric" }] unless the years agree; that of an invalid date never does. *)
Definition with_year (t : option Z) (now : Z) : bool :=
  match t with Some t => negb (getFullYear t =? getFullYear now) | None => true end.

Definition formatRelative (iso : string) (now : Z) : string :=
  let t := date_ms iso in
  match t with
  | None => localeDate (with_year t now) t
  | Some ms =>
      match relative (now - ms) with
      | JustNow => "just now"
      | SecondsAgo n => tpl [show_Z n; " seconds ago"]
      | MinutesAgo n => tpl [show_Z n; " min ago"]
      | HoursAgo n => tpl [show_Z n; " h ago"]
      | DaysAgo n => tpl [show_Z n; " d ago"]
      | OnDate => localeDate (with_year t now) t
      end
  end.

Definition formatDateTime (iso : string) (now : Z) : string :=
  let t := date_ms iso in localeDateTime (with_year t now) t.

(** ** Numbers and sizes *)

Definition formatNumber (n : number) : string := localeNumber n.

Definition BYTE_SIZES : list string := ["B"; "KB"; "MB"; "GB"; "TB"; "PB"].
(** The unit of a size and the digits after the point. *)
Definition byte_unit (n : dbl) : Z := Z.min (Z.of_nat (length BYTE_SIZES) - 1) (log1024 n).
Definition in_unit (n : dbl) (i : Z) : dbl := Dbl (d_num n) (d_shift n + 10 * i).
Definition at_least (x : dbl) (c : Z) : bool := le_Z (neg x) (- c).
Definition byte_digits (i : Z) (v : dbl) : nat :=
  if i =? 0 then 0%nat else if at_least v 100 then 0%nat else if at_least v 10 then 1%nat else 2%nat.
Definition formatBytes (n : number) : string :=
  match n with
  | NaN | Infinite true => "0 B"
  | Infinite false => "Infinity PB"
  | Finite x =>
      if lt_Z x 1 then "0 B"
      else let i := byte_unit x in
           let v := in_unit x i in
           tpl [toFixed number_to_string (byte_digits i v) (Finite v); " "; nth (Z.to_nat i) BYTE_SIZES "undefined"]
  end.

Definition BYTE_UNITS : list string := ["by"; "byte"; "bytes"].
(** [replace(/^\{|\}$/g, "")] *)
Definition drop_braces (u : string) : string :=
  let u := if startsWith u "{" then slice_from 1 u else u in
  if endsWith u "}" then drop_last u else u.
Definition isByteUnit (unit : option string) : bool :=
  truthy_opt unit && existsb (String.eqb (drop_braces (toLowerCase (trim (unit ?? ""))))) BYTE_UNITS.

Definition displayUnit (unit : option string) : string :=
  let u := trim (unit ?? "") in if (u =s "1") || (u =s "{1}") then "" else u.

Definition formatMetricValue (n : number) (unit : option string) : string :=
  match n with
  | NaN | Infinite _ => "—"
  | Finite x =>
      if isByteUnit unit then formatBytes n
      else if at_least x 100000 || le_Z x (-100000) then localeCompact n else localeNumber2 n
  end.

(** ** Durations *)

Definition formatDurationMs (ms : number) : string :=
  match ms with
  | NaN => "NaN s" | Infinite false => "Infinity s" | Infinite true => "-Infinity ms"
  | Finite x =>
      if lt_Z x 1 then tpl [toFixed number_to_string 2 ms; " ms"]
      else if lt_Z x 1000 then tpl [toFixed number_to_string 0 ms; " ms"]
      else tpl [toFixed number_to_string 2 (Finite (div_1000 x)); " s"]
  end.

(** A duration as it is shown: its two largest units. *)
Inductive Age := Seconds (s : Z) | MinSec (m s : Z) | HourMin (h m : Z) | DayHour (d h : Z).
Definition age (s : Z) : Age :=
  if s <? 60 then Seconds s
  else let m := s / 60 in
    if m <? 60 then MinSec m (s mod 60)
    else let h := m / 60 in
      if h <? 24 then HourMin h (m mod 60) else DayHour (h / 24) (h mod 24).
Definition two (a : Z) (ua : string) (b : Z) (ub : string) : string :=
  if b =? 0 then tpl [show_Z a; " "; ua] else tpl [show_Z a; " "; ua; " "; show_Z b; " "; ub].
Definition show_age (a : Age) : string :=
  match a with
  | Seconds s => tpl [show_Z s; " s"]
  | MinSec m s => two m "min" s "s"
  | HourMin h m => two h "h" m "min"
  | DayHour d h => two d "d" h "h"
  end.
Definition formatDurationSeconds (totalSec : number) : string :=
  match totalSec with
  | NaN => "NaN d" | Infinite false => "Infinity d" | Infinite true => "0 s"
  | Finite x => show_age (age (Z.max 0 (round x)))
  end.

(** ** Timestamps as metric values *)

Definition TIME_FIELDS : list string := [".mtime"; ".ctime"; ".atime"; ".time"].
Definition seconds_unit (unit : option string) : bool :=
  existsb (String.eqb (toLowerCase (unit ?? ""))) ["s"; "sec"; "seconds"].
(** The pattern ignores the case of ASCII letters and of no others. *)
Definition isTimestampMetric (unit name : option string) : bool :=
  truthy_opt name && existsb (endsWith (map_chars lower_char (name ?? ""))) TIME_FIELDS && seconds_unit unit.
Definition isSecondsUnit (unit : option string) : bool := seconds_unit unit.

Definition plausible_epoch (x : dbl) : bool := at_least x 1000000000 && le_Z x 7258118400.
(** The milliseconds of [new Date(epochSec * 1000)]: the product rounded to a double, cut to a whole number. *)
Definition epoch_ms (x : dbl) : Z := let '(m, sh) := fdiv (numer x * 1000) (denom x) in floor (Dbl m sh).

Definition formatTimestampSeconds (epochSec : number) (now : Z) : string :=
  match epochSec with
  | Finite x =>
      if plausible_epoch x
      then let iso := toISOString (epoch_ms x) in tpl [formatDateTime iso now; " · "; formatRelative iso now]
      else localeNumber epochSec
  | _ => localeNumber epochSec
  end.
Definition formatTimestampSecondsCompact (epochSec : number) (now : Z) : string :=
  match epochSec with
  | Finite x => if plausible_epoch x then formatRelative (toISOString (epoch_ms x)) now else localeNumber epochSec
  | _ => localeNumber epochSec
  end.
End format.

Definition statusLabel (status : string) : option string :=
  if status =s "ok" then Some "Receiving data" else if status =s "errors" then Some "Errors detected"
  else if status =s "quiet" then Some "Quiet" else if status =s "unhealthy" then Some "Unhealthy" else None.

(** ** Identifiers *)

Definition hex_digit (n : Z) : ascii := String.get (Z.to_nat n) "0123456789abcdef" ?? "0"%char.
(** [x.toString(16)] of a number below 16^(n+1). *)
Fixpoint to_hex (n : nat) (x : Z) : string :=
  match n with
  | O => String (hex_digit x) ""
  | S n => if x <? 16 then String (hex_digit x) "" else to_hex n (x / 16) +:+ String (hex_digit (x mod 16)) ""
  end.
Definition padStart0 (n : nat) (s : string) : string := pad_zeros n s.

(** What the browser offers: [randomUUID] with its answer, [getRandomValues] with sixteen bytes, or
    nothing but [Math.random], each draw below 2^16. *)
Inductive WebCrypto := RandomUUID (s : string) | RandomValues (b : list Z) | NoCrypto (rnd : nat -> Z).

Definition set_version (b : list Z) : list Z :=
  let b := <[6%nat := Z.lor (Z.land (b !! 6%nat ?? 0) 15) 64]> b in
  <[8%nat := Z.lor (Z.land (b !! 8%nat ?? 0) 63) 128]> b.
Definition hex_bytes (b : list Z) : string := join "" ((fun x => padStart0 2 (to_hex 1 x)) <$> b).
Definition group (a b : nat) (s : string) : string := slice_to (b - a) (slice_from a s).
Definition rnd4 (rnd : nat -> Z) (i : nat) : string := padStart0 4 (to_hex 3 (rnd i)).

Definition uid (c : WebCrypto) : string :=
  match c with
  | RandomUUID s => s
  | RandomValues b =>
      let hex := hex_bytes (set_version b) in
      tpl [group 0 8 hex; "-"; group 8 12 hex; "-"; group 12 16 hex; "-"; group 16 20 hex; "-"; slice_from 20 hex]
  | NoCrypto rnd =>
      let r := rnd4 rnd in
      tpl [r 0%nat; r 1%nat; "-"; r 2%nat; "-4"; slice_from 1 (r 3%nat); "-a"; slice_from 1 (r 4%nat); "-"; r 5%nat; r 6%nat; r 7%nat]
  end.

(** ** A time relative to now is close *)

Definition ms_min : Z := 60000.
Definition ms_hour : Z := 3600000.
Definition ms_day : Z := 86400000.

Lemma round_div_spec a b : 0 < b -> - b <= 2 * (a - round_div a b * b) < b.
Proof.
  intros Hb. unfold round_div. pose proof (Z.div_mod (2 * a + b) (2 * b) ltac:(lia)) as E.
  pose proof (Z.mod_pos_bound (2 * a + b) (2 * b) ltac:(lia)). nia.
Qed.

(** Each step of the ladder: in range, and how far from the exact difference. *)
Theorem relative_is_close diff :
  match relative diff with
  | JustNow => diff < 4500
  | SecondsAgo n => 5 <= n <= 59 /\ Z.abs (1000 * n - diff) <= 500
  | MinutesAgo n => 1 <= n <= 59 /\ Z.abs (ms_min * n - diff) <= 30500
  | HoursAgo n => 1 <= n <= 23 /\ Z.abs (ms_hour * n - diff) <= 1830500
  | DaysAgo n => 1 <= n <= 29 /\ Z.abs (ms_day * n - diff) <= 45030500
  | OnDate => ms_day * 30 - 45030500 <= diff
  end.
Proof.
  unfold relative, ms_min, ms_hour, ms_day. cbn zeta.
  pose proof (round_div_spec diff 1000 ltac:(lia)) as H1. set (s0 := round_div diff 1000) in *.
  pose proof (round_div_spec (Z.max 0 s0) 60 ltac:(lia)) as H2. set (m0 := round_div (Z.max 0 s0) 60) in *.
  pose proof (round_div_spec m0 60 ltac:(lia)) as H3. set (h0 := round_div m0 60) in *.
  pose proof (round_div_spec h0 24 ltac:(lia)) as H4. set (d0 := round_div h0 24) in *.
  clearbody s0 m0 h0 d0.
  destruct (Z.ltb_spec (Z.max 0 s0) 5); [lia|]. destruct (Z.ltb_spec (Z.max 0 s0) 60); [lia|].
  destruct (Z.ltb_spec m0 60); [lia|]. destruct (Z.ltb_spec h0 24); [lia|]. destruct (Z.ltb_spec d0 30); lia.
Qed.

(** ** A duration is cut, not rounded, to its two largest units *)

Definition age_seconds (a : Age) : Z :=
  match a with
  | Seconds s => s | MinSec m s => 60 * m + s | HourMin h m => 3600 * h + 60 * m | DayHour d h => 86400 * d + 3600 * h
  end.
(** The value of one more of the smaller unit. *)
Definition age_step (a : Age) : Z :=
  match a with Seconds _ | MinSec _ _ => 1 | HourMin _ _ => 60 | DayHour _ _ => 3600 end.
Definition age_in_range (a : Age) : Prop :=
  match a with
  | Seconds s => 0 <= s < 60
  | MinSec m s => 1 <= m < 60 /\ 0 <= s < 60
  | HourMin h m => 1 <= h < 24 /\ 0 <= m < 60
  | DayHour d h => 1 <= d /\ 0 <= h < 24
  end.

(** A duration is cut to its two largest units, each in range. *)
Theorem duration_is_cut s :
  0 <= s -> age_in_range (age s) /\ age_seconds (age s) <= s < age_seconds (age s) + age_step (age s).
Proof.
  intros Hs. unfold age. cbn zeta.
  pose proof (Z.div_mod s 60 ltac:(lia)) as E1. pose proof (Z.mod_pos_bound s 60 ltac:(lia)) as B1.
  set (m := s / 60) in *. set (rs := s mod 60) in *.
  pose proof (Z.div_mod m 60 ltac:(lia)) as E2. pose proof (Z.mod_pos_bound m 60 ltac:(lia)) as B2.
  set (h := m / 60) in *. set (rm := m mod 60) in *.
  pose proof (Z.div_mod h 24 ltac:(lia)) as E3. pose proof (Z.mod_pos_bound h 24 ltac:(lia)) as B3.
  set (d := h / 24) in *. set (rh := h mod 24) in *. clearbody m rs h rm d rh.
  destruct (Z.ltb_spec s 60); [cbn; lia|]. destruct (Z.ltb_spec m 60); [cbn; lia|].
  destruct (Z.ltb_spec h 24); cbn; lia.
Qed.

(** ** Sizes *)

Section sizes.
Context `{Locale}.
(** The browser's logarithm is exact enough: its floor is that of the exact quotient. *)
Hypothesis log1024_floor : forall x, 1 * denom x <= numer x ->
  0 <= log1024 x /\ 1024 ^ log1024 x * denom x <= numer x < 1024 ^ (log1024 x + 1) * denom x.

Lemma in_unit_value x i :
  0 <= i -> numer (in_unit x i) * (1024 ^ i * denom x) = numer x * denom (in_unit x i).
Proof.
  intros Hi. unfold numer, denom, in_unit. cbn [d_num d_shift]. set (k := d_shift x). set (m := d_num x).
  replace (1024 ^ i) with (2 ^ (10 * i)) by (rewrite Z.pow_mul_r by lia; done).
  rewrite <- !Z.mul_assoc. f_equal. rewrite <- !Z.pow_add_r by lia. f_equal. lia.
Qed.

Lemma at_least_spec x c : at_least x c = true <-> c * denom x <= numer x.
Proof.
  unfold at_least, le_Z. rewrite Z.leb_le.
  assert (E : numer (neg x) = - numer x) by apply Z.mul_opp_l.
  assert (E' : denom (neg x) = denom x) by done. rewrite E, E'. lia.
Qed.

(** A size of at least one byte is printed in the largest unit that fits, with at least three digits above
    the bytes, so the printed value is within half a percent, and it is below 1024 of its unit or rounds to it. *)
Theorem size_is_close x :
  1 * denom x <= numer x ->
  let i := byte_unit x in
  let v := in_unit x i in
  let p := fixed (byte_digits i v) v in
  let ten := 10 ^ Z.of_nat (byte_digits i v) in
  0 <= i <= 5 /\ (i < 5 -> p <= 1024 * ten) /\
  (1 <= i -> 200 * Z.abs (p * denom v - numer v * ten) <= numer v * ten) /\
  numer v * (1024 ^ i * denom x) = numer x * denom v.
Proof.
  intros Hx. cbn zeta. destruct (log1024_floor x Hx) as [Hl [Hlo Hhi]].
  set (i := byte_unit x). set (v := in_unit x i). set (k := byte_digits i v).
  assert (Hi : 0 <= i <= 5 /\ i <= log1024 x /\ (i < 5 -> i = log1024 x)).
  { unfold i, byte_unit. cbn. lia. }
  destruct Hi as (Hi & Hi' & Heq). pose proof (in_unit_value x i ltac:(lia)) as Ev. fold v in Ev.
  pose proof (denom_pos x) as Hdx. pose proof (denom_pos v) as Hdv.
  assert (Hpi : 0 < 1024 ^ i) by (apply Z.pow_pos_nonneg; lia).
  assert (Hv1 : denom v <= numer v).
  { assert (HT : 1024 ^ i * denom x <= numer x).
    { transitivity (1024 ^ log1024 x * denom x); [|done]. apply Z.mul_le_mono_nonneg_r; [lia|]. apply Z.pow_le_mono_r; lia. }
    apply Z.mul_le_mono_pos_r with (1024 ^ i * denom x); [nia|]. rewrite Ev, (Z.mul_comm (denom v)).
    apply Z.mul_le_mono_nonneg_r; [lia|done]. }
  pose proof (fixed_spec k v) as Hf. set (p := fixed k v) in *.
  split; [lia|]. split; [|split; [|exact Ev]].
  - intros H5. rewrite <- (Heq H5) in Hhi. rewrite Z.pow_add_r in Hhi by lia.
    assert (numer v < 1024 * denom v).
    { apply Z.mul_lt_mono_pos_r with (1024 ^ i * denom x); [nia|]. rewrite Ev.
      replace (1024 * denom v * (1024 ^ i * denom x)) with (1024 ^ i * 1024 ^ 1 * denom x * denom v) by ring.
      apply Z.mul_lt_mono_pos_r; [lia|done]. }
    assert (0 < 10 ^ Z.of_nat k) by (apply Z.pow_pos_nonneg; lia).
    set (t := 10 ^ Z.of_nat k) in *. clearbody t p. nia.
  - intros H1. unfold k, byte_digits in *. destruct (Z.eqb_spec i 0); [lia|].
    destruct (at_least v 100) eqn:E100.
    { apply at_least_spec in E100. change (10 ^ Z.of_nat 0) with 1 in *. clearbody p. lia. }
    destruct (at_least v 10) eqn:E10.
    { apply at_least_spec in E10. change (10 ^ Z.of_nat 1) with 10 in *. clearbody p. lia. }
    change (10 ^ Z.of_nat 2) with 100 in *. clearbody p. lia.
Qed.
End sizes.

(** ** Milliseconds *)

(** The printed number of a duration in milliseconds, in units of 10^-k of its unit. *)
Definition ms_shown (x : dbl) : Z * nat * Z :=
  if lt_Z x 1 then (fixed 2 x, 2%nat, 1) else if lt_Z x 1000 then (fixed 0 x, 0%nat, 1)
  else (fixed 2 (div_1000 x), 2%nat, 1000).

(** A duration that is not negative and below 10^21 ms prints that number, the one nearest to the value,
    or, from a second on, nearest to the double nearest to the thousandth of the value. *)
Theorem ms_is_nearest `{Locale} x :
  0 <= numer x < 10 ^ 21 * denom x ->
  let '(p, k, u) := ms_shown x in
  let y := if u =? 1 then x else div_1000 x in
  (u = 1000 -> numer y < 10 ^ 21 * denom y) ->
  formatDurationMs (Finite x) = tpl [show_fixed k p; if u =? 1 then " ms" else " s"] /\
  - denom y <= 2 * (numer y * 10 ^ Z.of_nat k - p * denom y) < denom y /\
  (u = 1000 -> exists a b, a = 2 ^ Z.max 0 (d_shift y) /\ b = 2 ^ Z.max 0 (- d_shift y) /\
     2 * Z.abs (numer x * a - d_num y * (1000 * denom x * b)) <= 1000 * denom x * b).
Proof.
  intros [H0 Hb]. pose proof (denom_pos x) as Hd. unfold ms_shown, formatDurationMs, toFixed.
  assert (Hn : (numer x <? 0) = false) by (apply Z.ltb_ge; lia).
  assert (Hbig : (10 ^ 21 * denom x <=? numer x) = false) by (apply Z.leb_gt; lia).
  destruct (lt_Z x 1).
  { change (1 =? 1) with true. cbv iota. intros _. rewrite Hn, Hbig. split; [done|]. split; [apply fixed_spec|done]. }
  destruct (lt_Z x 1000) eqn:Hk.
  { change (1 =? 1) with true. cbv iota. intros _. rewrite Hn, Hbig. split; [done|]. split; [apply fixed_spec|done]. }
  change (1000 =? 1) with false. cbv iota. intros Hy. specialize (Hy eq_refl).
  unfold lt_Z in Hk. apply Z.ltb_ge in Hk.
  assert (Hpos : 0 <= numer (div_1000 x)).
  { unfold div_1000, fdiv. destruct (Z.leb_spec (numer x) 0); [lia|]. unfold numer at 1. cbn [d_num d_shift].
    apply Z.mul_nonneg_nonneg; [|apply Z.pow_nonneg; lia]. apply round_bits_nonneg; lia. }
  rewrite (proj2 (Z.ltb_ge _ _) Hpos), (proj2 (Z.leb_gt _ _) Hy).
  split; [done|]. split; [apply fixed_spec|]. intros _. unfold div_1000, fdiv.
  destruct (Z.leb_spec (numer x) 0); [lia|]. do 2 eexists. split; [reflexivity|]. split; [reflexivity|].
  cbn [d_num d_shift]. apply round_bits_spec. lia.
Qed.

(** ** Timestamps *)

(** A metric value of whole seconds is the date of that second. *)
Theorem whole_seconds_keep_their_date `{Host} `{Locale} s now :
  date_ms (toISOString (1000 * s)) = Some (1000 * s) -> 1000000000 <= s <= 7258118400 ->
  formatTimestampSecondsCompact (Finite (of_Z s)) now =
    match relative (now - 1000 * s) with
    | JustNow => "just now" | SecondsAgo n => tpl [show_Z n; " seconds ago"] | MinutesAgo n => tpl [show_Z n; " min ago"]
    | HoursAgo n => tpl [show_Z n; " h ago"] | DaysAgo n => tpl [show_Z n; " d ago"]
    | OnDate => localeDate (negb (getFullYear (1000 * s) =? getFullYear now)) (Some (1000 * s))
    end.
Proof.
  intros Hiso Hs. unfold formatTimestampSecondsCompact.
  assert (Hp : plausible_epoch (of_Z s) = true).
  { unfold plausible_epoch. apply andb_true_iff. split; [apply at_least_spec|unfold le_Z; apply Z.leb_le];
      rewrite denom_of_Z, numer_of_Z; lia. }
  rewrite Hp. assert (He : epoch_ms (of_Z s) = 1000 * s).
  { unfold epoch_ms. rewrite numer_of_Z, denom_of_Z. destruct (fdiv_whole (s * 1000)) as (sh & Hsh & ->); [lia|].
    rewrite floor_whole by done. lia. }
  rewrite He. unfold formatRelative. rewrite Hiso. done.
Qed.

(** ** Identifiers *)

Definition is_hex (c : ascii) : bool := match index_of c "0123456789abcdef" with Some _ => true | None => false end.
(** The shape of a version 4 UUID, character by character. *)
Definition V4 : list (ascii -> bool) :=
  repeat is_hex 8 ++ [Ascii.eqb "-"] ++ repeat is_hex 4 ++ [Ascii.eqb "-"; Ascii.eqb "4"] ++ repeat is_hex 3
  ++ [Ascii.eqb "-"; fun c => existsb (Ascii.eqb c) ["8"; "9"; "a"; "b"]%char] ++ repeat is_hex 3
  ++ [Ascii.eqb "-"] ++ repeat is_hex 12.
Fixpoint shaped (ps : list (ascii -> bool)) (s : string) : bool :=
  match ps, s with
  | [], "" => true
  | p :: ps, String c s => p c && shaped ps s
  | _, _ => false
  end.
Definition is_v4 (s : string) : bool := shaped V4 s.

Lemma below_forallb (p : Z -> bool) n x :
  forallb p (seqZ 0 n) = true -> 0 <= x < n -> p x = true.
Proof. intros H Hx. rewrite List.forallb_forall in H. apply H. apply list_elem_of_In, elem_of_seqZ. lia. Qed.

Lemma hex_digit_hex n : 0 <= n < 16 -> is_hex (hex_digit n) = true.
Proof. by apply (below_forallb (fun n => is_hex (hex_digit n)) 16). Qed.

Lemma byte_hex x : 0 <= x < 256 ->
  exists a b, padStart0 2 (to_hex 1 x) = String a (String b "") /\ is_hex a = true /\ is_hex b = true.
Proof.
  intros Hx. pose proof (Z.mod_pos_bound x 16 ltac:(lia)). pose proof (Z_div_mod_eq_full x 16).
  cbn [to_hex]. destruct (x <? 16) eqn:E; [exists "0"%char, (hex_digit x)|exists (hex_digit (x / 16)), (hex_digit (x mod 16))];
    (split; [done|]; rewrite ?hex_digit_hex by lia; done).
Qed.

Lemma short_hex x : 0 <= x < 65536 ->
  exists a b c d, padStart0 4 (to_hex 3 x) = String a (String b (String c (String d ""))) /\
    is_hex a = true /\ is_hex b = true /\ is_hex c = true /\ is_hex d = true.
Proof.
  intros Hx. pose proof (Z.mod_pos_bound x 16 ltac:(lia)). pose proof (Z_div_mod_eq_full x 16).
  set (y := x / 16) in *. pose proof (Z.mod_pos_bound y 16 ltac:(lia)). pose proof (Z_div_mod_eq_full y 16).
  set (z := y / 16) in *. pose proof (Z.mod_pos_bound z 16 ltac:(lia)). pose proof (Z_div_mod_eq_full z 16).
  cbn [to_hex]. fold y. fold z.
  destruct (x <? 16) eqn:E1; [|destruct (y <? 16) eqn:E2; [|destruct (z <? 16) eqn:E3]].
  - exists "0"%char, "0"%char, "0"%char, (hex_digit x). split; [done|]. by rewrite hex_digit_hex by lia.
  - exists "0"%char, "0"%char, (hex_digit y), (hex_digit (x mod 16)). split; [done|]. by rewrite !hex_digit_hex by lia.
  - exists "0"%char, (hex_digit z), (hex_digit (y mod 16)), (hex_digit (x mod 16)). split; [done|]. by rewrite !hex_digit_hex by lia.
  - exists (hex_digit (z / 16)), (hex_digit (z mod 16)), (hex_digit (y mod 16)), (hex_digit (x mod 16)).
    split; [done|]. by rewrite !hex_digit_hex by lia.
Qed.

(** The bytes with the version and the variant. *)
Definition version_byte (x : Z) : bool :=
  match padStart0 2 (to_hex 1 (Z.lor (Z.land x 15) 64)) with String "4" (String b "") => is_hex b | _ => false end.
Definition variant_byte (x : Z) : bool :=
  match padStart0 2 (to_hex 1 (Z.lor (Z.land x 63) 128)) with
  | String a (String b "") => existsb (Ascii.eqb a) ["8"; "9"; "a"; "b"]%char && is_hex b | _ => false end.

Lemma version_hex x : 0 <= x < 256 ->
  exists b, padStart0 2 (to_hex 1 (Z.lor (Z.land x 15) 64)) = String "4" (String b "") /\ is_hex b = true.
Proof.
  intros Hx. pose proof (below_forallb version_byte 256 x ltac:(vm_compute; reflexivity) Hx) as Ht.
  unfold version_byte in Ht. destruct (padStart0 _ _) as [|a s]; [done|].
  destruct (ascii_dec a "4") as [->|Hn].
  - destruct s as [|b [|]]; try done. by exists b.
  - exfalso. destruct a as [[] [] [] [] [] [] [] []]; try done; by apply Hn.
Qed.

Lemma variant_hex x : 0 <= x < 256 ->
  exists a b, padStart0 2 (to_hex 1 (Z.lor (Z.land x 63) 128)) = String a (String b "") /\
    existsb (Ascii.eqb a) ["8"; "9"; "a"; "b"]%char = true /\ is_hex b = true.
Proof.
  intros Hx. pose proof (below_forallb variant_byte 256 x ltac:(vm_compute; reflexivity) Hx) as Ht.
  unfold variant_byte in Ht. destruct (padStart0 _ _) as [|a [|b [|]]]; try done.
  apply andb_true_iff in Ht as [? ?]. by exists a, b.
Qed.

(** What the browser documents of its source of randomness. *)
Definition sound (c : WebCrypto) : Prop :=
  match c with
  | RandomUUID s => is_v4 s = true
  | RandomValues b => length b = 16%nat /\ Forall (fun x => 0 <= x < 256) b
  | NoCrypto rnd => forall i, 0 <= rnd i < 65536
  end.

Ltac hex_pair x Hx :=
  let a := fresh "a" in let b := fresh "b" in let E := fresh "E" in let Ha := fresh "Ha" in let Hb := fresh "Hb" in
  destruct (byte_hex x Hx) as (a & b & E & Ha & Hb); rewrite E; clear E.
Ltac hex_four rnd i H :=
  let a := fresh "a" in let b := fresh "b" in let c := fresh "c" in let d := fresh "d" in let E := fresh "E" in
  let Ha := fresh "Ha" in let Hb := fresh "Hb" in let Hc := fresh "Hc" in let Hd := fresh "Hd" in
  destruct (short_hex (rnd i) (H i)) as (a & b & c & d & E & Ha & Hb & Hc & Hd);
  change (rnd4 rnd i) with (padStart0 4 (to_hex 3 (rnd i))); rewrite E; clear E.

(** The shape, with the tests that constants pass already made. *)
Lemma shaped_cons p ps c s : p c = true -> shaped ps s = true -> shaped (p :: ps) (String c s) = true.
Proof. intros H1 H2. cbn. by rewrite H1, H2. Qed.

Ltac by_shape := unfold V4; cbn [repeat app]; repeat (apply shaped_cons; [first [assumption | reflexivity]|]); reflexivity.

(** Whatever the browser offers, an identifier has the shape of a version 4 UUID. *)
Theorem uid_is_v4 c : sound c -> is_v4 (uid c) = true.
Proof.
  destruct c as [s|l|rnd]; cbn [sound]; [done| |].
  - intros [Hlen HF].
    do 16 (destruct l as [|? l]; [done|]; cbn in Hlen). destruct l; [|done].
    repeat match goal with H : Forall _ (_ :: _) |- _ => apply Forall_cons in H as [? ?] end.
    unfold uid, set_version. cbn [list_lookup lookup list_insert insert default].
    unfold hex_bytes, id. cbn [list_fmap fmap].
    destruct (version_hex z5 ltac:(done)) as (v & Ev & Hv). destruct (variant_hex z7 ltac:(done)) as (w & w' & Ew & Hw & Hw').
    rewrite Ev, Ew. clear Ev Ew.
    repeat match goal with Hz : 0 <= ?x < 256 |- context [to_hex 1 ?x] => hex_pair x Hz end.
    unfold is_v4, group. cbn -[is_hex shaped V4]. by_shape.
  - intros H. unfold uid. cbn zeta. hex_four rnd 0%nat H. hex_four rnd 1%nat H. hex_four rnd 2%nat H. hex_four rnd 3%nat H.
    hex_four rnd 4%nat H. hex_four rnd 5%nat H. hex_four rnd 6%nat H. hex_four rnd 7%nat H.
    unfold is_v4. cbn -[is_hex shaped V4]. by_shape.
Qed.

Lemma uid_is_v4_witness : is_v4 (uid (RandomValues (repeat 255 16))) = true.
Proof. apply uid_is_v4. split; [reflexivity|]. repeat constructor; lia. Defined.

(** ** A size read with an exact logarithm *)

#[export] Instance plain_locale : Locale := {|
  getFullYear t := 1970 + t / 31556952000; localeDate y t := "a date"; localeDateTime y t := "a date and time";
  localeNumber n := "a number"; localeNumber2 n := "a number"; localeCompact n := "a number";
  toISOString := show_Z; number_to_string x := "a large number"; log1024 x := Z.log2 (floor x) / 10 |}.

Lemma plain_log1024_floor x : 1 * denom x <= numer x ->
  0 <= log1024 x /\ 1024 ^ log1024 x * denom x <= numer x < 1024 ^ (log1024 x + 1) * denom x.
Proof.
  intros Hx. cbn [log1024 plain_locale]. pose proof (denom_pos x) as Hd. pose proof (floor_spec x) as Hf.
  set (f := floor x) in *. assert (Hf1 : 0 < f) by nia.
  pose proof (Z.log2_spec f Hf1) as [Hlo Hhi]. pose proof (Z.log2_nonneg f) as Hl. set (l := Z.log2 f) in *.
  pose proof (Z.div_mod l 10 ltac:(lia)) as E. pose proof (Z.mod_pos_bound l 10 ltac:(lia)).
  set (q := l / 10) in *. assert (Hq : 0 <= q) by lia. split; [done|].
  assert (H1 : 1024 ^ q <= f).
  { transitivity (2 ^ l); [|done]. change 1024 with (2 ^ 10). rewrite <- Z.pow_mul_r by lia. apply Z.pow_le_mono_r; lia. }
  assert (H2 : f + 1 <= 1024 ^ (q + 1)).
  { transitivity (2 ^ Z.succ l); [lia|]. change 1024 with (2 ^ 10). rewrite <- Z.pow_mul_r by lia. apply Z.pow_le_mono_r; lia. }
  clearbody f q l. split; nia.
Qed.

Definition ex_size : dbl := of_Z 1048575.
Lemma size_is_close_witness :
  formatBytes (Finite ex_size) = "1024 KB" /\
  fixed (byte_digits 1 (in_unit ex_size 1)) (in_unit ex_size 1) <= 1024 * 10 ^ Z.of_nat (byte_digits 1 (in_unit ex_size 1)).
Proof.
  split; [vm_compute; reflexivity|].
  refine (proj1 (proj2 (size_is_close plain_log1024_floor ex_size _)) _); [|reflexivity]. vm_compute. discriminate.
Defined.

Lemma duration_is_cut_witness : formatDurationSeconds (Finite (of_Z 12345)) = "3 h 25 min" /\ age_in_range (age 12345).
Proof. split; [vm_compute; reflexivity|]. apply (duration_is_cut 12345). lia. Defined.

(** July 2026, and no other date. *)
Definition july_locale : Locale := {|
  getFullYear t := 2026; localeDate y t := "a date"; localeDateTime y t := "a date and time";
  localeNumber n := "a number"; localeNumber2 n := "a number"; localeCompact n := "a number";
  toISOString ms := if ms =? 1782864000000 then "2026-07-01T00:00:00.000Z" else ""; number_to_string x := "";
  log1024 x := 0 |}.

Lemma whole_seconds_keep_their_date_witness :
  formatTimestampSecondsCompact (H := plain_host) (H0 := july_locale) (Finite (of_Z 1782864000)) 1782864007000 = "7 seconds ago".
Proof.
  refine (whole_seconds_keep_their_date (H := plain_host) (H0 := july_locale) 1782864000 1782864007000 _ _);
    [vm_compute; reflexivity|lia].
Defined.

Lemma ms_is_nearest_witness : formatDurationMs (Finite (of_Z 1234)) = "1.23 s".
Proof.
  refine (proj1 (ms_is_nearest (of_Z 1234) _ _)); [|intros _; vm_compute; reflexivity].
  vm_compute. split; [discriminate|reflexivity].
Defined.
