(* ===== verification/MatcherRules.v ===== *)
(** * Membership rules and matcher rows

    [components/MatcherRules.tsx]: an integration's members are edited as
    rules (a service and attribute conditions joined by AND or OR) and stored
    as a flat disjunctive normal form of matcher rows.  This file models both
    translations and the preview sentence. *)

From S2P Require Import Prelude JsString JsArray.

Local Open Scope char_scope.
Local Open Scope string_scope.
Local Open Scope list_scope.
Local Open Scope Z_scope.

(** ** Data *)

Inductive MatcherOperator :=
  | equals | prefix | suffix | contains | regex
  | not_equals | not_contains | op_exists | op_not_exists.

#[export] Instance MatcherOperator_eq_dec : EqDecision MatcherOperator.
Proof. solve_decision. Defined.

(** The operator as it is written on the wire. *)
Definition show_op (o : MatcherOperator) : string :=
  match o with
  | equals => "equals" | prefix => "prefix" | suffix => "suffix" | contains => "contains"
  | regex => "regex" | not_equals => "not_equals" | not_contains => "not_contains"
  | op_exists => "exists" | op_not_exists => "not_exists"
  end.

Inductive RuleMatch := match_any | match_all.
#[export] Instance RuleMatch_eq_dec : EqDecision RuleMatch.
Proof. solve_decision. Defined.

Record OperatorChoice := { oc_value : MatcherOperator; oc_label : string; oc_sym : string }.
Definition RULE_OPERATORS : list OperatorChoice := [
  {| oc_value := equals; oc_label := "is"; oc_sym := "=" |};
  {| oc_value := prefix; oc_label := "starts with"; oc_sym := "starts with" |};
  {| oc_value := suffix; oc_label := "ends with"; oc_sym := "ends with" |};
  {| oc_value := contains; oc_label := "contains"; oc_sym := "contains" |};
  {| oc_value := regex; oc_label := "matches regex"; oc_sym := "matches" |}].
Definition ATTR_OPERATORS : list OperatorChoice := RULE_OPERATORS ++ [
  {| oc_value := not_equals; oc_label := "is not"; oc_sym := "≠" |};
  {| oc_value := not_contains; oc_label := "doesn't contain"; oc_sym := "doesn't contain" |};
  {| oc_value := op_exists; oc_label := "exists"; oc_sym := "exists" |};
  {| oc_value := op_not_exists; oc_label := "is absent"; oc_sym := "is absent" |}].
Definition VALUELESS_MATCHER_OPS : list MatcherOperator := [op_exists; op_not_exists].
Definition valueless (o : MatcherOperator) : bool := bool_decide (o ∈ VALUELESS_MATCHER_OPS).

Definition SERVICE_NAME_ATTR : string := "service.name".

Record AttrCond := {
  ac_attribute : string;
  ac_operator : MatcherOperator;
  ac_value : string;
  ac_custom : option bool
}.

Record Rule := {
  r_serviceOp : MatcherOperator;
  r_service : string;
  r_combine : RuleMatch;
  r_attrs : list AttrCond;
  r_descendants : option bool
}.

Record MatcherInput := {
  m_attribute : string;
  m_operator : MatcherOperator;
  m_value : string;
  m_group : Z;
  m_include_descendants : option bool;
  m_member : option Z
}.

Definition blankAttr : AttrCond :=
  {| ac_attribute := ""; ac_operator := equals; ac_value := ""; ac_custom := None |}.

(** [blankRule({ serviceOp, service })], the seeds the code passes. *)
Definition blankRule (op : MatcherOperator) (service : string) : Rule :=
  {| r_serviceOp := op; r_service := service; r_combine := match_any; r_attrs := [];
     r_descendants := None |}.

Definition sym (o : MatcherOperator) : string :=
  (oc_sym <$> List.find (fun x => bool_decide (oc_value x = o)) ATTR_OPERATORS) ?? show_op o.

Definition descends (r : Rule) : bool := r_descendants r ?? false.

(** ** Conditions *)

(** The sentence under a condition being edited. *)
Definition fieldHelp (a : AttrCond) : string :=
  let field := trim (ac_attribute a) in
  if negb (truthy field) then "Pick an attribute to filter this service's traffic on."
  else match ac_operator a with
  | op_exists => tpl ["This service's traffic that carries "; field; " at all, whatever its value."]
  | op_not_exists => tpl ["This service's traffic that does not carry "; field; " at all."]
  | op =>
      let phrase := match op with
        | equals => "is exactly" | prefix => "starts with" | suffix => "ends with"
        | contains => "contains" | regex => "matches the regex"
        | not_equals => "is anything other than" | not_contains => "does not contain"
        | _ => "" end in
      let negated := bool_decide (op = not_equals) || bool_decide (op = not_contains) in
      tpl ["This service's traffic where "; field; " "; phrase; " the value."] +:+
      (if negated then
         tpl [" Traffic with no "; field; " at all matches too — use "; String "034"%char "is absent";
              String "034"%char " for only those."]
       else "")
  end.

(** Half-typed conditions are dropped. *)
Definition trimCond (a : AttrCond) : AttrCond :=
  {| ac_attribute := trim (ac_attribute a); ac_operator := ac_operator a;
     ac_value := trim (ac_value a); ac_custom := None |}.
Definition completeCond (a : AttrCond) : bool :=
  truthy (ac_attribute a) && (truthy (ac_value a) || valueless (ac_operator a)).
Definition validAttrs (r : Rule) : list AttrCond :=
  List.filter completeCond (trimCond <$> r_attrs r).

(** ** Rules to rows *)

Section to_rows.
(** The flag and the member every row of a rule carries. *)
Context (flag : option bool) (member : Z).

Definition row (group : Z) (attribute : string) (op : MatcherOperator) (value : string) : MatcherInput :=
  {| m_attribute := attribute; m_operator := op; m_value := value; m_group := group;
     m_include_descendants := flag; m_member := Some member |}.
Definition row_of (group : Z) (a : AttrCond) : MatcherInput :=
  row group (ac_attribute a) (ac_operator a) (ac_value a).
Definition svc_row (group : Z) (r : Rule) : MatcherInput :=
  row group SERVICE_NAME_ATTR (r_serviceOp r) (trim (r_service r)).

(** The [else] branch: one group per condition. *)
Fixpoint or_rows (group : Z) (r : Rule) (attrs : list AttrCond) : list MatcherInput :=
  match attrs with
  | [] => []
  | a :: attrs => [svc_row group r; row_of group a] ++ or_rows (group + 1) r attrs
  end.
End to_rows.

(** The rows one rule expands into, and the next free group. *)
Definition rule_rows (r : Rule) (group member : Z) : list MatcherInput * Z :=
  let flag := if descends r then Some true else None in
  match validAttrs r, r_combine r with
  | [], _ => ([svc_row flag member group r], group + 1)
  | attrs, match_all => (svc_row flag member group r :: (row_of flag member group <$> attrs), group + 1)
  | attrs, match_any => (or_rows flag member group r attrs, group + Z.of_nat (length attrs))
  end.

Fixpoint rulesToMatchers_from (group member : Z) (rules : list Rule) : list MatcherInput :=
  match rules with
  | [] => []
  | r :: rules =>
      if truthy (trim (r_service r)) then
        let (rows, group') := rule_rows r group member in
        rows ++ rulesToMatchers_from group' (member + 1) rules
      else rulesToMatchers_from group member rules
  end.
Definition rulesToMatchers (rules : list Rule) : list MatcherInput := rulesToMatchers_from 0 0 rules.

(** ** Rows to rules *)

Definition is_svc (m : MatcherInput) : bool := m_attribute m =s SERVICE_NAME_ATTR.
Definition attr_of (m : MatcherInput) : AttrCond :=
  {| ac_attribute := m_attribute m; ac_operator := m_operator m; ac_value := m_value m; ac_custom := None |}.

(** The key a group's rule is stored under: the member when a row carries
    one, otherwise the service selector. *)
Definition rule_key (ms : list MatcherInput) (svc : MatcherInput) : string :=
  match List.find (fun m => match m_member m with Some _ => true | None => false end) ms with
  | Some {| m_member := Some n |} => tpl ["member"; NUL; show_Z n]
  | _ => tpl [show_op (m_operator svc); NUL; m_value svc]
  end.

(** The loop state: rules by key in first-seen order, and the rules of
    groups without a service. *)
Record Buckets := { b_rules : list (string * Rule); b_noService : list Rule }.

Definition add_group (b : Buckets) (ms : list MatcherInput) : Buckets :=
  let attrs := attr_of <$> List.filter (fun m => negb (is_svc m)) ms in
  let descendants := existsb (fun m => m_include_descendants m ?? false) ms in
  match List.find is_svc ms with
  | None =>
      {| b_rules := b_rules b;
         b_noService := b_noService b ++
           [{| r_serviceOp := equals; r_service := "";
               r_combine := if (1 <? length attrs)%nat then match_all else match_any;
               r_attrs := attrs; r_descendants := Some descendants |}] |}
  | Some svc =>
      let key := rule_key ms svc in
      let rule := omap_get key (b_rules b) ??
        {| r_serviceOp := m_operator svc; r_service := m_value svc; r_combine := match_any;
           r_attrs := []; r_descendants := None |} in
      let rule' :=
        {| r_serviceOp := r_serviceOp rule; r_service := r_service rule;
           r_combine := if (1 <? length attrs)%nat then match_all else r_combine rule;
           r_attrs := r_attrs rule ++ attrs;
           r_descendants := Some (descends rule || descendants) |} in
      {| b_rules := omap_set key rule' (b_rules b); b_noService := b_noService b |}
  end.

Definition matchersToRules (matchers : list MatcherInput) : list Rule :=
  let byGroup := group_by m_group matchers in
  let b := foldl (fun b g => add_group b (omap_get g byGroup ?? []))
             {| b_rules := []; b_noService := [] |}
             (sort (cmp_by id) (omap_keys byGroup)) in
  omap_values (b_rules b) ++ b_noService b.

(** ** The preview *)

Definition rule_preview (r : Rule) : option string :=
  let service := trim (r_service r) in
  if negb (truthy service) then None
  else
    let svc := tpl ["service "; sym (r_serviceOp r); " "; service] in
    let children := if descends r then " + child spans" else "" in
    Some (match validAttrs r with
    | [] => tpl ["("; svc; ")"; children]
    | attrs =>
        let joiner := match r_combine r with match_all => " AND " | match_any => " OR " end in
        let inner := join joiner
          ((fun a => tpl [ac_attribute a; " "; sym (ac_operator a); " "; ac_value a]) <$> attrs) in
        tpl ["("; svc; " AND ("; inner; "))"; children]
    end).

Definition rulesPreview (rules : list Rule) (combine : RuleMatch) : string :=
  let parts := omap rule_preview rules in
  match combine with
  | match_all =>
      join "  AND  " parts +:+
        (if (1 <? length parts)%nat then "   (all within one trace)" else "")
  | match_any => join "  OR  " parts
  end.

(** ** Groups

    The rows of a list of rules, group by group: a group is a function of
    its number. *)

Definition rule_groups (member : Z) (r : Rule) : list (Z -> list MatcherInput) :=
  let flag := if descends r then Some true else None in
  match validAttrs r, r_combine r with
  | [], _ => [fun g => [svc_row flag member g r]]
  | attrs, match_all => [fun g => svc_row flag member g r :: (row_of flag member g <$> attrs)]
  | attrs, match_any => (fun a g => [svc_row flag member g r; row_of flag member g a]) <$> attrs
  end.

Fixpoint number_from (g : Z) (gs : list (Z -> list MatcherInput)) : list (Z * list MatcherInput) :=
  match gs with [] => [] | f :: gs => (g, f g) :: number_from (g + 1) gs end.

Definition rows_of (gs : list (Z * list MatcherInput)) : list MatcherInput := concat gs.*2.

Definition complete (r : Rule) : bool := truthy (trim (r_service r)).

Fixpoint all_groups (member : Z) (rules : list Rule) : list (Z -> list MatcherInput) :=
  match rules with
  | [] => []
  | r :: rules =>
      if complete r then rule_groups member r ++ all_groups (member + 1) rules
      else all_groups member rules
  end.

Lemma number_from_app g gs1 gs2 :
  number_from g (gs1 ++ gs2) = number_from g gs1 ++ number_from (g + Z.of_nat (length gs1)) gs2.
Proof.
  revert g. induction gs1 as [|f gs1 IH]; intros g; simpl.
  - f_equal. lia.
  - rewrite IH. do 3 f_equal. lia.
Qed.

Lemma or_rows_number flag member g r attrs :
  or_rows flag member g r attrs =
    rows_of (number_from g ((fun a g => [svc_row flag member g r; row_of flag member g a]) <$> attrs)).
Proof.
  revert g. induction attrs as [|a attrs IH]; intros g; [done|].
  cbn [or_rows]. rewrite IH. done.
Qed.

Lemma rule_rows_number r g member :
  rule_rows r g member =
    (rows_of (number_from g (rule_groups member r)), g + Z.of_nat (length (rule_groups member r))).
Proof.
  unfold rule_rows, rule_groups. destruct (validAttrs r) as [|a attrs] eqn:E; [done|].
  destruct (r_combine r).
  - rewrite or_rows_number. f_equal. by rewrite length_fmap.
  - unfold rows_of. cbn [number_from fmap list_fmap snd concat length]. by rewrite app_nil_r.
Qed.

Lemma rulesToMatchers_number rules g member :
  rulesToMatchers_from g member rules = rows_of (number_from g (all_groups member rules)).
Proof.
  revert g member. induction rules as [|r rules IH]; intros g member; simpl; [done|].
  unfold complete. destruct (truthy _); [|apply IH].
  rewrite rule_rows_number, IH, number_from_app. unfold rows_of.
  by rewrite fmap_app, concat_app.
Qed.

(** A group numbered [g] is not empty and all its rows say so. *)
Definition well_numbered (f : Z -> list MatcherInput) : Prop :=
  forall g, f g <> [] /\ Forall (fun m => m_group m = g) (f g).

Lemma rule_groups_wn member r : Forall well_numbered (rule_groups member r).
Proof.
  unfold rule_groups. destruct (validAttrs r) as [|a attrs]; [repeat constructor; done|].
  destruct (r_combine r).
  - apply Forall_fmap, Forall_true. intros b g. split; [done|]. repeat constructor.
  - constructor; [|constructor]. intros g. split; [done|]. constructor; [done|].
    apply Forall_fmap, Forall_true. done.
Qed.

Lemma all_groups_wn member rules : Forall well_numbered (all_groups member rules).
Proof.
  revert member. induction rules as [|r rules IH]; intros member; simpl; [constructor|].
  destruct (complete r); [|done]. apply Forall_app. split; [apply rule_groups_wn|done].
Qed.

Lemma number_from_keys_ge g gs k : k ∈ (number_from g gs).*1 -> g <= k.
Proof.
  revert g. induction gs as [|f gs IH]; intros g; simpl; [set_solver|].
  intros [->|H]%elem_of_cons; [lia|]. apply IH in H. lia.
Qed.

Lemma number_from_keys_sorted g gs : StronglySorted (cmp_le (cmp_by id)) (number_from g gs).*1.
Proof.
  revert g. induction gs as [|f gs IH]; intros g; simpl; constructor; [done|].
  apply Forall_forall. intros k Hk. apply number_from_keys_ge in Hk.
  unfold cmp_le, cmp_by. simpl. lia.
Qed.

Lemma number_from_keys_NoDup g gs : NoDup (number_from g gs).*1.
Proof.
  revert g. induction gs as [|f gs IH]; intros g; simpl; constructor; [|done].
  intros H. apply number_from_keys_ge in H. lia.
Qed.

Lemma rows_of_cons g ms l : rows_of ((g, ms) :: l) = ms ++ rows_of l.
Proof. reflexivity. Qed.

(** Grouping numbered rows by their number gives the groups back. *)
Lemma group_by_number g gs l :
  Forall well_numbered gs -> (forall k, k ∈ omap_keys (group_by m_group l) -> k < g) ->
  group_by m_group (l ++ rows_of (number_from g gs)) = group_by m_group l ++ number_from g gs.
Proof.
  revert g l. induction gs as [|f gs IH]; intros g l Hwn Hlt; cbn [number_from].
  - unfold rows_of. simpl. by rewrite !app_nil_r.
  - apply Forall_cons in Hwn as [Hf Hwn]. destruct (Hf g) as [Hne Hg].
    rewrite rows_of_cons.
    assert (Hfresh : g ∉ omap_keys (group_by m_group l)) by (intros H; apply Hlt in H; lia).
    rewrite (assoc_L (++)), IH by first [done |
      intros k; rewrite (group_by_app_fresh m_group l (f g) g Hne Hg Hfresh);
      unfold omap_keys; rewrite fmap_app, elem_of_app; simpl;
      intros [H|H]; [apply Hlt in H; lia | apply list_elem_of_singleton in H; lia]].
    rewrite (group_by_app_fresh m_group l (f g) g Hne Hg Hfresh).
    by rewrite <- (assoc_L (++)).
Qed.

(** The groups are read back in the order they were written. *)
Lemma matchersToRules_groups gs :
  Forall well_numbered gs ->
  matchersToRules (rows_of (number_from 0 gs)) =
    let b := foldl add_group {| b_rules := []; b_noService := [] |} (number_from 0 gs).*2 in
    omap_values (b_rules b) ++ b_noService b.
Proof.
  intros Hwn. unfold matchersToRules.
  pose proof (group_by_number 0 gs [] Hwn ltac:(set_solver)) as Hg. simpl in Hg. rewrite Hg.
  rewrite (sort_id _ (omap_keys _)) by apply number_from_keys_sorted.
  rewrite <- (foldl_fmap add_group (fun g => omap_get g (number_from 0 gs) ?? [])).
  rewrite omap_get_keys by apply number_from_keys_NoDup. done.
Qed.

(** ** The round trip *)

(** The rule as the rows store it: trimmed, half-typed conditions dropped,
    and joined by OR when there is nothing to join. *)
Definition norm_rule (r : Rule) : Rule :=
  {| r_serviceOp := r_serviceOp r; r_service := trim (r_service r);
     r_combine := if (1 <? length (validAttrs r))%nat then r_combine r else match_any;
     r_attrs := validAttrs r; r_descendants := Some (descends r) |}.
Definition norm_rules (rules : list Rule) : list Rule := norm_rule <$> List.filter complete rules.

(** No condition names the attribute reserved for the service selector. *)
Definition no_service_cond (r : Rule) : bool :=
  forallb (fun a => negb (ac_attribute a =s SERVICE_NAME_ATTR)) (validAttrs r).

Definition member_key (k : Z) : string := tpl ["member"; NUL; show_Z k].

Lemma member_key_inj j k : member_key j = member_key k -> j = k.
Proof.
  unfold member_key. intros H. cbn [tpl] in H. rewrite !sapp_nil_r in H.
  apply sapp_inj_l, sapp_inj_l in H. by apply show_Z_inj.
Qed.

(** A condition as [validAttrs] leaves it, on an ordinary attribute. *)
Definition plain_cond (a : AttrCond) : Prop :=
  ac_custom a = None /\ ac_attribute a <> SERVICE_NAME_ATTR.

Lemma validAttrs_plain r : no_service_cond r = true -> Forall plain_cond (validAttrs r).
Proof.
  intros H. apply Forall_forall. intros a Ha. split.
  - unfold validAttrs in Ha. apply filterb_elem in Ha as [Ha _].
    by apply list_elem_of_fmap in Ha as (b & -> & _).
  - unfold no_service_cond in H. rewrite List.forallb_forall in H.
    apply list_elem_of_In in Ha. specialize (H a Ha). by bool_prop.
Qed.

Lemma attr_of_row flag k g attrs :
  Forall plain_cond attrs ->
  attr_of <$> List.filter (fun m => negb (is_svc m)) (row_of flag k g <$> attrs) = attrs.
Proof.
  induction 1 as [|a attrs [Hc Ha] _ IH]; [done|]. csimpl.
  unfold is_svc at 1. simpl. apply String.eqb_neq in Ha as ->. csimpl.
  rewrite IH. f_equal. destruct a; simpl in *. by subst.
Qed.

Lemma existsb_flag flag k g r attrs :
  existsb (fun m => m_include_descendants m ?? false)
    (svc_row flag k g r :: (row_of flag k g <$> attrs)) = flag ?? false.
Proof.
  simpl. destruct (flag ?? false) eqn:E; [done|]. simpl.
  induction attrs as [|a attrs IH]; simpl; [done|]. by rewrite E.
Qed.

Definition blank_of (r : Rule) : Rule :=
  {| r_serviceOp := r_serviceOp r; r_service := trim (r_service r); r_combine := match_any;
     r_attrs := []; r_descendants := None |}.
Definition extend (rule : Rule) (attrs : list AttrCond) (d : bool) : Rule :=
  {| r_serviceOp := r_serviceOp rule; r_service := r_service rule;
     r_combine := if (1 <? length attrs)%nat then match_all else r_combine rule;
     r_attrs := r_attrs rule ++ attrs; r_descendants := Some (descends rule || d) |}.

Lemma add_group_rows b flag k g r attrs :
  Forall plain_cond attrs ->
  add_group b (svc_row flag k g r :: (row_of flag k g <$> attrs)) =
    {| b_rules := omap_set (member_key k)
         (extend (omap_get (member_key k) (b_rules b) ?? blank_of r) attrs (flag ?? false)) (b_rules b);
       b_noService := b_noService b |}.
Proof.
  intros H. unfold add_group. rewrite existsb_flag.
  change (List.filter (fun m => negb (is_svc m)) (svc_row flag k g r :: (row_of flag k g <$> attrs)))
    with (List.filter (fun m => negb (is_svc m)) (row_of flag k g <$> attrs)).
  rewrite attr_of_row by done. reflexivity.
Qed.

Lemma add_or_groups flag k g r attrs m rule noS :
  Forall plain_cond attrs -> member_key k ∉ omap_keys m ->
  r_descendants rule = Some (flag ?? false) ->
  foldl add_group {| b_rules := m ++ [(member_key k, rule)]; b_noService := noS |}
    (number_from g ((fun a g => [svc_row flag k g r; row_of flag k g a]) <$> attrs)).*2 =
  {| b_rules := m ++ [(member_key k,
       {| r_serviceOp := r_serviceOp rule; r_service := r_service rule; r_combine := r_combine rule;
          r_attrs := r_attrs rule ++ attrs; r_descendants := r_descendants rule |})];
     b_noService := noS |}.
Proof.
  intros H Hf. revert g rule. induction H as [|a attrs Ha _ IH]; intros g rule Hd.
  - simpl. rewrite app_nil_r. by destruct rule.
  - cbn [fmap list_fmap number_from foldl snd].
    change [svc_row flag k g r; row_of flag k g a]
      with (svc_row flag k g r :: (row_of flag k g <$> [a])).
    rewrite add_group_rows by (constructor; done). cbn [b_rules b_noService].
    rewrite omap_get_last, omap_set_last by done. cbn [default from_option].
    rewrite IH.
    + unfold extend. simpl. rewrite <- (assoc_L (++)). unfold descends. rewrite Hd. simpl.
      by rewrite orb_diag.
    + unfold extend, descends. simpl. rewrite Hd. simpl. by rewrite orb_diag.
Qed.

(** Reading the groups of one rule adds its stored form. *)
Lemma add_rule_groups k g r m noS :
  no_service_cond r = true -> member_key k ∉ omap_keys m ->
  foldl add_group {| b_rules := m; b_noService := noS |} (number_from g (rule_groups k r)).*2 =
  {| b_rules := m ++ [(member_key k, norm_rule r)]; b_noService := noS |}.
Proof.
  intros Hs Hf. pose proof (validAttrs_plain r Hs) as Hp.
  unfold rule_groups, norm_rule. set (flag := if descends r then Some true else None).
  assert (Hflag : flag ?? false = descends r) by (unfold flag; by destruct (descends r)).
  set (B := {| b_rules := m; b_noService := noS |}).
  assert (Hb : omap_get (member_key k) (b_rules B) = None) by by apply omap_get_None.
  destruct (validAttrs r) as [|a attrs] eqn:E; [|destruct (r_combine r) eqn:Ec].
  - change (foldl _ _ _) with (add_group B (svc_row flag k g r :: (row_of flag k g <$> []))).
    rewrite add_group_rows, Hb by constructor. unfold B. cbn [b_rules b_noService].
    rewrite omap_set_fresh by done. unfold extend. simpl. by rewrite Hflag.
  - inversion Hp as [|? ? Ha Hattrs]; subst.
    change (foldl _ _ _) with
      (foldl add_group (add_group B (svc_row flag k g r :: (row_of flag k g <$> [a])))
        (number_from (g + 1) ((fun a g => [svc_row flag k g r; row_of flag k g a]) <$> attrs)).*2).
    rewrite add_group_rows, Hb by (constructor; done). unfold B. cbn [b_rules b_noService].
    rewrite omap_set_fresh by done. cbn [default from_option].
    rewrite add_or_groups by first [done | simpl; by rewrite Hflag].
    unfold extend. simpl. rewrite Hflag. by destruct attrs.
  - change (foldl _ _ _) with (add_group B (svc_row flag k g r :: (row_of flag k g <$> (a :: attrs)))).
    rewrite add_group_rows, Hb by done. unfold B. cbn [b_rules b_noService].
    rewrite omap_set_fresh by done. unfold extend. simpl. rewrite Hflag. by destruct attrs.
Qed.

Lemma add_all_groups rules k g m :
  Forall (fun r => no_service_cond r = true) rules ->
  (forall j, member_key j ∈ omap_keys m -> j < k) ->
  foldl add_group {| b_rules := m; b_noService := [] |} (number_from g (all_groups k rules)).*2 =
  {| b_rules := m ++ imap (fun i r => (member_key (k + Z.of_nat i), r)) (norm_rules rules);
     b_noService := [] |}.
Proof.
  intros H. revert k g m. induction H as [|r rules Hr _ IH]; intros k g m Hlt; simpl.
  { by rewrite app_nil_r. }
  unfold norm_rules. cbn [List.filter]. destruct (complete r); [|by apply IH].
  rewrite number_from_app, fmap_app, foldl_app.
  rewrite add_rule_groups by (done || intros Hin; apply Hlt in Hin; lia).
  rewrite IH.
  - f_equal. rewrite <- (assoc_L (++)). f_equal. csimpl.
    rewrite Z.add_0_r. f_equal. apply imap_ext. intros i x _. simpl. do 2 f_equal. lia.
  - intros j. unfold omap_keys. rewrite fmap_app, elem_of_app. simpl. intros [Hj|Hj].
    + apply Hlt in Hj. lia.
    + apply list_elem_of_singleton, member_key_inj in Hj. lia.
Qed.

(** Reading back what was written gives the stored form of every complete
    rule, in order. *)
Lemma matchersToRules_rulesToMatchers rules :
  Forall (fun r => no_service_cond r = true) rules ->
  matchersToRules (rulesToMatchers rules) = norm_rules rules.
Proof.
  intros H. unfold rulesToMatchers. rewrite rulesToMatchers_number.
  rewrite matchersToRules_groups by apply all_groups_wn. cbn zeta.
  rewrite add_all_groups by (done || set_solver). cbn [b_rules b_noService].
  rewrite app_nil_r, app_nil_l. unfold omap_values.
  rewrite fmap_imap. apply imap_elements.
Qed.

(** ** Meaning

    What the rows select: the conditions of one [match_group] must all hold,
    and any group will do.  What a rule says: its service holds, and its
    conditions hold as they are joined. *)
Section meaning.
(** Whether a span satisfies one condition. *)
Context (holds : string -> MatcherOperator -> string -> bool).

Definition row_holds (m : MatcherInput) : bool := holds (m_attribute m) (m_operator m) (m_value m).
Definition cond_holds (a : AttrCond) : bool := holds (ac_attribute a) (ac_operator a) (ac_value a).

Definition rows_match (ms : list MatcherInput) : Prop :=
  exists m, m ∈ ms /\ forall m', m' ∈ ms -> m_group m' = m_group m -> row_holds m' = true.

Definition rule_matches (r : Rule) : bool :=
  complete r && holds SERVICE_NAME_ATTR (r_serviceOp r) (trim (r_service r)) &&
  match validAttrs r with
  | [] => true
  | attrs => match r_combine r with
             | match_all => forallb cond_holds attrs
             | match_any => existsb cond_holds attrs
             end
  end.

Definition group_holds (f : Z -> list MatcherInput) : Prop := forall g, Forall (fun m => row_holds m = true) (f g).

Lemma rows_of_elem g gs m :
  m ∈ rows_of (number_from g gs) <-> exists i f, gs !! i = Some f /\ m ∈ f (g + Z.of_nat i).
Proof.
  revert g. induction gs as [|f gs IH]; intros g.
  - split; [set_solver|]. intros (i & f & Hi & _). by rewrite lookup_nil in Hi.
  - cbn [number_from]. rewrite rows_of_cons, elem_of_app, IH. split.
    + intros [H|(i & f' & Hi & H)].
      * exists 0%nat, f. split; [done|]. by rewrite Z.add_0_r.
      * exists (S i), f'. split; [done|]. by replace (g + Z.of_nat (S i)) with (g + 1 + Z.of_nat i) by lia.
    + intros ([|i] & f' & Hi & H); simpl in Hi.
      * simplify_eq. rewrite Z.add_0_r in H. by left.
      * right. exists i, f'. split; [done|]. by replace (g + 1 + Z.of_nat i) with (g + Z.of_nat (S i)) by lia.
Qed.

(** Holding does not depend on the number of a group. *)
Definition uniform (f : Z -> list MatcherInput) : Prop :=
  forall g g', Forall (fun m => row_holds m = true) (f g) -> Forall (fun m => row_holds m = true) (f g').

Lemma rows_match_groups gs :
  Forall well_numbered gs -> Forall uniform gs ->
  rows_match (rows_of (number_from 0 gs)) <-> exists f, f ∈ gs /\ group_holds f.
Proof.
  intros Hwn Hu. split.
  - intros (m & Hm & Hall). apply rows_of_elem in Hm as (i & f & Hi & Hm).
    assert (Hf : f ∈ gs) by (apply list_elem_of_lookup; eauto).
    exists f. split; [done|]. rewrite Forall_forall in Hu. intros g'.
    apply (Hu f Hf (0 + Z.of_nat i)). apply Forall_forall. intros m' Hm'.
    apply Hall; [apply rows_of_elem; eauto|].
    rewrite Forall_forall in Hwn. destruct (Hwn f Hf (0 + Z.of_nat i)) as [_ Hg].
    rewrite Forall_forall in Hg. by rewrite !Hg.
  - intros (f & Hf & Hh). apply list_elem_of_lookup in Hf as [i Hi].
    rewrite Forall_lookup in Hwn. destruct (Hwn i f Hi (0 + Z.of_nat i)) as [Hne Hg].
    destruct (f (0 + Z.of_nat i)) as [|m ms] eqn:E; [done|].
    exists m. split; [apply rows_of_elem; exists i, f; rewrite E; set_solver|].
    intros m' Hm' Heq. apply rows_of_elem in Hm' as (j & f' & Hj & Hm').
    destruct (Hwn j f' Hj (0 + Z.of_nat j)) as [_ Hg'].
    rewrite Forall_forall in Hg'. rewrite Forall_forall in Hg.
    rewrite (Hg' m' Hm'), (Hg m) in Heq by set_solver.
    assert (j = i) as -> by lia. simplify_eq.
    specialize (Hh (0 + Z.of_nat i)). rewrite Forall_forall in Hh. by apply Hh.
Qed.

Lemma rule_groups_uniform k r : Forall uniform (rule_groups k r).
Proof.
  assert (Hrow : forall flag g g' a, row_holds (row_of flag k g a) = row_holds (row_of flag k g' a)) by done.
  unfold rule_groups. destruct (validAttrs r) as [|a attrs]; [constructor; [|constructor]; by intros g g'; rewrite !Forall_cons|].
  destruct (r_combine r).
  - apply Forall_fmap, Forall_true. intros b g g'. rewrite !Forall_cons. done.
  - constructor; [|constructor]. intros g g'. rewrite !Forall_cons, !Forall_fmap. done.
Qed.

Lemma rule_groups_hold k r :
  complete r = true -> (exists f, f ∈ rule_groups k r /\ group_holds f) <-> rule_matches r = true.
Proof.
  intros Hc. unfold rule_matches. rewrite Hc. simpl.
  assert (Hsvc : forall flag g, row_holds (svc_row flag k g r) =
    holds SERVICE_NAME_ATTR (r_serviceOp r) (trim (r_service r))) by done.
  assert (Hatt : forall flag g a, row_holds (row_of flag k g a) = cond_holds a) by done.
  unfold rule_groups, group_holds. destruct (validAttrs r) as [|a attrs]; [|destruct (r_combine r)]; cbv iota.
  - rewrite andb_true_r. split.
    + intros (f & ->%list_elem_of_singleton & H). specialize (H 0). by inversion H.
    + intros H. eexists. split; [by apply list_elem_of_singleton|]. intros g. by repeat constructor.
  - change (cond_holds a || existsb cond_holds attrs) with (existsb cond_holds (a :: attrs)).
    rewrite andb_true_iff, existsb_elem. split.
    + intros (f & (b & -> & Hb)%list_elem_of_fmap & H). specialize (H 0).
      inversion H as [|? ? Hs Hr]; subst. inversion Hr; subst. split; [done|]. by exists b.
    + intros [Hs (b & Hb & Hh)]. eexists. split; [by apply list_elem_of_fmap_2|].
      intros g. by repeat constructor.
  - change (cond_holds a && forallb cond_holds attrs) with (forallb cond_holds (a :: attrs)).
    rewrite andb_true_iff, List.forallb_forall. split.
    + intros (f & ->%list_elem_of_singleton & H). specialize (H 0). rewrite Forall_forall in H.
      split; [apply (H _ (list_elem_of_here _ _))|]. intros b Hb. apply list_elem_of_In in Hb.
      eapply (H (row_of _ k 0 b)), list_elem_of_further, list_elem_of_fmap_2, Hb.
    + intros [Hs Hh]. eexists. split; [by apply list_elem_of_singleton|]. intros g.
      constructor; [done|]. apply Forall_fmap, Forall_forall. intros b Hb.
      apply Hh. by apply list_elem_of_In.
Qed.

Lemma all_groups_hold k rules :
  (exists f, f ∈ all_groups k rules /\ group_holds f) <-> exists r, r ∈ rules /\ rule_matches r = true.
Proof.
  revert k. induction rules as [|r rules IH]; intros k; simpl; [set_solver|].
  destruct (complete r) eqn:Hc.
  - setoid_rewrite elem_of_app. setoid_rewrite elem_of_cons. specialize (IH (k + 1)).
    pose proof (rule_groups_hold k r Hc). naive_solver.
  - rewrite IH. setoid_rewrite elem_of_cons. split; [naive_solver|].
    intros (r' & [->|Hr] & Hm); [|eauto]. unfold rule_matches in Hm. by rewrite Hc in Hm.
Qed.
End meaning.

Lemma all_groups_uniform holds k rules : Forall (uniform holds) (all_groups k rules).
Proof.
  revert k. induction rules as [|r rules IH]; intros k; simpl; [constructor|].
  destruct (complete r); [|done]. apply Forall_app. split; [apply rule_groups_uniform|done].
Qed.

(** ** Properties *)

(** C1. Saving members and reading them back gives every complete rule in its
    stored form, in order: nothing is lost, merged or reordered, as long as no
    condition is written on the attribute reserved for the service. *)
Theorem members_round_trip rules :
  Forall (fun r => no_service_cond r = true) rules ->
  matchersToRules (rulesToMatchers rules) = norm_rules rules.
Proof. apply matchersToRules_rulesToMatchers. Qed.

(** The flat rows mean what the rules mean: for any notion of a span
    satisfying a condition, the rows select it exactly when some complete rule
    does, so distributing the service over OR-ed conditions is sound and
    complete. *)
Theorem rows_mean_rules holds rules :
  rows_match holds (rulesToMatchers rules) <-> exists r, r ∈ rules /\ rule_matches holds r = true.
Proof.
  unfold rulesToMatchers. rewrite rulesToMatchers_number.
  rewrite rows_match_groups by (apply all_groups_wn || apply all_groups_uniform).
  apply all_groups_hold.
Qed.

Lemma validAttrs_norm r : validAttrs (norm_rule r) = validAttrs r.
Proof.
  assert (H : forall a, a ∈ validAttrs r -> trimCond a = a /\ completeCond a = true).
  { intros a Ha. unfold validAttrs in Ha. apply filterb_elem in Ha as [Ha Hc]. split; [|done].
    apply list_elem_of_fmap in Ha as (b & -> & _). unfold trimCond. simpl. by rewrite !trim_trim. }
  unfold validAttrs at 1. simpl. revert H. induction (validAttrs r) as [|a attrs IH]; intros H; [done|].
  csimpl. destruct (H a) as [Ht Hc]; [by left|]. rewrite Ht, Hc. f_equal. apply IH.
  intros b Hb. apply H. by right.
Qed.

Lemma rule_rows_norm r g k : rule_rows (norm_rule r) g k = rule_rows r g k.
Proof.
  unfold rule_rows. rewrite validAttrs_norm.
  change (descends (norm_rule r)) with (descends r).
  assert (Hs : forall flag g, svc_row flag k g (norm_rule r) = svc_row flag k g r).
  { intros flag h. unfold svc_row. simpl. by rewrite trim_trim. }
  assert (Ho : forall flag attrs g, or_rows flag k g (norm_rule r) attrs = or_rows flag k g r attrs).
  { intros flag attrs. induction attrs as [|a attrs IH]; intros h; simpl; [done|]. by rewrite Hs, IH. }
  destruct (validAttrs r) as [|a attrs] eqn:E; [by rewrite Hs|].
  unfold norm_rule at 1. cbn [r_combine]. rewrite E. destruct attrs as [|a' attrs]; simpl length.
  - simpl. rewrite Hs. by destruct (r_combine r).
  - cbn [Nat.ltb Nat.leb]. destruct (r_combine r); by rewrite ?Hs, ?Ho.
Qed.

(** Saving is idempotent: writing the rules that were read back writes
    the same rows, group and member numbers included, so opening and saving an
    unchanged integration changes nothing on the server. *)
Theorem resave_same_rows rules : rulesToMatchers (norm_rules rules) = rulesToMatchers rules.
Proof.
  unfold rulesToMatchers, norm_rules. generalize 0 at 1 3. generalize 0.
  induction rules as [|r rules IH]; intros k g; simpl; [done|].
  unfold complete at 1. destruct (truthy (trim (r_service r))) eqn:E; [|apply IH].
  csimpl. cbn [r_service norm_rule]. rewrite trim_trim, E, rule_rows_norm.
  destruct (rule_rows r g k) as [rows g']. by rewrite IH.
Qed.

(** ** Witnesses *)

Definition sample_rules : list Rule := [
  {| r_serviceOp := equals; r_service := " order-api "; r_combine := match_any;
     r_attrs := [{| ac_attribute := "tenant"; ac_operator := equals; ac_value := "a"; ac_custom := None |};
                 {| ac_attribute := "region "; ac_operator := op_exists; ac_value := ""; ac_custom := Some true |};
                 {| ac_attribute := "half"; ac_operator := equals; ac_value := ""; ac_custom := None |}];
     r_descendants := None |};
  {| r_serviceOp := prefix; r_service := "pay"; r_combine := match_all; r_attrs := [];
     r_descendants := Some true |}].

Lemma members_round_trip_witness :
  matchersToRules (rulesToMatchers sample_rules) = norm_rules sample_rules /\ length (norm_rules sample_rules) = 2%nat.
Proof. split; [apply members_round_trip; by repeat constructor | vm_compute; reflexivity]. Defined.
