(* ===== verification/Membership.v ===== *)
(** * The membership editor

    [components/matcher/membership.ts]: which services a member takes in,
    what typing into the add box means, the list of unsaved changes, and the
    merged neighbour suggestions. *)

From S2P Require Import Prelude JsString JsUri JsArray Host MatcherRules.

Local Open Scope char_scope.
Local Open Scope string_scope.
Local Open Scope list_scope.

Section membership.
Context {host : Host}.

(** ** Members *)

Definition ruleKey (r : Rule) : string := tpl [show_op (r_serviceOp r); NUL; trim (r_service r)].

Definition ruleCovers (rule : Rule) (name : string) : bool :=
  let v := trim (r_service rule) in
  if negb (truthy v) then false
  else match r_serviceOp rule with
  | equals => name =s v
  | prefix => startsWith name v
  | suffix => endsWith name v
  | contains => includes name v
  | regex => regex_test v name ?? false
  | _ => false
  end.

Definition rulesCover (rules : list Rule) (name : string) : bool :=
  existsb (fun r => ruleCovers r name) rules.

(** [s.replace(/[.+?^${}()|[\]\\]/g, "\\$&")] *)
Fixpoint escapeRegex (s : string) : string :=
  match s with
  | "" => ""
  | String c s' =>
      (if char_in ".+?^${}()|[]\" c then String "\"%char (String c "") else String c "") +:+ escapeRegex s'
  end.

Definition STAR : ascii := "*"%char.

Fixpoint strip_stars (s : string) : string :=
  match s with String c s' => if Ascii.eqb STAR c then strip_stars s' else s | "" => "" end.
(** [q.replace(/^\*+|\*+$/g, "")] *)
Definition body_of (q : string) : string := srev (strip_stars (srev (strip_stars q))).

(** The characters [.] does not match. *)
Definition no_line_end (s : string) : bool :=
  no_char "010" s && no_char "013" s
  && negb (includes s (String "226"%char (String "128"%char (String "168"%char ""))))
  && negb (includes s (String "226"%char (String "128"%char (String "169"%char "")))).

(** [/^\/(.+)\/$/.exec(q)], the captured group. *)
Definition slashed (q : string) : option string :=
  match q with
  | String c s =>
      if Ascii.eqb "/" c && endsWith s "/" then
        let re := drop_last s in
        if truthy re && no_line_end re then Some re else None
      else None
  | "" => None
  end.

Definition parseAddQuery (raw : string) : option Rule :=
  let q := trim raw in
  if negb (truthy q) then None
  else match slashed q with
  | Some re => Some (blankRule regex re)
  | None =>
      if no_char STAR q then Some (blankRule equals q)
      else
        let body := body_of q in
        if negb (truthy body) then None
        else
          let lead := startsWith q "*" in
          let trail := endsWith q "*" in
          if no_char STAR body && lead && trail then Some (blankRule contains body)
          else if no_char STAR body && trail then Some (blankRule prefix body)
          else if no_char STAR body && lead then Some (blankRule suffix body)
          else Some (blankRule regex (tpl ["^"; join ".*" (escapeRegex <$> split STAR q); "$"]))
  end.

(** ** Words *)

Definition patternWords (op : MatcherOperator) : string :=
  match op with
  | prefix => "services starting with"
  | suffix => "services ending with"
  | contains => "services containing"
  | regex => "services matching"
  | op => tpl ["services where the name "; show_op op]
  end.

Definition memberPhrase (rule : Rule) : string :=
  let value := trim (r_service rule) in
  if negb (truthy value) then "a condition with no service"
  else if bool_decide (r_serviceOp rule = equals) then value
  else tpl [patternWords (r_serviceOp rule); " "; value].

Definition cond_words (op : MatcherOperator) : string :=
  match op with
  | equals => "is" | prefix => "starts with" | suffix => "ends with" | contains => "contains"
  | regex => "matches" | not_equals => "is not" | not_contains => "doesn't contain"
  | op_exists => "is set" | op_not_exists => "is absent"
  end.

Definition completeConds (rule : Rule) : list AttrCond :=
  List.filter completeCond
    ((fun a => {| ac_attribute := trim (ac_attribute a); ac_operator := ac_operator a;
                  ac_value := trim (ac_value a); ac_custom := ac_custom a |}) <$> r_attrs rule).

Definition conditionsPhrase (rule : Rule) : string :=
  match completeConds rule with
  | [] => "All traffic"
  | conds =>
      let joiner := match r_combine rule with match_all => " and " | match_any => " or " end in
      let part c :=
        if valueless (ac_operator c) then tpl [ac_attribute c; " "; cond_words (ac_operator c)]
        else tpl [ac_attribute c; " "; cond_words (ac_operator c); " "; ac_value c] in
      tpl ["Only where "; join joiner (part <$> conds);
           if descends rule then ", with child spans" else ""]
  end.

(** ** Unsaved changes *)

(** What [contentSig] serialises; two signatures are the same string exactly
    when these are equal.  The conditions are sorted as strings. *)
Definition contentSig (r : Rule) : RuleMatch * bool * list (string * MatcherOperator * string) :=
  (r_combine r, descends r,
   sort (cmp_on (fun t => join "," [t.1.1; show_op t.1.2; t.2]) string_cmp)
     ((fun c => (ac_attribute c, ac_operator c, ac_value c)) <$> completeConds r)).

Definition has_conds (r : Rule) : bool := match completeConds r with [] => false | _ => true end.

(** The line for one member of the draft. *)
Definition describe_member (before : list (string * Rule)) (kr : string * Rule) : list string :=
  let r := kr.2 in
  match omap_get kr.1 before with
  | None => [tpl ["added "; memberPhrase r]]
  | Some prev =>
      if bool_decide (contentSig prev = contentSig r) then []
      else match has_conds prev, has_conds r with
      | false, true => [tpl ["narrowed "; memberPhrase r]]
      | true, false => [tpl ["widened "; memberPhrase r; " to all traffic"]]
      | _, _ => [tpl ["changed the conditions on "; memberPhrase r]]
      end
  end.

Definition describeChanges (stored draft : list Rule) (storedMode draftMode : RuleMatch) : list string :=
  let after := matchersToRules (rulesToMatchers draft) in
  let before := omap_of ((fun r => (ruleKey r, r)) <$> stored) in
  let now := omap_of ((fun r => (ruleKey r, r)) <$> after) in
  let gone := List.filter (fun kr => negb (omap_has kr.1 now)) before in
  let removed kr := tpl ["removed "; memberPhrase kr.2] in
  let out :=
    concat (describe_member before <$> now)
    ++ (removed <$> List.filter (fun kr => complete kr.2) gone)
    ++ (if bool_decide (storedMode = draftMode) then []
        else [match draftMode with
              | match_all => "now needs one trace through every service"
              | match_any => "back to matching any service"
              end]) in
  let dropped := removed <$> List.filter (fun kr => negb (complete kr.2)) gone in
  match out with [] => [] | _ => out ++ dropped end.

(** ** Suggestions *)

Record ServiceNeighbor := {
  n_service_name : string;
  n_trace_count : option Z;
  n_error_count : Z;
  n_link_trace_count : option Z;
  n_link_error_count : option Z
}.
Record Neighborhood := {
  nh_focal : string;
  nh_upstream : option (list ServiceNeighbor);
  nh_downstream : option (list ServiceNeighbor)
}.
Record Suggestion := { s_name : string; s_reason : string; s_traffic : Z }.

(** The calls of [consider] for one member, in order: name, reason, traffic. *)
Definition candidates (nh : Neighborhood) : list (string * string * Z) :=
  let one (call handoff : string) n :=
    let calls := (n_trace_count n ?? 0)%Z in
    let links := (n_link_trace_count n ?? 0)%Z in
    (n_service_name n, tpl [if (links <=? calls)%Z then call else handoff; nh_focal nh], (calls + links)%Z) in
  (one "called by " "receives hand-offs from " <$> (nh_downstream nh ?? []))
  ++ (one "calls " "hands off to " <$> (nh_upstream nh ?? [])).

Definition consider (focals : list string) (isCovered : string -> bool)
    (best : list (string * Suggestion)) (c : string * string * Z) : list (string * Suggestion) :=
  let '(name, reason, traffic) := c in
  if bool_decide (name ∈ focals) || isCovered name || (traffic <=? 0)%Z then best
  else match omap_get name best with
  | Some prev =>
      if (s_traffic prev <? traffic)%Z
      then omap_set name {| s_name := name; s_reason := reason; s_traffic := traffic |} best
      else best
  | None => omap_set name {| s_name := name; s_reason := reason; s_traffic := traffic |} best
  end.

Definition mergeSuggestions (neighbourhoods : list Neighborhood) (isCovered : string -> bool) : list Suggestion :=
  let focals := nh_focal <$> neighbourhoods in
  let best := foldl (consider focals isCovered) [] (concat (candidates <$> neighbourhoods)) in
  sort (cmp_or (cmp_desc s_traffic) (cmp_on s_name localeCompare)) (omap_values best).

(** [/^\d+[mhdw]$/.test(w)] *)
Fixpoint digits_then_unit (s : string) : bool :=
  match s with
  | String c "" => char_in "mhdw" c
  | String c s' => is_digit c && digits_then_unit s'
  | "" => false
  end.
Definition is_window (w : string) : bool :=
  match w with String c s' => is_digit c && digits_then_unit s' | "" => false end.

Definition windowPhrase (w : string) : string := if is_window w then tpl ["in the last "; w] else "in this range".
Definition windowShort (w : string) : string := if is_window w then w else "range".

(** ** Unsaved changes: lemmas *)

Lemma norm_rule_idem r : norm_rule (norm_rule r) = norm_rule r.
Proof.
  unfold norm_rule at 1. rewrite validAttrs_norm. unfold norm_rule. cbn. rewrite trim_trim.
  by destruct (validAttrs r) as [|a [|a' attrs]].
Qed.

Lemma norm_rules_idem rules : norm_rules (norm_rules rules) = norm_rules rules.
Proof.
  unfold norm_rules. induction rules as [|r rules IH]; [done|]. cbn [List.filter].
  destruct (complete r) eqn:E; [|done]. csimpl. unfold complete at 1. cbn [r_service norm_rule].
  rewrite trim_trim. unfold complete in E. rewrite E. csimpl. by rewrite norm_rule_idem, IH.
Qed.

Lemma norm_rules_service_cond rules :
  Forall (fun r => no_service_cond r = true) rules ->
  Forall (fun r => no_service_cond r = true) (norm_rules rules).
Proof.
  intros H. apply Forall_fmap, Forall_forall. intros r Hr. unfold compose.
  apply filterb_elem in Hr as [Hr _]. rewrite Forall_forall in H.
  unfold no_service_cond. rewrite validAttrs_norm. by apply H.
Qed.

(** The two maps [describeChanges] compares. *)
Definition keyed (rules : list Rule) : list (string * Rule) := omap_of ((fun r => (ruleKey r, r)) <$> rules).

Lemma describe_member_nil before kr :
  describe_member before kr = [] <->
  exists prev, omap_get kr.1 before = Some prev /\ contentSig prev = contentSig kr.2.
Proof.
  unfold describe_member. destruct (omap_get kr.1 before) as [prev|].
  - case_bool_decide as E; [split; [eauto|done]|].
    split; [by destruct (has_conds prev), (has_conds kr.2)|].
    intros (p & [= <-] & Hp). done.
  - split; [done|]. by intros (p & ? & _).
Qed.

Lemma concat_nil_iff {A B} (f : A -> list B) l : concat (f <$> l) = [] <-> forall x, x ∈ l -> f x = [].
Proof.
  induction l as [|x l IH]; csimpl.
  - split; [intros _ x Hx; by apply elem_of_nil in Hx | done].
  - rewrite app_nil, IH. setoid_rewrite elem_of_cons. naive_solver.
Qed.

Lemma describeChanges_nil stored draft m m' :
  describeChanges stored draft m m' = [] <->
  m = m' /\
  (forall kr, kr ∈ keyed (matchersToRules (rulesToMatchers draft)) ->
     exists prev, omap_get kr.1 (keyed stored) = Some prev /\ contentSig prev = contentSig kr.2) /\
  (forall kr, kr ∈ keyed stored ->
     omap_has kr.1 (keyed (matchersToRules (rulesToMatchers draft))) = true \/ complete kr.2 = false).
Proof.
  unfold describeChanges. fold (keyed stored). fold (keyed (matchersToRules (rulesToMatchers draft))).
  set (before := keyed stored). set (now := keyed _). cbn zeta.
  transitivity (concat (describe_member before <$> now) = [] /\
    List.filter (fun kr => complete kr.2) (List.filter (fun kr => negb (omap_has kr.1 now)) before) = [] /\ m = m').
  { destruct (concat (describe_member before <$> now)) eqn:E; [|simpl; naive_solver].
    destruct (List.filter (fun kr => complete kr.2) _); [|simpl; naive_solver].
    case_bool_decide; simpl; naive_solver. }
  rewrite concat_nil_iff. setoid_rewrite describe_member_nil.
  assert (Hf : List.filter (fun kr => complete kr.2) (List.filter (fun kr => negb (omap_has kr.1 now)) before) = []
    <-> forall kr, kr ∈ before -> omap_has kr.1 now = true \/ complete kr.2 = false).
  { split.
    - intros H kr Hkr. destruct (omap_has kr.1 now) eqn:E1; [by left|right].
      destruct (complete kr.2) eqn:E2; [|done]. exfalso.
      assert (Hin : kr ∈ List.filter (fun kr => complete kr.2) (List.filter (fun kr => negb (omap_has kr.1 now)) before)).
      { apply filterb_elem. split; [|done]. apply filterb_elem. by rewrite E1. }
      rewrite H in Hin. by apply elem_of_nil in Hin.
    - intros H. apply filterb_none. intros kr Hkr. apply filterb_elem in Hkr as [Hkr Hn].
      destruct (H kr Hkr) as [E|E]; [by rewrite E in Hn|done]. }
  rewrite Hf. tauto.
Qed.

(** The save bar is silent exactly when there is nothing to save: the mode
    is unchanged, every member the draft would store was stored with the same
    conditions, and every stored member that would go was a condition with no
    service, which no save can keep. *)
Theorem save_bar_silent_iff stored draft m m' :
  describeChanges stored draft m m' = [] <->
  m = m' /\
  (forall kr, kr ∈ keyed (matchersToRules (rulesToMatchers draft)) ->
     exists prev, omap_get kr.1 (keyed stored) = Some prev /\ contentSig prev = contentSig kr.2) /\
  (forall kr, kr ∈ keyed stored ->
     omap_has kr.1 (keyed (matchersToRules (rulesToMatchers draft))) = true \/ complete kr.2 = false).
Proof. apply describeChanges_nil. Qed.

(** Opening the editor on what is stored shows no unsaved change, whatever
    the members: the list as saved, read back, is silent in the save bar. *)
Theorem untouched_is_silent rules m :
  Forall (fun r => no_service_cond r = true) rules ->
  describeChanges (norm_rules rules) (norm_rules rules) m m = [].
Proof.
  intros H. apply describeChanges_nil.
  rewrite matchersToRules_rulesToMatchers, norm_rules_idem by by apply norm_rules_service_cond.
  split; [done|]. split.
  - intros [k r] Hkr. exists r. split; [|done]. apply omap_elem_get; [|done]. apply omap_of_NoDup.
  - intros [k r] Hkr. left. unfold omap_has. simpl.
    by rewrite (omap_elem_get k r _ (omap_of_NoDup _) Hkr).
Qed.

(** ** Suggestions: lemmas *)

Section suggestions.
Context (focals : list string) (isCovered : string -> bool).

(** A neighbour worth suggesting. *)
Definition eligible (c : string * string * Z) : Prop :=
  c.1.1 ∉ focals /\ isCovered c.1.1 = false /\ (0 < c.2)%Z.

Definition as_candidate (s : Suggestion) : string * string * Z := (s_name s, s_reason s, s_traffic s).

(** The map after a prefix of the candidates. *)
Record best_of (best : list (string * Suggestion)) (cs : list (string * string * Z)) : Prop := {
  bo_keys : NoDup (omap_keys best);
  bo_named k s : omap_get k best = Some s -> s_name s = k /\ eligible (as_candidate s) /\ as_candidate s ∈ cs;
  bo_best c : c ∈ cs -> eligible c -> exists s, omap_get c.1.1 best = Some s /\ (c.2 <= s_traffic s)%Z
}.

Lemma eligible_test name reason traffic :
  bool_decide (name ∈ focals) || isCovered name || (traffic <=? 0)%Z = false <->
  eligible (name, reason, traffic).
Proof.
  unfold eligible. simpl. rewrite !orb_false_iff, bool_decide_eq_false, Z.leb_gt. tauto.
Qed.

Lemma best_set best cs name reason traffic :
  best_of best cs -> eligible (name, reason, traffic) ->
  (forall s, omap_get name best = Some s -> (s_traffic s < traffic)%Z) ->
  best_of (omap_set name {| s_name := name; s_reason := reason; s_traffic := traffic |} best)
    (cs ++ [(name, reason, traffic)]).
Proof.
  intros [Hk Hn Hb] He Hlt. split.
  - by apply omap_set_NoDup.
  - intros k s. rewrite omap_get_set. case_decide as E.
    + intros [= <-]. split; [done|]. split; [done|]. apply elem_of_app. right. by left.
    + intros Hs. destruct (Hn k s Hs) as (? & ? & ?). split; [done|]. split; [done|].
      apply elem_of_app. by left.
  - intros c [Hc|Hc]%elem_of_app Hec; rewrite omap_get_set.
    + destruct (Hb c Hc Hec) as (s & Hs & Hle). case_decide as E; [|by eauto].
      eexists. split; [done|]. simpl. rewrite E in Hs. apply Hlt in Hs. lia.
    + apply list_elem_of_singleton in Hc as ->. simpl. rewrite decide_True by done.
      eexists. split; [done|]. simpl. lia.
Qed.

Lemma best_keep best cs c :
  best_of best cs ->
  (eligible c -> exists s, omap_get c.1.1 best = Some s /\ (c.2 <= s_traffic s)%Z) ->
  best_of best (cs ++ [c]).
Proof.
  intros [Hk Hn Hb] He. split; [done| |].
  - intros k s Hs. destruct (Hn k s Hs) as (? & ? & ?). split; [done|]. split; [done|].
    apply elem_of_app. by left.
  - intros c' [Hc|Hc]%elem_of_app Hec; [by apply Hb|].
    apply list_elem_of_singleton in Hc as ->. by apply He.
Qed.

Lemma consider_best cs : best_of (foldl (consider focals isCovered) [] cs) cs.
Proof.
  induction cs as [|[[name reason] traffic] cs IH] using rev_ind.
  { split; [constructor|done|]. intros c Hc. by apply elem_of_nil in Hc. }
  rewrite foldl_app. simpl. set (best := foldl _ _ cs) in *.
  destruct (bool_decide (name ∈ focals) || isCovered name || (traffic <=? 0)%Z) eqn:E.
  { apply best_keep; [done|]. intros He. apply eligible_test in He. congruence. }
  apply (eligible_test name reason) in E.
  destruct (omap_get name best) as [prev|] eqn:Hp.
  - destruct (Z.ltb_spec (s_traffic prev) traffic).
    + apply best_set; [done..|]. intros s Hs. rewrite Hp in Hs. by injection Hs as <-.
    + apply best_keep; [done|]. intros _. exists prev. done.
  - apply best_set; [done..|]. intros s Hs. congruence.
Qed.
End suggestions.

(** Suggestions are the right ones: each is a neighbour with traffic that
    is neither a member's own service nor already covered; none is listed
    twice; every such neighbour is listed, under its busiest connection; and
    the list is ordered by traffic, busiest first. *)
Theorem suggestions_correct `{!HostLaws host} nhs isCovered :
  let focals := nh_focal <$> nhs in
  let cs := concat (candidates <$> nhs) in
  let out := mergeSuggestions nhs isCovered in
  NoDup (s_name <$> out) /\
  (forall s, s ∈ out -> eligible focals isCovered (as_candidate s) /\ as_candidate s ∈ cs) /\
  (forall c, c ∈ cs -> eligible focals isCovered c ->
     exists s, s ∈ out /\ s_name s = c.1.1 /\ (c.2 <= s_traffic s)%Z) /\
  StronglySorted (fun s t => (s_traffic t <= s_traffic s)%Z) out.
Proof.
  cbn zeta. unfold mergeSuggestions. cbn zeta.
  set (focals := nh_focal <$> nhs). set (cs := concat (candidates <$> nhs)).
  destruct (consider_best focals isCovered cs) as [Hk Hn Hb].
  set (best := foldl _ _ cs) in *. set (cmp := cmp_or _ _).
  assert (Hval : forall s, s ∈ omap_values best -> omap_get (s_name s) best = Some s).
  { intros s Hs. unfold omap_values in Hs. apply list_elem_of_fmap in Hs as ([k s'] & -> & Hs).
    apply omap_elem_get in Hs; [|done]. destruct (Hn _ _ Hs) as [E _]. cbn. by rewrite E. }
  assert (Hnames : s_name <$> omap_values best = omap_keys best).
  { unfold omap_values, omap_keys. rewrite <- list_fmap_compose. apply list_fmap_ext.
    intros i [k s] Hi. cbn. eapply (Hn k s), omap_elem_get; [done|]. apply list_elem_of_lookup; eauto. }
  split; [|split; [|split]].
  - assert (Hp : s_name <$> sort cmp (omap_values best) ≡ₚ s_name <$> omap_values best)
      by apply fmap_Permutation, sort_perm.
    by rewrite Hp, Hnames.
  - intros s Hs. apply (proj1 (sort_elem _ _ _)), Hval, Hn in Hs as (_ & ? & ?). done.
  - intros c Hc He. destruct (Hb c Hc He) as (s & Hs & Hle). exists s.
    split; [|split; [by apply (Hn _ s)|done]]. apply sort_elem. apply omap_get_elem in Hs.
    by apply (list_elem_of_fmap_2 snd) in Hs.
  - pose proof (sort_sorted cmp (omap_values best)) as Hs.
    induction Hs as [|s l _ IH Hf]; constructor; [done|].
    eapply Forall_impl; [exact Hf|]. intros t Ht. unfold cmp_le, cmp, cmp_or, cmp_desc in Ht.
    destruct (Z.eqb_spec (s_traffic t - s_traffic s) 0); lia.
Qed.

(** ** Patterns

    A shell pattern: a star stands for any text. *)
Fixpoint glob (p s : string) : bool :=
  match p with
  | "" => s =s ""
  | String c p' =>
      if Ascii.eqb STAR c then
        (fix any s := glob p' s || match s with "" => false | String _ s' => any s' end) s
      else match s with "" => false | String d s' => Ascii.eqb c d && glob p' s' end
  end.

#[local] Arguments Ascii.eqb : simpl never.

Definition stars (n : nat) : string := Nat.iter n (String STAR) "".

Lemma glob_star p s :
  glob (String STAR p) s = true <-> exists a b, s = a +:+ b /\ glob p b = true.
Proof.
  change (glob (String STAR p) s)
    with ((fix any s := glob p s || match s with "" => false | String _ s' => any s' end) s).
  induction s as [|c s IH].
  - rewrite orb_false_r. split; [intros H; by exists "", ""|].
    intros (a & b & E & H). destruct a; [simpl in E; by subst|done].
  - rewrite orb_true_iff, IH. split.
    + intros [H|(a & b & -> & H)]; [by exists "", (String c s)|by exists (String c a), b].
    + intros (a & b & E & H). destruct a as [|d a]; simpl in E.
      * subst. by left.
      * injection E as -> ->. right. by exists a, b.
Qed.

Lemma glob_plain p q s :
  no_char STAR p = true -> glob (p +:+ q) s = true <-> exists t, s = p +:+ t /\ glob q t = true.
Proof.
  revert s. induction p as [|c p IH]; intros s; cbn [no_char String.append].
  { intros _. split; [intros H; by exists s|]. by intros (t & -> & H). }
  intros [Hc Hp]%andb_true_iff. apply negb_true_iff in Hc. cbn [glob]. rewrite Hc.
  destruct s as [|d s].
  - split; [done|]. by intros (t & E & _).
  - rewrite andb_true_iff, IH by done. split.
    + intros [Hd (t & -> & Ht)]. bool_prop. subst. by exists t.
    + intros (t & E & Ht). injection E as -> ->. split; [apply Ascii.eqb_refl|eauto].
Qed.

Lemma glob_stars_end n s : (0 < n)%nat -> glob (stars n) s = true.
Proof.
  destruct n as [|n]; [lia|]. intros _. change (stars (S n)) with (String STAR (stars n)).
  revert s. induction n as [|n IH]; intros s; apply glob_star.
  - exists s, "". by rewrite sapp_nil_r.
  - exists s, "". split; [by rewrite sapp_nil_r|]. apply IH.
Qed.

Lemma glob_stars_front n p s :
  glob (stars (S n) +:+ p) s = true <-> exists a b, s = a +:+ b /\ glob p b = true.
Proof.
  revert s. induction n as [|n IH]; intros s.
  - apply glob_star.
  - change (stars (S (S n)) +:+ p) with (String STAR (stars (S n) +:+ p)).
    rewrite glob_star. split.
    + intros (a & b & -> & H). apply IH in H as (a' & b' & -> & H).
      exists (a +:+ a'), b'. by rewrite sapp_assoc.
    + intros (a & b & -> & H). exists "", (a +:+ b). split; [done|]. apply IH. by exists a, b.
Qed.

Lemma strip_stars_shape s :
  exists n, s = stars n +:+ strip_stars s /\ startsWith (strip_stars s) "*" = false.
Proof.
  induction s as [|c s (n & E & H)]; [by exists 0%nat|]. cbn [strip_stars].
  destruct (Ascii.eqb STAR c) eqn:Ec.
  - bool_prop. subst c. exists (S n). split; [|done].
    change (stars (S n) +:+ strip_stars s) with (String STAR (stars n +:+ strip_stars s)). exact (f_equal (String STAR) E).
  - exists 0%nat. split; [done|]. unfold startsWith. cbn [String.prefix].
    destruct (Ascii.ascii_dec _ _) as [<-|]; [done|done].
Qed.

Lemma srev_stars n : srev (stars n) = stars n.
Proof.
  induction n as [|n IH]; [done|]. change (stars (S n)) with (String STAR (stars n)).
  cbn [srev]. rewrite IH. clear IH. induction n as [|n IH]; [done|].
  change (stars (S n)) with (String STAR (stars n)). cbn [String.append]. by rewrite IH.
Qed.

(** A query is its body between two runs of stars. *)
Lemma body_of_shape q : exists i j, q = stars i +:+ (body_of q +:+ stars j).
Proof.
  destruct (strip_stars_shape q) as (i & Ei & _).
  destruct (strip_stars_shape (srev (strip_stars q))) as (j & Ej & _).
  exists i, j. unfold body_of. rewrite Ei at 1. f_equal.
  apply (f_equal srev) in Ej. rewrite srev_involutive, srev_app, srev_stars in Ej. exact Ej.
Qed.

Lemma startsWith_star p q :
  p <> "" -> no_char STAR p = true -> startsWith (p +:+ q) "*" = false.
Proof.
  destruct p as [|c p]; [done|]. cbn [no_char String.append]. intros _ [Hc _]%andb_true_iff.
  unfold startsWith. cbn [String.prefix]. destruct (Ascii.ascii_dec _ _) as [<-|]; [done|by destruct p].
Qed.

Lemma endsWith_star i p : p <> "" -> no_char STAR p = true -> endsWith (stars i +:+ p) "*" = false.
Proof.
  intros Hne Hp. destruct (endsWith (stars i +:+ p) "*") eqn:E; [|done].
  apply endsWith_spec in E as [a E]. apply (f_equal srev) in E. rewrite !srev_app in E. simpl in E.
  assert (Hs : no_char STAR (srev p) = true).
  { clear -Hp. induction p as [|c p IH]; [done|]. simpl in Hp. apply andb_true_iff in Hp as [Hc Hp].
    cbn [srev]. rewrite no_char_app, IH by done. cbn [no_char]. by rewrite Hc. }
  assert (Hn : srev p <> "").
  { intros E'. apply Hne. apply (f_equal srev) in E'. by rewrite srev_involutive in E'. }
  destruct (srev p) as [|c r]; [done|]. simpl in E, Hs. injection E as -> _. done.
Qed.

Lemma glob_shape i j body s :
  no_char STAR body = true ->
  glob (stars i +:+ (body +:+ stars j)) s = true <->
  exists a b, s = a +:+ (body +:+ b) /\ (i = 0%nat -> a = "") /\ (j = 0%nat -> b = "").
Proof.
  intros Hb.
  assert (Hm : forall s, glob (body +:+ stars j) s = true <-> exists b, s = body +:+ b /\ (j = 0%nat -> b = "")).
  { intros t. rewrite glob_plain by done. split.
    - intros (u & -> & Hu). exists u. split; [done|]. intros ->. change (u =s "" = true) in Hu. by bool_prop.
    - intros (b & -> & Hj). exists b. split; [done|]. destruct j; [by rewrite Hj|apply glob_stars_end; lia]. }
  destruct i as [|i].
  - change (stars 0 +:+ (body +:+ stars j)) with (body +:+ stars j). rewrite Hm. split.
    + intros (b & -> & H). by exists "", b.
    + intros (a & b & -> & Ha & H). rewrite Ha by done. by exists b.
  - rewrite glob_stars_front. setoid_rewrite Hm. split.
    + intros (a & b & -> & c & -> & H). by exists a, c.
    + intros (a & b & -> & _ & H). exists a, (body +:+ b). eauto.
Qed.

(** C31. Typing a pattern adds the members the pattern names: when the query
    is not turned into a regular expression, the member it adds covers a
    service exactly when the name matches the query as a shell pattern. *)
Theorem typed_pattern_covers raw r name :
  parseAddQuery raw = Some r -> r_serviceOp r <> regex ->
  trim (body_of (trim raw)) = body_of (trim raw) ->
  ruleCovers r name = glob (trim raw) name.
Proof.
  unfold parseAddQuery. set (q := trim raw). intros Hr Hop Ht.
  assert (Htq : trim q = q) by apply trim_trim.
  destruct (truthy q) eqn:Eq; [|done]. cbn [negb] in Hr.
  destruct (slashed q); [injection Hr as <-; done|].
  destruct (no_char STAR q) eqn:Es.
  { injection Hr as <-. unfold ruleCovers. cbn. rewrite Htq, Eq. cbn.
    apply eq_true_iff_eq. rewrite String.eqb_eq. rewrite <- (sapp_nil_r q) at 2.
    rewrite glob_plain by done. setoid_rewrite String.eqb_eq. split.
    - intros ->. exists "". by rewrite sapp_nil_r.
    - intros (t & -> & ->). by rewrite sapp_nil_r. }
  destruct (truthy (body_of q)) eqn:Eb; [|done]. cbn [negb] in Hr.
  destruct (no_char STAR (body_of q)) eqn:Eb'; [|injection Hr as <-; done].
  destruct (body_of_shape q) as (i & j & E). apply truthy_spec in Eb as Hne.
  assert (Hlead : startsWith q "*" = negb (i =? 0)%nat).
  { rewrite E. destruct i; [by apply (startsWith_star (body_of q))|]. change (stars (S i)) with (String STAR (stars i)). cbn [String.append]. exact (startsWith_app "*" _). }
  assert (Htrail : endsWith q "*" = negb (j =? 0)%nat).
  { rewrite E. destruct j; [change (stars 0) with ""; rewrite sapp_nil_r; by apply endsWith_star|].
    replace (stars (S j)) with (stars j +:+ "*"); [by rewrite !sapp_assoc; apply endsWith_app|].
    rewrite <- (srev_stars (S j)). change (stars (S j)) with (String STAR (stars j)). cbn [srev].
    by rewrite srev_stars. }
  apply eq_true_iff_eq. rewrite E at 1. rewrite glob_shape by done.
  rewrite Hlead, Htrail in Hr. cbn [andb] in Hr.
  destruct i as [|i], j as [|j]; cbn in Hr; injection Hr as <-; try done;
    unfold ruleCovers; cbn; rewrite Ht, Eb; cbn.
  - rewrite startsWith_spec. split.
    + intros [t ->]. by exists "", t.
    + intros (a & b & -> & Ha & _). rewrite Ha by done. by exists b.
  - rewrite endsWith_spec. split.
    + intros [t ->]. exists t, "". by rewrite sapp_nil_r.
    + intros (a & b & -> & _ & Hb). rewrite Hb by done. rewrite sapp_nil_r. by exists a.
  - rewrite includes_spec. naive_solver.
Qed.

End membership.

(** ** Examples *)

Definition ex_member (s : string) : Rule := blankRule equals s.

Lemma untouched_is_silent_witness :
  Forall (fun r => no_service_cond r = true) [ex_member "pay"; ex_member " orders "] /\
  describeChanges (norm_rules [ex_member "pay"; ex_member " orders "])
    (norm_rules [ex_member "pay"; ex_member " orders "]) match_any match_any = [].
Proof.
  assert (H : Forall (fun r => no_service_cond r = true) [ex_member "pay"; ex_member " orders "])
    by (repeat constructor).
  split; [exact H|]. exact (untouched_is_silent _ match_any H).
Defined.

Definition ex_nhs : list Neighborhood :=
  [{| nh_focal := "pay"; nh_upstream := None;
      nh_downstream := Some [{| n_service_name := "bank"; n_trace_count := Some 7%Z; n_error_count := 0%Z;
                                n_link_trace_count := None; n_link_error_count := None |}] |}].

Lemma suggestions_correct_witness :
  HostLaws plain_host /\
  StronglySorted (fun s t => (s_traffic t <= s_traffic s)%Z)
    (mergeSuggestions (host := plain_host) ex_nhs (fun _ => false)).
Proof.
  split; [exact plain_host_laws|].
  exact (proj2 (proj2 (proj2 (@suggestions_correct plain_host plain_host_laws ex_nhs (fun _ => false))))).
Defined.

Lemma typed_pattern_covers_witness :
  parseAddQuery "*pay*" = Some (blankRule contains "pay") /\
  ruleCovers (host := plain_host) (blankRule contains "pay") "eu-pay-1" = true.
Proof.
  split; [vm_compute; reflexivity|].
  refine (eq_trans (@typed_pattern_covers plain_host "*pay*" (blankRule contains "pay") "eu-pay-1" _ _ _) _);
    vm_compute; first [reflexivity | discriminate].
Defined.

