(* ===== verification/MessageFilters.v ===== *)
(** * Message filters

    [components/search/FilterEditor.tsx] (the rows of the editor, how an edit
    mutes or wakes a row, the summary sentence), [lib/messageFilterUrl.ts]
    (the rows in the query string), and the converters between rows, saved
    views and the wire of [pages/Search.tsx], [pages/IntegrationMessages.tsx]
    and [components/ServiceMessagesTab.tsx]. *)

From S2P Require Import Prelude JsString JsUri JsArray Host Types.

Local Open Scope char_scope.
Local Open Scope string_scope.
Local Open Scope list_scope.

(** ** Rows *)

Inductive Field := f_payload | f_time | f_integration | f_status | f_service | f_errorType | f_traceId | f_spanId.
#[export] Instance Field_eq_dec : EqDecision Field.
Proof. solve_decision. Defined.

Inductive Operator :=
  op_equals | op_contains | op_is | op_in | op_matches | op_not_equals | op_not_contains
| op_exists | op_not_exists.
#[export] Instance Operator_eq_dec : EqDecision Operator.
Proof. solve_decision. Defined.

Definition show_field (f : Field) : string :=
  match f with
  | f_payload => "payload" | f_time => "time" | f_integration => "integration" | f_status => "status"
  | f_service => "service" | f_errorType => "errorType" | f_traceId => "traceId" | f_spanId => "spanId"
  end.
Definition show_operator (o : Operator) : string :=
  match o with
  | op_equals => "equals" | op_contains => "contains" | op_is => "is" | op_in => "in"
  | op_matches => "matches" | op_not_equals => "not_equals" | op_not_contains => "not_contains"
  | op_exists => "exists" | op_not_exists => "not_exists"
  end.

Definition FIELDS : list Field :=
  [f_payload; f_time; f_integration; f_status; f_service; f_errorType; f_traceId; f_spanId].
Definition OPERATORS : list Operator :=
  [op_equals; op_contains; op_is; op_in; op_matches; op_not_equals; op_not_contains; op_exists; op_not_exists].

(** A string as a member of the closed vocabulary, when it is one. *)
Definition as_field (s : string) : option Field := List.find (fun f => show_field f =s s) FIELDS.
Definition as_operator (s : string) : option Operator := List.find (fun o => show_operator o =s s) OPERATORS.

Definition VALUELESS_OPS : list Operator := [op_exists; op_not_exists].
Definition valueless (o : Operator) : bool := bool_decide (o ∈ VALUELESS_OPS).
Definition DEFAULT_PICKER_FIELDS : list Field :=
  [f_payload; f_integration; f_status; f_service; f_errorType; f_traceId; f_spanId].
Definition NEGATED_OPS : list Operator := [op_not_equals; op_not_contains; op_not_exists].

Record Filter := {
  f_id : string;
  f_field : Field;
  f_fieldPath : option string;
  f_op : Operator;
  f_value : string;
  f_removable : bool;
  f_locked : option bool;
  f_optional : option bool;
  f_includeDescendants : option bool
}.

(** The truth value of an optional flag. *)
Definition flag (o : option bool) : bool := o ?? false.

Definition canIncludeDescendants (f : Filter) : bool :=
  bool_decide (f_field f = f_payload) && truthy_opt (f_fieldPath f)
  && negb (bool_decide (f_op f ∈ NEGATED_OPS)).

(** ** Editing a row

    A [Partial<Filter>]: an absent key is [None]; a key that is present with
    the value [undefined] is [Some None]. *)
Record FilterPatch := {
  p_field : option Field;
  p_fieldPath : option (option string);
  p_op : option Operator;
  p_value : option string;
  p_optional : option (option bool);
  p_includeDescendants : option (option bool)
}.

(** [{ ...f, ...patch }] *)
Definition spread (f : Filter) (p : FilterPatch) : Filter := {|
  f_id := f_id f;
  f_field := p_field p ?? f_field f;
  f_fieldPath := p_fieldPath p ?? f_fieldPath f;
  f_op := p_op p ?? f_op f;
  f_value := p_value p ?? f_value f;
  f_removable := f_removable f;
  f_locked := f_locked f;
  f_optional := p_optional p ?? f_optional f;
  f_includeDescendants := p_includeDescendants p ?? f_includeDescendants f
|}.

Definition set_optional (b : bool) (f : Filter) : Filter := {|
  f_id := f_id f; f_field := f_field f; f_fieldPath := f_fieldPath f; f_op := f_op f;
  f_value := f_value f; f_removable := f_removable f; f_locked := f_locked f;
  f_optional := Some b; f_includeDescendants := f_includeDescendants f
|}.

Definition applyFilterPatch (f : Filter) (patch : FilterPatch) : Filter :=
  let next := spread f patch in
  if negb (trim (f_value next) =s "") then
    if flag (f_optional next) then set_optional false next else next
  else if flag (f_optional f) then set_optional true next
  else next.

Definition no_patch : FilterPatch := {|
  p_field := None; p_fieldPath := None; p_op := None; p_value := None; p_optional := None;
  p_includeDescendants := None
|}.
Definition value_patch (v : string) : FilterPatch := {|
  p_field := None; p_fieldPath := None; p_op := None; p_value := Some v; p_optional := None;
  p_includeDescendants := None
|}.

(** Picking a field: the ids only support an exact match. *)
Definition field_patch (f : Field) (path : option string) : FilterPatch := {|
  p_field := Some f; p_fieldPath := Some path;
  p_op := if bool_decide (f = f_traceId) || bool_decide (f = f_spanId) then Some op_is else None;
  p_value := None; p_optional := None; p_includeDescendants := None
|}.

Definition op_choices (field : Field) : list Operator :=
  match field with
  | f_time => [op_is]
  | f_traceId | f_spanId => [op_is; op_contains]
  | f_status | f_integration | f_service => [op_is; op_in]
  | _ => [op_equals; op_contains; op_matches; op_in; op_not_equals; op_not_contains; op_exists; op_not_exists]
  end.

Definition new_row (id : string) : Filter := {|
  f_id := id; f_field := f_payload; f_fieldPath := Some ""; f_op := op_equals; f_value := "";
  f_removable := true; f_locked := None; f_optional := None; f_includeDescendants := None
|}.
Definition addFilter (uid : string) (filters : list Filter) : list Filter := filters ++ [new_row uid].
Definition updateFilter (id : string) (patch : FilterPatch) (filters : list Filter) : list Filter :=
  (fun f => if f_id f =s id then applyFilterPatch f patch else f) <$> filters.
Definition removeFilter (id : string) (filters : list Filter) : list Filter :=
  List.filter (fun f => negb (f_id f =s id)) filters.

(** ** Narrowing integrations and services by each other *)

(** [/^any\b/i] *)
Definition starts_any (s : string) : bool :=
  (map_chars lower_char (slice_to 3 s) =s "any")
  && match slice_from 3 s with
     | "" => true
     | String c _ => negb (is_alnum c || Ascii.eqb "_" c)
     end.

Definition singleValue (filters : list Filter) (field : Field) : string :=
  match List.find (fun x => bool_decide (f_field x = field) && negb (flag (f_optional x))
                            && negb (trim (f_value x) =s "") && negb (includes (f_value x) ",")
                            && negb (starts_any (trim (f_value x)))) filters with
  | Some f => trim (f_value f)
  | None => ""
  end.

Record KnownIntegration := { ki_id : string; ki_name : string; ki_services : option (list string) }.

Definition push_new (narrowed : list string) (s : string) : list string :=
  if bool_decide (s ∈ narrowed) then narrowed else narrowed ++ [s].

Definition narrowedServices (activeIntegrationName : string) (knownIntegrations : option (list KnownIntegration))
    (knownServices : list string) : list string :=
  if negb (truthy activeIntegrationName) then knownServices
  else
    match (knownIntegrations ≫= List.find (fun i => ki_name i =s activeIntegrationName)) ≫= ki_services with
    | None | Some [] => knownServices
    | Some services =>
        foldl push_new (List.filter (fun s => bool_decide (s ∈ services)) knownServices) services
    end.

Definition narrowedIntegrations (activeServiceName : string) (knownIntegrations : option (list KnownIntegration))
    : option (list KnownIntegration) :=
  match knownIntegrations with
  | None => None
  | Some known =>
      if negb (truthy activeServiceName) then Some known
      else if forallb (fun i => match ki_services i with Some (_ :: _) => false | _ => true end) known
      then Some known
      else Some (List.filter (fun i => bool_decide (activeServiceName ∈ (ki_services i ?? []))) known)
  end.

(** ** The summary sentence *)

Record MessageAttributeKey := { mk_key : string; mk_useCount : Z; mk_label : option string }.

Definition attributeRowLabel (key : string) (keys : list MessageAttributeKey) : string :=
  match List.find (fun k => mk_key k =s key) keys ≫= mk_label with
  | Some l => if truthy (trim l) then l else tpl ["attribute."; key]
  | None => tpl ["attribute."; key]
  end.

Definition FIELD_LABELS (f : Field) : string :=
  match f with
  | f_payload => "attribute" | f_time => "time" | f_integration => "integration" | f_status => "status"
  | f_service => "service" | f_errorType => "error type" | f_traceId => "trace ID" | f_spanId => "span ID"
  end.
Definition OP_LABELS (o : Operator) : string :=
  match o with
  | op_equals => "equals" | op_contains => "contains" | op_is => "is" | op_in => "in"
  | op_matches => "matches" | op_not_equals => "never equals" | op_not_contains => "never contains"
  | op_exists => "is present" | op_not_exists => "is never present"
  end.

Definition effective (f : Filter) : bool :=
  negb (flag (f_optional f)) && (valueless (f_op f) || negb (trim (f_value f) =s "") || flag (f_locked f)).

Definition row_phrase (keys : list MessageAttributeKey) (f : Filter) : string := tpl [
  match f_field f, f_fieldPath f with
  | f_payload, Some path => if truthy path then attributeRowLabel path keys else FIELD_LABELS f_payload
  | field, _ => FIELD_LABELS field
  end; " "; OP_LABELS (f_op f);
  if valueless (f_op f) then "" else tpl [" "; or_str (Some (f_value f)) "—"];
  if flag (f_includeDescendants f) && canIncludeDescendants f then " (and its child spans)" else ""].

(** The text of the sentence. *)
Definition buildSummary (filters : list Filter) (keys : list MessageAttributeKey) : string :=
  let eff := List.filter effective filters in
  match eff with
  | [] => "showing all messages in the selected time range, across any integration, with any status."
  | _ =>
      let locked := List.filter (fun f => flag (f_locked f)) eff in
      let free := List.filter (fun f => negb (flag (f_locked f))) eff in
      tpl ["showing messages ";
           match locked with [] => "" | _ => "in " end;
           join ", " ((fun f => or_str (Some (f_value f)) "—") <$> locked);
           match free, locked with [], _ => "" | _, [] => "where " | _, _ => " where " end;
           join ", " (row_phrase keys <$> free); "."]
  end.

(** ** Rows in the query string *)

Definition decodeValue (raw : string) : string := decodeURIComponent raw ?? raw.

(** A row read from the URL, before [uid()] names it. *)
Definition url_row (id : string) (field : Field) (path : option string) (op : Operator) (value : string)
    (desc : option bool) : Filter := {|
  f_id := id; f_field := field; f_fieldPath := path; f_op := op; f_value := value;
  f_removable := true; f_locked := None; f_optional := None; f_includeDescendants := desc
|}.

(** Takes a trailing ["*"] off. *)
Definition cut_star (lhs : string) : bool * string :=
  if endsWith lhs "*" then (true, drop_last lhs) else (false, lhs).

(** Takes ["~op"] off; [None] when the operator is not one of ours. *)
Definition cut_op (lhs : string) : option (Operator * string) :=
  match index_of "~" lhs with
  | Some tilde =>
      match as_operator (slice_from (S tilde) lhs) with
      | Some op => Some (op, slice_to tilde lhs)
      | None => None
      end
  | None => Some (op_equals, lhs)
  end.

(** One chunk of [?q]; [None] is a chunk that is skipped. *)
Definition read_chunk (id : string) (chunk : string) : option Filter :=
  let trimmed := trim chunk in
  if negb (truthy trimmed) then None
  else match index_of ":" trimmed with
  | None => None
  | Some at_ =>
      let value := decodeValue (slice_from (S at_) trimmed) in
      let '(desc, lhs) := cut_star (slice_to at_ trimmed) in
      match cut_op lhs with
      | None => None
      | Some (op, lhs) =>
          if startsWith lhs "@" then
            match as_field (slice_from 1 lhs) with
            | None | Some f_payload | Some f_time => None
            | Some field => Some (url_row id field None op value None)
            end
          else
            let path := if startsWith lhs "payload." then slice_from 8 lhs else lhs in
            if negb (truthy path) then None
            else if negb (truthy value) && negb (valueless op) then None
            else Some (url_row id f_payload (Some path) op value (if desc then Some true else None))
      end
  end.

Fixpoint read_chunks (uid : nat -> string) (n : nat) (chunks : list string) : list Filter :=
  match chunks with
  | [] => []
  | c :: cs =>
      match read_chunk (uid n) c with
      | Some f => f :: read_chunks uid (S n) cs
      | None => read_chunks uid n cs
      end
  end.

(** [uid n] is the [n]-th identifier the session draws. *)
Definition hydrateFiltersFromUrl (uid : nat -> string) (search : string) : list Filter :=
  let params := usp_parse search in
  let status :=
    match usp_get params "s" with
    | Some s => if truthy s then [url_row (uid 0%nat) f_status None op_is s None] else []
    | None => []
    end in
  match usp_get params "q" with
  | Some q => if truthy q then status ++ read_chunks uid (length status) (split "," q) else status
  | None => status
  end.

(** The chunk of a row; [None] for a row that has none. *)
Definition write_chunk (f : Filter) : option string :=
  if flag (f_optional f) || flag (f_locked f) then None
  else match f_field f with
  | f_time | f_status => None
  | field =>
      let vl := valueless (f_op f) in
      if negb (truthy (f_value f)) && negb vl then None
      else
        let opPart := if bool_decide (f_op f = op_equals) then "" else tpl ["~"; show_operator (f_op f)] in
        let childPart := if flag (f_includeDescendants f) then "*" else "" in
        let value := if vl then "" else encodeURIComponent (f_value f) in
        match field with
        | f_payload =>
            if truthy_opt (f_fieldPath f)
            then Some (tpl [f_fieldPath f ?? ""; opPart; childPart; ":"; value])
            else None
        | _ => Some (tpl ["@"; show_field field; opPart; ":"; value])
        end
  end.

Definition set_status (ps : params) (f : Filter) : params :=
  if flag (f_optional f) || flag (f_locked f) then ps
  else if bool_decide (f_field f = f_status) then usp_set "s" (f_value f) ps
  else ps.

Definition writeFiltersToParams (filters : list Filter) (ps : params) : params :=
  let ps := usp_delete "t" (usp_delete "q" (usp_delete "s" ps)) in
  let ps := foldl set_status ps filters in
  match omap write_chunk filters with
  | [] => ps
  | q => usp_set "q" (join "," q) ps
  end.

(** The query string of a shared link. *)
Record ShareTarget := {
  sh_range : option string;
  sh_viewId : option string;
  sh_extra : list (string * string)
}.

Definition share_query (filters : list Filter) (t : ShareTarget) : params :=
  let ps := if truthy_opt (sh_viewId t) then usp_set "view" (sh_viewId t ?? "") []
            else writeFiltersToParams filters [] in
  let ps := if truthy_opt (sh_range t) then usp_set "range" (sh_range t ?? "") ps else ps in
  foldl (fun ps kv => usp_set kv.1 kv.2 ps) ps (sh_extra t).

(** ** Saved views and the wire *)

Record MessageFilter := {
  w_id : option string;
  w_field : Field;
  w_fieldPath : option string;
  w_op : Operator;
  w_value : string;
  w_removable : option bool;
  w_locked : option bool;
  w_optional : option bool;
  w_includeDescendants : option bool
}.

Record MessageViewScope := { vs_integrationId : option string; vs_serviceId : option string }.
Inductive MessageViewVisibility := vis_private | vis_team | vis_org.
#[export] Instance MessageViewVisibility_eq_dec : EqDecision MessageViewVisibility.
Proof. solve_decision. Defined.

Record MessageView := {
  mv_id : string; mv_name : string; mv_description : option string; mv_mine : bool; mv_pinned : bool;
  mv_shared : bool; mv_visibility : MessageViewVisibility; mv_groupId : option string;
  mv_groupName : option string; mv_canManage : bool; mv_filters : list MessageFilter;
  mv_scope : option MessageViewScope; mv_messageColumns : option (list MessageColumn);
  mv_resultCount : option Z; mv_lastEditedAt : string; mv_createdAt : string; mv_updatedAt : string
}.

Record SavedView := {
  sv_id : string; sv_name : string; sv_description : option string; sv_filters : list Filter;
  sv_mine : bool; sv_pinned : bool; sv_visibility : MessageViewVisibility; sv_groupId : option string;
  sv_groupName : option string; sv_canManage : bool; sv_resultCount : option Z;
  sv_lastEditedAt : option string; sv_messageColumns : option (list MessageColumn);
  sv_scope : option MessageViewScope
}.

Record UpdateMessageViewRequest := {
  uv_name : string; uv_description : option string; uv_pinned : bool; uv_filters : list MessageFilter;
  uv_scope : option MessageViewScope; uv_messageColumns : option (list MessageColumn)
}.

Definition not_time (f : Field) : bool := negb (bool_decide (f = f_time)).

Definition filter_to_wire (keep_optional : bool) (f : Filter) : MessageFilter := {|
  w_id := None; w_field := f_field f; w_fieldPath := f_fieldPath f; w_op := f_op f; w_value := f_value f;
  w_removable := Some (f_removable f); w_locked := f_locked f;
  w_optional := if keep_optional then f_optional f else None;
  w_includeDescendants := f_includeDescendants f
|}.

(** [pages/Search.tsx] keeps muted rows; the other two surfaces drop them. *)
Definition filtersToWire (filters : list Filter) : list MessageFilter :=
  filter_to_wire true <$> List.filter (fun f => not_time (f_field f)) filters.
Definition filtersToWire_scoped (filters : list Filter) : list MessageFilter :=
  filter_to_wire false <$>
    List.filter (fun f => negb (flag (f_optional f)) && not_time (f_field f)) filters.

Definition filter_from_wire (uid : string) (f : MessageFilter) : Filter := {|
  f_id := w_id f ?? uid; f_field := w_field f; f_fieldPath := w_fieldPath f; f_op := w_op f;
  f_value := w_value f; f_removable := w_removable f ?? true; f_locked := w_locked f;
  f_optional := w_optional f; f_includeDescendants := w_includeDescendants f
|}.

Definition view_filters (uid : nat -> string) (fs : list MessageFilter) : list Filter :=
  imap (fun n f => filter_from_wire (uid n) f) (List.filter (fun f => not_time (w_field f)) fs).

(** The scope of a view, when it names something. *)
Definition scope_any (s : option MessageViewScope) : option MessageViewScope :=
  match s with
  | Some sc => if truthy_opt (vs_integrationId sc) || truthy_opt (vs_serviceId sc) then Some sc else None
  | None => None
  end.
Definition scope_integration (s : option MessageViewScope) : option MessageViewScope :=
  match s with
  | Some sc => if truthy_opt (vs_integrationId sc) then Some sc else None
  | None => None
  end.

Definition viewFromWire (uid : nat -> string) (v : MessageView) : SavedView := {|
  sv_id := mv_id v; sv_name := mv_name v; sv_description := mv_description v; sv_mine := mv_mine v;
  sv_pinned := mv_pinned v; sv_visibility := mv_visibility v; sv_groupId := mv_groupId v;
  sv_groupName := mv_groupName v; sv_canManage := mv_canManage v; sv_resultCount := mv_resultCount v;
  sv_lastEditedAt := Some (mv_lastEditedAt v); sv_messageColumns := mv_messageColumns v;
  sv_scope := scope_any (mv_scope v); sv_filters := view_filters uid (mv_filters v)
|}.
Definition viewFromWire_integration (uid : nat -> string) (v : MessageView) : SavedView := {|
  sv_id := mv_id v; sv_name := mv_name v; sv_description := mv_description v; sv_mine := mv_mine v;
  sv_pinned := mv_pinned v; sv_visibility := mv_visibility v; sv_groupId := mv_groupId v;
  sv_groupName := mv_groupName v; sv_canManage := mv_canManage v; sv_resultCount := mv_resultCount v;
  sv_lastEditedAt := Some (mv_lastEditedAt v); sv_messageColumns := mv_messageColumns v;
  sv_scope := scope_integration (mv_scope v); sv_filters := view_filters uid (mv_filters v)
|}.
(** The service tab does not carry the view's columns. *)
Definition viewFromWire_service (uid : nat -> string) (v : MessageView) : SavedView := {|
  sv_id := mv_id v; sv_name := mv_name v; sv_description := mv_description v; sv_mine := mv_mine v;
  sv_pinned := mv_pinned v; sv_visibility := mv_visibility v; sv_groupId := mv_groupId v;
  sv_groupName := mv_groupName v; sv_canManage := mv_canManage v; sv_resultCount := mv_resultCount v;
  sv_lastEditedAt := Some (mv_lastEditedAt v); sv_messageColumns := None;
  sv_scope := scope_any (mv_scope v); sv_filters := view_filters uid (mv_filters v)
|}.

Definition updateBody (v : SavedView) (name : string) (filters : list Filter) : UpdateMessageViewRequest := {|
  uv_name := name; uv_description := sv_description v; uv_pinned := sv_pinned v;
  uv_filters := filtersToWire filters; uv_scope := sv_scope v; uv_messageColumns := sv_messageColumns v
|}.

Definition blankView (uid : string) : SavedView := {|
  sv_id := tpl ["draft-"; uid]; sv_name := "untitled view"; sv_description := None; sv_filters := [];
  sv_mine := true; sv_pinned := false; sv_visibility := vis_private; sv_groupId := None;
  sv_groupName := None; sv_canManage := true; sv_resultCount := None; sv_lastEditedAt := None;
  sv_messageColumns := None; sv_scope := None
|}.
Definition isDraft (view : option SavedView) : bool :=
  match view with Some v => startsWith (sv_id v) "draft-" | None => false end.

Definition row_equal (x y : Filter) : bool :=
  bool_decide (f_field x = f_field y) && bool_decide (f_fieldPath x = f_fieldPath y)
  && bool_decide (f_op x = f_op y) && (f_value x =s f_value y).
Definition filtersEqual (a b : list Filter) : bool :=
  (length a =? length b)%nat && forallb (fun p => row_equal p.1 p.2) (zip a b).

Definition visibilityLabel (v : MessageViewVisibility) (groupName : option string) : string :=
  match v with
  | vis_private => "private"
  | vis_team => if truthy_opt groupName then tpl ["team · "; groupName ?? ""] else "team"
  | vis_org => "org-wide"
  end.

(** ** Muted rows *)

Definition muted (f : Filter) : bool := flag (f_optional f).
Definition blank (v : string) : bool := trim v =s "".

Lemma value_edit_muted f v :
  muted (applyFilterPatch f (value_patch v)) = muted f && blank v.
Proof.
  unfold applyFilterPatch, muted, blank. cbn -[trim flag String.eqb].
  destruct (trim v =s ""), (flag (f_optional f)) eqn:E; cbn -[flag]; by rewrite ?E.
Qed.

(** A muted row comes alive with its first value and stays alive: after
    any edits of its value, a row is muted exactly when it was muted to begin
    with and no edit gave it a value.  Clearing the value of a row that was
    filled in does not mute it again. *)
Theorem muted_until_filled f vs :
  muted (foldl (fun f v => applyFilterPatch f (value_patch v)) f vs) = muted f && forallb blank vs.
Proof.
  revert f. induction vs as [|v vs IH]; intros f; simpl; [by rewrite andb_true_r|].
  by rewrite IH, value_edit_muted, andb_assoc.
Qed.

(** ** Dirty views *)

Definition with_children (b : bool) (f : Filter) : Filter := {|
  f_id := f_id f; f_field := f_field f; f_fieldPath := f_fieldPath f; f_op := f_op f;
  f_value := f_value f; f_removable := f_removable f; f_locked := f_locked f;
  f_optional := f_optional f; f_includeDescendants := Some b
|}.

Lemma filtersEqual_spec a b :
  filtersEqual a b = true <->
  (fun f => (f_field f, f_fieldPath f, f_op f, f_value f)) <$> a
  = (fun f => (f_field f, f_fieldPath f, f_op f, f_value f)) <$> b.
Proof.
  unfold filtersEqual. revert b. induction a as [|x a IH]; intros [|y b]; csimpl; try done.
  specialize (IH b). unfold row_equal at 1. rewrite andb_true_iff in IH. rewrite !andb_true_iff.
  rewrite !bool_decide_eq_true, String.eqb_eq. split.
  - intros (Hl & (((H1 & H2) & H3) & H4) & Hr). rewrite H1, H2, H3, H4. f_equal. by apply IH.
  - intros H. injection H as H1 H2 H3 H4 H. apply IH in H as [? ?]. done.
Qed.

(** The child-spans switch of a row is not part of what makes a view
    dirty: switching it on every row leaves [filtersEqual] true, although the
    rows sent to the server differ. *)
Theorem child_switch_is_not_dirty b f fs :
  filtersEqual (with_children b <$> f :: fs) (f :: fs) = true /\
  (f_field f <> f_time -> f_includeDescendants f <> Some b ->
   filtersToWire (with_children b <$> f :: fs) <> filtersToWire (f :: fs)).
Proof.
  split.
  - apply filtersEqual_spec. rewrite <- list_fmap_compose. by apply list_fmap_ext.
  - intros Ht Hd H. unfold filtersToWire in H.
    assert (Hn : not_time (f_field f) = true) by (unfold not_time; by rewrite bool_decide_false).
    cbn [fmap list_fmap List.filter with_children f_field] in H. rewrite Hn in H.
    cbn [fmap list_fmap] in H. injection H. intros. cbn in *. congruence.
Qed.

Definition ex_row (path : string) (op : Operator) (v : string) : Filter := {|
  f_id := "x"; f_field := f_payload; f_fieldPath := Some path; f_op := op; f_value := v;
  f_removable := true; f_locked := None; f_optional := None; f_includeDescendants := None |}.

Lemma child_switch_is_not_dirty_witness :
  f_field (ex_row "order.id" op_equals "ORD") <> f_time /\
  filtersToWire [with_children true (ex_row "order.id" op_equals "ORD")]
    <> filtersToWire [ex_row "order.id" op_equals "ORD"].
Proof.
  split; [discriminate|].
  apply (proj2 (child_switch_is_not_dirty true (ex_row "order.id" op_equals "ORD") [])); discriminate.
Defined.

(** ** Saved views *)

(** What a row of a view is once it was read and written back. *)
Definition resaved (f : MessageFilter) : MessageFilter := {|
  w_id := None; w_field := w_field f; w_fieldPath := w_fieldPath f; w_op := w_op f; w_value := w_value f;
  w_removable := Some (w_removable f ?? true); w_locked := w_locked f; w_optional := w_optional f;
  w_includeDescendants := w_includeDescendants f
|}.

Lemma view_filters_wire uid fs :
  filtersToWire (view_filters uid fs) = resaved <$> List.filter (fun f => not_time (w_field f)) fs.
Proof.
  unfold filtersToWire, view_filters. rewrite filterb_all.
  - rewrite fmap_imap. set (l := List.filter _ fs). clearbody l.
    revert uid. induction l as [|f l IH]; intros uid; [done|]. csimpl. f_equal.
    specialize (IH (fun n => uid (S n))). rewrite <- IH. done.
  - intros f Hf. apply elem_of_lookup_imap in Hf as (i & w & -> & Hw). cbn.
    apply list_elem_of_lookup_2, filterb_elem in Hw as [_ ?]. done.
Qed.

(** Renaming a saved view on the search page changes nothing but its name:
    description, pin, scope and columns go back as they came, and every row
    but a legacy time row goes back as it was stored, muted rows included. *)
Theorem rename_keeps_view uid v name :
  scope_any (mv_scope v) = mv_scope v ->
  let sv := viewFromWire uid v in
  updateBody sv name (sv_filters sv) = {|
    uv_name := name; uv_description := mv_description v; uv_pinned := mv_pinned v;
    uv_filters := resaved <$> List.filter (fun f => not_time (w_field f)) (mv_filters v);
    uv_scope := mv_scope v; uv_messageColumns := mv_messageColumns v |}.
Proof. intros Hs. cbn zeta. unfold updateBody. f_equal; [apply view_filters_wire | exact Hs]. Qed.

Definition ex_view : MessageView := {|
  mv_id := "v1"; mv_name := "mine"; mv_description := Some "d"; mv_mine := true; mv_pinned := true;
  mv_shared := false; mv_visibility := vis_org; mv_groupId := None; mv_groupName := None;
  mv_canManage := true;
  mv_filters := [filter_to_wire true (ex_row "order.id" op_equals "ORD")];
  mv_scope := Some {| vs_integrationId := Some "i1"; vs_serviceId := None |};
  mv_messageColumns := Some []; mv_resultCount := None; mv_lastEditedAt := "t"; mv_createdAt := "t";
  mv_updatedAt := "t" |}.

Lemma rename_keeps_view_witness :
  scope_any (mv_scope ex_view) = mv_scope ex_view /\
  uv_scope (updateBody (viewFromWire (fun _ => "u") ex_view) "n" (sv_filters (viewFromWire (fun _ => "u") ex_view)))
  = mv_scope ex_view.
Proof.
  split; [reflexivity|]. exact (f_equal uv_scope (rename_keeps_view (fun _ => "u") ex_view "n" eq_refl)).
Defined.

(** ** Narrowing *)

Lemma push_new_elem l s x : x ∈ push_new l s <-> x ∈ l \/ x = s.
Proof.
  unfold push_new. case_bool_decide as E.
  - split; [by left|]. intros [?| ->]; done.
  - rewrite elem_of_app, list_elem_of_singleton. done.
Qed.

Lemma push_new_NoDup l s : NoDup l -> NoDup (push_new l s).
Proof.
  intros H. unfold push_new. case_bool_decide; [done|]. apply NoDup_app.
  split; [done|]. split; [|apply NoDup_singleton]. intros x Hx ->%list_elem_of_singleton. done.
Qed.

Lemma fold_push_new l ss :
  (forall x, x ∈ foldl push_new l ss <-> x ∈ l \/ x ∈ ss) /\ (NoDup l -> NoDup (foldl push_new l ss)).
Proof.
  revert l. induction ss as [|s ss IH]; intros l; simpl.
  - split; [|done]. intros x. split; [by left|]. intros [?|H]; [done|by apply elem_of_nil in H].
  - destruct (IH (push_new l s)) as [H1 H2]. split.
    + intros x. rewrite H1, push_new_elem, elem_of_cons. tauto.
    + intros H. by apply H2, push_new_NoDup.
Qed.

(** Choosing an integration narrows the services on offer to exactly its
    members, each once, including members the window did not show. *)
Theorem narrowing_offers_members name known i s ss services :
  List.find (fun i => ki_name i =s name) known = Some i -> truthy name = true ->
  ki_services i = Some (s :: ss) -> NoDup services ->
  NoDup (narrowedServices name (Some known) services) /\
  (forall x, x ∈ narrowedServices name (Some known) services <-> x ∈ s :: ss).
Proof.
  intros Hi Hn Hs Hnd. unfold narrowedServices. rewrite Hn. cbn. rewrite Hi. cbn. rewrite Hs.
  destruct (fold_push_new (List.filter (fun x => bool_decide (x ∈ s :: ss)) services) (s :: ss)) as [H1 H2].
  split.
  - apply H2. clear -Hnd. induction Hnd as [|x l Hx Hl IH]; simpl; [constructor|].
    case_bool_decide; [|done]. constructor; [|done]. intros [? _]%filterb_elem. done.
  - intros x. change (foldl push_new (push_new ?l s) ss) with (foldl push_new l (s :: ss)).
    etransitivity; [apply H1|]. rewrite filterb_elem. rewrite bool_decide_eq_true. tauto.
Qed.

Lemma narrowing_offers_members_witness :
  NoDup ["a"; "b"] /\
  NoDup (narrowedServices "I" (Some [{| ki_id := "1"; ki_name := "I"; ki_services := Some ["b"; "c"] |}]) ["a"; "b"]).
Proof.
  assert (H : NoDup ["a"; "b"]) by (repeat constructor; set_solver).
  split; [exact H|].
  exact (proj1 (narrowing_offers_members "I" [{| ki_id := "1"; ki_name := "I"; ki_services := Some ["b"; "c"] |}]
    {| ki_id := "1"; ki_name := "I"; ki_services := Some ["b"; "c"] |} "b" ["c"] ["a"; "b"]
    eq_refl eq_refl eq_refl H)).
Defined.

(** ** The query string: round trip *)

(** An attribute name the grammar of [?q] can carry. *)
Definition clean_path (p : string) : Prop :=
  p <> "" /\ strips ws1 ws2 ws3 p = false /\
  no_char "," p = true /\ no_char ":" p = true /\ no_char "~" p = true /\
  startsWith p "@" = false /\ endsWith p "*" = false /\ startsWith p "payload." = false.

Definition carried_value (f : Filter) : string := if valueless (f_op f) then "" else f_value f.

(** A row as it comes back from a link. *)
Definition carried (id : string) (f : Filter) : Filter :=
  match f_field f with
  | f_payload => url_row id f_payload (f_fieldPath f) (f_op f) (carried_value f)
      (if flag (f_includeDescendants f) then Some true else None)
  | field => url_row id field None (f_op f) (carried_value f) None
  end.

(** The rows of [?q]. *)
Definition written (f : Filter) : bool := match write_chunk f with Some _ => true | None => false end.

Definition linkable (f : Filter) : Prop :=
  utf8_valid (f_value f) = true /\ (f_field f = f_payload -> clean_path (f_fieldPath f ?? "")).

Lemma as_operator_show op : as_operator (show_operator op) = Some op.
Proof. by destruct op. Qed.

Definition op_part (op : Operator) : string :=
  if bool_decide (op = op_equals) then "" else tpl ["~"; show_operator op].
Definition child_part (b : bool) : string := if b then "*" else "".

Lemma op_part_no_char c op :
  c = ","%char \/ c = ":"%char \/ c = "*"%char -> no_char c (op_part op) = true.
Proof. intros [-> | [-> | ->]]; by destruct op. Qed.

Lemma cut_star_lhs p op b :
  endsWith p "*" = false ->
  cut_star (p +:+ (op_part op +:+ child_part b)) = (b, p +:+ op_part op).
Proof.
  intros Hp. unfold cut_star. destruct b; cbn [child_part].
  - rewrite sapp_assoc, endsWith_app, drop_last_app. done.
  - rewrite sapp_nil_r. destruct (decide (op = op_equals)) as [->|Hop].
    + cbn. by rewrite sapp_nil_r, Hp.
    + rewrite endsWith_app_ne by by destruct op. by destruct op.
Qed.

Lemma cut_op_lhs p op : no_char "~" p = true -> cut_op (p +:+ op_part op) = Some (op, p).
Proof.
  intros Hp. unfold cut_op. destruct (decide (op = op_equals)) as [->|Hop].
  - change (op_part op_equals) with "". rewrite sapp_nil_r.
    by apply index_of_None in Hp as ->.
  - assert (E : op_part op = String "~" (show_operator op)) by by destruct op.
    rewrite E, index_of_app, slice_from_cut, slice_to_app, as_operator_show by done. done.
Qed.

Lemma value_decodes f :
  utf8_valid (f_value f) = true ->
  decodeValue (if valueless (f_op f) then "" else encodeURIComponent (f_value f)) = carried_value f.
Proof.
  intros H. unfold carried_value, decodeValue. destruct (valueless (f_op f)); [done|].
  by rewrite decode_encode_uri.
Qed.

(** What separates a chunk into its two sides. *)
Lemma chunk_sides lhs value f :
  strips ws1 ws2 ws3 lhs = false -> no_char ":" lhs = true ->
  value = (if valueless (f_op f) then "" else encodeURIComponent (f_value f)) ->
  trim (lhs +:+ String ":" value) = lhs +:+ String ":" value /\
  index_of ":" (lhs +:+ String ":" value) = Some (String.length lhs).
Proof.
  intros Hs Hc Hv. split; [|by apply index_of_app].
  assert (Hst : strips ws1 ws2 ws3 (lhs +:+ String ":" value) = false) by by apply strips_app_plain.
  destruct (decide (value = "")) as [->|Hne]; [by apply (trim_plain _ lhs ":"%char)|].
  destruct (string_snoc value Hne) as (t & a & E).
  apply (trim_plain _ (lhs +:+ String ":" t) a); [done| |].
  - rewrite E. by rewrite <- sapp_assoc.
  - destruct (valueless (f_op f)); [by subst|]. rewrite E in Hv. by eapply encode_uri_last.
Qed.

Lemma strips_lhs p op b :
  p <> "" -> strips ws1 ws2 ws3 p = false ->
  strips ws1 ws2 ws3 (p +:+ (op_part op +:+ child_part b)) = false.
Proof.
  intros Hne H. destruct (op_part op +:+ child_part b) as [|c t] eqn:E; [by rewrite sapp_nil_r|].
  apply strips_app_plain; [done|]. destruct op, b; cbn in E; try discriminate E; by injection E as <- _.
Qed.

Lemma read_payload_chunk id f p :
  f_field f = f_payload -> f_fieldPath f = Some p -> clean_path p -> utf8_valid (f_value f) = true ->
  (f_value f <> "" \/ valueless (f_op f) = true) ->
  read_chunk id (tpl [p; op_part (f_op f); child_part (flag (f_includeDescendants f)); ":";
                      if valueless (f_op f) then "" else encodeURIComponent (f_value f)])
  = Some (carried id f).
Proof.
  intros Hf Hp (Hne & Hst & Hc1 & Hc2 & Hc3 & Hat & Hend & Hpay) Hu Hv.
  set (b := flag (f_includeDescendants f)). set (value := if valueless (f_op f) then _ else _).
  set (lhs := p +:+ (op_part (f_op f) +:+ child_part b)).
  assert (E : tpl [p; op_part (f_op f); child_part b; ":"; value] = lhs +:+ String ":" value).
  { unfold lhs. cbn [tpl]. rewrite sapp_nil_r. rewrite <- !sapp_assoc. done. }
  rewrite E. clear E. unfold read_chunk.
  destruct (chunk_sides lhs value f) as [-> ->]; [by apply strips_lhs| |done|].
  { unfold lhs. rewrite !no_char_app, Hc2, op_part_no_char by tauto. by destruct b. }
  assert (Ht : truthy (lhs +:+ String ":" value) = true).
  { apply truthy_spec. by destruct lhs. }
  rewrite Ht. cbn [negb]. rewrite slice_from_cut, slice_to_app. unfold lhs.
  rewrite cut_star_lhs by done. rewrite cut_op_lhs by done. rewrite Hat, Hpay.
  apply truthy_spec in Hne as ->. cbn [negb]. unfold value.
  rewrite value_decodes by done. unfold carried. rewrite Hf, Hp. unfold carried_value.
  destruct (valueless (f_op f)) eqn:Ev; [done|]. destruct Hv as [Hv|Hv]; [|done].
  apply truthy_spec in Hv as ->. done.
Qed.

Lemma read_field_chunk id f :
  f_field f <> f_payload -> f_field f <> f_time -> utf8_valid (f_value f) = true ->
  read_chunk id (tpl ["@"; show_field (f_field f); op_part (f_op f); ":";
                      if valueless (f_op f) then "" else encodeURIComponent (f_value f)])
  = Some (carried id f).
Proof.
  intros Hf Htm Hu. set (value := if valueless (f_op f) then _ else _).
  set (lhs := "@" +:+ (show_field (f_field f) +:+ op_part (f_op f))).
  assert (E : tpl ["@"; show_field (f_field f); op_part (f_op f); ":"; value] = lhs +:+ String ":" value).
  { unfold lhs. cbn [tpl]. rewrite sapp_nil_r. rewrite <- !sapp_assoc. done. }
  rewrite E. clear E. unfold read_chunk.
  destruct (chunk_sides lhs value f) as [-> ->]; [by destruct (f_field f), (f_op f) | by destruct (f_field f), (f_op f) | done|].
  assert (Ht : truthy (lhs +:+ String ":" value) = true) by done.
  rewrite Ht. cbn [negb]. rewrite slice_from_cut, slice_to_app. unfold value. rewrite value_decodes by done.
  assert (Hs : cut_star lhs = (false, lhs)) by by destruct (f_field f), (f_op f).
  assert (Ho : cut_op lhs = Some (f_op f, "@" +:+ show_field (f_field f)))
    by by destruct (f_field f), (f_op f).
  rewrite Hs, Ho. unfold carried. by destruct (f_field f).
Qed.

Lemma read_write_chunk id f c : linkable f -> write_chunk f = Some c -> read_chunk id c = Some (carried id f).
Proof.
  intros [Hu Hp] Hw. unfold write_chunk in Hw.
  destruct (flag (f_optional f) || flag (f_locked f)); [done|].
  destruct (negb (truthy (f_value f)) && negb (valueless (f_op f))) eqn:Ev; [by destruct (f_field f)|].
  assert (Hv : f_value f <> "" \/ valueless (f_op f) = true).
  { destruct (truthy (f_value f)) eqn:Et; [left; by apply truthy_spec|right; by destruct (valueless (f_op f))]. }
  fold (op_part (f_op f)) in Hw. fold (child_part (flag (f_includeDescendants f))) in Hw.
  destruct (decide (f_field f = f_payload)) as [Ef|Ef].
  - rewrite Ef in Hw. destruct (truthy_opt (f_fieldPath f)) eqn:Ep; [|done]. injection Hw as <-.
    destruct (f_fieldPath f) as [p|] eqn:E; [|done]. apply read_payload_chunk; auto.
  - destruct (decide (f_field f = f_time)) as [Et|Et]; [by rewrite Et in Hw|].
    rewrite <- (read_field_chunk id f Ef Et Hu). f_equal.
    destruct (f_field f); try done; by injection Hw as <-.
Qed.

Lemma write_chunk_no_comma f c : linkable f -> write_chunk f = Some c -> no_char "," c = true /\ c <> "".
Proof.
  intros [Hu Hp] Hw. unfold write_chunk in Hw.
  destruct (flag (f_optional f) || flag (f_locked f)); [done|].
  destruct (negb (truthy (f_value f)) && negb (valueless (f_op f))); [by destruct (f_field f)|].
  fold (op_part (f_op f)) in Hw. fold (child_part (flag (f_includeDescendants f))) in Hw.
  assert (Hval : no_char "," (if valueless (f_op f) then "" else encodeURIComponent (f_value f)) = true).
  { destruct (valueless (f_op f)); [done|]. by apply encode_uri_no_char. }
  destruct (decide (f_field f = f_payload)) as [Ef|Ef].
  - rewrite Ef in Hw. destruct (truthy_opt (f_fieldPath f)) eqn:Ep; [|done]. injection Hw as <-.
    destruct (f_fieldPath f) as [p|]; [|done]. destruct (Hp Ef) as (Hne & _ & Hc & _).
    change (Some p ?? "") with p in *. split; [|by destruct p]. cbn [tpl]. rewrite sapp_nil_r, !no_char_app.
    rewrite Hc, op_part_no_char by tauto. cbn [no_char String.append]. rewrite Hval. by destruct (flag (f_includeDescendants f)).
  - assert (Hc : c = tpl ["@"; show_field (f_field f); op_part (f_op f); ":";
      if valueless (f_op f) then "" else encodeURIComponent (f_value f)] /\ f_field f <> f_time).
    { destruct (f_field f); try done; by injection Hw as <-. }
    destruct Hc as [-> Htm]. split; [|done].
    cbn [tpl]. rewrite sapp_nil_r. cbn [String.append no_char]. rewrite !no_char_app, op_part_no_char by tauto.
    cbn [String.append no_char]. change ("" +:+ ?x) with x. rewrite Hval. by destruct (f_field f).
Qed.

Lemma read_chunks_written uid n fs :
  Forall linkable fs ->
  read_chunks uid n (omap write_chunk fs) = imap (fun i f => carried (uid (n + i)%nat) f) (List.filter written fs).
Proof.
  intros H. revert n. induction H as [|f fs Hf Hfs IH]; intros n; [done|]. csimpl. unfold written at 1.
  destruct (write_chunk f) as [c|] eqn:E; [|apply IH]. cbn [read_chunks].
  rewrite (read_write_chunk (uid n) f c Hf E). csimpl. rewrite Nat.add_0_r, IH. f_equal.
  apply imap_ext. intros i x _. unfold compose. by rewrite Nat.add_succ_r.
Qed.

(** The value of the last status row in force. *)
Definition status_in_force (fs : list Filter) : option string :=
  f_value <$> last (List.filter (fun f => negb (flag (f_optional f) || flag (f_locked f))
                                          && bool_decide (f_field f = f_status)) fs).

Lemma set_status_s ps fs :
  usp_get (foldl set_status ps fs) "s" = match status_in_force fs with Some v => Some v | None => usp_get ps "s" end.
Proof.
  unfold status_in_force. induction fs as [|f fs IH] using rev_ind; [done|].
  rewrite foldl_app, List.filter_app. cbn [foldl List.filter]. unfold set_status at 1.
  destruct (flag (f_optional f) || flag (f_locked f)); cbn [negb andb]; [by rewrite app_nil_r|].
  case_bool_decide; [|by rewrite app_nil_r]. by rewrite usp_get_set, last_snoc.
Qed.

Lemma set_status_q ps fs : usp_get (foldl set_status ps fs) "q" = usp_get ps "q".
Proof.
  apply usp_get_fold. intros ps' f. unfold set_status. repeat case_if; try done. by apply usp_get_set_ne.
Qed.

(** A shared link reproduces its filters: whatever the other parameters of
    the page, writing rows to the query string and reading them back gives
    every row in force with its field, attribute, operator, value and
    child-spans switch, in order.  The status row is the exception: it comes
    back first and always with the operator [is]. *)
Theorem link_round_trip uid fs ps :
  Forall linkable fs ->
  let status := match status_in_force fs with
                | Some v => if truthy v then [url_row (uid 0%nat) f_status None op_is v None] else []
                | None => [] end in
  hydrateFiltersFromUrl uid (usp_toString (writeFiltersToParams fs ps))
  = status ++ imap (fun i f => carried (uid (length status + i)%nat) f) (List.filter written fs).
Proof.
  intros H. cbn zeta. unfold hydrateFiltersFromUrl. rewrite usp_parse_toString.
  set (ps0 := usp_delete "t" (usp_delete "q" (usp_delete "s" ps))).
  assert (Hs0 : usp_get ps0 "s" = None).
  { unfold ps0. rewrite !usp_get_delete_ne by done. apply usp_get_delete. }
  assert (Hq0 : usp_get ps0 "q" = None).
  { unfold ps0. rewrite usp_get_delete_ne by done. apply usp_get_delete. }
  assert (Hs : usp_get (writeFiltersToParams fs ps) "s" = status_in_force fs).
  { unfold writeFiltersToParams. fold ps0. pose proof (set_status_s ps0 fs) as Hset. rewrite Hs0 in Hset.
    destruct (omap write_chunk fs); [|rewrite usp_get_set_ne by done]; rewrite Hset; by destruct (status_in_force fs). }
  rewrite Hs. set (status := match status_in_force fs with Some _ => _ | None => _ end).
  assert (Hchunks := read_chunks_written uid (length status) fs H).
  assert (Hne : Forall (fun c => no_char "," c = true /\ c <> "") (omap write_chunk fs)).
  { apply Forall_forall. intros c (f & Hf & Hc)%list_elem_of_omap. eapply write_chunk_no_comma; [|done].
    rewrite Forall_forall in H. by apply H. }
  unfold writeFiltersToParams. fold ps0. destruct (omap write_chunk fs) as [|c cs] eqn:E.
  - rewrite set_status_q, Hq0. rewrite <- Hchunks. by rewrite app_nil_r.
  - rewrite usp_get_set. assert (Ht : truthy (join "," (c :: cs)) = true).
    { apply truthy_spec. apply Forall_cons in Hne as [[_ Hc] _]. by destruct c, cs. }
    rewrite Ht, split_join; [by rewrite Hchunks|done|].
    eapply Forall_impl; [exact Hne|]. by intros ? [? _].
Qed.

Definition ex_rows : list Filter :=
  [ex_row "order.id" op_contains "a,b:c"; ex_row "customer" op_exists "";
   with_children true (ex_row "order.id" op_equals "ORD 1")].

Lemma link_round_trip_witness :
  Forall linkable ex_rows /\
  hydrateFiltersFromUrl (fun n => show_Z (Z.of_nat n)) (usp_toString (writeFiltersToParams ex_rows [("range", "1h")]))
  = imap (fun i f => carried ((fun n => show_Z (Z.of_nat n)) i) f) ex_rows.
Proof.
  assert (H : Forall linkable ex_rows) by (repeat constructor; discriminate).
  split; [exact H|]. exact (link_round_trip (fun n => show_Z (Z.of_nat n)) ex_rows [("range", "1h")] H).
Defined.
