(* ===== verification/Json.v ===== *)
(** * JSON

    [JSON.stringify] on the values the frontend prints: what an object drops
    ([undefined] members) is left to the caller, with [obj]. *)

From S2P Require Import Prelude JsString JsUri Types.

Local Open Scope char_scope.
Local Open Scope string_scope.
Local Open Scope list_scope.

Inductive json :=
| JNull
| JBool (b : bool)
| JNum (n : num)
| JStr (s : string)
| JArr (l : list json)
| JObj (l : list (string * json)).

Definition JInt (z : Z) : json := JNum (Num z 0).

Definition QUOTE : ascii := "034".
Definition BACKSLASH : ascii := "092".

Definition hex_lower (n : Z) : ascii := ascii_of_nat (Z.to_nat (if n <? 10 then 48 + n else 87 + n)%Z).

(** The escape of a character inside a string literal. *)
Definition json_char (c : ascii) : string :=
  let n := byte_of c in
  if Ascii.eqb c QUOTE then String BACKSLASH (String QUOTE "")
  else if Ascii.eqb c BACKSLASH then String BACKSLASH (String BACKSLASH "")
  else if (n =? 8)%Z then String BACKSLASH "b"
  else if (n =? 9)%Z then String BACKSLASH "t"
  else if (n =? 10)%Z then String BACKSLASH "n"
  else if (n =? 12)%Z then String BACKSLASH "f"
  else if (n =? 13)%Z then String BACKSLASH "r"
  else if (n <? 32)%Z then
    String BACKSLASH ("u00" +:+ String (hex_lower (n / 16)) (String (hex_lower (n mod 16)) ""))
  else String c "".

Fixpoint json_chars (s : string) : string :=
  match s with "" => "" | String c s' => json_char c +:+ json_chars s' end.
Definition json_string (s : string) : string := String QUOTE (json_chars s +:+ String QUOTE "").

Fixpoint stringify (j : json) : string :=
  match j with
  | JNull => "null"
  | JBool b => if b then "true" else "false"
  | JNum n => show_num n
  | JStr s => json_string s
  | JArr l => tpl ["["; join "," (stringify <$> l); "]"]
  | JObj l => tpl ["{"; join "," ((fun kv => tpl [json_string kv.1; ":"; stringify kv.2]) <$> l); "}"]
  end.

(** Object members; a member that is [undefined] is left out. *)
Definition obj (l : list (string * option json)) : json :=
  JObj (omap (fun kv => pair kv.1 <$> kv.2) l).

Definition jstr (o : option string) : option json := JStr <$> o.
Definition jbool (o : option bool) : option json := JBool <$> o.
Definition jint (o : option Z) : option json := JInt <$> o.
Definition jrecord (m : list (string * string)) : json := JObj ((fun kv => (kv.1, JStr kv.2)) <$> m).

Example stringify_ex :
  stringify (obj [("a", Some (JArr [JInt 1; JBool true])); ("b", None); ("c", Some (JStr "x
y"))])
  = tpl ["{"; json_string "a"; ":[1,true],"; json_string "c"; ":"; json_string "x
y"; "}"].
Proof. by_compute. Qed.
