(* ===== verification/JsonParse.v ===== *)
(** * Reading JSON

    [JSON.parse], the reader for what [JSON.stringify] of Json.v prints.  A
    string is its UTF-8 bytes, so a [\u] escape of a lone surrogate, which has no
    UTF-8 form, is read as the three bytes of its code point.  Number texts other
    than decimals of at most fifteen digits are read by an argument.  The members of an object
    are in the order of the text (the engine moves names that read as
    array indices to the front).

    The reader takes fuel: one unit for a value, a member or an element.
    [parse_fuel] shows that one more than the length of the text is enough. *)

From S2P Require Import Prelude JsString JsUri JsArray Host Types Json.
From Stdlib Require Import DecimalString.

Local Open Scope char_scope.
Local Open Scope string_scope.
Local Open Scope list_scope.

(** ** Characters *)

Definition is_ws (c : ascii) : bool := bool_decide (byte_of c ∈ [9; 10; 13; 32]%Z).
Fixpoint skip_ws (s : string) : string :=
  match s with String c s' => if is_ws c then skip_ws s' else s | "" => "" end.

Definition chr (n : Z) : ascii := ascii_of_nat (Z.to_nat n).
(** The UTF-8 bytes of a code point. *)
Definition utf8 (n : Z) : string :=
  (if n <? 128 then String (chr n) ""
   else if n <? 2048 then String (chr (192 + n / 64)) (String (chr (128 + n mod 64)) "")
   else if n <? 65536 then
     String (chr (224 + n / 4096)) (String (chr (128 + n / 64 mod 64)) (String (chr (128 + n mod 64)) ""))
   else String (chr (240 + n / 262144)) (String (chr (128 + n / 4096 mod 64))
     (String (chr (128 + n / 64 mod 64)) (String (chr (128 + n mod 64)) ""))))%Z.
Definition hex4 (a b c d : ascii) : option Z :=
  match hex_value a, hex_value b, hex_value c, hex_value d with
  | Some a, Some b, Some c, Some d => Some (((a * 16 + b) * 16 + c) * 16 + d)%Z
  | _, _, _, _ => None
  end.
Definition is_high (n : Z) : bool := ((55296 <=? n) && (n <? 56320))%Z.
Definition is_low (n : Z) : bool := ((56320 <=? n) && (n <? 57344))%Z.
Definition pair_point (h l : Z) : Z := (65536 + (h - 55296) * 1024 + (l - 56320))%Z.

Definition escape (c : ascii) : option ascii :=
  if Ascii.eqb c QUOTE then Some QUOTE
  else if Ascii.eqb c BACKSLASH then Some BACKSLASH
  else if Ascii.eqb c "/"%char then Some "/"%char
  else if Ascii.eqb c "b"%char then Some (chr 8)
  else if Ascii.eqb c "f"%char then Some (chr 12)
  else if Ascii.eqb c "n"%char then Some (chr 10)
  else if Ascii.eqb c "r"%char then Some (chr 13)
  else if Ascii.eqb c "t"%char then Some (chr 9)
  else None.

(** ** Tokens *)

Definition before (p : string) (o : option (string * string)) : option (string * string) :=
  match o with Some (t, r) => Some (p +:+ t, r) | None => None end.

(** The rest of a string literal after its opening quote: the text, and what follows. *)
Fixpoint lex_string (s : string) : option (string * string) :=
  match s with
  | "" => None
  | String c s1 =>
      if Ascii.eqb c QUOTE then Some ("", s1)
      else if Ascii.eqb c BACKSLASH then
        match s1 with
        | String "u" (String a (String b (String c (String d s2)))) =>
            match hex4 a b c d with
            | None => None
            | Some n =>
                if is_high n then
                  match s2 with
                  | String x (String "u" (String a (String b (String c (String d s3))))) =>
                      match (if Ascii.eqb x BACKSLASH then hex4 a b c d else None) with
                      | Some m => if is_low m then before (utf8 (pair_point n m)) (lex_string s3)
                                  else before (utf8 n) (lex_string s2)
                      | None => before (utf8 n) (lex_string s2)
                      end
                  | _ => before (utf8 n) (lex_string s2)
                  end
                else before (utf8 n) (lex_string s2)
            end
        | String e s2 => match escape e with Some ch => before (String ch "") (lex_string s2) | None => None end
        | "" => None
        end
      else if (byte_of c <? 32)%Z then None
      else before (String c "") (lex_string s1)
  end.

(** A fraction; an exponent; [None] where the sign of one is not followed by a digit. *)
Definition lex_frac (s : string) : option (string * string) :=
  match s with
  | String "." t => let '(f, r) := span_digits t in if f =s "" then None else Some (f, r)
  | _ => Some ("", s)
  end.
Definition lex_exp (s : string) : option (option string * string) :=
  match s with
  | String e t =>
      if Ascii.eqb e "e"%char || Ascii.eqb e "E"%char then
        let '(sign, t) := match t with String "-" u => ("-", u) | String "+" u => ("", u) | _ => ("", t) end in
        let '(x, r) := span_digits t in if x =s "" then None else Some (Some (sign +:+ x), r)
      else Some (None, s)
  | "" => Some (None, s)
  end.

Section parse.
Context (round : string -> num).

Definition lex_unsigned (sign t : string) : option (num * string) :=
  let '(i, r) := span_digits t in
  let leading_zero := match i with String "0" (String _ _) => true | _ => false end in
  if (i =s "") || leading_zero then None
  else match lex_frac r with
  | None => None
  | Some (f, r) =>
      match lex_exp r with
      | None => None
      | Some (e, r) =>
          let m := digits (i +:+ f) ?? 0%Z in
          Some (match e with
                | None => if (m <? 10 ^ 15)%Z then Num (if sign =s "" then m else - m)%Z (String.length f)
                          else round (tpl [sign; i; "."; f])
                | Some x => round (tpl [sign; i; "."; f; "e"; x])
                end, r)
      end
  end.
Definition lex_number (s : string) : option (num * string) :=
  match s with String "-" t => lex_unsigned "-" t | _ => lex_unsigned "" s end.

Fixpoint strip (k s : string) : option string :=
  match k, s with
  | "", _ => Some s
  | String a k, String b s => if Ascii.eqb a b then strip k s else None
  | String _ _, "" => None
  end.
Definition keyword (k : string) (j : json) (s : string) : option (json * string) := pair j <$> strip k s.

(** ** Values *)

(** The character [c] after white space. *)
Definition next (c : ascii) (s : string) : option string :=
  match skip_ws s with String d r => if Ascii.eqb d c then Some r else None | "" => None end.

Fixpoint value (n : nat) (s : string) : option (json * string) :=
  match n with
  | O => None
  | S n =>
      match skip_ws s with
      | String c s' =>
          if Ascii.eqb c QUOTE then match lex_string s' with Some (t, r) => Some (JStr t, r) | None => None end
          else if Ascii.eqb c "{" then
            match next "}" s' with
            | Some r => Some (JObj [], r)
            | None => match members n s' with Some (l, r) => Some (JObj (omap_of l), r) | None => None end
            end
          else if Ascii.eqb c "[" then
            match next "]" s' with
            | Some r => Some (JArr [], r)
            | None => match elements n s' with Some (l, r) => Some (JArr l, r) | None => None end
            end
          else if Ascii.eqb c "n" then keyword "null" JNull (String c s')
          else if Ascii.eqb c "t" then keyword "true" (JBool true) (String c s')
          else if Ascii.eqb c "f" then keyword "false" (JBool false) (String c s')
          else match lex_number (String c s') with Some (x, r) => Some (JNum x, r) | None => None end
      | "" => None
      end
  end
with members (n : nat) (s : string) : option (list (string * json) * string) :=
  match n with
  | O => None
  | S n =>
      match next QUOTE s with
      | Some s1 =>
          match lex_string s1 with
          | Some (k, s2) =>
              match next ":" s2 with
              | Some s3 =>
                  match value n s3 with
                  | Some (v, s4) =>
                      match next "," s4 with
                      | Some s5 => match members n s5 with Some (l, r) => Some ((k, v) :: l, r) | None => None end
                      | None => match next "}" s4 with Some r => Some ([(k, v)], r) | None => None end
                      end
                  | None => None
                  end
              | None => None
              end
          | None => None
          end
      | None => None
      end
  end
with elements (n : nat) (s : string) : option (list json * string) :=
  match n with
  | O => None
  | S n =>
      match value n s with
      | Some (v, s1) =>
          match next "," s1 with
          | Some s2 => match elements n s2 with Some (l, r) => Some (v :: l, r) | None => None end
          | None => match next "]" s1 with Some r => Some ([v], r) | None => None end
          end
      | None => None
      end
  end.

(** [JSON.parse]; [None] is a [SyntaxError]. *)
Definition JSON_parse (s : string) : option json :=
  match value (S (String.length s)) s with
  | Some (j, r) => if skip_ws r =s "" then Some j else None
  | None => None
  end.
End parse.

Definition no_round (s : string) : num := Num 0 0.
Definition q (s : string) : string := String QUOTE (s +:+ String QUOTE "").
Example parse_ex1 : JSON_parse no_round (tpl [" {"; q "a"; " : [1, -2.50, true ,null], "; q "b"; ":"; q "x\u0041\ud83d\ude00\n"; "} "])
  = Some (JObj [("a", JArr [JNum (Num 1 0); JNum (Num (-250) 2); JBool true; JNull]);
                ("b", JStr ("xA" +:+ String "240" (String "159" (String "152" (String "128" (String "010" ""))))))]).
Proof. by_compute. Qed.
Example parse_ex2 : JSON_parse no_round (tpl ["{"; q "a"; ":1,"; q "a"; ":2}"]) = Some (JObj [("a", JInt 2)]).
Proof. by_compute. Qed.
Example parse_ex3 : JSON_parse no_round "[1,]" = None /\ JSON_parse no_round "01" = None /\ JSON_parse no_round "1." = None /\ JSON_parse no_round "{} x" = None.
Proof. repeat split; by_compute. Qed.

(** ** What is printed is read back *)

Lemma lex_escaped c t : lex_string (json_char c +:+ t) = before (String c "") (lex_string t).
Proof. destruct c as [[] [] [] [] [] [] [] []]; reflexivity. Qed.

Lemma before_before a b o : before a (before b o) = before (a +:+ b) o.
Proof. destruct o as [[t r]|]; [|done]. cbn. by rewrite sapp_assoc. Qed.

Lemma lex_chars s r : lex_string (json_chars s +:+ String QUOTE r) = Some (s, r).
Proof.
  induction s as [|c s IH]; [done|]. cbn [json_chars]. rewrite <- sapp_assoc, lex_escaped, IH. done.
Qed.


Lemma span_all d r : all_chars is_digit d = true -> match r with String c _ => is_digit c = false | "" => True end ->
  span_digits (d +:+ r) = (d, r).
Proof.
  intros Hd Hr. induction d as [|c d IH].
  - destruct r as [|c r]; [done|]. cbn [String.append span_digits]. by rewrite Hr.
  - cbn [all_chars] in Hd. apply andb_true_iff in Hd as [Hc Hd]. change (String c d +:+ r) with (String c (d +:+ r)).
    cbn [span_digits]. by rewrite Hc, (IH Hd).
Qed.

(** A text after which a number ends. *)
Definition number_ends (r : string) : bool :=
  match r with
  | String c _ => negb (is_digit c || Ascii.eqb c "."%char || Ascii.eqb c "e"%char || Ascii.eqb c "E"%char)
  | "" => true
  end.
Lemma number_ends_lex r : number_ends r = true ->
  match r with String c _ => is_digit c = false | "" => True end /\ lex_frac r = Some ("", r) /\ lex_exp r = Some (None, r).
Proof.
  destruct r as [|c r]; [done|]. cbn [number_ends]. intros [[[H1 H2]%orb_false_iff H3]%orb_false_iff H4]%negb_true_iff%orb_false_iff.
  split; [done|]. split.
  - unfold lex_frac. destruct c as [[] [] [] [] [] [] [] []]; try done.
  - unfold lex_exp. by rewrite H3, H4.
Qed.

(** The digits of a number: not empty, and no zero in front of others. *)
Lemma show_digits n : (0 <= n)%Z ->
  all_chars is_digit (show_Z n) = true /\ show_Z n <> "" /\ (forall c t, show_Z n <> String "0" (String c t)).
Proof.
  intros Hn. unfold show_Z. destruct n as [|p|p]; [split_and!; [done|done|intros c t [=]]| |lia].
  cbn [Z.to_int]. unfold NilZero.string_of_int, NilZero.string_of_uint.
  assert (Hu : Decimal.nzhead (Pos.to_uint p) = Pos.to_uint p).
  { pose proof (DecimalPos.Unsigned.to_of (Pos.to_uint p)) as H. rewrite DecimalPos.Unsigned.of_to in H. cbn in H.
    rewrite <- DecimalFacts.unorm_nzhead; [done|]. intros Hz%DecimalFacts.unorm_0. rewrite Hz in H.
    by apply (DecimalPos.Unsigned.to_uint_nonzero p). }
  pose proof (DecimalPos.Unsigned.to_uint_nonnil p) as Hn0. destruct (Pos.to_uint p) as [|u|u|u|u|u|u|u|u|u|u] eqn:E; [done|..].
  1: { exfalso. by apply (DecimalFacts.nzhead_nonzero (Decimal.D0 u) u). }
  all: split; [apply uint_digits|split; [done|intros c t [=]]].
Qed.

(** The values the round trip is stated for: integers of at most fifteen digits, and objects that
    name no member twice. *)
Fixpoint printable (j : json) : Prop :=
  match j with
  | JNum n => n_scale n = 0%nat /\ (Z.abs (n_mant n) < 10 ^ 15)%Z
  | JArr l => foldr (fun j P => printable j /\ P) True l
  | JObj l => NoDup (l.*1) /\ foldr (fun kv P => printable kv.2 /\ P) True l
  | _ => True
  end.

Section json_ind.
Context (P : json -> Prop).
Context (Hnull : P JNull) (Hbool : forall b, P (JBool b)) (Hnum : forall n, P (JNum n)) (Hstr : forall s, P (JStr s))
  (Harr : forall l, Forall P l -> P (JArr l)) (Hobj : forall l, Forall (fun kv => P kv.2) l -> P (JObj l)).
Fixpoint json_ind' (j : json) : P j :=
  match j with
  | JNull => Hnull
  | JBool b => Hbool b
  | JNum n => Hnum n
  | JStr s => Hstr s
  | JArr l => Harr l ((fix go l := match l return Forall P l with [] => Forall_nil_2 _ | j :: l => Forall_cons_2 _ j l (json_ind' j) (go l) end) l)
  | JObj l => Hobj l ((fix go l := match l return Forall (fun kv => P kv.2) l with
                       | [] => Forall_nil_2 _ | kv :: l => Forall_cons_2 (fun kv : string * json => P kv.2) kv l (json_ind' kv.2) (go l) end) l)
  end.
End json_ind.

Section round_trip.
Context (round : string -> num).

Lemma lex_unsigned_show m r sign : (0 <= m < 10 ^ 15)%Z -> number_ends r = true ->
  lex_unsigned round sign (show_Z m +:+ r) = Some (Num (if sign =s "" then m else - m)%Z 0, r).
Proof.
  intros Hm Hr. destruct (number_ends_lex r Hr) as (Hd & Hf & He). destruct (show_digits m ltac:(lia)) as (Ha & Hne & Hz).
  unfold lex_unsigned. rewrite (span_all _ _ Ha Hd). cbv zeta.
  assert (Hz0 : match show_Z m with String "0" (String _ _) => true | _ => false end = false).
  { destruct (show_Z m) as [|c [|c' t]]; [done|by destruct c as [[] [] [] [] [] [] [] []]|].
    destruct (ascii_dec c "0") as [->|Hc]; [by destruct (Hz c' t)|]. destruct c as [[] [] [] [] [] [] [] []]; done. }
  rewrite Hz0. apply String.eqb_neq in Hne. rewrite Hne. cbn [orb]. rewrite Hf, He, sapp_nil_r, digits_show by lia.
  unfold default, id. by replace (m <? 10 ^ 15)%Z with true by lia.
Qed.

Lemma lex_show n r : (Z.abs n < 10 ^ 15)%Z -> number_ends r = true -> lex_number round (show_Z n +:+ r) = Some (Num n 0, r).
Proof.
  intros Hn Hr. unfold lex_number. destruct (decide (0 <= n)%Z) as [H0|H0].
  - transitivity (lex_unsigned round "" (show_Z n +:+ r)); [|apply (lex_unsigned_show n r ""); [lia|done]].
    destruct (show_digits n H0) as (Ha & Hne & _).
    destruct (show_Z n) as [|c t]; [done|]. cbn [all_chars] in Ha. apply andb_true_iff in Ha as [Hc _].
    destruct c as [[] [] [] [] [] [] [] []]; done.
  - assert (Hs : show_Z n = String "-" (show_Z (- n))) by (destruct n as [|p|p]; [lia|lia|done]).
    rewrite Hs. change (String "-" (show_Z (- n)) +:+ r) with (String "-" (show_Z (- n) +:+ r)). cbv iota beta.
    rewrite lex_unsigned_show by (lia || done). cbn. by rewrite Z.opp_involutive.
Qed.

Fixpoint cost (j : json) : nat :=
  match j with
  | JArr l => S (foldr (fun j a => S (cost j) + a)%nat 0%nat l)
  | JObj l => S (foldr (fun kv a => S (cost kv.2) + a)%nat 0%nat l)
  | _ => 1%nat
  end.

Lemma show_head n r : exists c t, show_Z n +:+ r = String c t /\ (c = "-"%char \/ is_digit c = true).
Proof.
  destruct (decide (0 <= n)%Z) as [H0|H0].
  - destruct (show_digits n H0) as (Ha & Hne & _). destruct (show_Z n) as [|c t]; [done|].
    cbn [all_chars] in Ha. apply andb_true_iff in Ha as [Hc _]. exists c, (t +:+ r). auto.
  - exists "-"%char, (show_Z (- n) +:+ r). split; [|by left]. by destruct n as [|p|p]; [lia|lia|].
Qed.

Lemma value_number n m r : (Z.abs m < 10 ^ 15)%Z -> number_ends r = true ->
  value round (S n) (show_Z m +:+ r) = Some (JNum (Num m 0), r).
Proof.
  intros Hm Hr. cbn [value]. pose proof (lex_show m r Hm Hr) as Hl. destruct (show_head m r) as (c & t & E & Hc). rewrite E in *.
  assert (Hi : is_ws c = false /\ Ascii.eqb c QUOTE = false /\ Ascii.eqb c "{" = false /\ Ascii.eqb c "[" = false /\
    Ascii.eqb c "n" = false /\ Ascii.eqb c "t" = false /\ Ascii.eqb c "f" = false).
  { destruct Hc as [->|Hc]; [done|]. destruct c as [[] [] [] [] [] [] [] []]; try discriminate Hc; done. }
  destruct Hi as (H1 & H2 & H3 & H4 & H5 & H6 & H7). cbn [skip_ws]. by rewrite H1, H2, H3, H4, H5, H6, H7, Hl.
Qed.

Definition reads (j : json) : Prop :=
  printable j -> forall n r, (cost j <= n)%nat -> number_ends r = true -> value round n (stringify j +:+ r) = Some (j, r).

Lemma next_same c r : is_ws c = false -> next c (String c r) = Some r.
Proof. intros H. unfold next. cbn [skip_ws]. by rewrite H, Ascii.eqb_refl. Qed.
Lemma next_other c d r : is_ws c = false -> Ascii.eqb c d = false -> next d (String c r) = None.
Proof. intros H1 H2. unfold next. cbn [skip_ws]. by rewrite H1, H2. Qed.

(** No value begins with white space or a closing bracket. *)
Lemma printed_head j r : printable j -> exists c t, stringify j +:+ r = String c t /\ is_ws c = false /\ Ascii.eqb c "]" = false.
Proof.
  destruct j as [|[]|[m s]|t|l|l]; intros Hp; try (by eexists _, _; split; [reflexivity|]).
  destruct Hp as [Hs _]. cbn in Hs. subst s. change (stringify (JNum (Num m 0))) with (show_Z m).
  destruct (show_head m r) as (c & t & -> & Hc). exists c, t. split; [done|].
  destruct Hc as [->|Hc]; [done|]. destruct c as [[] [] [] [] [] [] [] []]; try discriminate Hc; done.
Qed.

Lemma elements_read l n r : Forall reads l -> Forall printable l -> l <> [] ->
  (foldr (fun j a => S (cost j) + a)%nat 0%nat l <= n)%nat ->
  elements round n (join "," (stringify <$> l) +:+ String "]" r) = Some (l, r).
Proof.
  intros HR. revert n. induction HR as [|j l Hj HR IH]; intros n HP Hne Hn; [done|].
  apply Forall_cons in HP as [Hp HP]. cbn [foldr] in Hn. destruct n as [|n]; [lia|]. cbn [elements].
  destruct l as [|j2 l].
  - change (join "," (stringify <$> [j])) with (stringify j). rewrite (Hj Hp n (String "]" r) ltac:(lia) eq_refl).
    by rewrite next_other, next_same by done.
  - change (join "," (stringify <$> j :: j2 :: l)) with (stringify j +:+ ("," +:+ join "," (stringify <$> j2 :: l))).
    rewrite <- !sapp_assoc. rewrite (Hj Hp n) by (lia || done).
    change ("," +:+ ?x) with (String "," x). rewrite next_same by done.
    by rewrite IH by (done || cbn [foldr] in *; lia).
Qed.

Lemma member_printed k v : tpl [json_string k; ":"; stringify v] = String QUOTE (json_chars k +:+ String QUOTE (String ":" (stringify v))).
Proof.
  unfold json_string. cbn [tpl foldr]. rewrite sapp_nil_r. cbn [String.append]. f_equal. by rewrite <- sapp_assoc.
Qed.

Lemma members_read (l : list (string * json)) n r : Forall (fun kv => reads kv.2) l -> Forall (fun kv => printable kv.2) l -> l <> [] ->
  (foldr (fun kv a => S (cost kv.2) + a)%nat 0%nat l <= n)%nat ->
  members round n (join "," ((fun kv => tpl [json_string kv.1; ":"; stringify kv.2]) <$> l) +:+ String "}" r) = Some (l, r).
Proof.
  intros HR. revert n. induction HR as [|[k v] l Hj HR IH]; intros n HP Hne Hn; [done|].
  apply Forall_cons in HP as [Hp HP]. cbn [foldr snd] in *. destruct n as [|n]; [lia|]. cbn [members].
  rewrite fmap_cons. cbn [fst snd].
  assert (Hhead : forall rest, join "," (tpl [json_string k; ":"; stringify v] :: rest) +:+ String "}" r =
    String QUOTE (json_chars k +:+ String QUOTE (String ":" (stringify v +:+ match rest with [] => String "}" r | _ => String "," (join "," rest +:+ String "}" r) end)))).
  { intros rest. rewrite member_printed. destruct rest as [|x rest].
    - cbn [join String.append]. f_equal. rewrite <- sapp_assoc. done.
    - cbn [join]. cbn [String.append]. f_equal. rewrite <- !sapp_assoc. cbn [String.append]. do 3 f_equal. }
  rewrite Hhead, next_same by done. rewrite lex_chars, next_same by done.
  destruct l as [|kv2 l].
  - cbn [fmap list_fmap]. rewrite (Hj Hp n) by (lia || done). by rewrite next_other, next_same by done.
  - match goal with |- context [?f <$> kv2 :: l] => remember (f <$> kv2 :: l) as rest eqn:Er end.
    destruct rest as [|x rest]; [done|]. rewrite (Hj Hp n) by (lia || done). rewrite next_same by done.
    by rewrite IH by (done || cbn [foldr] in *; lia).
Qed.
Lemma foldr_Forall {A} (P : A -> Prop) l : foldr (fun x Q => P x /\ Q) True l <-> Forall P l.
Proof. induction l as [|x l IH]; [split; [constructor|done]|]. cbn. by rewrite IH, Forall_cons. Qed.

Lemma value_read j : reads j.
Proof.
  induction j as [|b|[m s]|t|l IH|l IH] using json_ind'; intros Hp n r Hn Hr; (destruct n as [|n]; [cbn [cost] in Hn; lia|]).
  - done.
  - by destruct b.
  - destruct Hp as [Hs Hm]. cbn in Hs, Hm. subst s. by apply value_number.
  - cbn [stringify value]. unfold json_string.
    change (String QUOTE (json_chars t +:+ String QUOTE "") +:+ r) with (String QUOTE ((json_chars t +:+ String QUOTE "") +:+ r)).
    rewrite <- sapp_assoc. cbn [skip_ws String.append]. change (is_ws QUOTE) with false. cbv iota.
    rewrite Ascii.eqb_refl. by rewrite lex_chars.
  - cbn [printable] in Hp. apply foldr_Forall in Hp. cbn [cost] in Hn.
    assert (Hl : stringify (JArr l) +:+ r = String "[" (join "," (stringify <$> l) +:+ String "]" r)).
    { cbn [stringify tpl foldr]. cbn [String.append]. f_equal. rewrite <- sapp_assoc. done. }
    rewrite Hl. cbn [value skip_ws]. change (is_ws "[") with false. cbv iota.
    change (Ascii.eqb "[" QUOTE) with false. change (Ascii.eqb "[" "{") with false. rewrite Ascii.eqb_refl. cbv iota.
    destruct l as [|j l]; [done|].
    pose proof (elements_read (j :: l) n r IH Hp ltac:(done) ltac:(lia)) as He.
    assert (Hh : next "]" (join "," (stringify <$> j :: l) +:+ String "]" r) = None).
    { apply Forall_cons in Hp as [Hp _].
      assert (Hs : exists x, join "," (stringify <$> j :: l) +:+ String "]" r = stringify j +:+ x).
      { destruct l as [|j2 l]; [by eexists|].
        exists (("," +:+ join "," (stringify <$> j2 :: l)) +:+ String "]" r). by rewrite sapp_assoc. }
      destruct Hs as [x ->]. destruct (printed_head j x Hp) as (c & t & -> & H1 & H2). by apply next_other. }
    by rewrite Hh, He.
  - cbn [printable] in Hp. destruct Hp as [HN Hp]. apply (foldr_Forall (fun kv : string * json => printable kv.2)) in Hp. cbn [cost] in Hn.
    assert (Hl : stringify (JObj l) +:+ r = String "{" (join "," ((fun kv => tpl [json_string kv.1; ":"; stringify kv.2]) <$> l) +:+ String "}" r)).
    { cbn [stringify]. cbn [tpl foldr]. cbn [String.append]. f_equal. rewrite <- sapp_assoc. done. }
    rewrite Hl. cbn [value skip_ws]. change (is_ws "{") with false. cbv iota.
    change (Ascii.eqb "{" QUOTE) with false. rewrite Ascii.eqb_refl. cbv iota.
    destruct l as [|[k v] l]; [done|].
    pose proof (members_read ((k, v) :: l) n r IH Hp ltac:(done) ltac:(lia)) as He.
    assert (Hh : exists t, join "," ((fun kv => tpl [json_string kv.1; ":"; stringify kv.2]) <$> (k, v) :: l) +:+ String "}" r = String QUOTE t).
    { rewrite fmap_cons. cbn [fst snd]. rewrite member_printed. destruct (_ <$> l); by eexists. }
    destruct Hh as [t Ht]. rewrite Ht in *. rewrite next_other by done. rewrite He. f_equal. f_equal. f_equal.
    by apply omap_of_id.
Qed.

Lemma length_join (sep : string) (l : list string) : String.length sep = 1%nat ->
  (foldr (fun x a => S (String.length x) + a) 0 l <= S (String.length (join sep l)))%nat.
Proof.
  intros Hs. induction l as [|x l IH]; [cbn; lia|]. destruct l as [|y l]; [cbn; lia|].
  cbn [join foldr] in *. rewrite !sapp_length. lia.
Qed.

Lemma length_tpl l : String.length (tpl l) = foldr (fun x a => String.length x + a)%nat 0%nat l.
Proof. induction l as [|x l IH]; [done|]. cbn [tpl foldr]. rewrite sapp_length. by f_equal. Qed.

Lemma cost_length j : printable j -> (cost j <= String.length (stringify j))%nat.
Proof.
  induction j as [|b|[m s]|t|l IH|l IH] using json_ind'; intros Hp; cbn [cost].
  - cbn; lia.
  - destruct b; cbn; lia.
  - destruct Hp as [Hs _]. cbn in Hs. subst s. change (stringify (JNum (Num m 0))) with (show_Z m).
    destruct (show_head m "") as (c & t & E & _). rewrite sapp_nil_r in E. rewrite E. cbn. lia.
  - cbn. lia.
  - cbn [printable] in Hp. apply foldr_Forall in Hp. cbn [stringify]. rewrite length_tpl. cbn [foldr].
    pose proof (length_join "," (stringify <$> l) eq_refl) as HJ.
    assert (Hl : (foldr (fun j a => S (cost j) + a) 0 l <= foldr (fun x a => S (String.length x) + a) 0 (stringify <$> l))%nat).
    { clear HJ. induction IH as [|j l Hj _ IHl]; [done|]. apply Forall_cons in Hp as [Hj' Hp]. rewrite fmap_cons. cbn [foldr]. specialize (IHl Hp). specialize (Hj Hj'). lia. }
    cbn [String.length]. lia.
  - cbn [printable] in Hp. destruct Hp as [_ Hp]. apply (foldr_Forall (fun kv : string * json => printable kv.2)) in Hp.
    cbn [stringify]. rewrite length_tpl. cbn [foldr].
    set (f := fun kv : string * json => tpl [json_string kv.1; ":"; stringify kv.2]).
    pose proof (length_join "," (f <$> l) eq_refl) as HJ.
    assert (Hl : (foldr (fun kv a => S (cost kv.2) + a) 0 l <= foldr (fun x a => S (String.length x) + a) 0 (f <$> l))%nat).
    { clear HJ. induction IH as [|[k v] l Hj _ IHl]; [done|]. apply Forall_cons in Hp as [Hj' Hp]. rewrite fmap_cons. cbn [foldr].
      specialize (IHl Hp). specialize (Hj Hj'). cbn [snd] in *.
      assert (Hf : (String.length (stringify v) <= String.length (f (k, v)))%nat).
      { unfold f. rewrite length_tpl. cbn [foldr fst snd]. lia. }
      lia. }
    cbn [String.length]. lia.
Qed.

Theorem parse_stringify j : printable j -> JSON_parse round (stringify j) = Some j.
Proof.
  intros Hp. unfold JSON_parse. pose proof (cost_length j Hp) as Hc.
  pose proof (value_read j Hp (S (String.length (stringify j))) "" ltac:(lia) eq_refl) as Hv. rewrite sapp_nil_r in Hv. by rewrite Hv.
Qed.

(** ** The fuel is enough *)

Notation len := String.length (only parsing).

Lemma skip_ws_len s : (len (skip_ws s) <= len s)%nat.
Proof. induction s as [|c s IH]; [done|]. cbn [skip_ws]. destruct (is_ws c); cbn [String.length] in *; lia. Qed.
Lemma next_len c s r : next c s = Some r -> (len r < len s)%nat.
Proof.
  unfold next. pose proof (skip_ws_len s) as H. destruct (skip_ws s) as [|d t]; [done|]. destruct (Ascii.eqb d c); [|done].
  intros [= <-]. cbn in H. lia.
Qed.
Lemma strip_len k s r : strip k s = Some r -> (len r + len k = len s)%nat.
Proof.
  revert s. induction k as [|c k IH]; intros s; [intros [= <-]; cbn; lia|]. destruct s as [|d s]; [done|]. cbn [strip].
  destruct (Ascii.eqb c d); [|done]. intros H%IH. cbn. lia.
Qed.
Lemma span_len s d r : span_digits s = (d, r) -> (len d + len r = len s)%nat.
Proof.
  revert d r. induction s as [|c s IH]; intros d r; cbn [span_digits]; [by intros [= <- <-]|]. destruct (is_digit c); [|by intros [= <- <-]].
  destruct (span_digits s) as [d' r'] eqn:E. intros [= <- <-]. cbn. specialize (IH d' r' eq_refl). lia.
Qed.
Lemma frac_len s f r : lex_frac s = Some (f, r) -> (len r <= len s)%nat.
Proof.
  unfold lex_frac. destruct s as [|c s]; [by intros [= <- <-]|].
  assert (Hd : match span_digits s with (f, r) => if f =s "" then None else Some (f, r) end = Some (f, r) -> (len r <= len (String c s))%nat).
  { destruct (span_digits s) as [f' r'] eqn:E. destruct (_ =s _); [done|]. intros [= <- <-]. apply span_len in E. cbn. lia. }
  destruct c as [[] [] [] [] [] [] [] []]; try (by intros [= <- <-]); exact Hd.
Qed.
Lemma exp_len s e r : lex_exp s = Some (e, r) -> (len r <= len s)%nat.
Proof.
  unfold lex_exp. destruct s as [|c s]; [by intros [= <- <-]|]. destruct (_ || _); [|by intros [= <- <-]].
  assert (Hd : forall sign t, (len t <= len s)%nat ->
    match span_digits t with (x, r) => if x =s "" then None else Some (Some (sign +:+ x), r) end = Some (e, r) -> (len r <= len (String c s))%nat).
  { intros sign t Ht. destruct (span_digits t) as [f' r'] eqn:E. destruct (_ =s _); [done|]. intros [= <- <-]. apply span_len in E. cbn. lia. }
  destruct s as [|d s]; [by apply Hd|]. destruct d as [[] [] [] [] [] [] [] []]; first [by apply Hd|apply Hd; cbn; lia].
Qed.
Lemma before_len p o t r : before p o = Some (t, r) -> exists t', o = Some (t', r).
Proof. destruct o as [[t' r']|]; [|done]. intros [= _ <-]. by eexists. Qed.
Lemma lex_string_len s t r : lex_string s = Some (t, r) -> (len r < len s)%nat.
Proof.
  remember (len s) as k eqn:Hk. revert s t Hk. induction (lt_wf k) as [k _ IH]. intros s t -> H. destruct s as [|c s]; [done|].
  assert (Hrec : forall p s', before p (lex_string s') = Some (t, r) -> (len s' < len (String c s))%nat -> (len r < len (String c s))%nat).
  { intros p s' [t' Hb]%before_len Hl. specialize (IH (len s') Hl s' t' eq_refl Hb). lia. }
  cbn [lex_string] in H. destruct (Ascii.eqb c QUOTE); [injection H as _ <-; cbn; lia|].
  destruct (Ascii.eqb c BACKSLASH).
  2: { destruct (_ <? _)%Z; [done|]. apply (Hrec _ _ H). cbn; lia. }
  clear IH. repeat (first [progress cbv iota in H | case_match; try discriminate]).
  all: apply (Hrec _ _ H); cbn; lia.
Qed.
Lemma number_len s x r : lex_number round s = Some (x, r) -> (len r < len s)%nat.
Proof.
  assert (Hu : forall sign t, lex_unsigned round sign t = Some (x, r) -> (len r < len t)%nat).
  { intros sign t. unfold lex_unsigned. destruct (span_digits t) as [i r0] eqn:E. apply span_len in E. cbv zeta.
    destruct ((i =s "") || _) eqn:Ei; [done|]. apply orb_false_iff in Ei as [Ei _]. apply String.eqb_neq in Ei.
    destruct (lex_frac r0) as [[f r1]|] eqn:Ef; [|done]. apply frac_len in Ef.
    destruct (lex_exp r1) as [[e r2]|] eqn:Ee; [|done]. apply exp_len in Ee. intros [= _ <-]. destruct i; [done|]. cbn in E. lia. }
  unfold lex_number. destruct s as [|c s]; [apply Hu|].
  assert (Hm : lex_unsigned round "-" s = Some (x, r) -> (len r < len (String c s))%nat) by (intros H%Hu; cbn; lia).
  destruct c as [[] [] [] [] [] [] [] []]; first [exact Hm|apply Hu].
Qed.

(** The fuel a reader needs is at most what it consumes. *)
Definition needs {A} (f : nat -> string -> option (A * string)) (n : nat) : Prop :=
  forall s x r, f n s = Some (x, r) -> (len r < len s)%nat /\ forall m, (len s - len r <= m)%nat -> f m s = Some (x, r).

Ltac enough_fuel m Hm := split; [lia|]; intros m Hm; destruct m as [|m]; [lia|].

Lemma elements_needed n : needs (value round) n -> needs (elements round) n -> needs (elements round) (S n).
Proof.
  intros IHv IHe s x r H. cbn [elements] in H.
  destruct (value round n s) as [[v s1]|] eqn:Ev; [|done]. apply IHv in Ev as [Hv Fv].
  destruct (next "," s1) as [s2|] eqn:En.
  - pose proof (next_len _ _ _ En). destruct (elements round n s2) as [[l r']|] eqn:Ee; [|done]. injection H as <- <-.
    apply IHe in Ee as [He Fe]. enough_fuel m Hm. cbn [elements]. by rewrite Fv, En, Fe by lia.
  - destruct (next "]" s1) as [r'|] eqn:E2; [|done]. pose proof (next_len _ _ _ E2). injection H as <- <-.
    enough_fuel m Hm. cbn [elements]. by rewrite Fv, En, E2 by lia.
Qed.

Lemma members_needed n : needs (value round) n -> needs (members round) n -> needs (members round) (S n).
Proof.
  intros IHv IHm s x r H. cbn [members] in H.
  destruct (next QUOTE s) as [s1|] eqn:E1; [|done]. pose proof (next_len _ _ _ E1).
  destruct (lex_string s1) as [[k s2]|] eqn:E2; [|done]. pose proof (lex_string_len _ _ _ E2).
  destruct (next ":" s2) as [s3|] eqn:E3; [|done]. pose proof (next_len _ _ _ E3).
  destruct (value round n s3) as [[v s4]|] eqn:Ev; [|done]. apply IHv in Ev as [Hv Fv].
  destruct (next "," s4) as [s5|] eqn:E4.
  - pose proof (next_len _ _ _ E4). destruct (members round n s5) as [[l r']|] eqn:Ee; [|done]. injection H as <- <-.
    apply IHm in Ee as [He Fe]. enough_fuel m Hm. cbn [members]. by rewrite E1, E2, E3, Fv, E4, Fe by lia.
  - destruct (next "}" s4) as [r'|] eqn:E5; [|done]. pose proof (next_len _ _ _ E5). injection H as <- <-.
    enough_fuel m Hm. cbn [members]. by rewrite E1, E2, E3, Fv, E4, E5 by lia.
Qed.

Lemma keyword_len k j s x r : k <> "" -> keyword k j s = Some (x, r) -> (len r < len s)%nat.
Proof.
  intros Hk. unfold keyword. destruct (strip k s) as [t|] eqn:E; [|done]. intros [= _ <-]. apply strip_len in E.
  destruct k; [done|]. cbn in E. lia.
Qed.

Lemma value_needed n : needs (members round) n -> needs (elements round) n -> needs (value round) (S n).
Proof.
  intros IHm IHe s x r H. cbn [value] in H. pose proof (skip_ws_len s) as Hws.
  destruct (skip_ws s) as [|c s'] eqn:Es; [done|]. cbn [String.length] in Hws.
  assert (Htok : forall p : option (json * string), p = Some (x, r) -> (len r < len (String c s'))%nat -> 
     (forall m, value round (S m) s = p) -> (len r < len s)%nat /\ forall m, (len s - len r <= m)%nat -> value round m s = Some (x, r)).
  { intros p Hp Hl Hv. cbn [String.length] in Hl. enough_fuel m Hm. by rewrite Hv. }
  destruct (Ascii.eqb c QUOTE) eqn:E1.
  { apply (Htok _ H); [|intros m; cbn [value]; by rewrite Es, E1].
    destruct (lex_string s') as [[t r']|] eqn:El; [|done]. injection H as <- <-. apply lex_string_len in El. cbn. lia. }
  destruct (Ascii.eqb c "{") eqn:E2.
  { destruct (next "}" s') as [r'|] eqn:En.
    - apply (Htok _ H); [|intros m; cbn [value]; by rewrite Es, E1, E2, En]. injection H as <- <-. apply next_len in En. cbn. lia.
    - destruct (members round n s') as [[l r']|] eqn:Ee; [|done]. injection H as <- <-. apply IHm in Ee as [He Fe].
      enough_fuel m Hm. cbn [value]. by rewrite Es, E1, E2, En, Fe by lia. }
  destruct (Ascii.eqb c "[") eqn:E3.
  { destruct (next "]" s') as [r'|] eqn:En.
    - apply (Htok _ H); [|intros m; cbn [value]; by rewrite Es, E1, E2, E3, En]. injection H as <- <-. apply next_len in En. cbn. lia.
    - destruct (elements round n s') as [[l r']|] eqn:Ee; [|done]. injection H as <- <-. apply IHe in Ee as [He Fe].
      enough_fuel m Hm. cbn [value]. by rewrite Es, E1, E2, E3, En, Fe by lia. }
  apply (Htok _ H); [|intros m; cbn [value]; by rewrite Es, E1, E2, E3].
  destruct (Ascii.eqb c "n"); [by apply keyword_len in H|]. destruct (Ascii.eqb c "t"); [by apply keyword_len in H|].
  destruct (Ascii.eqb c "f"); [by apply keyword_len in H|].
  destruct (lex_number round (String c s')) as [[y r']|] eqn:El; [|done]. injection H as <- <-. by apply number_len in El.
Qed.

Lemma fuel_needed n : needs (value round) n /\ needs (members round) n /\ needs (elements round) n.
Proof.
  induction n as [|n (IHv & IHm & IHe)]; [split_and!; done|].
  split_and!; auto using value_needed, members_needed, elements_needed.
Qed.

(** [JSON_parse] reads what any amount of fuel reads. *)
Theorem parse_fuel n s j r : value round n s = Some (j, r) -> skip_ws r = "" -> JSON_parse round s = Some j.
Proof.
  intros H Hr. apply (proj1 (fuel_needed n)) in H as [_ H]. unfold JSON_parse. rewrite H by lia. by rewrite Hr.
Qed.
End round_trip.
