(* ===== verification/RegExp.v ===== *)
(** * Regular expressions

    JavaScript's regular expressions, as the backtracking matcher of ECMA-262
    22.2.2: ordered alternatives, greedy and lazy repetition, captures, no
    iteration of a repetition may be empty.  Strings are UTF-8 here, a class is a
    set of bytes, and the classes that name white space or "any character" are
    written over the sequences of a character.  A capture inside a repetition is not
    reset by the next iteration: no expression of the program has one. *)

From S2P Require Import Prelude JsString JsUri JsArray.

Local Open Scope char_scope.
Local Open Scope string_scope.
Local Open Scope list_scope.

Inductive regex :=
| Eps
| Chr (p : ascii -> bool)
| Seq (r1 r2 : regex)
| Alt (r1 r2 : regex)
| Star (greedy : bool) (r : regex)
| Group (n : nat) (r : regex).

Definition caps := list (nat * string).

Section matcher.
Context {A : Type}.

(** A continuation receives the captures and the rest of the input. *)
Definition cont := caps -> string -> option A.

Definition orElse (a : option A) (b : option A) : option A := match a with Some x => Some x | None => b end.

Fixpoint iterate (step : cont -> cont) (greedy : bool) (k : cont) (fuel : nat) (c : caps) (s : string) : option A :=
  match fuel with
  | O => k c s
  | S fuel =>
      let more := step (fun c' s' => if (String.length s' <? String.length s)%nat then iterate step greedy k fuel c' s' else None) c s in
      if greedy then orElse more (k c s) else orElse (k c s) more
  end.

Fixpoint run (r : regex) (k : cont) (c : caps) (s : string) : option A :=
  match r with
  | Eps => k c s
  | Chr p => match s with String a s' => if p a then k c s' else None | "" => None end
  | Seq r1 r2 => run r1 (run r2 k) c s
  | Alt r1 r2 => orElse (run r1 k c s) (run r2 k c s)
  | Star greedy r => iterate (run r) greedy k (S (String.length s)) c s
  | Group n r => run r (fun c' s' => k ((n, slice_to (String.length s - String.length s') s) :: c') s') c s
  end.
End matcher.

(** A match at the start of the input: the captures and the rest. *)
Definition exec (r : regex) (s : string) : option (caps * string) := run r (fun c t => Some (c, t)) [] s.

Record Match := { m_text : string; m_caps : caps }.
Definition cap (m : Match) (n : nat) : string := omap_get n (m_caps m) ?? "".

(** [matchAll], from left to right: after an empty match, or none, it moves on by
    one. *)
Fixpoint matchAll_fuel (fuel : nat) (r : regex) (s : string) : list Match :=
  match fuel with
  | O => []
  | S fuel =>
      let skip := match s with "" => [] | String _ s' => matchAll_fuel fuel r s' end in
      match exec r s with
      | None => skip
      | Some (c, t) =>
          let m := {| m_text := slice_to (String.length s - String.length t) s; m_caps := c |} in
          m :: if (String.length t <? String.length s)%nat then matchAll_fuel fuel r t else skip
      end
  end.
Definition matchAll (r : regex) (s : string) : list Match := matchAll_fuel (S (String.length s)) r s.

(** [s.replace(r, by)] with the global flag, for an expression that matches no
    empty string and a replacement without references. *)
Fixpoint replace_fuel (fuel : nat) (r : regex) (by_ s : string) : string :=
  match fuel, s with
  | O, _ => s
  | _, "" => ""
  | S fuel, String a s' =>
      match exec r s with
      | Some (_, t) => if (String.length t <? String.length s)%nat then by_ +:+ replace_fuel fuel r by_ t else String a (replace_fuel fuel r by_ s')
      | None => String a (replace_fuel fuel r by_ s')
      end
  end.
Definition replaceAll (r : regex) (by_ s : string) : string := replace_fuel (String.length s) r by_ s.
Definition erase (r : regex) (s : string) : string := replaceAll r "" s.

(** Every character of a string is in a class. *)
Fixpoint all_in (p : ascii -> bool) (s : string) : bool := match s with "" => true | String a s => p a && all_in p s end.

(** ** The usual expressions *)

Definition chr (a : ascii) : regex := Chr (Ascii.eqb a).
Fixpoint lit (s : string) : regex := match s with "" => Eps | String a "" => chr a | String a s => Seq (chr a) (lit s) end.
Definition opt (r : regex) : regex := Alt r Eps.
Definition plus (r : regex) : regex := Seq r (Star true r).

Definition is_letter_ (a : ascii) : bool :=
  let n := byte_of a in (((65 <=? n) && (n <=? 90)) || ((97 <=? n) && (n <=? 122)) || (n =? 95))%Z.
Definition is_word (a : ascii) : bool := is_letter_ a || is_digit a.

(** One byte of a longer character. *)
Definition byte_is (n : Z) (a : ascii) : bool := (byte_of a =? n)%Z.
(** [\s]: the same characters [trim] removes. *)
Definition WS : regex :=
  Alt (Chr ws1)
    (Alt (Seq (Chr (byte_is 194)) (Chr (byte_is 160)))
      (foldr (fun cd r => Alt (Seq (Chr (byte_is cd.1)) (Seq (Chr (byte_is cd.2))
                (Chr (fun e => ws3 (ascii_of_nat (Z.to_nat cd.1)) (ascii_of_nat (Z.to_nat cd.2)) e)))) r)
             (Chr (fun _ => false)) [(225, 154); (226, 128); (226, 129); (227, 128); (239, 187)]%Z)).

(** [.]: all but line terminators: not U+000A, U+000D, U+2028 and U+2029. *)
Definition DOT : regex :=
  Alt (Chr (fun a => negb (byte_is 10 a || byte_is 13 a || byte_is 226 a)))
    (Seq (Chr (byte_is 226))
      (Alt (Seq (Chr (fun d => negb (byte_is 128 d))) (Chr (fun _ => true)))
           (Seq (Chr (byte_is 128)) (Chr (fun e => negb (byte_is 168 e || byte_is 169 e)))))).

(** [[A-Za-z_][\w]*] *)
Definition IDENT : regex := Seq (Chr is_letter_) (Star true (Chr is_word)).

(** ** What an expression matches *)

Inductive lang : regex -> string -> Prop :=
| lang_eps : lang Eps ""
| lang_chr p a : p a = true -> lang (Chr p) (String a "")
| lang_seq r1 r2 u v : lang r1 u -> lang r2 v -> lang (Seq r1 r2) (u +:+ v)
| lang_altl r1 r2 u : lang r1 u -> lang (Alt r1 r2) u
| lang_altr r1 r2 u : lang r2 u -> lang (Alt r1 r2) u
| lang_nil g r : lang (Star g r) ""
| lang_cons g r u v : u <> "" -> lang r u -> lang (Star g r) v -> lang (Star g r) (u +:+ v)
| lang_group n r u : lang r u -> lang (Group n r) u.

Section correct.
Context {A : Type}.
Abbreviation cont := (@cont A).

Lemma orElse_Some (a b : option A) x : orElse a b = Some x <-> a = Some x \/ (a = None /\ b = Some x).
Proof. destruct a; cbn; split; [auto|intros [E|[E _]]; done|auto|intros [E|[_ E]]; done]. Qed.

Lemma orElse_None (a b : option A) : orElse a b <> None <-> a <> None \/ b <> None.
Proof. destruct a; cbn; split; [by left|done|by right|by intros [|]]. Qed.

(** Every match is in the language. *)
Lemma run_sound r : forall (k : cont) c s x, run r k c s = Some x -> exists u t c', s = u +:+ t /\ lang r u /\ k c' t = Some x.
Proof.
  induction r as [|p|r1 IH1 r2 IH2|r1 IH1 r2 IH2|g r IH|n r IH]; intros k c s x; cbn [run].
  - intros H. exists "", s, c. by repeat constructor.
  - destruct s as [|a s]; [done|]. destruct (p a) eqn:E; [|done]. intros H. exists (String a ""), s, c. by repeat constructor.
  - intros (u & t & c' & -> & Hu & H)%IH1. apply IH2 in H as (v & t' & c'' & -> & Hv & H).
    exists (u +:+ v), t', c''. by rewrite sapp_assoc; repeat constructor.
  - intros [H|[_ H]]%orElse_Some; [apply IH1 in H|apply IH2 in H]; destruct H as (u & t & c' & -> & Hu & H); exists u, t, c'.
    + split; [done|]. split; [by apply lang_altl|done].
    + split; [done|]. split; [by apply lang_altr|done].
  - generalize (S (String.length s)). intros fuel. revert c s. induction fuel as [|fuel IHf]; intros c s; cbn [iterate].
    { intros H. exists "", s, c. split; [done|]. split; [constructor|done]. }
    set (step := run r _ c s).
    assert (Hs : step = Some x -> exists u t c', s = u +:+ t /\ lang (Star g r) u /\ k c' t = Some x).
    { intros H. apply IH in H as (u & t & c' & -> & Hu & H). destruct (String.length t <? _)%nat eqn:E; [|done].
      apply IHf in H as (v & t' & c'' & -> & Hv & H). apply Nat.ltb_lt in E. exists (u +:+ v), t', c''.
      split; [by rewrite sapp_assoc|]. split; [|done]. constructor; [|done..]. intros ->. cbn in E. lia. }
    assert (Hk : k c s = Some x -> exists u t c', s = u +:+ t /\ lang (Star g r) u /\ k c' t = Some x).
    { intros H. exists "", s, c. split; [done|]. split; [constructor|done]. }
    destruct g; intros [H|[_ H]]%orElse_Some; auto.
  - intros (u & t & c' & -> & Hu & H)%IH. exists u, t. eexists. split; [done|]. split; [by constructor|exact H].
Qed.

(** Every member of the language that the continuation accepts is found. *)
Lemma iterate_complete g r (step : cont -> cont) :
  (forall u, lang r u -> forall (k : cont) c t, (forall c', k c' t <> None) -> step k c (u +:+ t) <> None) ->
  forall w, lang (Star g r) w -> forall fuel (k : cont) c t,
    (forall c', k c' t <> None) -> (String.length (w +:+ t) < fuel)%nat -> iterate step g k fuel c (w +:+ t) <> None.
Proof.
  intros Hstep w Hw. remember (Star g r) as q eqn:Eq. induction Hw as [| | | | |g' r'|g' r' u v Hne Hu _ _ IHv|]; try done;
    injection Eq as -> ->; intros fuel k c t Hk Hf; destruct fuel as [|fuel]; try lia; cbn [iterate].
  - destruct g; apply orElse_None; [right|left]; apply Hk.
  - assert (Hs : step (fun c' s' => if (String.length s' <? String.length ((u +:+ v) +:+ t))%nat then iterate step g k fuel c' s' else None) c ((u +:+ v) +:+ t) <> None).
    { rewrite <- (sapp_assoc u v t). apply Hstep; [done|]. intros c'. rewrite (sapp_length u (v +:+ t)).
      rewrite <- (sapp_assoc u v t), sapp_length in Hf. assert (0 < String.length u)%nat by (destruct u; [done|cbn; lia]).
      replace (String.length (v +:+ t) <? String.length u + String.length (v +:+ t))%nat with true by (symmetry; apply Nat.ltb_lt; lia).
      apply IHv; [done|done|lia]. }
    destruct g; apply orElse_None; [by left|by right].
Qed.

Lemma run_complete r : forall u, lang r u -> forall (k : cont) c t, (forall c', k c' t <> None) -> run r k c (u +:+ t) <> None.
Proof.
  induction r as [|p|r1 IH1 r2 IH2|r1 IH1 r2 IH2|g r IH|n r IH]; intros u Hu k c t Hk; cbn [run].
  - inversion Hu. apply Hk.
  - inversion Hu as [|? a Hp| | | | | |]; subst. cbn. by rewrite Hp.
  - inversion Hu as [| |? ? v w Hv Hw| | | | |]; subst. rewrite <- sapp_assoc. apply IH1; [done|]. intros c'. by apply IH2.
  - apply orElse_None. inversion Hu; subst; [left; by apply IH1|right; by apply IH2].
  - apply (iterate_complete g r); [exact IH|done..|lia].
  - inversion Hu; subst. apply IH; [done|]. intros c'. apply Hk.
Qed.

(** An expression that cannot match never consumes. *)
Lemma iterate_stop (step : cont -> cont) g k fuel c s : (forall k', step k' c s = None) -> iterate step g k fuel c s = k c s.
Proof. destruct fuel as [|fuel]; [done|]. intros H. cbn [iterate]. rewrite H. destruct g; cbn; [done|]. by destruct (k c s). Qed.

(** A greedy repetition of a class takes all of the class, when what follows can
    start there. *)
Lemma star_class p x (k : cont) c t y :
  all_in p x = true -> (forall a t', t = String a t' -> p a = false) -> k c t = Some y ->
  run (Star true (Chr p)) k c (x +:+ t) = Some y.
Proof.
  intros Hx Ht Hk. cbn [run]. assert (Hf : (String.length (x +:+ t) < S (String.length (x +:+ t)))%nat) by lia.
  revert Hf. generalize (S (String.length (x +:+ t))). induction x as [|a x IH]; intros fuel Hf.
  - change ("" +:+ t) with t. rewrite iterate_stop; [done|]. intros k'. cbn [run]. destruct t as [|b t']; [done|]. by rewrite (Ht b t').
  - destruct fuel as [|fuel]; [cbn in Hf; lia|]. cbn in Hx. apply andb_true_iff in Hx as [Ha Hx]. cbn [iterate run String.append]. rewrite Ha.
    change (String.length (String a (x +:+ t))) with (S (String.length (x +:+ t))).
    replace (String.length (x +:+ t) <? S (String.length (x +:+ t)))%nat with true by (symmetry; apply Nat.ltb_lt; lia).
    cbn in Hf. rewrite IH; [done|done|lia].
Qed.
End correct.

(** ** [exec] and [matchAll] *)

Lemma exec_Some r s c t : exec r s = Some (c, t) -> exists u, s = u +:+ t /\ lang r u.
Proof. unfold exec. intros (u & t' & c' & -> & Hu & [= <- <-])%run_sound. by exists u. Qed.

Lemma exec_complete r u t : lang r u -> exec r (u +:+ t) <> None.
Proof. intros H. by apply run_complete. Qed.

(** Every match [matchAll] returns is in the language. *)
Lemma matchAll_lang r s m : m ∈ matchAll r s -> lang r (m_text m).
Proof.
  unfold matchAll. generalize (S (String.length s)). intros fuel. revert s m. induction fuel as [|fuel IH]; intros s m; cbn [matchAll_fuel]; [by intros ?%elem_of_nil|].
  assert (Hskip : m ∈ match s with "" => [] | String _ s' => matchAll_fuel fuel r s' end -> lang r (m_text m)).
  { destruct s; [by intros ?%elem_of_nil|apply IH]. }
  destruct (exec r s) as [[c t]|] eqn:E; [|done]. intros [->|H]%elem_of_cons.
  - apply exec_Some in E as (u & -> & Hu). cbn. rewrite sapp_length. replace (String.length u + String.length t - String.length t)%nat with (String.length u) by lia.
    by rewrite slice_to_app.
  - destruct (_ <? _)%nat; [by apply (IH t)|by apply Hskip].
Qed.

Lemma all_in_app p s t : all_in p (s +:+ t) = all_in p s && all_in p t.
Proof. induction s as [|a s IH]; [done|]. cbn. by rewrite IH, andb_assoc. Qed.

Lemma sapp_split u t p s : u +:+ t = p +:+ s ->
  (exists q, p = u +:+ q /\ t = q +:+ s) \/ (exists a q, u = p +:+ String a q /\ s = String a q +:+ t).
Proof.
  revert p. induction u as [|b u IH]; intros p H; [left; by exists p|].
  destruct p as [|d p]; [right; by exists b, u|]. cbn in H. injection H as -> H. destruct (IH p H) as [(q & -> & ->)|(a & q & -> & ->)].
  - left. by exists q.
  - right. by exists a, q.
Qed.

(** An expression whose matches hold a character at their start only is found
    wherever it matches: no earlier match overlaps. *)
Lemma matchAll_finds r a p s c t :
  (forall u, lang r u -> exists u', u = String a u' /\ all_in (fun b => negb (Ascii.eqb a b)) u' = true) ->
  exec r s = Some (c, t) -> {| m_text := slice_to (String.length s - String.length t) s; m_caps := c |} ∈ matchAll r (p +:+ s).
Proof.
  intros Hr He. unfold matchAll. assert (Hf : (String.length (p +:+ s) < S (String.length (p +:+ s)))%nat) by lia.
  revert Hf. generalize (S (String.length (p +:+ s))). intros fuel. revert p. induction fuel as [|fuel IH]; intros p Hf; [lia|].
  destruct (exec_Some _ _ _ _ He) as (v & Hv & Hlv). destruct (Hr v Hlv) as (v' & -> & _).
  destruct p as [|b p]; cbn [matchAll_fuel].
  { change ("" +:+ s) with s. rewrite He. by left. }
  destruct (exec r (String b p +:+ s)) as [[c' t']|] eqn:E; [|cbn [String.append]; apply IH; cbn in Hf; lia].
  destruct (exec_Some _ _ _ _ E) as (u & Hu & Hlu). destruct (Hr u Hlu) as (u' & -> & Hu'). right.
  symmetry in Hu. apply sapp_split in Hu as [(q & Hq & ->)|(d & q & Hq & Hs)].
  - rewrite Hq, <- sapp_assoc, (sapp_length (String a u') (q +:+ s)). cbn [String.length].
    replace (String.length (q +:+ s) <? S (String.length u') + String.length (q +:+ s))%nat with true by (symmetry; apply Nat.ltb_lt; lia).
    apply IH. rewrite Hq, <- sapp_assoc, (sapp_length (String a u')) in Hf. cbn in Hf. lia.
  - rewrite Hv in Hs. cbn in Hs. injection Hs as <- _. cbn in Hq. injection Hq as _ ->. rewrite all_in_app in Hu'. cbn in Hu'.
    rewrite Ascii.eqb_refl in Hu'. cbn in Hu'. by rewrite andb_false_r in Hu'.
Qed.

(** *** Classes of characters, decided on all of them *)

Definition all_ascii (p : ascii -> bool) : bool := List.forallb (fun n => p (ascii_of_nat n)) (List.seq 0 256).

Lemma all_ascii_spec p : all_ascii p = true -> forall a, p a = true.
Proof.
  unfold all_ascii. rewrite List.forallb_forall. intros H a. rewrite <- (ascii_nat_embedding a). apply H. apply List.in_seq.
  pose proof (nat_ascii_bounded a). lia.
Qed.

Fixpoint within (p : ascii -> bool) (r : regex) : bool :=
  match r with
  | Eps => true
  | Chr q => all_ascii (fun a => implb (q a) (p a))
  | Seq r1 r2 | Alt r1 r2 => within p r1 && within p r2
  | Star _ r | Group _ r => within p r
  end.

Lemma within_lang p r u : within p r = true -> lang r u -> all_in p u = true.
Proof.
  intros Hw Hu. revert Hw. induction Hu as [|q a Hq|r1 r2 u v _ IH1 _ IH2|r1 r2 u _ IH|r1 r2 u _ IH|g r|g r u v _ _ IH1 _ IH2|n r u _ IH];
    cbn [within]; intros Hw; try done.
  - pose proof (all_ascii_spec _ Hw a) as Ha. cbn in *. rewrite Hq in Ha. cbn in Ha. by rewrite Ha.
  - apply andb_true_iff in Hw as [? ?]. rewrite all_in_app. by rewrite IH1, IH2.
  - apply andb_true_iff in Hw as [? ?]. auto.
  - apply andb_true_iff in Hw as [? ?]. auto.
  - rewrite all_in_app. by rewrite IH1, IH2.
  - auto.
Qed.

(** A sequence that starts with one character. *)
Lemma lang_chr_seq a r u : lang (Seq (chr a) r) u -> exists v, u = String a v /\ lang r v.
Proof.
  intros H. inversion H as [| |r1 r2 v w Hv Hw| | | | |]; subst. inversion Hv as [|p b Hb| | | | | |]; subst.
  apply Ascii.eqb_eq in Hb as <-. by exists w.
Qed.

(** *** Running the usual expressions *)
Section usual.
Context {A : Type}.
Abbreviation cont := (@cont A).

Lemma run_lit p (k : cont) c s : p <> "" -> run (lit p) k c (p +:+ s) = k c s.
Proof.
  induction p as [|a [|b p] IH]; [done|intros _; cbn; by rewrite Ascii.eqb_refl|]. intros _. cbn [lit run String.append chr].
  rewrite Ascii.eqb_refl. by apply IH.
Qed.

Lemma ws_stop a (k : cont) c s : plain_char a = true -> run WS k c (String a s) = None.
Proof.
  intros H. unfold plain_char in H. apply andb_true_iff in H as [Hb Hw]. apply Z.ltb_lt in Hb. apply negb_true_iff in Hw.
  assert (Hn : forall n, (128 <= n)%Z -> byte_is n a = false) by (intros n Hn; unfold byte_is; apply Z.eqb_neq; lia).
  cbn. rewrite Hw. cbn. rewrite !Hn by lia. done.
Qed.

Lemma run_ident a x (k : cont) c t y :
  is_letter_ a = true -> all_in is_word x = true -> (forall b t', t = String b t' -> is_word b = false) -> k c t = Some y ->
  run IDENT k c (String a x +:+ t) = Some y.
Proof. intros Ha Hx Ht Hk. unfold IDENT. cbn [run String.append]. rewrite Ha. by apply (star_class is_word x k c t y). Qed.
End usual.

(** ** Replacing runs of a class *)

(** Runs of a class become one string; [b]: inside a run. *)
Fixpoint squeeze (p : ascii -> bool) (by_ : string) (b : bool) (s : string) : string :=
  match s with
  | "" => ""
  | String a s => if p a then (if b then squeeze p by_ true s else by_ +:+ squeeze p by_ true s) else String a (squeeze p by_ false s)
  end.

Fixpoint skip (p : ascii -> bool) (s : string) : string :=
  match s with "" => "" | String a t => if p a then skip p t else s end.

Lemma skip_squeeze p by_ s : squeeze p by_ true s = squeeze p by_ true (skip p s).
Proof. induction s as [|a s IH]; [done|]. cbn. destruct (p a) eqn:E; [done|]. cbn. by rewrite E. Qed.

Lemma skip_stop p s a t : skip p s = String a t -> p a = false.
Proof. induction s as [|b s IH]; [done|]. cbn. destruct (p b) eqn:E; [done|]. by intros [= <- _]. Qed.

Lemma skip_split p s : exists u, s = u +:+ skip p s /\ all_in p u = true.
Proof.
  induction s as [|a s (u & Hu & Hp)]; [by exists ""|]. cbn. destruct (p a) eqn:E; [|by exists ""].
  exists (String a u). cbn. rewrite E. split; [by f_equal|done].
Qed.

Lemma skip_length p s : (String.length (skip p s) <= String.length s)%nat.
Proof. destruct (skip_split p s) as (u & Hu & _). rewrite Hu at 2. rewrite sapp_length. lia. Qed.

Lemma squeeze_stop p by_ a s : p a = false -> squeeze p by_ true (String a s) = squeeze p by_ false (String a s).
Proof. intros E. cbn. by rewrite E. Qed.

Lemma exec_plus_class p a s : exec (plus (Chr p)) (String a s) = if p a then Some ([], skip p s) else None.
Proof.
  unfold exec, plus. cbn [run]. destruct (p a); [|done]. destruct (skip_split p s) as (u & Hu & Hp).
  pose proof (star_class p u (fun c t => Some (c, t)) [] (skip p s) _ Hp (fun b t' => skip_stop p s b t') eq_refl) as H.
  rewrite <- Hu in H. exact H.
Qed.

(** An expression that acts as a class on the strings it meets. *)
Lemma replaceAll_class (r : regex) p by_ s :
  (forall t, (exists u, s = u +:+ t) -> exec r t = exec (plus (Chr p)) t) ->
  replaceAll r by_ s = squeeze p by_ false s.
Proof.
  unfold replaceAll. assert (Hf : (String.length s <= String.length s)%nat) by lia. revert Hf.
  generalize (String.length s) at 2 3. intros fuel. revert s. induction fuel as [|fuel IH]; intros s Hf Hr.
  { destruct s; [done|cbn in Hf; lia]. }
  destruct s as [|a s]; [done|]. cbn [replace_fuel]. rewrite (Hr (String a s)) by (by exists ""). rewrite exec_plus_class.
  cbn [squeeze String.length] in *. destruct (p a) eqn:E.
  - pose proof (skip_length p s). replace (String.length (skip p s) <? S (String.length s))%nat with true by (symmetry; apply Nat.ltb_lt; lia).
    f_equal. rewrite skip_squeeze. destruct (skip_split p s) as (u & Hu & _).
    rewrite IH; [|lia|].
    + destruct (skip p s) as [|b t] eqn:Es; [done|]. by rewrite squeeze_stop by (by apply (skip_stop p s b t)).
    + intros t (v & Hv). apply Hr. exists (String a (u +:+ v)). cbn. f_equal. by rewrite <- sapp_assoc, <- Hv.
  - f_equal. apply IH; [lia|]. intros t (v & ->). apply Hr. by exists (String a v).
Qed.

(** On ASCII, white space is a class. *)
Definition is_ascii (a : ascii) : bool := (byte_of a <? 128)%Z.

Lemma WS_ascii {A} (k : @cont A) c s : all_in is_ascii s = true -> run WS k c s = run (Chr ws1) k c s.
Proof.
  destruct s as [|a s]; [done|]. cbn [all_in]. intros [Ha _]%andb_true_iff. unfold is_ascii in Ha. apply Z.ltb_lt in Ha.
  assert (Hn : forall n, (128 <= n)%Z -> byte_is n a = false) by (intros n Hn; unfold byte_is; apply Z.eqb_neq; lia).
  unfold WS. cbn. rewrite !Hn by lia. destruct (if ws1 a then _ else _); done.
Qed.

Lemma exec_plus_WS s : all_in is_ascii s = true -> exec (plus WS) s = exec (plus (Chr ws1)) s.
Proof.
  intros Hs. unfold exec, plus. set (k := fun c t => Some (c, t)).
  change (run WS (run (Star true WS) k) [] s = run (Chr ws1) (run (Star true (Chr ws1)) k) [] s).
  rewrite WS_ascii by done. destruct s as [|a s]; [done|]. cbn [all_in] in Hs. apply andb_true_iff in Hs as [_ Hs].
  cbn [run]. destruct (ws1 a); [|done]. generalize (S (String.length s)). intros fuel. generalize (@nil (nat * string)). revert s Hs.
  induction fuel as [|fuel IH]; intros s Hs c; [done|]. cbn [iterate]. rewrite WS_ascii by done. cbn [run].
  destruct s as [|b s]; [done|]. cbn [all_in] in Hs. apply andb_true_iff in Hs as [_ Hs]. destruct (ws1 b); [|done].
  destruct (_ <? _)%nat; [|done]. by rewrite IH.
Qed.
