(* ===== verification/Liquid.v ===== *)
(** * Template and webhook editors

    The check of a Liquid template's variable references ([lib/liquidVars.ts]) and
    the webhook body editor's insertion at the caret ([lib/jsonCaret.ts] and
    [components/alerts/WebhookBodyEditor.tsx]). *)

From S2P Require Import Prelude JsString JsUri JsArray Host Types Json RegExp.

Local Open Scope char_scope.
Local Open Scope string_scope.
Local Open Scope list_scope.

(** ** Expressions of [liquidVars.ts] *)

(** A tag that binds a name: the opening, a keyword, the name, what follows it. *)
Definition OPENING : regex := Seq (chr "%") (Seq (opt (chr "-")) (Star true WS)).
Definition NAME : regex := Seq (plus WS) (Group 1 IDENT).
Definition TAG (kw : string) (tail : regex) : regex := Seq (chr "{") (Seq OPENING (Seq (lit kw) (Seq NAME tail))).

Definition FOR : regex := TAG "for" (Seq (plus WS) (Seq (lit "in") WS)).
Definition ASSIGN : regex := TAG "assign" (Seq (Star true WS) (chr "=")).
Definition CAPTURE : regex := TAG "capture" (Seq (Star true WS) (Seq (opt (chr "-")) (lit "%}"))).

(** An output, and the condition of an if, an unless or an elsif: the shortest
    text up to the closing. *)
Definition OUTPUT : regex :=
  Seq (lit "{{") (Seq (opt (chr "-")) (Seq (Group 1 (Star false DOT)) (Seq (opt (chr "-")) (lit "}}")))).
Definition CONDITION : regex :=
  Seq (lit "{%") (Seq (opt (chr "-")) (Seq (Star true WS) (Seq (Alt (lit "if") (Alt (lit "unless") (lit "elsif")))
    (Seq (plus WS) (Seq (Group 1 (Star false DOT)) (Seq (opt (chr "-")) (lit "%}"))))))).

Definition quoted (q : ascii) : regex := Seq (chr q) (Seq (Star true (Chr (fun a => negb (Ascii.eqb q a)))) (chr q)).
(** Identifiers with dots between them. *)
Definition PATH : regex := Seq IDENT (Star true (Seq (chr ".") IDENT)).

(** ** [liquidVars.ts] *)

Record UnknownVariable := { uv_path : string; uv_line : Z; uv_suggestion : option string }.

Definition BUILTIN_NAMES : list string := ["forloop"; "tablerowloop"; "blank"; "empty"; "nil"; "null"; "true"; "false"].

Definition locallyBound (template : string) : list string :=
  concat ((fun r => (fun m => cap m 1) <$> matchAll r template) <$> [FOR; ASSIGN; CAPTURE]).

Definition root_of (path : string) : string := List.hd "" (split "." path).

Fixpoint common_prefix (s t : string) : nat :=
  match s, t with
  | String a s, String b t => if Ascii.eqb a b then S (common_prefix s t) else 0
  | _, _ => 0
  end.

(** The loop over the candidates: the best so far and its score. *)
Definition better (path : string) (best : string * Z) (c : string) : string * Z :=
  let i := Z.of_nat (common_prefix c path) in if (best.2 <? i)%Z then (c, i) else best.

Definition closestKnown (path : string) (knownPaths : list string) : option string :=
  match List.filter (fun p => root_of p =s root_of path) knownPaths with
  | [] => None
  | c :: cs => Some (foldl (better path) (c, (-1)%Z) (c :: cs)).1
  end.

Definition wildcardPrefixes (knownPaths : list string) : list string :=
  (fun p => slice_to (String.length p - 5) p) <$> List.filter (fun p => endsWith p ".<key>") knownPaths.

Definition containerPaths (knownPaths : list string) : list string :=
  concat ((fun p => let segs := split "." p in (fun i => join "." (take i segs)) <$> seq 1 (length segs - 1)) <$> knownPaths).

(** What a line refers to. *)
Definition line_exprs (text : string) : list string :=
  ((fun m => cap m 1) <$> matchAll OUTPUT text) ++ ((fun m => cap m 1) <$> matchAll CONDITION text).
Definition expr_paths (expr : string) : list string :=
  let head := List.hd "" (split "|" expr) in
  m_text <$> matchAll PATH (erase (quoted QUOTE) (erase (quoted "'") head)).

Definition mem (x : string) (l : list string) : bool := bool_decide (x ∈ l).

(** The guards of the innermost loop. *)
Definition suspicious (knownPaths bound : list string) (path : string) : bool :=
  negb (mem (root_of path) BUILTIN_NAMES || mem (root_of path) bound) &&
  negb (mem path ["and"; "or"; "not"; "contains"; "in"]) &&
  negb (mem path knownPaths || mem path (containerPaths knownPaths)) &&
  negb (List.existsb (fun prefix => startsWith path prefix) (wildcardPrefixes knownPaths)).

Definition scan_path (knownPaths bound : list string) (idx : nat) (st : list string * list UnknownVariable) (path : string) : list string * list UnknownVariable :=
  if negb (suspicious knownPaths bound path) then st
  else
    let key := tpl [path; "@"; show_Z (Z.of_nat idx)] in
    if mem key st.1 then st
    else (st.1 ++ [key], st.2 ++ [{|
      uv_path := path; uv_line := Z.of_nat idx + 1;
      uv_suggestion := if mem (root_of path) (root_of <$> knownPaths) then closestKnown path knownPaths else None |}]).

Definition scan_expr (knownPaths bound : list string) (idx : nat) (st : list string * list UnknownVariable) (expr : string) : list string * list UnknownVariable :=
  foldl (scan_path knownPaths bound idx) st (expr_paths expr).

Definition scan_line (knownPaths bound : list string) (st : list string * list UnknownVariable) (line : nat * string) : list string * list UnknownVariable :=
  foldl (scan_expr knownPaths bound line.1) st (line_exprs line.2).

Definition newline : ascii := "010".

Definition unknownVariables (template : string) (knownPaths : list string) : list UnknownVariable :=
  if negb (truthy (trim template)) || bool_decide (knownPaths = []) then []
  else (foldl (scan_line knownPaths (locallyBound template)) ([], []) (imap pair (split newline template))).2.

Example typo : unknownVariables ("{% for kv in service.metadata %}{{ kv.key }}" +:+ String newline "{{ alert.severty | default: 'a.b' }}{{ x }}")
  ["alert.severity"; "alert.summary"; "service.metadata.<key>"] =
  [{| uv_path := "alert.severty"; uv_line := 2; uv_suggestion := Some "alert.severity" |}; {| uv_path := "x"; uv_line := 2; uv_suggestion := None |}].
Proof. by_compute. Qed.

(** ** [jsonCaret.ts] and the insertion of a reference *)

Fixpoint caret_scan (inString : bool) (head : string) : bool :=
  match head with
  | "" => inString
  | String a head =>
      if Ascii.eqb a BACKSLASH then match head with "" => inString | String _ head => caret_scan inString head end
      else caret_scan (if Ascii.eqb a QUOTE then negb inString else inString) head
  end.
Definition caretIsInJSONString (head : string) : bool := caret_scan false head.

(** [path.replace(".<key>", ".yourKey")]: the first occurrence. *)
Fixpoint replace_first (p r s : string) : string :=
  if startsWith s p then r +:+ slice_from (String.length p) s
  else match s with "" => "" | String a s => String a (replace_first p r s) end.

(** [doc.sliceString(line.from, from)]: what stands on the line before the caret. *)
Definition line_head (before : string) : string := List.last (split newline before) "".

(** The edited document: the selection, from the caret on, is replaced. *)
Definition insertVar (before selected after path : string) : string :=
  let token := replace_first ".<key>" ".yourKey" path in
  let insert := if caretIsInJSONString (line_head before) then tpl ["${"; token; "}"]
                else tpl [String QUOTE ""; "$"; token; String QUOTE ""] in
  before +:+ insert +:+ after.

(** ** The references that are reported *)

Section report.
Context (knownPaths bound : list string).

(** All references of the template, in reading order, with the index of their line. *)
Definition line_paths (line : nat * string) : list (nat * string) :=
  (fun p => (line.1, p)) <$> concat (expr_paths <$> line_exprs line.2).
Definition occurrences (template : string) : list (nat * string) := concat (line_paths <$> imap pair (split newline template)).

Definition scan (st : list string * list UnknownVariable) (o : nat * string) := scan_path knownPaths bound o.1 st o.2.

Lemma scan_line_flat st line : scan_line knownPaths bound st line = foldl scan st (line_paths line).
Proof.
  unfold scan_line, line_paths. generalize (line_exprs line.2). intros es. revert st. induction es as [|e es IH]; intros st; [done|].
  cbn [foldl fmap list_fmap concat]. rewrite fmap_app, foldl_app. rewrite IH. f_equal. unfold scan_expr.
  generalize (expr_paths e). intros ps. revert st. induction ps as [|p ps IHp]; intros st; [done|]. cbn. by rewrite <- IHp.
Qed.

Lemma scan_flat st lines : foldl (scan_line knownPaths bound) st lines = foldl scan st (concat (line_paths <$> lines)).
Proof.
  revert st. induction lines as [|l ls IH]; intros st; [done|]. cbn [foldl fmap list_fmap concat]. by rewrite IH, foldl_app, scan_line_flat.
Qed.

(** The first occurrence of each. *)
Fixpoint firsts {A} `{EqDecision A} (seen l : list A) : list A :=
  match l with
  | [] => []
  | x :: l => if bool_decide (x ∈ seen) then firsts seen l else x :: firsts (seen ++ [x]) l
  end.

Definition key_of (o : nat * string) : string := tpl [o.2; "@"; show_Z (Z.of_nat o.1)].
Definition report_of (o : nat * string) : UnknownVariable := {|
  uv_path := o.2; uv_line := Z.of_nat o.1 + 1;
  uv_suggestion := if mem (root_of o.2) (root_of <$> knownPaths) then closestKnown o.2 knownPaths else None |}.

Definition plain_path (p : string) : Prop := no_char "@" p = true.

Lemma key_inj o o' : plain_path o.2 -> plain_path o'.2 -> key_of o = key_of o' -> o = o'.
Proof.
  destruct o as [i p], o' as [j q]. unfold key_of, plain_path. cbn [fst snd tpl]. intros Hp Hq H.
  rewrite !sapp_nil_r in H. cbn in H.
  pose proof (f_equal (split "@") H) as Hs. change ("@" +:+ ?x) with (String "@" x) in Hs.
  rewrite !split_cut in Hs by done. injection Hs as -> Hs. pose proof (sapp_inj_l _ _ _ H) as H'. injection H' as H'.
  apply show_Z_inj in H'. f_equal. lia.
Qed.

Lemma scan_firsts l done_ :
  Forall (fun o => plain_path o.2) (done_ ++ l) ->
  foldl scan (key_of <$> done_, report_of <$> done_) l =
  let all := done_ ++ firsts done_ (List.filter (fun o => suspicious knownPaths bound o.2) l) in (key_of <$> all, report_of <$> all).
Proof.
  revert done_. induction l as [|o l IH]; intros dn Hall; cbn [foldl]; [cbn; by rewrite app_nil_r|].
  rewrite Forall_app, Forall_cons in Hall. destruct Hall as (Hd & Ho & Hl).
  unfold scan at 2, scan_path. cbn [List.filter]. destruct (suspicious knownPaths bound o.2); cbn [negb].
  2: { apply IH. by rewrite Forall_app. }
  cbn [firsts]. change (tpl [o.2; "@"; show_Z (Z.of_nat o.1)]) with (key_of o).
  assert (Hm : mem (key_of o) (key_of <$> dn) = bool_decide (o ∈ dn)).
  { unfold mem. apply bool_decide_ext. rewrite list_elem_of_fmap. split; [|by exists o]. intros (o' & Hk & Ho').
    rewrite Forall_forall in Hd. apply key_inj in Hk; [by subst|done|by apply Hd]. }
  cbn [fst snd]. rewrite Hm. case_bool_decide as Hin.
  - apply IH. by rewrite Forall_app.
  - change (key_of <$> dn) with (fmap key_of dn). replace ((key_of <$> dn) ++ [key_of o]) with (key_of <$> (dn ++ [o])) by (by rewrite fmap_app).
    match goal with |- foldl scan (_, ?r) l = _ => replace r with (report_of <$> (dn ++ [o])) by (by rewrite fmap_app) end.
    rewrite IH by (rewrite !Forall_app; repeat split; [done|by constructor|done]).
    cbn zeta. by rewrite <- app_assoc.
Qed.
End report.

Lemma PATH_plain : within (fun a => negb (Ascii.eqb "@" a)) PATH = true.
Proof. by_compute. Qed.

Lemma no_char_all_in c s : no_char c s = all_in (fun a => negb (Ascii.eqb c a)) s.
Proof. induction s as [|a s IH]; [done|]. cbn. rewrite IH. by rewrite (Ascii.eqb_sym c a). Qed.

Lemma occurrences_plain template o : o ∈ occurrences template -> plain_path o.2.
Proof.
  unfold occurrences, line_paths. rewrite elem_of_concat. intros (ls & (l & -> & _)%list_elem_of_fmap & Ho).
  apply list_elem_of_fmap in Ho as (p & -> & Hp). apply elem_of_concat in Hp as (ps & (e & -> & _)%list_elem_of_fmap & Hp).
  unfold expr_paths in Hp. apply list_elem_of_fmap in Hp as (m & -> & Hm). apply matchAll_lang in Hm.
  unfold plain_path. cbn. rewrite no_char_all_in. exact (within_lang _ _ _ PATH_plain Hm).
Qed.

Lemma scan_template template knownPaths bound :
  (foldl (scan_line knownPaths bound) ([], []) (imap pair (split newline template))).2 =
  report_of knownPaths <$> firsts [] (List.filter (fun o => suspicious knownPaths bound o.2) (occurrences template)).
Proof.
  rewrite scan_flat. pose proof (scan_firsts knownPaths bound (occurrences template) []) as H.
  cbn [fmap list_fmap app] in H. unfold occurrences in *. rewrite H; [done|].
  apply Forall_forall. intros o Ho. by apply (occurrences_plain template).
Qed.

(** The check reports, in reading order and once per line, exactly the references
    no rule excuses: neither known, nor on the way to a known path, nor metadata, nor
    bound by the template, nor a word of the language. *)
Theorem report_is_suspicious_occurrences template knownPaths :
  trim template <> "" -> knownPaths <> [] ->
  unknownVariables template knownPaths =
  report_of knownPaths <$> firsts [] (List.filter (fun o => suspicious knownPaths (locallyBound template) o.2) (occurrences template)).
Proof.
  intros Ht Hk. unfold unknownVariables. rewrite (proj2 (truthy_spec _) Ht), bool_decide_eq_false_2 by done. apply scan_template.
Qed.

(** ** Names the template binds *)

Definition not_brace (b : ascii) : bool := negb (Ascii.eqb "{" b).

Lemma OPENING_no_brace : within not_brace OPENING = true.
Proof. by_compute. Qed.
Lemma NAME_no_brace : within not_brace NAME = true.
Proof. by_compute. Qed.

Lemma within_seq p r1 r2 : within p (Seq r1 r2) = within p r1 && within p r2.
Proof. done. Qed.

Lemma TAG_one_brace kw tail u :
  within not_brace (lit kw) = true -> within not_brace tail = true ->
  lang (TAG kw tail) u -> exists u', u = String "{" u' /\ all_in not_brace u' = true.
Proof.
  intros H1 H2 Hu. apply lang_chr_seq in Hu as (v & -> & Hv). exists v. split; [done|]. revert Hv. apply within_lang.
  by rewrite !within_seq, OPENING_no_brace, NAME_no_brace, H1, H2.
Qed.

(** An identifier: its first character and the rest. *)
Definition identifier (x : string) : bool := match x with "" => false | String a x => is_letter_ a && all_in is_word x end.

Lemma letter_plain b : is_letter_ b = true -> plain_char b = true.
Proof.
  pose proof (all_ascii_spec (fun a => implb (is_letter_ a) (plain_char a)) ltac:(by_compute) b) as H. cbn in H. intros E. by rewrite E in H.
Qed.

Section tags.
Context {A : Type}.
Abbreviation cont := (@cont A).

Lemma run_seq r1 r2 (k : cont) c s : run (Seq r1 r2) k c s = run r1 (run r2 k) c s.
Proof. done. Qed.

Lemma run_chr a (k : cont) c s : run (chr a) k c (String a s) = k c s.
Proof. cbn. by rewrite Ascii.eqb_refl. Qed.

Lemma run_opt a b (k : cont) c s : Ascii.eqb a b = false -> run (opt (chr a)) k c (String b s) = k c (String b s).
Proof. intros H. cbn. by rewrite H. Qed.

(** A blank before a character that is no white space. *)
Lemma run_spaces a (k : cont) c s : plain_char a = true -> run (Star true WS) k c (String a s) = k c (String a s).
Proof. intros Ha. cbn [run]. apply iterate_stop. intros k'. by apply ws_stop. Qed.

Lemma run_blank (k : cont) c s y : k c s = Some y -> run WS k c (String " " s) = Some y.
Proof. intros H. cbn. by rewrite H. Qed.

Lemma run_blanks a (k : cont) c s y : plain_char a = true -> k c (String a s) = Some y -> run (Star true WS) k c (String " " (String a s)) = Some y.
Proof.
  intros Ha Hk. cbn [run iterate]. erewrite run_blank; [done|]. cbn [String.length].
  replace (S (String.length s) <? S (S (String.length s)))%nat with true by (symmetry; apply Nat.ltb_lt; lia).
  change (iterate (run WS) true k (S (S (String.length s))) c (String a s) = Some y). rewrite iterate_stop; [done|]. intros k'. by apply ws_stop.
Qed.

Lemma run_NAME x (k : cont) c rest y :
  identifier x = true -> (forall b r, rest = String b r -> is_word b = false) -> k ((1%nat, x) :: c) rest = Some y ->
  run NAME k c (String " " (x +:+ rest)) = Some y.
Proof.
  destruct x as [|b x]; [done|]. intros Hx Hr Hk. cbn [identifier] in Hx. apply andb_true_iff in Hx as [Hb Hx].
  unfold NAME, plus. rewrite !run_seq. apply run_blank. cbn [String.append]. rewrite run_spaces by (by apply letter_plain).
  cbn [run]. apply (run_ident b x); [done..|]. cbv beta.
  change (String b (x +:+ rest)) with (String b x +:+ rest). rewrite sapp_length.
  replace (String.length (String b x) + String.length rest - String.length rest)%nat with (String.length (String b x)) by lia.
  by rewrite slice_to_app.
Qed.

Lemma run_TAG a kw tail x (k : cont) rest y :
  plain_char a = true -> identifier x = true ->
  (forall b r, rest = String b r -> is_word b = false) -> run tail k [(1%nat, x)] rest = Some y ->
  run (TAG (String a kw) tail) k [] ("{% " +:+ (String a kw +:+ String " " (x +:+ rest))) = Some y.
Proof.
  intros Ha Hx Hr Hk. unfold TAG, OPENING.
  match goal with |- context ["{% " +:+ ?s] => change ("{% " +:+ s) with (String "{" (String "%" (String " " s))) end.
  rewrite run_seq, run_chr, !run_seq, run_chr, run_seq, run_opt by done.
  cbn [String.append]. apply run_blanks; [done|]. rewrite run_seq.
  change (String a (kw +:+ String " " (x +:+ rest))) with (String a kw +:+ String " " (x +:+ rest)). rewrite run_lit by done.
  rewrite run_seq. by apply run_NAME.
Qed.
End tags.

(** The tags that bind a name, as an author writes them. *)
Definition binders (x : string) : list string :=
  [tpl ["{% for "; x; " in "]; tpl ["{% assign "; x; " ="]; tpl ["{% capture "; x; " %}"]].

Lemma locallyBound_elem r template m : r ∈ [FOR; ASSIGN; CAPTURE] -> m ∈ matchAll r template -> cap m 1 ∈ locallyBound template.
Proof.
  intros Hr Hm. unfold locallyBound. apply elem_of_concat. exists ((fun m => cap m 1) <$> matchAll r template).
  split; [|exact (list_elem_of_fmap_2 (fun m => cap m 1) _ _ Hm)].
  exact (list_elem_of_fmap_2 (fun r => (fun m => cap m 1) <$> matchAll r template) _ _ Hr).
Qed.

Lemma bound_by a x kw kw' tail rest p :
  TAG (String a kw) tail ∈ [FOR; ASSIGN; CAPTURE] -> plain_char a = true -> identifier x = true ->
  within not_brace (lit (String a kw)) = true -> within not_brace tail = true ->
  (forall b r, rest = String b r -> is_word b = false) ->
  (exists t, run tail (fun c t => Some (c, t)) [(1%nat, x)] rest = Some ([(1%nat, x)], t)) ->
  kw' = "{% " +:+ (String a kw +:+ String " " (x +:+ rest)) ->
  x ∈ locallyBound (p +:+ kw').
Proof.
  intros Hin Ha Hx Hw1 Hw2 Hr [t Ht] ->.
  pose proof (run_TAG a kw tail x _ rest _ Ha Hx Hr Ht) as He.
  pose proof (matchAll_finds _ "{" p _ _ _ (fun u Hu => TAG_one_brace _ _ u Hw1 Hw2 Hu) He) as Hm.
  exact (locallyBound_elem _ _ _ Hin Hm).
Qed.

Lemma binder_binds x tag p b : identifier x = true -> tag ∈ binders x -> x ∈ locallyBound (p +:+ (tag +:+ b)).
Proof.
  intros Hx. unfold binders. rewrite !elem_of_cons, elem_of_nil. intros [->|[->|[->|[]]]].
  - apply (bound_by "f" x "or" _ (Seq (plus WS) (Seq (lit "in") WS)) (" in " +:+ b)); [by left|by_compute|exact Hx|by_compute|by_compute| | |].
    + intros c r [= <- _]. done.
    + exists b. unfold plus. rewrite !run_seq. change (" in " +:+ b) with (String " " (String "i" ("n " +:+ b))).
      apply run_blank. rewrite run_spaces by done. done.
    + cbn. by rewrite <- sapp_assoc.
  - apply (bound_by "a" x "ssign" _ (Seq (Star true WS) (chr "=")) (" =" +:+ b)); [right; by left|by_compute|exact Hx|by_compute|by_compute| | |].
    + intros c r [= <- _]. done.
    + exists b. rewrite run_seq. change (" =" +:+ b) with (String " " (String "=" b)). by apply run_blanks.
    + cbn. by rewrite <- sapp_assoc.
  - apply (bound_by "c" x "apture" _ (Seq (Star true WS) (Seq (opt (chr "-")) (lit "%}"))) (" %}" +:+ b)); [right; right; by left|by_compute|exact Hx|by_compute|by_compute| | |].
    + intros c r [= <- _]. done.
    + exists b. rewrite run_seq. change (" %}" +:+ b) with (String " " (String "%" (String "}" b))). by apply run_blanks.
    + cbn. by rewrite <- sapp_assoc.
Qed.

Lemma firsts_elem {A} `{EqDecision A} (seen l : list A) x : x ∈ firsts seen l -> x ∈ l.
Proof.
  revert seen. induction l as [|y l IH]; intros seen; [done|]. cbn. case_bool_decide; [intros ?%IH; by right|].
  intros [->|?%IH]%elem_of_cons; [by left|by right].
Qed.

Lemma reported_inv template knownPaths v : v ∈ unknownVariables template knownPaths ->
  exists o, v = report_of knownPaths o /\ o ∈ occurrences template /\ suspicious knownPaths (locallyBound template) o.2 = true.
Proof.
  unfold unknownVariables. destruct (_ || _); [by intros ?%elem_of_nil|]. rewrite scan_template. intros Hv.
  apply list_elem_of_fmap in Hv as (o & -> & Ho). apply firsts_elem, filterb_elem in Ho as [Ho Hs]. by exists o.
Qed.

(** A name a template binds by a loop, an assignment or a capture is never
    reported, nor is anything reached through it, wherever the tag stands. *)
Theorem bound_names_not_reported p x tag b knownPaths v :
  identifier x = true -> tag ∈ binders x ->
  v ∈ unknownVariables (p +:+ (tag +:+ b)) knownPaths -> root_of (uv_path v) <> x.
Proof.
  intros Hx Ht Hv Hr. apply reported_inv in Hv as (o & -> & _ & Hs). cbn in Hr. unfold suspicious, mem in Hs. rewrite Hr in Hs.
  rewrite (bool_decide_eq_true_2 (x ∈ locallyBound _)) in Hs by (by apply binder_binds). by rewrite orb_true_r in Hs.
Qed.

(** ** Suggestions *)

Lemma better_spec path cs best :
  best.2 = Z.of_nat (common_prefix best.1 path) ->
  let r := foldl (better path) best cs in
  r.2 = Z.of_nat (common_prefix r.1 path) /\ r.1 ∈ best.1 :: cs /\
  forall c, c ∈ best.1 :: cs -> (common_prefix c path <= common_prefix r.1 path)%nat.
Proof.
  revert best. induction cs as [|c cs IH]; intros best Hb; cbn [foldl].
  { split; [done|]. split; [by left|]. intros c ->%list_elem_of_singleton. done. }
  assert (Hb' : (better path best c).2 = Z.of_nat (common_prefix (better path best c).1 path)) by (unfold better; by destruct (_ <? _)%Z).
  destruct (IH _ Hb') as (H1 & H2 & H3). split; [done|]. set (r := foldl (better path) (better path best c) cs) in *.
  assert (Hge : (common_prefix best.1 path <= common_prefix (better path best c).1 path)%nat /\
                (common_prefix c path <= common_prefix (better path best c).1 path)%nat /\ (better path best c).1 ∈ [best.1; c]).
  { unfold better. destruct (_ <? _)%Z eqn:E; cbn [fst].
    - apply Z.ltb_lt in E. split; [lia|]. split; [lia|]. right. by left.
    - apply Z.ltb_ge in E. split; [lia|]. split; [lia|]. by left. }
  destruct Hge as (G1 & G2 & G3). pose proof (H3 _ (list_elem_of_here _ _)) as G4. split.
  - apply elem_of_cons in H2 as [E|H2]; [|right; by right]. rewrite E. rewrite elem_of_cons, list_elem_of_singleton in G3.
    destruct G3 as [-> | ->]; [by left|right; by left].
  - intros d. rewrite !elem_of_cons. intros [->|[->|Hd]]; [lia|lia|]. apply H3. by right.
Qed.

(** The suggestion for a misspelt path is a known path of the same root, and none
    of that root has more leading characters in common; there is one whenever the root
    is known. *)
Theorem suggestion_is_closest path knownPaths :
  match closestKnown path knownPaths with
  | Some c => c ∈ knownPaths /\ root_of c = root_of path /\
      forall d, d ∈ knownPaths -> root_of d = root_of path -> (common_prefix d path <= common_prefix c path)%nat
  | None => root_of path ∉ root_of <$> knownPaths
  end.
Proof.
  unfold closestKnown. destruct (List.filter _ knownPaths) as [|c cs] eqn:E.
  - intros (d & Hd & Hin)%list_elem_of_fmap.
    assert (Hf : d ∈ List.filter (fun p => root_of p =s root_of path) knownPaths) by (apply filterb_elem; split; [done|by rewrite Hd, String.eqb_refl]).
    rewrite E in Hf. by apply elem_of_nil in Hf.
  - cbn [foldl]. set (best := better path (c, (-1)%Z) c).
    assert (Hb : best = (c, Z.of_nat (common_prefix c path))) by (unfold best, better; cbn [fst snd]; by rewrite (proj2 (Z.ltb_lt _ _)) by lia).
    destruct (better_spec path cs best) as (_ & H2 & H3); [by rewrite Hb|]. rewrite Hb in *. cbn [fst] in *. rewrite <- E in H2, H3.
    apply filterb_elem in H2 as [H2 Hr]. bool_prop. split; [done|]. split; [done|]. intros d Hd Hrd. apply H3, filterb_elem.
    split; [done|]. by rewrite Hrd, String.eqb_refl.
Qed.

(** ** The caret of the webhook body *)

(** JSON's strings, as a lexer sees them. *)
Inductive lex := outside | inside | escaped.
#[export] Instance lex_eq_dec : EqDecision lex.
Proof. solve_decision. Defined.

Definition lex_step (st : lex) (a : ascii) : lex :=
  match st with
  | outside => if Ascii.eqb a QUOTE then inside else outside
  | inside => if Ascii.eqb a BACKSLASH then escaped else if Ascii.eqb a QUOTE then outside else inside
  | escaped => inside
  end.

(** No backslash outside a string, no line break inside one. *)
Definition lex_ok (st : lex) (a : ascii) : bool :=
  match st with outside => negb (Ascii.eqb a BACKSLASH) | _ => negb (Ascii.eqb a newline) end.

Fixpoint lex_from (st : lex) (s : string) : lex := match s with "" => st | String a s => lex_from (lex_step st a) s end.
Fixpoint lexes (st : lex) (s : string) : bool := match s with "" => true | String a s => lex_ok st a && lexes (lex_step st a) s end.

Lemma lex_from_app st s t : lex_from st (s +:+ t) = lex_from (lex_from st s) t.
Proof. revert st. induction s as [|a s IH]; intros st; [done|]. apply IH. Qed.
Lemma lexes_app st s t : lexes st (s +:+ t) = lexes st s && lexes (lex_from st s) t.
Proof. revert st. induction s as [|a s IH]; intros st; [done|]. cbn. by rewrite IH, andb_assoc. Qed.

Lemma caret_scan_lex n s : (String.length s <= n)%nat ->
  (lexes outside s = true -> caret_scan false s = negb (bool_decide (lex_from outside s = outside))) /\
  (lexes inside s = true -> caret_scan true s = negb (bool_decide (lex_from inside s = outside))).
Proof.
  revert s. induction n as [|n IH]; intros s Hn; (destruct s as [|a s]; [by repeat constructor|]); cbn in Hn; [lia|].
  destruct (IH s ltac:(lia)) as [IHo IHi]. cbn [lexes lex_ok caret_scan lex_from lex_step]. split; intros [Ha Hs]%andb_true_iff.
  - apply negb_true_iff in Ha. rewrite Ha. destruct (Ascii.eqb a QUOTE); cbn [negb]; auto.
  - destruct (Ascii.eqb a BACKSLASH).
    + destruct s as [|b s]; [done|]. cbn [lexes lex_ok lex_from lex_step] in *. apply andb_true_iff in Hs as [_ Hs].
      by apply (IH s ltac:(cbn in *; lia)).
    + destruct (Ascii.eqb a QUOTE); cbn [negb]; auto.
Qed.

(** The whole line decides: nothing before it can leave a string open. *)
Lemma line_head_split before : exists p, before = p +:+ line_head before /\ (p = "" \/ exists q, p = q +:+ String newline "").
Proof.
  unfold line_head. pose proof (join_split newline before) as Hj. pose proof (split_not_nil newline before) as Hn.
  destruct (exists_last Hn) as (l & x & E). rewrite E in *. rewrite List.last_last. rewrite <- Hj.
  destruct l as [|y l]; [exists ""; split; [done|by left]|].
  exists (join (String newline "") (y :: l) +:+ String newline ""). split; [|right; by eexists].
  clear. revert y. induction l as [|z l IH]; intros y; [cbn; by rewrite <- sapp_assoc|]. cbn [join app] in *.
  rewrite IH. by rewrite !sapp_assoc.
Qed.

Lemma lex_line before : lexes outside before = true ->
  lexes outside (line_head before) = true /\ lex_from outside (line_head before) = lex_from outside before.
Proof.
  destruct (line_head_split before) as (p & E & Hp). rewrite E at 1 4. rewrite lexes_app, lex_from_app. intros [H1 H2]%andb_true_iff.
  enough (Hs : lex_from outside p = outside) by (by rewrite Hs in *).
  destruct Hp as [->|(q & ->)]; [done|]. rewrite lex_from_app. rewrite lexes_app in H1. apply andb_true_iff in H1 as [_ H1].
  cbn in *. by destruct (lex_from outside q).
Qed.

(** The editor's test agrees with a JSON lexer run over the whole document, a
    caret behind a backslash counting as inside. *)
Theorem caret_test_is_lexer before :
  lexes outside before = true ->
  caretIsInJSONString (line_head before) = negb (bool_decide (lex_from outside before = outside)).
Proof.
  intros H. destruct (lex_line before H) as [H1 H2]. rewrite <- H2.
  exact (proj1 (caret_scan_lex _ _ (Nat.le_refl _)) H1).
Qed.

Definition token_char (a : ascii) : bool := negb (Ascii.eqb a QUOTE || Ascii.eqb a BACKSLASH || Ascii.eqb a newline).

Lemma all_in_slice_from p n s : all_in p s = true -> all_in p (slice_from n s) = true.
Proof. revert n. induction s as [|a s IH]; intros [|n] H; try done. cbn in *. apply andb_true_iff in H as [_ H]. by apply IH. Qed.

Lemma all_in_replace_first p pat r s : all_in p r = true -> all_in p s = true -> all_in p (replace_first pat r s) = true.
Proof.
  intros Hr. induction s as [|a s IH]; intros Hs; cbn [replace_first].
  - destruct (startsWith "" pat); [|done]. rewrite all_in_app, Hr. by apply all_in_slice_from.
  - destruct (startsWith (String a s) pat).
    + rewrite all_in_app, Hr. by apply all_in_slice_from.
    + cbn in *. apply andb_true_iff in Hs as [-> Hs]. by apply IH.
Qed.

Lemma lex_token st t : st <> escaped -> all_in token_char t = true -> lex_from st t = st /\ lexes st t = true.
Proof.
  intros Hst. induction t as [|a t IH]; intros Ht; [done|]. cbn in Ht. apply andb_true_iff in Ht as [Ha Ht]. unfold token_char in Ha.
  apply negb_true_iff in Ha. apply orb_false_iff in Ha as [[Hq Hb]%orb_false_iff Hn]. destruct (IH Ht) as [I1 I2].
  cbn [lex_from lexes]. destruct st; cbn [lex_step lex_ok]; [by rewrite Hq, Hb|by rewrite Hb, Hq, Hn|done].
Qed.

(** Inserting a reference at a caret that is not behind a backslash keeps the
    document's strings as they were: what follows is read as before, and a document
    whose strings were well formed stays so. *)
Theorem insertion_keeps_strings before after path :
  all_in token_char path = true -> lexes outside (before +:+ after) = true -> lex_from outside before <> escaped ->
  exists reference, insertVar before "" after path = before +:+ (reference +:+ after) /\ reference <> "" /\
    lex_from outside (before +:+ reference) = lex_from outside before /\
    lexes outside (insertVar before "" after path) = true.
Proof.
  intros Hp Hl He. rewrite lexes_app in Hl. apply andb_true_iff in Hl as [Hb Ha]. unfold insertVar.
  set (token := replace_first _ _ path).
  assert (Ht : all_in token_char token = true) by (by apply all_in_replace_first).
  rewrite (caret_test_is_lexer before Hb). set (st := lex_from outside before) in *.
  assert (Hins : forall ref, lex_from st ref = st -> lexes st ref = true -> ref <> "" ->
    exists reference, before +:+ (ref +:+ after) = before +:+ (reference +:+ after) /\ reference <> "" /\
      lex_from outside (before +:+ reference) = st /\ lexes outside (before +:+ (ref +:+ after)) = true).
  { intros ref H1 H2 H3. exists ref. split; [done|]. split; [done|]. split; [by rewrite lex_from_app|].
    rewrite lexes_app, Hb. fold st. rewrite lexes_app, H2, H1. exact Ha. }
  case_bool_decide as Hst; cbn [negb]; apply Hins; try done.
  - rewrite Hst. cbn. rewrite lex_from_app. destruct (lex_token inside token ltac:(done) Ht) as [-> _]. done.
  - rewrite Hst. cbn. rewrite lexes_app. destruct (lex_token inside token ltac:(done) Ht) as [-> ->]. done.
  - assert (st = inside) as -> by (destruct st; done). cbn. rewrite lex_from_app. destruct (lex_token inside token ltac:(done) Ht) as [-> _]. done.
  - assert (st = inside) as -> by (destruct st; done). cbn. rewrite lexes_app. destruct (lex_token inside token ltac:(done) Ht) as [-> ->]. done.
Qed.

(** ** Examples *)

Definition ex_template : string :=
  "{% for kv in service.metadata %}{{ kv.key }}{% endfor %}" +:+ String newline "{% if alert.severty == 'high' %}{{ rule.name | upcase }}{% endif %}".
Definition ex_paths : list string := ["alert.severity"; "rule.name"; "service.metadata.<key>"].

Lemma report_is_suspicious_occurrences_witness :
  trim ex_template <> "" /\ ex_paths <> [] /\
  unknownVariables ex_template ex_paths =
  report_of ex_paths <$> firsts [] (List.filter (fun o => suspicious ex_paths (locallyBound ex_template) o.2) (occurrences ex_template)).
Proof.
  assert (H : trim ex_template <> "") by (vm_compute; congruence). assert (H' : ex_paths <> []) by done.
  split; [exact H|]. split; [exact H'|]. exact (report_is_suspicious_occurrences ex_template ex_paths H H').
Defined.

Example ex_report : (fun v => (uv_path v, uv_line v)) <$> unknownVariables ex_template ex_paths = [("alert.severty", 2%Z)].
Proof. by_compute. Qed.

Lemma bound_names_not_reported_witness :
  let template := "{{ x }}" +:+ (tpl ["{% for "; "kv"; " in "] +:+ "rows %}{{ kv.key }}") in
  identifier "kv" = true /\ unknownVariables template ["rows"] <> [] /\
  forall v, v ∈ unknownVariables template ["rows"] -> root_of (uv_path v) <> "kv".
Proof.
  split; [reflexivity|]. split; [vm_compute; congruence|].
  intros v. apply (bound_names_not_reported "{{ x }}" "kv" _ "rows %}{{ kv.key }}" ["rows"] v eq_refl). by left.
Defined.

(** A literal that holds a bar is cut at it, and the rest of it is reported. *)
Example bar_in_literal : (fun v => uv_path v) <$> unknownVariables "{{ 'on|off' }}" ["alert.summary"] = ["on"].
Proof. by_compute. Qed.

Definition ex_body : string := "{" +:+ String newline "  'subject': 'see \'x\' ".
Definition dq (s : string) : string := map_chars (fun a => if Ascii.eqb a "'" then QUOTE else a) s.

Lemma caret_test_is_lexer_witness :
  lexes outside (dq ex_body) = true /\ caretIsInJSONString (line_head (dq ex_body)) = true.
Proof.
  assert (H : lexes outside (dq ex_body) = true) by by_compute. split; [exact H|].
  rewrite (caret_test_is_lexer (dq ex_body) H). by_compute.
Defined.

Lemma insertion_keeps_strings_witness :
  insertVar (dq "{'a': ") "" (dq "}") "service.metadata.<key>" = dq "{'a': '$service.metadata.yourKey'}" /\
  lexes outside (insertVar (dq "{'a': ") "" (dq "}") "service.metadata.<key>") = true.
Proof.
  split; [by_compute|].
  assert (He : lex_from outside (dq "{'a': ") <> escaped) by (vm_compute; congruence).
  destruct (insertion_keeps_strings (dq "{'a': ") (dq "}") "service.metadata.<key>" eq_refl eq_refl He) as (r & _ & _ & _ & H). exact H.
Defined.
