(* ===== verification/Csv.v ===== *)
(** * CSV export

    [lib/messagesCsv.ts]: the printer of the export, the loop that pages
    through the search endpoint, and the file name.  [parse_csv] is a reader of
    RFC 4180 against which the printer is proved. *)

From S2P Require Import Prelude JsString JsUri JsArray Host Types Json.

Local Open Scope char_scope.
Local Open Scope string_scope.
Local Open Scope list_scope.

Definition CR : ascii := "013".
Definition LF : ascii := "010".
Definition CRLF : string := String CR (String LF "").

Definition CSV_EXPORT_CAP : Z := 50000.
Definition EXPORT_PAGE : Z := 1000.

Record TraceSearchResult := {
  tr_trace_id : string;
  tr_trace_start : string;
  tr_duration_ms : num;
  tr_has_error : bool;
  tr_total_spans : Z;
  tr_service_count : Z;
  tr_matched_service : string;
  tr_matched_span_name : string;
  tr_attributes : option (list (string * string));
  tr_matched_span_ids : option (list string);
  tr_exception_type : option string;
  tr_exception_message : option string;
  tr_promoted : option (list (string * string))
}.

(** ** The printer *)

(** [String(value)] of the cells. *)
Inductive cell := CStr (s : string) | CNum (n : num) | CBool (b : bool).
Definition cell_str (c : cell) : string :=
  match c with CStr s => s | CNum n => show_num n | CBool b => if b then "true" else "false" end.

Definition COLUMNS : list (string * (TraceSearchResult -> cell)) := [
  ("trace_id", fun r => CStr (tr_trace_id r));
  ("trace_start", fun r => CStr (tr_trace_start r));
  ("duration_ms", fun r => CNum (tr_duration_ms r));
  ("has_error", fun r => CBool (tr_has_error r));
  ("total_spans", fun r => CNum (Num (tr_total_spans r) 0));
  ("service_count", fun r => CNum (Num (tr_service_count r) 0));
  ("matched_service", fun r => CStr (tr_matched_service r));
  ("matched_span_name", fun r => CStr (tr_matched_span_name r));
  ("exception_type", fun r => CStr (tr_exception_type r ?? ""));
  ("exception_message", fun r => CStr (tr_exception_message r ?? ""));
  ("attributes", fun r => CStr (match tr_attributes r with
     | Some (kv :: kvs) => stringify (jrecord (kv :: kvs)) | _ => "" end))
].

(** A comma, a quote, a return or a line feed occurs. *)
Definition needs_quotes (s : string) : bool :=
  negb (no_char QUOTE s && no_char "," s && no_char CR s && no_char LF s).

Definition escapeCell (s : string) : string :=
  if needs_quotes s
  then String QUOTE (replace_char QUOTE (String QUOTE (String QUOTE "")) s +:+ String QUOTE "")
  else s.

Definition row_cells (r : TraceSearchResult) : list string := (fun c => cell_str (c.2 r)) <$> COLUMNS.

Definition messageRowsToCsv (rows : list TraceSearchResult) : string :=
  let header := join "," (COLUMNS.*1) in
  let lines := (fun r => join "," (escapeCell <$> row_cells r)) <$> rows in
  join CRLF (header :: lines).

(** ** A reader of RFC 4180 *)

Inductive csv_mode := Start | Plain | Quoted | Closed | Return.

(** [None] is a text that is not CSV: a quote inside a plain field, text
    after a closing quote, a return without a line feed, an open quote. *)
Fixpoint csv (s : string) (m : csv_mode) (cell : string) (row : list string) (rows : list (list string))
    : option (list (list string)) :=
  match s with
  | "" =>
      match m with
      | Start | Plain | Closed => Some (rows ++ [row ++ [cell]])
      | Quoted | Return => None
      end
  | String c s =>
      match m with
      | Quoted => if Ascii.eqb c QUOTE then csv s Closed cell row rows
                  else csv s Quoted (cell +:+ String c "") row rows
      | Return => if Ascii.eqb c LF then csv s Start "" [] (rows ++ [row]) else None
      | _ =>
          if Ascii.eqb c "," then csv s Start "" (row ++ [cell]) rows
          else if Ascii.eqb c CR then csv s Return "" (row ++ [cell]) rows
          else if Ascii.eqb c QUOTE then
            match m with
            | Start => csv s Quoted "" row rows
            | Closed => csv s Quoted (cell +:+ String QUOTE "") row rows
            | _ => None
            end
          else if Ascii.eqb c LF then None
          else match m with
               | Closed => None
               | _ => csv s Plain (cell +:+ String c "") row rows
               end
      end
  end.

Definition parse_csv (s : string) : option (list (list string)) := csv s Start "" [] [].

(** ** Paging

    [search cursor] is the answer of the endpoint, [None] when the request
    fails.  Cursors are opaque. *)
Section paging.
Context {cursor : Type}.

Record page := { pg_results : option (list TraceSearchResult); pg_next : option cursor }.
Record export := { ex_rows : list TraceSearchResult; ex_capped : bool }.

(** The body of the loop, [fuel] iterations of it left. *)
Fixpoint fetch_loop (search : option cursor -> option page) (fuel : nat) (rows : list TraceSearchResult)
    (cur : option cursor) : option export :=
  match fuel with
  | O => Some {| ex_rows := rows; ex_capped := false |}
  | S fuel =>
      match search cur with
      | None => None
      | Some res =>
          let rows := rows ++ (pg_results res ?? []) in
          if (CSV_EXPORT_CAP <=? Z.of_nat (length rows))%Z
          then Some {| ex_rows := take (Z.to_nat CSV_EXPORT_CAP) rows; ex_capped := true |}
          else match pg_next res with
               | None => Some {| ex_rows := rows; ex_capped := false |}
               | next => fetch_loop search fuel rows next
               end
      end
  end.

Definition fetchAllMessages (search : option cursor -> option page) : option export :=
  fetch_loop search 1000 [] None.
End paging.
Arguments page : clear implicits.

(** ** The file name *)

(** Runs of other characters than a-z and 0-9 become one dash. *)
Definition slug_char (c : ascii) : bool := is_digit c || is_lower c.
Fixpoint dash_runs (in_run : bool) (s : string) : string :=
  match s with
  | "" => ""
  | String c s' =>
      if slug_char c then String c (dash_runs false s')
      else if in_run then dash_runs true s' else String "-" (dash_runs true s')
  end.
Fixpoint strip_dashes (s : string) : string :=
  match s with String c s' => if Ascii.eqb "-" c then strip_dashes s' else s | "" => "" end.
(** No dash at either end. *)
Definition trim_dashes (s : string) : string := srev (strip_dashes (srev (strip_dashes s))).

Definition slugify `{Host} (s : string) : string := trim_dashes (dash_runs false (toLowerCase s)).

(** A local date, as the getters of [Date] give it. *)
Record LocalDate := { ld_year : Z; ld_month : Z; ld_day : Z; ld_hours : Z; ld_minutes : Z; ld_seconds : Z }.
Definition pad2 (n : Z) : string := pad_zeros 2 (show_Z n).

Definition csvFilename `{Host} (scope : string) (d : LocalDate) : string :=
  let slug := or_str (Some (slugify scope)) "all" in
  let stamp := tpl [show_Z (ld_year d); pad2 (ld_month d + 1); pad2 (ld_day d); "-";
                    pad2 (ld_hours d); pad2 (ld_minutes d); pad2 (ld_seconds d)] in
  tpl ["messages-"; slug; "-"; stamp; ".csv"].

(** ** Printing and reading *)

Definition chars_plain (s : string) : bool := negb (needs_quotes s).

Lemma csv_plain s t m cell row rows :
  (m = Start \/ m = Plain) -> s <> "" -> chars_plain s = true ->
  csv (s +:+ t) m cell row rows = csv t Plain (cell +:+ s) row rows.
Proof.
  revert m cell. induction s as [|c s IH]; intros m cell Hm Hne Hp; [done|].
  unfold chars_plain, needs_quotes in Hp. rewrite negb_involutive in Hp. cbn [no_char] in Hp. bool_prop.
  cbn [csv String.append]. rewrite (proj2 (Ascii.eqb_neq c ",")), (proj2 (Ascii.eqb_neq c CR)),
    (proj2 (Ascii.eqb_neq c QUOTE)), (proj2 (Ascii.eqb_neq c LF)) by congruence.
  assert (Hs : csv (s +:+ t) Plain (cell +:+ String c "") row rows = csv t Plain (cell +:+ String c s) row rows).
  { destruct (decide (s = "")) as [->|Hs]; [done|].
    rewrite IH; [|by right|done|].
    - by rewrite <- sapp_assoc.
    - unfold chars_plain, needs_quotes. rewrite negb_involutive. by repeat (apply andb_true_iff; split). }
  destruct Hm as [-> | ->]; exact Hs.
Qed.

Lemma csv_quoted s t cell row rows :
  csv (replace_char QUOTE (String QUOTE (String QUOTE "")) s +:+ String QUOTE t) Quoted cell row rows
  = csv t Closed (cell +:+ s) row rows.
Proof.
  revert cell. induction s as [|c s IH]; intros cell; [by rewrite sapp_nil_r|].
  cbn [replace_char]. destruct (Ascii.eqb QUOTE c) eqn:E.
  - bool_prop. subst c.
    change (csv (replace_char QUOTE (String QUOTE (String QUOTE "")) s +:+ String QUOTE t) Quoted
      (cell +:+ String QUOTE "") row rows = csv t Closed (cell +:+ String QUOTE s) row rows).
    rewrite IH. by rewrite <- sapp_assoc.
  - cbn [String.append csv]. rewrite Ascii.eqb_sym, E. rewrite IH. by rewrite <- sapp_assoc.
Qed.

(** A printed cell reads back as its text, up to what ends it. *)
Lemma csv_cell s row rows :
  csv (escapeCell s) Start "" row rows = Some (rows ++ [row ++ [s]]) /\
  (forall t, csv (escapeCell s +:+ String "," t) Start "" row rows = csv t Start "" (row ++ [s]) rows) /\
  (forall t, csv (escapeCell s +:+ String CR (String LF t)) Start "" row rows = csv t Start "" [] (rows ++ [row ++ [s]])).
Proof.
  unfold escapeCell. destruct (needs_quotes s) eqn:E.
  - assert (Hq : forall t, csv (String QUOTE (replace_char QUOTE (String QUOTE (String QUOTE "")) s +:+ String QUOTE t))
        Start "" row rows = csv t Closed s row rows).
    { intros t. transitivity (csv (replace_char QUOTE (String QUOTE (String QUOTE "")) s +:+ String QUOTE t) Quoted "" row rows);
        [done|]. by rewrite csv_quoted. }
    split; [|split].
    + rewrite Hq. done.
    + intros t. cbn [String.append]. rewrite <- sapp_assoc. cbn [String.append]. rewrite Hq. done.
    + intros t. cbn [String.append]. rewrite <- sapp_assoc. cbn [String.append]. rewrite Hq. done.
  - assert (Hp : chars_plain s = true) by (unfold chars_plain; by rewrite E).
    destruct (decide (s = "")) as [->|Hne]; [done|].
    split; [|split].
    + rewrite <- (sapp_nil_r s) at 1. rewrite csv_plain by auto. done.
    + intros t. rewrite csv_plain by auto. done.
    + intros t. rewrite csv_plain by auto. done.
Qed.

Lemma csv_row cells row rows t :
  cells <> [] ->
  csv (join "," (escapeCell <$> cells)) Start "" row rows = Some (rows ++ [row ++ cells]) /\
  csv (join "," (escapeCell <$> cells) +:+ String CR (String LF t)) Start "" row rows
  = csv t Start "" [] (rows ++ [row ++ cells]).
Proof.
  revert row. induction cells as [|c cells IH]; intros row Hne; [done|].
  destruct (csv_cell c row rows) as (H1 & H2 & H3). destruct cells as [|c' cells].
  - cbn. by rewrite H1, H3.
  - change (join "," (escapeCell <$> c :: c' :: cells))
      with (escapeCell c +:+ String "," (join "," (escapeCell <$> c' :: cells))).
    rewrite <- sapp_assoc. cbn [String.append]. rewrite !H2.
    replace (row ++ c :: c' :: cells) with ((row ++ [c]) ++ c' :: cells) by by rewrite <- app_assoc.
    by apply IH.
Qed.

Lemma csv_lines lines rows :
  lines <> [] -> Forall (fun cells => cells <> []) lines ->
  csv (join CRLF ((fun cells => join "," (escapeCell <$> cells)) <$> lines)) Start "" [] rows = Some (rows ++ lines).
Proof.
  revert rows. induction lines as [|l lines IH]; intros rows Hne H; [done|].
  apply Forall_cons in H as [Hl H]. destruct lines as [|l' lines].
  - cbn. by destruct (csv_row l [] rows "" Hl) as [-> _].
  - change (join CRLF ((fun cells => join "," (escapeCell <$> cells)) <$> l :: l' :: lines))
      with (join "," (escapeCell <$> l) +:+ String CR (String LF
              (join CRLF ((fun cells => join "," (escapeCell <$> cells)) <$> l' :: lines)))).
    rewrite (proj2 (csv_row l [] rows _ Hl)). rewrite IH by done. by rewrite <- app_assoc.
Qed.

(** C25. An exported file says what the table holds: read by the rules of RFC
    4180 it is the header and then one record per message, each cell the text
    of its column, whatever commas, quotes and line breaks the text holds. *)
Theorem csv_round_trip rows :
  parse_csv (messageRowsToCsv rows) = Some ((COLUMNS.*1) :: (row_cells <$> rows)).
Proof.
  unfold parse_csv, messageRowsToCsv.
  assert (E : (fun r => join "," (escapeCell <$> row_cells r)) <$> rows
    = (fun cells => join "," (escapeCell <$> cells)) <$> (row_cells <$> rows))
    by by rewrite <- list_fmap_compose.
  assert (Eh : join "," (COLUMNS.*1) = join "," (escapeCell <$> COLUMNS.*1)) by by_compute.
  cbn zeta. rewrite E, Eh. apply (csv_lines ((COLUMNS.*1) :: (row_cells <$> rows)) []); [done|].
  constructor; [done|]. apply Forall_fmap, Forall_true. done.
Qed.

(** ** Paging: what is fetched *)

Section paging_lemmas.
Context {cursor : Type}.
Implicit Types (search : option cursor -> option (page cursor)).

(** The pages the endpoint gives from a cursor on, at most [n] of them. *)
Fixpoint pages_from search (n : nat) (cur : option cursor) : list TraceSearchResult :=
  match n with
  | O => []
  | S n => match search cur with
           | None => []
           | Some p => (pg_results p ?? [])
               ++ match pg_next p with None => [] | next => pages_from search n next end
           end
  end.

Lemma fetch_loop_rows search fuel rows cur res :
  fetch_loop search fuel rows cur = Some res -> (Z.of_nat (length rows) < CSV_EXPORT_CAP)%Z ->
  ex_rows res = take (Z.to_nat CSV_EXPORT_CAP) (rows ++ pages_from search fuel cur) /\
  ex_capped res = (CSV_EXPORT_CAP <=? Z.of_nat (length (rows ++ pages_from search fuel cur)))%Z.
Proof.
  revert rows cur. induction fuel as [|fuel IH]; intros rows cur; cbn [fetch_loop pages_from].
  { intros [= <-] Hlt. rewrite app_nil_r. cbn. rewrite take_ge by lia.
    split; [done|]. symmetry. apply Z.leb_gt. done. }
  destruct (search cur) as [p|]; [|done].
  set (rows' := rows ++ (pg_results p ?? [])).
  destruct (Z.leb_spec CSV_EXPORT_CAP (Z.of_nat (length rows'))) as [Hle|Hgt].
  - intros [= <-] Hlt. cbn. rewrite app_assoc. fold rows'. split.
    + rewrite take_app_le by lia. done.
    + symmetry. apply Z.leb_le. rewrite length_app. lia.
  - destruct (pg_next p) as [c|].
    + intros H _. rewrite app_assoc. fold rows'. by apply IH.
    + intros [= <-] _. cbn. rewrite app_nil_r. fold rows'. rewrite take_ge by lia.
      split; [done|]. symmetry. apply Z.leb_gt. done.
Qed.
End paging_lemmas.

(** An export holds the first rows of the result set, in the endpoint's
    order and never more than the cap, and it says it was cut exactly when the
    first thousand pages hold at least the cap. *)
Theorem export_is_prefix {cursor} (search : option cursor -> option (page cursor)) res :
  fetchAllMessages search = Some res ->
  ex_rows res = take (Z.to_nat CSV_EXPORT_CAP) (pages_from search 1000 None) /\
  ex_capped res = (CSV_EXPORT_CAP <=? Z.of_nat (length (pages_from search 1000 None)))%Z /\
  (Z.of_nat (length (ex_rows res)) <= CSV_EXPORT_CAP)%Z.
Proof.
  intros H. apply fetch_loop_rows in H as [H1 H2]; [|done]. cbn [app] in *.
  split; [exact H1|]. split; [exact H2|]. rewrite H1, length_take.
  assert (0 <= CSV_EXPORT_CAP)%Z by done. lia.
Qed.

Definition ex_result (id : string) : TraceSearchResult := {|
  tr_trace_id := id; tr_trace_start := "t"; tr_duration_ms := Num 15 1; tr_has_error := false;
  tr_total_spans := 1; tr_service_count := 1; tr_matched_service := "a,b"; tr_matched_span_name := "x";
  tr_attributes := Some [("k", "v")]; tr_matched_span_ids := None; tr_exception_type := None;
  tr_exception_message := None; tr_promoted := None |}.

(** Two pages, the second without a cursor. *)
Definition ex_search (c : option nat) : option (page nat) :=
  match c with
  | None => Some {| pg_results := Some [ex_result "1"]; pg_next := Some 1%nat |}
  | Some _ => Some {| pg_results := Some [ex_result "2"]; pg_next := None |}
  end.

Lemma export_is_prefix_witness :
  exists res, fetchAllMessages ex_search = Some res /\
    ex_rows res = take (Z.to_nat CSV_EXPORT_CAP) (pages_from ex_search 1000 None).
Proof.
  exists {| ex_rows := [ex_result "1"; ex_result "2"]; ex_capped := false |}.
  assert (H : fetchAllMessages ex_search = Some {| ex_rows := [ex_result "1"; ex_result "2"]; ex_capped := false |})
    by (vm_compute; reflexivity).
  split; [exact H|]. exact (proj1 (export_is_prefix ex_search _ H)).
Defined.

(** The page bound of the export is not reported: an endpoint that keeps
    handing out pages of one row is cut off after a thousand pages, and the
    result says it was not truncated. *)
Theorem page_bound_is_silent (r : TraceSearchResult) :
  fetchAllMessages (fun _ : option unit => Some {| pg_results := Some [r]; pg_next := Some tt |})
  = Some {| ex_rows := replicate 1000 r; ex_capped := false |}.
Proof.
  set (search := fun _ : option unit => _).
  assert (H : forall fuel n cur, (n + fuel <= 2000)%nat ->
    fetch_loop search fuel (replicate n r) cur = Some {| ex_rows := replicate (n + fuel) r; ex_capped := false |}).
  { induction fuel as [|fuel IH]; intros n cur Hn; cbn [fetch_loop]; [by rewrite Nat.add_0_r|].
    unfold search at 1. cbn [pg_results pg_next default].
    assert (Er : replicate n r ++ [r] = replicate (S n) r) by by rewrite replicate_S_end.
    change (id [r]) with [r]. rewrite Er, length_replicate.
    destruct (Z.leb_spec CSV_EXPORT_CAP (Z.of_nat (S n))); [unfold CSV_EXPORT_CAP in *; lia|].
    rewrite IH by lia. by rewrite Nat.add_succ_r. }
  exact (H 1000%nat 0%nat None ltac:(lia)).
Qed.

(** ** File names *)

Definition slug_or_dash (c : ascii) : bool := slug_char c || Ascii.eqb "-" c.

Lemma strip_dashes_chars s : all_chars slug_or_dash s = true -> all_chars slug_or_dash (strip_dashes s) = true.
Proof.
  induction s as [|c s IH]; [done|]. cbn [strip_dashes all_chars]. intros [Hc Hs]%andb_true_iff.
  destruct (Ascii.eqb "-" c); [by apply IH|]. cbn [all_chars]. by rewrite Hc, Hs.
Qed.

Lemma dash_runs_chars b s : all_chars slug_or_dash (dash_runs b s) = true.
Proof.
  revert b. induction s as [|c s IH]; intros b; [done|]. cbn [dash_runs].
  destruct (slug_char c) eqn:E; [|destruct b].
  - cbn [all_chars]. unfold slug_or_dash at 1. by rewrite E, IH.
  - apply IH.
  - cbn [all_chars]. by rewrite IH.
Qed.

Lemma slug_chars s : all_chars slug_or_dash (trim_dashes (dash_runs false s)) = true.
Proof.
  unfold trim_dashes. rewrite all_chars_srev. apply strip_dashes_chars.
  rewrite all_chars_srev. apply strip_dashes_chars, dash_runs_chars.
Qed.

Lemma strip_dashes_head s : startsWith (strip_dashes s) "-" = false.
Proof.
  induction s as [|c s IH]; [done|]. cbn [strip_dashes]. destruct (Ascii.eqb "-" c) eqn:E; [done|].
  unfold startsWith. cbn [String.prefix]. destruct (Ascii.ascii_dec "-" c) as [<-|]; [by rewrite Ascii.eqb_refl in E|done].
Qed.

(** No dash at either end. *)
Lemma trim_dashes_ends s : startsWith (trim_dashes s) "-" = false /\ startsWith (srev (trim_dashes s)) "-" = false.
Proof.
  unfold trim_dashes. rewrite srev_involutive.
  split; [|apply strip_dashes_head].
  set (t := strip_dashes s).
  assert (Ht : startsWith t "-" = false) by apply strip_dashes_head. clearbody t.
  (* dropping dashes at the end leaves a prefix of [t] *)
  assert (Hp : forall u, exists v, srev u = srev (strip_dashes u) +:+ v).
  { induction u as [|c u [v Hv]]; [by exists ""|]. cbn [strip_dashes].
    destruct (Ascii.eqb "-" c); [|exists ""; by rewrite sapp_nil_r].
    exists (v +:+ String c ""). cbn [srev]. by rewrite Hv, sapp_assoc. }
  destruct (Hp (srev t)) as [v Hv]. rewrite srev_involutive in Hv.
  destruct (startsWith (srev (strip_dashes (srev t))) "-") eqn:E; [|done].
  apply startsWith_spec in E as [w Hw]. rewrite Hw in Hv. rewrite Hv in Ht.
  rewrite <- sapp_assoc in Ht. by rewrite startsWith_app in Ht.
Qed.

(** A slug fits the input it seeds: only a to z, digits and dashes, and no
    dash at the end or (so a slug of a slug is not shorter) at the start. *)
Theorem slugify_fits_input `{Host} s :
  all_chars slug_or_dash (slugify s) = true /\
  startsWith (slugify s) "-" = false /\ startsWith (srev (slugify s)) "-" = false.
Proof. split; [apply slug_chars|apply trim_dashes_ends]. Qed.

Definition name_char (c : ascii) : bool := slug_or_dash c || Ascii.eqb "." c.

Lemma pad2_chars n : all_chars slug_or_dash (pad2 n) = true.
Proof.
  unfold pad2, pad_zeros. rewrite all_chars_app. apply andb_true_iff. split.
  - induction (2 - String.length (show_Z n))%nat as [|k IH]; [done|]. cbn [zeros all_chars]. by rewrite IH.
  - eapply all_chars_impl; [|apply show_Z_chars]. intros c Hc. unfold slug_or_dash, slug_char.
    apply orb_true_iff in Hc as [->|Hc]; [done|]. rewrite Hc. by rewrite orb_true_r.
Qed.

(** The name of an exported file is safe on any file system: lower-case
    letters, digits, dashes and dots, whatever the scope and the date. *)
Theorem csvFilename_safe `{Host} scope d : all_chars name_char (csvFilename scope d) = true.
Proof.
  assert (Hw : forall s, all_chars slug_or_dash s = true -> all_chars name_char s = true).
  { intros s. apply all_chars_impl. intros c Hc. unfold name_char. by rewrite Hc. }
  unfold csvFilename. cbn zeta. cbn [tpl]. rewrite !all_chars_app.
  rewrite !(Hw (pad2 _)) by apply pad2_chars.
  rewrite (Hw (or_str _ _)).
  - rewrite (Hw (show_Z _)); [done|]. eapply all_chars_impl; [|apply show_Z_chars].
    intros c Hc. unfold slug_or_dash, slug_char.
    apply orb_true_iff in Hc as [->|Hc]; [done|]. rewrite Hc. by rewrite orb_true_r.
  - unfold or_str. case_if; [apply slug_chars|done].
Qed.
