(* ===== verification/Feed.v ===== *)
(** * The message table as an event machine

    [pages/Search.tsx], [pages/IntegrationMessages.tsx] and
    [components/ServiceMessagesTab.tsx] keep the same table: a change of the
    query starts a timer of 350 ms (a later change restarts it), the timer sends
    a search whose answer replaces the rows, scrolling sends the next page, whose
    rows are appended.  Only the timer is ever cancelled: a request that was sent
    is answered in its own time, so a run is a list of events in any order.

    The integration's page has two things more: it reads the open firings of its
    completion rules ([reloadFirings]), and, when it shows delayed traces only,
    an effect loads pages by itself. *)

From S2P Require Import Prelude JsString JsArray Types MessageFilters Csv.

Local Open Scope string_scope.
Local Open Scope list_scope.

(** ** Firings *)

Inductive severity := sev_info | sev_warning | sev_critical.
#[export] Instance severity_eq_dec : EqDecision severity.
Proof. solve_decision. Defined.
Inductive firing_state := fs_firing | fs_resolved | fs_pending.
#[export] Instance firing_state_eq_dec : EqDecision firing_state.
Proof. solve_decision. Defined.

Record TraceCompletionFiring := {
  tf_instance_id : string;
  tf_trace_id : string;
  tf_severity : severity;
  tf_state : firing_state;
  tf_handled_at : option string
}.

Definition sevRank (s : severity) : Z :=
  match s with sev_critical => 3 | sev_warning => 2 | sev_info => 1 end.

(** The three views of the firings: [delayedSeverity], [delayedInstances],
    [deliveredWithDelay]. *)
Record Delays := {
  d_active : gmap string severity;
  d_instances : gmap string (list string);
  d_resolved : gset string
}.
Definition no_delays : Delays := {| d_active := ∅; d_instances := ∅; d_resolved := ∅ |}.

Definition higher (prev : option severity) (s : severity) : bool :=
  match prev with None => true | Some p => (sevRank p <? sevRank s)%Z end.

Definition firing_step (d : Delays) (f : TraceCompletionFiring) : Delays :=
  if truthy_opt (tf_handled_at f) then d
  else match tf_state f with
  | fs_firing => {|
      d_active := if higher (d_active d !! tf_trace_id f) (tf_severity f)
                  then <[tf_trace_id f := tf_severity f]> (d_active d) else d_active d;
      d_instances := <[tf_trace_id f := (d_instances d !! tf_trace_id f ?? []) ++ [tf_instance_id f]]> (d_instances d);
      d_resolved := d_resolved d |}
  | fs_resolved => {|
      d_active := d_active d; d_instances := d_instances d; d_resolved := {[tf_trace_id f]} ∪ d_resolved d |}
  | fs_pending => d
  end.

Definition reloadFirings (firings : list TraceCompletionFiring) : Delays := foldl firing_step no_delays firings.

(** The requests of [markTraceHandled]: the instances it marks. *)
Definition markTraceHandled (d : Delays) (traceId : string) : list string := d_instances d !! traceId ?? [].

(** ** The machine *)

Inductive surface := MessagesPage | IntegrationTab | ServiceTab.

(** What the search depends on: the range, the locked row (once it is known),
    the rows of the user, the view whose columns are asked for. *)
Record query := {
  q_range : string; q_locked : option Filter; q_user : list Filter; q_view : option string
}.

Definition composedFilters (q : query) : list Filter :=
  match q_locked q with Some l => l :: q_user q | None => q_user q end.

Definition PAGE : Z := 100.

Section feed.
Context {C : Type}.

Record MessageSearchRequest := {
  sr_range : string; sr_filters : list MessageFilter; sr_limit : Z; sr_cursor : option C; sr_viewId : option string
}.
Record SearchResponse := { an_page : page C; an_columns : option (list MessageColumn) }.

Definition request_of (s : surface) (q : query) (cursor : option C) : MessageSearchRequest := {|
  sr_range := q_range q;
  sr_filters := match s with
                | MessagesPage => filtersToWire (composedFilters q)
                | _ => filtersToWire_scoped (composedFilters q)
                end;
  sr_limit := PAGE;
  sr_cursor := cursor;
  sr_viewId := match s with IntegrationTab => q_view q | _ => None end
|}.

Inductive purpose := Run | More.
Record flight := { fl_id : nat; fl_purpose : purpose; fl_request : MessageSearchRequest }.

Record Table := {
  results : list TraceSearchResult; nextCursor : option C; hasMore : bool; hasResults : bool;
  messageColumns : list MessageColumn
}.
Record Busy := { loading : bool; loadingMore : bool; loadingRef : bool; error : option string }.
Record Feed := {
  query_ : query; timer : bool; table : Table; busy : Busy;
  flights : list flight; sent : nat;
  delayedOnly : bool; delays : Delays
}.

Definition is_some {A} (o : option A) : bool := match o with Some _ => true | None => false end.

Definition opened (q : query) (delayed : bool) : Feed := {|
  query_ := q; timer := true;
  table := {| results := []; nextCursor := None; hasMore := false; hasResults := false; messageColumns := [] |};
  busy := {| loading := false; loadingMore := false; loadingRef := false; error := None |};
  flights := []; sent := 0; delayedOnly := delayed; delays := no_delays
|}.

Definition set_busy (b : Busy) (st : Feed) : Feed := {|
  query_ := query_ st; timer := timer st; table := table st; busy := b; flights := flights st;
  sent := sent st; delayedOnly := delayedOnly st; delays := delays st |}.
Definition set_table (t : Table) (st : Feed) : Feed := {|
  query_ := query_ st; timer := timer st; table := t; busy := busy st; flights := flights st;
  sent := sent st; delayedOnly := delayedOnly st; delays := delays st |}.
Definition set_timer (q : query) (b : bool) (st : Feed) : Feed := {|
  query_ := q; timer := b; table := table st; busy := busy st; flights := flights st;
  sent := sent st; delayedOnly := delayedOnly st; delays := delays st |}.
Definition set_delays (only : bool) (d : Delays) (st : Feed) : Feed := {|
  query_ := query_ st; timer := timer st; table := table st; busy := busy st; flights := flights st;
  sent := sent st; delayedOnly := only; delays := d |}.
Definition set_flights (fs : list flight) (st : Feed) : Feed := {|
  query_ := query_ st; timer := timer st; table := table st; busy := busy st; flights := fs;
  sent := sent st; delayedOnly := delayedOnly st; delays := delays st |}.

Definition send (p : purpose) (r : MessageSearchRequest) (st : Feed) : Feed := {|
  query_ := query_ st; timer := timer st; table := table st; busy := busy st;
  flights := flights st ++ [{| fl_id := sent st; fl_purpose := p; fl_request := r |}];
  sent := S (sent st); delayedOnly := delayedOnly st; delays := delays st |}.

(** [if (!lockedFilter) return], on the integration's page only. *)
Definition ready (s : surface) (q : query) : bool :=
  match s with IntegrationTab => is_some (q_locked q) | _ => true end.

Definition run (s : surface) (st : Feed) : Feed :=
  if ready s (query_ st)
  then let b := busy st in
       send Run (request_of s (query_ st) None)
         (set_busy {| loading := true; loadingMore := loadingMore b; loadingRef := loadingRef b; error := None |} st)
  else st.

Definition loadMore (s : surface) (st : Feed) : Feed :=
  let b := busy st in
  match nextCursor (table st) with
  | Some c =>
      if loadingRef b then st
      else send More (request_of s (query_ st) (Some c))
             (set_busy {| loading := loading b; loadingMore := true; loadingRef := true; error := error b |} st)
  | None => st
  end.

(** [then], or [catch], and [finally]. *)
Definition run_then (s : surface) (a : SearchResponse) (st : Feed) : Feed :=
  set_table {|
    results := pg_results (an_page a) ?? []; nextCursor := pg_next (an_page a);
    hasMore := is_some (pg_next (an_page a)); hasResults := true;
    messageColumns := match s with IntegrationTab => an_columns a ?? [] | _ => messageColumns (table st) end |} st.
Definition more_then (a : SearchResponse) (st : Feed) : Feed :=
  let t := table st in
  set_table {|
    results := results t ++ (pg_results (an_page a) ?? []); nextCursor := pg_next (an_page a);
    hasMore := is_some (pg_next (an_page a)); hasResults := hasResults t; messageColumns := messageColumns t |} st.
Definition failed (m : string) (st : Feed) : Feed :=
  let b := busy st in
  set_busy {| loading := loading b; loadingMore := loadingMore b; loadingRef := loadingRef b; error := Some m |} st.
Definition finally (p : purpose) (st : Feed) : Feed :=
  let b := busy st in
  set_busy match p with
           | Run => {| loading := false; loadingMore := loadingMore b; loadingRef := loadingRef b; error := error b |}
           | More => {| loading := loading b; loadingMore := false; loadingRef := false; error := error b |}
           end st.

Definition settle (s : surface) (f : flight) (r : string + SearchResponse) (st : Feed) : Feed :=
  finally (fl_purpose f)
    match r with
    | inl m => failed m st
    | inr a => match fl_purpose f with Run => run_then s a st | More => more_then a st end
    end.

Definition has_id (i : nat) (f : flight) : bool := Nat.eqb (fl_id f) i.

Inductive Event :=
| Change (q : query)
| Timer
| Refresh (* the button of the Messages page *)
| Scroll
| Answer (i : nat) (r : string + SearchResponse)
| Firings (l : list TraceCompletionFiring) (* the poll of the integration's tab *)
| ClearDelayed.

Definition exec (s : surface) (e : Event) (st : Feed) : Feed :=
  match e with
  | Change q => set_timer q true st
  | Timer => if timer st then run s (set_timer (query_ st) false st) else st
  | Refresh => match s with MessagesPage => if loading (busy st) then st else run s st | _ => st end
  | Scroll => loadMore s st
  | Answer i r =>
      match List.find (has_id i) (flights st) with
      | Some f => settle s f r (set_flights (List.filter (fun f => negb (has_id i f)) (flights st)) st)
      | None => st
      end
  | Firings l => set_delays (delayedOnly st) (reloadFirings l) st
  | ClearDelayed => set_delays false (delays st) st
  end.

(** [visibleResults]: in delayed-only mode the rows with an open firing. *)
Definition has_delay (d : Delays) (r : TraceSearchResult) : bool := is_some (d_active d !! tr_trace_id r).
Definition visibleResults (st : Feed) : list TraceSearchResult :=
  if delayedOnly st then List.filter (has_delay (delays st)) (results (table st)) else results (table st).

(** The effect that loads pages while delayed traces are missing; it looks
    again whenever one of the values it reads has changed. *)
Definition wants_more (st : Feed) : bool :=
  delayedOnly st && hasMore (table st) && negb (loadingMore (busy st))
  && (length (visibleResults st) <? size (d_active (delays st)))%nat.
Definition auto_load (s : surface) (st : Feed) : Feed :=
  match s with IntegrationTab => if wants_more st then loadMore s st else st | _ => st end.

Definition step (s : surface) (st : Feed) (e : Event) : Feed := auto_load s (exec s e st).

(** The states a page passes through. *)
Definition runs (s : surface) (st : Feed) (es : list Event) : Feed := foldl (step s) st es.
Inductive reachable (s : surface) : Feed -> Prop :=
| reach_opened q d : reachable s (opened q d)
| reach_step st e : reachable s st -> reachable s (step s st e).

Definition loadedLabel (st : Feed) : string :=
  let n := length (visibleResults st) in
  tpl [show_Z (Z.of_nat n); if hasMore (table st) then "+" else ""; " result"; if (n =? 1)%nat then "" else "s"].
End feed.
Arguments MessageSearchRequest : clear implicits.
Arguments SearchResponse : clear implicits.
Arguments Feed : clear implicits.
Arguments Event : clear implicits.
Arguments flight : clear implicits.

(** ** Whatever the order of events *)

Section invariant.
Context {C : Type}.
Implicit Types st : Feed C.

Definition is_more (f : flight C) : bool := match fl_purpose f with More => true | Run => false end.
Definition mores (fs : list (flight C)) : nat := length (List.filter is_more fs).

Record consistent st : Prop := {
  co_hasMore : hasMore (table st) = is_some (nextCursor (table st));
  co_ref : loadingRef (busy st) = loadingMore (busy st);
  co_mores : mores (flights st) = if loadingMore (busy st) then 1 else 0;
  co_fresh : Forall (fun f => fl_id f < sent st) (flights st);
  co_ids : NoDup (fl_id <$> flights st)
}.

Lemma mores_app fs gs : mores (fs ++ gs) = mores fs + mores gs.
Proof. unfold mores. rewrite List.filter_app, length_app. done. Qed.

Lemma fresh_send fs n p (r : MessageSearchRequest C) :
  Forall (fun f => fl_id f < n) fs -> NoDup (fl_id <$> fs) ->
  Forall (fun f => fl_id f < S n) (fs ++ [{| fl_id := n; fl_purpose := p; fl_request := r |}]) /\
  NoDup (fl_id <$> fs ++ [{| fl_id := n; fl_purpose := p; fl_request := r |}]).
Proof. exact (fresh_snoc fl_id fs {| fl_id := n; fl_purpose := p; fl_request := r |}). Qed.

Lemma feed_run_consistent s st : consistent st -> consistent (run s st).
Proof.
  intros Hst. pose proof Hst as [H1 H2 H3 H4 H5]. unfold run. destruct (ready _ _); [|done].
  destruct (fresh_send (flights st) (sent st) Run (request_of s (query_ st) None) H4 H5).
  split; cbn -[mores]; auto. rewrite mores_app, H3. cbn. destruct (loadingMore _); done.
Qed.

Lemma loadMore_consistent s st : consistent st -> consistent (loadMore s st).
Proof.
  intros Hst. pose proof Hst as [H1 H2 H3 H4 H5]. unfold loadMore. destruct (nextCursor _) as [c|] eqn:Hc; [|done].
  destruct (loadingRef _) eqn:Hr; [done|].
  destruct (fresh_send (flights st) (sent st) More (request_of s (query_ st) (Some c)) H4 H5).
  split; cbn -[mores]; auto. { by rewrite H1, Hc. }
  rewrite mores_app, H3, <- H2. cbn. done.
Qed.

Lemma find_flight i (fs : list (flight C)) f : List.find (has_id i) fs = Some f -> f ∈ fs /\ fl_id f = i.
Proof.
  intros H. apply List.find_some in H as [H E]. apply Nat.eqb_eq in E. split; [|done]. by apply list_elem_of_In.
Qed.

(** An answered request leaves the list: it was there once. *)
Lemma mores_answered i fs f :
  NoDup (fl_id <$> fs) -> List.find (has_id i) fs = Some f ->
  mores fs = mores (List.filter (fun f => negb (has_id i f)) fs) + (if is_more f then 1 else 0).
Proof. apply (removed_id_count fl_id is_more). Qed.

Lemma settle_consistent s i r st f :
  consistent st -> List.find (has_id i) (flights st) = Some f ->
  consistent (settle s f r (set_flights (List.filter (fun f => negb (has_id i f)) (flights st)) st)).
Proof.
  intros [H1 H2 H3 H4 H5] HF. pose proof (mores_answered i _ f H5 HF) as HM. rewrite H3 in HM.
  assert (HI : Forall (fun f => fl_id f < sent st) (List.filter (fun f => negb (has_id i f)) (flights st))).
  { apply List.incl_Forall with (flights st); [apply List.incl_filter|done]. }
  assert (HN : NoDup (fl_id <$> List.filter (fun f => negb (has_id i f)) (flights st))).
  { clear -H5. induction (flights st) as [|g fs IH]; [constructor|]. cbn in *. apply NoDup_cons in H5 as [Hn HN].
    destruct (negb _); cbn; [|auto]. apply NoDup_cons. split; [|auto]. contradict Hn.
    apply list_elem_of_fmap in Hn as (h & -> & Hin). apply list_elem_of_fmap. exists h. split; [done|].
    apply list_elem_of_In in Hin. apply List.filter_In in Hin as [Hin _]. by apply list_elem_of_In. }
  unfold settle, is_more in *.
  destruct (fl_purpose f) eqn:Hp, r as [m|a]; split; cbn -[mores]; auto;
    destruct (loadingMore (busy st)); cbn -[mores] in *; lia.
Qed.

Lemma feed_exec_consistent s e st : consistent st -> consistent (exec s e st).
Proof.
  intros H. destruct e as [q| | | |i r|l|]; cbn [exec].
  - by destruct H; split.
  - destruct (timer st); [|done]. apply feed_run_consistent. by destruct H; split.
  - destruct s; try done. destruct (loading _); [done|]. by apply feed_run_consistent.
  - by apply loadMore_consistent.
  - destruct (List.find _ _) as [f|] eqn:HF; [|done]. by apply settle_consistent.
  - by destruct H; split.
  - by destruct H; split.
Qed.

Lemma step_consistent s e st : consistent st -> consistent (step s st e).
Proof.
  intros H. apply (feed_exec_consistent s e) in H. unfold step, auto_load.
  destruct s; try done. destruct (wants_more _); [|done]. by apply loadMore_consistent.
Qed.

Lemma loadMore_settles s st : consistent st -> wants_more (loadMore s st) = false.
Proof.
  intros [H1 H2 _ _ _]. unfold wants_more, loadMore. destruct (nextCursor _) as [c|] eqn:Hc.
  - destruct (loadingRef _) eqn:Hr; cbn; rewrite ?Hr, ?andb_false_r; [|done]. rewrite <- H2, andb_false_r. done.
  - rewrite H1. cbn. by rewrite andb_false_r.
Qed.

Lemma reachable_consistent s st : reachable s st -> consistent st.
Proof.
  induction 1 as [q d|st e _ IH]; [|by apply step_consistent]. split; cbn; try done; constructor.
Qed.

(** The effect of the delayed mode has nothing left to do. *)
Definition settled s st : Prop := s = IntegrationTab -> wants_more st = false.

Lemma reachable_settled s st : reachable s st -> settled s st.
Proof.
  intros Hr ->. destruct Hr as [q d|st e Hr].
  - unfold wants_more. cbn. rewrite andb_false_r. done.
  - unfold step, auto_load. case_match eqn:HW; [|done]. apply loadMore_settles.
    apply feed_exec_consistent. by apply reachable_consistent with IntegrationTab.
Qed.

(** In every state a page reaches, in any order of events: the table says
    there is more exactly when it holds a cursor, at most one further page is
    being loaded and the flags say when, and the effect of the delayed mode is
    at rest. *)
Theorem table_flags_agree s st :
  reachable s st ->
  hasMore (table st) = is_some (nextCursor (table st)) /\
  loadingRef (busy st) = loadingMore (busy st) /\
  mores (flights st) = (if loadingMore (busy st) then 1 else 0) /\
  settled s st.
Proof.
  intros Hr. destruct (reachable_consistent s st Hr). repeat split; try done. by apply reachable_settled.
Qed.
End invariant.

(** ** Requests that do not overlap *)

Section patient.
Context {C : Type} (s : surface) (search : MessageSearchRequest C -> SearchResponse C).
Implicit Types st : Feed C.

(** The pages of a query, as the endpoint gives them. *)
Definition endpoint (q : query) (c : option C) : option (page C) := Some (an_page (search (request_of s q c))).

(** Rows and cursor after a number of pages of a query. *)
Inductive shown (q : query) : list TraceSearchResult -> option C -> Prop :=
| shown_first p : endpoint q None = Some p -> shown q (pg_results p ?? []) (pg_next p)
| shown_more rs c p :
    shown q rs (Some c) -> endpoint q (Some c) = Some p -> shown q (rs ++ (pg_results p ?? [])) (pg_next p).

Definition only_more (fs : list (flight C)) : Prop := Forall (fun f => fl_purpose f = More) fs.

(** An event that comes when nothing is pending that it could overtake: the
    query changes when every request is answered, a page is asked for when no
    search is due or under way, and the server answers by [search] or fails. *)
Definition in_turn st (e : Event C) : Prop :=
  match e with
  | Change _ => flights st = []
  | Refresh => timer st = false /\ flights st = []
  | Scroll | Firings _ => timer st = false /\ only_more (flights st)
  | Answer i (inr a) => forall f, List.find (has_id i) (flights st) = Some f -> a = search (fl_request f)
  | _ => True
  end.
Inductive patient : Feed C -> Prop :=
| patient_opened q d : patient (opened q d)
| patient_step st e : patient st -> in_turn st e -> patient (step s st e).

Lemma patient_reachable st : patient st -> reachable s st.
Proof. induction 1; by constructor. Qed.

Definition table_shown st : Prop :=
  ready s (query_ st) = true -> error (busy st) <> None \/
  shown (query_ st) (results (table st)) (nextCursor (table st)).

Definition calm st : Prop :=
  match flights st with
  | [] => timer st = false -> table_shown st
  | [f] => timer st = false /\
      match fl_purpose f with
      | Run => fl_request f = request_of s (query_ st) None
      | More => exists c, nextCursor (table st) = Some c /\
                  fl_request f = request_of s (query_ st) (Some c) /\ table_shown st
      end
  | _ => False
  end.

Lemma calm_more st :
  consistent st -> calm st -> timer st = false -> only_more (flights st) -> calm (loadMore s st).
Proof.
  intros Hco Hc Ht Hm. unfold loadMore. destruct (nextCursor (table st)) as [c|] eqn:Hn; [|done].
  destruct (loadingRef (busy st)) eqn:Hr; [done|]. unfold calm in *. cbn.
  destruct (flights st) as [|f fs] eqn:Hf; cbn.
  - split; [done|]. exists c. split; [done|]. split; [done|]. by apply Hc.
  - exfalso. apply co_mores in Hco as HM. rewrite Hf, <- (co_ref _ Hco), Hr in HM.
    apply Forall_cons in Hm as [Hm _]. unfold mores in HM. cbn in HM. unfold is_more in HM at 1.
    rewrite Hm in HM. done.
Qed.

Lemma calm_timer st : flights st = [] -> calm (run s (set_timer (query_ st) false st)).
Proof.
  intros Hf. unfold run, calm. cbn. destruct (ready s (query_ st)) eqn:Hr; cbn; rewrite Hf; cbn; [done|].
  intros _ Hr'. change (ready s (query_ st) = true) in Hr'. congruence.
Qed.

Lemma calm_single st f i : calm st -> List.find (has_id i) (flights st) = Some f -> flights st = [f] /\ has_id i f = true.
Proof.
  intros Hc Hf. unfold calm in Hc. destruct (flights st) as [|g [|h fs]]; [done| |done].
  cbn in Hf. destruct (has_id i g) eqn:Hi; [|done]. injection Hf as ->. done.
Qed.

Lemma calm_settle st f r :
  calm st -> flights st = [f] -> (forall a, r = inr a -> a = search (fl_request f)) ->
  calm (settle s f r (set_flights [] st)).
Proof.
  intros Hc Hf Ha. unfold calm in Hc. rewrite Hf in Hc. destruct Hc as [Ht Hp].
  unfold calm, settle. destruct (fl_purpose f); cbn.
  - destruct r as [m|a]; cbn; intros _ Hr; [by left|]. cbn in *. rewrite (Ha a eq_refl), Hp. right.
    apply shown_first. done.
  - destruct Hp as (c & Hn & Hq & Hs). destruct r as [m|a]; cbn; intros _ Hr; [by left|]. cbn in *.
    destruct (Hs Hr) as [He|Hsh]; [by left|]. right. rewrite (Ha a eq_refl), Hq. rewrite Hn in Hsh.
    by apply shown_more with c.
Qed.

Lemma settle_timer f r st : timer (settle s f r st) = timer st /\ flights (settle s f r st) = flights st.
Proof. unfold settle. by destruct (fl_purpose f), r. Qed.

Lemma calm_pending st : calm st -> timer st = true -> flights st = [].
Proof. unfold calm. intros Hc Ht. destruct (flights st) as [|f [|g fs]]; [done| |done]. destruct Hc. congruence. Qed.

Lemma exec_calm st e : consistent st -> calm st -> in_turn st e -> calm (exec s e st).
Proof.
  intros Hco Hc He. destruct e as [q| | | |i r|l|]; cbn [exec].
  - cbn in He. unfold calm. cbn. by rewrite He.
  - destruct (timer st) eqn:Ht; [|done]. apply calm_timer. by apply calm_pending.
  - destruct He as [Ht Hf]. assert (Hrun : calm (run s st)).
    2: { destruct s; try done. by destruct (loading _). }
    pose proof (calm_timer st Hf) as Hc'. unfold run in *. cbn [query_ set_timer] in Hc'.
    destruct (ready s (query_ st)); [|done]. unfold calm in *. cbn in *. rewrite Hf in *. cbn in *. by rewrite Ht.
  - destruct He. by apply calm_more.
  - destruct (List.find _ _) as [f|] eqn:HF; [|done]. destruct (calm_single _ _ _ Hc HF) as [Hf Hi].
    rewrite Hf. cbn. rewrite Hi. cbn. apply calm_settle; [done..|]. intros a ->. by apply He.
  - exact Hc.
  - exact Hc.
Qed.

(** The effect acts only when nothing else is pending. *)
Lemma exec_wants st e :
  consistent st -> calm st -> in_turn st e -> wants_more st = false -> wants_more (exec s e st) = true ->
  timer (exec s e st) = false /\ only_more (flights (exec s e st)).
Proof.
  intros Hco Hc He Hw Hw'. destruct e as [q| | | |i r|l|]; cbn [exec] in *.
  - change (wants_more st = true) in Hw'. congruence.
  - assert (wants_more st = true); [|congruence]. revert Hw'. destruct (timer st); [|done].
    unfold run. destruct (ready _ _); done.
  - assert (wants_more st = true); [|congruence]. revert Hw'. destruct s; try done.
    by destruct (loading _).
  - rewrite loadMore_settles in Hw'; done.
  - destruct (List.find _ _) as [f|] eqn:HF; [|congruence]. clear Hw'.
    destruct (calm_single _ _ _ Hc HF) as [Hf Hi]. rewrite Hf. cbn [List.filter]. rewrite Hi. cbn [negb].
    destruct (settle_timer f r (set_flights [] st)) as [-> ->]. cbn.
    unfold calm in Hc. rewrite Hf in Hc. destruct Hc. by split; [|constructor].
  - exact He.
  - done.
Qed.

Lemma patient_calm st : patient st -> calm st.
Proof.
  induction 1 as [q d|st e Hp IH He]; [unfold calm; cbn; done|].
  assert (Hco : consistent st) by by apply reachable_consistent with s, patient_reachable.
  unfold step, auto_load. destruct s eqn:Hs; try by rewrite <- Hs in *; apply exec_calm.
  rewrite <- Hs in *. destruct (wants_more (exec s e st)) eqn:Hw; [|by apply exec_calm].
  destruct (exec_wants st e) as [Ht Hm]; try done.
  { by apply (reachable_settled s); [apply patient_reachable|]. }
  apply calm_more; [by apply feed_exec_consistent|by apply exec_calm|done|done].
Qed.

(** Rows shown are the first pages, and all of them when there is no cursor. *)
Lemma shown_pages q rs cur :
  shown q rs cur -> exists n, forall m,
    pages_from (endpoint q) (n + m) None = rs ++ match cur with None => [] | Some c => pages_from (endpoint q) m (Some c) end.
Proof.
  induction 1 as [p Hp|rs c p _ [n IH] Hp].
  - exists 1. intros m. cbn [pages_from Nat.add]. rewrite Hp. by destruct (pg_next p).
  - exists (S n). intros m. rewrite Nat.add_succ_comm, IH. cbn [pages_from]. rewrite Hp, <- app_assoc.
    by destruct (pg_next p).
Qed.
End patient.

(** C23. As long as no request overtakes another, the table of a page at rest shows the
    first pages of the query on screen, and the whole result when it says there
    is no more. *)
Theorem patient_table_is_prefix {C} s (search : MessageSearchRequest C -> SearchResponse C) st :
  patient s search st -> flights st = [] -> timer st = false -> error (busy st) = None ->
  ready s (query_ st) = true ->
  exists n, results (table st) = pages_from (endpoint s search (query_ st)) n None /\
    (hasMore (table st) = false -> forall m, pages_from (endpoint s search (query_ st)) (n + m) None = results (table st)).
Proof.
  intros Hp Hf Ht He Hr. pose proof (patient_calm _ _ _ Hp) as Hc. unfold calm in Hc. rewrite Hf in Hc.
  destruct (Hc Ht Hr) as [Hn|Hs]; [done|]. apply shown_pages in Hs as [n Hn].
  exists n. split.
  - specialize (Hn 0). rewrite Nat.add_0_r in Hn. rewrite Hn. destruct (nextCursor _); cbn; by rewrite app_nil_r.
  - intros Hm m. rewrite Hn.
    pose proof (co_hasMore _ (reachable_consistent s st (patient_reachable _ _ _ Hp))) as HM. rewrite Hm in HM.
    destruct (nextCursor _); [done|]. by rewrite app_nil_r.
Qed.


(** ** Requests that overlap *)

Section overlap.
Context {C : Type}.
Implicit Types (st : Feed C) (a b : SearchResponse C).

Definition rows_of a : list TraceSearchResult := pg_results (an_page a) ?? [].

Lemma find_fresh fs (f : flight C) :
  Forall (fun g => fl_id g < fl_id f) fs -> List.find (has_id (fl_id f)) (fs ++ [f]) = Some f.
Proof.
  induction 1 as [|g fs Hg _ IH]; cbn; unfold has_id at 1; [by rewrite Nat.eqb_refl|].
  destruct (Nat.eqb_spec (fl_id g) (fl_id f)); [lia|done].
Qed.

(** A step of the machine that leaves what the effect reads alone. *)
Lemma auto_rest s st : settled s st -> auto_load s st = st.
Proof. intros H. unfold auto_load. destruct s; try done. by rewrite (H eq_refl). Qed.

Lemma auto_load_keeps s st :
  query_ (auto_load s st) = query_ st /\ table (auto_load s st) = table st /\
  error (busy (auto_load s st)) = error (busy st).
Proof.
  unfold auto_load, loadMore. destruct s; try done. destruct (wants_more st); [|done].
  destruct (nextCursor (table st)); [|done]. by destruct (loadingRef (busy st)).
Qed.

Lemma step_change s st q : settled s st -> step s st (Change q) = set_timer q true st.
Proof. intros Hs. apply auto_rest. exact Hs. Qed.

Definition searching s q st : Feed C :=
  send Run (request_of s q None)
    (set_busy {| loading := true; loadingMore := loadingMore (busy st); loadingRef := loadingRef (busy st); error := None |}
      (set_timer q false st)).

Lemma step_timer s st q :
  settled s st -> ready s q = true -> step s (set_timer q true st) Timer = searching s q st.
Proof.
  intros Hs Hq. unfold step. cbn [exec timer set_timer query_]. unfold run. cbn [query_ set_timer].
  rewrite Hq. apply auto_rest. exact Hs.
Qed.

Lemma step_answered s st i f r :
  List.find (has_id i) (flights st) = Some f ->
  step s st (Answer i r) = auto_load s (settle s f r (set_flights (List.filter (fun f => negb (has_id i f)) (flights st)) st)).
Proof. intros HF. unfold step. cbn [exec]. by rewrite HF. Qed.

(** The answer of a search replaces the table, whatever the query is now. *)
Lemma run_answered s st i f a :
  List.find (has_id i) (flights st) = Some f -> fl_purpose f = Run ->
  let st' := step s st (Answer i (inr a)) in
  query_ st' = query_ st /\ results (table st') = rows_of a /\ nextCursor (table st') = pg_next (an_page a) /\
  error (busy st') = error (busy st).
Proof.
  intros HF Hp st'. subst st'. rewrite (step_answered s st i f) by done.
  destruct (auto_load_keeps s (settle s f (inr a) (set_flights (List.filter (fun f => negb (has_id i f)) (flights st)) st)))
    as (-> & -> & ->).
  unfold settle. by rewrite Hp.
Qed.

(** A search sent after a change of the query, from any state: its answer, when it is
    the next to come, puts the first page of that query on screen. *)
Theorem newest_search_is_shown s st q a :
  reachable s st -> ready s q = true ->
  let st' := runs s st [Change q; Timer; Answer (sent st) (inr a)] in
  query_ st' = q /\ results (table st') = rows_of a /\ nextCursor (table st') = pg_next (an_page a) /\
  error (busy st') = None.
Proof.
  intros Hr Hq. unfold runs. cbn [foldl]. pose proof (reachable_settled s st Hr) as Hs.
  rewrite step_change, step_timer by done.
  pose (f := {| fl_id := sent st; fl_purpose := Run; fl_request := request_of s q None |} : flight C).
  apply (run_answered s (searching s q st) _ f); [|done]. change (sent st) with (fl_id f).
  apply find_fresh, (reachable_consistent _ _ Hr).
Qed.

(** Two searches under way: the answer that comes last is shown, be it the
    answer to the earlier query, with nothing pending and no error. *)
Theorem late_answer_stays s q0 q1 q2 a1 a2 :
  ready s q1 = true -> ready s q2 = true ->
  let st := runs s (opened q0 false) [Change q1; Timer; Change q2; Timer; Answer 1 (inr a2); Answer 0 (inr a1)] in
  query_ st = q2 /\ results (table st) = rows_of a1 /\
  flights st = [] /\ timer st = false /\ loading (busy st) = false /\ error (busy st) = None.
Proof.
  intros H1 H2. destruct s, q1 as [? [?|] ? ?], q2 as [? [?|] ? ?]; try discriminate; by repeat split.
Qed.
End overlap.

(** A page of the old query asked for before the change, answered after the
    first page of the new one: its rows are appended to the new rows and its
    cursor is the one in force, so the next page is asked for with the rows of
    the new query and the cursor of the old. *)
Theorem old_page_is_appended {C} s q0 q1 q2 (a1 a2 b1 : SearchResponse C) c d :
  ready s q1 = true -> ready s q2 = true -> pg_next (an_page a1) = Some c -> pg_next (an_page b1) = Some d ->
  let st := runs s (opened q0 false)
    [Change q1; Timer; Answer 0 (inr a1); Scroll; Change q2; Timer; Answer 2 (inr a2); Answer 1 (inr b1)] in
  query_ st = q2 /\ results (table st) = rows_of a2 ++ rows_of b1 /\ nextCursor (table st) = Some d /\
  flights st = [] /\ timer st = false /\ error (busy st) = None /\
  fl_request <$> flights (step s st Scroll) = [request_of s q2 (Some d)].
Proof.
  intros H1 H2 Hc Hd. destruct a1 as [[? ?] ?], b1 as [[? ?] ?]. cbn in Hc, Hd. subst.
  destruct s, q1 as [? [?|] ? ?], q2 as [? [?|] ? ?]; try discriminate; by repeat split.
Qed.

(** The same while the timer runs: scrolling then asks for a page of the new
    query after the cursor of the old. *)
Theorem scroll_during_timer {C} s q0 q1 q2 (a1 : SearchResponse C) c :
  ready s q1 = true -> pg_next (an_page a1) = Some c ->
  let st := runs s (opened q0 false) [Change q1; Timer; Answer 0 (inr a1); Change q2; Scroll] in
  fl_request <$> flights st = [request_of s q2 (Some c)].
Proof.
  intros H1 Hc. destruct a1 as [[? ?] ?]. cbn in Hc. subst. destruct s, q1 as [? [?|] ? ?]; try discriminate; done.
Qed.

(** ** Delayed traces only *)

Section delayed.
Context {C : Type}.
Implicit Types st : Feed C.

Lemma filter_ids_NoDup d rs :
  NoDup (tr_trace_id <$> rs) -> NoDup (tr_trace_id <$> List.filter (has_delay d) rs).
Proof.
  induction rs as [|r rs IH]; cbn; [done|]. intros [Hr HN]%NoDup_cons.
  destruct (has_delay d r); cbn; [|auto]. apply NoDup_cons. split; [|auto]. contradict Hr.
  apply list_elem_of_fmap in Hr as (x & -> & Hx). apply list_elem_of_fmap. exists x. split; [done|].
  apply list_elem_of_In in Hx. apply List.filter_In in Hx as [Hx _]. by apply list_elem_of_In.
Qed.

(** A delayed trace that is not among the rows leaves the rows short of the
    number of delayed traces. *)
Lemma missing_delay_short d rs t :
  NoDup (tr_trace_id <$> rs) -> is_some (d_active d !! t) = true -> t ∉ tr_trace_id <$> rs ->
  length (List.filter (has_delay d) rs) < size (d_active d).
Proof.
  intros HN Ht Hn. set (ids := tr_trace_id <$> List.filter (has_delay d) rs).
  assert (HI : list_to_set ids ⊆@{gset string} dom (d_active d) ∖ {[t]}).
  { intros i Hi. apply elem_of_list_to_set, list_elem_of_fmap in Hi as (r & -> & Hr).
    apply list_elem_of_In in Hr. apply List.filter_In in Hr as [Hr Hd]. apply elem_of_difference. split.
    - apply elem_of_dom. unfold has_delay in Hd. by destruct (d_active d !! tr_trace_id r).
    - intros He%elem_of_singleton. apply Hn. rewrite <- He. apply list_elem_of_fmap. exists r.
      split; [done|]. by apply list_elem_of_In. }
  apply subseteq_size in HI. rewrite size_list_to_set in HI by by apply filter_ids_NoDup.
  assert (Hd : t ∈ dom (d_active d)) by (apply elem_of_dom; by destruct (d_active d !! t)).
  assert (Hs : {[t]} ⊆@{gset string} dom (d_active d)) by by apply singleton_subseteq_l.
  pose proof (subseteq_size _ _ Hs) as Hp. rewrite size_difference in HI by done.
  rewrite size_dom, size_singleton in HI, Hp.
  unfold ids in HI. rewrite length_fmap in HI. lia.
Qed.

(** In delayed-only mode a delayed trace that the filters exclude keeps the page
    reading: it is at rest only when it has read the whole result. *)
Theorem excluded_delay_reads_on st t :
  reachable IntegrationTab st -> delayedOnly st = true -> NoDup (tr_trace_id <$> results (table st)) ->
  is_some (d_active (delays st) !! t) = true -> t ∉ tr_trace_id <$> results (table st) ->
  hasMore (table st) = true -> loadingMore (busy st) = true.
Proof.
  intros Hr Hd HN Ht Hn Hm. pose proof (reachable_settled _ _ Hr eq_refl) as Hw.
  unfold wants_more, visibleResults in Hw. rewrite Hd, Hm in Hw. cbn in Hw.
  destruct (loadingMore (busy st)); [done|]. cbn in Hw. apply Nat.ltb_ge in Hw.
  pose proof (missing_delay_short _ _ _ HN Ht Hn). lia.
Qed.
End delayed.

(** *** A page that fails *)

Section retry.
Context {C : Type}.
Implicit Types st : Feed C.

(** The effect waits for the page after the cursor [c], request [i]. *)
Record waiting st (c : C) (i : nat) : Prop := {
  wa_reachable : reachable IntegrationTab st;
  wa_delayed : delayedOnly st = true;
  wa_cursor : nextCursor (table st) = Some c;
  wa_short : length (visibleResults st) < size (d_active (delays st));
  wa_flight : exists f, List.find (has_id i) (flights st) = Some f /\ fl_purpose f = More
}.

Lemma failure_repeats st c i m :
  waiting st c i ->
  let st' := step IntegrationTab st (Answer i (inl m)) in
  waiting st' c (sent st) /\ sent st' = S (sent st) /\ table st' = table st /\ query_ st' = query_ st /\
  fl_request <$> List.find (has_id (sent st)) (flights st') = Some (request_of IntegrationTab (query_ st) (Some c)).
Proof.
  intros [Hr Hd Hc Hw (f & HF & Hp)] st'.
  pose proof (reachable_consistent _ _ Hr) as [Hm _ _ Hfr _].
  set (fs := List.filter (fun f => negb (has_id i f)) (flights st)).
  pose (g := {| fl_id := sent st; fl_purpose := More; fl_request := request_of IntegrationTab (query_ st) (Some c) |} : flight C).
  assert (Hg : List.find (has_id (sent st)) (fs ++ [g]) = Some g).
  { apply (find_fresh fs g), List.incl_Forall with (flights st); [apply List.incl_filter|done]. }
  assert (E : st' = send More (fl_request g) (set_busy {| loading := loading (busy st); loadingMore := true;
      loadingRef := true; error := Some m |} (set_flights fs st))).
  { subst st'. rewrite (step_answered _ _ _ f) by done. unfold auto_load.
    assert (HW : wants_more (settle IntegrationTab f (inl m) (set_flights fs st)) = true).
    { unfold wants_more, settle. rewrite Hp. cbn -[visibleResults Nat.ltb]. rewrite Hd, Hm, Hc. cbn -[visibleResults Nat.ltb].
      apply Nat.ltb_lt. exact Hw. }
    fold fs. rewrite HW. unfold loadMore, settle. rewrite Hp. cbn. by rewrite Hc. }
  split; [split|]; rewrite ?E; try done.
  - rewrite <- E. by apply reach_step.
  - exists g. done.
  - repeat split. cbn. fold g. by rewrite Hg.
Qed.

(** The failures of a request and of those that repeat it. *)
Fixpoint failures (n : nat) (m : string) (i : nat) st : list (Event C) :=
  match n with
  | O => []
  | S n => Answer i (inl m) :: failures n m (sent st) (step IntegrationTab st (Answer i (inl m)))
  end.

(** In delayed-only mode a page that fails is asked for again at once, with no
    pause and no limit, as long as the server fails. *)
Theorem failed_page_is_hammered st c i m n :
  waiting st c i ->
  let st' := runs IntegrationTab st (failures n m i st) in
  sent st' = sent st + n /\ table st' = table st /\ loadingMore (busy st') = true.
Proof.
  revert st i. induction n as [|n IH]; intros st i Hw; cbn [failures]; unfold runs in *; cbn [foldl].
  - rewrite Nat.add_0_r. split; [done|]. split; [done|].
    destruct Hw as [Hr _ _ _ (f & HF & Hp)]. destruct (reachable_consistent _ _ Hr) as [_ _ HM _ Hi].
    rewrite (mores_answered i _ f Hi HF) in HM. unfold is_more in HM. rewrite Hp in HM.
    destruct (loadingMore (busy st)); [done|lia].
  - destruct (failure_repeats st c i m Hw) as (Hw' & Hs & Ht & _). apply IH in Hw' as (H1 & H2 & H3).
    rewrite H1, H2, Hs, Ht. split; [lia|]. done.
Qed.
End retry.

(** ** What the firings say *)

(** The open firings of a trace that nobody has handled. *)
Definition open_of (t : string) (l : list TraceCompletionFiring) : list TraceCompletionFiring :=
  List.filter (fun f => negb (truthy_opt (tf_handled_at f)) && bool_decide (tf_state f = fs_firing)
                        && (tf_trace_id f =s t)) l.

Definition severity_of (d : Delays) (fs : list TraceCompletionFiring) (t : string) : Prop :=
  match d_active d !! t with
  | None => fs = []
  | Some s => s ∈ tf_severity <$> fs /\ Forall (fun f => (sevRank (tf_severity f) <= sevRank s)%Z) fs
  end.

Lemma firing_step_spec d f l t :
  severity_of d (open_of t l) t -> d_instances d !! t ?? [] = tf_instance_id <$> open_of t l ->
  severity_of (firing_step d f) (open_of t (l ++ [f])) t /\
  d_instances (firing_step d f) !! t ?? [] = tf_instance_id <$> open_of t (l ++ [f]).
Proof.
  unfold open_of. rewrite List.filter_app. cbn [List.filter]. fold (open_of t l).
  intros Hs Hi. unfold firing_step. destruct (truthy_opt (tf_handled_at f)); cbn [negb andb].
  { rewrite app_nil_r. done. }
  destruct (tf_state f); rewrite ?bool_decide_eq_true_2, ?bool_decide_eq_false_2 by done; cbn [andb];
    [|rewrite app_nil_r; done..].
  destruct (String.eqb_spec (tf_trace_id f) t) as [E|E].
  - rewrite E. cbn [d_instances]. rewrite lookup_insert_eq, fmap_app. split; [|cbn; by rewrite <- Hi].
    unfold severity_of in *. cbn [d_active]. rewrite fmap_app. cbn. destruct (d_active d !! t) as [p|] eqn:Hp; cbn.
    + destruct Hs as [Hin Hall]. destruct (Z.ltb_spec (sevRank p) (sevRank (tf_severity f))).
      * rewrite lookup_insert_eq. split; [apply elem_of_app; right; by apply list_elem_of_singleton|].
        apply Forall_app. split; [eapply Forall_impl; [exact Hall|]; cbn; lia|]. repeat constructor. lia.
      * rewrite Hp. split; [apply elem_of_app; by left|]. apply Forall_app. split; [done|]. repeat constructor. lia.
    + rewrite lookup_insert_eq, Hs. cbn. split; [by apply list_elem_of_singleton|]. repeat constructor. lia.
  - rewrite app_nil_r. cbn [d_instances]. rewrite lookup_insert_ne by done. split; [|done].
    unfold severity_of in *. cbn [d_active]. destruct (higher _ _); [|done]. by rewrite lookup_insert_ne by done.
Qed.

(** A trace is marked delayed exactly when it has an open firing nobody handled, with
    the highest severity among them, and the handled button acknowledges those
    firings, each and no other. *)
Theorem handled_button_acks_open_firings l t :
  severity_of (reloadFirings l) (open_of t l) t /\
  markTraceHandled (reloadFirings l) t = tf_instance_id <$> open_of t l.
Proof.
  unfold markTraceHandled, reloadFirings. induction l as [|f l IH] using rev_ind; [done|].
  rewrite foldl_app. cbn [foldl]. apply firing_step_spec; apply IH.
Qed.

(** ** Concrete runs *)

Definition ex_query (v : string) : query := {| q_range := "24h"; q_locked := None; q_user := [ex_row "k" op_equals v]; q_view := None |}.
Definition ex_answer (ids : list string) (next : option nat) : SearchResponse nat :=
  {| an_page := {| pg_results := Some (ex_result <$> ids); pg_next := next |}; an_columns := None |}.

(** Two pages for every query. *)
Definition ex_server (r : MessageSearchRequest nat) : SearchResponse nat :=
  match sr_cursor r with None => ex_answer ["a"] (Some 1) | Some _ => ex_answer ["b"] None end.
Definition ex_events : list (Event nat) :=
  [Change (ex_query "v"); Timer; Answer 0 (inr (ex_answer ["a"] (Some 1))); Scroll;
   Answer 1 (inr (ex_answer ["b"] None))].
Definition ex_end : Feed nat := runs MessagesPage (opened (ex_query "") false) ex_events.


Lemma patient_runs {C} s (search : MessageSearchRequest C -> SearchResponse C) es st :
  patient s search st -> (forall n, match es !! n with
    | Some e => in_turn search (runs s st (take n es)) e | None => True end) ->
  patient s search (runs s st es).
Proof.
  intros Hp H. induction es as [|e es IH] using rev_ind; [done|]. unfold runs. rewrite foldl_app. cbn [foldl].
  apply patient_step.
  - apply IH. intros n. specialize (H n). destruct (decide (n < length es)) as [Hn|Hn].
    + rewrite lookup_app_l, take_app_le in H by lia. done.
    + by rewrite lookup_ge_None_2 by lia.
  - specialize (H (length es)). rewrite list_lookup_middle in H by done. by rewrite take_app_length in H.
Qed.

Lemma patient_table_is_prefix_witness :
  flights ex_end = [] /\ exists n, results (table ex_end) = pages_from (endpoint MessagesPage ex_server (query_ ex_end)) n None.
Proof.
  assert (H : patient MessagesPage ex_server ex_end).
  { apply patient_runs; [apply patient_opened|]. intros [|[|[|[|[|[|]]]]]]; vm_compute;
      solve [exact I | reflexivity | intros f [= <-]; reflexivity | split; [reflexivity | constructor]]. }
  split; [reflexivity|].
  destruct (patient_table_is_prefix MessagesPage ex_server ex_end H eq_refl eq_refl eq_refl eq_refl) as (n & E & _).
  by exists n.
Defined.

Lemma newest_search_is_shown_witness :
  results (table (runs MessagesPage ex_end
    [Change (ex_query "w"); Timer; Answer (sent ex_end) (inr (ex_answer ["c"] None))])) = [ex_result "c"].
Proof.
  assert (H : reachable MessagesPage ex_end) by (unfold ex_end, ex_events, runs; cbn [foldl]; repeat constructor).
  exact (proj1 (proj2 (newest_search_is_shown MessagesPage ex_end (ex_query "w") (ex_answer ["c"] None) H eq_refl))).
Defined.

Lemma late_answer_stays_witness :
  let st := runs MessagesPage (opened (ex_query "") false)
    [Change (ex_query "1"); Timer; Change (ex_query "2"); Timer;
     Answer 1 (inr (ex_answer ["new"] None)); Answer 0 (inr (ex_answer ["old"] None))] in
  query_ st = ex_query "2" /\ results (table st) = [ex_result "old"].
Proof.
  destruct (late_answer_stays MessagesPage (ex_query "") (ex_query "1") (ex_query "2")
    (ex_answer ["old"] None) (ex_answer ["new"] None) eq_refl eq_refl) as (H1 & H2 & _).
  split; [exact H1|exact H2].
Defined.

Definition ex_tab_query : query :=
  {| q_range := "24h"; q_locked := Some (ex_row "k" op_is "orders"); q_user := []; q_view := None |}.
Definition ex_firing (t : string) : TraceCompletionFiring :=
  {| tf_instance_id := "i"; tf_trace_id := t; tf_severity := sev_warning; tf_state := fs_firing; tf_handled_at := None |}.
(** Delayed traces only, one of them not on the first page: the second is asked for. *)
Definition ex_delayed : Feed nat := runs IntegrationTab (opened ex_tab_query true)
  [Firings [ex_firing "z"]; Timer; Answer 0 (inr (ex_answer ["a"] (Some 1)))].

Lemma excluded_delay_reads_on_witness :
  hasMore (table ex_delayed) = true /\ loadingMore (busy ex_delayed) = true.
Proof.
  split; [reflexivity|].
  apply (excluded_delay_reads_on ex_delayed "z");
    [unfold ex_delayed, runs; cbn [foldl]; repeat constructor|reflexivity| |vm_compute; reflexivity| |reflexivity].
  - vm_compute. apply NoDup_singleton.
  - vm_compute. intros H%list_elem_of_singleton. done.
Defined.

Lemma failed_page_is_hammered_witness :
  sent (runs IntegrationTab ex_delayed (failures 5 "unavailable" 1 ex_delayed)) = 7.
Proof.
  assert (H : waiting ex_delayed 1 1).
  { split; [unfold ex_delayed, runs; cbn [foldl]; repeat constructor|reflexivity|reflexivity| |].
    - vm_compute. lia.
    - eexists. split; vm_compute; reflexivity. }
  exact (proj1 (failed_page_is_hammered ex_delayed 1 1 "unavailable" 5 H)).
Defined.

Lemma old_page_is_appended_witness :
  let st := runs ServiceTab (opened (ex_query "") false)
    [Change (ex_query "1"); Timer; Answer 0 (inr (ex_answer ["a1"] (Some 1))); Scroll; Change (ex_query "2"); Timer;
     Answer 2 (inr (ex_answer ["a2"] (Some 8))); Answer 1 (inr (ex_answer ["b1"] (Some 2)))] in
  query_ st = ex_query "2" /\ results (table st) = ex_result <$> ["a2"; "b1"].
Proof.
  destruct (old_page_is_appended ServiceTab (ex_query "") (ex_query "1") (ex_query "2") (ex_answer ["a1"] (Some 1))
    (ex_answer ["a2"] (Some 8)) (ex_answer ["b1"] (Some 2)) 1 2 eq_refl eq_refl eq_refl eq_refl) as (H1 & H2 & _).
  split; [exact H1|exact H2].
Defined.
