(* ===== verification/SearchViews.v ===== *)
(** * Saved views on the pages

    [pages/Search.tsx]: the rail of saved views with its draft rows, as an
    event machine.  [pages/IntegrationMessages.tsx] and
    [components/ServiceMessagesTab.tsx]: the views a tab lists, loading and
    saving them, the rows offered on a first visit, the columns.
    [components/search/SaveAsViewDialog.tsx]: the suggested name and the
    form.

    A handler that waits for the server goes on with the values of its render:
    what it captured when it was called, not the state at the time of the
    answer. *)

From S2P Require Import Prelude JsString JsUri JsArray Types MessageFilters.

Local Open Scope string_scope.
Local Open Scope list_scope.

Record CreateMessageViewRequest := {
  cv_name : string; cv_description : option string; cv_pinned : bool;
  cv_visibility : MessageViewVisibility; cv_groupId : option string; cv_filters : list MessageFilter;
  cv_scope : option MessageViewScope; cv_messageColumns : option (list MessageColumn)
}.

(** ** The dialog *)

Record SaveAsViewValues := {
  va_name : string; va_description : string; va_visibility : MessageViewVisibility;
  va_groupId : option string; va_pinned : bool
}.

Definition shortValue (v : string) : string :=
  let t := trim v in
  if (utf16_length t <=? 24)%nat then t else tpl [utf16_slice_to 21 t; "…"].

(** The labels of the dialog; a field without one is called by its own name. *)
Definition DIALOG_LABELS (f : Field) : string :=
  match f with f_errorType => "error type" | _ => show_field f end.

Definition dialog_label (f : Filter) : string :=
  if bool_decide (f_field f = f_payload) && truthy_opt (f_fieldPath f) then f_fieldPath f ?? ""
  else DIALOG_LABELS (f_field f).

Definition free_rows (filters : list Filter) : list Filter :=
  List.filter (fun f => truthy (f_value f) && negb (f_value f =s "any"))
    (List.filter (fun f => not_time (f_field f))
      (List.filter (fun f => negb (flag (f_locked f)))
        (List.filter (fun f => negb (flag (f_optional f))) filters))).

Definition buildAutoName (filters : list Filter) (scopeLabel : option string) : string :=
  let parts := (fun f => tpl [dialog_label f; " "; shortValue (f_value f)]) <$> take 2 (free_rows filters) in
  let stem := join " · " parts in
  let stem := match scopeLabel with
              | Some l => if truthy l then (if truthy stem then tpl [stem; " in "; l] else tpl ["messages in "; l]) else stem
              | None => stem
              end in
  if truthy stem then stem else "untitled view".

(** The form of the dialog, and the values it hands on: [None] when the name is blank. *)
Record DialogForm := {
  df_name : string; df_description : string; df_visibility : MessageViewVisibility;
  df_groupId : string; df_pinned : bool
}.
Definition opened_form (autoName : string) : DialogForm :=
  {| df_name := autoName; df_description := ""; df_visibility := vis_private; df_groupId := ""; df_pinned := false |}.
Definition pick_visibility (editorGroups : list string) (v : MessageViewVisibility) (d : DialogForm) : DialogForm := {|
  df_name := df_name d; df_description := df_description d; df_visibility := v;
  df_groupId := if bool_decide (v = vis_team) && negb (truthy (df_groupId d)) then head editorGroups ?? "" else df_groupId d;
  df_pinned := df_pinned d |}.
Definition visibility_allowed (editorGroups : list string) (can_write : bool) (v : MessageViewVisibility) : bool :=
  match v with vis_private => true | vis_team => negb (bool_decide (editorGroups = [])) | vis_org => can_write end.
Definition save_disabled (submitting : bool) (d : DialogForm) : bool :=
  submitting || negb (truthy (trim (df_name d)))
  || (bool_decide (df_visibility d = vis_team) && negb (truthy (df_groupId d))).
Definition handleSubmit (d : DialogForm) : option SaveAsViewValues :=
  if truthy (trim (df_name d)) then Some {|
    va_name := trim (df_name d); va_description := trim (df_description d); va_visibility := df_visibility d;
    va_groupId := if bool_decide (df_visibility d = vis_team) then Some (df_groupId d) else None;
    va_pinned := df_pinned d |}
  else None.

(** [s || undefined] *)
Definition or_undefined (s : string) : option string := if truthy s then Some s else None.

Definition create_from (values : SaveAsViewValues) (filters : list MessageFilter) (scope : option MessageViewScope)
    (columns : option (list MessageColumn)) : CreateMessageViewRequest := {|
  cv_name := va_name values; cv_description := or_undefined (va_description values); cv_pinned := va_pinned values;
  cv_visibility := va_visibility values; cv_groupId := va_groupId values; cv_filters := filters;
  cv_scope := scope; cv_messageColumns := columns |}.

(** ** The rail of the Messages page *)

(** A request of the page, with what its handler captured. *)
Inductive Op :=
| PSave (active : SavedView)
| PSaveAs
| PRename
| PDelete (id : string).
Inductive Sent :=
| POST (body : CreateMessageViewRequest)
| PUT (id : string) (body : UpdateMessageViewRequest)
| DELETE (id : string).

Record Pending := { pe_id : nat; pe_op : Op; pe_views : list SavedView; pe_active : option string }.

Record Rail := {
  views : list SavedView; activeId : option string; draftFilters : list Filter;
  userEditedFilters : bool; rail_error : option string; saving : bool; showSaveAsNew : bool;
  drawn : nat; pending : list Pending; log : list Sent
}.

Section rail.
(** The identifiers the page draws, and the query string it was opened with. *)
Context (uid : nat -> string) (initialParams : params).
Implicit Types r : Rail.

Definition opened_rail : Rail := {|
  views := []; activeId := None; draftFilters := []; userEditedFilters := false; rail_error := None;
  saving := false; showSaveAsNew := false; drawn := 0; pending := []; log := [] |}.

Definition show (vs : list SavedView) (a : option string) (fs : list Filter) r : Rail := {|
  views := vs; activeId := a; draftFilters := fs; userEditedFilters := userEditedFilters r; rail_error := rail_error r;
  saving := saving r; showSaveAsNew := showSaveAsNew r; drawn := drawn r; pending := pending r; log := log r |}.
Definition set_edited r : Rail := {|
  views := views r; activeId := activeId r; draftFilters := draftFilters r; userEditedFilters := true; rail_error := rail_error r;
  saving := saving r; showSaveAsNew := showSaveAsNew r; drawn := drawn r; pending := pending r; log := log r |}.
Definition set_flags (e : option string) (sv ask : bool) r : Rail := {|
  views := views r; activeId := activeId r; draftFilters := draftFilters r; userEditedFilters := userEditedFilters r;
  rail_error := e; saving := sv; showSaveAsNew := ask; drawn := drawn r; pending := pending r; log := log r |}.
Definition draw (n : nat) r : Rail := {|
  views := views r; activeId := activeId r; draftFilters := draftFilters r; userEditedFilters := userEditedFilters r;
  rail_error := rail_error r; saving := saving r; showSaveAsNew := showSaveAsNew r; drawn := drawn r + n;
  pending := pending r; log := log r |}.
Definition send (op : Op) (s : Sent) r : Rail := {|
  views := views r; activeId := activeId r; draftFilters := draftFilters r; userEditedFilters := userEditedFilters r;
  rail_error := rail_error r; saving := saving r; showSaveAsNew := showSaveAsNew r; drawn := drawn r;
  pending := pending r ++ [{| pe_id := length (log r); pe_op := op; pe_views := views r; pe_active := activeId r |}];
  log := log r ++ [s] |}.
Definition set_pending (ps : list Pending) r : Rail := {|
  views := views r; activeId := activeId r; draftFilters := draftFilters r; userEditedFilters := userEditedFilters r;
  rail_error := rail_error r; saving := saving r; showSaveAsNew := showSaveAsNew r; drawn := drawn r;
  pending := ps; log := log r |}.

Definition find_view (id : string) (vs : list SavedView) : option SavedView := List.find (fun v => sv_id v =s id) vs.
Definition activeView r : option SavedView := match activeId r with Some id => find_view id (views r) | None => None end.
Definition isDirty r : bool :=
  match activeView r with Some v => negb (filtersEqual (draftFilters r) (sv_filters v)) | None => false end.

(** [viewFromWire], drawing its identifiers after those drawn so far. *)
Definition from_wire (v : MessageView) (n : nat) : SavedView := viewFromWire (fun i => uid (n + i)) v.
Fixpoint views_from_wire (vs : list MessageView) (n : nat) : list SavedView :=
  match vs with
  | [] => []
  | v :: vs => from_wire v n :: views_from_wire vs (n + length (mv_filters v))
  end.
Definition wire_draws (vs : list MessageView) : nat := foldr (fun v n => length (mv_filters v) + n) 0 vs.

(** A fresh blank view on the rail, alone or after others, opened. *)
Definition open_blank (before : list SavedView) (fs : list Filter) r : Rail :=
  let v := blankView (uid (drawn r)) in
  draw 1 (show (before ++ [v]) (Some (sv_id v)) fs r).

(** The answer of [listMessageViews]. *)
Definition loaded (answer : string + option (list MessageView)) r : Rail :=
  match answer with
  | inl m => open_blank [] [] (set_flags (Some (tpl ["Could not load saved views: "; m])) (saving r) (showSaveAsNew r) r)
  | inr vs =>
      let wire := vs ?? [] in
      let mapped := views_from_wire wire (drawn r) in
      let r := draw (wire_draws wire) r in
      if userEditedFilters r then
        let v := blankView (uid (drawn r)) in
        draw 1 (show (mapped ++ [v]) (Some (activeId r ?? sv_id v)) (draftFilters r) r)
      else
        let target := match usp_get initialParams "view" with
                      | Some w => if truthy w then find_view w mapped else None
                      | None => None
                      end in
        let urlFilters := hydrateFiltersFromUrl (fun i => uid (drawn r + i)) (usp_toString initialParams) in
        let r := draw (length urlFilters) r in
        match target, urlFilters, mapped with
        | Some t, _, _ => show mapped (Some (sv_id t)) (sv_filters t) r
        | None, _ :: _, _ => open_blank mapped urlFilters r
        | None, [], [] => open_blank [] [] r
        | None, [], first :: _ => show mapped (Some (sv_id first)) (sv_filters first) r
        end
  end.

Definition changeFilters (next : list Filter) r : Rail :=
  set_edited (show (views r) (activeId r) next r).

Definition unlock (f : Filter) : Filter :=
  if flag (f_locked f) then {|
    f_id := f_id f; f_field := f_field f; f_fieldPath := f_fieldPath f; f_op := f_op f; f_value := f_value f;
    f_removable := true; f_locked := Some false; f_optional := f_optional f;
    f_includeDescendants := f_includeDescendants f |}
  else f.

Definition selectView (id : string) r : Rail :=
  match find_view id (views r) with
  | Some v => show (views r) (Some id) (unlock <$> sv_filters v) r
  | None => r
  end.

Definition onCreateView r : Rail := open_blank (views r) [] r.

Definition onReset r : Rail :=
  match activeView r with Some v => show (views r) (activeId r) (sv_filters v) r | None => r end.

(** [apply], with the rail and the active view its handler captured. *)
Definition remove_view (captured : list SavedView) (active : option string) (id : string) r : Rail :=
  match List.filter (fun x => negb (sv_id x =s id)) captured with
  | [] => open_blank [] [] r
  | first :: rest =>
      if bool_decide (active = Some id) then show (first :: rest) (Some (sv_id first)) (sv_filters first) r
      else show (first :: rest) (activeId r) (draftFilters r) r
  end.

Definition onDeleteView (id : string) r : Rail :=
  match find_view id (views r) with
  | None => r
  | Some v => if isDraft (Some v) then remove_view (views r) (activeId r) id r else send (PDelete id) (DELETE id) r
  end.

Definition draft_body (v : SavedView) (filters : list Filter) : CreateMessageViewRequest := {|
  cv_name := sv_name v; cv_description := None; cv_pinned := sv_pinned v; cv_visibility := vis_private;
  cv_groupId := None; cv_filters := filtersToWire filters; cv_scope := None; cv_messageColumns := None |}.

Definition onSave r : Rail :=
  match activeView r with
  | None => r
  | Some v =>
      let r := set_flags (rail_error r) true (showSaveAsNew r) r in
      if isDraft (Some v) then send (PSave v) (POST (draft_body v (draftFilters r))) r
      else send (PSave v) (PUT (sv_id v) (updateBody v (sv_name v) (draftFilters r))) r
  end.

Definition onSaveAsNewSubmit (values : SaveAsViewValues) r : Rail :=
  send PSaveAs (POST (create_from values (filtersToWire (draftFilters r)) None None))
    (set_flags (rail_error r) true (showSaveAsNew r) r).

Definition rename_to (name : string) (v : SavedView) : SavedView := {|
  sv_id := sv_id v; sv_name := name; sv_description := sv_description v; sv_filters := sv_filters v;
  sv_mine := sv_mine v; sv_pinned := sv_pinned v; sv_visibility := sv_visibility v; sv_groupId := sv_groupId v;
  sv_groupName := sv_groupName v; sv_canManage := sv_canManage v; sv_resultCount := sv_resultCount v;
  sv_lastEditedAt := sv_lastEditedAt v; sv_messageColumns := sv_messageColumns v; sv_scope := sv_scope v |}.

Definition replace_view (id : string) (w : SavedView) (vs : list SavedView) : list SavedView :=
  (fun x => if sv_id x =s id then w else x) <$> vs.

(** [name] is what the prompt returns: [None] or empty when it is dismissed. *)
Definition onRename (name : option string) r : Rail :=
  match activeView r, name with
  | Some v, Some name =>
      if truthy name then
        let r := show (replace_view (sv_id v) (rename_to name v) (views r)) (activeId r) (draftFilters r) r in
        if isDraft (Some v) then r else send PRename (PUT (sv_id v) (updateBody v name (sv_filters v))) r
      else r
  | _, _ => r
  end.

(** The answer to a request, the view the server returns or an error, and the
    [finally] of its handler. *)
Definition replied (p : Pending) (answer : string + MessageView) r : Rail :=
  match pe_op p, answer with
  | PSave active, inr w =>
      let v := from_wire w (drawn r) in
      let r := set_flags (rail_error r) false (showSaveAsNew r) (draw (length (mv_filters w)) r) in
      if isDraft (Some active)
      then show (replace_view (sv_id active) v (pe_views p)) (Some (sv_id v)) (draftFilters r) r
      else show (replace_view (sv_id v) v (pe_views p)) (activeId r) (draftFilters r) r
  | PSave _, inl m => set_flags (Some (tpl ["Save failed: "; m])) false (showSaveAsNew r) r
  | PSaveAs, inr w =>
      let v := from_wire w (drawn r) in
      set_flags (rail_error r) false false
        (show (pe_views p ++ [v]) (Some (sv_id v)) (draftFilters r) (draw (length (mv_filters w)) r))
  | PSaveAs, inl m => set_flags (Some (tpl ["Save failed: "; m])) false (showSaveAsNew r) r
  | PRename, inr _ => r
  | PRename, inl m => set_flags (Some (tpl ["Rename failed: "; m])) (saving r) (showSaveAsNew r) r
  | PDelete id, inr _ => remove_view (pe_views p) (pe_active p) id r
  | PDelete _, inl m => set_flags (Some (tpl ["Delete failed: "; m])) (saving r) (showSaveAsNew r) r
  end.

Inductive RailEvent :=
| Loaded (answer : string + option (list MessageView))
| Edit (next : list Filter)
| Select (id : string)
| Create
| Reset
| DeleteView (id : string)
| Save
| SaveAsNew (values : SaveAsViewValues)
| Rename (name : option string)
| Reply (i : nat) (answer : string + MessageView).

Definition asked (i : nat) (p : Pending) : bool := Nat.eqb (pe_id p) i.

Definition rail_step r (e : RailEvent) : Rail :=
  match e with
  | Loaded a => loaded a r
  | Edit fs => changeFilters fs r
  | Select id => selectView id r
  | Create => onCreateView r
  | Reset => onReset r
  | DeleteView id => onDeleteView id r
  | Save => onSave r
  | SaveAsNew values => onSaveAsNewSubmit values r
  | Rename name => onRename name r
  | Reply i a =>
      match List.find (asked i) (pending r) with
      | Some p => replied p a (set_pending (List.filter (fun p => negb (asked i p)) (pending r)) r)
      | None => r
      end
  end.
Definition rail_runs r (es : list RailEvent) : Rail := foldl rail_step r es.
End rail.

(** ** The views of a tab *)

Section tab.
Context (uid : nat -> string).

Definition makeLockedIntegrationFilter (integrationName : string) : Filter := {|
  f_id := "scope-integration"; f_field := f_integration; f_fieldPath := None; f_op := op_is;
  f_value := integrationName; f_removable := false; f_locked := Some true; f_optional := None;
  f_includeDescendants := None |}.
Definition makeLockedServiceFilter (serviceName : string) : Filter := {|
  f_id := "scope-service"; f_field := f_service; f_fieldPath := None; f_op := op_is;
  f_value := serviceName; f_removable := false; f_locked := Some true; f_optional := None;
  f_includeDescendants := None |}.

(** [detail?.integration.name ?? ""] *)
Definition lockedFilter (integrationName : option string) : option Filter :=
  if truthy_opt integrationName then Some (makeLockedIntegrationFilter (integrationName ?? "")) else None.

Definition unlocked (f : Filter) : bool := negb (flag (f_locked f)).

(** [onFiltersChange] *)
Definition tab_rows (next : list Filter) : list Filter := List.filter unlocked next.

(** [isDirty] of a tab. *)
Definition tab_dirty (active : option SavedView) (userFilters : list Filter) : bool :=
  match active with
  | None => negb (bool_decide (userFilters = []))
  | Some v => negb (filtersEqual (List.filter unlocked (sv_filters v)) userFilters)
  end.

(** [{ ...f, id: f.id || uid() }] *)
Definition with_id (n : nat) (f : Filter) : Filter :=
  if truthy (f_id f) then f else {|
    f_id := uid n; f_field := f_field f; f_fieldPath := f_fieldPath f; f_op := f_op f; f_value := f_value f;
    f_removable := f_removable f; f_locked := f_locked f; f_optional := f_optional f;
    f_includeDescendants := f_includeDescendants f |}.

(** [loadView]: the rows of the user after a view is opened. *)
Definition loadView (v : SavedView) : list Filter :=
  imap with_id (List.filter (fun f => unlocked f && not_time (f_field f)) (sv_filters v)).

Definition scope_is (f : MessageViewScope -> option string) (id : string) (v : SavedView) : bool :=
  match sv_scope v with Some sc => bool_decide (f sc = Some id) | None => false end.
Definition scope_names (f : MessageViewScope -> option string) (v : SavedView) : bool :=
  match sv_scope v with Some sc => truthy_opt (f sc) | None => false end.

Definition scopedViews_integration (id : string) (allViews : list SavedView) : list SavedView :=
  List.filter (scope_is vs_integrationId id) allViews.
Definition globalViews_integration (allViews : list SavedView) : list SavedView :=
  List.filter (fun v => negb (scope_names vs_integrationId v)) allViews.
Definition scopedViews_service (serviceName : string) (allViews : list SavedView) : list SavedView :=
  List.filter (scope_is vs_serviceId serviceName) allViews.
Definition globalViews_service (allViews : list SavedView) : list SavedView :=
  List.filter (fun v => negb (scope_names vs_serviceId v) && negb (scope_names vs_integrationId v)) allViews.

(** The bodies [onSaveAsView] posts. *)
Definition integration_scope (id : string) : MessageViewScope := {| vs_integrationId := Some id; vs_serviceId := None |}.
Definition save_integration_view (id : string) (locked : option Filter) (userFilters : list Filter)
    (messageColumns : list MessageColumn) (values : SaveAsViewValues) : CreateMessageViewRequest :=
  create_from values (filtersToWire_scoped (match locked with Some l => l :: userFilters | None => userFilters end))
    (Some (integration_scope id)) (if bool_decide (messageColumns = []) then None else Some messageColumns).
Definition save_service_view (serviceName : string) (userFilters : list Filter) (values : SaveAsViewValues) :
    CreateMessageViewRequest :=
  create_from values (filtersToWire_scoped (makeLockedServiceFilter serviceName :: userFilters))
    (Some {| vs_integrationId := None; vs_serviceId := Some serviceName |}) None.

(** The body the columns editor puts when a view is open. *)
Definition save_columns (id : string) (locked : option Filter) (userFilters : list Filter) (v : SavedView)
    (cols : list MessageColumn) : UpdateMessageViewRequest := {|
  uv_name := sv_name v; uv_description := sv_description v; uv_pinned := sv_pinned v;
  uv_filters := filtersToWire_scoped (match locked with Some l => l :: userFilters | None => userFilters end);
  uv_scope := Some (integration_scope id); uv_messageColumns := Some cols |}.
End tab.

(** ** The fields and columns of the integration's tab *)

Definition INTEGRATION_FILTER_FIELDS : list Field := [f_payload; f_status; f_service; f_errorType; f_traceId; f_spanId].

Definition offeredFields (filters : option (list MessageColumn)) : list Field :=
  let builtins := mc_key <$> List.filter (fun f => bool_decide (mc_kind f = Some "builtin")) (filters ?? []) in
  if bool_decide (builtins = []) then INTEGRATION_FILTER_FIELDS
  else List.filter (fun f => bool_decide (f = f_payload) || existsb (fun k => k =s show_field f) builtins)
         INTEGRATION_FILTER_FIELDS.

Definition builtin_col (key label : string) : MessageColumn := {| mc_kind := Some "builtin"; mc_key := key; mc_label := label |}.
Definition DEFAULT_COLUMNS_WHILE_LOADING : list MessageColumn :=
  [builtin_col "msg_id" "msg id"; builtin_col "service" "service"; builtin_col "step" "step"; builtin_col "duration" "duration"].
Definition columns (messageColumns : list MessageColumn) : list MessageColumn :=
  match messageColumns with [] => DEFAULT_COLUMNS_WHILE_LOADING | _ => messageColumns end.

Definition columnWidth (c : MessageColumn) : string :=
  if negb (bool_decide (mc_kind c = Some "builtin")) then "minmax(112px,1fr)"
  else if mc_key c =s "msg_id" then "150px"
  else if (mc_key c =s "service") || (mc_key c =s "step") then "minmax(110px,0.9fr)"
  else if mc_key c =s "duration" then "80px" else "minmax(90px,1fr)".

(** [/(?:\.|::)([^.:]+)$/]: what follows the last dot or pair of colons, when
    it is not empty and holds neither character. *)
Fixpoint last_part (s : string) : option string :=
  match s with
  | "" => None
  | String c rest =>
      let plain x := truthy x && no_char "." x && no_char ":" x in
      if Ascii.eqb c "." && plain rest then Some rest
      else if Ascii.eqb c ":" && startsWith rest ":" && plain (slice_from 1 rest) then Some (slice_from 1 rest)
      else last_part rest
  end.
Definition shortExceptionType (t : string) : string := last_part t ?? t.

(** The rows offered on a first visit.  [seededDefaults] is the flag of the
    effect; the result is the flag and the rows. *)
Definition seed_row (f : MessageColumn) : Filter := {|
  f_id := tpl ["seed-"; mc_key f]; f_field := f_payload; f_fieldPath := Some (mc_key f); f_op := op_equals;
  f_value := ""; f_removable := true; f_locked := None; f_optional := None; f_includeDescendants := None |}.
Definition seed_defaults (message_filters : option (list MessageColumn)) (active : option SavedView)
    (seededDefaults : bool) (cur : list Filter) : bool * list Filter :=
  if seededDefaults || match active with Some _ => true | None => false end then (seededDefaults, cur)
  else match List.filter (fun f => negb (bool_decide (mc_kind f = Some "builtin")) && truthy (mc_key f))
               (message_filters ?? []) with
       | [] => (seededDefaults, cur)
       | configured => (true, match cur with [] => seed_row <$> configured | _ => cur end)
       end.

(** ** The view on screen is on the rail *)

Section invariant.
Context (uid : nat -> string) (initialParams : params).
Implicit Types r : Rail.

Definition ids (vs : list SavedView) : list string := sv_id <$> vs.

Lemma find_view_ids id vs : id ∈ ids vs <-> exists v, find_view id vs = Some v.
Proof.
  unfold ids, find_view. induction vs as [|v vs IH]; cbn; [split; [intros []%not_elem_of_nil|intros []; done]|].
  rewrite elem_of_cons. destruct (String.eqb_spec (sv_id v) id) as [E|E]; cbn.
  - split; [by exists v|by left].
  - rewrite <- IH. split; [intros [?|?]; [congruence|done]|by right].
Qed.

Lemma find_view_id id vs v : find_view id vs = Some v -> sv_id v = id.
Proof. intros H. apply List.find_some in H as [_ H]. by apply String.eqb_eq. Qed.

Lemma find_view_elem id vs v : find_view id vs = Some v -> id ∈ ids vs.
Proof. intros H. apply find_view_ids. by exists v. Qed.

Lemma replace_view_elem id w vs : id ∈ ids vs -> sv_id w ∈ ids (replace_view id w vs).
Proof.
  unfold ids, replace_view. rewrite <- list_fmap_compose. intros H. apply list_elem_of_fmap in H as (v & -> & H).
  apply list_elem_of_fmap. exists v. split; [|done]. cbn. by rewrite String.eqb_refl.
Qed.

Lemma replace_view_ids id w vs : sv_id w = id -> ids (replace_view id w vs) = ids vs.
Proof.
  intros Hw. unfold ids, replace_view. rewrite <- list_fmap_compose. apply list_fmap_ext. intros i v _. cbn.
  destruct (String.eqb_spec (sv_id v) id); congruence.
Qed.

Lemma remaining_elem id x vs : x <> id -> x ∈ ids vs -> x ∈ ids (List.filter (fun v => negb (sv_id v =s id)) vs).
Proof.
  unfold ids. intros Hx H. apply list_elem_of_fmap in H as (v & -> & H). apply list_elem_of_fmap. exists v.
  split; [done|]. apply list_elem_of_In, List.filter_In. split; [by apply list_elem_of_In|].
  apply negb_true_iff. by apply String.eqb_neq.
Qed.

Lemma appended_elem v vs : sv_id v ∈ ids (vs ++ [v]).
Proof. unfold ids. rewrite fmap_app. apply elem_of_app. right. cbn. by apply list_elem_of_singleton. Qed.

(** The rail points at one of its views. *)
Definition points r : Prop := exists a, activeId r = Some a /\ a ∈ ids (views r).

Lemma points_active r : points r <-> activeView r <> None.
Proof.
  unfold points, activeView. destruct (activeId r) as [a|]; [|split; [intros (? & ? & ?)|]; done].
  split.
  - intros (? & [= <-] & H). apply find_view_ids in H as [v ->]. done.
  - destruct (find_view a (views r)) as [v|] eqn:E; [|done]. intros _. exists a. split; [done|]. by eapply find_view_elem.
Qed.

(** At most one request is on its way, and nothing it captured has changed. *)
Definition in_step r : Prop :=
  match pending r with
  | [] => True
  | [p] => pe_views p = views r /\ pe_active p = activeId r /\
      match pe_op p with PSave v => activeId r = Some (sv_id v) | _ => True end
  | _ => False
  end.
Definition good r : Prop := points r /\ in_step r.

(** Before the views are loaded the user may edit the rows; afterwards, while a request
    is on its way, edit them or put them back. *)
Inductive orderly : Rail -> Prop :=
| orderly_loaded es a : orderly (loaded uid initialParams a (foldl (fun r fs => changeFilters fs r) opened_rail es))
| orderly_idle r e : orderly r -> pending r = [] -> (match e with Loaded _ => False | _ => True end) ->
    orderly (rail_step uid initialParams r e)
| orderly_busy r e : orderly r -> (match e with Edit _ | Reset | Reply _ _ => True | _ => False end) ->
    orderly (rail_step uid initialParams r e).

Lemma open_blank_good vs fs r : pending r = [] -> good (open_blank uid vs fs r).
Proof.
  intros Hp. split.
  - eexists. split; [reflexivity|]. apply appended_elem.
  - unfold in_step. cbn. by rewrite Hp.
Qed.

Lemma loaded_good a r : activeId r = None -> pending r = [] -> good (loaded uid initialParams a r).
Proof.
  intros Ha Hp. unfold loaded. destruct a as [m|vs]; [by apply open_blank_good|].
  cbn zeta. set (mapped := views_from_wire uid _ _). set (r' := draw _ r).
  assert (Hp' : pending r' = []) by exact Hp. assert (Ha' : activeId r' = None) by exact Ha.
  destruct (userEditedFilters r').
  { split; [|unfold in_step; cbn; by rewrite Hp].
    eexists. split; [reflexivity|]. rewrite Ha'. apply appended_elem. }
  set (urlFilters := hydrateFiltersFromUrl _ _).
  assert (Hshow : forall v, sv_id v ∈ ids mapped ->
    good (show mapped (Some (sv_id v)) (sv_filters v) (draw (length urlFilters) r'))).
  { intros v Hv. split; [by eexists|]. unfold in_step. cbn. by rewrite Hp. }
  case_match eqn:Ht.
  - apply Hshow. case_match; [|done]. case_match; [|done].
    rewrite (find_view_id _ _ _ Ht). by eapply find_view_elem.
  - destruct urlFilters; [|by apply open_blank_good]. destruct mapped as [|first rest]; [by apply open_blank_good|].
    apply Hshow. unfold ids. cbn. apply elem_of_cons. by left.
Qed.

Lemma remove_view_good vs id r :
  pending r = [] -> vs = views r -> points r -> good (remove_view uid vs (activeId r) id r).
Proof.
  intros Hp -> (a & Ha & Hin). unfold remove_view.
  destruct (List.filter _ (views r)) as [|first rest] eqn:E; [by apply open_blank_good|].
  case_bool_decide as Hd; (split; [|unfold in_step; cbn; by rewrite Hp]).
  - eexists. split; [reflexivity|]. unfold ids. cbn. apply elem_of_cons. by left.
  - exists a. split; [done|]. cbn [views show]. rewrite <- E. apply remaining_elem; [congruence|done].
Qed.

Lemma edit_good fs r : good r -> good (changeFilters fs r).
Proof. intros [H1 H2]. split; [exact H1|exact H2]. Qed.
Lemma reset_good r : good r -> good (onReset r).
Proof. intros [H1 H2]. unfold onReset. destruct (activeView r); split; done. Qed.

Lemma replied_good p a r :
  pending r = [] -> points r -> pe_views p = views r -> pe_active p = activeId r ->
  match pe_op p with PSave v => activeId r = Some (sv_id v) | _ => True end ->
  good (replied uid p a r).
Proof.
  intros Hp Hpt Hv Ha Hop. destruct Hpt as (x & Hx & Hin). unfold replied.
  destruct (pe_op p) as [v| | |id], a as [m|w];
    try (split; [by exists x|unfold in_step; cbn; by rewrite Hp]).
  - assert (x = sv_id v) as -> by congruence.
    destruct (isDraft (Some v)); (split; [|unfold in_step; cbn; by rewrite Hp]).
    + eexists. split; [reflexivity|]. cbn [views show]. rewrite Hv. by apply replace_view_elem.
    + exists (sv_id v). split; [exact Hx|]. cbn [views show]. rewrite Hv, replace_view_ids by done. done.
  - split; [|unfold in_step; cbn; by rewrite Hp].
    eexists. split; [reflexivity|]. cbn [activeId views show set_flags]. rewrite Hv. apply appended_elem.
  - rewrite Ha. apply remove_view_good; [done|done|]. by exists x.
Qed.

Lemma idle_good r e :
  good r -> pending r = [] -> match e with Loaded _ => False | _ => True end -> good (rail_step uid initialParams r e).
Proof.
  intros [Hpt Hst] Hp He. pose proof Hpt as (x & Hx & Hin).
  assert (Hone : forall r' op s, activeId r' = Some x -> x ∈ ids (views r') -> pending r' = [] ->
    match op with PSave v => sv_id v = x | _ => True end -> good (send op s r')).
  { intros r' op s Ha Hi Hp' Hop. split; [by exists x|]. unfold in_step. cbn. rewrite Hp'. cbn.
    split; [done|]. split; [done|]. destruct op; [|done..]. rewrite Ha. by f_equal. }
  destruct e as [a|fs|id| | |id| |values|name|i a]; cbn [rail_step]; [done| | | | | | | | |].
  - by apply edit_good.
  - unfold selectView. destruct (find_view id (views r)) as [v|] eqn:E; [|done].
    split; [|unfold in_step; cbn; by rewrite Hp]. exists id. split; [done|]. by eapply find_view_elem.
  - by apply open_blank_good.
  - by apply reset_good.
  - unfold onDeleteView. destruct (find_view id (views r)) as [v|]; [|done].
    destruct (isDraft (Some v)); [by apply remove_view_good|by apply Hone].
  - unfold onSave, activeView. rewrite Hx. destruct (find_view x (views r)) as [v|] eqn:E; [|done].
    apply find_view_id in E. by destruct (isDraft (Some v)); apply Hone.
  - by apply Hone.
  - unfold onRename, activeView. rewrite Hx. destruct (find_view x (views r)) as [v|] eqn:E; [|done].
    apply find_view_id in E as <-. destruct name as [name|]; [|done]. destruct (truthy name); [|done].
    assert (Hi : sv_id v ∈ ids (replace_view (sv_id v) (rename_to name v) (views r))) by by rewrite replace_view_ids.
    destruct (isDraft (Some v)); [|by apply Hone].
    split; [by exists (sv_id v)|]. unfold in_step. cbn. by rewrite Hp.
  - rewrite Hp. done.
Qed.

Lemma busy_good r e :
  good r -> match e with Edit _ | Reset | Reply _ _ => True | _ => False end -> good (rail_step uid initialParams r e).
Proof.
  intros Hg He. destruct e as [a|fs|id| | |id| |values|name|i a]; try (destruct He; fail); cbn [rail_step].
  - by apply edit_good.
  - by apply reset_good.
  - destruct (List.find (asked i) (pending r)) as [p|] eqn:E; [|done]. destruct Hg as [Hpt Hst].
    unfold in_step in Hst. destruct (pending r) as [|q [|]] eqn:Hp; [done| |done].
    cbn [List.find] in E. destruct (asked i q) eqn:Hq; [|done]. injection E as ->. cbn [List.filter]. rewrite Hq. cbn [negb].
    destruct Hst as (H1 & H2 & H3). by apply replied_good.
Qed.

(** As long as a request is answered before the next begins, and no view is added before
    the saved ones are loaded, the view on screen is one of the rail. *)
Theorem active_view_stays_on_rail r : orderly r -> activeView r <> None.
Proof.
  intros H. apply points_active. enough (good r) as [? _] by done.
  induction H as [es a|r e _ IH Hp He|r e _ IH He]; [|by apply idle_good|by apply busy_good].
  assert (Hes : activeId (foldl (fun r fs => changeFilters fs r) opened_rail es) = None /\
    pending (foldl (fun r fs => changeFilters fs r) opened_rail es) = []).
  { induction es as [|fs es IH] using rev_ind; [done|]. by rewrite foldl_app. }
  destruct Hes. by apply loaded_good.
Qed.
End invariant.

(** ** Requests and edits that cross *)

Section crossing.
Context (uid : nat -> string) (initialParams : params).
Implicit Types r : Rail.

Lemma find_view_not id vs : id ∉ ids vs -> find_view id vs = None.
Proof.
  intros H. destruct (find_view id vs) eqn:E; [|done]. exfalso. apply H. by eapply find_view_elem.
Qed.

(** A view added while a stored view is being saved leaves the rail when the answer
    comes, and the page is left with no view: the handler puts back the rail it
    captured. *)
Theorem view_added_during_save_is_lost r v w :
  activeView r = Some v -> isDraft (Some v) = false -> pending r = [] -> mv_id w = sv_id v ->
  sv_id (blankView (uid (drawn r))) ∉ ids (views r) ->
  let r' := rail_runs uid initialParams r [Save; Create; Reply (length (log r)) (inr w)] in
  ids (views r') = ids (views r) /\ activeView r' = None.
Proof.
  intros Ha Hd Hp Hw Hf. unfold rail_runs. cbn [foldl rail_step].
  unfold onSave. rewrite Ha, Hd. cbn -[isDraft blankView replace_view]. rewrite Hp. cbn -[isDraft blankView replace_view].
  unfold asked. cbn -[isDraft blankView replace_view]. rewrite Nat.eqb_refl. cbn -[isDraft blankView replace_view].
  unfold replied. cbn -[blankView replace_view isDraft]. rewrite Hd.
  assert (Hi : ids (replace_view (sv_id (from_wire uid w (drawn r + 1))) (from_wire uid w (drawn r + 1)) (views r)) = ids (views r)).
  { by apply replace_view_ids. }
  split; [exact Hi|]. unfold activeView. cbn -[isDraft blankView replace_view]. apply find_view_not. unfold ids in *.
  cbn -[isDraft blankView replace_view] in Hi. rewrite Hi. exact Hf.
Qed.

(** A view added and edited before the saved views are loaded is not on the rail afterwards,
    though it is still the one that is open. *)
Theorem view_added_before_load_is_lost fs vs :
  sv_id (blankView (uid 0)) ∉ ids (views_from_wire uid vs 1) -> uid (1 + wire_draws vs) <> uid 0 ->
  let r := rail_runs uid initialParams opened_rail [Create; Edit fs; Loaded (inr (Some vs))] in
  draftFilters r = fs /\ activeView r = None.
Proof.
  intros Hf Hu. unfold rail_runs. cbn [foldl rail_step]. split; [done|].
  unfold loaded. cbn -[blankView views_from_wire wire_draws]. unfold activeView. cbn -[blankView views_from_wire wire_draws].
  apply find_view_not. unfold ids. rewrite fmap_app. intros [H|H]%elem_of_app; [by apply Hf|].
  cbn -[wire_draws] in H. apply list_elem_of_singleton in H. injection H as H. rewrite !sapp_nil_r in H. by apply Hu.
Qed.

(** The rows edited before the saved views are loaded stay when the request succeeds and are
    dropped when it fails. *)
Theorem early_edits_survive_success_only es fs vs m :
  let edited := foldl (fun r fs => changeFilters fs r) opened_rail (es ++ [fs]) in
  draftFilters (loaded uid initialParams (inr vs) edited) = fs /\
  draftFilters (loaded uid initialParams (inl m) edited) = [].
Proof. cbn zeta. rewrite foldl_app. cbn [foldl]. split; reflexivity. Qed.

(** What a link opens: the view it names, or its rows on a new draft, or the first view. *)
Theorem deep_link_priority vs r :
  userEditedFilters r = false ->
  let mapped := views_from_wire uid vs (drawn r) in
  let wanted := match usp_get initialParams "view" with
                | Some w => if truthy w then find_view w mapped else None | None => None end in
  let rows := hydrateFiltersFromUrl (fun i => uid (drawn r + wire_draws vs + i)) (usp_toString initialParams) in
  let r' := loaded uid initialParams (inr (Some vs)) r in
  match wanted with
  | Some v => activeView r' = Some v /\ draftFilters r' = sv_filters v /\ views r' = mapped
  | None => if decide (rows = [])
            then match mapped with
                 | [] => draftFilters r' = [] /\ ids (views r') = [sv_id (blankView (uid (drawn r + wire_draws vs)))]
                 | v :: _ => activeId r' = Some (sv_id v) /\ draftFilters r' = sv_filters v /\ views r' = mapped
                 end
            else draftFilters r' = rows /\ exists n, views r' = mapped ++ [blankView (uid n)]
  end.
Proof.
  intros He. cbn zeta. unfold loaded. change (Some vs ?? []) with vs. cbn zeta.
  set (mapped := views_from_wire uid vs (drawn r)). cbn [userEditedFilters draw drawn]. rewrite He.
  set (rows := hydrateFiltersFromUrl _ _).
  set (wanted := match usp_get initialParams "view" with Some w => _ | None => _ end).
  destruct wanted as [v|] eqn:Hw.
  - split; [|done]. unfold activeView. cbn [activeId views show]. subst wanted.
    destruct (usp_get initialParams "view") as [w|]; [|done]. destruct (truthy w); [|done].
    by rewrite (find_view_id _ _ _ Hw).
  - destruct rows as [|f rows'] eqn:Hr; destruct (decide _); try done.
    + destruct mapped; [|done]. cbn -[blankView wire_draws]. rewrite Nat.add_0_r. done.
    + split; [done|]. by eexists.
Qed.

Lemma filtersEqual_refl fs : filtersEqual fs fs = true.
Proof.
  unfold filtersEqual. rewrite Nat.eqb_refl. cbn. induction fs as [|f fs IH]; [done|]. cbn. rewrite IH.
  unfold row_equal. by rewrite !bool_decide_eq_true_2, String.eqb_refl.
Qed.

Definition locked_rows (fs : list Filter) : list Filter := List.filter (fun f => flag (f_locked f)) fs.

(** Opening a view from the rail frees its locked rows; resetting it locks them again, as does
    opening it by a link. *)
Theorem reset_locks_rows_again r id v :
  find_view id (views r) = Some v ->
  let opened := selectView id r in
  locked_rows (draftFilters opened) = [] /\ draftFilters (onReset opened) = sv_filters v.
Proof.
  intros Hv. unfold selectView. rewrite Hv. cbn zeta. split.
  - cbn. unfold locked_rows. induction (sv_filters v) as [|f fs IH]; [done|]. cbn. rewrite IH.
    unfold unlock. destruct (flag (f_locked f)) eqn:E; cbn; [done|]. by rewrite E.
  - unfold onReset, activeView. cbn [activeId views show]. by rewrite Hv.
Qed.
End crossing.

(** ** A save leaves nothing unsaved *)

(** What [filtersEqual] compares. *)
Definition row_key (f : Filter) : Field * option string * Operator * string := (f_field f, f_fieldPath f, f_op f, f_value f).
Definition wire_key (f : MessageFilter) : Field * option string * Operator * string := (w_field f, w_fieldPath f, w_op f, w_value f).
Definition row_keys (fs : list Filter) := row_key <$> fs.

Lemma equal_keys a b : filtersEqual a b = true <-> row_keys a = row_keys b.
Proof. apply filtersEqual_spec. Qed.

Lemma view_filters_keys uid (p : Filter -> bool) ws :
  (forall n w, p (filter_from_wire (uid n) w) = p (filter_from_wire "" w)) ->
  row_keys (List.filter p (view_filters uid ws))
  = wire_key <$> List.filter (fun w => not_time (w_field w) && p (filter_from_wire "" w)) ws.
Proof.
  unfold view_filters. intros Hp. 
  assert (H : forall k l, row_keys (List.filter p (imap (fun n f => filter_from_wire (uid (k + n)) f) l))
    = wire_key <$> List.filter (fun w => p (filter_from_wire "" w)) l).
  { intros k l. revert k. induction l as [|w l IH]; intros k; [done|]. rewrite imap_cons. cbn [List.filter].
    rewrite Hp. specialize (IH (S k)). rewrite <- (imap_ext (fun n f => filter_from_wire (uid (k + S n)) f)) in IH
      by (intros; do 2 f_equal; lia).
    destruct (p (filter_from_wire "" w)); [|exact IH]. unfold row_keys in *. rewrite !fmap_cons. by f_equal. }
  rewrite (H 0). f_equal. induction ws as [|w ws IH]; [done|]. cbn.
  destruct (not_time (w_field w)); cbn; [|done]. destruct (p _); cbn; by rewrite IH.
Qed.

Lemma wire_keys b fs : wire_key <$> (filter_to_wire b <$> fs) = row_keys fs.
Proof. unfold row_keys. rewrite <- list_fmap_compose. done. Qed.

Lemma row_keys_filter p fs : row_keys (List.filter p fs) = row_keys fs <-> forallb p fs = true.
Proof.
  split.
  - intros H%(f_equal length). unfold row_keys in H. rewrite !length_fmap in H.
    induction fs as [|f fs IH]; [done|]. cbn in *. destruct (p f); cbn in *; [apply IH; lia|].
    pose proof (List.filter_length_le p fs). lia.
  - intros H. rewrite filterb_all; [done|]. intros f Hf. rewrite List.forallb_forall in H. by apply H, list_elem_of_In.
Qed.

Lemma find_replaced old w vs :
  (sv_id w = old \/ sv_id w ∉ ids vs) -> old ∈ ids vs -> find_view (sv_id w) (replace_view old w vs) = Some w.
Proof.
  intros Hw. unfold ids, find_view, replace_view. induction vs as [|v vs IH]; cbn; [by intros []%elem_of_nil|].
  intros Hin. destruct (String.eqb_spec (sv_id v) old) as [E|E]; cbn.
  - by rewrite String.eqb_refl.
  - destruct (String.eqb_spec (sv_id v) (sv_id w)) as [E'|E'].
    + exfalso. destruct Hw as [Hw|Hw]; [congruence|]. apply Hw. cbn. rewrite E'. apply elem_of_cons. by left.
    + apply IH; [destruct Hw as [?|Hw]; [by left|right; contradict Hw; cbn; apply elem_of_cons; by right]|].
      apply elem_of_cons in Hin as [?|?]; [congruence|done].
Qed.

(** Saving on the Messages page: when the server answers with the rows it was sent and keeps the
    identifier of a stored view, nothing is left unsaved. *)
Theorem saved_view_is_clean uid ps r v w :
  activeView r = Some v -> pending r = [] -> mv_filters w = filtersToWire (draftFilters r) ->
  forallb (fun f => not_time (f_field f)) (draftFilters r) = true ->
  (if isDraft (Some v) then mv_id w ∉ ids (views r) else mv_id w = sv_id v) ->
  let r' := rail_runs uid ps r [Save; Reply (length (log r)) (inr w)] in
  isDirty r' = false /\ saving r' = false /\ pending r' = [] /\ draftFilters r' = draftFilters r.
Proof.
  intros Ha Hp Hw Ht Hid. set (v' := from_wire uid w (drawn r)).
  assert (Hin : sv_id v ∈ ids (views r)).
  { unfold activeView in Ha. destruct (activeId r); [|done]. rewrite (find_view_id _ _ _ Ha). by eapply find_view_elem. }
  assert (Hclean : forall r1, activeId r1 = Some (sv_id v') -> views r1 = replace_view (sv_id v) v' (views r) ->
    draftFilters r1 = draftFilters r -> isDirty r1 = false).
  { intros r1 H1 H2 H3. unfold isDirty, activeView. rewrite H1, H2, H3, find_replaced; [|..|done].
    - apply negb_false_iff, equal_keys.
      change (sv_filters v') with (view_filters (fun i => uid (drawn r + i)) (mv_filters w)). rewrite Hw.
      pose proof (view_filters_keys (fun i => uid (drawn r + i)) (fun _ => true) (filtersToWire (draftFilters r)) ltac:(done)) as HK.
      rewrite (filterb_all _ (view_filters _ _)) in HK by done. rewrite HK.
      rewrite filterb_all; [|]; unfold filtersToWire; rewrite (filterb_all _ (draftFilters r)).
      + symmetry. apply wire_keys.
      + intros f Hf. rewrite List.forallb_forall in Ht. by apply Ht, list_elem_of_In.
      + intros x Hx. apply list_elem_of_fmap in Hx as (f & -> & Hf). cbn. rewrite andb_true_r.
        rewrite List.forallb_forall in Ht. by apply Ht, list_elem_of_In.
      + intros f Hf. rewrite List.forallb_forall in Ht. by apply Ht, list_elem_of_In.
    - destruct (isDraft (Some v)); [by right|by left]. }
  assert (Hact : activeId r = Some (sv_id v)).
  { unfold activeView in Ha. destruct (activeId r); [|done]. by rewrite (find_view_id _ _ _ Ha). }
  unfold rail_runs. cbn [foldl rail_step]. unfold onSave. rewrite Ha.
  destruct (isDraft (Some v)) eqn:Hd; cbn -[isDraft replace_view isDirty from_wire];
    rewrite Hp; cbn -[isDraft replace_view isDirty from_wire]; unfold asked; cbn -[isDraft replace_view isDirty from_wire];
    rewrite Nat.eqb_refl; cbn -[isDraft replace_view isDirty from_wire]; unfold replied;
    cbn -[isDraft replace_view isDirty from_wire]; rewrite Hd; (split; [|done]); apply Hclean; try done.
  - cbn. by rewrite Hact, Hid.
  - cbn -[replace_view]. fold v'. change (sv_id v') with (mv_id w). by rewrite Hid.
Qed.

(** The free rows of a view a tab saved: those that were neither muted nor of the old time field. *)
Definition kept_row (f : Filter) : bool := negb (flag (f_optional f)) && not_time (f_field f).

Lemma scoped_keys uid (q : Filter -> bool) l fs :
  (forall u w, not_time (w_field w) = true -> q (filter_from_wire u w) = negb (flag (w_locked w))) ->
  flag (f_locked l) = true -> forallb unlocked fs = true ->
  row_keys (List.filter (fun f => not_time (f_field f) && q f) (view_filters uid (filtersToWire_scoped (l :: fs))))
  = row_keys (List.filter kept_row fs).
Proof.
  intros Hq Hl Hu. rewrite view_filters_keys.
  2: { intros n w. cbn. destruct (not_time (w_field w)) eqn:E; [|done]. cbn. by rewrite !Hq. }
  unfold filtersToWire_scoped. fold kept_row. change (List.filter _ (l :: fs)) with (List.filter kept_row (l :: fs)).
  assert (HF : forall gs, wire_key <$> List.filter (fun w => not_time (w_field w) && (not_time (f_field (filter_from_wire "" w)) &&
      q (filter_from_wire "" w))) (filter_to_wire false <$> List.filter kept_row gs)
    = row_keys (List.filter unlocked (List.filter kept_row gs))).
  { induction gs as [|g gs IH]; [done|]. cbn [List.filter]. destruct (kept_row g) eqn:Hg; [|done].
    unfold kept_row in Hg. apply andb_true_iff in Hg as [_ Hg]. cbn [fmap list_fmap List.filter] in *.
    cbn [filter_to_wire w_field filter_from_wire f_field]. rewrite Hg, Hq by done. cbn [andb].
    unfold unlocked at 1. cbn [filter_to_wire w_locked]. destruct (negb (flag (f_locked g))); [|done].
    unfold row_keys in *. cbn [fmap list_fmap]. by f_equal. }
  rewrite HF. cbn [List.filter]. assert (HU : List.filter unlocked (List.filter kept_row fs) = List.filter kept_row fs).
  { apply filterb_all. intros f Hf. apply filterb_elem in Hf as [Hf _].
    rewrite List.forallb_forall in Hu. by apply Hu, list_elem_of_In. }
  destruct (kept_row l); cbn [List.filter]; [|by rewrite HU]. unfold unlocked at 1. rewrite Hl. cbn [negb]. by rewrite HU.
Qed.

(** A view holds no row of the old time field. *)
Lemma view_filters_no_time uid (q : Filter -> bool) ws :
  List.filter q (view_filters uid ws) = List.filter (fun f => not_time (f_field f) && q f) (view_filters uid ws).
Proof.
  apply List.filter_ext_in. intros f Hf. apply list_elem_of_In in Hf. unfold view_filters in Hf.
  apply elem_of_lookup_imap in Hf as (i & w & -> & Hw). cbn.
  apply list_elem_of_lookup_2, filterb_elem in Hw as [_ ->]. done.
Qed.

(** Saving a view on the integration's tab leaves the page dirty exactly when it held a muted row
    (or a row of the old time field): such a row is shown and not saved. *)
Theorem tab_dirty_after_save_iff uid id name fs cols values w :
  forallb unlocked fs = true ->
  mv_filters w = cv_filters (save_integration_view id (Some (makeLockedIntegrationFilter name)) fs cols values) ->
  tab_dirty (Some (viewFromWire_integration uid w)) fs
  = existsb (fun f => flag (f_optional f) || negb (not_time (f_field f))) fs.
Proof.
  intros Hu Hw. cbn [tab_dirty]. cbn [viewFromWire_integration sv_filters]. rewrite Hw, view_filters_no_time.
  transitivity (negb (forallb kept_row fs)).
  - f_equal. apply eq_true_iff_eq. rewrite equal_keys. cbn [save_integration_view create_from cv_filters].
    rewrite scoped_keys by done. apply row_keys_filter.
  - clear. induction fs as [|f fs IH]; [done|]. cbn. rewrite <- IH. unfold kept_row.
    by destruct (flag (f_optional f)), (not_time (f_field f)).
Qed.

Lemma with_id_keys uid l : row_keys (imap (with_id uid) l) = row_keys l.
Proof.
  unfold row_keys. rewrite fmap_imap. rewrite <- imap_const. apply imap_ext. intros i f _. cbn.
  unfold with_id. by destruct (truthy (f_id f)).
Qed.

(** A view saved on a service's tab is listed among the global views of every integration, and opening it
    there leaves out the service it was saved for. *)
Theorem service_view_loses_service uid service fs values w n (vs : list SavedView) :
  forallb unlocked fs = true ->
  mv_filters w = cv_filters (save_service_view service fs values) ->
  mv_scope w = cv_scope (save_service_view service fs values) ->
  let v := viewFromWire_integration uid w in
  v ∈ vs -> v ∈ globalViews_integration vs /\ row_keys (loadView n v) = row_keys (List.filter kept_row fs).
Proof.
  intros Hu Hf Hs v Hv. split.
  - unfold globalViews_integration. apply filterb_elem. split; [done|]. unfold scope_names, v. cbn. by rewrite Hs.
  - unfold loadView. rewrite with_id_keys. unfold v. cbn [viewFromWire_integration sv_filters]. rewrite Hf, view_filters_no_time.
    cbn [save_service_view create_from cv_filters]. apply scoped_keys; [|done..].
    intros u x Hx. unfold unlocked. cbn. by rewrite Hx, andb_true_r.
Qed.

(** The columns editor of an integration's page replaces the open view whole: a global view
    becomes a view of that integration, gone from the global ones of every page, and the rows on
    screen, saved or not, become its rows. *)
Theorem saving_columns_moves_view uid id name fs v cols w (vs : list SavedView) :
  truthy id = true -> forallb unlocked fs = true ->
  let body := save_columns id (Some (makeLockedIntegrationFilter name)) fs v cols in
  mv_filters w = uv_filters body -> mv_scope w = uv_scope body ->
  let v' := viewFromWire_integration uid w in
  v' ∉ globalViews_integration vs /\ (forall other, other <> id -> v' ∉ scopedViews_integration other vs) /\
  row_keys (List.filter unlocked (sv_filters v')) = row_keys (List.filter kept_row fs).
Proof.
  intros Hid Hu body Hf Hs v'.
  assert (Hsc : sv_scope v' = Some (integration_scope id)).
  { unfold v'. cbn [viewFromWire_integration sv_scope]. rewrite Hs. cbn [body save_columns uv_scope].
    unfold scope_integration. cbn [integration_scope vs_integrationId]. unfold truthy_opt.
    change (Some id ?? "") with id. by rewrite Hid. }
  split; [|split].
  - intros [_ H]%filterb_elem. unfold scope_names in H. rewrite Hsc in H. cbn [integration_scope vs_integrationId] in H.
    unfold truthy_opt in H. change (Some id ?? "") with id in H. by rewrite Hid in H.
  - intros other Ho [_ H]%filterb_elem. unfold scope_is in H. rewrite Hsc in H. cbn in H.
    apply bool_decide_eq_true in H. congruence.
  - cbn [v' viewFromWire_integration sv_filters]. rewrite Hf, view_filters_no_time.
    cbn [body save_columns uv_filters]. by apply scoped_keys.
Qed.

(** ** Names, types, first visits *)

Lemma utf16_length_slice n s : utf16_length (utf16_slice_to n s) <= n.
Proof.
  revert n. induction s as [|c s IH]; intros n; cbn; [lia|].
  destruct (Nat.leb_spec (utf16_units c) n); cbn; [|lia]. specialize (IH (n - utf16_units c)). lia.
Qed.

Lemma utf16_length_appZ s t : utf16_length (s +:+ t) = utf16_length s + utf16_length t.
Proof. induction s as [|c s IH]; [done|]. cbn [utf16_length]. change ((String c s) +:+ t) with (String c (s +:+ t)). cbn [utf16_length]. rewrite IH. lia. Qed.

(** A value in a suggested name takes at most 24 characters, and is the whole value when it fits. *)
Theorem shortValue_fits v :
  utf16_length (shortValue v) <= 24 /\ (utf16_length (trim v) <= 24 -> shortValue v = trim v).
Proof.
  unfold shortValue. cbn zeta. destruct (Nat.leb_spec (utf16_length (trim v)) 24) as [H|H]; [done|].
  split; [|lia]. cbn [tpl]. rewrite !utf16_length_appZ. pose proof (utf16_length_slice 21 (trim v)).
  change (utf16_length "…") with 1. change (utf16_length "") with 0. lia.
Qed.

(** The dialog hands on what the server accepts: a name, and a team exactly for a team view. *)
Theorem dialog_values_fit d sb :
  save_disabled sb d = false ->
  exists v, handleSubmit d = Some v /\ va_name v <> "" /\
    (va_visibility v = vis_team <-> truthy_opt (va_groupId v) = true).
Proof.
  unfold save_disabled, handleSubmit. intros [[_ Hn]%orb_false_iff Hg]%orb_false_iff.
  apply negb_false_iff in Hn. rewrite Hn. eexists. split; [done|]. cbn. split.
  - intros E. by rewrite E in Hn.
  - case_bool_decide as Hv; cbn in Hg |- *.
    + apply negb_false_iff in Hg. split; [|done]. intros _. exact Hg.
    + split; [done|]. by intros [=].
Qed.

(** The short name of an exception type is the type itself or what follows its last separator. *)
Lemma last_part_spec t r :
  last_part t = Some r ->
  exists pre sep, t = pre +:+ sep +:+ r /\ (sep = "." \/ sep = "::") /\ r <> "" /\ no_char "." r = true /\ no_char ":" r = true.
Proof.
  revert r. induction t as [|c t IH]; [done|]. intros r. cbn [last_part].
  assert (Hplain : forall x, truthy x && no_char "." x && no_char ":" x = true ->
    x <> "" /\ no_char "." x = true /\ no_char ":" x = true).
  { intros x [[H1 H2]%andb_true_iff H3]%andb_true_iff. split; [|done]. intros ->. done. }
  destruct (Ascii.eqb c "." && _) eqn:E1.
  { intros [= <-]. apply andb_true_iff in E1 as [Hc Hp]. apply Ascii.eqb_eq in Hc as ->.
    exists "", ".". split; [done|]. split; [by left|]. by apply Hplain. }
  destruct (Ascii.eqb c ":" && startsWith t ":" && _) eqn:E2.
  { intros [= <-]. apply andb_true_iff in E2 as [[Hc Hs]%andb_true_iff Hp]. apply Ascii.eqb_eq in Hc as ->.
    destruct t as [|d t]; [done|]. exists "", "::". split; [|split; [by right|by apply Hplain]].
    unfold startsWith in Hs. cbn [String.prefix] in Hs. destruct (Ascii.ascii_dec ":" d) as [<-|]; [|discriminate].
    by destruct t. }
  intros H. apply IH in H as (pre & sep & -> & Hrest). exists (String c pre), sep. by split.
Qed.

Theorem shortExceptionType_is_end t :
  let r := shortExceptionType t in
  r = t \/ exists pre sep, t = pre +:+ sep +:+ r /\ (sep = "." \/ sep = "::") /\ r <> "" /\ no_char "." r = true /\ no_char ":" r = true.
Proof.
  cbn zeta. unfold shortExceptionType. destruct (last_part t) as [r|] eqn:E; [right|by left].
  by apply last_part_spec.
Qed.

(** The rows of a first visit are offered once, only on an empty editor without a view, and none
    of them restricts the search until it gets a value. *)
Theorem seeded_rows_wait mf active cur :
  let '(flag', rows) := seed_defaults mf active false cur in
  (rows <> cur -> cur = [] /\ active = None /\ flag' = true) /\
  (cur = [] -> Forall (fun f => effective f = false) rows) /\
  forall mf' cur', flag' = true -> seed_defaults mf' active flag' cur' = (true, cur').
Proof.
  unfold seed_defaults at 1. destruct active as [v|]; cbn [orb].
  { split; [done|]. split; [by intros ->|done]. }
  destruct (List.filter _ _) as [|c cs]; (split; [|split; [|by intros ? ? H; try discriminate H]]).
  - done.
  - by intros ->.
  - destruct cur; done.
  - intros ->. apply Forall_forall. intros f Hf. apply list_elem_of_fmap in Hf as (x & -> & _). done.
Qed.

(** ** Concrete pages *)

Definition ex_uid (n : nat) : string := show_Z (Z.of_nat n).
(** The rail with one stored view, opened and edited. *)
Definition ex_rail : Rail := loaded ex_uid [] (inr (Some [ex_view])) opened_rail.
Definition ex_edited : Rail := changeFilters [ex_row "order.id" op_equals "OTHER"] ex_rail.
Definition ex_reply : MessageView := {|
  mv_id := "v1"; mv_name := "mine"; mv_description := Some "d"; mv_mine := true; mv_pinned := true;
  mv_shared := false; mv_visibility := vis_org; mv_groupId := None; mv_groupName := None; mv_canManage := true;
  mv_filters := [filter_to_wire true (ex_row "order.id" op_equals "OTHER")]; mv_scope := None;
  mv_messageColumns := None; mv_resultCount := None; mv_lastEditedAt := "t"; mv_createdAt := "t"; mv_updatedAt := "t" |}.

Lemma active_view_stays_on_rail_witness :
  activeView (rail_step ex_uid [] ex_edited (DeleteView "v1")) <> None.
Proof.
  apply (active_view_stays_on_rail ex_uid []). apply orderly_idle; [|reflexivity|exact I].
  apply (orderly_busy ex_uid [] ex_rail (Edit _)); [|exact I]. exact (orderly_loaded ex_uid [] [] _).
Defined.

Lemma view_added_during_save_is_lost_witness :
  activeView (rail_runs ex_uid [] ex_edited [Save; Create; Reply 0 (inr ex_reply)]) = None.
Proof.
  refine (proj2 (view_added_during_save_is_lost ex_uid [] ex_edited
    (viewFromWire ex_uid ex_view) ex_reply eq_refl eq_refl eq_refl eq_refl _)).
  vm_compute. intros H%list_elem_of_singleton. discriminate.
Defined.

Lemma saved_view_is_clean_witness :
  isDirty ex_edited = true /\ isDirty (rail_runs ex_uid [] ex_edited [Save; Reply 0 (inr ex_reply)]) = false.
Proof.
  split; [reflexivity|].
  exact (proj1 (saved_view_is_clean ex_uid [] ex_edited (viewFromWire ex_uid ex_view) ex_reply
    eq_refl eq_refl eq_refl eq_refl eq_refl)).
Defined.

Definition ex_values : SaveAsViewValues :=
  {| va_name := "n"; va_description := ""; va_visibility := vis_org; va_groupId := None; va_pinned := false |}.
Definition with_body (fs : list MessageFilter) (s : option MessageViewScope) : MessageView := {|
  mv_id := "v1"; mv_name := "mine"; mv_description := None; mv_mine := true; mv_pinned := true;
  mv_shared := false; mv_visibility := vis_org; mv_groupId := None; mv_groupName := None; mv_canManage := true;
  mv_filters := fs; mv_scope := s;
  mv_messageColumns := None; mv_resultCount := None; mv_lastEditedAt := "t"; mv_createdAt := "t"; mv_updatedAt := "t" |}.

Definition ex_service_body := save_service_view "billing" [ex_row "order.id" op_equals "1"] ex_values.
Definition ex_service_view : MessageView := with_body (cv_filters ex_service_body) (cv_scope ex_service_body).

Lemma service_view_loses_service_witness :
  length (mv_filters ex_service_view) = 2 /\
  row_keys (loadView ex_uid (viewFromWire_integration ex_uid ex_service_view)) = row_keys [ex_row "order.id" op_equals "1"].
Proof.
  split; [reflexivity|].
  exact (proj2 (service_view_loses_service ex_uid "billing" [ex_row "order.id" op_equals "1"] ex_values ex_service_view ex_uid
    [viewFromWire_integration ex_uid ex_service_view] eq_refl eq_refl eq_refl (proj2 (list_elem_of_singleton _ _) eq_refl))).
Defined.

Definition ex_columns_body :=
  save_columns "i9" (Some (makeLockedIntegrationFilter "orders")) [ex_row "k" op_equals "unsaved"]
    (viewFromWire ex_uid (with_body [] None)) [].

Lemma saving_columns_moves_view_witness :
  row_keys (List.filter unlocked (sv_filters (viewFromWire_integration ex_uid (with_body (uv_filters ex_columns_body) (uv_scope ex_columns_body)))))
  = row_keys [ex_row "k" op_equals "unsaved"].
Proof.
  exact (proj2 (proj2 (saving_columns_moves_view ex_uid "i9" "orders" [ex_row "k" op_equals "unsaved"]
    (viewFromWire ex_uid (with_body [] None)) [] (with_body (uv_filters ex_columns_body) (uv_scope ex_columns_body)) []
    eq_refl eq_refl eq_refl eq_refl))).
Defined.

(** A muted row is left behind by a save on a tab. *)
Definition ex_muted_body :=
  save_integration_view "i9" (Some (makeLockedIntegrationFilter "orders"))
    [set_optional true (ex_row "k" op_equals "")] [] ex_values.

Lemma tab_dirty_after_save_iff_witness :
  tab_dirty (Some (viewFromWire_integration ex_uid (with_body (cv_filters ex_muted_body) (cv_scope ex_muted_body))))
    [set_optional true (ex_row "k" op_equals "")] = true.
Proof.
  exact (tab_dirty_after_save_iff ex_uid "i9" "orders" [set_optional true (ex_row "k" op_equals "")] [] ex_values
    (with_body (cv_filters ex_muted_body) (cv_scope ex_muted_body)) eq_refl eq_refl).
Defined.
