(* ===== verification/Checks.v ===== *)
(** * Health checks

    What the frontend says and decides about checks and alerts: the condition
    of a rule in words, default names, deletion warnings, the buckets of the
    errors feed, where a check is edited, the metric link and the window it
    opens on, retention warnings, what resolved recently, the order of a board
    and the one thing that needs attention.  Each section names its file under
    [lib/]. *)

From S2P Require Import Prelude JsString JsUri JsArray Host Types Json.

Local Open Scope char_scope.
Local Open Scope string_scope.
Local Open Scope list_scope.

(** A quotation mark around a text. *)
Definition quoted (s : string) : string := tpl [String QUOTE ""; s; String QUOTE ""].
(** [`${n} thing${n === 1 ? "" : "s"}`] *)
Definition plural (n : Z) (s : string) : string := tpl [s; if (n =? 1)%Z then "" else "s"].

(** ** [lib/severity.ts] *)

Inductive SeverityBand := band_debug | band_info | band_warn | band_err | band_fatal.
#[export] Instance SeverityBand_eq_dec : EqDecision SeverityBand.
Proof. solve_decision. Defined.

Definition severityBand (num : Z) : SeverityBand :=
  if (21 <=? num)%Z then band_fatal
  else if (17 <=? num)%Z then band_err
  else if (13 <=? num)%Z then band_warn
  else if (9 <=? num)%Z then band_info
  else band_debug.

Definition levelBadgeLabel (num : Z) : string :=
  match severityBand num with
  | band_fatal => "FATAL" | band_err => "ERR" | band_warn => "WARN" | band_info => "INFO" | band_debug => "DBUG"
  end.

Definition LEVEL_SEGMENTS : list (string * Z * option SeverityBand) := [
  ("All", 0%Z, None);
  ("Debug", 5%Z, Some band_debug);
  ("Info", 9%Z, Some band_info);
  ("Warn", 13%Z, Some band_warn);
  ("Error", 17%Z, Some band_err);
  ("Fatal", 21%Z, Some band_fatal)
].

(** ** [lib/aggregations.ts], [lib/ambiguousSeries.ts] *)

Definition AGG_LABELS : list (string * string) := [
  ("last", "last value"); ("max", "max"); ("avg", "avg"); ("min", "min"); ("sum", "sum"); ("p95", "p95");
  ("increase", "increase (counter Δ)"); ("rate", "rate (per sec)"); ("age", "age / time since (sec)")
].
Definition ALERT_AGGREGATIONS : list string := AGG_LABELS.*1.
Definition PICKS_BY_TIMESTAMP : list string := ["last"; "age"].
Definition aggregationPicksBySample (aggregation : string) : bool := bool_decide (aggregation ∈ PICKS_BY_TIMESTAMP).

Record AmbiguousSeriesWarning := { aw_seriesCount : Z; aw_message : string; aw_fix : string }.

Definition ambiguousSeriesWarning (aggregation : string) (seriesCount : option Z) (splitBy : option string)
    : option AmbiguousSeriesWarning :=
  if negb (aggregationPicksBySample aggregation) then None
  else if truthy_opt splitBy then None
  else match seriesCount with
  | None => None
  | Some n =>
      if (n <=? 1)%Z then None
      else
        let agg := if aggregation =s "age" then "age" else "last" in
        Some {| aw_seriesCount := n;
          aw_message := tpl ["This filter matches "; show_Z n; " separate series, and “"; agg;
            "” reads the newest sample by timestamp. When those series report at the same moment the tie is broken arbitrarily, so the value shown is whichever series happened to win — not a reading you chose."];
          aw_fix := "Narrow the filter until it matches one series, split by the attribute that separates them, or use an aggregation that combines them (max, min, avg)." |}
  end.

(** ** [lib/alertRule.ts] *)

Definition OP_GLYPH : list (string * string) :=
  [("gt", ">"); ("gte", "≥"); ("lt", "<"); ("lte", "≤"); ("eq", "="); ("neq", "≠")].

Definition logSevLabel (n : Z) : string :=
  if (21 <=? n)%Z then "fatal"
  else if (17 <=? n)%Z then "error"
  else if (13 <=? n)%Z then "warn"
  else if (0 <? n)%Z then tpl ["≥"; show_Z n] else "any".

Definition fmtWindow (seconds : Z) : string :=
  if (Z.rem seconds 86400 =? 0)%Z then tpl [show_Z (Z.quot seconds 86400); "d"]
  else if (Z.rem seconds 3600 =? 0)%Z then tpl [show_Z (Z.quot seconds 3600); "h"]
  else if (Z.rem seconds 60 =? 0)%Z then tpl [show_Z (Z.quot seconds 60); "m"]
  else tpl [show_Z seconds; "s"].

(** [attrs.map((a) => `${a.key} ${a.op} ${a.value}`).join(", ")] *)
Definition attr_words (attrs : option (list LogAttrFilter)) : string :=
  join ", " ((fun a => tpl [la_key a; " "; la_op a; " "; la_value a]) <$> (attrs ?? [])).

Definition log_condition (s : LogRuleSpec) : string :=
  let below := match ls_comparison s with Some c => c =s "fewer_than" | None => false end in
  join " · " (
    [if below then tpl ["fewer than "; show_Z (ls_threshold s); " logs"] else tpl ["≥"; show_Z (ls_threshold s); " logs"];
     tpl ["sev "; logSevLabel (ls_min_severity s)]]
    ++ (if truthy (ls_body_contains s) then [tpl ["contains "; quoted (ls_body_contains s)]] else [])
    ++ ((fun a => tpl [ra_key a; " "; ra_op a; " "; ra_value a]) <$> (ls_attrs s ?? []))
    ++ [fmtWindow (ls_window_seconds s)]).

Definition alertCondition (rule : AlertRule) : string :=
  let trace := ar_signal rule =s "trace" in
  match trace, ar_trace_latency_spec rule, ar_trace_volume_spec rule, ar_trace_attribute_spec rule, ar_trace_error_spec rule with
  | true, Some s, _, _, _ =>
      let agg := if tl_aggregation s =s "max" then "max" else "p95" in
      tpl [agg; " response time ≥"; show_Z (tl_threshold_ms s); "ms · "; fmtWindow (tl_window_seconds s)]
  | true, None, Some s, _, _ =>
      tpl ["fewer than "; show_Z (tv_threshold s); " "; plural (tv_threshold s) "trace"; " · "; fmtWindow (tv_window_seconds s)]
  | true, None, None, Some s, _ =>
      let attrs := attr_words (Some (ta_attrs s)) in
      let n := tpl ["≥"; show_Z (ta_threshold s); " matching "; plural (ta_threshold s) "trace"] in
      tpl [n; if truthy attrs then tpl [" ["; attrs; "]"] else ""; " · "; fmtWindow (ta_window_seconds s)]
  | true, None, None, None, Some s =>
      tpl ["≥"; show_Z (te_threshold s); " failed "; plural (te_threshold s) "trace"; " · "; fmtWindow (te_window_seconds s)]
  | _, _, _, _, _ =>
      match (if ar_signal rule =s "log" then ar_log_spec rule else None) with
      | Some s => log_condition s
      | None =>
          let sp := ar_spec rule in
          let op := omap_get (ms_operator sp) OP_GLYPH ?? ms_operator sp in
          if ar_source rule =s "pushed" then
            tpl ["pushed value "; op; " "; show_num (ms_threshold sp);
                 if truthy_opt (ar_unit rule) then tpl [" "; ar_unit rule ?? ""] else ""]
          else
            let attrs := ms_attrs sp ?? [] in
            let scope := match attrs with
                         | [] => ""
                         | _ => tpl [" · "; join ", " ((fun a => tpl [ra_key a; "="; ra_value a]) <$> attrs)]
                         end in
            tpl [ms_aggregation sp; " "; ms_metric_name sp; " "; op; " "; show_num (ms_threshold sp); " · ";
                 ms_for_window sp; scope]
      end
  end.

Definition alertSignalLabel (signal : string) : option string :=
  if signal =s "log" then Some "log" else if signal =s "trace" then Some "trace" else None.

(** ** [lib/checkLine.ts] *)

Definition attr_suffix (attrs : option (list RuleAttrFilter)) : string :=
  let s := join ", " ((fun a => tpl [ra_key a; " "; ra_op a; " "; ra_value a]) <$> (attrs ?? [])) in
  if truthy s then tpl [" ["; s; "]"] else "".

(** A missing field of a metric line prints as [undefined]. *)
Definition or_undefined (o : option string) : string := o ?? "undefined".

Definition checkLine (c : MonitoringTemplateCheck) : string :=
  let signal := mt_signal c ?? "" in
  if signal =s "log" then
    let sev := match mt_min_severity c with
               | Some n => if (n =? 0)%Z then "any severity" else tpl ["severity≥"; show_Z n]
               | None => "any severity" end in
    let body := if truthy_opt (mt_body_contains c) then tpl [" body~"; quoted (mt_body_contains c ?? "")] else "" in
    tpl ["log · "; sev; body; " · ≥"; show_Z (mt_log_threshold c ?? 1)%Z; " in window"]
  else if signal =s "trace_error" then
    tpl ["trace · ≥"; show_Z (mt_trace_threshold c ?? 1)%Z; " failed traces in window"; attr_suffix (mt_attrs c)]
  else if signal =s "trace_latency" then
    tpl ["trace · p95 latency ≥ "; show_Z (mt_threshold_ms c ?? 0)%Z; " ms"]
  else if signal =s "trace_attribute" then
    tpl ["trace · ≥"; show_Z (mt_trace_threshold c ?? 1)%Z; " matching traces in window"; attr_suffix (mt_attrs c)]
  else if signal =s "trace_volume" then
    tpl ["trace · fewer than "; show_Z (mt_trace_threshold c ?? 1)%Z; " traces in window (dead-man)"]
  else
    let split_ := if truthy_opt (mt_split_by c) then tpl [" · split by "; mt_split_by c ?? ""] else "" in
    tpl ["metric · "; or_undefined (mt_agg c); " "; or_undefined (mt_metric c); " "; or_undefined (mt_op c); " ";
         show_num (mt_threshold c ?? Num 0 0); if truthy_opt (mt_unit c) then tpl [" "; mt_unit c ?? ""] else ""; split_].

(** ** [lib/ruleName.ts] *)

Definition NAMED : nat := 2.

Definition name_one (a : RuleAttrFilter) : string :=
  if ra_op a =s "eq" then tpl [ra_key a; "="; ra_value a] else tpl [ra_key a; " "; ra_op a; " "; ra_value a].

Definition defaultRuleName (metricName : string) (attrs : option (list RuleAttrFilter)) : string :=
  let lst := List.filter (fun a => truthy (ra_key a) && truthy (ra_value a)) (attrs ?? []) in
  match lst with
  | [] => tpl [metricName; " alert"]
  | _ =>
      let shown := join ", " (name_one <$> take NAMED lst) in
      let rest := (Z.of_nat (length lst) - Z.of_nat NAMED)%Z in
      if (0 <? rest)%Z then tpl [metricName; " · "; shown; " +"; show_Z rest] else tpl [metricName; " · "; shown]
  end.

(** ** [lib/deleteConfirm.ts] *)

Definition boundChecksSentence (count : option Z) : string :=
  match count with
  | None => "Any health checks bound to it are deleted with it."
  | Some n =>
      if (n =? 0)%Z then ""
      else if (n =? 1)%Z then "Its 1 health check is deleted with it."
      else tpl ["Its "; show_Z n; " health checks are deleted with it."]
  end.
Definition joinSentences (parts : list string) : string := join " " (List.filter truthy parts).
Definition integrationDeleteConfirm (name : string) (checks : option Z) : string :=
  joinSentences [tpl ["Delete integration "; quoted name; "? Its matchers are removed."]; boundChecksSentence checks].
Definition systemDeleteConfirm (name : string) (checks : option Z) : string :=
  joinSentences [tpl ["Delete system "; quoted name; "? Its services are detached and keep their own health checks."];
                 boundChecksSentence checks].

(** ** [lib/checkBuckets.ts] *)

Record CheckBuckets := {
  cb_byService : list (string * list FailingCheck);
  cb_byIntegration : list (string * list FailingCheck);
  cb_bySystem : list (string * list FailingCheck);
  cb_global : list FailingCheck
}.

(** The entity a check is filed under. *)
Definition bucket_check (out : CheckBuckets) (c : FailingCheck) : CheckBuckets :=
  if (fc_target_kind c =s "system") && truthy_opt (fc_system_id c) then
    {| cb_byService := cb_byService out; cb_byIntegration := cb_byIntegration out;
       cb_bySystem := omap_push (fc_system_id c ?? "") c (cb_bySystem out); cb_global := cb_global out |}
  else if (fc_target_kind c =s "integration") && truthy_opt (fc_integration_id c) then
    {| cb_byService := cb_byService out; cb_byIntegration := omap_push (fc_integration_id c ?? "") c (cb_byIntegration out);
       cb_bySystem := cb_bySystem out; cb_global := cb_global out |}
  else if (fc_target_kind c =s "service") && truthy_opt (fc_service_name c) then
    {| cb_byService := omap_push (fc_service_name c ?? "") c (cb_byService out); cb_byIntegration := cb_byIntegration out;
       cb_bySystem := cb_bySystem out; cb_global := cb_global out |}
  else
    {| cb_byService := cb_byService out; cb_byIntegration := cb_byIntegration out;
       cb_bySystem := cb_bySystem out; cb_global := cb_global out ++ [c] |}.

Definition bucketChecks (checks : list FailingCheck) : CheckBuckets :=
  foldl bucket_check {| cb_byService := []; cb_byIntegration := []; cb_bySystem := []; cb_global := [] |} checks.

Definition sum_lengths (m : list (string * list FailingCheck)) (n : Z) : Z :=
  foldl (fun n arr => n + Z.of_nat (length arr))%Z n (omap_values m).
Definition bucketedCount (b : CheckBuckets) : Z :=
  sum_lengths (cb_bySystem b) (sum_lengths (cb_byIntegration b) (sum_lengths (cb_byService b)
    (Z.of_nat (length (cb_global b))))).

(** ** [lib/checkEditHref.ts] *)

Definition CHECK_PARAM : string := "check".

Definition checkEditHref (check : FailingCheck) : string :=
  let open_ := tpl [CHECK_PARAM; "="; encodeURIComponent (fc_rule_id check)] in
  if (fc_target_kind check =s "system") && truthy_opt (fc_system_id check) then
    tpl ["/systems/"; fc_system_id check ?? ""; "?"; open_]
  else if (fc_target_kind check =s "integration") && truthy_opt (fc_integration_id check) then
    tpl ["/integrations/"; fc_integration_id check ?? ""; "/settings?"; open_]
  else if (fc_target_kind check =s "service") && truthy_opt (fc_service_name check) then
    tpl ["/services/"; encodeURIComponent (fc_service_name check ?? ""); "?tab=health&"; open_]
  else "/alerts".

(** ** [lib/checkWindow.ts] *)

Definition DAY_S : Z := 86400.

Record WindowRetentionWarning := { rw_windowDays : Z; rw_retentionDays : Z; rw_message : string }.

(** A window that is not finite is [None]. *)
Definition windowRetentionWarning (windowSeconds : option Z) (retentionDays : option Z) (firesBelow : bool)
    : option WindowRetentionWarning :=
  match retentionDays, windowSeconds with
  | Some ret, Some win =>
      if (ret <=? 0)%Z then None
      else if (win <=? 0)%Z then None
      else if (win <=? ret * DAY_S)%Z then None
      else
        let kept := tpl [show_Z ret; " "; plural ret "day"] in
        Some {| rw_windowDays := win / DAY_S; rw_retentionDays := ret;
          rw_message :=
            if firesBelow
            then tpl ["This window is longer than the "; kept; " of telemetry this cell keeps, so the count can never cover it. The check would fire on a flow that is working."]
            else tpl ["This window is longer than the "; kept; " of telemetry this cell keeps, so anything older than that is never counted. The check can stay quiet through a breach it should catch."] |}
  | _, _ => None
  end.

(** ** [lib/metricWindows.ts] *)

Definition METRIC_WINDOWS : list (string * string) := [
  ("1m", "1m"); ("5m", "5m"); ("10m", "10m"); ("30m", "30m"); ("1h", "1h"); ("6h", "6h"); ("12h", "12h");
  ("24h", "1d"); ("48h", "2d"); ("168h", "7d"); ("336h", "14d"); ("720h", "30d"); ("1080h", "45d")
].
Definition metricWindowLabel (value : string) : string :=
  (snd <$> List.find (fun w => w.1 =s value) METRIC_WINDOWS) ?? value.

(** A decimal such as [90] or [1.5] at the start of a string. *)
Definition read_decimal (s : string) : option (num * string) :=
  let '(i, r) := span_digits s in
  match digits i with
  | None => None
  | Some n =>
      match r with
      | String c r' =>
          if Ascii.eqb "." c then
            let '(f, r'') := span_digits r' in
            match digits (i +:+ f), digits f with
            | Some m, Some _ => Some (Num m (String.length f), r'')
            | _, _ => Some (Num n 0, r)
            end
          else Some (Num n 0, r)
      | "" => Some (Num n 0, r)
      end
  end.

(** Seconds, as an exact decimal. *)
Definition metricWindowSeconds (value : string) : num :=
  match read_decimal (trim value) with
  | Some (Num m s, unit_) =>
      if unit_ =s "ms" then Num m (s + 3)
      else if unit_ =s "s" then Num m s
      else if unit_ =s "m" then Num (m * 60) s
      else if unit_ =s "h" then Num (m * 3600) s
      else Num 0 0
  | None => Num 0 0
  end.

(** ** [lib/metricCheckHref.ts] *)

Definition MIN_MS : Z := 60 * 1000.
Definition HOUR_MS : Z := 60 * MIN_MS.
Definition DAY_MS : Z := 24 * HOUR_MS.
Definition WINDOWS : list (string * Z) := [
  ("5m", 5 * MIN_MS); ("15m", 15 * MIN_MS); ("30m", 30 * MIN_MS); ("1h", HOUR_MS); ("3h", 3 * HOUR_MS);
  ("6h", 6 * HOUR_MS); ("12h", 12 * HOUR_MS); ("24h", DAY_MS); ("2d", 2 * DAY_MS); ("7d", 7 * DAY_MS);
  ("30d", 30 * DAY_MS)
]%Z.

(** The product of an integer below 2^53 with the double nearest to 1.1, which
    is 4953959590107546 * 2^-52, in units of 2^-52: rounded to 53 bits, half
    to even. *)
Definition C_1_1 : Z := 4953959590107546.
Definition round53 (p : Z) : Z :=
  let sh := Z.max 0 (Z.log2 p - 52) in
  let q := (p / 2 ^ sh)%Z in
  let r := (p mod 2 ^ sh)%Z in
  let up := ((2 ^ sh <? 2 * r) || ((2 ^ sh =? 2 * r) && Z.odd q))%Z in
  ((if up then q + 1 else q) * 2 ^ sh)%Z.
Definition times_1_1 (age : Z) : Z := round53 (age * C_1_1).

(** [startedAt] is a date; [now] is in milliseconds. *)
Definition windowCovering `{Host} (startedAt : string) (now : Z) : string :=
  match date_ms startedAt with
  | None => "1h"
  | Some t =>
      let age := (now - t)%Z in
      if (age <? 0)%Z then "1h"
      else match List.find (fun w => times_1_1 age <=? w.2 * 2 ^ 52)%Z WINDOWS with
           | Some w => w.1
           | None => "30d"
           end
  end.

Record CheckLinkScope := { cl_service : option string; cl_integration : option string }.

Definition metricCheckHref `{Host} (rule : AlertRule) (instance_ : option AlertInstance)
    (scope : option CheckLinkScope) (now : Z) : option string :=
  if negb (ar_signal rule =s "metric") || (ar_source rule =s "pushed") then None
  else
    let metric := trim (ms_metric_name (ar_spec rule)) in
    if negb (truthy metric) then None
    else
      let ps := usp_set "metric" metric [] in
      let attrs := List.filter (fun a => truthy (ra_key a) && truthy (ra_value a)) (ms_attrs (ar_spec rule) ?? []) in
      let ps := match attrs with
                | [] => ps
                | _ => usp_set "mattr" (stringify (JArr ((fun a => JObj
                         [("key", JStr (ra_key a)); ("op", JStr (ra_op a)); ("value", JStr (ra_value a))]) <$> attrs))) ps
                end in
      let service := scope ≫= cl_service in
      let integration := scope ≫= cl_integration in
      let ps := if truthy_opt service then usp_set "service" (service ?? "") ps
                else if truthy_opt integration then usp_set "integration" (integration ?? "") ps else ps in
      let ps := match instance_ with
                | Some i => if truthy (ai_started_at i) then usp_set "range" (windowCovering (ai_started_at i) now) ps else ps
                | None => ps
                end in
      Some (tpl ["/metrics?"; usp_toString ps]).

Definition metricCheckLinkTitle (scope : option CheckLinkScope) : string :=
  if truthy_opt (scope ≫= cl_service) || truthy_opt (scope ≫= cl_integration)
  then "Open this metric, filtered as the check sees it"
  else "Open this metric with the check's own filters, across every service reporting it".

(** ** [lib/recentlyResolved.ts] *)

Definition UNIT_MS : list (string * Z) := [("m", 60 * 1000); ("h", 60 * 60 * 1000); ("d", 24 * 60 * 60 * 1000)]%Z.

Definition windowMs (window : string) : option Z :=
  let '(d, u) := span_digits (trim window) in
  match digits d, omap_get u UNIT_MS with
  | Some n, Some ms => Some (n * ms)%Z
  | _, _ => None
  end.

Definition ended_ms `{Host} (i : AlertInstance) : option Z := date_ms (ai_ended_at i ?? "").

Definition in_window `{Host} (floor : option Z) (i : AlertInstance) : bool :=
  (ai_state i =s "resolved") && truthy_opt (ai_ended_at i)
  && match ended_ms i with
     | None => false
     | Some ended => match floor with None => true | Some f => (f <=? ended)%Z end
     end.

(** The comparator sees no [NaN]: such rows were filtered out. *)
Definition recentlyResolved `{Host} (instances : list AlertInstance) (window : string) (now : Z) : list AlertInstance :=
  let floor := (fun span => now - span)%Z <$> windowMs window in
  sort (cmp_desc (fun i => ended_ms i ?? 0%Z)) (List.filter (in_window floor) instances).

(** ** [lib/healthOrder.ts] *)

Definition healthRank (status : option string) : Z :=
  match status with
  | None => 4
  | Some s =>
      if s =s "unhealthy" then 0 else if s =s "errors" then 1 else if s =s "ok" then 2
      else if s =s "quiet" then 3 else 4
  end.

Definition byHealthThenName `{Host} {T} (status : T -> option string) (name : T -> string) : T -> T -> Z :=
  cmp_or (cmp_by (fun x => healthRank (status x))) (cmp_on name localeCompare).

(** ** [lib/integrationHealth.ts], [lib/needsAttention.ts] *)

Definition integrationProblemCount (d : option IntegrationDetail) : Z :=
  match d with
  | None => 0
  | Some d => ((id_error_message_count d ?? 0) + (id_delayed_message_count d ?? 0)
               + (id_failing_check_count d ?? 0) + (id_open_error_count d ?? 0))%Z
  end.

Definition status_severity (s : option string) : Z :=
  match s with Some s => if s =s "unhealthy" then 2 else if s =s "errors" then 1 else 0 | None => 0 end.
Definition severity (i : Integration) : Z := status_severity (i_status i).
Definition systemSeverity (s : System) : Z := status_severity (sy_status s).

Record AttentionTarget := {
  at_kind : string; at_id : string; at_name : string; at_href : string;
  at_errorTraceCount : Z; at_unhealthyCount : Z
}.

Definition pickNeedsAttention (integrations : list Integration) : option Integration :=
  match sort (cmp_or (cmp_desc severity)
               (cmp_or (cmp_desc (fun i => i_unhealthy_count i ?? 0%Z))
                       (cmp_desc (fun i => i_error_trace_count i ?? 0%Z)))) integrations with
  | [] => None
  | top :: _ =>
      if ((severity top =? 0) && ((i_error_trace_count top ?? 0) =? 0) && ((i_unhealthy_count top ?? 0) =? 0))%Z
      then None else Some top
  end.

Definition integration_target (i : Integration) : AttentionTarget := {|
  at_kind := "integration"; at_id := i_id i; at_name := i_name i; at_href := tpl ["/integrations/"; i_id i];
  at_errorTraceCount := i_error_trace_count i ?? 0%Z; at_unhealthyCount := i_unhealthy_count i ?? 0%Z |}.
Definition system_target (s : System) : AttentionTarget := {|
  at_kind := "system"; at_id := sy_id s; at_name := sy_name s; at_href := tpl ["/systems/"; sy_id s];
  at_errorTraceCount := 0; at_unhealthyCount := 0 |}.

Definition pickAttentionTarget (integrations : list Integration) (systems : list System) : option AttentionTarget :=
  let worstIntegration := pickNeedsAttention integrations in
  let worstSystem := List.find (fun s => 0 <? systemSeverity s)%Z (sort (cmp_desc systemSeverity) systems) in
  let intSev := match worstIntegration with Some i => severity i | None => 0%Z end in
  let sysSev := match worstSystem with Some s => systemSeverity s | None => 0%Z end in
  match worstIntegration with
  | Some i => if (sysSev <=? intSev)%Z then Some (integration_target i)
              else system_target <$> worstSystem
  | None => system_target <$> worstSystem
  end.

(** ** [lib/maintenanceRecurrence.ts] *)

Definition WEEKDAYS : list string :=
  ["Sunday"; "Monday"; "Tuesday"; "Wednesday"; "Thursday"; "Friday"; "Saturday"].
Definition ORDINALS : list (Z * string) :=
  [(1, "first"); (2, "second"); (3, "third"); (4, "fourth"); (-1, "last")]%Z.

Definition formatDurationMinutes (min : Z) : string :=
  if (Z.rem min (24 * 60) =? 0)%Z then
    let d := Z.quot min (24 * 60) in tpl [show_Z d; " "; plural d "day"]
  else if (Z.rem min 60 =? 0)%Z then tpl [show_Z (Z.quot min 60); " h"]
  else if (min <? 60)%Z then tpl [show_Z min; " min"]
  else tpl [show_Z (min / 60); " h "; show_Z (Z.rem min 60); " min"].

Definition joinDays (days : list string) : string :=
  if (length days <=? 1)%nat then join "" days
  else tpl [join ", " (removelast days); " and "; List.last days ""].

(** [WEEKDAYS[d]] in a template literal. *)
Definition weekday (d : Z) : string :=
  if (d <? 0)%Z then "undefined" else (WEEKDAYS !! Z.to_nat d) ?? "undefined".

Definition summarizeRecurrence (r : MaintenanceRecurrence) : string :=
  let when :=
    if mr_frequency r =s "weekly" then
      let days := sort (cmp_by id) (mr_weekdays r ?? []) in
      if (length days =? 7)%nat then "Every day" else tpl ["Every "; joinDays (weekday <$> days)]
    else tpl ["The "; omap_get (mr_month_week r ?? 1%Z) ORDINALS ?? "?"; " "; weekday (mr_month_weekday r ?? 0%Z); " of each month"] in
  tpl [when; " at "; mr_start_time r; " for "; formatDurationMinutes (mr_duration_minutes r); " ("; mr_timezone r; ")";
       if truthy_opt (mr_ends_on r) then tpl [", until "; mr_ends_on r ?? ""] else ""].

(** ** Buckets: lemmas *)

Definition all_bucketed (b : CheckBuckets) : list FailingCheck :=
  cb_global b ++ concat (omap_values (cb_byService b)) ++ concat (omap_values (cb_byIntegration b))
  ++ concat (omap_values (cb_bySystem b)).

Lemma sum_lengths_concat m n : sum_lengths m n = (n + Z.of_nat (length (concat (omap_values m))))%Z.
Proof.
  unfold sum_lengths. generalize (omap_values m) as l. intros l. revert n.
  induction l as [|a l IH]; intros n; simpl; [lia|]. rewrite IH, length_app. lia.
Qed.

Lemma bucketedCount_length b : bucketedCount b = Z.of_nat (length (all_bucketed b)).
Proof. unfold bucketedCount, all_bucketed. rewrite !sum_lengths_concat, !length_app. lia. Qed.

Lemma omap_push_concat (k : string) (c : FailingCheck) m :
  concat (omap_values (omap_push k c m)) ≡ₚ c :: concat (omap_values m).
Proof. unfold omap_push. by apply concat_omap_set. Qed.

Lemma bucket_check_perm out c : all_bucketed (bucket_check out c) ≡ₚ c :: all_bucketed out.
Proof.
  unfold bucket_check, all_bucketed. repeat case_if; cbn [cb_byService cb_byIntegration cb_bySystem cb_global].
  - rewrite omap_push_concat. solve_Permutation.
  - rewrite omap_push_concat. solve_Permutation.
  - rewrite omap_push_concat. solve_Permutation.
  - solve_Permutation.
Qed.

(** The errors feed shows every failing check exactly once: the buckets
    together are a permutation of the checks, and the count of the buckets is
    the count of the checks. *)
Theorem buckets_lose_nothing checks :
  all_bucketed (bucketChecks checks) ≡ₚ checks /\
  bucketedCount (bucketChecks checks) = Z.of_nat (length checks).
Proof.
  assert (H : all_bucketed (bucketChecks checks) ≡ₚ checks).
  { unfold bucketChecks. induction checks as [|c checks IH] using rev_ind; [done|].
    rewrite foldl_app. cbn [foldl]. rewrite bucket_check_perm, IH. apply Permutation_cons_append. }
  split; [exact H|]. rewrite bucketedCount_length. by rewrite H.
Qed.

(** ** The window a metric link opens on *)

Lemma round53_error p : (0 <= p)%Z -> (2 ^ 53 * Z.abs (round53 p - p) <= p)%Z.
Proof.
  intros Hp. unfold round53. set (sh := Z.max 0 (Z.log2 p - 52)). set (d := (2 ^ sh)%Z).
  assert (Hd : (0 < d)%Z) by (apply Z.pow_pos_nonneg; lia).
  pose proof (Z.div_mod p d ltac:(lia)) as Hdm. pose proof (Z.mod_pos_bound p d Hd) as Hr.
  set (q := (p / d)%Z) in *. set (r := (p mod d)%Z) in *.
  destruct (Z.le_gt_cases (Z.log2 p) 52) as [Hl|Hl].
  - assert (d = 1)%Z as Hd1 by (unfold d, sh; replace (Z.max 0 (Z.log2 p - 52))%Z with 0%Z by lia; done).
    assert (r = 0)%Z as Hr0 by lia.
    replace ((d <? 2 * r) || ((d =? 2 * r) && Z.odd q))%Z with false.
    + replace (q * d - p)%Z with 0%Z by lia. simpl. lia.
    + rewrite Hr0, Hd1. done.
  - assert (Hp0 : (0 < p)%Z) by (destruct (Z.eq_dec p 0) as [->|]; [done|lia]).
    assert (Hbig : (2 ^ 52 * d <= p)%Z).
    { unfold d. rewrite <- Z.pow_add_r by lia. unfold sh. rewrite Z.max_r by lia.
      replace (52 + (Z.log2 p - 52))%Z with (Z.log2 p) by lia. by apply Z.log2_spec. }
    assert (Herr : (2 * Z.abs ((if ((d <? 2 * r) || ((d =? 2 * r) && Z.odd q))%Z then q + 1 else q) * d - p) <= d)%Z).
    { destruct (Z.ltb_spec d (2 * r)), (Z.eqb_spec d (2 * r)), (Z.odd q); cbn [orb andb]; lia. }
    change (2 ^ 53)%Z with (2 * 2 ^ 52)%Z. nia.
Qed.

Lemma times_1_1_bounds age m :
  (0 <= age < 2 ^ 40)%Z ->
  ((times_1_1 age <= m * 2 ^ 52)%Z -> (11 * age <= 10 * m)%Z) /\
  ((m * 2 ^ 52 < times_1_1 age)%Z -> (10 * m <= 11 * age)%Z).
Proof.
  intros Ha. unfold times_1_1.
  assert (Hp : (0 <= age * C_1_1)%Z) by (unfold C_1_1; lia).
  pose proof (round53_error (age * C_1_1) Hp) as He. set (x := round53 (age * C_1_1)) in *. clearbody x.
  unfold C_1_1 in *. change (2 ^ 53)%Z with 9007199254740992%Z in *. change (2 ^ 52)%Z with 4503599627370496%Z in *.
  change (2 ^ 40)%Z with 1099511627776%Z in *. split; intros H; lia.
Qed.

(** A metric link opens on the smallest window on offer that reaches past
    the start of the alert by a tenth of its age: the window covers 1.1 times
    the age, no smaller one on offer does, and past thirty days the largest is
    used.  The age is below 2^40 milliseconds, 34 years. *)
Theorem windowCovering_smallest `{Host} startedAt now t :
  date_ms startedAt = Some t -> (0 <= now - t < 2 ^ 40)%Z ->
  exists before w after,
    WINDOWS = before ++ w :: after /\ windowCovering startedAt now = w.1 /\
    (11 * (now - t) <= 10 * w.2 \/ (after = [] /\ 10 * w.2 <= 11 * (now - t)))%Z /\
    Forall (fun v => 10 * v.2 <= 11 * (now - t))%Z before.
Proof.
  intros Hd Ha. unfold windowCovering. rewrite Hd. cbn zeta. set (age := (now - t)%Z) in *.
  destruct (Z.ltb_spec age 0); [lia|].
  assert (Hfind : forall (l : list (string * Z)) p,
    match List.find p l with
    | Some w => exists b a, l = b ++ w :: a /\ p w = true /\ Forall (fun v => p v = false) b
    | None => Forall (fun v => p v = false) l
    end).
  { clear. intros l p. induction l as [|x l IH]; simpl; [done|]. destruct (p x) eqn:E.
    - exists [], l. done.
    - destruct (List.find p l) as [w|]; [|by constructor].
      destruct IH as (b & a & -> & Hw & Hb). exists (x :: b), a. split; [done|]. split; [done|]. by constructor. }
  specialize (Hfind WINDOWS (fun w => times_1_1 age <=? w.2 * 2 ^ 52)%Z).
  assert (Hsmall : forall l : list (string * Z),
    Forall (fun v => (times_1_1 age <=? v.2 * 2 ^ 52)%Z = false) l -> Forall (fun v => 10 * v.2 <= 11 * age)%Z l).
  { intros l Hl. eapply Forall_impl; [exact Hl|]. intros v Hv. cbv beta in *. apply Z.leb_gt in Hv.
    destruct (times_1_1_bounds age v.2 Ha) as [_ H2]. by apply H2. }
  destruct (List.find _ WINDOWS) as [w|].
  - destruct Hfind as (b & a & Hw & Hp & Hb). exists b, w, a. split; [done|]. split; [done|].
    split; [|by apply Hsmall]. left. apply Z.leb_le in Hp. by destruct (times_1_1_bounds age w.2 Ha) as [H1 _]; apply H1.
  - apply Hsmall in Hfind. exists (removelast WINDOWS), ("30d", 30 * DAY_MS)%Z, [].
    split; [done|]. split; [done|].
    assert (HW : WINDOWS = removelast WINDOWS ++ [("30d", 30 * DAY_MS)%Z]) by done.
    rewrite HW in Hfind. apply Forall_app in Hfind as [Hb Hl]. split; [|done].
    right. split; [done|]. by apply Forall_cons in Hl as [Hl _].
Qed.

Lemma windowCovering_smallest_witness :
  date_ms (Host := plain_host) "1970-01-01T00:00:00Z" = Some 0%Z /\
  exists before w after, WINDOWS = before ++ w :: after /\
    windowCovering (H := plain_host) "1970-01-01T00:00:00Z" 7200000 = w.1.
Proof.
  assert (H : date_ms (Host := plain_host) "1970-01-01T00:00:00Z" = Some 0%Z) by (vm_compute; reflexivity).
  split; [exact H|].
  destruct (@windowCovering_smallest plain_host "1970-01-01T00:00:00Z" 7200000 0 H ltac:(lia))
    as (b & w & a & H1 & H2 & _).
  exists b, w, a. split; [exact H1|exact H2].
Defined.

Example windowCovering_2h : windowCovering (H := plain_host) "1970-01-01T00:00:00Z" 7200000 = "3h".
Proof. by_compute. Qed.

(** ** The worst thing *)

Lemma sort_nil_iff {A} (c : A -> A -> Z) l : sort c l = [] <-> l = [].
Proof.
  split; [|by intros ->]. intros H. pose proof (sort_length c l) as Hl. rewrite H in Hl. by destruct l.
Qed.

Definition attention_order : Integration -> Integration -> Z :=
  cmp_or (cmp_desc severity)
    (cmp_or (cmp_desc (fun i => i_unhealthy_count i ?? 0%Z)) (cmp_desc (fun i => i_error_trace_count i ?? 0%Z))).

Lemma attention_order_severity i j : (attention_order i j <= 0)%Z -> (severity j <= severity i)%Z.
Proof. unfold attention_order, cmp_or, cmp_desc. repeat case_if; bool_prop; lia. Qed.

Definition quiet_integration (i : Integration) : Prop :=
  severity i = 0%Z /\ (i_unhealthy_count i ?? 0)%Z = 0%Z /\ (i_error_trace_count i ?? 0)%Z = 0%Z.
Definition counted (i : Integration) : Prop :=
  (0 <= i_unhealthy_count i ?? 0)%Z /\ (0 <= i_error_trace_count i ?? 0)%Z.

Lemma status_severity_nonneg s : (0 <= status_severity s)%Z.
Proof. unfold status_severity. destruct s; [|lia]. repeat case_if; lia. Qed.

Lemma attention_order_quiet i j :
  counted j -> quiet_integration i -> (attention_order i j <= 0)%Z -> quiet_integration j.
Proof.
  unfold attention_order, cmp_or, cmp_desc, quiet_integration, counted.
  pose proof (status_severity_nonneg (i_status j)). unfold severity in *. intros [? ?] (? & ? & ?).
  repeat case_if; bool_prop; lia.
Qed.

Lemma pickNeedsAttention_spec l :
  match pickNeedsAttention l with
  | Some i => i ∈ l /\ ~ quiet_integration i /\ forall j, j ∈ l -> (severity j <= severity i)%Z
  | None => Forall counted l -> Forall quiet_integration l
  end.
Proof.
  unfold pickNeedsAttention. fold attention_order.
  destruct (sort attention_order l) as [|top m] eqn:E.
  - apply sort_nil_iff in E as ->. done.
  - assert (Hc : Comparator attention_order) by apply _.
    apply sort_head_least in E as [Hin Hle]; [|exact Hc].
    destruct ((severity top =? 0) && ((i_error_trace_count top ?? 0) =? 0) && ((i_unhealthy_count top ?? 0) =? 0))%Z eqn:Eq.
    + bool_prop. intros Hcnt. apply Forall_forall. intros j Hj. rewrite Forall_forall in Hcnt.
      eapply attention_order_quiet; [by apply Hcnt| |by apply Hle]. done.
    + split; [done|]. split.
      * intros (H1 & H2 & H3). rewrite H1, H2, H3 in Eq. done.
      * intros j Hj. by apply attention_order_severity, Hle.
Qed.

Lemma worst_system_spec l :
  match List.find (fun s => 0 <? systemSeverity s)%Z (sort (cmp_desc systemSeverity) l) with
  | Some s => s ∈ l /\ (0 < systemSeverity s)%Z /\ forall t, t ∈ l -> (systemSeverity t <= systemSeverity s)%Z
  | None => Forall (fun s => systemSeverity s = 0%Z) l
  end.
Proof.
  destruct (sort (cmp_desc systemSeverity) l) as [|top m] eqn:E.
  - apply sort_nil_iff in E as ->. constructor.
  - pose proof E as E'. apply sort_head_least in E' as [Hin Hle]; [|apply _]. unfold cmp_desc in Hle.
    cbn [List.find]. destruct (Z.ltb_spec 0 (systemSeverity top)) as [Hpos|Hneg].
    + split; [done|]. split; [done|]. intros t Ht. apply Hle in Ht. lia.
    + assert (Hall : forall s, s ∈ l -> systemSeverity s = 0%Z).
      { intros s Hs. apply Hle in Hs. pose proof (status_severity_nonneg (sy_status s)).
        unfold systemSeverity in *. lia. }
      destruct (List.find _ m) as [s|] eqn:Ef; [|by apply Forall_forall].
      apply find_Some_elem in Ef as [Hs Hp]. bool_prop.
      assert (Hl : s ∈ l). { apply (sort_elem (cmp_desc systemSeverity)). rewrite E. by apply list_elem_of_further. }
      apply Hall in Hl. lia.
Qed.

(** The board points at the worst thing there is: what it names is an
    integration at least as severe as every integration and system, or a
    system more severe than every integration; and it is all clear only when
    no integration has a bad status, an unhealthy service or a failed trace
    and no system has a bad status. *)
Theorem attention_is_worst ints ss :
  Forall counted ints ->
  match pickAttentionTarget ints ss with
  | Some t =>
      (exists i, i ∈ ints /\ t = integration_target i /\ ~ quiet_integration i /\
         (forall j, j ∈ ints -> (severity j <= severity i)%Z) /\
         (forall s, s ∈ ss -> (systemSeverity s <= severity i)%Z)) \/
      (exists s, s ∈ ss /\ t = system_target s /\
         (forall u, u ∈ ss -> (systemSeverity u <= systemSeverity s)%Z) /\
         (forall j, j ∈ ints -> (severity j < systemSeverity s)%Z))
  | None => Forall quiet_integration ints /\ Forall (fun s => systemSeverity s = 0%Z) ss
  end.
Proof.
  intros Hc. unfold pickAttentionTarget. pose proof (pickNeedsAttention_spec ints) as Hi.
  pose proof (worst_system_spec ss) as Hs.
  destruct (pickNeedsAttention ints) as [i|], (List.find _ _) as [s|]; cbn zeta; cbn [fmap option_fmap option_map].
  - destruct Hi as (Hi1 & Hi2 & Hi3). destruct Hs as (Hs1 & Hs2 & Hs3).
    destruct (Z.leb_spec (systemSeverity s) (severity i)) as [Hle|Hgt].
    + left. exists i. split_and!; try done. intros u Hu. apply Hs3 in Hu. lia.
    + right. exists s. split_and!; try done. intros j Hj. apply Hi3 in Hj. lia.
  - destruct Hi as (Hi1 & Hi2 & Hi3). pose proof (status_severity_nonneg (i_status i)) as Hn. fold (severity i) in Hn.
    destruct (Z.leb_spec 0 (severity i)); [|lia]. left. exists i. split_and!; try done.
    intros u Hu. first [rewrite Forall_forall in Hs; rewrite (Hs u Hu) | rewrite (Hs u Hu)]. lia.
  - destruct Hs as (Hs1 & Hs2 & Hs3). right. exists s. split_and!; try done.
    intros j Hj. specialize (Hi Hc). rewrite Forall_forall in Hi. apply Hi in Hj as (H0 & _). lia.
  - split; [by apply Hi|]. first [exact Hs | by apply Forall_forall].
Qed.

Definition ex_system (id status : string) : System := {|
  sy_id := id; sy_name := id; sy_type_key := "rabbitmq"; sy_description := ""; sy_members := []; sy_member_count := 0;
  sy_status := Some status; sy_badge_public := None |}.

Lemma attention_is_worst_witness :
  Forall counted [] /\
  match pickAttentionTarget [] [ex_system "a" "ok"; ex_system "b" "unhealthy"] with
  | Some t => at_id t = "b" | None => False end.
Proof.
  assert (H : Forall counted []) by constructor. split; [exact H|].
  pose proof (attention_is_worst [] [ex_system "a" "ok"; ex_system "b" "unhealthy"] H) as Hw.
  exact (match Hw with or_introl _ => eq_refl | or_intror _ => eq_refl end).
Defined.

(** ** Windows in words *)

(** A trailing window reads unambiguously: two windows with the same text
    are the same number of seconds, and the text names a whole number of days,
    hours, minutes or seconds. *)
Theorem fmtWindow_inj a b : fmtWindow a = fmtWindow b -> a = b.
Proof.
  assert (H : forall s, exists k u n, fmtWindow s = show_Z k +:+ String u "" /\ s = (k * n)%Z /\
    ((u = "d"%char /\ n = 86400) \/ (u = "h"%char /\ n = 3600) \/ (u = "m"%char /\ n = 60) \/ (u = "s"%char /\ n = 1))%Z).
  { intros s. unfold fmtWindow. cbn [tpl].
    pose proof (Z.quot_rem' s 86400). pose proof (Z.quot_rem' s 3600). pose proof (Z.quot_rem' s 60).
    destruct (Z.eqb_spec (Z.rem s 86400) 0); [|destruct (Z.eqb_spec (Z.rem s 3600) 0); [|destruct (Z.eqb_spec (Z.rem s 60) 0)]].
    - exists (Z.quot s 86400), "d"%char, 86400%Z. split; [done|]. split; [lia|]. tauto.
    - exists (Z.quot s 3600), "h"%char, 3600%Z. split; [done|]. split; [lia|]. tauto.
    - exists (Z.quot s 60), "m"%char, 60%Z. split; [done|]. split; [lia|]. tauto.
    - exists s, "s"%char, 1%Z. split; [done|]. split; [lia|]. tauto. }
  destruct (H a) as (k & u & n & Ha & Ea & Hu). destruct (H b) as (k' & u' & n' & Hb & Eb & Hu').
  rewrite Ha, Hb. intros E.
  assert (Hr : srev (show_Z k +:+ String u "") = srev (show_Z k' +:+ String u' "")) by by rewrite E.
  rewrite !srev_app in Hr. simpl in Hr. injection Hr as Hc Hk. subst u'.
  apply (f_equal srev) in Hk. rewrite !srev_involutive in Hk. apply show_Z_inj in Hk. subst k'.
  assert (n = n') as ->; [|lia].
  destruct Hu as [[-> ->]|[[-> ->]|[[-> ->]|[-> ->]]]], Hu' as [[? ->]|[[? ->]|[[? ->]|[? ->]]]]; done.
Qed.

Lemma fmtWindow_inj_witness : fmtWindow 3600 = fmtWindow 3600 /\ 3600%Z = 3600%Z.
Proof. split; [reflexivity|]. exact (fmtWindow_inj 3600 3600 eq_refl). Defined.

(** The retention warning appears exactly when a positive window reaches
    past a known retention, and the days it names are at least the retention. *)
Theorem retention_warning_iff win ret below :
  (exists w, windowRetentionWarning (Some win) (Some ret) below = Some w /\
     rw_retentionDays w = ret /\ (ret <= rw_windowDays w)%Z) <->
  (0 < ret /\ ret * DAY_S < win)%Z.
Proof.
  unfold windowRetentionWarning, DAY_S. split.
  - intros (w & H & _ & _). revert H. repeat case_if; bool_prop; first [done | intros _; lia].
  - intros [Hr Hw]. destruct (Z.leb_spec ret 0); [lia|]. destruct (Z.leb_spec win 0); [lia|].
    destruct (Z.leb_spec win (ret * 86400)); [lia|]. eexists. split; [done|]. cbn. split; [done|].
    apply Z.div_le_lower_bound; lia.
Qed.

(** ** What resolved recently *)

(** The recovered list is what it says: the instances that resolved with a
    readable end inside the window (all of them when the window is not a
    duration), each as often as it was given, most recent first. *)
Theorem recentlyResolved_correct `{Host} instances window now :
  let floor := (fun span => now - span)%Z <$> windowMs window in
  recentlyResolved instances window now ≡ₚ List.filter (in_window floor) instances /\
  StronglySorted (fun a b => exists s t, ended_ms a = Some s /\ ended_ms b = Some t /\ (t <= s)%Z)
    (recentlyResolved instances window now).
Proof.
  cbn zeta. set (floor := _ <$> windowMs window). unfold recentlyResolved. fold floor. cbn zeta.
  split; [apply sort_perm|].
  assert (Hall : forall i, i ∈ sort (cmp_desc (fun i => ended_ms i ?? 0%Z)) (List.filter (in_window floor) instances) ->
    exists s, ended_ms i = Some s).
  { intros i Hi. apply (proj1 (sort_elem _ _ _)) in Hi. apply filterb_elem in Hi as [_ Hi].
    unfold in_window in Hi. apply andb_true_iff in Hi as [_ Hi]. destruct (ended_ms i); [eauto|done]. }
  pose proof (sort_sorted (cmp_desc (fun i => ended_ms i ?? 0%Z)) (List.filter (in_window floor) instances)) as Hs.
  revert Hs Hall. generalize (sort (cmp_desc (fun i => ended_ms i ?? 0%Z)) (List.filter (in_window floor) instances)) as l.
  induction l as [|x l IH]; intros Hs Hall; [constructor|].
  inversion Hs as [|? ? Hs' Hf]; subst. constructor.
  - apply IH; [done|]. intros i Hi. apply Hall. by apply list_elem_of_further.
  - apply Forall_forall. intros y Hy. rewrite Forall_forall in Hf. specialize (Hf y Hy).
    destruct (Hall x ltac:(apply list_elem_of_here)) as [s Hx].
    destruct (Hall y ltac:(by apply list_elem_of_further)) as [t Hy'].
    exists s, t. split; [done|]. split; [done|]. unfold cmp_le, cmp_desc in Hf. rewrite Hx, Hy' in Hf. cbn in Hf. lia.
Qed.

(** ** Boards *)

#[export] Instance byHealthThenName_comparator `{H : Host} `{!HostLaws H} {T} (status : T -> option string) (name : T -> string) :
  Comparator (byHealthThenName status name).
Proof. unfold byHealthThenName. apply _. Qed.

(** A board lists its entries worst first and, among entries in the same
    state, by name: nothing is lost, and no entry stands above one that is
    worse. *)
Theorem board_order `{H : Host} `{!HostLaws H} {T} (status : T -> option string) (name : T -> string) (l : list T) :
  let board := sort (byHealthThenName status name) l in
  board ≡ₚ l /\
  StronglySorted (fun a b => healthRank (status a) <= healthRank (status b) /\
    (healthRank (status a) = healthRank (status b) -> localeCompare (name a) (name b) <= 0))%Z board.
Proof.
  cbn zeta. split; [apply sort_perm|].
  pose proof (sort_sorted (byHealthThenName status name) l) as Hs. revert Hs.
  generalize (sort (byHealthThenName status name) l) as m. induction m as [|x m IH]; intros Hs; [constructor|].
  inversion Hs as [|? ? Hs' Hf]; subst. constructor; [by apply IH|].
  eapply Forall_impl; [exact Hf|]. intros y Hy.
  unfold cmp_le, byHealthThenName, cmp_or, cmp_by, cmp_on in Hy.
  destruct (Z.eqb_spec (healthRank (status x) - healthRank (status y)) 0); lia.
Qed.

Lemma board_order_witness :
  HostLaws plain_host /\
  sort (byHealthThenName (H := plain_host) sy_status sy_name) [ex_system "b" "ok"; ex_system "a" "errors"]
  ≡ₚ [ex_system "b" "ok"; ex_system "a" "errors"].
Proof.
  split; [exact plain_host_laws|].
  exact (proj1 (@board_order plain_host plain_host_laws System sy_status sy_name [ex_system "b" "ok"; ex_system "a" "errors"])).
Defined.

(** ** Links *)

Lemma check_query id :
  let open_ := tpl [CHECK_PARAM; "="; encodeURIComponent id] in
  usp_get (usp_parse open_) CHECK_PARAM = Some id /\
  usp_get (usp_parse (tpl ["tab=health&"; open_])) CHECK_PARAM = Some id.
Proof.
  cbn zeta. set (open_ := tpl [CHECK_PARAM; "="; encodeURIComponent id]).
  assert (Ho : open_ = "check" +:+ String "=" (encodeURIComponent id)).
  { unfold open_. cbn [tpl]. by rewrite sapp_nil_r. }
  assert (Hn : no_char "&" open_ = true).
  { rewrite Ho, no_char_app. cbn [no_char]. by rewrite encode_uri_no_char. }
  assert (Hp : usp_pair open_ = ("check", id)).
  { unfold usp_pair. rewrite Ho, index_of_app by done. rewrite slice_to_app, slice_from_cut, form_decode_encode_uri. done. }
  assert (Ht : truthy open_ = true) by (rewrite Ho; done). split.
  - unfold usp_parse.
    assert (Hq : drop_qmark open_ = open_) by (rewrite Ho; done). rewrite Hq, split_no_char by done.
    cbn [List.filter]. rewrite Ht. csimpl. rewrite Hp. done.
  - cbn [tpl]. rewrite sapp_nil_r. unfold usp_parse.
    assert (Hs : split "&" (drop_qmark ("tab=health&" +:+ open_)) = ["tab=health"; open_]).
    { change (drop_qmark ("tab=health&" +:+ open_)) with ("tab=health" +:+ String "&" open_).
      rewrite split_cut by done. by rewrite split_no_char. }
    rewrite Hs. cbn [List.filter]. change (truthy "tab=health") with true. rewrite Ht. csimpl. rewrite Hp. done.
Qed.

(** The link of a check opens that check: for a check bound to a system,
    an integration or a service, the part of the link after the first question
    mark is a query whose [check] parameter is the rule's id, whatever
    characters the id and the service name hold. *)
Theorem check_link_opens_rule check :
  no_char "?" (fc_system_id check ?? "") = true -> no_char "?" (fc_integration_id check ?? "") = true ->
  checkEditHref check <> "/alerts" ->
  exists path query, checkEditHref check = path +:+ String "?" query /\ no_char "?" path = true /\
    usp_get (usp_parse query) CHECK_PARAM = Some (fc_rule_id check).
Proof.
  intros Hs Hi Hne. destruct (check_query (fc_rule_id check)) as [H1 H2]. revert Hne.
  unfold checkEditHref. cbn zeta. set (open_ := tpl [CHECK_PARAM; "="; encodeURIComponent (fc_rule_id check)]) in *.
  repeat case_if; intros Hne; [| | |done].
  - exists (tpl ["/systems/"; fc_system_id check ?? ""]), open_. split; [|split; [|done]].
    + cbn [tpl]. rewrite !sapp_nil_r. by rewrite <- !sapp_assoc.
    + cbn [tpl]. rewrite sapp_nil_r, no_char_app, Hs. done.
  - exists (tpl ["/integrations/"; fc_integration_id check ?? ""; "/settings"]), open_. split; [|split; [|done]].
    + cbn [tpl]. rewrite !sapp_nil_r. by rewrite <- !sapp_assoc.
    + cbn [tpl]. rewrite sapp_nil_r, !no_char_app, Hi. done.
  - exists (tpl ["/services/"; encodeURIComponent (fc_service_name check ?? "")]), (tpl ["tab=health&"; open_]).
    split; [|split; [|done]].
    + cbn [tpl]. rewrite !sapp_nil_r. by rewrite <- !sapp_assoc.
    + cbn [tpl]. rewrite sapp_nil_r, no_char_app. by rewrite encode_uri_no_char.
Qed.

Definition ex_check : FailingCheck := {|
  fc_id := "1"; fc_rule_id := "r&1"; fc_rule_name := "n"; fc_severity := "info"; fc_started_at := "t";
  fc_handled_at := None; fc_summary := None; fc_target_kind := "service"; fc_service_name := Some "a/b?";
  fc_integration_id := None; fc_integration_name := None; fc_system_id := None; fc_system_name := None;
  fc_attrs := None |}.

Lemma check_link_opens_rule_witness :
  checkEditHref ex_check = "/services/a%2Fb%3F?tab=health&check=r%261" /\
  exists path query, checkEditHref ex_check = path +:+ String "?" query /\ no_char "?" path = true /\
    usp_get (usp_parse query) CHECK_PARAM = Some "r&1".
Proof.
  split; [vm_compute; reflexivity|].
  apply (check_link_opens_rule ex_check); [reflexivity|reflexivity|]. vm_compute. discriminate.
Defined.
