(* ===== verification/Trace.v ===== *)
(** * The spans of a trace in tree order

    [components/TraceWaterfall.tsx] ([orderSpans], [hops], the rows drawn) and
    [lib/spanSelection.ts].  Times are integers of one unit, fine enough for
    the durations; the doubles of the source hold them exactly. *)

From S2P Require Import Prelude JsString JsArray Host Types.

Local Open Scope char_scope.
Local Open Scope string_scope.
Local Open Scope list_scope.

(** ** [lib/spanSelection.ts] *)

Definition pickInitialSpan (spans : list SpanSummary) (matchedSpanIds : option (list string)) : option string :=
  match spans with
  | [] => None
  | first :: _ =>
      let firstMatch := List.find (fun id => bool_decide (id ∈ sp_span_id <$> spans)) (matchedSpanIds ?? []) in
      if truthy_opt firstMatch then firstMatch
      else
        let firstErr := List.find (fun s => sp_status_code s =s "Error") spans in
        Some (sp_span_id (firstErr ?? first))
  end.

Section waterfall.
Context {host : Host}.

(** ** [orderSpans] *)

(** [new Date(timestamp).getTime()]; a comparator that yields [NaN] sorts as
    if it were zero. *)
Definition start_ms (s : SpanSummary) : option Z := date_ms (sp_timestamp s).
Definition byStart (a b : SpanSummary) : Z := sub_ms (start_ms a) (start_ms b).

(** A span that hangs under another one of the trace. *)
Definition has_parent (ids : list string) (s : SpanSummary) : bool :=
  match sp_parent_span_id s with
  | Some p => truthy p && bool_decide (p ∈ ids) && negb (p =s sp_span_id s)
  | None => false
  end.

Definition children_of (spans : list SpanSummary) : list (string * list SpanSummary) :=
  group_by (fun s => sp_parent_span_id s ?? "") (List.filter (has_parent (sp_span_id <$> spans)) spans).

(** The state of the walk: the ids seen and the rows drawn. *)
Definition walk_state : Type := list string * list (SpanSummary * nat).

Fixpoint walk (kids : string -> list SpanSummary) (fuel : nat) (st : walk_state) (s : SpanSummary) (depth : nat) : walk_state :=
  match fuel with
  | O => st
  | S fuel =>
      if bool_decide (sp_span_id s ∈ st.1) then st
      else foldl (fun st child => walk kids fuel st child (S depth))
             (st.1 ++ [sp_span_id s], st.2 ++ [(s, depth)])
             (sort byStart (kids (sp_span_id s)))
  end.

Definition orderSpans (spans : list SpanSummary) : list (SpanSummary * nat) :=
  let ids := sp_span_id <$> spans in
  let children := children_of spans in
  let kids id := omap_get id children ?? [] in
  let roots := List.filter (fun s => negb (has_parent ids s)) spans in
  let '(seen, out) := foldl (fun st r => walk kids (S (length spans)) st r 0) ([], []) (sort byStart roots) in
  out ++ ((fun s => (s, 0%nat)) <$> List.filter (fun s => negb (bool_decide (sp_span_id s ∈ seen))) spans).

(** ** [hops] *)

Record Hop := { hop_span : SpanSummary; hop_startMs : option Z; hop_durationMs : Z; hop_depth : nat }.
Record Hops := { hs_hops : list Hop; hs_total : Z; hs_t0 : Z }.

(** The earliest start and the latest end; [None] is an infinity.  A span
    without a readable start takes no part. *)
Definition extent (spans : list SpanSummary) : option Z * option Z :=
  foldl (fun acc s =>
    match start_ms s with
    | None => acc
    | Some t =>
        let e := (t + sp_duration_ms s)%Z in
        (Some (match acc.1 with Some t0 => if (t <? t0)%Z then t else t0 | None => t end),
         Some (match acc.2 with Some tn => if (tn <? e)%Z then e else tn | None => e end))
    end) (None, None) spans.

Definition hops (spans : list SpanSummary) : Hops :=
  match extent spans with
  | (Some t0, Some tn) =>
      if (tn <=? t0)%Z then {| hs_hops := []; hs_total := 1; hs_t0 := 0 |}
      else {| hs_hops := (fun sd => {| hop_span := sd.1; hop_startMs := (fun t => t - t0)%Z <$> start_ms sd.1;
                                       hop_durationMs := sp_duration_ms sd.1; hop_depth := sd.2 |}) <$> orderSpans spans;
              hs_total := (tn - t0)%Z; hs_t0 := t0 |}
  | _ => {| hs_hops := []; hs_total := 1; hs_t0 := 0 |}
  end.

(** ** The rows of the component

    [errorsOnly] is its switch, which starts as the page asks
    ([defaultErrorsOnly]); [matched] are the spans a search found. *)

Definition is_error (h : Hop) : bool := sp_status_code (hop_span h) =s "Error".
Definition errorsOnly_init (defaultErrorsOnly : option bool) : bool := defaultErrorsOnly ?? false.
Definition visible (errorsOnly : bool) (matchedSpanIds : option (list string)) (list_ : list Hop) : list Hop :=
  if errorsOnly then List.filter (fun h => is_error h || bool_decide (sp_span_id (hop_span h) ∈ matchedSpanIds ?? [])) list_ else list_.
(** The rows drawn; the page says that there are no spans when [hops] has none. *)
Definition TraceWaterfall (errorsOnly : bool) (matchedSpanIds : option (list string)) (spans : list SpanSummary) : list Hop :=
  visible errorsOnly matchedSpanIds (hs_hops (hops spans)).

(** ** The walk: lemmas *)

Section walk_lemmas.
Context (kids : string -> list SpanSummary).

Abbreviation ids st := ((st : walk_state).1).
Abbreviation rows st := ((st : walk_state).2).

(** What the walk keeps: the rows drawn are the ids seen, each once, and a
    row that is not a root stands after a row one step less deep whose id is
    the parent it was reached from. *)
Record walk_ok (st : walk_state) : Prop := {
  wo_ids : ids st = sp_span_id <$> (rows st).*1;
  wo_nodup : NoDup (ids st);
  wo_parent : forall l1 s d l2, rows st = l1 ++ (s, S d) :: l2 ->
    exists p, (p, d) ∈ l1 /\ s ∈ kids (sp_span_id p)
}.

Definition extends (st st' : walk_state) : Prop :=
  exists l, rows st' = rows st ++ l.

Lemma extends_refl st : extends st st.
Proof. exists []. by rewrite app_nil_r. Qed.
Lemma extends_trans a b c : extends a b -> extends b c -> extends a c.
Proof. intros [l H] [l' H']. exists (l ++ l'). by rewrite H', H, <- app_assoc. Qed.
Lemma extends_elem a b x : extends a b -> x ∈ rows a -> x ∈ rows b.
Proof. intros [l ->] H. apply elem_of_app. by left. Qed.

Lemma walk_ok_snoc st s d :
  walk_ok st -> sp_span_id s ∉ ids st ->
  (d = 0%nat \/ exists p d', d = S d' /\ (p, d') ∈ rows st /\ s ∈ kids (sp_span_id p)) ->
  walk_ok (ids st ++ [sp_span_id s], rows st ++ [(s, d)]).
Proof.
  intros [Hi Hn Hp] Hs Hd. split.
  - cbn [fst snd]. by rewrite Hi, !fmap_app.
  - cbn [fst]. apply NoDup_app. split; [done|]. split; [|apply NoDup_singleton].
    intros x Hx ->%list_elem_of_singleton. done.
  - cbn [snd]. intros l1 s' d' l2 E. destruct l2 as [|y l2 _] using rev_ind.
    + apply app_inj_tail in E as [<- E]. injection E as <- ->.
      destruct Hd as [?|(p & d'' & [= <-] & H1 & H2)]; [done|]. by exists p.
    + rewrite app_comm_cons, (assoc_L (++)) in E. apply app_inj_tail in E as [E _]. by eapply Hp.
Qed.

(** What one call of the walk does, with enough fuel left. *)
Definition walk_post (st st' : walk_state) : Prop := walk_ok st' /\ extends st st'.

Lemma walk_fold fuel d l st :
  (forall st s, walk_ok st ->
     (d = 0%nat \/ exists p d', d = S d' /\ (p, d') ∈ rows st /\ s ∈ kids (sp_span_id p)) ->
     walk_post st (walk kids fuel st s d)) ->
  walk_ok st ->
  (d = 0%nat \/ exists p d', d = S d' /\ (p, d') ∈ rows st /\ forall s, s ∈ l -> s ∈ kids (sp_span_id p)) ->
  walk_post st (foldl (fun st c => walk kids fuel st c d) st l).
Proof.
  intros Hw. revert st. induction l as [|c l IH]; intros st Hok Hd; [split; [done|apply extends_refl]|].
  cbn [foldl]. destruct (Hw st c Hok) as [Hok' He].
  { destruct Hd as [->|(p & d' & -> & Hp & Hk)]; [by left|right].
    exists p, d'. split; [done|]. split; [done|]. apply Hk. in_cons. }
  destruct (IH _ Hok') as [Hok'' He'].
  { destruct Hd as [->|(p & d' & -> & Hp & Hk)]; [by left|right].
    exists p, d'. split; [done|]. split; [by eapply extends_elem|]. intros s Hs. apply Hk. in_cons. }
  split; [done|]. by eapply extends_trans.
Qed.

Lemma walk_keeps fuel st s d :
  walk_ok st ->
  (d = 0%nat \/ exists p d', d = S d' /\ (p, d') ∈ rows st /\ s ∈ kids (sp_span_id p)) ->
  walk_post st (walk kids fuel st s d).
Proof.
  revert st s d. induction fuel as [|fuel IH]; intros st s d Hok Hd; [split; [done|apply extends_refl]|].
  cbn [walk]. case_bool_decide as Hseen; [split; [done|apply extends_refl]|].
  pose proof (walk_ok_snoc st s d Hok Hseen Hd) as Hok'.
  destruct (walk_fold fuel (S d) (sort byStart (kids (sp_span_id s)))
    (ids st ++ [sp_span_id s], rows st ++ [(s, d)])) as [H1 H2]; [by auto|done| |].
  - right. exists s, d. split; [done|]. split; [apply elem_of_app; right; in_cons|].
    intros c Hc. by apply (proj1 (sort_elem _ _ _)) in Hc.
  - split; [done|]. eapply extends_trans; [|exact H2]. by exists [(s, d)].
Qed.

(** *** Fuel *)

(** The ids of [U] not seen yet. *)
Definition unseen (U : list string) (st : walk_state) : nat :=
  length (List.filter (fun i => negb (bool_decide (i ∈ ids st))) U).

Lemma unseen_mono U st st' : extends st st' -> walk_ok st -> walk_ok st' -> (unseen U st' <= unseen U st)%nat.
Proof.
  intros [l He] H1 H2. unfold unseen. apply filterb_length_mono. intros u Hu.
  apply negb_true_iff, bool_decide_eq_false in Hu. apply negb_true_iff, bool_decide_eq_false.
  intros Hin. apply Hu. rewrite (wo_ids _ H1) in Hin. rewrite (wo_ids _ H2), He, !fmap_app.
  apply elem_of_app. by left.
Qed.

Lemma unseen_snoc U st s d :
  sp_span_id s ∈ U -> sp_span_id s ∉ ids st ->
  (unseen U (ids st ++ [sp_span_id s], rows st ++ [(s, d)]) < unseen U st)%nat.
Proof.
  intros HU Hs. unfold unseen. cbn [fst]. apply (filterb_length_strict _ _ _ (sp_span_id s)); [|done|..].
  - intros u Hu. apply negb_true_iff, bool_decide_eq_false in Hu. apply negb_true_iff, bool_decide_eq_false.
    intros Hin. apply Hu, elem_of_app. by left.
  - apply negb_false_iff, bool_decide_eq_true, elem_of_app. right. in_cons.
  - by apply negb_true_iff, bool_decide_eq_false.
Qed.

(** With more fuel than unseen ids the walk reaches everything below the span:
    the children of every row it draws are seen. *)
Definition closed (st : walk_state) (old : list string) : Prop :=
  forall s d, (s, d) ∈ rows st -> sp_span_id s ∉ old -> forall c, c ∈ kids (sp_span_id s) -> sp_span_id c ∈ ids st.

Lemma walk_closed U fuel st s d :
  (forall id c, c ∈ kids id -> sp_span_id c ∈ U) -> sp_span_id s ∈ U ->
  walk_ok st ->
  (d = 0%nat \/ exists p d', d = S d' /\ (p, d') ∈ rows st /\ s ∈ kids (sp_span_id p)) ->
  (unseen U st < fuel)%nat ->
  sp_span_id s ∈ ids (walk kids fuel st s d) /\
  (forall x e, (x, e) ∈ rows (walk kids fuel st s d) -> (x, e) ∈ rows st \/
     forall c, c ∈ kids (sp_span_id x) -> sp_span_id c ∈ ids (walk kids fuel st s d)).
Proof.
  intros HU. revert st s d. induction fuel as [|fuel IH]; intros st s d Hs Hok Hd Hf; [lia|].
  cbn [walk]. case_bool_decide as Hseen; [by auto|].
  set (st1 := (ids st ++ [sp_span_id s], rows st ++ [(s, d)])).
  pose proof (walk_ok_snoc st s d Hok Hseen Hd) as Hok1. fold st1 in Hok1.
  pose proof (unseen_snoc U st s d Hs Hseen) as Hlt. fold st1 in Hlt.
  set (l := sort byStart (kids (sp_span_id s))).
  assert (Hl : forall c, c ∈ l <-> c ∈ kids (sp_span_id s)) by (intros; apply sort_elem).
  (* the loop over the children *)
  assert (Hloop : forall l' st', walk_ok st' -> extends st1 st' -> (forall c, c ∈ l' -> c ∈ kids (sp_span_id s)) ->
    let st'' := foldl (fun st c => walk kids fuel st c (S d)) st' l' in
    walk_ok st'' /\ extends st' st'' /\ (forall c, c ∈ l' -> sp_span_id c ∈ ids st'') /\
    (forall x e, (x, e) ∈ rows st'' -> (x, e) ∈ rows st' \/ forall c, c ∈ kids (sp_span_id x) -> sp_span_id c ∈ ids st'')).
  { assert (Hids : forall a b i, walk_ok a -> walk_ok b -> extends a b -> i ∈ ids a -> i ∈ ids b).
    { intros a b i Ha Hb [m Hm]. rewrite (wo_ids _ Ha), (wo_ids _ Hb), Hm, !fmap_app. intros. apply elem_of_app. by left. }
    induction l' as [|c l' IHl]; intros st' Hok' He Hk; cbn [foldl].
    { split; [done|]. split; [apply extends_refl|]. split; [intros c Hc; by apply elem_of_nil in Hc|by auto]. }
    assert (Hd' : S d = 0%nat \/ exists p d', S d = S d' /\ (p, d') ∈ rows st' /\ c ∈ kids (sp_span_id p)).
    { right. exists s, d. split; [done|]. split; [|apply Hk; in_cons]. eapply extends_elem; [exact He|].
      unfold st1. cbn [snd]. apply elem_of_app. right. in_cons. }
    assert (Hc : sp_span_id c ∈ U) by (eapply HU, Hk; in_cons).
    pose proof (unseen_mono U st1 st' He Hok1 Hok') as Hm.
    destruct (IH st' c (S d) Hc Hok' Hd' ltac:(lia)) as [Hc1 Hc2].
    destruct (walk_keeps fuel st' c (S d) Hok' Hd') as [Hok2 He2].
    destruct (IHl (walk kids fuel st' c (S d)) Hok2 (extends_trans _ _ _ He He2)) as (H1 & H2 & H3 & H4).
    { intros x Hx. apply Hk. in_cons. }
    split; [done|]. split; [by eapply extends_trans|]. split.
    - intros x Hx. apply elem_of_cons in Hx as [->|Hx]; [|by apply H3]. exact (Hids _ _ _ Hok2 H1 H2 Hc1).
    - intros x e Hx. destruct (H4 x e Hx) as [Hx'|Hx']; [|by right].
      destruct (Hc2 x e Hx') as [?|Hx'']; [by left|right]. intros y Hy.
      exact (Hids _ _ _ Hok2 H1 H2 (Hx'' y Hy)). }
  destruct (Hloop l st1 Hok1 (extends_refl _)) as (H1 & H2 & H3 & H4); [by intros; apply Hl|].
  split.
  - rewrite (wo_ids _ H1). destruct H2 as [m ->]. unfold st1. cbn [snd]. rewrite !fmap_app.
    apply elem_of_app. left. apply elem_of_app. right. in_cons.
  - intros x e Hx. destruct (H4 x e Hx) as [Hx'|?]; [|by right].
    unfold st1 in Hx'. cbn [snd] in Hx'. apply elem_of_app in Hx' as [?|Hx']; [by left|right].
    apply list_elem_of_singleton in Hx'. injection Hx' as -> ->. intros c Hc. by apply H3, Hl.
Qed.
End walk_lemmas.

(** ** The order: correctness *)

Section order.
Context (spans : list SpanSummary).

Abbreviation all_ids := (sp_span_id <$> spans).
Definition kids_of (id : string) : list SpanSummary := omap_get id (children_of spans) ?? [].

Lemma kids_elem id c :
  c ∈ kids_of id <-> c ∈ spans /\ has_parent all_ids c = true /\ (sp_parent_span_id c ?? "") = id.
Proof.
  unfold kids_of, children_of. rewrite group_by_get, !filterb_elem, bool_decide_eq_true. tauto.
Qed.

Definition roots_of : list SpanSummary :=
  sort byStart (List.filter (fun s => negb (has_parent all_ids s)) spans).
Definition walked : walk_state :=
  foldl (fun st r => walk kids_of (S (length spans)) st r 0) ([], []) roots_of.

Lemma orderSpans_walked :
  orderSpans spans = walked.2 ++ ((fun s => (s, 0%nat)) <$>
    List.filter (fun s => negb (bool_decide (sp_span_id s ∈ walked.1))) spans).
Proof. unfold orderSpans. fold kids_of roots_of. fold walked. by destruct walked. Qed.

Lemma walk_ok_nil : walk_ok kids_of ([], []).
Proof. split; [done|constructor|]. intros l1 s d l2 E. by destruct l1. Qed.

Definition all_closed (st : walk_state) : Prop :=
  forall x e, (x, e) ∈ st.2 -> forall c, c ∈ kids_of (sp_span_id x) -> sp_span_id c ∈ st.1.

Lemma walk_ids_mono st st' i : walk_ok kids_of st -> walk_ok kids_of st' -> extends st st' -> i ∈ st.1 -> i ∈ st'.1.
Proof.
  intros Ha Hb [m Hm]. rewrite (wo_ids _ _ Ha), (wo_ids _ _ Hb), Hm, !fmap_app. intros. apply elem_of_app. by left.
Qed.

Lemma roots_fold l st :
  walk_ok kids_of st -> all_closed st -> (forall r, r ∈ l -> r ∈ spans) ->
  let st' := foldl (fun st r => walk kids_of (S (length spans)) st r 0) st l in
  walk_ok kids_of st' /\ extends st st' /\ all_closed st' /\ (forall r, r ∈ l -> sp_span_id r ∈ st'.1).
Proof.
  revert st. induction l as [|r l IH]; intros st Hok Hc Hl; cbn [foldl].
  { split; [done|]. split; [apply extends_refl|]. split; [done|]. intros r Hr. by apply elem_of_nil in Hr. }
  assert (Hr : r ∈ spans) by (apply Hl; in_cons).
  destruct (walk_keeps kids_of (S (length spans)) st r 0 Hok (or_introl eq_refl)) as [Hok1 He1].
  destruct (walk_closed kids_of all_ids (S (length spans)) st r 0) as [Hin Hcl];
    [|by apply list_elem_of_fmap_2|done|by left| |].
  { intros id c Hk. apply kids_elem in Hk as [Hk _]. by apply list_elem_of_fmap_2. }
  { unfold unseen. pose proof (List.filter_length_le (fun i => negb (bool_decide (i ∈ st.1))) all_ids) as Hle.
    rewrite length_fmap in Hle. lia. }
  assert (Hc1 : all_closed (walk kids_of (S (length spans)) st r 0)).
  { intros x e Hx c Hk. destruct (Hcl x e Hx) as [Hx'|Hx']; [|by apply Hx'].
    eapply walk_ids_mono; [exact Hok|exact Hok1|exact He1|]. by eapply Hc. }
  destruct (IH _ Hok1 Hc1) as (H1 & H2 & H3 & H4); [intros x Hx; apply Hl; in_cons|].
  split; [done|]. split; [by apply (extends_trans _ _ _ He1)|]. split; [done|].
  intros x Hx. apply elem_of_cons in Hx as [->|Hx]; [|by apply H4].
  by eapply walk_ids_mono; [exact Hok1|exact H1|exact H2|].
Qed.

Lemma walked_spec :
  walk_ok kids_of walked /\ all_closed walked /\ (forall r, r ∈ roots_of -> sp_span_id r ∈ walked.1) /\
  (forall x d, (x, d) ∈ walked.2 -> x ∈ spans).
Proof.
  destruct (roots_fold roots_of ([], []) walk_ok_nil) as (H1 & _ & H3 & H4).
  { intros x e Hx. by apply elem_of_nil in Hx. }
  { intros r Hr. apply (proj1 (sort_elem _ _ _)) in Hr. by apply filterb_elem in Hr as [? _]. }
  split; [done|]. split; [done|]. split; [done|].
  (* every row is a root or a child *)
  assert (Hrows : forall fuel l st, (forall x d, (x, d) ∈ st.2 -> x ∈ spans) -> (forall r, r ∈ l -> r ∈ spans) ->
    forall d x e, (x, e) ∈ (foldl (fun st r => walk kids_of fuel st r d) st l).2 -> x ∈ spans).
  { induction fuel as [|fuel IHf]; intros l.
    - induction l as [|r l IHl]; intros st Hst Hl d x e Hx; [by eapply Hst|]. cbn [foldl walk] in Hx.
      refine (IHl st Hst _ d x e Hx). intros y Hy. apply Hl. in_cons.
    - induction l as [|r l IHl]; intros st Hst Hl d x e Hx; [by eapply Hst|]. cbn [foldl] in Hx.
      eapply IHl; [| |exact Hx]; [|intros y Hy; apply Hl; in_cons].
      intros y k Hy. cbn [walk] in Hy. case_bool_decide; [by eapply Hst|].
      eapply IHf; [| |exact Hy].
      + cbn [snd]. intros z k' Hz. apply elem_of_app in Hz as [Hz|Hz]; [by eapply Hst|].
        apply list_elem_of_singleton in Hz. injection Hz as -> _. apply Hl. in_cons.
      + intros z Hz. apply (proj1 (sort_elem _ _ _)), kids_elem in Hz. tauto. }
  intros x d Hx. eapply Hrows; [| |exact Hx].
  - intros y k Hy. by apply elem_of_nil in Hy.
  - intros r Hr. apply (proj1 (sort_elem _ _ _)) in Hr. by apply filterb_elem in Hr as [? _].
Qed.
End order.

(** The list has every span of the trace exactly once, and one that is indented
    stands below its parent.  Parent links that loop lose nothing. *)
Lemma orderSpans_all spans :
  NoDup (sp_span_id <$> spans) ->
  (orderSpans spans).*1 ≡ₚ spans /\
  (forall l1 s d l2, orderSpans spans = l1 ++ (s, S d) :: l2 ->
     exists p, (p, d) ∈ l1 /\ sp_parent_span_id s = Some (sp_span_id p)).
Proof.
  intros Hnd. destruct (walked_spec spans) as (Hok & _ & _ & Hsub). rewrite orderSpans_walked.
  set (rest := List.filter _ spans). split.
  - rewrite fmap_app. rewrite <- list_fmap_compose.
    assert (Hrest : (fst ∘ (fun s : SpanSummary => (s, 0%nat))) <$> rest = rest) by apply list_fmap_id.
    rewrite Hrest. apply NoDup_Permutation.
    + apply NoDup_app. split.
      * pose proof (wo_nodup _ _ Hok) as Hn. rewrite (wo_ids _ _ Hok) in Hn. by apply NoDup_map_inv in Hn.
      * split.
        -- intros s Hs Hr. apply filterb_elem in Hr as [_ Hr].
           apply negb_true_iff, bool_decide_eq_false in Hr. apply Hr. rewrite (wo_ids _ _ Hok).
           by apply list_elem_of_fmap_2.
        -- by apply filterb_NoDup, (NoDup_map_inv sp_span_id).
    + by apply NoDup_map_inv in Hnd.
    + intros s. rewrite elem_of_app. split.
      * intros [Hs|Hs]; [|by apply filterb_elem in Hs as [? _]].
        apply list_elem_of_fmap in Hs as ([x d] & -> & Hx). by eapply Hsub.
      * intros Hs. destruct (bool_decide (sp_span_id s ∈ (walked spans).1)) eqn:E.
        -- left. apply bool_decide_eq_true in E. rewrite (wo_ids _ _ Hok) in E.
           apply list_elem_of_fmap in E as (x & Ex & Hx).
           assert (x ∈ spans) by (apply list_elem_of_fmap in Hx as ([y d] & -> & Hy); by eapply Hsub).
           by rewrite (NoDup_map_eq sp_span_id spans s x Hnd).
        -- right. apply filterb_elem. by rewrite E.
  - intros l1 s d l2 E.
    assert (Hin : exists l2', (walked spans).2 = l1 ++ (s, S d) :: l2').
    { clear -E. revert l1 E. generalize (walked spans).2 as m. induction m as [|y m IH]; intros l1 E.
      - assert (Hin : (s, S d) ∈ ((fun s : SpanSummary => (s, 0%nat)) <$> rest)).
        { change ((fun s : SpanSummary => (s, 0%nat)) <$> rest) with ([] ++ ((fun s : SpanSummary => (s, 0%nat)) <$> rest)).
          rewrite E. apply elem_of_app. right. in_cons. }
        apply list_elem_of_fmap in Hin as (x & Hx & _). discriminate.
      - destruct l1 as [|z l1]; cbn in E; injection E as -> E; [by exists m|].
        destruct (IH l1 E) as [l2' ->]. by exists l2'. }
    destruct Hin as [l2' Hin]. destruct (wo_parent _ _ Hok _ _ _ _ Hin) as (p & Hp & Hk).
    exists p. split; [done|]. apply kids_elem in Hk as (_ & Hh & Hid).
    unfold has_parent in Hh. destruct (sp_parent_span_id s); [|done]. by rewrite <- Hid.
Qed.

(** The trace has a length: some span starts before the last one ends. *)
Definition has_length (spans : list SpanSummary) : Prop := exists t0 tn, extent spans = (Some t0, Some tn) /\ (t0 < tn)%Z.

Lemma hops_rows spans :
  (has_length spans -> (fun h => (hop_span h, hop_depth h)) <$> hs_hops (hops spans) = orderSpans spans) /\
  (~ has_length spans -> hs_hops (hops spans) = []).
Proof.
  unfold hops. split.
  - intros (t0 & tn & -> & Hlt). rewrite (proj2 (Z.leb_gt _ _) Hlt). cbn [hs_hops]. rewrite <- list_fmap_compose.
    etransitivity; [|apply list_fmap_id]. apply list_fmap_ext. by intros _ [s d] _.
  - intros Hn. destruct (extent spans) as [[t0|] [tn|]] eqn:E; try done. destruct (Z.leb_spec tn t0); [done|]. destruct Hn. by exists t0, tn.
Qed.

(** C27. A trace that has a length, with the switch off, is drawn with every one
    of its spans in exactly one row, and an indented row stands below the row of its
    parent; parent links that loop lose nothing.  With the switch on, as a page may
    ask from the start, the rows are those of the failed spans and of the spans the
    search found, in the same order.  A trace of no length has no row. *)
Theorem waterfall_shows_all matched spans :
  NoDup (sp_span_id <$> spans) ->
  (has_length spans ->
     hop_span <$> TraceWaterfall false matched spans ≡ₚ spans /\
     (forall l1 h l2 d, TraceWaterfall false matched spans = l1 ++ h :: l2 -> hop_depth h = S d ->
        exists p, p ∈ l1 /\ hop_depth p = d /\ sp_parent_span_id (hop_span h) = Some (sp_span_id (hop_span p))) /\
     (forall s, s ∈ hop_span <$> TraceWaterfall true matched spans <->
        s ∈ spans /\ (sp_status_code s = "Error" \/ sp_span_id s ∈ matched ?? [])) /\
     TraceWaterfall true matched spans `sublist_of` TraceWaterfall false matched spans) /\
  (~ has_length spans -> forall errorsOnly, TraceWaterfall errorsOnly matched spans = []).
Proof.
  intros Hnd. destruct (orderSpans_all spans Hnd) as [Hperm Hpar]. destruct (hops_rows spans) as [Hrows Hnone].
  unfold TraceWaterfall, visible. split.
  2:{ intros Hn errorsOnly. rewrite (Hnone Hn). by destruct errorsOnly. }
  intros Hl. specialize (Hrows Hl). set (hs := hs_hops (hops spans)) in *. clearbody hs.
  assert (Hsp : hop_span <$> hs = (orderSpans spans).*1) by (rewrite <- Hrows, <- list_fmap_compose; done).
  rewrite <- Hsp in Hperm. split; [done|]. split; [|split].
  - intros l1 h l2 d E Hd. rewrite E, fmap_app, fmap_cons, Hd in Hrows. destruct (Hpar _ _ _ _ (eq_sym Hrows)) as (p & Hp & Hpp).
    apply list_elem_of_fmap in Hp as (q & [= -> ->] & Hq). by exists q.
  - intros s. rewrite <- Hperm, !list_elem_of_fmap. split.
    + intros (h & -> & [Hh Hp]%filterb_elem). split; [by exists h|]. apply orb_true_iff in Hp as [Hp|Hp]; [left; by apply String.eqb_eq|right].
      by apply bool_decide_eq_true in Hp.
    + intros [(h & -> & Hh) Hp]. exists h. split; [done|]. apply filterb_elem. split; [done|]. apply orb_true_iff.
      destruct Hp; [left; by apply String.eqb_eq|right; by apply bool_decide_eq_true].
  - clear. induction hs as [|h hs IH]; [constructor|]. cbn. destruct (_ || _); by constructor.
Qed.

(** In a trace whose parent links do not loop, a span is indented one step
    below its parent wherever the parent is in the trace, and only spans
    without one stand at the left edge. *)
Theorem waterfall_indents spans (rank : string -> nat) :
  NoDup (sp_span_id <$> spans) ->
  (forall s, s ∈ spans -> has_parent (sp_span_id <$> spans) s = true ->
     (rank (sp_parent_span_id s ?? "") < rank (sp_span_id s))%nat) ->
  forall s d, (s, d) ∈ orderSpans spans ->
    (d = 0%nat <-> has_parent (sp_span_id <$> spans) s = false).
Proof.
  intros Hnd Hrank s d Hs. destruct (walked_spec spans) as (Hok & Hcl & Hroots & Hsub).
  assert (Hall : forall n x, x ∈ spans -> (rank (sp_span_id x) < n)%nat -> sp_span_id x ∈ (walked spans).1).
  { induction n as [|n IHn]; intros x Hx Hn; [lia|].
    destruct (has_parent (sp_span_id <$> spans) x) eqn:E.
    - pose proof (Hrank x Hx E) as Hlt. pose proof E as E'. unfold has_parent in E'.
      destruct (sp_parent_span_id x) as [p|] eqn:Ep; [|done]. cbn [default] in Hlt.
      apply andb_true_iff in E' as [E' _]. apply andb_true_iff in E' as [_ Hin].
      apply bool_decide_eq_true in Hin. apply list_elem_of_fmap in Hin as (y & -> & Hy).
      assert (Hys : sp_span_id y ∈ (walked spans).1) by (apply IHn; [done|]; cbn in Hlt; lia).
      rewrite (wo_ids _ _ Hok) in Hys. apply list_elem_of_fmap in Hys as (z & Ez & Hz).
      apply list_elem_of_fmap in Hz as ([z' e] & -> & Hz). eapply Hcl; [exact Hz|].
      apply kids_elem. split; [done|]. split; [done|]. rewrite Ep. by cbn.
    - apply Hroots, sort_elem, filterb_elem. by rewrite E. }
  assert (Hrest : List.filter (fun s => negb (bool_decide (sp_span_id s ∈ (walked spans).1))) spans = []).
  { apply filterb_none. intros x Hx. apply negb_false_iff, bool_decide_eq_true. eapply Hall; [done|]. apply Nat.lt_succ_diag_r. }
  rewrite orderSpans_walked, Hrest, app_nil_r in Hs.
  (* a row of depth zero was a root of the walk *)
  assert (Hd : forall x e, (x, e) ∈ (walked spans).2 -> e = 0%nat -> has_parent (sp_span_id <$> spans) x = false).
  { assert (Hw : forall fuel d st r x e, (x, e) ∈ (walk (kids_of spans) fuel st r d).2 ->
      (x, e) ∈ st.2 \/ (x = r /\ e = d) \/ (d < e)%nat).
    { induction fuel as [|fuel IHf]; intros d0 st r x e Hx; [by left|]. cbn [walk] in Hx.
      case_bool_decide; [by left|].
      assert (Hf : forall l st', (x, e) ∈ (foldl (fun st c => walk (kids_of spans) fuel st c (S d0)) st' l).2 ->
        (x, e) ∈ st'.2 \/ (d0 < e)%nat).
      { induction l as [|c l IHl]; intros st' Hx'; [by left|]. cbn [foldl] in Hx'.
        destruct (IHl _ Hx') as [H'|?]; [|by right]. apply IHf in H' as [?|[[_ ->]|?]]; [by left|right; lia|right; lia]. }
      apply Hf in Hx as [Hx|?]; [|by right; right]. cbn [snd] in Hx.
      apply elem_of_app in Hx as [?|Hx]; [by left|]. apply list_elem_of_singleton in Hx. injection Hx as -> ->. by right; left. }
    unfold walked. intros x e Hx He. subst e.
    assert (Hf : forall l st, (x, 0%nat) ∈ (foldl (fun st r => walk (kids_of spans) (S (length spans)) st r 0) st l).2 ->
      (x, 0%nat) ∈ st.2 \/ x ∈ l).
    { induction l as [|r l IHl]; intros st Hx'; [by left|]. cbn [foldl] in Hx'.
      destruct (IHl _ Hx') as [H'|?]; [|right; in_cons].
      apply Hw in H' as [?|[[-> _]|?]]; [by left|right; in_cons|lia]. }
    apply Hf in Hx as [Hx|Hx]; [by apply elem_of_nil in Hx|].
    apply (proj1 (sort_elem _ _ _)), filterb_elem in Hx as [_ Hx]. by apply negb_true_iff in Hx. }
  split; [by apply Hd|]. intros Hh. destruct d as [|d]; [done|].
  apply list_elem_of_split in Hs as (l1 & l2 & Hs).
  destruct (wo_parent _ _ Hok _ _ _ _ Hs) as (p & _ & Hk). apply kids_elem in Hk as (_ & Hk & _). congruence.
Qed.
End waterfall.

(** ** Examples *)

Definition ex_span (id : string) (parent : option string) (service name t : string) (d : Z) : SpanSummary := {|
  sp_timestamp := t; sp_trace_id := "t1"; sp_span_id := id; sp_parent_span_id := parent;
  sp_service_name := service; sp_span_name := name; sp_span_kind := "internal"; sp_status_code := "Ok";
  sp_status_message := None; sp_duration_ms := d; sp_attributes := None; sp_resource_attributes := None;
  sp_span_attributes := None; sp_links := None; sp_links_total := None; sp_events := None; sp_events_total := None |}.

Definition ex_trace : list SpanSummary := [
  ex_span "c" (Some "a") "s" "n" "2026-05-12T05:15:02Z" 5;
  ex_span "b" (Some "a") "s" "n" "2026-05-12T05:15:01Z" 5;
  ex_span "d" (Some "b") "s" "n" "2026-05-12T05:15:03Z" 5;
  ex_span "a" None "s" "n" "2026-05-12T05:15:00Z" 9
].

Example orderSpans_ex :
  (fun sd => (sp_span_id sd.1, sd.2)) <$> orderSpans (host := plain_host) ex_trace
  = [("a", 0); ("b", 1); ("d", 2); ("c", 1)]%nat.
Proof. by_compute. Qed.

Lemma ex_trace_nodup : NoDup (sp_span_id <$> ex_trace).
Proof. apply (bool_decide_unpack _). vm_compute. exact I. Qed.

Lemma ex_trace_length : has_length (host := plain_host) ex_trace.
Proof. eexists _, _. split; [vm_compute; reflexivity|lia]. Qed.
Lemma waterfall_shows_all_witness :
  NoDup (sp_span_id <$> ex_trace) /\ has_length (host := plain_host) ex_trace /\
  hop_span <$> TraceWaterfall (host := plain_host) false None ex_trace ≡ₚ ex_trace.
Proof.
  split; [exact ex_trace_nodup|]. split; [exact ex_trace_length|].
  exact (proj1 (proj1 (@waterfall_shows_all plain_host None ex_trace ex_trace_nodup) ex_trace_length)).
Defined.

Definition ex_rank (id : string) : nat := if id =s "a" then 0 else if id =s "b" then 1 else 2.

Lemma waterfall_indents_witness :
  NoDup (sp_span_id <$> ex_trace) /\
  forall s d, (s, d) ∈ orderSpans (host := plain_host) ex_trace ->
    (d = 0%nat <-> has_parent (sp_span_id <$> ex_trace) s = false).
Proof.
  split; [exact ex_trace_nodup|]. apply (@waterfall_indents plain_host ex_trace ex_rank ex_trace_nodup).
  intros s Hs. unfold ex_trace in Hs. repeat (apply elem_of_cons in Hs as [->|Hs]; [vm_compute; intros; lia || discriminate|]).
  by apply elem_of_nil in Hs.
Defined.
