(* ===== verification/SpanGraph.v ===== *)
(** * The graph of a trace

    [lib/spanGraph.ts] (folding repeated spans into nodes, edges, hand-offs,
    the refusal) and the column depth and connector geometry of
    [components/SpanGraph.tsx].  Times are integers of one unit, as in
    [Trace]. *)

From S2P Require Import Prelude JsString JsArray Host Types Trace.

Local Open Scope char_scope.
Local Open Scope string_scope.
Local Open Scope list_scope.

Record SpanNode := {
  sn_id : string;
  sn_spanIds : list string;
  sn_service : string;
  sn_name : string;
  sn_count : Z;
  sn_failed : bool;
  sn_startMs : option Z;
  sn_endMs : option Z;
  sn_parentId : option string;
  sn_overlapping : bool
}.
Record GraphEdge := { ge_from : string; ge_to : string }.
Record Handoff := { ho_from : string; ho_traceId : string; ho_spanId : string }.
Record SpanGraph := {
  sg_nodes : list SpanNode;
  sg_edges : list GraphEdge;
  sg_handoffs : list Handoff;
  sg_rawSpans : Z;
  sg_handoffsUnknown : bool
}.

Definition MAX_DRAWABLE_NODES : Z := 60.

(** [Math.min] and [Math.max] of a list that is not empty: [NaN] wins. *)
Definition min_all (l : list (option Z)) : option Z :=
  match l with [] => None | x :: l => foldl (fun a b => match a, b with Some a, Some b => Some (Z.min a b) | _, _ => None end) x l end.
Definition max_all (l : list (option Z)) : option Z :=
  match l with [] => None | x :: l => foldl (fun a b => match a, b with Some a, Some b => Some (Z.max a b) | _, _ => None end) x l end.

(** [a < b] on numbers that may be [NaN]. *)
Definition lt_ms (a b : option Z) : bool := match a, b with Some a, Some b => (a <? b)%Z | _, _ => false end.

Section graph.
Context {host : Host}.

Definition ms (iso : string) : option Z := date_ms iso.

Definition foldKey (s : SpanSummary) : string :=
  tpl [sp_parent_span_id s ?? ""; NUL; sp_service_name s; NUL; sp_span_name s].

(** The start and the end of a span. *)
Definition range_of (s : SpanSummary) : option Z * option Z :=
  let t := ms (sp_timestamp s) in (t, (fun t => t + sp_duration_ms s)%Z <$> t).

(** One range starts before the one sorted just before it ends. *)
Fixpoint adjacent_overlap (l : list (option Z * option Z)) : bool :=
  match l with
  | a :: (b :: _) as l' => lt_ms b.1 a.2 || adjacent_overlap l'
  | _ => false
  end.
Definition by_range_start (a b : option Z * option Z) : Z := sub_ms a.1 b.1.

Definition is_error (code : string) : bool := (code =s "Error") || (code =s "STATUS_CODE_ERROR").

(** The node a group of spans folds into; a group is never empty. *)
Definition node_of_group (g : list SpanSummary) : option SpanNode :=
  match g with
  | [] => None
  | first :: _ =>
      let ranges := range_of <$> g in
      Some {| sn_id := sp_span_id first; sn_spanIds := sp_span_id <$> g; sn_service := sp_service_name first;
              sn_name := sp_span_name first; sn_count := Z.of_nat (length g);
              sn_failed := existsb (fun s => is_error (sp_status_code s)) g;
              sn_startMs := min_all (ranges.*1); sn_endMs := max_all (ranges.*2);
              sn_parentId := None; sn_overlapping := adjacent_overlap (sort by_range_start ranges) |}
  end.

(** The nodes by id, and the node of every span. *)
Definition add_node (acc : list (string * SpanNode) * list (string * string)) (g : list SpanSummary)
    : list (string * SpanNode) * list (string * string) :=
  match node_of_group g with
  | None => acc
  | Some node =>
      (omap_set (sn_id node) node acc.1,
       foldl (fun m s => omap_set (sp_span_id s) (sn_id node) m) acc.2 g)
  end.

Definition fold_nodes (spans : list SpanSummary) : list (string * SpanNode) * list (string * string) :=
  foldl add_node ([], []) (omap_values (group_by foldKey spans)).

(** The node a node hangs under. *)
Definition parent_of (byId : list (string * SpanSummary)) (nodeOfSpan : list (string * string)) (node : SpanNode) : option string :=
  match omap_get (sn_id node) byId ≫= sp_parent_span_id with
  | None => None
  | Some parentSpan =>
      if negb (truthy parentSpan) then None
      else match omap_get parentSpan nodeOfSpan with
           | Some parentNode => if negb (truthy parentNode) || (parentNode =s sn_id node) then None else Some parentNode
           | None => None
           end
  end.

Definition with_parent (p : option string) (n : SpanNode) : SpanNode := {|
  sn_id := sn_id n; sn_spanIds := sn_spanIds n; sn_service := sn_service n; sn_name := sn_name n;
  sn_count := sn_count n; sn_failed := sn_failed n; sn_startMs := sn_startMs n; sn_endMs := sn_endMs n;
  sn_parentId := p; sn_overlapping := sn_overlapping n
|}.

(** [edgeSet] and [edges] of the loop over the nodes. *)
Definition add_edge (acc : list string * list GraphEdge) (n : SpanNode) : list string * list GraphEdge :=
  match sn_parentId n with
  | None => acc
  | Some p =>
      let key := tpl [p; NUL; sn_id n] in
      if bool_decide (key ∈ acc.1) then acc
      else (acc.1 ++ [key], acc.2 ++ [{| ge_from := p; ge_to := sn_id n |}])
  end.

Definition handoffs_of (nodeOfSpan : list (string * string)) (spans : list SpanSummary) : list Handoff :=
  concat ((fun s => omap (fun l =>
    match omap_get (sp_span_id s) nodeOfSpan with
    | Some from => if truthy from then Some {| ho_from := from; ho_traceId := sl_trace_id l; ho_spanId := sl_span_id l |} else None
    | None => None
    end) (sp_links s ?? [])) <$> spans).

Definition buildSpanGraph (spans : list SpanSummary) (linksRecordedSince : option string) : SpanGraph :=
  let byId := omap_of ((fun s => (sp_span_id s, s)) <$> spans) in
  let '(nodes, nodeOfSpan) := fold_nodes spans in
  let linked := (fun n => with_parent (parent_of byId nodeOfSpan n) n) <$> omap_values nodes in
  let edges := (foldl add_edge ([], []) linked).2 in
  let handoffs := handoffs_of nodeOfSpan spans in
  {| sg_nodes := linked; sg_edges := edges; sg_handoffs := handoffs; sg_rawSpans := Z.of_nat (length spans);
     sg_handoffsUnknown :=
       match spans, handoffs with
       | _ :: _, [] =>
           negb (truthy_opt linksRecordedSince)
           || lt_ms (max_all ((fun s => ms (sp_timestamp s)) <$> spans)) (ms (linksRecordedSince ?? ""))
       | _, _ => false
       end |}.

Record GraphRefusal := { gr_reason : string; gr_fallback : string }.

Definition graphRefusal (g : SpanGraph) : option GraphRefusal :=
  let n := Z.of_nat (length (sg_nodes g)) in
  if (n <=? MAX_DRAWABLE_NODES)%Z then None
  else Some {|
    gr_reason := tpl ["This message has "; show_Z n; " distinct steps even after folding repeats together, ";
      "which usually means the producer is creating a span per item rather than per stage."];
    gr_fallback := "The waterfall below shows every step in time order." |}.

(** ** Column depth

    [depths]: the memo table and the guard of the recursion are threaded
    through; a chain of parents visits each node at most once before the guard
    stops it, so one unit of fuel per node and one more are enough. *)
Fixpoint depth_walk (byId : list (string * SpanNode)) (fuel : nat) (out : list (string * Z)) (guard_ : list string) (n : SpanNode)
    : Z * list (string * Z) :=
  match fuel with
  | O => (0%Z, out)
  | S fuel =>
      match omap_get (sn_id n) out with
      | Some known => (known, out)
      | None =>
          if negb (truthy_opt (sn_parentId n)) || bool_decide (sn_id n ∈ guard_) then (0%Z, omap_set (sn_id n) 0%Z out)
          else match omap_get (sn_parentId n ?? "") byId with
               | None => (0%Z, omap_set (sn_id n) 0%Z out)
               | Some parent =>
                   let '(d, out) := depth_walk byId fuel out (guard_ ++ [sn_id n]) parent in
                   ((d + 1)%Z, omap_set (sn_id n) (d + 1)%Z out)
               end
      end
  end.

Definition depths_with (fuel : nat) (nodes : list SpanNode) : list (string * Z) :=
  let byId := omap_of ((fun n => (sn_id n, n)) <$> nodes) in
  foldl (fun out n => (depth_walk byId fuel out [] n).2) [] nodes.
Definition depths (nodes : list SpanNode) : list (string * Z) := depths_with (S (length nodes)) nodes.

(** ** Connectors *)

Definition NODE_W : Z := 168.
Definition NODE_H : Z := 46.
Record Point := { px : Z; py : Z }.

Definition sideRoute (from to : Point) (laneX : Z) : string :=
  let r := 8%Z in
  let dir := if (px from <? laneX)%Z then 1%Z else (-1)%Z in
  let drop := 12%Z in
  let s := show_Z in
  join " " [
    tpl ["M"; s (px from); ","; s (py from)];
    tpl ["V"; s (py from + drop - r)%Z];
    tpl ["Q"; s (px from); ","; s (py from + drop)%Z; " "; s (px from + r * dir)%Z; ","; s (py from + drop)%Z];
    tpl ["H"; s (laneX - r * dir)%Z];
    tpl ["Q"; s laneX; ","; s (py from + drop)%Z; " "; s laneX; ","; s (py from + drop + r)%Z];
    tpl ["V"; s (py to - drop - r)%Z];
    tpl ["Q"; s laneX; ","; s (py to - drop)%Z; " "; s (laneX - r * dir)%Z; ","; s (py to - drop)%Z];
    tpl ["H"; s (px to + r * dir)%Z];
    tpl ["Q"; s (px to); ","; s (py to - drop)%Z; " "; s (px to); ","; s (py to - drop + r)%Z];
    tpl ["V"; s (py to)]
  ].

Definition crossesABox (src dst : Point) (boxes : list Point) : bool :=
  if negb (px src =? px dst)%Z then false
  else existsb (fun q =>
    (px q + 2 <? px src)%Z && (px src <? px q + NODE_W - 2)%Z
    && (Z.min (py src) (py dst) <? py q + NODE_H - 2)%Z && (py q + 2 <? Z.max (py src) (py dst))%Z) boxes.

Definition detour (from to : Point) (lane : Z) : string :=
  let r := 8%Z in
  let s := show_Z in
  if (Z.abs (px to - px from) <? 1)%Z then tpl ["M"; s (px from); ","; s (py from); " V"; s (py to)]
  else
    let dir := if (px from <? px to)%Z then 1%Z else (-1)%Z in
    join " " [
      tpl ["M"; s (px from); ","; s (py from)];
      tpl ["V"; s (lane - r)%Z];
      tpl ["Q"; s (px from); ","; s lane; " "; s (px from + r * dir)%Z; ","; s lane];
      tpl ["H"; s (px to - r * dir)%Z];
      tpl ["Q"; s (px to); ","; s lane; " "; s (px to); ","; s (lane + r)%Z];
      tpl ["V"; s (py to)]
    ].

(** ** Folding: lemmas *)

Lemma foldl_set_get {A} (f : A -> string) (v : string) (l : list A) (m : list (string * string)) k :
  omap_get k (foldl (fun m s => omap_set (f s) v m) m l) = if bool_decide (k ∈ f <$> l) then Some v else omap_get k m.
Proof.
  revert m. induction l as [|x l IH]; intros m; cbn [foldl]; [done|]. rewrite IH, omap_get_set. csimpl.
  destruct (decide (k = f x)) as [->|Hne].
  - rewrite (bool_decide_true (f x ∈ f x :: _)) by in_cons. by case_if.
  - destruct (bool_decide (k ∈ f <$> l)) eqn:E.
    + apply bool_decide_eq_true in E. by rewrite bool_decide_true by in_cons.
    + apply bool_decide_eq_false in E. rewrite bool_decide_false; [done|].
      intros [?|?]%elem_of_cons; done.
Qed.

(** What the folding keeps, for the groups done so far. *)
Record folded (gs : list (list SpanSummary)) (acc : list (string * SpanNode) * list (string * string)) : Prop := {
  fo_nodes : omap_values acc.1 = omap node_of_group gs;
  fo_keys : omap_keys acc.1 = sn_id <$> omap node_of_group gs;
  fo_spans : forall k, omap_get k acc.2 = None <-> k ∉ sp_span_id <$> concat gs;
  fo_node : forall s g n, g ∈ gs -> s ∈ g -> node_of_group g = Some n -> omap_get (sp_span_id s) acc.2 = Some (sn_id n);
  fo_val : forall k v, omap_get k acc.2 = Some v -> v ∈ omap_keys acc.1
}.

Lemma node_of_group_id g n : node_of_group g = Some n -> exists s g', g = s :: g' /\ sn_id n = sp_span_id s.
Proof. destruct g as [|s g]; [done|]. intros [= <-]. by exists s, g. Qed.

Lemma folded_step gs acc g :
  folded gs acc -> g <> [] -> NoDup (sp_span_id <$> concat (gs ++ [g])) -> folded (gs ++ [g]) (add_node acc g).
Proof.
  intros [Hn Hk Hs Hg Hv] Hne Hnd. destruct g as [|s0 g]; [done|]. clear Hne. unfold add_node.
  destruct (node_of_group (s0 :: g)) as [n|] eqn:En; [|done].
  assert (Hid : sn_id n = sp_span_id s0) by (cbn in En; by injection En as <-).
  rewrite concat_app, fmap_app in Hnd. cbn [concat] in Hnd. rewrite app_nil_r in Hnd.
  apply NoDup_app in Hnd as (_ & Hdis & _).
  assert (Hfresh : sn_id n ∉ omap_keys acc.1).
  { rewrite Hk. intros Hin. apply list_elem_of_fmap in Hin as (m & Em & Hm).
    apply list_elem_of_omap in Hm as (g' & Hg' & Hm). apply node_of_group_id in Hm as (s' & g'' & -> & Hm).
    apply (Hdis (sp_span_id s0)); [|csimpl; in_cons].
    rewrite <- Hid, Em, Hm. apply list_elem_of_fmap_2. apply list_elem_of_In, List.in_concat.
    exists (s' :: g''). split; apply list_elem_of_In; [done|in_cons]. }
  assert (Hset : omap_set (sn_id n) n acc.1 = acc.1 ++ [(sn_id n, n)]) by by apply omap_set_fresh.
  split; cbn [fst snd]; rewrite ?Hset.
  - unfold omap_values in *. rewrite fmap_app, Hn, omap_app. cbn [omap list_omap]. by rewrite En.
  - unfold omap_keys in *. rewrite fmap_app, Hk, omap_app, fmap_app. cbn [omap list_omap]. by rewrite En.
  - intros k. rewrite foldl_set_get, concat_app, fmap_app, elem_of_app. cbn [concat]. rewrite app_nil_r.
    destruct (bool_decide (k ∈ sp_span_id <$> s0 :: g)) eqn:E.
    + apply bool_decide_eq_true in E. split; [done|]. intros H. exfalso. apply H. by right.
    + apply bool_decide_eq_false in E. rewrite Hs. tauto.
  - intros s g' m Hg' Hs' Hm. rewrite foldl_set_get. apply elem_of_app in Hg' as [Hg'|Hg'].
    + rewrite bool_decide_false; [by eapply Hg|]. intros Hin. eapply Hdis; [|exact Hin].
      apply list_elem_of_fmap_2, list_elem_of_In, List.in_concat. exists g'. split; by apply list_elem_of_In.
    + apply list_elem_of_singleton in Hg' as ->. rewrite En in Hm. injection Hm as <-.
      rewrite bool_decide_true; [done|]. by apply list_elem_of_fmap_2.
  - intros k v. rewrite foldl_set_get. unfold omap_keys. rewrite fmap_app, elem_of_app. csimpl.
    case_if; [intros [= <-]; right; in_cons|]. intros Hkv. left. by eapply Hv.
Qed.

Lemma fold_nodes_folded spans :
  NoDup (sp_span_id <$> spans) -> folded (omap_values (group_by foldKey spans)) (fold_nodes spans).
Proof.
  intros Hnd. unfold fold_nodes.
  assert (Hall : NoDup (sp_span_id <$> concat (omap_values (group_by foldKey spans)))).
  { pose proof (group_by_perm foldKey spans) as Hp. by rewrite (fmap_Permutation sp_span_id _ _ Hp). }
  assert (Hne : Forall (fun g => g <> []) (omap_values (group_by foldKey spans))).
  { apply Forall_forall. intros g Hg. unfold omap_values in Hg. apply list_elem_of_fmap in Hg as ([k g'] & -> & Hg).
    by eapply group_by_nonempty. }
  revert Hall Hne. generalize (omap_values (group_by foldKey spans)) as gs. clear Hnd spans.
  intros gs. induction gs as [|g gs IH] using rev_ind; intros Hall Hne.
  - split; [done|done| |intros s g n Hg; by apply elem_of_nil in Hg|done].
    intros k. split; [intros _ H; by apply elem_of_nil in H|done].
  - rewrite foldl_app. cbn [foldl]. apply Forall_app in Hne as [Hne Hg]. inversion_clear Hg.
    apply folded_step; [|done|done]. apply IH; [|done].
    rewrite concat_app, fmap_app in Hall. by apply NoDup_app in Hall as [? _].
Qed.

Lemma concat_elem {A} (x : A) l : x ∈ concat l <-> exists g, g ∈ l /\ x ∈ g.
Proof. rewrite list_elem_of_In, List.in_concat. setoid_rewrite list_elem_of_In. naive_solver. Qed.

Lemma sum_counts gs :
  foldr (fun n a => sn_count n + a)%Z 0%Z (omap node_of_group gs) = Z.of_nat (length (concat gs)).
Proof.
  induction gs as [|[|s g] gs IH]; [done|done|]. csimpl. rewrite IH. cbn [concat].
  rewrite !length_app. cbn [length]. lia.
Qed.

Lemma span_ids_concat gs : concat (sn_spanIds <$> omap node_of_group gs) = sp_span_id <$> concat gs.
Proof.
  induction gs as [|[|s g] gs IH]; [done|done|]. csimpl. rewrite IH. cbn [concat]. by rewrite fmap_app.
Qed.

Lemma buildSpanGraph_nodes spans since :
  sg_nodes (buildSpanGraph spans since)
  = (fun n => with_parent (parent_of (omap_of ((fun s => (sp_span_id s, s)) <$> spans)) (fold_nodes spans).2 n) n)
      <$> omap_values (fold_nodes spans).1.
Proof. unfold buildSpanGraph. by destruct (fold_nodes spans). Qed.

(** No two nodes share an id. *)
Lemma folding_partitions_ids spans since :
  NoDup (sp_span_id <$> spans) -> NoDup (sn_id <$> sg_nodes (buildSpanGraph spans since)).
Proof.
  intros Hnd. destruct (fold_nodes_folded spans Hnd) as [Hn _ _ _ _].
  rewrite buildSpanGraph_nodes, Hn. pose proof (group_by_perm foldKey spans) as Hp.
  set (gs := omap_values (group_by foldKey spans)) in *.
  rewrite <- list_fmap_compose. change (sn_id ∘ _) with sn_id.
  assert (Hsub : NoDup (sp_span_id <$> concat gs)) by by rewrite (fmap_Permutation sp_span_id _ _ Hp).
  clear -Hsub. induction gs as [|[|s g] gs IH]; [constructor| by apply IH |].
  cbn [concat] in Hsub. rewrite fmap_app in Hsub. apply NoDup_app in Hsub as (_ & Hdis & Hsub). csimpl.
  constructor; [|by apply IH]. intros Hin. apply list_elem_of_fmap in Hin as (m & Em & Hm).
  apply list_elem_of_omap in Hm as (g' & Hg' & Hm). apply node_of_group_id in Hm as (s' & g'' & -> & Hm).
  apply (Hdis (sp_span_id s)); [csimpl; in_cons|]. rewrite Em, Hm. apply list_elem_of_fmap_2, concat_elem.
  exists (s' :: g''). split; [done|in_cons].
Qed.

(** C26. Folding a trace loses no span: every span belongs to exactly one node,
    the counts add up to the number of spans, and no two nodes share an id. *)
Theorem folding_partitions spans since :
  NoDup (sp_span_id <$> spans) ->
  let g := buildSpanGraph spans since in
  concat (sn_spanIds <$> sg_nodes g) ≡ₚ sp_span_id <$> spans /\
  foldr (fun n a => sn_count n + a)%Z 0%Z (sg_nodes g) = sg_rawSpans g /\
  NoDup (sn_id <$> sg_nodes g).
Proof.
  intros Hnd. cbn zeta. destruct (fold_nodes_folded spans Hnd) as [Hn Hk _ _ _].
  rewrite buildSpanGraph_nodes, Hn. pose proof (group_by_perm foldKey spans) as Hp.
  set (gs := omap_values (group_by foldKey spans)) in *. split; [|split].
  - rewrite <- list_fmap_compose. change (sn_spanIds ∘ _) with sn_spanIds. rewrite span_ids_concat.
    by apply fmap_Permutation.
  - assert (Hs : forall f (l : list SpanNode), foldr (fun n a => sn_count n + a)%Z 0%Z ((fun n => with_parent (f n) n) <$> l)
      = foldr (fun n a => sn_count n + a)%Z 0%Z l).
    { intros f l. induction l as [|x l IH]; csimpl; [done|]. by rewrite IH. }
    rewrite Hs, sum_counts. unfold buildSpanGraph. destruct (fold_nodes spans). cbn. by rewrite (Permutation_length Hp).
  - rewrite <- Hn, <- (buildSpanGraph_nodes spans since). by apply folding_partitions_ids.
Qed.

(** ** Edges *)

(** The ids of telemetry: not empty, no NUL. *)
Definition clean_ids (spans : list SpanSummary) : Prop :=
  Forall (fun s => sp_span_id s <> "" /\ no_char "000" (sp_span_id s) = true /\
                   no_char "000" (sp_parent_span_id s ?? "") = true) spans.

Lemma add_edge_all l acc :
  (forall n p, n ∈ l -> sn_parentId n = Some p -> no_char "000" p = true /\ no_char "000" (sn_id n) = true) ->
  NoDup (sn_id <$> l) -> (forall k, k ∈ acc.1 -> forall n p, n ∈ l -> no_char "000" p = true -> k <> tpl [p; NUL; sn_id n]) ->
  (foldl add_edge acc l).2 = acc.2 ++ omap (fun n => (fun p => {| ge_from := p; ge_to := sn_id n |}) <$> sn_parentId n) l.
Proof.
  revert acc. induction l as [|n l IH]; intros acc Hc Hnd Hf; cbn [foldl]; [by rewrite app_nil_r|].
  csimpl. apply NoDup_cons in Hnd as [Hn Hnd].
  assert (Hc' : forall m p, m ∈ l -> sn_parentId m = Some p -> no_char "000" p = true /\ no_char "000" (sn_id m) = true)
    by (intros m p Hm; apply Hc; in_cons).
  unfold add_edge at 2. destruct (sn_parentId n) as [p|] eqn:Ep; cbn [fmap option_fmap option_map].
  - destruct (Hc n p ltac:(in_cons) Ep) as [Hp Hni].
    rewrite bool_decide_false.
    + rewrite IH; [cbn [snd]; by rewrite <- app_assoc|done|done|].
      intros k Hk m q Hm Hq. cbn [fst] in Hk. apply elem_of_app in Hk as [Hk|Hk]; [apply Hf; [done|in_cons|done]|].
      apply list_elem_of_singleton in Hk as ->. intros E.
      destruct (nul_key_inj _ _ _ _ Hp Hq E) as [_ E']. cbn [tpl] in E'. rewrite !sapp_nil_r in E'.
      apply Hn. rewrite E'. by apply list_elem_of_fmap_2.
    + intros Hin. eapply Hf; [exact Hin| |exact Hp|reflexivity]. in_cons.
  - rewrite IH; [done|done|done|]. intros k Hk m q Hm. apply Hf; [done|in_cons].
Qed.

(** The group a node stands for. *)
Record stands_for (spans : list SpanSummary) (n : SpanNode) (g : list SpanSummary) : Prop := {
  st_group : g ∈ omap_values (group_by foldKey spans);
  st_node : exists m, node_of_group g = Some m /\ n = with_parent
    (parent_of (omap_of ((fun s => (sp_span_id s, s)) <$> spans)) (fold_nodes spans).2 m) m
}.

Lemma graph_node spans since n :
  NoDup (sp_span_id <$> spans) -> n ∈ sg_nodes (buildSpanGraph spans since) <-> exists g, stands_for spans n g.
Proof.
  intros Hnd. destruct (fold_nodes_folded spans Hnd) as [Hn _ _ _ _]. rewrite buildSpanGraph_nodes, Hn. split.
  - intros Hin. apply list_elem_of_fmap in Hin as (m & -> & Hm). apply list_elem_of_omap in Hm as (g & Hg & Hm).
    exists g. split; [done|]. by exists m.
  - intros (g & Hg & m & Hm & ->). apply (list_elem_of_fmap_2 (fun n => with_parent
      (parent_of (omap_of ((fun s => (sp_span_id s, s)) <$> spans)) (fold_nodes spans).2 n) n)).
    apply list_elem_of_omap. by exists g.
Qed.

Lemma group_sub spans g s : g ∈ omap_values (group_by foldKey spans) -> s ∈ g -> s ∈ spans.
Proof.
  intros Hg Hs. unfold omap_values in Hg. apply list_elem_of_fmap in Hg as ([k g'] & -> & Hg).
  apply group_by_elem in Hg. cbn [snd] in Hs. rewrite Hg in Hs. by apply filterb_elem in Hs as [? _].
Qed.

Lemma group_parent spans g s t :
  clean_ids spans -> g ∈ omap_values (group_by foldKey spans) -> s ∈ g -> t ∈ g ->
  (sp_parent_span_id s ?? "") = (sp_parent_span_id t ?? "").
Proof.
  intros Hc Hg Hs Ht. unfold clean_ids in Hc. rewrite Forall_forall in Hc.
  destruct (Hc s) as (_ & _ & Hs0); [by eapply group_sub|]. destruct (Hc t) as (_ & _ & Ht0); [by eapply group_sub|].
  unfold omap_values in Hg. apply list_elem_of_fmap in Hg as ([k g'] & -> & Hg). apply group_by_elem in Hg. cbn [snd] in *.
  rewrite Hg in Hs, Ht. apply filterb_elem in Hs as [_ Hs]. apply filterb_elem in Ht as [_ Ht].
  apply bool_decide_eq_true in Hs, Ht. rewrite <- Ht in Hs. unfold foldKey in Hs.
  by destruct (nul_key_inj _ _ _ _ Hs0 Ht0 Hs).
Qed.

(** The parent of a node is the node of the parent span of any of its spans. *)
Lemma node_parent spans n g s :
  NoDup (sp_span_id <$> spans) -> clean_ids spans -> stands_for spans n g -> s ∈ g ->
  sn_parentId n = match omap_get (sp_parent_span_id s ?? "") (fold_nodes spans).2 with
                  | Some p => if truthy (sp_parent_span_id s ?? "") && negb (p =s sn_id n) && truthy p then Some p else None
                  | None => None
                  end.
Proof.
  intros Hnd Hc [Hg (m & Hm & ->)] Hs. destruct g as [|s0 g]; [done|].
  rewrite (group_parent spans (s0 :: g) s s0) by (done || in_cons).
  cbn [with_parent sn_parentId sn_id]. assert (Hid : sn_id m = sp_span_id s0) by (cbn in Hm; by injection Hm as <-).
  unfold parent_of.
  assert (Hby : omap_get (sn_id m) (omap_of ((fun s => (sp_span_id s, s)) <$> spans)) = Some s0).
  { rewrite omap_of_id by (rewrite <- list_fmap_compose; exact Hnd). rewrite Hid. apply omap_elem_get.
    - unfold omap_keys. rewrite <- list_fmap_compose. exact Hnd.
    - apply (list_elem_of_fmap_2 (fun s => (sp_span_id s, s))). eapply group_sub; [exact Hg|in_cons]. }
  rewrite Hby. cbn [mbind option_bind]. destruct (sp_parent_span_id s0) as [q|].
  - change (Some q ?? "") with q. destruct (truthy q); cbn [negb andb].
    + destruct (omap_get q (fold_nodes spans).2) as [v|]; [|done].
      destruct (truthy v), (v =s sn_id m); done.
    + by destruct (omap_get q (fold_nodes spans).2).
  - by destruct (omap_get _ (fold_nodes spans).2).
Qed.

(** *** Nodes and the spans they stand for *)

Section parent_links.
Context (spans : list SpanSummary) (since : option string).
Hypothesis Hnd : NoDup (sp_span_id <$> spans).
Hypothesis Hc : clean_ids spans.

Lemma clean_id s : s ∈ spans -> sp_span_id s <> "" /\ no_char "000" (sp_span_id s) = true.
Proof using Hc.
  unfold clean_ids in Hc. rewrite Forall_forall in Hc. intros Hs. by destruct (Hc s Hs) as (? & ? & _).
Qed.

Lemma stands_first n g : stands_for spans n g -> exists s, s ∈ g /\ sn_id n = sp_span_id s /\ s ∈ spans.
Proof.
  intros [Hg (m & Hm & ->)]. destruct (node_of_group_id g m Hm) as (s & g' & -> & Hid).
  exists s. split; [in_cons|]. split; [done|]. eapply group_sub; [exact Hg|in_cons].
Qed.

Lemma stands_clean n g : stands_for spans n g -> sn_id n <> "" /\ no_char "000" (sn_id n) = true.
Proof using Hc. intros (s & _ & -> & Hs)%stands_first. by apply clean_id. Qed.

Lemma stands_ids n g : stands_for spans n g -> sn_spanIds n = sp_span_id <$> g.
Proof. intros [_ (m & Hm & ->)]. destruct g as [|x g]; [done|]. by injection Hm as <-. Qed.

Lemma stands_span n g s : s ∈ spans -> stands_for spans n g -> sp_span_id s ∈ sn_spanIds n -> s ∈ g.
Proof using Hnd.
  intros Hs Hst Hid. rewrite (stands_ids n g Hst) in Hid. apply list_elem_of_fmap in Hid as (z & Ez & Hz).
  by rewrite (NoDup_map_eq sp_span_id spans s z Hnd Hs (group_sub _ _ _ (st_group _ _ _ Hst) Hz) Ez).
Qed.

(** The node the fold maps the id of a span to. *)
Lemma mapped_id n g s : stands_for spans n g -> s ∈ g -> omap_get (sp_span_id s) (fold_nodes spans).2 = Some (sn_id n).
Proof using Hnd.
  destruct (fold_nodes_folded spans Hnd) as [_ _ _ Hnode _]. intros [Hg (m & Hm & ->)] Hs. cbn [with_parent sn_id]. by eapply Hnode.
Qed.

Lemma span_node s : s ∈ spans -> exists n g, stands_for spans n g /\ s ∈ g.
Proof.
  intros Hs. destruct (group_by_covers foldKey spans s Hs) as (g & Hg & Hsg). destruct g as [|s0 g]; [by apply elem_of_nil in Hsg|].
  destruct (node_of_group (s0 :: g)) as [m|] eqn:Em; [|done].
  exists (with_parent (parent_of (omap_of ((fun s => (sp_span_id s, s)) <$> spans)) (fold_nodes spans).2 m) m), (s0 :: g).
  split; [split; [done|by exists m]|done].
Qed.

Lemma mapped_known k v : omap_get k (fold_nodes spans).2 = Some v ->
  exists t n g, t ∈ spans /\ sp_span_id t = k /\ stands_for spans n g /\ t ∈ g /\ v = sn_id n.
Proof using Hnd.
  intros Ev. destruct (fold_nodes_folded spans Hnd) as [_ _ Hspans _ _].
  destruct (decide (k ∈ sp_span_id <$> spans)) as [Hin|Hnin].
  - apply list_elem_of_fmap in Hin as (t & -> & Ht). destruct (span_node t Ht) as (n & g & Hst & Htg).
    rewrite (mapped_id n g t Hst Htg) in Ev. injection Ev as <-. by exists t, n, g.
  - assert (Hperm : sp_span_id <$> concat (omap_values (group_by foldKey spans)) ≡ₚ sp_span_id <$> spans)
      by (apply fmap_Permutation, group_by_perm).
    rewrite (proj2 (Hspans _)) in Ev; [done|]. by rewrite Hperm.
Qed.

(** A node's parent is another node, that of the parent of one of its spans. *)
Lemma parent_link n g a : stands_for spans n g ->
  sn_parentId n = Some a <->
  a <> sn_id n /\ exists s t m gm, s ∈ g /\ t ∈ gm /\ t ∈ spans /\ sp_parent_span_id s = Some (sp_span_id t) /\
    stands_for spans m gm /\ a = sn_id m.
Proof using Hnd Hc.
  intros Hst. destruct (stands_first n g Hst) as (s0 & Hs0 & _ & _). split.
  - intros Hp. pose proof Hp as Hp'. rewrite (node_parent spans n g s0 Hnd Hc Hst Hs0) in Hp'.
    destruct (omap_get _ (fold_nodes spans).2) as [v|] eqn:Ev; [|done].
    destruct (truthy (sp_parent_span_id s0 ?? "")) eqn:Et; [|done].
    destruct (v =s sn_id n) eqn:Ene; [done|]. destruct (truthy v); [|done]. injection Hp' as ->. bool_prop. split; [done|].
    apply mapped_known in Ev as (t & m & gm & Ht & Etid & Hm & Htg & Ea). exists s0, t, m, gm. split_and!; try done.
    destruct (sp_parent_span_id s0); [by f_equal|done].
  - intros (Hab & s & t & m & gm & Hs & Htg & Ht & Hpar & Hm & ->).
    rewrite (node_parent spans n g s Hnd Hc Hst Hs), Hpar. change (Some (sp_span_id t) ?? "") with (sp_span_id t).
    rewrite (mapped_id m gm t Hm Htg). destruct (clean_id t Ht) as [Hpe _]. apply truthy_spec in Hpe as ->.
    destruct (stands_clean m gm Hm) as [Hme _]. apply truthy_spec in Hme as ->.
    assert (Hne : (sn_id m =s sn_id n) = false) by by apply String.eqb_neq. by rewrite Hne.
Qed.

Lemma graph_edges :
  sg_edges (buildSpanGraph spans since)
  = omap (fun n => (fun p => {| ge_from := p; ge_to := sn_id n |}) <$> sn_parentId n) (sg_nodes (buildSpanGraph spans since)).
Proof using Hnd Hc.
  transitivity (foldl add_edge ([], []) (sg_nodes (buildSpanGraph spans since))).2.
  - unfold buildSpanGraph. by destruct (fold_nodes spans).
  - rewrite add_edge_all; [done| |by apply folding_partitions_ids|intros k Hk; by apply elem_of_nil in Hk].
    intros n p Hn Hp. apply graph_node in Hn as [g Hst]; [|done]. split; [|by eapply stands_clean].
    apply (parent_link n g p Hst) in Hp as (_ & s & t & m & gm & _ & _ & _ & _ & Hm & ->). by eapply stands_clean.
Qed.
End parent_links.

Lemma edge_targets (l : list SpanNode) : NoDup (sn_id <$> l) ->
  NoDup (ge_to <$> omap (fun n => (fun p => {| ge_from := p; ge_to := sn_id n |}) <$> sn_parentId n) l).
Proof.
  induction l as [|n l IH]; csimpl; intros Hnd; [constructor|]. apply NoDup_cons in Hnd as [Hn Hnd].
  destruct (sn_parentId n); csimpl; [|by apply IH]. constructor; [|by apply IH]. intros Hin. apply Hn.
  apply list_elem_of_fmap in Hin as (e & -> & He). apply list_elem_of_omap in He as (m & Hm & He).
  destruct (sn_parentId m); [|done]. injection He as <-. cbn. by apply list_elem_of_fmap_2.
Qed.

(** The edges of a trace's graph are its parent links: an edge joins two
    different nodes exactly when a span of the second has its parent among the
    spans of the first, and no node has two edges coming in. *)
Theorem edges_are_parent_links spans since :
  NoDup (sp_span_id <$> spans) -> clean_ids spans ->
  let g := buildSpanGraph spans since in
  NoDup (ge_to <$> sg_edges g) /\
  forall a b, {| ge_from := a; ge_to := b |} ∈ sg_edges g <->
    a <> b /\ exists s p m n, s ∈ spans /\ p ∈ spans /\ sp_parent_span_id s = Some (sp_span_id p) /\
      m ∈ sg_nodes g /\ n ∈ sg_nodes g /\ sp_span_id p ∈ sn_spanIds m /\ sp_span_id s ∈ sn_spanIds n /\
      a = sn_id m /\ b = sn_id n.
Proof.
  intros Hnd Hc. cbn zeta. rewrite (graph_edges spans since Hnd Hc). split.
  { apply edge_targets. by apply folding_partitions_ids. }
  intros a b. rewrite list_elem_of_omap. split.
  - intros (n & Hn & He). destruct (sn_parentId n) as [p|] eqn:Ep; [|done]. injection He as -> <-.
    pose proof Hn as Hn'. apply graph_node in Hn' as [g Hst]; [|done].
    destruct (proj1 (parent_link spans Hnd Hc n g a Hst) Ep) as (Hab & s & t & m & gm & Hs & Htg & Ht & Hpar & Hm & ->).
    split; [done|]. exists s, t, m, n. split_and!; try done.
    + by apply (group_sub _ _ _ (st_group _ _ _ Hst)).
    + apply graph_node; [done|by exists gm].
    + rewrite (stands_ids spans m gm Hm). by apply list_elem_of_fmap_2.
    + rewrite (stands_ids spans n g Hst). by apply list_elem_of_fmap_2.
  - intros (Hab & s & p & m & n & Hs & Hp & Hpar & Hm & Hn & Hpm & Hsn & -> & ->).
    exists n. split; [done|]. apply graph_node in Hm as [gm Hm]; [|done]. apply graph_node in Hn as [gn Hn]; [|done].
    rewrite (proj2 (parent_link spans Hnd Hc n gn (sn_id m) Hn)); [done|]. split; [done|].
    exists s, p, m, gm. split_and!; try done; by eapply stands_span.
Qed.
End graph.

(** ** Overlap *)

Section overlap.
Context {host : Host}.

Definition timed (s : SpanSummary) : Prop := (exists t, ms (sp_timestamp s) = Some t) /\ (0 < sp_duration_ms s)%Z.

(** Two spans are in flight at one moment. *)
Definition in_flight_together (s t : SpanSummary) : bool :=
  lt_ms (range_of s).1 (range_of t).2 && lt_ms (range_of t).1 (range_of s).2.

Definition start_z (s : SpanSummary) : Z := ms (sp_timestamp s) ?? 0%Z.

Lemma timed_range s : timed s -> range_of s = (Some (start_z s), Some (start_z s + sp_duration_ms s)%Z).
Proof. intros [[t Ht] _]. unfold range_of, start_z. by rewrite Ht. Qed.

Lemma adjacent_sorted l :
  Forall timed l -> StronglySorted (fun s t => start_z s <= start_z t)%Z l ->
  adjacent_overlap (range_of <$> l) = true <->
  exists l1 s l2 t l3, l = l1 ++ s :: l2 ++ t :: l3 /\ (start_z t < start_z s + sp_duration_ms s)%Z.
Proof.
  intros Ht Hs. induction Hs as [|s l Hs IH Hf].
  { split; [done|]. intros (l1 & s & l2 & t & l3 & E & _). by destruct l1. }
  apply Forall_cons in Ht as [Hts Htl]. specialize (IH Htl).
  destruct l as [|t l].
  { split; [done|]. intros (l1 & a & l2 & b & l3 & E & _).
    destruct l1 as [|c l1]; injection E as _ E; [by destruct l2|by destruct l1]. }
  apply Forall_cons in Htl as [Htt _].
  change (adjacent_overlap (range_of <$> s :: t :: l))
    with (lt_ms (range_of t).1 (range_of s).2 || adjacent_overlap (range_of <$> t :: l)).
  rewrite orb_true_iff, IH, (timed_range s), (timed_range t) by done. cbn [fst snd lt_ms]. rewrite Z.ltb_lt. split.
  - intros [H|(l1 & a & l2 & b & l3 & -> & H)].
    + by exists [], s, [], t, l.
    + by exists (s :: l1), a, l2, b, l3.
  - intros (l1 & a & l2 & b & l3 & E & H). destruct l1 as [|c l1].
    + injection E as -> E. left. destruct l2 as [|y l2]; injection E as -> E; [done|].
      apply Forall_cons in Hf as [Hf1 Hf2]. inversion Hs as [|? ? _ Hy]; subst.
      apply Forall_app in Hy as [_ Hb]. apply Forall_cons in Hb as [Hb _]. lia.
    + injection E as -> E. right. by exists l1, a, l2, b, l3.
Qed.

Lemma sorted_ranges g : Forall timed g -> sort by_range_start (range_of <$> g) = range_of <$> sort (cmp_by start_z) g.
Proof.
  intros Hgt. rewrite sort_fmap. f_equal. apply sort_ext_in. intros x y Hx Hy. rewrite Forall_forall in Hgt.
  unfold cmp_on, by_range_start. by rewrite (timed_range x), (timed_range y) by by apply Hgt.
Qed.

Lemma sorted_starts g : StronglySorted (fun s t => start_z s <= start_z t)%Z (sort (cmp_by start_z) g).
Proof.
  pose proof (sort_sorted (cmp_by start_z) g) as Hs. revert Hs. generalize (sort (cmp_by start_z) g) as l.
  induction l as [|x l IH]; intros Hs; [constructor|]. inversion Hs as [|? ? Hs' Hf]; subst. constructor; [by apply IH|].
  eapply Forall_impl; [exact Hf|]. intros y Hy. unfold cmp_le, cmp_by in Hy. lia.
Qed.

Lemma sorted_before {A} (R : A -> A -> Prop) l1 s l2 t l3 : StronglySorted R (l1 ++ s :: l2 ++ t :: l3) -> R s t.
Proof.
  induction l1 as [|x l1 IH]; intros H; inversion H as [|? ? Hs Hf]; subst; [|by apply IH].
  apply Forall_app in Hf as [_ Hf]. by apply Forall_cons in Hf as [Hf _].
Qed.

(** Two elements of a list stand in it in one order or the other. *)
Lemma two_elements {A} (l : list A) s t : s ∈ l -> t ∈ l -> s <> t ->
  (exists l1 l2 l3, l = l1 ++ s :: l2 ++ t :: l3) \/ (exists l1 l2 l3, l = l1 ++ t :: l2 ++ s :: l3).
Proof.
  intros Hs Ht Hne. apply list_elem_of_split in Hs as (l1 & l2 & ->). apply elem_of_app in Ht as [Ht|Ht].
  - apply list_elem_of_split in Ht as (l3 & l4 & ->). right. exists l3, l4, l2. by rewrite <- app_assoc.
  - apply elem_of_cons in Ht as [->|Ht]; [done|]. apply list_elem_of_split in Ht as (l3 & l4 & ->).
    left. by exists l1, l3, l4.
Qed.

Lemma in_flight_spec s t : timed s -> timed t ->
  in_flight_together s t = true <-> (start_z s < start_z t + sp_duration_ms t /\ start_z t < start_z s + sp_duration_ms s)%Z.
Proof.
  intros Hs Ht. unfold in_flight_together. rewrite (timed_range s), (timed_range t) by done. cbn [fst snd lt_ms].
  by rewrite andb_true_iff, !Z.ltb_lt.
Qed.

(** Sorted by start, comparing neighbours finds an overlap if there is one. *)
Lemma neighbours_suffice g : NoDup g -> Forall timed g ->
  adjacent_overlap (sort by_range_start (range_of <$> g)) = true <->
  exists s t, s ∈ g /\ t ∈ g /\ s <> t /\ in_flight_together s t = true.
Proof.
  intros Hgnd Hgt. assert (Hpos : forall s, s ∈ g -> timed s) by (by apply Forall_forall).
  rewrite sorted_ranges by done. pose proof (sort_perm (cmp_by start_z) g) as Hperm. pose proof (sorted_starts g) as Hs.
  assert (Hnd : NoDup (sort (cmp_by start_z) g)) by by rewrite Hperm.
  rewrite adjacent_sorted by (by rewrite ?Hperm). split.
  - intros (l1 & s & l2 & t & l3 & E & H). rewrite E in Hnd, Hs.
    assert (Hsg : s ∈ g) by (rewrite <- Hperm, E; apply elem_of_app; right; in_cons).
    assert (Htg : t ∈ g) by (rewrite <- Hperm, E; apply elem_of_app; right; apply list_elem_of_further, elem_of_app; right; in_cons).
    exists s, t. split; [done|]. split; [done|]. split.
    + intros <-. apply NoDup_app in Hnd as (_ & _ & Hnd). apply NoDup_cons in Hnd as [Hnin _]. apply Hnin.
      apply elem_of_app. right. in_cons.
    + apply in_flight_spec; [by apply Hpos..|]. apply sorted_before in Hs. destruct (Hpos t Htg) as [_ Hdt]. lia.
  - intros (s & t & Hsg & Htg & Hne & Hfl). apply in_flight_spec in Hfl as [Hf1 Hf2]; [|by apply Hpos..].
    rewrite <- Hperm in Hsg, Htg. destruct (two_elements _ s t Hsg Htg Hne) as [(l1 & l2 & l3 & E)|(l1 & l2 & l3 & E)].
    + by exists l1, s, l2, t, l3.
    + by exists l1, t, l2, s, l3.
Qed.

(** A folded node says its spans overlap exactly when two of them were in
    flight at one moment: comparing each span with the one that started just
    before it is enough.  Spans of no duration are left aside. *)
Theorem overlapping_iff spans since n :
  NoDup (sp_span_id <$> spans) -> Forall timed spans -> n ∈ sg_nodes (buildSpanGraph spans since) ->
  sn_overlapping n = true <->
  exists s t, s ∈ spans /\ t ∈ spans /\ sp_span_id s ∈ sn_spanIds n /\ sp_span_id t ∈ sn_spanIds n /\
    sp_span_id s <> sp_span_id t /\ in_flight_together s t = true.
Proof.
  intros Hnd Ht Hn. apply graph_node in Hn as [g Hst]; [|done]. pose proof (st_group _ _ _ Hst) as Hg.
  assert (Hsub : forall s, s ∈ g -> s ∈ spans) by (intros s; by apply group_sub).
  assert (Ho : sn_overlapping n = adjacent_overlap (sort by_range_start (range_of <$> g))).
  { destruct Hst as [_ (m & Hm & ->)]. destruct g as [|s0 g]; [done|]. by injection Hm as <-. }
  rewrite Ho, (stands_ids spans n g Hst), neighbours_suffice.
  - split.
    + intros (s & t & Hs & Htg & Hne & Hf). exists s, t.
      split_and!; [by apply Hsub|by apply Hsub|by apply list_elem_of_fmap_2|by apply list_elem_of_fmap_2| |done].
      intros E. apply Hne. by apply (NoDup_map_eq sp_span_id spans s t Hnd); [apply Hsub|apply Hsub|].
    + intros (s & t & Hs & Htt & Hsg & Htg & Hne & Hf). rewrite <- (stands_ids spans n g Hst) in Hsg, Htg. exists s, t.
      split; [by eapply stands_span|]. split; [by eapply stands_span|]. split; [congruence|done].
  - unfold omap_values in Hg. apply list_elem_of_fmap in Hg as ([k g'] & -> & Hg). apply group_by_elem in Hg. cbn [snd].
    rewrite Hg. apply filterb_NoDup. by apply NoDup_map_inv in Hnd.
  - rewrite Forall_forall in Ht |- *. intros s Hs. by apply Ht, Hsub.
Qed.
End overlap.

(** ** Column depth: correctness *)

Section depth.
Context (nodes : list SpanNode).
Hypothesis Hnd : NoDup (sn_id <$> nodes).
Hypothesis Hids : forall n, n ∈ nodes -> sn_id n <> "".

Abbreviation byId := (omap_of ((fun n => (sn_id n, n)) <$> nodes)).

Lemma byId_get k m : omap_get k byId = Some m <-> m ∈ nodes /\ sn_id m = k.
Proof using Hnd.
  rewrite omap_of_id by (rewrite <- list_fmap_compose; exact Hnd). split.
  - intros H. apply omap_get_elem in H. apply list_elem_of_fmap in H as (x & [= -> ->] & Hx). done.
  - intros [Hm <-]. apply omap_elem_get.
    + unfold omap_keys. rewrite <- list_fmap_compose. exact Hnd.
    + by apply (list_elem_of_fmap_2 (fun n => (sn_id n, n))).
Qed.

(** [m] is the parent of [n], and both are drawn. *)
Definition drawn_parent (n m : SpanNode) : Prop := n ∈ nodes /\ m ∈ nodes /\ sn_parentId n = Some (sn_id m).
(** [n] is its own ancestor. *)
Definition loops (n : SpanNode) : Prop := tc drawn_parent n n.

(** The column of a node agrees with its parent's, whose own is settled: it is
    not that of [h], the node a loop came back to. *)
Definition depth_ok (h : option string) (out : list (string * Z)) (n : SpanNode) (d : Z) : Prop :=
  (exists m dm, drawn_parent n m /\ Some (sn_id m) <> h /\ omap_get (sn_id m) out = Some dm /\ d = (dm + 1)%Z) \/
  ((forall m, m ∈ nodes -> sn_parentId n <> Some (sn_id m)) /\ d = 0%Z) \/
  (loops n /\ d = 1%Z).
Definition memo_ok (h : option string) (out : list (string * Z)) : Prop :=
  forall n d, n ∈ nodes -> Some (sn_id n) <> h -> omap_get (sn_id n) out = Some d -> depth_ok h out n d.

(** Setting the column of a node that had none, or that a loop came back to. *)
Lemma memo_ok_set h h' out n d :
  memo_ok h out -> n ∈ nodes -> (omap_get (sn_id n) out = None \/ h = Some (sn_id n)) ->
  h' = h \/ (h = Some (sn_id n) /\ h' = None) \/ (h = None /\ h' = Some (sn_id n)) ->
  (Some (sn_id n) <> h' -> depth_ok h' (omap_set (sn_id n) d out) n d) -> memo_ok h' (omap_set (sn_id n) d out).
Proof using Hnd.
  intros Hok Hn Hnone Hh Hd x dx Hx Hxh. rewrite omap_get_set. case_decide as E.
  - intros [= <-]. apply (NoDup_map_eq sn_id nodes x n Hnd) in E as ->; [by apply Hd|done..].
  - intros Hg. assert (Hxh' : Some (sn_id x) <> h) by (destruct Hh as [-> |[[-> _]|[-> _]]]; congruence).
    destruct (Hok x dx Hx Hxh' Hg) as [(m & dm & Hp & Hm & Hgm & ->)|?]; [left|by right].
    assert (Hmn : sn_id m <> sn_id n) by (intros Hc; destruct Hnone as [?| ->]; congruence).
    exists m, dm. split; [done|]. split; [destruct Hh as [-> |[[_ ->]|[_ ->]]]; congruence|]. split; [|done].
    by rewrite omap_get_set, decide_False.
Qed.
Lemma grows_set (out : list (string * Z)) (k j : string) (d e : Z) : omap_get k out = None -> omap_get j out = Some e -> omap_get j (omap_set k d out) = Some e.
Proof. intros Hk Hj. rewrite omap_get_set. case_decide as E; [subst; congruence|done]. Qed.

(** The nodes under way: distinct, drawn, and descendants of [n]. *)
Definition guard_ok (guard_ : list string) (n : SpanNode) : Prop :=
  NoDup guard_ /\ forall k, k ∈ guard_ -> exists a, sn_id a = k /\ a ∈ nodes /\ tc drawn_parent a n.
Lemma guard_within guard_ n : guard_ok guard_ n -> (length guard_ <= length nodes)%nat.
Proof.
  intros [Hg Ha]. rewrite <- (length_fmap sn_id nodes). apply submseteq_length, NoDup_submseteq; [done|]. intros k Hk.
  destruct (Ha k Hk) as (a & <- & Han & _). by apply list_elem_of_fmap_2.
Qed.
Lemma guard_length guard_ n : guard_ok guard_ n -> n ∈ nodes -> sn_id n ∉ guard_ -> (length guard_ < length nodes)%nat.
Proof.
  intros [Hg Ha] Hn Hnin. rewrite <- (length_fmap sn_id nodes). change (length (sn_id n :: guard_) <= length (sn_id <$> nodes))%nat.
  apply submseteq_length, NoDup_submseteq; [by constructor|]. intros k [->|Hk]%elem_of_cons; [by apply list_elem_of_fmap_2|].
  destruct (Ha k Hk) as (a & <- & Han & _). by apply list_elem_of_fmap_2.
Qed.
Lemma guard_push guard_ n m : guard_ok guard_ n -> sn_id n ∉ guard_ -> drawn_parent n m -> guard_ok (guard_ ++ [sn_id n]) m.
Proof.
  intros [Hg Ha] Hnin Hp. split.
  - apply NoDup_app. split; [done|]. split; [|apply NoDup_singleton]. by intros x Hx ->%list_elem_of_singleton.
  - intros k [Hk|Hk]%elem_of_app.
    + destruct (Ha k Hk) as (a & E & Han & Ht). exists a. split; [done|]. split; [done|]. by eapply tc_r.
    + apply list_elem_of_singleton in Hk as ->. exists n. split; [done|]. split; [by destruct Hp|]. by apply tc_once.
Qed.
Lemma guard_empty n : guard_ok [] n.
Proof. split; [constructor|]. by intros k ?%elem_of_nil. Qed.

(** The three ways a node has no parent to go to, or the parent. *)
Lemma parent_cases n : n ∈ nodes ->
  (truthy_opt (sn_parentId n) = false /\ forall m, m ∈ nodes -> sn_parentId n <> Some (sn_id m)) \/
  (truthy_opt (sn_parentId n) = true /\ omap_get (sn_parentId n ?? "") byId = None /\ forall m, m ∈ nodes -> sn_parentId n <> Some (sn_id m)) \/
  (truthy_opt (sn_parentId n) = true /\ exists p, omap_get (sn_parentId n ?? "") byId = Some p /\ drawn_parent n p).
Proof using Hids Hnd.
  intros Hn. unfold drawn_parent. destruct (sn_parentId n) as [p|] eqn:Ep; [|by left]. unfold truthy_opt. change (Some p ?? "") with p. destruct (truthy p) eqn:Et.
  - right. destruct (omap_get p byId) as [m|] eqn:Eb.
    + right. split; [done|]. exists m. apply byId_get in Eb as [Hm <-]. by split_and!.
    + left. split_and!; [done..|]. intros m Hm [= ->]. assert (omap_get (sn_id m) byId = Some m) by (by apply byId_get). congruence.
  - left. split; [done|]. intros m Hm [= ->]. apply Hids in Hm. apply truthy_spec in Hm. congruence.
Qed.

(** More fuel changes nothing. *)
Lemma depth_walk_fuel fuel : forall fuel' out guard_ n,
  n ∈ nodes -> guard_ok guard_ n -> (length nodes < fuel + length guard_)%nat -> (length nodes < fuel' + length guard_)%nat ->
  depth_walk byId fuel out guard_ n = depth_walk byId fuel' out guard_ n.
Proof using Hids Hnd.
  induction fuel as [|fuel IH]; intros fuel' out guard_ n Hn Hg Hf Hf'; pose proof (guard_within _ _ Hg); [lia|]. destruct fuel' as [|fuel']; [lia|].
  cbn [depth_walk]. destruct (omap_get (sn_id n) out); [done|]. destruct (decide (sn_id n ∈ guard_)) as [Hin|Hnin].
  { rewrite (bool_decide_true _ Hin), orb_true_r. done. }
  rewrite (bool_decide_false _ Hnin), orb_false_r.
  destruct (parent_cases n Hn) as [(-> & _)|[(-> & -> & _)|(-> & p & -> & Hp)]]; try done. cbn [negb].
  rewrite (IH fuel' out (guard_ ++ [sn_id n]) p); [done|by destruct Hp as (_ & ? & _)|by apply guard_push| |]; rewrite length_app; cbn; lia.
Qed.

(** What the walk of a node leaves: either every column is settled, or the walk
    came back to [h], a node under way, whose column is 0 for the moment. *)
Definition walked_ok (guard_ : list string) (out : list (string * Z)) : Prop :=
  (memo_ok None out /\ forall k, k ∈ guard_ -> omap_get k out = None) \/
  (exists h, h ∈ guard_ /\ memo_ok (Some h) out /\ omap_get h out = Some 0%Z /\ forall k, k ∈ guard_ -> k <> h -> omap_get k out = None).
Definition walk_result (out : list (string * Z)) (guard_ : list string) (n : SpanNode) (r : Z * list (string * Z)) : Prop :=
  omap_get (sn_id n) r.2 = Some r.1 /\ (forall k d, omap_get k out = Some d -> omap_get k r.2 = Some d) /\ walked_ok guard_ r.2.

Lemma result_of_guard out guard_ n : n ∈ nodes -> memo_ok None out -> (forall k, k ∈ guard_ -> omap_get k out = None) -> sn_id n ∈ guard_ ->
  walk_result out guard_ n (0%Z, omap_set (sn_id n) 0%Z out).
Proof using Hnd.
  intros Hn Hok Hgn Hin. split; [cbn; by rewrite omap_get_set, decide_True|]. split; [intros k e; apply grows_set; by apply Hgn|]. right. exists (sn_id n).
  split; [done|]. cbn [snd]. split; [|split; [by rewrite omap_get_set, decide_True|intros k Hk Hne; rewrite omap_get_set, decide_False by done; by apply Hgn]].
  apply (memo_ok_set None); [done|done|left; by apply Hgn|by right; right|done].
Qed.
Lemma result_of_root out guard_ n : n ∈ nodes -> memo_ok None out -> (forall k, k ∈ guard_ -> omap_get k out = None) -> sn_id n ∉ guard_ ->
  omap_get (sn_id n) out = None -> (forall m, m ∈ nodes -> sn_parentId n <> Some (sn_id m)) ->
  walk_result out guard_ n (0%Z, omap_set (sn_id n) 0%Z out).
Proof using Hnd.
  intros Hn Hok Hgn Hnin Ek Hno. split; [cbn; by rewrite omap_get_set, decide_True|]. split; [intros k e; by apply grows_set|]. left. cbn [snd]. split.
  - apply (memo_ok_set None); [done|done|by left|by left|]. intros _. right. by left.
  - intros k Hk. rewrite omap_get_set, decide_False by congruence. by apply Hgn.
Qed.
(** The walk of the parent, and then the node itself. *)
Lemma result_of_parent out guard_ n p d out' : n ∈ nodes -> guard_ok guard_ n -> sn_id n ∉ guard_ -> omap_get (sn_id n) out = None ->
  drawn_parent n p -> walk_result out (guard_ ++ [sn_id n]) p (d, out') ->
  walk_result out guard_ n ((d + 1)%Z, omap_set (sn_id n) (d + 1)%Z out').
Proof using Hnd.
  intros Hn Hg Hnin Ek Hp (H1 & H2 & H3). cbn [fst snd] in *. assert (Hnk : forall k, k ∈ guard_ -> k <> sn_id n) by congruence.
  assert (Hin : sn_id n ∈ guard_ ++ [sn_id n]) by (apply elem_of_app; right; by left).
  assert (Hl : forall k, k ∈ guard_ -> k ∈ guard_ ++ [sn_id n]) by (intros k Hk; apply elem_of_app; by left).
  pose proof Hp as (_ & Hpn & _).
  split; [cbn; by rewrite omap_get_set, decide_True|]. split.
  { intros k e Hk. cbn. rewrite omap_get_set. case_decide as E; [subst; congruence|]. by apply H2. }
  cbn [snd]. destruct H3 as [[Hm Hnone]|(h & Hh & Hm & Hh0 & Hnone)].
  - left. pose proof (Hnone _ Hin) as Hn0. split.
    + apply (memo_ok_set None); [done|done|by left|by left|]. intros _. left. exists p, d. split; [done|]. split; [done|]. split; [|done].
      rewrite omap_get_set, decide_False; [done|congruence].
    + intros k Hk. rewrite omap_get_set, decide_False by auto. auto.
  - destruct (decide (h = sn_id n)) as [->|Hne].
    + left. split.
      * apply (memo_ok_set (Some (sn_id n))); [done|done|by right|by right; left|]. intros _.
        destruct (decide (sn_id p = sn_id n)) as [Epn|Hpn'].
        -- right. right. assert (d = 0%Z) as -> by congruence. apply (NoDup_map_eq sn_id nodes p n Hnd) in Epn as ->; [|done..].
           split; [by apply tc_once|done].
        -- left. exists p, d. split; [done|]. split; [done|]. split; [|done]. by rewrite omap_get_set, decide_False.
      * intros k Hk. rewrite omap_get_set, decide_False by auto. auto.
    + apply elem_of_app in Hh as [Hh|Hh%list_elem_of_singleton]; [|done].
      assert (Hn0 : omap_get (sn_id n) out' = None) by (apply Hnone; congruence).
      right. exists h. split; [done|]. split; [|split; [by rewrite omap_get_set, decide_False|]].
      * apply (memo_ok_set (Some h)); [done|done|by left|by left|]. intros _. destruct (decide (sn_id p = h)) as [Eph|Hph].
        -- right. right. destruct Hg as [_ Ha]. destruct (Ha h Hh) as (a & Ea & Han & Ht).
           assert (a = p) as -> by (apply (NoDup_map_eq sn_id nodes); [done|done|done|congruence]).
           assert (d = 0%Z) as -> by congruence. split; [by eapply tc_l|done].
        -- left. exists p, d. split; [done|]. split; [congruence|]. split; [|done]. rewrite omap_get_set, decide_False; [done|congruence].
      * intros k Hk Hkh. rewrite omap_get_set, decide_False by auto. auto.
Qed.

Lemma depth_walk_ok fuel : forall out guard_ n,
  n ∈ nodes -> memo_ok None out -> guard_ok guard_ n -> (forall k, k ∈ guard_ -> omap_get k out = None) ->
  (length nodes < fuel + length guard_)%nat -> walk_result out guard_ n (depth_walk byId fuel out guard_ n).
Proof using Hids Hnd.
  induction fuel as [|fuel IH]; intros out guard_ n Hn Hok Hg Hgn Hf; [pose proof (guard_within _ _ Hg); lia|].
  cbn [depth_walk]. destruct (omap_get (sn_id n) out) as [known|] eqn:Ek; [split_and!; [done|done|by left]|].
  destruct (decide (sn_id n ∈ guard_)) as [Hin|Hnin].
  { rewrite (bool_decide_true _ Hin), orb_true_r. by apply result_of_guard. }
  rewrite (bool_decide_false _ Hnin), orb_false_r.
  destruct (parent_cases n Hn) as [(-> & Hno)|[(-> & -> & Hno)|(-> & p & -> & Hp)]]; [by apply result_of_root..|]. cbn [negb].
  assert (H : walk_result out (guard_ ++ [sn_id n]) p (depth_walk byId fuel out (guard_ ++ [sn_id n]) p)).
  { apply IH; [by destruct Hp as (_ & ? & _)|done|by apply guard_push| |rewrite length_app; cbn; lia].
    intros k [Hk|Hk%list_elem_of_singleton]%elem_of_app; [by apply Hgn|by subst]. }
  destruct (depth_walk byId fuel out (guard_ ++ [sn_id n]) p) as [d out']. by eapply result_of_parent.
Qed.

Lemma depths_all : memo_ok None (depths nodes) /\ (forall n, n ∈ nodes -> exists d, omap_get (sn_id n) (depths nodes) = Some d).
Proof using Hids Hnd.
  unfold depths, depths_with. cbn zeta.
  assert (H : forall l out, (forall n, n ∈ l -> n ∈ nodes) -> memo_ok None out ->
    let r := foldl (fun out n => (depth_walk byId (S (length nodes)) out [] n).2) out l in
    memo_ok None r /\ (forall k d, omap_get k out = Some d -> omap_get k r = Some d) /\
    (forall n, n ∈ l -> exists d, omap_get (sn_id n) r = Some d)).
  { induction l as [|n l IH]; intros out Hl Hok; cbn [foldl].
    { split; [done|]. split; [done|]. intros n Hn. by apply elem_of_nil in Hn. }
    destruct (depth_walk_ok (S (length nodes)) out [] n) as (H1 & H2 & H3); [apply Hl; in_cons|done|apply guard_empty| |cbn; lia|].
    { by intros k ?%elem_of_nil. }
    destruct H3 as [[H3 _]|(h & ?%elem_of_nil & _)]; [|done].
    destruct (IH (depth_walk byId (S (length nodes)) out [] n).2) as (H4 & H5 & H6); [intros m Hm; apply Hl; in_cons|done|].
    split; [done|]. split; [intros k d Hk; by apply H5, H2|].
    intros m Hm. apply elem_of_cons in Hm as [->|Hm]; [|by apply H6]. eexists. by apply H5. }
  destruct (H nodes [] (fun n Hn => Hn)) as (H1 & _ & H3); [intros n d _ _ E; done|done].
Qed.
Lemma depths_fuel fuel : (length nodes < fuel)%nat -> depths_with fuel nodes = depths nodes.
Proof using Hids Hnd.
  intros Hf. unfold depths, depths_with. cbn zeta.
  assert (H : forall l out, (forall n, n ∈ l -> n ∈ nodes) ->
    foldl (fun out n => (depth_walk byId fuel out [] n).2) out l = foldl (fun out n => (depth_walk byId (S (length nodes)) out [] n).2) out l).
  { induction l as [|n l IH]; intros out Hl; [done|]. cbn [foldl]. rewrite (depth_walk_fuel fuel (S (length nodes))).
    - apply IH. intros m Hm. apply Hl. in_cons.
    - apply Hl. in_cons.
    - apply guard_empty.
    - cbn. lia.
    - cbn. lia. }
  by apply H.
Qed.
End depth.

(** C32. Every node gets a column, whatever the parent links: the first one if
    its parent is not drawn, and otherwise the one after its parent's; only where
    parents loop is there a node that breaks this, its own ancestor, and it stands
    in the second column.  The recursion ends: more fuel than the number of nodes
    changes nothing, loops included. *)
Theorem columns_follow_parents nodes :
  NoDup (sn_id <$> nodes) -> (forall n, n ∈ nodes -> sn_id n <> "") ->
  (forall fuel, (length nodes < fuel)%nat -> depths_with fuel nodes = depths nodes) /\
  forall n, n ∈ nodes -> exists d, omap_get (sn_id n) (depths nodes) = Some d /\
    ((exists m dm, drawn_parent nodes n m /\ omap_get (sn_id m) (depths nodes) = Some dm /\ d = (dm + 1)%Z) \/
     ((forall m, m ∈ nodes -> sn_parentId n <> Some (sn_id m)) /\ d = 0%Z) \/
     (tc (drawn_parent nodes) n n /\ d = 1%Z)).
Proof.
  intros Hnd Hids. split; [intros fuel; by apply depths_fuel|]. intros n Hn. destruct (depths_all nodes Hnd Hids) as [Hok Hall].
  destruct (Hall n Hn) as [d Hd]. exists d. split; [done|]. destruct (Hok n d Hn) as [(m & dm & Hp & _ & ?)|?]; [done|done| |by right].
  left. by exists m, dm.
Qed.

(** ** Examples *)

Lemma ex_graph_clean : clean_ids ex_trace.
Proof. repeat constructor; discriminate. Qed.

Lemma folding_partitions_witness :
  NoDup (sp_span_id <$> ex_trace) /\
  NoDup (sn_id <$> sg_nodes (buildSpanGraph (host := plain_host) ex_trace None)).
Proof.
  split; [exact ex_trace_nodup|].
  exact (proj2 (proj2 (@folding_partitions plain_host ex_trace None ex_trace_nodup))).
Defined.

Lemma edges_are_parent_links_witness :
  NoDup (sp_span_id <$> ex_trace) /\ clean_ids ex_trace /\
  NoDup (ge_to <$> sg_edges (buildSpanGraph (host := plain_host) ex_trace None)).
Proof.
  split; [exact ex_trace_nodup|]. split; [exact ex_graph_clean|].
  exact (proj1 (@edges_are_parent_links plain_host ex_trace None ex_trace_nodup ex_graph_clean)).
Defined.

Example graph_ex :
  let g := buildSpanGraph (host := plain_host) ex_trace None in
  (fun n => (sn_id n, sn_count n)) <$> sg_nodes g = [("c", 2%Z); ("d", 1%Z); ("a", 1%Z)] /\
  (fun e => (ge_from e, ge_to e)) <$> sg_edges g = [("a", "c"); ("c", "d")].
Proof. split; by_compute. Qed.

Definition ex_node (id : string) (parent : option string) : SpanNode := {|
  sn_id := id; sn_spanIds := [id]; sn_service := "s"; sn_name := "n"; sn_count := 1; sn_failed := false;
  sn_startMs := Some 0%Z; sn_endMs := Some 1%Z; sn_parentId := parent; sn_overlapping := false |}.

(** A root, its child, and two nodes whose parents loop. *)
Definition ex_loop : list SpanNode := [ex_node "b" (Some "a"); ex_node "a" None; ex_node "c" (Some "d"); ex_node "d" (Some "c")].
Lemma columns_follow_parents_witness :
  NoDup (sn_id <$> ex_loop) /\ depths ex_loop = [("a", 0%Z); ("b", 1%Z); ("c", 2%Z); ("d", 1%Z)] /\
  depths_with 100 ex_loop = depths ex_loop.
Proof.
  assert (H : NoDup (sn_id <$> ex_loop)) by (apply (bool_decide_unpack _); vm_compute; exact I).
  split; [exact H|]. split; [by_compute|]. apply (proj1 (columns_follow_parents ex_loop H
    ltac:(intros n Hn; repeat (apply elem_of_cons in Hn as [->|Hn]; [discriminate|]); by apply elem_of_nil in Hn)) 100).
  cbn. lia.
Defined.

Lemma ex_trace_timed : Forall (timed (host := plain_host)) ex_trace.
Proof. repeat constructor; eexists; vm_compute; reflexivity. Qed.

Lemma overlapping_iff_witness :
  NoDup (sp_span_id <$> ex_trace) /\ Forall (timed (host := plain_host)) ex_trace /\
  forall n, n ∈ sg_nodes (buildSpanGraph (host := plain_host) ex_trace None) -> sn_overlapping n = true ->
    exists s t, s ∈ ex_trace /\ t ∈ ex_trace /\ sp_span_id s <> sp_span_id t.
Proof.
  split; [exact ex_trace_nodup|]. split; [exact ex_trace_timed|]. intros n Hn Ho.
  destruct (proj1 (@overlapping_iff plain_host ex_trace None n ex_trace_nodup ex_trace_timed Hn) Ho)
    as (s & t & Hs & Ht & _ & _ & Hne & _).
  exists s, t. exact (conj Hs (conj Ht Hne)).
Defined.
