(* ===== verification/Flow.v ===== *)
(** * Service flow

    [lib/serviceFlow.ts] (the service graph of one trace),
    [lib/serviceSignature.ts], [lib/traceNodeVisual.ts], the links of
    [lib/traceHref.ts] and [lib/traceOnFlowHref.ts], and the layered layout of
    [components/ServiceFlowGraph.tsx] and [components/IntegrationFlow.tsx].
    Vertical positions are in half pixels, where a column is centred. *)

From S2P Require Import Prelude JsString JsUri JsArray Host Types Doubles.

Local Open Scope char_scope.
Local Open Scope string_scope.
Local Open Scope list_scope.

(** ** [flowFromSpans] *)

Definition err (s : SpanSummary) : bool := sp_status_code s =s "Error".

Record FlowAcc := { fa_nodes : list (string * (Z * Z)); fa_edges : list (string * FlowEdge) }.

(** The caller of a span, when it is a span of another service. *)
Definition caller (spanById : list (string * SpanSummary)) (span : SpanSummary) : option SpanSummary :=
  match sp_parent_span_id span with
  | None => None
  | Some p =>
      if negb (truthy p) then None
      else match omap_get p spanById with
           | Some parent => if sp_service_name parent =s sp_service_name span then None else Some parent
           | None => None
           end
  end.

Definition flow_step (spanById : list (string * SpanSummary)) (acc : FlowAcc) (span : SpanSummary) : FlowAcc :=
  let '(t, e) := omap_get (sp_service_name span) (fa_nodes acc) ?? (1, 0)%Z in
  let nodes := omap_set (sp_service_name span) (t, if err span then 1%Z else e) (fa_nodes acc) in
  match caller spanById span with
  | None => {| fa_nodes := nodes; fa_edges := fa_edges acc |}
  | Some parent =>
      let key := tpl [sp_service_name parent; NUL; sp_service_name span] in
      let ed := omap_get key (fa_edges acc) ??
        {| fe_source := sp_service_name parent; fe_target := sp_service_name span; fe_call_count := 0;
           fe_error_count := 0; fe_kind := None |} in
      let ed' := {| fe_source := fe_source ed; fe_target := fe_target ed; fe_call_count := fe_call_count ed + 1;
                    fe_error_count := if err span || err parent then 1 else fe_error_count ed; fe_kind := None |} in
      {| fa_nodes := nodes; fa_edges := omap_set key ed' (fa_edges acc) |}
  end.

Record ServiceFlow := { sf_nodes : list FlowNode; sf_edges : list FlowEdge }.

Definition spans_by_id (spans : list SpanSummary) : list (string * SpanSummary) :=
  omap_of ((fun s => (sp_span_id s, s)) <$> spans).

Definition flowFromSpans (spans : list SpanSummary) : ServiceFlow :=
  let acc := foldl (flow_step (spans_by_id spans)) {| fa_nodes := []; fa_edges := [] |} spans in
  {| sf_nodes := (fun kv => {| fn_service_name := kv.1; fn_trace_count := kv.2.1; fn_error_trace_count := kv.2.2;
                               fn_status := None |}) <$> fa_nodes acc;
     sf_edges := omap_values (fa_edges acc) |}.

(** ** Signatures *)

Definition FACET_GLYPH : list (string * string) := [
  ("file-input", "file"); ("file-output", "file"); ("queue-input", "queue"); ("queue-output", "queue");
  ("http-input", "http"); ("http-output", "http"); ("db-output", "db"); ("email-output", "email"); ("worker", "worker")
].
Definition FACET_PRIORITY : list string := [
  "file-input"; "file-output"; "queue-input"; "queue-output"; "http-input"; "http-output"; "db-output";
  "email-output"; "worker"
].

Definition glyphFor (s : ServiceSummary) : string :=
  let present := sf_slug <$> ss_service_facets s in
  match List.find (fun slug => bool_decide (slug ∈ present)) FACET_PRIORITY with
  | Some slug => omap_get slug FACET_GLYPH ?? "undefined"
  | None => ss_service_name s
  end.

Definition push_distinct (seq : list string) (compact : string) : list string :=
  if bool_decide (last seq = Some compact) then seq else seq ++ [compact].

Definition serviceSignature (services : option (list ServiceSummary)) : string :=
  match services with
  | None | Some [] => "—"
  | Some l => join "→" (foldl (fun seq s => push_distinct seq (glyphFor s)) [] l)
  end.

(** [m.get(k)?.push(v)] *)
Definition push_known (k v : string) (m : list (string * list string)) : list (string * list string) :=
  match omap_get k m with Some l => omap_set k (l ++ [v]) m | None => m end.

Definition empty_lists (names : list string) : list (string * list string) :=
  foldl (fun m n => omap_set n [] m) [] names.

Definition incoming_of (names : list string) (edges : list FlowEdge) : list (string * list string) :=
  foldl (fun m e => push_known (fe_target e) (fe_source e) m) (empty_lists names) edges.
Definition adjacency_of (names : list string) (edges : list FlowEdge) : list (string * list string) :=
  foldl (fun m e => push_known (fe_source e) (fe_target e) m) (empty_lists names) edges.

(** The queue loop; [visited] and [order] hold the same names. *)
Fixpoint bfs (adjacency : list (string * list string)) (fuel : nat) (visited queue : list string) : list string :=
  match fuel, queue with
  | _, [] => visited
  | O, _ => visited
  | S fuel, cur :: queue =>
      if bool_decide (cur ∈ visited) then bfs adjacency fuel visited queue
      else bfs adjacency fuel (visited ++ [cur]) (queue ++ (omap_get cur adjacency ?? []))
  end.

(** Each edge is put in the queue at most once. *)
Definition bfs_order (names : list string) (edges : list FlowEdge) : list string :=
  let incoming := incoming_of names edges in
  let sources := List.filter (fun n => match omap_get n incoming ?? [] with [] => true | _ => false end) names in
  let visited := bfs (adjacency_of names edges) (S (length sources + length edges)) [] sources in
  visited ++ List.filter (fun n => negb (bool_decide (n ∈ visited))) names.

(** [name.replace(/-svc$/, "").split(".").pop()], cut at twelve. *)
Definition cut_svc (name : string) : string :=
  if endsWith name "-svc" then slice_to (String.length name - 4) name else name.
Definition shortName (name : string) : string :=
  let cleaned := List.last (split "." (cut_svc name)) name in
  if (12 <? utf16_length cleaned)%nat then utf16_slice_to 12 cleaned +:+ "…" else cleaned.

Definition signatureFromFlow (nodes : list FlowNode) (edges : list FlowEdge) : string :=
  match nodes with
  | [] => "—"
  | _ => join "→" (shortName <$> bfs_order (fn_service_name <$> nodes) edges)
  end.

(** ** One message on the flow *)

Record TraceNodeVisual := { tv_label : string; tv_detail : string; tv_tone : string; tv_dimmed : bool }.

Definition PLURAL (n : Z) (one : string) : string := tpl [show_Z n; " "; one; if (n =? 1)%Z then "" else "s"].

Section visual.
(** [toLocaleTimeString] of a readable instant: the browser's locale. *)
Context (locale_time : Z -> string) {host : Host}.

Definition clock (iso : option string) : string :=
  if negb (truthy_opt iso) then ""
  else match date_ms (iso ?? "") with None => "" | Some t => locale_time t end.

Definition traceNodeVisual (s : option TraceNodeState) : option TraceNodeVisual :=
  match s with
  | None => None
  | Some s =>
      let at_ := clock (tn_first_seen s) in
      Some (
        if tn_state s =s "failed" then {|
          tv_label := if truthy at_ then tpl ["failed here · "; at_] else "failed here";
          tv_detail := tpl ["The message reached this service and "; PLURAL (tn_error_count s) "span"; " failed. ";
                            "This is usually where it stopped."];
          tv_tone := "err"; tv_dimmed := false |}
        else if tn_state s =s "reached" then {|
          tv_label := if truthy at_ then tpl ["reached · "; at_] else "reached";
          tv_detail := tpl ["The message reached this service ("; PLURAL (tn_span_count s) "span"; ")."];
          tv_tone := "ok"; tv_dimmed := false |}
        else if tn_state s =s "next" then {|
          tv_label := if truthy_opt (tn_after_service s) then tpl ["expected after "; tn_after_service s ?? ""] else "expected next";
          tv_detail :=
            if truthy_opt (tn_after_service s)
            then tpl ["The message reached "; tn_after_service s ?? ""; ", and this is what follows. ";
                      "No span has arrived from this service, so it either has not run, has not ";
                      "finished, or never reported. This is where to look."]
            else "The message has not arrived here, and it directly follows somewhere it reached.";
          tv_tone := "next"; tv_dimmed := false |}
        else {|
          tv_label := "not reached";
          tv_detail := "The message has no span here, and nothing directly upstream of it was reached either.";
          tv_tone := "idle"; tv_dimmed := true |})
  end.
End visual.

Definition traceStatesByService (nodes : option (list TraceNodeState)) : list (string * TraceNodeState) :=
  omap_of ((fun n => (tn_service_name n, n)) <$> (nodes ?? [])).

Definition traceSummaryLine (lastReached : option string) (nodes : option (list TraceNodeState)) : string :=
  let lst := nodes ?? [] in
  let failed := List.filter (fun n => tn_state n =s "failed") lst in
  let next := List.filter (fun n => tn_state n =s "next") lst in
  if negb (truthy_opt lastReached) then "This message has no spans on any service in this integration."
  else
    let last_ := lastReached ?? "" in
    match failed, next with
    | _ :: _, _ => tpl ["Failed at "; join ", " (tn_service_name <$> failed); ". Last activity was on "; last_; "."]
    | [], [] => tpl ["Reached "; last_; ", which is the end of the flow as drawn."]
    | [], _ => tpl ["Last seen on "; last_; ". Not yet on "; join ", " (tn_service_name <$> next); ". That is where to look."]
    end.

(** ** Links *)

Definition useTraceHref (pathname search : string) (traceId : string) (integrationId spanId : option string) : string :=
  let ps := if truthy_opt integrationId then usp_set "integration" (integrationId ?? "") [] else [] in
  let ps := if truthy_opt spanId then usp_set "span" (spanId ?? "") ps else ps in
  let ps := usp_set "from" (tpl [pathname; search]) ps in
  tpl ["/traces/"; encodeURIComponent traceId; "?"; usp_toString ps].

Definition traceOnFlowHref (integrationId traceId : option string) : option string :=
  let integ := trim (integrationId ?? "") in
  let trace := trim (traceId ?? "") in
  if negb (truthy integ) || negb (truthy trace) then None
  else Some (tpl ["/integrations/"; encodeURIComponent integ; "?trace="; encodeURIComponent trace]).

(** ** Layered layout *)

Definition incoming_all (names : list string) (edges : list FlowEdge) : list (string * list string) :=
  foldl (fun m e => omap_set (fe_target e) ((omap_get (fe_target e) m ?? []) ++ [fe_source e]) m) (empty_lists names) edges.

(** [depth]: the memo table is threaded through; a name being visited counts
    as depth zero, which breaks cycles. *)
Fixpoint layer_depth (incoming : list (string * list string)) (fuel : nat) (visiting : list string)
    (memo : list (string * Z)) (name : string) : Z * list (string * Z) :=
  match fuel with
  | O => (0%Z, memo)
  | S fuel =>
      match omap_get name memo with
      | Some d => (d, memo)
      | None =>
          if bool_decide (name ∈ visiting) then (0%Z, memo)
          else
            match omap_get name incoming ?? [] with
            | [] => (0%Z, omap_set name 0%Z memo)
            | ins =>
                let '(m, memo) := foldl (fun acc i =>
                  let '(d, memo) := layer_depth incoming fuel (visiting ++ [name]) acc.2 i in (Z.max acc.1 d, memo))
                  (0%Z, memo) ins in
                ((m + 1)%Z, omap_set name (m + 1)%Z memo)
            end
      end
  end.

Definition layer_depths (names : list string) (edges : list FlowEdge) : list (string * Z) :=
  let incoming := incoming_all names edges in
  foldl (fun memo n => (layer_depth incoming (S (S (length incoming))) [] memo n).2) [] names.

Record NodePos := { np_x : Z; np_y2 : Z }.

Record Grid := { g_pad : Z; g_nodeW : Z; g_nodeH : Z; g_colGap : Z; g_rowGap : Z }.

Definition columns_of (names : list string) (depths : list (string * Z)) : list (Z * list string) :=
  group_by (fun n => omap_get n depths ?? 0%Z) names.

Definition max_len (columns : list (Z * list string)) : Z :=
  foldl (fun m c => Z.max m (Z.of_nat (length c)))%Z 0%Z (omap_values columns).

Definition column_height (g : Grid) (n : Z) : Z := (n * g_nodeH g + (n - 1) * g_rowGap g)%Z.

Definition cell_pos (g : Grid) (innerHeight : Z) (d : Z) (len : nat) (i : nat) : NodePos := {|
  np_x := (g_pad g + d * (g_nodeW g + g_colGap g))%Z;
  np_y2 := (2 * g_pad g + (innerHeight - column_height g (Z.of_nat len))
            + 2 * (Z.of_nat i * (g_nodeH g + g_rowGap g)))%Z |}.

Definition place_columns (g : Grid) (innerHeight : Z) (columns : list (Z * list string)) : list (string * NodePos) :=
  foldl (fun pos c => foldl (fun pos p => omap_set p.1 p.2 pos) pos
    (imap (fun i s => (s, cell_pos g innerHeight c.1 (length c.2) i)) c.2)) [] columns.

Record Layout := { ly_width : Z; ly_height : Z; ly_nodes : list (string * NodePos) }.

Definition FLOW_GRID (nodeW : Z) : Grid := {| g_pad := 24; g_nodeW := nodeW; g_nodeH := 56; g_colGap := 80; g_rowGap := 28 |}.

Definition inner_height (g : Grid) (columns : list (Z * list string)) : Z :=
  Z.max (g_nodeH g) (column_height g (max_len columns)).

Definition computeLayout (nodes : list FlowNode) (edges : list FlowEdge) (nodeW : Z) : Layout :=
  let g := FLOW_GRID nodeW in
  let names := fn_service_name <$> nodes in
  let depths := layer_depths names edges in
  let columns := columns_of names depths in
  let maxDepth := foldl (fun m n => Z.max m (omap_get n depths ?? 0%Z)) 0%Z names in
  let innerHeight := inner_height g columns in
  {| ly_width := ((maxDepth + 1) * nodeW + maxDepth * g_colGap g) + g_pad g * 2;
     ly_height := innerHeight + g_pad g * 2;
     ly_nodes := place_columns g innerHeight columns |}%Z.

(** [layout] of the integration's graph; no padding, the height of a node is
    the caller's. *)
Definition INTEGRATION_GRID (nodeH : Z) : Grid := {| g_pad := 0; g_nodeW := 180; g_nodeH := nodeH; g_colGap := 80; g_rowGap := 28 |}.

Definition layout (nodes : list FlowNode) (edges : list FlowEdge) (nodeH : Z) : list (string * NodePos) :=
  match nodes with
  | [] => []
  | _ =>
      let g := INTEGRATION_GRID nodeH in
      let names := fn_service_name <$> nodes in
      let columns := columns_of names (layer_depths names edges) in
      place_columns g (inner_height g columns) columns
  end.

(** ** Node widths

    [PX_PER_CHAR] is the double nearest to 6.6, 7430939385161318 * 2^-50. *)
Definition C_6_6 : Z := 7430939385161318.
Definition NODE_CHROME : Z := 24.
Definition MIN_NODE_W : Z := 168.
Definition MAX_NODE_W : Z := 320.

(** [Math.ceil(longest * PX_PER_CHAR)] *)
Definition ceil_px (longest : Z) : Z :=
  let '(m, sh) := fdiv (longest * C_6_6) (2 ^ 50) in (- ((- m) / 2 ^ sh))%Z.
(** [Math.floor(w / PX_PER_CHAR)] *)
Definition chars_in (w : Z) : Z := let '(m, sh) := fdiv (w * 2 ^ 50) C_6_6 in (m / 2 ^ sh)%Z.

Definition longest_name (names : list string) : Z :=
  foldl (fun m n => Z.max m (Z.of_nat (utf16_length n))) 0%Z names.

Definition nodeWidthFor (names : list string) : Z :=
  Z.min MAX_NODE_W (Z.max MIN_NODE_W (ceil_px (longest_name names) + NODE_CHROME)).

Definition fitServiceName (name : string) (width : Z) : string :=
  let max := chars_in (width - NODE_CHROME) in
  if (Z.of_nat (utf16_length name) <=? max)%Z then name
  else utf16_slice_to (Z.to_nat (Z.max 1 (max - 1))) name +:+ "…".

Definition MAX_NAME_LINES : Z := 2.
Definition NAME_CHARS_PER_LINE : Z := 24.
Definition maxNameLines (names : list string) : Z :=
  let lines := (- ((- longest_name names) / NAME_CHARS_PER_LINE))%Z in
  Z.min MAX_NAME_LINES (Z.max 1 lines).

(** ** One trace's services: conservation *)

Lemma omap_set_sum (f : FlowEdge -> Z) k v (m : list (string * FlowEdge)) :
  foldr (fun e a => f e + a)%Z 0%Z (omap_values (omap_set k v m))
  = (foldr (fun e a => f e + a) 0 (omap_values m) + f v - match omap_get k m with Some e => f e | None => 0 end)%Z.
Proof.
  unfold omap_values. induction m as [|[k' v'] m IH]; csimpl; [lia|].
  destruct (decide (k = k')) as [->|]; csimpl; [lia|]. rewrite IH. lia.
Qed.

Lemma omap_set_elem {V} (k : string) (v : V) (m : list (string * V)) x : x ∈ omap_values (omap_set k v m) -> x = v \/ x ∈ omap_values m.
Proof.
  unfold omap_values. induction m as [|[k' v'] m IH]; csimpl.
  - intros H. apply list_elem_of_singleton in H. by left.
  - destruct (decide (k = k')) as [->|]; csimpl; intros H; apply elem_of_cons in H as [->|H];
      [by left|right; in_cons|right; in_cons|].
    destruct (IH H) as [?|?]; [by left|right; in_cons].
Qed.

Definition calls (spans l : list SpanSummary) : list SpanSummary :=
  List.filter (fun s => match caller (spans_by_id spans) s with Some _ => true | None => false end) l.

Lemma caller_span spans s p : caller (spans_by_id spans) s = Some p -> p ∈ spans /\ sp_service_name p <> sp_service_name s.
Proof.
  unfold caller. destruct (sp_parent_span_id s) as [q|]; [|done]. destruct (truthy q); cbn [negb]; [|done].
  destruct (omap_get q (spans_by_id spans)) as [x|] eqn:E; [|done].
  destruct (sp_service_name x =s sp_service_name s) eqn:Ex; [done|]. intros [= <-]. bool_prop. split; [|done].
  apply omap_get_elem, omap_of_elem, list_elem_of_fmap in E as (y & [= -> ->] & Hy). done.
Qed.

(** The service graph of a trace accounts for the trace: its nodes are the
    services of the spans, each once; an edge joins two different services of
    the trace; and the calls on the edges add up to the spans whose parent is
    a span of another service. *)
Theorem flow_conserves_calls spans :
  let f := flowFromSpans spans in
  NoDup (fn_service_name <$> sf_nodes f) /\
  (forall n, n ∈ fn_service_name <$> sf_nodes f <-> n ∈ sp_service_name <$> spans) /\
  (forall e, e ∈ sf_edges f -> fe_source e <> fe_target e /\
     fe_source e ∈ sp_service_name <$> spans /\ fe_target e ∈ sp_service_name <$> spans) /\
  foldr (fun e a => fe_call_count e + a)%Z 0%Z (sf_edges f) = Z.of_nat (length (calls spans spans)).
Proof.
  cbn zeta. unfold flowFromSpans. cbn zeta. cbn [sf_nodes sf_edges].
  assert (Hk : forall acc : FlowAcc, fn_service_name <$> ((fun kv : string * (Z * Z) => {| fn_service_name := kv.1;
      fn_trace_count := kv.2.1; fn_error_trace_count := kv.2.2; fn_status := None |}) <$> fa_nodes acc) = omap_keys (fa_nodes acc)).
  { intros acc. unfold omap_keys. rewrite <- list_fmap_compose. by apply list_fmap_ext. }
  rewrite Hk. clear Hk.
  assert (H : forall l, (forall s, s ∈ l -> s ∈ spans) ->
    let acc := foldl (flow_step (spans_by_id spans)) {| fa_nodes := []; fa_edges := [] |} l in
    NoDup (omap_keys (fa_nodes acc)) /\
    (forall n, n ∈ omap_keys (fa_nodes acc) <-> n ∈ sp_service_name <$> l) /\
    (forall e, e ∈ omap_values (fa_edges acc) -> fe_source e <> fe_target e /\
       fe_source e ∈ sp_service_name <$> spans /\ fe_target e ∈ sp_service_name <$> spans) /\
    foldr (fun e a => fe_call_count e + a)%Z 0%Z (omap_values (fa_edges acc)) = Z.of_nat (length (calls spans l))).
  { induction l as [|s l IH] using rev_ind; intros Hl.
    { split; [constructor|]. split; [done|]. split; [intros e He; by apply elem_of_nil in He|done]. }
    rewrite foldl_app. cbn [foldl].
    destruct IH as (H1 & H2 & H3 & H4); [intros x Hx; apply Hl, elem_of_app; by left|].
    set (acc := foldl _ _ l) in *. assert (Hs : s ∈ spans) by (apply Hl, elem_of_app; right; in_cons).
    unfold flow_step. destruct (omap_get (sp_service_name s) (fa_nodes acc) ?? (1, 0)%Z) as [t e].
    assert (Hkeys : forall v, NoDup (omap_keys (omap_set (sp_service_name s) v (fa_nodes acc))) /\
      forall n, n ∈ omap_keys (omap_set (sp_service_name s) v (fa_nodes acc)) <-> n ∈ sp_service_name <$> l ++ [s]).
    { intros v. split; [by apply omap_set_NoDup|]. intros n. rewrite omap_set_keys, fmap_app, elem_of_app. csimpl.
      rewrite list_elem_of_singleton. case_decide as E.
      - rewrite H2 in E |- *. split; [by left|]. intros [?| ->]; done.
      - rewrite elem_of_app, H2, list_elem_of_singleton. done. }
    unfold calls. rewrite List.filter_app. cbn [List.filter].
    destruct (caller (spans_by_id spans) s) as [p|] eqn:Ec; cbn [fa_nodes fa_edges].
    - split; [apply Hkeys|]. split; [apply Hkeys|]. apply caller_span in Ec as [Hp Hne]. split.
      + intros ed Hed. apply omap_set_elem in Hed as [->|Hed]; [|by apply H3]. cbn.
        destruct (omap_get _ (fa_edges acc)) as [ed|] eqn:Eg; cbn.
        * apply H3. apply omap_get_elem in Eg. by apply (list_elem_of_fmap_2 snd) in Eg.
        * split; [done|]. split; by apply list_elem_of_fmap_2.
      + rewrite omap_set_sum, H4. cbn [fe_call_count]. rewrite length_app. cbn [length].
        fold (calls spans l). destruct (omap_get _ (fa_edges acc)); cbn; lia.
    - split; [apply Hkeys|]. split; [apply Hkeys|]. split; [done|]. rewrite H4, length_app. cbn [length].
      fold (calls spans l). lia. }
  apply (H spans). done.
Qed.

(** ** Signatures: the search *)

Definition known_edges (names : list string) (edges : list FlowEdge) : Prop :=
  Forall (fun e => fe_source e ∈ names /\ fe_target e ∈ names) edges.

Lemma empty_lists_get names k l : omap_get k (empty_lists names) = Some l -> l = [].
Proof.
  unfold empty_lists. induction names as [|n names IH] using rev_ind; [done|]. rewrite foldl_app. cbn [foldl].
  rewrite omap_get_set. case_decide; [by intros [= <-]|done].
Qed.

Lemma adjacency_sub names edges k x :
  x ∈ (omap_get k (adjacency_of names edges) ?? []) -> exists e, e ∈ edges /\ fe_target e = x.
Proof.
  unfold adjacency_of. induction edges as [|e edges IH] using rev_ind.
  - cbn [foldl]. destruct (omap_get k (empty_lists names)) as [l|] eqn:E; cbn; intros H.
    + apply empty_lists_get in E as ->. by apply elem_of_nil in H.
    + by apply elem_of_nil in H.
  - rewrite foldl_app. cbn [foldl]. unfold push_known at 1. set (m := foldl _ _ edges) in *.
    intros H. assert (Hor : x = fe_target e \/ x ∈ (omap_get k m ?? [])).
    { destruct (omap_get (fe_source e) m) as [l|] eqn:E; [|by right]. rewrite omap_get_set in H. case_decide as Ek.
      - subst k. rewrite E. cbn in H |- *. apply elem_of_app in H as [?|H]; [by right|].
        apply list_elem_of_singleton in H. by left.
      - by right. }
    destruct Hor as [->|Hx].
    + exists e. split; [apply elem_of_app; right; in_cons|done].
    + destruct (IH Hx) as (e' & He' & <-). exists e'. split; [apply elem_of_app; by left|done].
Qed.

Lemma bfs_visited (adj : list (string * list string)) (names : list string) fuel visited queue :
  NoDup visited -> (forall x, x ∈ visited -> x ∈ names) -> (forall x, x ∈ queue -> x ∈ names) ->
  (forall k x, x ∈ (omap_get k adj ?? []) -> x ∈ names) ->
  NoDup (bfs adj fuel visited queue) /\ (forall x, x ∈ bfs adj fuel visited queue -> x ∈ names).
Proof.
  revert visited queue. induction fuel as [|fuel IH]; intros visited queue Hnd Hv Hq Ha; [by destruct queue|].
  destruct queue as [|cur queue]; [done|]. cbn [bfs]. case_bool_decide as E.
  - apply IH; [done|done| |done]. intros x Hx. apply Hq. in_cons.
  - apply IH; [| | |done].
    + apply NoDup_app. split; [done|]. split; [|apply NoDup_singleton]. intros x Hx ->%list_elem_of_singleton. done.
    + intros x Hx. apply elem_of_app in Hx as [?|Hx]; [by apply Hv|]. apply list_elem_of_singleton in Hx as ->. apply Hq. in_cons.
    + intros x Hx. apply elem_of_app in Hx as [Hx|Hx]; [apply Hq; in_cons|by eapply Ha].
Qed.

(** What may still enter the queue. *)
Definition pending (adj : list (string * list string)) (visited : list string) : nat :=
  foldr (fun kv a => if bool_decide (kv.1 ∈ visited) then a else length kv.2 + a)%nat 0%nat adj.

Lemma pending_visit (adj : list (string * list string)) (visited : list string) cur :
  NoDup (omap_keys adj) -> cur ∉ visited ->
  (pending adj (visited ++ [cur]) + length (omap_get cur adj ?? []) = pending adj visited)%nat.
Proof.
  intros Hnd Hc. unfold omap_keys in Hnd. induction adj as [|[k l] adj IH]; [done|]. cbn [omap_get].
  unfold pending in *. cbn [foldr fst snd]. apply NoDup_cons in Hnd as [Hk Hnd]. specialize (IH Hnd).
  destruct (decide (cur = k)) as [<-|Hne].
  - rewrite bool_decide_true by (apply elem_of_app; right; in_cons). rewrite bool_decide_false by done. cbn [default].
    assert (Hsame : omap_get cur adj = None) by (by apply omap_get_None).
    rewrite Hsame in IH. cbn in IH. change (id l) with l. lia.
  - destruct (decide (k ∈ visited)) as [Hin|Hnin].
    + rewrite !bool_decide_true by (done || (apply elem_of_app; by left)). exact IH.
    + rewrite !bool_decide_false; [lia|done|]. intros Hin. apply elem_of_app in Hin as [?|Hin]; [done|].
      apply list_elem_of_singleton in Hin. congruence.
Qed.

Lemma bfs_enough adj fuel k visited queue :
  NoDup (omap_keys adj) -> (length queue + pending adj visited <= fuel)%nat ->
  bfs adj (fuel + k) visited queue = bfs adj fuel visited queue.
Proof.
  intros Hnd. revert visited queue. induction fuel as [|fuel IH]; intros visited queue Hf.
  - destruct queue; [by destruct k|cbn in Hf; lia].
  - destruct queue as [|cur queue]; [done|]. cbn [bfs plus]. cbn in Hf. case_bool_decide as E.
    + apply IH. lia.
    + apply IH. pose proof (pending_visit adj visited cur Hnd E). rewrite length_app. lia.
Qed.

Lemma empty_lists_pending names : pending (empty_lists names) [] = 0%nat.
Proof.
  assert (H : forall m, (forall k l, (k, l) ∈ m -> l = []) -> pending m [] = 0%nat).
  { induction m as [|[k l] m IH]; intros Hm; [done|]. unfold pending in *. cbn [foldr fst snd].
    rewrite (Hm k l) by in_cons. rewrite IH; [by case_bool_decide|]. intros k0 l0 H0. apply (Hm k0 l0). in_cons. }
  apply H. intros k l Hkl. eapply empty_lists_get, omap_elem_get; [|exact Hkl].
  unfold empty_lists. clear. induction names as [|n names IH] using rev_ind; [constructor|].
  rewrite foldl_app. by apply omap_set_NoDup.
Qed.

Lemma push_known_pending k v m : (pending (push_known k v m) [] <= S (pending m []))%nat.
Proof.
  unfold push_known. destruct (omap_get k m) as [l|] eqn:E; [|lia].
  revert E. induction m as [|[k' l'] m IH]; [done|]. cbn [omap_get omap_set]. unfold pending in *.
  case_decide; cbn [foldr fst snd]; intros E.
  - injection E as ->. rewrite !bool_decide_false by apply not_elem_of_nil. rewrite length_app. cbn. lia.
  - specialize (IH E). rewrite !bool_decide_false by apply not_elem_of_nil. lia.
Qed.

Lemma adjacency_pending names edges : (pending (adjacency_of names edges) [] <= length edges)%nat.
Proof.
  unfold adjacency_of. induction edges as [|e edges IH] using rev_ind; [cbn [foldl]; rewrite empty_lists_pending; lia|].
  rewrite foldl_app, length_app. cbn [foldl length].
  pose proof (push_known_pending (fe_source e) (fe_target e) (foldl (fun m e => push_known (fe_source e) (fe_target e) m) (empty_lists names) edges)).
  lia.
Qed.

Lemma adjacency_NoDup names edges : NoDup (omap_keys (adjacency_of names edges)).
Proof.
  unfold adjacency_of. induction edges as [|e edges IH] using rev_ind.
  - unfold empty_lists. cbn [foldl]. induction names as [|n names IH] using rev_ind; [constructor|].
    rewrite foldl_app. by apply omap_set_NoDup.
  - rewrite foldl_app. cbn [foldl]. unfold push_known at 1.
    destruct (omap_get (fe_source e) _); [by apply omap_set_NoDup|done].
Qed.

(** The signature of a flow names every service exactly once, cycles and
    disconnected services included, and the search ends by itself: more fuel
    gives the same order. *)
Theorem signature_names_all names edges k :
  NoDup names -> known_edges names edges ->
  bfs_order names edges ≡ₚ names /\
  (forall sources, bfs (adjacency_of names edges) (S (length sources + length edges) + k) [] sources
     = bfs (adjacency_of names edges) (S (length sources + length edges)) [] sources).
Proof.
  intros Hnd He. split.
  - unfold bfs_order. cbn zeta. set (sources := List.filter _ names).
    destruct (bfs_visited (adjacency_of names edges) names (S (length sources + length edges)) [] sources) as [H1 H2].
    + constructor.
    + intros x Hx. by apply elem_of_nil in Hx.
    + intros x Hx. by apply filterb_elem in Hx as [? _].
    + intros n x Hx. apply adjacency_sub in Hx as (e & Hin & <-). unfold known_edges in He. rewrite Forall_forall in He.
      by apply He.
    + set (visited := bfs _ _ _ _) in *. apply NoDup_Permutation; [|done|].
      * apply NoDup_app. split; [done|]. split; [|by apply filterb_NoDup].
        intros x Hx Hf. apply filterb_elem in Hf as [_ Hf]. by apply negb_true_iff, bool_decide_eq_false in Hf.
      * intros x. rewrite elem_of_app, filterb_elem, negb_true_iff, bool_decide_eq_false. split.
        -- intros [?|[? _]]; [by apply H2|done].
        -- intros Hx. destruct (decide (x ∈ visited)); [by left|by right].
  - intros sources. apply bfs_enough; [apply adjacency_NoDup|].
    pose proof (adjacency_pending names edges). lia.
Qed.

(** ** Layout: no overlap *)

Definition entries (g : Grid) (h : Z) (columns : list (Z * list string)) : list (string * NodePos) :=
  concat ((fun c => imap (fun i s => (s, cell_pos g h c.1 (length c.2) i)) c.2) <$> columns).

Lemma entries_keys g h columns : (entries g h columns).*1 = concat (omap_values columns).
Proof.
  unfold entries, omap_values. induction columns as [|[d l] columns IH]; [done|]. csimpl.
  rewrite fmap_app, IH. f_equal. rewrite fmap_imap. apply imap_elements.
Qed.

Lemma place_columns_entries g h columns : place_columns g h columns = omap_of (entries g h columns).
Proof.
  unfold place_columns, entries, omap_of.
  assert (H : forall acc, foldl (fun pos c => foldl (fun pos p => omap_set p.1 p.2 pos) pos
      (imap (fun i s => (s, cell_pos g h c.1 (length c.2) i)) c.2)) acc columns
    = foldl (fun m kv => omap_set kv.1 kv.2 m) acc
      (concat ((fun c => imap (fun i s => (s, cell_pos g h c.1 (length c.2) i)) c.2) <$> columns))).
  { induction columns as [|c columns IH]; intros acc; csimpl; [done|]. rewrite foldl_app. apply IH. }
  apply H.
Qed.

Lemma entries_elem g h columns s p :
  (s, p) ∈ entries g h columns -> exists d l i, (d, l) ∈ columns /\ l !! i = Some s /\ p = cell_pos g h d (length l) i.
Proof.
  unfold entries. intros H. apply list_elem_of_In, List.in_concat in H as (m & Hm & Hs).
  apply list_elem_of_In in Hm, Hs. apply list_elem_of_fmap in Hm as ([d l] & -> & Hc).
  apply elem_of_lookup_imap in Hs as (i & x & [= -> ->] & Hx). by exists d, l, i.
Qed.

(** C30. No two services of a flow are drawn over each other: every service of
    the graph has a place, and two services stand in different columns or in
    different rows, a full node and a gap apart, whatever the edges, cycles
    included. *)
Theorem layout_no_overlap nodes edges nodeW :
  NoDup (fn_service_name <$> nodes) -> (0 <= nodeW)%Z ->
  let pos := ly_nodes (computeLayout nodes edges nodeW) in
  omap_keys pos ≡ₚ fn_service_name <$> nodes /\
  forall s t p q, (s, p) ∈ pos -> (t, q) ∈ pos -> s <> t ->
    (nodeW + 80 <= Z.abs (np_x p - np_x q) \/ 2 * (56 + 28) <= Z.abs (np_y2 p - np_y2 q))%Z.
Proof.
  intros Hnd HW. cbn zeta. unfold computeLayout. cbn zeta. cbn [ly_nodes].
  set (names := fn_service_name <$> nodes) in *. set (g := FLOW_GRID nodeW).
  set (columns := columns_of names (layer_depths names edges)).
  assert (Hperm : concat (omap_values columns) ≡ₚ names) by apply group_by_perm.
  rewrite place_columns_entries, omap_of_id by by rewrite entries_keys, Hperm.
  split; [unfold omap_keys; by rewrite entries_keys|].
  intros s t p q Hs Ht Hne. apply entries_elem in Hs as (d & l & i & Hdl & Hi & ->).
  apply entries_elem in Ht as (d' & l' & j & Hdl' & Hj & ->). unfold cell_pos. cbn [np_x np_y2 g_nodeW g_colGap g_pad g_nodeH g_rowGap g FLOW_GRID].
  destruct (decide (d = d')) as [<-|Hd].
  - right. assert (l = l') as <-.
    { apply omap_elem_get in Hdl, Hdl'; try apply group_by_NoDup. rewrite Hdl in Hdl'. by injection Hdl'. }
    assert (i <> j) by (intros ->; congruence). lia.
  - left. nia.
Qed.

(** ** Layout: layers of an acyclic graph *)

Section layers.
Context (incoming : list (string * list string)) (rank : string -> nat).
Notation ins n := (omap_get n incoming ?? []).
Hypothesis Hrank : forall n i, i ∈ ins n -> (rank i < rank n)%nat.
Hypothesis Hknown : forall n i, i ∈ ins n -> i ∈ omap_keys incoming.

(** Every recorded layer is to the right of the layers feeding it. *)
Definition layered (memo : list (string * Z)) : Prop :=
  forall n d, omap_get n memo = Some d -> (0 <= d)%Z /\ forall i, i ∈ ins n -> exists di, omap_get i memo = Some di /\ (di < d)%Z.

(** What a visit of [name] does to the table. *)
Definition visited_ok (name : string) (memo : list (string * Z)) (r : Z * list (string * Z)) : Prop :=
  layered r.2 /\ omap_get name r.2 = Some r.1 /\ (0 <= r.1)%Z /\
  (forall k d, omap_get k memo = Some d -> omap_get k r.2 = Some d) /\
  (forall k, (rank name < rank k)%nat -> omap_get k r.2 = omap_get k memo).

Lemma layered_set name d memo :
  layered memo -> omap_get name memo = None -> (0 <= d)%Z ->
  (forall i, i ∈ ins name -> exists di, omap_get i memo = Some di /\ (di < d)%Z) -> visited_ok name memo (d, omap_set name d memo).
Proof.
  intros Hok Hnone Hd Hins.
  assert (Hold : forall k x, omap_get k memo = Some x -> omap_get k (omap_set name d memo) = Some x).
  { intros k x Hk. rewrite omap_get_set. case_decide as E; [subst; congruence|done]. }
  split; [|split; [|split; [done|split; [exact Hold|]]]]; cbn [fst snd].
  - intros n x. rewrite omap_get_set. case_decide as E.
    + intros [= <-]. subst n. split; [done|]. intros i Hi. destruct (Hins i Hi) as (di & Hi' & Hlt). exists di. by split; [apply Hold|].
    + intros Hn. destruct (Hok n x Hn) as [H0 Hi]. split; [done|]. intros i Hin. destruct (Hi i Hin) as (di & Hi' & Hlt).
      exists di. by split; [apply Hold|].
  - by rewrite omap_get_set, decide_True.
  - intros k Hk. rewrite omap_get_set. case_decide as E; [subst; lia|done].
Qed.

(** Visiting the callers of [name] one after the other, keeping the largest
    layer. *)
Lemma visit_all_ok (visit : list (string * Z) -> string -> Z * list (string * Z)) name l :
  (forall memo i, layered memo -> i ∈ l -> visited_ok i memo (visit memo i)) ->
  (forall i, i ∈ l -> (rank i < rank name)%nat) ->
  forall m memo, layered memo -> (0 <= m)%Z ->
  let r := foldl (fun acc i => let '(d, memo) := visit acc.2 i in (Z.max acc.1 d, memo)) (m, memo) l in
  layered r.2 /\ (m <= r.1)%Z /\
  (forall k, (rank name <= rank k)%nat -> omap_get k r.2 = omap_get k memo) /\
  (forall k d, omap_get k memo = Some d -> omap_get k r.2 = Some d) /\
  (forall i, i ∈ l -> exists di, omap_get i r.2 = Some di /\ (di <= r.1)%Z).
Proof.
  induction l as [|i l IH]; intros Hv Hr m memo Hok Hm.
  { cbn. split; [done|]. split; [lia|]. split; [done|]. split; [done|]. intros i Hi. by apply elem_of_nil in Hi. }
  cbn [foldl fst snd]. destruct (Hv memo i Hok) as (A1 & A2 & A3 & A4 & A5); [in_cons|].
  assert (Hri : (rank i < rank name)%nat) by (apply Hr; in_cons).
  destruct (visit memo i) as [d memo1]. cbn [fst snd] in *.
  destruct (IH (fun memo x Hok Hx => Hv memo x Hok (list_elem_of_further _ _ _ Hx))
    (fun x Hx => Hr x (list_elem_of_further _ _ _ Hx)) (Z.max m d) memo1 A1) as (B1 & B2 & B3 & B4 & B5); [lia|].
  split; [done|]. split; [lia|]. split; [intros k Hk; rewrite B3 by done; apply A5; lia|].
  split; [intros k x Hk; by apply B4, A4|].
  intros x Hx. apply elem_of_cons in Hx as [->|Hx]; [|by apply B5]. exists d. split; [by apply B4|lia].
Qed.

Lemma layer_depth_ok fuel : forall visiting memo name,
  layered memo -> name ∈ omap_keys incoming -> NoDup visiting ->
  (forall k, k ∈ visiting -> k ∈ omap_keys incoming /\ (rank name < rank k)%nat) ->
  (length incoming < fuel + length visiting)%nat ->
  visited_ok name memo (layer_depth incoming fuel visiting memo name).
Proof using Hrank Hknown.
  induction fuel as [|fuel IH]; intros visiting memo name Hok Hin Hnd Hv Hf.
  { exfalso. assert (Hle : (length visiting <= length (omap_keys incoming))%nat).
    { apply submseteq_length, NoDup_submseteq; [done|]. intros k Hk. by apply Hv. }
    unfold omap_keys in Hle. rewrite length_fmap in Hle. lia. }
  assert (Hnin : name ∉ visiting) by (intros H; apply Hv in H as [_ ?]; lia).
  cbn [layer_depth]. destruct (omap_get name memo) as [d|] eqn:Em.
  { split; [done|]. split; [done|]. split; [by apply (Hok name)|]. done. }
  rewrite bool_decide_false by done. destruct (ins name) as [|i0 l0] eqn:Ei.
  { apply layered_set; [done|done|lia|]. rewrite Ei. intros i Hi. by apply elem_of_nil in Hi. }
  rewrite <- Ei.
  destruct (visit_all_ok (layer_depth incoming fuel (visiting ++ [name])) name (ins name)) with (m := 0%Z) (memo := memo)
    as (H1 & H2 & H3 & H4 & H5); [| |done|lia|].
  { intros memo' i Hok' Hi. pose proof (Hrank name i Hi). apply IH; [done|by eapply Hknown| | |].
    - apply NoDup_app. split; [done|]. split; [|apply NoDup_singleton]. intros x Hx ->%list_elem_of_singleton. done.
    - intros k Hk. apply elem_of_app in Hk as [Hk|Hk]; [apply Hv in Hk as [? ?]; split; [done|lia]|].
      apply list_elem_of_singleton in Hk as ->. done.
    - rewrite length_app. cbn. lia. }
  { intros i Hi. by apply Hrank. }
  destruct (foldl _ (0%Z, memo) (ins name)) as [m memo']. cbn [fst snd] in *.
  destruct (layered_set name (m + 1) memo' H1) as (C1 & C2 & C3 & C4 & C5).
  { by rewrite H3. }
  { lia. }
  { intros i Hi. destruct (H5 i Hi) as (di & Hdi & Hle). exists di. split; [done|lia]. }
  split; [done|]. split; [done|]. split; [done|]. split; [intros k d Hk; by apply C4, H4|].
  intros k Hk. rewrite C5 by done. apply H3. lia.
Qed.
End layers.

Lemma empty_lists_keys names : NoDup names -> omap_keys (empty_lists names) = names.
Proof.
  unfold empty_lists. induction names as [|n names IH] using rev_ind; [done|]. rewrite foldl_app. cbn [foldl].
  intros Hnd. apply NoDup_app in Hnd as (Hl & Hx & _). rewrite omap_set_keys, IH by done.
  rewrite decide_False; [done|]. intros Hin. apply (Hx n Hin). in_cons.
Qed.

Lemma incoming_all_spec names edges :
  NoDup names -> known_edges names edges ->
  omap_keys (incoming_all names edges) = names /\
  forall t s, s ∈ (omap_get t (incoming_all names edges) ?? []) <-> exists e, e ∈ edges /\ fe_source e = s /\ fe_target e = t.
Proof.
  intros Hnd. unfold incoming_all, known_edges. induction edges as [|e edges IH] using rev_ind; intros He.
  - cbn [foldl]. split; [by apply empty_lists_keys|]. intros t s. split.
    + destruct (omap_get t (empty_lists names)) as [l|] eqn:E; intros H.
      * apply empty_lists_get in E as ->. by apply elem_of_nil in H.
      * by apply elem_of_nil in H.
    + intros (e & He' & _). by apply elem_of_nil in He'.
  - rewrite foldl_app. cbn [foldl]. apply Forall_app in He as [He Hl]. apply Forall_singleton in Hl as [_ Ht].
    destruct (IH He) as [H1 H2]. set (m := foldl _ _ edges) in *. split.
    + rewrite omap_set_keys, H1. by rewrite decide_True.
    + intros t s. rewrite omap_get_set. case_decide as E.
      * subst t. change (Some ?x ?? []) with (id x). unfold id. rewrite elem_of_app, H2, list_elem_of_singleton. split.
        -- intros [(e' & Hin & <- & Et)| ->]; [exists e'|exists e]; (split; [apply elem_of_app; auto; right; in_cons|done]).
        -- intros (e' & Hin & <- & Et). apply elem_of_app in Hin as [?|Hin]; [left; by exists e'|].
           apply list_elem_of_singleton in Hin as ->. by right.
      * rewrite H2. split; intros (e' & Hin & <- & Et); exists e'.
        -- split; [apply elem_of_app; by left|done].
        -- apply elem_of_app in Hin as [?|Hin]; [done|]. apply list_elem_of_singleton in Hin as ->. congruence.
Qed.

Lemma layer_depths_ok names edges rank :
  NoDup names -> known_edges names edges -> (forall e, e ∈ edges -> (rank (fe_source e) < rank (fe_target e))%nat) ->
  layered (incoming_all names edges) (layer_depths names edges) /\
  forall n, n ∈ names -> is_Some (omap_get n (layer_depths names edges)).
Proof.
  intros Hnd He Hr. destruct (incoming_all_spec names edges Hnd He) as [Hk Hins].
  unfold layer_depths. set (inc := incoming_all names edges) in *.
  assert (H1 : forall n i, i ∈ (omap_get n inc ?? []) -> (rank i < rank n)%nat).
  { intros n i Hi. apply Hins in Hi as (e & Hin & <- & <-). by apply Hr. }
  assert (H2 : forall n i, i ∈ (omap_get n inc ?? []) -> i ∈ omap_keys inc).
  { intros n i Hi. apply Hins in Hi as (e & Hin & <- & <-). rewrite Hk. unfold known_edges in He. rewrite Forall_forall in He. by apply He. }
  assert (H : forall l memo, (forall n, n ∈ l -> n ∈ names) -> layered inc memo ->
    let r := foldl (fun memo n => (layer_depth inc (S (S (length inc))) [] memo n).2) memo l in
    layered inc r /\ (forall k d, omap_get k memo = Some d -> omap_get k r = Some d) /\ (forall n, n ∈ l -> is_Some (omap_get n r))).
  { induction l as [|n l IH]; intros memo Hl Hok; cbn [foldl].
    { split; [done|]. split; [done|]. intros n Hn. by apply elem_of_nil in Hn. }
    destruct (layer_depth_ok inc rank H1 H2 (S (S (length inc))) [] memo n) as (A1 & A2 & A3 & A4 & _);
      [done|rewrite Hk; apply Hl; in_cons|constructor| |cbn; lia|].
    { intros k Hn. by apply elem_of_nil in Hn. }
    destruct (IH (layer_depth inc (S (S (length inc))) [] memo n).2) as (B1 & B2 & B3); [intros x Hx; apply Hl; in_cons|done|].
    split; [done|]. split; [intros k d Hkd; by apply B2, A4|].
    intros x Hx. apply elem_of_cons in Hx as [->|Hx]; [|by apply B3]. eexists. by apply B2. }
  destruct (H names [] (fun n Hn => Hn)) as (A & _ & B); [intros n d E; done|]. done.
Qed.

(** Where a service stands in its column. *)
Lemma placed g h names depths s :
  NoDup names -> s ∈ names -> exists len i,
    (s, cell_pos g h (omap_get s depths ?? 0%Z) len i) ∈ place_columns g h (columns_of names depths).
Proof.
  intros Hnd Hs. unfold columns_of. set (key := fun n => omap_get n depths ?? 0%Z).
  assert (Hperm : concat (omap_values (group_by key names)) ≡ₚ names) by apply group_by_perm.
  rewrite place_columns_entries, omap_of_id by by rewrite entries_keys, Hperm.
  destruct (group_by_covers key names s Hs) as (l & Hl & Hin).
  apply list_elem_of_fmap in Hl as ([d l'] & -> & Hl). cbn [snd] in Hin.
  assert (d = key s) as ->.
  { rewrite (group_by_elem key names _ _ Hl) in Hin. apply filterb_elem in Hin as [_ Hin]. by apply bool_decide_eq_true in Hin. }
  rename l' into l.
  apply list_elem_of_lookup in Hin as [i Hi]. exists (length l), i. unfold entries.
  apply list_elem_of_In, List.in_concat. exists (imap (fun i n => (n, cell_pos g h (key s) (length l) i)) l).
  split; apply list_elem_of_In.
  - apply list_elem_of_fmap. exists (key s, l). split; [reflexivity|exact Hl].
  - apply elem_of_lookup_imap. by exists i, s.
Qed.

(** On a flow without loops every call points right: the caller's box ends
    a full gap before the called service's box begins. *)
Theorem layout_calls_point_right nodes edges nodeW rank :
  NoDup (fn_service_name <$> nodes) -> known_edges (fn_service_name <$> nodes) edges ->
  (forall e, e ∈ edges -> (rank (fe_source e) < rank (fe_target e))%nat) -> (0 <= nodeW)%Z ->
  forall e, e ∈ edges -> exists p q,
    (fe_source e, p) ∈ ly_nodes (computeLayout nodes edges nodeW) /\
    (fe_target e, q) ∈ ly_nodes (computeLayout nodes edges nodeW) /\ (np_x p + nodeW + 80 <= np_x q)%Z.
Proof.
  intros Hnd He Hr HW e Hin. unfold computeLayout. cbn zeta. cbn [ly_nodes].
  set (names := fn_service_name <$> nodes) in *.
  destruct (layer_depths_ok names edges rank Hnd He Hr) as [Hok Hall].
  destruct (incoming_all_spec names edges Hnd He) as [_ Hins].
  pose proof He as He'. unfold known_edges in He'. rewrite Forall_forall in He'. destruct (He' e Hin) as [Hs Ht].
  destruct (Hall _ Ht) as [dt Hdt]. destruct (Hok _ _ Hdt) as [H0 Hlt].
  destruct (Hlt (fe_source e)) as (ds & Hds & Hlt'); [apply Hins; by exists e|]. clear Hlt.
  set (depths := layer_depths names edges) in *. set (g := FLOW_GRID nodeW).
  set (h := inner_height g (columns_of names depths)).
  destruct (placed g h names depths _ Hnd Hs) as (l1 & i1 & P1). destruct (placed g h names depths _ Hnd Ht) as (l2 & i2 & P2).
  eexists _, _. split; [exact P1|]. split; [exact P2|]. rewrite Hds, Hdt. unfold cell_pos. cbn [np_x g_nodeW g_colGap g_pad g FLOW_GRID].
  change (Some ds ?? 0%Z) with ds. change (Some dt ?? 0%Z) with dt. nia.
Qed.

(** ** Names and boxes *)

Lemma longest_name_spec names : (0 <= longest_name names)%Z /\ forall n, n ∈ names -> (Z.of_nat (utf16_length n) <= longest_name names)%Z.
Proof.
  unfold longest_name. induction names as [|m names IH] using rev_ind; [split; [done|]; intros n Hn; by apply elem_of_nil in Hn|].
  rewrite foldl_app. cbn [foldl]. destruct IH as [H0 IH]. split; [lia|]. intros n [Hn|Hn]%elem_of_app.
  - specialize (IH n Hn). lia.
  - apply list_elem_of_singleton in Hn as ->. lia.
Qed.

(** The rounding of both floating-point operations, for every length that
    fits. *)
Lemma sized_box_holds L : (0 <= L <= 44)%Z ->
  (L <= chars_in (Z.min MAX_NODE_W (Z.max MIN_NODE_W (ceil_px L + NODE_CHROME)) - NODE_CHROME))%Z.
Proof.
  intros HL. assert (H : forallb (fun L => Z.leb L (chars_in (Z.min MAX_NODE_W (Z.max MIN_NODE_W (ceil_px L + NODE_CHROME)) - NODE_CHROME)))
    (Z.of_nat <$> seq 0 45) = true) by by_compute.
  rewrite forallb_forall in H. apply Z.leb_le, H, list_elem_of_In, list_elem_of_fmap.
  exists (Z.to_nat L). split; [lia|]. apply elem_of_seq. lia.
Qed.

(** A name that sized its box is never shortened by it: as long as no name of
    the flow is longer than 44 characters, where the width is capped, every name
    is drawn whole, in spite of the rounding of 6.6 pixels a character. *)
Theorem names_fit_their_boxes names n :
  (longest_name names <= 44)%Z -> n ∈ names -> fitServiceName n (nodeWidthFor names) = n.
Proof.
  intros HL Hn. destruct (longest_name_spec names) as [H0 Hle]. specialize (Hle n Hn). unfold fitServiceName. cbn zeta.
  pose proof (sized_box_holds (longest_name names) ltac:(lia)) as Hb. unfold nodeWidthFor.
  assert (Hfit : (Z.of_nat (utf16_length n) <=? chars_in (Z.min MAX_NODE_W (Z.max MIN_NODE_W (ceil_px (longest_name names) + NODE_CHROME)) - NODE_CHROME))%Z = true)
    by (apply Z.leb_le; lia).
  by rewrite Hfit.
Qed.

Definition ex_flow_node (n : string) : FlowNode := {| fn_service_name := n; fn_trace_count := 1; fn_error_trace_count := 0; fn_status := None |}.
Definition ex_edge (a b : string) : FlowEdge := {| fe_source := a; fe_target := b; fe_call_count := 1; fe_error_count := 0; fe_kind := None |}.

Lemma ex_flow_nodup : NoDup (fn_service_name <$> [ex_flow_node "a"; ex_flow_node "b"]).
Proof. apply (bool_decide_unpack _). vm_compute. exact I. Qed.

Lemma signature_names_all_witness :
  NoDup ["a"; "b"] /\ known_edges ["a"; "b"] [ex_edge "a" "b"; ex_edge "b" "a"] /\
  bfs_order ["a"; "b"] [ex_edge "a" "b"; ex_edge "b" "a"] ≡ₚ ["a"; "b"].
Proof.
  assert (H : known_edges ["a"; "b"] [ex_edge "a" "b"; ex_edge "b" "a"]).
  { constructor; [|constructor; [|constructor]]; split; cbn; in_cons. }
  split; [exact ex_flow_nodup|]. split; [exact H|].
  exact (proj1 (signature_names_all ["a"; "b"] [ex_edge "a" "b"; ex_edge "b" "a"] 0 ex_flow_nodup H)).
Defined.

Lemma layout_no_overlap_witness :
  NoDup (fn_service_name <$> [ex_flow_node "a"; ex_flow_node "b"]) /\
  omap_keys (ly_nodes (computeLayout [ex_flow_node "a"; ex_flow_node "b"] [ex_edge "a" "b"] 168)) ≡ₚ ["a"; "b"].
Proof.
  split; [exact ex_flow_nodup|].
  exact (proj1 (layout_no_overlap [ex_flow_node "a"; ex_flow_node "b"] [ex_edge "a" "b"] 168 ex_flow_nodup ltac:(lia))).
Defined.

Definition ex_rank (n : string) : nat := if n =s "a" then 0 else 1.

Lemma layout_calls_point_right_witness :
  exists p q, ("a", p) ∈ ly_nodes (computeLayout [ex_flow_node "a"; ex_flow_node "b"] [ex_edge "a" "b"] 168) /\
    ("b", q) ∈ ly_nodes (computeLayout [ex_flow_node "a"; ex_flow_node "b"] [ex_edge "a" "b"] 168) /\ (np_x p + 168 + 80 <= np_x q)%Z.
Proof.
  refine (layout_calls_point_right [ex_flow_node "a"; ex_flow_node "b"] [ex_edge "a" "b"] 168 ex_rank ex_flow_nodup _ _ _ (ex_edge "a" "b") _).
  - constructor; [|constructor]. split; cbn; in_cons.
  - intros e He. apply list_elem_of_singleton in He as ->. cbn. lia.
  - lia.
  - in_cons.
Defined.

Lemma names_fit_their_boxes_witness :
  let names := ["api"; "product-consolidation-aggregator-service"] in
  nodeWidthFor names = 288%Z /\ fitServiceName "product-consolidation-aggregator-service" (nodeWidthFor names) = "product-consolidation-aggregator-service".
Proof.
  cbn zeta. split; [vm_compute; reflexivity|].
  apply (names_fit_their_boxes ["api"; "product-consolidation-aggregator-service"]); [vm_compute; discriminate|in_cons].
Defined.
