(* ===== verification/Environment.v ===== *)
(** * The environment an integration page reads

    [lib/activeEnvironment.ts]: the [?env=] parameter, the environments every
    read of integration data is narrowed to, and the links that carry them.  An
    environment is its name, [""] for telemetry without one; [None] is all
    environments.  [lib/useTimeWindow.ts]: the time range, kept in the URL and in
    the session storage. *)

From S2P Require Import Prelude JsString JsUri JsArray.

Local Open Scope char_scope.
Local Open Scope string_scope.
Local Open Scope list_scope.

Definition NO_ENVIRONMENT_PARAM : string := "(none)".
Definition ALL_ENVIRONMENTS_PARAM : string := "*".
Definition PRODUCTION_TOKEN : string := "@production".

(** The module variable [current]. *)
Definition setActiveEnvironments (envs : option (list string)) : option (list string) :=
  match envs with None | Some [] => None | _ => envs end.

Definition environmentLabel (env : string) : string :=
  if env =s PRODUCTION_TOKEN then "production environments" else if env =s "" then "(no environment)" else env.

Definition env_of_raw (p : string) : string := if p =s NO_ENVIRONMENT_PARAM then "" else p.

Definition envsFromParams (ps : params) : option (list string) :=
  let raw := usp_getAll ps "env" in
  match raw with
  | [] => None
  | _ => if existsb (fun p => (p =s "") || (p =s ALL_ENVIRONMENTS_PARAM)) raw then None else Some (env_of_raw <$> raw)
  end.

Definition push_new (out : list string) (n : string) : list string :=
  if bool_decide (n ∈ out) then out else out ++ [n].

Definition expandProduction (lst production : list string) : list string :=
  foldl (fun out e => foldl push_new out (if e =s PRODUCTION_TOKEN then production else [e])) [] lst.

Definition envToParam (env : string) : string := if env =s "" then NO_ENVIRONMENT_PARAM else env.

Definition envFromParam (p : option string) : option string :=
  match p with
  | None => None
  | Some p => if (p =s "") || (p =s ALL_ENVIRONMENTS_PARAM) then None else Some (env_of_raw p)
  end.

(** [useEnvironmentParam]: what it reads, what its setter does to the URL, and
    whether all environments were asked for explicitly. *)
Definition env_param_read (ps : params) : option string := envFromParam (usp_get ps "env").
Definition env_param_set (next : option string) (explicitAll : bool) (prev : params) : params :=
  match next with
  | Some e => usp_set "env" (envToParam e) prev
  | None => if explicitAll then usp_set "env" ALL_ENVIRONMENTS_PARAM prev else usp_delete "env" prev
  end.
Definition env_explicit_all (ps : params) : bool :=
  match usp_get ps "env" with Some v => v =s ALL_ENVIRONMENTS_PARAM | None => false end.

(** [useEnvironmentSet]'s setter; it reads with [envsFromParams]. *)
Definition env_set_set (next : option (list string)) (explicitAll : bool) (prev : params) : params :=
  let p := usp_delete "env" prev in
  match next with
  | Some ((_ :: _) as envs) => foldl (fun p e => usp_append "env" (envToParam e) p) p envs
  | _ => if explicitAll then usp_set "env" ALL_ENVIRONMENTS_PARAM p else p
  end.

(** [env] is [null], a name or a list of names. *)
Inductive EnvArg := EnvAll | EnvOne (e : string) | EnvMany (l : list string).
Definition env_list (env : EnvArg) : list string :=
  match env with EnvAll => [] | EnvOne e => [e] | EnvMany l => l end.

Definition env_piece (e : string) : string := tpl ["env="; encodeURIComponent (envToParam e)].
Definition envQuery (env : EnvArg) (explicitAll : bool) : string :=
  match env_list env with
  | [] => if explicitAll then tpl ["?env="; ALL_ENVIRONMENTS_PARAM] else ""
  | envs => tpl ["?"; join "&" (env_piece <$> envs)]
  end.

Definition readsIntegrationData (path method : string) : bool :=
  if negb (method =s "GET") && negb ((method =s "POST") && startsWith path "/messages/search") then false
  else startsWith path "/integrations" || startsWith path "/services/" || startsWith path "/messages/search"
       || startsWith path "/logs" || startsWith path "/log-" || startsWith path "/metric-"
       || startsWith path "/errors" || includes path "integration=".

(** ** The time range *)

Definition DEFAULT_WINDOW : string := "1h".

(** [session] is the stored range, [None] when there is none or storage is
    unavailable. *)
Definition window_read (session : option string) (ps : params) : string :=
  let fromUrl := or_str (usp_get ps "range") (usp_get ps "window" ?? "") in
  if truthy fromUrl then fromUrl else or_str session DEFAULT_WINDOW.

Definition window_set (next : string) (ps : params) : option string * params :=
  let updated := usp_delete "window" ps in
  if negb (truthy next) || (next =s DEFAULT_WINDOW) then (None, usp_delete "range" updated)
  else (Some next, usp_set "range" next updated).

Definition isAbsolute (value : string) : bool := includes value "/".

(** ** Query lemmas *)

Lemma usp_getAll_app ps qs k : usp_getAll (ps ++ qs) k = usp_getAll ps k ++ usp_getAll qs k.
Proof. unfold usp_getAll. by rewrite List.filter_app, fmap_app. Qed.

Lemma usp_getAll_delete k k' ps : usp_getAll (usp_delete k ps) k' = if k' =s k then [] else usp_getAll ps k'.
Proof.
  unfold usp_getAll, usp_delete. induction ps as [|p ps IH]; [by case_if|]. csimpl.
  destruct (fst p =s k) eqn:E; csimpl; bool_prop.
  - rewrite IH. destruct (k' =s k) eqn:E'; [done|]. bool_prop. rewrite E.
    assert (Hk : (k =s k') = false) by (by apply String.eqb_neq). by rewrite Hk.
  - destruct (fst p =s k') eqn:E'; csimpl; bool_prop; rewrite IH; [|done].
    assert (Hk : (k' =s k) = false) by (apply String.eqb_neq; congruence). by rewrite Hk.
Qed.

Lemma usp_set_delete k v ps : usp_set k v (usp_delete k ps) = usp_delete k ps ++ [(k, v)].
Proof.
  unfold usp_delete. induction ps as [|p ps IH]; [done|]. csimpl.
  destruct (fst p =s k) eqn:E; csimpl; [done|]. by rewrite E, IH.
Qed.

Lemma append_fold (f : string -> string) k l ps :
  foldl (fun p e => usp_append k (f e) p) ps l = ps ++ ((fun e => (k, f e)) <$> l).
Proof.
  revert ps. induction l as [|e l IH]; intros ps; csimpl; [by rewrite app_nil_r|].
  rewrite IH. unfold usp_append. by rewrite <- app_assoc.
Qed.

Lemma usp_getAll_same k (l : list string) : usp_getAll ((fun e => (k, e)) <$> l) k = l.
Proof. unfold usp_getAll. induction l as [|e l IH]; [done|]. csimpl. by rewrite String.eqb_refl; csimpl; rewrite IH. Qed.

Lemma usp_getAll_other k k' (l : list string) : k <> k' -> usp_getAll ((fun e => (k, e)) <$> l) k' = [].
Proof.
  intros H. unfold usp_getAll. induction l as [|e l IH]; [done|]. csimpl.
  apply String.eqb_neq in H as ->. by rewrite IH.
Qed.

(** Names a URL can carry: not the two reserved spellings. *)
Definition plain_env (e : string) : Prop := e <> NO_ENVIRONMENT_PARAM /\ e <> ALL_ENVIRONMENTS_PARAM.

Lemma env_param_inv e : plain_env e ->
  env_of_raw (envToParam e) = e /\ (envToParam e =s "") || (envToParam e =s ALL_ENVIRONMENTS_PARAM) = false.
Proof.
  intros [H1 H2]. unfold env_of_raw, envToParam. destruct (e =s "") eqn:E; bool_prop.
  - by subst.
  - apply String.eqb_neq in H1, H2, E. by rewrite H1, H2, E.
Qed.

Lemma envsFromParams_list ps l :
  usp_getAll ps "env" = envToParam <$> l -> Forall plain_env l -> envsFromParams ps = setActiveEnvironments (Some l).
Proof.
  intros Hg Hl. unfold envsFromParams. rewrite Hg. destruct l as [|e l]; [done|]. cbn zeta.
  assert (Hex : existsb (fun p => (p =s "") || (p =s ALL_ENVIRONMENTS_PARAM)) (envToParam <$> e :: l) = false).
  { clear Hg. induction (e :: l) as [|x m IH]; [done|]. apply Forall_cons in Hl as [Hx Hm]. csimpl.
    apply env_param_inv in Hx as [_ Hx]. rewrite Hx. by apply IH. }
  assert (Hmap : env_of_raw <$> (envToParam <$> e :: l) = e :: l).
  { rewrite <- list_fmap_compose. clear Hg Hex. induction Hl as [|x m Hx Hm IH]; [done|]. csimpl.
    apply env_param_inv in Hx as [Hx _]. by rewrite Hx, IH. }
  csimpl in Hex. csimpl in Hmap. csimpl. rewrite Hex. by rewrite Hmap.
Qed.

(** A query printed with [encodeURIComponent], read back. *)
Lemma env_piece_pair e : usp_pair (env_piece e) = ("env", envToParam e).
Proof.
  unfold env_piece. cbn [tpl]. rewrite sapp_nil_r.
  change ("env=" +:+ encodeURIComponent (envToParam e)) with ("env" +:+ String "=" (encodeURIComponent (envToParam e))).
  unfold usp_pair. rewrite index_of_app by done. by rewrite slice_to_app, slice_from_cut, form_decode_encode_uri.
Qed.

Lemma env_piece_no_amp e : no_char "&" (env_piece e) = true.
Proof. unfold env_piece. cbn [tpl]. rewrite sapp_nil_r, no_char_app. by rewrite encode_uri_no_char. Qed.

Lemma env_pieces_split l : l <> [] -> split "&" (join "&" (env_piece <$> l)) = env_piece <$> l.
Proof.
  intros H. apply split_join; [by destruct l|]. apply Forall_fmap, Forall_true. intros e. apply env_piece_no_amp.
Qed.

Lemma env_pieces_parse l : usp_pair <$> List.filter truthy (env_piece <$> l) = (fun e => ("env", envToParam e)) <$> l.
Proof. induction l as [|e l IH]; [done|]. csimpl. by rewrite env_piece_pair, IH. Qed.

(** ** Properties *)

(** The environments of a page survive the URL: after they are set, the
    parameters printed and parsed again read as the same environments (none
    chosen is all), every other parameter keeps its values, and a link made with
    [envQuery] opens on the same environments.  Two names cannot be carried, the
    spellings reserved for no environment and for all of them. *)
Theorem environments_survive_url l explicitAll prev :
  Forall plain_env l ->
  let ps := usp_parse (usp_toString (env_set_set (Some l) explicitAll prev)) in
  envsFromParams ps = setActiveEnvironments (Some l) /\
  (forall k, k <> "env" -> usp_getAll ps k = usp_getAll prev k) /\
  envsFromParams (usp_parse (envQuery (EnvMany l) explicitAll)) = setActiveEnvironments (Some l).
Proof.
  intros Hl. cbn zeta. rewrite usp_parse_toString. destruct l as [|e l].
  - cbn [env_set_set]. split; [|split].
    + destruct explicitAll; unfold envsFromParams; rewrite ?usp_set_delete, ?usp_getAll_app, usp_getAll_delete; done.
    + intros k Hk. apply String.eqb_neq in Hk as Hk'. destruct explicitAll; rewrite ?usp_set_delete, ?usp_getAll_app, usp_getAll_delete, Hk'; [|done].
      assert (Ha : usp_getAll [("env", ALL_ENVIRONMENTS_PARAM)] k = []) by (by apply (usp_getAll_other "env" k [ALL_ENVIRONMENTS_PARAM])).
      by rewrite Ha, app_nil_r.
    + by destruct explicitAll.
  - cbn [env_set_set]. rewrite append_fold. split; [|split].
    + apply envsFromParams_list; [|done]. rewrite usp_getAll_app, usp_getAll_delete. cbn [app].
      rewrite (list_fmap_compose envToParam (fun v => ("env", v))). apply usp_getAll_same.
    + intros k Hk. rewrite usp_getAll_app, usp_getAll_delete. apply String.eqb_neq in Hk as Hk'. rewrite Hk'.
      rewrite (list_fmap_compose envToParam (fun v => ("env", v))), usp_getAll_other by congruence. apply app_nil_r.
    + apply envsFromParams_list; [|done]. unfold envQuery. cbn [env_list]. cbn [tpl]. rewrite sapp_nil_r.
      assert (Hd : forall x, drop_qmark ("?" +:+ x) = x) by done. unfold usp_parse. rewrite Hd, env_pieces_split by done.
      rewrite env_pieces_parse, (list_fmap_compose envToParam (fun v => ("env", v))). apply usp_getAll_same.
Qed.

(** [expandProduction] lists each environment once: those named in the
    list, and the production ones when the list holds the token. *)
Theorem expandProduction_correct lst production :
  NoDup (expandProduction lst production) /\
  forall n, n ∈ expandProduction lst production <->
    (n ∈ lst /\ n <> PRODUCTION_TOKEN) \/ (PRODUCTION_TOKEN ∈ lst /\ n ∈ production).
Proof.
  assert (Hpush : forall l out, NoDup out -> NoDup (foldl push_new out l) /\ forall n, n ∈ foldl push_new out l <-> n ∈ out \/ n ∈ l).
  { induction l as [|x l IH]; intros out Hnd; csimpl; [split; [done|]; intros n; rewrite elem_of_nil; tauto|].
    assert (Hp : NoDup (push_new out x) /\ forall n, n ∈ push_new out x <-> n ∈ out \/ n = x).
    { unfold push_new. case_bool_decide as E.
      - split; [done|]. intros n. split; [by left|]. intros [?| ->]; done.
      - split; [|intros n; by rewrite elem_of_app, list_elem_of_singleton].
        apply NoDup_app. split; [done|]. split; [|apply NoDup_singleton]. intros y Hy ->%list_elem_of_singleton. done. }
    destruct Hp as [H1 H2]. destruct (IH _ H1) as [H3 H4]. split; [done|]. intros n. rewrite H4, H2, elem_of_cons. tauto. }
  unfold expandProduction. induction lst as [|e lst IH] using rev_ind.
  { split; [constructor|]. intros n. rewrite !elem_of_nil. tauto. }
  rewrite foldl_app. cbn [foldl]. destruct IH as [H1 H2].
  destruct (Hpush (if e =s PRODUCTION_TOKEN then production else [e]) _ H1) as [H3 H4]. split; [done|].
  intros n. rewrite H4, H2, !elem_of_app, !list_elem_of_singleton.
  destruct (e =s PRODUCTION_TOKEN) eqn:E; bool_prop; [subst|rewrite list_elem_of_singleton].
  - split; [intros [[[? ?]|[? ?]]|?]; auto|]. intros [[[?|?] ?]|[[?|_] ?]]; auto; congruence.
  - split; [intros [[[? ?]|[? ?]]|?]; subst; auto|]. intros [[[?|?] ?]|[[?|?] ?]]; subst; auto; congruence.
Qed.

(** A chosen time range is the range every page then reads: from the URL it
    is written to, and from the session on a page whose URL carries none; the
    default range leaves no trace, and the rest of the URL is kept. *)
Theorem range_follows_navigation next ps other :
  usp_get other "range" = None -> usp_get other "window" = None ->
  let '(session, url) := window_set next ps in
  let shown := if truthy next then next else DEFAULT_WINDOW in
  window_read session url = shown /\ window_read session other = shown /\
  (forall k, k <> "range" -> k <> "window" -> usp_get url k = usp_get ps k).
Proof.
  intros H1 H2. unfold window_set, window_read. rewrite H1, H2.
  assert (Hk : forall k, k <> "range" -> k <> "window" -> usp_get (usp_delete "window" ps) k = usp_get ps k).
  { intros k ? ?. by apply usp_get_delete_ne. }
  destruct (truthy next) eqn:E; cbn [negb orb].
  - destruct (next =s DEFAULT_WINDOW) eqn:Ed.
    + bool_prop. subst next. rewrite usp_get_delete, usp_get_delete_ne, usp_get_delete by done.
      split; [done|]. split; [done|]. intros k ? ?. rewrite usp_get_delete_ne by done. by apply Hk.
    + assert (Hor : forall d, or_str (Some next) d = next).
      { intros d. unfold or_str. change (truthy_opt (Some next)) with (truthy next). by rewrite E. }
      rewrite usp_get_set, !Hor, E. split; [done|]. split; [done|].
      intros k ? ?. rewrite usp_get_set_ne by done. by apply Hk.
  - rewrite usp_get_delete, usp_get_delete_ne, usp_get_delete by done. split; [done|]. split; [done|].
    intros k ? ?. rewrite usp_get_delete_ne by done. by apply Hk.
Qed.

Lemma environments_survive_url_witness :
  Forall plain_env ["prod-eu"; ""] /\
  envsFromParams (usp_parse (usp_toString (env_set_set (Some ["prod-eu"; ""]) false [("tab", "logs"); ("env", "old")]))) = Some ["prod-eu"; ""].
Proof.
  assert (H : Forall plain_env ["prod-eu"; ""]) by (repeat constructor; discriminate).
  split; [exact H|]. exact (proj1 (environments_survive_url ["prod-eu"; ""] false [("tab", "logs"); ("env", "old")] H)).
Defined.

Lemma range_follows_navigation_witness :
  usp_get [("tab", "logs")] "range" = None /\ fst (window_set "24h" [("window", "6h")]) = Some "24h" /\
  window_read (Some "24h") [("tab", "logs")] = "24h".
Proof.
  split; [reflexivity|]. split; [reflexivity|].
  exact (proj1 (proj2 (range_follows_navigation "24h" [("window", "6h")] [("tab", "logs")] eq_refl eq_refl))).
Defined.

(** An environment whose name is the spelling of no environment is read as no
    environment. *)
Example reserved_env_ex : envsFromParams (usp_parse (envQuery (EnvOne "(none)") false)) = Some [""].
Proof. by_compute. Qed.
