(* ===== verification/Client.v ===== *)
(** * The client of the cell API

    [api/client.ts], [request]: what is sent (the active organization, the
    environments an integration page reads) and how an answer becomes a value or
    an error.  The endpoints are in Endpoints.v. *)

From S2P Require Import Prelude JsString JsUri JsArray Json Types Environment.

Local Open Scope char_scope.
Local Open Scope string_scope.
Local Open Scope list_scope.

Definition BASE : string := "/api/v1".

(** The first arguments of [request]; [rq_body] is the serialized body. *)
Record Request := { rq_path : string; rq_method : string; rq_body : option string }.

Definition get_ (p : string) : Request := {| rq_path := p; rq_method := "GET"; rq_body := None |}.
Definition post (p : string) (body : json) : Request := {| rq_path := p; rq_method := "POST"; rq_body := Some (stringify body) |}.
Definition postEmpty (p : string) : Request := {| rq_path := p; rq_method := "POST"; rq_body := None |}.
Definition put (p : string) (body : json) : Request := {| rq_path := p; rq_method := "PUT"; rq_body := Some (stringify body) |}.
Definition patch (p : string) (body : json) : Request := {| rq_path := p; rq_method := "PATCH"; rq_body := Some (stringify body) |}.
Definition del (p : string) : Request := {| rq_path := p; rq_method := "DELETE"; rq_body := None |}.

(** [/[?&]env=/.test(path)] *)
Definition has_env (path : string) : bool := includes path "?env=" || includes path "&env=".

Definition env_stamp (envs : option (list string)) (rq : Request) : string :=
  match envs with
  | Some l =>
      if readsIntegrationData (rq_path rq) (rq_method rq) && negb (has_env (rq_path rq))
      then tpl [rq_path rq; if includes (rq_path rq) "?" then "&" else "?"; join "&" (env_piece <$> l)]
      else rq_path rq
  | None => rq_path rq
  end.

(** The call of [fetch]. *)
Record Fetch := { ft_url : string; ft_method : string; ft_headers : list (string * string); ft_body : option string }.

Definition send (activeOrg : option string) (envs : option (list string)) (rq : Request) : Fetch := {|
  ft_url := tpl [BASE; env_stamp envs rq];
  ft_method := rq_method rq;
  ft_headers := [("Accept", "application/json")]
    ++ (if truthy_opt activeOrg then [("X-Sluicio-Org", activeOrg ?? "")] else [])
    ++ (if truthy_opt (rq_body rq) then [("Content-Type", "application/json")] else []);
  ft_body := rq_body rq |}.

(** ** Answers *)

Record Response := { rs_status : Z; rs_statusText : string; rs_text : string }.
Definition rs_ok (r : Response) : bool := ((200 <=? rs_status r) && (rs_status r <=? 299))%Z.

Definition json_get (k : string) (j : json) : option json :=
  match j with JObj l => omap_get k l | _ => None end.

(** [Boolean(j)] *)
Definition json_truthy (j : json) : bool :=
  match j with
  | JNull => false | JBool b => b | JNum n => negb (bool_decide (n_mant n = 0%Z)) | JStr s => truthy s | JArr _ | JObj _ => true
  end.

(** [String(j)] *)
Fixpoint js_String (j : json) : string :=
  match j with
  | JNull => "null"
  | JBool b => if b then "true" else "false"
  | JNum n => show_num n
  | JStr s => s
  | JArr l => join "," ((fun x => match x with JNull => "" | _ => js_String x end) <$> l)
  | JObj _ => "[object Object]"
  end.

Inductive Outcome :=
| Resolved (v : option json)                          (** [None] is [undefined] *)
| Thrown (message : string) (status : option Z).

Section answer.
(** [JSON.parse], [None] when it throws. *)
Context (JSON_parse : string -> option json).

Definition error_detail (r : Response) : string :=
  match JSON_parse (rs_text r) with
  | None => rs_statusText r
  | Some body =>
      match json_get "error" body with
      | None => rs_statusText r
      | Some e => match json_get "message" e with
                  | Some m => if json_truthy m then js_String m else rs_statusText r
                  | None => rs_statusText r
                  end
      end
  end.

Definition answer (r : Response) : Outcome :=
  if negb (rs_ok r) then Thrown (tpl [show_Z (rs_status r); " "; error_detail r]) (Some (rs_status r))
  else if (rs_status r =? 204)%Z then Resolved None
  else if rs_text r =s "" then Thrown (tpl [show_Z (rs_status r); " empty response body"]) None
  else match JSON_parse (rs_text r) with
       | Some v => Resolved (Some v)
       | None => Thrown (tpl [show_Z (rs_status r); " invalid JSON in response body"]) None
       end.
End answer.

(** ** What the server reads *)

(** The query of a path: after the first question mark. *)
Definition query_of (path : string) : params :=
  match index_of "?" path with Some i => usp_parse (slice_from (S i) path) | None => [] end.

Lemma includes_char c s : includes s (String c "") = negb (no_char c s).
Proof.
  induction s as [|d s IH]; [done|]. cbn [includes no_char]. unfold startsWith. cbn [String.prefix].
  destruct (ascii_dec c d) as [->|Hne].
  - rewrite Ascii.eqb_refl. by destruct s.
  - apply Ascii.eqb_neq in Hne. rewrite Hne. cbn [negb andb orb]. exact IH.
Qed.

Lemma index_of_cut c s : no_char c s = false -> exists a b, s = a +:+ String c b /\ no_char c a = true.
Proof.
  induction s as [|d s IH]; [done|]. cbn [no_char]. destruct (Ascii.eqb c d) eqn:E; intros H.
  - bool_prop. subst. exists "", s. done.
  - cbn [negb andb] in H. destruct (IH H) as (a & b & -> & Ha). exists (String d a), b. split; [done|].
    cbn [no_char]. by rewrite E, Ha.
Qed.

Lemma query_of_cut a b : no_char "?" a = true -> query_of (a +:+ String "?" b) = usp_parse b.
Proof. intros Ha. unfold query_of. rewrite index_of_app by done. by rewrite slice_from_cut. Qed.

Lemma pieces_no_qmark l : no_char "?" (join "&" (env_piece <$> l)) = true.
Proof.
  apply no_char_join; [done|]. apply Forall_fmap, Forall_true. intros e. unfold compose, env_piece. cbn [tpl].
  rewrite sapp_nil_r, no_char_app. by rewrite encode_uri_no_char.
Qed.

Lemma usp_parse_pieces l : l <> [] -> usp_parse (join "&" (env_piece <$> l)) = (fun e => ("env", envToParam e)) <$> l.
Proof.
  intros H. unfold usp_parse.
  assert (Hd : forall s, no_char "?" s = true -> drop_qmark s = s).
  { intros [|c s]; [done|]. cbn [no_char drop_qmark]. by destruct (Ascii.eqb "?" c). }
  rewrite Hd by apply pieces_no_qmark. rewrite env_pieces_split by done. apply env_pieces_parse.
Qed.

Lemma usp_parse_amp a b : no_char "?" b = true -> usp_parse (a +:+ String "&" b) = usp_parse a ++ usp_parse b.
Proof.
  intros Hb. unfold usp_parse.
  assert (Hd : drop_qmark (a +:+ String "&" b) = drop_qmark a +:+ String "&" b) by (destruct a; cbn; [done|by case_if]).
  rewrite Hd. assert (Hdb : drop_qmark b = b).
  { destruct b as [|d b]; [done|]. cbn [no_char drop_qmark] in *. by destruct (Ascii.eqb "?" d). }
  rewrite Hdb. clear. rewrite <- fmap_app. f_equal. rewrite <- List.filter_app. f_equal.
  induction (drop_qmark a) as [|d s IH]; [done|]. cbn [String.append split].
  destruct (Ascii.eqb "&" d) eqn:E; [by rewrite IH|].
  rewrite IH. destruct (split "&" s) eqn:Es; [by apply split_not_nil in Es|done].
Qed.

(** The resource of a path: before the query. *)
Definition resource_of (path : string) : string :=
  match index_of "?" path with Some i => slice_to i path | None => path end.

Definition stamped (rq : Request) : bool := readsIntegrationData (rq_path rq) (rq_method rq) && negb (has_env (rq_path rq)).

Lemma env_stamp_query l rq : l <> [] -> stamped rq = true ->
  resource_of (env_stamp (Some l) rq) = resource_of (rq_path rq) /\
  query_of (env_stamp (Some l) rq) = query_of (rq_path rq) ++ ((fun e => ("env", envToParam e)) <$> l).
Proof.
  intros Hl Hs. unfold env_stamp. fold (stamped rq). rewrite Hs. set (path := rq_path rq).
  rewrite includes_char. cbn [tpl]. rewrite sapp_nil_r. set (tail := join "&" (env_piece <$> l)).
  destruct (no_char "?" path) eqn:Eq; cbn [negb].
  - change ("?" +:+ tail) with (String "?" tail). rewrite query_of_cut by done.
    unfold resource_of, query_of. rewrite index_of_app by done. rewrite slice_to_app.
    apply index_of_None in Eq. rewrite Eq. split; [done|]. cbn [app]. by apply usp_parse_pieces.
  - destruct (index_of_cut _ _ Eq) as (a & b & -> & Ha). rewrite <- sapp_assoc. cbn [String.append].
    change (String "?" b +:+ ("&" +:+ tail)) with (String "?" (b +:+ String "&" tail)).
    rewrite !query_of_cut by done. unfold resource_of. rewrite !index_of_app by done. rewrite !slice_to_app.
    split; [done|]. rewrite usp_parse_amp by apply pieces_no_qmark. f_equal. by apply usp_parse_pieces.
Qed.

(** C3. The environments of the page reach every read of integration data:
    what the server reads from the request sent is the request's own query
    followed by the active environments, on the same resource, so that a request
    that names no environment is read as exactly those of the page.  A write, and
    a read of something else, is sent as it is. *)
Theorem reads_follow_environment l rq :
  l <> [] ->
  (stamped rq = true ->
     resource_of (env_stamp (Some l) rq) = resource_of (rq_path rq) /\
     (forall k, usp_getAll (query_of (env_stamp (Some l) rq)) k
        = usp_getAll (query_of (rq_path rq)) k ++ (if k =s "env" then envToParam <$> l else [])) /\
     (usp_getAll (query_of (rq_path rq)) "env" = [] -> Forall plain_env l ->
        envsFromParams (query_of (env_stamp (Some l) rq)) = Some l)) /\
  (stamped rq = false -> env_stamp (Some l) rq = rq_path rq) /\
  (rq_method rq <> "GET" -> startsWith (rq_path rq) "/messages/search" = false -> env_stamp (Some l) rq = rq_path rq).
Proof.
  intros Hl. split; [|split].
  - intros Hs. destruct (env_stamp_query l rq Hl Hs) as [Hr Hq]. split; [done|]. rewrite Hq.
    assert (Hk : forall k, usp_getAll ((fun e => ("env", envToParam e)) <$> l) k = if k =s "env" then envToParam <$> l else []).
    { intros k. rewrite (list_fmap_compose envToParam (fun v => ("env", v))). destruct (k =s "env") eqn:E; bool_prop.
      - subst. apply usp_getAll_same.
      - by apply usp_getAll_other. }
    split; [intros k; by rewrite usp_getAll_app, Hk|]. intros Hne Hp.
    rewrite (envsFromParams_list _ l); [by destruct l|by rewrite usp_getAll_app, Hne, Hk|done].
  - intros Hs. unfold env_stamp. fold (stamped rq). by rewrite Hs.
  - intros Hm Hs. unfold env_stamp. apply String.eqb_neq in Hm. unfold readsIntegrationData. by rewrite Hm, Hs, andb_false_r.
Qed.

Lemma reads_follow_environment_witness :
  let rq := get_ "/integrations/x?range=1h" in
  stamped rq = true /\ env_stamp (Some ["prod"; ""]) rq = "/integrations/x?range=1h&env=prod&env=(none)" /\
  envsFromParams (query_of (env_stamp (Some ["prod"; ""]) rq)) = Some ["prod"; ""].
Proof.
  cbn zeta. split; [vm_compute; reflexivity|]. split; [vm_compute; reflexivity|].
  apply (proj2 (proj2 (proj1 (reads_follow_environment ["prod"; ""] (get_ "/integrations/x?range=1h") ltac:(discriminate)) ltac:(vm_compute; reflexivity)))).
  - vm_compute. reflexivity.
  - repeat constructor; discriminate.
Defined.
