(* ===== verification/Endpoints.v ===== *)
(** * The endpoints of the cell API

    [api/client.ts], the methods of [api]: the request each one makes.  Bodies
    that a method passes on are JSON values.  The requests that change something
    are also listed as the type [Write], with the route of each. *)

From S2P Require Import Prelude JsString JsUri JsArray Json Types Environment Client.

Local Open Scope char_scope.
Local Open Scope string_scope.
Local Open Scope list_scope.

(** ** Queries

    [if (x) params.set(k, x)], and [x ? "&k=" + encodeURIComponent(x) : ""]. *)
Definition set_if (k : string) (o : option string) (ps : params) : params :=
  if truthy_opt o then usp_set k (o ?? "") ps else ps.
Definition set_num (k : string) (o : option Z) (ps : params) : params :=
  match o with Some n => if (n =? 0)%Z then ps else usp_set k (show_Z n) ps | None => ps end.
Definition and_param (k : string) (o : option string) : string :=
  if truthy_opt o then tpl ["&"; k; "="; encodeURIComponent (o ?? "")] else "".
(** [qs ? "?" + qs : ""] *)
Definition opt_query (qs : string) : string := if truthy qs then tpl ["?"; qs] else "".

(** The options of the log queries; [lo_attrs] are [LogAttrFilter]s. *)
Record LogOpts := {
  lo_q : option string; lo_key : option string; lo_minSeverity : option Z; lo_service : option string;
  lo_integration : option string; lo_traceId : option string; lo_limit : option Z;
  lo_cursor : option (string * string); lo_attrs : option (list json); lo_buckets : option Z }.
Record MetricOpts := {
  mo_q : option string; mo_key : option string; mo_type : option string; mo_service : option string;
  mo_integration : option string; mo_limit : option Z; mo_attrs : option (list json) }.

Definition set_cursor (cursor : option (string * string)) (ps : params) : params :=
  match cursor with Some (ts, ord) => usp_set "before_ord" ord (usp_set "before_ts" ts ps) | None => ps end.
Definition append_attrs (attrs : option (list json)) (ps : params) : params :=
  foldl (fun ps a => usp_append "attr" (stringify a) ps) ps (attrs ?? []).
Definition set_type (ty : option string) (ps : params) : params :=
  if truthy_opt ty && negb ((ty ?? "") =s "all") then usp_set "type" (ty ?? "") ps else ps.

(** ** The methods of [api] *)

Definition listAdvisorSuggestions (advisor state : option string) : Request :=
  let q := set_if "advisor" advisor [] in
  let q := set_if "state" state q in
  get_ (tpl ["/advisor/suggestions"; opt_query (usp_toString q)]).
Definition acceptAdvisorSuggestion (id : string) (note : option string) : Request :=
  post (tpl ["/advisor/suggestions/"; encodeURIComponent id; "/accept"])
    (obj [("note", Some (JStr (note ?? "")))]).
Definition dismissAdvisorSuggestion (id : string) (note : option string) : Request :=
  post (tpl ["/advisor/suggestions/"; encodeURIComponent id; "/dismiss"])
    (obj [("note", Some (JStr (note ?? "")))]).
Definition runAdvisor : Request := post "/advisor/run" (obj []).
(** The rejection of the request is swallowed. *)
Definition markAlertInstanceOpened (id : string) : Request :=
  post (tpl ["/alert-instances/"; encodeURIComponent id; "/opened"]) (obj []).
(** [env] is a name, [null] or absent. *)
Definition listServices (window : option string) (withDependencies : bool) (env : option string) (environments : bool) : Request :=
  get_ (tpl ["/services?range="; encodeURIComponent (window ?? "1h"); if withDependencies then "&dependencies=1" else "";
             match env with Some e => tpl ["&env="; encodeURIComponent (envToParam e)] | None => "" end;
             if environments then "&environments=1" else ""]).
Definition listSystems : Request := get_ "/systems".
Definition getSystem (id : string) (window : option string) : Request :=
  get_ (tpl ["/systems/"; encodeURIComponent id; "?range="; encodeURIComponent (window ?? "1h")]).
Definition createSystem (body : json) : Request := post "/systems" body.
Definition updateSystem (id : string) (body : json) : Request := put (tpl ["/systems/"; encodeURIComponent id]) body.
Definition deleteSystem (id : string) : Request := del (tpl ["/systems/"; encodeURIComponent id]).
Definition systemDeleteImpact (id : string) : Request :=
  get_ (tpl ["/systems/"; encodeURIComponent id; "/delete-impact"]).
Definition attachSystemService (id : string) (serviceName : string) : Request :=
  post (tpl ["/systems/"; encodeURIComponent id; "/services"]) (obj [("service_name", Some (JStr serviceName))]).
Definition detachSystemService (id : string) (serviceName : string) : Request :=
  del (tpl ["/systems/"; encodeURIComponent id; "/services/"; encodeURIComponent serviceName]).
Definition getSystemMetadata (id : string) : Request := get_ (tpl ["/systems/"; encodeURIComponent id; "/metadata"]).
Definition putSystemMetadata (id : string) (values : json) : Request :=
  put (tpl ["/systems/"; encodeURIComponent id; "/metadata"]) values.
Definition applySystemTemplateAll (id : string) (channelIds : option (list string)) : Request :=
  post (tpl ["/systems/"; encodeURIComponent id; "/apply-template"])
    (obj [("channel_ids", Some (JArr (JStr <$> (channelIds ?? []))))]).
Definition setServiceSystem (name : string) (isSystem : bool) (systemKind : string) : Request :=
  put (tpl ["/services/"; encodeURIComponent name; "/system"])
    (obj [("is_system", Some (JBool isSystem)); ("system_kind", Some (JStr systemKind))]).
Inductive BadgeKind := Badge_integration | Badge_system | Badge_service.
Definition setBadgePublic (kind : BadgeKind) (id : string) (isPublic : bool) : Request :=
  put match kind with
      | Badge_integration => tpl ["/integrations/"; encodeURIComponent id; "/badge"]
      | Badge_system => tpl ["/systems/"; encodeURIComponent id; "/badge"]
      | Badge_service => tpl ["/services/"; encodeURIComponent id; "/badge"]
      end (obj [("public", Some (JBool isPublic))]).
Definition setMessageColumns (integrationID : string) (columns : json) : Request :=
  put (tpl ["/integrations/"; encodeURIComponent integrationID; "/message-columns"])
    (obj [("columns", Some columns)]).
Definition applySystemTemplate (name : string) (channelIds : option (list string)) : Request :=
  post (tpl ["/services/"; encodeURIComponent name; "/system/apply-template"])
    (obj [("channel_ids", Some (JArr (JStr <$> (channelIds ?? []))))]).
Definition applyTemplate (name : string) (kind : string) (channelIds : option (list string)) : Request :=
  post (tpl ["/services/"; encodeURIComponent name; "/apply-template"])
    (obj [("kind", Some (JStr kind)); ("channel_ids", Some (JArr (JStr <$> (channelIds ?? []))))]).
Definition templateSuggestions (name : string) : Request :=
  get_ (tpl ["/services/"; encodeURIComponent name; "/template-suggestions"]).
Definition removeTemplate (name : string) (kind templateId : option string) : Request :=
  post (tpl ["/services/"; encodeURIComponent name; "/remove-template"])
    (obj [("kind", jstr kind); ("template_id", jstr templateId)]).
Definition applyCustomTemplate (name : string) (templateId : string) (channelIds : option (list string)) : Request :=
  post (tpl ["/services/"; encodeURIComponent name; "/apply-template"])
    (obj [("template_id", Some (JStr templateId)); ("channel_ids", Some (JArr (JStr <$> (channelIds ?? []))))]).
Definition listMonitoringTemplates : Request := get_ "/monitoring-templates".
Definition createMonitoringTemplate (body : json) : Request := post "/monitoring-templates" body.
Definition updateMonitoringTemplate (id : string) (body : json) : Request :=
  put (tpl ["/monitoring-templates/"; encodeURIComponent id]) body.
Definition deleteMonitoringTemplate (id : string) : Request :=
  del (tpl ["/monitoring-templates/"; encodeURIComponent id]).
Definition listSystemTypes : Request := get_ "/system-types".
Definition createSystemType (body : json) : Request := post "/system-types" body.
Definition updateSystemType (id : string) (body : json) : Request :=
  put (tpl ["/system-types/"; encodeURIComponent id]) body.
Definition deleteSystemType (id : string) : Request := del (tpl ["/system-types/"; encodeURIComponent id]).
Definition errorsFeed (window : option string) : Request :=
  get_ (tpl ["/errors?range="; encodeURIComponent (window ?? "1h")]).
Definition getDigest : Request := get_ "/digest".
Definition markDigestSeen : Request := postEmpty "/digest/seen".
Definition serviceDetail (name : string) (window : option string) : Request :=
  get_ (tpl ["/services/"; encodeURIComponent name; "?range="; encodeURIComponent (window ?? "1h")]).
Definition search (q : string) (window integrationId serviceName : option string) (onlyFailed : bool) : Request :=
  let ps := [("q", q); ("range", window ?? "1h")] in
  let ps := if truthy_opt serviceName then usp_set "service" (serviceName ?? "") ps
            else set_if "integration" integrationId ps in
  let ps := if onlyFailed then usp_set "only_failed" "true" ps else ps in
  get_ (tpl ["/search?"; usp_toString ps]).
Definition globalSearch (q : string) (window : option string) : Request :=
  get_ (tpl ["/global-search?q="; encodeURIComponent q; "&range="; encodeURIComponent (window ?? "1h")]).
Definition traceDetail (traceId : string) : Request := get_ (tpl ["/traces/"; encodeURIComponent traceId]).
Definition traceChain (traceId : string) : Request := get_ (tpl ["/traces/"; encodeURIComponent traceId; "/chain"]).
Definition getPreference (key : string) : Request := get_ (tpl ["/me/preferences/"; encodeURIComponent key]).
Definition putPreference (key : string) (value : json) : Request :=
  put (tpl ["/me/preferences/"; encodeURIComponent key]) (obj [("value", Some value)]).
Definition listIntegrations (window : option string) (series : bool) (stats : option string) (env : EnvArg) (environments : bool) : Request :=
  get_ (tpl ["/integrations?range="; encodeURIComponent (window ?? "1h"); if series then "&series=1" else "";
             if (stats ?? "") =s "defer" then "&stats=defer" else "";
             join "" ((fun e => tpl ["&env="; encodeURIComponent (envToParam e)]) <$> env_list env);
             if environments then "&environments=1" else ""]).
Definition integrationStats (ids : list string) (window : option string) (series environments : bool) : Request :=
  get_ (tpl ["/integrations/stats?ids="; encodeURIComponent (join "," ids); "&range="; encodeURIComponent (window ?? "1h");
             if series then "&series=1" else ""; if environments then "&environments=1" else ""]).
Definition integrationEnvironments (id : string) (window : option string) : Request :=
  get_ (tpl ["/integrations/"; encodeURIComponent id; "/environments?range="; encodeURIComponent (window ?? "1h"); "&env="]).
Definition setIntegrationSources (id : string) (sources : json) : Request :=
  put (tpl ["/integrations/"; encodeURIComponent id; "/sources"]) (obj [("sources", Some sources)]).
Definition serviceEnvironments (name : string) (window : option string) : Request :=
  get_ (tpl ["/services/"; encodeURIComponent name; "/environments?range="; encodeURIComponent (window ?? "1h"); "&env="]).
Definition setDeclaredEnvironments (id : string) (environments : list string) : Request :=
  put (tpl ["/integrations/"; encodeURIComponent id; "/declared-environments"])
    (obj [("environments", Some (JArr (JStr <$> environments)))]).
Definition listEnvironments (window : option string) : Request :=
  get_ (tpl ["/environments?range="; encodeURIComponent (window ?? "24h")]).
Definition getTelemetryEnvironment : Request := get_ "/cell-settings/telemetry-environment".
Definition setTelemetryEnvironment (body : json) : Request := put "/cell-settings/telemetry-environment" body.
Definition previewIntegrationRules (body : json) (window : option string) : Request :=
  post (tpl ["/integrations/preview?range="; encodeURIComponent (window ?? "1h")]) body.
Definition getIntegration (id : string) (window : option string) : Request :=
  get_ (tpl ["/integrations/"; encodeURIComponent id; "?range="; encodeURIComponent (window ?? "1h")]).
Definition createIntegration (req : json) : Request := post "/integrations" req.
Definition updateIntegration (id : string) (body : json) : Request :=
  put (tpl ["/integrations/"; encodeURIComponent id]) body.
Definition deleteIntegration (id : string) : Request := del (tpl ["/integrations/"; encodeURIComponent id]).
Definition integrationDeleteImpact (id : string) : Request :=
  get_ (tpl ["/integrations/"; encodeURIComponent id; "/delete-impact"]).
Definition cloneIntegration (id : string) (body : json) : Request :=
  post (tpl ["/integrations/"; encodeURIComponent id; "/clone"]) body.
Definition addMatcher (id : string) (body : json) : Request :=
  post (tpl ["/integrations/"; encodeURIComponent id; "/matchers"]) body.
Definition removeMatcher (id : string) (matcherId : string) : Request :=
  del (tpl ["/integrations/"; encodeURIComponent id; "/matchers/"; encodeURIComponent matcherId]).
Definition replaceMatchers (id : string) (body : json) : Request :=
  put (tpl ["/integrations/"; encodeURIComponent id; "/matchers"]) body.
Definition removeServiceFromIntegration (id serviceName : string) : Request :=
  del (tpl ["/integrations/"; encodeURIComponent id; "/services/"; encodeURIComponent serviceName]).
Definition getTopology (window view : option string) (historical : bool) : Request :=
  get_ (tpl ["/topology?range="; encodeURIComponent (window ?? "24h"); "&view="; view ?? "services";
             if historical then "&historical=1" else ""]).
Definition getMetadataGraph : Request := get_ "/metadata-graph".
Definition getNavigationReach : Request := get_ "/me/navigation".
Definition getBranding : Request := get_ "/cell-settings/branding".
Definition getLoginBranding : Request := get_ "/branding/login".
Definition setBranding (body : json) : Request := put "/cell-settings/branding" body.
Definition setIntegrationMessageFilters (id : string) (filters : json) : Request :=
  put (tpl ["/integrations/"; encodeURIComponent id; "/message-filters"]) (obj [("filters", Some filters)]).
Definition getCollectorTarget : Request := get_ "/collector-target".
Definition setCollectorTarget (body : json) : Request := patch "/collector-target" body.
Definition getServiceCollectorTarget (service : string) : Request :=
  get_ (tpl ["/services/"; encodeURIComponent service; "/collector-target"]).
Definition setServiceCollectorTarget (service : string) (body : json) : Request :=
  patch (tpl ["/services/"; encodeURIComponent service; "/collector-target"]) body.
Definition integrationErrorBreakdown (id : string) (window : option string) : Request :=
  get_ (tpl ["/integrations/"; encodeURIComponent id; "/error-breakdown?range="; encodeURIComponent (window ?? "1h")]).
Definition integrationFlow (id : string) (window trace : option string) (historical : bool) : Request :=
  get_ (tpl ["/integrations/"; encodeURIComponent id; "/flow?range="; encodeURIComponent (window ?? "1h");
             and_param "trace" trace; if historical then "&historical=1" else ""]).
Definition listServiceFacets : Request := get_ "/service-facets".
Definition getServiceFacet (slug : string) (window : option string) : Request :=
  get_ (tpl ["/service-facets/"; encodeURIComponent slug; "?range="; encodeURIComponent (window ?? "1h")]).
Definition createServiceFacet (body : json) : Request := post "/service-facets" body.
Definition updateServiceFacet (slug : string) (body : json) : Request :=
  put (tpl ["/service-facets/"; encodeURIComponent slug]) body.
Definition deleteServiceFacet (slug : string) : Request := del (tpl ["/service-facets/"; encodeURIComponent slug]).
Definition serviceWidgets (name : string) (window : option string) : Request :=
  get_ (tpl ["/services/"; encodeURIComponent name; "/widgets?range="; encodeURIComponent (window ?? "1h")]).
Definition serviceTraces (name : string) (window : option string) (onlyFailed : bool) : Request :=
  get_ (tpl ["/services/"; encodeURIComponent name; "/traces?range="; encodeURIComponent (window ?? "1h");
             if onlyFailed then "&only_failed=1" else ""]).
Definition serviceNeighbors (name : string) (window : option string) : Request :=
  get_ (tpl ["/services/"; encodeURIComponent name; "/neighbors?range="; encodeURIComponent (window ?? "1h")]).
Definition getServiceMetadata (name : string) : Request :=
  get_ (tpl ["/services/"; encodeURIComponent name; "/metadata"]).
Definition updateServiceMetadata (name : string) (body : json) : Request :=
  put (tpl ["/services/"; encodeURIComponent name; "/metadata"]) body.
Definition listMetadataFields : Request := get_ "/metadata-fields".
Definition createMetadataField (body : json) : Request := post "/metadata-fields" body.
Definition updateMetadataField (id : string) (body : json) : Request :=
  patch (tpl ["/metadata-fields/"; encodeURIComponent id]) body.
Definition deleteMetadataField (id : string) : Request := del (tpl ["/metadata-fields/"; encodeURIComponent id]).
Definition setIntegrationMetadata (id : string) (values : json) : Request :=
  put (tpl ["/integrations/"; encodeURIComponent id; "/metadata"]) values.
Definition setServiceMetadataExtras (name : string) (values : json) : Request :=
  put (tpl ["/services/"; encodeURIComponent name; "/metadata-extras"]) values.
Definition listSchemas : Request := get_ "/schemas".
Definition getSchema (id : string) : Request := get_ (tpl ["/schemas/"; encodeURIComponent id]).
Definition createSchema (body : json) : Request := post "/schemas" body.
Definition updateSchema (id : string) (body : json) : Request :=
  patch (tpl ["/schemas/"; encodeURIComponent id]) body.
Definition deleteSchema (id : string) : Request := del (tpl ["/schemas/"; encodeURIComponent id]).
Definition setServiceSchemas (name : string) (body : json) : Request :=
  put (tpl ["/services/"; encodeURIComponent name; "/schemas"]) body.
Definition listMaps : Request := get_ "/maps".
Definition getMap (id : string) : Request := get_ (tpl ["/maps/"; encodeURIComponent id]).
Definition createMap (body : json) : Request := post "/maps" body.
Definition updateMap (id : string) (body : json) : Request := patch (tpl ["/maps/"; encodeURIComponent id]) body.
Definition deleteMap (id : string) : Request := del (tpl ["/maps/"; encodeURIComponent id]).
Definition executeMap (id : string) (body : json) : Request :=
  post (tpl ["/maps/"; encodeURIComponent id; "/execute"]) body.
Definition listFacetMappings (name : string) : Request :=
  get_ (tpl ["/services/"; encodeURIComponent name; "/facet-mappings"]).
Definition createFacetMapping (name : string) (req : json) : Request :=
  post (tpl ["/services/"; encodeURIComponent name; "/facet-mappings"]) req.
Definition deleteFacetMapping (name : string) (id : string) : Request :=
  del (tpl ["/services/"; encodeURIComponent name; "/facet-mappings/"; encodeURIComponent id]).
Definition getServiceFacetOverrides (name : string) : Request :=
  get_ (tpl ["/services/"; encodeURIComponent name; "/facet-overrides"]).
Definition updateServiceFacetOverrides (name : string) (req : json) : Request :=
  put (tpl ["/services/"; encodeURIComponent name; "/facet-overrides"]) req.
Definition serviceReadings (name : string) : Request :=
  get_ (tpl ["/services/"; encodeURIComponent name; "/readings"]).
Definition pushHealthCheckValue (name : string) (id : string) (value : num) : Request :=
  post (tpl ["/services/"; encodeURIComponent name; "/health-checks/"; encodeURIComponent id; "/value"])
    (obj [("value", Some (JNum value))]).
Definition clearServiceErrors (name : string) (comment : option string) : Request :=
  post (tpl ["/services/"; encodeURIComponent name; "/clear-errors"]) (obj [("comment", Some (JStr (comment ?? "")))]).
Definition unclearServiceErrors (name : string) : Request :=
  del (tpl ["/services/"; encodeURIComponent name; "/clear-errors"]).
Definition listServiceLogs (name : string) (window : option string) (opts : LogOpts) : Request :=
  let ps := set_if "q" (lo_q opts) [("range", window ?? "1h")] in
  let ps := set_num "min_severity" (lo_minSeverity opts) ps in
  let ps := set_if "trace_id" (lo_traceId opts) ps in
  let ps := set_num "limit" (lo_limit opts) ps in
  let ps := set_cursor (lo_cursor opts) ps in
  get_ (tpl ["/services/"; encodeURIComponent name; "/logs?"; usp_toString (append_attrs (lo_attrs opts) ps)]).
Definition listServiceMetricNames (name : string) (window : option string) : Request :=
  get_ (tpl ["/services/"; encodeURIComponent name; "/metric-names?range="; encodeURIComponent (window ?? "1h")]).
Definition serviceMetricSeries (name metric : string) (window transform : option string) (stepSeconds : option Z) : Request :=
  let ps := set_if "transform" transform [("metric", metric); ("range", window ?? "1h")] in
  let ps := set_num "step" stepSeconds ps in
  get_ (tpl ["/services/"; encodeURIComponent name; "/metric-series?"; usp_toString ps]).
Definition searchLogs (window : option string) (opts : LogOpts) : Request :=
  let ps := set_if "q" (lo_q opts) [("range", window ?? "1h")] in
  let ps := set_num "min_severity" (lo_minSeverity opts) ps in
  let ps := set_if "service" (lo_service opts) ps in
  let ps := set_if "integration" (lo_integration opts) ps in
  let ps := set_if "trace_id" (lo_traceId opts) ps in
  let ps := set_num "limit" (lo_limit opts) ps in
  let ps := set_cursor (lo_cursor opts) ps in
  get_ (tpl ["/logs?"; usp_toString (append_attrs (lo_attrs opts) ps)]).
Definition getLog (id : string) : Request := get_ (tpl ["/logs/"; encodeURIComponent id]).
Definition logServices (window : option string) : Request :=
  get_ (tpl ["/log-services?range="; encodeURIComponent (window ?? "1h")]).
Definition logFields (window integration : option string) : Request :=
  get_ (tpl ["/log-fields?range="; encodeURIComponent (window ?? "1h"); and_param "integration" integration]).
Definition logAttrValues (key : string) (window : option string) (limit : option Z) (integration : option string) : Request :=
  get_ (tpl ["/log-attributes/"; encodeURIComponent key; "/values?range="; encodeURIComponent (window ?? "1h");
             "&limit="; show_Z (limit ?? 50%Z); and_param "integration" integration]).
Definition logVolume (window : option string) (opts : LogOpts) : Request :=
  let ps := set_if "q" (lo_q opts) [("range", window ?? "1h")] in
  let ps := set_num "min_severity" (lo_minSeverity opts) ps in
  let ps := set_if "service" (lo_service opts) ps in
  let ps := set_if "integration" (lo_integration opts) ps in
  let ps := set_num "buckets" (lo_buckets opts) ps in
  get_ (tpl ["/logs/volume?"; usp_toString (append_attrs (lo_attrs opts) ps)]).
Definition listMetricCatalog (window : option string) : Request :=
  get_ (tpl ["/metric-names?range="; encodeURIComponent (window ?? "1h")]).
Definition metricCatalog (window : option string) (opts : MetricOpts) : Request :=
  let ps := set_if "q" (mo_q opts) [("range", window ?? "1h")] in
  let ps := set_type (mo_type opts) ps in
  let ps := set_if "service" (mo_service opts) ps in
  let ps := set_if "integration" (mo_integration opts) ps in
  let ps := set_num "limit" (mo_limit opts) ps in
  get_ (tpl ["/metric-catalog?"; usp_toString (append_attrs (mo_attrs opts) ps)]).
Definition metricGroups (window : option string) (by_ : string) (opts : MetricOpts) : Request :=
  let ps := set_if "key" (mo_key opts) [("range", window ?? "1h"); ("by", by_)] in
  let ps := set_if "q" (mo_q opts) ps in
  let ps := set_type (mo_type opts) ps in
  get_ (tpl ["/metric-groups?"; usp_toString (append_attrs (mo_attrs opts) ps)]).
Definition logGroups (window : option string) (by_ : string) (opts : LogOpts) : Request :=
  let ps := set_if "key" (lo_key opts) [("range", window ?? "1h"); ("by", by_)] in
  let ps := set_if "q" (lo_q opts) ps in
  let ps := set_num "min_severity" (lo_minSeverity opts) ps in
  let ps := set_if "service" (lo_service opts) ps in
  let ps := set_if "integration" (lo_integration opts) ps in
  get_ (tpl ["/logs/groups?"; usp_toString (append_attrs (lo_attrs opts) ps)]).
Definition usageReport (window : option string) : Request :=
  get_ (tpl ["/reports/usage?range="; encodeURIComponent (window ?? "24h")]).
Definition usageVolume (window : option string) (windowed : bool) : Request :=
  get_ (tpl ["/usage/volume?range="; encodeURIComponent (window ?? "1h"); if windowed then "&windowed=1" else ""]).
Definition metricFields (window metric integration : option string) : Request :=
  get_ (tpl ["/metric-fields?range="; encodeURIComponent (window ?? "1h"); and_param "metric" metric;
             and_param "integration" integration]).
Definition metricAttributeValues (key : string) (window : option string) (limit : option Z) (metric q integration : option string) : Request :=
  get_ (tpl ["/metric-attributes/"; encodeURIComponent key; "/values?range="; encodeURIComponent (window ?? "1h");
             "&limit="; show_Z (limit ?? 50%Z); and_param "metric" metric; and_param "q" q; and_param "integration" integration]).
Definition listAlertRules (service integration system : option string) : Request :=
  let p := set_if "service" service [] in
  let p := set_if "integration" integration p in
  let p := set_if "system" system p in
  get_ (tpl ["/alert-rules"; opt_query (usp_toString p)]).
Definition createAlertRule (body : json) : Request := post "/alert-rules" body.
Definition updateAlertRule (id : string) (body : json) : Request :=
  put (tpl ["/alert-rules/"; encodeURIComponent id]) body.
Definition deleteAlertRule (id : string) : Request := del (tpl ["/alert-rules/"; encodeURIComponent id]).
Definition previewAlertRule (spec : json) (serviceName : option string) (integrationId : option string) (systemId : option string) : Request :=
  post "/alert-rules/preview"
    (obj [("spec", Some spec); ("service_name", jstr serviceName); ("integration_id", jstr integrationId); ("system_id", jstr systemId)]).
Definition getOrgNotificationTemplates : Request := get_ "/settings/notification-templates".
Definition putOrgNotificationTemplates (body : json) : Request := put "/settings/notification-templates" body.
Definition getGroupNotificationTemplate (groupId : string) : Request :=
  get_ (tpl ["/settings/groups/"; encodeURIComponent groupId; "/notification-template"]).
Definition putGroupNotificationTemplate (groupId : string) (body : json) : Request :=
  put (tpl ["/settings/groups/"; encodeURIComponent groupId; "/notification-template"]) body.
Definition templateContextSchema (scope : option string) : Request :=
  get_ (tpl ["/alerting/template-context-schema"; if truthy_opt scope then tpl ["?scope="; encodeURIComponent (scope ?? "")] else ""]).
Definition previewAlertTemplate (kind : string) (content : json) (bodyTemplate : option string) : Request :=
  post "/alert-templates/preview" (obj [("kind", Some (JStr kind)); ("content", Some content); ("body_template", jstr bodyTemplate)]).
Definition listAlertInstances (limit : option Z) : Request := get_ (tpl ["/alert-instances?limit="; show_Z (limit ?? 100%Z)]).
Definition exportConfigBundle : Request := get_ "/settings/config-export".
Inductive ImportMode := Import_strict | Import_replace.
Definition import_mode (m : ImportMode) : string := match m with Import_strict => "strict" | Import_replace => "replace" end.
Definition show_bool (b : bool) : string := if b then "true" else "false".
Definition importConfigBundle (bundle : json) (mode : ImportMode) (dryRun : bool) (matchMembersByEmail : option bool) : Request :=
  post (tpl ["/settings/config-import?mode="; import_mode mode; "&dry_run="; show_bool dryRun;
             "&match_members_by_email="; show_bool (matchMembersByEmail ?? false)]) bundle.
Definition listMyAnnouncements : Request := get_ "/announcements".
Definition dismissAnnouncement (id : string) : Request :=
  post (tpl ["/announcements/"; encodeURIComponent id; "/dismiss"]) (obj []).
Definition listCellAnnouncements : Request := get_ "/operator/announcements".
Definition createCellAnnouncement (body : json) : Request := post "/operator/announcements" body.
Definition deleteCellAnnouncement (id : string) : Request :=
  del (tpl ["/operator/announcements/"; encodeURIComponent id]).
Definition listMaintenanceWindows : Request := get_ "/maintenance-windows".
Definition createMaintenanceWindow (body : json) : Request := post "/maintenance-windows" body.
Definition updateMaintenanceWindow (id : string) (body : json) : Request :=
  patch (tpl ["/maintenance-windows/"; encodeURIComponent id]) body.
Definition endMaintenanceWindow (id : string) : Request := del (tpl ["/maintenance-windows/"; encodeURIComponent id]).
Definition listMaintenanceSchedules : Request := get_ "/maintenance-schedules".
Definition createMaintenanceSchedule (body : json) : Request := post "/maintenance-schedules" body.
Definition updateMaintenanceSchedule (id : string) (body : json) : Request :=
  patch (tpl ["/maintenance-schedules/"; encodeURIComponent id]) body.
Definition deleteMaintenanceSchedule (id : string) : Request :=
  del (tpl ["/maintenance-schedules/"; encodeURIComponent id]).
Definition retryAlertDelivery (id : string) : Request :=
  post (tpl ["/alert-deliveries/"; encodeURIComponent id; "/retry"]) (obj []).
Definition listAlertDeliveries (range service integration system name : option string) (limit : option Z) : Request :=
  let p := set_if "range" range [] in
  let p := set_if "service" service p in
  let p := set_if "integration" integration p in
  let p := set_if "system" system p in
  let p := set_if "name" name p in
  let p := usp_set "limit" (show_Z (limit ?? 500%Z)) p in
  get_ (tpl ["/alert-deliveries?"; usp_toString p]).
Definition acknowledgeAlertInstance (id : string) : Request :=
  postEmpty (tpl ["/alert-instances/"; encodeURIComponent id; "/acknowledge"]).
Definition resolveAlertInstance (id : string) : Request :=
  postEmpty (tpl ["/alert-instances/"; encodeURIComponent id; "/resolve"]).
Definition listIngestKeys : Request := get_ "/ingest-keys".
Definition createIngestKey (name : string) : Request := post "/ingest-keys" (obj [("name", Some (JStr name))]).
Definition revokeIngestKey (id : string) : Request := del (tpl ["/ingest-keys/"; encodeURIComponent id]).
Definition listChannels : Request := get_ "/notification-channels".
Definition listEventTypes : Request := get_ "/event-types".
Definition listEventSubscriptions : Request := get_ "/event-subscriptions".
Definition createEventSubscription (body : json) : Request := post "/event-subscriptions" body.
Definition updateEventSubscription (id : string) (body : json) : Request :=
  put (tpl ["/event-subscriptions/"; encodeURIComponent id]) body.
Definition deleteEventSubscription (id : string) : Request :=
  del (tpl ["/event-subscriptions/"; encodeURIComponent id]).
Definition listProposals (state : option string) : Request :=
  get_ (tpl ["/proposals"; if truthy_opt state then tpl ["?state="; encodeURIComponent (state ?? "")] else ""]).
Definition getProposal (id : string) : Request := get_ (tpl ["/proposals/"; encodeURIComponent id]).
Definition approveProposal (id : string) (body : option json) : Request :=
  post (tpl ["/proposals/"; encodeURIComponent id; "/approve"]) (body ?? obj []).
Definition rejectProposal (id : string) (body : option json) : Request :=
  post (tpl ["/proposals/"; encodeURIComponent id; "/reject"]) (body ?? obj []).
Definition listEventDeliveries (id : string) : Request :=
  get_ (tpl ["/event-subscriptions/"; encodeURIComponent id; "/deliveries"]).
Definition listNotificationProfiles : Request := get_ "/notification-profiles".
Definition createNotificationProfile (body : json) : Request := post "/notification-profiles" body.
Definition updateNotificationProfile (id : string) (body : json) : Request :=
  put (tpl ["/notification-profiles/"; encodeURIComponent id]) body.
Definition deleteNotificationProfile (id : string) : Request :=
  del (tpl ["/notification-profiles/"; encodeURIComponent id]).
Definition setNotificationProfileChannels (id : string) (channelIDs : list string) : Request :=
  put (tpl ["/notification-profiles/"; encodeURIComponent id; "/channels"])
    (obj [("channel_ids", Some (JArr (JStr <$> channelIDs)))]).
Definition getIntegrationProfile (integrationID : string) : Request :=
  get_ (tpl ["/integrations/"; encodeURIComponent integrationID; "/notification-profile"]).
Definition assignIntegrationProfile (integrationID : string) (profileID : option string) : Request :=
  put (tpl ["/integrations/"; encodeURIComponent integrationID; "/notification-profile"])
    (obj [("profile_id", Some (JStr (profileID ?? "")))]).
Definition createChannel (body : json) : Request := post "/notification-channels" body.
Definition updateChannel (id : string) (body : json) : Request :=
  put (tpl ["/notification-channels/"; encodeURIComponent id]) body.
Definition deleteChannel (id : string) : Request := del (tpl ["/notification-channels/"; encodeURIComponent id]).
Definition metricSeriesByService (metric : string) (window : option string) (services : option (list string))
    (transform : option string) (stepSeconds : option Z) : Request :=
  let ps := foldl (fun ps s => usp_append "service" s ps) [("metric", metric); ("range", window ?? "1h")] (services ?? []) in
  let ps := set_if "transform" transform ps in
  let ps := set_num "step" stepSeconds ps in
  get_ (tpl ["/metric-series?"; usp_toString ps]).
Definition searchMessages (req : json) : Request := post "/messages/search" req.
Definition messageFields (window : option string) : Request :=
  get_ (tpl ["/messages/fields?range="; encodeURIComponent (window ?? "24h")]).
Definition listMessageViews : Request := get_ "/message-views".
Definition createMessageView (req : json) : Request := post "/message-views" req.
Definition updateMessageView (id : string) (req : json) : Request :=
  put (tpl ["/message-views/"; encodeURIComponent id]) req.
Definition deleteMessageView (id : string) : Request := del (tpl ["/message-views/"; encodeURIComponent id]).
Definition listTags : Request := get_ "/tags".
Definition listTagsWithUsage : Request := get_ "/tags?include=usage".
Definition createTag (req : json) : Request := post "/tags" req.
Definition updateTag (id : string) (req : json) : Request := patch (tpl ["/tags/"; encodeURIComponent id]) req.
Definition deleteTag (id : string) : Request := del (tpl ["/tags/"; encodeURIComponent id]).
Definition listIntegrationTags (id : string) : Request :=
  get_ (tpl ["/integrations/"; encodeURIComponent id; "/tags"]).
Definition attachIntegrationTag (id : string) (tagId : string) : Request :=
  postEmpty (tpl ["/integrations/"; encodeURIComponent id; "/tags/"; encodeURIComponent tagId]).
Definition detachIntegrationTag (id : string) (tagId : string) : Request :=
  del (tpl ["/integrations/"; encodeURIComponent id; "/tags/"; encodeURIComponent tagId]).
Definition listServiceTags (name : string) : Request := get_ (tpl ["/services/"; encodeURIComponent name; "/tags"]).
Definition attachServiceTag (name : string) (tagId : string) : Request :=
  postEmpty (tpl ["/services/"; encodeURIComponent name; "/tags/"; encodeURIComponent tagId]).
Definition detachServiceTag (name : string) (tagId : string) : Request :=
  del (tpl ["/services/"; encodeURIComponent name; "/tags/"; encodeURIComponent tagId]).
Definition listDashboards : Request := get_ "/dashboards".
Definition getDashboard (id : string) : Request := get_ (tpl ["/dashboards/"; encodeURIComponent id]).
Definition createDashboard (req : json) : Request := post "/dashboards" req.
Definition updateDashboard (id : string) (req : json) : Request :=
  put (tpl ["/dashboards/"; encodeURIComponent id]) req.
Definition deleteDashboard (id : string) : Request := del (tpl ["/dashboards/"; encodeURIComponent id]).
Definition login (body : json) : Request := post "/auth/login" body.
Definition logout : Request := post "/auth/logout" (obj []).
Definition forgotPassword (email : string) : Request :=
  post "/auth/forgot-password" (obj [("email", Some (JStr email))]).
Definition resetPassword (token : string) (newPassword : string) : Request :=
  post "/auth/reset-password" (obj [("token", Some (JStr token)); ("new_password", Some (JStr newPassword))]).
Definition mfaStatus : Request := get_ "/account/mfa".
Definition mfaSetup : Request := post "/account/mfa/setup" (obj []).
Definition mfaEnable (code : string) : Request := post "/account/mfa/enable" (obj [("code", Some (JStr code))]).
Definition mfaDisable (code : string) : Request := post "/account/mfa/disable" (obj [("code", Some (JStr code))]).
Definition mfaVerify (mfaToken : string) (code : string) : Request :=
  post "/auth/mfa-verify" (obj [("mfa_token", Some (JStr mfaToken)); ("code", Some (JStr code))]).
Definition getSMTP : Request := get_ "/cell-settings/smtp".
Definition updateSMTP (body : json) : Request := patch "/cell-settings/smtp" body.
Definition testSMTP (to : option string) : Request :=
  post "/cell-settings/smtp/test" (if truthy_opt to then obj [("to", jstr to)] else obj []).
Definition getSecuritySettings : Request := get_ "/cell-settings/security".
Definition updateSecuritySettings (mfaRequired : bool) : Request :=
  patch "/cell-settings/security" (obj [("mfa_required", Some (JBool mfaRequired))]).
Definition meAccess : Request := get_ "/me/access".
Definition me : Request := get_ "/me".
Definition installState : Request := get_ "/auth/install-state".
Definition bootstrapAdmin (body : json) : Request := post "/auth/bootstrap-admin" body.
Definition updateMe (body : json) : Request := patch "/me" body.
Definition changePassword (body : json) : Request := post "/me/password" body.
Definition getOrg (id : string) : Request := get_ (tpl ["/orgs/"; encodeURIComponent id]).
Definition updateOrg (id : string) (body : json) : Request := patch (tpl ["/orgs/"; encodeURIComponent id]) body.
Definition license : Request := get_ "/license".
Definition listAuditLog (limit before : option Z) (actor actorId action from to : option string) : Request :=
  let p := set_num "before" before [("limit", show_Z (limit ?? 100%Z))] in
  let p := set_if "actor" actor p in
  let p := set_if "actor_id" actorId p in
  let p := set_if "action" action p in
  let p := set_if "from" from p in
  let p := set_if "to" to p in
  get_ (tpl ["/audit-log?"; usp_toString p]).
Definition verifyAuditChain : Request := get_ "/audit-log/verify".
Definition getRetention : Request := get_ "/cell-settings/retention".
Definition updateRetention (body : json) : Request := patch "/cell-settings/retention" body.
Definition getSystemSettings : Request := get_ "/cell-settings/system".
Definition updateSystemSettings (body : json) : Request := patch "/cell-settings/system" body.
Definition listTraceCompletionRules (integrationID : string) : Request :=
  get_ (tpl ["/integrations/"; encodeURIComponent integrationID; "/completion-rules"]).
Definition integrationSpanNames (integrationID : string) (range : option string) : Request :=
  get_ (tpl ["/integrations/"; encodeURIComponent integrationID; "/span-names?range="; encodeURIComponent (range ?? "24h")]).
Definition integrationAttributeKeys (integrationID : string) (range : option string) : Request :=
  get_ (tpl ["/integrations/"; encodeURIComponent integrationID; "/attribute-keys?range="; encodeURIComponent (range ?? "24h")]).
Definition integrationAttributeValues (integrationID : string) (key : string) (range : option string) : Request :=
  get_ (tpl ["/integrations/"; encodeURIComponent integrationID; "/attribute-values?key="; encodeURIComponent key; "&range="; encodeURIComponent (range ?? "24h")]).
Definition createTraceCompletionRule (integrationID : string) (body : json) : Request :=
  post (tpl ["/integrations/"; encodeURIComponent integrationID; "/completion-rules"]) body.
Definition updateTraceCompletionRule (integrationID : string) (ruleID : string) (body : json) : Request :=
  patch (tpl ["/integrations/"; encodeURIComponent integrationID; "/completion-rules/"; encodeURIComponent ruleID]) body.
Definition deleteTraceCompletionRule (integrationID : string) (ruleID : string) : Request :=
  del (tpl ["/integrations/"; encodeURIComponent integrationID; "/completion-rules/"; encodeURIComponent ruleID]).
Definition getCompletionCounts (integrationID : string) : Request :=
  get_ (tpl ["/integrations/"; encodeURIComponent integrationID; "/completion-counts"]).
Definition listCompletionFirings (integrationID : string) (window : option string) : Request :=
  get_ (tpl ["/integrations/"; encodeURIComponent integrationID; "/completion-firings?range="; encodeURIComponent (window ?? "1h")]).
Definition listCompletionFiringsForTrace (traceID : string) : Request :=
  get_ (tpl ["/traces/"; encodeURIComponent traceID; "/completion-firings"]).
Definition testChannel (id : string) : Request :=
  postEmpty (tpl ["/notification-channels/"; encodeURIComponent id; "/test"]).
Definition markCompletionFiringHandled (integrationID : string) (instanceID : string) : Request :=
  postEmpty (tpl ["/integrations/"; encodeURIComponent integrationID; "/completion-firings/"; encodeURIComponent instanceID; "/handle"]).
Definition getLimits : Request := get_ "/limits".
Definition listMembers : Request := get_ "/settings/members".
Definition addMember (body : json) : Request := post "/settings/members" body.
Definition updateMemberRole (userId : string) (role : string) : Request :=
  patch (tpl ["/settings/members/"; encodeURIComponent userId]) (obj [("role", Some (JStr role))]).
Definition adminResetMemberPassword (userId : string) (newPassword : string) (requireChange : bool) : Request :=
  post (tpl ["/settings/members/"; encodeURIComponent userId; "/password"])
    (obj [("new_password", Some (JStr newPassword)); ("require_change", Some (JBool requireChange))]).
Definition removeMember (userId : string) : Request := del (tpl ["/settings/members/"; encodeURIComponent userId]).
Definition listTokens : Request := get_ "/settings/tokens".
Definition createToken (name : string) (scopeRole : option string) (expiresInDays : option Z) : Request :=
  post "/settings/tokens"
    (obj [("name", Some (JStr name)); ("scope_role", Some (JStr (scopeRole ?? ""))); ("expires_in_days", Some (JInt (expiresInDays ?? 0%Z)))]).
Definition revokeToken (id : string) : Request := del (tpl ["/settings/tokens/"; encodeURIComponent id]).
Definition listServiceAccounts : Request := get_ "/settings/service-accounts".
Definition createServiceAccount (body : json) : Request := post "/settings/service-accounts" body.
Definition updateServiceAccount (id : string) (body : json) : Request :=
  put (tpl ["/settings/service-accounts/"; encodeURIComponent id]) body.
Definition deleteServiceAccount (id : string) : Request :=
  del (tpl ["/settings/service-accounts/"; encodeURIComponent id]).
Definition listServiceAccountGroups (id : string) : Request :=
  get_ (tpl ["/settings/service-accounts/"; encodeURIComponent id; "/groups"]).
Definition listServiceAccountTokens (id : string) : Request :=
  get_ (tpl ["/settings/service-accounts/"; encodeURIComponent id; "/tokens"]).
Definition createServiceAccountToken (id : string) (name : string) (scopeRole : option string) (expiresInDays : option Z) : Request :=
  post (tpl ["/settings/service-accounts/"; encodeURIComponent id; "/tokens"])
    (obj [("name", Some (JStr name)); ("scope_role", Some (JStr (scopeRole ?? ""))); ("expires_in_days", Some (JInt (expiresInDays ?? 0%Z)))]).
Definition revokeServiceAccountToken (id : string) (tid : string) : Request :=
  del (tpl ["/settings/service-accounts/"; encodeURIComponent id; "/tokens/"; encodeURIComponent tid]).
Definition listSsoProviders : Request := get_ "/auth/sso/providers".
Definition listAuthProviders : Request := get_ "/settings/auth-providers".
Definition createAuthProvider (body : json) : Request := post "/settings/auth-providers" body.
Definition updateAuthProvider (id : string) (body : json) : Request :=
  put (tpl ["/settings/auth-providers/"; encodeURIComponent id]) body.
Definition deleteAuthProvider (id : string) : Request :=
  del (tpl ["/settings/auth-providers/"; encodeURIComponent id]).
Definition listClaimMappings (id : string) : Request :=
  get_ (tpl ["/settings/auth-providers/"; encodeURIComponent id; "/mappings"]).
Definition createClaimMapping (id : string) (body : json) : Request :=
  post (tpl ["/settings/auth-providers/"; encodeURIComponent id; "/mappings"]) body.
Definition deleteClaimMapping (id : string) (mid : string) : Request :=
  del (tpl ["/settings/auth-providers/"; encodeURIComponent id; "/mappings/"; encodeURIComponent mid]).
Definition listGroups : Request := get_ "/settings/groups".
Definition getGroup (id : string) : Request := get_ (tpl ["/settings/groups/"; encodeURIComponent id]).
Definition createGroup (body : json) : Request := post "/settings/groups" body.
Definition updateGroup (id : string) (body : json) : Request :=
  patch (tpl ["/settings/groups/"; encodeURIComponent id]) body.
Definition deleteGroup (id : string) : Request := del (tpl ["/settings/groups/"; encodeURIComponent id]).
Definition listGroupMembers (groupId : string) : Request :=
  get_ (tpl ["/settings/groups/"; encodeURIComponent groupId; "/members"]).
Definition addGroupMember (groupId : string) (body : json) : Request :=
  post (tpl ["/settings/groups/"; encodeURIComponent groupId; "/members"]) body.
Definition updateGroupMemberRole (groupId : string) (userId : string) (role : string) : Request :=
  patch (tpl ["/settings/groups/"; encodeURIComponent groupId; "/members/"; encodeURIComponent userId])
    (obj [("role", Some (JStr role))]).
Definition removeGroupMember (groupId : string) (userId : string) : Request :=
  del (tpl ["/settings/groups/"; encodeURIComponent groupId; "/members/"; encodeURIComponent userId]).
Definition updateGroupServiceAccountRole (groupId : string) (saId : string) (role : string) : Request :=
  patch (tpl ["/settings/groups/"; encodeURIComponent groupId; "/service-accounts/"; encodeURIComponent saId])
    (obj [("role", Some (JStr role))]).
Definition removeGroupServiceAccount (groupId : string) (saId : string) : Request :=
  del (tpl ["/settings/groups/"; encodeURIComponent groupId; "/service-accounts/"; encodeURIComponent saId]).
Definition listServiceGroups (name : string) : Request :=
  get_ (tpl ["/services/"; encodeURIComponent name; "/groups"]).
Definition putServiceGroups (name : string) (groupIDs : list string) : Request :=
  put (tpl ["/services/"; encodeURIComponent name; "/groups"])
    (obj [("group_ids", Some (JArr (JStr <$> groupIDs)))]).
Definition listGroupPolicies (groupId : string) : Request :=
  get_ (tpl ["/settings/groups/"; encodeURIComponent groupId; "/policies"]).
Definition createGroupPolicy (groupId : string) (body : json) : Request :=
  post (tpl ["/settings/groups/"; encodeURIComponent groupId; "/policies"]) body.
Definition updateGroupPolicy (groupId : string) (policyId : string) (body : json) : Request :=
  put (tpl ["/settings/groups/"; encodeURIComponent groupId; "/policies/"; encodeURIComponent policyId]) body.
Definition deleteGroupPolicy (groupId : string) (policyId : string) : Request :=
  del (tpl ["/settings/groups/"; encodeURIComponent groupId; "/policies/"; encodeURIComponent policyId]).
Definition listIntegrationGroups (id : string) : Request :=
  get_ (tpl ["/integrations/"; encodeURIComponent id; "/groups"]).
Definition setIntegrationGroups (id : string) (groupIDs : list string) : Request :=
  put (tpl ["/integrations/"; encodeURIComponent id; "/groups"])
    (obj [("group_ids", Some (JArr (JStr <$> groupIDs)))]).
Definition listSystemGroups (id : string) : Request := get_ (tpl ["/systems/"; encodeURIComponent id; "/groups"]).
Definition setSystemGroups (id : string) (groupIDs : list string) : Request :=
  put (tpl ["/systems/"; encodeURIComponent id; "/groups"])
    (obj [("group_ids", Some (JArr (JStr <$> groupIDs)))]).
Inductive ShareKind := Share_integrations | Share_systems.
Definition share_kind (k : ShareKind) : string := match k with Share_integrations => "integrations" | Share_systems => "systems" end.
Definition listResourceShares (kind : ShareKind) (id : string) : Request :=
  get_ (tpl ["/"; share_kind kind; "/"; encodeURIComponent id; "/shares"]).
Definition createResourceShare (kind : ShareKind) (id : string) (body : json) : Request :=
  post (tpl ["/"; share_kind kind; "/"; encodeURIComponent id; "/shares"]) body.
Definition deleteResourceShare (kind : ShareKind) (id shareId : string) : Request :=
  del (tpl ["/"; share_kind kind; "/"; encodeURIComponent id; "/shares/"; encodeURIComponent shareId]).
Definition operatorListOrgs : Request := get_ "/operator/orgs".
Definition operatorCreateOrg (body : json) : Request := post "/operator/orgs" body.
Definition operatorUpdateOrg (id : string) (body : json) : Request :=
  patch (tpl ["/operator/orgs/"; encodeURIComponent id]) body.
Definition operatorDeleteOrg (id : string) : Request := del (tpl ["/operator/orgs/"; encodeURIComponent id]).
Definition operatorListOrgMembers (id : string) : Request :=
  get_ (tpl ["/operator/orgs/"; encodeURIComponent id; "/members"]).
Definition operatorAddOrgMember (id : string) (body : json) : Request :=
  post (tpl ["/operator/orgs/"; encodeURIComponent id; "/members"]) body.
Definition operatorUpdateOrgMemberRole (id : string) (userId : string) (role : string) : Request :=
  patch (tpl ["/operator/orgs/"; encodeURIComponent id; "/members/"; encodeURIComponent userId])
    (obj [("role", Some (JStr role))]).
Definition operatorRemoveOrgMember (id : string) (userId : string) : Request :=
  del (tpl ["/operator/orgs/"; encodeURIComponent id; "/members/"; encodeURIComponent userId]).
Definition operatorListUsers (q : option string) (offset limit : option Z) : Request :=
  get_ (tpl ["/operator/users?q="; encodeURIComponent (q ?? ""); "&limit="; show_Z (limit ?? 50%Z); "&offset="; show_Z (offset ?? 0%Z)]).
Definition operatorSetUserDemo (userId : string) (isDemo : bool) : Request :=
  put (tpl ["/operator/users/"; encodeURIComponent userId; "/demo"]) (obj [("is_demo", Some (JBool isDemo))]).
Definition operatorSetUserOperator (userId : string) (isOperator : bool) : Request :=
  put (tpl ["/operator/users/"; encodeURIComponent userId; "/operator"])
    (obj [("is_operator", Some (JBool isOperator))]).

(** ** The requests that change something *)

Inductive Write :=
| W_acceptAdvisorSuggestion (id : string) (note : option string)
| W_dismissAdvisorSuggestion (id : string) (note : option string)
| W_runAdvisor
| W_markAlertInstanceOpened (id : string)
| W_createSystem (body : json)
| W_updateSystem (id : string) (body : json)
| W_deleteSystem (id : string)
| W_attachSystemService (id : string) (serviceName : string)
| W_detachSystemService (id : string) (serviceName : string)
| W_putSystemMetadata (id : string) (values : json)
| W_applySystemTemplateAll (id : string) (channelIds : option (list string))
| W_setServiceSystem (name : string) (isSystem : bool) (systemKind : string)
| W_setBadgePublic (kind : BadgeKind) (id : string) (isPublic : bool)
| W_setMessageColumns (integrationID : string) (columns : json)
| W_applySystemTemplate (name : string) (channelIds : option (list string))
| W_applyTemplate (name : string) (kind : string) (channelIds : option (list string))
| W_removeTemplate (name : string) (kind : option string) (templateId : option string)
| W_applyCustomTemplate (name : string) (templateId : string) (channelIds : option (list string))
| W_createMonitoringTemplate (body : json)
| W_updateMonitoringTemplate (id : string) (body : json)
| W_deleteMonitoringTemplate (id : string)
| W_createSystemType (body : json)
| W_updateSystemType (id : string) (body : json)
| W_deleteSystemType (id : string)
| W_markDigestSeen
| W_putPreference (key : string) (value : json)
| W_setIntegrationSources (id : string) (sources : json)
| W_setDeclaredEnvironments (id : string) (environments : list string)
| W_setTelemetryEnvironment (body : json)
| W_previewIntegrationRules (body : json) (window : option string)
| W_createIntegration (req : json)
| W_updateIntegration (id : string) (body : json)
| W_deleteIntegration (id : string)
| W_cloneIntegration (id : string) (body : json)
| W_addMatcher (id : string) (body : json)
| W_removeMatcher (id : string) (matcherId : string)
| W_replaceMatchers (id : string) (body : json)
| W_removeServiceFromIntegration (id : string) (serviceName : string)
| W_setBranding (body : json)
| W_setIntegrationMessageFilters (id : string) (filters : json)
| W_setCollectorTarget (body : json)
| W_setServiceCollectorTarget (service : string) (body : json)
| W_createServiceFacet (body : json)
| W_updateServiceFacet (slug : string) (body : json)
| W_deleteServiceFacet (slug : string)
| W_updateServiceMetadata (name : string) (body : json)
| W_createMetadataField (body : json)
| W_updateMetadataField (id : string) (body : json)
| W_deleteMetadataField (id : string)
| W_setIntegrationMetadata (id : string) (values : json)
| W_setServiceMetadataExtras (name : string) (values : json)
| W_createSchema (body : json)
| W_updateSchema (id : string) (body : json)
| W_deleteSchema (id : string)
| W_setServiceSchemas (name : string) (body : json)
| W_createMap (body : json)
| W_updateMap (id : string) (body : json)
| W_deleteMap (id : string)
| W_executeMap (id : string) (body : json)
| W_createFacetMapping (name : string) (req : json)
| W_deleteFacetMapping (name : string) (id : string)
| W_updateServiceFacetOverrides (name : string) (req : json)
| W_pushHealthCheckValue (name : string) (id : string) (value : num)
| W_clearServiceErrors (name : string) (comment : option string)
| W_unclearServiceErrors (name : string)
| W_createAlertRule (body : json)
| W_updateAlertRule (id : string) (body : json)
| W_deleteAlertRule (id : string)
| W_previewAlertRule (spec : json) (serviceName : option string) (integrationId : option string) (systemId : option string)
| W_putOrgNotificationTemplates (body : json)
| W_putGroupNotificationTemplate (groupId : string) (body : json)
| W_previewAlertTemplate (kind : string) (content : json) (bodyTemplate : option string)
| W_importConfigBundle (bundle : json) (mode : ImportMode) (dryRun : bool) (matchMembersByEmail : option bool)
| W_dismissAnnouncement (id : string)
| W_createCellAnnouncement (body : json)
| W_deleteCellAnnouncement (id : string)
| W_createMaintenanceWindow (body : json)
| W_updateMaintenanceWindow (id : string) (body : json)
| W_endMaintenanceWindow (id : string)
| W_createMaintenanceSchedule (body : json)
| W_updateMaintenanceSchedule (id : string) (body : json)
| W_deleteMaintenanceSchedule (id : string)
| W_retryAlertDelivery (id : string)
| W_acknowledgeAlertInstance (id : string)
| W_resolveAlertInstance (id : string)
| W_createIngestKey (name : string)
| W_revokeIngestKey (id : string)
| W_createEventSubscription (body : json)
| W_updateEventSubscription (id : string) (body : json)
| W_deleteEventSubscription (id : string)
| W_approveProposal (id : string) (body : option json)
| W_rejectProposal (id : string) (body : option json)
| W_createNotificationProfile (body : json)
| W_updateNotificationProfile (id : string) (body : json)
| W_deleteNotificationProfile (id : string)
| W_setNotificationProfileChannels (id : string) (channelIDs : list string)
| W_assignIntegrationProfile (integrationID : string) (profileID : option string)
| W_createChannel (body : json)
| W_updateChannel (id : string) (body : json)
| W_deleteChannel (id : string)
| W_searchMessages (req : json)
| W_createMessageView (req : json)
| W_updateMessageView (id : string) (req : json)
| W_deleteMessageView (id : string)
| W_createTag (req : json)
| W_updateTag (id : string) (req : json)
| W_deleteTag (id : string)
| W_attachIntegrationTag (id : string) (tagId : string)
| W_detachIntegrationTag (id : string) (tagId : string)
| W_attachServiceTag (name : string) (tagId : string)
| W_detachServiceTag (name : string) (tagId : string)
| W_createDashboard (req : json)
| W_updateDashboard (id : string) (req : json)
| W_deleteDashboard (id : string)
| W_login (body : json)
| W_logout
| W_forgotPassword (email : string)
| W_resetPassword (token : string) (newPassword : string)
| W_mfaSetup
| W_mfaEnable (code : string)
| W_mfaDisable (code : string)
| W_mfaVerify (mfaToken : string) (code : string)
| W_updateSMTP (body : json)
| W_testSMTP (to : option string)
| W_updateSecuritySettings (mfaRequired : bool)
| W_bootstrapAdmin (body : json)
| W_updateMe (body : json)
| W_changePassword (body : json)
| W_updateOrg (id : string) (body : json)
| W_updateRetention (body : json)
| W_updateSystemSettings (body : json)
| W_createTraceCompletionRule (integrationID : string) (body : json)
| W_updateTraceCompletionRule (integrationID : string) (ruleID : string) (body : json)
| W_deleteTraceCompletionRule (integrationID : string) (ruleID : string)
| W_testChannel (id : string)
| W_markCompletionFiringHandled (integrationID : string) (instanceID : string)
| W_addMember (body : json)
| W_updateMemberRole (userId : string) (role : string)
| W_adminResetMemberPassword (userId : string) (newPassword : string) (requireChange : bool)
| W_removeMember (userId : string)
| W_createToken (name : string) (scopeRole : option string) (expiresInDays : option Z)
| W_revokeToken (id : string)
| W_createServiceAccount (body : json)
| W_updateServiceAccount (id : string) (body : json)
| W_deleteServiceAccount (id : string)
| W_createServiceAccountToken (id : string) (name : string) (scopeRole : option string) (expiresInDays : option Z)
| W_revokeServiceAccountToken (id : string) (tid : string)
| W_createAuthProvider (body : json)
| W_updateAuthProvider (id : string) (body : json)
| W_deleteAuthProvider (id : string)
| W_createClaimMapping (id : string) (body : json)
| W_deleteClaimMapping (id : string) (mid : string)
| W_createGroup (body : json)
| W_updateGroup (id : string) (body : json)
| W_deleteGroup (id : string)
| W_addGroupMember (groupId : string) (body : json)
| W_updateGroupMemberRole (groupId : string) (userId : string) (role : string)
| W_removeGroupMember (groupId : string) (userId : string)
| W_updateGroupServiceAccountRole (groupId : string) (saId : string) (role : string)
| W_removeGroupServiceAccount (groupId : string) (saId : string)
| W_putServiceGroups (name : string) (groupIDs : list string)
| W_createGroupPolicy (groupId : string) (body : json)
| W_updateGroupPolicy (groupId : string) (policyId : string) (body : json)
| W_deleteGroupPolicy (groupId : string) (policyId : string)
| W_setIntegrationGroups (id : string) (groupIDs : list string)
| W_setSystemGroups (id : string) (groupIDs : list string)
| W_createResourceShare (kind : ShareKind) (id : string) (body : json)
| W_deleteResourceShare (kind : ShareKind) (id : string) (shareId : string)
| W_operatorCreateOrg (body : json)
| W_operatorUpdateOrg (id : string) (body : json)
| W_operatorDeleteOrg (id : string)
| W_operatorAddOrgMember (id : string) (body : json)
| W_operatorUpdateOrgMemberRole (id : string) (userId : string) (role : string)
| W_operatorRemoveOrgMember (id : string) (userId : string)
| W_operatorSetUserDemo (userId : string) (isDemo : bool)
| W_operatorSetUserOperator (userId : string) (isOperator : bool).

Definition write_request (w : Write) : Request :=
  match w with
  | W_acceptAdvisorSuggestion id note => acceptAdvisorSuggestion id note
  | W_dismissAdvisorSuggestion id note => dismissAdvisorSuggestion id note
  | W_runAdvisor => runAdvisor
  | W_markAlertInstanceOpened id => markAlertInstanceOpened id
  | W_createSystem body => createSystem body
  | W_updateSystem id body => updateSystem id body
  | W_deleteSystem id => deleteSystem id
  | W_attachSystemService id serviceName => attachSystemService id serviceName
  | W_detachSystemService id serviceName => detachSystemService id serviceName
  | W_putSystemMetadata id values => putSystemMetadata id values
  | W_applySystemTemplateAll id channelIds => applySystemTemplateAll id channelIds
  | W_setServiceSystem name isSystem systemKind => setServiceSystem name isSystem systemKind
  | W_setBadgePublic kind id isPublic => setBadgePublic kind id isPublic
  | W_setMessageColumns integrationID columns => setMessageColumns integrationID columns
  | W_applySystemTemplate name channelIds => applySystemTemplate name channelIds
  | W_applyTemplate name kind channelIds => applyTemplate name kind channelIds
  | W_removeTemplate name kind templateId => removeTemplate name kind templateId
  | W_applyCustomTemplate name templateId channelIds => applyCustomTemplate name templateId channelIds
  | W_createMonitoringTemplate body => createMonitoringTemplate body
  | W_updateMonitoringTemplate id body => updateMonitoringTemplate id body
  | W_deleteMonitoringTemplate id => deleteMonitoringTemplate id
  | W_createSystemType body => createSystemType body
  | W_updateSystemType id body => updateSystemType id body
  | W_deleteSystemType id => deleteSystemType id
  | W_markDigestSeen => markDigestSeen
  | W_putPreference key value => putPreference key value
  | W_setIntegrationSources id sources => setIntegrationSources id sources
  | W_setDeclaredEnvironments id environments => setDeclaredEnvironments id environments
  | W_setTelemetryEnvironment body => setTelemetryEnvironment body
  | W_previewIntegrationRules body window => previewIntegrationRules body window
  | W_createIntegration req => createIntegration req
  | W_updateIntegration id body => updateIntegration id body
  | W_deleteIntegration id => deleteIntegration id
  | W_cloneIntegration id body => cloneIntegration id body
  | W_addMatcher id body => addMatcher id body
  | W_removeMatcher id matcherId => removeMatcher id matcherId
  | W_replaceMatchers id body => replaceMatchers id body
  | W_removeServiceFromIntegration id serviceName => removeServiceFromIntegration id serviceName
  | W_setBranding body => setBranding body
  | W_setIntegrationMessageFilters id filters => setIntegrationMessageFilters id filters
  | W_setCollectorTarget body => setCollectorTarget body
  | W_setServiceCollectorTarget service body => setServiceCollectorTarget service body
  | W_createServiceFacet body => createServiceFacet body
  | W_updateServiceFacet slug body => updateServiceFacet slug body
  | W_deleteServiceFacet slug => deleteServiceFacet slug
  | W_updateServiceMetadata name body => updateServiceMetadata name body
  | W_createMetadataField body => createMetadataField body
  | W_updateMetadataField id body => updateMetadataField id body
  | W_deleteMetadataField id => deleteMetadataField id
  | W_setIntegrationMetadata id values => setIntegrationMetadata id values
  | W_setServiceMetadataExtras name values => setServiceMetadataExtras name values
  | W_createSchema body => createSchema body
  | W_updateSchema id body => updateSchema id body
  | W_deleteSchema id => deleteSchema id
  | W_setServiceSchemas name body => setServiceSchemas name body
  | W_createMap body => createMap body
  | W_updateMap id body => updateMap id body
  | W_deleteMap id => deleteMap id
  | W_executeMap id body => executeMap id body
  | W_createFacetMapping name req => createFacetMapping name req
  | W_deleteFacetMapping name id => deleteFacetMapping name id
  | W_updateServiceFacetOverrides name req => updateServiceFacetOverrides name req
  | W_pushHealthCheckValue name id value => pushHealthCheckValue name id value
  | W_clearServiceErrors name comment => clearServiceErrors name comment
  | W_unclearServiceErrors name => unclearServiceErrors name
  | W_createAlertRule body => createAlertRule body
  | W_updateAlertRule id body => updateAlertRule id body
  | W_deleteAlertRule id => deleteAlertRule id
  | W_previewAlertRule spec serviceName integrationId systemId => previewAlertRule spec serviceName integrationId systemId
  | W_putOrgNotificationTemplates body => putOrgNotificationTemplates body
  | W_putGroupNotificationTemplate groupId body => putGroupNotificationTemplate groupId body
  | W_previewAlertTemplate kind content bodyTemplate => previewAlertTemplate kind content bodyTemplate
  | W_importConfigBundle bundle mode dryRun matchMembersByEmail => importConfigBundle bundle mode dryRun matchMembersByEmail
  | W_dismissAnnouncement id => dismissAnnouncement id
  | W_createCellAnnouncement body => createCellAnnouncement body
  | W_deleteCellAnnouncement id => deleteCellAnnouncement id
  | W_createMaintenanceWindow body => createMaintenanceWindow body
  | W_updateMaintenanceWindow id body => updateMaintenanceWindow id body
  | W_endMaintenanceWindow id => endMaintenanceWindow id
  | W_createMaintenanceSchedule body => createMaintenanceSchedule body
  | W_updateMaintenanceSchedule id body => updateMaintenanceSchedule id body
  | W_deleteMaintenanceSchedule id => deleteMaintenanceSchedule id
  | W_retryAlertDelivery id => retryAlertDelivery id
  | W_acknowledgeAlertInstance id => acknowledgeAlertInstance id
  | W_resolveAlertInstance id => resolveAlertInstance id
  | W_createIngestKey name => createIngestKey name
  | W_revokeIngestKey id => revokeIngestKey id
  | W_createEventSubscription body => createEventSubscription body
  | W_updateEventSubscription id body => updateEventSubscription id body
  | W_deleteEventSubscription id => deleteEventSubscription id
  | W_approveProposal id body => approveProposal id body
  | W_rejectProposal id body => rejectProposal id body
  | W_createNotificationProfile body => createNotificationProfile body
  | W_updateNotificationProfile id body => updateNotificationProfile id body
  | W_deleteNotificationProfile id => deleteNotificationProfile id
  | W_setNotificationProfileChannels id channelIDs => setNotificationProfileChannels id channelIDs
  | W_assignIntegrationProfile integrationID profileID => assignIntegrationProfile integrationID profileID
  | W_createChannel body => createChannel body
  | W_updateChannel id body => updateChannel id body
  | W_deleteChannel id => deleteChannel id
  | W_searchMessages req => searchMessages req
  | W_createMessageView req => createMessageView req
  | W_updateMessageView id req => updateMessageView id req
  | W_deleteMessageView id => deleteMessageView id
  | W_createTag req => createTag req
  | W_updateTag id req => updateTag id req
  | W_deleteTag id => deleteTag id
  | W_attachIntegrationTag id tagId => attachIntegrationTag id tagId
  | W_detachIntegrationTag id tagId => detachIntegrationTag id tagId
  | W_attachServiceTag name tagId => attachServiceTag name tagId
  | W_detachServiceTag name tagId => detachServiceTag name tagId
  | W_createDashboard req => createDashboard req
  | W_updateDashboard id req => updateDashboard id req
  | W_deleteDashboard id => deleteDashboard id
  | W_login body => login body
  | W_logout => logout
  | W_forgotPassword email => forgotPassword email
  | W_resetPassword token newPassword => resetPassword token newPassword
  | W_mfaSetup => mfaSetup
  | W_mfaEnable code => mfaEnable code
  | W_mfaDisable code => mfaDisable code
  | W_mfaVerify mfaToken code => mfaVerify mfaToken code
  | W_updateSMTP body => updateSMTP body
  | W_testSMTP to => testSMTP to
  | W_updateSecuritySettings mfaRequired => updateSecuritySettings mfaRequired
  | W_bootstrapAdmin body => bootstrapAdmin body
  | W_updateMe body => updateMe body
  | W_changePassword body => changePassword body
  | W_updateOrg id body => updateOrg id body
  | W_updateRetention body => updateRetention body
  | W_updateSystemSettings body => updateSystemSettings body
  | W_createTraceCompletionRule integrationID body => createTraceCompletionRule integrationID body
  | W_updateTraceCompletionRule integrationID ruleID body => updateTraceCompletionRule integrationID ruleID body
  | W_deleteTraceCompletionRule integrationID ruleID => deleteTraceCompletionRule integrationID ruleID
  | W_testChannel id => testChannel id
  | W_markCompletionFiringHandled integrationID instanceID => markCompletionFiringHandled integrationID instanceID
  | W_addMember body => addMember body
  | W_updateMemberRole userId role => updateMemberRole userId role
  | W_adminResetMemberPassword userId newPassword requireChange => adminResetMemberPassword userId newPassword requireChange
  | W_removeMember userId => removeMember userId
  | W_createToken name scopeRole expiresInDays => createToken name scopeRole expiresInDays
  | W_revokeToken id => revokeToken id
  | W_createServiceAccount body => createServiceAccount body
  | W_updateServiceAccount id body => updateServiceAccount id body
  | W_deleteServiceAccount id => deleteServiceAccount id
  | W_createServiceAccountToken id name scopeRole expiresInDays => createServiceAccountToken id name scopeRole expiresInDays
  | W_revokeServiceAccountToken id tid => revokeServiceAccountToken id tid
  | W_createAuthProvider body => createAuthProvider body
  | W_updateAuthProvider id body => updateAuthProvider id body
  | W_deleteAuthProvider id => deleteAuthProvider id
  | W_createClaimMapping id body => createClaimMapping id body
  | W_deleteClaimMapping id mid => deleteClaimMapping id mid
  | W_createGroup body => createGroup body
  | W_updateGroup id body => updateGroup id body
  | W_deleteGroup id => deleteGroup id
  | W_addGroupMember groupId body => addGroupMember groupId body
  | W_updateGroupMemberRole groupId userId role => updateGroupMemberRole groupId userId role
  | W_removeGroupMember groupId userId => removeGroupMember groupId userId
  | W_updateGroupServiceAccountRole groupId saId role => updateGroupServiceAccountRole groupId saId role
  | W_removeGroupServiceAccount groupId saId => removeGroupServiceAccount groupId saId
  | W_putServiceGroups name groupIDs => putServiceGroups name groupIDs
  | W_createGroupPolicy groupId body => createGroupPolicy groupId body
  | W_updateGroupPolicy groupId policyId body => updateGroupPolicy groupId policyId body
  | W_deleteGroupPolicy groupId policyId => deleteGroupPolicy groupId policyId
  | W_setIntegrationGroups id groupIDs => setIntegrationGroups id groupIDs
  | W_setSystemGroups id groupIDs => setSystemGroups id groupIDs
  | W_createResourceShare kind id body => createResourceShare kind id body
  | W_deleteResourceShare kind id shareId => deleteResourceShare kind id shareId
  | W_operatorCreateOrg body => operatorCreateOrg body
  | W_operatorUpdateOrg id body => operatorUpdateOrg id body
  | W_operatorDeleteOrg id => operatorDeleteOrg id
  | W_operatorAddOrgMember id body => operatorAddOrgMember id body
  | W_operatorUpdateOrgMemberRole id userId role => operatorUpdateOrgMemberRole id userId role
  | W_operatorRemoveOrgMember id userId => operatorRemoveOrgMember id userId
  | W_operatorSetUserDemo userId isDemo => operatorSetUserDemo userId isDemo
  | W_operatorSetUserOperator userId isOperator => operatorSetUserOperator userId isOperator
  end.

(** A path, piece by piece: fixed text, an argument, or the last piece with a
    query. *)
Inductive piece := Lit (s : string) | Arg (a : string) | Query (s : string) (q : list string).

Definition badge_kind (k : BadgeKind) : string :=
  match k with Badge_integration => "integrations" | Badge_system => "systems" | Badge_service => "services" end.

(** The route of a request and its arguments, as the server sees them. *)
Definition write_route (w : Write) : list piece :=
  match w with
  | W_acceptAdvisorSuggestion id _ => [Lit "advisor"; Lit "suggestions"; Arg id; Lit "accept"]
  | W_dismissAdvisorSuggestion id _ => [Lit "advisor"; Lit "suggestions"; Arg id; Lit "dismiss"]
  | W_runAdvisor => [Lit "advisor"; Lit "run"]
  | W_markAlertInstanceOpened id => [Lit "alert-instances"; Arg id; Lit "opened"]
  | W_createSystem _ => [Lit "systems"]
  | W_updateSystem id _ => [Lit "systems"; Arg id]
  | W_deleteSystem id => [Lit "systems"; Arg id]
  | W_attachSystemService id _ => [Lit "systems"; Arg id; Lit "services"]
  | W_detachSystemService id serviceName => [Lit "systems"; Arg id; Lit "services"; Arg serviceName]
  | W_putSystemMetadata id _ => [Lit "systems"; Arg id; Lit "metadata"]
  | W_applySystemTemplateAll id _ => [Lit "systems"; Arg id; Lit "apply-template"]
  | W_setServiceSystem name _ _ => [Lit "services"; Arg name; Lit "system"]
  | W_setBadgePublic kind id _ => [Lit (badge_kind kind); Arg id; Lit "badge"]
  | W_setMessageColumns integrationID _ => [Lit "integrations"; Arg integrationID; Lit "message-columns"]
  | W_applySystemTemplate name _ => [Lit "services"; Arg name; Lit "system"; Lit "apply-template"]
  | W_applyTemplate name _ _ => [Lit "services"; Arg name; Lit "apply-template"]
  | W_removeTemplate name _ _ => [Lit "services"; Arg name; Lit "remove-template"]
  | W_applyCustomTemplate name _ _ => [Lit "services"; Arg name; Lit "apply-template"]
  | W_createMonitoringTemplate _ => [Lit "monitoring-templates"]
  | W_updateMonitoringTemplate id _ => [Lit "monitoring-templates"; Arg id]
  | W_deleteMonitoringTemplate id => [Lit "monitoring-templates"; Arg id]
  | W_createSystemType _ => [Lit "system-types"]
  | W_updateSystemType id _ => [Lit "system-types"; Arg id]
  | W_deleteSystemType id => [Lit "system-types"; Arg id]
  | W_markDigestSeen => [Lit "digest"; Lit "seen"]
  | W_putPreference key _ => [Lit "me"; Lit "preferences"; Arg key]
  | W_setIntegrationSources id _ => [Lit "integrations"; Arg id; Lit "sources"]
  | W_setDeclaredEnvironments id _ => [Lit "integrations"; Arg id; Lit "declared-environments"]
  | W_setTelemetryEnvironment _ => [Lit "cell-settings"; Lit "telemetry-environment"]
  | W_previewIntegrationRules _ window => [Lit "integrations"; Query "preview" ["range="; encodeURIComponent (window ?? "1h")]]
  | W_createIntegration _ => [Lit "integrations"]
  | W_updateIntegration id _ => [Lit "integrations"; Arg id]
  | W_deleteIntegration id => [Lit "integrations"; Arg id]
  | W_cloneIntegration id _ => [Lit "integrations"; Arg id; Lit "clone"]
  | W_addMatcher id _ => [Lit "integrations"; Arg id; Lit "matchers"]
  | W_removeMatcher id matcherId => [Lit "integrations"; Arg id; Lit "matchers"; Arg matcherId]
  | W_replaceMatchers id _ => [Lit "integrations"; Arg id; Lit "matchers"]
  | W_removeServiceFromIntegration id serviceName => [Lit "integrations"; Arg id; Lit "services"; Arg serviceName]
  | W_setBranding _ => [Lit "cell-settings"; Lit "branding"]
  | W_setIntegrationMessageFilters id _ => [Lit "integrations"; Arg id; Lit "message-filters"]
  | W_setCollectorTarget _ => [Lit "collector-target"]
  | W_setServiceCollectorTarget service _ => [Lit "services"; Arg service; Lit "collector-target"]
  | W_createServiceFacet _ => [Lit "service-facets"]
  | W_updateServiceFacet slug _ => [Lit "service-facets"; Arg slug]
  | W_deleteServiceFacet slug => [Lit "service-facets"; Arg slug]
  | W_updateServiceMetadata name _ => [Lit "services"; Arg name; Lit "metadata"]
  | W_createMetadataField _ => [Lit "metadata-fields"]
  | W_updateMetadataField id _ => [Lit "metadata-fields"; Arg id]
  | W_deleteMetadataField id => [Lit "metadata-fields"; Arg id]
  | W_setIntegrationMetadata id _ => [Lit "integrations"; Arg id; Lit "metadata"]
  | W_setServiceMetadataExtras name _ => [Lit "services"; Arg name; Lit "metadata-extras"]
  | W_createSchema _ => [Lit "schemas"]
  | W_updateSchema id _ => [Lit "schemas"; Arg id]
  | W_deleteSchema id => [Lit "schemas"; Arg id]
  | W_setServiceSchemas name _ => [Lit "services"; Arg name; Lit "schemas"]
  | W_createMap _ => [Lit "maps"]
  | W_updateMap id _ => [Lit "maps"; Arg id]
  | W_deleteMap id => [Lit "maps"; Arg id]
  | W_executeMap id _ => [Lit "maps"; Arg id; Lit "execute"]
  | W_createFacetMapping name _ => [Lit "services"; Arg name; Lit "facet-mappings"]
  | W_deleteFacetMapping name id => [Lit "services"; Arg name; Lit "facet-mappings"; Arg id]
  | W_updateServiceFacetOverrides name _ => [Lit "services"; Arg name; Lit "facet-overrides"]
  | W_pushHealthCheckValue name id _ => [Lit "services"; Arg name; Lit "health-checks"; Arg id; Lit "value"]
  | W_clearServiceErrors name _ => [Lit "services"; Arg name; Lit "clear-errors"]
  | W_unclearServiceErrors name => [Lit "services"; Arg name; Lit "clear-errors"]
  | W_createAlertRule _ => [Lit "alert-rules"]
  | W_updateAlertRule id _ => [Lit "alert-rules"; Arg id]
  | W_deleteAlertRule id => [Lit "alert-rules"; Arg id]
  | W_previewAlertRule _ _ _ _ => [Lit "alert-rules"; Lit "preview"]
  | W_putOrgNotificationTemplates _ => [Lit "settings"; Lit "notification-templates"]
  | W_putGroupNotificationTemplate groupId _ => [Lit "settings"; Lit "groups"; Arg groupId; Lit "notification-template"]
  | W_previewAlertTemplate _ _ _ => [Lit "alert-templates"; Lit "preview"]
  | W_importConfigBundle _ mode dryRun matchMembersByEmail => [Lit "settings"; Query "config-import" ["mode="; import_mode mode; "&dry_run="; show_bool dryRun; "&match_members_by_email="; show_bool (matchMembersByEmail ?? false)]]
  | W_dismissAnnouncement id => [Lit "announcements"; Arg id; Lit "dismiss"]
  | W_createCellAnnouncement _ => [Lit "operator"; Lit "announcements"]
  | W_deleteCellAnnouncement id => [Lit "operator"; Lit "announcements"; Arg id]
  | W_createMaintenanceWindow _ => [Lit "maintenance-windows"]
  | W_updateMaintenanceWindow id _ => [Lit "maintenance-windows"; Arg id]
  | W_endMaintenanceWindow id => [Lit "maintenance-windows"; Arg id]
  | W_createMaintenanceSchedule _ => [Lit "maintenance-schedules"]
  | W_updateMaintenanceSchedule id _ => [Lit "maintenance-schedules"; Arg id]
  | W_deleteMaintenanceSchedule id => [Lit "maintenance-schedules"; Arg id]
  | W_retryAlertDelivery id => [Lit "alert-deliveries"; Arg id; Lit "retry"]
  | W_acknowledgeAlertInstance id => [Lit "alert-instances"; Arg id; Lit "acknowledge"]
  | W_resolveAlertInstance id => [Lit "alert-instances"; Arg id; Lit "resolve"]
  | W_createIngestKey _ => [Lit "ingest-keys"]
  | W_revokeIngestKey id => [Lit "ingest-keys"; Arg id]
  | W_createEventSubscription _ => [Lit "event-subscriptions"]
  | W_updateEventSubscription id _ => [Lit "event-subscriptions"; Arg id]
  | W_deleteEventSubscription id => [Lit "event-subscriptions"; Arg id]
  | W_approveProposal id _ => [Lit "proposals"; Arg id; Lit "approve"]
  | W_rejectProposal id _ => [Lit "proposals"; Arg id; Lit "reject"]
  | W_createNotificationProfile _ => [Lit "notification-profiles"]
  | W_updateNotificationProfile id _ => [Lit "notification-profiles"; Arg id]
  | W_deleteNotificationProfile id => [Lit "notification-profiles"; Arg id]
  | W_setNotificationProfileChannels id _ => [Lit "notification-profiles"; Arg id; Lit "channels"]
  | W_assignIntegrationProfile integrationID _ => [Lit "integrations"; Arg integrationID; Lit "notification-profile"]
  | W_createChannel _ => [Lit "notification-channels"]
  | W_updateChannel id _ => [Lit "notification-channels"; Arg id]
  | W_deleteChannel id => [Lit "notification-channels"; Arg id]
  | W_searchMessages _ => [Lit "messages"; Lit "search"]
  | W_createMessageView _ => [Lit "message-views"]
  | W_updateMessageView id _ => [Lit "message-views"; Arg id]
  | W_deleteMessageView id => [Lit "message-views"; Arg id]
  | W_createTag _ => [Lit "tags"]
  | W_updateTag id _ => [Lit "tags"; Arg id]
  | W_deleteTag id => [Lit "tags"; Arg id]
  | W_attachIntegrationTag id tagId => [Lit "integrations"; Arg id; Lit "tags"; Arg tagId]
  | W_detachIntegrationTag id tagId => [Lit "integrations"; Arg id; Lit "tags"; Arg tagId]
  | W_attachServiceTag name tagId => [Lit "services"; Arg name; Lit "tags"; Arg tagId]
  | W_detachServiceTag name tagId => [Lit "services"; Arg name; Lit "tags"; Arg tagId]
  | W_createDashboard _ => [Lit "dashboards"]
  | W_updateDashboard id _ => [Lit "dashboards"; Arg id]
  | W_deleteDashboard id => [Lit "dashboards"; Arg id]
  | W_login _ => [Lit "auth"; Lit "login"]
  | W_logout => [Lit "auth"; Lit "logout"]
  | W_forgotPassword _ => [Lit "auth"; Lit "forgot-password"]
  | W_resetPassword _ _ => [Lit "auth"; Lit "reset-password"]
  | W_mfaSetup => [Lit "account"; Lit "mfa"; Lit "setup"]
  | W_mfaEnable _ => [Lit "account"; Lit "mfa"; Lit "enable"]
  | W_mfaDisable _ => [Lit "account"; Lit "mfa"; Lit "disable"]
  | W_mfaVerify _ _ => [Lit "auth"; Lit "mfa-verify"]
  | W_updateSMTP _ => [Lit "cell-settings"; Lit "smtp"]
  | W_testSMTP _ => [Lit "cell-settings"; Lit "smtp"; Lit "test"]
  | W_updateSecuritySettings _ => [Lit "cell-settings"; Lit "security"]
  | W_bootstrapAdmin _ => [Lit "auth"; Lit "bootstrap-admin"]
  | W_updateMe _ => [Lit "me"]
  | W_changePassword _ => [Lit "me"; Lit "password"]
  | W_updateOrg id _ => [Lit "orgs"; Arg id]
  | W_updateRetention _ => [Lit "cell-settings"; Lit "retention"]
  | W_updateSystemSettings _ => [Lit "cell-settings"; Lit "system"]
  | W_createTraceCompletionRule integrationID _ => [Lit "integrations"; Arg integrationID; Lit "completion-rules"]
  | W_updateTraceCompletionRule integrationID ruleID _ => [Lit "integrations"; Arg integrationID; Lit "completion-rules"; Arg ruleID]
  | W_deleteTraceCompletionRule integrationID ruleID => [Lit "integrations"; Arg integrationID; Lit "completion-rules"; Arg ruleID]
  | W_testChannel id => [Lit "notification-channels"; Arg id; Lit "test"]
  | W_markCompletionFiringHandled integrationID instanceID => [Lit "integrations"; Arg integrationID; Lit "completion-firings"; Arg instanceID; Lit "handle"]
  | W_addMember _ => [Lit "settings"; Lit "members"]
  | W_updateMemberRole userId _ => [Lit "settings"; Lit "members"; Arg userId]
  | W_adminResetMemberPassword userId _ _ => [Lit "settings"; Lit "members"; Arg userId; Lit "password"]
  | W_removeMember userId => [Lit "settings"; Lit "members"; Arg userId]
  | W_createToken _ _ _ => [Lit "settings"; Lit "tokens"]
  | W_revokeToken id => [Lit "settings"; Lit "tokens"; Arg id]
  | W_createServiceAccount _ => [Lit "settings"; Lit "service-accounts"]
  | W_updateServiceAccount id _ => [Lit "settings"; Lit "service-accounts"; Arg id]
  | W_deleteServiceAccount id => [Lit "settings"; Lit "service-accounts"; Arg id]
  | W_createServiceAccountToken id _ _ _ => [Lit "settings"; Lit "service-accounts"; Arg id; Lit "tokens"]
  | W_revokeServiceAccountToken id tid => [Lit "settings"; Lit "service-accounts"; Arg id; Lit "tokens"; Arg tid]
  | W_createAuthProvider _ => [Lit "settings"; Lit "auth-providers"]
  | W_updateAuthProvider id _ => [Lit "settings"; Lit "auth-providers"; Arg id]
  | W_deleteAuthProvider id => [Lit "settings"; Lit "auth-providers"; Arg id]
  | W_createClaimMapping id _ => [Lit "settings"; Lit "auth-providers"; Arg id; Lit "mappings"]
  | W_deleteClaimMapping id mid => [Lit "settings"; Lit "auth-providers"; Arg id; Lit "mappings"; Arg mid]
  | W_createGroup _ => [Lit "settings"; Lit "groups"]
  | W_updateGroup id _ => [Lit "settings"; Lit "groups"; Arg id]
  | W_deleteGroup id => [Lit "settings"; Lit "groups"; Arg id]
  | W_addGroupMember groupId _ => [Lit "settings"; Lit "groups"; Arg groupId; Lit "members"]
  | W_updateGroupMemberRole groupId userId _ => [Lit "settings"; Lit "groups"; Arg groupId; Lit "members"; Arg userId]
  | W_removeGroupMember groupId userId => [Lit "settings"; Lit "groups"; Arg groupId; Lit "members"; Arg userId]
  | W_updateGroupServiceAccountRole groupId saId _ => [Lit "settings"; Lit "groups"; Arg groupId; Lit "service-accounts"; Arg saId]
  | W_removeGroupServiceAccount groupId saId => [Lit "settings"; Lit "groups"; Arg groupId; Lit "service-accounts"; Arg saId]
  | W_putServiceGroups name _ => [Lit "services"; Arg name; Lit "groups"]
  | W_createGroupPolicy groupId _ => [Lit "settings"; Lit "groups"; Arg groupId; Lit "policies"]
  | W_updateGroupPolicy groupId policyId _ => [Lit "settings"; Lit "groups"; Arg groupId; Lit "policies"; Arg policyId]
  | W_deleteGroupPolicy groupId policyId => [Lit "settings"; Lit "groups"; Arg groupId; Lit "policies"; Arg policyId]
  | W_setIntegrationGroups id _ => [Lit "integrations"; Arg id; Lit "groups"]
  | W_setSystemGroups id _ => [Lit "systems"; Arg id; Lit "groups"]
  | W_createResourceShare kind id _ => [Lit (share_kind kind); Arg id; Lit "shares"]
  | W_deleteResourceShare kind id shareId => [Lit (share_kind kind); Arg id; Lit "shares"; Arg shareId]
  | W_operatorCreateOrg _ => [Lit "operator"; Lit "orgs"]
  | W_operatorUpdateOrg id _ => [Lit "operator"; Lit "orgs"; Arg id]
  | W_operatorDeleteOrg id => [Lit "operator"; Lit "orgs"; Arg id]
  | W_operatorAddOrgMember id _ => [Lit "operator"; Lit "orgs"; Arg id; Lit "members"]
  | W_operatorUpdateOrgMemberRole id userId _ => [Lit "operator"; Lit "orgs"; Arg id; Lit "members"; Arg userId]
  | W_operatorRemoveOrgMember id userId => [Lit "operator"; Lit "orgs"; Arg id; Lit "members"; Arg userId]
  | W_operatorSetUserDemo userId _ => [Lit "operator"; Lit "users"; Arg userId; Lit "demo"]
  | W_operatorSetUserOperator userId _ => [Lit "operator"; Lit "users"; Arg userId; Lit "operator"]
  end.

Inductive shape := SLit (s : string) | SArg | SQuery (s : string).

(** The routes the requests use, each with its method. *)
Definition routes : list (string * list shape) := [
  ("POST", [SLit "advisor"; SLit "suggestions"; SArg; SLit "accept"]);
  ("POST", [SLit "advisor"; SLit "suggestions"; SArg; SLit "dismiss"]);
  ("POST", [SLit "advisor"; SLit "run"]);
  ("POST", [SLit "alert-instances"; SArg; SLit "opened"]);
  ("POST", [SLit "systems"]);
  ("PUT", [SLit "systems"; SArg]);
  ("DELETE", [SLit "systems"; SArg]);
  ("POST", [SLit "systems"; SArg; SLit "services"]);
  ("DELETE", [SLit "systems"; SArg; SLit "services"; SArg]);
  ("PUT", [SLit "systems"; SArg; SLit "metadata"]);
  ("POST", [SLit "systems"; SArg; SLit "apply-template"]);
  ("PUT", [SLit "services"; SArg; SLit "system"]);
  ("PUT", [SLit "integrations"; SArg; SLit "badge"]);
  ("PUT", [SLit "systems"; SArg; SLit "badge"]);
  ("PUT", [SLit "services"; SArg; SLit "badge"]);
  ("PUT", [SLit "integrations"; SArg; SLit "message-columns"]);
  ("POST", [SLit "services"; SArg; SLit "system"; SLit "apply-template"]);
  ("POST", [SLit "services"; SArg; SLit "apply-template"]);
  ("POST", [SLit "services"; SArg; SLit "remove-template"]);
  ("POST", [SLit "monitoring-templates"]);
  ("PUT", [SLit "monitoring-templates"; SArg]);
  ("DELETE", [SLit "monitoring-templates"; SArg]);
  ("POST", [SLit "system-types"]);
  ("PUT", [SLit "system-types"; SArg]);
  ("DELETE", [SLit "system-types"; SArg]);
  ("POST", [SLit "digest"; SLit "seen"]);
  ("PUT", [SLit "me"; SLit "preferences"; SArg]);
  ("PUT", [SLit "integrations"; SArg; SLit "sources"]);
  ("PUT", [SLit "integrations"; SArg; SLit "declared-environments"]);
  ("PUT", [SLit "cell-settings"; SLit "telemetry-environment"]);
  ("POST", [SLit "integrations"; SQuery "preview"]);
  ("POST", [SLit "integrations"]);
  ("PUT", [SLit "integrations"; SArg]);
  ("DELETE", [SLit "integrations"; SArg]);
  ("POST", [SLit "integrations"; SArg; SLit "clone"]);
  ("POST", [SLit "integrations"; SArg; SLit "matchers"]);
  ("DELETE", [SLit "integrations"; SArg; SLit "matchers"; SArg]);
  ("PUT", [SLit "integrations"; SArg; SLit "matchers"]);
  ("DELETE", [SLit "integrations"; SArg; SLit "services"; SArg]);
  ("PUT", [SLit "cell-settings"; SLit "branding"]);
  ("PUT", [SLit "integrations"; SArg; SLit "message-filters"]);
  ("PATCH", [SLit "collector-target"]);
  ("PATCH", [SLit "services"; SArg; SLit "collector-target"]);
  ("POST", [SLit "service-facets"]);
  ("PUT", [SLit "service-facets"; SArg]);
  ("DELETE", [SLit "service-facets"; SArg]);
  ("PUT", [SLit "services"; SArg; SLit "metadata"]);
  ("POST", [SLit "metadata-fields"]);
  ("PATCH", [SLit "metadata-fields"; SArg]);
  ("DELETE", [SLit "metadata-fields"; SArg]);
  ("PUT", [SLit "integrations"; SArg; SLit "metadata"]);
  ("PUT", [SLit "services"; SArg; SLit "metadata-extras"]);
  ("POST", [SLit "schemas"]);
  ("PATCH", [SLit "schemas"; SArg]);
  ("DELETE", [SLit "schemas"; SArg]);
  ("PUT", [SLit "services"; SArg; SLit "schemas"]);
  ("POST", [SLit "maps"]);
  ("PATCH", [SLit "maps"; SArg]);
  ("DELETE", [SLit "maps"; SArg]);
  ("POST", [SLit "maps"; SArg; SLit "execute"]);
  ("POST", [SLit "services"; SArg; SLit "facet-mappings"]);
  ("DELETE", [SLit "services"; SArg; SLit "facet-mappings"; SArg]);
  ("PUT", [SLit "services"; SArg; SLit "facet-overrides"]);
  ("POST", [SLit "services"; SArg; SLit "health-checks"; SArg; SLit "value"]);
  ("POST", [SLit "services"; SArg; SLit "clear-errors"]);
  ("DELETE", [SLit "services"; SArg; SLit "clear-errors"]);
  ("POST", [SLit "alert-rules"]);
  ("PUT", [SLit "alert-rules"; SArg]);
  ("DELETE", [SLit "alert-rules"; SArg]);
  ("POST", [SLit "alert-rules"; SLit "preview"]);
  ("PUT", [SLit "settings"; SLit "notification-templates"]);
  ("PUT", [SLit "settings"; SLit "groups"; SArg; SLit "notification-template"]);
  ("POST", [SLit "alert-templates"; SLit "preview"]);
  ("POST", [SLit "settings"; SQuery "config-import"]);
  ("POST", [SLit "announcements"; SArg; SLit "dismiss"]);
  ("POST", [SLit "operator"; SLit "announcements"]);
  ("DELETE", [SLit "operator"; SLit "announcements"; SArg]);
  ("POST", [SLit "maintenance-windows"]);
  ("PATCH", [SLit "maintenance-windows"; SArg]);
  ("DELETE", [SLit "maintenance-windows"; SArg]);
  ("POST", [SLit "maintenance-schedules"]);
  ("PATCH", [SLit "maintenance-schedules"; SArg]);
  ("DELETE", [SLit "maintenance-schedules"; SArg]);
  ("POST", [SLit "alert-deliveries"; SArg; SLit "retry"]);
  ("POST", [SLit "alert-instances"; SArg; SLit "acknowledge"]);
  ("POST", [SLit "alert-instances"; SArg; SLit "resolve"]);
  ("POST", [SLit "ingest-keys"]);
  ("DELETE", [SLit "ingest-keys"; SArg]);
  ("POST", [SLit "event-subscriptions"]);
  ("PUT", [SLit "event-subscriptions"; SArg]);
  ("DELETE", [SLit "event-subscriptions"; SArg]);
  ("POST", [SLit "proposals"; SArg; SLit "approve"]);
  ("POST", [SLit "proposals"; SArg; SLit "reject"]);
  ("POST", [SLit "notification-profiles"]);
  ("PUT", [SLit "notification-profiles"; SArg]);
  ("DELETE", [SLit "notification-profiles"; SArg]);
  ("PUT", [SLit "notification-profiles"; SArg; SLit "channels"]);
  ("PUT", [SLit "integrations"; SArg; SLit "notification-profile"]);
  ("POST", [SLit "notification-channels"]);
  ("PUT", [SLit "notification-channels"; SArg]);
  ("DELETE", [SLit "notification-channels"; SArg]);
  ("POST", [SLit "messages"; SLit "search"]);
  ("POST", [SLit "message-views"]);
  ("PUT", [SLit "message-views"; SArg]);
  ("DELETE", [SLit "message-views"; SArg]);
  ("POST", [SLit "tags"]);
  ("PATCH", [SLit "tags"; SArg]);
  ("DELETE", [SLit "tags"; SArg]);
  ("POST", [SLit "integrations"; SArg; SLit "tags"; SArg]);
  ("DELETE", [SLit "integrations"; SArg; SLit "tags"; SArg]);
  ("POST", [SLit "services"; SArg; SLit "tags"; SArg]);
  ("DELETE", [SLit "services"; SArg; SLit "tags"; SArg]);
  ("POST", [SLit "dashboards"]);
  ("PUT", [SLit "dashboards"; SArg]);
  ("DELETE", [SLit "dashboards"; SArg]);
  ("POST", [SLit "auth"; SLit "login"]);
  ("POST", [SLit "auth"; SLit "logout"]);
  ("POST", [SLit "auth"; SLit "forgot-password"]);
  ("POST", [SLit "auth"; SLit "reset-password"]);
  ("POST", [SLit "account"; SLit "mfa"; SLit "setup"]);
  ("POST", [SLit "account"; SLit "mfa"; SLit "enable"]);
  ("POST", [SLit "account"; SLit "mfa"; SLit "disable"]);
  ("POST", [SLit "auth"; SLit "mfa-verify"]);
  ("PATCH", [SLit "cell-settings"; SLit "smtp"]);
  ("POST", [SLit "cell-settings"; SLit "smtp"; SLit "test"]);
  ("PATCH", [SLit "cell-settings"; SLit "security"]);
  ("POST", [SLit "auth"; SLit "bootstrap-admin"]);
  ("PATCH", [SLit "me"]);
  ("POST", [SLit "me"; SLit "password"]);
  ("PATCH", [SLit "orgs"; SArg]);
  ("PATCH", [SLit "cell-settings"; SLit "retention"]);
  ("PATCH", [SLit "cell-settings"; SLit "system"]);
  ("POST", [SLit "integrations"; SArg; SLit "completion-rules"]);
  ("PATCH", [SLit "integrations"; SArg; SLit "completion-rules"; SArg]);
  ("DELETE", [SLit "integrations"; SArg; SLit "completion-rules"; SArg]);
  ("POST", [SLit "notification-channels"; SArg; SLit "test"]);
  ("POST", [SLit "integrations"; SArg; SLit "completion-firings"; SArg; SLit "handle"]);
  ("POST", [SLit "settings"; SLit "members"]);
  ("PATCH", [SLit "settings"; SLit "members"; SArg]);
  ("POST", [SLit "settings"; SLit "members"; SArg; SLit "password"]);
  ("DELETE", [SLit "settings"; SLit "members"; SArg]);
  ("POST", [SLit "settings"; SLit "tokens"]);
  ("DELETE", [SLit "settings"; SLit "tokens"; SArg]);
  ("POST", [SLit "settings"; SLit "service-accounts"]);
  ("PUT", [SLit "settings"; SLit "service-accounts"; SArg]);
  ("DELETE", [SLit "settings"; SLit "service-accounts"; SArg]);
  ("POST", [SLit "settings"; SLit "service-accounts"; SArg; SLit "tokens"]);
  ("DELETE", [SLit "settings"; SLit "service-accounts"; SArg; SLit "tokens"; SArg]);
  ("POST", [SLit "settings"; SLit "auth-providers"]);
  ("PUT", [SLit "settings"; SLit "auth-providers"; SArg]);
  ("DELETE", [SLit "settings"; SLit "auth-providers"; SArg]);
  ("POST", [SLit "settings"; SLit "auth-providers"; SArg; SLit "mappings"]);
  ("DELETE", [SLit "settings"; SLit "auth-providers"; SArg; SLit "mappings"; SArg]);
  ("POST", [SLit "settings"; SLit "groups"]);
  ("PATCH", [SLit "settings"; SLit "groups"; SArg]);
  ("DELETE", [SLit "settings"; SLit "groups"; SArg]);
  ("POST", [SLit "settings"; SLit "groups"; SArg; SLit "members"]);
  ("PATCH", [SLit "settings"; SLit "groups"; SArg; SLit "members"; SArg]);
  ("DELETE", [SLit "settings"; SLit "groups"; SArg; SLit "members"; SArg]);
  ("PATCH", [SLit "settings"; SLit "groups"; SArg; SLit "service-accounts"; SArg]);
  ("DELETE", [SLit "settings"; SLit "groups"; SArg; SLit "service-accounts"; SArg]);
  ("PUT", [SLit "services"; SArg; SLit "groups"]);
  ("POST", [SLit "settings"; SLit "groups"; SArg; SLit "policies"]);
  ("PUT", [SLit "settings"; SLit "groups"; SArg; SLit "policies"; SArg]);
  ("DELETE", [SLit "settings"; SLit "groups"; SArg; SLit "policies"; SArg]);
  ("PUT", [SLit "integrations"; SArg; SLit "groups"]);
  ("PUT", [SLit "systems"; SArg; SLit "groups"]);
  ("POST", [SLit "integrations"; SArg; SLit "shares"]);
  ("POST", [SLit "systems"; SArg; SLit "shares"]);
  ("DELETE", [SLit "integrations"; SArg; SLit "shares"; SArg]);
  ("DELETE", [SLit "systems"; SArg; SLit "shares"; SArg]);
  ("POST", [SLit "operator"; SLit "orgs"]);
  ("PATCH", [SLit "operator"; SLit "orgs"; SArg]);
  ("DELETE", [SLit "operator"; SLit "orgs"; SArg]);
  ("POST", [SLit "operator"; SLit "orgs"; SArg; SLit "members"]);
  ("PATCH", [SLit "operator"; SLit "orgs"; SArg; SLit "members"; SArg]);
  ("DELETE", [SLit "operator"; SLit "orgs"; SArg; SLit "members"; SArg]);
  ("PUT", [SLit "operator"; SLit "users"; SArg; SLit "demo"]);
  ("PUT", [SLit "operator"; SLit "users"; SArg; SLit "operator"])
].

(** The place of a request in [routes]. *)
Definition write_kind (w : Write) : nat :=
  match w with
  | W_acceptAdvisorSuggestion _ _ => 0
  | W_dismissAdvisorSuggestion _ _ => 1
  | W_runAdvisor => 2
  | W_markAlertInstanceOpened _ => 3
  | W_createSystem _ => 4
  | W_updateSystem _ _ => 5
  | W_deleteSystem _ => 6
  | W_attachSystemService _ _ => 7
  | W_detachSystemService _ _ => 8
  | W_putSystemMetadata _ _ => 9
  | W_applySystemTemplateAll _ _ => 10
  | W_setServiceSystem _ _ _ => 11
  | W_setBadgePublic kind _ _ => match kind with Badge_integration => 12 | Badge_system => 13 | Badge_service => 14 end
  | W_setMessageColumns _ _ => 15
  | W_applySystemTemplate _ _ => 16
  | W_applyTemplate _ _ _ => 17
  | W_removeTemplate _ _ _ => 18
  | W_applyCustomTemplate _ _ _ => 17
  | W_createMonitoringTemplate _ => 19
  | W_updateMonitoringTemplate _ _ => 20
  | W_deleteMonitoringTemplate _ => 21
  | W_createSystemType _ => 22
  | W_updateSystemType _ _ => 23
  | W_deleteSystemType _ => 24
  | W_markDigestSeen => 25
  | W_putPreference _ _ => 26
  | W_setIntegrationSources _ _ => 27
  | W_setDeclaredEnvironments _ _ => 28
  | W_setTelemetryEnvironment _ => 29
  | W_previewIntegrationRules _ _ => 30
  | W_createIntegration _ => 31
  | W_updateIntegration _ _ => 32
  | W_deleteIntegration _ => 33
  | W_cloneIntegration _ _ => 34
  | W_addMatcher _ _ => 35
  | W_removeMatcher _ _ => 36
  | W_replaceMatchers _ _ => 37
  | W_removeServiceFromIntegration _ _ => 38
  | W_setBranding _ => 39
  | W_setIntegrationMessageFilters _ _ => 40
  | W_setCollectorTarget _ => 41
  | W_setServiceCollectorTarget _ _ => 42
  | W_createServiceFacet _ => 43
  | W_updateServiceFacet _ _ => 44
  | W_deleteServiceFacet _ => 45
  | W_updateServiceMetadata _ _ => 46
  | W_createMetadataField _ => 47
  | W_updateMetadataField _ _ => 48
  | W_deleteMetadataField _ => 49
  | W_setIntegrationMetadata _ _ => 50
  | W_setServiceMetadataExtras _ _ => 51
  | W_createSchema _ => 52
  | W_updateSchema _ _ => 53
  | W_deleteSchema _ => 54
  | W_setServiceSchemas _ _ => 55
  | W_createMap _ => 56
  | W_updateMap _ _ => 57
  | W_deleteMap _ => 58
  | W_executeMap _ _ => 59
  | W_createFacetMapping _ _ => 60
  | W_deleteFacetMapping _ _ => 61
  | W_updateServiceFacetOverrides _ _ => 62
  | W_pushHealthCheckValue _ _ _ => 63
  | W_clearServiceErrors _ _ => 64
  | W_unclearServiceErrors _ => 65
  | W_createAlertRule _ => 66
  | W_updateAlertRule _ _ => 67
  | W_deleteAlertRule _ => 68
  | W_previewAlertRule _ _ _ _ => 69
  | W_putOrgNotificationTemplates _ => 70
  | W_putGroupNotificationTemplate _ _ => 71
  | W_previewAlertTemplate _ _ _ => 72
  | W_importConfigBundle _ _ _ _ => 73
  | W_dismissAnnouncement _ => 74
  | W_createCellAnnouncement _ => 75
  | W_deleteCellAnnouncement _ => 76
  | W_createMaintenanceWindow _ => 77
  | W_updateMaintenanceWindow _ _ => 78
  | W_endMaintenanceWindow _ => 79
  | W_createMaintenanceSchedule _ => 80
  | W_updateMaintenanceSchedule _ _ => 81
  | W_deleteMaintenanceSchedule _ => 82
  | W_retryAlertDelivery _ => 83
  | W_acknowledgeAlertInstance _ => 84
  | W_resolveAlertInstance _ => 85
  | W_createIngestKey _ => 86
  | W_revokeIngestKey _ => 87
  | W_createEventSubscription _ => 88
  | W_updateEventSubscription _ _ => 89
  | W_deleteEventSubscription _ => 90
  | W_approveProposal _ _ => 91
  | W_rejectProposal _ _ => 92
  | W_createNotificationProfile _ => 93
  | W_updateNotificationProfile _ _ => 94
  | W_deleteNotificationProfile _ => 95
  | W_setNotificationProfileChannels _ _ => 96
  | W_assignIntegrationProfile _ _ => 97
  | W_createChannel _ => 98
  | W_updateChannel _ _ => 99
  | W_deleteChannel _ => 100
  | W_searchMessages _ => 101
  | W_createMessageView _ => 102
  | W_updateMessageView _ _ => 103
  | W_deleteMessageView _ => 104
  | W_createTag _ => 105
  | W_updateTag _ _ => 106
  | W_deleteTag _ => 107
  | W_attachIntegrationTag _ _ => 108
  | W_detachIntegrationTag _ _ => 109
  | W_attachServiceTag _ _ => 110
  | W_detachServiceTag _ _ => 111
  | W_createDashboard _ => 112
  | W_updateDashboard _ _ => 113
  | W_deleteDashboard _ => 114
  | W_login _ => 115
  | W_logout => 116
  | W_forgotPassword _ => 117
  | W_resetPassword _ _ => 118
  | W_mfaSetup => 119
  | W_mfaEnable _ => 120
  | W_mfaDisable _ => 121
  | W_mfaVerify _ _ => 122
  | W_updateSMTP _ => 123
  | W_testSMTP _ => 124
  | W_updateSecuritySettings _ => 125
  | W_bootstrapAdmin _ => 126
  | W_updateMe _ => 127
  | W_changePassword _ => 128
  | W_updateOrg _ _ => 129
  | W_updateRetention _ => 130
  | W_updateSystemSettings _ => 131
  | W_createTraceCompletionRule _ _ => 132
  | W_updateTraceCompletionRule _ _ _ => 133
  | W_deleteTraceCompletionRule _ _ => 134
  | W_testChannel _ => 135
  | W_markCompletionFiringHandled _ _ => 136
  | W_addMember _ => 137
  | W_updateMemberRole _ _ => 138
  | W_adminResetMemberPassword _ _ _ => 139
  | W_removeMember _ => 140
  | W_createToken _ _ _ => 141
  | W_revokeToken _ => 142
  | W_createServiceAccount _ => 143
  | W_updateServiceAccount _ _ => 144
  | W_deleteServiceAccount _ => 145
  | W_createServiceAccountToken _ _ _ _ => 146
  | W_revokeServiceAccountToken _ _ => 147
  | W_createAuthProvider _ => 148
  | W_updateAuthProvider _ _ => 149
  | W_deleteAuthProvider _ => 150
  | W_createClaimMapping _ _ => 151
  | W_deleteClaimMapping _ _ => 152
  | W_createGroup _ => 153
  | W_updateGroup _ _ => 154
  | W_deleteGroup _ => 155
  | W_addGroupMember _ _ => 156
  | W_updateGroupMemberRole _ _ _ => 157
  | W_removeGroupMember _ _ => 158
  | W_updateGroupServiceAccountRole _ _ _ => 159
  | W_removeGroupServiceAccount _ _ => 160
  | W_putServiceGroups _ _ => 161
  | W_createGroupPolicy _ _ => 162
  | W_updateGroupPolicy _ _ _ => 163
  | W_deleteGroupPolicy _ _ => 164
  | W_setIntegrationGroups _ _ => 165
  | W_setSystemGroups _ _ => 166
  | W_createResourceShare kind _ _ => match kind with Share_integrations => 167 | Share_systems => 168 end
  | W_deleteResourceShare kind _ _ => match kind with Share_integrations => 169 | Share_systems => 170 end
  | W_operatorCreateOrg _ => 171
  | W_operatorUpdateOrg _ _ => 172
  | W_operatorDeleteOrg _ => 173
  | W_operatorAddOrgMember _ _ => 174
  | W_operatorUpdateOrgMemberRole _ _ _ => 175
  | W_operatorRemoveOrgMember _ _ => 176
  | W_operatorSetUserDemo _ _ => 177
  | W_operatorSetUserOperator _ _ => 178
  end.

(** The deletion of a route with its arguments. *)
Definition deletion (kind : nat) (args : list string) : option Write :=
  match kind, args with
  | 6, [id] => Some (W_deleteSystem id)
  | 8, [id; serviceName] => Some (W_detachSystemService id serviceName)
  | 21, [id] => Some (W_deleteMonitoringTemplate id)
  | 24, [id] => Some (W_deleteSystemType id)
  | 33, [id] => Some (W_deleteIntegration id)
  | 36, [id; matcherId] => Some (W_removeMatcher id matcherId)
  | 38, [id; serviceName] => Some (W_removeServiceFromIntegration id serviceName)
  | 45, [slug] => Some (W_deleteServiceFacet slug)
  | 49, [id] => Some (W_deleteMetadataField id)
  | 54, [id] => Some (W_deleteSchema id)
  | 58, [id] => Some (W_deleteMap id)
  | 61, [name; id] => Some (W_deleteFacetMapping name id)
  | 65, [name] => Some (W_unclearServiceErrors name)
  | 68, [id] => Some (W_deleteAlertRule id)
  | 76, [id] => Some (W_deleteCellAnnouncement id)
  | 79, [id] => Some (W_endMaintenanceWindow id)
  | 82, [id] => Some (W_deleteMaintenanceSchedule id)
  | 87, [id] => Some (W_revokeIngestKey id)
  | 90, [id] => Some (W_deleteEventSubscription id)
  | 95, [id] => Some (W_deleteNotificationProfile id)
  | 100, [id] => Some (W_deleteChannel id)
  | 104, [id] => Some (W_deleteMessageView id)
  | 107, [id] => Some (W_deleteTag id)
  | 109, [id; tagId] => Some (W_detachIntegrationTag id tagId)
  | 111, [name; tagId] => Some (W_detachServiceTag name tagId)
  | 114, [id] => Some (W_deleteDashboard id)
  | 134, [integrationID; ruleID] => Some (W_deleteTraceCompletionRule integrationID ruleID)
  | 140, [userId] => Some (W_removeMember userId)
  | 142, [id] => Some (W_revokeToken id)
  | 145, [id] => Some (W_deleteServiceAccount id)
  | 147, [id; tid] => Some (W_revokeServiceAccountToken id tid)
  | 150, [id] => Some (W_deleteAuthProvider id)
  | 152, [id; mid] => Some (W_deleteClaimMapping id mid)
  | 155, [id] => Some (W_deleteGroup id)
  | 158, [groupId; userId] => Some (W_removeGroupMember groupId userId)
  | 160, [groupId; saId] => Some (W_removeGroupServiceAccount groupId saId)
  | 164, [groupId; policyId] => Some (W_deleteGroupPolicy groupId policyId)
  | 169, [id; shareId] => Some (W_deleteResourceShare Share_integrations id shareId)
  | 170, [id; shareId] => Some (W_deleteResourceShare Share_systems id shareId)
  | 173, [id] => Some (W_operatorDeleteOrg id)
  | 176, [id; userId] => Some (W_operatorRemoveOrgMember id userId)
  | _, _ => None
  end.

(** ** Routes *)

Definition piece_strs (p : piece) : list string :=
  match p with Lit s => [s] | Arg a => [encodeURIComponent a] | Query s q => s :: "?" :: q end.
Definition piece_str (p : piece) : string := tpl (piece_strs p).
Definition route_path (r : list piece) : string := tpl (concat ((fun p => "/" :: piece_strs p) <$> r)).
Definition piece_shape (p : piece) : shape := match p with Lit s => SLit s | Arg _ => SArg | Query s _ => SQuery s end.
Definition piece_arg (p : piece) : list string := match p with Arg a => [a] | _ => [] end.
Definition write_args (w : Write) : list string := concat (piece_arg <$> write_route w).

Lemma write_route_path w : rq_path (write_request w) = route_path (write_route w).
Proof. destruct w; try destruct kind; reflexivity. Qed.

Lemma write_shape w : routes !! write_kind w = Some (rq_method (write_request w), piece_shape <$> write_route w).
Proof. destruct w; try destruct kind; reflexivity. Qed.

Lemma write_deletion w : rq_method (write_request w) = "DELETE" -> deletion (write_kind w) (write_args w) = Some w.
Proof. destruct w; try destruct kind; cbn [rq_method]; (discriminate || reflexivity). Qed.

(** Pieces that stay within their segment of the path. *)
Definition plain_piece (p : piece) : Prop :=
  match p with
  | Lit s => no_char "/" s = true /\ no_char "?" s = true /\ no_char "." s = true
  | Arg _ => True
  | Query s q => no_char "/" s = true /\ no_char "?" s = true /\ no_char "." s = true /\ no_char "/" (tpl q) = true
  end.

Lemma write_plain w : Forall plain_piece (write_route w).
Proof.
  destruct w; try destruct kind; cbn [write_route]; repeat constructor; cbn [no_char tpl].
  - rewrite !no_char_app. by rewrite encode_uri_no_char.
  - destruct mode, dryRun, matchMembersByEmail as [[]|]; reflexivity.
Qed.

Lemma piece_str_plain p : plain_piece p -> no_char "/" (piece_str p) = true.
Proof.
  unfold piece_str. destruct p as [s|a|s q]; cbn [plain_piece piece_strs tpl]; intros H; rewrite ?sapp_nil_r.
  - apply H.
  - by apply encode_uri_no_char.
  - destruct H as (H1 & _ & _ & H2). by rewrite !no_char_app, H1, H2.
Qed.

Lemma route_path_split r : r <> [] -> Forall plain_piece r -> split "/" (route_path r) = "" :: (piece_str <$> r).
Proof.
  intros Hr Hp. assert (H : route_path r = join "/" ("" :: (piece_str <$> r))).
  { unfold route_path. destruct r as [|p r]; [done|]. clear Hr Hp.
    assert (Hj : forall r p, tpl (concat ((fun p => "/" :: piece_strs p) <$> p :: r)) = "/" +:+ join "/" (piece_str <$> p :: r)).
    { clear. induction r as [|q r IH]; intros p.
      - csimpl. rewrite app_nil_r. done.
      - change (concat ((fun p => "/" :: piece_strs p) <$> p :: q :: r))
          with ("/" :: (piece_strs p ++ concat ((fun p => "/" :: piece_strs p) <$> q :: r))).
        cbn [tpl]. rewrite tpl_app, IH. csimpl. by rewrite <- ?sapp_assoc. }
    rewrite Hj. done. }
  rewrite H. apply split_join; [done|]. constructor; [done|]. apply Forall_fmap. eapply Forall_impl; [exact Hp|].
  intros p. apply piece_str_plain.
Qed.

(** Two shapes one string can have. *)
Definition shape_fits (a b : shape) : bool :=
  match a, b with
  | SLit s, SLit t | SQuery s, SQuery t => s =s t
  | SQuery _, _ | _, SQuery _ => false
  | _, _ => true
  end.

Lemma qmark_cut s t q q' : no_char "?" s = true -> no_char "?" t = true ->
  s +:+ String "?" q = t +:+ String "?" q' -> s = t.
Proof.
  intros Hs Ht H. assert (Hl := f_equal (index_of "?") H). rewrite !index_of_app in Hl by done. injection Hl as Hl.
  rewrite <- (slice_to_app s (String "?" q)), H, Hl. apply slice_to_app.
Qed.

Lemma piece_fits p q : plain_piece p -> plain_piece q -> piece_str p = piece_str q ->
  shape_fits (piece_shape p) (piece_shape q) = true.
Proof.
  assert (Hno : forall s t x, no_char "?" s = true -> s = t +:+ ("?" +:+ x) -> False).
  { intros s t x Hs ->. rewrite !no_char_app in Hs. cbn in Hs. by rewrite andb_false_r in Hs. }
  unfold piece_str. destruct p as [s|a|s x], q as [t|b|t y]; cbn [plain_piece piece_strs tpl piece_shape shape_fits];
    rewrite ?sapp_nil_r; intros Hp Hq H; try done.
  - apply String.eqb_eq. done.
  - exfalso. eapply Hno; [|exact H]. apply Hp.
  - exfalso. eapply Hno; [|exact H]. by apply encode_uri_no_char.
  - exfalso. eapply Hno; [|symmetry; exact H]. apply Hq.
  - exfalso. eapply Hno; [|symmetry; exact H]. by apply encode_uri_no_char.
  - apply String.eqb_eq. eapply qmark_cut; [apply Hp|apply Hq|exact H].
Qed.

Definition route_clash (a b : string * list shape) : bool :=
  (a.1 =s b.1) && Nat.eqb (length a.2) (length b.2) && forallb (fun p => shape_fits p.1 p.2) (zip a.2 b.2).
Fixpoint apart (l : list (string * list shape)) : bool :=
  match l with [] => true | x :: l => forallb (fun y => negb (route_clash x y) && negb (route_clash y x)) l && apart l end.

Lemma apart_spec l i j a b : apart l = true -> l !! i = Some a -> l !! j = Some b -> route_clash a b = true -> i = j.
Proof.
  revert i j. induction l as [|x l IH]; intros i j; [done|]. cbn [apart]. intros [Hx Hl]%andb_true_iff.
  rewrite forallb_forall in Hx.
  assert (Hy : forall k y, l !! k = Some y -> route_clash x y = false /\ route_clash y x = false).
  { intros k y Hk. apply list_elem_of_lookup_2, list_elem_of_In, Hx in Hk. bool_prop. done. }
  destruct i as [|i], j as [|j]; cbn [lookup list_lookup]; intros Hi Hj Hc; [done| | |f_equal; by apply (IH i j)].
  - injection Hi as <-. apply Hy in Hj as [Hj _]. congruence.
  - injection Hj as <-. apply Hy in Hi as [_ Hi]. congruence.
Qed.

Lemma routes_apart : apart routes = true.
Proof. by_compute. Qed.

Lemma pieces_fit r r' : Forall plain_piece r -> Forall plain_piece r' -> piece_str <$> r = piece_str <$> r' ->
  length (piece_shape <$> r) = length (piece_shape <$> r') /\
  forallb (fun p => shape_fits p.1 p.2) (zip (piece_shape <$> r) (piece_shape <$> r')) = true.
Proof.
  intros Hr. revert r'. induction Hr as [|p r Hp Hr IH]; intros [|q r'] Hr' H; csimpl in H; [done|done|done|].
  apply Forall_cons in Hr' as [Hq Hr']. injection H as H1 H2. destruct (IH r' Hr' H2) as [H3 H4].
  csimpl. split; [by rewrite H3|]. by rewrite (piece_fits p q), H4.
Qed.

Lemma pieces_args r r' : piece_shape <$> r = piece_shape <$> r' -> piece_str <$> r = piece_str <$> r' ->
  concat (piece_arg <$> r) = concat (piece_arg <$> r').
Proof.
  revert r'. induction r as [|p r IH]; intros [|q r'] Hs H; csimpl in *; [done|done|done|].
  injection Hs as Hs1 Hs2. injection H as H1 H2. rewrite (IH r' Hs2 H2). f_equal.
  destruct p, q; try done. unfold piece_str in H1. cbn [piece_strs tpl] in H1. rewrite !sapp_nil_r in H1.
  apply encode_uri_inj in H1. by subst.
Qed.

(** ** Dot segments

    [fetch] resolves the URL: a path segment [.] disappears and [..] removes the
    segment before it; as the last segment they leave an empty one.  Only the
    last segment of these paths has a query, and it holds no slash. *)
Fixpoint url_segments (acc segs : list string) : list string :=
  match segs with
  | [] => acc
  | s :: rest =>
      let last_ n := match rest with [] => [slice_from n s] | _ => [] end in
      if resource_of s =s ".." then url_segments (removelast acc ++ last_ 2) rest
      else if resource_of s =s "." then url_segments (acc ++ last_ 1) rest
      else url_segments (acc ++ [s]) rest
  end.
Definition url_path (path : string) : list string := url_segments [] (List.tl (split "/" (BASE +:+ path))).

Definition no_dot (a : string) : Prop := a <> "." /\ a <> "..".

Lemma url_segments_plain segs acc :
  Forall (fun s => no_dot (resource_of s)) segs -> url_segments acc segs = acc ++ segs.
Proof.
  intros H. revert acc. induction H as [|s segs [H1 H2] H IH]; intros acc; [by rewrite app_nil_r|].
  cbn [url_segments]. apply String.eqb_neq in H1, H2. rewrite H1, H2, IH. by rewrite <- app_assoc.
Qed.

Lemma resource_of_plain s : no_char "?" s = true -> resource_of s = s.
Proof. intros H. unfold resource_of. apply index_of_None in H. by rewrite H. Qed.

Lemma piece_no_dot p : plain_piece p -> Forall no_dot (piece_arg p) -> no_dot (resource_of (piece_str p)).
Proof.
  assert (Hlit : forall s, no_char "." s = true -> no_dot s) by (intros s H; split; intros ->; discriminate).
  unfold piece_str. destruct p as [s|a|s q]; cbn [plain_piece piece_strs tpl piece_arg]; rewrite ?sapp_nil_r; intros Hp Ha.
  - rewrite resource_of_plain by apply Hp. apply Hlit, Hp.
  - rewrite resource_of_plain by by apply encode_uri_no_char. apply Forall_singleton in Ha as [H1 H2]. split; intros E.
    + apply H1, encode_uri_inj. rewrite E. reflexivity.
    + apply H2, encode_uri_inj. rewrite E. reflexivity.
  - unfold resource_of. change ("?" +:+ tpl q) with (String "?" (tpl q)). rewrite index_of_app by apply Hp.
    rewrite slice_to_app. apply Hlit, Hp.
Qed.

Lemma base_split r : r <> [] -> Forall plain_piece r ->
  split "/" (BASE +:+ route_path r) = "" :: "api" :: "v1" :: (piece_str <$> r).
Proof.
  intros Hr Hp. rewrite <- (join_split "/" (route_path r)), route_path_split by done.
  rewrite <- (split_join "/" ("" :: "api" :: "v1" :: (piece_str <$> r))); [by destruct r|done|].
  repeat (constructor; [done|]). apply Forall_fmap. eapply Forall_impl; [exact Hp|]. intros p. apply piece_str_plain.
Qed.

Lemma url_path_route r : r <> [] -> Forall plain_piece r -> Forall no_dot (concat (piece_arg <$> r)) ->
  url_path (route_path r) = "api" :: "v1" :: (piece_str <$> r).
Proof.
  intros Hr Hp Hd. unfold url_path.
  rewrite base_split by done. cbn [List.tl]. rewrite url_segments_plain; [done|].
  constructor; [by split|]. constructor; [by split|]. apply Forall_fmap. unfold compose. clear Hr.
  induction Hp as [|p r Hp Hr IH]; [constructor|]. csimpl in Hd. apply Forall_app in Hd as [H1 H2].
  constructor; [by apply piece_no_dot|by apply IH].
Qed.

(** C2. A request that changes something reaches one route, with one list of
    arguments, whatever slashes, question marks or escapes the arguments hold:
    two such requests with the same method and the same resolved URL use the same
    route of the API with the same arguments, and two deletions with the same URL
    are the same call.  The arguments must not be [.] or [..]. *)
Theorem writes_address_one_resource w w' :
  Forall no_dot (write_args w) -> Forall no_dot (write_args w') ->
  rq_method (write_request w) = rq_method (write_request w') ->
  url_path (rq_path (write_request w)) = url_path (rq_path (write_request w')) ->
  write_kind w = write_kind w' /\ write_args w = write_args w' /\
  (rq_method (write_request w) = "DELETE" -> w = w').
Proof.
  intros Hd Hd' Hm Hp. rewrite !write_route_path in Hp.
  assert (Hne : forall w, write_route w <> []) by (intros []; discriminate).
  rewrite !url_path_route in Hp by (apply Hne || apply write_plain || done).
  injection Hp as Hp. destruct (pieces_fit _ _ (write_plain w) (write_plain w') Hp) as [Hl Hf].
  pose proof (write_shape w) as H1. pose proof (write_shape w') as H2.
  assert (Hk : write_kind w = write_kind w').
  { apply (apart_spec routes _ _ _ _ routes_apart H1 H2). unfold route_clash. cbn [fst snd].
    rewrite Hm, String.eqb_refl, Hl, Nat.eqb_refl. exact Hf. }
  rewrite Hk, H2 in H1. injection H1 as _ Hs. pose proof (pieces_args _ _ (eq_sym Hs) Hp) as Ha.
  split; [done|]. split; [done|]. intros HD. pose proof (write_deletion w HD) as D. rewrite Hm in HD.
  pose proof (write_deletion w' HD) as D'. unfold write_args in D. rewrite Hk, Ha in D. unfold write_args in D'. congruence.
Qed.

Lemma writes_address_one_resource_witness :
  rq_path (write_request (W_detachSystemService "a/b" "x?y")) = "/systems/a%2Fb/services/x%3Fy" /\
  W_detachSystemService "a/b" "x?y" = W_detachSystemService "a/b" "x?y".
Proof.
  split; [vm_compute; reflexivity|].
  assert (H : Forall no_dot (write_args (W_detachSystemService "a/b" "x?y"))) by (repeat constructor; discriminate).
  exact (proj2 (proj2 (writes_address_one_resource (W_detachSystemService "a/b" "x?y") (W_detachSystemService "a/b" "x?y")
    H H eq_refl eq_refl)) eq_refl).
Defined.

(** A service whose name is two dots is not addressed: removing it from a
    system resolves to the system's own URL, because [encodeURIComponent] keeps
    dots. *)
Theorem dot_name_reaches_parent id :
  no_dot id ->
  rq_method (write_request (W_detachSystemService id "..")) = rq_method (write_request (W_deleteSystem id)) /\
  url_path (rq_path (write_request (W_detachSystemService id ".."))) = url_path (rq_path (write_request (W_deleteSystem id))) ++ [""].
Proof.
  intros Hd. split; [done|]. rewrite !write_route_path. rewrite (url_path_route (write_route (W_deleteSystem id)));
    [|done|apply write_plain|exact (proj2 (Forall_singleton _ _) Hd)].
  unfold url_path. assert (Hp : Forall plain_piece [Lit "systems"; Arg id; Lit "services"; Arg ".."]) by apply (write_plain (W_detachSystemService id "..")).
  cbn [write_route]. set (r := [Lit "systems"; Arg id; Lit "services"; Arg ".."]) in *.
  rewrite base_split by done. cbn [List.tl].
  assert (Hid : no_dot (resource_of (piece_str (Arg id)))) by (apply piece_no_dot; [done|exact (proj2 (Forall_singleton _ _) Hd)]).
  destruct Hid as [H1 H2]. apply String.eqb_neq in H1, H2. unfold r. csimpl. rewrite H1, H2. reflexivity.
Qed.

Lemma dot_name_reaches_parent_witness :
  no_dot "s1" /\ url_path (rq_path (write_request (W_detachSystemService "s1" ".."))) = ["api"; "v1"; "systems"; "s1"; ""].
Proof.
  assert (H : no_dot "s1") by (split; discriminate). split; [exact H|].
  rewrite (proj2 (dot_name_reaches_parent "s1" H)). vm_compute. reflexivity.
Defined.
