(* ===== verification/RuleServer.v ===== *)
(** * What the server stores for an alert rule

    A PUT of an alert rule replaces the whole rule: [buildRule] of
    services/cell-api/internal/api/handlers_alerts.go rebuilds it from the
    request, and [UpdateRule] of internal/alerting/store.go writes it over the
    row, all but the signal; a POST makes a row of its own ([CreateRule]).  What the
    answer holds is read back from the row ([scanRule]).  The pages of the frontend that send such requests (RuleSenders.v) are
    correct only against this behaviour, so it is modelled here, from the request
    to the rule the next read gives back. *)

From S2P Require Import Prelude JsString JsUri JsArray Host Types Json.

Local Open Scope char_scope.
Local Open Scope string_scope.
Local Open Scope list_scope.

(** ** Go strings

    [strings.TrimSpace]: the white space of Unicode, which has U+0085 and lacks
    the byte-order mark, unlike JavaScript's [trim]. *)
Definition go_ws2 (c d : ascii) : bool := ws2 c d || ((byte_of c =? 194) && (byte_of d =? 133))%Z.
Definition go_ws3 (c d e : ascii) : bool :=
  ws3 c d e && negb ((byte_of c * 65536 + byte_of d * 256 + byte_of e =? 0xEFBBBF)%Z).
Definition TrimSpace (s : string) : string := trim_by ws1 go_ws2 go_ws3 s.
#[global] Arguments TrimSpace : simpl never.

Lemma TrimSpace_idem s : TrimSpace (TrimSpace s) = TrimSpace s.
Proof. apply trim_by_idem. Qed.

(** A field with [omitempty] is absent when empty; an absent field decodes to
    the empty string. *)
Definition omit (s : string) : option string := if s =s "" then None else Some s.
Definition given (o : option string) : string := o ?? "".
Definition nonempty (s d : string) : string := if s =s "" then d else s.
Definition omit_list {A} (l : list A) : option (list A) := match l with [] => None | _ => Some l end.

Lemma given_omit s : given (omit s) = s.
Proof. unfold given, omit. destruct (s =s "") eqn:E; bool_prop; by subst. Qed.
Lemma omit_given o : o <> Some "" -> omit (given o) = o.
Proof. unfold omit, given. destruct o as [s|]; simpl; [|done]. destruct (s =s "") eqn:E; bool_prop; subst; done. Qed.
Lemma omit_nonempty s : omit s <> Some "".
Proof. unfold omit. destruct (s =s "") eqn:E; bool_prop; congruence. Qed.

(** ** Values the server accepts *)

Definition ValidSeverity (s : string) : bool := bool_decide (s ∈ ["info"; "warning"; "critical"]).
Definition ValidOperator (s : string) : bool := bool_decide (s ∈ ["gt"; "gte"; "lt"; "lte"; "eq"; "neq"]).
Definition ValidAggregation (s : string) : bool :=
  bool_decide (s ∈ ["max"; "avg"; "min"; "sum"; "p95"; "last"; "increase"; "rate"; "age"]).
Definition ValidSource (s : string) : bool := bool_decide (s ∈ ["telemetry"; "pushed"]).
Definition validAttrOps : list string :=
  ["eq"; "neq"; "contains"; "not_contains"; "starts_with"; "ends_with"; "matches"; "exists"; "not_exists"; "gt"; "gte"; "lt"; "lte"].
Definition MaxCheckWindowSeconds : Z := 3888000.

Fixpoint all_chars (p : ascii -> bool) (s : string) : bool :=
  match s with "" => true | String c s' => p c && all_chars p s' end.

(** [^[A-Za-z0-9][A-Za-z0-9._:/-]{0,127}$] *)
Definition attrKeyRe (s : string) : bool :=
  match s with
  | "" => false
  | String c s' =>
      is_alnum c && (String.length s' <=? 127)%nat &&
      all_chars (fun d => is_alnum d || List.existsb (Ascii.eqb d) ["."; "_"; ":"; "/"; "-"]%char) s'
  end.

(** ** The stored rule

    [rule_spec] is one JSON column; its shape follows the signal and, for traces,
    the kind the server stamps. *)
Inductive RuleSpec :=
| SpecMetric (s : MetricRuleSpec)
| SpecLog (s : LogRuleSpec)
| SpecTraceLatency (s : TraceLatencyRuleSpec)
| SpecTraceVolume (s : TraceVolumeRuleSpec)
| SpecTraceAttribute (s : TraceAttributeRuleSpec)
| SpecTraceError (s : TraceErrorRuleSpec).

(** The fields of the Go [AlertRule] a request sets. *)
Record GoRule := {
  g_IntegrationID : option string; g_SystemID : option string; g_ServiceName : string; g_GroupID : option string;
  g_Name : string; g_Description : string; g_Runbook : string; g_Severity : string; g_Signal : string; g_Enabled : bool;
  g_ChannelIDs : list string; g_TitleTemplate : string; g_BodyTemplate : string;
  g_NotificationContent : option NotificationContent; g_Source : string; g_DisplayOnService : bool; g_Unit : string;
  g_ResolveMode : string; g_EnvironmentMode : string; g_Environments : list string; g_Spec : RuleSpec
}.

Definition zero_spec : MetricRuleSpec := {|
  ms_metric_name := ""; ms_aggregation := ""; ms_operator := ""; ms_threshold := Num 0 0; ms_for_window := "";
  ms_attrs := None; ms_split_by := None; ms_fire_on_no_data := None |}.

(** A boolean with [omitempty]. *)
Definition omit_bool (o : option bool) : option bool := if o ?? false then Some true else None.

(** A decoded [NotificationContent], written back. *)
Definition wire_content (n : NotificationContent) : NotificationContent := {|
  nc_service := Some (nc_service n ?? false); nc_integration := Some (nc_integration n ?? false);
  nc_service_metadata := Some (nc_service_metadata n ?? false);
  nc_integration_metadata := Some (nc_integration_metadata n ?? false); nc_check := Some (nc_check n ?? false);
  nc_email_subject := omit (given (nc_email_subject n)); nc_email_body := omit (given (nc_email_body n));
  nc_slack_title := omit (given (nc_slack_title n)); nc_slack_body := omit (given (nc_slack_body n)) |}.

#[global] Arguments attrKeyRe : simpl never.

Section server.
(** [uuid.Parse] with the canonical text of what it reads, [ValidateTemplate],
    [ValidateLiquid] and [time.ParseDuration]: libraries.  The message of an error
    of theirs, which the server appends to its own, is left out. *)
Context (uuid_Parse : string -> option string) (ValidateTemplate ValidateLiquid ParseDuration : string -> bool).

(** ** The specifications *)

Definition rule_attr (a : RuleAttrFilter) : string + RuleAttrFilter :=
  let key := TrimSpace (ra_key a) in
  if negb (attrKeyRe key) then inl (tpl ["invalid attribute key: "; key])
  else if negb (bool_decide (ra_op a ∈ validAttrOps)) then inl (tpl ["invalid attribute operator: "; ra_op a])
  else inr {| ra_key := key; ra_op := ra_op a; ra_value := ra_value a |}.

Definition log_attr (a : LogAttrFilter) : string + LogAttrFilter :=
  let key := TrimSpace (la_key a) in
  if negb (attrKeyRe key) then inl (tpl ["invalid attribute key: "; key])
  else if negb (bool_decide (la_op a ∈ validAttrOps)) then inl (tpl ["invalid attribute operator: "; la_op a])
  else inr {| la_key := key; la_op := la_op a; la_value := la_value a |}.

Definition validateMetricRuleSpec (s : MetricRuleSpec) : string + MetricRuleSpec :=
  let name := TrimSpace (ms_metric_name s) in
  if name =s "" then inl "spec.metric_name is required"
  else if negb (ValidAggregation (ms_aggregation s)) then inl "invalid spec.aggregation"
  else if negb (ValidOperator (ms_operator s)) then inl "invalid spec.operator"
  else
    let window := if ms_for_window s =s "" then "5m" else ms_for_window s in
    if negb (ParseDuration window) then inl "invalid spec.for_window (use a Go duration like 5m)"
    else
      let* attrs := err_map rule_attr (ms_attrs s ?? []) in
      let split := TrimSpace (given (ms_split_by s)) in
      if negb (split =s "") && negb (attrKeyRe split) then inl (tpl ["invalid spec.split_by attribute key: "; split])
      else inr {| ms_metric_name := name; ms_aggregation := ms_aggregation s; ms_operator := ms_operator s;
                  ms_threshold := ms_threshold s; ms_for_window := window; ms_attrs := omit_list attrs;
                  ms_split_by := omit split; ms_fire_on_no_data := omit_bool (ms_fire_on_no_data s) |}.

Definition validatePushedRuleSpec (s : MetricRuleSpec) : string + MetricRuleSpec :=
  if negb (ValidOperator (ms_operator s)) then inl "invalid spec.operator"
  else inr {| ms_metric_name := ""; ms_aggregation := "last"; ms_operator := ms_operator s;
              ms_threshold := ms_threshold s; ms_for_window := "5m"; ms_attrs := None; ms_split_by := None;
              ms_fire_on_no_data := None |}.

Definition window_ok (w : Z) : bool := ((60 <=? w) && (w <=? MaxCheckWindowSeconds))%Z.

Definition validateLogRuleSpec (s : LogRuleSpec) : string + LogRuleSpec :=
  let threshold := if (ls_threshold s <? 1)%Z then 1%Z else ls_threshold s in
  let* comparison :=
    let c := given (ls_comparison s) in
    if (c =s "") || (c =s "at_least") then inr "at_least"
    else if c =s "fewer_than" then inr c
    else inl "log_spec.comparison must be 'at_least' or 'fewer_than'" in
  if negb (window_ok (ls_window_seconds s))
  then inl (tpl ["log_spec.window_seconds must be between 60 and "; show_Z MaxCheckWindowSeconds])
  else
    let* attrs := err_map rule_attr (ls_attrs s ?? []) in
    inr {| ls_min_severity := ls_min_severity s; ls_body_contains := TrimSpace (ls_body_contains s);
           ls_attrs := omit_list attrs; ls_threshold := threshold; ls_window_seconds := ls_window_seconds s;
           ls_comparison := Some comparison |}.

Definition validateLatency (s : TraceLatencyRuleSpec) : string + TraceLatencyRuleSpec :=
  if (tl_threshold_ms s <? 1)%Z then inl "trace_latency_spec.threshold_ms must be at least 1" else inr s.

Definition validateVolume (s : TraceVolumeRuleSpec) : string + TraceVolumeRuleSpec :=
  if (tv_threshold s <? 1)%Z then inl "trace_volume_spec.threshold must be at least 1"
  else if negb (window_ok (tv_window_seconds s))
  then inl (tpl ["trace_volume_spec.window_seconds must be between 60 and "; show_Z MaxCheckWindowSeconds])
  else inr s.

Definition validateAttribute (s : TraceAttributeRuleSpec) : string + TraceAttributeRuleSpec :=
  if (ta_threshold s <? 1)%Z then inl "trace_attribute_spec.threshold must be at least 1"
  else if negb (window_ok (ta_window_seconds s))
  then inl (tpl ["trace_attribute_spec.window_seconds must be between 60 and "; show_Z MaxCheckWindowSeconds])
  else match ta_attrs s with
       | [] => inl "trace_attribute_spec.attrs must name at least one attribute condition"
       | attrs =>
           let* attrs := err_map log_attr attrs in
           inr {| ta_threshold := ta_threshold s; ta_window_seconds := ta_window_seconds s; ta_attrs := attrs |}
       end.

Definition validateError (s : TraceErrorRuleSpec) : string + TraceErrorRuleSpec :=
  if (te_threshold s <? 1)%Z then inl "trace_error_spec.threshold must be at least 1"
  else
    let* attrs := err_map log_attr (te_attrs s ?? []) in
    inr {| te_threshold := te_threshold s; te_window_seconds := te_window_seconds s; te_attrs := omit_list attrs |}.

(** ** [buildRule] *)

Definition in_quotes (s : string) : string := tpl [String QUOTE ""; s; String QUOTE ""].

(** An identifier that may be absent. *)
Definition parse_id (what : string) (o : option string) : string + option string :=
  let s := TrimSpace (given o) in
  if s =s "" then inr None
  else match uuid_Parse s with Some id => inr (Some id) | None => inl (tpl ["invalid "; what]) end.

Definition parseChannelIDs (raw : list string) : string + list string :=
  err_map (fun s => match uuid_Parse (TrimSpace s) with Some id => inr id | None => inl (tpl ["invalid channel id: "; s]) end) raw.

(** The loop over the environments of a rule in mode [only]. *)
Fixpoint environment_names (seen : list string) (l : list string) : string + list string :=
  match l with
  | [] => inr []
  | e :: l =>
      let e := TrimSpace e in
      if (128 <? String.length e)%nat then inl "environment name too long (max 128)"
      else if bool_decide (e ∈ seen) then environment_names seen l
      else let* rest := environment_names (e :: seen) l in inr (e :: rest)
  end.

Definition environment_scope (integrationID : option string) (req : AlertRuleInput) : string + (string * list string) :=
  let mode := TrimSpace (given (ri_environment_mode req)) in
  if (mode =s "") || (mode =s "each") then inr ("each", [])
  else if mode =s "only" then
    match integrationID with
    | None => inl "environment_mode only applies to a check bound to an integration"
    | Some _ =>
        let* names := environment_names [] (ri_environments req ?? []) in
        match names with
        | [] => inl (tpl ["environment_mode "; in_quotes "only"; " needs at least one environment"])
        | _ => inr ("only", sort string_cmp names)
        end
    end
  else inl (tpl ["environment_mode must be "; in_quotes "each"; " or "; in_quotes "only"]).

Definition is_none {A} (o : option A) : bool := match o with None => true | Some _ => false end.

(** The [switch] on the signal. *)
Definition rule_spec (signal source serviceName : string) (integrationID : option string) (req : AlertRuleInput) : string + RuleSpec :=
  let pushed := source =s "pushed" in
  if signal =s "metric" then
    if pushed then
      if serviceName =s "" then inl "a pushed health check must be bound to a service"
      else let* s := validatePushedRuleSpec (ri_spec req ?? zero_spec) in inr (SpecMetric s)
    else let* s := validateMetricRuleSpec (ri_spec req ?? zero_spec) in inr (SpecMetric s)
  else if signal =s "log" then
    if pushed then inl "only metric health checks can be pushed"
    else match ri_log_spec req with
         | None => inl "log_spec is required for a log rule"
         | Some l =>
             let* s := validateLogRuleSpec l in
             if (ls_min_severity s =? 0)%Z && (ls_body_contains s =s "") && is_none (ls_attrs s) && (serviceName =s "") && is_none integrationID
             then inl "a log rule needs at least one match criterion (min severity, text, or attribute) or a service/integration scope"
             else inr (SpecLog s)
         end
  else if signal =s "trace" then
    if pushed then inl "only metric health checks can be pushed"
    else if is_none integrationID && (serviceName =s "") then inl "a trace rule must be bound to an integration or a service"
    else match ri_trace_latency_spec req, ri_trace_volume_spec req, ri_trace_attribute_spec req, ri_trace_error_spec req with
         | Some s, _, _, _ => let* s := validateLatency s in inr (SpecTraceLatency s)
         | None, Some s, _, _ => let* s := validateVolume s in inr (SpecTraceVolume s)
         | None, None, Some s, _ => let* s := validateAttribute s in inr (SpecTraceAttribute s)
         | None, None, None, Some s => let* s := validateError s in inr (SpecTraceError s)
         | None, None, None, None => inl "a trace rule needs trace_error_spec (failed traces), trace_latency_spec (response time), trace_volume_spec (low traffic), or trace_attribute_spec (span attribute)"
         end
  else inl "invalid signal (use metric, log, or trace)".

Definition resolve_mode (signal : string) (req : AlertRuleInput) : string + string :=
  let m := TrimSpace (given (ri_resolve_mode req)) in
  if (m =s "auto") || (m =s "manual") then inr m
  else if m =s "" then inr (if (signal =s "log") || (signal =s "trace") then "manual" else "auto")
  else inl "invalid resolve_mode (use auto or manual)".

Definition guard (b : bool) (m : string) : string + unit := if b then inr tt else inl m.

Definition buildRule (req : AlertRuleInput) : string + GoRule :=
  let name := TrimSpace (ri_name req) in
  let* _ := guard (negb (name =s "")) "name is required" in
  let sev := nonempty (TrimSpace (ri_severity req)) "warning" in
  let* _ := guard (ValidSeverity sev) "invalid severity" in
  let* channels := parseChannelIDs (ri_channel_ids req) in
  let* integrationID := parse_id "integration_id" (ri_integration_id req) in
  let* systemID := parse_id "system_id" (ri_system_id req) in
  let* _ := guard (is_none systemID || is_none integrationID) "a rule binds to a system or an integration, not both" in
  let serviceName := TrimSpace (given (ri_service_name req)) in
  let* _ := guard (is_none systemID || (serviceName =s "")) "a rule binds to a system or a service, not both" in
  let* groupID := parse_id "group_id" (ri_group_id req) in
  let title := TrimSpace (given (ri_title_template req)) in
  let body := TrimSpace (given (ri_body_template req)) in
  let* _ := guard (ValidateTemplate title) "invalid title_template" in
  let* _ := guard (ValidateTemplate body) "invalid body_template" in
  let* _ := match ri_notification_config req with
            | None => inr tt
            | Some n =>
                let* _ := guard (ValidateLiquid (given (nc_email_subject n))) "invalid notification email subject" in
                guard (ValidateLiquid (given (nc_email_body n))) "invalid notification email body"
            end in
  let signal := nonempty (TrimSpace (given (ri_signal req))) "metric" in
  let source := nonempty (TrimSpace (given (ri_source req))) "telemetry" in
  let* _ := guard (ValidSource source) "invalid source (use telemetry or pushed)" in
  let* resolve := resolve_mode signal req in
  let* scope := environment_scope integrationID req in
  let* spec := rule_spec signal source serviceName integrationID req in
  inr {| g_IntegrationID := integrationID; g_SystemID := systemID; g_ServiceName := serviceName; g_GroupID := groupID;
         g_Name := name; g_Description := TrimSpace (given (ri_description req)); g_Runbook := TrimSpace (given (ri_runbook req));
         g_Severity := sev; g_Signal := signal; g_Enabled := ri_enabled req ?? true; g_ChannelIDs := channels;
         g_TitleTemplate := title; g_BodyTemplate := body; g_NotificationContent := ri_notification_config req;
         g_Source := source; g_DisplayOnService := ri_display_on_service req ?? false; g_Unit := TrimSpace (given (ri_unit req));
         g_ResolveMode := resolve; g_EnvironmentMode := scope.1; g_Environments := scope.2; g_Spec := spec |}.
End server.

(** ** [UpdateRule] *)

Fixpoint dedupe_from (seen ids : list string) : list string :=
  match ids with
  | [] => []
  | id :: ids => if bool_decide (id ∈ seen) then dedupe_from seen ids else id :: dedupe_from (id :: seen) ids
  end.
Definition dedupe (ids : list string) : list string := dedupe_from [] ids.

Lemma dedupe_from_spec seen l : NoDup (dedupe_from seen l) /\ forall x, x ∈ dedupe_from seen l -> x ∈ l /\ x ∉ seen.
Proof.
  revert seen. induction l as [|y l IH]; intros seen; cbn; [split; [constructor|set_solver]|].
  case_bool_decide as Hy.
  - destruct (IH seen) as [H1 H2]. split; [done|]. set_solver.
  - destruct (IH (y :: seen)) as [H1 H2]. split; [constructor; [|done]; intros Hi%H2; set_solver|]. set_solver.
Qed.

Lemma dedupe_from_id seen l : NoDup l -> (forall x, x ∈ l -> x ∉ seen) -> dedupe_from seen l = l.
Proof.
  revert seen. induction l as [|y l IH]; intros seen Hnd Hs; [done|]. cbn. apply NoDup_cons in Hnd as [Hy Hnd].
  rewrite bool_decide_eq_false_2 by (apply Hs; set_solver). f_equal. apply IH; [done|]. set_solver.
Qed.

(** *** The column read back

    The statement of [UpdateRule] writes [rule_spec] and leaves the signal of the row
    alone, and [scanRule] decodes the column by the signal of the row.  A request of
    another signal is therefore stored as a specification of one kind and read as
    another: the members of the same name are kept when their type fits, the others
    are the zero of their type. *)

(** The signal whose specification it is. *)
Definition spec_signal (s : RuleSpec) : string :=
  match s with SpecMetric _ => "metric" | SpecLog _ => "log" | _ => "trace" end.

Definition MaxInt64 : Z := 9223372036854775807.

(** A number of the column decoded into an [int]: a fraction, or a number that does
    not fit, is an error [scanRule] drops, and the member stays zero. *)
Definition decode_int (n : num) : Z :=
  let d := (10 ^ Z.of_nat (n_scale n))%Z in
  let z := (n_mant n / d)%Z in
  if (n_mant n mod d =? 0)%Z && (- MaxInt64 - 1 <=? z)%Z && (z <=? MaxInt64)%Z then z else 0%Z.

Definition as_rule_attr (a : LogAttrFilter) : RuleAttrFilter := {| ra_key := la_key a; ra_op := la_op a; ra_value := la_value a |}.

(** [json.Unmarshal] into a [MetricRuleSpec] of what [ruleSpecJSON] wrote. *)
Definition decode_metric (s : RuleSpec) : MetricRuleSpec :=
  let shared threshold attrs aggregation := {|
    ms_metric_name := ""; ms_aggregation := aggregation; ms_operator := ""; ms_threshold := threshold; ms_for_window := "";
    ms_attrs := attrs; ms_split_by := None; ms_fire_on_no_data := None |} in
  match s with
  | SpecMetric s => s
  | SpecLog s => shared (Num (ls_threshold s) 0) (ls_attrs s) ""
  | SpecTraceLatency s => shared (Num 0 0) None (tl_aggregation s)
  | SpecTraceVolume s => shared (Num (tv_threshold s) 0) None ""
  | SpecTraceAttribute s => shared (Num (ta_threshold s) 0) (Some (as_rule_attr <$> ta_attrs s)) ""
  | SpecTraceError s => shared (Num (te_threshold s) 0) (map as_rule_attr <$> te_attrs s) ""
  end.

(** The same into a [LogRuleSpec]. *)
Definition decode_log (s : RuleSpec) : LogRuleSpec :=
  let shared threshold window attrs := {|
    ls_min_severity := 0; ls_body_contains := ""; ls_attrs := attrs; ls_threshold := threshold; ls_window_seconds := window;
    ls_comparison := None |} in
  match s with
  | SpecMetric s => shared (decode_int (ms_threshold s)) 0%Z (ms_attrs s)
  | SpecLog s => s
  | SpecTraceLatency s => shared 0%Z (tl_window_seconds s) None
  | SpecTraceVolume s => shared (tv_threshold s) (tv_window_seconds s) None
  | SpecTraceAttribute s => shared (ta_threshold s) (ta_window_seconds s) (Some (as_rule_attr <$> ta_attrs s))
  | SpecTraceError s => shared (te_threshold s) (te_window_seconds s) (map as_rule_attr <$> te_attrs s)
  end.

(** [scanRule]: a row of traces is told by the [kind] the server stamps, and the
    specifications of the other signals have none. *)
Definition scan_spec (signal : string) (s : RuleSpec) : option RuleSpec :=
  if signal =s "log" then Some (SpecLog (decode_log s))
  else if signal =s "trace" then match s with SpecMetric _ | SpecLog _ => None | _ => Some s end
  else Some (SpecMetric (decode_metric s)).

Definition scan_metric (o : option RuleSpec) : MetricRuleSpec := match o with Some (SpecMetric s) => s | _ => zero_spec end.
Definition scan_log (o : option RuleSpec) : option LogRuleSpec := match o with Some (SpecLog s) => Some s | _ => None end.
Definition scan_error (o : option RuleSpec) : option TraceErrorRuleSpec := match o with Some (SpecTraceError s) => Some s | _ => None end.
Definition scan_latency (o : option RuleSpec) : option TraceLatencyRuleSpec := match o with Some (SpecTraceLatency s) => Some s | _ => None end.
Definition scan_volume (o : option RuleSpec) : option TraceVolumeRuleSpec := match o with Some (SpecTraceVolume s) => Some s | _ => None end.
Definition scan_attribute (o : option RuleSpec) : option TraceAttributeRuleSpec := match o with Some (SpecTraceAttribute s) => Some s | _ => None end.

(** A rule of Go written to a row of a signal and read back. *)
Definition stored (id org created now signal : string) (seconds : Z) (r : GoRule) : AlertRule :=
  let spec := scan_spec signal (g_Spec r) in {|
    ar_id := id; ar_organization_id := org; ar_evaluation_seconds := seconds;
    ar_created_at := created; ar_updated_at := now; ar_signal := signal;
    ar_environment_mode := Some (if g_EnvironmentMode r =s "only" then "only" else "each");
    ar_environments := Some (if g_EnvironmentMode r =s "only" then g_Environments r else []);
    ar_integration_id := g_IntegrationID r; ar_system_id := g_SystemID r; ar_service_name := omit (g_ServiceName r);
    ar_group_id := g_GroupID r; ar_name := g_Name r; ar_description := g_Description r; ar_runbook := omit (g_Runbook r);
    ar_spec := scan_metric spec; ar_log_spec := scan_log spec; ar_trace_error_spec := scan_error spec;
    ar_trace_latency_spec := scan_latency spec; ar_trace_volume_spec := scan_volume spec;
    ar_trace_attribute_spec := scan_attribute spec;
    ar_severity := g_Severity r; ar_enabled := g_Enabled r;
    ar_source := if (g_Source r =s "pushed") && (g_Signal r =s "metric") then "pushed" else "telemetry";
    ar_display_on_service := g_DisplayOnService r; ar_unit := omit (g_Unit r);
    ar_resolve_mode := if g_ResolveMode r =s "manual" then "manual" else "auto";
    ar_channel_ids := dedupe (g_ChannelIDs r);
    ar_title_template := omit (g_TitleTemplate r); ar_body_template := omit (g_BodyTemplate r);
    ar_notification_config := wire_content <$> g_NotificationContent r |}.

(** The identifier, the organization, the signal, the interval and the time of
    creation are the row's own. *)
Definition UpdateRule (now : string) (row : AlertRule) (r : GoRule) : AlertRule :=
  stored (ar_id row) (ar_organization_id row) (ar_created_at row) now (ar_signal row) (ar_evaluation_seconds row) r.

(** [CreateRule]: a new row has the signal of the rule, and an identifier, an
    interval and times the database chooses. *)
Definition CreateRule (id org now : string) (seconds : Z) (r : GoRule) : AlertRule :=
  stored id org now now
    (if (g_Signal r =s "log") || (g_Signal r =s "trace") then g_Signal r else "metric") seconds r.

Lemma scan_spec_own s : scan_spec (spec_signal s) s = Some s.
Proof. by destruct s. Qed.

(** ** What an accepted request says *)

Section facts.
Context (uuid_Parse : string -> option string) (ValidateTemplate ValidateLiquid ParseDuration : string -> bool).
Abbreviation buildRule := (buildRule uuid_Parse ValidateTemplate ValidateLiquid ParseDuration).

Lemma guard_inr b m x : guard b m = inr x <-> b = true.
Proof. unfold guard. destruct b, x; split; congruence. Qed.

Definition liquid_ok (o : option NotificationContent) : Prop :=
  match o with
  | None => True
  | Some n => ValidateLiquid (given (nc_email_subject n)) = true /\ ValidateLiquid (given (nc_email_body n)) = true
  end.

(** The rule built from a request, as equations: what [buildRule] checks and sets. *)
Record Built (req : AlertRuleInput) (g : GoRule) : Prop := {
  bu_name : g_Name g = TrimSpace (ri_name req);
  bu_name_given : (g_Name g =s "") = false;
  bu_severity : g_Severity g = nonempty (TrimSpace (ri_severity req)) "warning";
  bu_severity_valid : ValidSeverity (g_Severity g) = true;
  bu_channels : parseChannelIDs uuid_Parse (ri_channel_ids req) = inr (g_ChannelIDs g);
  bu_integration : parse_id uuid_Parse "integration_id" (ri_integration_id req) = inr (g_IntegrationID g);
  bu_system : parse_id uuid_Parse "system_id" (ri_system_id req) = inr (g_SystemID g);
  bu_group : parse_id uuid_Parse "group_id" (ri_group_id req) = inr (g_GroupID g);
  bu_one_target : is_none (g_SystemID g) || (is_none (g_IntegrationID g) && (g_ServiceName g =s "")) = true;
  bu_service : g_ServiceName g = TrimSpace (given (ri_service_name req));
  bu_title : g_TitleTemplate g = TrimSpace (given (ri_title_template req));
  bu_title_valid : ValidateTemplate (g_TitleTemplate g) = true;
  bu_body : g_BodyTemplate g = TrimSpace (given (ri_body_template req));
  bu_body_valid : ValidateTemplate (g_BodyTemplate g) = true;
  bu_content : g_NotificationContent g = ri_notification_config req;
  bu_liquid : liquid_ok (g_NotificationContent g);
  bu_signal : g_Signal g = nonempty (TrimSpace (given (ri_signal req))) "metric";
  bu_source : g_Source g = nonempty (TrimSpace (given (ri_source req))) "telemetry";
  bu_source_valid : ValidSource (g_Source g) = true;
  bu_resolve : resolve_mode (g_Signal g) req = inr (g_ResolveMode g);
  bu_environments : environment_scope (g_IntegrationID g) req = inr (g_EnvironmentMode g, g_Environments g);
  bu_spec : rule_spec ParseDuration (g_Signal g) (g_Source g) (g_ServiceName g) (g_IntegrationID g) req = inr (g_Spec g);
  bu_description : g_Description g = TrimSpace (given (ri_description req));
  bu_runbook : g_Runbook g = TrimSpace (given (ri_runbook req));
  bu_unit : g_Unit g = TrimSpace (given (ri_unit req));
  bu_enabled : g_Enabled g = ri_enabled req ?? true;
  bu_display : g_DisplayOnService g = ri_display_on_service req ?? false
}.

Lemma buildRule_Built req g : buildRule req = inr g -> Built req g.
Proof.
  unfold RuleServer.buildRule. intros H. err_inv. rewrite ?guard_inr in *.
  injection H as <-. repeat match goal with H : guard _ _ = inr _ |- _ => apply guard_inr in H end.
  split; cbn; try done.
  - by apply negb_true_iff.
  - destruct (is_none _); cbn in *; [done|]. apply andb_true_iff; split; done.
  - destruct (ri_notification_config req) as [n|]; [|done]. err_inv.
    repeat match goal with H : guard _ _ = inr _ |- _ => apply guard_inr in H end. done.
  - match goal with H : environment_scope _ _ = inr ?p |- _ => by destruct p end.
Qed.

Lemma Built_buildRule req g : Built req g -> buildRule req = inr g.
Proof.
  intros [Hn Hn0 Hs Hs0 Hc Hi Hy Hg H1 Hv Ht Ht0 Hb Hb0 Hnc Hl Hsi Hso Hso0 Hr He Hsp Hd Hru Hu Hen Hdi].
  unfold RuleServer.buildRule. rewrite <- Hn, <- Hs, <- Hsi, <- Hso, <- Hv, <- Ht, <- Hb, Hn0, Hs0. cbn [guard negb err_bind].
  rewrite Hc, Hi, Hy. cbn [err_bind]. apply orb_true_iff in H1.
  assert (Hx1 : is_none (g_SystemID g) || is_none (g_IntegrationID g) = true)
    by (destruct H1 as [->|[-> _]%andb_true_iff]; [done|apply orb_true_r]).
  assert (Hx2 : is_none (g_SystemID g) || (g_ServiceName g =s "") = true)
    by (destruct H1 as [->|[_ ->]%andb_true_iff]; [done|apply orb_true_r]).
  rewrite Hx1, Hx2, Hg, Ht0, Hb0. cbn [guard err_bind]. rewrite <- Hnc.
  assert (Hnl : match g_NotificationContent g with
                | None => inr tt
                | Some n => let* _ := guard (ValidateLiquid (given (nc_email_subject n))) "invalid notification email subject" in
                            guard (ValidateLiquid (given (nc_email_body n))) "invalid notification email body"
                end = inr tt).
  { destruct (g_NotificationContent g) as [n|]; [|done]. destruct Hl as [-> ->]. done. }
  rewrite Hnl, Hso0. cbn [guard err_bind]. rewrite Hr. cbn [err_bind]. rewrite He. cbn [err_bind].
  rewrite Hsp. cbn [err_bind fst snd]. rewrite <- Hd, <- Hru, <- Hu, <- Hen, <- Hdi. by destruct g.
Qed.

(** *** Validation changes nothing the second time *)

Definition trimmed (s : string) : Prop := TrimSpace s = s.

Lemma omit_list_default {A} (l : list A) : omit_list l ?? [] = l.
Proof. by destruct l. Qed.
Lemma omit_bool_idem o : omit_bool (omit_bool o) = omit_bool o.
Proof. by destruct o as [[]|]. Qed.
Lemma given_trim_omit s : TrimSpace (given (omit (TrimSpace s))) = TrimSpace s.
Proof. rewrite given_omit. apply TrimSpace_idem. Qed.
Lemma omit_omit s : omit (given (omit s)) = omit s.
Proof. by rewrite given_omit. Qed.

Lemma rule_attr_idem a b : rule_attr a = inr b -> rule_attr b = inr b.
Proof.
  unfold rule_attr. destruct (negb (attrKeyRe _)) eqn:E1; [done|]. destruct (negb (bool_decide _)) eqn:E2; [done|].
  intros [= <-]. cbn. by rewrite TrimSpace_idem, E1, E2.
Qed.

Lemma log_attr_idem a b : log_attr a = inr b -> log_attr b = inr b.
Proof.
  unfold log_attr. destruct (negb (attrKeyRe _)) eqn:E1; [done|]. destruct (negb (bool_decide _)) eqn:E2; [done|].
  intros [= <-]. cbn. by rewrite TrimSpace_idem, E1, E2.
Qed.

Lemma err_map_idem {A} (f : A -> string + A) l l' :
  (forall a b, f a = inr b -> f b = inr b) -> err_map f l = inr l' -> err_map f l' = inr l'.
Proof.
  intros Hf H. apply err_map_Forall2 in H. apply err_map_id. induction H; constructor; eauto.
Qed.

Lemma validateMetric_idem s s' : validateMetricRuleSpec ParseDuration s = inr s' -> validateMetricRuleSpec ParseDuration s' = inr s'.
Proof.
  unfold validateMetricRuleSpec. destruct (TrimSpace (ms_metric_name s) =s "") eqn:E1; [done|].
  destruct (ValidAggregation _) eqn:E2; [|done]. destruct (ValidOperator _) eqn:E3; [|done].
  destruct (ParseDuration _) eqn:E4; [|done]. cbn [negb]. intros H. apply err_bind_inr in H as (l & Hl & H).
  destruct (negb (TrimSpace _ =s "") && _) eqn:E5; [done|]. injection H as <-. cbn.
  rewrite TrimSpace_idem, E1, E2, E3. cbn [negb].
  assert (Ew : forall w, (if (if w =s "" then "5m" else w) =s "" then "5m" else if w =s "" then "5m" else w) = if w =s "" then "5m" else w)
    by (intros w; destruct (w =s "") eqn:Ew; [done|by rewrite Ew]).
  rewrite Ew, E4. cbn [negb]. rewrite omit_list_default, (err_map_idem _ _ _ rule_attr_idem Hl). cbn [err_bind].
  by rewrite given_trim_omit, E5, omit_bool_idem.
Qed.

Lemma validatePushed_idem s s' : validatePushedRuleSpec s = inr s' -> validatePushedRuleSpec s' = inr s'.
Proof. unfold validatePushedRuleSpec. destruct (negb _) eqn:E; [done|]. intros [= <-]. cbn. by rewrite E. Qed.

Lemma validateLog_idem s s' : validateLogRuleSpec s = inr s' -> validateLogRuleSpec s' = inr s'.
Proof.
  unfold validateLogRuleSpec. intros H. apply err_bind_inr in H as (c & Hc & H).
  destruct (negb (window_ok _)) eqn:Ew; [done|]. apply err_bind_inr in H as (l & Hl & H). injection H as <-. cbn.
  assert (Hc' : (if (c =s "") || (c =s "at_least") then inr "at_least" else
                 if c =s "fewer_than" then inr c else inl "log_spec.comparison must be 'at_least' or 'fewer_than'") = inr c).
  { destruct ((given _ =s "") || _); [by injection Hc as <-|]. destruct (given (ls_comparison s) =s "fewer_than") eqn:Ef; [|done].
    injection Hc as <-. by rewrite Ef; bool_prop; rewrite Ef. }
  rewrite Hc'. cbn [err_bind]. rewrite Ew, omit_list_default, (err_map_idem _ _ _ rule_attr_idem Hl). cbn [err_bind].
  rewrite TrimSpace_idem. do 2 f_equal. destruct (ls_threshold s <? 1)%Z eqn:E; [done|]. by rewrite E.
Qed.

Lemma validateAttribute_idem s s' : validateAttribute s = inr s' -> validateAttribute s' = inr s'.
Proof.
  unfold validateAttribute. destruct (_ <? 1)%Z eqn:E1; [done|]. destruct (negb (window_ok _)) eqn:E2; [done|].
  destruct (ta_attrs s) as [|a l] eqn:Ea; [done|]. intros H. apply err_bind_inr in H as (l' & Hl & H). injection H as <-.
  cbn [ta_threshold ta_window_seconds ta_attrs]. rewrite E1, E2. destruct l' as [|b l']; [apply err_map_Forall2 in Hl; by inversion Hl|].
  by rewrite (err_map_idem _ _ _ log_attr_idem Hl).
Qed.

Lemma validateError_idem s s' : validateError s = inr s' -> validateError s' = inr s'.
Proof.
  unfold validateError. destruct (_ <? 1)%Z eqn:E1; [done|]. intros H. apply err_bind_inr in H as (l' & Hl & H).
  injection H as <-. cbn. rewrite E1, omit_list_default. by rewrite (err_map_idem _ _ _ log_attr_idem Hl).
Qed.

Lemma environment_names_spec seen l l' : environment_names seen l = inr l' ->
  NoDup l' /\ Forall (fun e => trimmed e /\ (String.length e <= 128)%nat /\ e ∉ seen) l'.
Proof.
  revert seen l'. induction l as [|e l IH]; intros seen l'; cbn [environment_names]; [intros [= <-]; split; constructor|].
  destruct (128 <? String.length (TrimSpace e))%nat eqn:E; [done|]. apply Nat.ltb_ge in E.
  case_bool_decide as Hin; [apply IH|]. intros H. apply err_bind_inr in H as (r & Hr & H). injection H as <-.
  destruct (IH _ _ Hr) as [Hnd Hall]. rewrite Forall_forall in Hall. split.
  - constructor; [|done]. intros Hi. destruct (Hall _ Hi) as (_ & _ & Hn). apply Hn. by left.
  - constructor; [split; [apply TrimSpace_idem|done]|]. apply Forall_forall. intros x Hx.
    destruct (Hall _ Hx) as (? & ? & Hn). split; [done|]. split; [done|]. intros Hs. apply Hn. by apply list_elem_of_further.
Qed.

Lemma environment_names_id seen l :
  NoDup l -> Forall (fun e => trimmed e /\ (String.length e <= 128)%nat /\ e ∉ seen) l -> environment_names seen l = inr l.
Proof.
  revert seen. induction l as [|e l IH]; intros seen Hnd Hall; [done|]. cbn [environment_names].
  apply NoDup_cons in Hnd as [He Hnd]. apply Forall_cons in Hall as [(Ht & Hlen & Hs) Hall]. rewrite Ht.
  apply Nat.ltb_ge in Hlen. rewrite Hlen, bool_decide_eq_false_2 by done. rewrite IH; [done|done|].
  apply Forall_forall. intros x Hx. rewrite Forall_forall in Hall. destruct (Hall _ Hx) as (? & ? & ?).
  split; [done|]. split; [done|]. apply not_elem_of_cons. split; [by intros ->|done].
Qed.

Lemma environment_names_sorted l l' :
  environment_names [] l = inr l' -> environment_names [] (sort string_cmp l') = inr (sort string_cmp l').
Proof.
  intros H. destruct (environment_names_spec _ _ _ H) as [Hnd Hall]. apply environment_names_id.
  - by rewrite sort_perm.
  - by rewrite sort_perm.
Qed.

(** ** Stored rules *)

(** The request that repeats everything a rule says. *)
Definition full_input (r : AlertRule) : AlertRuleInput := {|
  ri_name := ar_name r; ri_description := Some (ar_description r); ri_severity := ar_severity r; ri_enabled := Some (ar_enabled r);
  ri_channel_ids := ar_channel_ids r; ri_signal := Some (ar_signal r); ri_spec := Some (ar_spec r); ri_log_spec := ar_log_spec r;
  ri_trace_error_spec := ar_trace_error_spec r; ri_trace_latency_spec := ar_trace_latency_spec r;
  ri_trace_volume_spec := ar_trace_volume_spec r; ri_trace_attribute_spec := ar_trace_attribute_spec r;
  ri_service_name := ar_service_name r; ri_integration_id := ar_integration_id r; ri_system_id := ar_system_id r;
  ri_group_id := ar_group_id r; ri_runbook := ar_runbook r; ri_title_template := ar_title_template r;
  ri_body_template := ar_body_template r; ri_notification_config := ar_notification_config r; ri_source := Some (ar_source r);
  ri_display_on_service := Some (ar_display_on_service r); ri_unit := ar_unit r; ri_resolve_mode := Some (ar_resolve_mode r);
  ri_environment_mode := ar_environment_mode r; ri_environments := ar_environments r |}.

(** The specification of a rule, and the fields it fills. *)
Definition fills (s : RuleSpec) (r : AlertRule) : Prop :=
  ar_spec r = (match s with SpecMetric s => s | _ => zero_spec end) /\
  ar_log_spec r = (match s with SpecLog s => Some s | _ => None end) /\
  ar_trace_error_spec r = (match s with SpecTraceError s => Some s | _ => None end) /\
  ar_trace_latency_spec r = (match s with SpecTraceLatency s => Some s | _ => None end) /\
  ar_trace_volume_spec r = (match s with SpecTraceVolume s => Some s | _ => None end) /\
  ar_trace_attribute_spec r = (match s with SpecTraceAttribute s => Some s | _ => None end).

Definition text_ok (o : option string) : Prop := o <> Some "" /\ trimmed (given o).
Definition id_ok (id : string) : Prop := uuid_Parse id = Some id /\ trimmed id /\ id <> "".
Definition opt_id_ok (o : option string) : Prop := match o with Some id => id_ok id | None => True end.

(** Its fields hold one specification, valid as it stands. *)
Definition spec_ok (r : AlertRule) : Prop :=
  exists s, fills s r /\
    rule_spec ParseDuration (ar_signal r) (ar_source r) (given (ar_service_name r)) (ar_integration_id r) (full_input r) = inr s.

Record well_formed (r : AlertRule) : Prop := {
  wf_name : trimmed (ar_name r) /\ ar_name r <> "";
  wf_description : trimmed (ar_description r);
  wf_texts : Forall text_ok [ar_service_name r; ar_runbook r; ar_unit r; ar_title_template r; ar_body_template r];
  wf_ids : Forall opt_id_ok [ar_integration_id r; ar_system_id r; ar_group_id r];
  wf_target : ar_system_id r = None \/ (ar_integration_id r = None /\ ar_service_name r = None);
  wf_severity : ValidSeverity (ar_severity r) = true;
  wf_channels : NoDup (ar_channel_ids r) /\ Forall id_ok (ar_channel_ids r);
  wf_templates : ValidateTemplate (given (ar_title_template r)) = true /\ ValidateTemplate (given (ar_body_template r)) = true;
  wf_content : liquid_ok (ar_notification_config r) /\ wire_content <$> ar_notification_config r = ar_notification_config r;
  wf_environments :
    (ar_environment_mode r = Some "each" /\ ar_environments r = Some []) \/
    (ar_environment_mode r = Some "only" /\ ar_integration_id r <> None /\
     exists l, ar_environments r = Some l /\ l <> [] /\ sort string_cmp l = l /\ environment_names [] l = inr l);
  wf_resolve : ar_resolve_mode r = "auto" \/ ar_resolve_mode r = "manual";
  wf_source : ar_source r = "telemetry" \/ (ar_source r = "pushed" /\ ar_signal r = "metric");
  wf_spec : spec_ok r
}.

Lemma rule_spec_signal signal source svc int req s :
  rule_spec ParseDuration signal source svc int req = inr s ->
  signal = "metric" \/ ((signal = "log" \/ signal = "trace") /\ source <> "pushed").
Proof.
  unfold rule_spec. destruct (signal =s "metric") eqn:E1; [bool_prop; by left|].
  destruct (signal =s "log") eqn:E2; [destruct (source =s "pushed") eqn:Ep; [done|]; bool_prop; right; auto|].
  destruct (signal =s "trace") eqn:E3; [destruct (source =s "pushed") eqn:Ep; [done|]; bool_prop; right; auto|done].
Qed.

(** A specification is built for the signal it is of. *)
Lemma rule_spec_of signal source svc int req s :
  rule_spec ParseDuration signal source svc int req = inr s -> spec_signal s = signal.
Proof.
  unfold rule_spec. intros H.
  repeat match type of H with
  | (let* _ := _ in _) = inr _ => apply err_bind_inr in H as (? & _ & H)
  | (if ?b then _ else _) = inr _ => destruct b eqn:?
  | match ?o with _ => _ end = inr _ => destruct o eqn:?
  | inl _ = inr _ => discriminate H
  end; injection H as <-; bool_prop; by subst.
Qed.

(** The specification read back from a rule is the one that was built. *)
Lemma rule_spec_idem signal source svc int req s r :
  rule_spec ParseDuration signal source svc int req = inr s -> fills s r ->
  rule_spec ParseDuration signal source svc int (full_input r) = inr s.
Proof.
  intros Hs (F1 & F2 & F3 & F4 & F5 & F6). unfold rule_spec in *. cbn [full_input ri_spec ri_log_spec ri_trace_latency_spec
    ri_trace_volume_spec ri_trace_attribute_spec ri_trace_error_spec default from_option id].
  destruct (signal =s "metric").
  { destruct (source =s "pushed"); [destruct (svc =s ""); [done|]|]; apply err_bind_inr in Hs as (s' & Hs' & [= <-]); rewrite F1.
    - by rewrite (validatePushed_idem _ _ Hs').
    - by rewrite (validateMetric_idem _ _ Hs'). }
  destruct (signal =s "log").
  { destruct (source =s "pushed"); [done|]. destruct (ri_log_spec req) as [l|]; [|done].
    apply err_bind_inr in Hs as (s' & Hs' & Hs). destruct (_ && _) eqn:E in Hs; [done|]. injection Hs as <-. rewrite F2.
    rewrite (validateLog_idem _ _ Hs'). cbn [err_bind]. by rewrite E. }
  destruct (signal =s "trace"); [|done]. destruct (source =s "pushed"); [done|]. destruct (is_none int && _); [done|].
  destruct (ri_trace_latency_spec req) as [l|].
  { apply err_bind_inr in Hs as (s' & Hs' & [= <-]). rewrite F4. unfold validateLatency in *. destruct (_ <? 1)%Z eqn:E; [done|].
    injection Hs' as <-. by rewrite E. }
  destruct (ri_trace_volume_spec req) as [l|].
  { apply err_bind_inr in Hs as (s' & Hs' & [= <-]). rewrite F4, F5. unfold validateVolume in *. destruct (_ <? 1)%Z eqn:E; [done|].
    destruct (negb _) eqn:E'; [done|]. injection Hs' as <-. by rewrite E, E'. }
  destruct (ri_trace_attribute_spec req) as [l|].
  { apply err_bind_inr in Hs as (s' & Hs' & [= <-]). rewrite F4, F5, F6. by rewrite (validateAttribute_idem _ _ Hs'). }
  destruct (ri_trace_error_spec req) as [l|]; [|done].
  apply err_bind_inr in Hs as (s' & Hs' & [= <-]). rewrite F4, F5, F6, F3. by rewrite (validateError_idem _ _ Hs').
Qed.

Lemma parse_id_ok what o i :
  (forall s id, uuid_Parse s = Some id -> id_ok id) -> parse_id uuid_Parse what o = inr i -> opt_id_ok i.
Proof.
  intros Hc. unfold parse_id. destruct (TrimSpace (given o) =s ""); [by intros [= <-]|].
  destruct (uuid_Parse _) as [id|] eqn:E; [|done]. intros [= <-]. by eapply Hc.
Qed.

Lemma parse_id_id what o : opt_id_ok o -> parse_id uuid_Parse what o = inr o.
Proof.
  unfold parse_id. destruct o as [id|]; [|done]. intros (Hp & Ht & Hne).
  unfold given. cbn. rewrite Ht. apply String.eqb_neq in Hne. by rewrite Hne, Hp.
Qed.

Lemma text_ok_omit s : trimmed s -> text_ok (omit s).
Proof. intros Hs. split; [apply omit_nonempty|by rewrite given_omit]. Qed.

Lemma wire_content_idem n : wire_content (wire_content n) = wire_content n.
Proof. unfold wire_content. cbn. by rewrite !omit_omit. Qed.

(** [updateAlertRule] of handlers_alerts.go for a caller that may change the rule. *)
Definition Put (now : string) (row : AlertRule) (req : AlertRuleInput) : string + AlertRule :=
  let* g := buildRule req in inr (UpdateRule now row g).

(** [createAlertRule] for a caller that may make the rule. *)
Definition Post (id org now : string) (seconds : Z) (req : AlertRuleInput) : string + AlertRule :=
  let* g := buildRule req in inr (CreateRule id org now seconds g).

(** The signal a request is for. *)
Definition request_signal (req : AlertRuleInput) : string := nonempty (TrimSpace (given (ri_signal req))) "metric".

(** A rule with another state, other channels and another time of change. *)
Definition changed (now : string) (enabled : bool) (channels : list string) (r : AlertRule) : AlertRule := {|
  ar_id := ar_id r; ar_environment_mode := ar_environment_mode r; ar_environments := ar_environments r;
  ar_organization_id := ar_organization_id r; ar_integration_id := ar_integration_id r; ar_system_id := ar_system_id r;
  ar_service_name := ar_service_name r; ar_group_id := ar_group_id r; ar_name := ar_name r; ar_description := ar_description r;
  ar_runbook := ar_runbook r; ar_signal := ar_signal r; ar_spec := ar_spec r; ar_log_spec := ar_log_spec r;
  ar_trace_error_spec := ar_trace_error_spec r; ar_trace_latency_spec := ar_trace_latency_spec r;
  ar_trace_volume_spec := ar_trace_volume_spec r; ar_trace_attribute_spec := ar_trace_attribute_spec r;
  ar_severity := ar_severity r; ar_evaluation_seconds := ar_evaluation_seconds r; ar_enabled := enabled;
  ar_source := ar_source r; ar_display_on_service := ar_display_on_service r; ar_unit := ar_unit r;
  ar_resolve_mode := ar_resolve_mode r; ar_channel_ids := channels; ar_title_template := ar_title_template r;
  ar_body_template := ar_body_template r; ar_notification_config := ar_notification_config r;
  ar_created_at := ar_created_at r; ar_updated_at := now |}.

(** What is decoded from the full request of a well-formed rule. *)
Definition decoded (r : AlertRule) (s : RuleSpec) : GoRule := {|
  g_IntegrationID := ar_integration_id r; g_SystemID := ar_system_id r; g_ServiceName := given (ar_service_name r);
  g_GroupID := ar_group_id r; g_Name := ar_name r; g_Description := ar_description r; g_Runbook := given (ar_runbook r);
  g_Severity := ar_severity r; g_Signal := ar_signal r; g_Enabled := ar_enabled r; g_ChannelIDs := ar_channel_ids r;
  g_TitleTemplate := given (ar_title_template r); g_BodyTemplate := given (ar_body_template r);
  g_NotificationContent := ar_notification_config r; g_Source := ar_source r; g_DisplayOnService := ar_display_on_service r;
  g_Unit := given (ar_unit r); g_ResolveMode := ar_resolve_mode r; g_EnvironmentMode := given (ar_environment_mode r);
  g_Environments := ar_environments r ?? []; g_Spec := s |}.

Lemma valid_trimmed (P : string -> bool) l s :
  (forall x, P x = bool_decide (x ∈ l)) -> Forall (fun x => TrimSpace x = x /\ (x =s "") = false) l ->
  P s = true -> TrimSpace s = s /\ (s =s "") = false.
Proof. intros HP Hl Hs. rewrite HP in Hs. apply bool_decide_eq_true in Hs. rewrite Forall_forall in Hl. by apply Hl. Qed.

Lemma severity_trimmed s : ValidSeverity s = true -> TrimSpace s = s /\ (s =s "") = false.
Proof.
  apply (valid_trimmed ValidSeverity ["info"; "warning"; "critical"]); [done|].
  repeat first [apply Forall_cons_2 | apply Forall_nil_2]; by_compute || (split; by_compute).
Qed.

Lemma channels_id l : Forall id_ok l -> parseChannelIDs uuid_Parse l = inr l.
Proof.
  intros H. apply err_map_id. induction H as [|id l (Hp & Ht & _) _ IH]; constructor; [|done]. cbn. by rewrite Ht, Hp.
Qed.

Lemma Built_decoded r s :
  well_formed r -> fills s r ->
  rule_spec ParseDuration (ar_signal r) (ar_source r) (given (ar_service_name r)) (ar_integration_id r) (full_input r) = inr s ->
  Built (full_input r) (decoded r s).
Proof.
  intros [[Hn Hn0] Hd Htx Hid Htg Hsev [Hch0 Hch] [Ht Hb] [Hl Hc] Hen Hr Hso _] Hf Hs.
  rewrite !Forall_cons in Htx. destruct Htx as ((_ & Tsv) & (_ & Trb) & (_ & Tun) & (_ & Tti) & (_ & Tbo) & _).
  rewrite !Forall_cons in Hid. destruct Hid as (Ii & Is & Ig & _).
  destruct (severity_trimmed _ Hsev) as [Hs1 Hs2].
  assert (Hsig : TrimSpace (ar_signal r) = ar_signal r /\ (ar_signal r =s "") = false).
  { destruct (rule_spec_signal _ _ _ _ _ _ Hs) as [->|[[->| ->] _]]; split; by_compute. }
  assert (Hsrc : TrimSpace (ar_source r) = ar_source r /\ (ar_source r =s "") = false /\ ValidSource (ar_source r) = true).
  { destruct Hso as [->|[-> _]]; repeat split; by_compute. }
  destruct Hsig as [Hg1 Hg2], Hsrc as (Ho1 & Ho2 & Ho3).
  split; unfold decoded, full_input, nonempty; cbn -[rule_spec resolve_mode environment_scope parse_id parseChannelIDs];
    try done; try (symmetry; assumption).
  all: try (by apply String.eqb_neq).
  all: try (by apply channels_id).
  all: try (by apply parse_id_id).
  - by rewrite Hs1, Hs2.
  - destruct Htg as [->|[-> ->]]; [done|]. cbn. by rewrite orb_true_r.
  - cbn. by rewrite Hg1, Hg2.
  - cbn. by rewrite Ho1, Ho2.
  - unfold resolve_mode. cbn. by destruct Hr as [-> | ->].
  - unfold environment_scope. cbn -[environment_names].
    destruct Hen as [[-> ->]|(-> & Hi & l & -> & Hne & Hsort & Hnames)]; [by_compute|]. cbn -[environment_names].
    destruct (ar_integration_id r); [|done]. rewrite Hnames. cbn. destruct l; [done|]. by rewrite Hsort.
Qed.

Lemma dedupe_ok l : Forall id_ok l -> NoDup (dedupe l) /\ Forall id_ok (dedupe l).
Proof.
  intros H. destruct (dedupe_from_spec [] l) as [H1 H2]. split; [done|]. apply Forall_forall. intros x [Hx _]%H2.
  rewrite Forall_forall in H. by apply H.
Qed.

Lemma fills_inj s s' r : fills s r -> fills s' r -> s = s'.
Proof.
  intros (F1 & F2 & F3 & F4 & F5 & F6) (G1 & G2 & G3 & G4 & G5 & G6). rewrite F1 in G1. rewrite F2 in G2. rewrite F3 in G3.
  rewrite F4 in G4. rewrite F5 in G5. rewrite F6 in G6. destruct s, s'; congruence.
Qed.

Lemma omit_given_ok o : text_ok o -> omit (given o) = o.
Proof. intros [H _]. by apply omit_given. Qed.

(** Writing back what was decoded changes the row in nothing but its state,
    channels and time of change. *)
Lemma UpdateRule_decoded now r s enabled channels :
  well_formed r -> fills s r -> Forall id_ok channels -> NoDup channels ->
  UpdateRule now r (decoded (changed now enabled channels r) s) = changed now enabled channels r.
Proof.
  intros [_ _ Htx _ _ _ _ _ [_ Hc] Hen Hr Hso (s' & Hf' & Hs')] Hf Hch Hnd.
  rewrite (fills_inj _ _ _ Hf' Hf) in Hs'. apply rule_spec_of in Hs'. clear s' Hf'. destruct Hf as (F1 & F2 & F3 & F4 & F5 & F6).
  rewrite !Forall_cons in Htx. destruct Htx as (Tsv & Trb & Tun & Tti & Tbo & _).
  unfold UpdateRule, stored, decoded, changed. cbn -[scan_spec]. rewrite <- Hs', scan_spec_own. cbn. rewrite Hs'.
  rewrite !omit_given_ok by done. unfold dedupe. rewrite dedupe_from_id by (try done; set_solver).
  rewrite Hc. unfold scan_metric, scan_log, scan_error, scan_latency, scan_volume, scan_attribute.
  rewrite <- F1, <- F2, <- F3, <- F4, <- F5, <- F6.
  assert (E1 : (if (ar_source r =s "pushed") && (ar_signal r =s "metric") then "pushed" else "telemetry") = ar_source r)
    by (destruct Hso as [->|[-> ->]]; by_compute).
  assert (E2 : (if ar_resolve_mode r =s "manual" then "manual" else "auto") = ar_resolve_mode r) by (destruct Hr as [-> | ->]; by_compute).
  assert (E3 : Some (if given (ar_environment_mode r) =s "only" then "only" else "each") = ar_environment_mode r)
    by (destruct Hen as [[-> _]|[-> _]]; by_compute).
  assert (E4 : Some (if given (ar_environment_mode r) =s "only" then ar_environments r ?? [] else []) = ar_environments r).
  { destruct Hen as [[-> ->]|(-> & _ & l & -> & _)]; done. }
  unfold given in E3, E4. by rewrite E1, E2, E3, E4.
Qed.

Lemma well_formed_changed now enabled channels r :
  well_formed r -> Forall id_ok channels -> NoDup channels -> well_formed (changed now enabled channels r).
Proof.
  intros [H1 H2 H3 H4 H5 H6 _ H8 H9 H10 H11 H12 (s & Hf & Hs)] Hc Hn.
  constructor; try assumption; [by split|]. exists s. split; [exact Hf|]. exact Hs.
Qed.

(** A complete request does what it says. *)
Lemma Put_full now r enabled channels :
  well_formed r -> Forall id_ok channels -> NoDup channels ->
  Put now r (full_input (changed now enabled channels r)) = inr (changed now enabled channels r).
Proof.
  intros Hw Hc Hn. pose proof (well_formed_changed now enabled channels r Hw Hc Hn) as Hw'.
  destruct (wf_spec _ Hw) as (s & Hf & Hs).
  unfold Put. rewrite (Built_buildRule _ _ (Built_decoded _ s Hw' Hf Hs)). cbn [err_bind]. f_equal.
  by apply UpdateRule_decoded.
Qed.

Lemma resolve_mode_ok signal req m : resolve_mode signal req = inr m -> m = "auto" \/ m = "manual".
Proof.
  unfold resolve_mode. set (t := TrimSpace _). destruct ((t =s "auto") || (t =s "manual")) eqn:Em.
  - intros [= <-]. apply orb_true_iff in Em as [Em|Em]; bool_prop; auto.
  - destruct (t =s ""); [|done]. intros [= <-]. destruct ((signal =s "log") || (signal =s "trace")); auto.
Qed.

Lemma environment_scope_ok int req mode envs : environment_scope int req = inr (mode, envs) ->
  (mode = "each" /\ envs = []) \/
  (mode = "only" /\ int <> None /\ envs <> [] /\ sort string_cmp envs = envs /\ environment_names [] envs = inr envs).
Proof.
  unfold environment_scope. set (m := TrimSpace _). destruct ((m =s "") || (m =s "each")); [intros [= <- <-]; by left|].
  destruct (m =s "only"); [|done]. destruct int; [|done]. intros H. apply err_bind_inr in H as (l & Hl & H).
  destruct l as [|e l]; [done|]. assert (Hne : e :: l <> []) by done. revert H Hl Hne. generalize (e :: l). clear e l.
  intros l H Hl Hne. injection H as <- <-. right. split; [done|]. split; [done|]. split.
  - intros E. apply Hne. apply (f_equal length) in E. rewrite sort_length in E. by destruct l.
  - split; [exact (sort_id string_cmp _ (sort_sorted string_cmp _))|by apply environment_names_sorted with (1 := Hl)].
Qed.

Lemma stored_fills req g id org created now signal seconds :
  Built req g -> signal = g_Signal g -> fills (g_Spec g) (stored id org created now signal seconds g).
Proof.
  intros B ->. pose proof (rule_spec_of _ _ _ _ _ _ (bu_spec _ _ B)) as E. unfold fills, stored. cbn -[scan_spec].
  rewrite <- E, scan_spec_own. done.
Qed.

(** A rule written to a row of its own signal is well formed. *)
Lemma stored_well_formed req g id org created now signal seconds :
  (forall s id, uuid_Parse s = Some id -> id_ok id) ->
  Built req g -> signal = g_Signal g -> well_formed (stored id org created now signal seconds g).
Proof.
  intros Hu B Esig. pose proof (stored_fills req g id org created now signal seconds B Esig) as Hfill. subst signal. destruct B as [Bn Bn0 Bs Bs0 Bc Bi By_ Bg B1 Bv Bt Bt0 Bb Bb0 Bnc Bl Bsi Bso Bso0 Br Be Bsp Bd Bru Bu Ben Bdi].
  assert (Hsig := rule_spec_signal _ _ _ _ _ _ Bsp).
  assert (Hsrc : (if (g_Source g =s "pushed") && (g_Signal g =s "metric") then "pushed" else "telemetry") = g_Source g).
  { unfold ValidSource in Bso0. apply bool_decide_eq_true in Bso0. rewrite !elem_of_cons, elem_of_nil in Bso0.
    destruct Bso0 as [E|[E|[]]]; rewrite E in *; [by_compute|]. destruct Hsig as [->|[_ Hp]]; [by_compute|done]. }
  assert (Hres := resolve_mode_ok _ _ _ Br).
  assert (Henv := environment_scope_ok _ _ _ _ Be).
  constructor; unfold spec_ok; cbn -[scan_spec]; rewrite ?given_omit.
  - split; [rewrite Bn; apply TrimSpace_idem|by apply String.eqb_neq].
  - rewrite Bd. apply TrimSpace_idem.
  - repeat constructor; apply text_ok_omit; rewrite ?Bv, ?Bru, ?Bu, ?Bt, ?Bb; apply TrimSpace_idem.
  - repeat apply Forall_cons_2; try apply Forall_nil_2; eapply parse_id_ok; eauto.
  - destruct (g_SystemID g); [right|by left]. cbn in B1. apply andb_true_iff in B1 as [Hi Hv].
    destruct (g_IntegrationID g); [done|]. split; [done|]. unfold omit. by rewrite Hv.
  - done.
  - apply dedupe_ok. apply err_map_Forall2 in Bc. clear -Bc Hu. induction Bc as [|x y l l' Hx _ IH]; constructor; [|done].
    destruct (uuid_Parse (TrimSpace x)) as [id|] eqn:E; [|done]. injection Hx as <-. by eapply Hu.
  - done.
  - rewrite Bnc in *. destruct (ri_notification_config req) as [n|]; [|done]. cbn in *. rewrite !given_omit.
    split; [done|]. by rewrite wire_content_idem.
  - destruct Henv as [[-> ->]|(-> & Hi & He & Hs & Hn)]; [by left|]. right. split; [done|]. split; [done|]. eauto.
  - destruct Hres as [-> | ->]; auto.
  - rewrite Hsrc. unfold ValidSource in Bso0. apply bool_decide_eq_true in Bso0. rewrite !elem_of_cons, elem_of_nil in Bso0.
    destruct Bso0 as [E|[E|[]]]; rewrite E in *; [by left|]. destruct Hsig as [->|[_ Hp]]; [by right|done].
  - exists (g_Spec g). split; [exact Hfill|]. rewrite Hsrc. eapply rule_spec_idem; [exact Bsp|exact Hfill].
Qed.

(** The specification of a rule written to a row of another signal is not. *)
Lemma stored_ill_formed req g id org created now signal seconds :
  Built req g -> signal <> g_Signal g -> ~ spec_ok (stored id org created now signal seconds g).
Proof.
  intros B Hne (s & (_ & F2 & _) & Hs). pose proof (rule_spec_of _ _ _ _ _ _ (bu_spec _ _ B)) as E.
  pose proof (rule_spec_of _ _ _ _ _ _ Hs) as Es.
  assert (Hsrc : signal = "metric" -> ar_source (stored id org created now signal seconds g) = "telemetry").
  { intros ->. unfold stored. cbn. destruct (g_Signal g =s "metric") eqn:Em; [bool_prop; congruence|by rewrite andb_false_r]. }
  rewrite <- E in Hne. clear B E.
  destruct (rule_spec_signal _ _ _ _ _ _ Hs) as [E|[[E|E] Hp]]; cbn in E; subst signal;
    unfold rule_spec in Hs; cbn -[stored validateLogRuleSpec] in Hs.
  - rewrite Hsrc in Hs by done. cbn in Hs. by destruct (g_Spec g).
  - destruct s as [|s| | | |]; try done. assert (Hc : ls_comparison s = None).
    { clear Hs. cbn in F2. injection F2 as <-. by destruct (g_Spec g). }
    destruct (ar_source _ =s "pushed"); [done|]. rewrite F2 in Hs.
    apply err_bind_inr in Hs as (s' & Hs & Hs'). destruct (_ && _) in Hs'; [done|]. injection Hs' as ->.
    unfold validateLogRuleSpec in Hs. cbv zeta in Hs. apply err_bind_inr in Hs as (c & _ & Hs). destruct (negb _); [done|].
    apply err_bind_inr in Hs as (l & _ & [= Hs]). by rewrite <- Hs in Hc.
  - destruct (ar_source _ =s "pushed"); [done|]. destruct (is_none _ && _); [done|]. unfold stored in Hs. destruct (g_Spec g); done.
Qed.

Lemma Put_inv now row req r : Put now row req = inr r -> exists g, Built req g /\ r = UpdateRule now row g.
Proof. unfold Put. intros H. apply err_bind_inr in H as (g & Hg & [= <-]). exists g. split; [by apply buildRule_Built|done]. Qed.

Lemma Built_signal req g : Built req g -> g_Signal g = request_signal req.
Proof. intros B. exact (bu_signal _ _ B). Qed.

(** A PUT stores a well-formed rule exactly when it is for the signal of the row. *)
Lemma Put_well_formed_iff now row req r :
  (forall s id, uuid_Parse s = Some id -> id_ok id) ->
  Put now row req = inr r -> (well_formed r <-> request_signal req = ar_signal row).
Proof.
  intros Hu (g & B & ->)%Put_inv. rewrite <- (Built_signal _ _ B). split.
  - intros Hw%wf_spec. destruct (decide (ar_signal row = g_Signal g)) as [|Hne]; [done|]. by destruct (stored_ill_formed _ _ _ _ _ _ _ _ B Hne Hw).
  - intros E. by apply (stored_well_formed req).
Qed.

Lemma Post_well_formed id org now seconds req r :
  (forall s id, uuid_Parse s = Some id -> id_ok id) -> Post id org now seconds req = inr r -> well_formed r.
Proof.
  intros Hu H. unfold Post in H. apply err_bind_inr in H as (g & Hg%buildRule_Built & [= <-]).
  apply (stored_well_formed req); [done..|]. destruct (rule_spec_signal _ _ _ _ _ _ (bu_spec _ _ Hg)) as [-> |[[-> | ->] _]]; done.
Qed.

(** C7. A rule made by a POST is well formed, whatever the request says: one target,
    valid identifiers, channels listed once, texts trimmed and never empty, the
    environments of a restricted check named, sorted and distinct, and the one
    specification of its signal valid as it stands.  A PUT stores a well-formed rule
    exactly when its signal is the one of the row: the statement writes the
    specification of the request and keeps the signal, and what is read back under
    another signal is a rule no request could have asked for. *)
Theorem stored_rules_well_formed :
  (forall s id, uuid_Parse s = Some id -> id_ok id) ->
  (forall id org now seconds req r, Post id org now seconds req = inr r -> well_formed r) /\
  (forall now row req r, Put now row req = inr r -> (well_formed r <-> request_signal req = ar_signal row)).
Proof.
  intros Hu. split; intros *; [by apply Post_well_formed|by apply Put_well_formed_iff].
Qed.

(** A request that repeats everything a rule says, with another state or other
    channels, changes that and nothing else: sending the whole rule back is how a
    client of a replacing PUT leaves the rest alone. *)
Theorem complete_put_keeps_rule now r enabled channels :
  well_formed r -> Forall id_ok channels -> NoDup channels ->
  Put now r (full_input (changed now enabled channels r)) = inr (changed now enabled channels r).
Proof. exact (Put_full now r enabled channels). Qed.

(** *** Requests that decode alike *)

Lemma Put_inv_own now row req r : Put now row req = inr r -> spec_ok r ->
  exists g, Built req g /\ g_Signal g = ar_signal row /\ r = UpdateRule now row g /\ fills (g_Spec g) r.
Proof.
  intros (g & B & ->)%Put_inv Hw. exists g. destruct (decide (ar_signal row = g_Signal g)) as [E|Hne].
  - split; [done|]. split; [done|]. split; [done|]. by apply (stored_fills req).
  - by destruct (stored_ill_formed _ _ _ _ _ _ _ _ B Hne Hw).
Qed.

Lemma Put_intro now row req g : Built req g -> Put now row req = inr (UpdateRule now row g).
Proof. intros Hb. unfold Put. by rewrite (Built_buildRule _ _ Hb). Qed.

(** A request is answered like another one that says the same with other omissions. *)
Lemma Built_like req0 req g :
  Built req0 g ->
  TrimSpace (ri_name req) = TrimSpace (ri_name req0) -> ri_severity req = ri_severity req0 -> ri_channel_ids req = ri_channel_ids req0 ->
  Forall2 (fun o o0 => TrimSpace (given o) = TrimSpace (given o0))
    [ri_integration_id req; ri_system_id req; ri_group_id req; ri_service_name req; ri_title_template req; ri_body_template req;
     ri_description req; ri_runbook req; ri_unit req]
    [ri_integration_id req0; ri_system_id req0; ri_group_id req0; ri_service_name req0; ri_title_template req0; ri_body_template req0;
     ri_description req0; ri_runbook req0; ri_unit req0] ->
  ri_notification_config req = ri_notification_config req0 -> ri_enabled req ?? true = ri_enabled req0 ?? true ->
  ri_display_on_service req ?? false = ri_display_on_service req0 ?? false ->
  nonempty (TrimSpace (given (ri_signal req))) "metric" = g_Signal g ->
  nonempty (TrimSpace (given (ri_source req))) "telemetry" = g_Source g ->
  resolve_mode (g_Signal g) req = inr (g_ResolveMode g) ->
  environment_scope (g_IntegrationID g) req = inr (g_EnvironmentMode g, g_Environments g) ->
  rule_spec ParseDuration (g_Signal g) (g_Source g) (g_ServiceName g) (g_IntegrationID g) req = inr (g_Spec g) ->
  Built req g.
Proof.
  intros [Bn Bn0 Bs Bs0 Bc Bi By_ Bg B1 Bv Bt Bt0 Bb Bb0 Bnc Bl Bsi Bso Bso0 Br Be Bsp Bd Bru Bu Ben Bdi]
    Hn Hs Hc Hall Hnc Hen Hdi Hsi Hso Hr He Hsp.
  repeat match goal with H : Forall2 _ (_ :: _) _ |- _ => apply Forall2_cons in H as [? H] end.
  unfold parse_id in *. split; unfold parse_id; try congruence; repeat match goal with H : TrimSpace (given _) = _ |- _ => rewrite H; clear H end; congruence.
Qed.

(** The request of a rule with another state and other channels. *)
Lemma Put_like now r req enabled channels :
  well_formed r -> Forall id_ok channels -> NoDup channels ->
  (forall s, fills s r -> Built (full_input (changed now enabled channels r)) (decoded (changed now enabled channels r) s) ->
     Built req (decoded (changed now enabled channels r) s)) ->
  Put now r req = inr (changed now enabled channels r).
Proof.
  intros Hw Hc Hn H. destruct (wf_spec _ Hw) as (s & Hf & Hs).
  pose proof (Built_decoded _ s (well_formed_changed now enabled channels r Hw Hc Hn) Hf Hs) as B. apply H in B; [|done].
  rewrite (Put_intro _ r _ _ B). f_equal. by apply UpdateRule_decoded.
Qed.
End facts.

(** ** A library and rules to evaluate on *)

Module RuleExamples.

(** A library that knows the identifiers below and accepts every text. *)
Definition ids : list string := ["c1"; "c2"; "int"; "sys"; "team"].
Definition uuid_Parse (s : string) : option string := if bool_decide (s ∈ ids) then Some s else None.
Definition valid (_ : string) : bool := true.
Abbreviation Put := (Put uuid_Parse valid valid valid).
Abbreviation Post := (Post uuid_Parse valid valid valid).
Abbreviation well_formed := (well_formed uuid_Parse valid valid valid).

Lemma uuid_law s id : uuid_Parse s = Some id -> id_ok uuid_Parse id.
Proof.
  unfold uuid_Parse. case_bool_decide as H; [|done]. intros [= <-]. revert s H. apply Forall_forall.
  repeat (apply Forall_cons_2; [split; [by_compute|split; [by_compute|done]]|]). apply Forall_nil_2.
Qed.

Definition content : NotificationContent := {|
  nc_service := Some true; nc_integration := Some false; nc_service_metadata := Some false; nc_integration_metadata := Some false;
  nc_check := Some true; nc_email_subject := Some "{{ rule.name }}"; nc_email_body := None; nc_slack_title := None; nc_slack_body := None |}.

(** A rule that evaluates a metric of the service [checkout]. *)
Definition rule : AlertRule := {|
  ar_id := "r1"; ar_environment_mode := Some "each"; ar_environments := Some []; ar_organization_id := "org";
  ar_integration_id := None; ar_system_id := None; ar_service_name := Some "checkout"; ar_group_id := Some "team";
  ar_name := "Queue depth"; ar_description := "grows at night"; ar_runbook := Some "restart"; ar_signal := "metric";
  ar_spec := {| ms_metric_name := "queue.depth"; ms_aggregation := "max"; ms_operator := "gt"; ms_threshold := Num 1005 1;
                ms_for_window := "5m"; ms_attrs := Some [{| ra_key := "queue"; ra_op := "eq"; ra_value := "orders" |}];
                ms_split_by := None; ms_fire_on_no_data := Some true |};
  ar_log_spec := None; ar_trace_error_spec := None; ar_trace_latency_spec := None; ar_trace_volume_spec := None;
  ar_trace_attribute_spec := None; ar_severity := "critical"; ar_evaluation_seconds := 60; ar_enabled := true;
  ar_source := "telemetry"; ar_display_on_service := true; ar_unit := Some "msgs"; ar_resolve_mode := "auto";
  ar_channel_ids := ["c1"; "c2"]; ar_title_template := Some "{{ .Name }}"; ar_body_template := None;
  ar_notification_config := Some content; ar_created_at := "t0"; ar_updated_at := "t1" |}.

(** What a client might send for it: untrimmed, a channel twice. *)
Definition request : AlertRuleInput := {|
  ri_name := " Queue depth "; ri_description := Some "grows at night"; ri_severity := "critical"; ri_enabled := None;
  ri_channel_ids := ["c1"; " c2"; "c1"]; ri_signal := None; ri_spec := Some (ar_spec rule); ri_log_spec := None;
  ri_trace_error_spec := None; ri_trace_latency_spec := None; ri_trace_volume_spec := None; ri_trace_attribute_spec := None;
  ri_service_name := Some "checkout"; ri_integration_id := Some ""; ri_system_id := None; ri_group_id := Some "team";
  ri_runbook := Some "restart"; ri_title_template := Some "{{ .Name }}"; ri_body_template := Some " ";
  ri_notification_config := Some content; ri_source := Some "telemetry"; ri_display_on_service := Some true; ri_unit := Some "msgs";
  ri_resolve_mode := None; ri_environment_mode := None; ri_environments := None |}.

(** A request for the logs of the same service. *)
Definition log_request : AlertRuleInput := {|
  ri_name := "Queue depth"; ri_description := None; ri_severity := "critical"; ri_enabled := None; ri_channel_ids := ["c1"];
  ri_signal := Some "log"; ri_spec := None;
  ri_log_spec := Some {| ls_min_severity := 17; ls_body_contains := "refused"; ls_attrs := None; ls_threshold := 5; ls_window_seconds := 600; ls_comparison := None |};
  ri_trace_error_spec := None; ri_trace_latency_spec := None; ri_trace_volume_spec := None; ri_trace_attribute_spec := None;
  ri_service_name := Some "checkout"; ri_integration_id := None; ri_system_id := None; ri_group_id := None;
  ri_runbook := None; ri_title_template := None; ri_body_template := None; ri_notification_config := None; ri_source := None;
  ri_display_on_service := None; ri_unit := None; ri_resolve_mode := None; ri_environment_mode := None; ri_environments := None |}.

(** Sent over the metric rule it leaves a rule without a metric. *)
Example metric_rule_lost :
  match Put "t1" rule log_request with
  | inr r => (ar_signal r, ms_metric_name (ar_spec r), ms_operator (ar_spec r), n_mant (ms_threshold (ar_spec r)), ar_log_spec r)
  | _ => ("", "", "", 0%Z, None)
  end = ("metric", "", "", 5%Z, None).
Proof. by_compute. Qed.

Lemma stored_rules_well_formed_witness :
  (forall s id, uuid_Parse s = Some id -> id_ok uuid_Parse id) /\
  match Post "r1" "org" "t1" 60 request with inr r => well_formed r | _ => False end /\
  Put "t1" rule request = inr rule /\ well_formed rule /\
  match Put "t1" rule log_request with inr r => ~ well_formed r | _ => False end.
Proof.
  destruct (stored_rules_well_formed uuid_Parse valid valid valid uuid_law) as [H1 H2].
  assert (E : Put "t1" rule request = inr rule) by by_compute.
  split; [exact uuid_law|]. split; [|split; [exact E|split; [by apply (H2 _ _ _ _ E)|]]].
  - destruct (Post _ _ _ _ _) as [m|r] eqn:Ep; [vm_compute in Ep; discriminate Ep|exact (H1 _ _ _ _ _ _ Ep)].
  - destruct (Put "t1" rule log_request) as [m|r] eqn:Ep; [vm_compute in Ep; discriminate Ep|].
    intros Hw. apply (H2 _ _ _ _ Ep) in Hw. vm_compute in Hw. discriminate Hw.
Defined.

(** A rule the server gives back is well formed. *)
Lemma wf_by_put r : request_signal (full_input r) = ar_signal r -> Put (ar_updated_at r) r (full_input r) = inr r -> well_formed r.
Proof. intros E H. by apply (Put_well_formed_iff uuid_Parse valid valid valid _ r (full_input r) r uuid_law H). Qed.

Lemma rule_wf : well_formed rule.
Proof. apply wf_by_put; by_compute. Qed.

Lemma channels_ok l : bool_decide (Forall (fun c => c ∈ ids) l) = true -> Forall (id_ok uuid_Parse) l.
Proof.
  intros H. apply bool_decide_eq_true in H. eapply Forall_impl; [exact H|]. intros c Hc. apply (uuid_law c).
  unfold uuid_Parse. by rewrite bool_decide_eq_true_2.
Qed.

Lemma complete_put_keeps_rule_witness :
  well_formed rule /\
  Put "t2" rule (full_input (changed "t2" false ["c2"] rule)) = inr (changed "t2" false ["c2"] rule).
Proof.
  split; [exact rule_wf|]. apply (complete_put_keeps_rule uuid_Parse valid valid valid "t2" rule false ["c2"]).
  - exact rule_wf.
  - apply channels_ok. by_compute.
  - apply (bool_decide_unpack _). by_compute.
Defined.

(** Errors are refused with the message of the first check that fails. *)
Example blank_name : Put "t" rule {| ri_name := " "; ri_description := None; ri_severity := "nope"; ri_enabled := None;
  ri_channel_ids := []; ri_signal := None; ri_spec := None; ri_log_spec := None;
  ri_trace_error_spec := None; ri_trace_latency_spec := None; ri_trace_volume_spec := None; ri_trace_attribute_spec := None;
  ri_service_name := None; ri_integration_id := None; ri_system_id := None; ri_group_id := None; ri_runbook := None;
  ri_title_template := None; ri_body_template := None; ri_notification_config := None; ri_source := None;
  ri_display_on_service := None; ri_unit := None; ri_resolve_mode := None; ri_environment_mode := None; ri_environments := None |}
  = inl "name is required".
Proof. by_compute. Qed.
End RuleExamples.
