(* ===== verification/RuleSenders.v ===== *)
(** * The pages that write alert rules

    The editors of a health check ([components/health/HealthChecks.tsx] and
    [EnvironmentScopeField.tsx]), the switches and the channel routing of
    [pages/Alerts.tsx], [pages/IntegrationSettings.tsx] and
    [pages/ServiceDetail.tsx].  What each sends meets the replacing PUT of
    RuleServer.v. *)

From S2P Require Import Prelude JsString JsUri JsArray Host Types Json RuleServer.

Local Open Scope char_scope.
Local Open Scope string_scope.
Local Open Scope list_scope.

(** [signal === "log" ? "log" : signal === "trace" ? "trace" : "metric"] *)
Definition signal_of (r : AlertRule) : string :=
  if ar_signal r =s "log" then "log" else if ar_signal r =s "trace" then "trace" else "metric".

Definition only_if {A} (b : bool) (o : option A) : option A := if b then o else None.

(** ** Switching a rule on and off *)

(** [toggleRule] of the alerts page. *)
Definition toggleRule (r : AlertRule) : AlertRuleInput :=
  let signal := signal_of r in {|
  ri_name := ar_name r; ri_description := Some (ar_description r); ri_severity := ar_severity r; ri_enabled := Some (negb (ar_enabled r));
  ri_channel_ids := ar_channel_ids r; ri_signal := Some signal;
  ri_spec := only_if (signal =s "metric") (Some (ar_spec r));
  ri_log_spec := only_if (signal =s "log") (ar_log_spec r);
  ri_trace_error_spec := only_if (signal =s "trace") (ar_trace_error_spec r);
  ri_trace_latency_spec := only_if (signal =s "trace") (ar_trace_latency_spec r);
  ri_trace_volume_spec := only_if (signal =s "trace") (ar_trace_volume_spec r);
  ri_trace_attribute_spec := None;
  ri_service_name := ar_service_name r; ri_integration_id := ar_integration_id r; ri_system_id := None;
  ri_group_id := ar_group_id r; ri_runbook := ar_runbook r;
  ri_title_template := ar_title_template r; ri_body_template := ar_body_template r;
  ri_notification_config := ar_notification_config r; ri_source := None;
  ri_display_on_service := Some (ar_display_on_service r); ri_unit := ar_unit r; ri_resolve_mode := None;
  ri_environment_mode := None; ri_environments := None |}.

(** [toggle] of the rules of an integration. *)
Definition toggle (r : AlertRule) : AlertRuleInput :=
  let signal := signal_of r in {|
  ri_name := ar_name r; ri_description := Some (ar_description r); ri_severity := ar_severity r; ri_enabled := Some (negb (ar_enabled r));
  ri_channel_ids := ar_channel_ids r; ri_signal := Some signal;
  ri_spec := only_if (signal =s "metric") (Some (ar_spec r));
  ri_log_spec := only_if (signal =s "log") (ar_log_spec r);
  ri_trace_error_spec := only_if (signal =s "trace") (ar_trace_error_spec r);
  ri_trace_latency_spec := None; ri_trace_volume_spec := None; ri_trace_attribute_spec := None;
  ri_service_name := ar_service_name r; ri_integration_id := ar_integration_id r; ri_system_id := None;
  ri_group_id := ar_group_id r; ri_runbook := ar_runbook r;
  ri_title_template := None; ri_body_template := None; ri_notification_config := None; ri_source := None;
  ri_display_on_service := None; ri_unit := None; ri_resolve_mode := None;
  ri_environment_mode := None; ri_environments := None |}.

(** ** Routing channels

    What [save] of a service page sends for each of the service's rules. *)
Definition route_channels (next : list string) (r : AlertRule) : AlertRuleInput := {|
  ri_name := ar_name r; ri_description := Some (ar_description r); ri_severity := ar_severity r; ri_enabled := Some (ar_enabled r);
  ri_channel_ids := next; ri_signal := Some (ar_signal r);
  ri_spec := Some (ar_spec r); ri_log_spec := ar_log_spec r; ri_trace_error_spec := ar_trace_error_spec r;
  ri_trace_latency_spec := ar_trace_latency_spec r; ri_trace_volume_spec := ar_trace_volume_spec r;
  ri_trace_attribute_spec := None;
  ri_service_name := ar_service_name r; ri_integration_id := None; ri_system_id := None;
  ri_group_id := None; ri_runbook := ar_runbook r;
  ri_title_template := None; ri_body_template := None; ri_notification_config := None; ri_source := None;
  ri_display_on_service := None; ri_unit := None; ri_resolve_mode := None;
  ri_environment_mode := None; ri_environments := None |}.

(** ** The check editors *)

Inductive CheckScope := scope_service | scope_integration | scope_system.
#[export] Instance CheckScope_eq_dec : EqDecision CheckScope.
Proof. solve_decision. Defined.

Inductive CheckKind := kind_metric | kind_log | kind_trace.
Definition editorKindOf (r : AlertRule) : CheckKind :=
  if ar_signal r =s "log" then kind_log else if ar_signal r =s "trace" then kind_trace else kind_metric.

Record EnvScope := { es_mode : string; es_environments_ : list string }.

Definition initialEnvScope (rule : option AlertRule) : EnvScope :=
  match rule with
  | Some r => if given (ar_environment_mode r) =s "only" then {| es_mode := "only"; es_environments_ := ar_environments r ?? [] |}
              else {| es_mode := "each"; es_environments_ := [] |}
  | None => {| es_mode := "each"; es_environments_ := [] |}
  end.

Definition envScopePayload (scope : CheckScope) (s : EnvScope) : option string * option (list string) :=
  match scope with
  | scope_integration => if es_mode s =s "only" then (Some "only", Some (es_environments_ s)) else (Some "each", Some [])
  | _ => (None, None)
  end.

(** The service, the integration and the system of the payload. *)
Definition scopeBinding (scope : CheckScope) (target : string) : option string * option string * option string :=
  match scope with
  | scope_service => (Some target, None, None)
  | scope_integration => (None, Some target, None)
  | scope_system => (None, None, Some target)
  end.

(** What the three editors put in a body in common. *)
Record CheckBody := {
  cb_name : string; cb_runbook : string; cb_severity : string; cb_signal : string; cb_resolve_mode : string;
  cb_spec : option MetricRuleSpec; cb_log_spec : option LogRuleSpec;
  cb_trace_error_spec : option TraceErrorRuleSpec; cb_trace_latency_spec : option TraceLatencyRuleSpec;
  cb_trace_volume_spec : option TraceVolumeRuleSpec; cb_trace_attribute_spec : option TraceAttributeRuleSpec;
  cb_source : option string; cb_display_on_service : option bool; cb_unit : option string;
  cb_envScope : EnvScope
}.

(** The update of a rule, or the creation of one ([None]). *)
Definition check_input (scope : CheckScope) (target : string) (rule : option AlertRule) (b : CheckBody) : AlertRuleInput :=
  let '(svc, int, sys) := scopeBinding scope target in
  let '(mode, envs) := envScopePayload scope (cb_envScope b) in {|
  ri_name := cb_name b; ri_description := ar_description <$> rule; ri_severity := cb_severity b;
  ri_enabled := Some ((ar_enabled <$> rule) ?? true); ri_channel_ids := (ar_channel_ids <$> rule) ?? [];
  ri_signal := Some (cb_signal b); ri_spec := cb_spec b; ri_log_spec := cb_log_spec b;
  ri_trace_error_spec := cb_trace_error_spec b; ri_trace_latency_spec := cb_trace_latency_spec b;
  ri_trace_volume_spec := cb_trace_volume_spec b; ri_trace_attribute_spec := cb_trace_attribute_spec b;
  ri_service_name := svc; ri_integration_id := int; ri_system_id := sys;
  ri_group_id := rule ≫= ar_group_id; ri_runbook := Some (cb_runbook b);
  ri_title_template := rule ≫= ar_title_template; ri_body_template := rule ≫= ar_body_template;
  ri_notification_config := None; ri_source := cb_source b; ri_display_on_service := cb_display_on_service b;
  ri_unit := cb_unit b; ri_resolve_mode := Some (cb_resolve_mode b);
  ri_environment_mode := mode; ri_environments := envs |}.

(** [Math.max(1, Math.floor(n || 1))] *)
Definition floor_num (n : num) : Z := (n_mant n / 10 ^ Z.of_nat (n_scale n))%Z.
Definition at_least_one (n : num) : Z := Z.max 1 (if (n_mant n =? 0)%Z then 1 else floor_num n).

(** [a.trim() || d] *)
Definition trim_or (s d : string) : string := if truthy (trim s) then trim s else d.

(** *** [HealthCheckEditor] *)

Record MetricForm := {
  mf_source : string; mf_name : string; mf_runbook : string; mf_envScope : EnvScope; mf_metric : string;
  mf_attrs : list LogAttrFilter; mf_agg : string; mf_op : string; mf_threshold : num; mf_forWindow : string;
  mf_fireOnNoData : bool; mf_severity : string; mf_displayOnService : bool; mf_unit : string; mf_resolveMode : string
}.

(** The initial state. *)
Definition metric_form (rule : option AlertRule) : MetricForm :=
  let spec := ar_spec <$> rule in {|
  mf_source := if (ar_source <$> rule) ?? "" =s "pushed" then "pushed" else "telemetry";
  mf_name := (ar_name <$> rule) ?? ""; mf_runbook := (rule ≫= ar_runbook) ?? ""; mf_envScope := initialEnvScope rule;
  mf_metric := (ms_metric_name <$> spec) ?? "";
  mf_attrs := (fun a => {| la_key := ra_key a; la_op := ra_op a; la_value := ra_value a |}) <$> ((spec ≫= ms_attrs) ?? []);
  mf_agg := (ms_aggregation <$> spec) ?? "max"; mf_op := (ms_operator <$> spec) ?? "gt";
  mf_threshold := (ms_threshold <$> spec) ?? Num 100 0; mf_forWindow := or_str (ms_for_window <$> spec) "5m";
  mf_fireOnNoData := (spec ≫= ms_fire_on_no_data) ?? false; mf_severity := (ar_severity <$> rule) ?? "critical";
  mf_displayOnService := (ar_display_on_service <$> rule) ?? false; mf_unit := (rule ≫= ar_unit) ?? "";
  mf_resolveMode := if (ar_resolve_mode <$> rule) ?? "" =s "manual" then "manual" else "auto" |}.

Definition metric_spec (f : MetricForm) : MetricRuleSpec := {|
  ms_metric_name := mf_metric f; ms_aggregation := mf_agg f; ms_operator := mf_op f; ms_threshold := mf_threshold f;
  ms_for_window := mf_forWindow f;
  ms_attrs := Some ((fun a => {| ra_key := la_key a; ra_op := la_op a; ra_value := la_value a |}) <$> mf_attrs f);
  ms_split_by := None; ms_fire_on_no_data := Some (mf_fireOnNoData f) |}.

(** [addFilter]: one filter per key and operator. *)
Definition addFilter (f : LogAttrFilter) (cur : list LogAttrFilter) : list LogAttrFilter :=
  if List.existsb (fun c => (la_key c =s la_key f) && (la_op c =s la_op f)) cur then cur else cur ++ [f].

(** [save]: the message it shows, or what it sends. *)
Definition metric_save (scope : CheckScope) (target : string) (rule : option AlertRule) (f : MetricForm) : string + AlertRuleInput :=
  let pushed := bool_decide (scope = scope_service) && (mf_source f =s "pushed") in
  if negb pushed && negb (truthy (mf_metric f)) then inl "Pick a metric first."
  else
    let finalName := trim_or (mf_name f) (if pushed then "Pushed value" else if truthy (mf_metric f) then tpl [mf_metric f; " health"] else "Health check") in
    let finalSpec :=
      if pushed then {| ms_metric_name := ""; ms_aggregation := "last"; ms_operator := mf_op f; ms_threshold := mf_threshold f;
                        ms_for_window := "5m"; ms_attrs := Some []; ms_split_by := None; ms_fire_on_no_data := None |}
      else metric_spec f in
    inr (check_input scope target rule {|
      cb_name := finalName; cb_runbook := trim (mf_runbook f); cb_severity := mf_severity f; cb_signal := "metric";
      cb_resolve_mode := mf_resolveMode f; cb_spec := Some finalSpec; cb_log_spec := None; cb_trace_error_spec := None;
      cb_trace_latency_spec := None; cb_trace_volume_spec := None; cb_trace_attribute_spec := None;
      cb_source := Some (if pushed then "pushed" else "telemetry");
      cb_display_on_service := Some (if bool_decide (scope = scope_service) then mf_displayOnService f else false);
      cb_unit := if truthy (trim (mf_unit f)) then Some (trim (mf_unit f)) else None;
      cb_envScope := mf_envScope f |}).

(** *** [LogCheckEditor] *)

Record LogForm := {
  lf_name : string; lf_runbook : string; lf_envScope : EnvScope; lf_severity : string; lf_minSeverity : Z;
  lf_bodyContains : string; lf_threshold : num; lf_windowSec : Z; lf_comparison : string; lf_resolveMode : string
}.

Definition log_form (rule : option AlertRule) : LogForm :=
  let ls := rule ≫= ar_log_spec in {|
  lf_name := (ar_name <$> rule) ?? ""; lf_runbook := (rule ≫= ar_runbook) ?? ""; lf_envScope := initialEnvScope rule;
  lf_severity := (ar_severity <$> rule) ?? "warning"; lf_minSeverity := (ls_min_severity <$> ls) ?? 17%Z;
  lf_bodyContains := (ls_body_contains <$> ls) ?? ""; lf_threshold := Num ((ls_threshold <$> ls) ?? 1%Z) 0;
  lf_windowSec := (ls_window_seconds <$> ls) ?? 300%Z;
  lf_comparison := if (ls ≫= ls_comparison) ?? "" =s "fewer_than" then "fewer_than" else "at_least";
  lf_resolveMode := if (ar_resolve_mode <$> rule) ?? "" =s "auto" then "auto" else "manual" |}.

Definition log_save (scope : CheckScope) (target : string) (rule : option AlertRule) (f : LogForm) : AlertRuleInput :=
  let finalName := trim_or (lf_name f) (if truthy (trim (lf_bodyContains f)) then tpl ["Log: "; trim (lf_bodyContains f)] else "Log check") in
  check_input scope target rule {|
    cb_name := finalName; cb_runbook := trim (lf_runbook f); cb_severity := lf_severity f; cb_signal := "log";
    cb_resolve_mode := lf_resolveMode f; cb_spec := None;
    cb_log_spec := Some {| ls_min_severity := lf_minSeverity f; ls_body_contains := trim (lf_bodyContains f); ls_attrs := Some [];
                           ls_threshold := at_least_one (lf_threshold f); ls_window_seconds := lf_windowSec f;
                           ls_comparison := Some (lf_comparison f) |};
    cb_trace_error_spec := None; cb_trace_latency_spec := None; cb_trace_volume_spec := None; cb_trace_attribute_spec := None;
    cb_source := None; cb_display_on_service := None; cb_unit := None; cb_envScope := lf_envScope f |}.

(** *** [TraceCheckEditor] *)

Inductive TraceMode := mode_errors | mode_latency | mode_volume | mode_attribute.

Record TraceForm := {
  tf_mode : TraceMode; tf_name : string; tf_runbook : string; tf_envScope : EnvScope; tf_severity : string;
  tf_threshold : num; tf_thresholdMs : num; tf_aggregation : string; tf_volumeThreshold : num; tf_attrThreshold : num;
  tf_attrs : list LogAttrFilter; tf_windowSec : Z; tf_resolveMode : string
}.

(** [a ?? b] where both may be absent. *)
Definition or_else {A} (a b : option A) : option A := match a with Some x => Some x | None => b end.

Definition trace_form (rule : option AlertRule) : TraceForm :=
  let ts := rule ≫= ar_trace_error_spec in
  let ls := rule ≫= ar_trace_latency_spec in
  let vs := rule ≫= ar_trace_volume_spec in
  let att := rule ≫= ar_trace_attribute_spec in {|
  tf_mode := match ls, vs, att with
             | Some _, _, _ => mode_latency | None, Some _, _ => mode_volume | None, None, Some _ => mode_attribute
             | None, None, None => mode_errors
             end;
  tf_name := (ar_name <$> rule) ?? ""; tf_runbook := (rule ≫= ar_runbook) ?? ""; tf_envScope := initialEnvScope rule;
  tf_severity := (ar_severity <$> rule) ?? "warning";
  tf_threshold := Num ((te_threshold <$> ts) ?? 1%Z) 0; tf_thresholdMs := Num ((tl_threshold_ms <$> ls) ?? 1000%Z) 0;
  tf_aggregation := if (tl_aggregation <$> ls) ?? "" =s "max" then "max" else "p95";
  tf_volumeThreshold := Num ((tv_threshold <$> vs) ?? 5%Z) 0; tf_attrThreshold := Num ((ta_threshold <$> att) ?? 1%Z) 0;
  tf_attrs := (ta_attrs <$> att) ?? [];
  tf_windowSec := or_else (te_window_seconds <$> ts) (or_else (tl_window_seconds <$> ls) (or_else (tv_window_seconds <$> vs) (ta_window_seconds <$> att))) ?? 300%Z;
  tf_resolveMode := match rule with
                    | Some r => if ar_resolve_mode r =s "auto" then "auto" else "manual"
                    | None => match ls with Some _ => "auto" | None => "manual" end
                    end |}.

(** [pickMode] *)
Definition pickMode (rule : option AlertRule) (m : TraceMode) (f : TraceForm) : TraceForm := {|
  tf_mode := m; tf_name := tf_name f; tf_runbook := tf_runbook f; tf_envScope := tf_envScope f; tf_severity := tf_severity f;
  tf_threshold := tf_threshold f; tf_thresholdMs := tf_thresholdMs f; tf_aggregation := tf_aggregation f;
  tf_volumeThreshold := tf_volumeThreshold f; tf_attrThreshold := tf_attrThreshold f; tf_attrs := tf_attrs f; tf_windowSec := tf_windowSec f;
  tf_resolveMode := match rule with
                    | Some _ => tf_resolveMode f
                    | None => match m with mode_latency => "auto" | _ => "manual" end
                    end |}.

Definition trace_save (scope : CheckScope) (target : string) (rule : option AlertRule) (f : TraceForm) : string + AlertRuleInput :=
  let is_attribute := match tf_mode f with mode_attribute => true | _ => false end in
  if is_attribute && match tf_attrs f with [] => true | _ => false end
  then inl "Add at least one attribute condition — otherwise this would match every trace."
  else
    let body name te tl tv ta := {|
      cb_name := trim_or (tf_name f) name; cb_runbook := trim (tf_runbook f); cb_severity := tf_severity f; cb_signal := "trace";
      cb_resolve_mode := tf_resolveMode f; cb_spec := None; cb_log_spec := None; cb_trace_error_spec := te;
      cb_trace_latency_spec := tl; cb_trace_volume_spec := tv; cb_trace_attribute_spec := ta;
      cb_source := None; cb_display_on_service := None; cb_unit := None; cb_envScope := tf_envScope f |} in
    inr (check_input scope target rule
      match tf_mode f with
      | mode_latency => body "Response time" None
          (Some {| tl_threshold_ms := at_least_one (tf_thresholdMs f); tl_window_seconds := tf_windowSec f; tl_aggregation := tf_aggregation f |}) None None
      | mode_volume => body "Low traffic" None None
          (Some {| tv_threshold := at_least_one (tf_volumeThreshold f); tv_window_seconds := tf_windowSec f |}) None
      | mode_attribute => body "Attribute threshold" None None None
          (Some {| ta_threshold := at_least_one (tf_attrThreshold f); ta_window_seconds := tf_windowSec f; ta_attrs := tf_attrs f |})
      | mode_errors => body "Failed traces"
          (Some {| te_threshold := at_least_one (tf_threshold f); te_window_seconds := tf_windowSec f; te_attrs := None |}) None None None
      end).

(** Opening the editor of a rule and saving it as it is. *)
Definition saved_unchanged (scope : CheckScope) (target : string) (r : AlertRule) : string + AlertRuleInput :=
  match editorKindOf r with
  | kind_metric => metric_save scope target (Some r) (metric_form (Some r))
  | kind_log => inr (log_save scope target (Some r) (log_form (Some r)))
  | kind_trace => trace_save scope target (Some r) (trace_form (Some r))
  end.

(** ** What the requests keep *)

Section keeps.
Context (uuid_Parse : string -> option string) (ValidateTemplate ValidateLiquid ParseDuration : string -> bool).
Abbreviation Put := (Put uuid_Parse ValidateTemplate ValidateLiquid ParseDuration).
Abbreviation well_formed := (well_formed uuid_Parse ValidateTemplate ValidateLiquid ParseDuration).
Abbreviation Built := (Built uuid_Parse ValidateTemplate ValidateLiquid ParseDuration).

(** The mode the server gives a rule whose request names none. *)
Definition default_resolve (signal : string) : string := if (signal =s "log") || (signal =s "trace") then "manual" else "auto".

Lemma signal_of_wf r : well_formed r -> signal_of r = ar_signal r /\ (ar_signal r = "metric" \/ ar_signal r = "log" \/ ar_signal r = "trace").
Proof.
  intros Hw. destruct (wf_spec _ _ _ _ _ Hw) as (s & _ & Hs).
  destruct (rule_spec_signal _ _ _ _ _ _ _ Hs) as [E|[[E|E] _]]; unfold signal_of; rewrite E; auto.
Qed.

(** Only the specifications of the signal are read. *)
Lemma rule_spec_ext signal source svc int req req' :
  (signal = "metric" -> ri_spec req' ?? zero_spec = ri_spec req ?? zero_spec) ->
  (signal = "log" -> ri_log_spec req' = ri_log_spec req) ->
  (signal = "trace" -> ri_trace_latency_spec req' = ri_trace_latency_spec req /\ ri_trace_volume_spec req' = ri_trace_volume_spec req /\
     ri_trace_attribute_spec req' = ri_trace_attribute_spec req /\ ri_trace_error_spec req' = ri_trace_error_spec req) ->
  rule_spec ParseDuration signal source svc int req' = rule_spec ParseDuration signal source svc int req.
Proof.
  intros Hm Hl Ht. unfold rule_spec. destruct (signal =s "metric") eqn:E1; [bool_prop; by rewrite Hm|].
  destruct (signal =s "log") eqn:E2; [bool_prop; by rewrite Hl|].
  destruct (signal =s "trace") eqn:E3; [|done]. bool_prop. destruct (Ht E3) as (-> & -> & -> & ->). done.
Qed.

Definition spec_kind (s : RuleSpec) : nat :=
  match s with SpecMetric _ => 0 | SpecLog _ => 1 | SpecTraceLatency _ => 2 | SpecTraceVolume _ => 3 | SpecTraceAttribute _ => 4 | SpecTraceError _ => 5 end.

(** A trace specification that is built was sent. *)
Lemma rule_spec_sent signal source svc int req s :
  rule_spec ParseDuration signal source svc int req = inr s ->
  (spec_kind s = 2 -> ri_trace_latency_spec req <> None) /\ (spec_kind s = 3 -> ri_trace_volume_spec req <> None) /\
  (spec_kind s = 4 -> ri_trace_attribute_spec req <> None) /\ (spec_kind s = 5 -> ri_trace_error_spec req <> None).
Proof.
  unfold rule_spec. destruct (signal =s "metric").
  { destruct (source =s "pushed"); [destruct (svc =s ""); [done|]|]; intros H; err_inv; by injection H as <-. }
  destruct (signal =s "log").
  { destruct (source =s "pushed"); [done|]. destruct (ri_log_spec req); [|done]. intros H. err_inv.
    destruct (_ && is_none int) in H; [done|]. by injection H as <-. }
  destruct (signal =s "trace"); [|done]. destruct (source =s "pushed"); [done|].
  destruct (is_none int && (svc =s "")); [done|].
  destruct (ri_trace_latency_spec req); [intros H; err_inv; by injection H as <-|].
  destruct (ri_trace_volume_spec req); [intros H; err_inv; by injection H as <-|].
  destruct (ri_trace_attribute_spec req); [intros H; err_inv; by injection H as <-|].
  destruct (ri_trace_error_spec req); [intros H; err_inv; by injection H as <-|done].
Qed.

(** What an update that omits the system, the source, the mode of resolution and
    the environments leaves of them. *)
Lemma omitted_defaults now r req enabled channels :
  well_formed r -> ri_system_id req = None -> ri_source req = None -> ri_resolve_mode req = None -> ri_environment_mode req = None ->
  Put now r req = inr (changed now enabled channels r) ->
  ar_system_id r = None /\ ar_source r = "telemetry" /\ ar_resolve_mode r = default_resolve (ar_signal r) /\
  ar_environment_mode r = Some "each".
Proof.
  intros Hw H1 H2 H3 H4 H. apply Put_inv_own in H as (g & B & Hsig & E & Hfill); [|exact (wf_spec _ _ _ _ _ Hw)].
  pose proof (bu_system _ _ _ _ _ _ B) as Bsys. pose proof (bu_source _ _ _ _ _ _ B) as Bsrc.
  pose proof (bu_resolve _ _ _ _ _ _ B) as Bres. pose proof (bu_environments _ _ _ _ _ _ B) as Benv. rewrite H1 in Bsys. rewrite H2 in Bsrc.
  unfold resolve_mode in Bres. rewrite H3 in Bres. unfold environment_scope in Benv. rewrite H4 in Benv.
  cbn in Bsys. injection Bsys as Bsys. cbn in Bsrc. cbn in Bres. injection Bres as Bres. cbn in Benv. injection Benv as Benv _.
  split; [rewrite (f_equal ar_system_id E : ar_system_id r = g_SystemID g); done|].
  split; [rewrite (f_equal ar_source E : ar_source r = _); cbn; by rewrite Bsrc|].
  split.
  - rewrite (f_equal ar_resolve_mode E : ar_resolve_mode r = (if g_ResolveMode g =s "manual" then "manual" else "auto")).
    rewrite <- Bres, Hsig. unfold default_resolve. by destruct ((ar_signal r =s "log") || (ar_signal r =s "trace")).
  - rewrite (f_equal ar_environment_mode E : ar_environment_mode r = Some (if g_EnvironmentMode g =s "only" then "only" else "each")).
    by rewrite <- Benv.
Qed.

Lemma default_resolve_decoded r req : ri_resolve_mode req = None -> ar_resolve_mode r = default_resolve (ar_signal r) ->
  resolve_mode (ar_signal r) req = inr (ar_resolve_mode r).
Proof. intros H ->. unfold resolve_mode. by rewrite H. Qed.

Lemma each_decoded int req : ri_environment_mode req = None -> environment_scope int req = inr ("each", []).
Proof. intros H. unfold environment_scope. by rewrite H. Qed.

Lemma wf_each r : well_formed r -> ar_environment_mode r = Some "each" -> ar_environments r = Some [].
Proof. intros Hw He. destruct (wf_environments _ _ _ _ _ Hw) as [[_ E]|(E & _)]; [done|congruence]. Qed.

Lemma wf_channel_ids r : well_formed r -> Forall (id_ok uuid_Parse) (ar_channel_ids r) /\ NoDup (ar_channel_ids r).
Proof. intros Hw. by destruct (wf_channels _ _ _ _ _ Hw). Qed.

Lemma signal_decoded r : well_formed r -> nonempty (TrimSpace (given (Some (ar_signal r)))) "metric" = ar_signal r.
Proof. intros Hw. destruct (signal_of_wf r Hw) as [_ [-> |[-> | ->]]]; by_compute. Qed.

(** A request that says some of a rule: each part is the rule's or is left out, and
    the system, the source, the mode of resolution and the environments are. *)
Definition part {A} (o now : option A) : Prop := o = None \/ o = now.

Record Partial (r : AlertRule) (enabled : bool) (channels : list string) (req : AlertRuleInput) : Prop := {
  pa_said : (ri_name req, ri_severity req, ri_channel_ids req, ri_signal req, ri_enabled req, ri_description req, ri_runbook req, ri_service_name req) =
            (ar_name r, ar_severity r, channels, Some (ar_signal r), Some enabled, Some (ar_description r), ar_runbook r, ar_service_name r);
  pa_left_out : (ri_system_id req, ri_source req, ri_resolve_mode req, ri_environment_mode req) = (None, None, None, None);
  pa_group : part (ri_group_id req) (ar_group_id r); pa_integration : part (ri_integration_id req) (ar_integration_id r);
  pa_title : part (ri_title_template req) (ar_title_template r); pa_body : part (ri_body_template req) (ar_body_template r);
  pa_content : part (ri_notification_config req) (ar_notification_config r);
  pa_display : part (ri_display_on_service req) (Some (ar_display_on_service r)); pa_unit : part (ri_unit req) (ar_unit r);
  pa_spec : ar_signal r = "metric" -> ri_spec req = Some (ar_spec r);
  pa_log : ar_signal r = "log" -> ri_log_spec req = ar_log_spec r;
  pa_error : part (ri_trace_error_spec req) (ar_trace_error_spec r); pa_latency : part (ri_trace_latency_spec req) (ar_trace_latency_spec r);
  pa_volume : part (ri_trace_volume_spec req) (ar_trace_volume_spec r); pa_attribute : part (ri_trace_attribute_spec req) (ar_trace_attribute_spec r)
}.

(** The parts a request left out were not there. *)
Definition nothing_lost (r : AlertRule) (req : AlertRuleInput) : Prop :=
  (ar_system_id r = None /\ ar_source r = "telemetry" /\ ar_resolve_mode r = default_resolve (ar_signal r) /\ ar_environment_mode r = Some "each") /\
  ri_group_id req = ar_group_id r /\ ri_integration_id req = ar_integration_id r /\
  ri_title_template req = ar_title_template r /\ ri_body_template req = ar_body_template r /\
  ri_notification_config req = ar_notification_config r /\ ri_display_on_service req ?? false = ar_display_on_service r /\
  ri_unit req = ar_unit r /\
  ri_trace_error_spec req = ar_trace_error_spec r /\ ri_trace_latency_spec req = ar_trace_latency_spec r /\
  ri_trace_volume_spec req = ar_trace_volume_spec r /\ ri_trace_attribute_spec req = ar_trace_attribute_spec r.

Lemma part_text {o t : option string} {g : string} : part o t -> g = TrimSpace (given o) -> t = omit g -> o = t.
Proof. intros [->|E] -> Ht; [|done]. by rewrite Ht. Qed.

Lemma part_spec {A} (o t : option A) : part o t -> (t <> None -> o <> None) -> o = t.
Proof. intros [->|E]; [|done]. destruct t; [intros []; congruence|done]. Qed.

Lemma partial_forward now r req enabled channels :
  well_formed r -> Partial r enabled channels req ->
  Put now r req = inr (changed now enabled channels r) -> nothing_lost r req.
Proof.
  intros Hw [_ P2 Pg Pi Pt Pb Pc Pd Pu _ _ Pe Pl Pv Pa] H. injection P2 as L1 L2 L3 L4.
  split; [by apply (omitted_defaults now r req enabled channels)|].
  apply Put_inv_own in H as (g & B & _ & E & E0 & _ & E1 & E2 & E3 & E4); [|exact (wf_spec _ _ _ _ _ Hw)]. pose proof (bu_spec _ _ _ _ _ _ B) as Bsp. apply rule_spec_sent in Bsp as (N2 & N3 & N4 & N5).
  assert (Hid : forall what o t x, part o t -> parse_id uuid_Parse what o = inr x -> t = x -> o = t).
  { intros what o t x [->|Eo] Hp Ht; [|done]. cbn in Hp. injection Hp as Hp. congruence. }
  split; [exact (Hid _ _ _ _ Pg (bu_group _ _ _ _ _ _ B) (f_equal ar_group_id E))|].
  split; [exact (Hid _ _ _ _ Pi (bu_integration _ _ _ _ _ _ B) (f_equal ar_integration_id E))|].
  split; [exact (part_text Pt (bu_title _ _ _ _ _ _ B) (f_equal ar_title_template E))|].
  split; [exact (part_text Pb (bu_body _ _ _ _ _ _ B) (f_equal ar_body_template E))|].
  split.
  { pose proof (f_equal ar_notification_config E : ar_notification_config r = wire_content <$> g_NotificationContent g) as Hc.
    rewrite (bu_content _ _ _ _ _ _ B) in Hc. destruct Pc as [Eo|Eo]; rewrite Eo in *; [by rewrite Hc|done]. }
  split; [by rewrite (f_equal ar_display_on_service E : ar_display_on_service r = g_DisplayOnService g), (bu_display _ _ _ _ _ _ B)|].
  split; [exact (part_text Pu (bu_unit _ _ _ _ _ _ B) (f_equal ar_unit E))|].
  split; [apply (part_spec _ _ Pe)|split; [apply (part_spec _ _ Pl)|split; [apply (part_spec _ _ Pv)|apply (part_spec _ _ Pa)]]];
    cbn in E1, E2, E3, E4; rewrite ?E1, ?E2, ?E3, ?E4; destruct (g_Spec g); try done; auto.
Qed.

Lemma partial_backward now r req enabled channels :
  well_formed r -> Forall (id_ok uuid_Parse) channels -> NoDup channels -> Partial r enabled channels req -> nothing_lost r req ->
  Put now r req = inr (changed now enabled channels r).
Proof.
  intros Hw Hc Hn [P1 P2 _ _ _ _ _ Pd _ Ps Pl _ _ _ _] ((H1 & H2 & H3 & H4) & K1 & K2 & K3 & K4 & K5 & K6 & K7 & K8 & K9 & K10 & K11).
  injection P1 as S1 S2 S3 S4 S5 S6 S7 S8. injection P2 as L1 L2 L3 L4.
  apply Put_like; [done..|]. intros s Hf B. apply (Built_like _ _ _ _ _ _ _ B).
  all: cbn -[rule_spec environment_scope resolve_mode TrimSpace nonempty given];
    rewrite ?S1, ?S2, ?S3, ?S4, ?S5, ?S6, ?S7, ?S8, ?L1, ?L2, ?L3, ?L4, ?K1, ?K2, ?K3, ?K4, ?K5, ?K7; try done.
  - repeat constructor; by rewrite ?H1.
  - by apply signal_decoded.
  - by apply default_resolve_decoded.
  - rewrite each_decoded by done. by rewrite H4, (wf_each r Hw H4).
  - etransitivity; [|exact (bu_spec _ _ _ _ _ _ B)]. apply rule_spec_ext; cbn; [|done|done]. intros E. by rewrite Ps.
Qed.

Lemma partial_keeps_iff now r req enabled channels :
  well_formed r -> Forall (id_ok uuid_Parse) channels -> NoDup channels -> Partial r enabled channels req ->
  (Put now r req = inr (changed now enabled channels r) <-> nothing_lost r req).
Proof. intros Hw Hc Hn Hp. split; [by apply partial_forward|by apply partial_backward]. Qed.

(** A rule has no specification of another signal than its own. *)
Lemma wf_only_trace r : well_formed r ->
  let t := signal_of r =s "trace" in
  only_if t (ar_trace_error_spec r) = ar_trace_error_spec r /\ only_if t (ar_trace_latency_spec r) = ar_trace_latency_spec r /\
  only_if t (ar_trace_volume_spec r) = ar_trace_volume_spec r.
Proof.
  intros Hw. destruct (signal_of_wf r Hw) as [-> [E|[E|E]]]; rewrite E; [| |done];
    destruct (wf_spec _ _ _ _ _ Hw) as (s & (_ & _ & F3 & F4 & F5 & _) & Hs); rewrite F3, F4, F5; unfold rule_spec in Hs; rewrite E in Hs;
    cbn -[validateMetricRuleSpec validatePushedRuleSpec validateLogRuleSpec] in Hs.
  - destruct (ar_source r =s "pushed"); [destruct (given _ =s ""); [done|]|]; err_inv; by injection Hs as <-.
  - destruct (ar_source r =s "pushed"); [done|]. destruct (ar_log_spec r); [|done]. err_inv.
    destruct (_ && is_none (ar_integration_id r)) in Hs; [done|]. by injection Hs as <-.
Qed.

Lemma toggleRule_partial r : well_formed r -> Partial r (negb (ar_enabled r)) (ar_channel_ids r) (toggleRule r).
Proof.
  intros Hw. destruct (wf_only_trace r Hw) as (T1 & T2 & T3). destruct (signal_of_wf r Hw) as [Hsig _].
  split; cbn; rewrite ?T1, ?T2, ?T3, ?Hsig; try done; try (by left); try (by right); by intros ->.
Qed.

Lemma toggle_partial r : well_formed r -> Partial r (negb (ar_enabled r)) (ar_channel_ids r) (toggle r).
Proof.
  intros Hw. destruct (wf_only_trace r Hw) as (T1 & _). destruct (signal_of_wf r Hw) as [Hsig _].
  split; cbn; rewrite ?T1, ?Hsig; try done; try (by left); try (by right); by intros ->.
Qed.

Lemma route_channels_partial r next : Partial r (ar_enabled r) next (route_channels next r).
Proof. split; cbn; first [done|by left|by right]. Qed.

(** The switch of the alerts page leaves the rest of a rule alone exactly when
    the rule is not bound to a system, reads telemetry, resolves the way its signal
    does by default, watches every environment separately, and has no condition on
    span attributes.  Other rules are changed or refused: the request omits what the
    comment on it says it carries through. *)
Theorem switch_keeps_rule_iff now r :
  well_formed r ->
  (Put now r (toggleRule r) = inr (changed now (negb (ar_enabled r)) (ar_channel_ids r) r) <->
   (ar_system_id r = None /\ ar_source r = "telemetry" /\ ar_resolve_mode r = default_resolve (ar_signal r) /\ ar_environment_mode r = Some "each") /\
   ar_trace_attribute_spec r = None).
Proof.
  intros Hw. destruct (wf_channel_ids r Hw) as [Hc Hn]. rewrite (partial_keeps_iff _ _ _ _ _ Hw Hc Hn (toggleRule_partial r Hw)).
  destruct (wf_only_trace r Hw) as (T1 & T2 & T3). unfold nothing_lost. cbn. rewrite T1, T2, T3. intuition congruence.
Qed.

(** The switch of an integration's rules, besides, loses the templates, the
    notification content, the tile and its unit, and is refused for every trace rule
    that does not count failed traces. *)
Theorem integration_switch_keeps_rule_iff now r :
  well_formed r ->
  (Put now r (toggle r) = inr (changed now (negb (ar_enabled r)) (ar_channel_ids r) r) <->
   (ar_system_id r = None /\ ar_source r = "telemetry" /\ ar_resolve_mode r = default_resolve (ar_signal r) /\ ar_environment_mode r = Some "each") /\
   ar_title_template r = None /\ ar_body_template r = None /\ ar_notification_config r = None /\
   ar_display_on_service r = false /\ ar_unit r = None /\
   ar_trace_latency_spec r = None /\ ar_trace_volume_spec r = None /\ ar_trace_attribute_spec r = None).
Proof.
  intros Hw. destruct (wf_channel_ids r Hw) as [Hc Hn]. rewrite (partial_keeps_iff _ _ _ _ _ Hw Hc Hn (toggle_partial r Hw)).
  destruct (wf_only_trace r Hw) as (T1 & _). unfold nothing_lost. cbn. rewrite T1. intuition congruence.
Qed.

(** Routing channels from a service page keeps the rest of a rule exactly when
    the rule has none of the parts the request omits: a team, another target than the
    service, templates, notification content, a tile with its unit, a pushed value, a
    mode of resolution other than the default, environments, and a condition on
    span attributes. *)
Theorem channel_routing_keeps_rule_iff now r next :
  well_formed r -> Forall (id_ok uuid_Parse) next -> NoDup next ->
  (Put now r (route_channels next r) = inr (changed now (ar_enabled r) next r) <->
   (ar_system_id r = None /\ ar_source r = "telemetry" /\ ar_resolve_mode r = default_resolve (ar_signal r) /\ ar_environment_mode r = Some "each") /\
   ar_trace_attribute_spec r = None /\ ar_group_id r = None /\ ar_integration_id r = None /\
   ar_title_template r = None /\ ar_body_template r = None /\ ar_notification_config r = None /\
   ar_display_on_service r = false /\ ar_unit r = None).
Proof.
  intros Hw Hc Hn. rewrite (partial_keeps_iff _ _ _ _ _ Hw Hc Hn (route_channels_partial r next)).
  unfold nothing_lost. cbn. intuition congruence.
Qed.

(** *** The editors *)

(** The rule is bound to exactly the target the editor is opened on. *)
Definition bound (scope : CheckScope) (target : string) (r : AlertRule) : Prop :=
  (ar_service_name r, ar_integration_id r, ar_system_id r) = scopeBinding scope target.

(** The server's trimmed texts have no byte-order mark at an end, which [trim]
    would remove, and the aggregation of a response time is one the editor offers. *)
Definition editable (r : AlertRule) : Prop :=
  Forall (fun s => trim s = s) [ar_name r; given (ar_runbook r); given (ar_unit r); (ls_body_contains <$> ar_log_spec r) ?? ""] /\
  (forall l, ar_trace_latency_spec r = Some l -> tl_aggregation l = "p95" \/ tl_aggregation l = "max").

(** The specification the server makes of the body of an editor. *)
Definition body_spec (r : AlertRule) (req : AlertRuleInput) : string + RuleSpec :=
  rule_spec ParseDuration (ar_signal r) (ar_source r) (given (ar_service_name r)) (ar_integration_id r) req.

Lemma env_payload scope target r mode envs req :
  well_formed r -> bound scope target r -> envScopePayload scope (initialEnvScope (Some r)) = (mode, envs) ->
  ri_environment_mode req = mode -> ri_environments req = envs ->
  environment_scope (ar_integration_id r) req = environment_scope (ar_integration_id r) (full_input r).
Proof.
  intros Hw Hb Hp H1 H2. unfold environment_scope. rewrite H1, H2. cbn [full_input ri_environment_mode ri_environments].
  destruct (wf_environments _ _ _ _ _ Hw) as [[E1 E2]|(E1 & Hi & l & E2 & _)]; rewrite E1, E2;
    unfold initialEnvScope in Hp; rewrite E1, E2 in Hp; cbn in Hp.
  - destruct scope; injection Hp as <- <-; done.
  - unfold bound in Hb. destruct scope; cbn in Hb; injection Hb as B1 B2 B3; [done| |done]. by injection Hp as <- <-.
Qed.

Lemma check_input_keeps_iff now scope target r b :
  well_formed r -> bound scope target r ->
  cb_name b = ar_name r -> cb_runbook b = given (ar_runbook r) -> cb_severity b = ar_severity r -> cb_signal b = ar_signal r ->
  cb_resolve_mode b = ar_resolve_mode r -> cb_envScope b = initialEnvScope (Some r) ->
  nonempty (TrimSpace (given (cb_source b))) "telemetry" = ar_source r ->
  let req := check_input scope target (Some r) b in
  (Put now r req = inr (changed now (ar_enabled r) (ar_channel_ids r) r) <->
   ar_notification_config r = None /\ cb_display_on_service b ?? false = ar_display_on_service r /\
   TrimSpace (given (cb_unit b)) = given (ar_unit r) /\ body_spec r req = body_spec r (full_input r)).
Proof.
  intros Hw Hb Hn Hru Hse Hsi Hre He Hso req. destruct (wf_channel_ids r Hw) as [Hc Hnd].
  destruct (wf_spec _ _ _ _ _ Hw) as (s & Hf & Hs).
  destruct (envScopePayload scope (initialEnvScope (Some r))) as [mode envs] eqn:Ep.
  assert (Hreq : ri_service_name req = ar_service_name r /\ ri_integration_id req = ar_integration_id r /\ ri_system_id req = ar_system_id r /\
                 ri_environment_mode req = mode /\ ri_environments req = envs).
  { unfold bound in Hb. unfold req, check_input. rewrite <- Hb, He, Ep. done. }
  destruct Hreq as (R1 & R2 & R3 & R4 & R5).
  assert (Hreq : ri_name req = ar_name r /\ ri_runbook req = Some (given (ar_runbook r)) /\ ri_severity req = ar_severity r /\
                 ri_signal req = Some (ar_signal r) /\ ri_resolve_mode req = Some (ar_resolve_mode r) /\ ri_notification_config req = None /\
                 ri_display_on_service req = cb_display_on_service b /\ ri_unit req = cb_unit b /\ ri_source req = cb_source b /\
                 ri_enabled req = Some (ar_enabled r) /\ ri_channel_ids req = ar_channel_ids r /\ ri_description req = Some (ar_description r) /\
                 ri_group_id req = ar_group_id r /\ ri_title_template req = ar_title_template r /\ ri_body_template req = ar_body_template r).
  { unfold req, check_input. unfold bound in Hb. rewrite <- Hb, He, Ep, Hn, Hru, Hse, Hsi, Hre. done. }
  destruct Hreq as (Q1 & Q2 & Q3 & Q4 & Q5 & Q6 & Q7 & Q8 & Q9 & Q10 & Q11 & Q12 & Q13 & Q14 & Q15).
  split.
  - intros H. apply Put_inv_own in H as (g & B & Hg & E & Hfill); [|exact (wf_spec _ _ _ _ _ Hw)].
    pose proof (bu_content _ _ _ _ _ _ B) as Bc. pose proof (bu_display _ _ _ _ _ _ B) as Bd. pose proof (bu_unit _ _ _ _ _ _ B) as Bu.
    pose proof (bu_spec _ _ _ _ _ _ B) as Bsp. rewrite Q6 in Bc. rewrite Q7 in Bd. rewrite Q8 in Bu.
    split; [rewrite (f_equal ar_notification_config E : ar_notification_config r = wire_content <$> g_NotificationContent g); by rewrite Bc|].
    split; [rewrite (f_equal ar_display_on_service E : ar_display_on_service r = g_DisplayOnService g); done|].
    split; [rewrite (f_equal ar_unit E : ar_unit r = omit (g_Unit g)); by rewrite given_omit, Bu|].
    pose proof (bu_source _ _ _ _ _ _ B) as Bso. rewrite Q9, Hso in Bso.
    pose proof (bu_service _ _ _ _ _ _ B) as Bsv. rewrite R1 in Bsv.
    pose proof (bu_integration _ _ _ _ _ _ B) as Bi. rewrite R2 in Bi.
    rewrite parse_id_id in Bi by (pose proof (wf_ids _ _ _ _ _ Hw) as Hi; apply Forall_cons in Hi; apply Hi). injection Bi as Bi.
    assert (Ht : TrimSpace (given (ar_service_name r)) = given (ar_service_name r))
      by (pose proof (wf_texts _ _ _ _ _ Hw) as Hi; apply Forall_cons in Hi; apply Hi).
    rewrite Ht in Bsv. unfold body_spec. rewrite Hs. rewrite <- Hg, <- Bso, <- Bsv, Bi. rewrite Bsp. f_equal.
    by apply (fills_inj _ _ r).
  - intros (H1 & H2 & H3 & H4). apply Put_like; [done..|]. intros s' Hf' B. apply (Built_like _ _ _ _ _ _ _ B).
    all: cbn -[rule_spec environment_scope resolve_mode TrimSpace nonempty given]; rewrite ?Q1, ?Q3, ?Q4, ?Q6, ?Q7, ?Q9, ?Q10, ?Q11; try done.
    + rewrite R1, R2, R3, Q2, Q8, Q12, Q13, Q14, Q15. repeat constructor; try done.
      pose proof (wf_texts _ _ _ _ _ Hw) as Hi. rewrite !Forall_cons in Hi. destruct Hi as (_ & _ & (_ & Hu) & _). by rewrite H3, Hu.
    + by apply signal_decoded.
    + unfold resolve_mode. rewrite Q5. by destruct (wf_resolve _ _ _ _ _ Hw) as [-> | ->].
    + rewrite (env_payload scope target r mode envs req) by done.
      exact (bu_environments _ _ _ _ _ _ B).
    + unfold body_spec in H4. rewrite H4. exact (bu_spec _ _ _ _ _ _ B).
Qed.
(** **** The specification each editor sends back *)

Lemma wf_metric r : well_formed r -> ar_signal r = "metric" -> ar_source r <> "pushed" ->
  validateMetricRuleSpec ParseDuration (ar_spec r) = inr (ar_spec r) /\ body_spec r (full_input r) = inr (SpecMetric (ar_spec r)).
Proof.
  intros Hw Hm Hp. destruct (wf_spec _ _ _ _ _ Hw) as (s & (F1 & _) & Hs). apply String.eqb_neq in Hp.
  unfold body_spec. rewrite Hs. unfold rule_spec in Hs. rewrite Hm, Hp in Hs. cbn in Hs. apply err_bind_inr in Hs as (s' & Hs' & [= <-]).
  by rewrite F1 in *.
Qed.

Lemma wf_pushed r : well_formed r -> ar_source r = "pushed" ->
  ar_signal r = "metric" /\ ar_service_name r <> None /\ validatePushedRuleSpec (ar_spec r) = inr (ar_spec r) /\
  body_spec r (full_input r) = inr (SpecMetric (ar_spec r)).
Proof.
  intros Hw Hp. destruct (wf_source _ _ _ _ _ Hw) as [E|[_ Hm]]; [congruence|].
  destruct (wf_spec _ _ _ _ _ Hw) as (s & (F1 & _) & Hs).
  unfold body_spec. rewrite Hs. unfold rule_spec in Hs. rewrite Hm, Hp in Hs. cbn in Hs.
  destruct (given (ar_service_name r) =s "") eqn:E; [done|]. apply err_bind_inr in Hs as (s' & Hs' & [= <-]). rewrite F1 in *.
  split; [done|]. split; [by intros E'; rewrite E' in E|done].
Qed.

Lemma metric_spec_validated r :
  validateMetricRuleSpec ParseDuration (ar_spec r) = inr (ar_spec r) ->
  (validateMetricRuleSpec ParseDuration (metric_spec (metric_form (Some r))) = inr (ar_spec r) <-> ms_split_by (ar_spec r) = None).
Proof.
  intros Hv. split.
  - unfold validateMetricRuleSpec. destruct (_ =s ""); [done|]. destruct (negb _); [done|]. destruct (negb _); [done|].
    cbn -[validateMetricRuleSpec]. destruct (negb _); [done|]. intros H. apply err_bind_inr in H as (l & _ & H). by injection H as <-.
  - intros Hs. rewrite <- Hv. unfold validateMetricRuleSpec. cbn. rewrite Hs.
    assert (Ea : (fun a => {| ra_key := la_key a; ra_op := la_op a; ra_value := la_value a |}) <$>
                 ((fun a => {| la_key := ra_key a; la_op := ra_op a; la_value := ra_value a |}) <$> (ms_attrs (ar_spec r) ?? [])) = ms_attrs (ar_spec r) ?? []).
    { generalize (ms_attrs (ar_spec r) ?? []). intros l. induction l as [|[] l IH]; [done|]. cbn in *. by rewrite IH. }
    cbn in Ea. rewrite Ea. 
    assert (Ew : forall w, (if or_str (Some w) "5m" =s "" then "5m" else or_str (Some w) "5m") = if w =s "" then "5m" else w)
      by (intros w; destruct w; done).
    rewrite Ew. by destruct (ms_fire_on_no_data (ar_spec r)) as [[]|].
Qed.

Lemma wf_log r : well_formed r -> ar_signal r = "log" ->
  exists l, ar_log_spec r = Some l /\ validateLogRuleSpec l = inr l /\ body_spec r (full_input r) = inr (SpecLog l) /\
    (ls_min_severity l =? 0)%Z && (ls_body_contains l =s "") && is_none (ls_attrs l) && (given (ar_service_name r) =s "") && is_none (ar_integration_id r) = false.
Proof.
  intros Hw Hm. destruct (wf_spec _ _ _ _ _ Hw) as (s & (_ & F2 & _) & Hs). unfold body_spec. rewrite Hs.
  unfold rule_spec in Hs. rewrite Hm in Hs. destruct (wf_source _ _ _ _ _ Hw) as [E|[_ E]]; [|congruence]. rewrite E in Hs. cbn -[validateLogRuleSpec] in Hs.
  destruct (ar_log_spec r) as [l|] eqn:El; [|done]. apply err_bind_inr in Hs as (s' & Hs' & Hs).
  destruct (_ && _) eqn:Eg in Hs; [done|]. injection Hs as <-. injection F2 as ->. by exists s'.
Qed.

Lemma at_least_one_id n : (1 <= n)%Z -> at_least_one (Num n 0) = n.
Proof. intros H. unfold at_least_one, floor_num. cbn. destruct (n =? 0)%Z eqn:E; [lia|]. rewrite Z.div_1_r. lia. Qed.

Lemma trim_or_id s d : trim s = s -> s <> "" -> trim_or s d = s.
Proof. intros Hs Hne. unfold trim_or. rewrite Hs. by destruct s. Qed.
Lemma check_input_specs scope target rule b :
  let req := check_input scope target rule b in
  ri_spec req = cb_spec b /\ ri_log_spec req = cb_log_spec b /\ ri_trace_error_spec req = cb_trace_error_spec b /\
  ri_trace_latency_spec req = cb_trace_latency_spec b /\ ri_trace_volume_spec req = cb_trace_volume_spec b /\
  ri_trace_attribute_spec req = cb_trace_attribute_spec b.
Proof. unfold check_input. destruct (scopeBinding _ _) as [[? ?] ?], (envScopePayload _ _). done. Qed.

Lemma log_spec_validated r l :
  ar_log_spec r = Some l -> validateLogRuleSpec l = inr l -> trim (ls_body_contains l) = ls_body_contains l ->
  let f := log_form (Some r) in
  let sent := {| ls_min_severity := lf_minSeverity f; ls_body_contains := trim (lf_bodyContains f); ls_attrs := Some [];
                 ls_threshold := at_least_one (lf_threshold f); ls_window_seconds := lf_windowSec f;
                 ls_comparison := Some (lf_comparison f) |} in
  validateLogRuleSpec sent = inr {| ls_min_severity := ls_min_severity l; ls_body_contains := ls_body_contains l; ls_attrs := None;
                                    ls_threshold := ls_threshold l; ls_window_seconds := ls_window_seconds l; ls_comparison := ls_comparison l |}.
Proof.
  intros El Hv Ht. cbn -[validateLogRuleSpec trim at_least_one]. rewrite El. cbn -[validateLogRuleSpec trim at_least_one]. rewrite Ht.
  unfold validateLogRuleSpec in *. apply err_bind_inr in Hv as (c & Hc & Hv). destruct (negb (window_ok _)) eqn:Ew; [done|].
  apply err_bind_inr in Hv as (a & Ha & Hv). assert (Hb := f_equal (fun x => match x with inr x => ls_body_contains x | inl _ => "" end) Hv : TrimSpace (ls_body_contains l) = ls_body_contains l).
  assert (Hth := f_equal (fun x => match x with inr x => ls_threshold x | inl _ => 0%Z end) Hv : (if (ls_threshold l <? 1)%Z then 1%Z else ls_threshold l) = ls_threshold l).
  assert (Hco := f_equal (fun x => match x with inr x => ls_comparison x | inl _ => None end) Hv : Some c = ls_comparison l).
  assert (Hth1 : (1 <= ls_threshold l)%Z) by (destruct (ls_threshold l <? 1)%Z eqn:E; [apply Z.ltb_lt in E; lia|by apply Z.ltb_ge]).
  cbn [ls_comparison ls_threshold ls_window_seconds ls_body_contains ls_attrs ls_min_severity]. rewrite at_least_one_id by done.
  assert (Hcc : c = "at_least" \/ c = "fewer_than").
  { destruct ((given _ =s "") || _); [left; congruence|]. destruct (given (ls_comparison l) =s "fewer_than") eqn:E; [|done]. bool_prop. right. congruence. }
  rewrite <- Hco. replace (ls_threshold l <? 1)%Z with false by (symmetry; by apply Z.ltb_ge). rewrite Hb.
  by destruct Hcc as [-> | ->].
Qed.

Lemma wf_trace r : well_formed r -> ar_signal r = "trace" ->
  is_none (ar_integration_id r) && (given (ar_service_name r) =s "") = false /\
  exists s, body_spec r (full_input r) = inr s /\ fills s r /\
  match s with
  | SpecTraceLatency s => (1 <= tl_threshold_ms s)%Z
  | SpecTraceVolume s => validateVolume s = inr s /\ (1 <= tv_threshold s)%Z
  | SpecTraceAttribute s => validateAttribute s = inr s /\ (1 <= ta_threshold s)%Z
  | SpecTraceError s => validateError s = inr s /\ (1 <= te_threshold s)%Z
  | _ => False
  end.
Proof.
  intros Hw Hm. destruct (wf_spec _ _ _ _ _ Hw) as (s & Hf & Hs). pose proof Hf as (_ & _ & F3 & F4 & F5 & F6). unfold body_spec. rewrite Hs.
  unfold rule_spec in Hs. rewrite Hm in Hs. destruct (wf_source _ _ _ _ _ Hw) as [E|[_ E]]; [|congruence]. rewrite E in Hs.
  cbn -[validateVolume validateAttribute validateError validateLatency] in Hs.
  destruct (is_none (ar_integration_id r) && _) eqn:Eb; [done|]. split; [done|]. exists s. split; [done|]. split; [done|].
  assert (Hge : forall z, (z <? 1)%Z = false -> (1 <= z)%Z) by (intros z; apply Z.ltb_ge).
  destruct s as [s|s|s|s|s|s]; rewrite ?F4, ?F5, ?F6, ?F3 in Hs; cbn -[validateVolume validateAttribute validateError validateLatency] in Hs; try done;
    apply err_bind_inr in Hs as (s' & Hs' & [= ->]).
  - unfold validateLatency in Hs'. destruct (_ <? 1)%Z eqn:E1; [done|]. auto.
  - split; [done|]. unfold validateVolume in Hs'. destruct (_ <? 1)%Z eqn:E1; [done|]. auto.
  - split; [done|]. unfold validateAttribute in Hs'. destruct (_ <? 1)%Z eqn:E1; [done|]. auto.
  - split; [done|]. unfold validateError in Hs'. destruct (_ <? 1)%Z eqn:E1; [done|]. auto.
Qed.
Definition kept_by (now : string) (r : AlertRule) (sent : string + AlertRuleInput) : Prop :=
  (let* req := sent in Put now r req) = inr (changed now (ar_enabled r) (ar_channel_ids r) r).

Lemma trimmed_text o : text_ok o -> trim (given o) = given o ->
  TrimSpace (given (if truthy (trim (given o)) then Some (trim (given o)) else None)) = given o.
Proof. intros [_ Ht] ->. destruct (given o) as [|c t] eqn:E; [done|]. cbn [truthy]. exact Ht. Qed.

Lemma bound_service scope target r : bound scope target r -> (scope = scope_service <-> ar_service_name r <> None).
Proof. unfold bound. destruct scope; cbn; intros [= E1 E2 E3]; rewrite E1; split; congruence. Qed.

Lemma saved_metric_iff now scope target r :
  well_formed r -> bound scope target r -> editable r -> ar_signal r = "metric" ->
  (kept_by now r (metric_save scope target (Some r) (metric_form (Some r))) <->
   ar_notification_config r = None /\ ms_split_by (ar_spec r) = None /\ (ar_service_name r <> None \/ ar_display_on_service r = false)).
Proof.
  intros Hw Hb [Ht _] Hm. rewrite !Forall_cons in Ht. destruct Ht as (Tn & Tr & Tu & _).
  pose proof (wf_texts _ _ _ _ _ Hw) as Hx. rewrite !Forall_cons in Hx. destruct Hx as (_ & Xr & Xu & _).
  destruct (wf_name _ _ _ _ _ Hw) as [_ Hne]. pose proof (bound_service _ _ _ Hb) as Hbs.
  unfold kept_by, metric_save. set (f := metric_form (Some r)).
  assert (Hp : bool_decide (scope = scope_service) && (mf_source f =s "pushed") = (ar_source r =s "pushed")).
  { cbn. destruct (ar_source r =s "pushed") eqn:E; cbn; [|apply andb_false_r]. bool_prop.
    destruct (wf_pushed r Hw E) as (_ & Hs & _). apply Hbs in Hs. by rewrite bool_decide_eq_true_2. }
  rewrite Hp. set (b := Build_CheckBody _ _ _ _ _ _ _ _ _ _ _ _ _ _ _).
  assert (Hmn : ar_source r <> "pushed" -> truthy (mf_metric f) = true).
  { intros E. destruct (wf_metric r Hw Hm E) as [Hv _]. cbn. destruct (ms_metric_name (ar_spec r)) eqn:Em; [|done].
    unfold validateMetricRuleSpec in Hv. by rewrite Em in Hv. }
  assert (Hg : negb (ar_source r =s "pushed") && negb (truthy (mf_metric f)) = false).
  { destruct (ar_source r =s "pushed") eqn:E; [done|]. bool_prop. by rewrite Hmn. }
  rewrite Hg. cbn [err_bind].
  assert (Hso : (if ar_source r =s "pushed" then "pushed" else "telemetry") = ar_source r)
    by (destruct (wf_source _ _ _ _ _ Hw) as [E|[E _]]; by rewrite E).
  rewrite (check_input_keeps_iff now scope target r b); try done.
  - assert (Hsp : body_spec r (check_input scope target (Some r) b) = body_spec r (full_input r) <-> ms_split_by (ar_spec r) = None).
    { destruct (check_input_specs scope target (Some r) b) as (S1 & _). unfold body_spec at 1, rule_spec. rewrite Hm, S1. cbn -[given].
      destruct (ar_source r =s "pushed") eqn:E; bool_prop.
      - destruct (wf_pushed r Hw E) as (_ & Hs & Hv & ->). destruct (given (ar_service_name r) =s "") eqn:Es.
        { bool_prop. destruct (ar_service_name r) as [t|] eqn:E1; [|done]. pose proof (wf_texts _ _ _ _ _ Hw) as Hy. rewrite E1 in Hy.
          apply Forall_cons in Hy as [[Hy _] _]. cbn in Es. congruence. }
        match goal with |- context [validatePushedRuleSpec ?x] => change (validatePushedRuleSpec x) with (validatePushedRuleSpec (ar_spec r)) end.
        rewrite Hv. split; [|done]. intros _. unfold validatePushedRuleSpec in Hv. destruct (ValidOperator (ms_operator (ar_spec r))); [|done].
        cbn [negb] in Hv. by rewrite <- (f_equal (fun x => match x with inr x => ms_split_by x | inl _ => None end) Hv : None = ms_split_by (ar_spec r)).
      - destruct (wf_metric r Hw Hm E) as [Hv ->]. rewrite <- (metric_spec_validated r Hv). fold f.
        split; [intros H; apply err_bind_inr in H as (s' & -> & [= ->]); done|intros ->; done]. }
    assert (Hun : TrimSpace (given (cb_unit b)) = given (ar_unit r)) by exact (trimmed_text (ar_unit r) Xu Tu).
    rewrite Hsp, Hun. change (cb_display_on_service b ?? false) with (if bool_decide (scope = scope_service) then ar_display_on_service r else false).
    assert (Hd : (if bool_decide (scope = scope_service) then ar_display_on_service r else false) = ar_display_on_service r <->
                 (ar_service_name r <> None \/ ar_display_on_service r = false)).
    { rewrite <- Hbs. case_bool_decide; [tauto|]. destruct (ar_display_on_service r); intuition congruence. }
    rewrite Hd. tauto.
  - unfold b. cbn [cb_name]. by apply trim_or_id.
  - cbn. by destruct (wf_resolve _ _ _ _ _ Hw) as [-> | ->].
  - unfold b. cbn -[TrimSpace nonempty]. rewrite Hso. by destruct (wf_source _ _ _ _ _ Hw) as [->|[-> _]].
Qed.
Lemma saved_log_iff now scope target r :
  well_formed r -> bound scope target r -> editable r -> ar_signal r = "log" ->
  (kept_by now r (inr (log_save scope target (Some r) (log_form (Some r)))) <->
   ar_notification_config r = None /\ ar_log_spec r ≫= ls_attrs = None /\ ar_display_on_service r = false /\ ar_unit r = None).
Proof.
  intros Hw Hb [Ht _] Hm. rewrite !Forall_cons in Ht. destruct Ht as (Tn & Tr & _ & Tl & _).
  destruct (wf_name _ _ _ _ _ Hw) as [_ Hne]. destruct (wf_log r Hw Hm) as (l & El & Hv & Hbs & Hcr). rewrite El in Tl. cbn in Tl.
  unfold kept_by, log_save. cbn [err_bind]. set (f := log_form (Some r)). set (b := Build_CheckBody _ _ _ _ _ _ _ _ _ _ _ _ _ _ _).
  rewrite (check_input_keeps_iff now scope target r b); try done.
  - assert (Hsp : body_spec r (check_input scope target (Some r) b) = body_spec r (full_input r) <-> ar_log_spec r ≫= ls_attrs = None).
    { destruct (check_input_specs scope target (Some r) b) as (_ & S2 & _). rewrite Hbs. unfold body_spec, rule_spec.
      assert (Hso : ar_source r = "telemetry") by (destruct (wf_source _ _ _ _ _ Hw) as [E|[_ E]]; congruence).
      rewrite Hm, Hso, S2. cbn [cb_log_spec b]. pose proof (log_spec_validated r l El Hv Tl) as Hl. cbv zeta in Hl. fold f in Hl.
      change ("log" =s "metric") with false. change ("log" =s "log") with true. change ("telemetry" =s "pushed") with false. cbv iota.
      unfold b. cbn [cb_log_spec]. rewrite Hl. cbn [err_bind ls_min_severity ls_body_contains ls_attrs]. rewrite El.
      change (Some l ≫= ls_attrs) with (ls_attrs l). split.
      - intros H. match type of H with (if ?c then _ else _) = _ => destruct c end; [done|].
        exact (eq_sym (f_equal (fun x => match x with inr (SpecLog x) => ls_attrs x | _ => None end) H)).
      - intros E. rewrite E in Hcr. rewrite Hcr. do 2 f_equal. destruct l; cbn in *. by subst. }
    rewrite Hsp. change (cb_display_on_service b ?? false) with false. change (TrimSpace (given (cb_unit b))) with "".
    pose proof (wf_texts _ _ _ _ _ Hw) as Hx. rewrite !Forall_cons in Hx. destruct Hx as (_ & _ & (Hu & _) & _).
    assert (Hun : "" = given (ar_unit r) <-> ar_unit r = None) by (destruct (ar_unit r) as [u|]; cbn; intuition congruence).
    rewrite Hun. intuition congruence.
  - unfold b. cbn [cb_name]. by apply trim_or_id.
  - cbn. by destruct (wf_resolve _ _ _ _ _ Hw) as [-> | ->].
  - cbn. destruct (wf_source _ _ _ _ _ Hw) as [->|[_ E]]; [done|congruence].
Qed.
(** The specification [TraceCheckEditor] sends for an existing rule. *)
Lemma trace_body_spec r s req :
  well_formed r -> editable r -> ar_signal r = "trace" -> body_spec r (full_input r) = inr s -> fills s r ->
  (ri_trace_latency_spec req = match s with SpecTraceLatency s => Some {| tl_threshold_ms := at_least_one (Num (tl_threshold_ms s) 0);
     tl_window_seconds := tl_window_seconds s; tl_aggregation := if tl_aggregation s =s "max" then "max" else "p95" |} | _ => None end) ->
  (ri_trace_volume_spec req = match s with SpecTraceVolume s => Some {| tv_threshold := at_least_one (Num (tv_threshold s) 0);
     tv_window_seconds := tv_window_seconds s |} | _ => None end) ->
  (ri_trace_attribute_spec req = match s with SpecTraceAttribute s => Some {| ta_threshold := at_least_one (Num (ta_threshold s) 0);
     ta_window_seconds := ta_window_seconds s; ta_attrs := ta_attrs s |} | _ => None end) ->
  (ri_trace_error_spec req = match s with SpecTraceError s => Some {| te_threshold := at_least_one (Num (te_threshold s) 0);
     te_window_seconds := te_window_seconds s; te_attrs := None |} | _ => None end) ->
  (body_spec r req = inr s <-> ar_trace_error_spec r ≫= te_attrs = None).
Proof.
  intros Hw [_ Hagg] Hm Hbs Hf R1 R2 R3 R4. destruct (wf_trace r Hw Hm) as (Hn & s' & Hs' & _ & Hv).
  rewrite Hbs in Hs'. injection Hs' as <-. destruct Hf as (_ & _ & F3 & F4 & F5 & F6).
  assert (Hso : ar_source r = "telemetry") by (destruct (wf_source _ _ _ _ _ Hw) as [E|[_ E]]; congruence).
  unfold body_spec, rule_spec. rewrite Hm, Hso, Hn, F3. change ("trace" =s "metric") with false. change ("trace" =s "log") with false.
  change ("trace" =s "trace") with true. change ("telemetry" =s "pushed") with false. cbv iota. rewrite R1, R2, R3, R4.
  destruct s as [s|s|s|s|s|s]; try done; change (@None TraceErrorRuleSpec ≫= te_attrs) with (@None (list LogAttrFilter));
    try destruct Hv as [Hv Hone]; rewrite at_least_one_id by done; (split; [|intros He]); try done.
  - unfold validateLatency. cbn [tl_threshold_ms]. apply Z.ltb_ge in Hv. rewrite Hv. cbn [err_bind].
    destruct (Hagg s F4) as [E|E]; rewrite E; destruct s; cbn in *; by subst.
  - replace {| tv_threshold := tv_threshold s; tv_window_seconds := tv_window_seconds s |} with s by (by destruct s). by rewrite Hv.
  - replace {| ta_threshold := ta_threshold s; ta_window_seconds := ta_window_seconds s; ta_attrs := ta_attrs s |} with s by (by destruct s).
    by rewrite Hv.
  - intros H. apply err_bind_inr in H as (s' & H & [= ->]). unfold validateError in H. destruct (_ <? 1)%Z; [done|].
    exact (eq_sym (f_equal (fun x => match x with inr x => te_attrs x | _ => None end) H)).
  - replace {| te_threshold := te_threshold s; te_window_seconds := te_window_seconds s; te_attrs := None |} with s
      by (destruct s; cbn in *; by subst). by rewrite Hv.
Qed.

Lemma saved_trace_iff now scope target r :
  well_formed r -> bound scope target r -> editable r -> ar_signal r = "trace" ->
  (kept_by now r (trace_save scope target (Some r) (trace_form (Some r))) <->
   ar_notification_config r = None /\ ar_trace_error_spec r ≫= te_attrs = None /\ ar_display_on_service r = false /\ ar_unit r = None).
Proof.
  intros Hw Hb He Hm. pose proof He as [Ht _]. rewrite !Forall_cons in Ht. destruct Ht as (Tn & Tr & _).
  destruct (wf_name _ _ _ _ _ Hw) as [_ Hne]. destruct (wf_trace r Hw Hm) as (Hn & s & Hs & Hf & Hv).
  pose proof Hf as (_ & _ & F3 & F4 & F5 & F6).
  assert (Hgo : exists b, trace_save scope target (Some r) (trace_form (Some r)) = inr (check_input scope target (Some r) b) /\
    cb_name b = ar_name r /\ cb_runbook b = given (ar_runbook r) /\ cb_severity b = ar_severity r /\ cb_signal b = "trace" /\
    cb_resolve_mode b = ar_resolve_mode r /\ cb_envScope b = initialEnvScope (Some r) /\ cb_source b = None /\
    cb_display_on_service b = None /\ cb_unit b = None /\
    (body_spec r (check_input scope target (Some r) b) = inr s <-> ar_trace_error_spec r ≫= te_attrs = None)).
  { unfold trace_save, trace_form. cbn -[trim_or trim given at_least_one check_input initialEnvScope body_spec].
    rewrite F3, F4, F5, F6.
    assert (Hre : (if ar_resolve_mode r =s "auto" then "auto" else "manual") = ar_resolve_mode r)
      by (by destruct (wf_resolve _ _ _ _ _ Hw) as [-> | ->]).
    assert (Hta : match s with SpecTraceAttribute s => match ta_attrs s with [] => true | _ => false end | _ => false end = false).
    { destruct s; try done. destruct Hv as [Hv _]. unfold validateAttribute in Hv. destruct (_ <? 1)%Z; [done|].
      destruct (negb _); [done|]. by destruct (ta_attrs s). }
    destruct s as [s|s|s|s|s|s]; try done; cbn -[trim_or trim given at_least_one check_input initialEnvScope body_spec]; rewrite ?Hta;
      eexists; (split; [reflexivity|]);
      do 9 (split; [first [done|by apply trim_or_id|exact Tr]|]);
      match goal with |- context [check_input ?sc ?t ?ru ?b] =>
        destruct (check_input_specs sc t ru b) as (_ & _ & S3 & S4 & S5 & S6);
        pose proof (trace_body_spec r _ _ Hw He Hm Hs Hf S4 S5 S6 S3) as Hi; rewrite F3 in Hi; exact Hi end. }
  destruct Hgo as (b & Hgo & B1 & B2 & B3 & B4 & B5 & B6 & B7 & B8 & B9 & Hsp). unfold kept_by. rewrite Hgo. cbn [err_bind].
  rewrite (check_input_keeps_iff now scope target r b); try done; [|by rewrite B4|].
  - rewrite Hs, Hsp, B8, B9. change (None ?? false) with false. change (TrimSpace (given None)) with "".
    pose proof (wf_texts _ _ _ _ _ Hw) as Hx. rewrite !Forall_cons in Hx. destruct Hx as (_ & _ & (Hu & _) & _).
    assert (Hun : "" = given (ar_unit r) <-> ar_unit r = None) by (destruct (ar_unit r) as [u|]; cbn; intuition congruence).
    rewrite Hun. intuition congruence.
  - rewrite B7. cbn. destruct (wf_source _ _ _ _ _ Hw) as [->|[_ E]]; [done|congruence].
Qed.

(** Whether an editor's request says everything the rule does. *)
Definition carried (r : AlertRule) : Prop :=
  ar_notification_config r = None /\
  match editorKindOf r with
  | kind_metric => ms_split_by (ar_spec r) = None /\ (ar_service_name r <> None \/ ar_display_on_service r = false)
  | kind_log => ar_log_spec r ≫= ls_attrs = None /\ ar_display_on_service r = false /\ ar_unit r = None
  | kind_trace => ar_trace_error_spec r ≫= te_attrs = None /\ ar_display_on_service r = false /\ ar_unit r = None
  end.

(** C8. Opening a check's editor and saving it as it is keeps the rule exactly when
    it has no notification content, and: a metric check has no split attribute, and no
    tile unless it is a service's; a log check has no attribute conditions, and a
    failed-traces check none either, and neither has a tile or a unit.  All else
    survives: the team, the channels, the templates, the environments, the mode of
    resolution, the pushed source. *)
Theorem editor_keeps_rule_iff now scope target r :
  well_formed r -> bound scope target r -> editable r ->
  (kept_by now r (saved_unchanged scope target r) <-> carried r).
Proof.
  intros Hw Hb He. unfold saved_unchanged, carried. destruct (signal_of_wf r Hw) as [_ [E|[E|E]]]; unfold editorKindOf; rewrite E; cbn [String.eqb].
  - by apply saved_metric_iff.
  - by apply saved_log_iff.
  - by apply saved_trace_iff.
Qed.

(** The editor of trace checks never succeeds on a system: whatever is filled
    in, creating or updating, the server refuses what it sends. *)
Theorem trace_check_refused_on_system now row target rule f r :
  (let* req := trace_save scope_system target rule f in Put now row req) <> inr r.
Proof.
  intros H. apply err_bind_inr in H as (req & Hreq & H).
  assert (Hq : ri_signal req = Some "trace" /\ ri_integration_id req = None /\ ri_service_name req = None).
  { unfold trace_save in Hreq. destruct (_ && _) in Hreq; [done|]. injection Hreq as <-. by destruct (tf_mode f). }
  destruct Hq as (Q1 & Q2 & Q3). unfold RuleServer.Put in H. apply err_bind_inr in H as (g & Hg & _). apply buildRule_Built in Hg.
  pose proof (bu_spec _ _ _ _ _ _ Hg) as Hs. pose proof (bu_signal _ _ _ _ _ _ Hg) as H1. rewrite Q1 in H1. change (g_Signal g = "trace") in H1.
  pose proof (bu_service _ _ _ _ _ _ Hg) as H2. rewrite Q3 in H2. change (g_ServiceName g = "") in H2.
  pose proof (bu_integration _ _ _ _ _ _ Hg) as H3. rewrite Q2 in H3. injection H3 as H3.
  unfold rule_spec in Hs. rewrite H1, H2, <- H3 in Hs. cbn in Hs. by destruct (g_Source g =s "pushed").
Qed.
End keeps.

(** ** Examples *)

Module SenderExamples.
Import RuleExamples.

Definition with_spec (r : AlertRule) (signal resolve : string) (service integration group : option string)
    (mode : string) (envs : list string) (spec : RuleSpec) : AlertRule := {|
  ar_id := ar_id r; ar_environment_mode := Some mode; ar_environments := Some envs; ar_organization_id := ar_organization_id r;
  ar_integration_id := integration; ar_system_id := None; ar_service_name := service; ar_group_id := group;
  ar_name := ar_name r; ar_description := ar_description r; ar_runbook := ar_runbook r; ar_signal := signal;
  ar_spec := match spec with SpecMetric s => s | _ => zero_spec end;
  ar_log_spec := match spec with SpecLog s => Some s | _ => None end;
  ar_trace_error_spec := match spec with SpecTraceError s => Some s | _ => None end;
  ar_trace_latency_spec := match spec with SpecTraceLatency s => Some s | _ => None end;
  ar_trace_volume_spec := match spec with SpecTraceVolume s => Some s | _ => None end;
  ar_trace_attribute_spec := match spec with SpecTraceAttribute s => Some s | _ => None end;
  ar_severity := ar_severity r; ar_evaluation_seconds := 60; ar_enabled := true; ar_source := "telemetry";
  ar_display_on_service := false; ar_unit := None; ar_resolve_mode := resolve; ar_channel_ids := ["c1"];
  ar_title_template := None; ar_body_template := None; ar_notification_config := None; ar_created_at := "t0"; ar_updated_at := "t1" |}.

Definition errors_spec : LogRuleSpec := {|
  ls_min_severity := 17; ls_body_contains := "timeout"; ls_attrs := None; ls_threshold := 3; ls_window_seconds := 300;
  ls_comparison := Some "fewer_than" |}.

(** A log rule of a service, and a response-time rule of an integration that
    watches two environments. *)
Definition log_rule : AlertRule := with_spec rule "log" "manual" (Some "checkout") None None "each" [] (SpecLog errors_spec).
Definition latency_rule : AlertRule :=
  with_spec rule "trace" "auto" None (Some "int") (Some "team") "only" ["prod"; "stage"]
    (SpecTraceLatency {| tl_threshold_ms := 1500; tl_window_seconds := 300; tl_aggregation := "p95" |}).

Lemma log_rule_wf : well_formed log_rule.
Proof. apply wf_by_put; by_compute. Qed.
Lemma latency_rule_wf : well_formed latency_rule.
Proof. apply wf_by_put; by_compute. Qed.

Lemma switch_keeps_rule_iff_witness :
  well_formed rule /\ Put "t2" rule (toggleRule rule) = inr (changed "t2" false ["c1"; "c2"] rule).
Proof.
  split; [exact rule_wf|]. apply (proj2 (switch_keeps_rule_iff uuid_Parse valid valid valid "t2" rule rule_wf)). repeat split.
Defined.

Lemma integration_switch_keeps_rule_iff_witness :
  well_formed log_rule /\ Put "t2" log_rule (toggle log_rule) = inr (changed "t2" false ["c1"] log_rule).
Proof.
  split; [exact log_rule_wf|]. apply (proj2 (integration_switch_keeps_rule_iff uuid_Parse valid valid valid "t2" log_rule log_rule_wf)).
  repeat split.
Defined.

Lemma channel_routing_keeps_rule_iff_witness :
  well_formed log_rule /\ Put "t2" log_rule (route_channels ["c2"] log_rule) = inr (changed "t2" true ["c2"] log_rule).
Proof.
  split; [exact log_rule_wf|].
  apply (proj2 (channel_routing_keeps_rule_iff uuid_Parse valid valid valid "t2" log_rule ["c2"] log_rule_wf
    (channels_ok ["c2"] eq_refl) (NoDup_singleton "c2"))). repeat split.
Defined.

Lemma editor_keeps_rule_iff_witness :
  well_formed latency_rule /\ kept_by uuid_Parse valid valid valid "t2" latency_rule (saved_unchanged scope_integration "int" latency_rule).
Proof.
  assert (He : editable latency_rule).
  { split; [repeat (apply Forall_cons_2; [by_compute|]); apply Forall_nil_2|]. intros l H. injection H as H. left. by rewrite <- H. }
  split; [exact latency_rule_wf|].
  apply (proj2 (editor_keeps_rule_iff uuid_Parse valid valid valid "t2" scope_integration "int" latency_rule latency_rule_wf eq_refl He)).
  repeat split.
Defined.

(** What the switches and editors do to rules that have more. *)
Definition pushed_rule : AlertRule := {|
  ar_id := "r2"; ar_environment_mode := Some "each"; ar_environments := Some []; ar_organization_id := "org";
  ar_integration_id := None; ar_system_id := None; ar_service_name := Some "checkout"; ar_group_id := None;
  ar_name := "Backlog"; ar_description := ""; ar_runbook := None; ar_signal := "metric";
  ar_spec := {| ms_metric_name := ""; ms_aggregation := "last"; ms_operator := "gt"; ms_threshold := Num 5 0; ms_for_window := "5m";
                ms_attrs := None; ms_split_by := None; ms_fire_on_no_data := None |};
  ar_log_spec := None; ar_trace_error_spec := None; ar_trace_latency_spec := None; ar_trace_volume_spec := None;
  ar_trace_attribute_spec := None; ar_severity := "warning"; ar_evaluation_seconds := 60; ar_enabled := true;
  ar_source := "pushed"; ar_display_on_service := true; ar_unit := None; ar_resolve_mode := "auto"; ar_channel_ids := [];
  ar_title_template := None; ar_body_template := None; ar_notification_config := None; ar_created_at := "t0"; ar_updated_at := "t1" |}.

Example pushed_rule_not_switched : Put "t2" pushed_rule (toggleRule pushed_rule) = inl "spec.metric_name is required".
Proof. by_compute. Qed.

Example content_not_kept :
  match saved_unchanged scope_service "checkout" rule with
  | inr req => match Put "t2" rule req with inr r => ar_notification_config r | _ => Some content end
  | inl _ => Some content
  end = None.
Proof. by_compute. Qed.

Example environments_not_routed :
  match Put "t2" latency_rule (toggleRule latency_rule) with inr r => (ar_environment_mode r, ar_environments r, ar_resolve_mode r) | _ => (None, None, "") end
  = (Some "each", Some [], "manual").
Proof. by_compute. Qed.
End SenderExamples.
