(* ===== verification/Mirrors.v ===== *)
(** * Rules written on both sides

    Several rules exist twice, in the frontend and in the Go services, and have to
    agree: the slugs of tags and integrations, the label of a promoted attribute, the
    comparison of collector versions, tag colours.  Each pair
    is modelled here from both sources. *)

From S2P Require Import Prelude JsString JsUri JsArray Host Types RegExp Csv RuleServer.

Local Open Scope char_scope.
Local Open Scope string_scope.
Local Open Scope list_scope.

(** ** Slugs *)

(** [lib/slugify.ts] is [Csv.slugify] of another text; the variant of
    [AddToIntegration.tsx] trims after lowering, that of [SystemTypePicker.tsx]
    before. *)
Definition slug_of (s : string) : string := trim_dashes (dash_runs false s).
Definition slugify_name `{Host} (name : string) : string := slug_of (trim (toLowerCase name)).
Definition slugify_type `{Host} (s : string) : string := slug_of (toLowerCase (trim s)).

(** Combining marks, U+0300 to U+036F. *)
Fixpoint strip_marks (s : string) : string :=
  match s with
  | "" => ""
  | String a s1 =>
      match s1 with
      | "" => s
      | String b s2 =>
          let n := (byte_of a * 256 + byte_of b)%Z in
          if ((0xCC80 <=? n) && (n <=? 0xCDAF))%Z then strip_marks s2 else String a (strip_marks s1)
      end
  end.

Section tags.
Context `{Host} (normalize_NFKD : string -> string).

(** [slugify] of [Tags.tsx], and of [TagPicker.tsx], which never gives an empty one. *)
Definition tag_slug_full (input : string) : string := slug_of (strip_marks (normalize_NFKD (toLowerCase input))).
Definition tag_slugify (input : string) : string := slice_to 64 (tag_slug_full input).
Definition picker_slugify (input : string) : string := or_str (Some (tag_slugify input)) "tag".
End tags.

(** [slugRe] of internal/tags: 1 to 64 of a to z, digits and dashes, no dash at either
    end. *)
Definition slugRe (s : string) : bool :=
  match s with
  | "" => false
  | String a t =>
      slug_char a && ((t =s "") ||
        ((String.length t <=? 63)%nat && all_chars slug_or_dash t && match srev t with String z _ => slug_char z | "" => false end))
  end.

(** ** The label of an attribute *)

Definition dotted (n : nat) (s : string) : string := let parts := split "." s in if (n <=? length parts)%nat then join "." (List.tl parts) else s.

Definition sep_char (a : ascii) : bool := Ascii.eqb a "." || Ascii.eqb a "_" || Ascii.eqb a "-".

Section labels.
(** Upper case of a first character that is not ASCII: [toUpperCase] of a UTF-16 unit,
    [unicode.ToUpper] of a rune. *)
Context (toUpper_unit ToUpper_rune : string -> string).

Definition upper_first (other : string -> string) (s : string) : string :=
  match s with "" => "" | String a t => if is_ascii a then String (upper_char a) t else other s end.

(** [lib/humanizeAttributeKey.ts] *)
Definition humanizeAttributeKey (key : string) : string :=
  let s := trim key in
  if s =s "" then ""
  else
    let s := replaceAll (plus WS) " " (trim (replaceAll (plus (Chr sep_char)) " " (dotted 3 s))) in
    if s =s "" then trim key else upper_first toUpper_unit s.

(** [strings.Fields] *)
Fixpoint Fields_from (cur : string) (s : string) : list string :=
  let flush := if cur =s "" then [] else [cur] in
  match s with
  | "" => flush
  | String a s1 =>
      if ws1 a then flush ++ Fields_from "" s1
      else match s1 with
           | "" => [cur +:+ String a ""]
           | String b s2 =>
               if go_ws2 a b then flush ++ Fields_from "" s2
               else match s2 with
                    | "" => Fields_from (cur +:+ String a "") s1
                    | String d s3 => if go_ws3 a b d then flush ++ Fields_from "" s3 else Fields_from (cur +:+ String a "") s1
                    end
           end
  end.
Definition Fields (s : string) : list string := Fields_from "" s.

(** [HumanizeKey] of internal/integrations/messagecolumns.go. *)
Definition HumanizeKey (key : string) : string :=
  let s := TrimSpace key in
  if s =s "" then ""
  else
    let s := join " " (Fields (map_chars (fun a => if sep_char a then " "%char else a) (dotted 3 s))) in
    if s =s "" then TrimSpace key else upper_first ToUpper_rune s.
End labels.

(** ** Collector versions *)

Definition strip_v (s : string) : string := match s with String "v" s => s | _ => s end.
Definition signed (s : string) : option Z :=
  match s with
  | String "+" t => digits t
  | String "-" t => Z.opp <$> digits t
  | _ => digits s
  end.

Section versions.
(** [Number] of a text that is no decimal integer, or of one beyond 2^53, when it is an
    integer. *)
Context (Number_other : string -> option Z).

Definition Number_int (s : string) : option Z :=
  if s =s "" then Some 0%Z
  else match signed s with
       | Some n => if (Z.abs n <? 2 ^ 53)%Z then Some n else Number_other s
       | None => Number_other s
       end.

(** [parts] of [lib/collectorVersion.ts]. *)
Definition js_part (raw : list string) (i : nat) : option Z :=
  match raw !! i with
  | None => Some 0%Z
  | Some s => match Number_int s with Some n => if (n <? 0)%Z then None else Some n | None => None end
  end.
Definition parts (v : string) : option (Z * Z * Z) :=
  let raw := split "." (strip_v (trim v)) in
  if (length raw <? 2)%nat then None
  else match js_part raw 0, js_part raw 1, js_part raw 2 with Some a, Some b, Some c => Some (a, b, c) | _, _, _ => None end.

Definition versionAtLeast (version min : string) : bool :=
  match parts version, parts min with
  | Some (a0, a1, a2), Some (b0, b1, b2) =>
      if negb (a0 =? b0)%Z then (b0 <? a0)%Z else if negb (a1 =? b1)%Z then (b1 <? a1)%Z else if negb (a2 =? b2)%Z then (b2 <? a2)%Z else true
  | _, _ => false
  end.
Definition isValidVersion (v : string) : bool := match parts v with Some _ => true | None => false end.
End versions.

(** internal/collectorversion/target.go: [strconv.Atoi], [parse], [AtLeast]. *)
Definition Atoi (s : string) : option Z :=
  match signed s with Some n => if ((- 2 ^ 63 <=? n) && (n <? 2 ^ 63))%Z then Some n else None | None => None end.
Definition go_part (raw : list string) (i : nat) : option Z := match raw !! i with None => Some 0%Z | Some s => Atoi s end.
Definition parse (v : string) : option (Z * Z * Z) :=
  let raw := split "." (strip_v (TrimSpace v)) in
  if (length raw <? 2)%nat then None
  else match go_part raw 0, go_part raw 1, go_part raw 2 with Some a, Some b, Some c => Some (a, b, c) | _, _, _ => None end.
Definition AtLeast (v min : string) : bool :=
  match parse v, parse min with
  | Some (a0, a1, a2), Some (b0, b1, b2) =>
      if negb (a0 =? b0)%Z then (b0 <? a0)%Z else if negb (a1 =? b1)%Z then (b1 <? a1)%Z else (b2 <=? a2)%Z
  | _, _ => false
  end.

(** ** Colours of tags *)

Definition is_hex_lower (a : ascii) : bool := is_digit a || in_range 97 102 a.
Definition HEX_RE (s : string) : bool :=
  match s with
  | String "#" t => all_chars is_hex_lower t && ((String.length t =? 3)%nat || (String.length t =? 6)%nat)
  | _ => false
  end.

(** [commit] of [ColorInput.tsx]: the text it shows next and the value it reports. *)
Definition commit `{Host} (value next : string) : option string * option string :=
  let normalized := toLowerCase (trim next) in
  if negb (HEX_RE normalized) then (Some value, None)
  else (None, if negb (normalized =s value) then Some normalized else None).

Example labels : (humanizeAttributeKey id " node_red.flow.name ", humanizeAttributeKey id "documents.exported", humanizeAttributeKey id "a.b._-.c")
  = ("Flow name", "Documents exported", "B c") /\ HumanizeKey id "a.b._-.c" = "B c".
Proof. split; by_compute. Qed.

(** ** Tag slugs *)

Lemma slugRe_spec s :
  slugRe s = true <-> s <> "" /\ (String.length s <= 64)%nat /\ all_chars slug_or_dash s = true /\
    startsWith s "-" = false /\ startsWith (srev s) "-" = false.
Proof.
  assert (Hd : forall a t, slug_or_dash a = true -> startsWith (String a t) "-" = false <-> slug_char a = true).
  { intros a t Ha. unfold startsWith. cbn [String.prefix]. unfold slug_or_dash in Ha. destruct (Ascii.ascii_dec "-" a) as [<-|Hn].
    - split; [by destruct t|done].
    - split; [|done]. intros _. apply orb_true_iff in Ha as [Ha|Ha]; [done|]. by apply Ascii.eqb_eq in Ha. }
  destruct s as [|a t]; [split; [done|by intros []]|]. cbn [slugRe all_chars String.length]. split.
  - intros [Ha Ht]%andb_true_iff. assert (Hs : slug_or_dash a = true) by (unfold slug_or_dash; by rewrite Ha).
    split; [done|]. rewrite (Hd a t Hs). apply orb_true_iff in Ht as [->%String.eqb_eq|Ht].
    + cbn. repeat split; [lia|by rewrite Hs|done|]. by apply (Hd a "").
    + apply andb_true_iff in Ht as [[Hlen%Nat.leb_le Hall]%andb_true_iff Hl]. split; [lia|]. split; [by rewrite Hs|]. split; [done|].
      cbn [srev]. destruct (srev t) as [|z u]; [done|]. cbn. apply Hd; [|done]. unfold slug_or_dash. by rewrite Hl.
  - intros (_ & Hlen & [Hs Hall]%andb_true_iff & H1 & H2). apply (Hd a t Hs) in H1. rewrite H1. cbn [andb].
    destruct t as [|b t]; [done|]. apply orb_true_iff. right. rewrite Hall, andb_true_r. apply andb_true_iff. split; [apply Nat.leb_le; cbn in *; lia|].
    cbn [srev] in H2. change (srev t +:+ String b "") with (srev (String b t)) in H2 |- *. destruct (srev (String b t)) as [|z u] eqn:E.
    { pose proof (srev_involutive (String b t)) as Hr. by rewrite E in Hr. }
    apply (Hd z (u +:+ String a "")); [|exact H2].
    assert (Hz : all_chars slug_or_dash (srev (String b t)) = true) by (by rewrite all_chars_srev). rewrite E in Hz. cbn in Hz.
    by apply andb_true_iff in Hz as [Hz _].
Qed.

Lemma slice_to_long n t : (n < String.length t)%nat -> exists c, String.get n t = Some c /\ srev (slice_to (S n) t) = String c (srev (slice_to n t)).
Proof.
  revert t. induction n as [|n IH]; intros [|a t] Hn; cbn in Hn; try lia; [by exists a|].
  destruct (IH t ltac:(lia)) as (c & Hg & Hr). exists c. split; [done|].
  change (srev (slice_to (S (S n)) (String a t))) with (srev (slice_to (S n) t) +:+ String a ""). by rewrite Hr.
Qed.

Lemma slice_to_id n t : (String.length t <= n)%nat -> slice_to n t = t.
Proof. revert t. induction n as [|n IH]; intros [|a t] Hn; cbn in *; try done; [lia|]. f_equal. apply IH. lia. Qed.
Lemma slice_to_length n t : (String.length (slice_to n t) <= n)%nat.
Proof. revert t. induction n as [|n IH]; intros [|a t]; cbn; try lia. specialize (IH t). lia. Qed.
Lemma all_chars_slice p n t : all_chars p t = true -> all_chars p (slice_to n t) = true.
Proof. revert t. induction n as [|n IH]; intros [|a t]; cbn; try done. intros [-> Ht]%andb_true_iff. by apply IH. Qed.

(** The tag picker cuts its slug to 64 characters after removing the dashes at its
    ends: the server accepts the result exactly when the cut does not fall behind a
    dash. *)
Theorem tag_slug_accepted_iff `{Host} normalize_NFKD input :
  let full := tag_slug_full normalize_NFKD input in
  slugRe (picker_slugify normalize_NFKD input) = true <-> ((String.length full <= 64)%nat \/ String.get 63 full <> Some "-"%char).
Proof.
  intros full. pose proof (slug_chars (strip_marks (normalize_NFKD (toLowerCase input)))) as Hc.
  destruct (trim_dashes_ends (dash_runs false (strip_marks (normalize_NFKD (toLowerCase input))))) as [H1 H2].
  fold (slug_of (strip_marks (normalize_NFKD (toLowerCase input)))) in *. change (slug_of _) with full in Hc, H1, H2.
  unfold picker_slugify, tag_slugify. change (tag_slug_full _ input) with full. destruct full as [|a t] eqn:Ef.
  { split; [intros _; left; cbn; lia|by_compute]. }
  assert (Hor : or_str (Some (slice_to 64 (String a t))) "tag" = slice_to 64 (String a t)) by done.
  rewrite Hor, slugRe_spec. assert (Hne : full <> "") by (by rewrite Ef). rewrite <- Ef in *. clear Ef Hor.
  destruct (Nat.le_gt_cases (String.length full) 64) as [Hl|Hl].
  - rewrite slice_to_id by done. split; [by left|]. intros _. repeat split; done.
  - destruct (slice_to_long 63 full ltac:(lia)) as (c & Hg & Hr).
    assert (Hlast : startsWith (srev (slice_to 64 full)) "-" = false <-> c <> "-"%char).
    { rewrite Hr. unfold startsWith. cbn [String.prefix]. destruct (Ascii.ascii_dec "-" c) as [<-|Hn]; [|by split; congruence].
      split; [|done]. by destruct (srev (slice_to 63 full)). }
    rewrite Hlast, Hg. split; [intros (_ & _ & _ & _ & Hn); right; congruence|]. intros [Hle|Hn]; [lia|].
    split; [by destruct full|]. split; [apply slice_to_length|]. split; [by apply all_chars_slice|]. split; [|congruence].
    destruct full as [|b u]; [done|]. unfold startsWith in *. cbn [slice_to String.prefix] in *. destruct (Ascii.ascii_dec "-" b); [|done].
    by destruct u.
Qed.

(** ** White space on ASCII *)

Lemma plain_ascii a : is_ascii a = true -> ws1 a = false -> plain_char a = true.
Proof. intros Ha Hw. unfold plain_char. unfold is_ascii in Ha. by rewrite Ha, Hw. Qed.

Lemma strip_ascii p2 p3 s :
  (forall a b, plain_char a = true -> p2 a b = false) -> (forall a b c, plain_char a = true -> p3 a b c = false) ->
  all_in is_ascii s = true -> strip ws1 p2 p3 s = skip ws1 s.
Proof.
  intros H2 H3. induction s as [|a s IH]; [done|]. cbn [all_in]. intros [Ha Hs]%andb_true_iff. cbn [strip skip].
  destruct (ws1 a) eqn:E; [by apply IH|]. pose proof (plain_ascii a Ha E) as Hp. destruct s as [|b s]; [done|]. rewrite H2 by done.
  destruct s as [|c s]; [done|]. by rewrite H3.
Qed.

Lemma ws_first a b c : plain_char a = true -> ws2 a b = false /\ ws3 a b c = false /\ go_ws2 a b = false /\ go_ws3 a b c = false.
Proof.
  unfold plain_char. intros [Ha _]%andb_true_iff. apply Z.ltb_lt in Ha.
  assert (E2 : ws2 a b = false) by (unfold ws2; by rewrite (proj2 (Z.eqb_neq (byte_of a) 194)) by lia).
  assert (E3 : ws3 a b c = false).
  { pose proof (byte_of_range b). pose proof (byte_of_range c). unfold ws3.
    repeat match goal with |- context [(?x =? ?y)%Z] => rewrite (proj2 (Z.eqb_neq x y)) by lia end.
    by rewrite (proj2 (Z.leb_gt _ _)) by lia. }
  unfold go_ws2, go_ws3. rewrite E2, E3. split; [done|]. split; [done|]. split; [|done].
  by rewrite (proj2 (Z.eqb_neq (byte_of a) 194)) by lia.
Qed.

Lemma ws_last a b c : plain_char a = true -> ws2 b a = false /\ ws3 c b a = false /\ go_ws2 b a = false /\ go_ws3 c b a = false.
Proof.
  intros Hp. destruct (ws_second a b c Hp) as [E2 _]. pose proof (ws_third a c b Hp) as E3. unfold go_ws2, go_ws3. rewrite E2, E3.
  split; [done|]. split; [done|]. split; [|done]. unfold plain_char in Hp. apply andb_true_iff in Hp as [Ha _]. apply Z.ltb_lt in Ha.
  rewrite (proj2 (Z.eqb_neq (byte_of a) 133)) by lia. apply andb_false_r.
Qed.

Lemma all_in_srev p s : all_in p (srev s) = all_in p s.
Proof. induction s as [|a s IH]; [done|]. cbn. rewrite all_in_app, IH. cbn. by rewrite andb_true_r, andb_comm. Qed.

Lemma all_in_skip p q s : all_in p s = true -> all_in p (skip q s) = true.
Proof. induction s as [|a s IH]; [done|]. cbn. intros [Ha Hs]%andb_true_iff. destruct (q a); [by apply IH|]. cbn. by rewrite Ha, Hs. Qed.

(** On ASCII both trim the same. *)
Definition trim_ascii (s : string) : string := srev (skip ws1 (srev (skip ws1 s))).

Lemma trim_is s : all_in is_ascii s = true -> trim s = trim_ascii s /\ TrimSpace s = trim_ascii s.
Proof.
  intros Hs. assert (Hr : all_in is_ascii (srev (skip ws1 s)) = true) by (rewrite all_in_srev; by apply all_in_skip).
  unfold trim, trimEnd, trimStart, TrimSpace, trim_by, trim_ascii. split.
  - rewrite (strip_ascii ws2 ws3 s) by (done || (intros; by apply ws_first)). by rewrite strip_ascii by (done || (intros; by apply ws_last)).
  - rewrite (strip_ascii go_ws2 go_ws3 s) by (done || (intros; by apply ws_first)). by rewrite strip_ascii by (done || (intros; by apply ws_last)).
Qed.

(** ** Words *)

Fixpoint words (cur : string) (s : string) : list string :=
  let flush := if cur =s "" then [] else [cur] in
  match s with
  | "" => flush
  | String a s => if ws1 a then flush ++ words "" s else words (cur +:+ String a "") s
  end.

Lemma app_ne s a : (s +:+ String a "" =s "") = false.
Proof. by destruct s. Qed.

Lemma Fields_words cur s : all_in is_ascii s = true -> Fields_from cur s = words cur s.
Proof.
  revert cur. induction s as [|a s IH]; intros cur; [done|]. cbn [all_in]. intros [Ha Hs]%andb_true_iff. cbn [Fields_from words].
  destruct (ws1 a) eqn:E; [by rewrite IH|]. pose proof (plain_ascii a Ha E) as Hp. destruct s as [|b s].
  - cbn. by rewrite app_ne.
  - destruct (ws_first a b b Hp) as (_ & _ & -> & _). destruct s as [|c s]; [by apply IH|].
    destruct (ws_first a b c Hp) as (_ & _ & _ & ->). by apply IH.
Qed.

Lemma words_spaces_l u s : all_in ws1 u = true -> words "" (u +:+ s) = words "" s.
Proof. induction u as [|a u IH]; [done|]. cbn. intros [-> Hu]%andb_true_iff. by apply IH. Qed.

Lemma words_spaces_r cur s u : all_in ws1 u = true -> words cur (s +:+ u) = words cur s.
Proof.
  intros Hu. revert cur. induction s as [|a s IH]; intros cur.
  - destruct u as [|a u]; [done|]. cbn in *. apply andb_true_iff in Hu as [-> Hu].
    pose proof (words_spaces_l u "" Hu) as H. rewrite sapp_nil_r in H. rewrite H. by rewrite app_nil_r.
  - cbn. by rewrite !IH.
Qed.

Lemma trim_ascii_split s : exists p q, s = p +:+ (trim_ascii s +:+ q) /\ all_in ws1 p = true /\ all_in ws1 q = true.
Proof.
  destruct (skip_split ws1 s) as (p & Hp & Hpw). destruct (skip_split ws1 (srev (skip ws1 s))) as (q & Hq & Hqw).
  exists p, (srev q). split; [|by rewrite all_in_srev]. rewrite Hp at 1. f_equal. unfold trim_ascii.
  apply (f_equal srev) in Hq. by rewrite srev_involutive, srev_app in Hq.
Qed.

Lemma words_trim s : words "" (trim_ascii s) = words "" s.
Proof.
  destruct (trim_ascii_split s) as (p & q & E & Hp & Hq). rewrite E at 2. by rewrite words_spaces_l, words_spaces_r.
Qed.

(** A string that does not end in white space. *)
Fixpoint ends_plain (s : string) : bool :=
  match s with "" => true | String a "" => negb (ws1 a) | String _ s => ends_plain s end.

Lemma ends_plain_srev s : ends_plain (srev s) = match s with "" => true | String a _ => negb (ws1 a) end.
Proof.
  destruct s as [|a s]; [done|]. cbn [srev]. induction (srev s) as [|b t IH]; [done|]. cbn. destruct (t +:+ String a "") eqn:E; [by destruct t|done].
Qed.

Lemma words_ne cur s : s <> "" -> ends_plain s = true -> words cur s <> [].
Proof.
  revert cur. induction s as [|a s IH]; intros cur Hne He; [done|]. cbn [words]. destruct s as [|b s].
  - cbn in *. apply negb_true_iff in He. rewrite He. by rewrite app_ne.
  - destruct (ws1 a); [|by apply IH]. intros H. apply app_eq_nil in H as [_ H]. by apply (IH "") in H.
Qed.

(** One space between words: what collapsing runs leaves of a trimmed text. *)
Lemma squeeze_words s : ends_plain s = true ->
  (forall cur, cur <> "" -> join " " (words cur s) = cur +:+ squeeze ws1 " " false s) /\ join " " (words "" s) = squeeze ws1 " " true s.
Proof.
  induction s as [|a s IH]; intros He.
  { split; [|done]. intros cur Hc. cbn. apply String.eqb_neq in Hc. rewrite Hc. by rewrite sapp_nil_r. }
  destruct s as [|b s].
  { cbn in He. apply negb_true_iff in He. cbn. rewrite He. split; [|done]. intros cur Hc. by rewrite app_ne. }
  destruct (IH He) as [IH1 IH2]. assert (Hw : words "" (String b s) <> []) by (by apply words_ne).
  revert IH1 IH2 Hw. clear. generalize (String b s). intros t IH1 IH2 Hw. cbn [words squeeze]. destruct (ws1 a) eqn:E; split.
  - intros cur Hc. apply String.eqb_neq in Hc. rewrite Hc. rewrite <- IH2. by destruct (words "" t).
  - exact IH2.
  - intros cur Hc. rewrite IH1 by (by destruct cur). by rewrite <- sapp_assoc.
  - change ("" +:+ String a "") with (String a ""). rewrite IH1 by done. done.
Qed.

(** Separators make no difference to the words: a run of them or as many spaces. *)
Lemma words_separators s :
  (forall cur, words cur (squeeze sep_char " " false s) = words cur (map_chars (fun a => if sep_char a then " "%char else a) s)) /\
  words "" (squeeze sep_char " " true s) = words "" (map_chars (fun a => if sep_char a then " "%char else a) s).
Proof.
  induction s as [|a s [IH1 IH2]]; [done|]. cbn [squeeze map_chars]. destruct (sep_char a) eqn:E.
  - split; [|exact IH2]. intros cur. cbn [String.append words]. change (ws1 " ") with true. cbv iota. by rewrite IH2.
  - split; [intros cur|]; cbn [words]; destruct (ws1 a); by rewrite ?IH1.
Qed.

Lemma all_in_squeeze p q by_ b s : all_in p by_ = true -> all_in p s = true -> all_in p (squeeze q by_ b s) = true.
Proof.
  intros Hb. revert b. induction s as [|a s IH]; intros b; [done|]. cbn. intros [Ha Hs]%andb_true_iff.
  destruct (q a); [destruct b|]; cbn; rewrite ?all_in_app, ?Hb, ?Ha; by rewrite IH.
Qed.

Lemma all_in_map_chars p f s : (forall a, p a = true -> p (f a) = true) -> all_in p s = true -> all_in p (map_chars f s) = true.
Proof. intros Hf. induction s as [|a s IH]; [done|]. cbn. intros [Ha Hs]%andb_true_iff. by rewrite Hf, IH. Qed.

Lemma all_in_trim p s : all_in p s = true -> all_in p (trim_ascii s) = true.
Proof. intros Hs. unfold trim_ascii. rewrite all_in_srev. apply all_in_skip. rewrite all_in_srev. by apply all_in_skip. Qed.

Lemma all_in_dotted p n s : (2 <= n)%nat -> all_in p s = true -> all_in p (dotted n s) = true.
Proof.
  intros Hn Hs. unfold dotted. destruct (n <=? length (split "." s))%nat eqn:E; [|done]. apply Nat.leb_le in E.
  pose proof (join_split "." s) as Hj. destruct (split "." s) as [|x [|y l]]; [cbn in E; lia|cbn in E; lia|]. cbn [List.tl].
  rewrite <- Hj in Hs. change (join (String "." "") (x :: y :: l)) with (x +:+ (String "." "" +:+ join "." (y :: l))) in Hs.
  rewrite !all_in_app in Hs. by apply andb_true_iff in Hs as [_ [_ Hs]%andb_true_iff].
Qed.

Lemma trim_ascii_ends s : ends_plain (trim_ascii s) = true /\ squeeze ws1 " " true (trim_ascii s) = squeeze ws1 " " false (trim_ascii s).
Proof.
  unfold trim_ascii. split.
  - rewrite ends_plain_srev. destruct (skip ws1 (srev (skip ws1 s))) as [|a t] eqn:E; [done|]. apply skip_stop in E. by rewrite E.
  - set (t := skip ws1 s). assert (Ht : forall a u, t = String a u -> ws1 a = false) by (intros a u; apply skip_stop).
    clearbody t. destruct (skip_split ws1 (srev t)) as (q & Hq & _). apply (f_equal srev) in Hq. rewrite srev_involutive, srev_app in Hq.
    destruct (srev (skip ws1 (srev t))) as [|a u] eqn:E; [done|]. apply squeeze_stop. apply (Ht a (u +:+ srev q)). rewrite Hq. done.
Qed.

(** For every attribute key of ASCII characters the label the editor suggests is the
    one the server gives a blank label. *)
Theorem labels_agree toUpper_unit ToUpper_rune key :
  all_in is_ascii key = true -> humanizeAttributeKey toUpper_unit key = HumanizeKey ToUpper_rune key.
Proof.
  intros Hk. destruct (trim_is key Hk) as [E1 E2]. unfold humanizeAttributeKey, HumanizeKey. rewrite E1, E2.
  destruct (trim_ascii key =s ""); [done|].
  set (d := dotted 3 (trim_ascii key)). assert (Hd : all_in is_ascii d = true) by (apply all_in_dotted; [lia|by apply all_in_trim]).
  rewrite (replaceAll_class (plus (Chr sep_char)) sep_char " " d) by done.
  set (s := squeeze sep_char " " false d). assert (Hs : all_in is_ascii s = true) by (by apply all_in_squeeze).
  rewrite (proj1 (trim_is s Hs)).
  rewrite (replaceAll_class (plus WS) ws1 " " (trim_ascii s)).
  2: { intros t (u & Hu). apply exec_plus_WS. pose proof (all_in_trim _ _ Hs) as Ht. rewrite Hu, all_in_app in Ht.
       by apply andb_true_iff in Ht as [_ Ht]. }
  destruct (trim_ascii_ends s) as [He Hb]. rewrite <- Hb. rewrite <- (proj2 (squeeze_words _ He)). rewrite words_trim.
  unfold s. rewrite (proj1 (words_separators d)). unfold Fields. rewrite Fields_words.
  2: { apply all_in_map_chars; [|done]. intros a Ha. by destruct (sep_char a). }
  set (m := map_chars _ d). destruct (join " " (words "" m)) as [|a t] eqn:E; [done|]. cbn [String.eqb upper_first].
  enough (is_ascii a = true) as -> by done.
  assert (Hj : all_in is_ascii (String a t) = true).
  { rewrite <- E. unfold m. rewrite <- (proj1 (words_separators d)). fold s. rewrite <- words_trim, (proj2 (squeeze_words _ He)).
    apply all_in_squeeze; [done|by apply all_in_trim]. }
  cbn in Hj. by apply andb_true_iff in Hj as [Hj _].
Qed.

(** ** Versions *)

Definition exact (p : Z * Z * Z) : Prop := let '(a, b, c) := p in (0 <= a < 2 ^ 53 /\ 0 <= b < 2 ^ 53 /\ 0 <= c < 2 ^ 53)%Z.

Lemma part_agree Number_other raw i n : go_part raw i = Some n -> (0 <= n < 2 ^ 53)%Z -> js_part Number_other raw i = Some n.
Proof.
  unfold go_part, js_part. destruct (raw !! i) as [s|]; [|done]. unfold Atoi, Number_int. intros H Hn.
  destruct (s =s "") eqn:E; [bool_prop; by subst|]. destruct (signed s) as [m|]; [|done].
  destruct (_ && _) in H; [|done]. injection H as ->. rewrite Z.abs_eq by lia.
  rewrite (proj2 (Z.ltb_lt n (2 ^ 53))) by lia. by rewrite (proj2 (Z.ltb_ge n 0)) by lia.
Qed.

Lemma parts_agree Number_other v p : trim v = TrimSpace v -> parse v = Some p -> exact p -> parts Number_other v = Some p.
Proof.
  unfold parse, parts. intros ->. destruct (_ <? 2)%nat; [done|]. set (raw := split _ _).
  destruct (go_part raw 0) as [a|] eqn:Ea; [|done]. destruct (go_part raw 1) as [b|] eqn:Eb; [|done].
  destruct (go_part raw 2) as [c|] eqn:Ec; [|done]. intros [= <-] (Ha & Hb & Hc).
  by rewrite (part_agree Number_other _ _ _ Ea Ha), (part_agree Number_other _ _ _ Eb Hb), (part_agree Number_other _ _ _ Ec Hc).
Qed.

(** On versions the server accepts, without negative parts or parts beyond 2^53,
    the page that renders a snippet compares as the server does, so both pick the same
    component names. *)
Theorem versions_compare_alike Number_other v min p q :
  trim v = TrimSpace v -> trim min = TrimSpace min -> parse v = Some p -> parse min = Some q -> exact p -> exact q ->
  versionAtLeast Number_other v min = AtLeast v min.
Proof.
  intros Hv Hm Hp Hq Ep Eq. unfold versionAtLeast, AtLeast.
  rewrite (parts_agree Number_other v p Hv Hp Ep), (parts_agree Number_other min q Hm Hq Eq), Hp, Hq.
  destruct p as [[a0 a1] a2], q as [[b0 b1] b2]. destruct (negb (a0 =? b0)%Z); [done|]. destruct (negb (a1 =? b1)%Z); [done|].
  destruct (a2 =? b2)%Z eqn:E; cbn.
  - apply Z.eqb_eq in E as ->. symmetry. apply Z.leb_refl.
  - apply Z.eqb_neq in E. apply eq_true_iff_eq. rewrite Z.ltb_lt, Z.leb_le. lia.
Qed.

(** The comparison is by number, and an unreadable version is not new. *)
Example numeric : versionAtLeast (fun _ => None) "0.146.0" "0.9.0" = true /\ versionAtLeast (fun _ => None) "latest" "0.9.0" = false.
Proof. split; by_compute. Qed.

(** What only one side reads: the page takes a missing number for zero, the server a
    negative one. *)
Example trailing_dot : isValidVersion (fun _ => None) "0.146." = true /\ parse "0.146." = None /\
  isValidVersion (fun _ => None) "1.-1" = false /\ parse "1.-1" = Some (1, -1, 0)%Z.
Proof. repeat split; by_compute. Qed.

(** ** Examples *)

Definition long_name : string := "Payments and settlement flows for the northern european regions b".

(** The 64th character of its slug is a dash. *)
Example cut_behind_dash : slugRe (@picker_slugify plain_host id long_name) = false.
Proof. by_compute. Qed.

Lemma labels_agree_witness :
  all_in is_ascii " node_red.flow.name " = true /\
  humanizeAttributeKey id " node_red.flow.name " = HumanizeKey (fun s => s) " node_red.flow.name ".
Proof.
  assert (H : all_in is_ascii " node_red.flow.name " = true) by by_compute. split; [exact H|].
  exact (labels_agree id (fun s => s) " node_red.flow.name " H).
Defined.

Lemma versions_compare_alike_witness :
  parse "v0.157.0" = Some (0, 157, 0)%Z /\ versionAtLeast (fun _ => None) "v0.157.0" "0.146.0" = AtLeast "v0.157.0" "0.146.0".
Proof.
  split; [by_compute|].
  apply (versions_compare_alike (fun _ => None) "v0.157.0" "0.146.0" (0, 157, 0)%Z (0, 146, 0)%Z); first [by_compute|unfold exact; lia].
Defined.
