(* ===== verification/Topology.v ===== *)
(** * The topology page

    [pages/Topology.tsx] and [components/ExpandableTree.tsx]: the trees of the
    integrations, systems and metadata perspectives and the rows shown of
    them; and [metadataGraph] of
    services/cell-api/internal/api/handlers_metadata_graph.go, which builds the
    graph the metadata tree is made from. *)

From S2P Require Import Prelude JsString JsUri JsArray Host Types RuleServer.

Local Open Scope string_scope.
Local Open Scope list_scope.

(** ** Trees *)

Inductive TreeNode :=
  Node (id label kind : string) (status href : option string) (children : option (list TreeNode)).
Definition tn_id (n : TreeNode) := let 'Node i _ _ _ _ _ := n in i.
Definition tn_label (n : TreeNode) := let 'Node _ l _ _ _ _ := n in l.
Definition tn_kind (n : TreeNode) := let 'Node _ _ k _ _ _ := n in k.
Definition tn_status (n : TreeNode) := let 'Node _ _ _ s _ _ := n in s.
Definition tn_href (n : TreeNode) := let 'Node _ _ _ _ h _ := n in h.
Definition tn_children (n : TreeNode) := let 'Node _ _ _ _ _ c := n in c ?? [].

Section ind.
Context (P : TreeNode -> Prop).
Hypothesis HNode : forall i l k s h c, Forall P (c ?? []) -> P (Node i l k s h c).

Fixpoint TreeNode_ind' (n : TreeNode) : P n :=
  match n with
  | Node i l k s h c => HNode i l k s h c
      (match c return Forall P (c ?? []) with
       | None => List.Forall_nil P
       | Some l => (fix go l : Forall P l :=
           match l with [] => List.Forall_nil P | x :: l => proj2 (Forall_cons P x l) (conj (TreeNode_ind' x) (go l)) end) l
       end)
  end.
End ind.

Definition svcChild (prefix name : string) : TreeNode :=
  Node (tpl [prefix; ":"; name]) name "service" None (Some (tpl ["/services/"; encodeURIComponent name])) None.

Definition integrationRoots (integrations : option (list Integration)) : list TreeNode :=
  (fun i => Node (tpl ["int:"; i_id i]) (i_name i) "integration" (i_status i) (Some (tpl ["/integrations/"; i_id i]))
      (Some (svcChild (tpl ["int:"; i_id i]) <$> (i_services i ?? [])))) <$> (integrations ?? []).
Definition systemRoots (systems : option (list System)) : list TreeNode :=
  (fun sy => Node (tpl ["sys:"; sy_id sy]) (sy_name sy) "system" (sy_status sy) (Some (tpl ["/systems/"; sy_id sy]))
      (Some (svcChild (tpl ["sys:"; sy_id sy]) <$> sy_members sy))) <$> (systems ?? []).

(** ** The metadata tree *)

Record MetaGraphNode := {
  mn_id : string; mn_kind : string; mn_label : string; mn_integration_id : option string;
  mn_field : option string; mn_field_label : option string; mn_value : option string
}.
Record MetaGraphEdge := { me_source : string; me_target : string }.
Record MetaField := { mf_key : string; mf_label : string }.
Record MetaGraphResponse := { mg_nodes : list MetaGraphNode; mg_edges : list MetaGraphEdge; mg_fields : list MetaField }.

Section tree.
Context (meta : MetaGraphResponse) (integrations : list Integration).

Definition intById : list (string * Integration) := omap_of ((fun i => (i_id i, i)) <$> integrations).
Definition intNodeToUUID : list (string * string) :=
  omap_of (omap (fun n : MetaGraphNode =>
    if (mn_kind n =s "integration") && truthy_opt (mn_integration_id n)
    then Some (mn_id n, mn_integration_id n ?? "") else None) (mg_nodes meta) : list (string * string)).
Definition labelByNode : list (string * string) := omap_of ((fun n => (mn_id n, mn_label n)) <$> mg_nodes meta).
Definition intsByAttr (attr : string) : list string :=
  me_source <$> (omap_get attr (group_by me_target (mg_edges meta)) ?? []).

Definition intChild (keyPrefix intNodeId : string) : TreeNode :=
  let uuid := omap_get intNodeId intNodeToUUID in
  let integ := match uuid with Some u => if truthy u then omap_get u intById else None | None => None end in
  Node (tpl [keyPrefix; ":"; intNodeId])
    (match integ with Some i => i_name i | None => omap_get intNodeId labelByNode ?? "integration" end)
    "integration" None
    (match uuid with Some u => if truthy u then Some (tpl ["/integrations/"; u]) else None | None => None end)
    (Some (svcChild (tpl [keyPrefix; ":"; intNodeId]) <$> match integ with Some i => i_services i ?? [] | None => [] end)).

Definition is_value (n : MetaGraphNode) : bool := (mn_kind n =s "value") && truthy_opt (mn_field n).
Definition valuesByField (key : string) : list MetaGraphNode :=
  omap_get key (group_by (fun n => mn_field n ?? "") (List.filter is_value (mg_nodes meta))) ?? [].
Definition tagNodes : list MetaGraphNode := List.filter (fun n => mn_kind n =s "tag") (mg_nodes meta).

Definition attrNode (kind prefix : string) (v : MetaGraphNode) : TreeNode :=
  Node (tpl [prefix; mn_id v]) (mn_label v) kind None None
    (Some (intChild (tpl [prefix; mn_id v]) <$> intsByAttr (mn_id v))).
Definition fieldRoot (key label : string) : TreeNode :=
  Node (tpl ["f:"; key]) label "field" None None (Some (attrNode "value" "v:" <$> valuesByField key)).
Definition tagsRoot : TreeNode :=
  Node "f:__tags__" "Tags" "field" None None (Some (attrNode "tag" "t:" <$> tagNodes)).

Definition tree_of (field : string) : list TreeNode :=
  if field =s "__tags__" then [tagsRoot]
  else if negb (field =s "all") then
    match List.find (fun f => mf_key f =s field) (mg_fields meta) with
    | Some f => [fieldRoot (mf_key f) (mf_label f)] | None => [] end
  else ((fun f => fieldRoot (mf_key f) (mf_label f)) <$> mg_fields meta) ++ [tagsRoot].
End tree.

Definition buildMetadataTree (meta : option MetaGraphResponse) (integrations : option (list Integration)) (field : string) :
    list TreeNode :=
  match meta with None => [] | Some m => tree_of m (integrations ?? []) field end.

Definition fieldOptions (meta : option MetaGraphResponse) : list string :=
  ["all"] ++ match meta with Some m => mf_key <$> mg_fields m | None => [] end ++ ["__tags__"].
Definition fieldLabel (meta : option MetaGraphResponse) (v : string) : string :=
  if v =s "all" then "All attributes" else if v =s "__tags__" then "Tags"
  else match meta with
       | Some m => match List.find (fun f => mf_key f =s v) (mg_fields m) with Some f => mf_label f | None => v end
       | None => v
       end.

(** ** The rows of a tree *)

Definition NODE_W : Z := 210.
Definition NODE_H : Z := 46.
Definition ROW_GAP : Z := 14.
Definition COL_GAP : Z := 56.

Definition toggle (id : string) (expanded : gset string) : gset string :=
  if decide (id ∈ expanded) then expanded ∖ {[id]} else {[id]} ∪ expanded.

Record Row := { rw_id : string; rw_depth : nat; rw_parent : option string; rw_expandable : bool; rw_expanded : bool }.

Definition hasChildren (n : TreeNode) : bool := negb (bool_decide (length (tn_children n) = 0)).

(** [walk], in the order it pushes. *)
Fixpoint walk (expanded : gset string) (n : TreeNode) (depth : nat) (parent : option string) : list Row :=
  let 'Node id _ _ _ _ c := n in
  {| rw_id := id; rw_depth := depth; rw_parent := parent; rw_expandable := hasChildren n;
     rw_expanded := bool_decide (id ∈ expanded) |}
  :: (if hasChildren n && bool_decide (id ∈ expanded) then
        match c with
        | Some l => l ≫= fun x => walk expanded x (S depth) (Some id)
        | None => []
        end
      else []).
Definition rows (expanded : gset string) (roots : list TreeNode) : list Row :=
  roots ≫= fun r => walk expanded r 0 None.
(** [order] counts the rows pushed so far. *)
Definition positions (rs : list Row) : list (Z * Z) :=
  imap (fun i r => (Z.of_nat (rw_depth r) * (NODE_W + COL_GAP), Z.of_nat i * (NODE_H + ROW_GAP))%Z) rs.
(** An edge for a row whose parent id is truthy. *)
Definition tree_edges (rs : list Row) : list (string * string) :=
  omap (fun r : Row => if truthy_opt (rw_parent r) then Some (rw_parent r ?? "", rw_id r) else None) rs.

Definition accentFor (kind : string) (status : option string) : string :=
  if bool_decide (status = Some "unhealthy") then "var(--err)"
  else if kind =s "integration" then "var(--primary)" else if kind =s "system" then "#c08a2d"
  else if kind =s "tag" then "var(--ok)" else if (kind =s "field") || (kind =s "value") then "var(--ink-2)"
  else "var(--border)".

(** ** The graph of the server *)

(** An integration the caller may see: its values by field, in the order of a Go map, and its tags. *)
Record MetaRow := {
  mr_id : string; mr_name : string; mr_values : list (string * string); mr_tags : list (string * string)
}.
Definition US : string := String "031" "".
Definition valID (key v : string) : string := tpl ["val:"; key; US; v].

Definition value_node (labels : list (string * string)) (key v : string) : MetaGraphNode := {|
  mn_id := valID key v; mn_kind := "value"; mn_label := v; mn_integration_id := None; mn_field := Some key;
  mn_field_label := omap_get key labels; mn_value := Some v |}.
Definition int_node (r : MetaRow) : MetaGraphNode := {|
  mn_id := tpl ["int:"; mr_id r]; mn_kind := "integration"; mn_label := mr_name r; mn_integration_id := Some (mr_id r);
  mn_field := None; mn_field_label := None; mn_value := None |}.
Definition tag_node (t : string * string) : MetaGraphNode := {|
  mn_id := tpl ["tag:"; t.1]; mn_kind := "tag"; mn_label := t.2; mn_integration_id := None;
  mn_field := None; mn_field_label := None; mn_value := None |}.

(** The values an integration adds: those of a known field that are not blank. *)
Definition kept_values (keyByFieldID : list (string * string)) (r : MetaRow) : list (string * string) :=
  omap (fun fv : string * string => match omap_get fv.1 keyByFieldID with
                | Some key => if truthy (TrimSpace fv.2) then Some (key, TrimSpace fv.2) else None
                | None => None end) (mr_values r).

Definition addNode (nodes : list MetaGraphNode) (n : MetaGraphNode) : list MetaGraphNode :=
  if existsb (fun m => mn_id m =s mn_id n) nodes then nodes else nodes ++ [n].
Definition row_nodes (keys labels : list (string * string)) (r : MetaRow) : list MetaGraphNode :=
  int_node r :: (((fun kv => value_node labels kv.1 kv.2) <$> kept_values keys r) ++ (tag_node <$> mr_tags r)).
Definition row_edges (keys : list (string * string)) (r : MetaRow) : list MetaGraphEdge :=
  ((fun kv => {| me_source := tpl ["int:"; mr_id r]; me_target := valID kv.1 kv.2 |}) <$> kept_values keys r)
  ++ ((fun t => {| me_source := tpl ["int:"; mr_id r]; me_target := tpl ["tag:"; t.1] |}) <$> mr_tags r).

(** [fields] are the fields of integrations, with their ids. *)
Definition metadataGraph (fields : list (string * MetaField)) (rs : list MetaRow) : MetaGraphResponse :=
  let keys := omap_of ((fun f => (f.1, mf_key f.2)) <$> fields) in
  let labels := omap_of ((fun f => (mf_key f.2, mf_label f.2)) <$> fields) in
  {| mg_nodes := foldl addNode [] (rs ≫= row_nodes keys labels); mg_edges := rs ≫= row_edges keys;
     mg_fields := snd <$> fields |}.

(** ** Rows hang together *)

(** Every row but a root's follows the row of its parent, which is expanded and one column to
    the left. *)
Definition hangs (rs : list Row) : Prop :=
  forall i r, rs !! i = Some r -> rw_depth r = 0 \/
    exists j p, j < i /\ rs !! j = Some p /\ rw_parent r = Some (rw_id p) /\ rw_depth r = S (rw_depth p) /\
      rw_expanded p = true /\ rw_expandable p = true.

(** The same below a given row. *)
Definition hangs_from (d : nat) (id : option string) (rs : list Row) : Prop :=
  forall i r, rs !! i = Some r -> (rw_depth r = d /\ rw_parent r = id) \/
    exists j p, j < i /\ rs !! j = Some p /\ rw_parent r = Some (rw_id p) /\ rw_depth r = S (rw_depth p) /\
      rw_expanded p = true /\ rw_expandable p = true.

Lemma hangs_from_app d id rs ss : hangs_from d id rs -> hangs_from d id ss -> hangs_from d id (rs ++ ss).
Proof.
  intros H1 H2 i r Hi. destruct (decide (i < length rs)) as [Hl|Hl].
  - rewrite lookup_app_l in Hi by done. destruct (H1 i r Hi) as [?|(j & p & Hj & Hp & ?)]; [by left|].
    right. exists j, p. split; [done|]. split; [|done]. rewrite lookup_app_l by lia. done.
  - rewrite lookup_app_r in Hi by lia. destruct (H2 _ r Hi) as [?|(j & p & Hj & Hp & ?)]; [by left|].
    right. exists (length rs + j), p. split; [lia|]. split; [|done]. rewrite lookup_app_r by lia. by rewrite Nat.add_comm, Nat.add_sub.
Qed.

Lemma walk_hangs expanded n d id : hangs_from d id (walk expanded n d id).
Proof.
  revert d id. induction n as [i l k s h c IH] using TreeNode_ind'. intros d id. cbn [walk].
  set (row := {| rw_id := i |}). set (open_ := hasChildren _ && bool_decide (i ∈ expanded)).
  intros m r Hm. destruct m as [|m]; [injection Hm as <-; by left|]. cbn in Hm.
  destruct open_ eqn:Ho; [|done]. unfold open_ in Ho. apply andb_true_iff in Ho as [Hc He].
  right. destruct c as [cs|]; [|done]. change (Some cs ?? []) with cs in IH.
  assert (HH : hangs_from (S d) (Some i) (cs ≫= fun x => walk expanded x (S d) (Some i))).
  { clear Hm Hc. induction IH as [|x cs Hx _ IHc]; [intros ? ? ?; done|]. rewrite bind_cons. by apply hangs_from_app. }
  destruct (HH m r Hm) as [[Hd Hp]|(j & p & Hj & Hp & Hrest)].
  - exists 0, row. split; [lia|]. split; [done|]. cbn. by rewrite Hd, Hp.
  - exists (S j), p. split; [lia|]. by split.
Qed.

Theorem rows_hang expanded roots : hangs (rows expanded roots).
Proof.
  assert (H : hangs_from 0 None (rows expanded roots)).
  { unfold rows. induction roots as [|x roots IH]; [intros ? ? ?; done|]. cbn. apply hangs_from_app; [apply walk_hangs|done]. }
  intros i r Hi. destruct (H i r Hi) as [[? _]|?]; [by left|by right].
Qed.

(** Two rows never overlap. *)
Theorem rows_do_not_overlap rs i j p q :
  positions rs !! i = Some p -> positions rs !! j = Some q -> i < j -> (p.2 + NODE_H < q.2)%Z.
Proof.
  unfold positions. rewrite !list_lookup_imap. intros (r & _ & ->)%fmap_Some (r' & _ & ->)%fmap_Some Hij.
  cbn. unfold NODE_H, ROW_GAP. lia.
Qed.

(** All nodes of a tree, and the rows once every node is expanded. *)
Fixpoint all_ids (n : TreeNode) : list string :=
  let 'Node id _ _ _ _ c := n in
  id :: match c with
        | Some l => l ≫= all_ids
        | None => []
        end.

Theorem all_expanded_shows_all expanded roots :
  (forall x, x ∈ roots ≫= all_ids -> x ∈ expanded) -> rw_id <$> rows expanded roots = roots ≫= all_ids.
Proof.
  assert (Hn : forall n, (forall x, x ∈ all_ids n -> x ∈ expanded) -> forall d id, rw_id <$> walk expanded n d id = all_ids n).
  { induction n as [i l k s h c IH] using TreeNode_ind'. intros Hx d id. cbn [walk all_ids]. rewrite fmap_cons. cbn [rw_id].
    f_equal. rewrite (bool_decide_eq_true_2 (i ∈ expanded)) by (apply Hx; cbn; apply elem_of_cons; by left).
    destruct c as [cs|]; [|by rewrite andb_true_r; destruct (hasChildren _)]. change (Some cs ?? []) with cs in IH.
    assert (HL : rw_id <$> (cs ≫= fun x => walk expanded x (S d) (Some i)) = cs ≫= all_ids).
    { assert (Hx' : forall y, y ∈ cs ≫= all_ids -> y ∈ expanded) by (intros y Hy; apply Hx; cbn; apply elem_of_cons; by right).
      clear Hx. induction IH as [|z zs Hz _ IHz]; [done|]. rewrite !bind_cons, fmap_app in *. f_equal.
      - apply Hz. intros y Hy. apply Hx'. apply elem_of_app. by left.
      - apply IHz. intros y Hy. apply Hx'. apply elem_of_app. by right. }
    rewrite <- HL. by destruct cs. }
  intros H. unfold rows. induction roots as [|x roots IH]; [done|]. cbn. rewrite fmap_app. f_equal.
  - apply Hn. intros y Hy. apply H. cbn. apply elem_of_app. by left.
  - apply IH. intros y Hy. apply H. cbn. apply elem_of_app. by right.
Qed.

Theorem toggle_twice id expanded : toggle id (toggle id expanded) = expanded.
Proof.
  unfold toggle. destruct (decide (id ∈ expanded)); case_decide; [set_solver| |set_solver|set_solver].
  apply leibniz_equiv. intros x. destruct (decide (x = id)); set_solver.
Qed.

(** ** The metadata tree shows what is set *)

Lemma sapp_cut c k1 k2 v1 v2 :
  no_char c k1 = true -> no_char c k2 = true -> k1 +:+ String c v1 = k2 +:+ String c v2 -> k1 = k2 /\ v1 = v2.
Proof.
  revert k2. induction k1 as [|a k1 IH]; intros [|b k2] H1 H2 E; cbn in *.
  - by injection E.
  - injection E as <- _. by rewrite Ascii.eqb_refl in H2.
  - injection E as -> _. by rewrite Ascii.eqb_refl in H1.
  - injection E as -> E. apply andb_true_iff in H1 as [_ H1], H2 as [_ H2]. destruct (IH k2 H1 H2 E) as [-> ->]. done.
Qed.

Definition clean_key (k : string) : Prop := no_char "031" k = true.

Lemma valID_inj k1 v1 k2 v2 : clean_key k1 -> clean_key k2 -> valID k1 v1 = valID k2 v2 -> k1 = k2 /\ v1 = v2.
Proof.
  unfold valID, US. cbn [tpl]. rewrite !sapp_nil_r. intros H1 H2 E. apply sapp_inj_l in E. by apply sapp_cut in E.
Qed.

Lemma addNode_elem ns n acc :
  n ∈ foldl addNode acc ns -> n ∈ acc \/ n ∈ ns.
Proof.
  revert acc. induction ns as [|m ns IH]; intros acc; cbn; [by left|]. intros [H|H]%IH; [|by right; apply elem_of_cons; right].
  unfold addNode in H. destruct (existsb _ acc); [by left|]. apply elem_of_app in H as [?| ->%list_elem_of_singleton]; [by left|].
  right. apply elem_of_cons. by left.
Qed.

Lemma addNode_covers ns acc n :
  n ∈ acc \/ n ∈ ns -> exists m, m ∈ foldl addNode acc ns /\ mn_id m = mn_id n.
Proof.
  revert acc n. induction ns as [|x ns IH]; intros acc n; cbn.
  - intros [H|H]; [by exists n|]. by apply elem_of_nil in H.
  - intros [H|H]; [|apply elem_of_cons in H as [->|H]].
    + apply IH. left. unfold addNode. destruct (existsb _ acc); [done|]. apply elem_of_app. by left.
    + unfold addNode at 1 2. destruct (existsb (fun m => mn_id m =s mn_id x) acc) eqn:E.
      * apply existsb_elem in E as (m & Hm & Hid). apply String.eqb_eq in Hid. destruct (IH acc m (or_introl Hm)) as (m' & ? & ?).
        exists m'. split; [done|congruence].
      * apply IH. left. apply elem_of_app. right. by apply list_elem_of_singleton.
    + apply IH. by right.
Qed.

Section shows.
Context (fields : list (string * MetaField)) (rs : list MetaRow) (ints : list Integration).
Hypothesis fields_clean : Forall (fun f => clean_key (mf_key f.2) /\ mf_key f.2 <> "") fields.
Hypothesis rows_named : Forall (fun r => mr_id r <> "") rs.

Definition keys_of : list (string * string) := omap_of ((fun f => (f.1, mf_key f.2)) <$> fields).
Definition labels_of : list (string * string) := omap_of ((fun f => (mf_key f.2, mf_label f.2)) <$> fields).
Definition graph : MetaGraphResponse := metadataGraph fields rs.

Lemma kept_clean r kv : kv ∈ kept_values keys_of r ->
  clean_key kv.1 /\ kv.1 <> "" /\ kv.1 ∈ mf_key <$> (snd <$> fields).
Proof.
  unfold kept_values. intros H. apply list_elem_of_omap in H as (fv & _ & E).
  destruct (omap_get fv.1 keys_of) as [key|] eqn:Hk; [|done]. destruct (truthy _); [|done]. injection E as <-. cbn.
  apply omap_get_elem, omap_of_elem in Hk. apply list_elem_of_fmap in Hk as (f & [= _ ->] & Hf).
  rewrite Forall_forall in fields_clean. destruct (fields_clean f Hf). split; [done|]. split; [done|].
  rewrite <- list_fmap_compose. apply list_elem_of_fmap. by exists f.
Qed.

(** The nodes of the graph, by kind. *)
Lemma meta_graph_node n : n ∈ mg_nodes graph ->
  exists r, r ∈ rs /\ (n = int_node r \/ (exists kv, kv ∈ kept_values keys_of r /\ n = value_node labels_of kv.1 kv.2) \/
    exists t, t ∈ mr_tags r /\ n = tag_node t).
Proof.
  intros H. apply addNode_elem in H as [H|H]; [by apply elem_of_nil in H|]. apply list_elem_of_bind in H as (r & H & Hr). exists r. split; [done|].
  unfold row_nodes in H. apply elem_of_cons in H as [->|H]; [by left|]. right. apply elem_of_app in H as [H|H].
  - left. apply list_elem_of_fmap in H as (kv & -> & H). by exists kv.
  - right. apply list_elem_of_fmap in H as (t & -> & H). by exists t.
Qed.

Lemma graph_has r n : r ∈ rs -> n ∈ row_nodes keys_of labels_of r -> exists m, m ∈ mg_nodes graph /\ mn_id m = mn_id n.
Proof. intros Hr Hn. apply addNode_covers. right. apply list_elem_of_bind. by exists r. Qed.

Lemma graph_uuid id : (exists r, r ∈ rs /\ mr_id r = id) -> omap_get (tpl ["int:"; id]) (intNodeToUUID graph) = Some id.
Proof.
  intros (r & Hr & Hid). unfold intNodeToUUID. set (l := omap _ _).
  assert (Hall : forall k u, (k, u) ∈ l -> k = tpl ["int:"; u]).
  { intros k u H. unfold l in H. apply list_elem_of_omap in H as (n & Hn & E).
    destruct (_ && _) eqn:Hc; [|done]. injection E as <- <-. apply andb_true_iff in Hc as [Hk _]. apply String.eqb_eq in Hk.
    apply meta_graph_node in Hn as (r' & _ & [->|[(kv & _ & ->)|(t & _ & ->)]]); [done|done|done]. }
  assert (Hex : is_Some (omap_get (tpl ["int:"; id]) (omap_of l))).
  { apply omap_of_has. destruct (graph_has r (int_node r) Hr) as (m & Hm & Hmid); [apply elem_of_cons; by left|].
    apply list_elem_of_fmap. exists (tpl ["int:"; id], id). split; [done|]. unfold l. apply list_elem_of_omap. exists m.
    split; [done|]. apply meta_graph_node in Hm as (r' & Hr' & [->|[(kv & _ & ->)|(t & _ & ->)]]); [|done|done].
    cbn in Hmid. injection Hmid as Hmid. rewrite !sapp_nil_r in Hmid. cbn [mn_kind int_node mn_integration_id].
    rewrite Forall_forall in rows_named. specialize (rows_named r' Hr').
    unfold truthy_opt. change (Some (mr_id r') ?? "") with (mr_id r'). unfold truthy.
    apply String.eqb_neq in rows_named. rewrite rows_named. cbn [String.eqb Ascii.eqb Bool.eqb andb negb]. cbn.
    by rewrite Hmid, Hid. }
  destruct Hex as [u Hu]. rewrite Hu. f_equal. apply omap_get_elem, omap_of_elem, Hall in Hu.
  cbn in Hu. injection Hu as Hu. by rewrite !sapp_nil_r in Hu.
Qed.

Lemma ints_of_value key v i :
  clean_key key ->
  i ∈ intsByAttr graph (valID key v) <->
  exists r, r ∈ rs /\ (key, v) ∈ kept_values keys_of r /\ i = tpl ["int:"; mr_id r].
Proof.
  intros Hk. unfold intsByAttr. rewrite group_by_get. split.
  - intros H. apply list_elem_of_fmap in H as (e & -> & He). apply filterb_elem in He as [He Ht]. apply bool_decide_eq_true in Ht.
    apply list_elem_of_bind in He as (r & He & Hr). exists r. split; [done|]. unfold row_edges in He.
    apply elem_of_app in He as [He|He]; apply list_elem_of_fmap in He as (kv & -> & He); cbn [me_target me_source] in *.
    + destruct kv as [k' v']. destruct (kept_clean r _ He) as (Hc & _). cbn [fst snd] in *.
      apply valID_inj in Ht as [-> ->]; done.
    + exfalso. unfold valID in Ht. cbn in Ht. discriminate.
  - intros (r & Hr & Hkv & ->). apply list_elem_of_fmap. exists {| me_source := tpl ["int:"; mr_id r]; me_target := valID key v |}.
    split; [done|]. apply filterb_elem. split; [|by apply bool_decide_eq_true]. apply list_elem_of_bind. exists r. split; [|done].
    unfold row_edges. apply elem_of_app. left. apply list_elem_of_fmap. by exists (key, v).
Qed.

Lemma value_nodes key w :
  clean_key key -> w ∈ valuesByField graph key <->
  w ∈ mg_nodes graph /\ exists r v, r ∈ rs /\ (key, v) ∈ kept_values keys_of r /\ w = value_node labels_of key v.
Proof.
  intros Hk. unfold valuesByField. rewrite group_by_get. rewrite filterb_elem, filterb_elem, bool_decide_eq_true. split.
  - intros [[Hw Hv] Hf]. split; [done|]. apply meta_graph_node in Hw as (r & Hr & [->|[([k v] & Hkv & ->)|(t & _ & ->)]]); [done| |done].
    cbn in Hf. unfold id in Hf. subst k. by exists r, v.
  - intros [Hw (r & v & Hr & Hkv & ->)]. split; [|done]. split; [done|]. unfold is_value. cbn [mn_kind value_node mn_field].
    destruct (kept_clean r _ Hkv) as (_ & Hne & _). cbn in Hne. unfold truthy_opt. change (Some key ?? "") with key.
    unfold truthy. apply String.eqb_neq in Hne. by rewrite Hne.
Qed.
End shows.

(** C37. Under a field's key and a value's label the metadata perspective lists exactly the integrations
    that have that value, trimmed, for that field, whatever order the server walks its maps in. *)
Theorem metadata_tree_shows_values fields rs ints key v id :
  Forall (fun f => clean_key (mf_key f.2) /\ mf_key f.2 <> "") fields -> Forall (fun r => mr_id r <> "") rs ->
  key <> "__tags__" ->
  (exists f w i, f ∈ buildMetadataTree (Some (metadataGraph fields rs)) ints "all" /\ tn_id f = tpl ["f:"; key] /\
     w ∈ tn_children f /\ tn_label w = v /\ i ∈ tn_children w /\ tn_href i = Some (tpl ["/integrations/"; id]))
  <-> key ∈ mf_key <$> (snd <$> fields) /\
      exists r, r ∈ rs /\ mr_id r = id /\ (key, v) ∈ kept_values (keys_of fields) r.
Proof.
  intros Hf Hr Hkey. unfold buildMetadataTree, tree_of. cbn [String.eqb Ascii.eqb Bool.eqb negb].
  set (g := metadataGraph fields rs). set (known := ints ?? []).
  assert (Hclean : forall k, k ∈ mf_key <$> (snd <$> fields) -> clean_key k).
  { intros k Hk. rewrite <- list_fmap_compose in Hk. apply list_elem_of_fmap in Hk as (f & -> & H).
    rewrite Forall_forall in Hf. by apply Hf. }
  split.
  - intros (f & w & i & Hin & Hid & Hw & Hv & Hi & Hh). apply elem_of_app in Hin as [Hin|Hin].
    2: { apply list_elem_of_singleton in Hin as ->. cbn in Hid. injection Hid as Hid. rewrite sapp_nil_r in Hid. congruence. }
    apply list_elem_of_fmap in Hin as (mf & -> & Hmf). cbn in Hid. injection Hid as Hid. rewrite !sapp_nil_r in Hid.
    assert (Hk : key ∈ mf_key <$> (snd <$> fields)) by (rewrite <- Hid; apply list_elem_of_fmap; by exists mf).
    split; [done|]. unfold fieldRoot in Hw. cbn [tn_children default] in Hw. unfold Datatypes.id in Hw. rewrite Hid in Hw.
    apply list_elem_of_fmap in Hw as (n & -> & Hn). apply value_nodes in Hn as [_ (r0 & v0 & _ & _ & ->)]; [|done|by apply Hclean].
    cbn in Hv. subst v0. unfold attrNode in Hi. cbn [tn_children default mn_id value_node] in Hi. unfold Datatypes.id in Hi.
    apply list_elem_of_fmap in Hi as (int & -> & Hint). apply ints_of_value in Hint as (r & Hr' & Hkv & ->); [|done|by apply Hclean].
    exists r. split; [done|]. split; [|done]. unfold intChild in Hh. cbn [tn_href] in Hh.
    unfold g in Hh. rewrite graph_uuid in Hh by (done || by exists r).
    destruct (truthy (mr_id r)); [|done]. injection Hh as Hh. by rewrite !sapp_nil_r in Hh.
  - intros [Hk (r & Hr' & <- & Hkv)]. apply list_elem_of_fmap in Hk as (mf & -> & Hmf).
    assert (Hck : clean_key (mf_key mf)) by (apply Hclean; apply list_elem_of_fmap; by exists mf).
    destruct (graph_has fields rs r (value_node (labels_of fields) (mf_key mf) v) Hr') as (m & Hm & Hmid).
    { unfold row_nodes. apply elem_of_cons. right. apply elem_of_app. left. apply list_elem_of_fmap. by exists (mf_key mf, v). }
    assert (Em : m = value_node (labels_of fields) (mf_key mf) v).
    { apply meta_graph_node in Hm as (r0 & _ & [->|[([k0 v0] & Hkv0 & ->)|(t & _ & ->)]]); [done| |done].
      cbn [mn_id value_node fst snd] in Hmid. destruct (kept_clean fields Hf r0 _ Hkv0) as (Hc & _).
      apply valID_inj in Hmid as [-> ->]; done. }
    subst m. do 3 eexists. split; [apply elem_of_app; left; apply list_elem_of_fmap; exists mf; split; [reflexivity|done]|].
    split; [done|]. split.
    { cbn [tn_children fieldRoot default]. unfold Datatypes.id. apply list_elem_of_fmap. exists (value_node (labels_of fields) (mf_key mf) v).
      split; [reflexivity|]. apply value_nodes; [done|done|]. split; [exact Hm|]. by exists r, v. }
    split; [done|]. split.
    { cbn [tn_children attrNode default]. unfold Datatypes.id. apply list_elem_of_fmap. exists (tpl ["int:"; mr_id r]). split; [reflexivity|].
      cbn [mn_id value_node]. apply ints_of_value; [done|done|]. by exists r. }
    unfold intChild. cbn [tn_href]. unfold g. rewrite graph_uuid by (done || by exists r).
    rewrite Forall_forall in Hr. specialize (Hr r Hr'). unfold truthy. apply String.eqb_neq in Hr. by rewrite Hr.
Qed.

Definition ex_fields : list (string * MetaField) := [("f1", {| mf_key := "owner"; mf_label := "Owner" |})].
Definition ex_meta_rows : list MetaRow :=
  [{| mr_id := "1"; mr_name := "Orders"; mr_values := [("f1", " team a "); ("gone", "x")]; mr_tags := [("t", "T")] |};
   {| mr_id := "2"; mr_name := "Billing"; mr_values := [("f1", "team a")]; mr_tags := [] |}].

Lemma metadata_tree_shows_values_witness :
  exists f w i, f ∈ buildMetadataTree (Some (metadataGraph ex_fields ex_meta_rows)) None "all" /\ tn_id f = "f:owner" /\
     w ∈ tn_children f /\ tn_label w = "team a" /\ i ∈ tn_children w /\ tn_href i = Some "/integrations/2".
Proof.
  apply (metadata_tree_shows_values ex_fields ex_meta_rows None "owner" "team a" "2").
  - repeat constructor; done.
  - repeat constructor; done.
  - done.
  - split; [apply list_elem_of_singleton; reflexivity|].
    exists {| mr_id := "2"; mr_name := "Billing"; mr_values := [("f1", "team a")]; mr_tags := [] |}.
    split; [apply elem_of_cons; right; apply list_elem_of_singleton; reflexivity|]. split; [reflexivity|].
    vm_compute. apply list_elem_of_singleton. reflexivity.
Defined.
