(* ===== verification/CompletionRules.v ===== *)
(** * Trace-completion rules: the form and the server's contract

    [RuleForm] and [RulePipeline] of pages/IntegrationSettings.tsx, and the
    server they talk to: tracecompletion/types.go ([Normalize],
    [EffectiveStages], [Validate]), the input gate of tracecompletion/store.go
    and handlers_trace_completion.go, all of services/cell-api/internal.  The
    evaluator that reads the stored rules is in Completion.v.

    Seconds are integers below 2^53, which both sides hold exactly. *)

From S2P Require Import Prelude JsString JsUri JsArray Host Types RuleServer.

Local Open Scope string_scope.
Local Open Scope list_scope.
Local Open Scope Z_scope.

(** ** The data on the wire *)

Record TraceCompletionStage := { ts_span_names : list string; ts_timeout_seconds : option Z }.
Record TraceCompletionRule := {
  tr_id : string; tr_integration_id : string; tr_name : string; tr_description : string; tr_severity : string;
  tr_enabled : bool; tr_start_span_name : option string; tr_stages : option (list TraceCompletionStage);
  tr_default_timeout_seconds : option Z; tr_closing_span_names : option (list string);
  tr_timeout_seconds : Z; tr_lookback_seconds : Z; tr_channel_ids : list string
}.
Record TraceCompletionRuleInput := {
  ti_name : string; ti_description : string; ti_severity : string; ti_enabled : bool;
  ti_start_span_name : option string; ti_stages : option (list TraceCompletionStage);
  ti_default_timeout_seconds : option Z; ti_closing_span_names : option (list string);
  ti_timeout_seconds : option Z; ti_lookback_seconds : option Z; ti_channel_ids : list string
}.

(** ** Seconds as a number and a unit *)

Inductive TimeUnit := seconds | minutes | hours.
#[global] Instance TimeUnit_eq_dec : EqDecision TimeUnit.
Proof. solve_decision. Defined.

Definition secondsAs (s : Z) : Z * TimeUnit :=
  if Z.rem s 3600 =? 0 then (s / 3600, hours) else if Z.rem s 60 =? 0 then (s / 60, minutes) else (s, seconds).
Definition toSeconds (n : Z) (unit : TimeUnit) : Z :=
  match unit with hours => n * 3600 | minutes => n * 60 | seconds => n end.
Definition fmtSeconds (s : Z) : string :=
  let '(n, unit) := secondsAs s in
  tpl [show_Z n; match unit with hours => "h" | minutes => "m" | seconds => "s" end].

(** [parseInt(s, 10)]; [None] for NaN. *)
Fixpoint digit_prefix (s : string) : string :=
  match s with
  | String c s' => if is_digit c then String c (digit_prefix s') else ""
  | "" => ""
  end.
Definition parseInt (s : string) : option Z :=
  match trimStart s with
  | String "-" t => Z.opp <$> digits (digit_prefix t)
  | String "+" t => digits (digit_prefix t)
  | t => digits (digit_prefix t)
  end.
(** What a number field stores. *)
Definition typed_n (value : string) : Z := Z.max 1 (parseInt value ?? 0).

Definition or_Z (o : option Z) (d : Z) : Z := let n := o ?? 0 in if n =? 0 then d else n.
Definition positive (o : option Z) : bool := match o with Some n => 0 <? n | None => false end.

(** ** The pipeline shown for a rule *)

Definition some_stages (o : option (list TraceCompletionStage)) : option (list TraceCompletionStage) :=
  match o with Some (_ :: _) => o | _ => None end.
Definition pipeline_stages (rule : TraceCompletionRule) : list TraceCompletionStage :=
  some_stages (tr_stages rule)
  ?? [{| ts_span_names := tr_closing_span_names rule ?? []; ts_timeout_seconds := Some (tr_timeout_seconds rule) |}].
(** The start badge, and each stage's badge with its timeout, absent when it is not positive. *)
Definition RulePipeline (rule : TraceCompletionRule) : option string * list (string * option string) :=
  let def := or_Z (tr_default_timeout_seconds rule) (tr_timeout_seconds rule) in
  (if truthy_opt (tr_start_span_name rule) then tr_start_span_name rule else None,
   (fun st => let t := if positive (ts_timeout_seconds st) then ts_timeout_seconds st ?? 0 else def in
      (join " / " (ts_span_names st), if 0 <? t then Some (fmtSeconds t) else None)) <$> pipeline_stages rule).

(** ** The form *)

Record StageDraft := { sd_spans : string; sd_inherit : bool; sd_timeoutN : Z; sd_timeoutUnit : TimeUnit }.
Record Form := {
  fm_name : string; fm_description : string; fm_severity : string; fm_enabled : bool; fm_startSpan : string;
  fm_stages : list StageDraft; fm_defTimeoutN : Z; fm_defTimeoutUnit : TimeUnit; fm_channelIDs : list string
}.

Definition draft_of (st : TraceCompletionStage) : StageDraft :=
  let explicit := positive (ts_timeout_seconds st) in
  let t := if explicit then secondsAs (ts_timeout_seconds st ?? 0) else (5, minutes) in
  {| sd_spans := join ", " (ts_span_names st); sd_inherit := negb explicit; sd_timeoutN := t.1; sd_timeoutUnit := t.2 |}.
Definition stageDraftsFromRule (rule : option TraceCompletionRule) : list StageDraft :=
  draft_of <$> match rule with
    | Some r => some_stages (tr_stages r)
        ?? [{| ts_span_names := tr_closing_span_names r ?? ["Klart"]; ts_timeout_seconds := Some (tr_timeout_seconds r) |}]
    | None => [{| ts_span_names := ["Klart"]; ts_timeout_seconds := Some 0 |}]
    end.

Definition RuleForm_init (rule : option TraceCompletionRule) : Form :=
  let defInit := match rule with
    | Some r => secondsAs (or_Z (Some (or_Z (tr_default_timeout_seconds r) (tr_timeout_seconds r))) 300)
    | None => (5, minutes) end in
  {| fm_name := (tr_name <$> rule) ?? ""; fm_description := (tr_description <$> rule) ?? "";
     fm_severity := (tr_severity <$> rule) ?? "warning"; fm_enabled := (tr_enabled <$> rule) ?? true;
     fm_startSpan := match rule with Some r => tr_start_span_name r ?? "" | None => "" end;
     fm_stages := stageDraftsFromRule rule; fm_defTimeoutN := defInit.1; fm_defTimeoutUnit := defInit.2;
     fm_channelIDs := (tr_channel_ids <$> rule) ?? [] |}.

(** The handlers of the stage rows; a patch sets one field of a draft. *)
Inductive StagePatch := PSpans (s : string) | PInherit (b : bool) | PTimeoutN (value : string) | PUnit (u : TimeUnit).
Definition patch (p : StagePatch) (s : StageDraft) : StageDraft :=
  {| sd_spans := match p with PSpans x => x | _ => sd_spans s end;
     sd_inherit := match p with PInherit b => b | _ => sd_inherit s end;
     sd_timeoutN := match p with PTimeoutN v => typed_n v | _ => sd_timeoutN s end;
     sd_timeoutUnit := match p with PUnit u => u | _ => sd_timeoutUnit s end |}.
Definition updateStage (idx : nat) (p : StagePatch) (l : list StageDraft) : list StageDraft :=
  imap (fun i s => if bool_decide (i = idx) then patch p s else s) l.
Definition blank_stage : StageDraft := {| sd_spans := ""; sd_inherit := true; sd_timeoutN := 5; sd_timeoutUnit := minutes |}.
Definition addStage (l : list StageDraft) : list StageDraft := l ++ [blank_stage].
(** The button is disabled when a single stage is left. *)
Definition removeStage (idx : nat) (l : list StageDraft) : list StageDraft :=
  if bool_decide (length l <= 1)%nat then l
  else delete idx l.
Definition moveStage (idx : nat) (dir : Z) (l : list StageDraft) : list StageDraft :=
  let j := Z.of_nat idx + dir in
  if (j <? 0) || (Z.of_nat (length l) <=? j) then l
  else match l !! idx, l !! Z.to_nat j with
       | Some a, Some b => <[Z.to_nat j := a]> (<[idx := b]> l)
       | _, _ => l
       end.

Inductive StageEdit := EPatch (i : nat) (p : StagePatch) | EAdd | ERemove (i : nat) | EUp (i : nat) | EDown (i : nat).
Definition edit_stages (l : list StageDraft) (e : StageEdit) : list StageDraft :=
  match e with
  | EPatch i p => updateStage i p l
  | EAdd => addStage l
  | ERemove i => removeStage i l
  | EUp i => moveStage i (-1) l
  | EDown i => moveStage i 1 l
  end.
Definition with_stages (f : Form) (l : list StageDraft) : Form :=
  {| fm_name := fm_name f; fm_description := fm_description f; fm_severity := fm_severity f; fm_enabled := fm_enabled f;
     fm_startSpan := fm_startSpan f; fm_stages := l; fm_defTimeoutN := fm_defTimeoutN f;
     fm_defTimeoutUnit := fm_defTimeoutUnit f; fm_channelIDs := fm_channelIDs f |}.

Definition toggleChannel (id : string) (prev : list string) : list string :=
  if bool_decide (id ∈ prev) then List.filter (fun x => negb (x =s id)) prev else prev ++ [id].

(** [submit]: the message shown, or the request. *)
Definition span_list (s : string) : list string := List.filter truthy (trim <$> split "," s).
Definition built (s : StageDraft) : TraceCompletionStage :=
  {| ts_span_names := span_list (sd_spans s);
     ts_timeout_seconds := if sd_inherit s then None else Some (toSeconds (sd_timeoutN s) (sd_timeoutUnit s)) |}.
Definition named (st : TraceCompletionStage) : bool := negb (bool_decide (ts_span_names st = [])).
Definition builtStages (f : Form) : list TraceCompletionStage := List.filter named (built <$> fm_stages f).
Definition default_seconds (f : Form) : Z := toSeconds (fm_defTimeoutN f) (fm_defTimeoutUnit f).
Definition longest (f : Form) : Z :=
  foldl Z.max (default_seconds f) ((fun st => ts_timeout_seconds st ?? default_seconds f) <$> builtStages f).
Definition submit (f : Form) : string + TraceCompletionRuleInput :=
  match builtStages f with
  | [] => inl "Add at least one stage with a span name."
  | sts => inr {| ti_name := trim (fm_name f); ti_description := trim (fm_description f); ti_severity := fm_severity f;
      ti_enabled := fm_enabled f; ti_start_span_name := Some (trim (fm_startSpan f)); ti_stages := Some sts;
      ti_default_timeout_seconds := Some (default_seconds f); ti_closing_span_names := None; ti_timeout_seconds := None;
      ti_lookback_seconds := Some (longest f * 4); ti_channel_ids := fm_channelIDs f |}
  end.

(** ** The stored specification *)

Record Stage := { st_SpanNames : list string; st_TimeoutSeconds : Z }.
(** [RuleSpec] of the package tracecompletion. *)
Record CompletionSpec := {
  cs_Kind : string; cs_StartSpanName : string; cs_Stages : list Stage; cs_DefaultTimeoutSeconds : Z;
  cs_ClosingSpanNames : list string; cs_TimeoutSeconds : Z; cs_LookbackSeconds : Z
}.

Definition trimNonEmpty (l : list string) : list string := List.filter truthy (TrimSpace <$> l).
Definition defaultTimeout (s : CompletionSpec) : Z :=
  if 0 <? cs_DefaultTimeoutSeconds s then cs_DefaultTimeoutSeconds s else cs_TimeoutSeconds s.

Definition effective (def : Z) (st : Stage) : option Stage :=
  match trimNonEmpty (st_SpanNames st) with
  | [] => None
  | names => Some {| st_SpanNames := names;
                     st_TimeoutSeconds := if st_TimeoutSeconds st <=? 0 then def else st_TimeoutSeconds st |}
  end.
Definition EffectiveStages (s : CompletionSpec) : list Stage :=
  omap (effective (defaultTimeout s))
    (match cs_Stages s, cs_ClosingSpanNames s with
     | [], _ :: _ => [{| st_SpanNames := cs_ClosingSpanNames s; st_TimeoutSeconds := 0 |}]
     | l, _ => l
     end).
Definition FinalStageNames (s : CompletionSpec) : list string :=
  match last (EffectiveStages s) with Some st => st_SpanNames st | None => [] end.
Definition Gated (s : CompletionSpec) : bool := truthy (TrimSpace (cs_StartSpanName s)).
Definition maxStageTimeout (s : CompletionSpec) : Z := foldl Z.max 0 (st_TimeoutSeconds <$> EffectiveStages s).

Definition trim_stage (st : Stage) : Stage :=
  {| st_SpanNames := trimNonEmpty (st_SpanNames st); st_TimeoutSeconds := st_TimeoutSeconds st |}.
(** Everything but the lookback, which is computed from the result. *)
Definition canonical (s : CompletionSpec) : CompletionSpec :=
  let folded := match cs_Stages s, cs_ClosingSpanNames s with
    | [], _ :: _ => [{| st_SpanNames := cs_ClosingSpanNames s; st_TimeoutSeconds := cs_TimeoutSeconds s |}]
    | l, _ => l end in
  let stages := trim_stage <$> folded in
  {| cs_Kind := nonempty (cs_Kind s) "trace_completion"; cs_StartSpanName := TrimSpace (cs_StartSpanName s);
     cs_Stages := stages; cs_DefaultTimeoutSeconds := cs_DefaultTimeoutSeconds s;
     cs_ClosingSpanNames := match last stages with Some st => st_SpanNames st | None => cs_ClosingSpanNames s end;
     cs_TimeoutSeconds := cs_TimeoutSeconds s; cs_LookbackSeconds := cs_LookbackSeconds s |}.
Definition with_lookback (s : CompletionSpec) (n : Z) : CompletionSpec :=
  {| cs_Kind := cs_Kind s; cs_StartSpanName := cs_StartSpanName s; cs_Stages := cs_Stages s;
     cs_DefaultTimeoutSeconds := cs_DefaultTimeoutSeconds s; cs_ClosingSpanNames := cs_ClosingSpanNames s;
     cs_TimeoutSeconds := cs_TimeoutSeconds s; cs_LookbackSeconds := n |}.
Definition Normalize (s : CompletionSpec) : CompletionSpec :=
  let s := canonical s in
  if (cs_LookbackSeconds s =? 0) && (0 <? maxStageTimeout s) then with_lookback s (4 * maxStageTimeout s) else s.

(** The checks of the stages, with their index from 1. *)
Fixpoint check_stages (i : Z) (l : list Stage) : string + unit :=
  match l with
  | [] => inr tt
  | es :: l =>
      if bool_decide (st_SpanNames es = []) then inl (tpl ["tracecompletion: stage "; show_Z i; " must have at least one span name"])
      else if (st_TimeoutSeconds es <? 1) || (86400 <? st_TimeoutSeconds es) then
        inl (tpl ["tracecompletion: stage "; show_Z i; " timeout must be between 1 and 86400 seconds"])
      else check_stages (i + 1) l
  end.
Definition Validate (s : CompletionSpec) : string + unit :=
  if negb (cs_Kind s =s "") && negb (cs_Kind s =s "trace_completion") then
    inl "tracecompletion: spec kind must be 'trace_completion'"
  else match EffectiveStages s with
  | [] => inl "tracecompletion: at least one stage (or closing_span_name) is required"
  | stages =>
      let* _ := check_stages 1 stages in
      if cs_LookbackSeconds s <? 2 * maxStageTimeout s then
        inl "tracecompletion: lookback_seconds must be at least 2× the longest stage timeout"
      else if 7 * 86400 <? cs_LookbackSeconds s then inl "tracecompletion: lookback_seconds capped at 7 days"
      else inr tt
  end.

(** ** Requests *)

(** [Rule] of the package, without the integration it belongs to and its times. *)
Record CompletionRule := {
  cr_ID : string; cr_Name : string; cr_Description : string; cr_Severity : string; cr_Enabled : bool;
  cr_Spec : CompletionSpec; cr_ChannelIDs : list string
}.

Definition parseTraceCompletionInput (body : TraceCompletionRuleInput) : CompletionSpec :=
  Normalize {|
    cs_Kind := "trace_completion"; cs_StartSpanName := ti_start_span_name body ?? "";
    cs_Stages := (fun st => {| st_SpanNames := ts_span_names st; st_TimeoutSeconds := ts_timeout_seconds st ?? 0 |})
                 <$> (ti_stages body ?? []);
    cs_DefaultTimeoutSeconds := ti_default_timeout_seconds body ?? 0;
    cs_ClosingSpanNames := trimNonEmpty (ti_closing_span_names body ?? []);
    cs_TimeoutSeconds := ti_timeout_seconds body ?? 0; cs_LookbackSeconds := ti_lookback_seconds body ?? 0 |}.

(** [RuleInput.validate], for an integration that is given. *)
Definition validate (name severity : string) (spec : CompletionSpec) : string + unit :=
  if name =s "" then inl "name is required"
  else if negb (ValidSeverity severity) then
    inl (tpl ["severity must be info|warning|critical (got "; in_quotes severity; ")"])
  else Validate spec.

(** [Create] and [Update] of the store, up to the row they write: both replace every field. *)
Definition stored (id : string) (body : TraceCompletionRuleInput) : string + CompletionRule :=
  let spec := parseTraceCompletionInput body in
  let* _ := validate (TrimSpace (ti_name body)) (ti_severity body) spec in
  inr {| cr_ID := id; cr_Name := TrimSpace (ti_name body); cr_Description := ti_description body;
         cr_Severity := ti_severity body; cr_Enabled := ti_enabled body; cr_Spec := spec;
         cr_ChannelIDs := dedupe (ti_channel_ids body) |}.

(** [scanRule] and [ruleToResponse]: what the next read gives. *)
Definition omit_Z (n : Z) : option Z := if n =? 0 then None else Some n.
Definition ruleToResponse (integrationID : string) (r : CompletionRule) : TraceCompletionRule :=
  let s := Normalize (cr_Spec r) in
  {| tr_id := cr_ID r; tr_integration_id := integrationID; tr_name := cr_Name r; tr_description := cr_Description r;
     tr_severity := cr_Severity r; tr_enabled := cr_Enabled r; tr_start_span_name := Some (cs_StartSpanName s);
     tr_stages := Some ((fun st => {| ts_span_names := st_SpanNames st; ts_timeout_seconds := omit_Z (st_TimeoutSeconds st) |}) <$> cs_Stages s);
     tr_default_timeout_seconds := Some (cs_DefaultTimeoutSeconds s); tr_closing_span_names := Some (cs_ClosingSpanNames s);
     tr_timeout_seconds := cs_TimeoutSeconds s; tr_lookback_seconds := cs_LookbackSeconds s; tr_channel_ids := cr_ChannelIDs r |}.

(** ** Units *)

Lemma secondsAs_exact s : 0 <= s -> toSeconds (secondsAs s).1 (secondsAs s).2 = s.
Proof.
  intros Hs. unfold secondsAs. rewrite !Z.rem_mod_nonneg by lia.
  pose proof (Z_div_mod_eq_full s 3600). pose proof (Z_div_mod_eq_full s 60).
  destruct (s mod 3600 =? 0) eqn:E1; [cbn; lia|]. destruct (s mod 60 =? 0) eqn:E2; cbn; lia.
Qed.
Lemma secondsAs_pos s : 0 < s -> 1 <= (secondsAs s).1.
Proof.
  intros Hs. unfold secondsAs. rewrite !Z.rem_mod_nonneg by lia.
  pose proof (Z_div_mod_eq_full s 3600). pose proof (Z_div_mod_eq_full s 60).
  destruct (s mod 3600 =? 0) eqn:E1; [cbn; lia|]. destruct (s mod 60 =? 0) eqn:E2; cbn; lia.
Qed.

(** ** The rows of the form *)

(** Moving a row exchanges two rows: none is lost or doubled. *)
Lemma moveStage_perm idx dir l : moveStage idx dir l ≡ₚ l.
Proof.
  unfold moveStage. destruct (_ || _); [done|]. destruct (l !! idx) as [a|] eqn:Ha; [|done].
  destruct (l !! Z.to_nat _) as [b|] eqn:Hb; [|done]. by apply Permutation_insert_swap.
Qed.

Definition draft_ok (s : StageDraft) : Prop := 1 <= sd_timeoutN s.
Definition drafts_ok (l : list StageDraft) : Prop := l <> [] /\ Forall draft_ok l.
#[export] Instance drafts_ok_proper : Proper ((≡ₚ) ==> iff) drafts_ok.
Proof.
  assert (HH : forall l l', l ≡ₚ l' -> drafts_ok l -> drafts_ok l').
  { intros l l' H [Hne Hok]. split; [intros ->; by apply Hne, Permutation_nil_r|]. by rewrite <- H. }
  intros l l' H. split; by apply HH.
Qed.

Lemma draft_of_ok st : draft_ok (draft_of st).
Proof.
  unfold draft_ok, draft_of. destruct (ts_timeout_seconds st) as [n|]; cbn; [|lia].
  destruct (0 <? n) eqn:E; cbn; [|lia]. apply secondsAs_pos. lia.
Qed.

Lemma drafts_ok_edit l e : drafts_ok l -> drafts_ok (edit_stages l e).
Proof.
  intros [Hne Hok]. destruct e as [i p| |i|i|i]; cbn [edit_stages]; [| | |by rewrite moveStage_perm|by rewrite moveStage_perm].
  - split; [intros H; apply (f_equal length) in H; unfold updateStage in H; rewrite length_imap in H; by destruct l|].
    unfold updateStage. apply Forall_lookup. intros k x. rewrite list_lookup_imap. intros (y & Hy & ->)%fmap_Some.
    rewrite Forall_lookup in Hok. specialize (Hok _ _ Hy). destruct (bool_decide _); [|done]. unfold draft_ok in *.
    destruct p; cbn; try done. unfold typed_n. lia.
  - split; [by destruct l|]. apply Forall_app. split; [done|]. repeat constructor. unfold draft_ok. cbn. lia.
  - unfold removeStage. case_bool_decide as Hl; [done|]. split; [|by apply Forall_delete].
    destruct l as [|x [|y l]]; [done|cbn in Hl; lia|]. by destruct i.
Qed.

Lemma drafts_ok_init rule : drafts_ok (stageDraftsFromRule rule).
Proof.
  unfold drafts_ok, stageDraftsFromRule. split; [|apply Forall_fmap, Forall_forall; intros; apply draft_of_ok].
  destruct rule as [r|]; [|done]. unfold some_stages. by destruct (tr_stages r) as [[|? ?]|].
Qed.

(** Whatever is clicked and typed, the form keeps at least one stage row, each with a timeout of
    at least one unit. *)
Theorem stage_rows_stay_valid rule es : drafts_ok (foldl edit_stages (stageDraftsFromRule rule) es).
Proof.
  assert (H : forall l, drafts_ok l -> drafts_ok (foldl edit_stages l es)).
  { induction es as [|e es IH]; intros l Hl; [done|]. cbn. by apply IH, drafts_ok_edit. }
  apply H, drafts_ok_init.
Qed.

(** ** What the server asks *)

Lemma fold_max_le (l : list Z) a b : foldl Z.max a l <= b <-> a <= b /\ Forall (fun x => x <= b) l.
Proof.
  revert a. induction l as [|x l IH]; intros a; cbn; [intuition|]. rewrite IH, Forall_cons. intuition lia.
Qed.
Lemma fold_max_ge (l : list Z) a : a <= foldl Z.max a l.
Proof. by apply (fold_max_le l a (foldl Z.max a l)). Qed.
Lemma fold_max_elem (l : list Z) a x : x ∈ l -> x <= foldl Z.max a l.
Proof. intros Hx. destruct (proj1 (fold_max_le l a (foldl Z.max a l)) ltac:(lia)) as [_ H]. rewrite Forall_forall in H. by apply H. Qed.

Definition stage_in_bounds (st : Stage) : Prop := st_SpanNames st <> [] /\ 1 <= st_TimeoutSeconds st <= 86400.

Lemma check_stages_ok i l : check_stages i l = inr tt <-> Forall stage_in_bounds l.
Proof.
  revert i. induction l as [|st l IH]; intros i; cbn [check_stages]; [split; [constructor|done]|].
  rewrite Forall_cons. unfold stage_in_bounds at 1. case_bool_decide as Hn; [split; [done|by intros [[]]]|].
  destruct ((_ <? _) || _) eqn:E; [split; [done|intros [? _]; lia]|]. rewrite IH. intuition lia.
Qed.

(** The server's contract in a sentence: some stage, each within a day, and a lookback between
    twice the longest timeout and a week. *)
Lemma Validate_ok s : Validate s = inr tt <->
  (cs_Kind s = "" \/ cs_Kind s = "trace_completion") /\ EffectiveStages s <> [] /\ Forall stage_in_bounds (EffectiveStages s) /\
  2 * maxStageTimeout s <= cs_LookbackSeconds s <= 7 * 86400.
Proof.
  unfold Validate. destruct (_ && _) eqn:E.
  { split; [done|]. intros ([H|H] & _); rewrite H in E; by cbn in E. }
  assert (Hk : cs_Kind s = "" \/ cs_Kind s = "trace_completion").
  { apply andb_false_iff in E as [E|E]; apply negb_false_iff, String.eqb_eq in E; auto. }
  destruct (EffectiveStages s) as [|st l] eqn:Es; [split; [done|by intros (_ & [] & _)]|]. rewrite <- Es.
  destruct (check_stages 1 (EffectiveStages s)) as [m|[]] eqn:Ec; cbn.
  - split; [done|]. intros (_ & _ & H & _). apply (check_stages_ok 1) in H. congruence.
  - apply check_stages_ok in Ec. destruct (_ <? _) eqn:E1; [split; [done|intros (_ & _ & _ & ?); lia]|].
    destruct (_ <? cs_LookbackSeconds s) eqn:E2; [split; [done|intros (_ & _ & _ & ?); lia]|].
    split; [|done]. intros _. split; [done|]. split; [by rewrite Es|]. split; [done|]. lia.
Qed.

(** A rule that passes the checks has every timeout within a day, and a lookback between twice the
    timeout and a week. *)
Theorem validated_rule_bounds s : Validate s = inr tt ->
  Forall (fun st => 1 <= st_TimeoutSeconds st <= 86400 /\ 2 * st_TimeoutSeconds st <= cs_LookbackSeconds s <= 604800) (EffectiveStages s).
Proof.
  intros (_ & _ & Hb & Hl)%Validate_ok. rewrite Forall_forall in Hb |- *. intros st Hst.
  destruct (Hb st Hst) as [_ ?]. split; [done|].
  assert (st_TimeoutSeconds st <= maxStageTimeout s) by (apply fold_max_elem; apply list_elem_of_fmap; by exists st). lia.
Qed.

(** ** The canonical form *)

Lemma trimNonEmpty_id l : Forall (fun x => x <> "" /\ TrimSpace x = x) l -> trimNonEmpty l = l.
Proof.
  intros H. unfold trimNonEmpty. rewrite Forall_forall in H. replace (TrimSpace <$> l) with l.
  - apply filterb_all. intros x Hx. apply truthy_spec. by apply H.
  - rewrite <- (list_fmap_id l) at 1. apply list_fmap_ext. intros i x Hx. symmetry. apply H. by eapply list_elem_of_lookup_2.
Qed.
Lemma trimNonEmpty_ok l : Forall (fun x => x <> "" /\ TrimSpace x = x) (trimNonEmpty l).
Proof.
  apply Forall_forall. intros x Hx. unfold trimNonEmpty in Hx. apply filterb_elem in Hx as [Hx Ht].
  apply list_elem_of_fmap in Hx as (y & -> & _). split; [by apply truthy_spec|apply TrimSpace_idem].
Qed.
Lemma trimNonEmpty_idem l : trimNonEmpty (trimNonEmpty l) = trimNonEmpty l.
Proof. apply trimNonEmpty_id, trimNonEmpty_ok. Qed.
Lemma trim_stage_idem st : trim_stage (trim_stage st) = trim_stage st.
Proof. unfold trim_stage. cbn [st_SpanNames st_TimeoutSeconds]. by rewrite trimNonEmpty_idem. Qed.
Lemma effective_trim d st : effective d (trim_stage st) = effective d st.
Proof. unfold effective, trim_stage. cbn [st_SpanNames st_TimeoutSeconds]. by rewrite trimNonEmpty_idem. Qed.
Lemma effective_trims d (l : list Stage) : omap (effective d) (trim_stage <$> l) = omap (effective d) l.
Proof.
  induction l as [|st l IH]; [done|]. cbn [fmap list_fmap omap list_omap]. rewrite effective_trim.
  change (list_omap _ _ (effective d) (list_fmap _ _ trim_stage l)) with (omap (effective d) (trim_stage <$> l)). by rewrite IH.
Qed.

Lemma EffectiveStages_with_lookback s n : EffectiveStages (with_lookback s n) = EffectiveStages s.
Proof. done. Qed.
Lemma Normalize_stages s : EffectiveStages (Normalize s) = EffectiveStages (canonical s).
Proof. unfold Normalize. by case_if. Qed.

Lemma canonical_stages s : cs_Stages s <> [] -> EffectiveStages (canonical s) = EffectiveStages s.
Proof.
  intros Hs. unfold EffectiveStages. cbn [canonical cs_Stages]. change (defaultTimeout (canonical s)) with (defaultTimeout s).
  destruct (cs_Stages s) as [|st l]; [done|]. exact (effective_trims (defaultTimeout s) (st :: l)).
Qed.

Lemma canonical_idem s : canonical (canonical s) = canonical s.
Proof.
  unfold canonical. cbn [cs_Kind cs_StartSpanName cs_Stages cs_DefaultTimeoutSeconds cs_ClosingSpanNames cs_TimeoutSeconds cs_LookbackSeconds].
  rewrite TrimSpace_idem. set (folded := match cs_Stages s with [] => _ | _ => _ end).
  assert (Hn : nonempty (nonempty (cs_Kind s) "trace_completion") "trace_completion" = nonempty (cs_Kind s) "trace_completion").
  { unfold nonempty. destruct (cs_Kind s =s "") eqn:E; [done|]. by rewrite E. }
  rewrite Hn. assert (Hs : trim_stage <$> (trim_stage <$> folded) = trim_stage <$> folded).
  { rewrite <- list_fmap_compose. apply list_fmap_ext. intros i x _. apply trim_stage_idem. }
  assert (H0 : trim_stage <$> folded = [] -> cs_ClosingSpanNames s = []).
  { intros H%fmap_nil_inv. subst folded. destruct (cs_Stages s), (cs_ClosingSpanNames s); done. }
  destruct (trim_stage <$> folded) as [|st l] eqn:Ef; [by rewrite H0|]. rewrite Hs. by destruct (last (st :: l)).
Qed.

(** Reading a stored rule back changes nothing: the canonical form is a fixed point. *)
Theorem Normalize_idem s : Normalize (Normalize s) = Normalize s.
Proof.
  assert (H : forall t, canonical t = t -> Normalize t = (if (cs_LookbackSeconds t =? 0) && (0 <? maxStageTimeout t) then with_lookback t (4 * maxStageTimeout t) else t)).
  { intros t Ht. unfold Normalize. by rewrite Ht. }
  unfold Normalize at 2 3. destruct ((_ =? _) && _) eqn:E.
  - rewrite H; [|change (with_lookback (canonical (canonical s)) (4 * maxStageTimeout (canonical s)) = with_lookback (canonical s) (4 * maxStageTimeout (canonical s))); by rewrite canonical_idem]. cbn [with_lookback cs_LookbackSeconds].
    apply andb_true_iff in E as [_ E]. destruct (4 * maxStageTimeout (canonical s) =? 0) eqn:E2; [lia|done].
  - rewrite H by apply canonical_idem. by rewrite E.
Qed.

(** The canonical form keeps the pipeline the rule stands for.  A legacy rule, with closing spans and
    a timeout in place of stages, is read with its own timeout rather than with a default. *)
Theorem Normalize_keeps_pipeline s :
  cs_Stages s <> [] \/ cs_ClosingSpanNames s = [] \/ cs_DefaultTimeoutSeconds s <= 0 \/ cs_TimeoutSeconds s <= 0 ->
  EffectiveStages (Normalize s) = EffectiveStages s.
Proof.
  rewrite Normalize_stages. destruct (cs_Stages s) as [|st l] eqn:Es; [|intros _; apply canonical_stages; by rewrite Es].
  intros [?|H]; [done|]. unfold EffectiveStages. cbn [canonical cs_Stages cs_ClosingSpanNames]. rewrite Es.
  change (defaultTimeout (canonical s)) with (defaultTimeout s).
  destruct (cs_ClosingSpanNames s) as [|x l] eqn:Ec; [done|]. destruct H as [?|H]; [done|].
  cbn [fmap list_fmap omap list_omap]. rewrite effective_trim. unfold effective. cbn [st_SpanNames st_TimeoutSeconds].
  destruct (trimNonEmpty (x :: l)); [done|]. do 2 f_equal. unfold defaultTimeout.
  destruct (cs_TimeoutSeconds s <=? 0) eqn:E1, (0 <? cs_DefaultTimeoutSeconds s) eqn:E2; cbn; try done; lia.
Qed.

(** ** What the form sends *)

Definition go_names (st : TraceCompletionStage) : Prop := Forall (fun x => TrimSpace x = x) (ts_span_names st).
(** A form as the editor leaves it, with span names that have no white space of Go's alone around them. *)
Definition form_ok (f : Form) : Prop :=
  drafts_ok (fm_stages f) /\ 1 <= fm_defTimeoutN f /\ Forall go_names (builtStages f).

Definition sent_stage (d : Z) (st : TraceCompletionStage) : Stage :=
  {| st_SpanNames := ts_span_names st; st_TimeoutSeconds := ts_timeout_seconds st ?? d |}.

Lemma toSeconds_pos n u : 1 <= n -> 1 <= toSeconds n u.
Proof. destruct u; cbn; lia. Qed.

Lemma builtStages_elem f st : drafts_ok (fm_stages f) -> st ∈ builtStages f ->
  ts_span_names st <> [] /\ Forall (fun x => x <> "") (ts_span_names st) /\
  match ts_timeout_seconds st with Some t => 1 <= t | None => True end.
Proof.
  intros [_ Hok] (Hst & Hn)%filterb_elem. apply list_elem_of_fmap in Hst as (s & -> & Hs).
  unfold named in Hn. apply negb_true_iff, bool_decide_eq_false in Hn. split; [done|]. split.
  - apply Forall_forall. intros x Hx. cbn in Hx. unfold span_list in Hx. apply filterb_elem in Hx as [_ Hx]. by apply truthy_spec.
  - cbn. destruct (sd_inherit s); [done|]. apply toSeconds_pos. rewrite Forall_forall in Hok. by apply Hok.
Qed.

Lemma submit_inr f body : submit f = inr body -> builtStages f <> [] /\ ti_stages body = Some (builtStages f) /\
  body = {| ti_name := trim (fm_name f); ti_description := trim (fm_description f); ti_severity := fm_severity f;
      ti_enabled := fm_enabled f; ti_start_span_name := Some (trim (fm_startSpan f)); ti_stages := Some (builtStages f);
      ti_default_timeout_seconds := Some (default_seconds f); ti_closing_span_names := None; ti_timeout_seconds := None;
      ti_lookback_seconds := Some (longest f * 4); ti_channel_ids := fm_channelIDs f |}.
Proof. unfold submit. destruct (builtStages f); [done|]. by intros [= <-]. Qed.

Lemma sent_effective d l : 1 <= d ->
  (forall st, st ∈ l -> ts_span_names st <> [] /\ Forall (fun x => x <> "") (ts_span_names st) /\ go_names st /\
     match ts_timeout_seconds st with Some t => 1 <= t | None => True end) ->
  omap (effective d) ((fun st => {| st_SpanNames := ts_span_names st; st_TimeoutSeconds := ts_timeout_seconds st ?? 0 |}) <$> l : list Stage)
  = sent_stage d <$> l.
Proof.
  intros Hd. induction l as [|st l IH]; intros H; [done|]. rewrite !fmap_cons. cbn [omap list_omap].
  destruct (H st ltac:(left)) as (Hn & Hne & Hgo & Ht). unfold effective at 1. cbn [st_SpanNames st_TimeoutSeconds].
  rewrite trimNonEmpty_id by (apply Forall_and; done). unfold sent_stage at 1.
  destruct (ts_span_names st) as [|x xs] eqn:E; [done|]. f_equal.
  - f_equal. destruct (ts_timeout_seconds st) as [t|]; cbn; [|done]. destruct (t <=? 0) eqn:?; lia.
  - apply IH. intros ? ?. apply H. by right.
Qed.

(** The specification the server makes of a request of the form. *)
Lemma submitted_spec f body : form_ok f -> submit f = inr body ->
  let spec := parseTraceCompletionInput body in
  EffectiveStages spec = sent_stage (default_seconds f) <$> builtStages f /\ cs_Kind spec = "trace_completion" /\
  cs_LookbackSeconds spec = longest f * 4 /\ cs_StartSpanName spec = TrimSpace (trim (fm_startSpan f)).
Proof.
  intros (Hd & Hdef & Hgo) (Hne & _ & ->)%submit_inr. cbn.
  assert (Hpos : 1 <= default_seconds f) by by apply toSeconds_pos.
  assert (Hlong : 1 <= longest f) by (etransitivity; [exact Hpos|apply fold_max_ge]).
  unfold parseTraceCompletionInput.
  cbn [ti_start_span_name ti_stages ti_default_timeout_seconds ti_closing_span_names ti_timeout_seconds ti_lookback_seconds].
  set (s0 := {| cs_Kind := _ |}).
  assert (Hlk : Normalize s0 = canonical s0).
  { unfold Normalize. change (cs_LookbackSeconds (canonical s0)) with (longest f * 4). destruct (longest f * 4 =? 0) eqn:?; [lia|done]. }
  split; [|by rewrite Hlk]. rewrite Normalize_stages, canonical_stages.
  2:{ subst s0. cbn. by destruct (builtStages f). }
  unfold EffectiveStages. subst s0. cbn [cs_Stages cs_ClosingSpanNames].
  assert (defaultTimeout _ = default_seconds f) as ->.
  { unfold defaultTimeout. cbn. destruct (0 <? default_seconds f) eqn:?; [done|lia]. }
  rewrite Forall_forall in Hgo. rewrite <- sent_effective; [by destruct (builtStages f)|done|].
  intros st Hst. destruct (builtStages_elem f st Hd Hst) as (? & ? & ?). auto.
Qed.

Lemma longest_max f : longest f = Z.max (default_seconds f)
  (foldl Z.max 0 (st_TimeoutSeconds <$> (sent_stage (default_seconds f) <$> builtStages f))) \/ default_seconds f < 0.
Proof.
  destruct (Z_lt_dec (default_seconds f) 0) as [|Hd]; [by right|left]. unfold longest.
  rewrite <- list_fmap_compose.
  change (st_TimeoutSeconds ∘ sent_stage (default_seconds f)) with (fun st => ts_timeout_seconds st ?? default_seconds f).
  set (l := _ <$> builtStages f). apply Z.le_antisymm.
  - apply fold_max_le. split; [lia|]. apply Forall_forall. intros x Hx. pose proof (fold_max_elem l 0 x Hx). lia.
  - pose proof (fold_max_ge l (default_seconds f)). apply Z.max_lub; [done|]. apply fold_max_le. split; [lia|].
    apply Forall_forall. intros x Hx. by apply fold_max_elem.
Qed.

Lemma submitted_valid f body : form_ok f -> submit f = inr body ->
  Validate (parseTraceCompletionInput body) = inr tt <->
  Forall (fun st => ts_timeout_seconds st ?? default_seconds f <= 86400) (builtStages f) /\ default_seconds f <= 151200.
Proof.
  intros Hf Hs. destruct (submitted_spec f body Hf Hs) as (Heff & Hkind & Hlook & _).
  pose proof (submit_inr f body Hs) as (Hne & _ & _). destruct Hf as (Hd & Hdef & _).
  assert (Hpos : 1 <= default_seconds f) by by apply toSeconds_pos.
  destruct (longest_max f) as [Hlong|?]; [|lia]. set (spec := parseTraceCompletionInput body) in *.
  rewrite Validate_ok. unfold maxStageTimeout. rewrite Heff, Hlook. set (mx := foldl Z.max 0 _) in Hlong |- *.
  assert (Hmx : Forall (fun st => ts_timeout_seconds st ?? default_seconds f <= 86400) (builtStages f) -> mx <= 86400).
  { intros H. apply fold_max_le. split; [lia|]. apply Forall_fmap, Forall_fmap. done. }
  rewrite Forall_fmap. split.
  - intros (_ & _ & Hst & Hl). split; [|lia]. eapply Forall_impl; [exact Hst|]. intros st [_ ?]. cbn in *. lia.
  - intros [Hst Hdd]. specialize (Hmx Hst). split; [by right|]. split; [by destruct (builtStages f)|]. split; [|lia].
    rewrite Forall_forall in Hst |- *. intros st Hin. specialize (Hst st Hin).
    destruct (builtStages_elem f st Hd Hin) as (? & _ & Ht). split; [done|]. cbn.
    destruct (ts_timeout_seconds st); cbn in *; lia.
Qed.

Lemma stored_iff id body :
  (exists r, stored id body = inr r) <->
  TrimSpace (ti_name body) <> "" /\ ValidSeverity (ti_severity body) = true /\ Validate (parseTraceCompletionInput body) = inr tt.
Proof.
  unfold stored, validate. destruct (TrimSpace (ti_name body) =s "") eqn:En.
  { apply String.eqb_eq in En. split; [by intros [? ?]|by intros [[] _]]. }
  apply String.eqb_neq in En. destruct (ValidSeverity (ti_severity body)); [|split; [by intros [? ?]|by intros (_ & ? & _)]].
  cbn [negb]. destruct (Validate _) as [m|[]]; cbn; [split; [by intros [? ?]|by intros (_ & _ & ?)]|]. split; [done|by eauto].
Qed.

(** C17. What the form accepts, the server accepts exactly when every stage's timeout is at most a day and
    the default at most 42 hours, also when no stage uses it: four times the default is sent as the
    lookback, and the server refuses a lookback of more than a week (it does not clamp it). *)
Theorem submitted_rule_accepted_iff f id body : form_ok f -> submit f = inr body ->
  (exists r, stored id body = inr r) <->
  TrimSpace (trim (fm_name f)) <> "" /\ ValidSeverity (fm_severity f) = true /\
  Forall (fun st => ts_timeout_seconds st ?? default_seconds f <= 86400) (builtStages f) /\ default_seconds f <= 151200.
Proof.
  intros Hf Hs. rewrite stored_iff, (submitted_valid f body Hf Hs). by destruct (submit_inr f body Hs) as (_ & _ & ->).
Qed.

(** ** Saving a rule without a change *)

Definition name_ok (x : string) : Prop := x <> "" /\ TrimSpace x = x /\ trim x = x /\ no_char "," x = true.

Lemma split_commas x l : no_char "," x = true -> Forall (fun y => no_char "," y = true) l ->
  split "," (join ", " (x :: l)) = x :: (String " " <$> l).
Proof.
  revert x. induction l as [|y l IH]; intros x Hx Hl; [by apply split_no_char|].
  apply Forall_cons in Hl as [Hy Hl]. change (join ", " (x :: y :: l)) with (x +:+ String "," (String " " (join ", " (y :: l)))).
  rewrite split_cut by done. rewrite fmap_cons. f_equal.
  assert (H : forall s a r, split "," s = a :: r -> split "," (String " " s) = String " " a :: r).
  { intros s a r H. cbn [split]. rewrite H. done. }
  by apply H, IH.
Qed.

Lemma span_list_join l : Forall name_ok l -> span_list (join ", " l) = l.
Proof.
  intros H. unfold span_list. destruct l as [|x l]; [done|]. rewrite Forall_forall in H.
  rewrite split_commas; [|apply H; left|apply Forall_forall; intros y Hy; apply H; by right].
  assert (Ht : trim <$> (x :: (String " " <$> l)) = x :: l).
  { rewrite fmap_cons. f_equal; [apply H; left|]. rewrite <- list_fmap_compose. rewrite <- (list_fmap_id l) at 2.
    apply list_fmap_ext. intros i y Hy. cbn [compose]. rewrite trim_ws_l by done. apply H. right. by eapply list_elem_of_lookup_2. }
  rewrite Ht. apply filterb_all. intros y Hy. apply truthy_spec. by apply H.
Qed.

Definition seen_stage (st : Stage) : TraceCompletionStage :=
  {| ts_span_names := st_SpanNames st; ts_timeout_seconds := omit_Z (st_TimeoutSeconds st) |}.
Lemma rebuilt st : Forall name_ok (st_SpanNames st) ->
  built (draft_of (seen_stage st)) =
  {| ts_span_names := st_SpanNames st; ts_timeout_seconds := if 0 <? st_TimeoutSeconds st then Some (st_TimeoutSeconds st) else None |}.
Proof.
  intros H. unfold built, draft_of, seen_stage. cbn [ts_span_names ts_timeout_seconds sd_spans sd_inherit sd_timeoutN sd_timeoutUnit].
  rewrite span_list_join by done. f_equal. unfold omit_Z. destruct (st_TimeoutSeconds st =? 0) eqn:E0.
  { replace (st_TimeoutSeconds st) with 0 by lia. done. }
  cbn [positive]. destruct (0 <? st_TimeoutSeconds st) eqn:E; cbn [negb]; [|done].
  change (Some (st_TimeoutSeconds st) ?? 0) with (st_TimeoutSeconds st). by rewrite secondsAs_exact by lia.
Qed.

Lemma kept_stages d def l :
  (forall st, st ∈ l -> Forall name_ok (st_SpanNames st) /\ (st_SpanNames st <> [] -> st_TimeoutSeconds st <= 0 -> d = def)) ->
  sent_stage d <$> List.filter named ((fun st => built (draft_of (seen_stage st))) <$> l) = omap (effective def) l.
Proof.
  induction l as [|st l IH]; intros H; [done|]. destruct (H st ltac:(left)) as [Hn Hdef].
  rewrite fmap_cons. cbn [List.filter omap list_omap]. rewrite rebuilt by done. unfold named at 1. cbn [ts_span_names].
  assert (IH' := IH ltac:(intros ? ?; apply H; by right)). unfold effective at 1.
  rewrite trimNonEmpty_id by (eapply Forall_impl; [exact Hn|]; intros ? (? & ? & _); done).
  destruct (st_SpanNames st) as [|x xs] eqn:E; [exact IH'|]. cbn [bool_decide negb decide]. rewrite bool_decide_eq_false_2 by done.
  cbn [negb]. rewrite fmap_cons. f_equal; [|exact IH']. unfold sent_stage. cbn [ts_span_names ts_timeout_seconds]. f_equal.
  destruct (0 <? st_TimeoutSeconds st) eqn:E1, (st_TimeoutSeconds st <=? 0) eqn:E2; cbn; try lia. apply Hdef; [done|lia].
Qed.

(** A rule as the server stores it, with texts the form does not trim or cut. *)
Record stored_ok (r : CompletionRule) : Prop := {
  so_canonical : Normalize (cr_Spec r) = cr_Spec r; so_valid : Validate (cr_Spec r) = inr tt;
  so_names : Forall (fun st => Forall name_ok (st_SpanNames st)) (cs_Stages (cr_Spec r));
  so_default : 0 <= cs_DefaultTimeoutSeconds (cr_Spec r); so_timeout : 0 <= cs_TimeoutSeconds (cr_Spec r);
  so_start : trim (cs_StartSpanName (cr_Spec r)) = cs_StartSpanName (cr_Spec r);
  so_name : trim (cr_Name r) = cr_Name r /\ TrimSpace (cr_Name r) = cr_Name r /\ cr_Name r <> "";
  so_severity : ValidSeverity (cr_Severity r) = true
}.

(** The default the form shows for a rule, in seconds. *)
Definition shown_default (s : CompletionSpec) : Z :=
  or_Z (Some (or_Z (Some (cs_DefaultTimeoutSeconds s)) (cs_TimeoutSeconds s))) 300.

Lemma canonical_has_stages s : Normalize s = s -> EffectiveStages s <> [] -> cs_Stages s <> [].
Proof.
  intros HN HE Hs. apply HE. unfold EffectiveStages. rewrite Hs. destruct (cs_ClosingSpanNames s) as [|x l] eqn:E; [done|].
  exfalso. assert (H : cs_Stages (Normalize s) = cs_Stages s) by by rewrite HN. revert H.
  assert (Hc : cs_Stages (Normalize s) = cs_Stages (canonical s)) by (unfold Normalize; by case_if). rewrite Hc.
  cbn [canonical cs_Stages]. by rewrite Hs, E.
Qed.

Lemma shown_default_pos s : 0 <= cs_DefaultTimeoutSeconds s -> 0 <= cs_TimeoutSeconds s -> 1 <= shown_default s.
Proof.
  intros H1 H2. unfold shown_default, or_Z. cbn. destruct (cs_DefaultTimeoutSeconds s =? 0) eqn:E1; [destruct (cs_TimeoutSeconds s =? 0) eqn:E2|rewrite E1]; rewrite ?E2; try done; lia.
Qed.
Lemma shown_default_used s : 0 <= cs_DefaultTimeoutSeconds s -> 0 <= cs_TimeoutSeconds s -> 1 <= defaultTimeout s -> shown_default s = defaultTimeout s.
Proof.
  intros H1 H2. unfold shown_default, defaultTimeout, or_Z. cbn.
  destruct (0 <? cs_DefaultTimeoutSeconds s) eqn:E.
  - destruct (cs_DefaultTimeoutSeconds s =? 0) eqn:E1; [lia|]. by rewrite E1.
  - destruct (cs_DefaultTimeoutSeconds s =? 0) eqn:E1; [|lia]. intros. destruct (cs_TimeoutSeconds s =? 0) eqn:E2; rewrite ?E2; [lia|done].
Qed.

Section untouched.
Context (integration : string) (r : CompletionRule) (Hr : stored_ok r).
Let s := cr_Spec r.
Let f := RuleForm_init (Some (ruleToResponse integration r)).

Lemma opened_rows : fm_stages f = draft_of <$> (seen_stage <$> cs_Stages s).
Proof.
  subst f. unfold RuleForm_init, stageDraftsFromRule. cbn [fm_stages]. f_equal. unfold ruleToResponse. cbn [tr_stages].
  rewrite (so_canonical r Hr). fold s. destruct (proj1 (Validate_ok s) (so_valid r Hr)) as (_ & He & _).
  pose proof (canonical_has_stages s (so_canonical r Hr) He) as Hs. fold s. by destruct (cs_Stages s).
Qed.
Lemma opened_default : default_seconds f = shown_default s /\ 1 <= fm_defTimeoutN f.
Proof.
  pose proof (shown_default_pos s (so_default r Hr) (so_timeout r Hr)) as Hp.
  assert (Hf : (fm_defTimeoutN f, fm_defTimeoutUnit f) = secondsAs (shown_default s)).
  { subst f. unfold RuleForm_init, ruleToResponse. cbn [fm_defTimeoutN fm_defTimeoutUnit tr_default_timeout_seconds tr_timeout_seconds].
    rewrite (so_canonical r Hr). by rewrite <- surjective_pairing. }
  unfold default_seconds. replace (fm_defTimeoutN f) with (secondsAs (shown_default s)).1 by by rewrite <- Hf.
  replace (fm_defTimeoutUnit f) with (secondsAs (shown_default s)).2 by by rewrite <- Hf.
  split; [apply secondsAs_exact; lia|apply secondsAs_pos; lia].
Qed.
Lemma opened_built : sent_stage (shown_default s) <$> builtStages f = EffectiveStages s.
Proof.
  unfold builtStages. rewrite opened_rows. rewrite <- !list_fmap_compose.
  change (built ∘ (draft_of ∘ seen_stage)) with (fun st => built (draft_of (seen_stage st))).
  destruct (proj1 (Validate_ok s) (so_valid r Hr)) as (_ & He & Hb & _).
  pose proof (canonical_has_stages s (so_canonical r Hr) He) as Hs.
  assert (HE : EffectiveStages s = omap (effective (defaultTimeout s)) (cs_Stages s)) by (unfold EffectiveStages; by destruct (cs_Stages s)).
  rewrite HE. pose proof (so_names r Hr) as Hn. fold s in Hn. rewrite Forall_forall in Hn. apply kept_stages. intros st Hst.
  split; [by apply Hn|]. intros Hne Ht. apply shown_default_used; [apply Hr|apply Hr|].
  rewrite HE, Forall_forall in Hb. specialize (Hn st Hst).
  assert (Hin : {| st_SpanNames := st_SpanNames st; st_TimeoutSeconds := defaultTimeout s |} ∈ omap (effective (defaultTimeout s)) (cs_Stages s)).
  { apply list_elem_of_omap. exists st. split; [done|]. unfold effective.
    rewrite trimNonEmpty_id by (eapply Forall_impl; [exact Hn|]; intros ? (? & ? & _); done).
    destruct (st_SpanNames st); [done|]. destruct (_ <=? 0) eqn:E; [done|lia]. }
  apply Hb in Hin as [_ ?]. cbn in *. lia.
Qed.
Lemma opened_ok : form_ok f.
Proof.
  split; [apply drafts_ok_init|]. split; [apply opened_default|]. apply Forall_forall. intros st Hst.
  assert (Hin : sent_stage (shown_default s) st ∈ EffectiveStages s) by (rewrite <- opened_built; apply list_elem_of_fmap; by exists st).
  unfold EffectiveStages in Hin. apply list_elem_of_omap in Hin as (st' & _ & He). unfold effective in He.
  pose proof (trimNonEmpty_ok (st_SpanNames st')) as Hok. destruct (trimNonEmpty _); [done|]. injection He as He _.
  unfold go_names. rewrite <- He. eapply Forall_impl; [exact Hok|]. by intros ? [].
Qed.
End untouched.

(** C16. Opening a stored rule and saving it without a change keeps its start span and its pipeline, stage
    by stage with the timeouts in force; the lookback becomes four times the longest timeout, the
    default included, and the save fails when the default is above 42 hours. *)
Theorem untouched_save_keeps_pipeline integration r : stored_ok r ->
  exists body, submit (RuleForm_init (Some (ruleToResponse integration r))) = inr body /\
    let spec := parseTraceCompletionInput body in
    EffectiveStages spec = EffectiveStages (cr_Spec r) /\ cs_StartSpanName spec = cs_StartSpanName (cr_Spec r) /\
    cs_LookbackSeconds spec = 4 * Z.max (shown_default (cr_Spec r)) (maxStageTimeout (cr_Spec r)) /\
    ((exists r', stored (cr_ID r) body = inr r') <-> shown_default (cr_Spec r) <= 151200).
Proof.
  intros Hr. pose proof (opened_ok integration r Hr) as Hok. pose proof (opened_built integration r Hr) as Hb.
  pose proof (opened_default integration r Hr) as [Hdef _]. set (f := RuleForm_init _) in *.
  destruct (proj1 (Validate_ok _) (so_valid r Hr)) as (_ & He & Hbd & _).
  assert (Hne : builtStages f <> []) by (intros H; rewrite H in Hb; by apply He).
  destruct (submit f) as [m|body] eqn:Hs; [unfold submit in Hs; by destruct (builtStages f)|]. exists body. split; [done|].
  destruct (submitted_spec f body Hok Hs) as (Heff & _ & Hlook & Hstart). rewrite Hdef in Heff. cbv zeta. rewrite Heff, Hb.
  split; [done|]. rewrite Hlook, Hstart. split; [|split].
  - change (fm_startSpan f) with (cs_StartSpanName (Normalize (cr_Spec r))). rewrite (so_canonical r Hr), (so_start r Hr).
    rewrite <- (so_canonical r Hr). unfold Normalize. case_if; apply TrimSpace_idem.
  - destruct (longest_max f) as [->|Hneg].
    + rewrite Hdef, Hb. unfold maxStageTimeout. lia.
    + pose proof (shown_default_pos (cr_Spec r) (so_default r Hr) (so_timeout r Hr)). lia.
  - rewrite stored_iff, (submitted_valid f body Hok Hs), Hdef. destruct (submit_inr f body Hs) as (_ & _ & ->). cbn [ti_name ti_severity].
    change (fm_name f) with (cr_Name r). change (fm_severity f) with (cr_Severity r). destruct (so_name r Hr) as (-> & -> & Hn).
    split; [by intros (_ & _ & _ & ?)|]. intros Hd. split; [done|]. split; [apply Hr|]. split; [|done].
    rewrite <- Hb, Forall_fmap in Hbd. eapply Forall_impl; [exact Hbd|]. intros st [_ ?]. cbn in *. lia.
Qed.

(** ** The pipeline shown *)

Lemma canonical_names s st : Normalize s = s -> st ∈ cs_Stages s -> trimNonEmpty (st_SpanNames st) = st_SpanNames st.
Proof.
  intros HN Hst. assert (Hc : cs_Stages (Normalize s) = cs_Stages (canonical s)) by (unfold Normalize; by case_if).
  rewrite <- HN, Hc in Hst. cbn [canonical cs_Stages] in Hst. apply list_elem_of_fmap in Hst as (st' & -> & _). apply trimNonEmpty_idem.
Qed.

(** The pipeline in the table of rules is the one the evaluator runs: the same stages with the
    timeouts in force. *)
Theorem pipeline_shown_is_evaluated integration r :
  Normalize (cr_Spec r) = cr_Spec r -> Validate (cr_Spec r) = inr tt -> 0 <= cs_DefaultTimeoutSeconds (cr_Spec r) ->
  Forall (fun st => st_SpanNames st <> []) (cs_Stages (cr_Spec r)) ->
  RulePipeline (ruleToResponse integration r) =
    (if Gated (cr_Spec r) then Some (cs_StartSpanName (cr_Spec r)) else None,
     (fun st => (join " / " (st_SpanNames st), Some (fmtSeconds (st_TimeoutSeconds st)))) <$> EffectiveStages (cr_Spec r)).
Proof.
  intros HN HV Hd Hne. set (s := cr_Spec r) in *. destruct (proj1 (Validate_ok s) HV) as (_ & He & Hb & _).
  pose proof (canonical_has_stages s HN He) as Hs. unfold RulePipeline, ruleToResponse, pipeline_stages.
  cbn [tr_default_timeout_seconds tr_timeout_seconds tr_start_span_name tr_stages]. fold s. rewrite HN. f_equal.
  - assert (HT : TrimSpace (cs_StartSpanName s) = cs_StartSpanName s).
    { rewrite <- HN. unfold Normalize. case_if; apply TrimSpace_idem. }
    unfold Gated, truthy_opt. rewrite HT. done.
  - replace (or_Z (Some (cs_DefaultTimeoutSeconds s)) (cs_TimeoutSeconds s)) with (defaultTimeout s).
    2:{ unfold defaultTimeout, or_Z. cbn. destruct (0 <? cs_DefaultTimeoutSeconds s) eqn:E1, (cs_DefaultTimeoutSeconds s =? 0) eqn:E2; try done; lia. }
    assert (HE : EffectiveStages s = omap (effective (defaultTimeout s)) (cs_Stages s)) by (unfold EffectiveStages; by destruct (cs_Stages s)).
    rewrite HE in Hb |- *. assert (Hcan := fun st => canonical_names s st HN). clear HE He.
    transitivity ((fun st => let t := if positive (ts_timeout_seconds st) then ts_timeout_seconds st ?? 0 else defaultTimeout s in
      (join " / " (ts_span_names st), if 0 <? t then Some (fmtSeconds t) else None)) <$> (seen_stage <$> cs_Stages s)); [by destruct (cs_Stages s)|].
    generalize (defaultTimeout s) as d, (cs_Stages s) as l, Hb, Hne, Hcan. clear. intros d l. induction l as [|st l IH]; intros Hb Hne Hcan; [done|].
    apply Forall_cons in Hne as [Hn Hne]. assert (Hst : effective d st = Some {| st_SpanNames := st_SpanNames st;
      st_TimeoutSeconds := if st_TimeoutSeconds st <=? 0 then d else st_TimeoutSeconds st |}).
    { unfold effective. rewrite (Hcan st ltac:(left)). by destruct (st_SpanNames st). }
    cbn [omap list_omap] in *. rewrite Hst in *. apply Forall_cons in Hb as [[_ Ht] Hb]. rewrite !fmap_cons.
    f_equal; [|apply IH; [done|done|intros ? ?; apply Hcan; by right]]. cbn [st_SpanNames st_TimeoutSeconds seen_stage ts_span_names ts_timeout_seconds].
    f_equal. assert (Hp : (if positive (omit_Z (st_TimeoutSeconds st)) then omit_Z (st_TimeoutSeconds st) ?? 0 else d)
      = (if st_TimeoutSeconds st <=? 0 then d else st_TimeoutSeconds st)).
    { unfold omit_Z. destruct (st_TimeoutSeconds st =? 0) eqn:E0; cbn; [destruct (_ <=? 0) eqn:?; [done|lia]|].
      destruct (0 <? _) eqn:E1, (_ <=? 0) eqn:E2; try done; lia. }
    rewrite Hp. cbn in Ht. destruct (0 <? _) eqn:E; [done|]. lia.
Qed.

(** ** Examples *)

Definition two_hops : CompletionSpec := {|
  cs_Kind := "trace_completion"; cs_StartSpanName := "Start";
  cs_Stages := [{| st_SpanNames := ["Klart"]; st_TimeoutSeconds := 300 |}; {| st_SpanNames := ["To be done"; "Done"]; st_TimeoutSeconds := 0 |}];
  cs_DefaultTimeoutSeconds := 5400; cs_ClosingSpanNames := ["To be done"; "Done"]; cs_TimeoutSeconds := 0; cs_LookbackSeconds := 12000 |}.
Definition two_hops_rule : CompletionRule := {|
  cr_ID := "r1"; cr_Name := "Orders complete"; cr_Description := ""; cr_Severity := "critical"; cr_Enabled := true;
  cr_Spec := two_hops; cr_ChannelIDs := ["c1"] |}.
Definition long_default (n : Z) : Form := {|
  fm_name := "Orders"; fm_description := ""; fm_severity := "info"; fm_enabled := true; fm_startSpan := "Start";
  fm_stages := [{| sd_spans := "Klart"; sd_inherit := false; sd_timeoutN := 1; sd_timeoutUnit := minutes |}];
  fm_defTimeoutN := n; fm_defTimeoutUnit := hours; fm_channelIDs := [] |}.

(** A span name with a comma is read back as two names. *)
Example comma_splits : built (draft_of (seen_stage {| st_SpanNames := ["load, store"]; st_TimeoutSeconds := 60 |})) =
  {| ts_span_names := ["load"; "store"]; ts_timeout_seconds := Some 60 |}.
Proof. by_compute. Qed.
(** A default nobody uses makes the rule unacceptable. *)
Example long_default_refused : match submit (long_default 43) with inr body => stored "r" body | inl m => inl m end =
  inl "tracecompletion: lookback_seconds capped at 7 days".
Proof. by_compute. Qed.

Lemma two_hops_ok : stored_ok two_hops_rule.
Proof.
  split; [by_compute|by_compute| |by vm_compute|by vm_compute|by_compute|by repeat split|by_compute].
  unfold two_hops_rule, two_hops. cbn [cr_Spec cs_Stages].
  repeat match goal with |- Forall _ [] => constructor | |- Forall _ (_ :: _) => apply Forall_cons; split end; cbn [st_SpanNames];
  repeat match goal with |- Forall _ [] => constructor | |- Forall _ (_ :: _) => apply Forall_cons; split end;
  (split; [done|]; split; [by_compute|]; split; by_compute).
Qed.

Lemma validated_rule_bounds_witness : Validate two_hops = inr tt /\
  Forall (fun st => 1 <= st_TimeoutSeconds st <= 86400 /\ 2 * st_TimeoutSeconds st <= 12000 <= 604800) (EffectiveStages two_hops).
Proof. assert (H : Validate two_hops = inr tt) by by_compute. split; [exact H|exact (validated_rule_bounds two_hops H)]. Defined.

Lemma Normalize_keeps_pipeline_witness : EffectiveStages (Normalize two_hops) = EffectiveStages two_hops.
Proof. apply Normalize_keeps_pipeline. by left. Defined.

Lemma long_default_ok n : 1 <= n -> form_ok (long_default n).
Proof. intros Hn. split; [split; [done|]; repeat constructor; unfold draft_ok; cbn; lia|]. split; [done|]. repeat constructor. Qed.

Lemma submitted_rule_accepted_iff_witness : exists body, submit (long_default 42) = inr body /\ exists r, stored "r" body = inr r.
Proof.
  destruct (submit (long_default 42)) as [m|body] eqn:E; [by vm_compute in E|]. exists body. split; [done|].
  apply (submitted_rule_accepted_iff (long_default 42) "r" body); [by apply long_default_ok|exact E|].
  split; [by vm_compute|]. split; [by_compute|]. split; [|by vm_compute]. repeat constructor; by vm_compute.
Defined.

Lemma untouched_save_keeps_pipeline_witness : exists body,
  submit (RuleForm_init (Some (ruleToResponse "i1" two_hops_rule))) = inr body /\
  EffectiveStages (parseTraceCompletionInput body) = EffectiveStages two_hops /\ cs_LookbackSeconds (parseTraceCompletionInput body) = 21600.
Proof.
  destruct (untouched_save_keeps_pipeline "i1" two_hops_rule two_hops_ok) as (body & Hs & He & _ & Hl & _).
  exists body. split; [exact Hs|]. split; [exact He|]. rewrite Hl. by_compute.
Defined.

Lemma pipeline_shown_is_evaluated_witness : RulePipeline (ruleToResponse "i1" two_hops_rule) =
  (Some "Start", [("Klart", Some "5m"); ("To be done / Done", Some "90m")]).
Proof.
  rewrite (pipeline_shown_is_evaluated "i1" two_hops_rule); [by_compute|by_compute|by_compute|done|repeat constructor; done].
Defined.
