(* ===== verification/Completion.v ===== *)
(** * Trace-completion rules: the evaluator

    services/cell-api/internal/tracecompletion/evaluator.go: the scan of the
    span table, [classify], and the tick that opens, keeps and resolves the
    firings of delayed traces, with the queries of tracecompletion/store.go and
    alerting/engine_store.go it runs on the table of instances.  The rules it
    reads are those CompletionRules.v stores.  The engine of alerting/engine.go keeps
    firings of its own in that table, and its loop [renotifyOnce] sends open firings
    again: both are modelled as far as they touch it.

    Times are in nanoseconds.  A query is modelled as the set operation its
    text states; a failing query, which skips its step until the next tick, is
    not modelled. *)

From Stdlib Require Import DecimalString DecimalZ DecimalPos.
From S2P Require Import Prelude JsString JsUri JsArray Host Types RuleServer Mirrors CompletionRules.

Local Open Scope string_scope.
Local Open Scope list_scope.
Local Open Scope Z_scope.

(** ** Fingerprints *)

Definition stageFingerprint (traceID : string) (stage : Z) : string := tpl [traceID; "#"; show_Z stage].

(** [strings.LastIndexByte(fp, '#')], as the two parts it separates. *)
Fixpoint last_hash (fp : string) : option (string * string) :=
  match fp with
  | "" => None
  | String c s =>
      match last_hash s with
      | Some (a, b) => Some (String c a, b)
      | None => if Ascii.eqb c "#" then Some ("", s) else None
      end
  end.
Definition parseFingerprint (fp : string) : string * Z :=
  match last_hash fp with
  | Some (a, b) => match Atoi b with Some n => (a, n) | None => (fp, 0) end
  | None => (fp, 0)
  end.

(** ** Scanning the traces *)

(** A row of the table of spans, with the columns the queries read. *)
Record SpanRow := { sp_TraceId : string; sp_SpanName : string; sp_ServiceName : string; sp_Timestamp : Z }.

Record traceAgg := {
  ta_TraceID : string; ta_StartAt : Z; ta_HasStart : bool;
  ta_Stages : list (Z * bool) (* [StageAt] and [HasStage] *); ta_TraceMin : Z; ta_LastSpan : Z
}.

(** [minIf(Timestamp, p)] is the epoch when no row satisfies [p]. *)
Definition min_of (l : list Z) : Z := match l with [] => 0 | x :: l => foldl Z.min x l end.
Definition max_of (l : list Z) : Z := match l with [] => 0 | x :: l => foldl Z.max x l end.
Definition minIf (p : SpanRow -> bool) (rows : list SpanRow) : Z := min_of (sp_Timestamp <$> List.filter p rows).
Definition is_named (names : list string) (r : SpanRow) : bool := bool_decide (sp_SpanName r ∈ names).

Definition aggregate (spec : CompletionSpec) (id : string) (rows : list SpanRow) : traceAgg := {|
  ta_TraceID := id; ta_StartAt := minIf (is_named [cs_StartSpanName spec]) rows;
  ta_HasStart := existsb (is_named [cs_StartSpanName spec]) rows;
  ta_Stages := (fun st => (minIf (is_named (st_SpanNames st)) rows, existsb (is_named (st_SpanNames st)) rows)) <$> EffectiveStages spec;
  ta_TraceMin := min_of (sp_Timestamp <$> rows); ta_LastSpan := max_of (sp_Timestamp <$> rows) |}.

Definition in_scan (services : list string) (from to : Z) (r : SpanRow) : bool :=
  (from <=? sp_Timestamp r) && (sp_Timestamp r <=? to) && bool_decide (sp_ServiceName r ∈ services).
Definition scanTraces (spec : CompletionSpec) (services : list string) (from to : Z) (spans : list SpanRow) : list traceAgg :=
  List.filter (fun a => negb (Gated spec) || ta_HasStart a)
    ((fun g : string * list SpanRow => aggregate spec g.1 g.2)
     <$> group_by sp_TraceId (List.filter (in_scan services from to) spans)).

(** ** Classification *)

Inductive TraceState := StateCompleted | StatePending | StateDelayed.
#[global] Instance TraceState_eq_dec : EqDecision TraceState.
Proof. solve_decision. Defined.
Record TraceClassification := {
  tc_TraceID : string; tc_StartedAt : Z; tc_LastSpanAt : Z; tc_State : TraceState;
  tc_DelayedStage : Z; tc_DelayedStageName : string
}.

Definition sec : Z := 1000000000.
(** The zero [time.Time], 1 January of the year 1. *)
Definition zero_time : Z := -62135596800 * sec.

Definition stageBaseline (spec : CompletionSpec) (a : traceAgg) : Z :=
  if Gated spec then ta_StartAt a else ta_TraceMin a.

(** The loop of [classify]: the first stage without a span, with its index from 1, and the time its
    clock runs from. *)
Fixpoint first_gap (i : Z) (prevTs : Z) (stages : list Stage) (seen : list (Z * bool)) : option (Z * Stage * Z) :=
  match stages, seen with
  | st :: stages, (at_, has) :: seen => if has then first_gap (i + 1) at_ stages seen else Some (i, st, prevTs)
  | _, _ => None
  end.
Definition overdue (now prevTs : Z) (st : Stage) : bool :=
  negb (prevTs =? zero_time) && (prevTs <=? now - st_TimeoutSeconds st * sec).

Definition completed (a : traceAgg) (base : Z) : TraceClassification := {|
  tc_TraceID := ta_TraceID a; tc_StartedAt := base; tc_LastSpanAt := ta_LastSpan a; tc_State := StateCompleted;
  tc_DelayedStage := 0; tc_DelayedStageName := "" |}.
Definition classify (spec : CompletionSpec) (a : traceAgg) (now : Z) : TraceClassification :=
  let base := stageBaseline spec a in
  match EffectiveStages spec with
  | [] => {| tc_TraceID := ta_TraceID a; tc_StartedAt := zero_time; tc_LastSpanAt := ta_LastSpan a;
             tc_State := StatePending; tc_DelayedStage := 0; tc_DelayedStageName := "" |}
  | stages =>
      if (snd <$> last (ta_Stages a)) ?? false then completed a base
      else match first_gap 1 base stages (ta_Stages a) with
           | Some (i, st, prevTs) => {|
               tc_TraceID := ta_TraceID a; tc_StartedAt := prevTs; tc_LastSpanAt := ta_LastSpan a;
               tc_State := if overdue now prevTs st then StateDelayed else StatePending;
               tc_DelayedStage := i; tc_DelayedStageName := join " / " (st_SpanNames st) |}
           | None => completed a base
           end
  end.

Record Counts := { ct_Completed : Z; ct_Pending : Z; ct_Delayed : Z }.
Definition count (c : Counts) (s : TraceState) : Counts :=
  match s with
  | StateCompleted => {| ct_Completed := ct_Completed c + 1; ct_Pending := ct_Pending c; ct_Delayed := ct_Delayed c |}
  | StatePending => {| ct_Completed := ct_Completed c; ct_Pending := ct_Pending c + 1; ct_Delayed := ct_Delayed c |}
  | StateDelayed => {| ct_Completed := ct_Completed c; ct_Pending := ct_Pending c; ct_Delayed := ct_Delayed c + 1 |}
  end.
Definition zero_counts : Counts := {| ct_Completed := 0; ct_Pending := 0; ct_Delayed := 0 |}.
Definition is_delayed (c : TraceClassification) : bool := bool_decide (tc_State c = StateDelayed).
Definition scanAndBucket (spec : CompletionSpec) (services : list string) (now from to : Z) (spans : list SpanRow) :
    list TraceClassification * Counts :=
  let cs := (fun a => classify spec a now) <$> scanTraces spec services from to spans in
  (List.filter is_delayed cs, foldl (fun c x => count c (tc_State x)) zero_counts cs).

Definition lookback (spec : CompletionSpec) : Z := cs_LookbackSeconds spec * sec.
(** What a tick of the rule sees. *)
Definition tick_scan (spec : CompletionSpec) (services : list string) (now : Z) (spans : list SpanRow) :=
  scanAndBucket spec services now (now - lookback spec) now spans.

(** [CountsFor], and the sum [completionCounts] answers with over a list of rules and their
    services; a rule that fails validation is skipped. *)
Definition CountsFor (spec : CompletionSpec) (services : list string) (now : Z) (spans : list SpanRow) : string + Counts :=
  let* _ := Validate spec in
  inr (if bool_decide (services = []) then zero_counts else (tick_scan spec services now spans).2).
Definition add_counts (a b : Counts) : Counts := {|
  ct_Completed := ct_Completed a + ct_Completed b; ct_Pending := ct_Pending a + ct_Pending b; ct_Delayed := ct_Delayed a + ct_Delayed b |}.
Definition completionCounts (rules : list (CompletionRule * list string)) (now : Z) (spans : list SpanRow) : Counts :=
  foldl (fun total rs => if negb (cr_Enabled rs.1) then total
    else match CountsFor (cr_Spec rs.1) rs.2 now spans with inr c => add_counts total c | inl _ => total end) zero_counts rules.

(** ** What is scanned *)

Lemma scanTraces_elem spec services from to spans a :
  a ∈ scanTraces spec services from to spans <->
  exists t rows, a = aggregate spec t rows /\ rows = List.filter (fun r => bool_decide (sp_TraceId r = t)) (List.filter (in_scan services from to) spans) /\
    rows <> [] /\ (Gated spec = true -> existsb (is_named [cs_StartSpanName spec]) rows = true).
Proof.
  unfold scanTraces. rewrite filterb_elem. split.
  - intros [(g & -> & Hg)%list_elem_of_fmap Hs]. destruct g as [t rows]. exists t, rows. split; [done|].
    split; [by apply group_by_elem|]. split; [by eapply group_by_nonempty|]. intros HG. by rewrite HG in Hs.
  - intros (t & rows & -> & Hr & Hne & Hs). split.
    + apply list_elem_of_fmap. exists (t, rows). split; [done|].
      destruct rows as [|r rows]; [done|]. assert (Hin : r ∈ r :: rows) by left.
      destruct (group_by_covers sp_TraceId (List.filter (in_scan services from to) spans) r) as (g & Hg & Hrg).
      { rewrite Hr in Hin. by apply filterb_elem in Hin as [? _]. }
      apply list_elem_of_fmap in Hg as ([k g'] & -> & Hg). cbn in Hrg. pose proof (group_by_elem _ _ _ _ Hg) as Eg.
      assert (k = t) as ->.
      { rewrite Eg in Hrg. apply filterb_elem in Hrg as [_ Hk]. apply bool_decide_eq_true in Hk.
        rewrite Hr in Hin. apply filterb_elem in Hin as [_ Ht]. apply bool_decide_eq_true in Ht. congruence. }
      rewrite Hr. by rewrite <- Eg.
    + destruct (Gated spec); [|done]. cbn. by apply Hs.
Qed.

Lemma scanTraces_NoDup spec services from to spans : NoDup (ta_TraceID <$> scanTraces spec services from to spans).
Proof.
  unfold scanTraces. apply filterb_map_NoDup. rewrite <- list_fmap_compose. exact (group_by_NoDup sp_TraceId _).
Qed.

Lemma count_total l c : let c' := foldl (fun c x => count c (tc_State x)) c l in
  ct_Completed c' + ct_Pending c' + ct_Delayed c' = ct_Completed c + ct_Pending c + ct_Delayed c + Z.of_nat (length l) /\
  ct_Delayed c' = ct_Delayed c + Z.of_nat (length (List.filter is_delayed l)).
Proof.
  revert c. induction l as [|x l IH]; intros c; cbn; [lia|]. destruct (IH (count c (tc_State x))) as [H1 H2]. cbn in H1, H2.
  rewrite H1, H2. unfold is_delayed. destruct (tc_State x) eqn:E; cbn [count ct_Completed ct_Pending ct_Delayed];
    [rewrite bool_decide_eq_false_2 by done|rewrite bool_decide_eq_false_2 by done|rewrite bool_decide_eq_true_2 by done]; cbn [length]; lia.
Qed.

(** The counts of a rule are those of the integration's messages: every trace with a start span in
    the window (every trace, when the rule has no start span) is counted once. *)
Theorem counts_are_messages spec services now from to spans :
  exists ids, NoDup ids /\
    (forall t, t ∈ ids <-> exists r, r ∈ spans /\ in_scan services from to r = true /\ sp_TraceId r = t /\
       (Gated spec = true -> sp_SpanName r = cs_StartSpanName spec)) /\
    let '(delayed, c) := scanAndBucket spec services now from to spans in
    ct_Completed c + ct_Pending c + ct_Delayed c = Z.of_nat (length ids) /\ ct_Delayed c = Z.of_nat (length delayed).
Proof.
  exists (ta_TraceID <$> scanTraces spec services from to spans). split; [apply scanTraces_NoDup|]. split.
  - intros t. rewrite list_elem_of_fmap. split.
    + intros (a & -> & (t0 & rows & -> & Hr & Hne & Hs)%scanTraces_elem). cbn [ta_TraceID aggregate].
      assert (Hx : exists r, r ∈ rows /\ (Gated spec = true -> sp_SpanName r = cs_StartSpanName spec)).
      { destruct (Gated spec); [|destruct rows as [|r ?]; [done|]; exists r; split; [left|done]].
        destruct (proj1 (existsb_elem _ _) (Hs eq_refl)) as (r & Hin & Hn). exists r. split; [done|]. intros _.
        apply bool_decide_eq_true, list_elem_of_singleton in Hn. done. }
      destruct Hx as (r & Hin & Hn). exists r. rewrite Hr in Hin. apply filterb_elem in Hin as [Hin Ht].
      apply filterb_elem in Hin as [Hin Hw]. apply bool_decide_eq_true in Ht. done.
    + intros (r & Hr & Hw & Ht & Hn). set (rows := List.filter (fun r => bool_decide (sp_TraceId r = t)) (List.filter (in_scan services from to) spans)).
      assert (Hin : r ∈ rows) by (apply filterb_elem; split; [by apply filterb_elem|by apply bool_decide_eq_true]).
      exists (aggregate spec t rows). split; [done|]. apply scanTraces_elem. exists t, rows. split; [done|]. split; [done|].
      split; [by intros E; rewrite E in Hin; apply not_elem_of_nil in Hin|]. intros HG. apply existsb_elem. exists r. split; [done|].
      apply bool_decide_eq_true, list_elem_of_singleton. by apply Hn.
  - unfold scanAndBucket. destruct (count_total ((fun a => classify spec a now) <$> scanTraces spec services from to spans) zero_counts) as [H1 H2].
    rewrite H1, H2. cbn. rewrite !length_fmap. lia.
Qed.

(** ** The stage a trace stalls at *)

Lemma first_gap_spec i prev stages seen j st p : length seen = length stages ->
  first_gap i prev stages seen = Some (j, st, p) ->
  exists k, j = i + Z.of_nat k /\ stages !! k = Some st /\ (exists at_, seen !! k = Some (at_, false)) /\
    (forall m, (m < k)%nat -> exists at_, seen !! m = Some (at_, true)) /\
    match k with O => p = prev | S k => seen !! k = Some (p, true) end.
Proof.
  revert i prev stages. induction seen as [|[at_ has] seen IH]; intros i prev [|st0 stages] Hl; try done. cbn. destruct has.
  - intros H. apply IH in H as (k & -> & Hst & Hat & Hb & Hp); [|by injection Hl]. exists (S k). split; [lia|]. split; [done|]. split; [done|].
    split; [intros [|m] Hm; [by exists at_|apply Hb; lia]|]. destruct k; [by subst|done].
  - intros [= <- <- <-]. exists 0%nat. repeat split; [lia|by exists at_|intros; lia].
Qed.

Lemma first_gap_some i prev stages seen : length seen = length stages ->
  (snd <$> last seen) ?? true = false -> exists g, first_gap i prev stages seen = Some g.
Proof.
  revert i prev stages. induction seen as [|[at_ has] seen IH]; intros i prev [|st stages] Hl Hlast; try done. cbn. destruct has; [|by eauto].
  apply IH; [by injection Hl|]. destruct seen; [done|]. exact Hlast.
Qed.

Lemma aggregate_stages spec t rows : length (ta_Stages (aggregate spec t rows)) = length (EffectiveStages spec).
Proof. cbn. by rewrite length_fmap. Qed.

Lemma classify_id spec a now : tc_TraceID (classify spec a now) = ta_TraceID a.
Proof.
  unfold classify. destruct (EffectiveStages spec) as [|st l]; [done|]. case_if; [done|].
  destruct (first_gap 1 _ (st :: l) (ta_Stages a)) as [[[? ?] ?]|]; done.
Qed.

(** A trace is delayed exactly when its last stage has not come and the clock of the first stage that
    has not come has run out. *)
Lemma classify_delayed spec a now : length (ta_Stages a) = length (EffectiveStages spec) ->
  tc_State (classify spec a now) = StateDelayed <->
  (snd <$> last (ta_Stages a)) ?? false = false /\
  exists j st p, first_gap 1 (stageBaseline spec a) (EffectiveStages spec) (ta_Stages a) = Some (j, st, p) /\ overdue now p st = true.
Proof.
  intros Hl. unfold classify. destruct (EffectiveStages spec) as [|st0 stages] eqn:Es.
  - cbn. split; [done|]. intros (_ & j & st & p & H & _). by destruct (ta_Stages a).
  - destruct (_ ?? false) eqn:El; [split; [done|by intros [? _]]|].
    destruct (first_gap _ _ _ _) as [[[j st] p]|]; [|split; [done|by intros (_ & ? & ? & ? & ? & _)]]. cbn. split.
    + destruct (overdue now p st) eqn:E; [|done]. intros _. split; [done|]. by exists j, st, p.
    + intros (_ & j' & st' & p' & [= <- <- <-] & ->). done.
Qed.

(** ** When a stalled trace is seen *)

Section one_trace.
Context (spec : CompletionSpec) (services : list string) (spans : list SpanRow) (t : string) (s : Z).

(** The rows of the trace on the integration's services. *)
Definition trace_rows : list SpanRow :=
  List.filter (fun r => bool_decide (sp_ServiceName r ∈ services) && bool_decide (sp_TraceId r = t)) spans.
Definition whole : traceAgg := aggregate spec t trace_rows.

(** A trace of a rule with a start span, which comes first and once, at [s]. *)
Record gated_trace : Prop := {
  gt_gated : Gated spec = true;
  gt_start : exists r, r ∈ trace_rows /\ sp_SpanName r = cs_StartSpanName spec;
  gt_first : forall r, r ∈ trace_rows -> s <= sp_Timestamp r;
  gt_once : forall r, r ∈ trace_rows -> sp_SpanName r = cs_StartSpanName spec -> sp_Timestamp r = s
}.
Context (Ht : gated_trace).

Lemma scan_rows from to : (forall r, r ∈ trace_rows -> sp_Timestamp r <= to) ->
  List.filter (fun r => bool_decide (sp_TraceId r = t)) (List.filter (in_scan services from to) spans)
  = List.filter (fun r => from <=? sp_Timestamp r) trace_rows.
Proof.
  intros Hto. unfold trace_rows in *. rewrite !filterb_filterb. apply filterb_ext_in. intros r Hr. unfold in_scan.
  destruct (bool_decide (sp_ServiceName r ∈ services)) eqn:E1, (bool_decide (sp_TraceId r = t)) eqn:E2; rewrite ?andb_false_r, ?andb_true_r; try done.
  assert (Hin : r ∈ trace_rows) by (apply filterb_elem; by rewrite E1, E2). apply Hto in Hin. cbn [andb].
  destruct (sp_Timestamp r <=? to) eqn:E3; [by rewrite andb_true_r|lia].
Qed.

Lemma scanned_iff from to a : (forall r, r ∈ trace_rows -> sp_Timestamp r <= to) ->
  (a ∈ scanTraces spec services from to spans /\ ta_TraceID a = t) <-> a = whole /\ from <= s.
Proof.
  intros Hto. rewrite scanTraces_elem. split.
  - intros [(t' & rows & -> & Hr & Hne & Hs) Et]. cbn in Et. subst t'. rewrite scan_rows in Hr by done.
    destruct (proj1 (existsb_elem _ _) (Hs (gt_gated Ht))) as (r & Hin & Hn).
    rewrite Hr in Hin. apply filterb_elem in Hin as [Hin Hf].
    apply bool_decide_eq_true, list_elem_of_singleton in Hn. pose proof (gt_once Ht r Hin Hn) as E.
    assert (from <= s) by lia. split; [|done]. unfold whole. f_equal. rewrite Hr. apply filterb_all.
    intros x Hx. pose proof (gt_first Ht x Hx). lia.
  - intros [-> Hf]. split; [|done]. exists t, trace_rows. split; [done|]. rewrite scan_rows by done.
    split; [symmetry; apply filterb_all; intros x Hx; pose proof (gt_first Ht x Hx); lia|].
    destruct (gt_start Ht) as (r & Hr & Hn). split; [intros E; rewrite E in Hr; by apply not_elem_of_nil in Hr|].
    intros _. apply existsb_elem. exists r. split; [done|]. apply bool_decide_eq_true, list_elem_of_singleton. done.
Qed.

Lemma min_of_const (l : list Z) x : (forall y, y ∈ l -> y = x) -> l <> [] -> min_of l = x.
Proof.
  intros H Hne. destruct l as [|y l]; [done|]. cbn. rewrite (H y) by left.
  assert (Hl : forall z, z ∈ l -> z = x) by (intros; apply H; by right). clear H Hne.
  induction l as [|z l IH]; [done|]. cbn. rewrite (Hl z) by left. rewrite Z.min_id. apply IH. intros; apply Hl. by right.
Qed.
Lemma whole_base : stageBaseline spec whole = s.
Proof.
  unfold stageBaseline. rewrite (gt_gated Ht). cbn. unfold minIf. apply min_of_const.
  - intros y (r & -> & [Hr Hn]%filterb_elem)%list_elem_of_fmap. apply (gt_once Ht); [done|].
    by apply bool_decide_eq_true, list_elem_of_singleton in Hn.
  - destruct (gt_start Ht) as (r & Hr & Hn). intros E%fmap_nil_inv.
    assert (Hin : r ∈ List.filter (is_named [cs_StartSpanName spec]) trace_rows).
    { apply filterb_elem. split; [done|]. apply bool_decide_eq_true, list_elem_of_singleton. done. }
    rewrite E in Hin. by apply not_elem_of_nil in Hin.
Qed.

Context (j : Z) (st : Stage) (p : Z).
(** It stalls at stage [j], whose clock runs from [p]. *)
Hypothesis (Hlast : (snd <$> last (ta_Stages whole)) ?? false = false).
Hypothesis (Hgap : first_gap 1 s (EffectiveStages spec) (ta_Stages whole) = Some (j, st, p)).
Hypothesis (Hp : p <> zero_time).

Lemma stall_reported now : (forall r, r ∈ trace_rows -> sp_Timestamp r <= now) ->
  (exists c, c ∈ (tick_scan spec services now spans).1 /\ tc_TraceID c = t) <->
  p + st_TimeoutSeconds st * sec <= now <= s + lookback spec.
Proof.
  intros Hnow. unfold tick_scan, scanAndBucket. cbn [fst].
  assert (Hd : is_delayed (classify spec whole now) = true <-> p + st_TimeoutSeconds st * sec <= now).
  { unfold is_delayed. rewrite bool_decide_eq_true, classify_delayed by apply aggregate_stages. rewrite whole_base. split.
    - intros (_ & j' & st' & p' & E & Ho). rewrite Hgap in E. injection E as <- <- <-. unfold overdue in Ho. lia.
    - intros Hn. split; [done|]. exists j, st, p. split; [done|]. unfold overdue. destruct (p =? zero_time) eqn:?; lia. }
  assert (Hid := fun a => classify_id spec a now).
  split.
  - intros (c & [(a & -> & Ha)%list_elem_of_fmap Hdel]%filterb_elem & Et). rewrite Hid in Et.
    destruct (proj1 (scanned_iff _ now a Hnow) (conj Ha Et)) as [-> Hf]. apply Hd in Hdel. lia.
  - intros [H1 H2]. exists (classify spec whole now). split; [|by rewrite Hid]. apply filterb_elem. split; [|by apply Hd].
    apply list_elem_of_fmap. exists whole. split; [done|]. apply (scanned_iff (now - lookback spec) now whole Hnow). split; [done|]. lia.
Qed.
End one_trace.

(** C5. A trace stalled at a stage is reported by a tick exactly while the stage's time is up and the
    start span is still inside the lookback. *)
Theorem stall_seen_iff spec services spans t s j st p now : gated_trace spec services spans t s ->
  (snd <$> last (ta_Stages (whole spec services spans t))) ?? false = false ->
  first_gap 1 s (EffectiveStages spec) (ta_Stages (whole spec services spans t)) = Some (j, st, p) -> p <> zero_time ->
  (forall r, r ∈ trace_rows services spans t -> sp_Timestamp r <= now) ->
  (exists c, c ∈ (tick_scan spec services now spans).1 /\ tc_TraceID c = t) <->
  p + st_TimeoutSeconds st * sec <= now <= s + lookback spec.
Proof. intros. by eapply stall_reported. Qed.

(** The stages that came before the stalled one came in time. *)
Fixpoint on_time (prev : Z) (stages : list Stage) (seen : list (Z * bool)) : Prop :=
  match stages, seen with
  | st :: stages, (at_, has) :: seen => if has then at_ <= prev + st_TimeoutSeconds st * sec /\ on_time at_ stages seen else True
  | _, _ => True
  end.

Lemma on_time_deadline M i prev stages seen j st p : 0 <= M ->
  Forall (fun st => st_TimeoutSeconds st <= M) stages -> on_time prev stages seen ->
  first_gap i prev stages seen = Some (j, st, p) ->
  p + st_TimeoutSeconds st * sec <= prev + Z.of_nat (length stages) * M * sec.
Proof.
  intros HM. revert i prev seen. induction stages as [|st0 stages IH]; intros i prev [|[at_ has] seen] HF Hon Hg; try done.
  apply Forall_cons in HF as [H0 HF]. cbn [first_gap on_time length] in *. unfold sec in *. destruct has.
  - destruct Hon as [Ha Hon]. specialize (IH _ _ _ HF Hon Hg). nia.
  - injection Hg as _ <- <-. nia.
Qed.

(** C19. When the lookback is as long as the whole pipeline may take, a run that was in time up to the
    stage it stalls at is reported as soon as that stage's time is up.  Of a run that was late at an
    earlier stage, the later stall may leave the lookback unreported. *)
Theorem short_pipelines_are_watched spec services spans t s j st p : gated_trace spec services spans t s ->
  Z.of_nat (length (EffectiveStages spec)) * maxStageTimeout spec <= cs_LookbackSeconds spec ->
  on_time s (EffectiveStages spec) (ta_Stages (whole spec services spans t)) ->
  (snd <$> last (ta_Stages (whole spec services spans t))) ?? false = false ->
  first_gap 1 s (EffectiveStages spec) (ta_Stages (whole spec services spans t)) = Some (j, st, p) -> p <> zero_time ->
  let deadline := p + st_TimeoutSeconds st * sec in
  (forall r, r ∈ trace_rows services spans t -> sp_Timestamp r <= deadline) ->
  exists c, c ∈ (tick_scan spec services deadline spans).1 /\ tc_TraceID c = t.
Proof.
  intros Ht HL Hon Hlast Hg Hp deadline Hr. apply (stall_reported spec services spans t s Ht j st p Hlast Hg Hp deadline Hr).
  split; [done|]. assert (HM : 0 <= maxStageTimeout spec) by apply fold_max_ge.
  assert (HF : Forall (fun st => st_TimeoutSeconds st <= maxStageTimeout spec) (EffectiveStages spec)).
  { apply Forall_forall. intros x Hx. apply fold_max_elem. apply list_elem_of_fmap. by exists x. }
  pose proof (on_time_deadline _ _ _ _ _ _ _ _ HM HF Hon Hg). subst deadline. unfold lookback, sec in *. nia.
Qed.

(** A pipeline of five hops of an hour each, as the form saves it: four times an hour of lookback. *)
Definition hop (name : string) : StageDraft := {| sd_spans := name; sd_inherit := true; sd_timeoutN := 5; sd_timeoutUnit := minutes |}.
Definition hourly (names : list string) : Form := {|
  fm_name := "Nightly run"; fm_description := ""; fm_severity := "critical"; fm_enabled := true; fm_startSpan := "Start";
  fm_stages := hop <$> names; fm_defTimeoutN := 1; fm_defTimeoutUnit := hours; fm_channelIDs := ["c1"] |}.
Definition five_hops : Form := hourly ["extract"; "map"; "check"; "load"; "report"].
Definition saved_spec (f : Form) : CompletionSpec :=
  match submit f with inr body => parseTraceCompletionInput body | inl _ => parseTraceCompletionInput
    {| ti_name := ""; ti_description := ""; ti_severity := ""; ti_enabled := false; ti_start_span_name := None; ti_stages := None;
       ti_default_timeout_seconds := None; ti_closing_span_names := None; ti_timeout_seconds := None;
       ti_lookback_seconds := None; ti_channel_ids := [] |} end.
Definition at_min (name : string) (m : Z) : SpanRow := {|
  sp_TraceId := "a1"; sp_SpanName := name; sp_ServiceName := "etl"; sp_Timestamp := 1700000000 * sec + m * 60 * sec |}.
(** The report never comes; all hops before it came in time. *)
Definition slow_run : list SpanRow :=
  [at_min "Start" 0; at_min "extract" 55; at_min "map" 112; at_min "check" 170; at_min "load" 229].

Lemma at_min_gated spec rest t0 : cs_StartSpanName spec = "Start" -> Gated spec = true -> t0 = 1700000000 * sec ->
  (forall r, r ∈ rest -> sp_ServiceName r = "etl" /\ sp_TraceId r = "a1" /\ sp_SpanName r <> "Start" /\ t0 <= sp_Timestamp r) ->
  gated_trace spec ["etl"] (at_min "Start" 0 :: rest) "a1" t0.
Proof.
  intros Hn HG -> Hrest.
  assert (Hr : trace_rows ["etl"] (at_min "Start" 0 :: rest) "a1" = at_min "Start" 0 :: rest).
  { apply filterb_all. intros r [->|Hr]%elem_of_cons; [by compute|]. destruct (Hrest r Hr) as (H1 & H2 & _).
    rewrite H1, H2. by compute. }
  split; [done|exists (at_min "Start" 0); rewrite Hr, Hn; split; [left|done]| |]; rewrite Hr.
  - intros r [->|H]%elem_of_cons; [by compute|]. by destruct (Hrest r H) as (_ & _ & _ & ?).
  - intros r [->|H]%elem_of_cons; [by compute|]. destruct (Hrest r H) as (_ & _ & H3 & _). rewrite Hn. done.
Qed.
Ltac each_row := intros ?; rewrite ?elem_of_cons; intros Hrow;
  repeat (destruct Hrow as [->|Hrow]; [by vm_compute|]); by apply not_elem_of_nil in Hrow.

Lemma slow_run_gated : gated_trace (saved_spec five_hops) ["etl"] slow_run "a1" (1700000000 * sec).
Proof. apply at_min_gated; [by_compute|by_compute|done|each_row]. Qed.

(** The lookback of twice the longest timeout, or the four times the form sends, does not give every
    hop the time to breach: a valid rule of five hops never reports a run that stalls at the last one
    after using most of its time on the others. *)
Theorem five_hops_unwatched now :
  Validate (saved_spec five_hops) = inr tt /\
  on_time (1700000000 * sec) (EffectiveStages (saved_spec five_hops)) (ta_Stages (whole (saved_spec five_hops) ["etl"] slow_run "a1")) /\
  ((forall r, r ∈ slow_run -> sp_Timestamp r <= now) ->
   ~ exists c, c ∈ (tick_scan (saved_spec five_hops) ["etl"] now slow_run).1 /\ tc_TraceID c = "a1").
Proof.
  split; [by_compute|]. split; [by vm_compute|]. intros Hnow.
  rewrite (stall_reported (saved_spec five_hops) ["etl"] slow_run "a1" (1700000000 * sec) slow_run_gated 5
    {| st_SpanNames := ["report"]; st_TimeoutSeconds := 3600 |} (1700000000 * sec + 229 * 60 * sec)); [|by_compute|by_compute|done|].
  - change (lookback (saved_spec five_hops)) with (14400 * sec). cbn [st_TimeoutSeconds]. unfold sec. lia.
  - intros r Hr. apply Hnow. by apply filterb_elem in Hr as [? _].
Qed.

Lemma stall_seen_iff_witness : exists c, c ∈ (tick_scan (saved_spec (hourly ["extract"])) ["etl"] (1700000000 * sec + 3600 * sec) [at_min "Start" 0]).1 /\ tc_TraceID c = "a1".
Proof.
  apply (stall_seen_iff (saved_spec (hourly ["extract"])) ["etl"] [at_min "Start" 0] "a1" (1700000000 * sec) 1
    {| st_SpanNames := ["extract"]; st_TimeoutSeconds := 3600 |} (1700000000 * sec)).
  - apply at_min_gated; [by_compute|by_compute|done|each_row].
  - by_compute.
  - by_compute.
  - done.
  - intros r [Hr _]%filterb_elem. revert r Hr. each_row.
  - change (lookback (saved_spec (hourly ["extract"]))) with (14400 * sec). cbn [st_TimeoutSeconds]. unfold sec. lia.
Defined.

Lemma short_pipelines_are_watched_witness : exists c,
  c ∈ (tick_scan (saved_spec (hourly ["extract"; "load"])) ["etl"] (1700000000 * sec + 50 * 60 * sec + 3600 * sec) [at_min "Start" 0; at_min "extract" 50]).1 /\
  tc_TraceID c = "a1".
Proof.
  apply (short_pipelines_are_watched (saved_spec (hourly ["extract"; "load"])) ["etl"] [at_min "Start" 0; at_min "extract" 50] "a1"
    (1700000000 * sec) 2 {| st_SpanNames := ["load"]; st_TimeoutSeconds := 3600 |} (1700000000 * sec + 50 * 60 * sec)).
  - apply at_min_gated; [by_compute|by_compute|done|each_row].
  - by vm_compute.
  - by vm_compute.
  - by_compute.
  - by_compute.
  - done.
  - intros r [Hr _]%filterb_elem. revert r Hr. each_row.
Defined.

(** ** The table of firings *)

(** A row of alert_instances, of a completion rule or, when [in_alert], of a rule of the
    alert engine, which keeps its firings in the same table.  Labels and summary are left
    out: nothing here reads them but the environment, an argument below. *)
Record Instance := {
  in_id : nat; in_rule : string; in_fp : string; in_alert : bool; in_started : Z; in_firing : bool; in_handled : bool;
  in_suppressed : option string; in_notified : option Z; in_evaluated : Z
}.
(** A row of notification_jobs: an instance to send to a channel.  Who queued it is not
    a column: the evaluator, the engine for a rule of its own, or its loop of
    re-notification, for one firing or for the stream of an integration. *)
Inductive Sender := ByEvaluator | ByEngine | ByRenotify | ByStream.
Record Job := { jb_instance : nat; jb_channel : string; jb_by : Sender }.
Record World := { w_spans : list SpanRow; w_instances : list Instance; w_jobs : list Job }.

Definition on_instance (id : nat) (f : Instance -> Instance) (w : World) : World := {|
  w_spans := w_spans w; w_jobs := w_jobs w;
  w_instances := (fun i => if bool_decide (in_id i = id) then f i else i) <$> w_instances w |}.
Definition marked (firing handled : bool) (suppressed : option string) (notified : option Z) (evaluated : Z) (i : Instance) : Instance := {|
  in_id := in_id i; in_rule := in_rule i; in_fp := in_fp i; in_alert := in_alert i; in_started := in_started i;
  in_firing := firing; in_handled := handled; in_suppressed := suppressed; in_notified := notified; in_evaluated := evaluated |}.
Definition touched (now : Z) (i : Instance) : Instance := marked (in_firing i) (in_handled i) (in_suppressed i) (in_notified i) now i.
Definition resolved (now : Z) (i : Instance) : Instance := marked false (in_handled i) (in_suppressed i) (in_notified i) now i.
(** The guards of the update in [HandleFiring]. *)
Definition handled (i : Instance) : Instance :=
  marked (in_firing i) (in_firing i || in_handled i) (in_suppressed i) (in_notified i) (in_evaluated i) i.
Definition resolved_manually (now : Z) (i : Instance) : Instance :=
  if in_firing i then marked false true (in_suppressed i) (in_notified i) now i else i.
Definition suppressed (window : string) (i : Instance) : Instance :=
  marked (in_firing i) (in_handled i) (match in_suppressed i with None => Some window | o => o end) (in_notified i) (in_evaluated i) i.
Definition notified (now : Z) (i : Instance) : Instance :=
  marked (in_firing i) (in_handled i) (in_suppressed i) (Some now) (in_evaluated i) i.
Definition opened (alert : bool) (id : nat) (now : Z) (rule fp : string) : Instance := {|
  in_id := id; in_rule := rule; in_fp := fp; in_alert := alert; in_started := now; in_firing := true; in_handled := false;
  in_suppressed := None; in_notified := None; in_evaluated := now |}.

Definition is_open (rule : string) (i : Instance) : bool := in_firing i && (in_rule i =s rule).
Definition ActiveInstanceByFingerprint (rule fp : string) (w : World) : option Instance :=
  last (List.filter (fun i => is_open rule i && (in_fp i =s fp)) (w_instances w)).
Definition TouchInstance (now : Z) (i : Instance) (w : World) : World := on_instance (in_id i) (touched now) w.
Definition ResolveInstance (now : Z) (i : Instance) (w : World) : World := on_instance (in_id i) (resolved now) w.
Definition MarkInstanceSuppressed (id : nat) (window : string) (w : World) : World := on_instance id (suppressed window) w.
Definition MarkInstanceNotified (now : Z) (id : nat) (w : World) : World := on_instance id (notified now) w.
Definition OpenInstance (alert : bool) (now : Z) (rule fp : string) (w : World) : nat * World :=
  let id := length (w_instances w) in
  (id, {| w_spans := w_spans w; w_jobs := w_jobs w; w_instances := w_instances w ++ [opened alert id now rule fp] |}).
Definition EnqueueJobs (by_ : Sender) (id : nat) (channels : list string) (w : World) : World := {|
  w_spans := w_spans w; w_instances := w_instances w;
  w_jobs := w_jobs w ++ ((fun c => {| jb_instance := id; jb_channel := c; jb_by := by_ |}) <$> dedupe channels) |}.
Definition OpenFirings (rule : string) (w : World) : list string := in_fp <$> List.filter (is_open rule) (w_instances w).

(** ** The tick *)

Section evaluator.
(** [catalog.IntegrationServices] of the rule's integration, and the maintenance window that covers it. *)
Context (services : CompletionRule -> list string) (window : CompletionRule -> Z -> option string).

Definition fireDelayed (now : Z) (rule : CompletionRule) (suppress : option string) (w : World) (c : TraceClassification) : World :=
  let fp := stageFingerprint (tc_TraceID c) (tc_DelayedStage c) in
  match ActiveInstanceByFingerprint (cr_ID rule) fp w with
  | Some active => TouchInstance now active w
  | None =>
      let '(id, w) := OpenInstance false now (cr_ID rule) fp w in
      match suppress with
      | Some win => MarkInstanceSuppressed id win w
      | None => if bool_decide (cr_ChannelIDs rule = []) then w else EnqueueJobs ByEvaluator id (cr_ChannelIDs rule) w
      end
  end.
Definition evaluateRule (now : Z) (w : World) (rule : CompletionRule) : World :=
  match Validate (cr_Spec rule) with
  | inl _ => w
  | inr _ => if bool_decide (services rule = []) then w
             else foldl (fireDelayed now rule (window rule now)) w (tick_scan (cr_Spec rule) (services rule) now (w_spans w)).1
  end.

(** [findClosedTraces]: a span of the stage anywhere in the table, of any service and time. *)
Definition closed (names : list string) (t : string) (spans : list SpanRow) : bool :=
  existsb (fun r => is_named names r && (sp_TraceId r =s t)) spans.
(** The stage a firing stands for; a bare fingerprint stands for the last one. *)
Definition firing_stage (spec : CompletionSpec) (fp : string) : option Stage :=
  let stages := EffectiveStages spec in
  let k := (parseFingerprint fp).2 in
  let k := if k =? 0 then Z.of_nat (length stages) else k in
  if k <? 1 then None else stages !! Z.to_nat (k - 1).
Definition delivered (rule : CompletionRule) (fp : string) (spans : list SpanRow) : bool :=
  match firing_stage (cr_Spec rule) fp with
  | Some st => closed (st_SpanNames st) (parseFingerprint fp).1 spans
  | None => false
  end.
Definition resolveStageFiring (now : Z) (rule : CompletionRule) (w : World) (fp : string) : World :=
  if delivered rule fp (w_spans w) then
    match ActiveInstanceByFingerprint (cr_ID rule) fp w with Some active => ResolveInstance now active w | None => w end
  else w.
(** One rule of [sweepStaleFirings]; the order of its stages, that of a Go map, plays no role. *)
Definition sweepRule (now : Z) (w : World) (rule : CompletionRule) : World :=
  foldl (resolveStageFiring now rule) w (OpenFirings (cr_ID rule) w).

(** A tick over the enabled rules. *)
Definition EvaluateOnce (rules : list CompletionRule) (now : Z) (w : World) : World :=
  foldl (sweepRule now) (foldl (evaluateRule now) w rules) rules.

(** *** The engine's loop of re-notification

    [renotifyOnce] of internal/alerting/engine.go, over the open firings nobody has
    handled.  What it looks up for a firing: the window that covers its rule, the
    integration, the environment, and the grouping, the interval in minutes and the
    channels its profile gives; nothing when the rule cannot be read. *)
Record Routed := {
  rt_window : option string; rt_integration : option string; rt_environment : string; rt_grouping : string; rt_renotify : Z;
  rt_channels : list string
}.
Definition FiringUnackedInstances (w : World) : list Instance := List.filter (fun i => in_firing i && negb (in_handled i)) (w_instances w).
Definition int64 (n : Z) : Z := (n + 2 ^ 63) mod 2 ^ 64 - 2 ^ 63.
Definition due (now : Z) (last_ : option Z) (renotify : Z) : bool :=
  match last_ with
  | None => true
  | Some t => negb (renotify <=? 0) && (int64 (renotify * 60 * sec) <=? now - t)
  end.
Definition renotifyInstance (by_ : Sender) (now : Z) (it : Instance * Routed) (w : World) : World :=
  MarkInstanceNotified now (in_id it.1) (EnqueueJobs by_ (in_id it.1) (rt_channels it.2) w).
(** A firing under the window is stamped unless it was told of or stamped before. *)
Definition stamp (win : string) (w : World) (it : Instance * Routed) : World :=
  if is_none (in_notified it.1) && is_none (in_suppressed it.1) then MarkInstanceSuppressed (in_id it.1) win w else w.
Definition renotify_check (now : Z) (w : World) (it : Instance * Routed) : World :=
  match rt_window it.2, in_notified it.1 with
  | Some win, _ => stamp win w it
  | None, None => if is_none (in_suppressed it.1) then w else renotifyInstance ByRenotify now it w
  | None, Some _ => if rt_renotify it.2 <=? 0 then w
                    else if due now (in_notified it.1) (rt_renotify it.2) then renotifyInstance ByRenotify now it w else w
  end.
(** The firing of a stream that started first. *)
Definition representative (it : Instance * Routed) (items : list (Instance * Routed)) : Instance * Routed :=
  foldl (fun rep it => if in_started it.1 <? in_started rep.1 then it else rep) it items.
Definition renotify_stream (now : Z) (w : World) (items : list (Instance * Routed)) : World :=
  match items with
  | [] => w
  | it :: rest =>
      let rep := representative it rest in
      match rt_window rep.2 with
      | Some win => foldl (stamp win) w items
      | None => if due now (in_notified rep.1) (rt_renotify rep.2) then renotifyInstance ByStream now rep w else w
      end
  end.
Definition grouped (r : Routed) : bool := (rt_grouping r =s "per_integration") && negb (is_none (rt_integration r)).
Definition stream_of (it : Instance * Routed) : string * string := (rt_integration it.2 ?? "", rt_environment it.2).
(** The order of the streams, that of a Go map, plays no role. *)
Definition renotifyOnce (routes : Instance -> option Routed) (now : Z) (w : World) : World :=
  let items := omap (fun i => pair i <$> routes i) (FiringUnackedInstances w) in
  foldl (renotify_stream now)
    (foldl (renotify_check now) w (List.filter (fun it => negb (grouped it.2)) items))
    (snd <$> group_by stream_of (List.filter (fun it => grouped it.2) items)).

(** *** Rules of the engine

    A rule of another kind breaches: it is told of at once, or left to the loop above
    when its profile groups by integration, or muted.  Recovering, it may be told of
    again. *)
Definition alert_fires (now : Z) (rule fp : string) (mute : option string) (channels : option (list string)) (w : World) : World :=
  match ActiveInstanceByFingerprint rule fp w with
  | Some active => TouchInstance now active w
  | None =>
      let '(id, w) := OpenInstance true now rule fp w in
      match mute, channels with
      | Some win, _ => MarkInstanceSuppressed id win w
      | None, Some channels => MarkInstanceNotified now id (EnqueueJobs ByEngine id channels w)
      | None, None => w
      end
  end.
Definition alert_recovers (now : Z) (id : nat) (channels : list string) (w : World) : World :=
  match w_instances w !! id with
  | Some i => if in_alert i && in_firing i then EnqueueJobs ByEngine id channels (ResolveInstance now i w) else w
  | None => w
  end.

(** What happens to the tables: a span arrives, the evaluator ticks, an operator handles or resolves
    a firing, the engine re-notifies, a rule of its own breaches or recovers.  The deletion of a rule,
    which takes its firings with it, is left out. *)
Inductive Event :=
| Arrive (r : SpanRow) | Tick (rules : list CompletionRule) (now : Z) | Handle (id : nat) | ResolveManual (now : Z) (id : nat)
| Renotify (routes : Instance -> option Routed) (now : Z)
| AlertFires (now : Z) (rule fp : string) (mute : option string) (channels : option (list string))
| AlertRecovers (now : Z) (id : nat) (channels : list string).
Definition happen (w : World) (e : Event) : World :=
  match e with
  | Arrive r => {| w_spans := w_spans w ++ [r]; w_instances := w_instances w; w_jobs := w_jobs w |}
  | Tick rules now => EvaluateOnce rules now w
  | Handle id => on_instance id handled w
  | ResolveManual now id => on_instance id (resolved_manually now) w
  | Renotify routes now => renotifyOnce routes now w
  | AlertFires now rule fp mute channels => alert_fires now rule fp mute channels w
  | AlertRecovers now id channels => alert_recovers now id channels w
  end.
(** The rules whose firings may be grouped by integration. *)
Definition allowed (streams : string -> bool) (e : Event) : Prop :=
  match e with
  | Renotify routes _ => forall i r, routes i = Some r -> grouped r = true -> streams (in_rule i) = true
  | _ => True
  end.
Definition empty_world : World := {| w_spans := []; w_instances := []; w_jobs := [] |}.
Inductive reachable (streams : string -> bool) : World -> Prop :=
  | r_empty : reachable streams empty_world
  | r_step w e : reachable streams w -> allowed streams e -> reachable streams (happen w e).

(** ** One firing per delay, one page per firing *)

Definition key (i : Instance) : string * string := (in_rule i, in_fp i).
Definition open_keys (l : list Instance) : list (string * string) := key <$> List.filter in_firing l.
Definition by_evaluator (j : Job) : bool := match jb_by j with ByEvaluator => true | _ => false end.
Definition evaluator_pages (w : World) : list (nat * string) := (fun j => (jb_instance j, jb_channel j)) <$> List.filter by_evaluator (w_jobs w).
(** A firing of a completion rule that is not grouped and that no window muted. *)
Definition plain (streams : string -> bool) (i : Instance) : Prop :=
  in_alert i = false /\ in_suppressed i = None /\ streams (in_rule i) = false.

Section invariant.
Context (streams : string -> bool).
Record Inv (w : World) : Prop := {
  inv_ids : forall k i, w_instances w !! k = Some i -> in_id i = k;
  inv_open : NoDup (open_keys (w_instances w));
  inv_jobs : NoDup (evaluator_pages w);
  inv_job_ids : forall j, j ∈ w_jobs w -> (jb_instance j < length (w_instances w))%nat;
  inv_plain : forall i, i ∈ w_instances w -> plain streams i ->
    in_notified i = None /\ forall j, j ∈ w_jobs w -> jb_instance j = in_id i -> jb_by j = ByEvaluator
}.

(** A change of one instance that keeps its identity, opens nothing and tells nobody. *)
Definition tame (f : Instance -> Instance) : Prop :=
  forall i, in_id (f i) = in_id i /\ key (f i) = key i /\ (in_firing (f i) = true -> in_firing i = true) /\
    in_alert (f i) = in_alert i /\ (in_suppressed (f i) = None -> in_suppressed i = None) /\ in_notified (f i) = in_notified i.

Lemma tame_open f l : tame f -> open_keys (f <$> l) `sublist_of` open_keys l.
Proof.
  intros Hf. unfold open_keys. induction l as [|i l IH]; [done|]. destruct (Hf i) as (_ & Hk & Hi & _). rewrite fmap_cons. cbn [List.filter].
  destruct (in_firing (f i)).
  - rewrite (Hi eq_refl), !fmap_cons, Hk. by constructor.
  - destruct (in_firing i); [rewrite fmap_cons; by constructor|done].
Qed.
Lemma on_instance_inv id f w : tame f -> Inv w -> Inv (on_instance id f w).
Proof.
  intros Hf [H1 H2 H3 H4 H5]. set (g := fun i => if bool_decide (in_id i = id) then f i else i).
  assert (Hg : tame g) by (intros i; subst g; cbn; destruct (bool_decide _); [apply Hf|done]).
  split; cbn [on_instance w_instances w_jobs]; [| |done| |].
  - intros k i. rewrite list_lookup_fmap. intros (j & Hj & ->)%fmap_Some. destruct (Hg j) as [E _]. change (in_id (g j) = k). rewrite E. by apply H1.
  - eapply sublist_NoDup; [done|by apply (tame_open g)].
  - intros j Hj. rewrite length_fmap. by apply H4.
  - intros i (i0 & -> & Hi)%list_elem_of_fmap (P1 & P2 & P3). destruct (Hg i0) as (E1 & E2 & _ & E3 & E4 & E5).
    change (in_notified (g i0) = None /\ forall j, j ∈ w_jobs w -> jb_instance j = in_id (g i0) -> jb_by j = ByEvaluator).
    change (in_alert (g i0) = false) in P1. change (in_suppressed (g i0) = None) in P2. change (streams (in_rule (g i0)) = false) in P3.
    unfold key in E2. injection E2 as E2 _. rewrite E1, E5. apply H5; [done|]. split; [congruence|]. split; [by apply E4|congruence].
Qed.
Lemma tame_touched now : tame (touched now). Proof. by intros i. Qed.
Lemma tame_resolved now : tame (resolved now). Proof. by intros i. Qed.
Lemma tame_handled : tame handled. Proof. by intros i. Qed.
Lemma tame_suppressed win : tame (suppressed win). Proof. intros i. split_and!; try done. cbn. by destruct (in_suppressed i). Qed.
Lemma tame_manual now : tame (resolved_manually now). Proof. intros i. unfold resolved_manually. destruct (in_firing i) eqn:E; split_and!; try done; cbn; congruence. Qed.
#[local] Hint Resolve on_instance_inv tame_touched tame_resolved tame_handled tame_suppressed tame_manual : slu.

Lemma active_None rule fp w : ActiveInstanceByFingerprint rule fp w = None -> (rule, fp) ∉ open_keys (w_instances w).
Proof.
  unfold ActiveInstanceByFingerprint. intros H%last_None. intros (i & E & [Hi Hf]%filterb_elem)%list_elem_of_fmap. injection E as -> ->.
  assert (Hin : i ∈ List.filter (fun j => is_open (in_rule i) j && (in_fp j =s in_fp i)) (w_instances w)).
  { apply filterb_elem. split; [done|]. unfold is_open. by rewrite Hf, !String.eqb_refl. }
  rewrite H in Hin. by apply not_elem_of_nil in Hin.
Qed.

Lemma open_inv alert now rule fp w : Inv w -> ActiveInstanceByFingerprint rule fp w = None -> Inv (OpenInstance alert now rule fp w).2.
Proof.
  intros [H1 H2 H3 H4 H5] Ha%active_None. split; cbn [OpenInstance snd w_instances w_jobs]; [| |done| |].
  - intros k i. rewrite lookup_app_Some. intros [?|[Hge [Hz <-]%list_lookup_singleton_Some]]; [by apply H1|]. cbn. lia.
  - unfold open_keys in *. rewrite List.filter_app, fmap_app. cbn. apply NoDup_app. split; [done|]. split; [|apply NoDup_singleton].
    intros x Hx ->%list_elem_of_singleton. done.
  - intros j Hj. rewrite length_app. specialize (H4 j Hj). lia.
  - intros i [Hi| ->%list_elem_of_singleton]%elem_of_app Hp; [by apply H5|]. split; [done|]. intros j Hj E. specialize (H4 j Hj). cbn in E. lia.
Qed.

(** Jobs of the evaluator for a firing that has none. *)
Lemma enqueue_inv id chs w : Inv w -> (id < length (w_instances w))%nat -> (forall j, j ∈ w_jobs w -> jb_instance j <> id) -> Inv (EnqueueJobs ByEvaluator id chs w).
Proof.
  intros [H1 H2 H3 H4 H5] Hid Hfresh. split; cbn [EnqueueJobs w_instances w_jobs]; [done|done| | |].
  - unfold evaluator_pages in *. cbn [EnqueueJobs w_jobs]. rewrite List.filter_app, fmap_app.
    rewrite (filterb_all by_evaluator (_ <$> dedupe chs)) by (by intros j (c & -> & _)%list_elem_of_fmap). apply NoDup_app. split; [done|]. split.
    + intros x (j & -> & [Hj _]%filterb_elem)%list_elem_of_fmap (j' & E & (c & -> & _)%list_elem_of_fmap)%list_elem_of_fmap.
      cbn in E. injection E as E _. by apply (Hfresh j Hj).
    + rewrite <- list_fmap_compose. apply NoDup_fmap_2; [by intros ? ? [= ->]|]. by apply dedupe_from_spec.
  - intros j [Hj|(c & -> & _)%list_elem_of_fmap]%elem_of_app; [by apply H4|done].
  - intros i Hi Hp. destruct (H5 i Hi Hp) as [E Hj]. split; [done|]. intros j [?|(c & -> & _)%list_elem_of_fmap]%elem_of_app; [by apply Hj|done].
Qed.
(** Jobs of the engine for a firing that is not plain, which may be stamped. *)
Lemma told_inv by_ id chs w f : by_ <> ByEvaluator -> Inv w -> (forall i, w_instances w !! id = Some i -> ~ plain streams i) ->
  (id < length (w_instances w))%nat ->
  (forall i, in_id (f i) = in_id i /\ key (f i) = key i /\ in_firing (f i) = in_firing i /\ in_alert (f i) = in_alert i /\ in_suppressed (f i) = in_suppressed i) ->
  Inv (on_instance id f (EnqueueJobs by_ id chs w)).
Proof.
  intros Hby [H1 H2 H3 H4 H5] Hnp Hid Hf. set (g := fun i => if bool_decide (in_id i = id) then f i else i).
  assert (Hg : forall i, in_id (g i) = in_id i /\ key (g i) = key i /\ in_firing (g i) = in_firing i /\ in_alert (g i) = in_alert i /\ in_suppressed (g i) = in_suppressed i)
    by (intros i; subst g; cbn; destruct (bool_decide _); [apply Hf|done]).
  split; cbn [on_instance EnqueueJobs w_instances w_jobs].
  - intros k i. rewrite list_lookup_fmap. intros (j & Hj & ->)%fmap_Some. destruct (Hg j) as [E _]. change (in_id (g j) = k). rewrite E. by apply H1.
  - change (NoDup (open_keys (g <$> w_instances w))). assert (E : open_keys (g <$> w_instances w) = open_keys (w_instances w)); [|by rewrite E].
    unfold open_keys. clear -Hg. induction (w_instances w) as [|i l IH]; [done|]. rewrite fmap_cons. cbn [List.filter]. destruct (Hg i) as (_ & Ek & -> & _).
    destruct (in_firing i); [|done]. rewrite !fmap_cons, Ek. by f_equal.
  - unfold evaluator_pages in *. cbn [on_instance EnqueueJobs w_jobs]. rewrite List.filter_app.
    rewrite (filterb_none by_evaluator (_ <$> dedupe chs)); [by rewrite app_nil_r|]. intros j (c & -> & _)%list_elem_of_fmap. by destruct by_.
  - intros j. rewrite length_fmap. intros [Hj|(c & -> & _)%list_elem_of_fmap]%elem_of_app; [by apply H4|done].
  - intros i (i0 & -> & Hi)%list_elem_of_fmap. change (plain streams (g i0) -> in_notified (g i0) = None /\
      forall j, j ∈ w_jobs w ++ ((fun c => {| jb_instance := id; jb_channel := c; jb_by := by_ |}) <$> dedupe chs) -> jb_instance j = in_id (g i0) -> jb_by j = ByEvaluator).
    destruct (Hg i0) as (E1 & E2 & _ & E3 & E4). intros (P1 & P2 & P3). unfold key in E2. injection E2 as E2 _.
    assert (Hp : plain streams i0) by (split; [congruence|split; congruence]). pose proof (H5 i0 Hi Hp) as [Hn Hj].
    apply list_elem_of_lookup in Hi as [n Hi]. pose proof (H1 n i0 Hi) as En.
    assert (Hne : in_id i0 <> id) by (intros E; apply (Hnp i0); [congruence|done]).
    split; [subst g; cbn; by rewrite bool_decide_false|]. rewrite E1. intros j [?|(c & -> & _)%list_elem_of_fmap]%elem_of_app; [by apply Hj|]. cbn. intros E. congruence.
Qed.

Lemma fire_inv now rule sup w c : Inv w -> Inv (fireDelayed now rule sup w c).
Proof.
  intros Hw. unfold fireDelayed, TouchInstance. destruct (ActiveInstanceByFingerprint _ _ w) as [i|] eqn:Ha; [auto with slu|].
  pose proof (open_inv false now _ _ w Hw Ha) as Ho. cbn [OpenInstance]. unfold MarkInstanceSuppressed. destruct sup; [apply on_instance_inv; auto with slu|].
  case_bool_decide; [done|]. apply enqueue_inv; [done| |].
  - cbn. rewrite length_app. cbn. lia.
  - intros j Hj%(inv_job_ids w Hw). lia.
Qed.
Lemma foldl_inv {A} (f : World -> A -> World) l w : (forall w x, Inv w -> Inv (f w x)) -> Inv w -> Inv (foldl f w l).
Proof. intros Hf. revert w. induction l as [|x l IH]; intros w Hw; [done|]. cbn. by apply IH, Hf. Qed.
Lemma evaluate_inv now rules w : Inv w -> Inv (foldl (evaluateRule now) w rules).
Proof.
  intros Hw. apply foldl_inv; [|done]. clear w Hw. intros w rule Hw. unfold evaluateRule. destruct (Validate _); [done|].
  case_bool_decide; [done|]. apply foldl_inv; [|done]. intros; by apply fire_inv.
Qed.
Lemma resolve_inv now rule w fp : Inv w -> Inv (resolveStageFiring now rule w fp).
Proof. intros Hw. unfold resolveStageFiring, ResolveInstance. destruct (delivered _ _ _); [|done]. destruct (ActiveInstanceByFingerprint _ _ _); auto with slu. Qed.
Lemma tick_inv rules now w : Inv w -> Inv (EvaluateOnce rules now w).
Proof.
  intros Hw. unfold EvaluateOnce. apply foldl_inv; [|by apply evaluate_inv]. intros w' rule Hw'.
  unfold sweepRule. apply foldl_inv; [|done]. intros; by apply resolve_inv.
Qed.

(** *** Re-notification *)

(** What the loop read of a firing still holds of the row while it goes on. *)
Definition later (i i' : Instance) : Prop :=
  in_id i' = in_id i /\ in_rule i' = in_rule i /\ in_alert i' = in_alert i /\
  (in_suppressed i' = None -> in_suppressed i = None) /\ (in_notified i' = None -> in_notified i = None).
Definition seen (w : World) (it : Instance * Routed) : Prop := exists i', w_instances w !! in_id it.1 = Some i' /\ later it.1 i'.

Lemma seen_on id f w it : (forall i, later i (f i)) -> seen w it -> seen (on_instance id f w) it.
Proof.
  intros Hf (i' & Hi & L1 & L2 & L3 & L4 & L5). unfold seen. cbn [on_instance w_instances]. rewrite list_lookup_fmap, Hi. eexists. split; [done|].
  destruct (bool_decide _); [|done]. destruct (Hf i') as (M1 & M2 & M3 & M4 & M5). repeat split; try congruence; auto.
Qed.
Lemma later_suppressed win i : later i (suppressed win i).
Proof. repeat split; try done. cbn. by destruct (in_suppressed i). Qed.
Lemma stamp_seen win w it it' : seen w it' -> seen (stamp win w it) it'.
Proof. intros H. unfold stamp. destruct (_ && _); [|done]. apply seen_on; [apply later_suppressed|done]. Qed.
Lemma stamp_inv win w it : Inv w -> Inv (stamp win w it).
Proof. intros H. unfold stamp, MarkInstanceSuppressed. destruct (_ && _); auto with slu. Qed.
Lemma renotified_seen by_ now it w it' : seen w it' -> seen (renotifyInstance by_ now it w) it'.
Proof. intros H. unfold renotifyInstance, MarkInstanceNotified. by apply seen_on. Qed.
Lemma renotified_inv by_ now it w : by_ <> ByEvaluator -> Inv w -> seen w it -> (forall i', later it.1 i' -> i' ∈ w_instances w -> ~ plain streams i') ->
  Inv (renotifyInstance by_ now it w).
Proof.
  intros Hby Hw (i' & Hi & Hl) Hnp. unfold renotifyInstance, MarkInstanceNotified. apply told_inv; [done|done| | |done].
  - intros i E. rewrite Hi in E. injection E as <-. apply Hnp; [done|]. by eapply list_elem_of_lookup_2.
  - by eapply lookup_lt_Some.
Qed.
Lemma check_inv now w it : Inv w -> seen w it -> Inv (renotify_check now w it).
Proof.
  intros Hw Hs. unfold renotify_check. destruct (rt_window it.2); [by apply stamp_inv|].
  assert (H : (in_notified it.1 = None -> in_suppressed it.1 <> None) -> Inv (renotifyInstance ByRenotify now it w)).
  { intros H. apply renotified_inv; [done|done|done|]. intros i' (L1 & L2 & L3 & L4 & L5) Hi Hp. pose proof Hp as (_ & P & _).
    destruct (inv_plain w Hw i' Hi Hp) as [Hn _]. apply H; auto. }
  destruct (in_notified it.1) eqn:E.
  - destruct (_ <=? 0); [done|]. destruct (due _ _ _); [|done]. apply H. done.
  - destruct (in_suppressed it.1); [|done]. cbn. by apply H.
Qed.
Lemma stream_inv now w items : Inv w -> Forall (seen w) items -> Forall (fun it => streams (in_rule it.1) = true) items -> Inv (renotify_stream now w items).
Proof.
  intros Hw Hs Hg. unfold renotify_stream. destruct items as [|it rest]; [done|].
  assert (Hrep : representative it rest ∈ it :: rest).
  { unfold representative. clear. revert it. induction rest as [|x rest IH]; intros it; [by left|]. cbn [foldl].
    destruct (_ <? _); [right; apply IH|]. pose proof (IH it) as H. apply elem_of_cons in H as [->|H]; [by left|right; by right]. }
  rewrite Forall_forall in Hs, Hg. destruct (rt_window _) as [win|].
  - assert (HI : forall l w, Inv w -> Inv (foldl (stamp win) w l)); [|by apply HI]. clear. intros l. induction l as [|x l IH]; intros w H; [done|].
    cbn. by apply IH, stamp_inv.
  - destruct (due _ _ _); [|done]. apply renotified_inv; [done|done|by apply Hs|]. intros i' (_ & L & _) _ (_ & _ & P). rewrite L in P. by rewrite Hg in P.
Qed.
Lemma seen_fold {A} (f : World -> A -> World) l w it : (forall w x, seen w it -> seen (f w x) it) -> seen w it -> seen (foldl f w l) it.
Proof. intros H. revert w. induction l as [|x l IH]; intros w Hw; [done|]. cbn. by apply IH, H. Qed.
Lemma check_seen now w it it' : seen w it' -> seen (renotify_check now w it) it'.
Proof.
  intros H. unfold renotify_check. destruct (rt_window _); [by apply stamp_seen|]. destruct (in_notified _).
  - destruct (_ <=? 0); [done|]. destruct (due _ _ _); [by apply renotified_seen|done].
  - destruct (is_none _); [done|by apply renotified_seen].
Qed.
Lemma stream_seen now w items it : seen w it -> seen (renotify_stream now w items) it.
Proof.
  intros H. unfold renotify_stream. destruct items as [|x rest]; [done|]. destruct (rt_window _).
  - apply seen_fold; [|done]. intros; by apply stamp_seen.
  - destruct (due _ _ _); [by apply renotified_seen|done].
Qed.
Lemma renotify_inv routes now w : allowed streams (Renotify routes now) -> Inv w -> Inv (renotifyOnce routes now w).
Proof.
  intros Ha Hw. unfold renotifyOnce. set (items := omap _ _).
  assert (Hs : forall it, it ∈ items -> seen w it /\ routes it.1 = Some it.2).
  { intros it (i & [Hi _]%filterb_elem & E)%list_elem_of_omap. destruct (routes i) as [r|] eqn:Er; [|done]. injection E as <-. split; [|done].
    apply list_elem_of_lookup in Hi as [n Hn]. exists i. cbn. rewrite (inv_ids w Hw n i Hn). by repeat split. }
  assert (H1 : forall l w', (forall it, it ∈ l -> seen w' it) -> Inv w' -> Inv (foldl (renotify_check now) w' l)).
  { intros l. induction l as [|x l IH]; intros w' Hl Hw'; [done|]. cbn. apply IH; [|apply check_inv; [done|by apply Hl; left]].
    intros it Hit. apply check_seen, Hl. by right. }
  assert (H2 : forall l w', (forall items it, items ∈ l -> it ∈ items -> seen w' it /\ streams (in_rule it.1) = true) -> Inv w' ->
    Inv (foldl (renotify_stream now) w' l)).
  { intros l. induction l as [|x l IH]; intros w' Hl Hw'; [done|]. cbn. apply IH.
    - intros its it H Hit. destruct (Hl its it ltac:(by right) Hit). split; [by apply stream_seen|done].
    - apply stream_inv; [done|apply Forall_forall|apply Forall_forall]; intros it Hit; by apply (Hl x it ltac:(by left) Hit). }
  apply H2; [|apply H1; [|done]; by intros it [[? _]%Hs _]%filterb_elem].
  intros its it (g & -> & Hg)%list_elem_of_fmap Hit. destruct g as [k its]. pose proof (group_by_elem _ _ _ _ Hg) as E. cbn in Hit.
  rewrite E in Hit. apply filterb_elem in Hit as [[Hin Hgr]%filterb_elem _]. destruct (Hs it Hin) as [Hse Hr]. split; [|by eapply Ha].
  apply seen_fold; [|done]. intros; by apply check_seen.
Qed.

Lemma alert_fires_inv now rule fp mute channels w : Inv w -> Inv (alert_fires now rule fp mute channels w).
Proof.
  intros Hw. unfold alert_fires, TouchInstance. destruct (ActiveInstanceByFingerprint _ _ w) as [i|] eqn:Ha; [auto with slu|].
  pose proof (open_inv true now _ _ w Hw Ha) as Ho. cbn [OpenInstance]. unfold MarkInstanceSuppressed, MarkInstanceNotified.
  destruct mute; [apply on_instance_inv; auto with slu|]. destruct channels as [channels|]; [|done]. apply told_inv; [done|done| | |done].
  - cbn [w_instances OpenInstance snd]. intros i Hi. rewrite lookup_app_r, Nat.sub_diag in Hi by lia. injection Hi as <-. by intros [? _].
  - cbn. rewrite length_app. cbn. lia.
Qed.
Lemma alert_recovers_inv now id channels w : Inv w -> Inv (alert_recovers now id channels w).
Proof.
  intros Hw. unfold alert_recovers. destruct (w_instances w !! id) as [i|] eqn:Hi; [|done]. destruct (in_alert i && in_firing i) eqn:E; [|done].
  apply andb_true_iff in E as [Ea _]. unfold ResolveInstance. pose proof (inv_ids w Hw id i Hi) as ->.
  assert (Hr : Inv (on_instance id (resolved now) w)) by auto with slu.
  assert (E : forall f, (forall i, f i = i) -> forall w, on_instance id f w = w).
  { intros f Hf [sp ins jb]. unfold on_instance. f_equal. cbn. rewrite <- (list_fmap_id ins) at 2. apply list_fmap_ext. intros. destruct (bool_decide _); [apply Hf|done]. }
  rewrite <- (E (fun i => i)) by done. apply told_inv; [done|done| | |done].
  - intros x. cbn [on_instance w_instances]. rewrite list_lookup_fmap, Hi. intros [= <-]. intros [P _]. destruct (bool_decide _); cbn in P; congruence.
  - cbn. rewrite length_fmap. by eapply lookup_lt_Some.
Qed.

Lemma reachable_inv w : reachable streams w -> Inv w.
Proof.
  induction 1 as [|w e _ IH Ha]; [split; cbn; try done; [constructor|constructor|by intros ? ?%not_elem_of_nil|by intros ? ?%not_elem_of_nil]|].
  destruct e as [r|rules now|id|now id|routes now|now rule fp mute channels|now id channels]; cbn [happen]; auto with slu.
  - by destruct IH as [H1 H2 H3 H4 H5]; split.
  - by apply tick_inv.
  - by apply renotify_inv.
  - by apply alert_fires_inv.
  - by apply alert_recovers_inv.
Qed.

(** ** When a firing is resolved *)

(** Instance [k] is [i] up to the marks a tick may change, and fires when [b]. *)
Definition at_key (k : nat) (i : Instance) (b : bool) (w : World) : Prop :=
  exists i', w_instances w !! k = Some i' /\ key i' = key i /\ in_firing i' = b.

Lemma at_key_on id f k i b w : (forall x, key (f x) = key x /\ in_firing (f x) = in_firing x) ->
  at_key k i b w -> at_key k i b (on_instance id f w).
Proof.
  intros Hf (i' & Hi & Hk & Hb). unfold at_key. cbn [on_instance w_instances]. rewrite list_lookup_fmap, Hi.
  eexists. split; [done|]. destruct (bool_decide _); [|done]. destruct (Hf i') as [-> ->]. done.
Qed.
Lemma at_key_fire now rule sup w c k i b : at_key k i b w -> at_key k i b (fireDelayed now rule sup w c).
Proof.
  intros H. unfold fireDelayed. destruct (ActiveInstanceByFingerprint _ _ w) as [a|].
  { by apply at_key_on. }
  cbn [OpenInstance]. destruct H as (i' & Hi & H). assert (Hnew : forall x, at_key k i b {| w_spans := w_spans w; w_instances := w_instances w ++ [x]; w_jobs := w_jobs w |}).
  { intros x. exists i'. split; [|done]. cbn. rewrite lookup_app_l; [done|]. by eapply lookup_lt_Some. }
  destruct sup; [apply at_key_on; [done|apply Hnew]|]. case_bool_decide; [apply Hnew|].
  destruct (Hnew (opened false (length (w_instances w)) now (cr_ID rule) (stageFingerprint (tc_TraceID c) (tc_DelayedStage c)))) as (x & Hx & ?).
  by exists x.
Qed.
Lemma spans_fire now rule sup w c : w_spans (fireDelayed now rule sup w c) = w_spans w.
Proof. unfold fireDelayed. destruct (ActiveInstanceByFingerprint _ _ w); [done|]. cbn. destruct sup; [done|]. by case_bool_decide. Qed.
Lemma evaluate_keeps now rules w : w_spans (foldl (evaluateRule now) w rules) = w_spans w /\
  forall k i b, at_key k i b w -> at_key k i b (foldl (evaluateRule now) w rules).
Proof.
  assert (H1 : forall l rule sup w, w_spans (foldl (fireDelayed now rule sup) w l) = w_spans w /\
    forall k i b, at_key k i b w -> at_key k i b (foldl (fireDelayed now rule sup) w l)).
  { clear w. intros l rule sup. induction l as [|c l IH]; intros w; [done|]. cbn. destruct (IH (fireDelayed now rule sup w c)) as [-> Hk].
    split; [apply spans_fire|]. intros. by apply Hk, at_key_fire. }
  revert w. induction rules as [|rule rules IH]; intros w; [done|]. cbn. destruct (IH (evaluateRule now w rule)) as [-> Hk].
  unfold evaluateRule in *. destruct (Validate _); [done|]. case_bool_decide; [done|].
  destruct (H1 (tick_scan (cr_Spec rule) (services rule) now (w_spans w)).1 rule (window rule now) w) as [-> Hk1]. split; [done|]. auto.
Qed.

Definition hit (rule : CompletionRule) (i : Instance) (spans : list SpanRow) : bool :=
  (in_rule i =s cr_ID rule) && delivered rule (in_fp i) spans.

Lemma active_is_at k i b rule fp w a : Inv w -> at_key k i b w -> ActiveInstanceByFingerprint rule fp w = Some a ->
  exists ia, w_instances w !! in_id a = Some ia /\ ia = a /\ in_firing a = true /\ key a = (rule, fp) /\
    (b = true -> key i = (rule, fp) -> in_id a = k).
Proof.
  intros Hw (i' & Hi & Hk & Hb) Ha. unfold ActiveInstanceByFingerprint in Ha.
  apply last_Some_elem_of, filterb_elem in Ha as [Hin Hp]. unfold is_open in Hp.
  apply andb_true_iff in Hp as [[Hf Hr]%andb_true_iff Hfp]. apply String.eqb_eq in Hr, Hfp.
  pose proof Hin as Hin2. apply list_elem_of_lookup in Hin2 as [n Hn]. pose proof (inv_ids w Hw n a Hn) as En. exists a. rewrite En.
  split; [done|]. split; [done|]. split; [done|]. assert (Hka : key a = (rule, fp)) by (unfold key; congruence). split; [done|].
  intros Hbt Hki. assert (a = i') as ->.
  { apply (NoDup_map_eq key (List.filter in_firing (w_instances w))); [apply Hw| | |congruence]; apply filterb_elem; split; try done.
    - by eapply list_elem_of_lookup_2.
    - congruence. }
  rewrite <- En. by apply (inv_ids w Hw).
Qed.

Lemma resolve_at now rule fp k i b w : Inv w -> at_key k i b w ->
  at_key k i (b && negb (hit rule i (w_spans w) && (in_fp i =s fp))) (resolveStageFiring now rule w fp).
Proof.
  intros Hw Hat. unfold resolveStageFiring, hit.
  assert (Hno : delivered rule fp (w_spans w) = false \/ key i <> (cr_ID rule, fp) ->
    b && negb ((in_rule i =s cr_ID rule) && delivered rule (in_fp i) (w_spans w) && (in_fp i =s fp)) = b).
  { intros H. destruct b; [|done]. cbn. apply negb_true_iff. destruct (in_rule i =s cr_ID rule) eqn:E1; [|done].
    destruct (in_fp i =s fp) eqn:E2; [|by rewrite andb_false_r]. apply String.eqb_eq in E1, E2. destruct H as [H|H].
    - by rewrite E2, H.
    - exfalso. apply H. unfold key. congruence. }
  destruct (delivered rule fp (w_spans w)) eqn:Ed; [|by rewrite Hno by auto].
  destruct (ActiveInstanceByFingerprint (cr_ID rule) fp w) as [a|] eqn:Ha.
  - destruct (active_is_at k i b (cr_ID rule) fp w a Hw Hat Ha) as (_ & Hia & -> & Hfa & Hka & Hsame).
    destruct Hat as (i' & Hi & Hk & Hb). unfold ResolveInstance, at_key. cbn [on_instance w_instances]. rewrite list_lookup_fmap, Hi.
    eexists. split; [done|]. pose proof (inv_ids w Hw _ _ Hi) as Eid. case_bool_decide as Eq.
    + split; [done|]. cbn. assert (i' = a) as -> by (rewrite Eid in Eq; rewrite Eq in Hi; congruence).
      assert (Hki : key i = (cr_ID rule, fp)) by congruence. unfold key in Hki. injection Hki as E1 E2.
      rewrite E1, E2, Ed, !String.eqb_refl. cbn. by rewrite andb_false_r.
    + split; [done|]. destruct b; [|done]. rewrite Hb. symmetry. apply Hno. right. intros Hki. apply Eq. rewrite Eid. symmetry. by apply Hsame.
  - destruct b; [|exact Hat]. rewrite Hno; [done|]. right. intros Hki. apply (active_None _ _ _ Ha).
    destruct Hat as (i' & Hi & Hk & Hb). apply list_elem_of_fmap. exists i'. split; [congruence|]. apply filterb_elem.
    split; [by eapply list_elem_of_lookup_2|done].
Qed.
Lemma resolve_spans now rule w fp : w_spans (resolveStageFiring now rule w fp) = w_spans w.
Proof. unfold resolveStageFiring. destruct (delivered _ _ _); [|done]. by destruct (ActiveInstanceByFingerprint _ _ _). Qed.
Lemma sweep_at now rule k i b w : Inv w -> at_key k i b w ->
  at_key k i (b && negb (hit rule i (w_spans w))) (sweepRule now w rule) /\ Inv (sweepRule now w rule) /\ w_spans (sweepRule now w rule) = w_spans w.
Proof.
  intros Hw Hat. unfold sweepRule.
  assert (H : forall fps w, Inv w -> forall b, at_key k i b w ->
    at_key k i (b && negb (hit rule i (w_spans w) && existsb (fun fp => in_fp i =s fp) fps)) (foldl (resolveStageFiring now rule) w fps) /\
    Inv (foldl (resolveStageFiring now rule) w fps) /\ w_spans (foldl (resolveStageFiring now rule) w fps) = w_spans w).
  { clear. induction fps as [|fp fps IH]; intros w Hw b Hat; cbn; [by rewrite andb_false_r, andb_true_r|].
    destruct (IH _ (resolve_inv now rule w fp Hw) _ (resolve_at now rule fp k i b w Hw Hat)) as (H1 & H2 & H3).
    rewrite resolve_spans in H1, H3. split; [|done]. revert H1. destruct b, (hit _ _ _), (in_fp i =s fp), (existsb _ fps); cbn; done. }
  destruct (H (OpenFirings (cr_ID rule) w) w Hw b Hat) as (H1 & H2 & H3). split; [|done].
  destruct b; [|done]. destruct (hit rule i (w_spans w)) eqn:Eh; [|done].
  assert (Hex : existsb (fun fp => in_fp i =s fp) (OpenFirings (cr_ID rule) w) = true); [|by rewrite Hex in H1].
  destruct Hat as (i' & Hi & Hk & Hb). unfold key in Hk. injection Hk as E1 E2. unfold hit in Eh. apply andb_true_iff in Eh as [Er _].
  apply existsb_elem. exists (in_fp i'). split; [|by rewrite E2, String.eqb_refl]. apply list_elem_of_fmap. exists i'. split; [done|].
  apply filterb_elem. split; [by eapply list_elem_of_lookup_2|]. unfold is_open. by rewrite Hb, E1, Er.
Qed.

Lemma tick_at rules now w i : Inv w -> i ∈ w_instances w -> in_firing i = true ->
  at_key (in_id i) i (negb (existsb (fun rule => hit rule i (w_spans w)) rules)) (EvaluateOnce rules now w).
Proof.
  intros Hw Hi Hf. unfold EvaluateOnce. destruct (evaluate_keeps now rules w) as [Hs Hk].
  assert (Hat : at_key (in_id i) i true w).
  { apply list_elem_of_lookup in Hi as [n Hn]. rewrite (inv_ids w Hw n i Hn). by exists i. }
  apply Hk in Hat. rewrite <- Hs. clear Hk Hs.
  pose proof (evaluate_inv now rules w Hw) as Hw'.
  revert Hw' Hat. generalize (foldl (evaluateRule now) w rules) as w'. clear. intros w' Hw' Hat.
  assert (H : forall b w', Inv w' -> at_key (in_id i) i b w' ->
    at_key (in_id i) i (b && negb (existsb (fun rule => hit rule i (w_spans w')) rules)) (foldl (sweepRule now) w' rules)).
  { clear. induction rules as [|rule rules IH]; intros b w' Hw' Hat; cbn; [by rewrite andb_true_r|].
    destruct (sweep_at now rule (in_id i) i b w' Hw' Hat) as (H1 & H2 & H3). specialize (IH _ _ H2 H1). rewrite H3 in IH.
    by rewrite negb_orb, andb_assoc. }
  exact (H true w' Hw' Hat).
Qed.

(** C6. Sticky, and no more: an open firing survives a tick exactly when no enabled rule of its own finds a
    span of the firing's stage in the table.  That the trace has ended, left the lookback or was
    handled changes nothing. *)
Theorem tick_resolves_iff rules now w i : reachable streams w -> i ∈ w_instances w -> in_firing i = true ->
  exists i', w_instances (EvaluateOnce rules now w) !! in_id i = Some i' /\ key i' = key i /\
    (in_firing i' = false <-> exists rule, rule ∈ rules /\ cr_ID rule = in_rule i /\ delivered rule (in_fp i) (w_spans w) = true).
Proof.
  intros Hw%reachable_inv Hi Hf. destruct (tick_at rules now w i Hw Hi Hf) as (i' & Hl & Hk & Hb).
  exists i'. split; [done|]. split; [done|]. rewrite Hb, negb_false_iff, existsb_elem. unfold hit. split.
  - intros (rule & Hr & [E Hd]%andb_true_iff). apply String.eqb_eq in E. exists rule. by rewrite E.
  - intros (rule & Hr & E & Hd). exists rule. split; [done|]. by rewrite <- E, String.eqb_refl, Hd.
Qed.

(** C18. However spans arrive, ticks fall, operators act and the engine re-notifies: a rule has at most
    one open firing for a trace and stage, and the evaluator sends no firing to a channel twice.  A
    firing that no maintenance window muted, of a rule whose profile never groups by integration, is
    sent by nobody else: a channel is told of it once, whatever interval of re-notification is set. *)
Theorem one_firing_one_page w : reachable streams w ->
  NoDup (open_keys (w_instances w)) /\ NoDup (evaluator_pages w) /\
  forall i, i ∈ w_instances w -> plain streams i -> forall j, j ∈ w_jobs w -> jb_instance j = in_id i -> jb_by j = ByEvaluator.
Proof. intros H%reachable_inv. split; [apply H|]. split; [apply H|]. intros i Hi Hp. by apply (inv_plain w H i Hi Hp). Qed.
End invariant.
End evaluator.

(** ** Fingerprints read back *)

Lemma last_hash_none b : no_char "#" b = true -> last_hash b = None.
Proof.
  induction b as [|c b IH]; [done|]. cbn [no_char last_hash]. intros [Hc Hb]%andb_true_iff. rewrite (IH Hb).
  apply negb_true_iff in Hc. rewrite Ascii.eqb_sym, Hc. done.
Qed.
Lemma last_hash_app a b : no_char "#" b = true -> last_hash (a +:+ String "#" b) = Some (a, b).
Proof.
  intros Hb%last_hash_none. induction a as [|c a IH]; [cbn [String.append last_hash]; by rewrite Hb|].
  change (String c a +:+ String "#" b) with (String c (a +:+ String "#" b)). cbn [last_hash]. by rewrite IH.
Qed.

Lemma signed_show n : 0 <= n -> signed (show_Z n) = Some n.
Proof.
  intros Hn. rewrite <- (digits_show n Hn). pose proof (digits_show n Hn) as H. unfold signed.
  destruct (show_Z n) as [|c s]; [done|]. unfold digits in H. cbn in H. destruct (is_digit c) eqn:Ec; [|done].
  destruct c as [[] [] [] [] [] [] [] []]; try done.
Qed.

(** A firing's fingerprint tells its trace and its stage, whatever characters the trace id has. *)
Theorem fingerprint_round_trip t stage : 0 <= stage < 2 ^ 63 -> parseFingerprint (stageFingerprint t stage) = (t, stage).
Proof.
  intros Hs. unfold parseFingerprint, stageFingerprint.
  change (tpl [t; "#"; show_Z stage]) with (t +:+ ("#" +:+ (show_Z stage +:+ ""))). rewrite sapp_nil_r.
  change ("#" +:+ show_Z stage) with (String "#" (show_Z stage)). rewrite last_hash_app by (by eapply all_chars_no_char; [apply show_Z_chars|]).
  unfold Atoi. rewrite signed_show by lia. destruct (_ && _) eqn:E; [done|]. apply andb_false_iff in E as [E|E]; lia.
Qed.

(** ** A stage that another service reports *)

Definition load_rule : CompletionRule := {|
  cr_ID := "r1"; cr_Name := "Nightly run"; cr_Description := ""; cr_Severity := "critical"; cr_Enabled := true;
  cr_Spec := saved_spec (hourly ["load"]); cr_ChannelIDs := ["c1"] |}.
(** The load is reported in time, by a service that is not one of the integration's. *)
Definition foreign_load : SpanRow :=
  {| sp_TraceId := "a1"; sp_SpanName := "load"; sp_ServiceName := "warehouse"; sp_Timestamp := 1700000000 * sec + 10 * 60 * sec |}.
Definition foreign_run : World := {| w_spans := [at_min "Start" 0; foreign_load]; w_instances := []; w_jobs := [] |}.
Definition etl_tick (w : World) (now : Z) : World := EvaluateOnce (fun _ => ["etl"]) (fun _ _ => None) [load_rule] now w.

Lemma foreign_scan now : 1700003600 * sec <= now <= 1700014400 * sec ->
  exists c, (tick_scan (saved_spec (hourly ["load"])) ["etl"] now (w_spans foreign_run)).1 = [c] /\ tc_TraceID c = "a1" /\ tc_DelayedStage c = 1.
Proof.
  intros Hnow. set (spec := saved_spec (hourly ["load"])). assert (HL : lookback spec = 14400 * sec) by by_compute.
  assert (Hscan : scanTraces spec ["etl"] (now - lookback spec) now (w_spans foreign_run) = [aggregate spec "a1" [at_min "Start" 0]]).
  { unfold scanTraces. assert (E1 : in_scan ["etl"] (now - lookback spec) now (at_min "Start" 0) = true).
    { unfold in_scan. rewrite HL. change (sp_Timestamp (at_min "Start" 0)) with (1700000000 * sec). unfold sec in *.
      apply andb_true_iff. split; [lia|by compute]. }
    assert (E2 : in_scan ["etl"] (now - lookback spec) now foreign_load = false) by (unfold in_scan; apply andb_false_r).
    cbn [w_spans foreign_run List.filter]. rewrite E1, E2. by_compute. }
  unfold tick_scan, scanAndBucket. cbn [fst]. rewrite Hscan. exists (classify spec (aggregate spec "a1" [at_min "Start" 0]) now).
  assert (Ho : overdue now (1700000000 * sec) {| st_SpanNames := ["load"]; st_TimeoutSeconds := 3600 |} = true).
  { unfold overdue. cbn [st_TimeoutSeconds]. unfold sec, zero_time, sec in *. apply andb_true_iff. split; [done|lia]. }
  assert (Hc : classify spec (aggregate spec "a1" [at_min "Start" 0]) now = {|
    tc_TraceID := "a1"; tc_StartedAt := 1700000000 * sec; tc_LastSpanAt := 1700000000 * sec; tc_State := StateDelayed;
    tc_DelayedStage := 1; tc_DelayedStageName := "load" |}).
  { unfold classify. change (EffectiveStages spec) with [{| st_SpanNames := ["load"]; st_TimeoutSeconds := 3600 |}].
    change (stageBaseline spec (aggregate spec "a1" [at_min "Start" 0])) with (1700000000 * sec).
    change (ta_Stages (aggregate spec "a1" [at_min "Start" 0])) with [(0, false)]. cbn [last fmap option_fmap option_map snd default first_gap].
    change (None ?? false) with false. cbn -[overdue sec Z.mul]. by rewrite Ho. }
  rewrite fmap_cons. cbn [fmap list_fmap List.filter]. rewrite Hc. split; [done|]. split; done.
Qed.

Lemma foreign_tick now w : 1700003600 * sec <= now <= 1700014400 * sec ->
  w_spans w = w_spans foreign_run -> Forall (fun i => in_firing i = false) (w_instances w) ->
  let w' := etl_tick w now in
  w_spans w' = w_spans foreign_run /\ Forall (fun i => in_firing i = false) (w_instances w') /\ length (w_jobs w') = S (length (w_jobs w)).
Proof.
  intros Hnow Hs Hf. cbv zeta. unfold etl_tick, EvaluateOnce. cbn [foldl].
  destruct (foreign_scan now Hnow) as (c & Hc & Ht & Hd).
  assert (Hno : forall p, List.filter (fun i => is_open "r1" i && p i) (w_instances w) = []).
  { intros p. apply filterb_none. intros i Hi. rewrite Forall_forall in Hf. unfold is_open. by rewrite (Hf i Hi). }
  assert (Hev : evaluateRule (fun _ => ["etl"]) (fun _ _ => None) now w load_rule =
    EnqueueJobs ByEvaluator (length (w_instances w)) ["c1"] (OpenInstance false now "r1" "a1#1" w).2).
  { unfold evaluateRule. change (cr_Spec load_rule) with (saved_spec (hourly ["load"])).
    replace (Validate (saved_spec (hourly ["load"]))) with (inr tt : string + unit) by by_compute. rewrite bool_decide_eq_false_2 by done.
    rewrite Hs, Hc. cbn [foldl]. unfold fireDelayed, ActiveInstanceByFingerprint. rewrite Ht, Hd.
    change (cr_ID load_rule) with "r1". rewrite Hno. done. }
  rewrite Hev. unfold sweepRule, OpenFirings. change (cr_ID load_rule) with "r1". cbn [EnqueueJobs OpenInstance snd w_instances].
  assert (Hop : List.filter (is_open "r1") (w_instances w) = []).
  { apply filterb_none. intros i Hi. rewrite Forall_forall in Hf. unfold is_open. by rewrite (Hf i Hi). }
  rewrite List.filter_app, Hop. cbn [List.filter app]. change (is_open "r1" _) with true. cbn [fmap list_fmap foldl in_fp opened].
  unfold resolveStageFiring, ActiveInstanceByFingerprint, EnqueueJobs. cbn [w_spans w_instances w_jobs]. rewrite Hs.
  replace (delivered load_rule "a1#1" (w_spans foreign_run)) with true by by_compute.
  change (cr_ID load_rule) with "r1". rewrite List.filter_app, Hno. cbn -[dedupe]. split; [done|]. split; [|rewrite length_app, length_fmap; change (length (dedupe ["c1"])) with 1%nat; lia].
  rewrite fmap_app. apply Forall_app. split.
  - apply Forall_fmap, Forall_forall. intros i Hi. rewrite Forall_forall in Hf. cbn. case_bool_decide; [done|]. by apply Hf.
  - cbn. rewrite bool_decide_eq_true_2 by done. by repeat constructor.
Qed.

(** A delay is looked for among the integration's services, its end in the whole table.  When the
    stage's span comes from another service, every tick opens the firing, pages its channels, and
    resolves it again: as many pages as ticks, until the start span leaves the lookback. *)
Theorem foreign_span_pages_every_tick nows :
  Forall (fun now => 1700003600 * sec <= now <= 1700014400 * sec) nows ->
  length (w_jobs (foldl etl_tick foreign_run nows)) = length nows.
Proof.
  intros H. assert (HH : forall w, w_spans w = w_spans foreign_run -> Forall (fun i => in_firing i = false) (w_instances w) ->
    length (w_jobs (foldl etl_tick w nows)) = (length (w_jobs w) + length nows)%nat).
  { induction H as [|now nows Hn _ IH]; intros w Hs Hf; cbn [foldl length]; [lia|]. destruct (foreign_tick now w Hn Hs Hf) as (H1 & H2 & H3).
    rewrite IH by done. rewrite H3. lia. }
  by rewrite HH.
Qed.

(** ** Examples *)

Definition etl (spans : list SpanRow) : World := {| w_spans := spans; w_instances := []; w_jobs := [] |}.
Definition two_step : CompletionRule := {|
  cr_ID := "r1"; cr_Name := "Nightly run"; cr_Description := ""; cr_Severity := "critical"; cr_Enabled := true;
  cr_Spec := saved_spec (hourly ["load"; "report"]); cr_ChannelIDs := ["c1"] |}.
Definition two_tick (now : Z) (w : World) : World := EvaluateOnce (fun _ => ["etl"]) (fun _ _ => None) [two_step] now w.
Definition T (m : Z) : Z := 1700000000 * sec + m * 60 * sec.
Definition run_of (events : list Event) : World := foldl (happen (fun _ => ["etl"]) (fun _ _ => None)) empty_world events.
Lemma run_reachable streams events : Forall (allowed streams) events -> reachable (fun _ => ["etl"]) (fun _ _ => None) streams (run_of events).
Proof.
  unfold run_of. induction events as [|e l IH] using rev_ind; [intros _; constructor|]. intros [H He]%Forall_app. rewrite foldl_app. cbn [foldl].
  apply Forall_cons in He as [He _]. apply r_step; [by apply IH|done].
Qed.
Definition nobody (_ : string) : bool := false.

(** A hop that comes late between two ticks is never reported. *)
Example late_between_ticks : w_jobs (two_tick (T 66) (etl [at_min "Start" 0; at_min "load" 65])) = [].
Proof. by_compute. Qed.
(** A trace that reaches the end without a middle hop is completed, and its firing stays open. *)
Definition skipped : World := run_of [Arrive (at_min "Start" 0); Tick [two_step] (T 61); Arrive (at_min "report" 70); Tick [two_step] (T 71)].
Example skipped_hop : (tick_scan (cr_Spec two_step) ["etl"] (T 71) (w_spans skipped)).2 = {| ct_Completed := 1; ct_Pending := 0; ct_Delayed := 0 |} /\
  in_firing <$> w_instances skipped = [true].
Proof. split; by_compute. Qed.

Lemma tick_resolves_iff_witness : exists i', w_instances (two_tick (T 81) (run_of [Arrive (at_min "Start" 0); Tick [two_step] (T 61); Arrive (at_min "load" 80)])) !! 0%nat = Some i' /\ in_firing i' = false.
Proof.
  set (w := run_of _). assert (Hi : exists i, w_instances w !! 0%nat = Some i /\ in_firing i = true /\ in_id i = 0%nat /\ in_rule i = "r1" /\ in_fp i = "a1#1").
  { eexists. split; [vm_compute; reflexivity|]. by repeat split. }
  destruct Hi as (i & Hl & Hf & Hid & Hr & Hfp).
  assert (Hreach : reachable (fun _ => ["etl"]) (fun _ _ => None) nobody w) by (apply run_reachable; by repeat constructor).
  destruct (tick_resolves_iff (fun _ => ["etl"]) (fun _ _ => None) nobody [two_step] (T 81) w i Hreach (list_elem_of_lookup_2 _ _ _ Hl) Hf) as (i' & Hi' & _ & Hres).
  rewrite Hid in Hi'. exists i'. split; [exact Hi'|]. apply Hres. exists two_step. split; [left|]. split; [by rewrite Hr|]. rewrite Hfp. by_compute.
Defined.

(** A delayed run under a profile, with the loop of the engine an hour later and the next day. *)
Definition profile (grouping : string) (renotify : Z) (win : option string) (_ : Instance) : option Routed :=
  Some {| rt_window := win; rt_integration := Some "int"; rt_environment := ""; rt_grouping := grouping; rt_renotify := renotify; rt_channels := ["c1"] |}.
Definition delayed_under (grouping : string) (renotify : Z) : list Event :=
  [Arrive (at_min "Start" 0); Tick [two_step] (T 61); Renotify (profile grouping renotify None) (T 121); Renotify (profile grouping renotify None) (T 1501)].

(** An interval of half an hour does not re-send a firing of a completion rule that nobody handles:
    the evaluator leaves no mark of its page, and the loop takes a firing without one for a muted one. *)
Theorem interval_is_ignored :
  jb_by <$> w_jobs (run_of (delayed_under "per_check" 30)) = [ByEvaluator] /\
  in_firing <$> w_instances (run_of (delayed_under "per_check" 30)) = [true].
Proof. split; by_compute. Qed.
(** Grouped by integration, the firing is sent by the evaluator and, once more, by the loop. *)
Theorem grouped_firing_is_sent_twice :
  (fun j => (jb_instance j, jb_channel j, jb_by j)) <$> w_jobs (run_of (delayed_under "per_integration" 0)) = [(0%nat, "c1", ByEvaluator); (0%nat, "c1", ByStream)].
Proof. by_compute. Qed.
(** A window that opens after the page mutes the firing that was told of, and its end tells of it again. *)
Theorem window_repeats_the_page :
  jb_by <$> w_jobs (run_of [Arrive (at_min "Start" 0); Tick [two_step] (T 61); Renotify (profile "per_check" 0 (Some "w1")) (T 70);
    Renotify (profile "per_check" 0 None) (T 90)]) = [ByEvaluator; ByRenotify].
Proof. by_compute. Qed.

Lemma one_firing_one_page_witness :
  let w := run_of (delayed_under "per_check" 30) in
  NoDup (evaluator_pages w) /\ exists i, i ∈ w_instances w /\ plain nobody i /\ forall j, j ∈ w_jobs w -> jb_instance j = in_id i -> jb_by j = ByEvaluator.
Proof.
  set (w := run_of _). destruct (one_firing_one_page (fun _ => ["etl"]) (fun _ _ => None) nobody w) as (_ & H1 & H2).
  { apply run_reachable. repeat constructor; try done; by intros i r [= <-]. }
  split; [exact H1|]. assert (Hi : exists i, w_instances w !! 0%nat = Some i /\ in_alert i = false /\ in_suppressed i = None).
  { eexists. split; [vm_compute; reflexivity|]. by split. }
  destruct Hi as (i & Hl & Ha & Hs). apply list_elem_of_lookup_2 in Hl. exists i. split; [exact Hl|]. assert (Hp : plain nobody i) by by split.
  split; [exact Hp|]. exact (H2 i Hl Hp).
Defined.

Lemma fingerprint_round_trip_witness : parseFingerprint (stageFingerprint "4bf9#2" 3) = ("4bf9#2", 3).
Proof. apply fingerprint_round_trip. by vm_compute. Defined.

Lemma foreign_span_pages_every_tick_witness : length (w_jobs (foldl etl_tick foreign_run [T 61; T 62; T 63])) = 3%nat.
Proof. apply foreign_span_pages_every_tick. repeat constructor; by vm_compute. Defined.
