(* ===== verification/Maintenance.v ===== *)
(** * Maintenance windows

    components/MaintenanceWindows.tsx (the list and the form) with the server
    it talks to: [Covers] of internal/alerting/engine_store.go, the validation
    of internal/api/handlers_maintenance.go, and the recurrences of
    internal/maintenance/recurrence.go, all of services/cell-api.  The summary
    of a recurrence is in Checks.v.

    The time zone database is third-party data: a zone is a pair of functions
    between instants (in seconds) and local dates. *)

From S2P Require Import Prelude JsString JsUri JsArray Host Types RuleServer Checks.

Local Open Scope string_scope.
Local Open Scope list_scope.
Local Open Scope Z_scope.

(** ** Scopes *)

Record MaintenanceWindowScope := {
  ms_kind : string; ms_integration_ids : option (list string); ms_system_ids : option (list string);
  ms_service_names : option (list string); ms_service_names_expanded : option (list string); ms_group_id : option string
}.
Definition scope_kind (k : string) : MaintenanceWindowScope := {|
  ms_kind := k; ms_integration_ids := None; ms_system_ids := None; ms_service_names := None;
  ms_service_names_expanded := None; ms_group_id := None |}.

Definition scopeSummary (integrationName systemName groupName : string -> string) (scope : MaintenanceWindowScope) : string :=
  if ms_kind scope =s "all_org" then "Whole organization"
  else if ms_kind scope =s "group" then
    tpl ["Team: "; if truthy_opt (ms_group_id scope) then groupName (ms_group_id scope ?? "") else "—"]
  else if ms_kind scope =s "entities" then
    or_str (Some (join ", " ((integrationName <$> (ms_integration_ids scope ?? [])) ++ (systemName <$> (ms_system_ids scope ?? []))
      ++ (ms_service_names scope ?? [])))) "—"
  else "—".

(** [normalizeWindowScope]; [members] are the services of a system. *)
Definition normalizeWindowScope (members : string -> list string) (scope : MaintenanceWindowScope) : string + MaintenanceWindowScope :=
  if ms_kind scope =s "all_org" then inr (scope_kind "all_org")
  else if ms_kind scope =s "group" then
    match ms_group_id scope with
    | None => inl "scope.group_id is required for a team window"
    | Some g => inr {| ms_kind := "group"; ms_integration_ids := None; ms_system_ids := None; ms_service_names := None;
                       ms_service_names_expanded := None; ms_group_id := Some g |}
    end
  else if ms_kind scope =s "entities" then
    if bool_decide (ms_integration_ids scope ?? [] = []) && bool_decide (ms_system_ids scope ?? [] = []) && bool_decide (ms_service_names scope ?? [] = [])
    then inl "an entities scope needs at least one integration, system, or service"
    else inr {| ms_kind := "entities"; ms_integration_ids := ms_integration_ids scope; ms_system_ids := ms_system_ids scope;
                ms_service_names := ms_service_names scope;
                ms_service_names_expanded := omit_list (sort string_cmp (dedupe ((ms_system_ids scope ?? []) ≫= members)));
                ms_group_id := None |}
  else inl "scope.kind must be all_org, entities, or group".

(** [ActiveMaintenanceWindows] and [Covers]. *)
Record EngineWindow := {
  ew_ID : string; ew_ScopeKind : string; ew_IntegrationIDs : list string; ew_ServiceNames : list string; ew_GroupID : option string
}.
Definition engine_window (id : string) (scope : MaintenanceWindowScope) : EngineWindow := {|
  ew_ID := id; ew_ScopeKind := ms_kind scope; ew_IntegrationIDs := ms_integration_ids scope ?? [];
  ew_ServiceNames := (ms_service_names scope ?? []) ++ (ms_service_names_expanded scope ?? []); ew_GroupID := ms_group_id scope |}.
Definition Covers (w : EngineWindow) (rule : GoRule) : bool :=
  if ew_ScopeKind w =s "all_org" then true
  else if ew_ScopeKind w =s "group" then
    match ew_GroupID w, g_GroupID rule with Some a, Some b => a =s b | _, _ => false end
  else if ew_ScopeKind w =s "entities" then
    match g_IntegrationID rule with Some i => bool_decide (i ∈ ew_IntegrationIDs w) | None => false end
    || (truthy (g_ServiceName rule) && bool_decide (g_ServiceName rule ∈ ew_ServiceNames w))
  else false.
Definition suppressedBy (wins : list EngineWindow) (rule : GoRule) : option string :=
  ew_ID <$> List.find (fun w => Covers w rule) wins.
(** The rule [SuppressingWindowForIntegration] asks about. *)
Definition integration_rule (integrationID : string) : GoRule := {|
  g_IntegrationID := Some integrationID; g_SystemID := None; g_ServiceName := ""; g_GroupID := None; g_Name := ""; g_Description := "";
  g_Runbook := ""; g_Severity := ""; g_Signal := ""; g_Enabled := false; g_ChannelIDs := []; g_TitleTemplate := ""; g_BodyTemplate := "";
  g_NotificationContent := None; g_Source := ""; g_DisplayOnService := false; g_Unit := ""; g_ResolveMode := "";
  g_EnvironmentMode := ""; g_Environments := []; g_Spec := SpecMetric zero_spec |}.
Definition SuppressingWindowForIntegration (wins : list EngineWindow) (integrationID : string) : option string :=
  suppressedBy wins (integration_rule integrationID).

(** ** Recurrences on the server

    Go's record and the wire's are the same up to the fields left out when
    empty, which read back as zero. *)

Definition weekdays_of (r : MaintenanceRecurrence) : list Z := mr_weekdays r ?? [].
Definition month_week_of (r : MaintenanceRecurrence) : Z := mr_month_week r ?? 0.
Definition month_weekday_of (r : MaintenanceRecurrence) : Z := mr_month_weekday r ?? 0.

(** A [time.Duration] counts nanoseconds in 64 bits. *)
Definition second : Z := 1000000000.
Definition Minutes (m : Z) : Z := (m * (60 * second) + 2 ^ 63) mod 2 ^ 64 - 2 ^ 63.
Definition MaxWindowDuration : Z := 7 * 24 * 3600 * second.

Lemma Minutes_small m : 0 <= m <= 7 * 24 * 60 -> Minutes m = m * (60 * second).
Proof. intros H. unfold Minutes, second. rewrite Z.mod_small; lia. Qed.


(** ** The calendar *)

Definition weekday_of_day (day : Z) : Z := (day + 4) mod 7.
Definition days_in_month (y m : Z) : Z :=
  (if m =? 12 then days_from_civil (y + 1) 1 1 else days_from_civil y (m + 1) 1) - days_from_civil y m 1.
(** [matches], for the day [d] of month [m] of year [y]. *)
Definition matches (r : MaintenanceRecurrence) (y m d wd : Z) : bool :=
  if mr_frequency r =s "weekly" then existsb (fun w => w =? wd) (weekdays_of r)
  else if mr_frequency r =s "monthly" then
    if negb (month_weekday_of r =? wd) then false
    else if month_week_of r =? -1 then days_in_month y m <? d + 7
    else (d - 1) / 7 + 1 =? month_week_of r
  else false.
(** A local date, and the next one: [time.Date] of the day after carries over into the next month. *)
Record date_ := Date { d_year : Z; d_month : Z; d_day : Z }.
#[local] Instance date_eq_dec : EqDecision date_.
Proof. solve_decision. Defined.
Definition next_date (d : date_) : date_ :=
  if d_day d <? days_in_month (d_year d) (d_month d) then Date (d_year d) (d_month d) (d_day d + 1)
  else if d_month d =? 12 then Date (d_year d + 1) 1 1 else Date (d_year d) (d_month d + 1) 1.
Definition day_number (d : date_) : Z := days_from_civil (d_year d) (d_month d) (d_day d).
Definition matches_day (r : MaintenanceRecurrence) (d : date_) : bool :=
  matches r (d_year d) (d_month d) (d_day d) (weekday_of_day (day_number d)).

Section recurrence.
(** [time.Parse("15:04", s)] as minutes of the day, [time.LoadLocation] as a test, and
    [time.Parse("2006-01-02", s)]. *)
Context (clock : string -> option Z) (known_zone : string -> bool) (date : string -> option date_).

Definition guard_all (l : list (bool * string)) : string + unit :=
  match List.find (fun p : bool * string => negb p.1) l with Some p => inl p.2 | None => inr tt end.
Definition Validate_frequency (r : MaintenanceRecurrence) : string + unit :=
  if mr_frequency r =s "weekly" then
    match weekdays_of r with
    | [] => inl "a weekly recurrence needs at least one weekday"
    | l => match List.find (fun d => (d <? 0) || (6 <? d)) l with
           | Some d => inl (tpl ["weekday "; show_Z d; " is out of range (0 = Sunday … 6 = Saturday)"])
           | None => inr tt
           end
    end
  else if mr_frequency r =s "monthly" then
    guard_all [((month_week_of r =? -1) || ((1 <=? month_week_of r) && (month_week_of r <=? 4)), "month_week must be 1-4, or -1 for the last");
               ((0 <=? month_weekday_of r) && (month_weekday_of r <=? 6), "month_weekday must be 0 (Sunday) to 6 (Saturday)")]
  else inl (tpl ["frequency must be "; in_quotes "weekly"; " or "; in_quotes "monthly"]).
Definition ValidateRecurrence (r : MaintenanceRecurrence) : string + unit :=
  let* _ := Validate_frequency r in
  guard_all [
    (match clock (mr_start_time r) with Some _ => true | None => false end, tpl ["start_time must be "; in_quotes "HH:MM"; ", 24-hour"]);
    (0 <? mr_duration_minutes r, "duration_minutes must be positive");
    (Minutes (mr_duration_minutes r) <=? MaxWindowDuration, "an occurrence may last at most 7 days");
    (truthy (mr_timezone r), "timezone is required, e.g. Europe/Stockholm");
    (known_zone (mr_timezone r), tpl ["unknown timezone "; in_quotes (mr_timezone r)]);
    (negb (truthy_opt (mr_ends_on r)) || match date (mr_ends_on r ?? "") with Some _ => true | None => false end,
     "ends_on must be a date, YYYY-MM-DD")].

Fixpoint dedupe_Z (seen l : list Z) : list Z :=
  match l with [] => [] | d :: l => if bool_decide (d ∈ seen) then dedupe_Z seen l else d :: dedupe_Z (d :: seen) l end.
Definition omit_zero (n : Z) : option Z := if n =? 0 then None else Some n.
(** [Normalized], as its JSON is stored and sent. *)
Definition Normalized (r : MaintenanceRecurrence) : MaintenanceRecurrence :=
  let weekly := mr_frequency r =s "weekly" in {|
  mr_frequency := mr_frequency r;
  mr_weekdays := if weekly then omit_list (sort (cmp_by id) (dedupe_Z [] (weekdays_of r))) else None;
  mr_month_week := if weekly then None else omit_zero (month_week_of r);
  mr_month_weekday := if weekly then None else omit_zero (month_weekday_of r);
  mr_start_time := mr_start_time r; mr_duration_minutes := mr_duration_minutes r; mr_timezone := mr_timezone r;
  mr_ends_on := if truthy_opt (mr_ends_on r) then mr_ends_on r else None |}.

(** ** [Next] *)

(** [at_ day minute] is the instant [time.Date] gives for a wall-clock time, [day_of] the local date
    of an instant. *)
Record Location := { at_ : date_ -> Z -> Z; day_of : Z -> date_ }.
Context (zone : string -> Location).

Record Occurrence := { oc_StartsAt : Z; oc_EndsAt : Z }.
Definition occurrenceHorizon : Z := 400 * 24 * 3600.
(** In seconds: a whole number of minutes is, unless it wraps. *)
Definition dur (r : MaintenanceRecurrence) : Z := Minutes (mr_duration_minutes r) / second.
Definition minute_of (r : MaintenanceRecurrence) : Z := clock (mr_start_time r) ?? 0.

(** The occurrence of a local day, if it has one that has not ended and is not skipped. *)
Definition occurrence (loc : Location) (r : MaintenanceRecurrence) (after : Z) (skip : list Z) (day : date_) : option Occurrence :=
  if matches_day r day then
    let start := at_ loc day (minute_of r) in
    if (after <? start + dur r) && negb (bool_decide (start ∈ skip)) then Some {| oc_StartsAt := start; oc_EndsAt := start + dur r |} else None
  else None.
(** The last local day, at its midnight. *)
Definition last_midnight (loc : Location) (r : MaintenanceRecurrence) : option Z :=
  if truthy_opt (mr_ends_on r) then (fun d => at_ loc d 0) <$> date (mr_ends_on r ?? "") else None.
Definition past_end (loc : Location) (r : MaintenanceRecurrence) (t : Z) : bool :=
  match last_midnight loc r with Some l => l <? t | None => false end.

(** The loop; [None] when the fuel runs out. *)
Fixpoint next_from (fuel : nat) (loc : Location) (r : MaintenanceRecurrence) (after : Z) (n : nat) (skip : list Z) (t : Z) (out : list Occurrence) :
    option (list Occurrence) :=
  match fuel with
  | O => None
  | S fuel =>
      if bool_decide (n <= length out)%nat || (after + occurrenceHorizon <=? t) then Some out
      else if past_end loc r t then Some out
      else let day := day_of loc t in
           next_from fuel loc r after n skip (at_ loc (next_date day) 0)
             (match occurrence loc r after skip day with Some o => out ++ [o] | None => out end)
  end.
Definition first_midnight (loc : Location) (r : MaintenanceRecurrence) (after : Z) : Z := at_ loc (day_of loc (after - dur r)) 0.
Definition Next (fuel : nat) (r : MaintenanceRecurrence) (after : Z) (n : nat) (skip : list Z) : option (list Occurrence) :=
  match ValidateRecurrence r with
  | inl _ => Some []
  | inr _ => if bool_decide (n = 0%nat) then Some []
             else let loc := zone (mr_timezone r) in next_from fuel loc r after n skip (first_midnight loc r after) []
  end.
End recurrence.

(** ** The form *)

Record WindowForm := {
  wf_name : string; wf_reason : string; wf_kind : string; wf_groupID : string; wf_integrationIDs : list string; wf_systemIDs : list string;
  wf_durationH : Z; wf_customEnd : option Z; wf_announce : bool; wf_repeats : bool; wf_frequency : string; wf_weekdays : list Z;
  wf_monthWeek : Z; wf_monthWeekday : Z; wf_startTime : string; wf_repeatQuarters : Z; wf_timezone : string; wf_endsOn : string
}.
(** [customEnd] is the wall-clock minute a datetime-local input names ([None] for the empty text);
    [repeatHours] is kept in the quarters of an hour its number input steps by. *)
Definition WindowForm_init (browserTimezone : string) : WindowForm := {|
  wf_name := ""; wf_reason := ""; wf_kind := "entities"; wf_groupID := ""; wf_integrationIDs := []; wf_systemIDs := [];
  wf_durationH := 4; wf_customEnd := None; wf_announce := false; wf_repeats := false; wf_frequency := "weekly"; wf_weekdays := [0];
  wf_monthWeek := 1; wf_monthWeekday := 0; wf_startTime := "02:00"; wf_repeatQuarters := 8; wf_timezone := browserTimezone; wf_endsOn := "" |}.

Definition form_scope (f : WindowForm) : MaintenanceWindowScope :=
  if wf_kind f =s "all_org" then scope_kind "all_org"
  else if wf_kind f =s "group" then
    {| ms_kind := "group"; ms_integration_ids := None; ms_system_ids := None; ms_service_names := None;
       ms_service_names_expanded := None; ms_group_id := Some (wf_groupID f) |}
  else {| ms_kind := wf_kind f; ms_integration_ids := Some (wf_integrationIDs f); ms_system_ids := Some (wf_systemIDs f); ms_service_names := None;
          ms_service_names_expanded := None; ms_group_id := None |}.
Definition form_recurrence (f : WindowForm) : MaintenanceRecurrence :=
  let weekly := wf_frequency f =s "weekly" in {|
  mr_frequency := wf_frequency f; mr_weekdays := if weekly then Some (wf_weekdays f) else None;
  mr_month_week := if weekly then None else Some (wf_monthWeek f); mr_month_weekday := if weekly then None else Some (wf_monthWeekday f);
  mr_start_time := wf_startTime f; mr_duration_minutes := wf_repeatQuarters f * 15; mr_timezone := trim (wf_timezone f);
  mr_ends_on := if truthy (wf_endsOn f) then Some (wf_endsOn f) else None |}.

(** The day boxes of a weekly series. *)
Definition toggleWeekday (d : Z) (checked : bool) (cur : list Z) : list Z :=
  if checked then cur ++ [d] else List.filter (fun x => negb (x =? d)) cur.

Definition scopeReady (f : WindowForm) : bool :=
  (wf_kind f =s "all_org") || ((wf_kind f =s "group") && truthy (wf_groupID f))
  || ((wf_kind f =s "entities") && negb (bool_decide (wf_integrationIDs f = []) && bool_decide (wf_systemIDs f = []))).
Definition repeatReady (f : WindowForm) : bool :=
  negb (wf_repeats f)
  || (((wf_frequency f =s "monthly") || negb (bool_decide (wf_weekdays f = []))) && truthy (wf_startTime f)
      && (0 <? wf_repeatQuarters f) && (wf_repeatQuarters f <=? 7 * 24 * 4) && truthy (trim (wf_timezone f))).
Definition canSubmit (f : WindowForm) : bool := truthy (trim (wf_name f)) && scopeReady f && repeatReady f.

(** *** The end of a one-shot window, in milliseconds

    [offset] is that of the browser's zone, constant over the hours involved:
    wall-clock time minus UTC. *)
Definition hour : Z := 3600000.
Definition minute : Z := 60000.
Section ends.
Context (offset now : Z).
(** [d.setMinutes(0, 0, 0)]: the full hour on the local clock. *)
Definition setMinutes0 (t : Z) : Z := (t + offset) / hour * hour - offset.
(** [d.toISOString().slice(0, 16)], and [new Date(customEnd)] of a text without a zone. *)
Definition toISOString_16 (t : Z) : Z := t / minute.
Definition parse_local (wall : Z) : Z := wall * minute - offset.
(** Choosing "Until a specific time". *)
Definition pickCustom : Z := toISOString_16 (setMinutes0 (now + 4 * hour)).
Definition submitted_ends (f : WindowForm) : Z :=
  match wf_customEnd f with Some w => parse_local w | None => now + wf_durationH f * hour end.
End ends.

(** [validateWindow] on the end of a window that starts at [starts]. *)
Definition check_ends (starts ends : Z) : string + unit :=
  if ends <=? starts then inl "ends_at must be after starts_at"
  else if 7 * 24 * hour <? ends - starts then inl "a window may last at most 7 days — extend it later if needed"
  else inr tt.

(** The default of the custom end is four hours from now on the clock of UTC, read as local time: it is
    off by the zone's offset, and over before it begins from UTC+4 on. *)
Theorem custom_end_is_shifted offset now f : offset mod minute = 0 ->
  wf_customEnd f = Some (pickCustom offset now) ->
  submitted_ends offset now f = setMinutes0 offset (now + 4 * hour) - offset /\
  (4 * hour <= offset -> check_ends now (submitted_ends offset now f) = inl "ends_at must be after starts_at").
Proof.
  intros Ho Hf. unfold submitted_ends. rewrite Hf. unfold parse_local, pickCustom, toISOString_16.
  assert (Hm : setMinutes0 offset (now + 4 * hour) / minute * minute = setMinutes0 offset (now + 4 * hour)).
  { unfold setMinutes0, hour, minute in *. pose proof (Z_div_mod_eq_full offset 60000). rewrite Ho in *.
    set (q := (_ + offset) / 3600000). replace (q * 3600000 - offset) with ((q * 60 - offset / 60000) * 60000) by lia. by rewrite Z.div_mul. }
  rewrite Hm. split; [done|]. intros H4. unfold check_ends.
  assert (Hle : setMinutes0 offset (now + 4 * hour) <= now + 4 * hour).
  { unfold setMinutes0, hour. pose proof (Z.mul_div_le (now + 4 * 3600000 + offset) 3600000). lia. }
  destruct (_ <=? now) eqn:E; [done|]. lia.
Qed.
Lemma custom_end_is_shifted_witness :
  let f := {| wf_name := "Release"; wf_reason := ""; wf_kind := "all_org"; wf_groupID := ""; wf_integrationIDs := []; wf_systemIDs := [];
    wf_durationH := 4; wf_customEnd := Some (pickCustom (5 * hour) 1700000000000); wf_announce := false; wf_repeats := false; wf_frequency := "weekly";
    wf_weekdays := [0]; wf_monthWeek := 1; wf_monthWeekday := 0; wf_startTime := "02:00"; wf_repeatQuarters := 8; wf_timezone := "Asia/Karachi"; wf_endsOn := "" |} in
  check_ends 1700000000000 (submitted_ends (5 * hour) 1700000000000 f) = inl "ends_at must be after starts_at".
Proof. intros f. apply (custom_end_is_shifted (5 * hour) 1700000000000 f); [by_compute|done|by vm_compute]. Defined.

(** ** The form and the server *)

Lemma guard_all_ok l : guard_all l = inr tt <-> Forall (fun p : bool * string => p.1 = true) l.
Proof.
  unfold guard_all. destruct (List.find _ l) as [p|] eqn:E.
  - apply find_Some_elem in E as [Hin Hp]. split; [done|]. rewrite Forall_forall. intros H. rewrite (H p Hin) in Hp. done.
  - split; [|done]. intros _. apply Forall_forall. intros p Hp. apply list_elem_of_In in Hp.
    pose proof (List.find_none _ _ E p Hp) as Hn. by apply negb_false_iff in Hn.
Qed.

(** What the controls leave behind: options of the selects, day boxes, the range of the number input. *)
Record form_ok (f : WindowForm) : Prop := {
  fo_frequency : wf_frequency f = "weekly" \/ wf_frequency f = "monthly";
  fo_weekdays : Forall (fun d => 0 <= d <= 6) (wf_weekdays f) /\ NoDup (wf_weekdays f);
  fo_monthWeek : wf_monthWeek f ∈ [1; 2; 3; 4; -1]; fo_monthWeekday : 0 <= wf_monthWeekday f <= 6
}.
Lemma toggleWeekday_ok d b cur : 0 <= d <= 6 -> b = negb (bool_decide (d ∈ cur)) ->
  Forall (fun d => 0 <= d <= 6) cur /\ NoDup cur -> Forall (fun d => 0 <= d <= 6) (toggleWeekday d b cur) /\ NoDup (toggleWeekday d b cur).
Proof.
  intros Hd -> [Hf Hn]. unfold toggleWeekday. case_bool_decide as Hin; cbn [negb].
  - split; [|by apply filterb_NoDup]. rewrite Forall_forall in Hf |- *. intros x [Hx _]%filterb_elem. by apply Hf.
  - split; [apply Forall_app; split; [done|by apply Forall_singleton]|]. apply NoDup_app. split; [done|]. split; [|apply NoDup_singleton].
    intros x Hx ->%list_elem_of_singleton. done.
Qed.

Section contract.
Context (clock : string -> option Z) (known_zone : string -> bool) (date : string -> option date_).

(** A series the form lets through is one the server takes, given texts of the time, zone and date
    controls that the server can read. *)
Theorem form_series_accepted f : form_ok f -> wf_repeats f = true -> canSubmit f = true ->
  clock (wf_startTime f) <> None -> known_zone (trim (wf_timezone f)) = true -> (wf_endsOn f <> "" -> date (wf_endsOn f) <> None) ->
  ValidateRecurrence clock known_zone date (form_recurrence f) = inr tt.
Proof.
  intros [Hfr [Hwd _] Hmw Hmd] Hrep [[_ _]%andb_true_iff Hr]%andb_true_iff Hc Hz Hd.
  unfold repeatReady in Hr. rewrite Hrep in Hr. cbn [negb orb] in Hr. rewrite !andb_true_iff in Hr. destruct Hr as [[[[Hr1 Hr2] Hr3] Hr4] Hr5].
  assert (HF : Validate_frequency (form_recurrence f) = inr tt).
  { unfold Validate_frequency. cbn [mr_frequency form_recurrence]. destruct Hfr as [Hfr|Hfr]; rewrite Hfr in *.
    - change ("weekly" =s "weekly") with true. unfold weekdays_of, form_recurrence. rewrite Hfr. cbn [mr_weekdays String.eqb Ascii.eqb Bool.eqb].
      change (Some (wf_weekdays f) ?? []) with (wf_weekdays f). cbn in Hr1. destruct (wf_weekdays f) as [|d0 l] eqn:E; [done|].
      destruct (List.find _ _) as [d|] eqn:Ef; [|done]. apply find_Some_elem in Ef as [Hin Hb]. rewrite Forall_forall in Hwd. specialize (Hwd d Hin). lia.
    - change ("monthly" =s "weekly") with false. change ("monthly" =s "monthly") with true. unfold month_week_of, month_weekday_of, form_recurrence. rewrite Hfr.
      cbn [mr_month_week mr_month_weekday]. change ("monthly" =s "weekly") with false. cbv iota. change (Some (wf_monthWeek f) ?? 0) with (wf_monthWeek f). change (Some (wf_monthWeekday f) ?? 0) with (wf_monthWeekday f).
      apply guard_all_ok. rewrite !Forall_cons, Forall_nil. cbn [fst]. split_and!; [|lia|done]. rewrite !elem_of_cons in Hmw.
      destruct Hmw as [->|[->|[->|[->|[->|H]]]]]; try done. by apply not_elem_of_nil in H. }
  unfold ValidateRecurrence. rewrite HF. cbn [err_bind]. apply guard_all_ok. unfold form_recurrence.
  cbn [mr_start_time mr_duration_minutes mr_timezone mr_ends_on]. unfold MaxWindowDuration. rewrite !Forall_cons, Forall_nil. cbn [fst].
  split_and!; try done; try lia; try (rewrite Minutes_small by lia; unfold second; lia).
  - by destruct (clock _).
  - destruct (truthy (wf_endsOn f)) eqn:E; [|done]. apply truthy_spec in E. apply orb_true_iff. right. cbn. specialize (Hd E). by destruct (date _).
Qed.
End contract.

(** The series reads the same in the list as it was entered: the stored form changes nothing of its
    summary. *)
Lemma dedupe_Z_id seen l : NoDup l -> (forall x, x ∈ l -> x ∉ seen) -> dedupe_Z seen l = l.
Proof.
  revert seen. induction l as [|d l IH]; intros seen Hn Hs; [done|]. apply NoDup_cons in Hn as [Hd Hn]. cbn.
  rewrite bool_decide_eq_false_2 by (apply Hs; left). f_equal. apply IH; [done|]. intros x Hx [->|H]%elem_of_cons; [done|]. by apply (Hs x); [right|].
Qed.
Theorem stored_series_reads_the_same f : form_ok f -> summarizeRecurrence (Normalized (form_recurrence f)) = summarizeRecurrence (form_recurrence f).
Proof.
  intros [Hfr [_ Hnd] Hmw _]. unfold summarizeRecurrence, Normalized, form_recurrence, weekdays_of, month_week_of, month_weekday_of.
  cbn [mr_frequency mr_weekdays mr_month_week mr_month_weekday mr_start_time mr_duration_minutes mr_timezone mr_ends_on].
  assert (He : truthy (wf_endsOn f) = true -> truthy_opt (Some (wf_endsOn f)) = true) by done.
  destruct Hfr as [Hfr|Hfr]; rewrite Hfr.
  - change ("weekly" =s "weekly") with true. cbv iota. set (w := wf_weekdays f) in *. change (Some w ?? []) with w.
    rewrite dedupe_Z_id by (done || by intros ? ? ?%not_elem_of_nil).
    assert (Hs : sort (cmp_by id) (omit_list (sort (cmp_by id) w) ?? []) = sort (cmp_by id) w).
    { unfold omit_list. destruct (sort (cmp_by id) w) as [|d l] eqn:E; [done|]. change (Some (d :: l) ?? []) with (d :: l). rewrite <- E.
      apply sort_id, sort_sorted. exact _. }
    rewrite Hs. destruct (truthy (wf_endsOn f)); [by rewrite !He|done].
  - change ("monthly" =s "weekly") with false. cbv iota. change (Some (wf_monthWeek f) ?? 0) with (wf_monthWeek f).
    change (Some (wf_monthWeekday f) ?? 0) with (wf_monthWeekday f). change (Some (wf_monthWeek f) ?? 1) with (wf_monthWeek f).
    assert (Hw : omit_zero (wf_monthWeek f) ?? 1 = wf_monthWeek f).
    { unfold omit_zero. destruct (_ =? 0) eqn:E; [|done]. apply Z.eqb_eq in E. rewrite E in Hmw. exfalso. revert Hmw. rewrite !elem_of_cons. intros H.
      repeat (destruct H as [H|H]; [done|]). by apply not_elem_of_nil in H. }
    assert (Hd : omit_zero (wf_monthWeekday f) ?? 0 = wf_monthWeekday f) by (unfold omit_zero; destruct (_ =? 0) eqn:E; [apply Z.eqb_eq in E; by rewrite E|done]).
    rewrite Hw, Hd. destruct (truthy (wf_endsOn f)); [by rewrite !He|done].
Qed.

(** ** Months *)

Lemma days_from_civil_day y m d : days_from_civil y m d = days_from_civil y m 1 + (d - 1).
Proof. unfold days_from_civil. lia. Qed.

(** The calendar repeats every 400 years, so facts about it are checked on one period. *)
Lemma days_from_civil_period y m d k : days_from_civil (y + 400 * k) m d = days_from_civil y m d + 146097 * k.
Proof.
  unfold days_from_civil.
  assert (H : forall y', (y' + 400 * k) / 400 = y' / 400 + k) by (intros; rewrite Z.mul_comm, Z.div_add; lia).
  destruct (m <=? 2).
  - replace (y + 400 * k - 1) with (y - 1 + 400 * k) by lia. rewrite H.
    replace (y - 1 + 400 * k - ((y - 1) / 400 + k) * 400) with (y - 1 - (y - 1) / 400 * 400) by lia. lia.
  - rewrite H. replace (y + 400 * k - (y / 400 + k) * 400) with (y - y / 400 * 400) by lia. lia.
Qed.
Lemma days_in_month_period y m k : days_in_month (y + 400 * k) m = days_in_month y m.
Proof.
  unfold days_in_month. replace (y + 400 * k + 1) with (y + 1 + 400 * k) by lia. rewrite !days_from_civil_period. destruct (m =? 12); lia.
Qed.

(** [p] holds from [i] on, [k] times. *)
Fixpoint all_from (p : Z -> bool) (k : nat) (i : Z) : bool :=
  match k with O => true | S k => p i && all_from p k (i + 1) end.
Definition all_below (n : Z) (p : Z -> bool) : bool := all_from p (Z.to_nat n) 0.
Lemma all_from_spec p k i x : all_from p k i = true -> i <= x < i + Z.of_nat k -> p x = true.
Proof.
  revert i. induction k as [|k IH]; intros i H Hx; [lia|]. cbn [all_from] in H. apply andb_true_iff in H as [H1 H2].
  destruct (decide (x = i)) as [->|]; [done|]. apply (IH (i + 1)); [done|lia].
Qed.
Lemma below_all (n : Z) (p : Z -> bool) x : all_below n p = true -> 0 <= x < n -> p x = true.
Proof. intros H Hx. apply (all_from_spec p (Z.to_nat n) 0); [done|lia]. Qed.

Lemma month_lengths : all_below 400 (fun y => all_below 12 (fun m => (28 <=? days_in_month y (m + 1)) && (days_in_month y (m + 1) <=? 31))) = true.
Proof. vm_compute. reflexivity. Qed.
Lemma days_in_month_range y m : 1 <= m <= 12 -> 28 <= days_in_month y m <= 31.
Proof.
  intros Hm. rewrite (Z_div_mod_eq_full y 400), Z.add_comm, days_in_month_period.
  pose proof (below_all 400 _ (y mod 400) month_lengths (Z.mod_pos_bound y 400 ltac:(lia))) as H. cbn beta in H.
  pose proof (below_all 12 _ (m - 1) H ltac:(lia)) as H2. cbn beta in H2. replace (m - 1 + 1) with m in H2 by lia. lia.
Qed.

(** A monthly recurrence has one day in every month: the chosen weekday of the chosen week. *)
Theorem monthly_once_a_month r y m : mr_frequency r = "monthly" -> Validate_frequency r = inr tt -> 1 <= m <= 12 ->
  exists d, (1 <= d <= days_in_month y m /\ matches r y m d (weekday_of_day (days_from_civil y m d)) = true) /\
    forall d', 1 <= d' <= days_in_month y m -> matches r y m d' (weekday_of_day (days_from_civil y m d')) = true -> d' = d.
Proof.
  intros Hf HV Hm. pose proof (days_in_month_range y m Hm) as HL.
  unfold Validate_frequency in HV. rewrite Hf in HV. change ("monthly" =s "weekly") with false in HV. change ("monthly" =s "monthly") with true in HV.
  apply guard_all_ok in HV. rewrite !Forall_cons in HV. cbn [fst] in HV. destruct HV as (Hw & Hd & _).
  unfold matches. rewrite Hf. change ("monthly" =s "weekly") with false. change ("monthly" =s "monthly") with true. cbv iota.
  set (F := days_from_civil y m 1). set (w := month_weekday_of r) in *. set (k := month_week_of r) in *. set (L := days_in_month y m) in *.
  assert (HW : forall d, weekday_of_day (days_from_civil y m d) = (F + d - 1 + 4) mod 7).
  { intros d. unfold weekday_of_day. rewrite days_from_civil_day. f_equal. subst F. lia. }
  pose proof (Z.mod_pos_bound (w - (F + 4)) 7 ltac:(lia)) as Hmod. set (a := 1 + (w - (F + 4)) mod 7). assert (Ha : 1 <= a <= 7 /\ (F + a - 1 + 4) mod 7 = w).
  { subst a. split; [lia|].
    replace (F + (1 + (w - (F + 4)) mod 7) - 1 + 4) with ((F + 4) + (w - (F + 4)) mod 7) by lia. rewrite Zplus_mod_idemp_r.
    replace (F + 4 + (w - (F + 4))) with w by lia. apply Z.mod_small. lia. }
  assert (Hall : forall d, (F + d - 1 + 4) mod 7 = w <-> exists j, d = a + 7 * j).
  { intros d. destruct Ha as [_ Ha]. split.
    - intros H. exists ((d - a) / 7). assert (Hz : (d - a) mod 7 = 0).
      { replace (d - a) with ((F + d - 1 + 4) - (F + a - 1 + 4)) by lia. rewrite Zminus_mod, H, Ha, Z.sub_diag. done. }
      pose proof (Z_div_mod_eq_full (d - a) 7). lia.
    - intros [j ->]. replace (F + (a + 7 * j) - 1 + 4) with (F + a - 1 + 4 + j * 7) by lia. by rewrite Z.mod_add by lia. }
  destruct (k =? -1) eqn:Ek.
  - exists (a + 7 * ((L - a) / 7)). pose proof (Z_div_mod_eq_full (L - a) 7) as Hq. pose proof (Z.mod_pos_bound (L - a) 7 ltac:(lia)) as Hm7.
    assert (Hq0 : 0 <= (L - a) / 7) by (apply Z.div_pos; lia). split.
    + split; [lia|]. rewrite HW. assert (Hin : (F + (a + 7 * ((L - a) / 7)) - 1 + 4) mod 7 = w) by (apply Hall; eauto).
      rewrite Hin, Z.eqb_refl. cbn [negb]. lia.
    + intros d' Hd' H. rewrite HW in H. destruct (w =? _) eqn:E; [|done]. apply Z.eqb_eq in E. symmetry in E. apply Hall in E as [j ->]. cbn [negb] in H.
      assert (j = (L - a) / 7); [|by subst]. apply Z.ltb_lt in H. lia.
  - exists (a + 7 * (k - 1)). split.
    + split; [lia|]. rewrite HW. assert (Hin : (F + (a + 7 * (k - 1)) - 1 + 4) mod 7 = w) by (apply Hall; eauto).
      rewrite Hin, Z.eqb_refl. cbn [negb]. apply Z.eqb_eq. replace (a + 7 * (k - 1) - 1) with (a - 1 + (k - 1) * 7) by lia.
      rewrite Z.div_add by lia. rewrite Z.div_small by lia. lia.
    + intros d' Hd' H. rewrite HW in H. destruct (w =? _) eqn:E; [|done]. apply Z.eqb_eq in E. symmetry in E. apply Hall in E as [j ->]. cbn [negb] in H.
      apply Z.eqb_eq in H. replace (a + 7 * j - 1) with (a - 1 + j * 7) in H by lia. rewrite Z.div_add in H by lia. rewrite Z.div_small in H by lia. lia.
Qed.

(** ** [Next] *)

(** Dates from 1970 on. *)
Definition valid_date (d : date_) : Prop :=
  1 <= d_month d <= 12 /\ 1 <= d_day d <= days_in_month (d_year d) (d_month d) /\ 0 <= day_number d.
Lemma next_date_number d : 1 <= d_month d <= 12 -> 1 <= d_day d <= days_in_month (d_year d) (d_month d) ->
  1 <= d_month (next_date d) <= 12 /\ 1 <= d_day (next_date d) <= days_in_month (d_year (next_date d)) (d_month (next_date d)) /\
  day_number (next_date d) = day_number d + 1.
Proof.
  destruct d as [y m d]. unfold next_date, day_number. cbn [d_year d_month d_day]. intros Hm Hd.
  destruct (d <? days_in_month y m) eqn:E; cbn [d_year d_month d_day].
  - split; [done|]. split; [lia|]. rewrite (days_from_civil_day y m (d + 1)), (days_from_civil_day y m d). lia.
  - assert (HL : d = days_in_month y m) by lia. unfold days_in_month in HL. destruct (m =? 12) eqn:Em; cbn [d_year d_month d_day].
    + pose proof (days_in_month_range (y + 1) 1 ltac:(lia)). split; [lia|]. split; [lia|]. rewrite (days_from_civil_day y m d). lia.
    + pose proof (days_in_month_range y (m + 1) ltac:(lia)). split; [lia|]. split; [lia|]. rewrite (days_from_civil_day y m d). lia.
Qed.
Lemma next_date_spec d : valid_date d -> valid_date (next_date d) /\ day_number (next_date d) = day_number d + 1.
Proof. intros (Hm & Hd & H0). destruct (next_date_number d Hm Hd) as (? & ? & E). split; [split_and!; lia|done]. Qed.

(** A zone in which midnight is on its own date and midnights come one after the other. *)
Record good_location (loc : Location) : Prop := {
  gl_valid : forall t, valid_date (day_of loc t); gl_day : forall d, valid_date d -> day_of loc (at_ loc d 0) = d;
  gl_step : forall d, valid_date d -> at_ loc d 0 < at_ loc (next_date d) 0
}.

Fixpoint dates (k : nat) (d : date_) : list date_ := match k with O => [] | S k => d :: dates k (next_date d) end.
Definition later (k : nat) (d : date_) : date_ := Nat.iter k next_date d.
Lemma later_S k d : later (S k) d = later k (next_date d).
Proof. unfold later. induction k as [|k IH]; [done|]. cbn in *. by rewrite IH. Qed.

Section next.
Context (clock : string -> option Z) (known_zone : string -> bool) (date : string -> option date_) (zone : string -> Location).
Context (loc : Location) (r : MaintenanceRecurrence) (after : Z) (n : nat) (skip : list Z).
#[local] Notation occ := (occurrence clock loc r after skip).
#[local] Notation stopped t := (after + occurrenceHorizon <= t \/ past_end date loc r t = true).

Lemma next_from_spec d out : good_location loc -> valid_date d ->
  exists fuel k, next_from clock date fuel loc r after n skip (at_ loc d 0) out = Some (out ++ omap occ (dates k d)) /\
    ((length out <= n)%nat -> (length (out ++ omap occ (dates k d)) <= n)%nat) /\
    ((length (out ++ omap occ (dates k d)) < n)%nat -> stopped (at_ loc (later k d) 0)).
Proof.
  intros Hg. remember (Z.to_nat (after + occurrenceHorizon - at_ loc d 0)) as m eqn:Em.
  revert d out Em. induction m as [m IH] using lt_wf_ind. intros d out -> Hd.
  destruct (bool_decide (n <= length out)%nat || (after + occurrenceHorizon <=? at_ loc d 0)) eqn:E1.
  { exists 1%nat, 0%nat. cbn [next_from]. rewrite E1. cbn [dates omap list_omap]. rewrite app_nil_r. split; [done|]. split; [done|].
    intros Hlt. left. change (later 0 d) with d. apply orb_true_iff in E1 as [E1|E1]; [apply bool_decide_eq_true in E1; lia|lia]. }
  destruct (past_end date loc r (at_ loc d 0)) eqn:E2.
  { exists 1%nat, 0%nat. cbn [next_from]. rewrite E1, E2. cbn [dates omap list_omap]. rewrite app_nil_r. split; [done|]. split; [done|].
    intros _. by right. }
  apply orb_false_iff in E1 as [E1 E3]. pose proof E1 as Hlen. apply bool_decide_eq_false in Hlen.
  pose proof (gl_step loc Hg d Hd) as Hstep. destruct (next_date_spec d Hd) as [Hd' _].
  set (out' := match occ d with Some o => out ++ [o] | None => out end).
  destruct (IH (Z.to_nat (after + occurrenceHorizon - at_ loc (next_date d) 0)) ltac:(lia) (next_date d) out' eq_refl Hd') as (fuel & k & Hf & Hl & Hs).
  assert (Hout : out' ++ omap occ (dates k (next_date d)) = out ++ omap occ (dates (S k) d)).
  { subst out'. cbn [dates omap list_omap]. destruct (occ d); [by rewrite <- (assoc_L (++))|done]. }
  exists (S fuel), (S k). rewrite later_S, <- Hout. split; [|split; [|done]].
  - cbn [next_from]. rewrite E1, E3, E2, (gl_day loc Hg d Hd). exact Hf.
  - intros _. apply Hl. subst out'. destruct (occ d); [rewrite length_app; cbn; lia|lia].
Qed.
End next.

(** C20. [Next] returns, and returns the first occurrences: those of the local days from the one [dur]
    before on, at most [n], and fewer only when the days up to the horizon or the end date were all
    looked at. *)
Theorem Next_lists_occurrences clock known_zone date zone r after n skip :
  ValidateRecurrence clock known_zone date r = inr tt -> n <> 0%nat -> good_location (zone (mr_timezone r)) ->
  let loc := zone (mr_timezone r) in let first := day_of loc (after - dur r) in
  exists fuel k out, Next clock known_zone date zone fuel r after n skip = Some out /\
    out = omap (occurrence clock loc r after skip) (dates k first) /\ (length out <= n)%nat /\
    ((length out < n)%nat -> after + occurrenceHorizon <= at_ loc (later k first) 0 \/ past_end date loc r (at_ loc (later k first) 0) = true).
Proof.
  intros HV Hn Hg loc first. destruct (next_from_spec clock date loc r after n skip first [] Hg (gl_valid _ Hg _)) as (fuel & k & Hf & Hl & Hs).
  exists fuel, k, (omap (occurrence clock loc r after skip) (dates k first)). split; [|split; [done|split; [apply Hl; cbn; lia|exact Hs]]].
  unfold Next. rewrite HV. by rewrite bool_decide_eq_false_2.
Qed.

(** Where a day has no midnight and the zone places it on the evening before, the loop does not move
    on: it never returns when that day has no occurrence. *)
Theorem midnight_gap_hangs clock date loc r after n skip t fuel : (0 < n)%nat ->
  t < after + occurrenceHorizon -> past_end date loc r t = false -> matches_day r (day_of loc t) = false ->
  at_ loc (next_date (day_of loc t)) 0 = t ->
  next_from clock date fuel loc r after n skip t [] = None.
Proof.
  intros Hn Ht Hp Hm Hgap. induction fuel as [|fuel IH]; [done|]. cbn [next_from length].
  rewrite bool_decide_eq_false_2 by lia. destruct (_ <=? t) eqn:E; [lia|]. cbn [orb]. rewrite Hp. unfold occurrence. rewrite Hm, Hgap. exact IH.
Qed.

(** ** Zones *)

(** A zone that changes its offset once, at [x], with the instants of [time.Date]: the offset is looked
    up at the wall clock's own number, and again at the instant that gives when that lies on the other
    side of the change.  Days are counted from [base] on. *)
Section zone.
Context (base : date_) (x before behind : Z).
Definition offset_at (t : Z) : Z := if t <? x then before else behind.
Definition go_instant (wall : Z) : Z :=
  let utc := wall - offset_at wall in
  if Bool.eqb (utc <? x) (wall <? x) then utc else wall - offset_at utc.
Definition one_change : Location := {|
  at_ := fun d m => go_instant (day_number d * 86400 + m * 60);
  day_of := fun t => later (Z.to_nat ((t + offset_at t) / 86400 - day_number base)) base |}.
End zone.
Definition epoch : date_ := Date 1970 1 1.
Definition UTC : Location := one_change epoch 0 0 0.
(** Chile from September 2026 on: from UTC-4 to UTC-3 in the night to 6 September 2026, at midnight. *)
Definition Santiago : Location := one_change (Date 2026 9 1) (days_from_civil 2026 9 6 * 86400 + 4 * 3600) (-4 * 3600) (-3 * 3600).

Lemma later_number k d : valid_date d -> valid_date (later k d) /\ day_number (later k d) = day_number d + Z.of_nat k.
Proof.
  intros Hd. induction k as [|k [Hv Hn]]; [split; [done|unfold later; cbn; lia]|].
  destruct (next_date_spec _ Hv) as [Hv' Hn']. change (later (S k) d) with (next_date (later k d)). split; [done|]. lia.
Qed.
Lemma epoch_valid : valid_date epoch. Proof. by vm_compute. Qed.

Definition month_start (i : Z) : Z := days_from_civil (i / 12) (i mod 12 + 1) 1.
Lemma month_end i : days_in_month (i / 12) (i mod 12 + 1) = month_start (i + 1) - month_start i.
Proof.
  unfold days_in_month, month_start. pose proof (Z_div_mod_eq_full i 12) as E. pose proof (Z.mod_pos_bound i 12 ltac:(lia)) as Hm.
  destruct (i mod 12 + 1 =? 12) eqn:E12.
  - replace ((i + 1) / 12) with (i / 12 + 1) by (apply Z.div_unique with 0; lia). by replace ((i + 1) mod 12) with 0 by (apply Z.mod_unique with (i / 12 + 1); lia).
  - replace ((i + 1) / 12) with (i / 12) by (apply Z.div_unique with (i mod 12 + 1); lia).
    by replace ((i + 1) mod 12) with (i mod 12 + 1) by (apply Z.mod_unique with (i / 12); lia).
Qed.
Lemma month_start_step i : 28 <= month_start (i + 1) - month_start i.
Proof. rewrite <- month_end. apply days_in_month_range. pose proof (Z.mod_pos_bound i 12). lia. Qed.
Lemma month_start_lt i k : month_start i + 28 * Z.of_nat k <= month_start (i + Z.of_nat k).
Proof.
  induction k as [|k IH]; [replace (i + Z.of_nat 0) with i by lia; lia|]. pose proof (month_start_step (i + Z.of_nat k)).
  replace (i + Z.of_nat (S k)) with (i + Z.of_nat k + 1) by lia. rewrite Nat2Z.inj_succ. lia.
Qed.
Lemma day_number_month d : 1 <= d_month d <= 12 -> day_number d = month_start (12 * d_year d + d_month d - 1) + (d_day d - 1).
Proof.
  intros Hm. unfold day_number, month_start. rewrite (days_from_civil_day _ _ (d_day d)).
  replace ((12 * d_year d + d_month d - 1) / 12) with (d_year d) by (apply Z.div_unique with (d_month d - 1); lia).
  replace ((12 * d_year d + d_month d - 1) mod 12) with (d_month d - 1) by (apply Z.mod_unique with (d_year d); lia).
  by replace (d_month d - 1 + 1) with (d_month d) by lia.
Qed.
Lemma day_number_inj d e : valid_date d -> valid_date e -> day_number d = day_number e -> d = e.
Proof.
  assert (H : forall d e, valid_date d -> valid_date e -> 12 * d_year d + d_month d < 12 * d_year e + d_month e -> day_number d < day_number e).
  { clear. intros d e (Hm & Hd & _) (Hm' & Hd' & _) Hlt. rewrite !day_number_month by done. set (i := 12 * d_year d + d_month d - 1).
    set (j := 12 * d_year e + d_month e - 1). pose proof (month_start_lt (i + 1) (Z.to_nat (j - i - 1))) as Hs.
    rewrite Z2Nat.id in Hs by lia. replace (i + 1 + (j - i - 1)) with j in Hs by lia.
    pose proof (month_end i) as He. replace (i / 12) with (d_year d) in He by (apply Z.div_unique with (d_month d - 1); lia).
    replace (i mod 12 + 1) with (d_month d) in He by (cut (d_month d - 1 = i mod 12); [lia|]; apply Z.mod_unique with (d_year d); lia). lia. }
  intros Hd He E. destruct (Z.lt_total (12 * d_year d + d_month d) (12 * d_year e + d_month e)) as [Hl|[Hl|Hl]].
  - pose proof (H d e Hd He Hl). lia.
  - pose proof E as E2. rewrite !day_number_month in E2 by (by apply Hd || by apply He). destruct Hd as (? & ? & _), He as (? & ? & _).
    assert (d_year d = d_year e /\ d_month d = d_month e) as [Ey Em] by lia. destruct d, e; cbn in *. subst. f_equal. lia.
  - pose proof (H e d He Hd Hl). lia.
Qed.

(** A zone of one offset is good. *)
Lemma UTC_good : good_location UTC.
Proof.
  assert (Ho : forall t, offset_at 0 0 0 t = 0) by (intros t; unfold offset_at; by case_if).
  assert (Hat : forall d m, at_ UTC d m = day_number d * 86400 + m * 60).
  { intros d m. unfold UTC, one_change, at_, go_instant. rewrite !Ho, Z.sub_0_r. by destruct (Bool.eqb _ _). }
  split.
  - intros t. by apply later_number, epoch_valid.
  - intros d Hd. rewrite Hat. unfold UTC, one_change, day_of. rewrite Ho, Z.mul_0_l, !Z.add_0_r, Z.div_mul by lia.
    change (day_number epoch) with 0. rewrite Z.sub_0_r.
    destruct (later_number (Z.to_nat (day_number d)) epoch epoch_valid) as [Hv Hn]. apply day_number_inj; [done|done|].
    rewrite Hn. change (day_number epoch) with 0. destruct Hd as (_ & _ & ?). lia.
  - intros d Hd. rewrite !Hat. destruct (next_date_spec d Hd) as [_ ->]. lia.
Qed.

Definition hh_mm (s : string) : option Z :=
  match split ":" s with
  | [h; m] => match digits h, digits m with
              | Some h, Some m => if (h <? 24) && (m <? 60) then Some (h * 60 + m) else None
              | _, _ => None end
  | _ => None
  end.
Definition iso_date (s : string) : option date_ :=
  match split "-" s with
  | [y; m; d] => match digits y, digits m, digits d with Some y, Some m, Some d => Some (Date y m d) | _, _, _ => None end
  | _ => None
  end.
Definition zones (name : string) : Location := if name =s "America/Santiago" then Santiago else UTC.
Definition weekly (day : Z) (tz : string) : MaintenanceRecurrence := {|
  mr_frequency := "weekly"; mr_weekdays := Some [day]; mr_month_week := None; mr_month_weekday := None; mr_start_time := "02:00";
  mr_duration_minutes := 120; mr_timezone := tz; mr_ends_on := None |}.
(** A length of 2^53 minutes passes the check of seven days: in nanoseconds it wraps to
    nothing, and the occurrences have no length. *)
Example long_length_wraps :
  let r := {| mr_frequency := "weekly"; mr_weekdays := Some [1]; mr_month_week := None; mr_month_weekday := None; mr_start_time := "02:00";
    mr_duration_minutes := 2 ^ 53; mr_timezone := "UTC"; mr_ends_on := None |} in
  ValidateRecurrence hh_mm (fun _ => true) iso_date r = inr tt /\ dur r = 0.
Proof. split; by_compute. Qed.

(** Noon UTC of Saturday 5 September 2026. *)
Definition saturday : Z := days_from_civil 2026 9 5 * 86400 + 12 * 3600.

(** The days of a series in Chile are walked in vain once the change of clocks at midnight is ahead. *)
Theorem Santiago_hangs fuel : Next hh_mm (fun _ => true) iso_date zones fuel (weekly 1 "America/Santiago") saturday 3 [] = None.
Proof.
  unfold Next. replace (ValidateRecurrence _ _ _ _) with (inr tt : string + unit) by by_compute. rewrite bool_decide_eq_false_2 by done.
  change (zones (mr_timezone (weekly 1 "America/Santiago"))) with Santiago. cbv zeta.
  assert (Ht : at_ Santiago (next_date (day_of Santiago (first_midnight Santiago (weekly 1 "America/Santiago") saturday))) 0
    = days_from_civil 2026 9 6 * 86400 + 3 * 3600) by by_compute.
  set (t0 := first_midnight _ _ _) in *. destruct fuel as [|fuel]; [done|]. cbn [next_from length].
  rewrite bool_decide_eq_false_2 by lia.
  assert (E1 : (saturday + occurrenceHorizon <=? t0) = false) by by_compute. rewrite E1. cbn [orb].
  assert (E2 : past_end iso_date Santiago (weekly 1 "America/Santiago") t0 = false) by by_compute. rewrite E2.
  unfold occurrence at 1. assert (E3 : matches_day (weekly 1 "America/Santiago") (day_of Santiago t0) = false) by by_compute. rewrite E3, Ht.
  apply midnight_gap_hangs; [lia|by_compute|by_compute|by_compute|by_compute].
Qed.
(** When the evening it stays on has an occurrence, that one is listed again and again. *)
Example Santiago_repeats :
  match Next hh_mm (fun _ => true) iso_date zones 10 (weekly 6 "America/Santiago") (saturday - 86400) 3 [] with
  | Some l => map (fun o => oc_StartsAt o - saturday) l = [-21600; -21600; -21600]
  | None => False end.
Proof. by_compute. Qed.

Lemma Next_lists_occurrences_witness : exists fuel k out,
  Next hh_mm (fun _ => true) iso_date zones fuel (weekly 1 "UTC") (2 * 86400) 3 [] = Some out /\
  out = omap (occurrence hh_mm UTC (weekly 1 "UTC") (2 * 86400) []) (dates k (Date 1970 1 2)) /\ (length out <= 3)%nat.
Proof.
  destruct (Next_lists_occurrences hh_mm (fun _ => true) iso_date zones (weekly 1 "UTC") (2 * 86400) 3 [] ltac:(by_compute) ltac:(done) UTC_good)
    as (fuel & k & out & H1 & H2 & H3 & _).
  exists fuel, k, out. split; [exact H1|]. split; [|exact H3]. rewrite H2.
  replace (day_of _ _) with (Date 1970 1 2) by by_compute. reflexivity.
Defined.

Lemma monthly_once_a_month_witness : exists d, matches {|
  mr_frequency := "monthly"; mr_weekdays := None; mr_month_week := Some (-1); mr_month_weekday := Some 5; mr_start_time := "02:00";
  mr_duration_minutes := 120; mr_timezone := "UTC"; mr_ends_on := None |} 2026 2 d (weekday_of_day (days_from_civil 2026 2 d)) = true.
Proof.
  destruct (monthly_once_a_month {| mr_frequency := "monthly"; mr_weekdays := None; mr_month_week := Some (-1); mr_month_weekday := Some 5; mr_start_time := "02:00";
    mr_duration_minutes := 120; mr_timezone := "UTC"; mr_ends_on := None |} 2026 2 eq_refl eq_refl ltac:(lia)) as (d & [_ H] & _). exists d. exact H.
Defined.

Definition friday_form : WindowForm := {| wf_name := "Patch night"; wf_reason := ""; wf_kind := "entities"; wf_groupID := ""; wf_integrationIDs := ["i1"];
  wf_systemIDs := []; wf_durationH := 4; wf_customEnd := None; wf_announce := false; wf_repeats := true; wf_frequency := "weekly"; wf_weekdays := [5; 2];
  wf_monthWeek := 1; wf_monthWeekday := 0; wf_startTime := "02:00"; wf_repeatQuarters := 8; wf_timezone := "UTC"; wf_endsOn := "2026-12-31" |}.
Lemma friday_form_ok : form_ok friday_form.
Proof.
  split; [by left| |left|by vm_compute]. split; [cbn; rewrite !Forall_cons, Forall_nil; lia|]. cbn. apply NoDup_cons. split; [|apply NoDup_singleton].
  by intros H%list_elem_of_singleton.
Qed.
Lemma form_series_accepted_witness : ValidateRecurrence hh_mm (fun _ => true) iso_date (form_recurrence friday_form) = inr tt.
Proof. apply form_series_accepted; [exact friday_form_ok|done|by_compute|by vm_compute|done|by vm_compute]. Defined.
Lemma stored_series_reads_the_same_witness : summarizeRecurrence (Normalized (form_recurrence friday_form)) = summarizeRecurrence (form_recurrence friday_form).
Proof. exact (stored_series_reads_the_same friday_form friday_form_ok). Defined.

Lemma midnight_gap_hangs_witness : next_from hh_mm iso_date 100 Santiago (weekly 1 "America/Santiago") saturday 3 [] (days_from_civil 2026 9 6 * 86400 + 3 * 3600) [] = None.
Proof. apply midnight_gap_hangs; [lia|by_compute|by_compute|by_compute|by_compute]. Defined.

(** ** What a window silences *)

Lemma dedupe_elem x l : x ∈ dedupe l <-> x ∈ l.
Proof.
  unfold dedupe. assert (H : forall seen, x ∈ dedupe_from seen l <-> x ∈ l /\ x ∉ seen); [|rewrite H; set_solver].
  induction l as [|y l IH]; intros seen; cbn; [set_solver|]. case_bool_decide; rewrite ?elem_of_cons, IH, ?elem_of_cons.
  - split; [tauto|]. intros [[->|?] ?]; tauto.
  - destruct (decide (x = y)) as [->|]; tauto.
Qed.


(** C21. A window over chosen integrations and systems silences the checks of those integrations, of the
    services that were members of those systems when it was written, and no other check. *)
Theorem entities_window_covers_iff members id scope s rule : ms_kind scope = "entities" -> normalizeWindowScope members scope = inr s ->
  Covers (engine_window id s) rule = true <->
  (exists i, g_IntegrationID rule = Some i /\ i ∈ ms_integration_ids scope ?? []) \/
  (g_ServiceName rule <> "" /\ (g_ServiceName rule ∈ ms_service_names scope ?? [] \/
     exists sys, sys ∈ ms_system_ids scope ?? [] /\ g_ServiceName rule ∈ members sys)).
Proof.
  intros Hk. unfold normalizeWindowScope. rewrite Hk. change ("entities" =s "all_org") with false. change ("entities" =s "group") with false.
  change ("entities" =s "entities") with true. cbv iota. destruct (_ && _); [done|]. intros [= <-].
  unfold Covers, engine_window. cbn [ew_ScopeKind ew_IntegrationIDs ew_ServiceNames ms_kind ms_integration_ids ms_service_names ms_service_names_expanded].
  change ("entities" =s "all_org") with false. change ("entities" =s "group") with false. change ("entities" =s "entities") with true. cbv iota.
  rewrite orb_true_iff, andb_true_iff, truthy_spec, bool_decide_eq_true, elem_of_app. f_equiv.
  - destruct (g_IntegrationID rule) as [i|]; [rewrite bool_decide_eq_true|]; naive_solver.
  - rewrite omit_list_default, sort_elem, dedupe_elem. rewrite list_elem_of_bind. naive_solver.
Qed.

(** A check bound to a system itself is silenced by no window over that system, and a team's window
    silences no trace-completion rule. *)
Theorem not_silenced members id scope s rule : normalizeWindowScope members scope = inr s ->
  (ms_kind scope = "entities" -> g_IntegrationID rule = None -> g_ServiceName rule = "" -> Covers (engine_window id s) rule = false) /\
  (ms_kind scope = "group" -> forall integrationID, SuppressingWindowForIntegration [engine_window id s] integrationID = None).
Proof.
  unfold normalizeWindowScope. intros Hs. split; intros Hk; rewrite Hk in Hs.
  - change ("entities" =s "all_org") with false in Hs. change ("entities" =s "group") with false in Hs.
    change ("entities" =s "entities") with true in Hs. cbv iota in Hs. destruct (_ && _); [done|]. injection Hs as <-.
    intros Hi Hn. unfold Covers. rewrite Hi, Hn. done.
  - intros i. cbn in Hs. destruct (ms_group_id scope); [|done]. by injection Hs as <-.
Qed.

Definition scope_of (ints systems : list string) : MaintenanceWindowScope := {|
  ms_kind := "entities"; ms_integration_ids := Some ints; ms_system_ids := Some systems; ms_service_names := None;
  ms_service_names_expanded := None; ms_group_id := None |}.
Lemma entities_window_covers_iff_witness :
  match normalizeWindowScope (fun _ => ["erp"; "wms"]) (scope_of [] ["s1"]) with
  | inr s => Covers (engine_window "w" s) (integration_rule "i1") = true <-> False
  | inl _ => False end.
Proof.
  destruct (normalizeWindowScope _ _) as [m|s] eqn:E; [by vm_compute in E|].
  rewrite (entities_window_covers_iff (fun _ => ["erp"; "wms"]) "w" (scope_of [] ["s1"]) s (integration_rule "i1") eq_refl E).
  split; [|done]. intros [(i & _ & H)|[H _]]; [by apply not_elem_of_nil in H|done].
Defined.
Lemma not_silenced_witness :
  match normalizeWindowScope (fun _ => []) {| ms_kind := "group"; ms_integration_ids := None; ms_system_ids := None; ms_service_names := None;
    ms_service_names_expanded := None; ms_group_id := Some "t1" |} with
  | inr s => SuppressingWindowForIntegration [engine_window "w" s] "i1" = None
  | inl _ => False end.
Proof.
  destruct (normalizeWindowScope _ _) as [m|s] eqn:E; [by vm_compute in E|]. exact (proj2 (not_silenced _ "w" _ s (integration_rule "i1") E) eq_refl "i1").
Defined.
