(* ===== verification/Session.v ===== *)
(** * Session and access

    Who is signed in and what they may do: the active organization
    ([lib/activeOrg.ts]), the fetch of [/me] and its adapter
    ([components/UserProvider.tsx]), roles and permissions
    ([lib/useCurrentUser.ts]), scoped rights ([lib/useAccess.ts]), and the tabs
    of the settings page ([lib/settingsAccess.ts], [pages/Settings.tsx]). *)

From S2P Require Import Prelude JsString JsArray Host Json Types Client Endpoints.

Local Open Scope char_scope.
Local Open Scope string_scope.
Local Open Scope list_scope.

(** ** The organization pinned in the browser

    The local storage of the browser, or none when it is blocked. *)
Inductive Storage := Unavailable | Stored (slug : option string).

Definition getActiveOrgSlug (st : Storage) : option string :=
  match st with Unavailable => None | Stored slug => slug end.

Definition setActiveOrgSlug (slug : option string) (st : Storage) : Storage :=
  match st with
  | Unavailable => Unavailable
  | Stored _ => Stored (if truthy_opt slug then slug else None)
  end.

(** The storage after the switch, and the page loaded. *)
Definition switchToOrg (slug : string) (st : Storage) : Storage * string := (setActiveOrgSlug (Some slug) st, "/").

(** ** Roles and permissions *)

Definition ROLE_PERMISSIONS : list (string * list string) := [
  ("org-admin", ["integration.read"; "integration.write"; "integration.delete"; "stuck.replay"; "alert.mute"; "org.manage"]);
  ("integration-contributor", ["integration.read"; "integration.write"; "integration.delete"; "stuck.replay"; "alert.mute"]);
  ("operator", ["integration.read"; "stuck.replay"; "alert.mute"]);
  ("viewer", ["integration.read"])].

Definition ROLE_DISPLAY : list (string * string) := [
  ("org-admin", "Org admin");
  ("integration-contributor", "Integration contributor");
  ("operator", "Operator");
  ("viewer", "Viewer")].

Definition displayRole (slug : string) : option string := omap_get slug ROLE_DISPLAY.

(** The permissions of a role; [None] where the source's [?.] meets [undefined]. *)
Definition role_permissions (role : Role) : option (list string) :=
  match ro_slug role with Some slug => omap_get slug ROLE_PERMISSIONS | None => None end.

Definition can (roles : list Role) (perm : string) : bool :=
  List.existsb (fun role => match role_permissions role with
                            | Some l => bool_decide (perm ∈ l)
                            | None => false
                            end) roles.

(** ** The adapter of [/me]

    A [switch] without a default returns [undefined] for any other role. *)
Definition mapRoleSlug (role : string) : option string :=
  if role =s "admin" then Some "org-admin"
  else if role =s "editor" then Some "integration-contributor"
  else if role =s "viewer" then Some "viewer"
  else None.

Definition displayForSlug (slug : option string) : option string :=
  match slug with
  | Some s =>
      if s =s "org-admin" then Some "Admin"
      else if s =s "integration-contributor" then Some "Editor"
      else if s =s "operator" then Some "Operator"
      else if s =s "viewer" then Some "Viewer"
      else None
  | None => None
  end.

Definition adaptMembership (m : AuthMembership) : OrganizationMembership :=
  let slug := mapRoleSlug (am_role m) in
  {| om_organization := {| og_id := ao_id (am_org m); og_slug := ao_slug (am_org m); og_name := ao_name (am_org m) |};
     om_roles := [{| ro_slug := slug; ro_name := displayForSlug slug |}] |}.

(** The separators [/[\s.@_-]/], in UTF-8. *)
Definition sep1 (c : ascii) : bool :=
  ws1 c || Ascii.eqb c "." || Ascii.eqb c "@" || Ascii.eqb c "_" || Ascii.eqb c "-".

Definition push_char (c : ascii) (l : list string) : list string :=
  match l with s :: l => String c s :: l | [] => [String c ""] end.

(** [split] at every separator.  The source splits at runs of separators, which
    gives the same pieces but for empty ones, and drops the empty ones. *)
Fixpoint split_seps (s : string) : list string :=
  match s with
  | "" => [""]
  | String c s1 =>
      if sep1 c then "" :: split_seps s1
      else match s1 with
           | "" => push_char c (split_seps s1)
           | String d s2 =>
               if ws2 c d then "" :: split_seps s2
               else match s2 with
                    | "" => push_char c (split_seps s1)
                    | String e s3 => if ws3 c d e then "" :: split_seps s3 else push_char c (split_seps s1)
                    end
           end
  end.

Section session.
Context `{Host}.

(** [None]: [parts[0].slice] with no part, a [TypeError].  [x[0]] and
    [x.slice(0, 2)] drop the half of a character that they cut. *)
Definition initialsFor (s : string) : option string :=
  let trimmed := trim s in
  if negb (truthy trimmed) then Some "?"
  else match List.filter truthy (split_seps trimmed) with
       | a :: b :: _ => Some (toUpperCase (utf16_slice_to 1 a +:+ utf16_slice_to 1 b))
       | [a] => Some (toUpperCase (utf16_slice_to 2 a))
       | [] => None
       end.

(** [a || b || ""] *)
Definition active_id (org_id : string) (memberships : list OrganizationMembership) : string :=
  if truthy org_id then org_id else or_str ((fun m => og_id (om_organization m)) <$> head memberships) "".

Definition is_true (o : option bool) : bool := o ?? false.

(** [None]: a [TypeError] is thrown. *)
Definition fromMe (me : MeResponse) : option CurrentUserResponse :=
  let memberships := adaptMembership <$> me_memberships me in
  let u := me_user me in
  match initialsFor (or_str (Some (au_name u)) (au_email u)) with
  | None => None
  | Some initials => Some {|
      cu_user := {|
        us_id := au_id u; us_email := au_email u; us_name := au_name u; us_initials := initials;
        us_isOperator := au_is_operator u ?? false;
        us_isDemo := Some (au_is_demo u ?? false);
        us_mustResetPassword := Some (au_must_reset_password u);
        us_memberships := memberships |};
      cu_active_organization_id := active_id (ap_org_id (me_principal me)) memberships;
      cu_managed := Some (is_true (me_managed me));
      cu_email_disabled := Some (is_true (me_email_disabled me));
      cu_org_management_disabled := Some (is_true (me_org_management_disabled me)) |}
  end.

(** ** The provider *)

Inductive LoadState :=
| Loading
| Ready (data : CurrentUserResponse)
| LoggedOut
| LoadError (message : string).

Record Tab := { tab_pin : Storage; tab_load : LoadState }.

(** What [fetch] gives: a rejection with the message of its error, or a response. *)
Inductive Reply := Rejected (message : string) | Replied (r : Response).

(** [JSON.parse]; a value read as a [MeResponse], [None] when it lacks a field
    whose absence makes [fromMe] throw; the message of a [TypeError], which is the
    engine's; the environments of the page. *)
Context (JSON_parse : string -> option json) (typed : json -> option MeResponse)
        (type_error : string) (envs : option (list string)).

Definition call (serve : Fetch -> Reply) (pin : option string) (rq : Request) : Outcome :=
  match serve (send pin envs rq) with
  | Rejected m => Thrown m None
  | Replied r => answer JSON_parse r
  end.

(** [fromMe(await api.me())]: the message of what is thrown, or the data. *)
Definition attempt (serve : Fetch -> Reply) (pin : option string) : string + CurrentUserResponse :=
  match call serve pin me with
  | Thrown m _ => inl m
  | Resolved v =>
      match v ≫= (fun j => typed j ≫= fromMe) with
      | Some d => inr d
      | None => inl type_error
      end
  end.

(** The tab after [fetchMe] and the requests it sent.  The server may answer
    the second request differently: [serve] answers the first, [serve'] the second. *)
Definition fetchMe (serve serve' : Fetch -> Reply) (t : Tab) : Tab * list Fetch :=
  let pin := getActiveOrgSlug (tab_pin t) in
  let first := send pin envs me in
  match attempt serve pin with
  | inr d => ({| tab_pin := tab_pin t; tab_load := Ready d |}, [first])
  | inl msg =>
      if startsWith msg "401" then
        match pin with
        | None => ({| tab_pin := tab_pin t; tab_load := LoggedOut |}, [first])
        | Some _ =>
            let st := setActiveOrgSlug None (tab_pin t) in
            let pin' := getActiveOrgSlug st in
            let sent := [first; send pin' envs me] in
            match attempt serve' pin' with
            | inr d => ({| tab_pin := st; tab_load := Ready d |}, sent)
            | inl _ => ({| tab_pin := st; tab_load := LoggedOut |}, sent)
            end
        end
      else ({| tab_pin := tab_pin t; tab_load := LoadError msg |}, [first])
  end.

(** The answer to the logout, even a failure, changes nothing. *)
Definition signOut (t : Tab) : Tab * list Fetch :=
  ({| tab_pin := setActiveOrgSlug None (tab_pin t); tab_load := LoggedOut |},
   [send (getActiveOrgSlug (tab_pin t)) envs logout]).
End session.

(** ** The current user *)

Record CurrentUserContext := {
  cc_user : User;
  cc_organization : Organization;
  cc_roles : list Role;
  cc_memberships : list OrganizationMembership;
  cc_isOperator : bool;
  cc_managed : bool;
  cc_emailDisabled : bool;
  cc_orgManagementDisabled : bool
}.

Definition no_organization : OrganizationMembership := {|
  om_organization := {| og_id := "org_none"; og_slug := "none"; og_name := "No organization" |};
  om_roles := [{| ro_slug := Some "viewer"; ro_name := displayRole "viewer" |}] |}.

Definition withSyntheticEmpty (u : User) : list OrganizationMembership :=
  match us_memberships u with [] => [no_organization] | l => l end.

(** [None]: [active] is [undefined], and reading it a [TypeError]. *)
Definition useCurrentUser (data : CurrentUserResponse) : option CurrentUserContext :=
  let memberships := withSyntheticEmpty (cu_user data) in
  let active :=
    match List.find (fun m => og_id (om_organization m) =s cu_active_organization_id data) memberships with
    | Some m => Some m
    | None => head memberships
    end in
  match active with
  | None => None
  | Some a => Some {|
      cc_user := cu_user data;
      cc_organization := om_organization a;
      cc_roles := om_roles a;
      cc_memberships := memberships;
      cc_isOperator := us_isOperator (cu_user data) && negb (is_true (cu_managed data));
      cc_managed := is_true (cu_managed data);
      cc_emailDisabled := is_true (cu_email_disabled data);
      cc_orgManagementDisabled := is_true (cu_org_management_disabled data) |}
  end.

(** ** The settings page *)

Record SettingsViewer := { sv_isOperator : bool; sv_managed : bool; sv_isAdmin : bool }.

Definition INSTANCE_TABS : list string := ["retention"; "system"; "license"].

Definition canSeeSettingsTab (tab : string) (viewer : SettingsViewer) : bool :=
  if negb (bool_decide (tab ∈ INSTANCE_TABS)) then true
  else sv_isOperator viewer || (sv_managed viewer && sv_isAdmin viewer).

Definition canSeeSystemSubtab (sub : string) (viewer : SettingsViewer) : bool :=
  negb (sub =s "announcements") || negb (sv_managed viewer).

(** The keys of [TABS] and [SYSTEM_SUBTABS]. *)
Definition TABS : list string :=
  ["organization"; "members"; "service-accounts"; "groups"; "ingestion"; "retention"; "reports"; "system"; "sso"; "audit"; "license"].
Definition SYSTEM_SUBTABS : list string :=
  ["general"; "environments"; "email"; "security"; "templates"; "announcements"].

(** The argument of both filters. *)
Definition viewer_of (c : CurrentUserContext) : SettingsViewer :=
  {| sv_isOperator := cc_isOperator c; sv_managed := cc_managed c; sv_isAdmin := can (cc_roles c) "org.manage" |}.

Definition visibleTabs (v : SettingsViewer) : list string := List.filter (fun t => canSeeSettingsTab t v) TABS.
Definition subtabs (v : SettingsViewer) : list string := List.filter (fun s => canSeeSystemSubtab s v) SYSTEM_SUBTABS.

(** The tab and the sub-tab shown for [?tab=] and [?sub=]. *)
Definition chosen (shown : list string) (param : option string) (fallback : string) : string :=
  match param with
  | Some p => if List.existsb (fun k => k =s p) shown then p else fallback
  | None => fallback
  end.
Definition settings_tab (v : SettingsViewer) (tabParam : option string) : string := chosen (visibleTabs v) tabParam "organization".
Definition system_subtab (v : SettingsViewer) (subParam : option string) : string := chosen (subtabs v) subParam "general".

(** ** Scoped rights *)

Record Access := {
  ac_loading : bool;
  ac_writeAnywhere : bool;
  ac_manageAll : bool;
  ac_editorGroups : list EditorGroup;
  ac_canManageService : string -> bool
}.

(** What the hook shows for its state, [None] until the answer. *)
Definition useAccess (state : option MeAccess) : Access := {|
  ac_loading := match state with None => true | Some _ => false end;
  ac_writeAnywhere := (mx_write_anywhere <$> state) ?? false;
  ac_manageAll := (mx_manage_all <$> state) ?? false;
  ac_editorGroups := (mx_editor_groups <$> state) ?? [];
  ac_canManageService := fun name =>
    ((mx_manage_all <$> state) ?? false) || bool_decide (name ∈ ((mx_managed_services <$> state) ?? [])) |}.

(** The state after a request that failed. *)
Definition no_access : MeAccess :=
  {| mx_write_anywhere := false; mx_manage_all := false; mx_managed_services := []; mx_editor_groups := [] |}.

(** ** Lemmas *)

Lemma find_map {A B} (f : A -> B) (p : B -> bool) (l : list A) :
  List.find p (f <$> l) = f <$> List.find (fun x => p (f x)) l.
Proof. induction l as [|x l IH]; [done|]. rewrite fmap_cons. simpl. destruct (p (f x)); [done|exact IH]. Qed.

Lemma find_head {A} (p : A -> bool) x (l : list A) : p x = true -> List.find p (x :: l) = Some x.
Proof. intros H. simpl. by rewrite H. Qed.

Lemma prefix_app p s t : (String.length p <= String.length s)%nat -> String.prefix p (s +:+ t) = String.prefix p s.
Proof.
  revert s. induction p as [|c p IH]; intros s H; [by destruct s, t|].
  destruct s as [|d s]; simpl in H; [lia|]. change (String d s +:+ t) with (String d (s +:+ t)). cbn [String.prefix].
  destruct (Ascii.ascii_dec c d); [|done]. apply IH. lia.
Qed.

(** Three-digit statuses, printed. *)
Definition status_ok (n : nat) : bool :=
  let z := (100 + Z.of_nat n)%Z in
  bool_decide (String.length (show_Z z) = 3%nat) && Bool.eqb (String.prefix "401" (show_Z z)) (z =? 401)%Z.

Lemma statuses_ok : List.forallb status_ok (List.seq 0 900) = true.
Proof. vm_compute. reflexivity. Qed.

Lemma status_message z s : (100 <= z <= 999)%Z -> startsWith (show_Z z +:+ s) "401" = (z =? 401)%Z.
Proof.
  intros Hz. pose proof statuses_ok as Hall. rewrite List.forallb_forall in Hall.
  specialize (Hall (Z.to_nat (z - 100))). unfold status_ok in Hall.
  replace (100 + Z.of_nat (Z.to_nat (z - 100)))%Z with z in Hall by lia.
  assert (Hin : List.In (Z.to_nat (z - 100)) (List.seq 0 900)) by (apply List.in_seq; lia).
  apply Hall in Hin. apply andb_true_iff in Hin as [Hl He]. apply bool_decide_eq_true in Hl. apply eqb_prop in He.
  unfold startsWith. rewrite prefix_app by (rewrite Hl; simpl; lia). exact He.
Qed.

(** *** The fetch of [/me] *)

Section fetch.
Context `{Host} (JSON_parse : string -> option json) (typed : json -> option MeResponse)
        (type_error : string) (envs : option (list string)).
Abbreviation attempt := (attempt JSON_parse typed type_error envs).
Abbreviation fetchMe := (fetchMe JSON_parse typed type_error envs).

(** The server answers 401 to [/me] under the pin. *)
Definition refused (serve : Fetch -> Reply) (pin : option string) : bool :=
  match serve (send pin envs me) with Replied r => (rs_status r =? 401)%Z | Rejected _ => false end.

(** Statuses have three digits, and no error of the network or of the engine has
    a message that starts with 401. *)
Definition plain_replies (serve : Fetch -> Reply) : Prop := forall f,
  match serve f with
  | Rejected m => startsWith m "401" = false
  | Replied r => (100 <= rs_status r <= 999)%Z
  end.

Lemma answer_refused r m st :
  (100 <= rs_status r <= 999)%Z -> answer JSON_parse r = Thrown m st -> startsWith m "401" = (rs_status r =? 401)%Z.
Proof.
  intros Hr. unfold answer.
  destruct (negb (rs_ok r)); [intros [= <- _]; by apply (status_message (rs_status r))|].
  destruct (rs_status r =? 204)%Z; [done|].
  destruct (rs_text r =s ""); [intros [= <- _]; by apply (status_message (rs_status r))|].
  destruct (JSON_parse (rs_text r)); [done|]. intros [= <- _]. by apply (status_message (rs_status r)).
Qed.

Lemma answer_401 r : rs_status r = 401%Z -> exists m st, answer JSON_parse r = Thrown m st.
Proof. intros E. unfold answer, rs_ok. rewrite E. simpl. eauto. Qed.

Context (Htype : startsWith type_error "401" = false).

Lemma attempt_inl serve pin m :
  plain_replies serve -> attempt serve pin = inl m -> startsWith m "401" = refused serve pin.
Proof.
  intros Hs. specialize (Hs (send pin envs me)). unfold Session.attempt, call, refused.
  destruct (serve (send pin envs me)) as [m'|r]; [intros [= <-]; exact Hs|].
  destruct (answer JSON_parse r) as [v|m' st] eqn:E.
  - destruct (v ≫= _); [done|]. intros [= <-]. rewrite Htype. symmetry. apply Z.eqb_neq. intros E4.
    destruct (answer_401 r E4) as (? & ? & E'). congruence.
  - intros [= <-]. by eapply answer_refused.
Qed.

Lemma attempt_inr serve pin d : attempt serve pin = inr d -> refused serve pin = false.
Proof.
  unfold Session.attempt, call, refused. destruct (serve (send pin envs me)) as [m'|r]; [done|].
  intros E. apply Z.eqb_neq. intros E4. destruct (answer_401 r E4) as (? & ? & E'). by rewrite E' in E.
Qed.
End fetch.

(** *** Initials *)

(** Only separators. *)
Definition only_separators (s : string) : bool := strip sep1 ws2 ws3 s =s "".

Lemma push_char_truthy c l : List.filter truthy (push_char c l) <> [].
Proof. by destruct l. Qed.

(** There is a piece unless there are only separators. *)
Lemma pieces_nil s : List.filter truthy (split_seps s) = [] <-> only_separators s = true.
Proof.
  unfold only_separators. rewrite String.eqb_eq.
  induction s as [s IH] using string_len_ind. destruct s as [|c s1]; [done|].
  cbn [split_seps strip]. destruct (sep1 c); [apply IH; simpl; lia|].
  destruct s1 as [|d s2]; [by split; [intros E%push_char_truthy|]|].
  destruct (ws2 c d); [apply IH; simpl; lia|].
  destruct s2 as [|e s3]; [by split; [intros E%push_char_truthy|]|].
  destruct (ws3 c d e); [apply IH; simpl; lia|by split; [intros E%push_char_truthy|]].
Qed.

Lemma initialsFor_None `{Host} s : initialsFor s = None <-> trim s <> "" /\ only_separators (trim s) = true.
Proof.
  unfold initialsFor. rewrite <- truthy_spec, <- pieces_nil.
  destruct (truthy (trim s)); cbn [negb]; [|naive_solver].
  destruct (List.filter truthy (split_seps (trim s))) as [|a [|b l]]; naive_solver.
Qed.

Lemma fromMe_None `{Host} me :
  fromMe me = None <-> initialsFor (or_str (Some (au_name (me_user me))) (au_email (me_user me))) = None.
Proof. unfold fromMe. destruct (initialsFor _); naive_solver. Qed.

(** *** Roles *)

(** The levels the roles of the server and the permissions stand for. *)
Definition role_level (role : string) : nat :=
  if role =s "admin" then 3 else if role =s "editor" then 2 else if role =s "viewer" then 1 else 0.
Definition perm_level (perm : string) : nat :=
  if perm =s "integration.read" then 1
  else if bool_decide (perm ∈ ["integration.write"; "integration.delete"; "stuck.replay"; "alert.mute"]) then 2
  else if perm =s "org.manage" then 3
  else 4.

(** The membership the session is about: the organization of the principal
    if the user belongs to it, the first one otherwise. *)
Definition active_membership (me : MeResponse) : option AuthMembership :=
  match List.find (fun m => ao_id (am_org m) =s ap_org_id (me_principal me)) (me_memberships me) with
  | Some m => if truthy (ap_org_id (me_principal me)) then Some m else head (me_memberships me)
  | None => head (me_memberships me)
  end.

(** Every role of the table grants permissions of the longest row only. *)
Definition PERMISSIONS : list string :=
  ["integration.read"; "integration.write"; "integration.delete"; "stuck.replay"; "alert.mute"; "org.manage"].

Lemma unknown_permission perm : perm ∉ PERMISSIONS ->
  perm_level perm = 4 /\ forall slug l, omap_get slug ROLE_PERMISSIONS = Some l -> perm ∉ l.
Proof.
  intros Hp. split.
  - unfold perm_level. destruct (perm =s "integration.read") eqn:E1; [bool_prop; subst; set_solver|].
    rewrite bool_decide_eq_false_2 by (intros Hin; apply Hp; unfold PERMISSIONS; set_solver).
    destruct (perm =s "org.manage") eqn:E2; [bool_prop; subst; set_solver|done].
  - intros slug l Hl Hin. apply Hp. apply omap_get_elem in Hl.
    assert (Hall : Forall (fun r : string * list string => Forall (fun p => p ∈ PERMISSIONS) r.2) ROLE_PERMISSIONS)
      by (apply (bool_decide_unpack _); vm_compute; exact I).
    rewrite Forall_forall in Hall. specialize (Hall _ Hl). rewrite Forall_forall in Hall. by apply Hall.
Qed.

Lemma can_adapted m perm : can (om_roles (adaptMembership m)) perm = (perm_level perm <=? role_level (am_role m))%nat.
Proof.
  unfold can, adaptMembership, mapRoleSlug, role_level. cbn [om_roles List.existsb]. rewrite orb_false_r.
  unfold role_permissions. cbn [ro_slug].
  destruct (decide (perm ∈ PERMISSIONS)) as [Hin|Hout].
  - unfold PERMISSIONS in Hin. rewrite !elem_of_cons, elem_of_nil in Hin.
    repeat (destruct (am_role m =s _)); destruct_or?; subst; try done; by_compute.
  - destruct (unknown_permission perm Hout) as [-> Hno].
    assert (Hf : forall o : option string, match match o with Some slug => omap_get slug ROLE_PERMISSIONS | None => None end with
                         | Some l => bool_decide (perm ∈ l) | None => false end = false).
    { intros [slug|]; [|done]. destruct (omap_get slug ROLE_PERMISSIONS) eqn:E; [|done].
      apply bool_decide_eq_false_2. by eapply Hno. }
    rewrite Hf. by repeat (destruct (am_role m =s _)).
Qed.

(** The membership [useCurrentUser] resolves, in the wire form. *)
Definition resolved (me : MeResponse) : OrganizationMembership :=
  (adaptMembership <$> active_membership me) ?? no_organization.

Lemma useCurrentUser_fromMe `{Host} me d : fromMe me = Some d ->
  exists c, useCurrentUser d = Some c /\ cc_organization c = om_organization (resolved me) /\ cc_roles c = om_roles (resolved me) /\
    cc_isOperator c = (au_is_operator (me_user me) ?? false) && negb (is_true (me_managed me)) /\ cc_managed c = is_true (me_managed me).
Proof.
  unfold fromMe. destruct (initialsFor _) as [i|]; [|done]. intros [= <-].
  unfold useCurrentUser, withSyntheticEmpty, resolved, active_membership, active_id. cbn [cu_user us_memberships cu_active_organization_id cu_managed us_isOperator].
  destruct (me_memberships me) as [|m ms] eqn:Em; [cbn; case_if; eauto 10|].
  rewrite fmap_cons. cbn iota. rewrite <- fmap_cons, find_map. cbn [om_organization adaptMembership og_id].
  destruct (truthy (ap_org_id (me_principal me))) eqn:Et.
  - destruct (List.find _ (m :: ms)) as [a|]; cbn; eauto 10.
  - assert (E : forall o : option AuthMembership, match o with Some _ => head (m :: ms) | None => head (m :: ms) end = Some m) by (by intros [?|]).
    rewrite E. cbn [fmap option_fmap option_map head]. unfold or_str, truthy_opt. cbn [default from_option id].
    set (x := ao_id (am_org m)).
    assert (Hx : (x =s (if truthy x then x else "")) = true).
    { unfold truthy. destruct (x =s "") eqn:Ex; cbn [negb]; apply String.eqb_eq; [bool_prop; exact Ex|done]. }
    rewrite (find_head _ m ms) by exact Hx. cbn. eauto 10.
Qed.

Lemma existsb_key l k : List.existsb (fun x => x =s k) l = true <-> k ∈ l.
Proof.
  rewrite existsb_elem. split; [intros (x & Hx & E); bool_prop; by subst|].
  intros Hk. exists k. split; [done|apply String.eqb_refl].
Qed.

(** What is shown is the parameter when it is offered, the fallback otherwise. *)
Lemma chosen_spec shown param fallback k : k <> fallback -> (chosen shown param fallback = k <-> param = Some k /\ k ∈ shown).
Proof.
  intros Hk. unfold chosen. destruct param as [p|]; [|naive_solver].
  destruct (List.existsb _ shown) eqn:E; [apply existsb_key in E; naive_solver|].
  split; [congruence|]. intros [[= ->] Hin%existsb_key]. congruence.
Qed.

Section theorems.
Context `{Host}.

(** C4. What a tab shows once [/me] is answered.  The app is shown exactly when
    the server admits the user, or admits them without the pinned organization
    after having answered 401 to it; the sign-in form exactly when the server
    answered 401 and no pin is left to drop; any other failure is the error screen.
    The pin is dropped exactly in the second case, and the second request then
    names no organization. *)
Theorem session_follows_server JSON_parse typed type_error envs serve serve' t :
  startsWith type_error "401" = false -> plain_replies serve ->
  let p := getActiveOrgSlug (tab_pin t) in
  let try s q := attempt JSON_parse typed type_error envs s q in
  let r := refused envs serve p in
  let '(t', sent) := fetchMe JSON_parse typed type_error envs serve serve' t in
  (forall d, tab_load t' = Ready d <-> try serve p = inr d \/ (r = true /\ p <> None /\ try serve' None = inr d)) /\
  (tab_load t' = LoggedOut <-> r = true /\ (p = None \/ forall d, try serve' None <> inr d)) /\
  ((exists m, tab_load t' = LoadError m) <-> r = false /\ forall d, try serve p <> inr d) /\
  (r && bool_decide (p <> None) = true -> tab_pin t' = Stored None /\ sent = [send p envs me; send None envs me]) /\
  (r && bool_decide (p <> None) = false -> tab_pin t' = tab_pin t /\ sent = [send p envs me]).
Proof.
  intros Ht Hs. cbn zeta. unfold fetchMe. set (p := getActiveOrgSlug (tab_pin t)).
  destruct (attempt JSON_parse typed type_error envs serve p) as [m|d] eqn:Ea.
  - rewrite (attempt_inl _ _ _ _ Ht _ _ _ Hs Ea). destruct (refused envs serve p) eqn:Er.
    + destruct p as [o|] eqn:Ep.
      * unfold p in Ep. destruct (tab_pin t) as [|s] eqn:Et; [done|]. cbn [setActiveOrgSlug truthy_opt getActiveOrgSlug].
        change (truthy_opt None) with false. cbn iota.
        destruct (attempt JSON_parse typed type_error envs serve' None) as [m'|d'] eqn:Ea'; cbn.
        all: repeat split; intros; destruct_and?; try naive_solver.
      * cbn. repeat split; intros; destruct_and?; try naive_solver.
    + cbn. repeat split; intros; destruct_and?; try naive_solver.
  - rewrite (attempt_inr _ _ _ _ _ _ _ Ea). cbn. repeat split; intros; destruct_and?; try naive_solver.
Qed.

(** The permissions of the interface are those of the user's role in the
    active organization: a role grants exactly the permissions up to its level,
    admins over editors over viewers, and a role the frontend does not know grants
    none.  The active organization is that of the principal, or the first one; a
    user without any gets an empty one, read-only, instead of a crash. *)
Theorem permissions_follow_role me d perm :
  fromMe me = Some d ->
  exists c, useCurrentUser d = Some c /\
    og_id (cc_organization c) = (ao_id <$> (am_org <$> active_membership me)) ?? "org_none" /\
    can (cc_roles c) perm
      = (perm_level perm <=? (role_level <$> (am_role <$> active_membership me)) ?? 1)%nat.
Proof.
  intros (c & Hc & Ho & Hr & _)%useCurrentUser_fromMe. exists c. split; [done|]. rewrite Ho, Hr. unfold resolved.
  destruct (active_membership me) as [m|]; cbn; [split; [done|]; apply can_adapted|]. split; [done|].
  apply (can_adapted {| am_org := Build_AuthOrg "" "" "" None None; am_role := "viewer"; am_joined_at := None |} perm).
Qed.

(** C36. The settings of the instance open for its operator, or on a managed
    instance for the admin of the active organization, and for nobody else
    whatever the URL says; announcements open for an operator only, and never on a
    managed instance, where the stored operator flag counts for nothing. *)
Theorem instance_settings_guarded me d c tab sub :
  fromMe me = Some d -> useCurrentUser d = Some c ->
  let v := viewer_of c in
  let managed := is_true (me_managed me) in
  let operator := au_is_operator (me_user me) ?? false in
  (forall k, k ∈ INSTANCE_TABS ->
     (settings_tab v tab = k <-> tab = Some k /\ (if managed then can (cc_roles c) "org.manage" else operator) = true)) /\
  (settings_tab v tab = "system" -> system_subtab v sub = "announcements" -> managed = false /\ operator = true).
Proof.
  intros (c' & Hc & _ & _ & Hop & Hm)%useCurrentUser_fromMe Hc'. rewrite Hc in Hc'. injection Hc' as <-. cbn zeta.
  assert (Htab : forall k, k ∈ INSTANCE_TABS -> (settings_tab (viewer_of c') tab = k <-> tab = Some k /\
    (if is_true (me_managed me) then can (cc_roles c') "org.manage" else au_is_operator (me_user me) ?? false) = true)).
  { intros k Hk. unfold settings_tab. rewrite chosen_spec by (intros ->; set_solver). apply and_iff_compat_l.
    unfold visibleTabs. rewrite filterb_elem. unfold canSeeSettingsTab. rewrite bool_decide_eq_true_2 by done. cbn [negb viewer_of sv_isOperator sv_managed sv_isAdmin].
    rewrite Hop, Hm. assert (Hin : k ∈ TABS) by (unfold INSTANCE_TABS, TABS in *; set_solver).
    destruct (is_true (me_managed me)), (au_is_operator (me_user me) ?? false); cbn; naive_solver. }
  split; [exact Htab|]. intros Ht Hs. apply Htab in Ht as [_ Ht]; [|unfold INSTANCE_TABS; set_solver].
  unfold system_subtab in Hs. apply chosen_spec in Hs as [_ Hs]; [|done]. apply filterb_elem in Hs as [_ Hs].
  unfold canSeeSystemSubtab in Hs. cbn in Hs. rewrite Hm in Hs. by destruct (is_true (me_managed me)).
Qed.

(** The adapter of [/me] fails for exactly the users whose name (email if
    there is none) holds separators only, such as a dash: a user the server admits
    then sees the error screen, and the same again after every retry. *)
Theorem separator_name_locks_out me JSON_parse typed type_error envs serve serve' t :
  let shown := trim (or_str (Some (au_name (me_user me))) (au_email (me_user me))) in
  (fromMe me = None <-> shown <> "" /\ only_separators shown = true) /\
  (fromMe me = None -> startsWith type_error "401" = false ->
   forall v, call JSON_parse envs serve (getActiveOrgSlug (tab_pin t)) Endpoints.me = Resolved (Some v) -> typed v = Some me ->
   (fetchMe JSON_parse typed type_error envs serve serve' t).1 = {| tab_pin := tab_pin t; tab_load := LoadError type_error |}).
Proof.
  cbn zeta. split; [rewrite fromMe_None; apply initialsFor_None|]. intros Hn Ht v Hv Hm.
  unfold fetchMe, attempt. rewrite Hv. cbn [mbind option_bind]. rewrite Hm. cbn [mbind option_bind]. rewrite Hn, Ht. done.
Qed.
End theorems.

(** Before the answer and after a failed request nothing is offered. *)
Lemma no_access_denies name : ac_canManageService (useAccess None) name = false /\ ac_canManageService (useAccess (Some no_access)) name = false.
Proof. done. Qed.

(** ** Examples *)

Section examples.
#[local] Existing Instance plain_host.

Definition ex_me (name role : string) (operator managed : bool) : MeResponse := {|
  me_user := {| au_id := "u1"; au_email := "robert@example.com"; au_name := name; au_is_operator := Some operator; au_is_demo := None;
                au_must_reset_password := false; au_last_login_at := None; au_created_at := None; au_updated_at := None;
                au_login_count := None; au_failed_login_count := None; au_last_active_at := None; au_mfa_enabled := None |};
  me_memberships := [
    {| am_org := {| ao_id := "o1"; ao_slug := "one"; ao_name := "One"; ao_created_at := None; ao_updated_at := None |}; am_role := "viewer"; am_joined_at := None |};
    {| am_org := {| ao_id := "o2"; ao_slug := "two"; ao_name := "Two"; ao_created_at := None; ao_updated_at := None |}; am_role := role; am_joined_at := None |}];
  me_principal := {| ap_kind := "user"; ap_user_id := Some "u1"; ap_service_account_id := None; ap_org_id := "o2"; ap_role := role; ap_email := None; ap_name := None |};
  me_mfa_enrollment_required := None; me_managed := Some managed; me_email_disabled := None; me_org_management_disabled := None |}.

(** A server that answers 401 to a pinned organization, and a parser of its one answer. *)
Definition ex_serve (f : Fetch) : Reply :=
  if bool_decide ("X-Sluicio-Org" ∈ (ft_headers f).*1)
  then Replied {| rs_status := 401; rs_statusText := "Unauthorized"; rs_text := "" |}
  else Replied {| rs_status := 200; rs_statusText := "OK"; rs_text := "{}" |}.
Definition ex_parse (s : string) : option json := if s =s "{}" then Some (JObj []) else None.

Lemma ex_serve_plain : plain_replies ex_serve.
Proof. intros f. unfold ex_serve. case_if; simpl; lia. Qed.

Example initials_ex :
  (initialsFor "Robert Mayer", initialsFor "alice@example.com", initialsFor "Cher", initialsFor "  ", initialsFor "-._") =
  (Some "RM", Some "AE", Some "CH", Some "?", None).
Proof. by_compute. Qed.

Lemma session_follows_server_witness :
  let t := {| tab_pin := Stored (Some "gone"); tab_load := Loading |} in
  exists d, (fetchMe ex_parse (fun _ => Some (ex_me "Robert Mayer" "editor" false false)) "x" None ex_serve ex_serve t).1
    = {| tab_pin := Stored None; tab_load := Ready d |}.
Proof.
  cbn zeta. set (me0 := ex_me "Robert Mayer" "editor" false false).
  pose proof (session_follows_server ex_parse (fun _ => Some me0) "x" None ex_serve ex_serve
    {| tab_pin := Stored (Some "gone"); tab_load := Loading |} eq_refl ex_serve_plain) as W. cbn zeta in W.
  destruct (fetchMe _ _ _ _ _ _ _) as [t' sent]. destruct W as (Hready & _ & _ & Hpin & _).
  destruct (fromMe me0) as [d|] eqn:Ed; [|vm_compute in Ed; discriminate]. exists d.
  assert (Hp : tab_pin t' = Stored None) by (apply Hpin; vm_compute; reflexivity).
  assert (Hl : tab_load t' = Ready d).
  { apply Hready. right. split; [vm_compute; reflexivity|]. split; [discriminate|].
    vm_compute in Ed. injection Ed as <-. vm_compute. reflexivity. }
  destruct t' as [p l]. cbn in *. by subst.
Defined.

Lemma permissions_follow_role_witness :
  exists c, can (cc_roles c) "stuck.replay" = true /\ og_id (cc_organization c) = "o2".
Proof.
  destruct (fromMe (ex_me "Robert Mayer" "editor" false false)) as [d|] eqn:Ed; [|vm_compute in Ed; discriminate].
  destruct (permissions_follow_role _ d "stuck.replay" Ed) as (c & _ & Ho & Hc). exists c.
  rewrite Hc, Ho. split; vm_compute; reflexivity.
Defined.

Lemma instance_settings_guarded_witness :
  exists c, settings_tab (viewer_of c) (Some "license") = "license" /\ system_subtab (viewer_of c) (Some "announcements") = "general".
Proof.
  destruct (fromMe (ex_me "Robert Mayer" "admin" true true)) as [d|] eqn:Ed; [|vm_compute in Ed; discriminate].
  destruct (useCurrentUser d) as [c|] eqn:Ec; [|vm_compute in Ed; injection Ed as <-; vm_compute in Ec; discriminate].
  exists c. pose proof (instance_settings_guarded _ d c (Some "license") (Some "announcements") Ed Ec) as [Hk _].
  split.
  - apply Hk; [unfold INSTANCE_TABS; set_solver|]. split; [done|].
    vm_compute in Ed. injection Ed as <-. vm_compute in Ec. injection Ec as <-. vm_compute. reflexivity.
  - vm_compute in Ed. injection Ed as <-. vm_compute in Ec. injection Ec as <-. vm_compute. reflexivity.
Defined.

Lemma separator_name_locks_out_witness :
  (fetchMe ex_parse (fun _ => Some (ex_me "-" "admin" true false)) "Cannot read properties of undefined" None ex_serve ex_serve
     {| tab_pin := Stored None; tab_load := Loading |}).1
  = {| tab_pin := Stored None; tab_load := LoadError "Cannot read properties of undefined" |}.
Proof.
  apply (proj2 (separator_name_locks_out (ex_me "-" "admin" true false) ex_parse (fun _ => Some (ex_me "-" "admin" true false))
    "Cannot read properties of undefined" None ex_serve ex_serve {| tab_pin := Stored None; tab_load := Loading |})) with (v := JObj []);
  vm_compute; reflexivity.
Defined.
End examples.
