(* ===== verification/Caches.v ===== *)
(** * The shared caches

    [lib/useBranding.ts], [lib/useNavigationReach.ts] and
    [lib/useIngestBaseUrl.ts] keep one answer of the server for all the components
    of a page: a cached value, the request in flight, and the mounted components.
    A component shows [None] for what it starts with when nothing is cached, and
    again when the request it waited for failed: no mark, no reach, the origin of
    the browser.  A page is a sequence of events, each one a turn of the event
    loop: the answer of the server, the [then] of the request, its [finally],
    components mounting and unmounting, a refresh (branding only), a change on the
    server. *)

From S2P Require Import Prelude JsString.

Local Open Scope list_scope.

Section cache.
Context {V : Type}.

Record Comp := { c_id : nat; c_shows : option V; c_waits : bool }.

(** The request in flight: sent; answered by the server, [None] for a failure;
    its [then] or [catch] done and its [finally] to come. *)
Inductive Phase := Sent | Answered (r : option V) | Settled (r : option V).

Record Cache := { cached : option V; inflight : option Phase; comps : list Comp; server : V; requests : nat }.

Definition is_none {A} (o : option A) : bool := match o with None => true | Some _ => false end.

(** [load()] *)
Definition load (s : Cache) : Cache :=
  match cached s, inflight s with
  | None, None => {| cached := None; inflight := Some Sent; comps := comps s; server := server s; requests := S (requests s) |}
  | _, _ => s
  end.

Definition set_comps (l : list Comp) (s : Cache) : Cache :=
  {| cached := cached s; inflight := inflight s; comps := l; server := server s; requests := requests s |}.

(** The effect of the hook: the component registers, and shows what is cached
    or waits for the request. *)
Definition mount (i : nat) (s : Cache) : Cache :=
  load (set_comps (comps s ++ [{| c_id := i; c_shows := cached s; c_waits := is_none (cached s) |}]) s).
Definition unmount (i : nat) (s : Cache) : Cache :=
  set_comps (List.filter (fun c => negb (Nat.eqb (c_id c) i)) (comps s)) s.

(** [cached = v; listeners.forEach((fn) => fn(v))] *)
Definition tell (v : V) (c : Comp) : Comp := {| c_id := c_id c; c_shows := Some v; c_waits := c_waits c |}.
Definition settle (r : option V) (s : Cache) : Cache :=
  match r with
  | Some v => {| cached := Some v; inflight := Some (Settled r); comps := tell v <$> comps s; server := server s; requests := requests s |}
  | None => {| cached := cached s; inflight := Some (Settled r); comps := comps s; server := server s; requests := requests s |}
  end.

(** [inflight = null], then the [then(fn)] of the components that waited. *)
Definition wake (r : option V) (c : Comp) : Comp :=
  if c_waits c then {| c_id := c_id c; c_shows := r; c_waits := false |} else c.
Definition finally (r : option V) (s : Cache) : Cache :=
  {| cached := cached s; inflight := None; comps := wake r <$> comps s; server := server s; requests := requests s |}.

(** [refreshBranding] *)
Definition refresh (s : Cache) : Cache :=
  load {| cached := None; inflight := inflight s; comps := comps s; server := server s; requests := requests s |}.

Inductive Event := Mount (i : nat) | Unmount (i : nat) | Answer | Failure | Then | Finally | Refresh | Save (v : V).

Definition set_inflight (p : option Phase) (s : Cache) : Cache :=
  {| cached := cached s; inflight := p; comps := comps s; server := server s; requests := requests s |}.

(** One event; [None] when it cannot happen. *)
Definition exec (e : Event) (s : Cache) : option Cache :=
  match e, inflight s with
  | Mount i, _ => Some (mount i s)
  | Unmount i, _ => Some (unmount i s)
  | Answer, Some Sent => Some (set_inflight (Some (Answered (Some (server s)))) s)
  | Failure, Some Sent => Some (set_inflight (Some (Answered None)) s)
  | Then, Some (Answered r) => Some (settle r s)
  | Finally, Some (Settled r) => Some (finally r s)
  | Refresh, _ => Some (refresh s)
  | Save v, _ => Some {| cached := cached s; inflight := inflight s; comps := comps s; server := v; requests := requests s |}
  | _, _ => None
  end.

Fixpoint run (es : list Event) (s : Cache) : option Cache :=
  match es with [] => Some s | e :: es => match exec e s with Some s' => run es s' | None => None end end.

(** The state of a fresh page. *)
Definition fresh (v : V) : Cache := {| cached := None; inflight := None; comps := []; server := v; requests := 0 |}.

(** ** Invariants *)

Lemma run_invariant (P : Cache -> Prop) (ok : Event -> Prop) es s s' :
  (forall e s s', ok e -> P s -> exec e s = Some s' -> P s') -> Forall ok es -> P s -> run es s = Some s' -> P s'.
Proof.
  intros Hstep Hes. revert s. induction Hes as [|e es He Hes IH]; intros s Hs; cbn [run]; [by intros [= <-]|].
  destruct (exec e s) as [t|] eqn:E; [|done]. apply IH. by eapply Hstep.
Qed.

(** Nothing is cached while a request is unsettled, and what is cached after
    it is its answer; every component shows what is cached. *)
Definition consistent (s : Cache) : Prop :=
  match inflight s with
  | Some (Settled (Some r)) => cached s = None \/ cached s = Some r
  | Some _ => cached s = None
  | None => True
  end /\ forall v, cached s = Some v -> Forall (fun c => c_shows c = Some v) (comps s).

Lemma consistent_load s : consistent s -> consistent (load s).
Proof. unfold consistent, load. destruct (cached s) eqn:Ec, (inflight s) eqn:Ei; rewrite ?Ec, ?Ei; cbn; done. Qed.

Lemma exec_consistent e s s' : consistent s -> exec e s = Some s' -> consistent s'.
Proof.
  intros [H1 H2] He. unfold exec in He. destruct e as [i|i| | | | | |v].
  - injection He as <-. apply consistent_load. split; cbn [set_comps inflight cached comps]; [done|].
    intros v Hv. apply Forall_app. split; [by apply H2|]. by rewrite Forall_singleton.
  - injection He as <-. split; cbn; [done|]. intros v Hv. apply H2 in Hv. rewrite Forall_forall in Hv |- *.
    intros c [Hc _]%filterb_elem. by apply Hv.
  - destruct (inflight s) as [[]|]; simplify_eq. by split.
  - destruct (inflight s) as [[]|]; simplify_eq. by split.
  - destruct (inflight s) as [[|[r|]|]|]; simplify_eq; split; cbn; [by right| |done|done].
    intros v [= ->]. apply Forall_fmap, Forall_true. done.
  - destruct (inflight s) as [[| |r]|]; simplify_eq. split; cbn; [done|]. intros v Hv. specialize (H2 v Hv).
    apply Forall_fmap. eapply Forall_impl; [exact H2|]. intros c Hc. cbn. unfold wake. destruct (c_waits c); [|done].
    cbn. destruct r as [r|]; [|congruence]. destruct H1; congruence.
  - injection He as <-. apply consistent_load. split; cbn; [|done]. destruct (inflight s) as [[| |[]]|]; auto.
  - injection He as <-. split; cbn; done.
Qed.

(** Nothing but [v] comes from the server. *)
Definition only (v : V) (s : Cache) : Prop :=
  server s = v /\ (cached s = None \/ cached s = Some v) /\
  match inflight s with Some (Answered (Some r)) | Some (Settled (Some r)) => r = v | _ => True end.

Definition no_save (e : Event) : Prop := match e with Save _ => False | _ => True end.

Lemma exec_only v e s s' : no_save e -> only v s -> exec e s = Some s' -> only v s'.
Proof.
  intros Hn (H1 & H2 & H3) He. unfold exec in He. destruct e as [i|i| | | | | |w]; [| | | | | | |done].
  - injection He as <-. unfold mount, load, set_comps. cbn. destruct (cached s) eqn:Ec, (inflight s) eqn:Ei; cbn;
      unfold only; cbn; rewrite ?Ec, ?Ei; auto.
  - injection He as <-. by split.
  - destruct (inflight s) as [[]|]; simplify_eq. by split.
  - destruct (inflight s) as [[]|]; simplify_eq. by split.
  - destruct (inflight s) as [[|[r|]|]|]; simplify_eq; split; cbn; auto.
  - destruct (inflight s) as [[| |r]|]; simplify_eq. by split.
  - injection He as <-. unfold refresh, load. cbn. destruct (inflight s) as [p|] eqn:Ei; cbn; unfold only; cbn; rewrite ?Ei; auto.
Qed.

Lemma run_consistent es s s' : consistent s -> run es s = Some s' -> consistent s'.
Proof.
  intros Hs. apply (run_invariant consistent (fun _ => True)); [|by apply Forall_true|done].
  intros e t t' _. apply exec_consistent.
Qed.

Lemma fresh_consistent v : consistent (fresh v).
Proof. split; [done|discriminate]. Qed.

(** At most one request was ever sent, and it is under way or its answer is
    cached. *)
Definition one_request (s : Cache) : Prop :=
  (requests s = 0%nat /\ cached s = None /\ inflight s = None) \/
  (requests s = 1%nat /\ match inflight s with
    | Some Sent | Some (Answered (Some _)) => True
    | Some (Answered None) | Some (Settled None) => False
    | _ => cached s <> None end).

Definition no_refresh (e : Event) : Prop := match e with Refresh => False | _ => True end.
Definition smooth (e : Event) : Prop := match e with Refresh | Failure => False | _ => True end.

Lemma exec_one_request e s s' : smooth e -> one_request s -> exec e s = Some s' -> one_request s'.
Proof.
  intros Hn H He. unfold exec in He. destruct e as [i|i| | | | | |w]; try done.
  - injection He as <-. unfold mount, load, set_comps. cbn.
    destruct H as [(H1 & H2 & H3)|[H1 H2]]; unfold one_request.
    + rewrite H2, H3. cbn. right. by rewrite H1.
    + right. destruct (cached s) eqn:Ec, (inflight s) eqn:Ei; cbn; rewrite ?Ec, ?Ei; done.
  - injection He as <-. exact H.
  - destruct (inflight s) as [[]|] eqn:Ei; simplify_eq. destruct H as [(? & ? & ?)|[H1 H2]]; [congruence|]. by right.
  - destruct (inflight s) as [[|r|]|] eqn:Ei; simplify_eq. destruct H as [(? & ? & ?)|[H1 H2]]; [congruence|].
    rewrite Ei in H2. destruct r; [|done]. by right.
  - destruct (inflight s) as [[| |r]|] eqn:Ei; simplify_eq. destruct H as [(? & ? & ?)|[H1 H2]]; [congruence|].
    rewrite Ei in H2. destruct r; [|done]. by right.
  - injection He as <-. exact H.
Qed.

Lemma exec_keeps_cached v e s s' :
  no_refresh e -> (cached s = Some v /\ inflight s = None) -> exec e s = Some s' -> cached s' = Some v /\ inflight s' = None.
Proof.
  intros Hn [Hc Hi] He. unfold exec in He. rewrite Hi in He. destruct e; simplify_eq; try done.
  unfold mount, load. cbn. rewrite Hc. by split.
Qed.

(** ** Properties *)

(** C38. Whatever components mount, unmount or refresh, and whatever the server
    answers and when: as long as a value is cached, every mounted component shows
    that value. *)
Theorem components_agree es v s u :
  run es (fresh v) = Some s -> cached s = Some u -> Forall (fun c => c_shows c = Some u) (comps s).
Proof. intros Hr. by apply (run_consistent es _ s (fresh_consistent v) Hr). Qed.

(** However many components ask, one request is sent as long as it does
    not fail and nobody refreshes. *)
Theorem one_request_serves_all es v s : Forall smooth es -> run es (fresh v) = Some s -> (requests s <= 1)%nat.
Proof.
  intros Hes Hr. assert (H : one_request s).
  { apply (run_invariant one_request smooth es (fresh v)); [apply exec_one_request|done|by left|done]. }
  destruct H as [(H & _)|[H _]]; lia.
Qed.

(** A refresh made while no request is in flight is effective: until the
    next change on the server, the only value ever cached is the one the server
    holds, and the components show it whenever it is there. *)
Theorem idle_refresh_is_fresh es0 v s es s' :
  run es0 (fresh v) = Some s -> inflight s = None -> Forall no_save es -> run (Refresh :: es) s = Some s' ->
  (cached s' = None \/ cached s' = Some (server s)) /\
  (cached s' = Some (server s) -> Forall (fun c => c_shows c = Some (server s)) (comps s')).
Proof.
  intros H0 Hi Hes Hr. split.
  - assert (Ho : only (server s) s'); [|by apply Ho]. cbn [run exec] in Hr.
    apply (run_invariant (only (server s)) no_save es (refresh s)); [apply exec_only|done| |done].
    unfold refresh, load. cbn. rewrite Hi. cbn. split; [done|]. split; [by left|done].
  - apply (run_consistent (Refresh :: es) s s'); [|done]. by apply (run_consistent es0 _ s (fresh_consistent v)).
Qed.

(** A refresh made while a request is in flight is lost: if the server had
    answered that request before the change, the old value is cached again, and
    every page keeps it until another refresh. *)
Theorem refresh_in_flight_is_lost v w es s :
  Forall no_refresh es -> run (Mount 0 :: Answer :: Save w :: Refresh :: Then :: Finally :: es) (fresh v) = Some s -> cached s = Some v.
Proof.
  intros Hes Hr. cbn in Hr. eapply (run_invariant (fun s => cached s = Some v /\ inflight s = None) no_refresh) in Hr;
    [by destruct Hr|apply exec_keeps_cached|done|by split].
Qed.
End cache.

Arguments Event : clear implicits.
Arguments Cache : clear implicits.

(** ** Examples: the mark of a cell *)

Notation brand_run := (run (V := string)).

Example brand_saved_ex :
  (cached <$> brand_run [Mount 0; Mount 1; Answer; Then; Finally; Save "new"; Refresh; Answer; Then; Finally; Mount 2] (fresh "old"))
  = Some (Some "new"%string).
Proof. by_compute. Qed.

Lemma components_agree_witness :
  exists s, brand_run [Mount 0; Mount 1; Answer; Then; Finally; Mount 2] (fresh "old") = Some s /\
    length (comps s) = 3%nat /\ Forall (fun c => c_shows c = Some "old"%string) (comps s).
Proof.
  eexists. split; [vm_compute; reflexivity|]. split; [vm_compute; reflexivity|].
  apply (components_agree [Mount 0; Mount 1; Answer; Then; Finally; Mount 2] "old"%string); vm_compute; reflexivity.
Defined.

Lemma one_request_serves_all_witness :
  exists s, brand_run [Mount 0; Mount 1; Answer; Then; Mount 2; Finally] (fresh "old") = Some s /\ (requests s <= 1)%nat.
Proof.
  eexists. split; [vm_compute; reflexivity|].
  apply (one_request_serves_all [Mount 0; Mount 1; Answer; Then; Mount 2; Finally] "old"%string); [|vm_compute; reflexivity].
  repeat constructor.
Defined.

Lemma idle_refresh_is_fresh_witness :
  exists s s', brand_run [Mount 0; Answer; Then; Finally; Save "new"] (fresh "old") = Some s /\
    brand_run [Refresh; Answer; Then; Finally] s = Some s' /\ cached s' = Some "new"%string /\
    (cached s' = None \/ cached s' = Some (server s)).
Proof.
  eexists _, _. split; [vm_compute; reflexivity|]. split; [vm_compute; reflexivity|]. split; [reflexivity|].
  refine (proj1 (idle_refresh_is_fresh [Mount 0; Answer; Then; Finally; Save "new"] "old"%string _ [Answer; Then; Finally] _ _ _ _ _)).
  - vm_compute. reflexivity.
  - reflexivity.
  - repeat constructor.
  - vm_compute. reflexivity.
Defined.

Lemma refresh_in_flight_is_lost_witness :
  exists s, brand_run [Mount 0; Answer; Save "new"; Refresh; Then; Finally; Mount 1] (fresh "old") = Some s /\
    server s = "new"%string /\ cached s = Some "old"%string.
Proof.
  eexists. split; [vm_compute; reflexivity|]. split; [reflexivity|].
  apply (refresh_in_flight_is_lost "old"%string "new"%string [Mount 1]); [repeat constructor|vm_compute; reflexivity].
Defined.
