(* ===== verification/CacheVariants.v ===== *)
(** * Other caches of one answer

    Caches.v models the shared caches that forget a failed request.  The program has
    more, each with another treatment of failures and age: the licence
    ([lib/useLicense.ts]) shows a spinner until its request is decided, the key
    attributes ([lib/keyAttributes.ts]) cache the failure itself, and [environmentsOnce]
    ([components/EnvironmentPicker.tsx]) keeps replies by subject for fifteen
    seconds.  The [then], [catch] and [finally] of a request run in one turn here. *)

From S2P Require Import Prelude JsString JsArray Types RuleServer.
From stdpp Require Import strings gmap.

Local Open Scope string_scope.
Local Open Scope list_scope.

(** ** The licence *)

Section licence.
Context {V : Type}.

(** A mounted [useLicense]: what it returns, and whether it waits for a request. *)
Record Sub := { su_id : nat; su_status : option V; su_loading : bool; su_waits : bool }.

(** The request in flight, or the answer the server gave it ([None]: a failure). *)
Inductive Flight := Asked | Replied (r : option V).

Record Licence := { li_cache : option V; li_inflight : option Flight; li_subs : list Sub; li_server : V }.

(** [load()]: it does not look at the cache. *)
Definition load (s : Licence) : Licence :=
  match li_inflight s with
  | Some _ => s
  | None => {| li_cache := li_cache s; li_inflight := Some Asked; li_subs := li_subs s; li_server := li_server s |}
  end.

Definition with_subs (l : list Sub) (s : Licence) : Licence :=
  {| li_cache := li_cache s; li_inflight := li_inflight s; li_subs := l; li_server := li_server s |}.

Definition is_none {A} (o : option A) : bool := match o with None => true | Some _ => false end.

Definition mount (i : nat) (s : Licence) : Licence :=
  let s' := with_subs (li_subs s ++ [{| su_id := i; su_status := li_cache s; su_loading := is_none (li_cache s); su_waits := is_none (li_cache s) |}]) s in
  match li_cache s with Some _ => s' | None => load s' end.
Definition unmount (i : nat) (s : Licence) : Licence := with_subs (List.filter (fun c => negb (Nat.eqb (su_id c) i)) (li_subs s)) s.

Definition refreshLicense (s : Licence) : Licence :=
  load {| li_cache := None; li_inflight := li_inflight s; li_subs := li_subs s; li_server := li_server s |}.

(** The callback of a subscriber; the [catch] of one that waits. *)
Definition told (v : V) (c : Sub) : Sub := {| su_id := su_id c; su_status := Some v; su_loading := false; su_waits := false |}.
Definition gave_up (c : Sub) : Sub :=
  if su_waits c then {| su_id := su_id c; su_status := su_status c; su_loading := false; su_waits := false |} else c.
Definition decide_ (r : option V) (s : Licence) : Licence :=
  match r with
  | Some v => {| li_cache := Some v; li_inflight := None; li_subs := told v <$> li_subs s; li_server := li_server s |}
  | None => {| li_cache := li_cache s; li_inflight := None; li_subs := gave_up <$> li_subs s; li_server := li_server s |}
  end.

Inductive Event := Mount (i : nat) | Unmount (i : nat) | Answer | Failure | Settle | Refresh | Save (v : V).

Definition set_inflight (f : Flight) (s : Licence) : Licence :=
  {| li_cache := li_cache s; li_inflight := Some f; li_subs := li_subs s; li_server := li_server s |}.

Definition exec (e : Event) (s : Licence) : option Licence :=
  match e, li_inflight s with
  | Mount i, _ => Some (mount i s)
  | Unmount i, _ => Some (unmount i s)
  | Answer, Some Asked => Some (set_inflight (Replied (Some (li_server s))) s)
  | Failure, Some Asked => Some (set_inflight (Replied None) s)
  | Settle, Some (Replied r) => Some (decide_ r s)
  | Refresh, _ => Some (refreshLicense s)
  | Save v, _ => Some {| li_cache := li_cache s; li_inflight := li_inflight s; li_subs := li_subs s; li_server := v |}
  | _, _ => None
  end.

Fixpoint run (es : list Event) (s : Licence) : option Licence :=
  match es with [] => Some s | e :: es => match exec e s with Some s' => run es s' | None => None end end.

Definition fresh (v : V) : Licence := {| li_cache := None; li_inflight := None; li_subs := []; li_server := v |}.

(** Who shows a spinner waits for the request in flight; who shows none after one has
    what is cached, if something is. *)
Definition decided (s : Licence) : Prop :=
  Forall (fun c => (su_loading c = true -> su_waits c = true) /\ (su_waits c = true -> li_inflight s <> None)) (li_subs s) /\
  forall v, li_cache s = Some v -> Forall (fun c => su_status c = Some v /\ su_loading c = false) (li_subs s).

Lemma load_decided s : decided s -> decided (load s).
Proof.
  intros [H1 H2]. unfold load. destruct (li_inflight s) eqn:E; [split; [by rewrite E|exact H2]|]. split; [|exact H2]. cbn.
  eapply Forall_impl; [exact H1|]. intros c [Hl Hw]. split; [done|]. intros _. done.
Qed.

Lemma exec_decided e s s' : decided s -> exec e s = Some s' -> decided s'.
Proof.
  intros [H1 H2] He. unfold exec in He. destruct e as [i|i| | | | |v].
  - injection He as <-. unfold mount. destruct (li_cache s) as [v|] eqn:Ec; cbn [is_none].
    + split; cbn; [apply Forall_app; split; [done|]; by apply Forall_singleton|].
      intros w Hw. rewrite Ec in Hw. injection Hw as <-. apply Forall_app. split; [by apply H2|by apply Forall_singleton].
    + unfold load. cbn. destruct (li_inflight s) eqn:Ei; split; cbn; try congruence; apply Forall_app.
      all: split; [eapply Forall_impl; [exact H1|]; intros c [? ?]; split; [done|]; rewrite ?Ei; done|].
      all: apply Forall_singleton; cbn; split; rewrite ?Ei; done.
  - injection He as <-. split; cbn; [|intros v Hv; specialize (H2 v Hv)]; apply Forall_forall; intros c [Hc _]%filterb_elem.
    + rewrite Forall_forall in H1. by apply H1.
    + rewrite Forall_forall in H2. by apply H2.
  - destruct (li_inflight s) as [[]|] eqn:Ei; simplify_eq. split; cbn; [|done].
    eapply Forall_impl; [exact H1|]. intros c [? ?]. by split.
  - destruct (li_inflight s) as [[]|] eqn:Ei; simplify_eq. split; cbn; [|done].
    eapply Forall_impl; [exact H1|]. intros c [? ?]. by split.
  - destruct (li_inflight s) as [[|r]|] eqn:Ei; simplify_eq. destruct r as [v|]; split; cbn.
    + apply Forall_fmap, Forall_true. done.
    + intros w [= <-]. apply Forall_fmap, Forall_true. done.
    + apply Forall_fmap. eapply Forall_impl; [exact H1|]. intros c [Hl _]. cbn. unfold gave_up. destruct (su_waits c) eqn:Ew; [done|].
      split; [intros E; by apply Hl in E|by rewrite Ew].
    + intros v Hv. specialize (H2 v Hv). apply Forall_fmap. eapply Forall_impl; [exact H2|]. intros c [? ?]. cbn. unfold gave_up.
      by destruct (su_waits c).
  - injection He as <-. apply load_decided. split; cbn; [done|discriminate].
  - injection He as <-. by split.
Qed.

Lemma run_decided es s s' : decided s -> run es s = Some s' -> decided s'.
Proof.
  revert s. induction es as [|e es IH]; intros s Hs; cbn [run]; [by intros [= <-]|].
  destruct (exec e s) as [t|] eqn:E; [|done]. apply IH. by eapply exec_decided.
Qed.

Lemma fresh_decided v : decided (fresh v).
Proof. split; [constructor|discriminate]. Qed.

(** The licence never shows an endless spinner: once no request is in flight, no
    component is loading, whatever mounted, failed or was refreshed before. *)
Theorem no_endless_spinner es v s :
  run es (fresh v) = Some s -> li_inflight s = None -> Forall (fun c => su_loading c = false) (li_subs s).
Proof.
  intros Hr Hi. destruct (run_decided es _ s (fresh_decided v) Hr) as [H _]. eapply Forall_impl; [exact H|].
  intros c [Hl Hw]. destruct (su_loading c); [|done]. by destruct (Hw (Hl eq_refl)).
Qed.

(** Refreshing while a request is in flight joins it: a key saved in between is not
    seen. *)
Theorem licence_refresh_joins_flight v w s :
  run [Mount 0; Answer; Save w; Refresh; Settle] (fresh v) = Some s -> li_cache s = Some v /\ li_inflight s = None /\ li_server s = w.
Proof. intros H. by injection H as <-. Qed.
End licence.
Arguments Event : clear implicits.

(** ** Key attributes *)

Record FacetKeys := { fk_slug : string; fk_key_attributes : option (list string) }.

(** The loops of [load]: the keys in order, each once, and those of each facet. *)
Definition add_key (st : list string * list string) (k : string) : list string * list string :=
  if bool_decide (k ∈ st.1) then st else (k :: st.1, st.2 ++ [k]).
Definition add_facet (st : (list string * list string) * list (string * list string)) (t : FacetKeys) :=
  let tKeys := fk_key_attributes t ?? [] in (foldl add_key st.1 tKeys, omap_set (fk_slug t) tKeys st.2).
Definition key_cache (facets : list FacetKeys) : list string * list (string * list string) :=
  let '((_, keys), bySlug) := foldl add_facet (([], []), []) facets in (keys, bySlug).

(** A failed request counts as a cell without facets. *)
Definition keys_loaded (r : option (list FacetKeys)) : list string * list (string * list string) :=
  match r with Some facets => key_cache facets | None => ([], []) end.

(** The cache, and what a call of [load] gives when the next request has that result:
    the value, and the cache after it. *)
Definition load_keys (cache : option (list string * list (string * list string))) (r : option (list FacetKeys)) :=
  match cache with
  | Some c => (c, cache)
  | None => let c := keys_loaded r in (c, Some c)
  end.

Definition pickKeyEntries (attributes : option (list (string * string))) (keys : list string) : list (string * string) :=
  match attributes with
  | None => []
  | Some attributes => omap (fun k => match omap_get k attributes with Some v => if truthy v then Some (k, v) else None | None => None end) keys
  end.

Lemma dedupe_from_app seen l1 l2 :
  dedupe_from seen (l1 ++ l2) = dedupe_from seen l1 ++ dedupe_from (rev (dedupe_from seen l1) ++ seen) l2.
Proof.
  revert seen. induction l1 as [|x l1 IH]; intros seen; [done|]. cbn [app dedupe_from]. case_bool_decide; [apply IH|].
  cbn [app rev]. rewrite IH. f_equal. f_equal. by rewrite <- app_assoc.
Qed.

Lemma add_keys_spec l seen out : foldl add_key (seen, out) l = (rev (dedupe_from seen l) ++ seen, out ++ dedupe_from seen l).
Proof.
  revert seen out. induction l as [|k l IH]; intros seen out; cbn [foldl dedupe_from rev]; [by rewrite app_nil_r|].
  unfold add_key at 2. cbn [fst snd]. case_bool_decide; [apply IH|]. rewrite IH. cbn [rev]. by rewrite <- !app_assoc.
Qed.

(** The key attributes of a cell are those of its facets in the order declared,
    each at its first place. *)
Theorem key_attributes_in_order facets :
  (key_cache facets).1 = dedupe (concat ((fun t => fk_key_attributes t ?? []) <$> facets)).
Proof.
  unfold key_cache. set (kf := fun t => fk_key_attributes t ?? []).
  assert (H : forall seen out by_, (foldl add_facet ((seen, out), by_) facets).1 =
    (rev (dedupe_from seen (concat (kf <$> facets))) ++ seen, out ++ dedupe_from seen (concat (kf <$> facets)))).
  { induction facets as [|t ts IH]; intros seen out by_; cbn [foldl fmap list_fmap concat]; [by rewrite app_nil_r|].
    unfold add_facet at 2. cbn [fst snd]. fold (kf t). rewrite add_keys_spec, IH, dedupe_from_app.
    rewrite rev_app_distr, <- !app_assoc. done. }
  specialize (H [] [] []). destruct (foldl add_facet _ facets) as [[seen keys] bySlug]. cbn in *. by injection H as _ ->.
Qed.

(** The chips keep the registry's order. *)
Lemma pickKeyEntries_sublist attributes keys : sublist ((pickKeyEntries attributes keys).*1) keys.
Proof.
  destruct attributes as [a|]; [|apply sublist_nil_l]. cbn. induction keys as [|k keys IH]; [done|]. cbn.
  destruct (omap_get k a) as [v|]; [destruct (truthy v)|]; cbn; by constructor.
Qed.

(** ** Replies by subject *)

Section replies.
(** Replies are numbered as the requests are sent. *)
Record Hit := { hi_at : Z; hi_reply : nat }.
Record Replies := { re_recent : gmap string Hit; re_sent : list string }.

Definition subject_key (kind id window : string) : string := tpl [kind; NUL; id; NUL; window].

(** [environmentsOnce] at the time [now]: the number of the reply. *)
Definition environmentsOnce (now : Z) (key : string) (s : Replies) : nat * Replies :=
  let ask := (length (re_sent s), {| re_recent := <[key := {| hi_at := now; hi_reply := length (re_sent s) |}]> (re_recent s);
                                     re_sent := re_sent s ++ [key] |}) in
  match re_recent s !! key with
  | Some hit => if (now - hi_at hit <? 15000)%Z then (hi_reply hit, s) else ask
  | None => ask
  end.

(** [reply.catch(() => recent.delete(key))] of the request [n]. *)
Definition reply_failed (n : nat) (s : Replies) : Replies :=
  match re_sent s !! n with
  | Some key => {| re_recent := delete key (re_recent s); re_sent := re_sent s |}
  | None => s
  end.

Inductive Act := Ask (now : Z) (key : string) | Failed (n : nat).
Definition act (s : Replies) (a : Act) : Replies :=
  match a with Ask now key => (environmentsOnce now key s).2 | Failed n => reply_failed n s end.

(** Recent entries name a request for their own key. *)
Definition sound (s : Replies) : Prop := forall key hit, re_recent s !! key = Some hit -> re_sent s !! hi_reply hit = Some key.

Lemma act_sound s a : sound s -> sound (act s a).
Proof.
  intros Hs. destruct a as [now key|n]; cbn.
  - unfold environmentsOnce. assert (Hask : sound {| re_recent := <[key := {| hi_at := now; hi_reply := length (re_sent s) |}]> (re_recent s); re_sent := re_sent s ++ [key] |}).
    { intros k hit. cbn. destruct (decide (k = key)) as [->|Hk].
      - rewrite lookup_insert_eq. intros [= <-]. cbn. by rewrite lookup_app_r, Nat.sub_diag.
      - rewrite lookup_insert_ne by done. intros H%Hs. by apply lookup_app_l_Some. }
    destruct (re_recent s !! key) as [hit|]; [|exact Hask]. destruct (_ <? _)%Z; [exact Hs|exact Hask].
  - unfold reply_failed. destruct (re_sent s !! n); [|done]. intros k hit. cbn. rewrite lookup_delete_Some. intros [_ H]. by apply Hs.
Qed.

Lemma ask_recent now key s : let '(n, s') := environmentsOnce now key s in
  exists hit, re_recent s' !! key = Some hit /\ hi_reply hit = n /\ (now - hi_at hit < 15000)%Z.
Proof.
  unfold environmentsOnce. destruct (re_recent s !! key) as [hit|] eqn:E; [destruct (_ <? _)%Z eqn:El|].
  - exists hit. by apply Z.ltb_lt in El.
  - eexists. cbn. rewrite lookup_insert_eq. split; [done|]. cbn. split; [done|lia].
  - eexists. cbn. rewrite lookup_insert_eq. split; [done|]. cbn. split; [done|lia].
Qed.

(** The scope and the picker of a page share one request: asked again for the same
    subject within fifteen seconds of the request, with other subjects asked and failing
    in between, the answer is the same reply and nothing is sent. *)
Theorem reply_is_shared now key s acts now' :
  sound s -> Forall (fun a => match a with Ask _ k => k <> key | Failed n => re_sent (foldl act (environmentsOnce now key s).2 acts) !! n <> Some key end) acts ->
  let n := (environmentsOnce now key s).1 in
  let s' := foldl act (environmentsOnce now key s).2 acts in
  (forall hit, re_recent (environmentsOnce now key s).2 !! key = Some hit -> now' - hi_at hit < 15000)%Z ->
  environmentsOnce now' key s' = (n, s').
Proof.
  intros Hs Hacts n s' Hage. pose proof (ask_recent now key s) as Hr. unfold n, s' in *. clear n s'.
  destruct (environmentsOnce now key s) as [n s1] eqn:E1. cbn [fst snd] in *. destruct Hr as (hit & Hh & Hn & _).
  specialize (Hage hit Hh).
  assert (Hpre : forall acts s, exists l, re_sent (foldl act s acts) = re_sent s ++ l).
  { clear. induction acts as [|a acts IH]; intros s; [exists []; by rewrite app_nil_r|]. cbn [foldl].
    destruct (IH (act s a)) as [l ->]. assert (H : exists l0, re_sent (act s a) = re_sent s ++ l0).
    { destruct a as [now k|m]; cbn; [unfold environmentsOnce|unfold reply_failed].
      - destruct (re_recent s !! k); [destruct (_ <? _)%Z|]; cbn; eauto; exists []; by rewrite app_nil_r.
      - exists []. rewrite app_nil_r. by destruct (re_sent s !! m). }
    destruct H as [l0 ->]. exists (l0 ++ l). by rewrite app_assoc. }
  assert (Hk : re_recent (foldl act s1 acts) !! key = Some hit).
  { clear E1 Hs. revert s1 Hh Hacts. induction acts as [|a acts IH]; intros s1 Hh Hacts; [done|]. cbn [foldl] in *.
    apply Forall_cons in Hacts as [Ha Hacts]. apply IH; [|exact Hacts]. destruct a as [now0 k|m]; cbn.
    - unfold environmentsOnce. destruct (re_recent s1 !! k); [destruct (_ <? _)%Z|]; cbn; rewrite ?lookup_insert_ne by done; done.
    - unfold reply_failed. destruct (re_sent s1 !! m) as [k|] eqn:Em; [|done]. cbn. rewrite lookup_delete_ne; [done|]. intros ->. apply Ha.
      cbn. destruct (Hpre acts (reply_failed m s1)) as [l ->]. unfold reply_failed. rewrite Em. cbn. by apply lookup_app_l_Some. }
  unfold environmentsOnce. rewrite Hk, (proj2 (Z.ltb_lt _ _)) by done. by rewrite Hn.
Qed.
End replies.

Definition no_replies : Replies := {| re_recent := ∅; re_sent := [] |}.

(** A failure that comes late takes a younger reply with it: the third call, a second
    after the second, sends again. *)
Example late_failure :
  let s := foldl act no_replies [Ask 0 "i"; Ask 16000 "i"; Failed 0] in (environmentsOnce 17000 "i" s).1 = 2%nat.
Proof. by_compute. Qed.

Lemma no_endless_spinner_witness :
  exists s, run [Mount 0; Failure; Mount 1; Settle; Refresh; Answer; Settle; Mount 2] (fresh "free") = Some s /\
    length (li_subs s) = 3%nat /\ Forall (fun c => su_loading c = false) (li_subs s).
Proof.
  eexists. split; [vm_compute; reflexivity|]. split; [vm_compute; reflexivity|].
  apply (no_endless_spinner [Mount 0; Failure; Mount 1; Settle; Refresh; Answer; Settle; Mount 2] "free"); vm_compute; reflexivity.
Defined.

Lemma reply_is_shared_witness :
  let s := (environmentsOnce 0 "i" no_replies).2 in
  environmentsOnce 14000 "i" (foldl act s [Ask 2000 "j"; Failed 1]) = (0%nat, foldl act s [Ask 2000 "j"; Failed 1]).
Proof.
  apply (reply_is_shared 0 "i" no_replies [Ask 2000 "j"; Failed 1] 14000).
  - intros key hit. cbn. by rewrite lookup_empty.
  - repeat constructor; vm_compute; congruence.
  - intros hit. vm_compute. intros [= <-]. reflexivity.
Defined.
