(* ===== verification/Catalog.v ===== *)
(** * System types and the advisor's messages

    [lib/systemKinds.ts] with [lib/useSystemTypes.ts] and [lib/systemTypeSearch.ts],
    against the catalogue of the backend (internal/api/system_templates.go), and
    [lib/advisorLedger.ts]. *)

From S2P Require Import Prelude JsString JsUri JsArray Host Types.

Local Open Scope char_scope.
Local Open Scope string_scope.
Local Open Scope list_scope.

(** ** Kinds *)

Record SystemKindOption := { sk_value : string; sk_label : string }.
Definition kinds (l : list (string * string)) : list SystemKindOption := (fun p => {| sk_value := p.1; sk_label := p.2 |}) <$> l.

Definition SYSTEM_KINDS : list SystemKindOption := kinds [
  ("rabbitmq", "RabbitMQ"); ("activemq", "ActiveMQ"); ("artemis", "ActiveMQ Artemis"); ("azure-servicebus", "Azure Service Bus");
  ("kafka", "Apache Kafka"); ("confluent-kafka", "Confluent Kafka"); ("nats", "NATS"); ("debezium", "Debezium");
  ("krakend", "KrakenD API Gateway"); ("wso2-apim", "WSO2 API Manager"); ("redis", "Redis"); ("sqlserver", "SQL Server");
  ("postgresql", "PostgreSQL"); ("mysql", "MySQL"); ("mongodb", "MongoDB"); ("elasticsearch", "Elasticsearch");
  ("paperless-ngx", "Paperless-ngx"); ("kubernetes", "Kubernetes"); ("other", "Other")].

Definition TEMPLATE_KINDS : list string := [
  "rabbitmq"; "artemis"; "azure-servicebus"; "krakend"; "kafka"; "confluent-kafka"; "nats"; "debezium"; "wso2-apim"; "paperless-ngx"; "kubernetes"].

Definition SERVICE_TEMPLATE_KINDS : list SystemKindOption := kinds [
  ("otel-collector", "OpenTelemetry Collector"); ("dotnet-service", ".NET service"); ("camel", "Apache Camel"); ("node-red", "Node-RED");
  ("airflow", "Apache Airflow"); ("airflow-dag-processor", "Airflow DAG processor"); ("airflow-triggerer", "Airflow triggerer")].

Definition label_in (l : list SystemKindOption) (kind : string) : option string := sk_label <$> List.find (fun k => sk_value k =s kind) l.

Definition systemKindLabel (kind : option string) : string :=
  if negb (truthy_opt kind) then "System" else label_in SYSTEM_KINDS (kind ?? "") ?? (kind ?? "").
Definition hasSystemTemplate (kind : option string) : bool := truthy_opt kind && bool_decide ((kind ?? "") ∈ TEMPLATE_KINDS).
Definition templateKindLabel (kind : option string) : string :=
  if negb (truthy_opt kind) then "service"
  else match label_in SERVICE_TEMPLATE_KINDS (kind ?? "") with
       | Some l => l
       | None => label_in SYSTEM_KINDS (kind ?? "") ?? (kind ?? "")
       end.

(** The catalogue of the backend: kind, label, and whether it is a system. *)
Definition monitoringTemplates : list (string * string * bool) := [
  ("rabbitmq", "RabbitMQ", true); ("artemis", "ActiveMQ Artemis", true); ("azure-servicebus", "Azure Service Bus", true);
  ("krakend", "KrakenD API Gateway", true); ("wso2-apim", "WSO2 API Manager", true); ("kafka", "Apache Kafka", true);
  ("confluent-kafka", "Confluent Kafka", true); ("nats", "NATS", true); ("debezium", "Debezium", true);
  ("paperless-ngx", "Paperless-ngx", true); ("kubernetes", "Kubernetes", true);
  ("otel-collector", "OpenTelemetry Collector", false); ("airflow", "Apache Airflow", false);
  ("airflow-dag-processor", "Airflow DAG processor", false); ("airflow-triggerer", "Airflow triggerer", false);
  ("node-red", "Node-RED", false); ("camel", "Apache Camel", false); ("dotnet-service", ".NET service", false)].

Section types.
Context `{Host}.

(** What [useSystemTypes] caches of an answer, and what it shows after a failure. *)
Record SystemTypeRow := { st_key : string; st_label : string }.
Definition system_options (r : option (list SystemTypeRow)) : list SystemKindOption :=
  match r with
  | None => SYSTEM_KINDS
  | Some types =>
      let rows := sort (cmp_on sk_label localeCompare) ((fun t => {| sk_value := st_key t; sk_label := st_label t |}) <$> types) in
      match rows with [] => SYSTEM_KINDS | _ => rows end
  end.

(** [useSystemKindLabel] *)
Definition kind_label (types : list SystemKindOption) (kind : option string) : string :=
  if negb (truthy_opt kind) then "System" else label_in types (kind ?? "") ?? systemKindLabel kind.

(** ** Search *)

(** Letters and digits of Unicode, for a character of several bytes: a table of the
    language.  Characters are those of UTF-8, by their first byte. *)
Context (letter_or_number : string -> bool).

Fixpoint normalize_fuel (fuel : nat) (s : string) : string :=
  match fuel, s with
  | O, _ | _, "" => ""
  | S fuel, String a _ =>
      let n := if (byte_of a <? 192)%Z then 1%nat else if (byte_of a <? 224)%Z then 2%nat else if (byte_of a <? 240)%Z then 3%nat else 4%nat in
      let c := slice_to n s in
      (if if (byte_of a <? 128)%Z then is_alnum a else letter_or_number c then c else "") +:+ normalize_fuel fuel (slice_from n s)
  end.
Definition normalizeForSearch (s : string) : string := let l := toLowerCase s in normalize_fuel (String.length l) l.

Definition systemTypeMatches (t : SystemTypeRow) (query : string) : bool :=
  let q := normalizeForSearch query in
  if negb (truthy q) then true
  else includes (normalizeForSearch (st_label t)) q || includes (normalizeForSearch (st_key t)) q.

Definition filterSystemTypes (types : list SystemTypeRow) (query : string) : list SystemTypeRow :=
  if negb (truthy (normalizeForSearch query)) then types else List.filter (fun t => systemTypeMatches t query) types.
End types.

(** ** The advisor's ledger *)

Record AdvisorLedger := { al_unavailable : bool; al_ready : bool; al_empty : bool; al_days : Z; al_needs_days : Z }.
Inductive LedgerState := ready | filling | empty | unavailable.

Definition ledgerState (l : AdvisorLedger) : LedgerState :=
  if al_unavailable l then unavailable
  else if al_ready l then ready
  else if al_empty l || (al_days l <=? 0)%Z then empty
  else filling.

Record LedgerMessage := { lm_state : LedgerState; lm_title : string; lm_lead : string; lm_detail : string }.

Definition days (n : Z) : string := if (n =? 1)%Z then "day" else "days".

Definition WHY_WAIT : string := tpl [
  "This wait is deliberate. "; String "034" "Nobody used this"; String "034" " is only true if we were watching the whole time: ";
  "judging a month of telemetry against a few days would call anything you charted last month ";
  "unused, and recommend deleting it. Config you already have (alert rules, facet mappings, ";
  "dashboards) is protected from day one; it is people's queries that need the history."].

Definition ledgerMessage (l : AdvisorLedger) : option LedgerMessage :=
  match ledgerState l with
  | ready => None
  | unavailable => Some {| lm_state := unavailable; lm_title := "Consumption history unavailable";
      lm_lead := "The advisor could not read its demand ledger, so it cannot say what is used and what is not.";
      lm_detail := tpl ["This is a storage problem, not a verdict about your telemetry. Nothing has been judged unused. ";
                        "Check that ClickHouse is reachable from the cell, then evaluate again."] |}
  | empty => Some {| lm_state := empty; lm_title := "Nothing consumed yet";
      lm_lead := "The advisor has no consumption history at all, so it has nothing to weigh your ingest against.";
      lm_detail := tpl ["The ledger records when someone opens a view (messages, traces, logs, a metric chart), not how ";
                        "much telemetry arrives. So it stays empty on a cell nobody browses, however much data is flowing ";
                        "in, and will not fill on its own after "; show_Z (al_needs_days l); " days. Use the product normally for a few ";
                        "weeks and the advisor will start having something to say."] |}
  | filling =>
      let left := Z.max (al_needs_days l - al_days l) 1 in
      Some {| lm_state := filling; lm_title := "Still watching";
      lm_lead := tpl ["The advisor has "; show_Z (al_days l); " "; days (al_days l); " of consumption history and needs ";
                      show_Z (al_needs_days l); ". It will start advising in about "; show_Z left; " "; days left; ", ";
                      "as long as the cell keeps being used."];
      lm_detail := WHY_WAIT |}
  end.

Definition runOutcomeMessage (openSuggestions : Z) (l : AdvisorLedger) : string :=
  if (0 <? openSuggestions)%Z
  then tpl ["Evaluation finished: "; show_Z openSuggestions; " open "; if (openSuggestions =? 1)%Z then "suggestion" else "suggestions"; "."]
  else match ledgerState l with
       | unavailable => "Evaluation ran, but the demand ledger could not be read, so nothing could be judged."
       | empty => "Evaluation ran and found nothing to suggest: there is no consumption history yet to compare your ingest against."
       | filling => tpl ["Evaluation ran and found nothing to suggest: the ledger holds "; show_Z (al_days l); " of the "; show_Z (al_needs_days l); " days needed."]
       | ready => "Evaluation finished: nothing to suggest."
       end.

(** ** Properties *)

(** The lists the pages offer templates from are the backend's catalogue: a system
    kind has a template exactly when the catalogue has one for systems, the service
    kinds are the others, and every label is the catalogue's. *)
Theorem catalogues_agree :
  (forall kind, hasSystemTemplate (Some kind) = true <-> exists label, (kind, label, true) ∈ monitoringTemplates) /\
  (forall kind, kind ∈ sk_value <$> SERVICE_TEMPLATE_KINDS <-> exists label, (kind, label, false) ∈ monitoringTemplates) /\
  Forall (fun t => templateKindLabel (Some t.1.1) = t.1.2) monitoringTemplates.
Proof.
  split; [|split].
  - intros kind. split.
    + unfold hasSystemTemplate. intros [_ H]%andb_true_iff. apply bool_decide_eq_true in H. cbn in H. revert kind H. apply Forall_forall.
      repeat (apply Forall_cons_2; [eexists; in_cons|]). apply Forall_nil_2.
    + intros [label H].
      assert (Hall : Forall (fun t => t.2 = true -> hasSystemTemplate (Some t.1.1) = true) monitoringTemplates)
        by (repeat (apply Forall_cons_2; [cbn [fst snd]; intros; (done || by_compute)|]); apply Forall_nil_2).
      rewrite Forall_forall in Hall. by apply (Hall _ H).
  - intros kind. split.
    + revert kind. apply Forall_forall. repeat (apply Forall_cons_2; [eexists; in_cons|]). apply Forall_nil_2.
    + intros [label H].
      assert (Hall : Forall (fun t => t.2 = false -> t.1.1 ∈ sk_value <$> SERVICE_TEMPLATE_KINDS) monitoringTemplates)
        by (repeat (apply Forall_cons_2; [cbn [fst snd]; intros; (done || in_cons)|]); apply Forall_nil_2).
      rewrite Forall_forall in Hall. by apply (Hall _ H).
  - repeat (apply Forall_cons_2; [by_compute|]). apply Forall_nil_2.
Qed.
