(* ===== verification/CodeFormat.v ===== *)
(** * Formatting a document

    The "Format document" button of the code editor ([components/CodeEditor.tsx]): the
    choice of a formatter, the XML printer over the browser's DOM and the indenter of
    .proto files.  [DOMParser] belongs to the browser and the YAML reader and printer to a
    package: both are arguments. *)

From S2P Require Import Prelude JsString JsUri Host RegExp.

Local Open Scope char_scope.
Local Open Scope string_scope.
Local Open Scope list_scope.

Definition LF : ascii := "010".
Definition CR : ascii := "013".
Definition NL : string := String LF "".
Definition QT : ascii := "034".
Definition PAD : string := "  ".

(** ** XML *)

(** The nodes of a DOM the printer tells apart.  A document type has no case there. *)
#[local] Unset Elimination Schemes.
Inductive Node :=
| TEXT (text : string)
| COMMENT (value : string)
| CDATA (value : string)
| PI (target data : string)
| ELEMENT (tagName : string) (attributes : list (string * string)) (childNodes : list Node)
| DOCTYPE (text : string).
#[local] Set Elimination Schemes.

Section node_ind.
Context (P : Node -> Prop) (HT : forall t, P (TEXT t)) (HC : forall v, P (COMMENT v)) (HD : forall v, P (CDATA v))
  (HP : forall t d, P (PI t d)) (HE : forall n a kids, Forall P kids -> P (ELEMENT n a kids)) (HO : forall t, P (DOCTYPE t)).
End node_ind.

Definition escapeText (v : string) : string :=
  replace_char ">" "&gt;" (replace_char "<" "&lt;" (replace_char "&" "&amp;" v)).
Definition escapeAttr (v : string) : string := replace_char QT "&quot;" (escapeText v).

Definition attr_text (a : string * string) : string := tpl [" "; a.1; "="; String QT ""; escapeAttr a.2; String QT ""].

(** Text of white space only is not a child worth printing. *)
Definition keep (c : Node) : bool := match c with TEXT t => truthy (trim t) | _ => true end.

Fixpoint renderXmlNode (node : Node) (depth : nat) : string :=
  let indent := str_repeat depth PAD in
  match node with
  | TEXT t => let text := trim t in if truthy text then indent +:+ text else ""
  | COMMENT v => tpl [indent; "<!--"; v; "-->"]
  | CDATA v => tpl [indent; "<![CDATA["; v; "]]>"]
  | PI target data => tpl [indent; "<?"; target; " "; data; "?>"]
  | ELEMENT tagName attributes childNodes =>
      let attrs := tpl (attr_text <$> attributes) in
      let rendered := concat (List.map (fun c => if keep c then [renderXmlNode c (S depth)] else []) childNodes) in
      match List.filter keep childNodes with
      | [] => tpl [indent; "<"; tagName; attrs; "/>"]
      | [TEXT t] => tpl [indent; "<"; tagName; attrs; ">"; escapeText (trim t); "</"; tagName; ">"]
      | _ => tpl [indent; "<"; tagName; attrs; ">"; NL; join NL (List.filter truthy rendered); NL; indent; "</"; tagName; ">"]
      end
  | DOCTYPE _ => ""
  end.

(** [/^\s*<\?xml[^?]*\?>/], trimmed. *)
Definition xml_declaration (content : string) : option string :=
  let s := trimStart content in
  if negb (startsWith s "<?xml") then None
  else let r := slice_from 5 s in
       match index_of "?" r with
       | Some i => if startsWith (slice_from i r) "?>" then Some (tpl ["<?xml"; slice_to i r; "?>"]) else None
       | None => None
       end.

Section xml.
(** [DOMParser]: the nodes of the document, or the text of the error. *)
Context (parseFromString : string -> string + list Node).

Definition formatXml (content : string) : string + string :=
  match parseFromString content with
  | inl m => inl (trim (or_str (Some m) "parse error"))
  | inr childNodes =>
      let decl := match xml_declaration content with Some d => [d] | None => [] end in
      inr (join NL (decl ++ List.filter truthy ((fun c => renderXmlNode c 0) <$> childNodes)))
  end.
End xml.

(** ** Protocol buffers *)

Definition drop_cr (s : string) : string := if endsWith s (String CR "") then drop_last s else s.
(** [content.split(/\r?\n/)] *)
Fixpoint cr_lines (l : list string) : list string :=
  match l with [] => [] | [s] => [s] | s :: l => drop_cr s :: cr_lines l end.

Fixpoint count_char (a : ascii) (s : string) : Z :=
  match s with "" => 0 | String b s => (if Ascii.eqb a b then 1 else 0) + count_char a s end%Z.

Record ProtoState := { ps_depth : Z; ps_out : list string; ps_lastBlank : bool }.

Definition proto_line (st : ProtoState) (raw : string) : ProtoState :=
  let trimmed := trim raw in
  if negb (truthy trimmed) then
    {| ps_depth := ps_depth st; ps_lastBlank := true;
       ps_out := if negb (ps_lastBlank st) && (0 <? length (ps_out st))%nat then ps_out st ++ [""] else ps_out st |}
  else
    let effectiveDepth := if startsWith trimmed "}" then Z.max 0 (ps_depth st - 1) else ps_depth st in
    {| ps_depth := Z.max 0 (ps_depth st + count_char "{" trimmed - count_char "}" trimmed); ps_lastBlank := false;
       ps_out := ps_out st ++ [str_repeat (Z.to_nat effectiveDepth) PAD +:+ trimmed] |}.

(** The loop that drops blank lines at the end, on the reversed list. *)
Fixpoint drop_blank (l : list string) : list string := match l with "" :: l => drop_blank l | _ => l end.

Definition proto_start : ProtoState := {| ps_depth := 0; ps_out := []; ps_lastBlank := false |}.
Definition formatProto (content : string) : string :=
  let st := foldl proto_line proto_start (cr_lines (split LF content)) in
  join NL (rev (drop_blank (rev (ps_out st)))) +:+ NL.

(** ** The button *)

Section format.
Context `{Host}.
(** Parsing and printing of JSON, YAML and XML; an error holds its message. *)
Context (format_json format_yaml format_xml : string -> string + string).

Definition canFormat (format : string) : bool :=
  bool_decide (toLowerCase format ∈ ["json"; "avro"; "yaml"; "yml"; "openapi"; "xml"; "xslt"; "html"; "protobuf"; "proto"]).

Definition with_label (label : string) (r : string + string) : string + string :=
  match r with inl m => inl (tpl [label; ": "; m]) | inr s => inr s end.

Definition reformat (content format : string) : string + string :=
  let f := toLowerCase format in
  if (f =s "json") || (f =s "avro") then with_label "JSON" (format_json content)
  else if (f =s "yaml") || (f =s "yml") || (f =s "openapi") then with_label "YAML" (format_yaml content)
  else if (f =s "xml") || (f =s "xslt") || (f =s "html") then with_label "XML" (format_xml content)
  else if (f =s "protobuf") || (f =s "proto") then inr (formatProto content)
  else inl (tpl ["Formatting not supported for "; String QT ""; format; String QT ""; "."]).
End format.

(** ** What XML text says: its markup, read back *)

Inductive token :=
| TText (s : string) | TOpen (name : string) (attrs : list (string * string)) | TClose (name : string)
| TComment (s : string) | TCData (s : string) | TPi (target data : string).

(** The markup of a document: text without the white space around it, and nothing for
    text that is white space only. *)
Definition text_tokens (s : string) : list token := if truthy (trim s) then [TText (trim s)] else [].
Fixpoint tokens (n : Node) : list token :=
  match n with
  | TEXT t => text_tokens t
  | COMMENT v => [TComment v]
  | CDATA v => [TCData v]
  | PI t d => [TPi t d]
  | ELEMENT n a kids => TOpen n a :: concat (List.map tokens kids) ++ [TClose n]
  | DOCTYPE _ => []
  end.

(** The five predefined entities but the apostrophe, which is never written. *)
Definition entity (e : string) : string :=
  if e =s "amp" then "&" else if e =s "lt" then "<" else if e =s "gt" then ">" else if e =s "quot" then String QT "" else tpl ["&"; e; ";"].
Fixpoint decode_from (ent : option string) (s : string) : string :=
  match s with
  | "" => match ent with None => "" | Some e => "&" +:+ e end
  | String a s =>
      match ent with
      | None => if Ascii.eqb "&" a then decode_from (Some "") s else String a (decode_from None s)
      | Some e => if Ascii.eqb ";" a then entity e +:+ decode_from None s else decode_from (Some (e +:+ String a "")) s
      end
  end.
Definition decode (s : string) : string := decode_from None s.

(** Reads tags: what is between the angle brackets. *)
Fixpoint read_attrs (key : string) (ps : list string) : list (string * string) :=
  match ps with
  | v :: next :: ps => (drop_last (slice_from 1 key), decode v) :: read_attrs next ps
  | _ => []
  end.
Definition read_tag (body : string) : string * list (string * string) :=
  match split QT body with
  | [] => ("", [])
  | p :: ps => match index_of " " p with None => (p, []) | Some i => (slice_to i p, read_attrs (slice_from i p) ps) end
  end.

Definition markup (acc : string) : list token :=
  if startsWith acc "!--" then [TComment (inner 3 2 acc)]
  else if startsWith acc "![CDATA[" then [TCData (inner 8 2 acc)]
  else if startsWith acc "?" then
    let b := inner 1 1 acc in
    match index_of " " b with Some i => [TPi (slice_to i b) (slice_from (S i) b)] | None => [TPi b ""] end
  else if startsWith acc "/" then [TClose (slice_from 1 acc)]
  else if endsWith acc "/" then let '(n, a) := read_tag (drop_last acc) in [TOpen n a; TClose n]
  else let '(n, a) := read_tag acc in [TOpen n a].

(** Whether a bracket closes what was opened. *)
Definition closes (acc : string) : bool :=
  if startsWith acc "!--" then (5 <=? String.length acc)%nat && endsWith acc "--"
  else if startsWith acc "![CDATA[" then endsWith acc "]]"
  else if startsWith acc "?" then (2 <=? String.length acc)%nat && endsWith acc "?"
  else true.

(** The reader: in text, or between brackets. *)
Inductive Reader := InText (acc : string) | InTag (acc : string).
Definition flush (acc : string) : list token := text_tokens (decode acc).
Definition feed_char (st : Reader) (a : ascii) : Reader * list token :=
  match st with
  | InText acc => if Ascii.eqb "<" a then (InTag "", flush acc) else (InText (acc +:+ String a ""), [])
  | InTag acc => if Ascii.eqb ">" a && closes acc then (InText "", markup acc) else (InTag (acc +:+ String a ""), [])
  end.
Fixpoint feed (st : Reader) (s : string) : Reader * list token :=
  match s with
  | "" => (st, [])
  | String a s => let '(st1, t1) := feed_char st a in let '(st2, t2) := feed st1 s in (st2, t1 ++ t2)
  end.
Definition read (s : string) : option (list token) :=
  match feed (InText "") s with (InText acc, ts) => Some (ts ++ flush acc) | (InTag _, _) => None end.


(** *** The reader on concatenations *)







(** *** Escapes *)









(** *** Tags *)














(** *** White space between tags *)

Lemma indent_ws d : all_in ws1 (str_repeat d PAD) = true.
Proof. induction d as [|d IH]; [done|]. cbn [str_repeat]. by rewrite all_in_app, IH. Qed.


Lemma trim_ws w s v : all_in ws1 w = true -> all_in ws1 v = true -> trim (w +:+ (s +:+ v)) = trim s.
Proof.
  intros Hw Hv. assert (Hl : forall s, trim (w +:+ s) = trim s).
  { clear s. intros s. induction w as [|a w IH]; [done|]. cbn in *. apply andb_true_iff in Hw as [Ha Hw]. rewrite trim_ws_l by done. by apply IH. }
  rewrite Hl. clear Hl. revert s. induction v as [|a v IH]; intros s; [by rewrite sapp_nil_r|]. cbn in Hv. apply andb_true_iff in Hv as [Ha Hv].
  replace (s +:+ String a v) with ((s +:+ String a "") +:+ v) by (by rewrite <- sapp_assoc). rewrite IH by done. by apply trim_ws_r.
Qed.


(** *** Pieces of markup *)
















(** *** Children *)








(** *** Elements and documents *)

















(** *** Protocol buffers *)

Definition run (l : list string) : ProtoState := foldl proto_line proto_start l.

Lemma trim_drop_cr s : trim (drop_cr s) = trim s.
Proof.
  unfold drop_cr. destruct (endsWith s (String CR "")) eqn:E; [|done]. apply endsWith_spec in E as [a ->]. rewrite drop_last_app. by rewrite trim_ws_r.
Qed.

Lemma trim_cr_lines l : trim <$> cr_lines l = trim <$> l.
Proof.
  induction l as [|s l IH]; [done|]. destruct l as [|s' l]; [done|]. change (cr_lines (s :: s' :: l)) with (drop_cr s :: cr_lines (s' :: l)).
  cbn [fmap list_fmap]. cbn [fmap list_fmap] in IH. by rewrite trim_drop_cr, IH.
Qed.

Lemma proto_line_trim st s : proto_line st (trim s) = proto_line st s.
Proof. unfold proto_line. by rewrite trim_trim. Qed.

Lemma run_trim l l' : trim <$> l = trim <$> l' -> run l = run l'.
Proof.
  intros H. unfold run. assert (Hl : forall st l, foldl proto_line st l = foldl proto_line st (trim <$> l)).
  { intros st m. revert st. induction m as [|s m IH]; intros st; [done|]. cbn. by rewrite IH, proto_line_trim. }
  by rewrite (Hl _ l), (Hl _ l'), H.
Qed.

Lemma trim_indent d t : trim (str_repeat d PAD +:+ trim t) = trim t.
Proof. rewrite <- (sapp_nil_r (trim t)) at 1. rewrite trim_ws by (done || apply indent_ws). apply trim_trim. Qed.

(** A step adds at most one line, and that line trims to the line read. *)
Lemma proto_step st s : exists l, ps_out (proto_line st s) = ps_out st ++ l /\ (length l <= 1)%nat /\
  List.filter truthy (trim <$> l) = List.filter truthy [trim s].
Proof.
  unfold proto_line. destruct (truthy (trim s)) eqn:E; cbn [negb ps_out].
  - eexists. split; [done|]. split; [done|]. cbn. by rewrite trim_indent.
  - cbn. rewrite E. case_if; [by exists [""]|]. exists []. rewrite app_nil_r. split; [done|split; [cbn; lia|done]].
Qed.

Lemma run_lines l : List.filter truthy (trim <$> ps_out (run l)) = List.filter truthy (trim <$> l).
Proof.
  induction l as [|s l IH] using rev_ind; [done|]. unfold run in *. rewrite foldl_app, fmap_app, List.filter_app, <- IH. cbn [foldl].
  destruct (proto_step (foldl proto_line proto_start l) s) as (m & -> & _ & Hm). by rewrite fmap_app, List.filter_app, Hm.
Qed.

Lemma run_extends l m : exists k, ps_out (run (l ++ m)) = ps_out (run l) ++ k /\ (length k <= length m)%nat.
Proof.
  induction m as [|s m IH] using rev_ind; [exists []; by rewrite !app_nil_r|]. destruct IH as (k & E & Hk). unfold run in *.
  rewrite app_assoc, foldl_app. cbn [foldl]. destruct (proto_step (foldl proto_line proto_start (l ++ m)) s) as (j & -> & Hj & _).
  exists (k ++ j). rewrite E, app_assoc, !length_app. cbn. split; [done|lia].
Qed.

(** Run over its own lines, the printer reaches the same state. *)
Lemma run_again l : let st := run l in let st' := run (ps_out st) in
  ps_out st' = ps_out st /\ ps_depth st' = ps_depth st /\ (ps_out st <> [] -> ps_lastBlank st' = ps_lastBlank st).
Proof.
  induction l as [|s l IH] using rev_ind; [done|]. cbn zeta in *. destruct IH as (Ho & Hd & Hb). unfold run in *. rewrite foldl_app. cbn [foldl].
  set (st := foldl proto_line proto_start l) in *. set (st' := foldl proto_line proto_start (ps_out st)) in *.
  destruct (truthy (trim s)) eqn:E.
  - assert (Hs : forall r, ps_out r = ps_out st -> ps_depth r = ps_depth st -> forall t, trim t = trim s ->
      proto_line r t = proto_line st s) by (intros r Hr1 Hr2 t Ht; unfold proto_line; by rewrite Ht, E, Hr1, Hr2).
    assert (Hl : exists d, ps_out (proto_line st s) = ps_out st ++ [str_repeat d PAD +:+ trim s]) by (unfold proto_line; rewrite E; cbn; by eexists).
    destruct Hl as [d Hl]. rewrite Hl, foldl_app. cbn [foldl]. fold st'. rewrite (Hs st' Ho Hd) by apply trim_indent. by rewrite Hl.
  - destruct (negb (ps_lastBlank st) && (0 <? length (ps_out st))%nat) eqn:Ec.
    + assert (Hl : ps_out (proto_line st s) = ps_out st ++ [""]) by (unfold proto_line; rewrite E; cbn [negb ps_out]; by rewrite Ec).
      apply andb_true_iff in Ec as Hc. destruct Hc as [Hl2 Hn].
      assert (Hne : ps_out st <> []) by (intros Hz; by rewrite Hz in Hn).
      rewrite Hl, foldl_app. cbn [foldl]. fold st'. unfold proto_line. rewrite E. change (trim "") with "". cbn [truthy negb String.eqb ps_out ps_depth ps_lastBlank].
      rewrite Ho, (Hb Hne), Ec. done.
    + assert (Hl : proto_line st s = {| ps_depth := ps_depth st; ps_out := ps_out st; ps_lastBlank := true |}) by (unfold proto_line; rewrite E; cbn [negb ps_out]; by rewrite Ec).
      rewrite Hl. cbn [ps_out ps_depth ps_lastBlank]. fold st'. split; [done|split; [done|]]. intros Hne. rewrite (Hb Hne).
      apply andb_false_iff in Ec as [Hc|Hc]; [by apply negb_false_iff in Hc|]. by destruct (ps_out st).
Qed.

Lemma run_no_lf l : Forall (fun p => no_char LF p = true) l -> Forall (fun p => no_char LF p = true) (ps_out (run l)).
Proof.
  induction l as [|s l IH] using rev_ind; [constructor|]. intros [Hl Hs]%Forall_app. apply Forall_cons in Hs as [Hs _]. specialize (IH Hl).
  unfold run in *. rewrite foldl_app. cbn [foldl]. unfold proto_line at 1. destruct (negb (truthy (trim s))); cbn [ps_out].
  - case_if; [|done]. apply Forall_app. split; [done|by repeat constructor].
  - apply Forall_app. split; [done|]. constructor; [|done]. rewrite no_char_app, trim_no_char by done. rewrite andb_true_r.
    set (n := Z.to_nat _). clearbody n. by induction n.
Qed.

Lemma drop_blank_split l : exists k, l = replicate k "" ++ drop_blank l.
Proof.
  induction l as [|s l [k IH]]; [by exists 0%nat|]. destruct s as [|a s]; [|by exists 0%nat]. exists (S k). cbn. by f_equal.
Qed.
Lemma drop_blank_idem l : drop_blank (drop_blank l) = drop_blank l.
Proof. induction l as [|s l IH]; [done|]. by destruct s. Qed.

(** What is printed: the lines kept, without the blank ones at the end. *)
Definition proto_out (l : list string) : list string := rev (drop_blank (rev (ps_out (run l)))).
Lemma formatProto_out s : formatProto s = join NL (proto_out (split LF s)) +:+ NL.
Proof. unfold formatProto, proto_out. fold (run (cr_lines (split LF s))). by rewrite (run_trim _ _ (trim_cr_lines (split LF s))). Qed.

Lemma proto_out_split l : exists k, ps_out (run l) = proto_out l ++ replicate k "".
Proof.
  unfold proto_out. destruct (drop_blank_split (rev (ps_out (run l)))) as [k Hk]. exists k. apply (f_equal (@rev string)) in Hk.
  rewrite rev_involutive, rev_app_distr in Hk. rewrite Hk at 1. f_equal. clear. induction k as [|k IH]; [done|]. cbn. rewrite IH. clear.
  induction k as [|k IH]; [done|]. cbn. by f_equal.
Qed.

(** The lines printed, and the empty one after the last. *)
Lemma printed_lines s : split LF (formatProto s) = match proto_out (split LF s) with [] => [""; ""] | out => out ++ [""] end.
Proof.
  rewrite formatProto_out. destruct (proto_out_split (split LF s)) as [k Hk]. pose proof (run_no_lf _ (split_clean LF s)) as Hn. rewrite Hk in Hn.
  apply Forall_app in Hn as [Hn _]. destruct (proto_out (split LF s)) as [|x out] eqn:E; [done|].
  rewrite <- (split_join LF ((x :: out) ++ [""])); [|done|apply Forall_app; split; [done|by repeat constructor]]. f_equal. clear.
  revert x. induction out as [|y out IH]; intros x; [done|]. change (x +:+ (NL +:+ join NL (y :: out))) with (join NL (x :: y :: out)).
  cbn [join app]. cbn [join app] in IH. rewrite <- !sapp_assoc. f_equal. f_equal. by rewrite <- IH, <- ?sapp_assoc.
Qed.

Lemma run_proto_out l : ps_out (run (proto_out l)) = proto_out l.
Proof.
  destruct (proto_out_split l) as [k Hk]. destruct (run_again l) as (Ha & _). rewrite Hk in Ha.
  destruct (run_extends (proto_out l) (replicate k "")) as (j & Hj & Hlen). rewrite Ha in Hj.
  destruct (run_extends [] (proto_out l)) as (i & Hi & Hleni). cbn [app] in Hi. change (ps_out (run [])) with (@nil string) in Hi. cbn [app] in Hi.
  pose proof (f_equal length Hj) as Hl. rewrite !length_app in Hl. rewrite Hi in *.
  apply app_inj_1 in Hj as [Hj _]; [done|lia].
Qed.

(** Formatting a .proto file keeps its lines, up to indentation and blank lines, and
    formatting the result changes nothing. *)
Theorem proto_formatting s :
  List.filter truthy (trim <$> split LF (formatProto s)) = List.filter truthy (trim <$> split LF s) /\ formatProto (formatProto s) = formatProto s.
Proof.
  set (l := split LF s). destruct (proto_out_split l) as [k Hk]. split.
  - rewrite printed_lines. fold l. rewrite <- (run_lines l), Hk, fmap_app, List.filter_app.
    replace (List.filter truthy (trim <$> replicate k "")) with (@nil string) by (clear; induction k as [|k IH]; [done|exact IH]).
    destruct (proto_out l) as [|x out]; [done|]. rewrite fmap_app, List.filter_app. done.
  - rewrite (formatProto_out (formatProto s)), printed_lines, (formatProto_out s). fold l. f_equal. f_equal.
    pose proof (run_proto_out l) as Hr. pose proof (drop_blank_idem (rev (ps_out (run l)))) as Hi.
    assert (Hp : drop_blank (rev (proto_out l)) = rev (proto_out l)) by (unfold proto_out; by rewrite rev_involutive).
    destruct (proto_out l) as [|x out] eqn:E; [done|]. unfold proto_out at 1. set (st := run (x :: out)) in *.
    assert (Hs : run ((x :: out) ++ [""]) = proto_line st "") by (unfold run; by rewrite foldl_app). rewrite Hs.
    unfold proto_line. change (truthy (trim "")) with false. cbn [negb ps_out].
    case_if; rewrite Hr; rewrite ?rev_app_distr; [change (drop_blank (rev [""] ++ rev (x :: out))) with (drop_blank (rev (x :: out)))|]; by rewrite Hp, rev_involutive.
Qed.

(** *** The button *)

(** The button is enabled for the formats there is a formatter for: a format it is
    enabled for is handed to one, and for every other the document stays as it is with an
    error. *)
Theorem format_button `{Host} format_json format_yaml format_xml content format :
  let r := reformat format_json format_yaml format_xml content format in
  if canFormat format
  then exists label f, f ∈ [format_json; format_yaml; format_xml; fun s => inr (formatProto s)] /\ r = with_label label (f content)
  else r = inl (tpl ["Formatting not supported for "; String QT ""; format; String QT ""; "."]).
Proof.
  cbn zeta. unfold canFormat, reformat. case_bool_decide as Hf.
  - repeat (apply elem_of_cons in Hf as [Hf|Hf]; [rewrite Hf; cbn [String.eqb Ascii.eqb Bool.eqb orb];
      first [by (exists "JSON", format_json; split; [in_cons|reflexivity]) | by (exists "YAML", format_yaml; split; [in_cons|reflexivity])
            |by (exists "XML", format_xml; split; [in_cons|reflexivity]) | exists "", (fun s => inr (formatProto s)); split; [in_cons|reflexivity]]|]).
    by apply elem_of_nil in Hf.
  - repeat match goal with |- context [toLowerCase format =s ?s] => destruct (toLowerCase format =s s) eqn:?; [bool_prop; exfalso; apply Hf; match goal with E : toLowerCase format = _ |- _ => rewrite E end; in_cons|] end.
    done.
Qed.

(** ** Examples *)

(** The children of an element that mixes text and tags: the text is written as it is. *)
Definition mixed : Node := ELEMENT "p" [] [TEXT "a < b & c"; ELEMENT "i" [] []].
Example mixed_text_not_escaped : read (renderXmlNode mixed 0) <> Some (tokens mixed).
Proof. vm_compute. discriminate. Qed.

(** A document that starts with a style sheet instruction and no declaration gets the
    instruction twice, and once more each time. *)
Definition sheet : list Node := [PI "xml-stylesheet" "s.css"; ELEMENT "a" [] []].
Example instruction_doubled : formatXml (fun _ => inr sheet) "<?xml-stylesheet s.css?><a/>" =
  inr (join NL ["<?xml-stylesheet s.css?>"; "<?xml-stylesheet s.css?>"; "<a/>"]).
Proof. by_compute. Qed.

(** The document type of a document is gone. *)
Example doctype_dropped : formatXml (fun _ => inr [DOCTYPE "html"; ELEMENT "html" [] []]) "<!DOCTYPE html><html/>" = inr "<html/>".
Proof. by_compute. Qed.

