(* ===== verification/Trim.v ===== *)
(** * Trimming ingestion

    The panels that turn a choice of metrics, logs or spans into a configuration for an
    OpenTelemetry collector: [components/metrics/TrimIngestionPanel.tsx],
    [components/traces/TraceTrimPanel.tsx] and [components/logs/LogTrimPanel.tsx].  The
    user pastes the text; the collector that reads it is an argument, with the rules of
    its documentation as laws. *)

From S2P Require Import Prelude JsString JsUri JsArray Host RegExp.

Local Open Scope char_scope.
Local Open Scope string_scope.
Local Open Scope list_scope.

Definition NL : string := String "010" "".
Definition QT : ascii := "034".
Definition BS : ascii := "092".

(** [Array.prototype.sort] without a comparator: by UTF-16 code units.  In UTF-8 that is
    the order of the bytes, with the lead bytes of the characters U+E000 to U+FFFF after
    those of four bytes. *)
Definition unit_key (a : ascii) : Z := if ((byte_of a =? 238) || (byte_of a =? 239))%Z then byte_of a + 16 else byte_of a.
Fixpoint unit_cmp (s t : string) : Z :=
  match s, t with
  | "", "" => 0
  | "", _ => -1
  | _, "" => 1
  | String a s, String b t => if (unit_key a =? unit_key b)%Z then unit_cmp s t else (unit_key a - unit_key b)%Z
  end.

(** ** Escapes *)

(** [s.replace(/quote/g, ...)]: a backslash before each quote. *)
Definition esc (s : string) : string := replace_char QT (String BS (String QT "")) s.

Definition metachar (a : ascii) : bool := char_in (".*+?^${}()|[]" +:+ String BS "") a.
Fixpoint escapeRe (s : string) : string :=
  match s with "" => "" | String a s => if metachar a then String BS (String a (escapeRe s)) else String a (escapeRe s) end.

(** Those of internal/advisor/snippets.go, which writes the same lines on the server. *)
Definition yamlEsc (s : string) : string := esc (replace_char BS (String BS (String BS "")) s).
Definition reEsc (s : string) : string := escapeRe s.

(** ** Suggested prefixes *)

Record PrefixSuggestion := { px_prefix : string; px_count : Z }.

(** [/[._:-]/] *)
Definition sep (a : ascii) : bool := char_in "._:-" a.
(** The inner loop: the parts of a name up to a separator, not the first character and
    not the last. *)
Fixpoint cuts_from (pre s : string) : list string :=
  match s with
  | String a (String _ _ as s') =>
      (if sep a && truthy pre then [pre +:+ String a ""] else []) ++ cuts_from (pre +:+ String a "") s'
  | _ => []
  end.
Definition cuts (nm : string) : list string := cuts_from "" nm.

Definition count_cut (m : list (string * Z)) (p : string) : list (string * Z) := omap_set p (omap_get p m ?? 0 + 1)%Z m.
Definition prefix_counts (names : list string) : list (string * Z) := foldl (fun m nm => foldl count_cut m (cuts nm)) [] names.

(** The candidates: the filters before the search for longer prefixes. *)
Definition candidates (names active : list string) : list PrefixSuggestion :=
  (fun pc => {| px_prefix := pc.1; px_count := pc.2 |}) <$>
  List.filter (fun pc => negb (existsb (fun ap => startsWith pc.1 ap) active))
    (List.filter (fun pc => (3 <=? pc.2)%Z && (3 <=? utf16_length pc.1)%nat) (prefix_counts names)).

(** A longer prefix that covers as much; candidates are told apart by their prefix. *)
Definition subsumed (cands : list PrefixSuggestion) (c : PrefixSuggestion) : bool :=
  existsb (fun o => negb (px_prefix o =s px_prefix c) && startsWith (px_prefix o) (px_prefix c) && (px_count c <=? px_count o)%Z) cands.

Definition suggestPrefixes (names active : list string) : list PrefixSuggestion :=
  let cands := candidates names active in
  take 3 (sort (cmp_or (cmp_desc px_count) (cmp_desc (fun c => Z.of_nat (utf16_length (px_prefix c)))))
    (List.filter (fun c => negb (subsumed cands c)) cands)).

(** ** The configuration *)

Record AttrRule := { at_metric : string; at_key : string; at_value : string }.
Inductive Floor := all | warn | error.
Record LogTrimRule := { lt_service : string; lt_floor : Floor }.
Inductive Mode := drop | sample.
Record TraceTrimRule := { tt_service : string; tt_mode : Mode }.
Definition is_drop (r : TraceTrimRule) : bool := match tt_mode r with drop => true | sample => false end.

(** A line of a condition list. *)
Definition item (c : string) : string := tpl ["        - '"; c; "'"].
Definition quote (s : string) : string := tpl [String QT ""; s; String QT ""].

Definition covered (pfx : list string) (nm : string) : bool := existsb (fun p => startsWith nm p) pfx.
Definition service_is (s : string) : string := tpl ["resource.attributes["; quote "service.name"; "] == "; quote (esc s)].

Section config.
Context `{Host}.

Definition prefix_line (p : string) : string := item (tpl ["IsMatch(name, "; quote ("^" +:+ escapeRe p); ")"]).
Definition exact_line (nm : string) : string := item (tpl ["name == "; quote (esc nm)]).
Definition datapoint_line (r : AttrRule) : string :=
  item (tpl ["metric.name == "; quote (esc (at_metric r)); " and attributes["; quote (esc (at_key r)); "] == "; quote (esc (at_value r))]).
Definition log_line (r : LogTrimRule) : string :=
  match lt_floor r with
  | warn => item (tpl [service_is (lt_service r); " and severity_number < SEVERITY_NUMBER_WARN"])
  | error => item (tpl [service_is (lt_service r); " and severity_number < SEVERITY_NUMBER_ERROR"])
  | all => item (service_is (lt_service r))
  end.

Definition metric_lines (names prefixes : list string) : list string :=
  let pfx := sort unit_cmp prefixes in
  (prefix_line <$> pfx) ++ (exact_line <$> sort unit_cmp (List.filter (fun nm => negb (covered pfx nm)) names)).

Definition datapoint_rules (names prefixes : list string) (attrRules : list AttrRule) : list AttrRule :=
  sort (cmp_or (cmp_on at_metric localeCompare) (cmp_or (cmp_on at_key localeCompare) (cmp_on at_value localeCompare)))
    (List.filter (fun r => negb (bool_decide (at_metric r ∈ names)) && negb (covered (sort unit_cmp prefixes) (at_metric r))) attrRules).

Definition lines_of (l : list string) : string := join NL l.
(** A part of a text that is there only when its list is not empty. *)
Definition when {A} (l : list A) (s : string) : list string := match l with [] => [] | _ => [s] end.

Definition sampling_block (sampled : list TraceTrimRule) (samplePct : Z) : string :=
  let values := join ", " ((fun r => esc (tt_service r)) <$> sampled) in
  lines_of [
    tpl ["  # Keep "; show_Z samplePct; "% of these services' traces; every other"];
    "  # service passes through untouched.";
    "  tail_sampling/sluicio-trim:";
    "    policies:";
    "      - name: sample-noisy-services";
    "        type: and";
    "        and:";
    "          and_sub_policy:";
    "            - name: the-services";
    "              type: string_attribute";
    tpl ["              string_attribute: {key: service.name, values: ["; values; "]}"];
    "            - name: keep-a-share";
    "              type: probabilistic";
    tpl ["              probabilistic: {sampling_percentage: "; show_Z samplePct; "}"];
    "      - name: keep-everything-else";
    "        type: and";
    "        and:";
    "          and_sub_policy:";
    "            - name: all-other-services";
    "              type: string_attribute";
    tpl ["              string_attribute: {key: service.name, values: ["; values; "], invert_match: true}"];
    "            - name: keep";
    "              type: always_sample"].

Definition buildCollectorConfig (names prefixes : list string) (attrRules : list AttrRule) (logRules : list LogTrimRule)
    (traceRules : list TraceTrimRule) (samplePct : Z) (product : string) : string :=
  let metricLines := metric_lines names prefixes in
  let dpLines : list string := datapoint_line <$> datapoint_rules names prefixes attrRules in
  let logs := sort (cmp_on lt_service localeCompare) logRules in
  let spanDrops := sort (cmp_on tt_service localeCompare) (List.filter is_drop traceRules) in
  let sampled := sort (cmp_on tt_service localeCompare) (List.filter (fun r => negb (is_drop r)) traceRules) in
  match (metricLines ++ dpLines ++ (lt_service <$> logs) ++ (tt_service <$> spanDrops) ++ (tt_service <$> sampled))%list with
  | [] => lines_of ["# Select metrics, log services, or trace services on the left"; "# to generate a collector config…"]
  | _ =>
      let metricSections :=
        when metricLines (lines_of ("      metric:" :: metricLines)) ++
        when dpLines (lines_of ("      # datapoint conditions drop only the matching series — the rest" :: "      # of the metric keeps flowing" ::
                                "      datapoint:" :: dpLines)) in
      let signalSections :=
        when metricSections (lines_of ("    metrics:" :: metricSections)) ++
        when logs (lines_of ("    logs:" :: "      # severity floors keep warnings/errors flowing so you can still" ::
                             "      # alert on them later — only the noise below is dropped" :: "      log_record:" :: (log_line <$> logs))) ++
        when spanDrops (lines_of ("    traces:" :: tpl ["      # CAUTION: dropping a service's spans removes it from "; product; "'s"] ::
                                  "      # integration health entirely — prefer sampling if it's monitored" :: "      span:" ::
                                  ((fun r => item (service_is (tt_service r))) <$> spanDrops))) in
      let blocks :=
        when signalSections (lines_of ("  filter/sluicio-exclude:" :: "    error_mode: ignore" :: signalSections)) ++
        when sampled (sampling_block sampled samplePct) in
      let procs := when spanDrops "filter/sluicio-exclude" ++ when sampled "tail_sampling/sluicio-trim" in
      let pipelines :=
        when metricSections (lines_of ["    metrics:"; "      processors: [filter/sluicio-exclude]"]) ++
        when logs (lines_of ["    logs:"; "      processors: [filter/sluicio-exclude]"]) ++
        when procs (lines_of ["    traces:"; tpl ["      processors: ["; join ", " procs; "]"]]) in
      lines_of (["# Drop this telemetry at your OpenTelemetry Collector, before it";
                 tpl ["# reaches "; product; ". Conditions that match are dropped."]; "processors:"] ++ blocks ++
                [""; "service:"; "  pipelines:"; "    # add each processor alongside your existing ones, before the";
                 tpl ["    # exporter that sends to "; product]] ++ pipelines)
  end.

(** ** Traces *)

Record SpanGroup := { gr_service : string; gr_name : string; gr_kind : string; gr_count : Z }.
Definition groupKey (service name : string) : string := tpl [service; NUL; name].

(** The spans of the trace by service and name: service, name and kind of each span. *)
Definition count_span (m : list (string * SpanGroup)) (s : string * string * string) : list (string * SpanGroup) :=
  let '(service, name, kind) := s in
  let key := groupKey service name in
  let g := omap_get key m ?? {| gr_service := service; gr_name := name; gr_kind := kind; gr_count := 0 |} in
  omap_set key {| gr_service := gr_service g; gr_name := gr_name g; gr_kind := gr_kind g; gr_count := (gr_count g + 1)%Z |} m.
Definition groups (spans : list (string * string * string)) : list SpanGroup :=
  sort (cmp_or (cmp_on gr_service localeCompare) (cmp_on gr_name localeCompare)) (omap_values (foldl count_span [] spans)).
Definition selectedGroups (spans : list (string * string * string)) (excluded : list string) : list SpanGroup :=
  List.filter (fun g => bool_decide (groupKey (gr_service g) (gr_name g) ∈ excluded)) (groups spans).

Definition span_line (g : SpanGroup) : string := item (tpl ["name == "; quote (esc (gr_name g)); " and "; service_is (gr_service g)]).
Definition buildTracesConfig (gs : list SpanGroup) : string :=
  match gs with
  | [] => "# Select spans on the left to generate a collector config…"
  | _ => lines_of (["# Drop these spans at your OpenTelemetry Collector, before they"; "# reach Sluicio. Conditions that match are dropped.";
                    "processors:"; "  filter/sluicio-exclude:"; "    error_mode: ignore"; "    traces:"; "      span:"] ++ (span_line <$> gs) ++
                   [""; "service:"; "  pipelines:"; "    traces:"; "      # add the processor alongside your existing ones, before the";
                    "      # exporter that sends to Sluicio"; "      processors: [filter/sluicio-exclude]"])
  end.

(** ** Logs *)

Inductive Scope := log | resource.
Record AttrChoice := { ac_scope : Scope; ac_key : string; ac_value : string }.
Record LogEntry := { le_service_name : string; le_severity_number : Z;
  le_log_attributes : list (string * string); le_resource_attributes : list (string * string) }.

Definition attrChoices (l : LogEntry) : list AttrChoice :=
  ((fun kv => {| ac_scope := log; ac_key := kv.1; ac_value := kv.2 |}) <$> le_log_attributes l) ++
  ((fun kv => {| ac_scope := resource; ac_key := kv.1; ac_value := kv.2 |}) <$> List.filter (fun kv => negb (kv.1 =s "service.name")) (le_resource_attributes l)).

(** [escapeRe] of the log panel, which also escapes the quotes. *)
Definition escapeRe_log (s : string) : string := esc (escapeRe s).
Definition choice_key (a : AttrChoice) : string := tpl [match ac_scope a with log => "log" | resource => "resource" end; ":"; ac_key a].
Definition choice_line (a : AttrChoice) : string :=
  tpl [match ac_scope a with log => "attributes["%string | resource => "resource.attributes[" end; quote (esc (ac_key a)); "] == "; quote (esc (ac_value a))].

Definition conditions (l : LogEntry) (useService useSeverity useBody : bool) (bodyText : string) (attrSel : list string) : list string :=
  (if useService && truthy (le_service_name l) then [service_is (le_service_name l)] else []) ++
  (if useSeverity then [tpl ["severity_number <= "; show_Z (le_severity_number l)]] else []) ++
  (if useBody && truthy (trim bodyText) then [tpl ["IsMatch(body, "; quote (escapeRe_log (trim bodyText)); ")"]] else []) ++
  (choice_line <$> List.filter (fun a => bool_decide (choice_key a ∈ attrSel)) (attrChoices l)).

Definition buildLogsConfig (conds : list string) (product : string) : string :=
  match conds with
  | [] => "# Toggle conditions on the left to generate a collector config…"
  | _ => lines_of ["# Drop logs matching this rule at your OpenTelemetry Collector,";
                   tpl ["# before they reach "; product; ". Records matching the condition are dropped."];
                   "processors:"; "  filter/sluicio-exclude:"; "    error_mode: ignore"; "    logs:"; "      log_record:"; item (join " and " conds);
                   ""; "service:"; "  pipelines:"; "    logs:"; "      # add the processor alongside your existing ones, before the";
                   tpl ["      # exporter that sends to "; product]; "      processors: [filter/sluicio-exclude]"]
  end.
End config.

(** ** The state of the panel *)

Record Panel := {
  pn_excluded : list string; pn_prefixes : list string; pn_attrRules : list AttrRule;
  pn_logRules : list LogTrimRule; pn_traceRules : list TraceTrimRule
}.
Definition no_choice : Panel := {| pn_excluded := []; pn_prefixes := []; pn_attrRules := []; pn_logRules := []; pn_traceRules := [] |}.

Inductive Act :=
| Toggle (name : string) | AddPrefix (p : string) | RemovePrefix (p : string) | ClearAll
| ToggleLogRule (service : string) | SetLogFloor (service : string) (f : Floor)
| ToggleTraceRule (service : string) | SetTraceMode (service : string) (m : Mode)
| AddAttrRule (r : AttrRule) | RemoveAttrRule (r : AttrRule).

#[export] Instance AttrRule_eq_dec : EqDecision AttrRule.
Proof. solve_decision. Defined.

(** Sets of names, in the order of insertion. *)
Definition set_add (x : string) (l : list string) : list string := if bool_decide (x ∈ l) then l else l ++ [x].
Definition set_delete (x : string) (l : list string) : list string := List.filter (fun y => negb (y =s x)) l.

(** [feeds]: the services that take part in an integration, [svcIntegrations.has]. *)
Definition act (feeds : string -> bool) (st : Panel) (a : Act) : Panel :=
  let '{| pn_excluded := ex; pn_prefixes := px; pn_attrRules := ar; pn_logRules := lr; pn_traceRules := tr |} := st in
  let mk := Build_Panel in
  match a with
  | Toggle n => mk (if bool_decide (n ∈ ex) then set_delete n ex else set_add n ex) px ar lr tr
  | AddPrefix p => mk ex (set_add p px) ar lr tr
  | RemovePrefix p => mk ex (set_delete p px) ar lr tr
  | ClearAll => no_choice
  | ToggleLogRule s =>
      mk ex px ar (if existsb (fun r => lt_service r =s s) lr then List.filter (fun r => negb (lt_service r =s s)) lr
                   else lr ++ [{| lt_service := s; lt_floor := warn |}]) tr
  | SetLogFloor s f => mk ex px ar ((fun r => if lt_service r =s s then {| lt_service := lt_service r; lt_floor := f |} else r) <$> lr) tr
  | ToggleTraceRule s =>
      mk ex px ar lr (if existsb (fun r => tt_service r =s s) tr then List.filter (fun r => negb (tt_service r =s s)) tr
                      else tr ++ [{| tt_service := s; tt_mode := if feeds s then sample else drop |}])
  | SetTraceMode s m => mk ex px ar lr ((fun r => if tt_service r =s s then {| tt_service := tt_service r; tt_mode := m |} else r) <$> tr)
  | AddAttrRule r => mk ex px (if bool_decide (r ∈ ar) then ar else ar ++ [r]) lr tr
  | RemoveAttrRule r => mk ex px (List.filter (fun x => negb (bool_decide (x = r))) ar) lr tr
  end.

(** ** The collector

    The collector that runs the configuration is not part of the program.  It is an
    argument: what it reads, and the rules of its documentation the panels rely on. *)

(** What a condition looks at. *)
Record Datum := { dt_name : string; dt_service : string }.

Class Collector := {
  yaml_value : string -> option string;    (* the text a line of a YAML list denotes *)
  ottl_string : string -> option string;   (* the text a literal of a condition denotes *)
  holds : Datum -> string -> bool;         (* whether a condition holds of a datum *)
  re2 : string -> string -> bool           (* whether an expression is found in a text *)
}.

Definition printable (a : ascii) : bool := ((32 <=? byte_of a) && (byte_of a <=? 126))%Z.
(** A text that stands in single quotes as it is. *)
Definition scalar_ok (s : string) : bool := all_in printable s && no_char "'" s.
(** A name the panels' escapes are made for. *)
Definition plain_name (s : string) : bool := scalar_ok s && no_char BS s.
(** A prefix that needs no escape. *)
Definition plain_prefix (p : string) : bool := plain_name p && no_char QT p && all_in (fun a => negb (metachar a)) p.

(** The two fields the panels compare, as a condition writes them. *)
Inductive Path := of_name | of_service.
Definition path_text (p : Path) : string :=
  match p with of_name => "name" | of_service => tpl ["resource.attributes["; quote "service.name"; "]"] end.
Definition path_value (p : Path) (d : Datum) : string := match p with of_name => dt_name d | of_service => dt_service d end.

(** YAML: between single quotes a printable text without apostrophes is read as it is.
    OTTL: a literal stands in double quotes, and a quote in it is written with a
    backslash; [==] compares; [and] joins two comparisons; [IsMatch] looks for a regular
    expression.  RE2: a caret anchors, and a backslash before a metacharacter takes its
    meaning away.  Nothing is said of a backslash before another character in a literal. *)
Class CollectorLaws (C : Collector) : Prop := {
  yaml_single_quoted c : scalar_ok c = true -> yaml_value (item c) = Some c;
  ottl_quotes s : all_in printable s = true -> no_char BS s = true -> ottl_string (quote (esc s)) = Some s;
  holds_equals d p lit v : ottl_string lit = Some v -> holds d (tpl [path_text p; " == "; lit]) = (v =s path_value p d);
  holds_and d p q lit1 lit2 v w : ottl_string lit1 = Some v -> ottl_string lit2 = Some w ->
    holds d (tpl [path_text p; " == "; lit1; " and "; path_text q; " == "; lit2]) = (v =s path_value p d) && (w =s path_value q d);
  holds_IsMatch d lit r : ottl_string lit = Some r -> holds d (tpl ["IsMatch(name, "; lit; ")"]) = re2 r (dt_name d);
  re2_anchored p s : all_in printable p = true -> re2 ("^" +:+ escapeRe p) s = startsWith s p
}.

Lemma esc_no_char c s : c <> QT -> c <> BS -> no_char c (esc s) = no_char c s.
Proof.
  intros Hq Hb. unfold esc. induction s as [|a s IH]; [done|]. cbn [replace_char no_char]. destruct (Ascii.eqb QT a) eqn:E.
  - apply Ascii.eqb_eq in E as <-. cbn [String.append no_char]. rewrite IH. by rewrite (proj2 (Ascii.eqb_neq c BS)), (proj2 (Ascii.eqb_neq c QT)).
  - cbn [no_char]. by rewrite IH.
Qed.

Lemma esc_no_quote s : no_char QT s = true -> esc s = s.
Proof.
  unfold esc. induction s as [|a s IH]; [done|]. cbn [no_char replace_char]. intros [Ha Hs]%andb_true_iff. apply negb_true_iff in Ha. by rewrite Ha, IH.
Qed.

Lemma esc_printable s : all_in printable s = true -> all_in printable (esc s) = true.
Proof.
  unfold esc. induction s as [|a s IH]; [done|]. cbn [all_in replace_char]. intros [Ha Hs]%andb_true_iff. destruct (Ascii.eqb QT a) eqn:E; cbn [String.append all_in].
  - rewrite IH by done. by_compute.
  - by rewrite Ha, IH.
Qed.

Lemma escapeRe_no_char c p : c <> BS -> no_char c (escapeRe p) = no_char c p.
Proof.
  intros Hc. induction p as [|a p IH]; [done|]. cbn [escapeRe no_char]. destruct (metachar a); cbn [no_char]; rewrite IH; [|done].
  by rewrite (proj2 (Ascii.eqb_neq c BS) Hc).
Qed.

Lemma escapeRe_printable p : all_in printable p = true -> all_in printable (escapeRe p) = true.
Proof.
  induction p as [|a p IH]; [done|]. cbn [escapeRe all_in]. intros [Ha Hp]%andb_true_iff. destruct (metachar a); cbn [all_in]; by rewrite Ha, IH.
Qed.

Lemma escapeRe_plain p : all_in (fun a => negb (metachar a)) p = true -> escapeRe p = p.
Proof. induction p as [|a p IH]; [done|]. cbn [escapeRe all_in]. intros [Ha%negb_true_iff Hp]%andb_true_iff. by rewrite Ha, IH. Qed.

Lemma scalar_app s t : scalar_ok (s +:+ t) = scalar_ok s && scalar_ok t.
Proof. unfold scalar_ok. rewrite all_in_app, no_char_app. by destruct (all_in printable s), (all_in printable t), (no_char "'" s), (no_char "'" t). Qed.

Lemma quoted_scalar s : plain_name s = true -> scalar_ok (quote (esc s)) = true.
Proof.
  intros [[Hp Ha]%andb_true_iff _]%andb_true_iff. unfold quote. cbn [tpl]. rewrite !scalar_app. unfold scalar_ok.
  rewrite esc_printable, esc_no_char by done. rewrite Ha. by_compute.
Qed.

(** Whether a line drops a datum, by what the collector reads. *)
Definition drops `{Collector} (d : Datum) (line : string) : bool :=
  match yaml_value line with Some c => holds d c | None => false end.

Section collector.
Context `{CollectorLaws}.

(** The line of a prefix drops what starts with it, given that its literal is read as it
    is written.  A prefix with metacharacters has a single backslash before each, which
    the documentation gives no meaning; a plain prefix needs none. *)
Lemma drops_prefix_line d p : scalar_ok p = true -> ottl_string (quote ("^" +:+ escapeRe p)) = Some ("^" +:+ escapeRe p) ->
  drops d (prefix_line p) = startsWith (dt_name d) p.
Proof.
  intros [Hp Ha]%andb_true_iff Hl. unfold drops, prefix_line. rewrite yaml_single_quoted.
  - by rewrite (holds_IsMatch d _ _ Hl), re2_anchored.
  - unfold quote. cbn [tpl]. rewrite !scalar_app. unfold scalar_ok at 4. rewrite escapeRe_printable, escapeRe_no_char by done. rewrite Ha. by_compute.
Qed.

Lemma drops_plain_prefix d p : plain_prefix p = true -> drops d (prefix_line p) = startsWith (dt_name d) p.
Proof.
  intros [[[Hs Hb]%andb_true_iff Hq]%andb_true_iff Hm]%andb_true_iff. apply drops_prefix_line; [done|]. rewrite escapeRe_plain by done.
  apply andb_true_iff in Hs as [Hp _]. rewrite <- (esc_no_quote ("^" +:+ p)) at 1 by (rewrite no_char_app; by rewrite Hq). apply ottl_quotes.
  - by rewrite all_in_app, Hp.
  - by rewrite no_char_app, Hb.
Qed.

Lemma plain_literal s : plain_name s = true -> ottl_string (quote (esc s)) = Some s.
Proof. intros [[Hp _]%andb_true_iff Hb]%andb_true_iff. by apply ottl_quotes. Qed.

Lemma drops_exact_line d n : plain_name n = true -> drops d (exact_line n) = (n =s dt_name d).
Proof.
  intros Hn. unfold drops, exact_line. rewrite yaml_single_quoted.
  - apply (holds_equals d of_name), plain_literal, Hn.
  - cbn [tpl]. rewrite !scalar_app, (quoted_scalar n Hn). by_compute.
Qed.

Lemma existsb_perm_elem {A} (f : A -> bool) l l' : (forall x, x ∈ l <-> x ∈ l') -> existsb f l = existsb f l'.
Proof.
  intros Hl. apply eq_true_iff_eq. rewrite !existsb_exists. split; intros (x & Hx & Hf); exists x; (split; [|done]);
    apply list_elem_of_In, Hl, list_elem_of_In, Hx.
Qed.

Lemma existsb_map {A B} (f : B -> bool) (g : A -> B) l : existsb f (g <$> l) = existsb (fun x => f (g x)) l.
Proof. induction l as [|x l IH]; [done|]. cbn. by rewrite IH. Qed.

Lemma existsb_ext_in {A} (f g : A -> bool) l : (forall x, x ∈ l -> f x = g x) -> existsb f l = existsb g l.
Proof. induction l as [|x l IH]; intros Hl; [done|]. cbn. rewrite Hl by in_cons. rewrite IH; [done|]. intros y Hy. apply Hl. in_cons. Qed.

(** The lines together, given what each one does. *)
Lemma lines_drop_selection names prefixes d :
  (forall n, n ∈ names -> drops d (exact_line n) = (n =s dt_name d)) ->
  (forall p, p ∈ prefixes -> drops d (prefix_line p) = startsWith (dt_name d) p) ->
  existsb (drops d) (metric_lines names prefixes) = bool_decide (dt_name d ∈ names) || covered prefixes (dt_name d).
Proof.
  set (nm := dt_name d). intros Hn Hp. unfold metric_lines. rewrite existsb_app, !existsb_map.
  assert (Hcov : forall x, covered (sort unit_cmp prefixes) x = covered prefixes x) by (intros x; apply existsb_perm_elem; intros; apply sort_elem).
  rewrite (existsb_perm_elem _ (sort unit_cmp prefixes) prefixes) by (intros; apply sort_elem).
  rewrite (existsb_ext_in _ (fun p => startsWith nm p) prefixes) by apply Hp. fold (covered prefixes nm). rewrite orb_comm.
  rewrite (existsb_perm_elem _ (sort unit_cmp _) (List.filter (fun nm => negb (covered (sort unit_cmp prefixes) nm)) names)) by (intros; apply sort_elem).
  rewrite (existsb_ext_in _ (fun n => n =s nm)) by (intros n [Hin _]%filterb_elem; by apply Hn).
  apply eq_true_iff_eq. rewrite !orb_true_iff, bool_decide_eq_true, existsb_exists. setoid_rewrite <- list_elem_of_In. setoid_rewrite filterb_elem.
  split; (intros [Hx|Hx]; [|by right]).
  - destruct Hx as (n & [Hin _] & ->%String.eqb_eq). by left.
  - destruct (covered prefixes nm) eqn:E; [by right|]. left. exists nm. rewrite Hcov, E. by rewrite String.eqb_refl.
Qed.

(** C29. The metric conditions of the configuration drop a metric if and only if the panel
    shows it as excluded: it is one of the names chosen, or starts with a chosen prefix.
    For every collector that follows the documented rules, names of printable ASCII
    without an apostrophe or a backslash, and prefixes of the same that hold no double
    quote and no metacharacter of regular expressions either. *)
Theorem config_drops_selection names prefixes d :
  forallb plain_name names = true -> forallb plain_prefix prefixes = true ->
  existsb (drops d) (metric_lines names prefixes) = bool_decide (dt_name d ∈ names) || covered prefixes (dt_name d).
Proof.
  intros Hn Hp. rewrite forallb_forall in Hn, Hp. apply lines_drop_selection.
  - intros n Hin%list_elem_of_In. by apply drops_exact_line, Hn.
  - intros p Hin%list_elem_of_In. by apply drops_plain_prefix, Hp.
Qed.

(** With prefixes that hold metacharacters, a dot for one, the same is true of a
    collector that reads each of their literals as it is written. *)
Theorem escaped_prefixes_drop_selection names prefixes d :
  forallb plain_name names = true ->
  Forall (fun p => scalar_ok p = true /\ ottl_string (quote ("^" +:+ escapeRe p)) = Some ("^" +:+ escapeRe p)) prefixes ->
  existsb (drops d) (metric_lines names prefixes) = bool_decide (dt_name d ∈ names) || covered prefixes (dt_name d).
Proof.
  intros Hn Hp. rewrite forallb_forall in Hn. rewrite Forall_forall in Hp. apply lines_drop_selection.
  - intros n Hin%list_elem_of_In. by apply drops_exact_line, Hn.
  - intros p Hin. by apply drops_prefix_line; apply Hp.
Qed.

End collector.

(** ** A collector *)

Section reader.
(** What a literal denotes at a backslash before a character other than the two that
    need one, if anything. *)
Context (other : ascii -> option string).

(** A single-quoted YAML scalar: two apostrophes stand for one. *)
Fixpoint unquote1 (s : string) : option string :=
  match s with
  | "" => Some ""
  | String a s' =>
      if Ascii.eqb "'" a then match s' with String b s'' => if Ascii.eqb "'" b then String "'" <$> unquote1 s'' else None | "" => None end
      else String a <$> unquote1 s'
  end.
Definition yaml_item (line : string) : option string :=
  if startsWith line "        - '" && endsWith line "'" then unquote1 (inner 11 1 line) else None.

(** A string literal from after its opening quote: its value and what follows it. *)
Fixpoint literal (s : string) : option (string * string) :=
  match s with
  | "" => None
  | String a s' =>
      if Ascii.eqb QT a then Some ("", s')
      else if Ascii.eqb BS a then
        match s' with
        | "" => None
        | String b s'' =>
            match (if Ascii.eqb QT b || Ascii.eqb BS b then Some (String b "") else other b) with
            | Some u => (fun vr => (u +:+ vr.1, vr.2)) <$> literal s''
            | None => None
            end
        end
      else (fun vr => (String a vr.1, vr.2)) <$> literal s'
  end.
Definition literal_value (lit : string) : option string :=
  match lit with
  | String a s => if Ascii.eqb QT a then match literal s with Some (v, "") => Some v | _ => None end else None
  | "" => None
  end.

(** An expression that matches one string only: plain characters and escaped ones. *)
Fixpoint re_literal (r : string) : option string :=
  match r with
  | "" => Some ""
  | String a r' =>
      if Ascii.eqb BS a then match r' with String b r'' => if metachar b then String b <$> re_literal r'' else None | "" => None end
      else if metachar a then None else String a <$> re_literal r'
  end.
Definition found (r s : string) : bool :=
  match r with
  | String a r' => if Ascii.eqb "^" a then match re_literal r' with Some p => startsWith s p | None => false end else false
  | "" => true
  end.

(** What a condition starts with: the text after [t] and a quote. *)
Definition after_quote (t c : string) : option (string * string) :=
  let l := t +:+ String QT "" in if startsWith c l then literal (slice_from (String.length l) c) else None.
(** A comparison at the head of a condition: the field, the value, and the rest. *)
Definition comparison (c : string) : option (Path * string * string) :=
  match after_quote (tpl [path_text of_name; " == "]) c with
  | Some (v, rest) => Some (of_name, v, rest)
  | None => (fun vr => (of_service, vr.1, vr.2)) <$> after_quote (tpl [path_text of_service; " == "]) c
  end.
Definition decide_condition (d : Datum) (c : string) : bool :=
  match after_quote "IsMatch(name, " c with
  | Some (r, ")") => found r (dt_name d)
  | _ =>
      match comparison c with
      | Some (p, v, "") => v =s path_value p d
      | Some (p, v, rest) =>
          let an := " and " in
          startsWith rest an &&
          match comparison (slice_from (String.length an) rest) with
          | Some (q, w, "") => (v =s path_value p d) && (w =s path_value q d)
          | _ => false
          end
      | None => false
      end
  end.

Definition reader : Collector := {| yaml_value := yaml_item; ottl_string := literal_value; holds := decide_condition; re2 := found |}.

Lemma unquote1_plain s : no_char "'" s = true -> unquote1 s = Some s.
Proof.
  induction s as [|a s IH]; [done|]. cbn [no_char unquote1]. intros [Ha Hs]%andb_true_iff. apply negb_true_iff in Ha. by rewrite Ha, IH.
Qed.

Lemma unquote1_length s : match unquote1 s with Some t => (String.length t <= String.length s)%nat /\ (String.length t = String.length s -> no_char "'" s = true) | None => True end.
Proof.
  induction s as [s IH] using string_len_ind. destruct s as [|a s]; [done|]. cbn [unquote1 no_char]. destruct (Ascii.eqb "'" a) eqn:E.
  - destruct s as [|b s]; [done|]. destruct (Ascii.eqb "'" b); [|done]. specialize (IH s ltac:(cbn; lia)). destruct (unquote1 s); [|done].
    destruct IH as [IH _]. cbn. split; [lia|]. intros. lia.
  - specialize (IH s ltac:(cbn; lia)). destruct (unquote1 s); [|done]. cbn. destruct IH as [IH1 IH2]. split; [lia|]. intros H. apply IH2. lia.
Qed.

Lemma item_shape c : yaml_item (item c) = unquote1 c.
Proof.
  unfold yaml_item, item. cbn [tpl]. rewrite sapp_nil_r, startsWith_app. rewrite sapp_assoc, endsWith_app, <- sapp_assoc. cbn [andb].
  by rewrite (inner_app "        - '" "'" c : inner 11 1 _ = _).
Qed.

(** By the rule of YAML a condition survives the quotes of its line exactly when it holds
    no apostrophe: the panels escape double quotes only. *)
Theorem item_reads_iff c : yaml_item (item c) = Some c <-> no_char "'" c = true.
Proof.
  rewrite item_shape. split; [|apply unquote1_plain]. intros H. pose proof (unquote1_length c) as Hl. rewrite H in Hl. by apply Hl.
Qed.

Lemma literal_esc s rest : no_char BS s = true -> literal (esc s +:+ String QT rest) = Some (s, rest).
Proof.
  induction s as [|a s IH]; [done|]. cbn [no_char]. intros [Ha Hs]%andb_true_iff. apply negb_true_iff in Ha. unfold esc in *. cbn [replace_char].
  destruct (Ascii.eqb QT a) eqn:E.
  - apply Ascii.eqb_eq in E as <-. rewrite <- sapp_assoc. change (String BS (String QT "") +:+ ?x) with (String BS (String QT x)).
    change (literal (String BS (String QT ?x))) with ((fun vr => (String QT "" +:+ vr.1, vr.2)) <$> literal x). by rewrite IH.
  - cbn [String.append literal]. by rewrite E, Ha, IH.
Qed.

(** What follows a literal is no part of it. *)
Lemma literal_app s rest v r : literal s = Some (v, r) -> literal (s +:+ rest) = Some (v, r +:+ rest).
Proof.
  revert v r. induction s as [s IH] using string_len_ind. intros v r. destruct s as [|a s]; [done|]. cbn [String.append literal].
  destruct (Ascii.eqb QT a); [by intros [= <- <-]|]. destruct (Ascii.eqb BS a).
  - destruct s as [|b s]; [done|]. cbn [String.append]. destruct (if _ || _ then _ else _) as [u|]; [|done].
    destruct (literal s) as [[v' r']|] eqn:E; [|done]. intros [= <- <-]. rewrite (IH s ltac:(cbn; lia) _ _ E). done.
  - destruct (literal s) as [[v' r']|] eqn:E; [|done]. intros [= <- <-]. rewrite (IH s ltac:(cbn; lia) _ _ E). done.
Qed.

Lemma after_quote_literal t lit v rest : literal_value lit = Some v -> after_quote t (t +:+ (lit +:+ rest)) = Some (v, rest).
Proof.
  destruct lit as [|a s]; [done|]. cbn [literal_value]. destruct (Ascii.eqb QT a) eqn:E; [|done]. apply Ascii.eqb_eq in E as <-.
  destruct (literal s) as [[v' [|]]|] eqn:El; try done. intros [= ->]. unfold after_quote.
  replace (t +:+ (String QT s +:+ rest)) with ((t +:+ String QT "") +:+ (s +:+ rest)) by (rewrite <- sapp_assoc; done).
  by rewrite startsWith_app, slice_from_app, (literal_app _ _ _ _ El).
Qed.

Lemma comparison_text p lit v rest : literal_value lit = Some v -> comparison (tpl [path_text p; " == "; lit] +:+ rest) = Some (p, v, rest).
Proof.
  intros Hl. unfold comparison.
  replace (tpl [path_text p; " == "; lit] +:+ rest) with (tpl [path_text p; " == "] +:+ (lit +:+ rest)) by (cbn [tpl]; by rewrite ?sapp_nil_r, <- ?sapp_assoc).
  destruct p; [by rewrite (after_quote_literal _ _ _ _ Hl)|]. rewrite (after_quote_literal _ _ _ _ Hl). unfold after_quote. by destruct lit.
Qed.

Lemma no_IsMatch p t : after_quote "IsMatch(name, " (path_text p +:+ t) = None.
Proof. by destruct p. Qed.

Lemma re_literal_escapeRe p : re_literal (escapeRe p) = Some p.
Proof.
  induction p as [|a p IH]; [done|]. cbn [escapeRe]. destruct (metachar a) eqn:E; cbn [re_literal].
  - rewrite Ascii.eqb_refl, E, IH. done.
  - rewrite E, IH. destruct (Ascii.eqb BS a) eqn:Eb; [apply Ascii.eqb_eq in Eb as <-; discriminate|done].
Qed.

#[export] Instance reader_laws : CollectorLaws reader.
Proof.
  split; cbn [reader yaml_value ottl_string holds re2].
  - intros c [_ Ha]%andb_true_iff. by apply item_reads_iff.
  - intros s _ Hb. unfold literal_value, quote. cbn [tpl String.append]. change (Ascii.eqb QT QT) with true. cbn iota. by rewrite literal_esc.
  - intros d p lit v Hl. unfold decide_condition. cbn [tpl]. rewrite no_IsMatch. change (path_text p +:+ _) with (tpl [path_text p; " == "; lit]).
    rewrite <- (sapp_nil_r (tpl _)). by rewrite (comparison_text p _ _ _ Hl).
  - intros d p q lit1 lit2 v w Hv Hw. unfold decide_condition. cbn [tpl]. rewrite no_IsMatch.
    replace (path_text p +:+ _) with (tpl [path_text p; " == "; lit1] +:+ (" and " +:+ (tpl [path_text q; " == "; lit2] +:+ ""))) by (cbn [tpl]; by rewrite ?sapp_nil_r, <- ?sapp_assoc).
    rewrite (comparison_text p _ _ _ Hv). cbv zeta. rewrite startsWith_app, slice_from_app, (comparison_text q _ _ _ Hw). done.
  - intros d lit r Hl. unfold decide_condition. cbn [tpl]. by rewrite (after_quote_literal _ _ _ _ Hl).
  - intros p s _. unfold found. cbn [String.append]. change (Ascii.eqb "^" "^") with true. cbn iota. by rewrite re_literal_escapeRe.
Qed.

End reader.

(** ** Suggestions *)

Lemma cuts_from_spec pre s p : p ∈ cuts_from pre s <->
  exists q a x, s = q +:+ String a x /\ x <> "" /\ sep a = true /\ pre +:+ q <> "" /\ p = pre +:+ (q +:+ String a "").
Proof.
  revert pre. induction s as [|a s IH]; intros pre; cbn [cuts_from].
  { split; [by intros ?%elem_of_nil|]. intros (q & a & x & E & _). by destruct q. }
  destruct s as [|b s].
  { split; [by intros ?%elem_of_nil|]. intros (q & a' & x & E & Hx & _). destruct q as [|c q]; [by injection E as -> <-|]. cbn in E. injection E as -> E. by destruct q. }
  rewrite elem_of_app, IH. split.
  - intros [Hp|(q & a' & x & E & Hx & Hs & Hq & ->)].
    + destruct (sep a) eqn:Es; [|by apply elem_of_nil in Hp]. destruct (truthy pre) eqn:Et; [|by apply elem_of_nil in Hp]. cbn in Hp.
      apply list_elem_of_singleton in Hp as ->. exists "", a, (String b s). cbn. rewrite sapp_nil_r. by apply truthy_spec in Et.
    + exists (String a q), a', x. rewrite <- !sapp_assoc in *. cbn in *. split; [by rewrite E|done].
  - intros (q & a' & x & E & Hx & Hs & Hq & ->). destruct q as [|c q]; cbn in E; injection E as -> E.
    + left. rewrite Hs. rewrite sapp_nil_r in Hq. rewrite (proj2 (truthy_spec pre) Hq). in_cons.
    + right. exists q, a', x. rewrite <- !sapp_assoc. cbn. by destruct pre.
Qed.

Lemma cuts_from_NoDup pre s : NoDup (cuts_from pre s).
Proof.
  revert pre. induction s as [|a s IH]; intros pre; cbn [cuts_from]; [constructor|]. destruct s as [|b s]; [constructor|].
  apply NoDup_app. split; [destruct (sep a && truthy pre); [apply NoDup_singleton|constructor]|split; [|apply IH]].
  intros p Hp (q & c & x & E & _ & _ & _ & Hq)%cuts_from_spec. destruct (sep a && truthy pre); [|by apply elem_of_nil in Hp]. apply list_elem_of_singleton in Hp as ->.
  apply (f_equal String.length) in Hq. rewrite !sapp_length in Hq. cbn in Hq. lia.
Qed.

(** A prefix the panel can suggest: more than one character, the last a separator. *)
Definition cut_shape (p : string) : Prop := exists q a, p = q +:+ String a "" /\ q <> "" /\ sep a = true.
Definition longer (p nm : string) : bool := startsWith nm p && negb (nm =s p).

Lemma longer_spec p nm : longer p nm = true <-> exists x, nm = p +:+ x /\ x <> "".
Proof.
  unfold longer. rewrite andb_true_iff, startsWith_spec, negb_true_iff, String.eqb_neq. split.
  - intros [[x ->] Hne]. exists x. split; [done|]. intros ->. by rewrite sapp_nil_r in Hne.
  - intros (x & -> & Hx). split; [by eexists|]. intros E. apply Hx, (sapp_inj_l p). by rewrite sapp_nil_r.
Qed.

Lemma cuts_spec nm p : p ∈ cuts nm <-> cut_shape p /\ longer p nm = true.
Proof.
  unfold cuts. rewrite cuts_from_spec, longer_spec. cbn [String.append]. split.
  - intros (q & a & x & -> & Hx & Hs & Hq & ->). split; [by exists q, a|]. exists x. by rewrite <- sapp_assoc.
  - intros [(q & a & -> & Hq & Hs) (x & -> & Hx)]. exists q, a, x. by rewrite <- sapp_assoc.
Qed.

Definition occurrences (p : string) (l : list string) : Z := Z.of_nat (length (List.filter (fun x => x =s p) l)).

Lemma count_cuts l m p : (omap_get p (foldl count_cut m l) ?? 0 = (omap_get p m ?? 0) + occurrences p l)%Z.
Proof.
  revert m. induction l as [|x l IH]; intros m; cbn [foldl]; [unfold occurrences; cbn; lia|]. rewrite IH. unfold count_cut at 1. rewrite omap_get_set.
  unfold occurrences. cbn [List.filter]. destruct (decide (p = x)) as [->|Hne].
  - rewrite String.eqb_refl. generalize (omap_get x m ?? 0)%Z. intros n. cbn. lia.
  - destruct (x =s p) eqn:E; [by apply String.eqb_eq in E as ->|]. generalize (omap_get p m ?? 0)%Z. intros n. cbn. lia.
Qed.

Lemma occurrences_once p l : NoDup l -> occurrences p l = if bool_decide (p ∈ l) then 1%Z else 0%Z.
Proof.
  unfold occurrences. induction 1 as [|x l Hx Hl IH]; [done|]. cbn [List.filter]. destruct (x =s p) eqn:E.
  - apply String.eqb_eq in E as ->. rewrite bool_decide_eq_false_2 in IH by done. rewrite bool_decide_eq_true_2 by in_cons. cbn [length]. lia.
  - apply String.eqb_neq in E. rewrite IH. rewrite (bool_decide_ext (p ∈ x :: l) (p ∈ l)); [done|]. rewrite elem_of_cons. naive_solver.
Qed.

Lemma prefix_counts_get names p : cut_shape p -> (omap_get p (prefix_counts names) ?? 0 = Z.of_nat (length (List.filter (longer p) names)))%Z.
Proof.
  intros Hp. unfold prefix_counts. assert (H : forall m, (omap_get p (foldl (fun m nm => foldl count_cut m (cuts nm)) m names) ?? 0 =
    (omap_get p m ?? 0) + Z.of_nat (length (List.filter (longer p) names)))%Z); [|by rewrite (H [])].
  induction names as [|nm names IH]; intros m; cbn [foldl List.filter length]; [lia|]. rewrite IH, count_cuts.
  rewrite occurrences_once by apply cuts_from_NoDup. destruct (longer p nm) eqn:E.
  - rewrite bool_decide_eq_true_2 by (by apply cuts_spec). cbn [length]. lia.
  - rewrite bool_decide_eq_false_2 by (intros [_ H]%cuts_spec; congruence). lia.
Qed.

Lemma prefix_counts_keys names : NoDup (omap_keys (prefix_counts names)) /\ forall p, p ∈ omap_keys (prefix_counts names) -> cut_shape p.
Proof.
  unfold prefix_counts. assert (H : forall m, NoDup (omap_keys m) -> (forall p, p ∈ omap_keys m -> cut_shape p) ->
    let m' := foldl (fun m nm => foldl count_cut m (cuts nm)) m names in NoDup (omap_keys m') /\ forall p, p ∈ omap_keys m' -> cut_shape p);
    [|apply H; [constructor|by intros p ?%elem_of_nil]].
  induction names as [|nm names IH]; intros m Hm Hk; [done|]. cbn [foldl]. apply IH.
  - clear IH Hk. generalize (cuts nm). intros l. revert m Hm. induction l as [|x l IH]; intros m Hm; [done|]. cbn. apply IH. by apply omap_set_NoDup.
  - assert (Hl : forall p, p ∈ cuts nm -> cut_shape p) by (by intros p [? _]%cuts_spec). clear IH Hm. revert Hl. generalize (cuts nm). intros l Hl. revert m Hk.
    induction l as [|x l IH]; intros m Hk; [done|]. cbn. apply IH; [intros p Hp; apply Hl; in_cons|]. intros p. unfold count_cut. rewrite omap_set_keys.
    case_decide; [apply Hk|]. rewrite elem_of_app, list_elem_of_singleton. intros [Hp| ->]; [by apply Hk|apply Hl; in_cons].
Qed.

Lemma candidates_elem names active c : c ∈ candidates names active <->
  cut_shape (px_prefix c) /\ px_count c = Z.of_nat (length (List.filter (longer (px_prefix c)) names)) /\
  (3 <= px_count c)%Z /\ (3 <= utf16_length (px_prefix c))%nat /\ covered active (px_prefix c) = false.
Proof.
  destruct (prefix_counts_keys names) as [Hnd Hk]. unfold candidates. rewrite list_elem_of_fmap. split.
  - intros ([p n] & -> & [[Hin Hc]%filterb_elem Ha]%filterb_elem). cbn [fst snd px_prefix px_count] in *. apply andb_true_iff in Hc as [Hn Hl]. apply negb_true_iff in Ha.
    assert (Hs : cut_shape p) by (apply Hk, list_elem_of_fmap; by exists (p, n)). split; [done|]. split.
    + rewrite <- prefix_counts_get by done. by rewrite (omap_elem_get p n _ Hnd Hin).
    + apply Z.leb_le in Hn. apply Nat.leb_le in Hl. done.
  - destruct c as [p n]. cbn [px_prefix px_count]. intros (Hs & -> & Hn & Hl & Ha). exists (p, Z.of_nat (length (List.filter (longer p) names))). split; [done|].
    apply filterb_elem. split; [|cbn; by apply negb_true_iff]. apply filterb_elem. cbn [fst snd]. split.
    + pose proof (prefix_counts_get names p Hs) as Hg. destruct (omap_get p (prefix_counts names)) as [k|] eqn:E; cbn in Hg; [|lia].
      apply omap_get_elem in E. by rewrite <- Hg.
    + apply andb_true_iff. split; [by apply Z.leb_le|by apply Nat.leb_le].
Qed.

Lemma utf16_length_app s t : utf16_length (s +:+ t) = (utf16_length s + utf16_length t)%nat.
Proof. induction s as [|a s IH]; [done|]. cbn. rewrite IH. lia. Qed.

(** A suggested prefix is one the selection shares: its count is the number of
    selected names it would cover, at least three, no active prefix covers it already, and
    every longer prefix that ends in a separator covers fewer of them, unless an active
    one covers that.  At most three are offered. *)
Theorem suggestions_exact names active :
  (length (suggestPrefixes names active) <= 3)%nat /\
  Forall (fun s =>
    px_count s = Z.of_nat (length (List.filter (longer (px_prefix s)) names)) /\ (3 <= px_count s)%Z /\ covered active (px_prefix s) = false /\
    forall q, longer (px_prefix s) q = true -> cut_shape q -> covered active q = false ->
      (Z.of_nat (length (List.filter (longer q) names)) < px_count s)%Z) (suggestPrefixes names active).
Proof.
  unfold suggestPrefixes. split; [rewrite length_take; lia|]. apply Forall_forall. intros s Hs%elem_of_take. destruct Hs as (i & Hs & _).
  apply list_elem_of_lookup_2, sort_elem, filterb_elem in Hs as [Hc Hsub]. pose proof (proj1 (candidates_elem _ _ _) Hc) as (Hshape & Hn & H3 & Hl & Ha).
  split; [done|split; [done|split; [done|]]]. intros q Hq Hqs Hqa. apply Z.nle_gt. intros Hge.
  apply negb_true_iff in Hsub. apply not_true_iff_false in Hsub. apply Hsub. unfold subsumed. apply existsb_elem.
  exists {| px_prefix := q; px_count := Z.of_nat (length (List.filter (longer q) names)) |}. split.
  - apply candidates_elem. cbn [px_prefix px_count]. split; [done|split; [done|split; [lia|split; [|done]]]]. apply longer_spec in Hq as (x & -> & _). rewrite utf16_length_app. lia.
  - cbn [px_prefix px_count]. unfold longer in Hq. apply andb_true_iff in Hq as [-> ->]. cbn. apply Z.leb_le. exact Hge.
Qed.

(** ** Spans *)

Lemma drops_span_line `{CollectorLaws} `{Host} d g : plain_name (gr_service g) = true -> plain_name (gr_name g) = true ->
  drops d (span_line g) = (gr_name g =s dt_name d) && (gr_service g =s dt_service d).
Proof.
  intros Hs Hn. unfold drops, span_line. rewrite yaml_single_quoted.
  - etransitivity; [|apply (holds_and d of_name of_service _ _ _ _ (plain_literal _ Hn) (plain_literal _ Hs))]. f_equal. unfold service_is. cbn [tpl path_text].
    by rewrite ?sapp_nil_r, <- ?sapp_assoc.
  - unfold service_is. cbn [tpl]. rewrite !scalar_app, (quoted_scalar _ Hn), (quoted_scalar _ Hs). by_compute.
Qed.

Definition grouped (m : list (string * SpanGroup)) (seen : list (string * string * string)) : Prop :=
  (forall k g, (k, g) ∈ m -> k = groupKey (gr_service g) (gr_name g) /\ exists kind, (gr_service g, gr_name g, kind) ∈ seen) /\
  (forall s, s ∈ seen -> groupKey s.1.1 s.1.2 ∈ omap_keys m) /\ NoDup (omap_keys m).

Lemma grouped_step m seen s : grouped m seen -> grouped (count_span m s) (seen ++ [s]).
Proof.
  intros (H1 & H2 & H3). destruct s as [[service name] kind]. unfold count_span. set (key := groupKey service name). split; [|split].
  - intros k g Hin. apply omap_elem_get in Hin; [|by apply omap_set_NoDup]. rewrite omap_get_set in Hin. case_decide as E.
    + injection Hin as <-. subst k. cbn [gr_service gr_name]. destruct (omap_get key m) as [g|] eqn:Eg; cbn [default from_option gr_service gr_name].
      * apply omap_get_elem in Eg. destruct (H1 _ _ Eg) as (E & kind' & Hk). split; [exact E|]. exists kind'. apply elem_of_app. by left.
      * split; [done|]. exists kind. apply elem_of_app. right. in_cons.
    + apply omap_get_elem, H1 in Hin as (E' & kind' & Hk). split; [exact E'|]. exists kind'. apply elem_of_app. by left.
  - intros s [Hs|Hs]%elem_of_app; rewrite omap_set_keys.
    + apply H2 in Hs. case_decide; [done|]. apply elem_of_app. by left.
    + apply list_elem_of_singleton in Hs as ->. cbn [fst snd]. fold key. case_decide; [done|]. apply elem_of_app. right. in_cons.
  - by apply omap_set_NoDup.
Qed.

Lemma groups_grouped spans : grouped (foldl count_span [] spans) spans.
Proof.
  induction spans as [|s spans IH] using rev_ind; [split; [by intros ? ? ?%elem_of_nil|split; [by intros ? ?%elem_of_nil|constructor]]|].
  rewrite foldl_app. by apply grouped_step.
Qed.

Lemma groups_elem `{Host} spans g : g ∈ groups spans -> exists kind, (gr_service g, gr_name g, kind) ∈ spans.
Proof.
  unfold groups. rewrite sort_elem. unfold omap_values. intros ([k g'] & -> & Hin)%list_elem_of_fmap.
  by destruct (proj1 (groups_grouped spans) k g' Hin) as [_ ?].
Qed.

Lemma groups_cover `{Host} spans s : Forall (fun s => no_char "000" s.1.1 = true) spans -> s ∈ spans ->
  exists g, g ∈ groups spans /\ gr_service g = s.1.1 /\ gr_name g = s.1.2.
Proof.
  intros Hc Hs. destruct (groups_grouped spans) as (H1 & H2 & _). pose proof (H2 s Hs) as Hk. apply list_elem_of_fmap in Hk as ([k g] & Ek & Hin).
  cbn in Ek. subst k. destruct (H1 _ _ Hin) as (E & kind & Hg). exists g. split.
  - unfold groups. apply sort_elem, list_elem_of_fmap. by exists (groupKey s.1.1 s.1.2, g).
  - rewrite Forall_forall in Hc. pose proof (Hc s Hs) as Hs1. specialize (Hc _ Hg). cbn in Hc. unfold groupKey in E. cbn [tpl] in E.
    rewrite !sapp_nil_r in E. apply nul_key_inj in E as [-> ->]; done.
Qed.

(** The span conditions drop exactly the kinds of span the user picked: a service and
    a name of the trace whose row is selected. *)
Theorem config_drops_spans `{CollectorLaws} `{Host} spans excluded d :
  Forall (fun s => plain_name s.1.1 = true /\ plain_name s.1.2 = true /\ no_char "000" s.1.1 = true) spans ->
  existsb (drops d) (span_line <$> selectedGroups spans excluded) =
  existsb (fun s => (s.1.1 =s dt_service d) && (s.1.2 =s dt_name d)) spans && bool_decide (groupKey (dt_service d) (dt_name d) ∈ excluded).
Proof.
  intros Hs. rewrite existsb_map. assert (Hc : Forall (fun s => no_char "000" s.1.1 = true) spans) by (eapply Forall_impl; [exact Hs|]; by intros ? (_ & _ & ?)).
  rewrite Forall_forall in Hs. rewrite (existsb_ext_in _ (fun g => (gr_name g =s dt_name d) && (gr_service g =s dt_service d))).
  2: { intros g [Hg _]%filterb_elem. apply groups_elem in Hg as [kind Hg]. destruct (Hs _ Hg) as (? & ? & _). by apply drops_span_line. }
  apply eq_true_iff_eq. rewrite andb_true_iff, !existsb_elem, bool_decide_eq_true. split.
  - intros (g & [Hg He]%filterb_elem & [<-%String.eqb_eq <-%String.eqb_eq]%andb_true_iff). apply bool_decide_eq_true in He. split; [|done].
    apply groups_elem in Hg as [kind Hg]. exists (gr_service g, gr_name g, kind). cbn. by rewrite !String.eqb_refl.
  - intros [(s & Hin & [<-%String.eqb_eq <-%String.eqb_eq]%andb_true_iff) He]. destruct (groups_cover spans s Hc Hin) as (g & Hg & Hsv & Hnm).
    exists g. unfold selectedGroups. rewrite filterb_elem, Hsv, Hnm, !String.eqb_refl, bool_decide_eq_true. done.
Qed.

(** ** The panel *)

Definition panel_ok (st : Panel) : Prop :=
  NoDup (pn_excluded st) /\ NoDup (pn_prefixes st) /\ NoDup (pn_attrRules st) /\
  NoDup (lt_service <$> pn_logRules st) /\ NoDup (tt_service <$> pn_traceRules st).

Lemma set_add_NoDup x l : NoDup l -> NoDup (set_add x l).
Proof. intros H. unfold set_add. case_bool_decide; [done|]. apply NoDup_app. split; [done|split; [|apply NoDup_singleton]]. by intros y Hy ->%list_elem_of_singleton. Qed.

(** Switching a rule of a service, over any type of rule. *)
Lemma toggle_NoDup {A} (service : A -> string) (l : list A) s new : service new = s -> NoDup (service <$> l) ->
  NoDup (service <$> (if existsb (fun r => service r =s s) l then List.filter (fun r => negb (service r =s s)) l else l ++ [new])).
Proof.
  intros Hs Hl. destruct (existsb _ l) eqn:E; [by apply filterb_map_NoDup|]. rewrite fmap_app. apply NoDup_app. split; [done|split; [|apply NoDup_singleton]].
  intros x (r & -> & Hr)%list_elem_of_fmap Hx. cbn in Hx. apply list_elem_of_singleton in Hx. apply not_true_iff_false in E. apply E, existsb_elem.
  exists r. split; [done|]. rewrite Hx, Hs. apply String.eqb_refl.
Qed.

Lemma update_services {A} (service : A -> string) (f : A -> A) (l : list A) : (forall r, service (f r) = service r) -> service <$> (f <$> l) = service <$> l.
Proof. intros H. rewrite <- list_fmap_compose. apply list_fmap_ext. intros _ x _. apply H. Qed.

Lemma act_ok feeds st a : panel_ok st -> panel_ok (act feeds st a).
Proof.
  destruct st as [ex px ar lr tr]. intros (H1 & H2 & H3 & H4 & H5). cbn in *. unfold panel_ok.
  destruct a; cbn [act pn_excluded pn_prefixes pn_attrRules pn_logRules pn_traceRules]; (split; [|split; [|split; [|split]]]); try done; try constructor;
    try (by apply toggle_NoDup); try (by apply set_add_NoDup); try (by apply filterb_NoDup).
  - case_bool_decide; [by apply filterb_NoDup|by apply set_add_NoDup].
  - rewrite (update_services lt_service); [done|]. intros r. by destruct (lt_service r =s service).
  - rewrite (update_services tt_service); [done|]. intros r. by destruct (tt_service r =s service).
  - case_bool_decide; [done|]. apply NoDup_app. split; [done|split; [|apply NoDup_singleton]]. by intros y Hy ->%list_elem_of_singleton.
Qed.

(** Whatever the user does, a service has at most one rule per signal, and a service
    that feeds an integration is sampled, not dropped, unless the user chose the mode. *)
Theorem feeding_services_are_sampled feeds acts service :
  let st := foldl (act feeds) no_choice acts in
  feeds service = true -> (forall m, SetTraceMode service m ∉ acts) ->
  panel_ok st /\ Forall (fun r => tt_service r = service -> tt_mode r = sample) (pn_traceRules st).
Proof.
  cbn zeta. intros Hf. induction acts as [|a acts IH] using rev_ind; intros Ha.
  { split; [|constructor]. repeat split; constructor. }
  rewrite foldl_app. cbn [foldl]. destruct IH as [Hok Hall]; [intros m Hm; apply (Ha m), elem_of_app; by left|]. split; [by apply act_ok|].
  destruct (foldl (act feeds) no_choice acts) as [ex px ar lr tr]. cbn in Hall. rewrite Forall_forall in *.
  destruct a; cbn [act pn_traceRules]; try done; [by intros r ?%elem_of_nil| |].
  - intros r Hr Hs. destruct (existsb _ tr); [apply filterb_elem in Hr as [Hr _]; by apply Hall|].
    apply elem_of_app in Hr as [Hr|Hr]; [by apply Hall|]. apply list_elem_of_singleton in Hr as ->. cbn in *. subst. by rewrite Hf.
  - intros r (r0 & -> & Hr)%list_elem_of_fmap. destruct (tt_service r0 =s service0) eqn:E; [|by apply Hall]. cbn. apply String.eqb_eq in E. intros Hs.
    exfalso. apply (Ha m), elem_of_app. right. rewrite <- Hs, E. in_cons.
Qed.

(** ** The same escapes on the server *)

(** What the panels escape is what the server's snippets escape exactly when there is
    no backslash, which the panels leave alone. *)
Theorem escapes_agree_iff s : esc s = yamlEsc s <-> no_char BS s = true.
Proof.
  split.
  - assert (Hlen : forall s, (String.length s <= String.length (replace_char BS (String BS (String BS "")) s))%nat /\
      (String.length (replace_char BS (String BS (String BS "")) s) = String.length s -> no_char BS s = true)).
    { clear. induction s as [|a s [IH1 IH2]]; [done|]. cbn [replace_char no_char]. destruct (Ascii.eqb BS a); cbn [String.append String.length negb andb]; (split; [lia|]); [lia|].
      intros H. apply IH2. lia. }
    assert (Hq : forall s, String.length (esc s) = (String.length s + length (List.filter (Ascii.eqb QT) (String.list_ascii_of_string s)))%nat).
    { clear. unfold esc. induction s as [|a s IH]; [done|]. cbn [replace_char String.list_ascii_of_string List.filter]. destruct (Ascii.eqb QT a); cbn [String.append String.length length]; rewrite IH; lia. }
    assert (Hqs : forall s, length (List.filter (Ascii.eqb QT) (String.list_ascii_of_string (replace_char BS (String BS (String BS "")) s))) =
      length (List.filter (Ascii.eqb QT) (String.list_ascii_of_string s))).
    { clear. induction s as [|a s IH]; [done|]. cbn [replace_char]. destruct (Ascii.eqb BS a) eqn:E.
      - apply Ascii.eqb_eq in E as <-. exact IH.
      - cbn [String.list_ascii_of_string List.filter]. destruct (Ascii.eqb QT a); cbn [length]; by rewrite IH. }
    intros E. apply (f_equal String.length) in E. unfold yamlEsc in E. rewrite !Hq, Hqs in E. apply (Hlen s). lia.
  - intros H. unfold yamlEsc. f_equal. symmetry. revert H. induction s as [|a s IH]; [done|]. cbn [no_char replace_char].
    intros [Ha Hs]%andb_true_iff. apply negb_true_iff in Ha. by rewrite Ha, IH.
Qed.

(** ** Examples *)

(** Two readers: one that leaves another backslash in the text, and one that refuses the
    literal. *)
Definition kept (c : ascii) : option string := Some (String BS (String c "")).
Definition refused (c : ascii) : option string := None.
Definition metric (nm : string) : Datum := {| dt_name := nm; dt_service := "" |}.

Example suggestions_ex :
  suggestPrefixes ["rabbitmq.node.a"; "rabbitmq.node.b"; "rabbitmq.node.c"; "up"] [] = [{| px_prefix := "rabbitmq.node."; px_count := 3 |}].
Proof. by_compute. Qed.

(** A name with an apostrophe ends its line early: the metric is not dropped.  So does a
    prefix with a quote, which the panel does not escape. *)
Example apostrophe_not_dropped :
  @drops (reader kept) (metric "it's") (exact_line "it's") = false /\ @drops (reader kept) (metric (String QT "a")) (prefix_line (String QT "a")) = false.
Proof. split; by_compute. Qed.

(** What the line of a prefix with a dot does rests on how the collector reads one
    backslash before it: here the metric is dropped, and there it is not. *)
Example dotted_prefix_rests_on_reader :
  @drops (reader kept) (metric "rabbitmq.node.uptime") (prefix_line "rabbitmq.node.") = true /\
  @drops (reader refused) (metric "rabbitmq.node.uptime") (prefix_line "rabbitmq.node.") = false.
Proof. split; by_compute. Qed.

(** Service names are not quoted in the list of the sampling policies: a comma makes two
    of one. *)
Example sampled_names_split :
  includes (sampling_block [{| tt_service := "billing, eu"; tt_mode := sample |}] 10) "values: [billing, eu]" = true.
Proof. by_compute. Qed.

Lemma config_drops_selection_witness :
  CollectorLaws (reader refused) /\
  existsb (@drops (reader refused) (metric "go_gc_cycles")) (metric_lines ["up"; "http.server.duration"] ["go_"]) = true /\
  existsb (@drops (reader refused) (metric "up")) (metric_lines ["up"; "http.server.duration"] ["go_"]) = true /\
  existsb (@drops (reader refused) (metric "upgrades")) (metric_lines ["up"; "http.server.duration"] ["go_"]) = false.
Proof.
  split; [apply reader_laws|].
  rewrite !(@config_drops_selection (reader refused) (reader_laws refused) ["up"; "http.server.duration"] ["go_"]) by by_compute.
  split; [by_compute|split; by_compute].
Defined.

Definition ex_spans : list (string * string * string) := [("billing", "GET /pay", "server"); ("billing", "GET /pay", "server"); ("mail", "send", "producer")].
Lemma config_drops_spans_witness :
  existsb (@drops (reader kept) {| dt_name := "GET /pay"; dt_service := "billing" |}) (span_line <$> @selectedGroups plain_host ex_spans [groupKey "billing" "GET /pay"]) = true.
Proof.
  rewrite (@config_drops_spans (reader kept) (reader_laws kept) plain_host ex_spans [groupKey "billing" "GET /pay"]); [by_compute|].
  repeat (apply Forall_cons_2; [split; [by_compute|split; by_compute]|]). apply Forall_nil_2.
Defined.

Lemma feeding_services_are_sampled_witness :
  let feeds := fun s => s =s "billing" in
  let st := foldl (act feeds) no_choice [ToggleTraceRule "billing"; ToggleTraceRule "mail"; SetTraceMode "mail" sample; SetTraceMode "mail" drop] in
  length (pn_traceRules st) = 2%nat /\ Forall (fun r => tt_service r = "billing" -> tt_mode r = sample) (pn_traceRules st).
Proof.
  split; [by_compute|].
  apply (feeding_services_are_sampled (fun s => s =s "billing") [ToggleTraceRule "billing"; ToggleTraceRule "mail"; SetTraceMode "mail" sample; SetTraceMode "mail" drop] "billing").
  - reflexivity.
  - intros m H. repeat (apply elem_of_cons in H as [H|H]; [discriminate|]). by apply elem_of_nil in H.
Defined.
