(* ===== verification/MembershipEditor.v ===== *)
(** * The editor of an integration's members

    components/matcher/MembershipEditor.tsx: the list of members with what each
    takes in, the previews it asks for as the members change, the box that adds a
    member and the strip of suggestions.  The reasoning on names and patterns is in
    Membership.v, the stored form of a member in MatcherRules.v.

    Previews are asked for after a pause and answered in any order, so the editor is
    an event machine.  The code keys a preview by the JSON text of the rows a member
    would store; here the rows themselves are the key, which JSON keeps apart. *)

From S2P Require Import Prelude JsString JsUri JsArray Host Types MatcherRules Membership.
From S2P Require Trim.

Local Open Scope char_scope.
Local Open Scope string_scope.
Local Open Scope list_scope.

#[export] Instance MatcherInput_eq_dec : EqDecision MatcherInput.
Proof. solve_decision. Defined.

(** ** Members as they are shown *)

Record RulePreview := {
  pv_incomplete : option bool; pv_service_count : option Z; pv_services : option (list string);
  pv_trace_count : option Z; pv_error_trace_count : option Z; pv_metric_series : option Z; pv_metric_points : option Z }.
Definition incomplete_preview : RulePreview := {|
  pv_incomplete := Some true; pv_service_count := None; pv_services := None; pv_trace_count := None; pv_error_trace_count := None;
  pv_metric_series := None; pv_metric_points := None |}.
Definition is_incomplete (p : RulePreview) : bool := pv_incomplete p ?? false.
Definition hasTraffic (p : RulePreview) : bool := ((0 <? pv_trace_count p ?? 0) || (0 <? pv_metric_series p ?? 0))%Z.
Definition seenByPreview (p : RulePreview) : bool := negb (is_incomplete p) && ((0 <? pv_service_count p ?? 0)%Z || hasTraffic p).

Definition ruleOf (name : string) : Rule := blankRule equals name.
Definition equals_op (r : Rule) : bool := bool_decide (r_serviceOp r = equals).

Record Look := { lk_tone : string; lk_note : option string }.
Definition warn (note : string) : Look := {| lk_tone := "warn"; lk_note := Some note |}.
Definition tone (t : string) : Look := {| lk_tone := t; lk_note := None |}.

(** [byName]: the last service of a name. *)
Definition by_name (services : list ServiceSummary) : list (string * ServiceSummary) :=
  omap_of ((fun s => (ss_service_name s, s)) <$> services).

Definition no_conditions_met (rule : Rule) (p : option RulePreview) : bool :=
  match p with
  | Some p => negb (is_incomplete p) && negb (bool_decide (completeConds rule = [])) && negb (hasTraffic p)
  | None => false
  end.
Definition lookOf (services : list ServiceSummary) (when_ : string) (rule : Rule) (p : option RulePreview) : Look :=
  let name := trim (r_service rule) in
  if negb (truthy name) then warn "No service: this condition selects nothing on its own, and saving drops it."
  else if equals_op rule then
    let svc := omap_get name (by_name services) in
    let rest :=
      if no_conditions_met rule p
      then warn (tpl ["No traffic from "; name; " meets these conditions "; when_; ". Check the attribute and value."])
      else match svc with
           | None => tone "muted"
           | Some s => tone (if ss_status s =s "ok" then "ok"
                             else if (ss_status s =s "errors") || (ss_status s =s "unhealthy") then "err" else "muted")
           end in
    match svc, p with
    | Some _, _ => rest
    | None, None => tone "muted"
    | None, Some p' =>
        if is_incomplete p' then tone "muted"
        else if seenByPreview p' then rest
        else warn (tpl ["Not seen "; when_; ". Kept, since a quiet service can still belong here."])
    end
  else match p with
       | Some p' => if negb (is_incomplete p') && (pv_service_count p' ?? 0 =? 0)%Z then warn (tpl ["Matches no service "; when_; "."]) else tone "muted"
       | None => tone "muted"
       end.
Definition trafficLabel (formatNumber : Z -> string) (p : option RulePreview) : string :=
  match p with
  | None => "…"
  | Some p =>
      if (0 <? pv_trace_count p ?? 0)%Z then tpl [formatNumber (pv_trace_count p ?? 0%Z); " msgs"]
      else if (0 <? pv_metric_series p ?? 0)%Z then tpl [formatNumber (pv_metric_series p ?? 0%Z); " series"]
      else match pv_trace_count p with Some _ => "0 msgs" | None => "" end
  end.

(** ** The previews of the members *)

Abbreviation Sig := (list MatcherInput).
(** [previewSig([r], "any")] *)
Definition member_sig (r : Rule) : Sig := rulesToMatchers [r].

Record flight := { fl_id : nat; fl_window : string; fl_sig : Sig }.
Record Editor := {
  ed_rules : list Rule; ed_window : string; ed_previews : list (Sig * RulePreview); ed_asked : list Sig;
  ed_timer : bool; ed_flights : list flight; ed_sent : nat }.

Definition with_timer (rules : list Rule) (w : string) (st : Editor) : Editor := {|
  ed_rules := rules; ed_window := w; ed_previews := ed_previews st; ed_asked := ed_asked st; ed_timer := true;
  ed_flights := ed_flights st; ed_sent := ed_sent st |}.
(** One member, when the pause is over. *)
Definition ask (st : Editor) (r : Rule) : Editor :=
  let sig := member_sig r in
  if bool_decide (sig ∈ ed_asked st) then st
  else match sig with
       | [] => {| ed_rules := ed_rules st; ed_window := ed_window st; ed_previews := omap_set sig incomplete_preview (ed_previews st);
                  ed_asked := sig :: ed_asked st; ed_timer := ed_timer st; ed_flights := ed_flights st; ed_sent := ed_sent st |}
       | _ => {| ed_rules := ed_rules st; ed_window := ed_window st; ed_previews := ed_previews st; ed_asked := sig :: ed_asked st;
                 ed_timer := ed_timer st;
                 ed_flights := ed_flights st ++ [{| fl_id := ed_sent st; fl_window := ed_window st; fl_sig := sig |}]; ed_sent := S (ed_sent st) |}
       end.

Inductive Event :=
| Edited (rules : list Rule)             (** the members change *)
| Window (w : string)                    (** another range *)
| Pause                                  (** the timer fires *)
| Answer (i : nat) (r : option RulePreview).

Definition step (st : Editor) (e : Event) : Editor :=
  match e with
  | Edited rules =>
      if bool_decide (member_sig <$> rules = member_sig <$> ed_rules st)
      then {| ed_rules := rules; ed_window := ed_window st; ed_previews := ed_previews st; ed_asked := ed_asked st; ed_timer := ed_timer st;
              ed_flights := ed_flights st; ed_sent := ed_sent st |}
      else with_timer rules (ed_window st) st
  | Window w =>
      if w =s ed_window st then st
      else {| ed_rules := ed_rules st; ed_window := w; ed_previews := []; ed_asked := []; ed_timer := true;
              ed_flights := ed_flights st; ed_sent := ed_sent st |}
  | Pause =>
      if ed_timer st then
        let st' := foldl ask st (ed_rules st) in
        {| ed_rules := ed_rules st'; ed_window := ed_window st'; ed_previews := ed_previews st'; ed_asked := ed_asked st'; ed_timer := false;
           ed_flights := ed_flights st'; ed_sent := ed_sent st' |}
      else st
  | Answer i r =>
      match List.find (fun f => Nat.eqb (fl_id f) i) (ed_flights st) with
      | None => st
      | Some f => {|
          ed_rules := ed_rules st; ed_window := ed_window st;
          ed_previews := match r with Some p => omap_set (fl_sig f) p (ed_previews st) | None => ed_previews st end;
          ed_asked := match r with Some _ => ed_asked st | None => List.filter (fun s => negb (bool_decide (s = fl_sig f))) (ed_asked st) end;
          ed_timer := ed_timer st; ed_flights := List.filter (fun g => negb (Nat.eqb (fl_id g) i)) (ed_flights st); ed_sent := ed_sent st |}
      end
  end.
Definition runs (st : Editor) (es : list Event) : Editor := foldl step st es.
Definition mounted (rules : list Rule) (w : string) : Editor := {|
  ed_rules := rules; ed_window := w; ed_previews := []; ed_asked := []; ed_timer := true; ed_flights := []; ed_sent := 0 |}.

(** What is shown of a member, and the services that exist as far as the editor
    can tell. *)
Definition preview_of (st : Editor) (r : Rule) : option RulePreview := omap_get (member_sig r) (ed_previews st).
Definition looks (services : list ServiceSummary) (st : Editor) : list Look :=
  (fun r => lookOf services (windowPhrase (ed_window st)) r (preview_of st r)) <$> ed_rules st.
Definition needsLook (services : list ServiceSummary) (st : Editor) : nat :=
  length (List.filter (fun l => match lk_note l with Some s => truthy s | None => false end) (looks services st)).
Definition liveNames (services : list ServiceSummary) (st : Editor) : list string :=
  omap_keys (by_name services)
  ++ omap (fun r => if equals_op r && match preview_of st r with Some p => seenByPreview p | None => false end then Some (trim (r_service r)) else None)
       (ed_rules st).

(** ** Editing *)

Definition has (rules : list Rule) (r : Rule) : bool := existsb (fun x => ruleKey x =s ruleKey r) rules.
Definition add (rules : list Rule) (r : Rule) : list Rule := if has rules r then rules else rules ++ [r].
Definition replace (i : nat) (r : Rule) (rules : list Rule) : list Rule := <[i := r]> rules.
(** The members and the open one after a removal. *)
Definition remove (i : nat) (rules : list Rule) (open : option nat) : list Rule * option nat :=
  (delete i rules, match open with None => None | Some o => if (o =? i)%nat then None else Some (if (i <? o)%nat then (o - 1)%nat else o) end).

(** ** The box that adds *)

Record Option_ := { op_key : string; op_hint : option string; op_rule : option Rule }.
Section addbox.
Context `{host : Host}.

Definition covers_count (parsed : Rule) (knownNames : list string) : Z := Z.of_nat (length (List.filter (ruleCovers parsed) knownNames)).
(** The names that contain what was typed, what was typed itself first. *)
Definition partial_matches (q : string) (rules : list Rule) (knownNames : list string) : list string :=
  let needle := toLowerCase (trim q) in
  take 8 (sort (cmp_desc (fun s => if s =s trim q then 1 else 0)%Z)
    (List.filter (fun s => negb (rulesCover rules s) && (negb (truthy needle) || includes (toLowerCase s) needle)) knownNames)).
Definition typed_option (q : string) (rules : list Rule) (knownNames : list string) (when_ : string) : list Option_ :=
  match parseAddQuery q with
  | None => []
  | Some parsed =>
      if equals_op parsed then
        if has rules parsed then [{| op_key := "taken"; op_hint := Some "already added"; op_rule := None |}]
        else if bool_decide (r_service parsed ∈ knownNames) then []
        else [{| op_key := "unseen"; op_hint := Some (tpl ["not seen "; when_]); op_rule := Some parsed |}]
      else [{| op_key := "pattern";
               op_hint := Some (if has rules parsed then "already added" else tpl ["matches "; show_Z (covers_count parsed knownNames); " now"]);
               op_rule := if has rules parsed then None else Some parsed |}]
  end.
Definition options (q : string) (rules : list Rule) (knownNames : list string) (when_ : string) : list Option_ :=
  typed_option q rules knownNames when_
  ++ ((fun s => {| op_key := s; op_hint := None; op_rule := Some (ruleOf s) |}) <$> partial_matches q rules knownNames).

(** The state of the box and its keys; [Picked] is a click on an option. *)
Record Box := { bx_q : string; bx_focused : bool; bx_open : bool; bx_active : Z }.
Inductive Key := Typed (q : string) | Focus | Press | Blurred | Down | Up | Enter | Escape | Picked (i : nat) | Hover (i : nat).
Definition option_at (opts : list Option_) (i : Z) : option Option_ := if (i <? 0)%Z then None else opts !! Z.to_nat i.
Definition shown (b : Box) (opts : list Option_) : bool := bx_focused b && bx_open b && negb (bool_decide (length opts = 0%nat)).
(** The box after a pick, and the rule [onAdd] gets. *)
Definition pick (b : Box) (opts : list Option_) (i : Z) : Box * option Rule :=
  match option_at opts i ≫= op_rule with
  | None => (b, None)
  | Some r => ({| bx_q := ""; bx_focused := bx_focused b; bx_open := false; bx_active := 0 |}, Some r)
  end.
Definition set_box (open : bool) (active : Z) (b : Box) : Box := {| bx_q := bx_q b; bx_focused := bx_focused b; bx_open := open; bx_active := active |}.
Definition key (rules : list Rule) (knownNames : list string) (when_ : string) (b : Box) (k : Key) : Box * option Rule :=
  let opts := options (bx_q b) rules knownNames when_ in
  match k with
  | Typed q => ({| bx_q := q; bx_focused := bx_focused b; bx_open := true; bx_active := 0 |}, None)
  | Focus => ({| bx_q := bx_q b; bx_focused := true; bx_open := true; bx_active := bx_active b |}, None)
  | Press => (set_box true (bx_active b) b, None)
  | Blurred => ({| bx_q := bx_q b; bx_focused := false; bx_open := bx_open b; bx_active := bx_active b |}, None)
  | Down => if negb (bx_open b) then (set_box true (bx_active b) b, None)
            else (set_box true (Z.min (bx_active b + 1) (Z.of_nat (length opts) - 1))%Z b, None)
  | Up => (set_box (bx_open b) (Z.max (bx_active b - 1) 0)%Z b, None)
  | Enter => if shown b opts then pick b opts (bx_active b) else (b, None)
  | Escape => (set_box false (bx_active b) b, None)
  | Picked i => if shown b opts then pick b opts (Z.of_nat i) else (b, None)
  | Hover i => (set_box (bx_open b) (Z.of_nat i) b, None)
  end.

(** ** The suggestions *)

(** The order of the set does not matter: the names are sorted. *)
Definition focals (rules : list Rule) (known : list string) : list string :=
  sort Trim.unit_cmp (remove_dups (omap (fun r => let v := trim (r_service r) in
    if equals_op r && truthy v && bool_decide (v ∈ known) then Some v else None) rules)).
(** The neighbourhoods that have come, by range and service. *)
Definition suggestion_list (rules : list Rule) (known : list string) (windowVal : string) (hoods : list ((string * string) * Neighborhood)) : list Suggestion :=
  mergeSuggestions (omap (fun f => omap_get (windowVal, f) hoods) (focals rules known)) (rulesCover rules).
Definition SUGGESTIONS_SHOWN : nat := 6.
Definition shown_suggestions (all : bool) (l : list Suggestion) : list Suggestion := if all then l else take SUGGESTIONS_SHOWN l.
End addbox.

(** ** The previews *)

Lemma has_set {V} (sig k : Sig) (v : V) m : is_Some (omap_get sig m) -> is_Some (omap_get sig (omap_set k v m)).
Proof. rewrite omap_get_set. by destruct (decide _). Qed.
Lemma ask_window st r : ed_window (ask st r) = ed_window st /\ ed_rules (ask st r) = ed_rules st /\ ed_timer (ask st r) = ed_timer st.
Proof. unfold ask. case_bool_decide; [done|]. by destruct (member_sig r). Qed.
Lemma ask_asked st r : member_sig r ∈ ed_asked (ask st r) /\ forall sig, sig ∈ ed_asked st -> sig ∈ ed_asked (ask st r).
Proof.
  unfold ask. case_bool_decide as E; [done|]. destruct (member_sig r); (split; [by left|intros sig ?; by right]).
Qed.
Lemma asks_fields st rules : ed_window (foldl ask st rules) = ed_window st /\ ed_rules (foldl ask st rules) = ed_rules st.
Proof.
  revert st. induction rules as [|r l IH]; intros st; [done|]. cbn [foldl]. destruct (IH (ask st r)) as [-> ->]. by destruct (ask_window st r) as (-> & -> & _).
Qed.
Lemma asks_asked st rules sig : sig ∈ ed_asked st \/ (exists r, r ∈ rules /\ sig = member_sig r) -> sig ∈ ed_asked (foldl ask st rules).
Proof.
  revert st. induction rules as [|r l IH]; intros st H; cbn [foldl].
  { destruct H as [?|(r & ?%elem_of_nil & _)]; done. }
  apply IH. destruct (ask_asked st r) as [H1 H2]. destruct H as [?|(x & [->|?]%elem_of_cons & ->)]; [left; auto|by left|right; by exists x].
Qed.

(** Asked signatures answered or under way; the members asked for. *)
Definition covered (st : Editor) : Prop :=
  (Forall (fun f => fl_id f < ed_sent st)%nat (ed_flights st) /\ NoDup (fl_id <$> ed_flights st)) /\
  forall sig, sig ∈ ed_asked st ->
    is_Some (omap_get sig (ed_previews st)) \/ exists f, f ∈ ed_flights st /\ fl_sig f = sig /\ fl_window f = ed_window st.
Lemma ask_covered st r : covered st -> covered (ask st r).
Proof.
  intros [HF HA]. unfold ask. case_bool_decide as E; [by split|]. destruct (member_sig r) as [|m sig] eqn:Es; (split; cbn [ed_flights ed_sent ed_asked ed_previews ed_window]).
  - done.
  - intros s [->|Hs]%elem_of_cons; [left; rewrite omap_get_set, decide_True; eauto|]. destruct (HA s Hs) as [?|?]; [left; by apply has_set|by right].
  - destruct HF. apply (fresh_snoc fl_id (ed_flights st) {| fl_id := ed_sent st; fl_window := ed_window st; fl_sig := m :: sig |}); done.
  - intros s [->|Hs]%elem_of_cons.
    + right. eexists. split; [apply elem_of_app; right; by left|done].
    + destruct (HA s Hs) as [?|(f & Hf & ?)]; [by left|]. right. exists f. split; [apply elem_of_app; by left|done].
Qed.
Lemma asks_covered st rules : covered st -> covered (foldl ask st rules).
Proof. revert st. induction rules as [|r l IH]; intros st H; [done|]. apply IH. by apply ask_covered. Qed.

Definition failure (e : Event) : Prop := exists i, e = Answer i None.
Definition settled (st : Editor) : Prop := covered st /\ (ed_timer st = false -> forall r, r ∈ ed_rules st -> member_sig r ∈ ed_asked st).

Lemma step_settled st e : settled st -> ~ failure e -> settled (step st e).
Proof.
  intros [HC HM] Hn. destruct e as [rules|w| |i r]; cbn [step].
  - case_bool_decide as E; [|by split]. split; [done|]. cbn [ed_timer ed_rules ed_asked]. intros Ht r Hr.
    assert (Hin : member_sig r ∈ member_sig <$> ed_rules st) by (rewrite <- E; by apply list_elem_of_fmap_2).
    apply list_elem_of_fmap in Hin as (r' & -> & Hr'). by apply HM.
  - case_if; [by split|]. split; [|done]. destruct HC as [HF _]. split; [done|]. by intros s ?%elem_of_nil.
  - destruct (ed_timer st) eqn:Et; [|split; [done|intros _; by apply HM]]. cbv zeta. destruct (asks_covered st (ed_rules st) HC) as [HF HA]. split; [by split|].
    cbn. intros _ r Hr. destruct (asks_fields st (ed_rules st)) as [_ E]. rewrite E in Hr. apply asks_asked. right. by exists r.
  - destruct (List.find _ _) as [f|] eqn:Ef; [|by split]. destruct r as [p|]; [|by destruct Hn; exists i]. split; [|done].
    destruct HC as [[HF HN] HA]. split; cbn [ed_flights ed_sent ed_asked ed_previews ed_window].
    + split; [|by apply filterb_map_NoDup]. apply Forall_forall. intros g [Hg _]%filterb_elem. rewrite Forall_forall in HF. by apply HF.
    + intros s Hs. destruct (decide (s = fl_sig f)) as [->|Hne]; [left; rewrite omap_get_set, decide_True; eauto|].
      destruct (HA s Hs) as [?|(g & Hg & Hgs & Hgw)]; [left; by apply has_set|]. right. exists g. split; [|done]. apply filterb_elem. split; [done|].
      apply negb_true_iff, Nat.eqb_neq. intros Hi. apply find_Some_elem in Ef as [Hf Hfi]. apply Nat.eqb_eq in Hfi.
      apply Hne. rewrite <- Hgs. f_equal. apply (NoDup_map_eq fl_id (ed_flights st)); congruence.
Qed.

(** Unless a request fails, every member on screen has its preview, or is
    waiting for one asked in the range on screen, as soon as the pause after the
    last change is over. *)
Theorem every_member_previewed rules w es r :
  Forall (fun e => ~ failure e) es -> let st := runs (mounted rules w) es in
  ed_timer st = false -> r ∈ ed_rules st ->
  is_Some (preview_of st r) \/ exists f, f ∈ ed_flights st /\ fl_sig f = member_sig r /\ fl_window f = ed_window st.
Proof.
  intros He. cbv zeta. intros Ht Hr.
  assert (H : settled (runs (mounted rules w) es)).
  { unfold runs. assert (H0 : settled (mounted rules w)).
    { split; [|done]. split; [split; [constructor|apply NoDup_nil; done]|]. by intros s ?%elem_of_nil. }
    revert H0. generalize (mounted rules w). clear Ht Hr. induction He as [|e es Hn _ IH]; intros st0 H0; [done|]. apply IH. by apply step_settled. }
  destruct H as [[_ HA] HM]. by apply HA, HM.
Qed.

(** *** Whose previews they are *)

Section server.
(** What the server says of some rows in a range. *)
Context (server : string -> Sig -> RulePreview).

Definition truthful (st : Editor) (e : Event) : Prop :=
  match e with
  | Answer i (Some p) => forall f, List.find (fun f => Nat.eqb (fl_id f) i) (ed_flights st) = Some f -> p = server (fl_window f) (fl_sig f)
  | Window w => ed_flights st = []
  | _ => True
  end.
Inductive truthful_run : Editor -> Editor -> Prop :=
| tr_none st : truthful_run st st
| tr_step st st' e : truthful_run st st' -> truthful st' e -> truthful_run st (step st' e).

Definition right (st : Editor) : Prop :=
  (forall f, f ∈ ed_flights st -> fl_window f = ed_window st /\ fl_sig f <> []) /\
  forall sig p, omap_get sig (ed_previews st) = Some p -> p = match sig with [] => incomplete_preview | _ => server (ed_window st) sig end.

Lemma asks_right st rules : right st -> right (foldl ask st rules).
Proof.
  revert st. induction rules as [|r l IH]; intros st H; [done|]. apply IH. destruct H as [HF HP]. unfold ask. case_bool_decide; [by split|].
  destruct (member_sig r) as [|m sig]; (split; cbn [ed_flights ed_window ed_previews]).
  - done.
  - intros s p. rewrite omap_get_set. destruct (decide _) as [->|]; [by intros [= <-]|]. apply HP.
  - intros f [Hf| ->%list_elem_of_singleton]%elem_of_app; [by apply HF|]. by split.
  - done.
Qed.
Lemma step_right st e : right st -> truthful st e -> right (step st e).
Proof.
  intros [HF HP] Ht. destruct e as [rules|w| |i r]; cbn [step].
  - case_bool_decide; by split.
  - case_if; [by split|]. cbn in Ht. split; cbn [ed_flights ed_window ed_previews]; [rewrite Ht; by intros f ?%elem_of_nil|done].
  - case_if; [|by split]. destruct (asks_right st (ed_rules st)) as [H1 H2]; by split.
  - destruct (List.find _ _) as [f|] eqn:Ef; [|by split]. split; cbn [ed_flights ed_window ed_previews].
    + intros g [Hg _]%filterb_elem. by apply HF.
    + destruct r as [p|]; [|done]. pose proof (Ht f Ef) as ->. apply find_Some_elem in Ef as [Hf _]. destruct (HF f Hf) as [E N].
      intros s q. rewrite omap_get_set. destruct (decide _) as [->|]; [|apply HP]. intros [= <-]. rewrite E. by destruct (fl_sig f).
Qed.

(** When the range only changes with nothing under way, what is shown of a
    member is what the server says of the rows it would store, in the range on
    screen; whatever the members were in the meantime. *)
Theorem previews_are_their_members rules w st r p :
  truthful_run (mounted rules w) st -> preview_of st r = Some p ->
  p = match member_sig r with [] => incomplete_preview | _ => server (ed_window st) (member_sig r) end.
Proof.
  intros H. assert (Hr : right st).
  { remember (mounted rules w) as st0 eqn:E. induction H as [|st st' e H IH Ht]; [subst; split; [by intros f ?%elem_of_nil|done]|].
    apply step_right; [by apply IH|done]. }
  destruct Hr as [_ Hr]. exact (Hr (member_sig r) p).
Qed.
End server.

Definition quiet_event (e : Event) : Prop := match e with Edited _ | Pause => True | _ => False end.
(** An answer about another range, when it comes late, replaces what is shown
    of the member, and is not asked again while the range stays. *)
Theorem late_preview_stays st i f p es :
  List.find (fun f => Nat.eqb (fl_id f) i) (ed_flights st) = Some f -> fl_sig f ∈ ed_asked st -> Forall quiet_event es ->
  omap_get (fl_sig f) (ed_previews (runs (step st (Answer i (Some p))) es)) = Some p.
Proof.
  intros Hf Ha He. set (sig := fl_sig f) in *.
  assert (H0 : sig ∈ ed_asked (step st (Answer i (Some p))) /\ omap_get sig (ed_previews (step st (Answer i (Some p)))) = Some p).
  { cbn [step]. rewrite Hf. cbn [ed_asked ed_previews]. split; [done|]. by rewrite omap_get_set, decide_True. }
  revert H0. generalize (step st (Answer i (Some p))). unfold runs. induction He as [|e es Hq _ IH]; intros st0 [H1 H2]; [done|]. cbn [foldl]. apply IH.
  destruct e as [rules|w| |j r]; try done; cbn [step]; [by case_bool_decide|]. case_if; [|by split]. cbn [ed_asked ed_previews].
  assert (Hasks : forall l st1, sig ∈ ed_asked st1 -> omap_get sig (ed_previews st1) = Some p ->
    sig ∈ ed_asked (foldl ask st1 l) /\ omap_get sig (ed_previews (foldl ask st1 l)) = Some p); [|by apply Hasks].
  intros l. induction l as [|r l IHl]; intros st1 A B; [done|]. cbn [foldl]. apply IHl; [by apply ask_asked|].
  unfold ask. case_bool_decide as E; [done|]. destruct (member_sig r) as [|m sg] eqn:Es; cbn [ed_previews]; [|done].
  rewrite omap_get_set, decide_False; [done|]. intros ->. done.
Qed.

(** ** Members *)

Lemma ruleKey_equals x s : ruleKey x = ruleKey (ruleOf s) -> r_serviceOp x = equals /\ trim (r_service x) = trim s.
Proof.
  unfold ruleKey. cbn [ruleOf blankRule r_serviceOp r_service]. destruct (r_serviceOp x); cbn; try (intros [=]; done).
  intros E. split; [done|]. injection E as E. by rewrite !sapp_nil_r in E.
Qed.
Section adding.
Context `{host : Host}.

Lemma uncovered_is_new rules s : trim s = s -> s <> "" -> rulesCover rules s = false -> add rules (ruleOf s) = rules ++ [ruleOf s].
Proof.
  intros Ht Hs Hc. unfold add. destruct (has rules (ruleOf s)) eqn:E; [|done]. exfalso. apply not_true_iff_false in Hc. apply Hc.
  apply existsb_elem in E as (x & Hx & Hk). bool_prop. apply ruleKey_equals in Hk as [Ho Hn]. apply existsb_elem. exists x. split; [done|].
  unfold ruleCovers. rewrite Ho, Hn, Ht. apply truthy_spec in Hs as ->. cbn. apply String.eqb_refl.
Qed.
Lemma added_covers rules s : trim s = s -> s <> "" -> rulesCover (rules ++ [ruleOf s]) s = true.
Proof.
  intros Ht Hs. apply existsb_elem. exists (ruleOf s). split; [apply elem_of_app; right; by left|]. unfold ruleCovers.
  cbn [ruleOf blankRule r_serviceOp r_service]. rewrite Ht. apply truthy_spec in Hs as ->. cbn. apply String.eqb_refl.
Qed.

Lemma includes_self s : includes s s = true.
Proof. apply includes_spec. exists "", "". cbn. by rewrite sapp_nil_r. Qed.
Lemma partial_elem q rules names s : s ∈ partial_matches q rules names -> s ∈ names /\ rulesCover rules s = false.
Proof.
  unfold partial_matches. set (l := sort _ _). intros H. assert (Hl : s ∈ l) by (rewrite <- (take_drop 8 l); apply elem_of_app; by left).
  apply sort_elem, filterb_elem in Hl as [Hn Hc]. clear H. rename Hc into H. apply andb_true_iff in H as [H _]. by apply negb_true_iff in H.
Qed.

(** Whatever is offered with a click is new: picking it adds one member, and a
    name or a pattern that is a member already is only said to be. *)
Theorem options_add_one q rules knownNames when_ o r :
  Forall (fun s => trim s = s /\ s <> "") knownNames -> o ∈ options q rules knownNames when_ -> op_rule o = Some r ->
  add rules r = rules ++ [r].
Proof.
  intros Hk [Ho|Ho]%elem_of_app Hr.
  - unfold typed_option in Ho. destruct (parseAddQuery q) as [parsed|]; [|by apply elem_of_nil in Ho]. unfold add.
    destruct (equals_op parsed).
    + destruct (has rules parsed) eqn:E; [apply list_elem_of_singleton in Ho as ->; done|]. case_bool_decide; [by apply elem_of_nil in Ho|].
      apply list_elem_of_singleton in Ho as ->. injection Hr as <-. by rewrite E.
    + apply list_elem_of_singleton in Ho as ->. cbn in Hr. destruct (has rules parsed) eqn:E; [done|]. injection Hr as <-. by rewrite E.
  - apply list_elem_of_fmap in Ho as (s & -> & Hs). injection Hr as <-. apply partial_elem in Hs as [Hs Hc]. rewrite Forall_forall in Hk.
    destruct (Hk s Hs). by apply uncovered_is_new.
Qed.

Lemma plain_name q p : parseAddQuery q = Some p -> equals_op p = true -> p = ruleOf (trim q) /\ trim q <> "".
Proof.
  unfold parseAddQuery. cbv zeta. destruct (truthy (trim q)) eqn:Et; [|done]. apply truthy_spec in Et. cbn [negb]. destruct (slashed _); [by intros [= <-]|].
  destruct (no_char STAR (trim q)); [by intros [= <-]|]. destruct (truthy _); [|done]. cbn [negb].
  destruct (_ && _ && _); [by intros [= <-]|]. destruct (_ && _); [by intros [= <-]|]. destruct (_ && _); by intros [= <-].
Qed.

(** Enter adds exactly the name that was typed: a service no one has seen, or a
    known one that no member covers, is the first option, before every longer name
    that contains it. *)
Theorem typed_name_comes_first q rules knownNames when_ p :
  parseAddQuery q = Some p -> equals_op p = true -> has rules p = false ->
  (r_service p ∈ knownNames -> rulesCover rules (r_service p) = false) ->
  exists o l, options q rules knownNames when_ = o :: l /\ op_rule o = Some (ruleOf (trim q)).
Proof.
  intros Hp He Hh Hc. destruct (plain_name q p Hp He) as [-> Hq]. cbn [ruleOf blankRule r_service] in Hc. unfold options, typed_option. rewrite Hp, He, Hh.
  cbn [ruleOf blankRule r_service]. case_bool_decide as Ek; [|by eexists _, _]. cbn [app].
  unfold partial_matches. set (c := cmp_desc _). set (l := List.filter _ knownNames).
  assert (Hl : trim q ∈ l).
  { apply filterb_elem. split; [done|]. rewrite (Hc Ek). cbn [negb andb]. by rewrite includes_self, orb_true_r. }
  destruct (sort c l) as [|x m] eqn:Es; [exfalso; apply (elem_of_nil (trim q)); rewrite <- Es; by apply sort_elem|].
  destruct (sort_head_least _ _ _ _ Es) as [_ Hle]. specialize (Hle _ Hl). unfold c, cmp_desc in Hle. rewrite String.eqb_refl in Hle.
  destruct (x =s trim q) eqn:Ex; [|lia]. bool_prop. subst x. cbn [take fmap list_fmap]. by eexists _, _.
Qed.

(** The exception: a known service that a pattern covers cannot be added by
    typing its name, and Enter then adds another service whose name contains it,
    if there is one. *)
Theorem covered_name_is_not_offered q rules knownNames when_ p :
  parseAddQuery q = Some p -> equals_op p = true -> r_service p ∈ knownNames -> has rules p = false -> rulesCover rules (r_service p) = true ->
  forall o r, o ∈ options q rules knownNames when_ -> op_rule o = Some r -> r_service r <> trim q /\ r_serviceOp r = equals.
Proof.
  intros Hp He Hk Hh Hc o r Ho Hr. destruct (plain_name q p Hp He) as [-> Hq]. cbn [ruleOf blankRule r_service] in *.
  unfold options, typed_option in Ho. rewrite Hp, He, Hh in Ho. cbn [ruleOf blankRule r_service] in Ho. rewrite bool_decide_true in Ho by done.
  cbn [app] in Ho. apply list_elem_of_fmap in Ho as (s & -> & Hs). injection Hr as <-. apply partial_elem in Hs as [_ Hs].
  cbn. split; [|done]. intros ->. congruence.
Qed.

(** *** Suggestions *)

(** A suggestion names a service that traces connect to a member and that no
    member covers; a click adds it, and it is not suggested again. *)
Theorem suggestion_adds_member `{!HostLaws host} rules known windowVal hoods s :
  s ∈ suggestion_list rules known windowVal hoods -> trim (s_name s) = s_name s -> s_name s <> "" ->
  (0 < s_traffic s)%Z /\ add rules (ruleOf (s_name s)) = rules ++ [ruleOf (s_name s)] /\
  forall s', s' ∈ suggestion_list (add rules (ruleOf (s_name s))) known windowVal hoods -> s_name s' <> s_name s.
Proof.
  intros Hs Ht Hn. unfold suggestion_list in Hs. destruct (suggestions_correct (omap (fun f => omap_get (windowVal, f) hoods) (focals rules known)) (rulesCover rules)) as (_ & H & _).
  destruct (H s Hs) as [[H1 [H2 H3]] _]. cbn in H1, H2, H3. assert (Ha : add rules (ruleOf (s_name s)) = rules ++ [ruleOf (s_name s)]) by by apply uncovered_is_new.
  split; [done|]. split; [done|]. intros s' Hs' E. rewrite Ha in Hs'. unfold suggestion_list in Hs'.
  destruct (suggestions_correct (omap (fun f => omap_get (windowVal, f) hoods) (focals (rules ++ [ruleOf (s_name s)]) known)) (rulesCover (rules ++ [ruleOf (s_name s)])))
    as (_ & H' & _). destruct (H' s' Hs') as [[_ [H5 _]] _]. cbn in H5. rewrite E, added_covers in H5 by done. done.
Qed.
End adding.

(** Removing a member leaves the one that is open open, wherever it moves; only
    its own removal closes it. *)
Theorem removal_keeps_open_member i rules o r : rules !! o = Some r ->
  let '(rules', open') := remove i rules (Some o) in
  if decide (o = i) then open' = None else exists o', open' = Some o' /\ rules' !! o' = Some r.
Proof.
  intros Hr. unfold remove. destruct (decide (o = i)) as [->|Hne]; [by rewrite Nat.eqb_refl|].
  rewrite (proj2 (Nat.eqb_neq _ _) Hne). eexists. split; [done|]. destruct (Nat.ltb_spec i o).
  - rewrite list_lookup_delete_ge by lia. by replace (S (o - 1)) with o by lia.
  - rewrite list_lookup_delete_lt by lia. done.
Qed.
