(* ===== verification/ListPages.v ===== *)
(** * The lists of integrations and services

    The filter bar ([components/integrations/IntegrationFilterBar.tsx]) and what the two
    list pages do with the URL and the rows ([pages/Integrations.tsx] and
    [pages/Services.tsx]): filters, tags, dependencies and grouping. *)

From S2P Require Import Prelude JsString JsUri JsArray Host Types Checks RegExp.

Local Open Scope char_scope.
Local Open Scope string_scope.
Local Open Scope list_scope.

(** ** Filters *)

Record IntegrationFilter := { f_id : string; f_field : string; f_op : string; f_value : string }.

(** [Number] of a text: a decimal of at most fifteen digits, the empty text as zero, and
    by argument the texts that are neither (exponents, hexadecimal numbers, long
    decimals).  [None] is NaN. *)
Definition digits15 (n : num) : bool := (Z.abs (n_mant n) <? 10 ^ 15)%Z.
Section number.
Context (Number_other : string -> option num).

Definition Number (s : string) : option num :=
  let t := trim s in
  if t =s "" then Some (Num 0 0)
  else
    let '(sign, d) := match t with String "-" d => ((-1)%Z, d) | String "+" d => (1%Z, d) | _ => (1%Z, t) end in
    match read_decimal d with
    | Some (n, "") => if digits15 n then Some (Num (sign * n_mant n) (n_scale n)) else Number_other t
    | _ => Number_other t
    end.

(** The order of two decimals, over a common power of ten. *)
Definition num_cmp (a b : num) : Z := (n_mant a * 10 ^ Z.of_nat (n_scale b) - n_mant b * 10 ^ Z.of_nat (n_scale a))%Z.
Definition num_test (f : Z -> bool) (a b : option num) : bool := match a, b with Some a, Some b => f (num_cmp a b) | _, _ => false end.

Section host.
Context `{Host}.

(** [matchesFilter] on the text of a cell.  An operator the switch does not know gives
    [undefined], which hides the row. *)
Definition matchesFilter (f : IntegrationFilter) (rowValue : string) : bool :=
  let s := toLowerCase rowValue in
  let v := toLowerCase (f_value f) in
  let op := f_op f in
  if op =s "contains" then includes s v
  else if (op =s "equals") || (op =s "is") then s =s v
  else if op =s "is_set" then negb (s =s "")
  else if op =s "is_empty" then s =s ""
  else if op =s "is_true" then s =s "true"
  else if op =s "is_false" then s =s "false"
  else if op =s "eq" then num_test (fun d => d =? 0)%Z (Number rowValue) (Number (f_value f))
  else if op =s "gt" then num_test (fun d => 0 <? d)%Z (Number rowValue) (Number (f_value f))
  else if op =s "lt" then num_test (fun d => d <? 0)%Z (Number rowValue) (Number (f_value f))
  else false.
End host.
End number.

Definition opsFor (kind : string) : list string :=
  if (kind =s "text") || (kind =s "select") then ["contains"; "equals"; "is_set"; "is_empty"]
  else if kind =s "boolean" then ["is_true"; "is_false"]
  else if kind =s "number" then ["eq"; "gt"; "lt"; "is_set"; "is_empty"]
  else if kind =s "status" then ["is"]
  else [].
Definition opNeedsValue (op : string) : bool := negb (bool_decide (op ∈ ["is_true"; "is_false"; "is_set"; "is_empty"])).

(** The rows of the bar: a new one asks for the first field with its first operator. *)
Definition addFilter (uid : string) (fieldSpecs : list (string * string)) (filters : list IntegrationFilter) : option (list IntegrationFilter) :=
  match fieldSpecs with
  | [] => None
  | (field, kind) :: _ =>
      match opsFor kind with
      | [] => None
      | op :: _ => Some (filters ++ [{| f_id := uid; f_field := field; f_op := op; f_value := "" |}])
      end
  end.
Definition update (id : string) (patch : IntegrationFilter -> IntegrationFilter) (filters : list IntegrationFilter) : list IntegrationFilter :=
  (fun f => if f_id f =s id then patch f else f) <$> filters.
Definition remove (id : string) (filters : list IntegrationFilter) : list IntegrationFilter := List.filter (fun f => negb (f_id f =s id)) filters.

(** *** The filters in the URL *)

Definition serializeFilters (filters : list IntegrationFilter) : string :=
  join "," ((fun f => tpl [f_field f; "|"; f_op f; "|"; encodeURIComponent (f_value f)]) <$> filters).

(** A chunk at its place: nothing when it has no bar, an exception when the value is not
    a valid encoding. *)
Definition parse_chunk (idx : nat) (chunk : string) : unit + option IntegrationFilter :=
  match split "|" chunk with
  | field :: op :: rest =>
      match decodeURIComponent (join "|" rest) with
      | Some v => inr (Some {| f_id := tpl [show_Z (Z.of_nat idx); "|"; field; "|"; op]; f_field := field; f_op := op; f_value := v |})
      | None => inl tt
      end
  | _ => inr None
  end.
Definition parseFilters (raw : option string) : unit + list IntegrationFilter :=
  if negb (truthy_opt raw) then inr []
  else let* l := err_map (fun p => parse_chunk p.1 p.2) (imap pair (split "," (raw ?? ""))) in inr (omap id l).

Definition filters_of (ps : params) : unit + list IntegrationFilter := parseFilters (usp_get ps "filter").
Definition setFilters (next : list IntegrationFilter) (ps : params) : params :=
  let enc := serializeFilters next in if truthy enc then usp_set "filter" enc ps else usp_delete "filter" ps.

(** ** Tags in the URL *)

Definition activeSlugs (ps : params) : list string :=
  match (match usp_get ps "tags" with Some r => Some r | None => usp_get ps "tag" end) with
  | None => []
  | Some raw => if truthy raw then List.filter truthy (trim <$> split "," raw) else []
  end.
Definition setActiveSlugs (next : list string) (ps : params) : params :=
  let ps := usp_delete "tag" ps in
  match next with [] => usp_delete "tags" ps | _ => usp_set "tags" (join "," next) ps end.
Definition toggleSlug (slug : string) (ps : params) : params :=
  let active := activeSlugs ps in
  setActiveSlugs (if bool_decide (slug ∈ active) then List.filter (fun s => negb (s =s slug)) active else active ++ [slug]) ps.

(** The tags whose slug is chosen; others are dropped. *)
Definition activeTagIds (allTags : list Tag) (slugs : list string) : list string :=
  tg_id <$> List.filter (fun t => bool_decide (tg_slug t ∈ slugs)) allTags.
Definition has_tags (tags : option (list Tag)) (need : list string) : bool :=
  let ids := tg_id <$> (tags ?? []) in forallb (fun n => bool_decide (n ∈ ids)) need.

(** ** The rows of the integrations page *)

Section pages.
Context `{Host} (Number_other : string -> option num).

(** [metadata_values?.[key] ?? ""] *)
Definition metadata_value (values : option (list (string * string))) (key : string) : string := omap_get key (values ?? []) ?? "".

Definition cellValueFor (i : Integration) (field : string) : string :=
  if field =s "name" then i_name i
  else if field =s "description" then i_description i
  else if field =s "slug" then i_slug i
  else if field =s "status" then i_status i ?? ""
  else if startsWith field "meta:" then metadata_value (i_metadata_values i) (slice_from 5 field)
  else "".

Definition status_hit (statusFilter : string) (i : Integration) : bool :=
  if negb (truthy statusFilter) then true
  else let s := i_status i ?? "" in
       if statusFilter =s "unhealthy" then (s =s "unhealthy") || (s =s "errors") else s =s statusFilter.
Definition facet_hit (facetFilter : string) (i : Integration) : bool :=
  negb (truthy facetFilter) || existsb (fun f => sf_slug f =s facetFilter) (i_service_facets i ?? []).

Definition visibleItems (items : option (list Integration)) (statusFilter facetFilter : string) (activeTagIds : list string)
    (filters : list IntegrationFilter) : list Integration :=
  List.filter (fun i => status_hit statusFilter i && facet_hit facetFilter i && has_tags (i_tags i) activeTagIds &&
                        forallb (fun f => matchesFilter Number_other f (cellValueFor i (f_field f))) filters) (items ?? []).

(** *** Grouping by metadata *)

Inductive IntegrationGroup := GroupOf (value : string) (rows : list Integration) (traces errors : Z) (children : option (list IntegrationGroup)).
Definition g_value (g : IntegrationGroup) : string := let 'GroupOf v _ _ _ _ := g in v.
Definition g_rows (g : IntegrationGroup) : list Integration := let 'GroupOf _ r _ _ _ := g in r.
Definition g_traces (g : IntegrationGroup) : Z := let 'GroupOf _ _ t _ _ := g in t.

Definition sum_of (f : Integration -> option Z) (rows : list Integration) : Z := foldl (fun sum x => sum + (f x ?? 0))%Z 0%Z rows.

Definition group_cmp : IntegrationGroup -> IntegrationGroup -> Z :=
  cmp_or (cmp_desc g_traces) (cmp_or (cmp_by (fun g => if g_value g =s "" then 1 else 0)%Z) (cmp_on g_value localeCompare)).

Fixpoint build (keys : list string) (rows : list Integration) : list IntegrationGroup :=
  match keys with
  | [] => []
  | k :: ks =>
      sort group_cmp ((fun b => GroupOf b.1 b.2 (sum_of i_trace_count b.2) (sum_of i_error_trace_count b.2)
                                  (match ks with [] => None | _ => Some (build ks b.2) end))
                      <$> group_by (fun r => metadata_value (i_metadata_values r) k) rows)
  end.

Inductive RenderEntry := Header (level : Z) (fieldKey : string) (group : IntegrationGroup) | Row (i : Integration).

(** The keys of the URL that are fields, two at most. *)
Definition groupKeys (ps : params) (metadataFields : list MetadataField) : list string :=
  take 2 (List.filter (fun k => existsb (fun f => mf_key f =s k) metadataFields) (List.filter truthy (split "," (usp_get ps "group" ?? "")))).

Definition renderEntries (groupKeys : list string) (sortedRows : list Integration) : list RenderEntry :=
  match groupKeys with
  | [] => Row <$> sortedRows
  | k0 :: _ =>
      concat ((fun g =>
        Header 0 k0 g ::
        match g with
        | GroupOf _ _ _ _ (Some cs) => concat ((fun c => Header 1 ((groupKeys !! 1) ?? "") c :: (Row <$> g_rows c)) <$> cs)
        | GroupOf _ rows _ _ None => Row <$> rows
        end) <$> build groupKeys sortedRows)
  end.

(** ** The rows of the services page *)

Definition service_cell (s : ServiceSummary) (field : string) : string :=
  if field =s "name" then ss_service_name s
  else if field =s "namespace" then ss_service_namespace s
  else if field =s "status" then ss_status s
  else if field =s "system_kind" then ss_system_kind s ?? ""
  else if startsWith field "meta:" then metadata_value (ss_metadata_values s) (slice_from 5 field)
  else "".

Definition depMatches (dep : string) (depsLoaded : bool) (s : ServiceSummary) : bool :=
  if negb (truthy dep) then true
  else if negb depsLoaded then true
  else if (ss_trace_count s =? 0)%Z then false
  else
    let up := (ss_upstream_count s ?? 0)%Z in
    let down := (ss_downstream_count s ?? 0)%Z in
    if dep =s "has-upstream" then (0 <? up)%Z
    else if dep =s "has-downstream" then (0 <? down)%Z
    else if dep =s "has-any" then ((0 <? up) || (0 <? down))%Z
    else if dep =s "no-upstream" then (up =? 0)%Z
    else if dep =s "no-downstream" then (down =? 0)%Z
    else if dep =s "isolated" then ((up =? 0) && (down =? 0))%Z
    else true.

Definition visibleServices (services : list ServiceSummary) (dep : string) (depsLoaded : bool) (activeTagIds : list string)
    (filters : list IntegrationFilter) : list ServiceSummary :=
  List.filter (fun s => has_tags (ss_tags s) activeTagIds &&
                        forallb (fun f => matchesFilter Number_other f (service_cell s (f_field f))) filters &&
                        depMatches dep depsLoaded s) services.

Definition UNGROUPED : string := "— none —".
Definition groupKeysFor (s : ServiceSummary) (by_ : string) : list string :=
  if by_ =s "integration" then ir_name <$> ss_integrations s
  else if by_ =s "namespace" then (if truthy (ss_service_namespace s) then [ss_service_namespace s] else [])
  else if by_ =s "status" then [ss_status s]
  else if by_ =s "tag" then tg_name <$> (ss_tags s ?? [])
  else if startsWith by_ "meta:" then let v := metadata_value (ss_metadata_values s) (slice_from 5 by_) in if truthy v then [v] else []
  else [].
Definition labels_of (by_ : string) (s : ServiceSummary) : list string :=
  match groupKeysFor s by_ with [] => [UNGROUPED] | keys => keys end.

Definition group_label_cmp (a b : string * list ServiceSummary) : Z :=
  if a.1 =s UNGROUPED then 1%Z else if b.1 =s UNGROUPED then (-1)%Z else localeCompare a.1 b.1.
Definition add_service (by_ : string) (m : list (string * list ServiceSummary)) (s : ServiceSummary) : list (string * list ServiceSummary) :=
  foldl (fun m label => omap_push label s m) m (labels_of by_ s).
Definition grouped (by_ : string) (services : list ServiceSummary) : option (list (string * list ServiceSummary)) :=
  if negb (truthy by_) then None else Some (sort group_label_cmp (foldl (add_service by_) [] services)).
End pages.

(** ** Filters in the URL: lemmas *)

Definition clean (s : string) : bool := no_char "," s && no_char "|" s.
Definition filter_id (idx : nat) (f : IntegrationFilter) : string := tpl [show_Z (Z.of_nat idx); "|"; f_field f; "|"; f_op f].
Definition with_id (idx : nat) (f : IntegrationFilter) : IntegrationFilter :=
  {| f_id := filter_id idx f; f_field := f_field f; f_op := f_op f; f_value := f_value f |}.
Definition chunk_of (f : IntegrationFilter) : string := tpl [f_field f; "|"; f_op f; "|"; encodeURIComponent (f_value f)].
Definition writable (f : IntegrationFilter) : bool := clean (f_field f) && clean (f_op f) && utf8_valid (f_value f).

Lemma writable_inv f : writable f = true ->
  (no_char "," (f_field f) = true /\ no_char "|" (f_field f) = true) /\
  (no_char "," (f_op f) = true /\ no_char "|" (f_op f) = true) /\ utf8_valid (f_value f) = true.
Proof. unfold writable, clean. rewrite !andb_true_iff. tauto. Qed.

Lemma chunk_split f : chunk_of f = f_field f +:+ String "|" (f_op f +:+ String "|" (encodeURIComponent (f_value f))).
Proof. unfold chunk_of, tpl. cbn [foldr]. by rewrite sapp_nil_r. Qed.

Lemma chunk_no_comma f : writable f = true -> no_char "," (chunk_of f) = true.
Proof.
  intros ((? & ?) & (? & ?) & ?)%writable_inv. rewrite chunk_split.
  rewrite !no_char_app. cbn [no_char]. rewrite !no_char_app. cbn [no_char].
  rewrite encode_uri_no_char by done. by rewrite !andb_true_iff.
Qed.

Lemma parse_chunk_of idx f : writable f = true -> parse_chunk idx (chunk_of f) = inr (Some (with_id idx f)).
Proof.
  intros ((? & ?) & (? & ?) & Hv)%writable_inv. unfold parse_chunk. rewrite chunk_split.
  rewrite !split_cut by done. rewrite split_no_char by (by apply encode_uri_no_char). cbn [join].
  by rewrite decode_encode_uri.
Qed.

Lemma chunk_not_empty f : truthy (chunk_of f) = true.
Proof. rewrite chunk_split. by destruct (f_field f). Qed.

Lemma serialize_not_empty f fs : truthy (serializeFilters (f :: fs)) = true.
Proof.
  unfold serializeFilters. cbn [fmap list_fmap]. pose proof (chunk_not_empty f) as H. unfold chunk_of in H.
  destruct fs; cbn [fmap list_fmap join]; [done|]. by destruct (tpl _).
Qed.

Lemma chunks_split fs : fs <> [] -> Forall (fun f => writable f = true) fs -> split "," (serializeFilters fs) = chunk_of <$> fs.
Proof.
  intros Hne H. unfold serializeFilters. fold chunk_of. apply split_join; [by destruct fs|].
  apply Forall_fmap. eapply Forall_impl; [exact H|]. intros f Hf. by apply chunk_no_comma.
Qed.

Lemma parse_chunks fs k : Forall (fun f => writable f = true) fs ->
  err_map (fun p => parse_chunk p.1 p.2) (imap (fun n => pair (k + n)%nat) (chunk_of <$> fs)) = inr (Some <$> imap (fun n => with_id (k + n)%nat) fs).
Proof.
  revert k. induction fs as [|f fs IH]; intros k H; [done|]. apply Forall_cons in H as [Hf Hfs].
  cbn [fmap list_fmap imap err_map fst snd]. rewrite parse_chunk_of by done. cbn [err_bind].
  specialize (IH (S k) Hfs).
  replace (imap ((fun n => pair (k + n)%nat) ∘ S) (chunk_of <$> fs)) with (imap (fun n => pair (S k + n)%nat) (chunk_of <$> fs))
    by (apply imap_ext; intros; cbn; f_equal; lia).
  rewrite IH. cbn [err_bind]. do 3 f_equal.
  apply imap_ext. intros i x _. cbn. f_equal. lia.
Qed.

Lemma omap_id_Some {A} (l : list A) : omap id (Some <$> l) = l.
Proof. induction l as [|x l IH]; [done|]. cbn. by f_equal. Qed.

Lemma parse_serialize fs : Forall (fun f => writable f = true) fs -> parseFilters (Some (serializeFilters fs)) = inr (imap with_id fs).
Proof.
  intros H. destruct fs as [|f fs]; [done|]. unfold parseFilters, truthy_opt, default, id.
  rewrite serialize_not_empty. cbn [negb]. rewrite chunks_split by done.
  pose proof (parse_chunks (f :: fs) 0 H) as E. cbn [Nat.add] in E.
  replace (imap pair (chunk_of <$> f :: fs)) with (imap (fun n => pair n) (chunk_of <$> f :: fs)) by done.
  rewrite E. cbn [err_bind]. by rewrite omap_id_Some.
Qed.

(** C34. Filters survive the address bar.  Written into any URL and read back from its
    text, they are the filters in their order with ids made of place, field and
    operator, provided the names of fields and operators hold no comma and no bar
    and the values are well-formed text.  The other parameters read as before. *)
Theorem filters_survive_the_url next ps :
  Forall (fun f => writable f = true) next ->
  filters_of (usp_parse (usp_toString (setFilters next ps))) = inr (imap with_id next) /\
  forall k, k <> "filter" -> usp_get (usp_parse (usp_toString (setFilters next ps))) k = usp_get ps k.
Proof.
  intros H. rewrite usp_parse_toString. unfold filters_of, setFilters. split.
  - destruct next as [|f next].
    + cbn [serializeFilters fmap list_fmap join]. change (truthy "") with false. cbn [imap].
      by rewrite usp_get_delete.
    + rewrite serialize_not_empty, usp_get_set. by apply parse_serialize.
  - intros k Hk. case_goal; [by rewrite usp_get_set_ne by congruence|by rewrite usp_get_delete_ne by congruence].
Qed.

(** *** Broken encodings *)

(** A chunk that makes the page throw: two parts at least, and a value that is not an
    encoding. *)
Definition breaks (chunk : string) : bool :=
  match split "|" chunk with _ :: _ :: rest => bool_decide (decodeURIComponent (join "|" rest) = None) | _ => false end.

Lemma parse_chunk_breaks idx chunk : parse_chunk idx chunk = inl tt <-> breaks chunk = true.
Proof.
  unfold parse_chunk, breaks. destruct (split "|" chunk) as [|a [|b rest]]; [done..|].
  destruct (decodeURIComponent _); split; by rewrite ?bool_decide_eq_true.
Qed.

Lemma err_map_inl {A B} (f : A -> unit + B) l : err_map f l = inl tt <-> exists x, x ∈ l /\ f x = inl tt.
Proof.
  induction l as [|x l IH]; cbn [err_map].
  - split; [done|]. intros (y & Hy & _). by apply elem_of_nil in Hy.
  - destruct (f x) as [[]|y] eqn:E; cbn [err_bind].
    + split; [intros _; exists x; split; [apply elem_of_cons; by left|exact E]|by intros _].
    + destruct (err_map f l) as [[]|ys]; cbn [err_bind].
      * split; [|done]. intros _. destruct (proj1 IH) as (z & Hz & Ez); [done|]. exists z. split; [apply elem_of_cons; by right|done].
      * split; [done|]. intros (z & [->|Hz]%elem_of_cons & Ez); [congruence|]. discriminate (proj2 IH (ex_intro _ z (conj Hz Ez))).
Qed.

(** Reading a link throws exactly when one of its chunks holds a bar and its value is
    not a percent-encoding; the comment in Integrations.tsx says such chunks are
    dropped. *)
Theorem filters_throw_iff ps raw :
  usp_get ps "filter" = Some raw -> truthy raw = true ->
  filters_of ps = inl tt <-> exists chunk, chunk ∈ split "," raw /\ breaks chunk = true.
Proof.
  intros E Ht. unfold filters_of, parseFilters, truthy_opt. rewrite E. unfold default, id. rewrite Ht. cbn [negb].
  destruct (err_map _ _) as [[]|l] eqn:Em; cbn [err_bind].
  - split; [|done]. intros _. apply err_map_inl in Em as ([i c] & Hin & Hb). cbn in Hb.
    apply elem_of_lookup_imap_1 in Hin as (j & y & [= -> ->] & Hl). exists y.
    split; [by eapply list_elem_of_lookup_2|by eapply parse_chunk_breaks].
  - split; [done|]. intros (c & Hc & Hb). enough (inl tt = inr l :> unit + _) by done. rewrite <- Em. symmetry. apply err_map_inl.
    apply list_elem_of_lookup in Hc as [j Hj]. exists (j, c). split; [|by apply parse_chunk_breaks].
    by eapply elem_of_lookup_imap_2.
Qed.

(** *** Ids *)

Lemma filter_id_inj i j f g : filter_id i f = filter_id j g -> i = j.
Proof.
  unfold filter_id, tpl. cbn [foldr]. intros H.
  assert (Hb : forall n, no_char "|" (show_Z n) = true) by (intros n; by eapply all_chars_no_char; [apply show_Z_chars|]).
  apply (f_equal (fun s => hd "" (split "|" s))) in H.
  cbn [String.append] in H. do 2 (rewrite split_cut in H by apply Hb; cbn [hd] in H).
  apply show_Z_inj in H. lia.
Qed.

Lemma parse_ids cs k l : err_map (fun p => parse_chunk p.1 p.2) (imap (fun n => pair (k + n)%nat) cs) = inr l ->
  NoDup (f_id <$> omap id l) /\ forall f, f ∈ omap id l -> exists j, (k <= j)%nat /\ f_id f = filter_id j f.
Proof.
  revert k l. induction cs as [|c cs IH]; intros k l; cbn [imap err_map fst snd].
  - intros [= <-]. split; [constructor|]. intros f Hf. by apply elem_of_nil in Hf.
  - intros (o & Ho & (l' & Hl & [= <-])%err_bind_inr)%err_bind_inr.
    replace (imap ((fun n => pair (k + n)%nat) ∘ S) cs) with (imap (fun n => pair (S k + n)%nat) cs) in Hl
      by (apply imap_ext; intros; cbn; f_equal; lia).
    destruct (IH _ _ Hl) as [Hnd Hid]. destruct o as [f|]; cbn [omap list_omap id].
    + assert (Hf : f_id f = filter_id k f).
      { revert Ho. unfold parse_chunk. replace (k + 0)%nat with k by lia. destruct (split "|" c) as [|a [|b rest]]; [done..|].
        destruct (decodeURIComponent _); [|done]. by intros [= <-]. }
      split.
      * cbn [fmap list_fmap]. constructor; [|done]. intros (g & Eg & Hg)%list_elem_of_fmap.
        destruct (Hid g Hg) as (j & Hj & Ej). rewrite Hf, Ej in Eg. apply filter_id_inj in Eg. lia.
      * intros g [->|Hg]%elem_of_cons; [by exists k|]. destruct (Hid g Hg) as (j & Hj & Ej). exists j. split; [lia|done].
    + split; [done|]. intros g Hg. destruct (Hid g Hg) as (j & Hj & Ej). exists j. split; [lia|done].
Qed.

Lemma remove_absent id l : (forall f, f ∈ l -> f_id f <> id) -> remove id l = l.
Proof. intros H. apply filterb_all. intros f Hf. apply negb_true_iff, String.eqb_neq. by apply H. Qed.

Lemma remove_nth l k f : NoDup (f_id <$> l) -> l !! k = Some f -> remove (f_id f) l = delete k l.
Proof.
  revert k. induction l as [|g l IH]; intros k Hnd Hk; [done|]. cbn [fmap list_fmap] in Hnd. apply NoDup_cons in Hnd as [Hg Hnd].
  destruct k as [|k].
  - injection Hk as ->. cbn [remove List.filter]. rewrite String.eqb_refl. cbn [negb]. apply remove_absent.
    intros g Hin E. apply Hg. rewrite <- E. by apply list_elem_of_fmap_2.
  - cbn [remove List.filter]. assert (f_id g =s f_id f = false) as ->.
    { apply String.eqb_neq. intros E. apply Hg. rewrite E. apply list_elem_of_fmap_2. by eapply list_elem_of_lookup_2. }
    cbn [negb]. change (delete (S k) (g :: l)) with (g :: delete k l). f_equal. by apply IH.
Qed.

Lemma filters_of_NoDup ps l : filters_of ps = inr l -> NoDup (f_id <$> l).
Proof.
  unfold filters_of, parseFilters. case_goal; [intros [= <-]; constructor|].
  intros (cs & Hcs & [= <-])%err_bind_inr. by eapply (parse_ids _ 0).
Qed.

(** The x of a row takes that row away and no other, whatever the link said: the
    filters read from a link never share an id, even when they are equal. *)
Theorem remove_takes_one_row ps l k f :
  filters_of ps = inr l -> l !! k = Some f -> remove (f_id f) l = delete k l.
Proof. intros H. apply remove_nth. by eapply filters_of_NoDup. Qed.

(** ** Slugs in the URL *)

Definition slug_ok (s : string) : bool := truthy s && (trim s =s s) && no_char "," s.

Lemma slug_ok_inv s : slug_ok s = true -> truthy s = true /\ trim s = s /\ no_char "," s = true.
Proof. unfold slug_ok. rewrite !andb_true_iff, String.eqb_eq. tauto. Qed.

Lemma activeSlugs_ok ps : Forall (fun s => slug_ok s = true) (activeSlugs ps).
Proof.
  unfold activeSlugs. destruct (match usp_get ps "tags" with Some r => Some r | None => _ end) as [raw|]; [|constructor].
  destruct (truthy raw); [|constructor]. apply Forall_forall. intros s [Hs Ht]%filterb_elem.
  apply list_elem_of_fmap in Hs as (t & -> & Hin). unfold slug_ok. rewrite Ht, trim_trim, String.eqb_refl.
  apply trim_no_char. pose proof (split_clean "," raw) as H. rewrite Forall_forall in H. by apply H.
Qed.

Lemma active_setActive l ps : Forall (fun s => slug_ok s = true) l -> activeSlugs (setActiveSlugs l ps) = l.
Proof.
  intros H. unfold setActiveSlugs, activeSlugs. destruct l as [|s l].
  - by rewrite usp_get_delete, usp_get_delete_ne, usp_get_delete by done.
  - rewrite usp_get_set. 
    assert (Hc : Forall (fun s => no_char "," s = true) (s :: l)) by (eapply Forall_impl; [exact H|]; by intros ? (_ & _ & ?)%slug_ok_inv).
    assert (Ht : truthy (join "," (s :: l)) = true).
    { apply Forall_cons in H as [(Ht & _)%slug_ok_inv _]. destruct l; cbn [join]; [done|]. by destruct s. }
    rewrite Ht, split_join by done.
    replace (trim <$> s :: l) with (s :: l).
    + apply filterb_all. rewrite Forall_forall in H. by intros t (Htt & _)%H%slug_ok_inv.
    + clear Hc Ht. induction (s :: l) as [|t m IH]; [done|]. apply Forall_cons in H as [(_ & Ht & _)%slug_ok_inv Hm].
      cbn [fmap list_fmap]. rewrite Ht. f_equal. by apply IH.
Qed.

(** The chip of a tag is a switch.  On any link, canonical or not, toggling a slug
    takes it out of the choice or adds it, leaves the other slugs as they were, and
    toggling it again gives the old choice back. *)
Theorem toggle_is_a_switch slug ps :
  slug_ok slug = true ->
  (forall s, s ∈ activeSlugs (toggleSlug slug ps) <-> if decide (s = slug) then slug ∉ activeSlugs ps else s ∈ activeSlugs ps) /\
  forall s, s ∈ activeSlugs (toggleSlug slug (toggleSlug slug ps)) <-> s ∈ activeSlugs ps.
Proof.
  intros Hs.
  assert (Hstep : forall ps s, s ∈ activeSlugs (toggleSlug slug ps) <-> if decide (s = slug) then slug ∉ activeSlugs ps else s ∈ activeSlugs ps).
  { clear ps. intros ps s. unfold toggleSlug. pose proof (activeSlugs_ok ps) as Hok. rewrite active_setActive.
    - case_bool_decide as Hin; [rewrite filterb_elem, negb_true_iff, String.eqb_neq|rewrite elem_of_app, list_elem_of_singleton];
        case_decide; subst; tauto.
    - case_goal; [|by apply Forall_app; split; [|by repeat constructor]].
      rewrite Forall_forall in Hok |- *. intros t [Ht _]%filterb_elem. by apply Hok. }
  split; [apply Hstep|]. intros s. rewrite (Hstep (toggleSlug slug ps)). destruct (decide (s = slug)) as [->|Hne].
  - rewrite (Hstep ps), decide_True by done. destruct (decide (slug ∈ activeSlugs ps)); tauto.
  - by rewrite (Hstep ps), decide_False by done.
Qed.

(** ** Rows *)

Section rows.
Context `{Host} (Number_other : string -> option num).

Definition row_of (e : RenderEntry) : option Integration := match e with Row i => Some i | Header _ _ _ => None end.
Definition traces_of (level : Z) (e : RenderEntry) : Z := match e with Header l _ g => if (l =? level)%Z then g_traces g else 0%Z | Row _ => 0%Z end.
Definition total (f : RenderEntry -> Z) (l : list RenderEntry) : Z := foldr (fun e n => f e + n)%Z 0%Z l.

Lemma build_rows keys rows : keys <> [] -> concat (g_rows <$> build keys rows) ≡ₚ rows.
Proof.
  destruct keys as [|k ks]; [done|]. intros _. cbn [build]. rewrite sort_perm, <- list_fmap_compose.
  exact (group_by_perm (fun r => metadata_value (i_metadata_values r) k) rows).
Qed.

Lemma build_group keys rows g : g ∈ build keys rows ->
  exists k ks, keys = k :: ks /\ g = GroupOf (g_value g) (g_rows g) (sum_of i_trace_count (g_rows g)) (sum_of i_error_trace_count (g_rows g))
    (match ks with [] => None | _ => Some (build ks (g_rows g)) end) /\
  g_rows g = List.filter (fun r => bool_decide (metadata_value (i_metadata_values r) k = g_value g)) rows.
Proof.
  destruct keys as [|k ks]; cbn [build]; [by intros ?%elem_of_nil|].
  intros Hg%sort_elem. apply list_elem_of_fmap in Hg as ([v l] & -> & Hin). exists k, ks.
  split; [done|]. split; [done|]. cbn [g_rows g_value fst snd]. by apply (group_by_elem (fun r => metadata_value (i_metadata_values r) k)).
Qed.

Lemma omap_concat {A B} (f : A -> option B) (ls : list (list A)) : (omap f (concat ls) : list B) = concat ((fun l => omap f l : list B) <$> ls).
Proof. induction ls as [|l ls IH]; [done|]. cbn [concat fmap list_fmap]. by rewrite omap_app, IH. Qed.

Lemma omap_rows (l : list Integration) : omap row_of (Row <$> l) = l.
Proof. induction l as [|i l IH]; [done|]. cbn. by f_equal. Qed.

Lemma concat_perm {A B} (f g : A -> list B) l : (forall x, x ∈ l -> f x ≡ₚ g x) -> concat (f <$> l) ≡ₚ concat (g <$> l).
Proof.
  induction l as [|x l IH]; intros Hp; [done|]. cbn [concat fmap list_fmap]. rewrite Hp by (apply elem_of_cons; by left).
  rewrite IH; [done|]. intros y Hy. apply Hp. apply elem_of_cons. by right.
Qed.

Lemma total_app f l l' : total f (l ++ l') = (total f l + total f l')%Z.
Proof. induction l as [|e l IH]; cbn [total foldr app]; [done|]. change (foldr _ 0%Z ?m) with (total f m). rewrite IH. lia. Qed.

Lemma sum_of_acc f l a : foldl (fun sum x => sum + (f x ?? 0))%Z a l = (a + sum_of f l)%Z.
Proof.
  unfold sum_of. revert a. induction l as [|x l IH]; intros a; cbn [foldl]; [lia|]. rewrite IH, (IH (0 + _)%Z). lia.
Qed.

Lemma sum_of_app f l l' : sum_of f (l ++ l') = (sum_of f l + sum_of f l')%Z.
Proof. unfold sum_of. rewrite foldl_app. apply sum_of_acc. Qed.

Lemma sum_of_perm f l l' : l ≡ₚ l' -> sum_of f l = sum_of f l'.
Proof.
  induction 1 as [| | |? ? ? ? IH1 ? IH2]; [done| | |congruence].
  - unfold sum_of in *. cbn [foldl]. rewrite !(sum_of_acc f). unfold sum_of. lia.
  - unfold sum_of. cbn [foldl]. rewrite !(sum_of_acc f). lia.
Qed.

Lemma total_rows level (l : list Integration) : total (traces_of level) (Row <$> l) = 0%Z.
Proof. induction l as [|i l IH]; [done|]. cbn in *. exact IH. Qed.

(** The sum over the groups of one level is the sum over the rows. *)
Lemma build_traces keys rows : keys <> [] -> foldr (fun g n => g_traces g + n)%Z 0%Z (build keys rows) = sum_of i_trace_count rows.
Proof.
  intros Hk. rewrite <- (sum_of_perm i_trace_count _ _ (build_rows keys rows Hk)).
  assert (Hg : forall g, g ∈ build keys rows -> g_traces g = sum_of i_trace_count (g_rows g)).
  { intros g (k & ks & _ & -> & _)%build_group. done. }
  revert Hg. generalize (build keys rows) as gs. clear. intros gs. induction gs as [|g gs IH]; intros Hg; [done|].
  cbn [foldr fmap list_fmap concat]. rewrite sum_of_app, Hg, IH; [done| |apply elem_of_cons; by left].
  intros g' Hg'. apply Hg, elem_of_cons. by right.
Qed.

Lemma entries_rows keys rows : omap row_of (renderEntries keys rows) ≡ₚ rows.
Proof.
  destruct keys as [|k0 ks].
  { unfold renderEntries. by rewrite omap_rows. }
  unfold renderEntries. rewrite omap_concat, <- list_fmap_compose. rewrite <- (build_rows (k0 :: ks) rows) at 2 by done.
  apply concat_perm. intros g (k & ks' & [= <- <-] & -> & _)%build_group. destruct ks as [|k1 ks]; cbn.
  - by rewrite omap_rows.
  - rewrite omap_concat, <- list_fmap_compose. rewrite <- (build_rows (k1 :: ks) (g_rows g)) at 2 by done.
    apply concat_perm. intros c _. cbn. by rewrite omap_rows.
Qed.

Lemma total_concat {A} f (h : A -> list RenderEntry) (w : A -> Z) l :
  (forall x, x ∈ l -> total f (h x) = w x) -> total f (concat (h <$> l)) = foldr (fun x n => w x + n)%Z 0%Z l.
Proof.
  induction l as [|x l IH]; intros Hp; [done|]. cbn [concat fmap list_fmap foldr].
  rewrite total_app, Hp, IH; [done| |apply elem_of_cons; by left].
  intros y Hy. apply Hp, elem_of_cons. by right.
Qed.

Lemma total_cons f e l : total f (e :: l) = (f e + total f l)%Z.
Proof. done. Qed.

Lemma level0_total k0 ks rows : total (traces_of 0) (renderEntries (k0 :: ks) rows) = sum_of i_trace_count rows.
Proof.
  unfold renderEntries. rewrite (total_concat _ _ g_traces); [by apply build_traces|].
  intros g (k & ks' & [= <- <-] & -> & _)%build_group. cbn [g_traces]. rewrite total_cons. cbn [traces_of g_traces].
  change (0 =? 0)%Z with true. cbn iota. enough (total (traces_of 0) match ks with [] => Row <$> g_rows g | _ :: _ =>
    concat ((fun c => Header 1 ((k0 :: ks) !! 1%nat ?? "") c :: (Row <$> g_rows c)) <$> build ks (g_rows g)) end = 0)%Z as E
    by (destruct ks; rewrite E; lia).
  destruct ks as [|k1 ks]; [apply total_rows|]. rewrite (total_concat _ _ (fun _ => 0%Z)).
  - generalize (build (k1 :: ks) (g_rows g)) as l. intros l. induction l; [done|]. cbn [foldr]. lia.
  - intros c _. rewrite total_cons, total_rows. done.
Qed.

Lemma level1_total k0 k1 ks rows : total (traces_of 1) (renderEntries (k0 :: k1 :: ks) rows) = sum_of i_trace_count rows.
Proof.
  rewrite <- (build_traces (k0 :: k1 :: ks) rows) by done. unfold renderEntries. apply total_concat.
  intros g (k & ks' & [= <- <-] & -> & _)%build_group. cbn [g_traces]. rewrite total_cons. cbn [traces_of g_traces].
  change (0 =? 1)%Z with false. cbn iota. rewrite (total_concat _ _ g_traces).
  - rewrite build_traces by done. lia.
  - intros c _. rewrite total_cons, total_rows. cbn. lia.
Qed.

(** Grouping is only a presentation.  Whatever keys are chosen, every row of the table
    is shown once; the traces in the headers of the first level, and of the second when
    there is one, add up to the traces of the rows. *)
Theorem grouping_loses_nothing keys rows :
  omap row_of (renderEntries keys rows) ≡ₚ rows /\
  (keys <> [] -> total (traces_of 0) (renderEntries keys rows) = sum_of i_trace_count rows) /\
  ((2 <= length keys)%nat -> total (traces_of 1) (renderEntries keys rows) = sum_of i_trace_count rows).
Proof.
  split; [apply entries_rows|]. destruct keys as [|k0 [|k1 ks]]; (split; [try done|]; intros Hlen; try (simpl in Hlen; lia)).
  - apply level0_total.
  - apply level0_total.
  - apply level1_total.
Qed.
End rows.

(** ** Services under their labels *)

Section services.
Context `{Host}.
Implicit Types (m : list (string * list ServiceSummary)).

Definition in_group m (l : string) (s : ServiceSummary) : Prop := s ∈ (omap_get l m ?? []).

Lemma push_in_group k x m l s : in_group (omap_push k x m) l s <-> in_group m l s \/ (l = k /\ s = x).
Proof.
  unfold in_group, omap_push. rewrite omap_get_set. case_decide as E; subst; cbn [default].
  - unfold default at 1, id. rewrite elem_of_app, list_elem_of_singleton. tauto.
  - tauto.
Qed.

Lemma push_all_in_group ls x m l s :
  in_group (foldl (fun m label => omap_push label x m) m ls) l s <-> in_group m l s \/ (l ∈ ls /\ s = x).
Proof.
  revert m. induction ls as [|k ls IH]; intros m; cbn [foldl].
  - rewrite elem_of_nil. tauto.
  - rewrite IH, push_in_group, elem_of_cons. tauto.
Qed.

Lemma services_in_group by_ services m l s :
  in_group (foldl (add_service by_) m services) l s <-> in_group m l s \/ (s ∈ services /\ l ∈ labels_of by_ s).
Proof.
  revert m. induction services as [|x xs IH]; intros m; cbn [foldl].
  - rewrite elem_of_nil. tauto.
  - unfold add_service at 2. rewrite IH, push_all_in_group, elem_of_cons. split; [|naive_solver].
    intros [[?|[? ->]]|?]; tauto.
Qed.

(** Every bucket of the map holds something, and no label has two. *)
Definition buckets_ok m : Prop := NoDup (omap_keys m) /\ forall l g, (l, g) ∈ m -> g <> [].

Lemma push_ok k x m : buckets_ok m -> buckets_ok (omap_push k x m).
Proof.
  intros [Hnd Hne]. unfold omap_push. split; [by apply omap_set_NoDup|].
  intros l g Hg. apply omap_elem_get in Hg; [|by apply omap_set_NoDup]. rewrite omap_get_set in Hg.
  case_decide; simplify_eq; [by destruct (omap_get _ m ?? [])|]. apply omap_get_elem in Hg. by eapply Hne.
Qed.

Lemma services_ok by_ services m : buckets_ok m -> buckets_ok (foldl (add_service by_) m services).
Proof.
  revert m. induction services as [|x xs IH]; intros m Hm; [done|]. apply IH. unfold add_service.
  generalize (labels_of by_ x) as ls. intros ls. revert m Hm. induction ls as [|k ls IHl]; intros m Hm; [done|]. by apply IHl, push_ok.
Qed.

(** The bucket of services without a label goes last. *)
Lemma insert_ungrouped x l1 g l2 m :
  (forall l1 g l2, m = l1 ++ (UNGROUPED, g) :: l2 -> l2 = []) -> NoDup (fst <$> x :: m) ->
  insert_by group_label_cmp x m = l1 ++ (UNGROUPED, g) :: l2 -> l2 = [].
Proof.
  revert l1. induction m as [|y m IH]; intros l1 Hm Hnd; cbn [insert_by].
  - destruct l1 as [|z [|z' l1]]; by intros [=].
  - cbn [fmap list_fmap] in Hnd. apply NoDup_cons in Hnd as [Hx Hnd]. apply NoDup_cons in Hnd as [Hy Hnd].
    assert (Hxy : x.1 <> y.1) by (intros E; apply Hx, elem_of_cons; by left).
    assert (Hxm : x.1 ∉ m.*1) by (intros E; apply Hx, elem_of_cons; by right).
    destruct (Z.leb_spec (group_label_cmp x y) 0) as [Hc|Hc].
    + destruct l1 as [|z l1]; [|intros [= -> E]; by eapply Hm]. intros [= -> <-]. exfalso.
      unfold group_label_cmp in Hc. cbn [fst] in Hc. rewrite String.eqb_refl in Hc. lia.
    + destruct l1 as [|z l1].
      * intros [= -> E]. pose proof (Hm [] g m eq_refl) as ->. exfalso.
        unfold group_label_cmp in Hc. cbn [fst] in Hc. rewrite String.eqb_refl in Hc.
        destruct (String.eqb_spec x.1 UNGROUPED) as [Ex|]; [|lia]. by apply Hxy.
      * intros [= -> E]. eapply IH; [|by constructor|exact E].
        intros l1' g' l2' ->. by apply (Hm (z :: l1') g' l2').
Qed.

Lemma ungrouped_last m l1 g l2 : NoDup (omap_keys m) -> sort group_label_cmp m = l1 ++ (UNGROUPED, g) :: l2 -> l2 = [].
Proof.
  revert l1 g l2. induction m as [|x m IH]; intros l1 g l2 Hnd; cbn [sort]; [by destruct l1|].
  unfold omap_keys in Hnd. cbn [fmap list_fmap] in Hnd. apply NoDup_cons in Hnd as [Hx Hnd].
  apply insert_ungrouped; [intros; by eapply IH|]. cbn [fmap list_fmap].
  apply NoDup_cons. by rewrite sort_perm.
Qed.

(** Grouping services by a dimension with many values: a group is the services that
    bear its label, one that bears none is in the last group, no group is empty and no
    label is shown twice. *)
Theorem services_under_their_labels by_ services groups :
  grouped by_ services = Some groups ->
  NoDup (fst <$> groups) /\
  (forall l g, (l, g) ∈ groups -> g <> [] /\ forall s, s ∈ g <-> s ∈ services /\ l ∈ labels_of by_ s) /\
  (forall s l, s ∈ services -> l ∈ labels_of by_ s -> exists g, (l, g) ∈ groups /\ s ∈ g) /\
  forall l1 g l2, groups = l1 ++ (UNGROUPED, g) :: l2 -> l2 = [].
Proof.
  unfold grouped. case_goal; [done|]. intros [= <-].
  assert (Hok : buckets_ok (foldl (add_service by_) [] services)).
  { apply services_ok. split; [constructor|]. by intros l g ?%elem_of_nil. }
  assert (Hin := fun l s => services_in_group by_ services [] l s).
  assert (H0 : forall l s, ~ in_group [] l s) by (intros l s Hs; by apply elem_of_nil in Hs).
  destruct Hok as [Hnd Hne]. unfold in_group in Hin, H0. split; [by rewrite sort_perm|]. split; [|split].
  - intros l g Hg%sort_elem. split; [by eapply Hne|]. intros s.
    specialize (Hin l s). rewrite (omap_elem_get l g _ Hnd Hg) in Hin. change (Some g ?? []) with g in Hin. specialize (H0 l s). tauto.
  - intros s l Hs Hl. specialize (Hin l s). destruct (omap_get l (foldl (add_service by_) [] services)) as [g|] eqn:Eg.
    + exists g. rewrite sort_elem. split; [by apply omap_get_elem|tauto].
    + exfalso. apply (H0 l s). tauto.
  - intros l1 g l2. by apply ungrouped_last.
Qed.
End services.

(** *** A fresh row *)

Section fresh.
Context `{H : Host} `{HL : !HostLaws H} (Number_other : string -> option num).

Lemma includes_nil s : includes s "" = true.
Proof. apply includes_spec. by exists "", s. Qed.

(** Adding a row never changes the list: its first field is text, and an empty value is
    contained in every cell. *)
Theorem adding_a_row_hides_nothing items statusFilter facetFilter tags uid field specs filters next :
  addFilter uid ((field, "text") :: specs) filters = Some next ->
  visibleItems Number_other items statusFilter facetFilter tags next = visibleItems Number_other items statusFilter facetFilter tags filters.
Proof.
  intros [= <-]. unfold visibleItems. apply List.filter_ext. intros i. f_equal. rewrite forallb_app. cbn [forallb].
  unfold matchesFilter at 2. cbn [f_op f_value]. change ("contains" =s "contains") with true. cbn iota.
  by rewrite toLowerCase_nil, includes_nil, !andb_true_r.
Qed.
End fresh.

(** ** Examples *)

Definition no_number (s : string) : option num := None.
Definition three_filters : list IntegrationFilter :=
  [ {| f_id := "a"; f_field := "name"; f_op := "contains"; f_value := "orders, 100% | x" |};
    {| f_id := "b"; f_field := "meta:site"; f_op := "is_set"; f_value := "" |};
    {| f_id := "c"; f_field := "meta:cost"; f_op := "gt"; f_value := "1.5" |} ].

Lemma filters_survive_the_url_witness :
  filters_of (usp_parse (usp_toString (setFilters three_filters [("status", "errors")]))) = inr (imap with_id three_filters).
Proof. apply (filters_survive_the_url three_filters [("status", "errors")]). repeat constructor. Defined.

Lemma filters_throw_iff_witness :
  filters_of [("filter", "name|is_set|,name|contains|50%")] = inl tt.
Proof.
  apply (proj2 (filters_throw_iff [("filter", "name|is_set|,name|contains|50%")] "name|is_set|,name|contains|50%" eq_refl eq_refl)).
  exists "name|contains|50%". split; [apply elem_of_cons; right; apply elem_of_cons; by left|vm_compute; reflexivity].
Defined.

Definition service_in (name ns : string) (tags : list Tag) : ServiceSummary :=
  {| ss_service_name := name; ss_service_namespace := ns; ss_first_seen := None; ss_last_seen := ""; ss_trace_count := 3; ss_error_trace_count := 0;
     ss_integrations := []; ss_service_facets := []; ss_tags := Some tags; ss_status := "ok"; ss_metadata_values := None; ss_upstream_count := None;
     ss_downstream_count := None; ss_is_system := None; ss_system_kind := None; ss_environments := None |}.
Definition three_services : list ServiceSummary := [service_in "gateway" "" []; service_in "orders" "shop" []; service_in "billing" "shop" []].

Definition three_groups : list (string * list ServiceSummary) := @grouped plain_host "namespace" three_services ?? [].

Lemma services_under_their_labels_witness :
  three_groups = [("shop", [service_in "orders" "shop" []; service_in "billing" "shop" []]); (UNGROUPED, [service_in "gateway" "" []])] /\
  NoDup (fst <$> three_groups).
Proof.
  split; [vm_compute; reflexivity|].
  exact (proj1 (@services_under_their_labels plain_host "namespace" three_services _ eq_refl)).
Defined.

(** A metadata field nobody filled in counts as zero: the integration is listed as
    costing less than five. *)
Example unset_is_zero :
  @matchesFilter no_number plain_host {| f_id := ""; f_field := "meta:cost"; f_op := "lt"; f_value := "5" |} "" = true /\
  @matchesFilter no_number plain_host {| f_id := ""; f_field := "meta:cost"; f_op := "eq"; f_value := "" |} "0" = true.
Proof. split; reflexivity. Qed.

(** An operator the program does not have hides every row. *)
Example unknown_operator_hides_all :
  @matchesFilter no_number plain_host {| f_id := ""; f_field := "name"; f_op := "starts"; f_value := "" |} "orders" = false.
Proof. reflexivity. Qed.
