(* ===== verification/Profiles.v ===== *)
(** * Notification profiles

    components/NotificationProfiles.tsx and IntegrationProfileSelect.tsx: the cards
    that edit the profiles of a team or of the organization.  With them the server
    that stores the profiles and routes alerts through them:
    internal/api/handlers_notification_profiles.go, internal/notifyprofiles and
    internal/envrole of services/cell-api, and the import of bundles of
    internal/configtransfer, which writes the same tables.

    The server is one organization's.  A statement of SQL is the operation its text
    states; the list is in the order of the table, not of the names.  [uuid.Parse]
    and the words of a name ([strings.FieldsFunc] over the tables of Unicode) are
    arguments. *)

From S2P Require Import Prelude JsString JsUri JsArray Host Types Environment RuleServer RuleSenders ListPages.

Local Open Scope char_scope.
Local Open Scope string_scope.
Local Open Scope list_scope.

(** ** Data *)

Record NotificationProfile := {
  np_id : string; np_group_id : option string; np_name : string; np_grouping : string; np_renotify_minutes : Z; np_is_default : bool;
  np_channel_ids : list string; np_environment_mode : option string; np_environments : option (list string)
}.
Record NotificationProfileInput := {
  ni_group_id : option string; ni_name : string; ni_grouping : string; ni_renotify_minutes : Z; ni_is_default : bool;
  ni_channel_ids : option (list string); ni_environment_mode : option string; ni_environments : option (list string)
}.

(** ** The card of a profile *)

Record Draft := {
  dr_name : string; dr_grouping : string; dr_renotify_minutes : num; dr_is_default : bool; dr_channel_ids : list string;
  dr_environment_mode : string; dr_environments : list string
}.
Definition toDraft (p : NotificationProfile) : Draft := {|
  dr_name := np_name p; dr_grouping := np_grouping p; dr_renotify_minutes := Num (np_renotify_minutes p) 0;
  dr_is_default := np_is_default p; dr_channel_ids := np_channel_ids p;
  dr_environment_mode := np_environment_mode p ?? "any"; dr_environments := np_environments p ?? [] |}.
Definition NUL : string := String "000" "".
Definition draftsEqual (a b : Draft) : bool :=
  (dr_name a =s dr_name b) && (dr_grouping a =s dr_grouping b) && (num_cmp (dr_renotify_minutes a) (dr_renotify_minutes b) =? 0)%Z
  && Bool.eqb (dr_is_default a) (dr_is_default b) && (dr_environment_mode a =s dr_environment_mode b)
  && (join NUL (dr_environments a) =s join NUL (dr_environments b))
  && (length (dr_channel_ids a) =? length (dr_channel_ids b))%nat
  && forallb (fun id => bool_decide (id ∈ dr_channel_ids b)) (dr_channel_ids a).

Record Card := { cd_draft : Draft; cd_envText : string }.
Definition no_token (l : list string) : list string := List.filter (fun e => negb (e =s PRODUCTION_TOKEN)) l.
Definition opened_card (p : NotificationProfile) : Card :=
  {| cd_draft := toDraft p; cd_envText := join ", " (no_token (np_environments p ?? [])) |}.

Definition has_token (d : Draft) : bool := bool_decide (PRODUCTION_TOKEN ∈ dr_environments d).
Definition typed_names (s : string) : list string := List.filter truthy (trim <$> split "," s).
Definition toggle_id (id : string) (l : list string) : list string :=
  if bool_decide (id ∈ l) then List.filter (fun c => negb (c =s id)) l else l ++ [id].

Inductive Edit := SetName (s : string) | SetGrouping (s : string) | SetRenotify (n : num) | SetDefault (b : bool)
  | SetMode (m : string) | SetProduction (b : bool) | TypeEnvironments (s : string) | ToggleChannel (id : string).
Definition with_draft (c : Card) (d : Draft) : Card := {| cd_draft := d; cd_envText := cd_envText c |}.
Definition set_environments (l : list string) (d : Draft) : Draft := {|
  dr_name := dr_name d; dr_grouping := dr_grouping d; dr_renotify_minutes := dr_renotify_minutes d; dr_is_default := dr_is_default d;
  dr_channel_ids := dr_channel_ids d; dr_environment_mode := dr_environment_mode d; dr_environments := l |}.
Definition edit (e : Edit) (c : Card) : Card :=
  let d := cd_draft c in
  let draft name grouping renotify is_default channels mode := with_draft c {|
    dr_name := name; dr_grouping := grouping; dr_renotify_minutes := renotify; dr_is_default := is_default; dr_channel_ids := channels;
    dr_environment_mode := mode; dr_environments := dr_environments d |} in
  match e with
  | SetName s => draft s (dr_grouping d) (dr_renotify_minutes d) (dr_is_default d) (dr_channel_ids d) (dr_environment_mode d)
  | SetGrouping s => draft (dr_name d) s (dr_renotify_minutes d) (dr_is_default d) (dr_channel_ids d) (dr_environment_mode d)
  | SetRenotify n => draft (dr_name d) (dr_grouping d) n (dr_is_default d) (dr_channel_ids d) (dr_environment_mode d)
  | SetDefault b => draft (dr_name d) (dr_grouping d) (dr_renotify_minutes d) b (dr_channel_ids d) (dr_environment_mode d)
  | SetMode m => draft (dr_name d) (dr_grouping d) (dr_renotify_minutes d) (dr_is_default d) (dr_channel_ids d) m
  | SetProduction b =>
      with_draft c (set_environments ((if b then [PRODUCTION_TOKEN] else []) ++ no_token (dr_environments d)) d)
  | TypeEnvironments s => {|
      cd_draft := set_environments ((if has_token d then [PRODUCTION_TOKEN] else []) ++ typed_names s) d; cd_envText := s |}
  | ToggleChannel id =>
      draft (dr_name d) (dr_grouping d) (dr_renotify_minutes d) (dr_is_default d) (toggle_id id (dr_channel_ids d)) (dr_environment_mode d)
  end.

(** The body of the save; the channels go in a request of their own. *)
Definition saved_body (d : Draft) : NotificationProfileInput := {|
  ni_group_id := None;
  ni_name := (let n := trim (dr_name d) in if truthy n then n else "Untitled");
  ni_grouping := dr_grouping d; ni_renotify_minutes := Z.max 0 (floor_num (dr_renotify_minutes d)); ni_is_default := dr_is_default d;
  ni_channel_ids := None; ni_environment_mode := Some (dr_environment_mode d);
  ni_environments := Some (if dr_environment_mode d =s "any" then [] else dr_environments d) |}.
Definition added_body (groupId : option string) (shown : list NotificationProfile) : NotificationProfileInput := {|
  ni_group_id := groupId; ni_name := (match shown with [] => "Default" | _ => "New profile" end); ni_grouping := "per_check";
  ni_renotify_minutes := 0; ni_is_default := (match shown with [] => true | _ => false end); ni_channel_ids := Some [];
  ni_environment_mode := None; ni_environments := None |}.

(** ** The server *)

Record Profile := {
  pf_ID : string; pf_GroupID : option string; pf_Name : string; pf_Grouping : string; pf_RenotifyMinutes : Z; pf_IsDefault : bool;
  pf_ChannelIDs : list string; pf_EnvironmentMode : string; pf_Environments : list string
}.
Definition to_wire (p : Profile) : NotificationProfile := {|
  np_id := pf_ID p; np_group_id := pf_GroupID p; np_name := pf_Name p; np_grouping := pf_Grouping p;
  np_renotify_minutes := pf_RenotifyMinutes p; np_is_default := pf_IsDefault p; np_channel_ids := pf_ChannelIDs p;
  np_environment_mode := Some (pf_EnvironmentMode p); np_environments := Some (pf_Environments p) |}.

(** The profiles, the profile assigned to an integration, the channels there are. *)
Record Server := { profiles : list Profile; assigned : list (string * string); known : list string }.

Definition normalizeGrouping (g : string) : string := if g =s "per_integration" then g else "per_check".

Fixpoint filter_environments (seen l : list string) : list string :=
  match l with
  | [] => []
  | e :: l =>
      let e := TrimSpace e in
      if bool_decide (e ∈ seen) || (128 <? String.length e)%nat then filter_environments seen l
      else e :: filter_environments (e :: seen) l
  end.
Definition profileEnvironment (b : NotificationProfileInput) : string + (string * list string) :=
  let mode := TrimSpace (given (ni_environment_mode b)) in
  if (mode =s "") || (mode =s "any") then inr ("any", [])
  else if (mode =s "only") || (mode =s "except") then
    match filter_environments [] (ni_environments b ?? []) with
    | [] => inl "an environment filter needs at least one environment"
    | envs => inr (mode, envs)
    end
  else inl (tpl ["environment_mode must be "; in_quotes "any"; ", "; in_quotes "only"; " or "; in_quotes "except"]).

Definition group_eqb (a b : option string) : bool := bool_decide (a = b).
Definition undefault (p : Profile) : Profile := {|
  pf_ID := pf_ID p; pf_GroupID := pf_GroupID p; pf_Name := pf_Name p; pf_Grouping := pf_Grouping p; pf_RenotifyMinutes := pf_RenotifyMinutes p;
  pf_IsDefault := false; pf_ChannelIDs := pf_ChannelIDs p; pf_EnvironmentMode := pf_EnvironmentMode p; pf_Environments := pf_Environments p |}.
Definition clearOtherDefaults (group : option string) (keep : string) (l : list Profile) : list Profile :=
  (fun p => if group_eqb (pf_GroupID p) group && negb (pf_ID p =s keep) then undefault p else p) <$> l.
Definition set_profiles (l : list Profile) (st : Server) : Server := {| profiles := l; assigned := assigned st; known := known st |}.
Definition Get (st : Server) (id : string) : option Profile := List.find (fun p => pf_ID p =s id) (profiles st).

Definition Create (p : Profile) (st : Server) : Server :=
  let l := profiles st ++ [p] in
  set_profiles (if pf_IsDefault p then clearOtherDefaults (pf_GroupID p) (pf_ID p) l else l) st.
Definition updated (id : string) (name grouping : string) (renotify : Z) (is_default : bool) (mode : string) (envs : list string) (p : Profile) : Profile :=
  if pf_ID p =s id then {|
    pf_ID := pf_ID p; pf_GroupID := pf_GroupID p; pf_Name := name; pf_Grouping := grouping; pf_RenotifyMinutes := renotify;
    pf_IsDefault := is_default; pf_ChannelIDs := pf_ChannelIDs p; pf_EnvironmentMode := mode; pf_Environments := envs |}
  else p.
Definition with_channels (id : string) (ids : list string) (p : Profile) : Profile :=
  if pf_ID p =s id then {|
    pf_ID := pf_ID p; pf_GroupID := pf_GroupID p; pf_Name := pf_Name p; pf_Grouping := pf_Grouping p; pf_RenotifyMinutes := pf_RenotifyMinutes p;
    pf_IsDefault := pf_IsDefault p; pf_ChannelIDs := ids; pf_EnvironmentMode := pf_EnvironmentMode p; pf_Environments := pf_Environments p |}
  else p.
(** A channel that does not exist, or a profile that does not, violates a foreign key. *)
Definition SetChannels (id : string) (ids : list string) (st : Server) : option Server :=
  let ids := dedupe ids in
  if forallb (fun c => bool_decide (c ∈ known st)) ids && (negb (is_none (Get st id)) || bool_decide (ids = []))
  then Some (set_profiles (with_channels id ids <$> profiles st) st) else None.
Definition Delete (id : string) (st : Server) : option Server :=
  match Get st id with
  | Some _ => Some {| profiles := List.filter (fun p => negb (pf_ID p =s id)) (profiles st);
                      assigned := List.filter (fun a => negb (a.2 =s id)) (assigned st); known := known st |}
  | None => None
  end.
(** [id] is fresh. *)
Definition EnsureOrgDefault (id : string) (st : Server) : Server :=
  if List.existsb (fun p => group_eqb (pf_GroupID p) None) (profiles st) then st
  else set_profiles (profiles st ++ [{| pf_ID := id; pf_GroupID := None; pf_Name := "Default"; pf_Grouping := "per_check"; pf_RenotifyMinutes := 0;
                                        pf_IsDefault := true; pf_ChannelIDs := []; pf_EnvironmentMode := "any"; pf_Environments := [] |}]) st.
Definition AssignIntegrationProfile (integration : string) (profile : option string) (st : Server) : option Server :=
  match profile with
  | None => Some {| profiles := profiles st; assigned := List.filter (fun a => negb (a.1 =s integration)) (assigned st); known := known st |}
  | Some id =>
      if negb (is_none (Get st id))
      then Some {| profiles := profiles st; assigned := omap_set integration id (assigned st); known := known st |} else None
  end.

(** The deletion of a team takes its profiles with it, and an integration that had one
    is left without ([ON DELETE CASCADE], [ON DELETE SET NULL]). *)
Definition DeleteGroup (group : string) (st : Server) : Server :=
  let l := List.filter (fun p => negb (group_eqb (pf_GroupID p) (Some group))) (profiles st) in
  {| profiles := l; assigned := List.filter (fun a => bool_decide (a.2 ∈ pf_ID <$> l)) (assigned st); known := known st |}.

(** *** The import of a bundle

    [importProfiles] of internal/configtransfer/import.go writes rows of its own, past
    the store.  A bundle names teams and channels; here they are the identifiers the
    resolver finds for the names. *)
Record BundleProfile := {
  bp_Name : string; bp_Group : option string; bp_Grouping : string; bp_RenotifyMinutes : Z; bp_IsDefault : bool;
  bp_Channels : list string; bp_EnvironmentMode : string; bp_Environments : list string
}.
Definition imported (id : string) (b : BundleProfile) : Profile := {|
  pf_ID := id; pf_GroupID := bp_Group b; pf_Name := bp_Name b; pf_Grouping := bp_Grouping b; pf_RenotifyMinutes := bp_RenotifyMinutes b;
  pf_IsDefault := bp_IsDefault b; pf_ChannelIDs := dedupe (bp_Channels b); pf_EnvironmentMode := nonempty (bp_EnvironmentMode b) "any";
  pf_Environments := bp_Environments b |}.
(** What the schema says of a row: the vocabularies, the width of the interval and
    the foreign key of the channels. *)
Definition row_allowed (known : list string) (p : Profile) : bool :=
  bool_decide (pf_Grouping p ∈ ["per_check"; "per_integration"]) && bool_decide (pf_EnvironmentMode p ∈ ["any"; "only"; "except"]) &&
  ((- 2147483648 <=? pf_RenotifyMinutes p) && (pf_RenotifyMinutes p <=? 2147483647))%Z &&
  forallb (fun c => bool_decide (c ∈ known)) (pf_ChannelIDs p).
(** [upsert] on the name.  [id] is the identifier minted for a new row, or the row
    the query found: one of those of that name. *)
Definition importProfile (replace : bool) (id : string) (b : BundleProfile) (st : Server) : option Server :=
  let p := imported id b in
  if negb (row_allowed (known st) p) then None
  else match List.filter (fun q => pf_Name q =s bp_Name b) (profiles st) with
       | [] => if bool_decide (id ∈ pf_ID <$> profiles st) then None else Some (set_profiles (profiles st ++ [p]) st)
       | found => if replace && bool_decide (id ∈ pf_ID <$> found)
                  then Some (set_profiles ((fun q => if pf_ID q =s id then p else q) <$> profiles st) st) else None
       end.
(** All of the section, or nothing. *)
Fixpoint importProfiles (replace : bool) (l : list (string * BundleProfile)) (st : Server) : option Server :=
  match l with
  | [] => Some st
  | (id, b) :: l => match importProfile replace id b st with Some st => importProfiles replace l st | None => None end
  end.

Section handlers.
Context (uuid_Parse : string -> option string).

Definition parseUUIDs (l : list string) : string + list string :=
  err_map (fun s => match uuid_Parse s with Some id => inr id | None => inl (tpl ["invalid id: "; s]) end) l.

(** [id] is the fresh identifier. *)
Definition createNotificationProfile (id : string) (b : NotificationProfileInput) (st : Server) : (string + unit) * Server :=
  if TrimSpace (ni_name b) =s "" then (inl "name is required", st)
  else match profileEnvironment b with
       | inl m => (inl m, st)
       | inr (mode, envs) =>
           match parse_id uuid_Parse "group_id" (ni_group_id b) with
           | inl m => (inl m, st)
           | inr group =>
               let st := Create {| pf_ID := id; pf_GroupID := group; pf_Name := TrimSpace (ni_name b); pf_Grouping := normalizeGrouping (ni_grouping b);
                                   pf_RenotifyMinutes := Z.max 0 (ni_renotify_minutes b); pf_IsDefault := ni_is_default b; pf_ChannelIDs := [];
                                   pf_EnvironmentMode := mode; pf_Environments := envs |} st in
               match ni_channel_ids b ?? [] with
               | [] => (inr tt, st)
               | ids => match parseUUIDs ids with
                        | inl m => (inl m, st)
                        | inr ids => (inr tt, SetChannels id ids st ?? st)
                        end
               end
           end
       end.
Definition updateNotificationProfile (id : string) (b : NotificationProfileInput) (st : Server) : (string + unit) * Server :=
  match profileEnvironment b with
  | inl m => (inl m, st)
  | inr (mode, envs) =>
      match Get st id with
      | None => (inl "profile not found", st)
      | Some p =>
          let l := updated id (TrimSpace (ni_name b)) (normalizeGrouping (ni_grouping b)) (Z.max 0 (ni_renotify_minutes b)) (ni_is_default b) mode envs
                     <$> profiles st in
          (inr tt, set_profiles (if ni_is_default b then clearOtherDefaults (pf_GroupID p) id l else l) st)
      end
  end.
Definition setNotificationProfileChannels (id : string) (ids : list string) (st : Server) : (string + unit) * Server :=
  match parseUUIDs ids with
  | inl m => (inl m, st)
  | inr ids => match SetChannels id ids st with Some st => (inr tt, st) | None => (inl "save failed", st) end
  end.
End handlers.

(** ** Routing *)

Section routing.
Context (words : string -> list string) (roles : list (string * string)).

Definition productionWords : list string := ["prod"; "production"; "prd"; "live"].
Definition Suggest (env : string) : bool := List.existsb (fun w => bool_decide (w ∈ productionWords)) (words env).
Definition IsProduction (env : string) : bool :=
  if env =s "" then false
  else match omap_get env roles with Some r => r =s "production" | None => Suggest env end.
Definition Listed (l : list string) (env : string) : bool :=
  List.existsb (fun e => (e =s env) || ((e =s PRODUCTION_TOKEN) && IsProduction env)) l.
(** [env] is [None] for an alert that is not about an environment. *)
Definition AppliesTo (env : option string) (p : Profile) : bool :=
  match env with
  | None => true
  | Some env =>
      if pf_EnvironmentMode p =s "only" then Listed (pf_Environments p) env
      else if pf_EnvironmentMode p =s "except" then negb (Listed (pf_Environments p) env) else true
  end.

Definition defaultProfile (group : option string) (st : Server) : option Profile :=
  List.find (fun p => group_eqb (pf_GroupID p) group && pf_IsDefault p) (profiles st).
Definition or_next (env : option string) (p : option Profile) (next : option Profile) : option Profile :=
  match p with Some p => if AppliesTo env p then Some p else next | None => next end.

(** An assigned profile that is gone ends the search. *)
Definition ResolveProfile (st : Server) (env : option string) (integration group : option string) : option Profile :=
  let org := or_next env (defaultProfile None st) None in
  let team := match group with Some g => or_next env (defaultProfile (Some g) st) org | None => org end in
  match integration ≫= (fun i => omap_get i (assigned st)) with
  | Some id => match Get st id with Some p => or_next env (Some p) team | None => None end
  | None => team
  end.
Definition Resolve (st : Server) (env : option string) (explicit : list string) (integration group : option string) : list string :=
  match explicit with [] => (pf_ChannelIDs <$> ResolveProfile st env integration group) ?? [] | _ => explicit end.
Definition ResolveBehavior (st : Server) (env : option string) (integration group : option string) : string * Z :=
  match ResolveProfile st env integration group with
  | Some p => (nonempty (pf_Grouping p) "per_check", pf_RenotifyMinutes p)
  | None => ("per_check", 0%Z)
  end.
End routing.

(** ** The page *)

Record Page := { pg_group : option string; pg_shown : list NotificationProfile; pg_cards : list (string * Card); pg_error : option string }.
Definition of_scope (group : option string) (l : list NotificationProfile) : list NotificationProfile :=
  List.filter (fun p => group_eqb (np_group_id p) group) l.
(** The list is loaded again: the draft of every card is made anew, the text of
    its environments is not. *)
Definition card_of (cards : list (string * Card)) (p : NotificationProfile) : string * Card :=
  (np_id p, match omap_get (np_id p) cards with
            | Some c => {| cd_draft := toDraft p; cd_envText := cd_envText c |}
            | None => opened_card p
            end).
Definition reload (st : Server) (pg : Page) : Page :=
  let l := of_scope (pg_group pg) (to_wire <$> profiles st) in
  {| pg_group := pg_group pg; pg_shown := l; pg_cards := card_of (pg_cards pg) <$> l; pg_error := pg_error pg |}.
Definition page_opened (group : option string) (st : Server) : Page :=
  reload st {| pg_group := group; pg_shown := []; pg_cards := []; pg_error := None |}.
Definition page_failed (m : string) (pg : Page) : Page :=
  {| pg_group := pg_group pg; pg_shown := pg_shown pg; pg_cards := pg_cards pg; pg_error := Some m |}.
Definition edit_card (id : string) (e : Edit) (pg : Page) : Page :=
  {| pg_group := pg_group pg; pg_shown := pg_shown pg;
     pg_cards := (fun kc => if kc.1 =s id then (kc.1, edit e kc.2) else kc) <$> pg_cards pg; pg_error := pg_error pg |}.
(** [dirty]: the save button is there. *)
Definition dirty (pg : Page) (id : string) : bool :=
  match omap_get id (pg_cards pg), List.find (fun p => np_id p =s id) (pg_shown pg) with
  | Some c, Some p => negb (draftsEqual (cd_draft c) (toDraft p))
  | _, _ => false
  end.

Section saving.
Context (uuid_Parse : string -> option string).
Definition save (id : string) (w : Server * Page) : Server * Page :=
  let '(st, pg) := w in
  match omap_get id (pg_cards pg) with
  | None => w
  | Some c =>
      match updateNotificationProfile id (saved_body (cd_draft c)) st with
      | (inl m, st) => (st, page_failed m pg)
      | (inr _, st) =>
          match setNotificationProfileChannels uuid_Parse id (dr_channel_ids (cd_draft c)) st with
          | (inl m, st) => (st, page_failed m pg)
          | (inr _, st) => (st, reload st pg)
          end
      end
  end.
Definition remove (id : string) (w : Server * Page) : Server * Page :=
  match Delete id w.1 with
  | Some st => (st, reload st w.2)
  | None => (w.1, page_failed "profile not found" w.2)
  end.
Definition addProfile (fresh : string) (w : Server * Page) : Server * Page :=
  let pg := {| pg_group := pg_group w.2; pg_shown := pg_shown w.2; pg_cards := pg_cards w.2; pg_error := None |} in
  match createNotificationProfile uuid_Parse fresh (added_body (pg_group pg) (pg_shown pg)) w.1 with
  | (inl m, st) => (st, page_failed m pg)
  | (inr _, st) => (st, reload st pg)
  end.
End saving.

(** ** The profile of an integration *)

Record Select := { se_assigned : string; se_error : option string; se_profiles : list NotificationProfile }.
(** The change is on screen at once, whatever becomes of the request. *)
Definition choose (integration value : string) (w : Server * Select) : Server * Select :=
  let shown e := {| se_assigned := value; se_error := e; se_profiles := se_profiles w.2 |} in
  match AssignIntegrationProfile integration (if truthy value then Some value else None) w.1 with
  | Some st => (st, shown None)
  | None => (w.1, shown (Some "save failed"))
  end.
Definition scopeLabel (groupNames : list (string * string)) (p : NotificationProfile) : string :=
  if truthy_opt (np_group_id p) then omap_get (np_group_id p ?? "") groupNames ?? "Team" else "Org-wide".

(** ** What the server keeps *)

Definition ids (st : Server) : list string := pf_ID <$> profiles st.
Definition filter_ok (p : Profile) : Prop :=
  (pf_EnvironmentMode p = "any" /\ pf_Environments p = []) \/
  ((pf_EnvironmentMode p = "only" \/ pf_EnvironmentMode p = "except") /\ pf_Environments p <> [] /\ NoDup (pf_Environments p) /\
   Forall (fun e => TrimSpace e = e /\ (String.length e <= 128)%nat) (pf_Environments p)).
Record profile_ok (known : list string) (p : Profile) : Prop := {
  ok_grouping : pf_Grouping p = "per_check" \/ pf_Grouping p = "per_integration";
  ok_renotify : (0 <= pf_RenotifyMinutes p)%Z;
  ok_filter : filter_ok p;
  ok_channels : NoDup (pf_ChannelIDs p) /\ Forall (fun c => c ∈ known) (pf_ChannelIDs p)
}.
Record consistent (st : Server) : Prop := {
  co_ids : NoDup (ids st);
  co_default : forall p q, p ∈ profiles st -> q ∈ profiles st -> pf_IsDefault p = true -> pf_IsDefault q = true ->
    pf_GroupID p = pf_GroupID q -> p = q;
  co_assigned : forall i id, (i, id) ∈ assigned st -> id ∈ ids st;
  co_profiles : Forall (profile_ok (known st)) (profiles st)
}.

(** What holds of the rows whoever wrote them: the handlers or an import. *)
Record row_sound (known : list string) (p : Profile) : Prop := {
  rs_grouping : pf_Grouping p = "per_check" \/ pf_Grouping p = "per_integration";
  rs_mode : pf_EnvironmentMode p ∈ ["any"; "only"; "except"];
  rs_channels : NoDup (pf_ChannelIDs p) /\ Forall (fun c => c ∈ known) (pf_ChannelIDs p)
}.
Record sound (st : Server) : Prop := {
  so_ids : NoDup (ids st);
  so_assigned : forall i id, (i, id) ∈ assigned st -> id ∈ ids st;
  so_profiles : Forall (row_sound (known st)) (profiles st)
}.

(** Everything the handlers, the boot, the foreign keys and, when [imports], the
    import of a bundle do to the tables. *)
Section reachable.
Context (uuid_Parse : string -> option string) (imports : bool).
Inductive reachable : Server -> Prop :=
| re_empty : reachable {| profiles := []; assigned := []; known := [] |}
| re_boot id st : reachable st -> id ∉ ids st -> reachable (EnsureOrgDefault id st)
| re_create id b st : reachable st -> id ∉ ids st -> reachable (createNotificationProfile uuid_Parse id b st).2
| re_update id b st : reachable st -> reachable (updateNotificationProfile id b st).2
| re_channels id l st : reachable st -> reachable (setNotificationProfileChannels uuid_Parse id l st).2
| re_delete id st st' : reachable st -> Delete id st = Some st' -> reachable st'
| re_assign i o st st' : reachable st -> AssignIntegrationProfile i o st = Some st' -> reachable st'
| re_channel c st : reachable st -> reachable {| profiles := profiles st; assigned := assigned st; known := c :: known st |}
| re_no_channel c st : reachable st -> reachable {|
    profiles := (fun p => with_channels (pf_ID p) (List.filter (fun x => negb (x =s c)) (pf_ChannelIDs p)) p) <$> profiles st;
    assigned := assigned st; known := List.filter (fun x => negb (x =s c)) (known st) |}
| re_no_group g st : reachable st -> reachable (DeleteGroup g st)
| re_import replace l st st' : imports = true -> reachable st -> importProfiles replace l st = Some st' -> reachable st'.
End reachable.

Lemma Get_Some st id p : NoDup (ids st) -> Get st id = Some p <-> p ∈ profiles st /\ pf_ID p = id.
Proof.
  intros Hn. unfold Get, ids in *. induction (profiles st) as [|q l IH]; cbn; [split; [done|by intros [?%elem_of_nil ?]]|].
  apply NoDup_cons in Hn as [Hq Hn]. destruct (pf_ID q =s id) eqn:E; bool_prop.
  - split; [intros [= ->]; split; [by left|done]|]. intros [[->|Hp]%elem_of_cons He]; [done|]. exfalso. apply Hq. rewrite E, <- He. by apply list_elem_of_fmap_2.
  - rewrite (IH Hn), elem_of_cons. split; [by intros [? ?]; auto|]. intros [[->|?] ?]; [done|auto].
Qed.
Lemma Get_in st id : id ∈ ids st -> exists p, Get st id = Some p.
Proof.
  unfold Get, ids. induction (profiles st) as [|q l IH]; cbn; [by intros ?%elem_of_nil|]. intros [<-|H]%elem_of_cons.
  - rewrite String.eqb_refl. eauto.
  - destruct (pf_ID q =s id); eauto.
Qed.

Lemma undefault_ok k p : profile_ok k p -> profile_ok k (undefault p).
Proof. by intros [? ? ? ?]. Qed.
Lemma clear_ids g k l : pf_ID <$> clearOtherDefaults g k l = pf_ID <$> l.
Proof. unfold clearOtherDefaults. rewrite <- list_fmap_compose. apply list_fmap_ext. intros i p _. cbn. by destruct (_ && _). Qed.
Lemma clear_elem g k l p : p ∈ clearOtherDefaults g k l ->
  exists q, q ∈ l /\ (p = q /\ (pf_GroupID q <> g \/ pf_ID q = k) \/ p = undefault q).
Proof.
  intros (q & -> & Hq)%list_elem_of_fmap. exists q. split; [done|]. unfold group_eqb. destruct (_ && _) eqn:E; [by right|]. left. split; [done|].
  apply andb_false_iff in E as [E|E]; [left; by apply bool_decide_eq_false in E|right]. by apply negb_false_iff, String.eqb_eq in E.
Qed.
Lemma clear_ok k g id l : Forall (profile_ok k) l -> Forall (profile_ok k) (clearOtherDefaults g id l).
Proof.
  rewrite !Forall_forall. intros H p (q & Hq & [[-> _]| ->])%clear_elem; [by apply H|]. by apply undefault_ok, H.
Qed.

(** Clearing leaves one default in the group: the one that is kept. *)
Lemma clear_one g k l : NoDup (pf_ID <$> l) ->
  (forall p q, p ∈ l -> q ∈ l -> pf_IsDefault p = true -> pf_IsDefault q = true -> pf_GroupID p = pf_GroupID q -> pf_GroupID p <> g -> p = q) ->
  forall p q, p ∈ clearOtherDefaults g k l -> q ∈ clearOtherDefaults g k l -> pf_IsDefault p = true -> pf_IsDefault q = true ->
    pf_GroupID p = pf_GroupID q -> p = q.
Proof.
  intros Hn H p q (p' & Hp & [[-> Kp]| ->])%clear_elem (q' & Hq & [[-> Kq]| ->])%clear_elem Dp Dq E; try done.
  destruct (decide (pf_GroupID p' = g)) as [Eg|Eg]; [|by apply H].
  destruct Kp as [?|Kp]; [done|]. destruct Kq as [Kq|Kq]; [by rewrite <- E in Kq|].
  apply list_elem_of_lookup in Hp as [i Hi], Hq as [j Hj].
  assert (i = j) as ->; [|congruence].
  apply (NoDup_lookup (pf_ID <$> l) i j k Hn); rewrite list_lookup_fmap; [rewrite Hi|rewrite Hj]; cbn; congruence.
Qed.

Lemma normal_grouping g : normalizeGrouping g = "per_check" \/ normalizeGrouping g = "per_integration".
Proof. unfold normalizeGrouping. destruct (_ =s _) eqn:E; [right; by bool_prop|by left]. Qed.
Lemma filtered_environments seen l :
  NoDup (filter_environments seen l) /\ (forall e, e ∈ filter_environments seen l -> e ∉ seen /\ TrimSpace e = e /\ (String.length e <= 128)%nat).
Proof.
  revert seen. induction l as [|e l IH]; intros seen; cbn [filter_environments]; [split; [constructor|by intros ? ?%elem_of_nil]|].
  destruct (_ || _) eqn:E; [apply IH|]. apply orb_false_iff in E as [E1 E2]. apply bool_decide_eq_false in E1. apply Nat.ltb_ge in E2.
  destruct (IH (TrimSpace e :: seen)) as [H1 H2]. split.
  - constructor; [|done]. intros [H _]%H2. apply H. by left.
  - intros x [->|Hx]%elem_of_cons; [split; [done|]; split; [apply TrimSpace_idem|done]|]. apply H2 in Hx as [Hx ?]. split; [|done]. intros ?. apply Hx. by right.
Qed.
Lemma checked_filter b mode envs : profileEnvironment b = inr (mode, envs) ->
  (mode = "any" /\ envs = []) \/ ((mode = "only" \/ mode = "except") /\ envs <> [] /\ NoDup envs /\
    Forall (fun e => TrimSpace e = e /\ (String.length e <= 128)%nat) envs).
Proof.
  unfold profileEnvironment. intros H. destruct (_ || _); [injection H as <- <-; by left|]. destruct (_ || _) eqn:E; [|done].
  destruct (filter_environments _ _) as [|e l] eqn:Ef; [done|]. injection H as <- <-. right. split.
  - apply orb_true_iff in E as [E|E]; bool_prop; auto.
  - destruct (filtered_environments [] (ni_environments b ?? [])) as [H1 H2]. rewrite Ef in H1, H2. split; [done|]. split; [done|].
    apply Forall_forall. intros x Hx. by apply H2 in Hx as [_ ?].
Qed.

Lemma map_consistent st f : consistent st ->
  (forall p, pf_ID (f p) = pf_ID p /\ pf_IsDefault (f p) = pf_IsDefault p /\ pf_GroupID (f p) = pf_GroupID p) ->
  (forall p, p ∈ profiles st -> profile_ok (known st) (f p)) -> consistent (set_profiles (f <$> profiles st) st).
Proof.
  intros [H1 H2 H3 H4] Hf Hok. assert (Hi : ids (set_profiles (f <$> profiles st) st) = ids st).
  { unfold ids. cbn. rewrite <- list_fmap_compose. apply list_fmap_ext. intros i p _. apply Hf. }
  split; cbn [profiles assigned known set_profiles].
  - by rewrite Hi.
  - intros p q (p' & -> & Hp)%list_elem_of_fmap (q' & -> & Hq)%list_elem_of_fmap Dp Dq E.
    destruct (Hf p') as (_ & Dp' & Gp), (Hf q') as (_ & Dq' & Gq). rewrite Dp' in Dp. rewrite Dq' in Dq. rewrite Gp, Gq in E. by rewrite (H2 p' q').
  - intros i id Ha. rewrite Hi. by apply (H3 i).
  - apply Forall_forall. intros p (p' & -> & Hp)%list_elem_of_fmap. by apply Hok.
Qed.

Lemma cleared_consistent st g id l :
  NoDup (pf_ID <$> l) -> (forall i k, (i, k) ∈ assigned st -> k ∈ pf_ID <$> l) -> Forall (profile_ok (known st)) l ->
  (forall p q, p ∈ l -> q ∈ l -> pf_IsDefault p = true -> pf_IsDefault q = true -> pf_GroupID p = pf_GroupID q -> pf_GroupID p <> g -> p = q) ->
  consistent (set_profiles (clearOtherDefaults g id l) st).
Proof.
  intros H1 H3 H4 H2. split; cbn [profiles assigned known set_profiles ids].
  - unfold ids. cbn. by rewrite clear_ids.
  - by apply clear_one.
  - intros i k Ha. unfold ids. cbn. rewrite clear_ids. by apply (H3 i).
  - by apply clear_ok.
Qed.

Lemma Create_consistent p st : consistent st -> pf_ID p ∉ ids st -> profile_ok (known st) p -> consistent (Create p st).
Proof.
  intros [H1 H2 H3 H4] Hid Hp. unfold Create.
  assert (N : NoDup (pf_ID <$> (profiles st ++ [p]))).
  { rewrite fmap_app. apply NoDup_app. split; [done|]. split; [|apply NoDup_singleton]. cbn. intros x Hx ->%list_elem_of_singleton. done. }
  assert (A : forall i k, (i, k) ∈ assigned st -> k ∈ pf_ID <$> (profiles st ++ [p])).
  { intros i k Ha. rewrite fmap_app. apply elem_of_app. left. by apply (H3 i). }
  assert (O : Forall (profile_ok (known st)) (profiles st ++ [p])) by (apply Forall_app; split; [done|by constructor]).
  destruct (pf_IsDefault p) eqn:D.
  - apply cleared_consistent; try done. intros q r [Hq|Hq]%elem_of_app [Hr|Hr]%elem_of_app Dq Dr E Hg; try apply list_elem_of_singleton in Hq as ->;
      try apply list_elem_of_singleton in Hr as ->; try done; by apply H2.
  - split; cbn [profiles assigned known set_profiles]; try done.
    intros q r [Hq|Hq]%elem_of_app [Hr|Hr]%elem_of_app Dq Dr E; try apply list_elem_of_singleton in Hq as ->;
      try apply list_elem_of_singleton in Hr as ->; try congruence. by apply H2.
Qed.

Lemma SetChannels_consistent id l st st' : consistent st -> SetChannels id l st = Some st' -> consistent st'.
Proof.
  intros Hc. unfold SetChannels. destruct (_ && _) eqn:E; [|done]. intros [= <-]. apply andb_true_iff in E as [E _].
  rewrite forallb_forall in E. apply map_consistent; [done|intros p; unfold with_channels; by destruct (_ =s _)|].
  intros p Hp. pose proof (proj1 (Forall_forall _ _) (co_profiles _ Hc) p Hp) as [G R F C]. unfold with_channels. destruct (_ =s _); [|by split].
  split; try done. cbn [pf_ChannelIDs]. destruct (dedupe_from_spec [] l) as [N _]. split; [done|].
  apply Forall_forall. intros x Hx. by apply list_elem_of_In, E, bool_decide_eq_true in Hx.
Qed.

Lemma updated_consistent id b mode envs st p : consistent st -> profileEnvironment b = inr (mode, envs) -> Get st id = Some p ->
  let l := updated id (TrimSpace (ni_name b)) (normalizeGrouping (ni_grouping b)) (Z.max 0 (ni_renotify_minutes b)) (ni_is_default b) mode envs
             <$> profiles st in
  consistent (set_profiles (if ni_is_default b then clearOtherDefaults (pf_GroupID p) id l else l) st).
Proof.
  intros Hc Hb Hp l. apply Get_Some in Hp as [Hp Hid]; [|apply Hc]. pose proof Hc as [H1 H2 H3 H4].
  assert (I : pf_ID <$> l = ids st).
  { unfold l, ids. rewrite <- list_fmap_compose. apply list_fmap_ext. intros i q _. cbn. unfold updated. by destruct (_ =s _). }
  assert (O : Forall (profile_ok (known st)) l).
  { apply Forall_forall. intros q (q' & -> & Hq)%list_elem_of_fmap. pose proof (proj1 (Forall_forall _ _) H4 q' Hq) as [G R F C].
    unfold updated. destruct (_ =s _); [|by split]. split; [apply normal_grouping|cbn; lia| |done]. by apply (checked_filter b). }
  assert (U : forall q, q ∈ profiles st -> pf_ID q = id -> q = p).
  { intros q Hq Hi. assert (Hg : Get st id = Some q) by by apply Get_Some. assert (Hg' : Get st id = Some p) by by apply Get_Some. congruence. }
  assert (X : forall q, q ∈ l -> q ∈ profiles st /\ pf_ID q <> id \/ pf_ID q = id /\ pf_GroupID q = pf_GroupID p /\ pf_IsDefault q = ni_is_default b).
  { intros q (q' & -> & Hq)%list_elem_of_fmap. unfold updated. destruct (_ =s _) eqn:E; bool_prop; [right|by left]. rewrite (U q') by done. done. }
  destruct (ni_is_default b) eqn:D.
  - apply cleared_consistent; [by rewrite I|by rewrite I|done|].
    intros q r Hq Hr Dq Dr E Hg. apply X in Hq as [[Hq Nq]|(? & Gq & _)]; [|done]. apply X in Hr as [[Hr Nr]|(? & Gr & _)]; [|congruence]. by apply H2.
  - split; cbn [profiles assigned known set_profiles ids]; [unfold ids; cbn; by rewrite I| |intros i k Ha; unfold ids; cbn; rewrite I; by apply (H3 i)|done].
    intros q r Hq Hr Dq Dr E. apply X in Hq as [[Hq Nq]|(_ & _ & Nq)]; [|congruence]. apply X in Hr as [[Hr Nr]|(_ & _ & Nr)]; [|congruence]. by apply H2.
Qed.


Lemma Ensure_consistent id st : consistent st -> id ∉ ids st -> consistent (EnsureOrgDefault id st).
Proof.
  intros IH Hid. unfold EnsureOrgDefault. destruct (List.existsb _ _) eqn:E; [done|].
  set (p := {| pf_ID := id; pf_GroupID := _; pf_Name := _; pf_Grouping := _; pf_RenotifyMinutes := _; pf_IsDefault := _; pf_ChannelIDs := _;
               pf_EnvironmentMode := _; pf_Environments := _ |}).
  assert (Hp : profile_ok (known st) p) by (split; [by left|done|by left|split; constructor]).
  pose proof (Create_consistent p st IH Hid Hp) as [H1 _ H3 H4]. unfold Create in *. cbn [pf_IsDefault p] in *.
  assert (Hn : forall q, q ∈ profiles st -> pf_GroupID q <> None).
  { intros q Hq Hg. apply not_true_iff_false in E. apply E, List.existsb_exists. exists q. split; [by apply list_elem_of_In|]. by apply bool_decide_eq_true. }
  unfold ids in *. cbn [profiles assigned known set_profiles] in *. rewrite clear_ids in *. split; cbn [profiles assigned known set_profiles]; try done.
  - intros q r [Hq|Hq]%elem_of_app [Hr|Hr]%elem_of_app Dq Dr Eg; try apply list_elem_of_singleton in Hq as ->;
      try apply list_elem_of_singleton in Hr as ->; try done; [by apply (co_default _ IH)|by apply Hn in Hq|by apply Hn in Hr].
  - apply Forall_app. split; [apply IH|by constructor].
Qed.

Lemma Delete_consistent id st st' : consistent st -> Delete id st = Some st' -> consistent st'.
Proof.
  intros [H1 H2 H3 H4] Hd. unfold Delete in Hd. destruct (Get st id) as [p0|]; [|done]. injection Hd as <-. split; cbn [profiles assigned known].
  - by apply filterb_map_NoDup.
  - intros p q [Hp _]%filterb_elem [Hq _]%filterb_elem. by apply H2.
  - intros i k [Ha Hk]%filterb_elem. apply H3 in Ha as (p & -> & Hp)%list_elem_of_fmap. unfold ids. cbn. apply list_elem_of_fmap_2. by apply filterb_elem.
  - apply Forall_forall. intros p [Hp _]%filterb_elem. exact (proj1 (Forall_forall _ _) H4 p Hp).
Qed.

Lemma omap_set_pair (k v : string) m x : x ∈ omap_set k v m -> x = (k, v) \/ x ∈ m.
Proof.
  induction m as [|[k' v'] m IH]; cbn; [by intros ->%list_elem_of_singleton; left|].
  destruct (decide (k = k')) as [->|]; rewrite !elem_of_cons; [by intros [->|?]; auto|]. intros [->|[->|?]%IH]; auto.
Qed.
Lemma Assign_consistent i o st st' : consistent st -> AssignIntegrationProfile i o st = Some st' -> consistent st'.
Proof.
  intros [H1 H2 H3 H4]. destruct o as [k|]; cbn.
  - destruct (Get st k) as [p|] eqn:Ep; [|done]. intros [= <-]. apply Get_Some in Ep as [Hp Hk]; [|done]. split; cbn; try done.
    intros j l [[= -> ->]|Hj]%omap_set_pair; [|by apply (H3 j)]. rewrite <- Hk. by apply list_elem_of_fmap_2.
  - intros [= <-]. split; cbn; try done. intros j l [Hj _]%filterb_elem. by apply (H3 j).
Qed.

(** Rows and their channels under a change of the table of channels. *)
Lemma known_consistent f (k : list string) st : consistent st ->
  (forall p, pf_ID (f p) = pf_ID p /\ pf_IsDefault (f p) = pf_IsDefault p /\ pf_GroupID (f p) = pf_GroupID p) ->
  (forall p, profile_ok (known st) p -> profile_ok k (f p)) ->
  consistent {| profiles := f <$> profiles st; assigned := assigned st; known := k |}.
Proof.
  intros [H1 H2 H3 H4] Hf Hok.
  assert (Hi : pf_ID <$> (f <$> profiles st) = ids st) by (unfold ids; rewrite <- list_fmap_compose; apply list_fmap_ext; intros i p _; apply Hf).
  split; unfold ids; cbn [profiles assigned known]; rewrite ?Hi; try done.
  - intros p q (p' & -> & Hp)%list_elem_of_fmap (q' & -> & Hq)%list_elem_of_fmap Dp Dq E.
    destruct (Hf p') as (_ & Dp' & Gp), (Hf q') as (_ & Dq' & Gq). rewrite Dp' in Dp. rewrite Dq' in Dq. rewrite Gp, Gq in E. by rewrite (H2 p' q').
  - apply Forall_fmap. eapply Forall_impl; [exact H4|]. exact Hok.
Qed.
Lemma DropChannel_ok c k p : profile_ok k p ->
  profile_ok (List.filter (fun x => negb (x =s c)) k) (with_channels (pf_ID p) (List.filter (fun x => negb (x =s c)) (pf_ChannelIDs p)) p).
Proof.
  intros [G R F [N K]]. unfold with_channels. rewrite String.eqb_refl. split; try done. cbn. split; [by apply filterb_NoDup|].
  apply Forall_forall. intros x [Hx Hn]%filterb_elem. apply filterb_elem. split; [|done]. exact (proj1 (Forall_forall _ _) K x Hx).
Qed.

Lemma DeleteGroup_consistent g st : consistent st -> consistent (DeleteGroup g st).
Proof.
  intros [H1 H2 H3 H4]. split; cbn [profiles assigned known DeleteGroup].
  - by apply filterb_map_NoDup.
  - intros p q [Hp _]%filterb_elem [Hq _]%filterb_elem. by apply H2.
  - by intros i k [_ Ha%bool_decide_eq_true]%filterb_elem.
  - apply Forall_forall. intros p [Hp _]%filterb_elem. exact (proj1 (Forall_forall _ _) H4 p Hp).
Qed.

(** *** Rows the import wrote *)

Lemma ok_sound k p : profile_ok k p -> row_sound k p.
Proof. intros [G _ F C]. split; [done| |done]. destruct F as [[-> _]|[[-> | ->] _]]; by apply (bool_decide_unpack _). Qed.
Lemma allowed_sound k id b : row_allowed k (imported id b) = true -> row_sound k (imported id b).
Proof.
  unfold row_allowed. intros [[[H1 H2]%andb_true_iff _]%andb_true_iff H4]%andb_true_iff. apply bool_decide_eq_true in H1, H2. split; [|done|split].
  - rewrite !elem_of_cons, elem_of_nil in H1. tauto.
  - apply (dedupe_from_spec []).
  - apply Forall_forall. intros c Hc. rewrite forallb_forall in H4. by apply list_elem_of_In, H4, bool_decide_eq_true in Hc.
Qed.

Lemma sound_map f k st : sound st -> (forall p, pf_ID (f p) = pf_ID p) -> (forall p, p ∈ profiles st -> row_sound (known st) p -> row_sound k (f p)) ->
  sound {| profiles := f <$> profiles st; assigned := assigned st; known := k |}.
Proof.
  intros [H1 H2 H3] Hf Hok. assert (Hi : pf_ID <$> (f <$> profiles st) = ids st) by (unfold ids; rewrite <- list_fmap_compose; apply list_fmap_ext; intros i p _; apply Hf).
  split; unfold ids; cbn [profiles assigned known]; rewrite ?Hi; try done.
  rewrite Forall_forall in H3. apply Forall_forall. intros p (q & -> & Hq)%list_elem_of_fmap. by apply Hok, H3.
Qed.
Lemma sound_snoc p st : sound st -> pf_ID p ∉ ids st -> row_sound (known st) p -> sound (set_profiles (profiles st ++ [p]) st).
Proof.
  intros [H1 H2 H3] Hid Hp. split; unfold ids; cbn [profiles assigned known set_profiles].
  - rewrite fmap_app. apply NoDup_app. split; [done|]. split; [|apply NoDup_singleton]. by intros x Hx ->%list_elem_of_singleton.
  - intros i k Ha. rewrite fmap_app. apply elem_of_app. left. by apply (H2 i).
  - apply Forall_app. split; [done|by constructor].
Qed.
Lemma sound_clear g id st : sound st -> sound (set_profiles (clearOtherDefaults g id (profiles st)) st).
Proof. intros H. apply sound_map; [done|intros p; by destruct (_ && _)|]. intros p _ [G M C]. by destruct (_ && _). Qed.
Lemma sound_filter f st : sound st -> sound {| profiles := List.filter f (profiles st);
  assigned := List.filter (fun a => bool_decide (a.2 ∈ pf_ID <$> List.filter f (profiles st))) (assigned st); known := known st |}.
Proof.
  intros [H1 H2 H3]. split; cbn [profiles assigned known].
  - by apply filterb_map_NoDup.
  - by intros i k [_ Ha%bool_decide_eq_true]%filterb_elem.
  - rewrite Forall_forall in H3. apply Forall_forall. intros p [Hp _]%filterb_elem. by apply H3.
Qed.
Lemma sound_Create p st : sound st -> pf_ID p ∉ ids st -> profile_ok (known st) p -> sound (Create p st).
Proof.
  intros H Hid Hp. apply (sound_snoc p st) in H; [|done|by apply ok_sound]. unfold Create. destruct (pf_IsDefault p); [|done].
  exact (sound_clear _ _ _ H).
Qed.
Lemma sound_SetChannels id l st st' : sound st -> SetChannels id l st = Some st' -> sound st'.
Proof.
  intros H. unfold SetChannels. destruct (_ && _) eqn:E; [|done]. intros [= <-]. apply andb_true_iff in E as [E _]. rewrite forallb_forall in E.
  apply sound_map; [done|intros p; unfold with_channels; by destruct (_ =s _)|]. intros p _ [G M C]. unfold with_channels. destruct (_ =s _); [|by split].
  split; try done. split; [apply (dedupe_from_spec [])|]. apply Forall_forall. intros x Hx. by apply list_elem_of_In, E, bool_decide_eq_true in Hx.
Qed.
Lemma sound_update id b st : sound st -> sound (updateNotificationProfile id b st).2.
Proof.
  intros H. unfold updateNotificationProfile. destruct (profileEnvironment b) as [|[mode envs]] eqn:Eb; [done|]. destruct (Get st id) as [p|]; [|done]. cbn [snd].
  set (l := updated _ _ _ _ _ _ _ <$> _). assert (Hl : sound (set_profiles l st)).
  { apply sound_map; [done|intros q; unfold updated; by destruct (_ =s _)|]. intros q _ [G M C]. unfold updated. destruct (_ =s _); [|by split].
    split; [apply normal_grouping| |done]. cbn. apply checked_filter in Eb as [[-> _]|[[-> | ->] _]]; by apply (bool_decide_unpack _). }
  destruct (ni_is_default b); [|done]. exact (sound_clear _ _ _ Hl).
Qed.
Lemma sound_Delete id st st' : sound st -> Delete id st = Some st' -> sound st'.
Proof.
  intros [H1 H2 H3]. unfold Delete. destruct (Get st id) as [p0|]; [|done]. intros [= <-]. split; cbn [profiles assigned known].
  - by apply filterb_map_NoDup.
  - intros i k [Ha Hk]%filterb_elem. apply H2 in Ha as (p & -> & Hp)%list_elem_of_fmap. unfold ids. cbn. apply list_elem_of_fmap_2. by apply filterb_elem.
  - rewrite Forall_forall in H3. apply Forall_forall. intros p [Hp _]%filterb_elem. by apply H3.
Qed.
Lemma sound_Assign i o st st' : sound st -> AssignIntegrationProfile i o st = Some st' -> sound st'.
Proof.
  intros [H1 H2 H3]. destruct o as [k|]; cbn.
  - destruct (Get st k) as [p|] eqn:Ep; [|done]. intros [= <-]. apply Get_Some in Ep as [Hp Hk]; [|done]. split; cbn; try done.
    intros j l [[= -> ->]|Hj]%omap_set_pair; [|by apply (H2 j)]. rewrite <- Hk. by apply list_elem_of_fmap_2.
  - intros [= <-]. split; cbn; try done. intros j l [Hj _]%filterb_elem. by apply (H2 j).
Qed.
Lemma sound_import replace l st st' : sound st -> importProfiles replace l st = Some st' -> sound st'.
Proof.
  revert st. induction l as [|[id b] l IH]; intros st H; cbn [importProfiles]; [by intros [= <-]|].
  destruct (importProfile replace id b st) as [st1|] eqn:E; [|done]. apply IH. unfold importProfile in E. cbv zeta in E.
  destruct (row_allowed _ _) eqn:Er; [|done]. apply allowed_sound in Er. cbn [negb] in E. destruct (List.filter _ _).
  - case_bool_decide; [done|]. injection E as <-. by apply sound_snoc.
  - destruct (_ && _); [|done]. injection E as <-. apply sound_map; [done| |].
    + intros q. destruct (pf_ID q =s id) eqn:Eq; [by bool_prop|done].
    + intros q _ Hq. by destruct (_ =s _).
Qed.
Lemma created_ok id g b mode envs k : profileEnvironment b = inr (mode, envs) ->
  profile_ok k {| pf_ID := id; pf_GroupID := g; pf_Name := TrimSpace (ni_name b); pf_Grouping := normalizeGrouping (ni_grouping b);
    pf_RenotifyMinutes := Z.max 0 (ni_renotify_minutes b); pf_IsDefault := ni_is_default b; pf_ChannelIDs := []; pf_EnvironmentMode := mode;
    pf_Environments := envs |}.
Proof. intros Eb. split; [apply normal_grouping|cbn; lia|by apply (checked_filter b)|split; constructor]. Qed.

Lemma reachable_sound uuid_Parse imports st : reachable uuid_Parse imports st -> sound st.
Proof.
  induction 1 as [|id st _ IH Hid|id b st _ IH Hid|id b st _ IH|id l st _ IH|id st st' _ IH Hd|i o st st' _ IH Ha|c st _ IH|c st _ IH|g st _ IH
    |replace l st st' _ _ IH Hi].
  - split; cbn; [constructor|by intros ? ? ?%elem_of_nil|constructor].
  - unfold EnsureOrgDefault. destruct (List.existsb _ _); [done|]. apply sound_snoc; [done|done|]. split; [by left|by apply (bool_decide_unpack _)|split; constructor].
  - unfold createNotificationProfile. destruct (_ =s ""); [done|]. destruct (profileEnvironment b) as [|[mode envs]] eqn:Eb; [done|].
    destruct (parse_id _ _ _) as [|g]; [done|]. set (p := {| pf_ID := id; pf_GroupID := g; pf_Name := _; pf_Grouping := _; pf_RenotifyMinutes := _;
      pf_IsDefault := _; pf_ChannelIDs := _; pf_EnvironmentMode := _; pf_Environments := _ |}).
    assert (Hp : sound (Create p st)) by (apply sound_Create; [done|done|by apply created_ok]).
    destruct (_ ?? []) as [|c cs]; [done|]. destruct (parseUUIDs _ _) as [|l]; [done|]. cbn [snd].
    destruct (SetChannels id l _) as [st'|] eqn:Es; [|done]. by apply (sound_SetChannels id l (Create p st)).
  - by apply sound_update.
  - unfold setNotificationProfileChannels. destruct (parseUUIDs _ _) as [|l']; [done|]. destruct (SetChannels id l' st) as [st'|] eqn:Es; [|done].
    by apply (sound_SetChannels id l' st).
  - by apply (sound_Delete id st).
  - by apply (sound_Assign i o st).
  - rewrite <- (list_fmap_id (profiles st)). apply sound_map; [done|done|]. intros p _ [G M [N K]]. split; try done. split; [done|].
    eapply Forall_impl; [exact K|]. intros x ?. by right.
  - apply (sound_map (fun p => with_channels (pf_ID p) _ p)); [done|intros p; unfold with_channels; by rewrite String.eqb_refl|].
    intros p _ [G M [N K]]. unfold with_channels. rewrite String.eqb_refl. split; try done. cbn. split; [by apply filterb_NoDup|].
    apply Forall_forall. intros x [Hx Hn]%filterb_elem. apply filterb_elem. split; [|done]. exact (proj1 (Forall_forall _ _) K x Hx).
  - by apply sound_filter.
  - by apply (sound_import replace l st).
Qed.

Lemma profiles_reachable_consistent uuid_Parse st : reachable uuid_Parse false st -> consistent st.
Proof.
  induction 1 as [|id st _ IH Hid|id b st _ IH Hid|id b st _ IH|id l st _ IH|id st st' _ IH Hd|i o st st' _ IH Ha|c st _ IH|c st _ IH|g st _ IH
    |replace l st st' Hf]; [..|done].
  - split; cbn; [constructor|by intros ? ? ?%elem_of_nil|by intros ? ? ?%elem_of_nil|constructor].
  - by apply Ensure_consistent.
  - unfold createNotificationProfile. destruct (_ =s ""); [done|]. destruct (profileEnvironment b) as [|[mode envs]] eqn:Eb; [done|].
    destruct (parse_id _ _ _) as [|g]; [done|]. set (p := {| pf_ID := id; pf_GroupID := g; pf_Name := _; pf_Grouping := _; pf_RenotifyMinutes := _;
      pf_IsDefault := _; pf_ChannelIDs := _; pf_EnvironmentMode := _; pf_Environments := _ |}).
    assert (Hp : consistent (Create p st)).
    { apply Create_consistent; [done|done|]. split; [apply normal_grouping|cbn; lia|by apply (checked_filter b)|split; constructor]. }
    destruct (_ ?? []) as [|c cs]; [done|]. destruct (parseUUIDs _ _) as [|l]; [done|]. cbn [snd].
    destruct (SetChannels id l _) as [st'|] eqn:Es; [|done]. by apply (SetChannels_consistent id l (Create p st)).
  - unfold updateNotificationProfile. destruct (profileEnvironment b) as [|[mode envs]] eqn:Eb; [done|]. destruct (Get st id) as [p|] eqn:Ep; [|done].
    by apply updated_consistent.
  - unfold setNotificationProfileChannels. destruct (parseUUIDs _ _) as [|l']; [done|]. destruct (SetChannels id l' st) as [st'|] eqn:Es; [|done].
    by apply (SetChannels_consistent id l' st).
  - by apply (Delete_consistent id st).
  - by apply (Assign_consistent i o st).
  - rewrite <- (list_fmap_id (profiles st)). apply known_consistent; [done|done|]. intros p [G R F [N K]]. split; try done. split; [done|].
    eapply Forall_impl; [exact K|]. intros x ?. by right.
  - apply (known_consistent (fun p => with_channels (pf_ID p) _ p)); [done|intros p; unfold with_channels; by rewrite String.eqb_refl|]. intros p. apply DropChannel_ok.
  - by apply DeleteGroup_consistent.
Qed.

(** C12. Whatever happens to the tables, in any order, the requests of the pages, boots,
    deletions of teams and channels and imports of bundles: profiles have distinct
    identifiers, a grouping and a mode of the vocabulary and distinct channels that
    exist, and an integration's profile exists.  As long as no bundle is imported, a
    team and the organization also have at most one default profile each, no interval
    is negative and every filter names something or nothing. *)
Theorem server_stays_consistent uuid_Parse imports st :
  reachable uuid_Parse imports st -> sound st /\ (imports = false -> consistent st).
Proof. intros H. split; [by eapply reachable_sound|]. intros ->. by eapply profiles_reachable_consistent. Qed.

(** A default that is saved is the only one of its scope, an import before it or not. *)
Theorem saved_default_is_only uuid_Parse imports id b st st' p :
  reachable uuid_Parse imports st -> updateNotificationProfile id b st = (inr tt, st') -> ni_is_default b = true -> Get st id = Some p ->
  forall q, q ∈ profiles st' -> pf_GroupID q = pf_GroupID p -> pf_IsDefault q = true <-> pf_ID q = id.
Proof.
  intros Hr Hu Hd Hp q Hq Hg. apply reachable_sound in Hr. pose proof (proj1 (Get_Some _ _ _ (so_ids _ Hr)) Hp) as [Hp' Hid].
  unfold updateNotificationProfile in Hu. destruct (profileEnvironment b) as [|[mode envs]]; [done|]. rewrite Hp, Hd in Hu. injection Hu as <-.
  cbn [profiles set_profiles] in Hq. unfold clearOtherDefaults in Hq.
  apply list_elem_of_fmap in Hq as (q1 & -> & (q2 & -> & Hq)%list_elem_of_fmap).
  unfold updated, group_eqb in *. destruct (pf_ID q2 =s id) eqn:E; bool_prop.
  - cbn [pf_ID pf_GroupID] in *. rewrite E, String.eqb_refl, andb_false_r in *. by split.
  - rewrite (proj2 (String.eqb_neq _ _) E) in *. case_bool_decide as Eg; cbn [andb negb undefault pf_IsDefault pf_ID pf_GroupID] in *; [|done]. by split.
Qed.

(** ** Where an alert goes *)

(** The rungs of the ladder: the profile assigned to the integration, the default of
    the team, that of the organization. *)
Definition rung (st : Server) (integration group : option string) (n : nat) (p : Profile) : Prop :=
  p ∈ profiles st /\
  match n with
  | 0 => exists i, integration = Some i /\ omap_get i (assigned st) = Some (pf_ID p)
  | 1 => group <> None /\ pf_GroupID p = group /\ pf_IsDefault p = true
  | 2 => pf_GroupID p = None /\ pf_IsDefault p = true
  | _ => False
  end.

Lemma default_is st g p : consistent st -> defaultProfile g st = Some p <-> p ∈ profiles st /\ pf_GroupID p = g /\ pf_IsDefault p = true.
Proof.
  intros Hc. unfold defaultProfile. split.
  - intros [Hin H]%find_Some_elem. apply andb_true_iff in H as [H ?]. by apply bool_decide_eq_true in H.
  - intros (Hp & Hg & Hd). destruct (List.find _ _) as [q|] eqn:E.
    + apply find_Some_elem in E as [Hq H]. apply andb_true_iff in H as [H Hd']. apply bool_decide_eq_true in H. f_equal.
      apply (co_default _ Hc); congruence.
    + apply list_elem_of_In in Hp. eapply List.find_none in E; [|exact Hp]. cbn in E. unfold group_eqb in E. by rewrite bool_decide_eq_true_2, Hd in E.
Qed.
Lemma rung_unique st i g n p q : consistent st -> rung st i g n p -> rung st i g n q -> p = q.
Proof.
  intros Hc [Hp Pp] [Hq Pq]. destruct n as [|[|[|n]]]; [| | |done].
  2: { destruct Pp as (_ & ? & ?), Pq as (_ & ? & ?). apply (co_default _ Hc); congruence. }
  2: { destruct Pp as [? ?], Pq as [? ?]. apply (co_default _ Hc); congruence. }
  destruct Pp as (j & -> & Hj), Pq as (k & [= <-] & Hk). rewrite Hj in Hk. injection Hk as Hk.
  assert (Gp : Get st (pf_ID p) = Some p) by (apply Get_Some; [apply Hc|done]).
  assert (Gq : Get st (pf_ID p) = Some q) by (apply Get_Some; [apply Hc|by rewrite Hk]). congruence.
Qed.

Section routed.
Context (words : string -> list string) (roles : list (string * string)).
Notation AppliesTo := (AppliesTo words roles).

(** One rung: its profile when there is one that applies, else the rest of the ladder. *)
Lemma one_rung (P : Profile -> Prop) env (o next : option Profile) p :
  (forall q, o = Some q <-> P q) ->
  or_next words roles env o next = Some p <-> (P p /\ AppliesTo env p = true) \/ ((forall q, P q -> AppliesTo env q = false) /\ next = Some p).
Proof.
  intros HP. unfold or_next. destruct o as [q|].
  - assert (Pq : P q) by by apply HP. assert (U : forall r, P r -> r = q) by (intros r Hr; apply HP in Hr; congruence).
    destruct (Profiles.AppliesTo words roles env q) eqn:E.
    + split; [by intros [= <-]; left|]. intros [[Hp _]|[Hn _]]; [by rewrite (U p)|]. by rewrite (Hn q) in E.
    + split; [intros ->; right; split; [by intros r ->%U|done]|]. intros [[Hp Hap]|[_ ?]]; [|done]. by rewrite (U p), E in Hap.
  - split; [intros ->; right; split; [by intros q Hq%HP|done]|]. by intros [[Hp%HP _]|[_ ?]].
Qed.

(** C22. An alert goes by the most specific profile that applies to its environment: the
    one assigned to its integration, else the default of the team that owns the
    rule, else the default of the organization, each of which there is at most one. *)
Theorem routed_most_specific_first st env integration group p :
  consistent st ->
  ResolveProfile words roles st env integration group = Some p <->
  exists n, rung st integration group n p /\ AppliesTo env p = true /\
    forall m q, (m < n)%nat -> rung st integration group m q -> AppliesTo env q = false.
Proof.
  intros Hc. unfold ResolveProfile. set (org := or_next _ _ env (defaultProfile None st) None).
  set (team := match group with Some g => _ | None => org end).
  assert (Horg : org = Some p <-> rung st integration group 2 p /\ AppliesTo env p = true).
  { unfold org. rewrite (one_rung (rung st integration group 2)); [naive_solver|]. intros q. by rewrite default_is. }
  assert (Hteam : team = Some p <-> (rung st integration group 1 p /\ AppliesTo env p = true) \/
    ((forall q, rung st integration group 1 q -> AppliesTo env q = false) /\ org = Some p)).
  { unfold team. destruct group as [g|].
    - apply one_rung. intros q. rewrite default_is by done. unfold rung. naive_solver.
    - unfold rung. naive_solver. }
  assert (Hall : (match integration ≫= (fun i => omap_get i (assigned st)) with
      | Some id => match Get st id with Some q => or_next words roles env (Some q) team | None => None end | None => team end) = Some p <->
    (rung st integration group 0 p /\ AppliesTo env p = true) \/ ((forall q, rung st integration group 0 q -> AppliesTo env q = false) /\ team = Some p)).
  { destruct (integration ≫= _) as [id|] eqn:Ei.
    - destruct integration as [i|]; [|done]. cbn in Ei. pose proof Ei as Hin. apply omap_get_elem in Hin. apply (co_assigned _ Hc) in Hin.
      apply Get_in in Hin as [q0 Hq0]. rewrite Hq0. apply one_rung. intros q. split.
      + intros [= <-]. apply Get_Some in Hq0 as [Hq <-]; [|apply Hc]. split; [done|]. eauto.
      + intros [Hq (j & [= <-] & Hj)]. rewrite Ei in Hj. injection Hj as ->. rewrite <- Hq0. apply Get_Some; [apply Hc|done].
    - assert (N : forall q, ~ rung st integration group 0 q) by (intros q [_ (i & -> & Hi)]; cbn in Ei; congruence). naive_solver. }
  rewrite Hall, Hteam, Horg. split.
  - intros [[H A]|[N0 [[H A]|[N1 [H A]]]]]; [exists 0|exists 1|exists 2]; (split; [exact H|split; [exact A|]]); intros [|[|m]] q Hm; auto with lia.
  - intros (n & H & A & N). destruct n as [|[|[|n]]]; [by left|right; split; [intros q; apply N; lia|by left]| |by destruct H].
    right. split; [intros q; apply N; lia|]. right. split; [intros q; apply N; lia|done].
Qed.
End routed.

(** "Production pages, the rest posts": a profile for production environments on the
    integration, over a default for every environment. *)
Corollary production_apart words roles st i p q env :
  consistent st -> rung st (Some i) None 0 p -> rung st (Some i) None 2 q ->
  pf_EnvironmentMode p = "only" -> pf_Environments p = [PRODUCTION_TOKEN] -> pf_EnvironmentMode q = "any" -> env <> PRODUCTION_TOKEN ->
  Resolve words roles st (Some env) [] (Some i) None = if IsProduction words roles env then pf_ChannelIDs p else pf_ChannelIDs q.
Proof.
  intros Hc Hp Hq Hm He Hany Hne.
  assert (A : AppliesTo words roles (Some env) p = IsProduction words roles env).
  { unfold AppliesTo, Listed. rewrite Hm, He. change ("only" =s "only") with true. cbv iota. cbn [List.existsb].
    rewrite String.eqb_refl, (proj2 (String.eqb_neq _ _)) by done. cbn [orb andb]. by rewrite orb_false_r. }
  unfold Resolve. destruct (IsProduction words roles env) eqn:E.
  - rewrite (proj2 (routed_most_specific_first words roles st (Some env) (Some i) None p Hc)); [done|]. exists 0. split; [done|]. split; [done|lia].
  - rewrite (proj2 (routed_most_specific_first words roles st (Some env) (Some i) None q Hc)); [done|]. exists 2. split; [done|].
    split; [unfold AppliesTo; by rewrite Hany|]. intros [|[|m]] r Hm' Hr; [|by destruct Hr as (_ & ? & _)|lia].
    by rewrite (rung_unique st (Some i) None 0 r p).
Qed.

(** ** Saving a card *)

Lemma updated_same st p : consistent st -> p ∈ profiles st ->
  updated (pf_ID p) (pf_Name p) (pf_Grouping p) (pf_RenotifyMinutes p) (pf_IsDefault p) (pf_EnvironmentMode p) (pf_Environments p) <$> profiles st
  = profiles st.
Proof.
  intros Hc Hp. rewrite <- (list_fmap_id (profiles st)) at 2. apply list_fmap_ext. intros i q Hq. apply list_elem_of_lookup_2 in Hq. unfold updated.
  destruct (_ =s _) eqn:E; [|done]. bool_prop. assert (Some q = Some p) as [= ->]; [|by destruct p].
  rewrite <- (proj2 (Get_Some st (pf_ID p) q (co_ids _ Hc))) by done. apply Get_Some; [apply Hc|done].
Qed.
Lemma cleared_same st p : consistent st -> p ∈ profiles st -> pf_IsDefault p = true ->
  clearOtherDefaults (pf_GroupID p) (pf_ID p) (profiles st) = profiles st.
Proof.
  intros Hc Hp Hd. unfold clearOtherDefaults. rewrite <- (list_fmap_id (profiles st)) at 2. apply list_fmap_ext. intros i q Hq. apply list_elem_of_lookup_2 in Hq.
  destruct (_ && _) eqn:E; [|done]. apply andb_true_iff in E as [Eg Ek]. apply bool_decide_eq_true in Eg. apply negb_true_iff, String.eqb_neq in Ek.
  destruct (pf_IsDefault q) eqn:Dq; [|destruct q; cbn in *; by subst]. exfalso. apply Ek. by rewrite (co_default _ Hc q p).
Qed.
Lemma channels_same st p : consistent st -> p ∈ profiles st -> SetChannels (pf_ID p) (pf_ChannelIDs p) st = Some st.
Proof.
  intros Hc Hp. pose proof (proj1 (Forall_forall _ _) (co_profiles _ Hc) p Hp) as [_ _ _ [N K]]. unfold SetChannels, dedupe.
  rewrite dedupe_from_id by (try done; set_solver). rewrite (proj2 (Get_Some st (pf_ID p) p (co_ids _ Hc))) by done. cbn [is_none negb orb].
  rewrite (proj2 (forallb_forall _ _)); [|intros c Hin%list_elem_of_In; apply bool_decide_eq_true; by eapply Forall_forall in K].
  cbn [andb]. f_equal. destruct st as [l a k]. unfold set_profiles. cbn [profiles assigned known] in *. f_equal.
  rewrite <- (list_fmap_id l) at 2. apply list_fmap_ext. intros i q Hq. apply list_elem_of_lookup_2 in Hq. unfold with_channels.
  destruct (_ =s _) eqn:E; [|done]. bool_prop. assert (Some q = Some p) as [= ->]; [|by destruct p].
  rewrite <- (proj2 (Get_Some {| profiles := l; assigned := a; known := k |} (pf_ID p) q (co_ids _ Hc))) by done. apply Get_Some; [apply Hc|done].
Qed.
Lemma filtered_same l seen : NoDup l -> (forall e, e ∈ l -> e ∉ seen /\ TrimSpace e = e /\ (String.length e <= 128)%nat) -> filter_environments seen l = l.
Proof.
  revert seen. induction l as [|e l IH]; intros seen Hn H; cbn [filter_environments]; [done|]. apply NoDup_cons in Hn as [He Hn].
  destruct (H e ltac:(by left)) as (H1 & H2 & H3). rewrite H2, bool_decide_eq_false_2 by done. rewrite (proj2 (Nat.ltb_ge _ _)) by done. cbn [orb].
  f_equal. apply IH; [done|]. intros x Hx. destruct (H x ltac:(by right)) as (? & ? & ?). split; [|done]. intros [->|?]%elem_of_cons; done.
Qed.
Lemma filter_same p b : filter_ok p -> ni_environment_mode b = Some (pf_EnvironmentMode p) -> ni_environments b = Some (pf_Environments p) ->
  profileEnvironment b = inr (pf_EnvironmentMode p, pf_Environments p).
Proof.
  intros Hf Hm He. unfold profileEnvironment. rewrite Hm, He. destruct Hf as [[-> ->]|([E|E] & Hne & Hn & Ht)]; [done|..]; rewrite E.
  all: unfold default, id, given; cbn [default].
  1: change (TrimSpace "only") with "only". 2: change (TrimSpace "except") with "except".
  all: cbn [String.eqb orb Ascii.eqb Bool.eqb]; rewrite filtered_same; [by destruct (pf_Environments p)|done|].
  all: intros e Hin; split; [by apply not_elem_of_nil|]; by eapply Forall_forall in Ht.
Qed.

Lemma find_card st group p : consistent st -> p ∈ profiles st -> pf_GroupID p = group ->
  omap_get (pf_ID p) (pg_cards (page_opened group st)) = Some (opened_card (to_wire p)).
Proof.
  intros Hc Hp Hg. unfold page_opened, reload. cbn [pg_cards pg_group]. apply omap_elem_get.
  - unfold omap_keys. rewrite <- list_fmap_compose. unfold of_scope. cbn.
    change ((fst ∘ card_of []) <$> List.filter (fun q => group_eqb (np_group_id q) group) (to_wire <$> profiles st))
      with (np_id <$> List.filter (fun q => group_eqb (np_group_id q) group) (to_wire <$> profiles st)).
    apply filterb_map_NoDup. rewrite <- list_fmap_compose. exact (co_ids _ Hc).
  - change (pf_ID p, opened_card (to_wire p)) with (card_of [] (to_wire p)). apply list_elem_of_fmap_2, filterb_elem. split; [by apply list_elem_of_fmap_2|].
    by apply bool_decide_eq_true.
Qed.

(** A page loaded again where nothing changed. *)
Lemma reload_same st group : consistent st -> reload st (page_opened group st) = page_opened group st.
Proof.
  intros Hc. unfold reload at 1. cbn [pg_group page_opened pg_cards pg_error reload]. unfold page_opened, reload. cbn [pg_group pg_cards pg_error]. f_equal.
  apply list_fmap_ext. intros i q Hq. apply list_elem_of_lookup_2 in Hq. apply filterb_elem in Hq as [(p & -> & Hp)%list_elem_of_fmap Hg].
  apply bool_decide_eq_true in Hg. unfold card_of at 1. pose proof (find_card st group p Hc Hp Hg) as Hf. cbn in Hf |- *. by rewrite Hf.
Qed.

(** Saving a card without a change keeps the tables and the page, for every profile
    with a name; the default, the filter and the channels as well. *)
Theorem untouched_save_keeps_profile uuid_Parse st group p :
  reachable uuid_Parse false st -> p ∈ profiles st -> pf_GroupID p = group ->
  trim (pf_Name p) = pf_Name p -> TrimSpace (pf_Name p) = pf_Name p -> pf_Name p <> "" ->
  Forall (fun c => uuid_Parse c = Some c) (pf_ChannelIDs p) ->
  save uuid_Parse (pf_ID p) (st, page_opened group st) = (st, page_opened group st).
Proof.
  intros Hr Hp Hg Ht Ht' Hne Hu. pose proof (profiles_reachable_consistent _ _ Hr) as Hc.
  pose proof (proj1 (Forall_forall _ _) (co_profiles _ Hc) p Hp) as [G R F C]. unfold save. rewrite (find_card st group p) by done. cbn [cd_draft opened_card].
  assert (E : updateNotificationProfile (pf_ID p) (saved_body (toDraft (to_wire p))) st = (inr tt, st)).
  { unfold updateNotificationProfile. rewrite (filter_same p); [|done|done|].
    2: { cbn. destruct F as [[E1 E2]|([E1|E1] & _)]; rewrite E1; [by rewrite E2|done|done]. }
    rewrite (proj2 (Get_Some st (pf_ID p) p (co_ids _ Hc))) by done. cbn [saved_body ni_name ni_grouping ni_renotify_minutes ni_is_default toDraft to_wire
      dr_name dr_grouping dr_renotify_minutes dr_is_default np_name np_grouping np_renotify_minutes np_is_default].
    rewrite Ht. assert (Et : truthy (pf_Name p) = true) by (by destruct (pf_Name p)). rewrite Et, Ht'.
    assert (EG : normalizeGrouping (pf_Grouping p) = pf_Grouping p) by by destruct G as [->| ->].
    assert (ER : Z.max 0 (Z.max 0 (floor_num (Num (pf_RenotifyMinutes p) 0))) = pf_RenotifyMinutes p).
    { unfold floor_num. cbn [n_mant n_scale]. change (10 ^ Z.of_nat 0)%Z with 1%Z. rewrite Z.div_1_r. lia. }
    rewrite EG, ER, updated_same by done. f_equal. destruct (pf_IsDefault p) eqn:D; [rewrite cleared_same by done|]; by destruct st. }
  rewrite E. unfold setNotificationProfileChannels, parseUUIDs. cbn [dr_channel_ids toDraft to_wire np_channel_ids].
  rewrite err_map_id; [|eapply Forall_impl; [exact Hu|]; intros c Hcc; cbn; by rewrite Hcc]. rewrite channels_same by done. by rewrite reload_same.
Qed.

Lemma filter_empty l seen : (forall e, e ∈ l -> TrimSpace e ∉ seen) ->
  filter_environments seen l = [] <-> forall e, e ∈ l -> (128 < String.length (TrimSpace e))%nat.
Proof.
  revert seen. induction l as [|e l IH]; intros seen H; cbn [filter_environments]; [split; [by intros _ ? ?%elem_of_nil|done]|].
  rewrite bool_decide_eq_false_2 by (apply H; by left). cbn [orb]. destruct (Nat.ltb_spec 128 (String.length (TrimSpace e))) as [Hl|Hl].
  - rewrite IH; [|intros x Hx; apply H; by right]. split; [intros He x [->|Hx]%elem_of_cons; [done|by apply He]|]. intros He x Hx. apply He. by right.
  - split; [done|]. intros He. specialize (He e ltac:(by left)). lia.
Qed.

(** A save of a card with one of the three modes is taken exactly when the mode is
    "every environment" or some environment of at most 128 bytes is named. *)
Theorem saved_filter_accepted_iff st pid d :
  pid ∈ ids st -> dr_environment_mode d ∈ ["any"; "only"; "except"] ->
  (exists st', updateNotificationProfile pid (saved_body d) st = (inr tt, st')) <->
  dr_environment_mode d = "any" \/ exists e, e ∈ dr_environments d /\ (String.length (TrimSpace e) <= 128)%nat.
Proof.
  intros [p Hp]%Get_in Hm. unfold updateNotificationProfile, profileEnvironment, saved_body. cbn [ni_environment_mode ni_environments given default].
  rewrite !elem_of_cons in Hm. unfold id. rewrite Hp.
  assert (X : filter_environments [] (dr_environments d) <> [] <-> exists e, e ∈ dr_environments d /\ (String.length (TrimSpace e) <= 128)%nat).
  { rewrite (filter_empty _ []) by (intros; apply not_elem_of_nil). split.
    - intros Hn. destruct (List.existsb (fun e => (String.length (TrimSpace e) <=? 128)%nat) (dr_environments d)) eqn:E.
      + apply List.existsb_exists in E as (e & He & Hl). exists e. split; [by apply list_elem_of_In|by apply Nat.leb_le].
      + exfalso. apply Hn. intros e He. apply Nat.lt_nge. intros Hl. apply not_true_iff_false in E. apply E, List.existsb_exists. exists e.
        split; [by apply list_elem_of_In|by apply Nat.leb_le].
    - intros (e & He & Hl) Hn. specialize (Hn e He). lia. }
  destruct Hm as [->|[->|[->|?%elem_of_nil]]]; [|cbn [String.eqb Ascii.eqb Bool.eqb]..|done].
  - split; [by left|]. intros _. cbn. eauto.
  - change (given (Some "only")) with "only". change (TrimSpace "only") with "only". cbn [String.eqb Ascii.eqb Bool.eqb orb].
    rewrite <- X. destruct (filter_environments _ _) as [|e l]; [split; [by intros [? ?]|by intros [?|?]]|]. split; [by right|eauto].
  - change (given (Some "except")) with "except". change (TrimSpace "except") with "except". cbn [String.eqb Ascii.eqb Bool.eqb orb].
    rewrite <- X. destruct (filter_environments _ _) as [|e l]; [split; [by intros [? ?]|by intros [?|?]]|]. split; [by right|eauto].
Qed.

(** Saving one card makes the drafts of all of them anew: what was typed in another
    card is gone. *)
Theorem saving_resets_every_card uuid_Parse id st pg st' pg' :
  save uuid_Parse id (st, pg) = (st', pg') -> pg_error pg' = None -> omap_get id (pg_cards pg) <> None ->
  forall k c, (k, c) ∈ pg_cards pg' -> exists p, p ∈ profiles st' /\ pf_ID p = k /\ cd_draft c = toDraft (to_wire p).
Proof.
  intros Hs He Hid k c Hk. unfold save in Hs. destruct (omap_get id (pg_cards pg)) as [c0|]; [|done].
  destruct (updateNotificationProfile _ _ _) as [[m|[]] st1]; [injection Hs as <- <-; done|].
  destruct (setNotificationProfileChannels _ _ _ _) as [[m|[]] st2]; injection Hs as <- <-; [done|].
  unfold reload in Hk. cbn [pg_cards] in Hk. apply list_elem_of_fmap in Hk as (q & Hq & Hin). apply filterb_elem in Hin as [(p & -> & Hp)%list_elem_of_fmap _].
  exists p. unfold card_of in Hq. cbn in Hq. destruct (omap_get _ _); injection Hq as -> ->; done.
Qed.

(** The default of the organization can be unticked or deleted; nothing puts it back
    as long as the organization has a profile, and its alerts go nowhere. *)
Theorem unticked_default_is_silent words roles st id b p fresh env :
  consistent st -> p ∈ profiles st -> pf_ID p = id -> pf_GroupID p = None -> pf_IsDefault p = true ->
  ni_is_default b = false -> (exists m, profileEnvironment b = inr m) ->
  let st' := (updateNotificationProfile id b st).2 in
  Resolve words roles st' env [] None None = [] /\ EnsureOrgDefault fresh st' = st'.
Proof.
  intros Hc Hp Hid Hg Hd Hb [[mode envs] Hf] st'. unfold st', updateNotificationProfile. rewrite Hf.
  rewrite (proj2 (Get_Some st id p (co_ids _ Hc))) by done. rewrite Hb. cbn [snd].
  assert (U : consistent (set_profiles (updated id (TrimSpace (ni_name b)) (normalizeGrouping (ni_grouping b)) (Z.max 0 (ni_renotify_minutes b)) false mode envs <$> profiles st) st)).
  { pose proof (updated_consistent id b mode envs st p Hc Hf) as H. rewrite Hb in H. apply H. by apply Get_Some; [apply Hc|]. }
  split.
  - unfold Resolve, ResolveProfile. cbn [mbind option_bind]. destruct (defaultProfile None _) as [q|] eqn:E; [|done]. exfalso.
    apply default_is in E as (Hq & Gq & Dq); [|done]. cbn [profiles set_profiles] in Hq. apply list_elem_of_fmap in Hq as (r & -> & Hr).
    unfold updated in Gq, Dq. destruct (pf_ID r =s id) eqn:Er; [done|]. bool_prop. apply Er. rewrite <- Hid. f_equal. by apply (co_default _ Hc); [..|congruence].
  - unfold EnsureOrgDefault. destruct (List.existsb _ _) eqn:E; [done|]. exfalso. apply not_true_iff_false in E. apply E, List.existsb_exists.
    exists (updated id (TrimSpace (ni_name b)) (normalizeGrouping (ni_grouping b)) (Z.max 0 (ni_renotify_minutes b)) false mode envs p).
    split; [apply list_elem_of_In; by apply list_elem_of_fmap_2|]. apply bool_decide_eq_true. unfold updated. by destruct (_ =s _).
Qed.

(** A choice that the server refuses, of a profile deleted meanwhile, stays on screen
    while the integration keeps the profile it had. *)
Theorem refused_choice_stays_on_screen st integration id sel :
  id ∉ ids st -> id <> "" ->
  (choose integration id (st, sel)).1 = st /\ se_assigned (choose integration id (st, sel)).2 = id.
Proof.
  intros Hi Hne. unfold choose. rewrite (proj2 (truthy_spec id)) by done. cbn [AssignIntegrationProfile fst snd].
  destruct (Get st id) as [p|] eqn:E; [|done]. exfalso. apply Hi. unfold Get in E. apply find_Some_elem in E as [Hp Hid]. bool_prop. subst id.
  by apply list_elem_of_fmap_2.
Qed.

(** ** Witnesses *)

Section witnesses.
Local Definition pager : Profile := {|
  pf_ID := "p1"; pf_GroupID := None; pf_Name := "Pager"; pf_Grouping := "per_check"; pf_RenotifyMinutes := 30; pf_IsDefault := false;
  pf_ChannelIDs := ["c1"]; pf_EnvironmentMode := "only"; pf_Environments := [PRODUCTION_TOKEN] |}.
Local Definition slack : Profile := {|
  pf_ID := "p2"; pf_GroupID := None; pf_Name := "Slack"; pf_Grouping := "per_check"; pf_RenotifyMinutes := 0; pf_IsDefault := true;
  pf_ChannelIDs := ["c2"]; pf_EnvironmentMode := "any"; pf_Environments := [] |}.
Local Definition routes : Server := {| profiles := [pager; slack]; assigned := [("i1", "p1")]; known := ["c2"; "c1"] |}.
Local Definition body_of (p : Profile) : NotificationProfileInput := {|
  ni_group_id := None; ni_name := pf_Name p; ni_grouping := pf_Grouping p; ni_renotify_minutes := pf_RenotifyMinutes p; ni_is_default := pf_IsDefault p;
  ni_channel_ids := Some (pf_ChannelIDs p); ni_environment_mode := Some (pf_EnvironmentMode p); ni_environments := Some (pf_Environments p) |}.

Local Lemma routes_reachable imports : reachable Some imports routes.
Proof.
  apply (re_assign Some imports "i1" (Some "p1") {| profiles := [pager; slack]; assigned := []; known := ["c2"; "c1"] |}); [|done].
  change {| profiles := [pager; slack]; assigned := []; known := ["c2"; "c1"] |} with
    (createNotificationProfile Some "p2" (body_of slack) (createNotificationProfile Some "p1" (body_of pager)
       {| profiles := []; assigned := []; known := ["c2"; "c1"] |}).2).2.
  apply re_create; [|apply (bool_decide_unpack _); vm_compute; exact I]. apply re_create; [|apply (bool_decide_unpack _); vm_compute; exact I].
  apply (re_channel Some imports "c2" {| profiles := []; assigned := []; known := ["c1"] |}).
  apply (re_channel Some imports "c1" {| profiles := []; assigned := []; known := [] |}). apply re_empty.
Qed.

(** Names typed into a card whose mode is turned to "every environment" and saved stay in its text
    and are not in its draft: turned back, the card shows them and is refused. *)
Theorem typed_names_left_behind :
  let page := edit_card "p1" (SetMode "any") (edit_card "p1" (TypeEnvironments "staging, prod") (edit_card "p1" (SetProduction false) (page_opened None routes))) in
  let '(st, page) := save Some "p1" (routes, page) in
  (exists c, omap_get "p1" (pg_cards page) = Some c /\ cd_envText c = "staging, prod" /\ dr_environments (cd_draft c) = []) /\
  save Some "p1" (st, edit_card "p1" (SetMode "only") page) =
    (st, page_failed "an environment filter needs at least one environment" (edit_card "p1" (SetMode "only") page)).
Proof. vm_compute. split; [eexists; split; [reflexivity|split; reflexivity]|reflexivity]. Qed.

(** The Pager of another cell, exported as its default. *)
Local Definition exported_pager : BundleProfile := {|
  bp_Name := "Pager"; bp_Group := None; bp_Grouping := "per_check"; bp_RenotifyMinutes := 30; bp_IsDefault := true; bp_Channels := ["c1"];
  bp_EnvironmentMode := "only"; bp_Environments := [] |}.
Local Definition bundle : list (string * BundleProfile) := [("p1", exported_pager)].
Local Definition after_import : Server := importProfiles true bundle routes ?? routes.
Local Lemma import_reachable : reachable Some true after_import.
Proof. apply (re_import Some true true bundle routes); [done|apply routes_reachable|by_compute]. Qed.

(** The import leaves two defaults of the organization, and a filter on no environment. *)
Theorem import_leaves_two_defaults :
  reachable Some true after_import /\ pf_Name <$> List.filter pf_IsDefault (profiles after_import) = ["Pager"; "Slack"] /\ ~ consistent after_import.
Proof.
  split; [exact import_reachable|]. split; [by_compute|]. intros [_ _ _ H]. rewrite Forall_forall in H.
  destruct (H (imported "p1" exported_pager)) as [_ _ [[E _]|(_ & E & _)] _]; [|done|done].
  change (profiles after_import) with [imported "p1" exported_pager; slack]. by left.
Qed.

Lemma server_stays_consistent_witness :
  (reachable Some false routes /\ consistent routes) /\ (reachable Some true after_import /\ sound after_import).
Proof.
  split; (split; [apply routes_reachable || exact import_reachable|]).
  - by apply (server_stays_consistent Some false routes (routes_reachable false)).
  - by apply (server_stays_consistent Some true after_import import_reachable).
Defined.

Lemma routed_most_specific_first_witness :
  ResolveProfile (fun s => [s]) [] routes (Some "prod") (Some "i1") None = Some pager <->
  exists n, rung routes (Some "i1") None n pager /\ AppliesTo (fun s => [s]) [] (Some "prod") pager = true /\
    forall m q, (m < n)%nat -> rung routes (Some "i1") None m q -> AppliesTo (fun s => [s]) [] (Some "prod") q = false.
Proof.
  assert (Hc : consistent routes) by (apply (profiles_reachable_consistent Some), routes_reachable).
  exact (routed_most_specific_first (fun s => [s]) [] routes (Some "prod") (Some "i1") None pager Hc).
Defined.

Lemma untouched_save_keeps_profile_witness :
  save Some "p1" (routes, page_opened None routes) = (routes, page_opened None routes).
Proof.
  apply (untouched_save_keeps_profile Some routes None pager (routes_reachable false)); [by left|done|by_compute|by_compute|done|].
  repeat constructor.
Defined.
End witnesses.
