(* ===== verification/Rollup.v ===== *)
(** * Group lists and attribute pickers

    The parts the log and metric pages share: the list of groups with its items
    loaded on demand (components/groups/GroupRollup.tsx), as an event machine,
    the searchable picker of a key (components/groups/AttrKeyPicker.tsx) and the
    popover that builds an attribute filter (components/logs/AttributeSuggest.tsx).

    Keys are ordinary texts: a key that every object has ("constructor") is
    outside of the model of the items. *)

From S2P Require Import Prelude JsString JsUri JsArray Host Types RuleServer.

Local Open Scope string_scope.
Local Open Scope list_scope.

(** ** The list of groups *)

Section rollup.
Context {I : Type}.

(** Who asked for the items: a click, or the effect on a change of the filters. *)
Inductive asker := ByToggle | ByEffect.
Record flight := { fl_id : nat; fl_asker : asker; fl_key : string; fl_cacheKey : string }.
Record Rollup := {
  openKey : option string; items : gmap string (list I); itemsLoading : option string;
  groups : list string; cacheKey : string; flights : list flight; sent : nat
}.

Definition send (a : asker) (k : string) (st : Rollup) : Rollup := {|
  openKey := openKey st; items := items st; itemsLoading := Some k; groups := groups st; cacheKey := cacheKey st;
  flights := flights st ++ [{| fl_id := sent st; fl_asker := a; fl_key := k; fl_cacheKey := cacheKey st |}];
  sent := S (sent st) |}.
Definition set_open (o : option string) (st : Rollup) : Rollup := {|
  openKey := o; items := items st; itemsLoading := itemsLoading st; groups := groups st; cacheKey := cacheKey st;
  flights := flights st; sent := sent st |}.

Definition toggle (k : string) (st : Rollup) : Rollup :=
  if bool_decide (openKey st = Some k) then set_open None st
  else
    let st := set_open (Some k) st in
    match items st !! k with None => send ByToggle k st | Some _ => st end.

(** The effect of a new [cacheKey]. *)
Definition refilter (ck : string) (st : Rollup) : Rollup :=
  let st' := {| openKey := openKey st; items := ∅; itemsLoading := None; groups := groups st; cacheKey := ck;
                flights := flights st; sent := sent st |} in
  match openKey st with
  | None => st'
  | Some k => if bool_decide (k ∈ groups st) then send ByEffect k st' else set_open None st'
  end.

(** [then] or [catch], and [finally]. *)
Definition settle (f : flight) (r : option (list I)) (st : Rollup) : Rollup :=
  let rows := r ?? [] in {|
  openKey := openKey st;
  items := match fl_asker f with ByEffect => {[fl_key f := rows]} | ByToggle => <[fl_key f := rows]> (items st) end;
  itemsLoading := match fl_asker f with
                  | ByEffect => if bool_decide (itemsLoading st = Some (fl_key f)) then None else itemsLoading st
                  | ByToggle => None
                  end;
  groups := groups st; cacheKey := cacheKey st;
  flights := List.filter (fun g => negb (Nat.eqb (fl_id g) (fl_id f))) (flights st); sent := sent st |}.

Inductive Event :=
| Toggle (k : string)
| Filters (ck : string)
| Groups (ks : list string)
| Answer (i : nat) (r : option (list I)).

Definition step (st : Rollup) (e : Event) : Rollup :=
  match e with
  | Toggle k => if bool_decide (k ∈ groups st) then toggle k st else st
  | Filters ck => if ck =s cacheKey st then st else refilter ck st
  | Groups ks => {| openKey := openKey st; items := items st; itemsLoading := itemsLoading st; groups := ks;
                    cacheKey := cacheKey st; flights := flights st; sent := sent st |}
  | Answer i r => match List.find (fun f => Nat.eqb (fl_id f) i) (flights st) with Some f => settle f r st | None => st end
  end.
Definition runs (st : Rollup) (es : list Event) : Rollup := foldl step st es.

Definition mounted (ks : list string) (ck : string) : Rollup := {|
  openKey := None; items := ∅; itemsLoading := None; groups := ks; cacheKey := ck; flights := []; sent := 0 |}.

(** What is drawn under the open row. *)
Inductive Body := Loading | Rows (l : list I).
Definition body (st : Rollup) : option Body :=
  match openKey st with
  | Some k =>
      if bool_decide (k ∈ groups st)
      then Some (if bool_decide (itemsLoading st = Some k) then Loading else Rows (items st !! k ?? []))
      else None
  | None => None
  end.
End rollup.
Arguments Rollup : clear implicits.
Arguments Event : clear implicits.
Arguments Body : clear implicits.

(** ** Requests that do not overlap *)

Section orderly.
Context {I : Type} (load : string -> string -> list I).
Implicit Types st : Rollup I.

(** The filters change when nothing is under way, a row is clicked when no effect
    is loading, and the items are those of the filters and the key asked for. *)
Definition in_turn st (e : Event I) : Prop :=
  match e with
  | Filters _ => flights st = []
  | Toggle _ => Forall (fun f => fl_asker f = ByToggle) (flights st)
  | Answer i r => forall f, List.find (fun f => Nat.eqb (fl_id f) i) (flights st) = Some f -> r = Some (load (fl_cacheKey f) (fl_key f))
  | Groups _ => True
  end.
Inductive orderly : Rollup I -> Prop :=
| orderly_mounted ks ck : orderly (mounted ks ck)
| orderly_step st e : orderly st -> in_turn st e -> orderly (step st e).

Record settled st : Prop := {
  se_items : forall k l, items st !! k = Some l -> l = load (cacheKey st) k;
  se_flights : Forall (fun f => fl_cacheKey f = cacheKey st) (flights st);
  se_open : forall k, openKey st = Some k -> is_Some (items st !! k) \/ exists f, f ∈ flights st /\ fl_key f = k;
  se_effect : Forall (fun f => fl_asker f = ByToggle) (flights st) \/
              exists f, flights st = [f] /\ fl_asker f = ByEffect /\ items st = ∅ /\ openKey st = Some (fl_key f) /\ itemsLoading st = Some (fl_key f);
  se_loading : flights st = [] -> itemsLoading st = None;
  se_fresh : Forall (fun f => fl_id f < sent st)%nat (flights st);
  se_ids : NoDup (fl_id <$> flights st)
}.

(** What a request adds to the ones under way. *)
Lemma send_ids a k st : Forall (fun f => fl_id f < sent st)%nat (flights st) -> NoDup (fl_id <$> flights st) ->
  Forall (fun f => fl_id f < sent (send a k st))%nat (flights (send a k st)) /\ NoDup (fl_id <$> flights (send a k st)).
Proof. intros HF HN. exact (fresh_snoc fl_id (flights st) {| fl_id := sent st; fl_asker := a; fl_key := k; fl_cacheKey := cacheKey st |} HF HN). Qed.

Lemma toggle_settled k st : Forall (fun f => fl_asker f = ByToggle) (flights st) -> settled st -> settled (toggle k st).
Proof.
  intros HT [H1 H2 H3 H4 H5 H6 H7]. unfold toggle. case_bool_decide as Hk; [by split; cbn; auto|].
  destruct (items (set_open (Some k) st) !! k) as [l|] eqn:Hi; cbn in Hi.
  - split; cbn; auto. intros k' [= <-]. left. by exists l.
  - destruct (send_ids ByToggle k (set_open (Some k) st) H6 H7). split; try done; cbn.
    + apply Forall_app. split; [done|]. by repeat constructor.
    + intros k' [= <-]. right. eexists. split; [apply elem_of_app; right; by apply list_elem_of_singleton|done].
    + left. apply Forall_app. split; [done|]. by repeat constructor.
    + by destruct (flights st).
Qed.

Lemma refilter_settled ck st : flights st = [] -> settled st -> settled (refilter ck st).
Proof.
  intros HF [H1 H2 H3 H4 H5 H6 H7]. unfold refilter. destruct (openKey st) as [k|] eqn:Ho; [case_bool_decide|].
  - split; cbn; rewrite ?HF; cbn.
    + done.
    + by repeat constructor.
    + intros k' [= <-]. right. eexists. split; [by apply list_elem_of_singleton|done].
    + right. by eexists.
    + done.
    + repeat constructor.
    + apply NoDup_singleton.
  - split; cbn; rewrite ?HF; try done; [by left|constructor].
  - split; cbn; rewrite ?HF; try done; [by left|constructor].
Qed.

Lemma settle_settled i f st :
  List.find (fun f => Nat.eqb (fl_id f) i) (flights st) = Some f -> settled st ->
  settled (settle f (Some (load (fl_cacheKey f) (fl_key f))) st).
Proof.
  intros HF [H1 H2 H3 H4 H5 H6 H7]. apply find_Some_elem in HF as [Hin Hid].
  assert (Hck : fl_cacheKey f = cacheKey st) by (rewrite Forall_forall in H2; by apply H2).
  assert (HS : forall P, Forall P (flights st) -> Forall P (List.filter (fun g => negb (Nat.eqb (fl_id g) (fl_id f))) (flights st))).
  { intros P. rewrite !Forall_forall. intros HP g [Hg _]%filterb_elem. by apply HP. }
  destruct H4 as [HT|(g & Hg & Ha & He & Ho & Hl)].
  - assert (Ha : fl_asker f = ByToggle) by (rewrite Forall_forall in HT; by apply HT).
    unfold settle. rewrite Ha, Hck. split; cbn; auto using filterb_map_NoDup.
    + intros k l. destruct (decide (k = fl_key f)) as [->|Hne]; [rewrite lookup_insert_eq; by intros [= <-]|].
      rewrite lookup_insert_ne by done. apply H1.
    + intros k Hk. destruct (decide (k = fl_key f)) as [->|Hne]; [left; rewrite lookup_insert_eq; by eexists|].
      rewrite lookup_insert_ne by done. destruct (H3 k Hk) as [?|(g & Hg & Hgk)]; [by left|]. right. exists g.
      split; [|done]. apply filterb_elem. split; [done|]. apply negb_true_iff, Nat.eqb_neq. intros Hgf.
      destruct Hne. rewrite <- Hgk. f_equal. by apply (NoDup_map_eq fl_id (flights st)).
  - rewrite Hg in Hin. apply list_elem_of_singleton in Hin. subst g.
    assert (Hrest : List.filter (fun g => negb (Nat.eqb (fl_id g) (fl_id f))) (flights st) = []) by (rewrite Hg; cbn; by rewrite Nat.eqb_refl).
    unfold settle. rewrite Ha, Hck. split; cbn; rewrite ?Hrest; try done; [| |by left| |constructor].
    + intros k l. destruct (decide (k = fl_key f)) as [->|Hne]; [rewrite lookup_singleton_eq; by intros [= <-]|].
      by rewrite lookup_singleton_ne.
    + intros k Hk. rewrite Ho in Hk. injection Hk as <-. left. rewrite lookup_singleton_eq. by eexists.
    + intros _. by rewrite Hl, bool_decide_true.
Qed.

Lemma orderly_settled st : orderly st -> settled st.
Proof.
  induction 1 as [ks ck|st e _ IH He]; [split; cbn; try done; [by left|constructor]|].
  destruct e as [k|ck|ks|i r]; cbn [step].
  - case_bool_decide; [|done]. by apply toggle_settled.
  - destruct (_ =s _); [done|]. by apply refilter_settled.
  - by destruct IH as [? ? ? ? ? ? ?]; split.
  - destruct (List.find _ _) as [f|] eqn:HF; [|done]. rewrite (He f HF). by eapply settle_settled.
Qed.

(** As long as requests do not overlap in a harmful way, an open row shows, once
    nothing is under way, the items of its key under the filters in force. *)
Theorem open_group_shows_current_items st k :
  orderly st -> flights st = [] -> openKey st = Some k -> k ∈ groups st ->
  body st = Some (Rows (load (cacheKey st) k)).
Proof.
  intros Ho Hf Hk Hg. destruct (orderly_settled st Ho) as [H1 _ H3 _ H5 _ _]. unfold body. rewrite Hk, bool_decide_true by done.
  rewrite (H5 Hf). cbn. destruct (H3 k Hk) as [[l Hl]|(f & Hin & _)]; [|rewrite Hf in Hin; by apply elem_of_nil in Hin].
  rewrite Hl. cbn. by rewrite (H1 k l Hl).
Qed.
End orderly.

(** ** Requests that overlap *)

Section overlap.
Context {I : Type}.

(** The items of the old filters come back: with two changes of the filters whose
    answers arrive in the other order, and with an answer to a click that arrives
    after the one to the change. *)
Theorem old_items_come_back (old mid new : list I) :
  let st1 := runs (mounted ["a"] "f1") [Toggle "a"; Answer 0 (Some old); Filters "f2"; Filters "f3"; Answer 2 (Some new); Answer 1 (Some mid)] in
  let st2 := runs (mounted ["a"] "f1") [Toggle "a"; Filters "f2"; Answer 1 (Some new); Answer 0 (Some old)] in
  (cacheKey st1 = "f3" /\ flights st1 = [] /\ body st1 = Some (Rows mid)) /\
  (cacheKey st2 = "f2" /\ flights st2 = [] /\ body st2 = Some (Rows old)).
Proof. repeat split; by_compute. Qed.

(** A row opened while the open row is loaded again after a change of the
    filters: its items are dropped when they were there first, and it is drawn empty. *)
Theorem opened_row_is_emptied (ra rb : list I) :
  let st := runs (mounted ["a"; "b"] "f1")
    [Toggle "a"; Answer 0 (Some ra); Filters "f2"; Toggle "b"; Answer 2 (Some rb); Answer 1 (Some ra)] in
  openKey st = Some "b" /\ flights st = [] /\ body st = Some (Rows []).
Proof. repeat split; by_compute. Qed.

(** The answer to one row ends the spinner of the other, which is drawn empty
    while its items are on their way. *)
Theorem spinner_of_another_row (ra : list I) :
  let st := runs (mounted ["a"; "b"] "f1") [Toggle "a"; Toggle "b"; Answer 0 (Some ra)] in
  openKey st = Some "b" /\ (fl_key <$> flights st) = ["b"] /\ body st = Some (Rows []).
Proof. repeat split; by_compute. Qed.
End overlap.

(** ** Picking a key *)

Section pickers.
Context `{Host}.

Definition SHOWN : nat := 60.
(** [filtered] of [AttrKeyPicker]. *)
Definition filtered_keys (keys : list string) (q : string) : list string :=
  let s := toLowerCase (trim q) in
  take SHOWN (if truthy s then List.filter (fun k => includes (toLowerCase k) s) keys else keys).

Inductive FieldType := ft_number | ft_string.
#[export] Instance FieldType_eq_dec : EqDecision FieldType.
Proof. solve_decision. Defined.
Record LogFieldEntry := { fe_key : string; fe_type : FieldType; fe_use_count : Z; fe_cardinality : Z }.
#[export] Instance LogFieldEntry_eq_dec : EqDecision LogFieldEntry.
Proof. solve_decision. Defined.
Record LogAttrValue := { av_value : string; av_events : Z }.

Definition RESOURCE_PREFIXES : list string :=
  ["service."; "k8s."; "host."; "cloud."; "deployment."; "telemetry."; "process."; "container."; "os."].
Definition STRING_OPS : list (string * string) :=
  [("eq", "="); ("neq", "≠"); ("contains", "contains"); ("not_contains", "!contains"); ("starts_with", "starts");
   ("exists", "exists"); ("not_exists", "is absent")].
Definition NUMBER_OPS : list (string * string) :=
  [("eq", "="); ("neq", "≠"); ("gt", ">"); ("gte", "≥"); ("lt", "<"); ("lte", "≤"); ("exists", "exists"); ("not_exists", "is absent")].
Definition VALUELESS_ATTR_OPS : list string := ["exists"; "not_exists"].

Inductive Family := fam_http | fam_resource | fam_domain.
#[export] Instance Family_eq_dec : EqDecision Family.
Proof. solve_decision. Defined.
Definition groupFor (key : string) : Family :=
  if startsWith key "http." then fam_http
  else if List.existsb (fun p => startsWith key p) RESOURCE_PREFIXES then fam_resource
  else fam_domain.

(** *** The keys on offer *)

Definition byKey (fields : list LogFieldEntry) : list (string * LogFieldEntry) := omap_of ((fun f => (fe_key f, f)) <$> fields).
Definition key_match (query k : string) : bool :=
  let q := toLowerCase (trim query) in if truthy q then includes (toLowerCase k) q else true.
Definition recentItems (fields : list LogFieldEntry) (recent : list string) (query : string) : list LogFieldEntry :=
  List.filter (fun f => key_match query (fe_key f)) (omap (fun k => omap_get k (byKey fields)) recent).
Definition rest_of (fields : list LogFieldEntry) (recent : list string) (query : string) : list LogFieldEntry :=
  List.filter (fun f => key_match query (fe_key f) && negb (bool_decide (fe_key f ∈ recent))) fields.
Definition in_family (x : Family) (l : list LogFieldEntry) : list LogFieldEntry :=
  List.filter (fun f => bool_decide (groupFor (fe_key f) = x)) l.
Definition suggest_groups (fields : list LogFieldEntry) (recent : list string) (query : string) : list (string * list LogFieldEntry) :=
  let rest := rest_of fields recent query in
  List.filter (fun g => negb (bool_decide (g.2 = [])))
    [("Recently used", recentItems fields recent query); ("HTTP", in_family fam_http rest);
     ("Resource", in_family fam_resource rest); ("Domain", in_family fam_domain rest)].
Definition flat (fields : list LogFieldEntry) (recent : list string) (query : string) : list LogFieldEntry :=
  concat ((suggest_groups fields recent query).*2).


Lemma byKey_get fields k f : NoDup (fe_key <$> fields) -> (omap_get k (byKey fields) = Some f <-> f ∈ fields /\ fe_key f = k).
Proof.
  intros HN. unfold byKey. assert (HK : ((fun f => (fe_key f, f)) <$> fields).*1 = fe_key <$> fields) by by rewrite <- list_fmap_compose.
  rewrite omap_of_id by by rewrite HK. split.
  - intros Hg. apply omap_get_elem, list_elem_of_fmap in Hg as (g & [= -> ->] & Hg). done.
  - intros [Hf <-]. apply omap_elem_get; [unfold omap_keys; by rewrite HK|]. by apply (list_elem_of_fmap_2 (fun f => (fe_key f, f))).
Qed.
Lemma recent_fields_NoDup fields recent : NoDup (fe_key <$> fields) -> NoDup recent ->
  NoDup (omap (fun k => omap_get k (byKey fields)) recent).
Proof.
  intros HF. induction 1 as [|k l Hk _ IH]; [constructor|]. cbn. destruct (omap_get k (byKey fields)) as [f|] eqn:E; [|done].
  constructor; [|done]. intros (k' & Hk' & E')%list_elem_of_omap. apply byKey_get in E as [_ <-], E' as [_ <-]; done.
Qed.
Lemma families_perm (rest : list LogFieldEntry) :
  in_family fam_http rest ++ in_family fam_resource rest ++ in_family fam_domain rest ≡ₚ rest.
Proof.
  induction rest as [|f rest IH]; [done|].
  assert (Hc : forall x, in_family x (f :: rest) = if bool_decide (groupFor (fe_key f) = x) then f :: in_family x rest else in_family x rest) by done.
  rewrite !Hc. destruct (groupFor (fe_key f));
    repeat match goal with |- context [bool_decide (?a = ?b)] => let v := eval vm_compute in (bool_decide (a = b)) in change (bool_decide (a = b)) with v end;
    cbv iota; cbn [app].
  - by constructor.
  - rewrite <- Permutation_middle. by constructor.
  - rewrite app_assoc, <- Permutation_middle, <- app_assoc. by constructor.
Qed.

(** Every indexed key that matches is offered, once. *)
Theorem every_match_offered_once fields recent query :
  NoDup (fe_key <$> fields) -> NoDup recent ->
  flat fields recent query ≡ₚ List.filter (fun f => key_match query (fe_key f)) fields.
Proof.
  intros HF HR. unfold flat, suggest_groups.
  assert (Hc : forall l : list (string * list LogFieldEntry), concat ((List.filter (fun g => negb (bool_decide (g.2 = []))) l).*2) = concat (l.*2)).
  { induction l as [|[x [|y g]] l IH]; [done|exact IH|]. cbn. by f_equal; f_equal. }
  rewrite Hc. cbn [fmap list_fmap concat snd]. rewrite app_nil_r, families_perm. unfold rest_of. clear Hc.
  rewrite <- (filter_partition_perm (fun f => bool_decide (fe_key f ∈ recent)) (List.filter (fun f => key_match query (fe_key f)) fields)).
  rewrite !filterb_filterb. apply Permutation_app; [|done].
  pose proof (NoDup_map_inv fe_key fields HF) as HN.
  apply NoDup_Permutation; [apply filterb_NoDup; by apply recent_fields_NoDup|by apply filterb_NoDup|].
  intros f. unfold recentItems. rewrite !filterb_elem, list_elem_of_omap, andb_true_iff, bool_decide_eq_true. split.
  - intros [(k & Hk & Hg) Hm]. apply byKey_get in Hg as [Hf <-]; done.
  - intros (Hf & Hm & Hk). split; [|done]. exists (fe_key f). split; [done|]. by apply byKey_get.
Qed.

(** *** The popover *)

Record Popover := {
  po_fields : list LogFieldEntry; po_recent : list string;
  valuePhase : bool; po_query : string; active : Z;
  picked : option LogFieldEntry; po_op : string; valueQuery : string; values : list LogAttrValue; valuesLoading : bool;
  asked : list (nat * string); asks : nat
}.
Definition opened_popover (fields : list LogFieldEntry) (recent : list string) : Popover := {|
  po_fields := fields; po_recent := recent; valuePhase := false; po_query := ""; active := 0;
  picked := None; po_op := "eq"; valueQuery := ""; values := []; valuesLoading := false; asked := []; asks := 0 |}.

Definition list_of (st : Popover) : list LogFieldEntry := flat (po_fields st) (po_recent st) (po_query st).
Definition at_index {A} (l : list A) (i : Z) : option A := if (0 <=? i)%Z then l !! Z.to_nat i else None.
Definition typed_key (st : Popover) : LogFieldEntry :=
  {| fe_key := trim (po_query st); fe_type := ft_string; fe_use_count := 0; fe_cardinality := 0 |}.
Definition ops (f : LogFieldEntry) : list (string * string) := if bool_decide (fe_type f = ft_number) then NUMBER_OPS else STRING_OPS.

(** [pickKey], with the effect that asks for the values of the key. *)
Definition pickKey (f : LogFieldEntry) (st : Popover) : Popover := {|
  po_fields := po_fields st; po_recent := po_recent st; valuePhase := true; po_query := po_query st; active := active st;
  picked := Some f; po_op := if bool_decide (fe_type f = ft_number) then "gte" else "eq"; valueQuery := ""; values := [];
  valuesLoading := true; asked := asked st ++ [(asks st, fe_key f)]; asks := S (asks st) |}.
Definition highlight (q : string) (i : Z) (st : Popover) : Popover := {|
  po_fields := po_fields st; po_recent := po_recent st; valuePhase := valuePhase st; po_query := q; active := i;
  picked := picked st; po_op := po_op st; valueQuery := valueQuery st; values := values st; valuesLoading := valuesLoading st;
  asked := asked st; asks := asks st |}.
Definition in_value (op vq : string) (st : Popover) : Popover := {|
  po_fields := po_fields st; po_recent := po_recent st; valuePhase := valuePhase st; po_query := po_query st; active := active st;
  picked := picked st; po_op := op; valueQuery := vq; values := values st; valuesLoading := valuesLoading st;
  asked := asked st; asks := asks st |}.
Definition set_phase (v : bool) (fields : list LogFieldEntry) (st : Popover) : Popover := {|
  po_fields := fields; po_recent := po_recent st; valuePhase := v; po_query := po_query st; active := active st;
  picked := picked st; po_op := po_op st; valueQuery := valueQuery st; values := values st; valuesLoading := valuesLoading st;
  asked := asked st; asks := asks st |}.
Definition valued (i : nat) (r : option (list LogAttrValue)) (st : Popover) : Popover := {|
  po_fields := po_fields st; po_recent := po_recent st; valuePhase := valuePhase st; po_query := po_query st; active := active st;
  picked := picked st; po_op := po_op st; valueQuery := valueQuery st; values := r ?? []; valuesLoading := false;
  asked := List.filter (fun a => negb (Nat.eqb a.1 i)) (asked st); asks := asks st |}.

(** [commit]. *)
Definition commit (value : string) (st : Popover) : option LogAttrFilter :=
  match picked st with Some f => Some {| la_key := fe_key f; la_op := po_op st; la_value := value |} | None => None end.
Definition filteredValues (st : Popover) : list LogAttrValue :=
  let q := toLowerCase (trim (valueQuery st)) in
  if truthy q then List.filter (fun v => includes (toLowerCase (av_value v)) q) (values st) else values st.

Inductive Key := KeyInput (s : string) | ArrowDown | ArrowUp | Hover (i : nat) | Enter | ClickKey (i : nat) | ClickTyped
  | Back | ChooseOp (i : nat) | ValueInput (s : string) | ValueEnter | ClickValue (i : nat)
  | Values (i : nat) (r : option (list LogAttrValue)) | Fields (l : list LogFieldEntry).

(** The next state, and the filter handed to the page. *)
Definition press (e : Key) (st : Popover) : Popover * option LogAttrFilter :=
  let l := list_of st in
  let n := Z.of_nat (length l) in
  match e with
  | Values i r => (if List.existsb (fun a => Nat.eqb a.1 i) (asked st) then valued i r st else st, None)
  | Fields fs => (set_phase (valuePhase st) fs st, None)
  | KeyInput s => (if valuePhase st then st else highlight s 0 st, None)
  | ArrowDown => (if valuePhase st then st else highlight (po_query st) (Z.min (active st + 1) (n - 1)) st, None)
  | ArrowUp => (if valuePhase st then st else highlight (po_query st) (Z.max (active st - 1) 0) st, None)
  | Hover i => (if negb (valuePhase st) && (i <? length l)%nat then highlight (po_query st) (Z.of_nat i) st else st, None)
  | Enter =>
      (if valuePhase st then st
       else match at_index l (active st) with
            | Some f => pickKey f st
            | None => if truthy (trim (po_query st)) then pickKey (typed_key st) st else st
            end, None)
  | ClickKey i => (if valuePhase st then st else match l !! i with Some f => pickKey f st | None => st end, None)
  | ClickTyped =>
      (if negb (valuePhase st) && bool_decide (l = []) && truthy (trim (po_query st)) then pickKey (typed_key st) st else st, None)
  | Back => (set_phase false (po_fields st) st, None)
  | ChooseOp i =>
      match valuePhase st, picked st with
      | true, Some f =>
          match (ops f).*1 !! i with
          | Some o => if bool_decide (o ∈ VALUELESS_ATTR_OPS)
                      then (st, Some {| la_key := fe_key f; la_op := o; la_value := "" |})
                      else (in_value o (valueQuery st) st, None)
          | None => (st, None)
          end
      | _, _ => (st, None)
      end
  | ValueInput s => (if valuePhase st then in_value (po_op st) s st else st, None)
  | ValueEnter => (st, if valuePhase st && truthy (trim (valueQuery st)) then commit (trim (valueQuery st)) st else None)
  | ClickValue i => (st, if valuePhase st then match filteredValues st !! i with Some v => commit (av_value v) st | None => None end else None)
  end.
Definition pressed (st : Popover) (es : list Key) : Popover := foldl (fun st e => (press e st).1) st es.

Inductive reached (fields : list LogFieldEntry) (recent : list string) : Popover -> Prop :=
| reached_open : reached fields recent (opened_popover fields recent)
| reached_press st e : reached fields recent st -> reached fields recent (press e st).1.

Definition op_ok (st : Popover) : Prop :=
  match picked st with
  | Some f => po_op st ∈ (ops f).*1 /\ po_op st ∉ VALUELESS_ATTR_OPS
  | None => valuePhase st = false
  end.

Lemma pickKey_op f st : op_ok (pickKey f st).
Proof. unfold op_ok, pickKey, ops. cbn. case_bool_decide; split; [in_cons|set_solver|in_cons|set_solver]. Qed.

Lemma press_op e st : op_ok st -> op_ok (press e st).1.
Proof.
  intros Ho. destruct e as [s| | |i| |i| | |i|s| |i|i r|l]; cbn [press fst]; try exact Ho.
  - by destruct (valuePhase st).
  - by destruct (valuePhase st).
  - by destruct (valuePhase st).
  - by destruct (_ && _).
  - destruct (valuePhase st); [done|]. destruct (at_index _ _); [apply pickKey_op|]. destruct (truthy _); [apply pickKey_op|done].
  - destruct (valuePhase st); [done|]. destruct (_ !! i); [apply pickKey_op|done].
  - destruct (_ && _); [apply pickKey_op|done].
  - unfold op_ok in *. cbn. by destruct (picked st).
  - destruct (valuePhase st); [|exact Ho]. destruct (picked st) as [f|] eqn:Hp; [|exact Ho].
    destruct ((ops f).*1 !! i) as [o|] eqn:Hi; [|exact Ho]. case_bool_decide; [exact Ho|].
    unfold op_ok. cbn. rewrite Hp. split; [by eapply list_elem_of_lookup_2|done].
  - destruct (valuePhase st); exact Ho.
  - by destruct (existsb _ _).
Qed.

(** Every filter the popover hands over is on the key that was picked, with one of the
    operators drawn for the type of the key, which the server knows, and without
    a value exactly when the operator takes none or an indexed value is empty. *)
Theorem handed_filter_is_valid fields recent st e f :
  reached fields recent st -> (press e st).2 = Some f ->
  exists k, picked st = Some k /\ la_key f = fe_key k /\ la_op f ∈ (ops k).*1 /\ la_op f ∈ validAttrOps /\
    (la_op f ∈ VALUELESS_ATTR_OPS -> la_value f = "") /\
    (la_value f = "" -> la_op f ∈ VALUELESS_ATTR_OPS \/ exists v, v ∈ values st /\ av_value v = "").
Proof.
  intros Hr Hf. assert (Ho : op_ok st) by (clear Hf; induction Hr; [done|by apply press_op]).
  assert (Hv : forall k o, o ∈ (ops k).*1 -> o ∈ validAttrOps).
  { intros k o. unfold ops. case_bool_decide; cbn; rewrite !elem_of_cons; intuition (subst; in_cons || done). }
  destruct e as [s| | |i| |i| | |i|s| |i|i r|l]; cbn [press snd] in Hf; try discriminate Hf.
  - destruct (valuePhase st), (picked st) as [k|] eqn:Hk; try discriminate Hf.
    destruct ((ops k).*1 !! i) as [o|] eqn:Hi; [|done]. case_bool_decide as Hd; [|done]. injection Hf as <-. cbn.
    apply list_elem_of_lookup_2 in Hi. exists k. repeat (split; [by eauto|]). by left.
  - destruct (valuePhase st && _) eqn:Hc; [|done]. apply andb_true_iff in Hc as [_ Ht]. unfold commit, op_ok in *.
    destruct (picked st) as [k|]; [|done]. injection Hf as <-. destruct Ho as [Ho Hn]. cbn. exists k.
    repeat (split; [by eauto|]). intros E. by rewrite E in Ht.
  - destruct (valuePhase st); [|done]. destruct (filteredValues st !! i) as [v|] eqn:Hi; [|done]. unfold commit, op_ok in *.
    destruct (picked st) as [k|]; [|done]. injection Hf as <-. destruct Ho as [Ho Hn]. cbn. exists k.
    repeat (split; [by eauto|]). intros E. right. exists v. split; [|done].
    apply list_elem_of_lookup_2 in Hi. unfold filteredValues in Hi. destruct (truthy _); [|done]. by apply filterb_elem in Hi as [? _].
Qed.

(** While the catalogue stays, the highlighted row is one of the rows shown, and
    Enter picks it. *)
Inductive browsing (fields : list LogFieldEntry) (recent : list string) : Popover -> Prop :=
| browsing_open : browsing fields recent (opened_popover fields recent)
| browsing_press st e : browsing fields recent st -> (forall l, e <> Fields l) -> browsing fields recent (press e st).1.

Definition in_list (st : Popover) : Prop :=
  let n := Z.of_nat (length (list_of st)) in (0 < n -> 0 <= active st < n)%Z.

Lemma press_in_list e st : (forall l, e <> Fields l) -> in_list st -> in_list (press e st).1.
Proof.
  intros He Hi. destruct e as [s| | |i| |i| | |i|s| |i|i r|l]; cbn [press fst]; try exact Hi; [..|by destruct (He l)].
  - destruct (valuePhase st); [exact Hi|]. unfold in_list. cbn. lia.
  - destruct (valuePhase st); [exact Hi|]. unfold in_list in *. change (list_of (highlight _ _ st)) with (list_of st). cbn [active highlight]. lia.
  - destruct (valuePhase st); [exact Hi|]. unfold in_list in *. change (list_of (highlight _ _ st)) with (list_of st). cbn [active highlight]. lia.
  - destruct (_ && _) eqn:E; [|exact Hi]. apply andb_true_iff in E as [_ E%Nat.ltb_lt].
    unfold in_list in *. change (list_of (highlight _ _ st)) with (list_of st). cbn [active highlight]. lia.
  - destruct (valuePhase st); [exact Hi|]. destruct (at_index _ _); [exact Hi|]. destruct (truthy _); exact Hi.
  - destruct (valuePhase st); [exact Hi|]. destruct (_ !! i); exact Hi.
  - destruct (_ && _); exact Hi.
  - destruct (valuePhase st); [|exact Hi]. destruct (picked st) as [f|]; [|exact Hi].
    destruct (_ !! i); [|exact Hi]. case_bool_decide; exact Hi.
  - destruct (valuePhase st); exact Hi.
  - destruct (existsb _ _); exact Hi.
Qed.

Theorem enter_picks_highlighted fields recent st :
  browsing fields recent st -> valuePhase st = false -> list_of st <> [] ->
  exists f, list_of st !! Z.to_nat (active st) = Some f /\ (press Enter st).1 = pickKey f st.
Proof.
  intros Hb Hp Hl. assert (Hi : in_list st).
  { clear Hp Hl. induction Hb as [|st e _ IH He]; [|by apply press_in_list]. unfold in_list. cbn. lia. }
  unfold in_list in Hi. destruct (lookup_lt_is_Some_2 (list_of st) (Z.to_nat (active st))) as [f Hf].
  { destruct (list_of st); [done|]. cbn [length] in *. lia. }
  exists f. split; [done|]. cbn [press fst]. rewrite Hp. unfold at_index.
  destruct (list_of st) as [|x l] eqn:E; [done|]. cbn [length] in Hi.
  destruct (Z.leb_spec 0 (active st)); [|lia]. by rewrite Hf.
Qed.

(** A key picked, left and another picked: the values of the first, answered
    last, are on offer for the second. *)
Theorem values_of_another_key f g r1 r2 recent :
  fe_key f <> fe_key g ->
  let st := pressed (pickKey g (set_phase false [f; g] (pickKey f (opened_popover [f; g] recent)))) [Values 1 (Some r2); Values 0 (Some r1)] in
  picked st = Some g /\ values st = r1 /\ asked st = [] /\ valuesLoading st = false.
Proof. by repeat split. Qed.

Lemma flat_nil recent query : flat [] recent query = [].
Proof.
  unfold flat, suggest_groups, recentItems. assert (Ho : omap (fun k => omap_get k (byKey [])) recent = []) by (by induction recent).
  rewrite Ho. done.
Qed.

(** The down arrow on an empty list leaves nothing highlighted when the catalogue
    arrives: Enter takes the text typed as a key of its own, of type text, though
    the catalogue that is now on screen may have it. *)
Theorem arrow_before_catalogue q fs recent :
  truthy (trim q) = true ->
  let st := pressed (opened_popover [] recent) [KeyInput q; ArrowDown; Fields fs] in
  list_of st = flat fs recent q /\
  picked (press Enter st).1 = Some {| fe_key := trim q; fe_type := ft_string; fe_use_count := 0; fe_cardinality := 0 |}.
Proof.
  intros Ht st. split; [done|]. subst st. unfold pressed. cbn [foldl]. cbn [press fst valuePhase opened_popover highlight].
  unfold list_of. cbn [po_fields po_recent po_query highlight opened_popover]. rewrite flat_nil.
  cbn [press fst set_phase valuePhase highlight active po_query length]. change (at_index _ _) with (@None LogFieldEntry). cbv iota.
  cbn [po_query]. by rewrite Ht.
Qed.
End pickers.
