(* ===== verification/Logs.v ===== *)
(** * The log page

    components/logs/LogsView.tsx: the filters and their place in the address, the
    table with its further pages as an event machine, and the request behind an
    expanded group.  The dialog that turns the filters into an alert rule is in
    LogRules.v.

    The page is mounted with a scope that stays ([Props]).  A change of the query
    cancels the first page under way; a further page is never cancelled. *)

From S2P Require Import Prelude JsString JsUri JsArray Host Types Json JsonParse Checks Environment Client Endpoints RuleServer ListPages.

Local Open Scope char_scope.
Local Open Scope string_scope.
Local Open Scope list_scope.

Definition PAGE : Z := 100.
Definition RECENT_KEY : string := "conduit.logs.recentAttrs".
Definition is_some {A} (o : option A) : bool := match o with Some _ => true | None => false end.

(** ** Data *)

Record LogEntry := {
  le_log_id : option string;
  le_timestamp : string;
  le_observed_timestamp : string;
  le_trace_id : option string;
  le_span_id : option string;
  le_severity_number : Z;
  le_severity_text : string;
  le_service_name : string;
  le_scope_name : option string;
  le_body : string;
  le_attributes : option (list (string * string));
  le_resource_attributes : option (list (string * string));
  le_log_attributes : option (list (string * string))
}.
Record LogsResponse := { lr_logs : option (list LogEntry); lr_next_cursor : option (string * string) }.
Record LogGroup := { lg_key : string; lg_count : Z; lg_error_count : Z }.

(** A filter chip is the object of the link or of the popover. *)
Definition Attr : Type := list (string * json).
Definition member (k : string) (a : Attr) : option string :=
  match omap_get k a with Some (JStr s) => Some s | _ => None end.
Definition text (k : string) (a : Attr) : string := member k a ?? "".
Definition attr (key op value : string) : Attr := [("key", JStr key); ("op", JStr op); ("value", JStr value)].

Definition sameFilter (a b : Attr) : bool := (text "key" a =s text "key" b) && (text "op" a =s text "op" b).

Record GroupValue := { gv_by : string; gv_key : string }.
Definition no_group : GroupValue := {| gv_by := "none"; gv_key := "" |}.
Record Filters := { appliedQ : string; minSeverity : Z; attrs : list Attr }.

Record Props := { forcedIntegration : option string; forcedIntegrationId : option string; forcedService : option string }.
Definition standalone (p : Props) : bool :=
  negb (truthy_opt (forcedIntegration p)) && negb (truthy_opt (forcedIntegrationId p)) && negb (truthy_opt (forcedService p)).

Definition ALL_LOG_GROUP_DIMS : list (string * string) :=
  [("service", "Service"); ("integration", "Integration"); ("severity", "Severity"); ("attribute", "Attribute")].
Definition logGroupDims (p : Props) : list (string * string) :=
  List.filter (fun d => negb (truthy_opt (forcedIntegration p) && (d.1 =s "integration"))
                     && negb (truthy_opt (forcedService p) && (d.1 =s "service"))) ALL_LOG_GROUP_DIMS.
Definition grouped (g : GroupValue) : bool :=
  negb (gv_by g =s "none") && (negb (gv_by g =s "attribute") || negb (gv_key g =s "")).

(** The "Group by" control: its two [onChange]. *)
Definition pick_dim (by_ : string) (g : GroupValue) : GroupValue :=
  {| gv_by := by_; gv_key := if by_ =s "attribute" then gv_key g else "" |}.
Definition pick_attr (k : string) : GroupValue := {| gv_by := "attribute"; gv_key := k |}.

(** ** The address *)

Section link.
Context (round : string -> num) (Number_other : string -> option num).

(** [v as LogAttrFilter], or [null]. *)
Definition as_filter (v : json) : option Attr :=
  match v with
  | JObj a => if is_some (member "key" a) && is_some (member "op" a) && is_some (member "value" a) then Some a else None
  | _ => None
  end.
Definition hydrate_attrs (ps : params) : list Attr :=
  omap (fun raw => JSON_parse round raw ≫= as_filter) (usp_getAll ps "logattr").

(** [Number(get("logmin")) || 0], where it is a whole number. *)
Definition whole (o : option num) : option Z :=
  match o with
  | None => Some 0%Z
  | Some n => let p := (10 ^ Z.of_nat (n_scale n))%Z in if (n_mant n mod p =? 0)%Z then Some (n_mant n / p)%Z else None
  end.
Definition hydrate_min (ps : params) : option Z :=
  match usp_get ps "logmin" with None => Some 0%Z | Some s => whole (Number Number_other s) end.

Definition hydrate (ps : params) : option Filters :=
  match hydrate_min ps with
  | Some m => Some {| appliedQ := usp_get ps "logq" ?? ""; minSeverity := m; attrs := hydrate_attrs ps |}
  | None => None
  end.
Definition hydrate_group (ps : params) : GroupValue :=
  let raw := usp_get ps "loggroup" ?? "" in
  if negb (truthy raw) then no_group
  else match split ":" raw with by_ :: rest => {| gv_by := by_; gv_key := join ":" rest |} | [] => no_group end.
End link.

(** The effect that writes the address. *)
Definition put_or_drop (k v : string) (ps : params) : params := if truthy v then usp_set k v ps else usp_delete k ps.
Definition group_param (g : GroupValue) : string :=
  if gv_by g =s "none" then "" else if truthy (gv_key g) then tpl [gv_by g; ":"; gv_key g] else gv_by g.
Definition mirror (f : Filters) (g : GroupValue) (selected : option LogEntry) (prev : params) : params :=
  let next := put_or_drop "logq" (appliedQ f) prev in
  let next := if (minSeverity f =? 0)%Z then usp_delete "logmin" next else usp_set "logmin" (show_Z (minSeverity f)) next in
  let next := usp_delete "logattr" next in
  let next := foldl (fun ps a => usp_append "logattr" (stringify (JObj a)) ps) next (attrs f) in
  let next := if gv_by g =s "none" then usp_delete "loggroup" next else usp_set "loggroup" (group_param g) next in
  put_or_drop "log" ((selected ≫= le_log_id) ?? "") next.

(** ** Recently used attributes *)

(** [loadRecent]: the stored list may hold anything. *)
Definition loadRecent (round : string -> num) (stored : option string) : list json :=
  let s := if truthy_opt stored then stored ?? "" else "[]" in
  match JSON_parse round s with Some (JArr l) => take 8 l | _ => [] end.
Definition is_key (key : string) (k : json) : bool := match k with JStr s => s =s key | _ => false end.
Definition push_recent (key : string) (prev : list json) : list json :=
  take 8 (JStr key :: List.filter (fun k => negb (is_key key k)) prev).

(** ** Requests *)

Definition or_undefined (s : string) : option string := if truthy s then Some s else None.
Definition floor_or_undefined (n : Z) : option Z := if (n =? 0)%Z then None else Some n.

(** The options the list, the volume and the groups share. *)
Definition opts_of (p : Props) (f : Filters) (limit : option Z) (cursor : option (string * string)) : LogOpts := {|
  lo_q := or_undefined (appliedQ f); lo_key := None; lo_minSeverity := floor_or_undefined (minSeverity f);
  lo_service := forcedService p; lo_integration := forcedIntegration p; lo_traceId := None; lo_limit := limit;
  lo_cursor := cursor; lo_attrs := Some (JObj <$> attrs f); lo_buckets := None |}.
Definition volume_request (p : Props) (window : string) (f : Filters) : Request := logVolume (Some window) (opts_of p f None None).
Definition groups_request (p : Props) (window : string) (f : Filters) (g : GroupValue) : Request :=
  let o := opts_of p f None None in
  logGroups (Some window) (gv_by g) {|
    lo_q := lo_q o; lo_key := Some (gv_key g); lo_minSeverity := lo_minSeverity o; lo_service := lo_service o;
    lo_integration := lo_integration o; lo_traceId := None; lo_limit := None; lo_cursor := None;
    lo_attrs := lo_attrs o; lo_buckets := None |}.

Definition BAND_FLOOR : list (string * Z) := [("info", 0%Z); ("warn", 13%Z); ("error", 17%Z); ("fatal", 21%Z)].
(** [loadGroupLogs]: the options of the request behind an expanded group. *)
Definition group_opts (p : Props) (f : Filters) (g : GroupValue) (key : string) : LogOpts :=
  let o := opts_of p f (Some 100%Z) None in
  let set service integration floor attrs := {|
    lo_q := lo_q o; lo_key := None; lo_minSeverity := floor; lo_service := service; lo_integration := integration;
    lo_traceId := None; lo_limit := lo_limit o; lo_cursor := None; lo_attrs := attrs; lo_buckets := None |} in
  if gv_by g =s "service" then set (Some key) (lo_integration o) (lo_minSeverity o) (lo_attrs o)
  else if gv_by g =s "integration" then set (lo_service o) (Some key) (lo_minSeverity o) (lo_attrs o)
  else if gv_by g =s "severity" then
    set (lo_service o) (lo_integration o)
      (match omap_get key BAND_FLOOR with Some n => Some n | None => floor_or_undefined (minSeverity f) end) (lo_attrs o)
  else if gv_by g =s "attribute" then
    set (lo_service o) (lo_integration o) (lo_minSeverity o) (Some (JObj <$> attrs f ++ [attr (gv_key g) "eq" key]))
  else o.

(** ** The page as an event machine *)

(** What the first-page effect depends on; [qr_attrs_rev] stands for the
    identity of the array of chips, which every change renews. *)
Record Query := { qr_window : string; qr_filters : Filters; qr_attrs_rev : nat; qr_reload : nat }.

Definition same_deps (a b : Query) : bool :=
  (qr_window a =s qr_window b) && (appliedQ (qr_filters a) =s appliedQ (qr_filters b))
  && (minSeverity (qr_filters a) =? minSeverity (qr_filters b))%Z
  && Nat.eqb (qr_attrs_rev a) (qr_attrs_rev b) && Nat.eqb (qr_reload a) (qr_reload b).

Inductive purpose := Run | More.
Record flight := { fl_id : nat; fl_purpose : purpose; fl_query : Query; fl_cursor : option (string * string) }.

Record Bar := {
  qInput : string; typing : bool; query : Query; group : GroupValue; recent : list json; stored : option string
}.
Record Table := { logs : list LogEntry; cursor : option (string * string); hasMore : bool; selected : option LogEntry }.
Record Busy := { loading : bool; loadingMore : bool; loadingRef : bool; error : option string }.
(** [live] is the first page whose [cancelled] is still false. *)
Record Net := { flights : list flight; sent : nat; live : option nat }.
Record Page := { bar : Bar; table : Table; busy : Busy; net : Net }.

Definition set_bar (b : Bar) (st : Page) : Page := {| bar := b; table := table st; busy := busy st; net := net st |}.
Definition set_table (t : Table) (st : Page) : Page := {| bar := bar st; table := t; busy := busy st; net := net st |}.
Definition set_busy (b : Busy) (st : Page) : Page := {| bar := bar st; table := table st; busy := b; net := net st |}.
Definition set_net (n : Net) (st : Page) : Page := {| bar := bar st; table := table st; busy := busy st; net := n |}.

Definition set_query (q : Query) (b : Bar) : Bar :=
  {| qInput := qInput b; typing := typing b; query := q; group := group b; recent := recent b; stored := stored b |}.
Definition set_typing (s : string) (t : bool) (b : Bar) : Bar :=
  {| qInput := s; typing := t; query := query b; group := group b; recent := recent b; stored := stored b |}.
Definition select (l : option LogEntry) (t : Table) : Table :=
  {| logs := logs t; cursor := cursor t; hasMore := hasMore t; selected := l |}.

Definition send (p : purpose) (q : Query) (c : option (string * string)) (n : Net) : Net := {|
  flights := flights n ++ [{| fl_id := sent n; fl_purpose := p; fl_query := q; fl_cursor := c |}];
  sent := S (sent n);
  live := match p with Run => Some (sent n) | More => live n end |}.

(** The effect that loads the first page; its cleanup cancels the one before. *)
Definition first_page (st : Page) : Page :=
  let b := busy st in {|
  bar := bar st; table := select None (table st);
  busy := {| loading := true; loadingMore := loadingMore b; loadingRef := loadingRef b; error := None |};
  net := send Run (query (bar st)) None (net st) |}.

(** A new query; the effect runs when one of its dependencies has changed. *)
Definition requery (q : Query) (st : Page) : Page :=
  let st' := set_bar (set_query q (bar st)) st in
  if same_deps (query (bar st)) q then st' else first_page st'.

Definition with_q (s : string) (q : Query) : Query :=
  let f := qr_filters q in
  {| qr_window := qr_window q; qr_filters := {| appliedQ := s; minSeverity := minSeverity f; attrs := attrs f |};
     qr_attrs_rev := qr_attrs_rev q; qr_reload := qr_reload q |}.
Definition with_min (n : Z) (q : Query) : Query :=
  let f := qr_filters q in
  {| qr_window := qr_window q; qr_filters := {| appliedQ := appliedQ f; minSeverity := n; attrs := attrs f |};
     qr_attrs_rev := qr_attrs_rev q; qr_reload := qr_reload q |}.
Definition with_attrs (l : list Attr) (q : Query) : Query :=
  let f := qr_filters q in
  {| qr_window := qr_window q; qr_filters := {| appliedQ := appliedQ f; minSeverity := minSeverity f; attrs := l |};
     qr_attrs_rev := S (qr_attrs_rev q); qr_reload := qr_reload q |}.
Definition with_window (w : string) (q : Query) : Query :=
  {| qr_window := w; qr_filters := qr_filters q; qr_attrs_rev := qr_attrs_rev q; qr_reload := qr_reload q |}.
Definition reloaded (q : Query) : Query :=
  {| qr_window := qr_window q; qr_filters := qr_filters q; qr_attrs_rev := qr_attrs_rev q; qr_reload := S (qr_reload q) |}.

Definition add_attr (f : Attr) (prev : list Attr) : list Attr := List.filter (fun x => negb (sameFilter x f)) prev ++ [f].
Definition remove_attr (i : nat) (prev : list Attr) : list Attr := take i prev ++ drop (S i) prev.

Definition remember (key : string) (b : Bar) : Bar :=
  let next := push_recent key (recent b) in
  {| qInput := qInput b; typing := typing b; query := query b; group := group b; recent := next;
     stored := Some (stringify (JArr next)) |}.
Definition addFilter (f : Attr) (st : Page) : Page :=
  let st := set_bar (remember (text "key" f) (bar st)) st in
  requery (with_attrs (add_attr f (attrs (qr_filters (query (bar st))))) (query (bar st))) st.
Definition removeFilter (i : nat) (st : Page) : Page :=
  requery (with_attrs (remove_attr i (attrs (qr_filters (query (bar st))))) (query (bar st))) st.

Definition loadMore (st : Page) : Page :=
  let b := busy st in
  match cursor (table st) with
  | Some c =>
      if loadingRef b then st
      else set_net (send More (query (bar st)) (Some c) (net st))
             (set_busy {| loading := loading b; loadingMore := true; loadingRef := true; error := error b |} st)
  | None => st
  end.

(** [then], [catch] and [finally] of the two requests. *)
Definition failed (m : string) (st : Page) : Page :=
  let b := busy st in
  set_busy {| loading := loading b; loadingMore := loadingMore b; loadingRef := loadingRef b; error := Some m |} st.
Definition run_then (r : LogsResponse) (st : Page) : Page :=
  set_table {| logs := lr_logs r ?? []; cursor := lr_next_cursor r; hasMore := is_some (lr_next_cursor r);
               selected := selected (table st) |} st.
Definition more_then (r : LogsResponse) (st : Page) : Page :=
  set_table {| logs := logs (table st) ++ (lr_logs r ?? []); cursor := lr_next_cursor r;
               hasMore := is_some (lr_next_cursor r); selected := selected (table st) |} st.
Definition run_finally (st : Page) : Page :=
  let b := busy st in
  set_busy {| loading := false; loadingMore := loadingMore b; loadingRef := loadingRef b; error := error b |} st.
Definition more_finally (st : Page) : Page :=
  let b := busy st in
  set_busy {| loading := loading b; loadingMore := false; loadingRef := false; error := error b |} st.

(** [!cancelled] in the effect that sent it. *)
Definition is_live (i : nat) (n : Net) : bool := match live n with Some k => Nat.eqb k i | None => false end.

Definition settle (f : flight) (r : string + LogsResponse) (st : Page) : Page :=
  match fl_purpose f with
  | Run =>
      if is_live (fl_id f) (net st)
      then run_finally (match r with inl m => failed m st | inr a => run_then a st end)
      else st
  | More => more_finally (match r with inl m => failed m st | inr a => more_then a st end)
  end.

Definition has_id (i : nat) (f : flight) : bool := Nat.eqb (fl_id f) i.
Definition land (i : nat) (n : Net) : Net :=
  {| flights := List.filter (fun f => negb (has_id i f)) (flights n); sent := sent n; live := live n |}.

Inductive Event :=
| TypeText (s : string) | Debounce
| Level (n : Z) | AddFilter (f : Attr) | RemoveFilter (i : nat) | SetWindow (w : string) | Refresh
| GroupBy (g : GroupValue)
| Scroll
| ClickRow (l : LogEntry) (same : bool) (* [same]: the row is the selected one *)
| OpenRow (l : LogEntry) (* a row of an expanded group, or the entry of a deep link *)
| CloseDrawer
| Answer (i : nat) (r : string + LogsResponse).

Definition step (p : Props) (st : Page) (e : Event) : Page :=
  let q := query (bar st) in
  match e with
  | TypeText s => set_bar (set_typing s true (bar st)) st
  | Debounce =>
      if typing (bar st)
      then requery (with_q (trim (qInput (bar st))) q) (set_bar (set_typing (qInput (bar st)) false (bar st)) st)
      else st
  | Level n => requery (with_min n q) st
  | AddFilter f => addFilter f st
  | RemoveFilter i => removeFilter i st
  | SetWindow w => requery (with_window w q) st
  | Refresh => if standalone p && negb (loading (busy st)) then requery (reloaded q) st else st
  | GroupBy g =>
      let b := bar st in
      set_bar {| qInput := qInput b; typing := typing b; query := query b; group := g; recent := recent b; stored := stored b |} st
  | Scroll => loadMore st
  | ClickRow l same => set_table (select (if same then None else Some l) (table st)) st
  | OpenRow l => set_table (select (Some l) (table st)) st
  | CloseDrawer => set_table (select None (table st)) st
  | Answer i r =>
      match List.find (has_id i) (flights (net st)) with
      | Some f => settle f r (set_net (land i (net st)) st)
      | None => st
      end
  end.

(** The page after its first effects; the timer of the text runs once. *)
Definition opened (window : string) (f : Filters) (g : GroupValue) (recent : list json) (stored : option string) : Page :=
  first_page {|
    bar := {| qInput := appliedQ f; typing := true;
              query := {| qr_window := window; qr_filters := f; qr_attrs_rev := 0; qr_reload := 0 |};
              group := g; recent := recent; stored := stored |};
    table := {| logs := []; cursor := None; hasMore := false; selected := None |};
    busy := {| loading := true; loadingMore := false; loadingRef := false; error := None |};
    net := {| flights := []; sent := 0; live := None |} |}.

Definition runs (p : Props) (st : Page) (es : list Event) : Page := foldl (step p) st es.
Inductive reachable (p : Props) : Page -> Prop :=
| reach_opened w f g r s : reachable p (opened w f g r s)
| reach_step st e : reachable p st -> reachable p (step p st e).

(** The request of a flight. *)
Definition request_of (p : Props) (q : Query) (c : option (string * string)) : Request :=
  searchLogs (Some (qr_window q)) (opts_of p (qr_filters q) (Some PAGE) c).

(** ** Whatever the order of events *)

Definition is_more (f : flight) : bool := match fl_purpose f with More => true | Run => false end.
Definition mores (fs : list flight) : nat := length (List.filter is_more fs).

Record consistent (st : Page) : Prop := {
  co_hasMore : hasMore (table st) = is_some (cursor (table st));
  co_ref : loadingRef (busy st) = loadingMore (busy st);
  co_mores : mores (flights (net st)) = if loadingMore (busy st) then 1 else 0;
  co_fresh : Forall (fun f => fl_id f < sent (net st)) (flights (net st));
  co_ids : NoDup (fl_id <$> flights (net st));
  co_live : exists i, live (net st) = Some i /\ i < sent (net st) /\
    (loading (busy st) = true <-> i ∈ fl_id <$> flights (net st)) /\
    forall f, f ∈ flights (net st) -> fl_id f = i ->
      fl_purpose f = Run /\ fl_cursor f = None /\ fl_query f = query (bar st)
}.


Lemma same_with_q s q : same_deps q (with_q s q) = true -> with_q s q = q.
Proof. destruct q as [w [a m l] n r]. unfold same_deps. cbn. intros H. bool_prop. by subst. Qed.
Lemma same_with_min n q : same_deps q (with_min n q) = true -> with_min n q = q.
Proof. destruct q as [w [a m l] rv r]. unfold same_deps. cbn. intros H. bool_prop. by subst. Qed.
Lemma same_with_window w q : same_deps q (with_window w q) = true -> with_window w q = q.
Proof. destruct q as [w' [a m l] rv r]. unfold same_deps. cbn. intros H. bool_prop. by subst. Qed.
Lemma same_with_attrs l q : same_deps q (with_attrs l q) = false.
Proof. unfold same_deps. cbn. destruct (Nat.eqb_spec (qr_attrs_rev q) (S (qr_attrs_rev q))); [lia|]. by rewrite andb_false_r. Qed.
Lemma same_reloaded q : same_deps q (reloaded q) = false.
Proof. unfold same_deps. cbn. destruct (Nat.eqb_spec (qr_reload q) (S (qr_reload q))); [lia|]. by rewrite andb_false_r. Qed.

Lemma logs_find_flight i (fs : list flight) f : List.find (has_id i) fs = Some f -> f ∈ fs /\ fl_id f = i.
Proof.
  intros H. apply List.find_some in H as [H E]. apply Nat.eqb_eq in E. split; [|done]. by apply list_elem_of_In.
Qed.

Lemma is_live_iff i n : is_live i n = true <-> live n = Some i.
Proof.
  unfold is_live. destruct (live n) as [k|]; [|done]. rewrite Nat.eqb_eq. split; [by intros ->|by intros [= ->]].
Qed.

Lemma logs_mores_app fs gs : mores (fs ++ gs) = mores fs + mores gs.
Proof. unfold mores. rewrite List.filter_app, length_app. done. Qed.

(** Changes of the bar and of the drawer that leave the query alone. *)
Lemma consistent_set_bar b st : query b = query (bar st) -> consistent st -> consistent (set_bar b st).
Proof. intros Hq [H1 H2 H3 H4 H5 (i & H6 & HL & H7 & H8)]. split; try done. exists i. cbn. rewrite Hq. done. Qed.
Lemma consistent_select l st : consistent st -> consistent (set_table (select l (table st)) st).
Proof. by intros [H1 H2 H3 H4 H5 H6]. Qed.

Lemma first_page_consistent b st : consistent st -> consistent (first_page (set_bar b st)).
Proof.
  intros [H1 H2 H3 H4 H5 _].
  destruct (fresh_snoc fl_id (flights (net st)) {| fl_id := sent (net st); fl_purpose := Run; fl_query := query b; fl_cursor := None |} H4 H5).
  split; try done.
  - cbn -[mores]. rewrite logs_mores_app, H3. cbn. destruct (loadingMore _); done.
  - exists (sent (net st)). split; [done|]. split; [cbn; lia|]. split.
    + split; [intros _|done]. cbn [first_page net send flights set_bar]. rewrite fmap_app. apply elem_of_app. right. by apply list_elem_of_singleton.
    + intros f Hf Hi. cbn [first_page net send flights set_bar] in Hf. apply elem_of_app in Hf as [Hf|Hf].
      * rewrite Forall_forall in H4. apply H4 in Hf. cbn in *. lia.
      * apply list_elem_of_singleton in Hf. by subst f.
Qed.

Lemma requery_consistent q st : (same_deps (query (bar st)) q = true -> q = query (bar st)) -> consistent st -> consistent (requery q st).
Proof.
  intros Hq Hc. unfold requery. destruct (same_deps _ _) eqn:E; [|by apply first_page_consistent].
  apply consistent_set_bar; [by apply Hq|done].
Qed.

Lemma logs_loadMore_consistent st : consistent st -> consistent (loadMore st).
Proof.
  intros Hst. pose proof Hst as [H1 H2 H3 H4 H5 (i & H6 & HL & H7 & H8)]. unfold loadMore.
  destruct (cursor (table st)) as [c|] eqn:Hc; [|done]. destruct (loadingRef (busy st)) eqn:Hr; [done|].
  set (f := {| fl_id := sent (net st); fl_purpose := More; fl_query := query (bar st); fl_cursor := Some c |}).
  destruct (fresh_snoc fl_id (flights (net st)) f H4 H5) as [HA HB].
  split; try done.
  - cbn. by rewrite H1, Hc.
  - cbn -[mores]. rewrite logs_mores_app, H3, <- H2. done.
  - exists i. split; [done|]. split; [cbn; lia|]. cbn [loading busy set_net set_busy net send flights bar]. split.
    + rewrite H7, fmap_app, elem_of_app. cbn. rewrite list_elem_of_singleton. split; [by left|]. intros [?|?]; [done|lia].
    + intros g [Hg|Hg]%elem_of_app Hgi; [by apply H8|]. apply list_elem_of_singleton in Hg. subst g. cbn in Hgi. lia.
Qed.

Lemma removed_elem i (fs : list flight) f : f ∈ List.filter (fun g => negb (has_id i g)) fs <-> f ∈ fs /\ fl_id f <> i.
Proof. rewrite filterb_elem, negb_true_iff. unfold has_id. by rewrite Nat.eqb_neq. Qed.

Lemma removed_ids i (fs : list flight) j : j ∈ fl_id <$> List.filter (fun g => negb (has_id i g)) fs <-> j ∈ fl_id <$> fs /\ j <> i.
Proof.
  rewrite !list_elem_of_fmap. split.
  - intros (f & -> & [Hf Hi]%removed_elem). eauto.
  - intros ((f & -> & Hf) & Hi). exists f. split; [done|]. by apply removed_elem.
Qed.

(** An answer, to whom it belongs. *)
Lemma logs_settle_consistent i r st f :
  consistent st -> List.find (has_id i) (flights (net st)) = Some f -> consistent (settle f r (set_net (land i (net st)) st)).
Proof.
  intros [H1 H2 H3 H4 H5 (k & H6 & HL & H7 & H8)] HF. pose proof (logs_find_flight _ _ _ HF) as [Hin Hid].
  pose proof (removed_id_count fl_id is_more i _ f H5 HF) as HM. fold (mores (flights (net st))) in HM. rewrite H3 in HM.
  set (fs := List.filter (fun g => negb (has_id i g)) (flights (net st))) in *.
  change (List.filter (fun y => negb (Nat.eqb (fl_id y) i)) (flights (net st))) with fs in HM. fold (mores fs) in HM.
  assert (HI : Forall (fun f => fl_id f < sent (net st)) fs).
  { apply Forall_forall. intros g [Hg _]%removed_elem. rewrite Forall_forall in H4. by apply H4. }
  assert (HN : NoDup (fl_id <$> fs)) by by apply filterb_map_NoDup.
  assert (Hk : forall g, g ∈ fs -> fl_id g = k -> fl_purpose g = Run /\ fl_cursor g = None /\ fl_query g = query (bar st)).
  { intros g [Hg _]%removed_elem Hgi. by apply H8. }
  unfold settle, is_more in *. destruct (fl_purpose f) eqn:Hp; cbn [net set_net].
  - assert (HM' : mores fs = if loadingMore (busy st) then 1 else 0) by (rewrite HM; lia). clear HM.
    destruct (is_live _ _) eqn:HD.
    + apply is_live_iff in HD. cbn [live land] in HD. rewrite H6 in HD. injection HD as ->.
      destruct r as [m|a]; split; cbn -[mores]; auto;
        exists (fl_id f); (split; [done|]); (split; [done|]); (split; [|done]); (split; [done|]);
        intros [_ Hne]%removed_ids; congruence.
    + assert (HK : k <> fl_id f) by (intros ->; rewrite (proj2 (is_live_iff _ _)) in HD; [done|exact H6]).
      split; cbn -[mores]; auto. exists k. repeat (split; [done|]). split; [|done].
      fold fs. rewrite H7. unfold fs. rewrite removed_ids. split; [|tauto]. intros Hx. split; [done|]. congruence.
  - assert (Hne : k <> i).
    { intros ->. destruct (H8 f Hin Hid) as [Hr _]. congruence. }
    assert (HM' : mores fs = 0) by (destruct (loadingMore (busy st)); lia).
    destruct r as [m|a]; split; cbn -[mores]; auto;
      exists k; repeat (split; [done|]); (split; [|done]); rewrite H7; unfold fs; rewrite removed_ids; tauto.
Qed.

Lemma logs_step_consistent p st e : consistent st -> consistent (step p st e).
Proof.
  intros H. destruct e as [s| |n|f|i|w| |g| |l same|l| |i r]; cbn [step].
  - by apply consistent_set_bar.
  - destruct (typing _); [|done]. apply requery_consistent; [apply same_with_q|]. by apply consistent_set_bar.
  - apply requery_consistent; [apply same_with_min|done].
  - apply requery_consistent; [|by apply consistent_set_bar]. intros Hs. cbn in Hs. by rewrite same_with_attrs in Hs.
  - apply requery_consistent; [|done]. intros Hs. by rewrite same_with_attrs in Hs.
  - apply requery_consistent; [apply same_with_window|done].
  - destruct (_ && _); [|done]. apply requery_consistent; [|done]. intros Hs. by rewrite same_reloaded in Hs.
  - by apply consistent_set_bar.
  - by apply logs_loadMore_consistent.
  - by apply consistent_select.
  - by apply consistent_select.
  - by apply consistent_select.
  - destruct (List.find _ _) as [f|] eqn:HF; [|done]. by apply logs_settle_consistent.
Qed.

Lemma logs_reachable_consistent p st : reachable p st -> consistent st.
Proof.
  induction 1 as [w f g r s|st e _ IH]; [|by apply logs_step_consistent].
  split; try done; cbn; [by repeat constructor|apply NoDup_singleton|].
  exists 0. split; [done|]. split; [lia|]. split; [split; [intros _; by apply list_elem_of_singleton|done]|].
  intros x Hx _. apply list_elem_of_singleton in Hx. by subst x.
Qed.

(** In every state the page reaches, in any order of events: the spinner is on
    exactly while the first page of the query on screen is under way, no other
    first page can change the page any more, at most one further page is under
    way, and the flags agree. *)
Theorem only_the_current_first_page_counts p st :
  reachable p st ->
  (loading (busy st) = true <->
     exists f, f ∈ flights (net st) /\ fl_purpose f = Run /\ live (net st) = Some (fl_id f) /\ fl_query f = query (bar st)) /\
  (forall f i r, List.find (has_id i) (flights (net st)) = Some f -> fl_purpose f = Run -> fl_query f <> query (bar st) ->
     step p st (Answer i r) = set_net (land i (net st)) st) /\
  mores (flights (net st)) = (if loadingMore (busy st) then 1 else 0) /\
  loadingRef (busy st) = loadingMore (busy st) /\
  hasMore (table st) = is_some (cursor (table st)).
Proof.
  intros Hr. destruct (logs_reachable_consistent p st Hr) as [H1 H2 H3 H4 H5 (k & H6 & HL & H7 & H8)].
  split; [|split; [|done]].
  - rewrite H7. split.
    + intros (f & -> & Hf)%list_elem_of_fmap. destruct (H8 f Hf eq_refl) as (? & ? & ?). eauto.
    + intros (f & Hf & _ & Hl & _). rewrite H6 in Hl. injection Hl as ->. by apply list_elem_of_fmap_2.
  - intros f i r HF Hp Hq. cbn [step]. rewrite HF. unfold settle. rewrite Hp. cbn [net set_net land live].
    apply logs_find_flight in HF as [Hin Hid]. destruct (is_live _ _) eqn:HD; [|done].
    apply is_live_iff in HD. cbn [live land set_net net] in HD. rewrite H6 in HD. injection HD as ->.
    destruct (H8 f Hin eq_refl) as (_ & _ & ?). done.
Qed.

(** ** Pages that are not overtaken *)

Section orderly.
Context (p : Props) (search : Request -> LogsResponse).

(** The first [n] pages of a query from a cursor, as the endpoint gives them. *)
Fixpoint pages (q : Query) (n : nat) (c : option (string * string)) : list LogEntry :=
  match n with
  | O => []
  | S n => let a := search (request_of p q c) in
           (lr_logs a ?? []) ++ match lr_next_cursor a with Some c => pages q n (Some c) | None => [] end
  end.

(** Rows and cursor after some pages of a query. *)
Inductive shown (q : Query) : list LogEntry -> option (string * string) -> Prop :=
| shown_first a : a = search (request_of p q None) -> shown q (lr_logs a ?? []) (lr_next_cursor a)
| shown_more rs c a :
    shown q rs (Some c) -> a = search (request_of p q (Some c)) -> shown q (rs ++ (lr_logs a ?? [])) (lr_next_cursor a).

(** The query changes when no further page is under way, a further page is asked
    for when the first is there without an error, and the server answers by
    [search] or fails.  First pages may overtake one another. *)
Definition in_turn st (e : Event) : Prop :=
  match e with
  | Debounce | Level _ | AddFilter _ | RemoveFilter _ | SetWindow _ | Refresh => loadingMore (busy st) = false
  | Scroll => loading (busy st) = false /\ error (busy st) = None
  | Answer i (inr a) => forall f, List.find (has_id i) (flights (net st)) = Some f -> a = search (request_of p (fl_query f) (fl_cursor f))
  | _ => True
  end.
Inductive orderly : Page -> Prop :=
| orderly_opened w f g r s : orderly (opened w f g r s)
| orderly_step st e : orderly st -> in_turn st e -> orderly (step p st e).

Lemma orderly_reachable st : orderly st -> reachable p st.
Proof. induction 1; by constructor. Qed.

Definition table_shown st : Prop :=
  error (busy st) <> None \/ shown (query (bar st)) (logs (table st)) (cursor (table st)).
Definition calm st : Prop :=
  (loading (busy st) = false -> table_shown st) /\
  forall f, f ∈ flights (net st) -> fl_purpose f = More ->
    loading (busy st) = false /\ fl_query f = query (bar st) /\ fl_cursor f = cursor (table st) /\ is_some (cursor (table st)) = true.

Lemma no_mores st : consistent st -> loadingMore (busy st) = false -> forall f, f ∈ flights (net st) -> fl_purpose f <> More.
Proof.
  intros Hc Hm f Hf Hp. pose proof (co_mores _ Hc) as HM. rewrite Hm in HM. unfold mores in HM.
  assert (f ∈ List.filter is_more (flights (net st))) by (apply filterb_elem; unfold is_more; by rewrite Hp).
  destruct (List.filter _ _); [by apply elem_of_nil in H|done].
Qed.

Lemma calm_requery b q st :
  query b = query (bar st) -> (same_deps (query b) q = true -> q = query b) ->
  consistent st -> loadingMore (busy st) = false -> calm st -> calm (requery q (set_bar b st)).
Proof.
  intros Hb Hq Hco Hm [H1 H2]. unfold requery. cbn [bar set_bar]. destruct (same_deps _ _) eqn:E.
  - unfold calm, table_shown in *. cbn. rewrite (Hq eq_refl), Hb. done.
  - split; [done|]. cbn. intros f [Hf|Hf]%elem_of_app Hp; [by destruct (no_mores st Hco Hm f Hf)|].
    apply list_elem_of_singleton in Hf. by subst f.
Qed.

Lemma calm_loadMore st : calm st -> loading (busy st) = false -> calm (loadMore st).
Proof.
  intros HC Hl. pose proof HC as [H1 H2]. unfold loadMore. destruct (cursor (table st)) as [c|] eqn:Hc; [|exact HC].
  destruct (loadingRef _); [exact HC|]. unfold calm, table_shown in *. cbn. rewrite Hc in *. split; [done|].
  intros f [Hf|Hf]%elem_of_app Hp; [by apply H2|]. apply list_elem_of_singleton in Hf. by subst f.
Qed.

Lemma settle_calm st i f r :
  consistent st -> calm st -> in_turn st (Answer i r) -> List.find (has_id i) (flights (net st)) = Some f ->
  calm (settle f r (set_net (land i (net st)) st)).
Proof.
  intros Hco [H1 H2] He HF. pose proof (logs_find_flight _ _ _ HF) as [Hin Hid].
  destruct (co_live _ Hco) as (k & H6 & HL & H7 & H8). unfold settle.
  assert (Hrest : forall g, g ∈ flights (land i (net st)) -> g ∈ flights (net st)) by (by intros g [Hg _]%removed_elem).
  destruct (fl_purpose f) eqn:Hp.
  - cbn [net set_net]. destruct (is_live _ _) eqn:HD.
    + apply is_live_iff in HD. cbn [live land] in HD. rewrite H6 in HD. injection HD as ->. destruct (H8 f Hin eq_refl) as (_ & Hcur & Hq).
      assert (Hl : loading (busy st) = true) by (apply H7; by apply list_elem_of_fmap_2).
      assert (Hno : forall g, g ∈ flights (land i (net st)) -> fl_purpose g <> More).
      { intros g Hg Hgp. destruct (H2 g (Hrest g Hg) Hgp) as [? _]. congruence. }
      destruct r as [m|a]; split; cbn -[land]; try (intros g Hg Hgp; by destruct (Hno g Hg)).
      * intros _. left. done.
      * intros _. right. cbn. rewrite (He f HF), Hcur, Hq. by apply shown_first.
    + split; [exact H1|]. intros g Hg. by apply H2, Hrest.
  - destruct (H2 f Hin Hp) as (Hl & Hq & Hcur & Hc).
    assert (Hno : forall g, g ∈ flights (land i (net st)) -> fl_purpose g <> More).
    { intros g [Hg Hgi]%removed_elem Hgp. pose proof (co_mores _ Hco) as HM.
      pose proof (removed_id_count fl_id is_more i _ f (co_ids _ Hco) HF) as HR. unfold mores in HM. rewrite HM in HR.
      unfold is_more in HR at 2. rewrite Hp in HR.
      assert (Hg' : g ∈ List.filter is_more (List.filter (fun y => negb (Nat.eqb (fl_id y) i)) (flights (net st)))).
      { apply filterb_elem. split; [by apply removed_elem|]. unfold is_more. by rewrite Hgp. }
      destruct (List.filter is_more (List.filter _ _)); [by apply elem_of_nil in Hg'|]. cbn in HR. destruct (loadingMore _); lia. }
    destruct r as [m|a]; split; cbn -[land]; try (intros g Hg Hgp; by destruct (Hno g Hg)).
    + intros _. left. done.
    + intros _. destruct (H1 Hl) as [Hne|Hs]; [by left|]. right. cbn.
      rewrite (He f HF), Hq, Hcur. destruct (cursor (table st)) as [c|]; [|done]. by apply shown_more with c.
Qed.

Lemma step_calm st e : consistent st -> calm st -> in_turn st e -> calm (step p st e).
Proof.
  intros Hco Hc He. destruct e as [s| |n|f|i|w| |g| |l same|l| |i r]; cbn [step]; try exact Hc.
  - destruct (typing _); [|exact Hc]. apply calm_requery; [done|apply same_with_q|done..].
  - apply (calm_requery (bar st)); [done|apply same_with_min|done..].
  - apply calm_requery; [done| |done..]. intros Hs. cbn in Hs. by rewrite same_with_attrs in Hs.
  - apply (calm_requery (bar st)); [done| |done..]. intros Hs. by rewrite same_with_attrs in Hs.
  - apply (calm_requery (bar st)); [done|apply same_with_window|done..].
  - destruct (_ && _); [|exact Hc]. apply (calm_requery (bar st)); [done| |done..]. intros Hs. by rewrite same_reloaded in Hs.
  - apply calm_loadMore; [done|apply He].
  - destruct (List.find _ _) as [f|] eqn:HF; [|exact Hc]. by apply settle_calm.
Qed.

Lemma orderly_calm st : orderly st -> calm st.
Proof.
  induction 1 as [w f g r s|st e Ho IH He]; [|apply step_calm; [by apply logs_reachable_consistent with p, orderly_reachable|done..]].
  split; [done|]. cbn. intros x Hx. apply list_elem_of_singleton in Hx. by subst x.
Qed.

Lemma logs_shown_pages q rs cur :
  shown q rs cur -> exists n, forall m,
    pages q (n + m) None = rs ++ match cur with None => [] | Some c => pages q m (Some c) end.
Proof.
  induction 1 as [a ->|rs c a _ [n IH] ->].
  - exists 1. intros m. done.
  - exists (S n). intros m. rewrite Nat.add_succ_comm, IH. cbn [pages]. by rewrite <- app_assoc.
Qed.

(** As long as the query is left alone while a further page is under way, and no
    further page is asked for before the first has come, the table shows the
    first pages of the query on screen once the spinner is off, whatever first
    pages of other queries were overtaken, and all of them when it says there is no more. *)
Theorem orderly_table_is_prefix st :
  orderly st -> loading (busy st) = false -> error (busy st) = None ->
  exists n, logs (table st) = pages (query (bar st)) n None /\
    (hasMore (table st) = false -> forall m, pages (query (bar st)) (n + m) None = logs (table st)).
Proof.
  intros Ho Hl He. destruct (orderly_calm st Ho) as [HS _]. destruct (HS Hl) as [Hn|Hs]; [done|].
  apply logs_shown_pages in Hs as [n Hn]. exists n. split.
  - specialize (Hn 0). rewrite Nat.add_0_r in Hn. rewrite Hn. destruct (cursor _); cbn; by rewrite app_nil_r.
  - intros Hm m. rewrite Hn. pose proof (co_hasMore _ (logs_reachable_consistent p st (orderly_reachable _ Ho))) as HM.
    rewrite Hm in HM. destruct (cursor _); [done|]. by rewrite app_nil_r.
Qed.
End orderly.

(** ** Pages that are overtaken *)

Definition rows_of (r : LogsResponse) : list LogEntry := lr_logs r ?? [].

(** The cursor of the old query stays until the first page of the new one is
    there: scrolling meanwhile asks for the new query after the old cursor, and
    the answer is appended to the first page, or overwritten by it and its cursor kept. *)
Theorem scroll_while_loading_mixes p w f g r s n a1 a2 b c :
  (minSeverity f =? n)%Z = false -> lr_next_cursor a1 = Some c ->
  let st := runs p (opened w f g r s) [Answer 0 (inr a1); Level n; Scroll] in
  ((fun x => (qr_filters (fl_query x), fl_cursor x)) <$> flights (net st)) =
    [({| appliedQ := appliedQ f; minSeverity := n; attrs := attrs f |}, None);
     ({| appliedQ := appliedQ f; minSeverity := n; attrs := attrs f |}, Some c)] /\
  logs (table (runs p st [Answer 1 (inr a2); Answer 2 (inr b)])) = rows_of a2 ++ rows_of b /\
  cursor (table (runs p st [Answer 1 (inr a2); Answer 2 (inr b)])) = lr_next_cursor b.
Proof.
  intros Hn Hc. unfold runs. cbn -[Nat.eqb]. unfold requery, same_deps. cbn. rewrite !String.eqb_refl, Hn. cbn. destruct a1 as [rows1 next1]. cbn in Hc. subst next1.
  repeat split.
Qed.

(** ** The chips *)

Definition chip (a : Attr) : string * string := (text "key" a, text "op" a).
Lemma sameFilter_chip a b : sameFilter a b = true <-> chip a = chip b.
Proof. unfold sameFilter, chip. rewrite andb_true_iff, !String.eqb_eq. split; [by intros [-> ->]|by intros [= -> ->]]. Qed.

(** Adding a filter leaves one chip for its key and operator, at the end, and the
    others as they were. *)
Theorem added_filter_is_last_of_its_kind f prev :
  chip <$> add_attr f prev = List.filter (fun c => negb (bool_decide (c = chip f))) (chip <$> prev) ++ [chip f] /\
  (NoDup (chip <$> prev) -> NoDup (chip <$> add_attr f prev)) /\
  (forall a, a ∈ prev -> chip a <> chip f -> a ∈ add_attr f prev).
Proof.
  unfold add_attr.
  assert (Hf : chip <$> List.filter (fun x => negb (sameFilter x f)) prev
    = List.filter (fun c => negb (bool_decide (c = chip f))) (chip <$> prev)).
  { induction prev as [|a prev IH]; [done|]. cbn. pose proof (sameFilter_chip a f) as Hs.
    case_bool_decide as Hd; destruct (sameFilter a f); cbn; rewrite ?IH; try done.
    - by apply Hs in Hd.
    - destruct Hd. by apply Hs. }
  rewrite fmap_app, Hf. split; [done|]. split.
  - intros HN. apply NoDup_app. split; [by apply filterb_NoDup|]. split; [|apply NoDup_singleton].
    intros c [_ Hc]%filterb_elem Hs. apply list_elem_of_singleton in Hs. subst c. by rewrite bool_decide_true in Hc.
  - intros a Ha Hne. apply elem_of_app. left. apply filterb_elem. split; [done|]. apply negb_true_iff.
    destruct (sameFilter a f) eqn:E; [|done]. by apply sameFilter_chip in E.
Qed.

Lemma removed_chip i prev : length (remove_attr i prev) = (if i <? length prev then length prev - 1 else length prev)%nat.
Proof.
  unfold remove_attr. rewrite length_app, length_take, length_drop. destruct (Nat.ltb_spec i (length prev)); lia.
Qed.

(** *** Recently used *)

Lemma push_recent_keys key prev : JStr key ∈ push_recent key prev /\ (length (push_recent key prev) <= 8)%nat.
Proof. unfold push_recent. split; [by left|]. rewrite length_take. lia. Qed.

Lemma recent_NoDup key prev : NoDup prev -> NoDup (push_recent key prev).
Proof.
  intros H. unfold push_recent. set (l := JStr key :: _). enough (HN : NoDup l) by (rewrite <- (take_drop 8 l) in HN; by apply NoDup_app in HN as [HN _]).
  apply NoDup_cons. split; [|by apply filterb_NoDup]. intros [_ Hk]%filterb_elem. cbn in Hk. by rewrite String.eqb_refl in Hk.
Qed.

(** What is stored is read back at the next visit. *)
Lemma recent_read_back round (l : list json) : (length l <= 8)%nat -> Forall printable l -> loadRecent round (Some (stringify (JArr l))) = l.
Proof.
  intros Hl Hp. unfold loadRecent.
  change (truthy_opt (Some (stringify (JArr l)))) with true. cbv iota zeta. unfold default, id.
  rewrite parse_stringify by (cbn [printable]; by apply foldr_Forall).
  apply take_ge. lia.
Qed.

(** ** The link *)

Section links.
Context (round : string -> num) (Number_other : string -> option num).


Lemma usp_getAll_set_ne k k' v ps : k <> k' -> usp_getAll (usp_set k v ps) k' = usp_getAll ps k'.
Proof.
  intros Hne. unfold usp_getAll. apply String.eqb_neq in Hne as Hk. induction ps as [|q ps IH]; cbn; [by rewrite Hk|].
  destruct (fst q =s k) eqn:E; cbn.
  - rewrite Hk. apply String.eqb_eq in E. rewrite E, Hk. pose proof (usp_getAll_delete k k' ps) as Hd. rewrite String.eqb_sym, Hk in Hd. exact Hd.
  - destruct (fst q =s k'); cbn; by rewrite IH.
Qed.

(** What the effect leaves under each name. *)
Lemma put_or_drop_get k v ps : usp_get (put_or_drop k v ps) k = or_undefined v.
Proof. unfold put_or_drop, or_undefined. destruct (truthy v); [apply usp_get_set|apply usp_get_delete]. Qed.
Lemma put_or_drop_get_ne k k' v ps : k <> k' -> usp_get (put_or_drop k v ps) k' = usp_get ps k'.
Proof. intros H. unfold put_or_drop. destruct (truthy v); [by apply usp_get_set_ne|by apply usp_get_delete_ne]. Qed.
Lemma put_or_drop_getAll_ne k k' v ps : k <> k' -> usp_getAll (put_or_drop k v ps) k' = usp_getAll ps k'.
Proof.
  intros H. unfold put_or_drop. destruct (truthy v); [by apply usp_getAll_set_ne|]. rewrite usp_getAll_delete.
  apply not_eq_sym, String.eqb_neq in H as ->. done.
Qed.

Lemma append_attrs_app (l : list Attr) ps :
  foldl (fun ps a => usp_append "logattr" (stringify (JObj a)) ps) ps l = ps ++ ((fun a => ("logattr", stringify (JObj a))) <$> l).
Proof.
  revert ps. induction l as [|a l IH]; intros ps; cbn; [by rewrite app_nil_r|]. rewrite IH. unfold usp_append. by rewrite <- app_assoc.
Qed.
Lemma usp_get_app ps qs k : usp_get (ps ++ qs) k = match usp_get ps k with Some v => Some v | None => usp_get qs k end.
Proof. unfold usp_get. induction ps as [|q ps IH]; [done|]. cbn. by destruct (fst q =s k). Qed.
Lemma usp_get_attrs (l : list Attr) k : "logattr" <> k -> usp_get ((fun a => ("logattr", stringify (JObj a))) <$> l) k = None.
Proof. intros H. apply String.eqb_neq in H. unfold usp_get. induction l as [|a l IH]; [done|]. cbn -[String.eqb]. by rewrite H. Qed.
Lemma usp_getAll_attrs (l : list Attr) : usp_getAll ((fun a => ("logattr", stringify (JObj a))) <$> l) "logattr" = (fun a => stringify (JObj a)) <$> l.
Proof. unfold usp_getAll. induction l as [|a l IH]; [done|]. cbn. by f_equal. Qed.

Definition OURS : list string := ["logq"; "logmin"; "logattr"; "loggroup"; "log"].

Lemma mirror_gets f g sel prev :
  let ps := mirror f g sel prev in
  usp_get ps "logq" = or_undefined (appliedQ f) /\
  usp_get ps "logmin" = (show_Z <$> floor_or_undefined (minSeverity f)) /\
  usp_getAll ps "logattr" = (fun a => stringify (JObj a)) <$> attrs f /\
  usp_get ps "loggroup" = (if gv_by g =s "none" then None else Some (group_param g)) /\
  usp_get ps "log" = or_undefined ((sel ≫= le_log_id) ?? "") /\
  forall k, k ∉ OURS -> usp_get ps k = usp_get prev k.
Proof.
  cbv zeta. unfold mirror. rewrite append_attrs_app.
  set (p1 := put_or_drop "logq" _ _). set (p2 := if (_ =? 0)%Z then _ else _). set (p3 := usp_delete "logattr" p2).
  set (p4 := p3 ++ _). set (p5 := if _ =s _ then _ else _).
  assert (H5 : forall k, "loggroup" <> k -> usp_get p5 k = usp_get p4 k).
  { intros k Hk. unfold p5. destruct (_ =s _); [by apply usp_get_delete_ne|by apply usp_get_set_ne]. }
  assert (H5a : usp_getAll p5 "logattr" = usp_getAll p4 "logattr").
  { unfold p5. destruct (_ =s _); [by rewrite usp_getAll_delete|by apply usp_getAll_set_ne]. }
  assert (H4 : forall k, "logattr" <> k -> usp_get p4 k = usp_get p2 k).
  { intros k Hk. unfold p4. rewrite usp_get_app, usp_get_attrs by done. unfold p3. rewrite usp_get_delete_ne by done. by destruct (usp_get p2 k). }
  assert (H2 : forall k, "logmin" <> k -> usp_get p2 k = usp_get p1 k).
  { intros k Hk. unfold p2. destruct (_ =? 0)%Z; [by apply usp_get_delete_ne|by apply usp_get_set_ne]. }
  split_and!.
  - rewrite put_or_drop_get_ne, H5, H4, H2 by done. apply put_or_drop_get.
  - rewrite put_or_drop_get_ne, H5, H4 by done. unfold p2, floor_or_undefined. destruct (_ =? 0)%Z; [apply usp_get_delete|apply usp_get_set].
  - rewrite put_or_drop_getAll_ne, H5a by done. unfold p4, p3. rewrite usp_getAll_app, usp_getAll_delete, usp_getAll_attrs. done.
  - rewrite put_or_drop_get_ne by done. unfold p5. destruct (_ =s _); [apply usp_get_delete|apply usp_get_set].
  - apply put_or_drop_get.
  - intros k Hk. unfold OURS in Hk. assert (Hne : "logq" <> k /\ "logmin" <> k /\ "logattr" <> k /\ "loggroup" <> k /\ "log" <> k).
    { repeat split; intros <-; apply Hk; in_cons. }
    destruct Hne as (? & ? & ? & ? & ?). rewrite put_or_drop_get_ne, H5, H4, H2 by done. by apply put_or_drop_get_ne.
Qed.

Definition LEVELS : list Z := (fun s => s.1.2) <$> LEVEL_SEGMENTS.
(** The groupings the control produces, and the chips a link can carry. *)
Definition group_ok (g : GroupValue) : Prop :=
  no_char ":" (gv_by g) = true /\ gv_by g <> "" /\ (gv_by g = "attribute" \/ gv_key g = "").
Definition chip_ok (a : Attr) : Prop := as_filter (JObj a) = Some a /\ printable (JObj a).

Lemma attr_chip_ok key op value : chip_ok (attr key op value).
Proof. clear. split; [done|]. cbn. split; [|done]. repeat (constructor; [set_solver|]). constructor. Qed.

Lemma pick_dim_ok by_ g : by_ ∈ ("none" :: ALL_LOG_GROUP_DIMS.*1) -> group_ok (pick_dim by_ g).
Proof.
  clear. intros H. unfold pick_dim. cbn in H. rewrite !elem_of_cons in H.
  destruct H as [->|[->|[->|[->|[->|H]]]]]; [..|by apply elem_of_nil in H]; (split; [done|]); split; try done; by (right + left).
Qed.
Lemma pick_attr_ok k : group_ok (pick_attr k).
Proof. split; [done|]. split; [done|]. by left. Qed.

Lemma split_first by_ rest : no_char ":" by_ = true -> split ":" (by_ +:+ String ":" rest) = by_ :: split ":" rest.
Proof.
  induction by_ as [|c by_ IH]; [done|]. cbn [no_char]. intros [Hc Hb]%andb_true_iff. rewrite negb_true_iff in Hc.
  change (String c by_ +:+ String ":" rest) with (String c (by_ +:+ String ":" rest)). cbn [split]. rewrite Hc, IH by done. done.
Qed.
Lemma split_none by_ : no_char ":" by_ = true -> split ":" by_ = [by_].
Proof.
  induction by_ as [|c by_ IH]; [done|]. cbn [no_char]. intros [Hc Hb]%andb_true_iff. rewrite negb_true_iff in Hc.
  cbn [split]. by rewrite Hc, IH.
Qed.
Lemma truthy_false s : truthy s = false -> s = "".
Proof. by destruct s. Qed.

Lemma group_read_back g : group_ok g ->
  (if gv_by g =s "none" then None else Some (group_param g)) = None /\ g = no_group \/
  exists raw, (if gv_by g =s "none" then None else Some (group_param g)) = Some raw /\ truthy raw = true /\
    match split ":" raw with by_ :: rest => {| gv_by := by_; gv_key := join ":" rest |} | [] => no_group end = g.
Proof.
  destruct g as [by_ key]. intros (Hc & Hne & Hk). cbn in *. unfold group_param. cbn. destruct (by_ =s "none") eqn:E.
  - bool_prop. left. subst. destruct Hk as [?| ->]; done.
  - right. eexists. split; [done|]. destruct (truthy key) eqn:Ek.
    + split; [by destruct by_|]. cbn. rewrite sapp_nil_r, split_first by done. by rewrite join_split.
    + apply truthy_false in Ek as ->. split; [by destruct by_|]. by rewrite split_none.
Qed.

(** C35. The address the page writes opens the page as it was: text, level, chips,
    grouping and the log in the drawer; the other parameters stay. *)
Theorem logs_link_round_trip f g sel prev :
  minSeverity f ∈ LEVELS -> Forall chip_ok (attrs f) -> group_ok g ->
  let ps := usp_parse (usp_toString (mirror f g sel prev)) in
  hydrate round Number_other ps = Some f /\ hydrate_group ps = g /\
  usp_get ps "log" = or_undefined ((sel ≫= le_log_id) ?? "") /\
  forall k, k ∉ OURS -> usp_get ps k = usp_get prev k.
Proof.
  intros Hm Ha Hg. cbv zeta. rewrite usp_parse_toString. destruct (mirror_gets f g sel prev) as (E1 & E2 & E3 & E4 & E5 & E6).
  split; [|split; [|done]].
  - unfold hydrate, hydrate_min, hydrate_attrs. rewrite E1, E2, E3.
    assert (HA : omap (fun raw => JSON_parse round raw ≫= as_filter) ((fun a => stringify (JObj a)) <$> attrs f) = attrs f).
    { clear -Ha. induction Ha as [|a l [H1 H2] _ IH]; [done|]. rewrite fmap_cons. cbn [omap list_omap].
      rewrite parse_stringify by done. cbn [mbind option_bind]. by rewrite H1, IH. }
    rewrite HA. assert (HQ : or_undefined (appliedQ f) ?? "" = appliedQ f).
    { unfold or_undefined. destruct (truthy _) eqn:E; [done|]. by apply truthy_false in E as ->. }
    rewrite HQ. destruct f as [q0 m l]. cbn in *. rewrite !elem_of_cons in Hm.
    destruct Hm as [->|[->|[->|[->|[->|[->|H]]]]]]; [..|by apply elem_of_nil in H]; done.
  - unfold hydrate_group. rewrite E4. destruct (group_read_back g Hg) as [[-> ->]|(raw & -> & Ht & Hs)]; [done|].
    unfold default, id. by rewrite Ht.
Qed.
End links.

(** ** An expanded group *)

(** What the server reads of [min_severity], the test of a log's level, and the
    band under which the rollup counts a log. *)
Definition server_floor (o : LogOpts) : Z :=
  match lo_minSeverity o with Some n => if ((0 <? n) && (n <=? 24))%Z then n else 0%Z | None => 0%Z end.
Definition above (floor sev : Z) : bool := if (0 <? floor)%Z then (floor <=? sev)%Z else true.
Definition rollup_band (sev : Z) : string :=
  (if 21 <=? sev then "fatal" else if 17 <=? sev then "error" else if 13 <=? sev then "warn" else "info")%Z.

(** The page shows a log of this level; the rollup counts it under [key]; the
    request behind the expanded group returns it. *)
Definition on_page (p : Props) (f : Filters) (sev : Z) : bool := above (server_floor (opts_of p f (Some PAGE) None)) sev.
Definition counted (p : Props) (f : Filters) (key : string) (sev : Z) : bool := on_page p f sev && (rollup_band sev =s key).
Definition listed (p : Props) (f : Filters) (key : string) (sev : Z) : bool :=
  above (server_floor (group_opts p f {| gv_by := "severity"; gv_key := "" |} key)) sev.
Definition band_floor (key : string) : Z := omap_get key BAND_FLOOR ?? 0%Z.

Lemma listed_floor p f key sev : key ∈ BAND_FLOOR.*1 -> listed p f key sev = (if (0 <? band_floor key)%Z then (band_floor key <=? sev)%Z else true).
Proof.
  intros H. cbn in H. rewrite !elem_of_cons in H.
  destruct H as [->|[->|[->|[->|H]]]]; [..|by apply elem_of_nil in H]; done.
Qed.
Lemma on_page_floor p f sev : minSeverity f ∈ LEVELS -> on_page p f sev = (if (0 <? minSeverity f)%Z then (minSeverity f <=? sev)%Z else true).
Proof.
  intros H. unfold on_page, server_floor, opts_of, floor_or_undefined. cbn [lo_minSeverity]. cbn in H. rewrite !elem_of_cons in H.
  destruct H as [->|[->|[->|[->|[->|[->|H]]]]]]; [..|by apply elem_of_nil in H]; done.
Qed.
Lemma band_floor_nonneg key : key ∈ BAND_FLOOR.*1 -> (0 <= band_floor key)%Z.
Proof.
  intros H. cbn in H. rewrite !elem_of_cons in H. destruct H as [->|[->|[->|[->|H]]]]; [..|by apply elem_of_nil in H]; done.
Qed.
Lemma band_at_least key sev : rollup_band sev = key -> (0 < band_floor key)%Z -> (band_floor key <= sev)%Z.
Proof.
  unfold rollup_band. intros H Hp. destruct (Z.leb_spec 21 sev); [subst key; change (21 <= sev)%Z; lia|].
  destruct (Z.leb_spec 17 sev); [subst key; change (17 <= sev)%Z; lia|].
  destruct (Z.leb_spec 13 sev); subst key; [change (13 <= sev)%Z; lia|]. by change (0 < 0)%Z in Hp.
Qed.

(** Expanding a severity group lists every log the group counts; the list keeps to
    the level of the page exactly when that level is not above the floor of the
    band: the "info" group drops it, and shows debug logs below the level chosen. *)
Theorem expanded_group_keeps_level_iff p f key :
  minSeverity f ∈ LEVELS -> key ∈ BAND_FLOOR.*1 ->
  (forall sev, counted p f key sev = true -> listed p f key sev = true) /\
  ((forall sev, listed p f key sev = true -> on_page p f sev = true) <-> (minSeverity f <= band_floor key)%Z).
Proof.
  intros Hm Hk. split.
  - intros sev [_ Hb]%andb_true_iff. apply String.eqb_eq in Hb. rewrite listed_floor by done.
    destruct (Z.ltb_spec 0 (band_floor key)); [|done]. apply Z.leb_le. by apply band_at_least.
  - assert (Hm0 : (0 <= minSeverity f)%Z).
    { cbn in Hm. rewrite !elem_of_cons in Hm. destruct Hm as [->|[->|[->|[->|[->|[->|H]]]]]]; [..|by apply elem_of_nil in H]; lia. }
    split.
    + intros H. specialize (H (band_floor key)). rewrite listed_floor, on_page_floor in H by done.
      pose proof (band_floor_nonneg key Hk). destruct (Z.ltb_spec 0 (minSeverity f)); [|lia].
      apply Z.leb_le, H. destruct (Z.ltb_spec 0 (band_floor key)); [apply Z.leb_refl|done].
    + intros Hle sev. rewrite listed_floor, on_page_floor by done.
      destruct (Z.ltb_spec 0 (minSeverity f)); [|done]. destruct (Z.ltb_spec 0 (band_floor key)); [|lia].
      rewrite !Z.leb_le. lia.
Qed.

(** ** Witnesses *)

Section witnesses.
Local Definition log (service : string) (sev : Z) : LogEntry := {|
  le_log_id := Some "l1"; le_timestamp := "2026-05-12T05:15:00Z"; le_observed_timestamp := "2026-05-12T05:15:00Z"; le_trace_id := None;
  le_span_id := None; le_severity_number := sev; le_severity_text := ""; le_service_name := service; le_scope_name := None;
  le_body := "order failed"; le_attributes := None; le_resource_attributes := None; le_log_attributes := None |}.
Local Definition chips : Filters := {| appliedQ := "failed"; minSeverity := 17; attrs := [attr "service.name" "eq" "billing"; attr "http.status_code" "gte" "500"] |}.
Local Definition no_scope : Props := {| forcedIntegration := None; forcedIntegrationId := None; forcedService := None |}.
(** Two pages: the second request carries a cursor. *)
Local Definition two_pages (r : Request) : LogsResponse :=
  if includes (rq_path r) "before_ts" then {| lr_logs := Some [log "billing" 17]; lr_next_cursor := None |}
  else {| lr_logs := Some [log "billing" 21]; lr_next_cursor := Some ("t", "7") |}.
Local Definition no_number (_ : string) : num := Num 0 0.

Lemma orderly_table_is_prefix_witness :
  let st := runs no_scope (opened "1h" chips no_group [] None)
    [Level 9; Answer 0 (inr (two_pages (request_of no_scope (query (bar (opened "1h" chips no_group [] None))) None)));
     Answer 1 (inr {| lr_logs := Some [log "billing" 21]; lr_next_cursor := Some ("t", "7") |}); Scroll;
     Answer 2 (inr {| lr_logs := Some [log "billing" 17]; lr_next_cursor := None |})] in
  (loading (busy st) = false /\ error (busy st) = None) /\
  exists n, logs (table st) = pages no_scope two_pages (query (bar st)) n None /\
    (hasMore (table st) = false -> forall m, pages no_scope two_pages (query (bar st)) (n + m) None = logs (table st)).
Proof.
  cbv zeta. split; [split; by_compute|]. apply orderly_table_is_prefix; [|by_compute..].
  unfold runs. cbn [foldl]. repeat (apply orderly_step; [|first [exact I | by_compute | split; by_compute | idtac]]).
  - apply orderly_opened.
  - intros f Hf. vm_compute in Hf. injection Hf as <-. by_compute.
  - intros f Hf. vm_compute in Hf. injection Hf as <-. by_compute.
  - intros f Hf. vm_compute in Hf. injection Hf as <-. by_compute.
Defined.

Lemma logs_link_round_trip_witness :
  let ps := usp_parse (usp_toString (mirror chips (pick_attr "order:id") (Some (log "billing" 17)) [("range", "1h"); ("logq", "old")])) in
  hydrate no_number (fun _ => None) ps = Some chips /\ hydrate_group ps = pick_attr "order:id" /\
  usp_get ps "log" = or_undefined ((Some (log "billing" 17) ≫= le_log_id) ?? "") /\
  forall k, k ∉ OURS -> usp_get ps k = usp_get [("range", "1h"); ("logq", "old")] k.
Proof.
  assert (Ha : Forall chip_ok (attrs chips)) by (unfold chips; cbn [attrs]; apply Forall_cons_2; [by apply attr_chip_ok|]; apply Forall_cons_2; [by apply attr_chip_ok|]; by apply Forall_nil_2).
  assert (Hm : minSeverity chips ∈ LEVELS) by in_cons.
  exact (logs_link_round_trip no_number (fun _ => None) chips (pick_attr "order:id") (Some (log "billing" 17)) _ Hm Ha (pick_attr_ok _)).
Defined.

Lemma expanded_group_keeps_level_iff_witness :
  let f := {| appliedQ := ""; minSeverity := 9; attrs := [] |} in
  (forall sev, counted no_scope f "info" sev = true -> listed no_scope f "info" sev = true) /\
  ((forall sev, listed no_scope f "info" sev = true -> on_page no_scope f sev = true) <-> (9 <= band_floor "info")%Z).
Proof. apply (expanded_group_keeps_level_iff no_scope {| appliedQ := ""; minSeverity := 9; attrs := [] |} "info"); in_cons. Defined.

End witnesses.
