(* ===== verification/LogRules.v ===== *)
(** * From the log page to a log rule

    The dialog of components/logs/LogsView.tsx that turns the filters of the page
    into an alert rule, and what the server makes of both: the query behind the
    page ([listLogs]) and the one that counts for the rule ([CountLogs]), which go
    through the same [logPredicates] of store/clickhouse.go.

    What ClickHouse computes of two texts, and the numbers, are the operations of
    the class [ClickHouse]; the groups of conditions of an integration are an
    argument.  The window of time and the caller's access are the same for both
    and left out. *)

From S2P Require Import Prelude JsString JsUri JsArray Host Types Json JsonParse Checks Environment Client Endpoints RuleServer ListPages Logs.

Local Open Scope char_scope.
Local Open Scope string_scope.
Local Open Scope list_scope.

(** ** The dialog that makes an alert rule *)

Record Dialog := {
  dl_bindService : bool; dl_name : string; dl_severity : string; dl_threshold : Z; dl_windowN : Z;
  dl_windowUnit : string; dl_serviceName : string; dl_channelIDs : list string
}.
Definition is_service_eq (a : Attr) : bool := (text "key" a =s "service.name") && (text "op" a =s "eq").
Definition svcAttr (attrs : list Attr) : option Attr := List.find is_service_eq attrs.
Definition dialog (p : Props) (f : Filters) : Dialog := {|
  dl_bindService := false; dl_name := ""; dl_severity := "warning"; dl_threshold := 1; dl_windowN := 5; dl_windowUnit := "minutes";
  dl_serviceName := match svcAttr (attrs f) with Some a => text "value" a | None => forcedService p ?? "" end;
  dl_channelIDs := [] |}.

Definition windowSeconds (d : Dialog) : Z :=
  (if dl_windowUnit d =s "hours" then dl_windowN d * 3600
   else if dl_windowUnit d =s "minutes" then dl_windowN d * 60 else dl_windowN d)%Z.
Definition specAttrs (f : Filters) (d : Dialog) : list RuleAttrFilter :=
  (fun a => {| ra_key := text "key" a; ra_op := text "op" a; ra_value := text "value" a |}) <$>
    List.filter (fun a => negb (is_service_eq a && (text "value" a =s trim (dl_serviceName d)))) (attrs f).

(** [submit]: the message it shows, or the rule it posts. *)
Definition log_alert (p : Props) (f : Filters) (d : Dialog) : string + AlertRuleInput :=
  let scoped := truthy_opt (forcedIntegrationId p) in
  if scoped && dl_bindService d && negb (truthy (trim (dl_serviceName d)))
  then inl "Pick a service, or choose the integration-only option above."
  else inr {|
    ri_name := trim (dl_name d); ri_description := None; ri_severity := dl_severity d; ri_enabled := Some true;
    ri_channel_ids := dl_channelIDs d; ri_signal := Some "log"; ri_spec := None;
    ri_log_spec := Some {|
      ls_min_severity := minSeverity f; ls_body_contains := appliedQ f; ls_attrs := Some (specAttrs f d);
      ls_threshold := Z.max 1 (dl_threshold d); ls_window_seconds := Z.max 60 (windowSeconds d); ls_comparison := None |};
    ri_trace_error_spec := None; ri_trace_latency_spec := None; ri_trace_volume_spec := None; ri_trace_attribute_spec := None;
    ri_service_name := if scoped && negb (dl_bindService d) then None else or_undefined (trim (dl_serviceName d));
    ri_integration_id := if scoped then forcedIntegrationId p else None;
    ri_system_id := None; ri_group_id := None; ri_runbook := None; ri_title_template := None; ri_body_template := None;
    ri_notification_config := None; ri_source := None; ri_display_on_service := None; ri_unit := None;
    ri_resolve_mode := None; ri_environment_mode := None; ri_environments := None |}.

Definition toggleChannel (id : string) (prev : list string) : list string :=
  if bool_decide (id ∈ prev) then List.filter (fun x => negb (x =s id)) prev else prev ++ [id].

Definition sevLabel (n : Z) : string :=
  (if 21 <=? n then "fatal" else if 17 <=? n then "error" else if 13 <=? n then "warn"
   else if 0 <? n then tpl ["≥"; show_Z n] else "any")%Z.
Definition criteria (f : Filters) (d : Dialog) : list string :=
  [tpl ["severity: "; sevLabel (minSeverity f)]]
  ++ (if truthy (appliedQ f) then [tpl ["contains "; quoted (appliedQ f)]] else [])
  ++ ((fun a => tpl [ra_key a; " "; ra_op a; " "; ra_value a]) <$> specAttrs f d).

(** ** The query on the server *)

(** Functions of ClickHouse on texts, [strconv.ParseFloat] and [toFloat64OrNull]. *)
Class ClickHouse : Type := {
  Float64 : Type;
  positionCaseInsensitive : string -> string -> bool; (* ... > 0 *)
  hasTokenCaseInsensitive : string -> string -> bool;
  startsWithUTF8 : string -> string -> bool;
  endsWithUTF8 : string -> string -> bool;
  lower : string -> string;
  match_ : string -> string -> bool;
  ParseFloat : string -> option Float64;
  toFloat64OrNull : string -> option Float64;
  float_lt : Float64 -> Float64 -> bool;
  float_eq : Float64 -> Float64 -> bool
}.

(** A row, with its materialized environment. *)
Record LogRow := {
  lw_SeverityNumber : Z; lw_ServiceName : string; lw_Body : string; lw_Environment : string;
  lw_ResourceAttributes : list (string * string); lw_LogAttributes : list (string * string)
}.
Record EnvironmentConfig := { ec_Key : string; ec_Aliases : list (string * string) }.

Record LogQueryParams := {
  lq_Service : string; lq_ServiceIn : list string; lq_MinSeverity : Z; lq_BodyContains : string;
  lq_Attrs : list LogAttrFilter; lq_AttrGroups : LogRow -> bool
}.
Definition no_groups (_ : LogRow) : bool := true.

Definition serviceNameAttrKey : string := "service.name".
Definition EnvironmentAttrKey : string := "sluicio.environment".

Section clickhouse.
Context `{ClickHouse} (config : EnvironmentConfig).

Definition map_value (k : string) (m : list (string * string)) : string := omap_get k m ?? "".
Definition mapContains (m : list (string * string)) (k : string) : bool := is_some (omap_get k m).

Definition EnvironmentExpr (l : LogRow) : string :=
  let raw := if ec_Key config =s "" then lw_Environment l else map_value (ec_Key config) (lw_ResourceAttributes l) in
  match ec_Aliases config with [] => raw | aliases => omap_get (lower raw) aliases ?? raw end.

Definition attrEffectiveExpr (k : string) (l : LogRow) : string :=
  if mapContains (lw_LogAttributes l) k then map_value k (lw_LogAttributes l) else map_value k (lw_ResourceAttributes l).

Definition float_cmp (op : string) (x n : Float64) : bool :=
  if op =s "gt" then float_lt n x else if op =s "gte" then float_lt n x || float_eq n x
  else if op =s "lt" then float_lt x n else float_lt x n || float_eq x n.

Definition attrClause (f : LogAttrFilter) (l : LogRow) : bool :=
  let k := la_key f in let op := la_op f in let v := la_value f in
  let eff := if k =s EnvironmentAttrKey then EnvironmentExpr l
             else if k =s serviceNameAttrKey then lw_ServiceName l else attrEffectiveExpr k l in
  let there := if (k =s EnvironmentAttrKey) || (k =s serviceNameAttrKey) then negb (eff =s "")
               else mapContains (lw_LogAttributes l) k || mapContains (lw_ResourceAttributes l) k in
  if op =s "eq" then eff =s v
  else if op =s "neq" then negb (eff =s v)
  else if op =s "contains" then positionCaseInsensitive eff v
  else if op =s "not_contains" then negb (positionCaseInsensitive eff v)
  else if op =s "starts_with" then startsWithUTF8 (lower eff) (lower v)
  else if op =s "ends_with" then endsWithUTF8 (lower eff) (lower v)
  else if op =s "matches" then match_ eff v
  else if op =s "exists" then there
  else if op =s "not_exists" then negb there
  else if bool_decide (op ∈ ["gt"; "gte"; "lt"; "lte"]) then
    match ParseFloat v with
    | Some n => match toFloat64OrNull eff with Some x => float_cmp op x n | None => false end
    | None => false
    end
  else false.

Definition is_blank (c : ascii) : bool := (Ascii.eqb c " " || Ascii.eqb c "009" || Ascii.eqb c "010")%char.
Definition one_token (q : string) : bool := all_chars (fun c => negb (is_blank c)) q.
Definition body_clause (q : string) (l : LogRow) : bool :=
  if q =s "" then true
  else if one_token q then hasTokenCaseInsensitive (lw_Body l) q && positionCaseInsensitive (lw_Body l) q
  else positionCaseInsensitive (lw_Body l) q.

Definition logPredicates (p : LogQueryParams) (l : LogRow) : bool :=
  ((lq_Service p =s "") || (lw_ServiceName l =s lq_Service p))
  && (match lq_ServiceIn p with [] => true | svcs => bool_decide (lw_ServiceName l ∈ svcs) end)
  && above (lq_MinSeverity p) (lw_SeverityNumber l)
  && body_clause (lq_BodyContains p) l
  && forallb (fun f => attrClause f l) (lq_Attrs p)
  && lq_AttrGroups p l.
End clickhouse.

(** A chip as the server reads it: of the members of the object, the three of a filter. *)
Definition decoded (a : Attr) : LogAttrFilter := {| la_key := text "key" a; la_op := text "op" a; la_value := text "value" a |}.
Definition parseAttrFilters (raw : list LogAttrFilter) : string + list LogAttrFilter :=
  if (25 <? length raw)%nat then inl "too many attribute filters (max 25)" else err_map log_attr raw.

Section queries.
Context (integrationFilter integrationSignalCheckScope : string -> list string * (LogRow -> bool)) (SystemMemberNames : string -> list string).

(** The list behind the page, for a caller who may read every log. *)
Definition listLogs (p : Props) (f : Filters) : string + LogQueryParams :=
  let o := opts_of p f (Some PAGE) None in
  let body := TrimSpace (lo_q o ?? "") in
  if (256 <? String.length body)%nat then inl "q is too long"
  else
    let* attrs := parseAttrFilters (decoded <$> Logs.attrs f) in
    let int := TrimSpace (lo_integration o ?? "") in
    let scope := if int =s "" then ([], no_groups) else integrationFilter int in
    inr {| lq_Service := TrimSpace (lo_service o ?? ""); lq_ServiceIn := scope.1; lq_MinSeverity := server_floor o;
           lq_BodyContains := body; lq_Attrs := attrs; lq_AttrGroups := scope.2 |}.

(** A filter of a rule, as the query has it. *)
Definition of_rule (a : RuleAttrFilter) : LogAttrFilter := {| la_key := ra_key a; la_op := ra_op a; la_value := ra_value a |}.

(** What a log rule counts; an integration without services counts nothing. *)
Definition CountLogs (r : GoRule) (s : LogRuleSpec) : option LogQueryParams :=
  let q svcs groups := {|
    lq_Service := g_ServiceName r; lq_ServiceIn := svcs; lq_MinSeverity := ls_min_severity s; lq_BodyContains := ls_body_contains s;
    lq_Attrs := of_rule <$> (ls_attrs s ?? []);
    lq_AttrGroups := groups |} in
  match g_SystemID r, g_IntegrationID r with
  | Some id, _ => Some (q (SystemMemberNames id) no_groups)
  | None, Some id => match integrationSignalCheckScope id with ([], _) => None | (svcs, groups) => Some (q svcs groups) end
  | None, None => Some (q [] no_groups)
  end.
Definition counts `{ClickHouse} (config : EnvironmentConfig) (r : GoRule) (l : LogRow) : bool :=
  match g_Spec r with
  | SpecLog s => match CountLogs r s with Some q => logPredicates config q l | None => false end
  | _ => false
  end.
End queries.

(** ** The rule and the page *)

Section agree.
Context `{ClickHouse} (config : EnvironmentConfig).
Context (integrationFilter integrationSignalCheckScope : string -> list string * (LogRow -> bool)) (SystemMemberNames : string -> list string).
Context (uuid_Parse : string -> option string) (ValidateTemplate ValidateLiquid ParseDuration : string -> bool).
Abbreviation listLogs := (listLogs integrationFilter).
Abbreviation counts := (counts integrationSignalCheckScope SystemMemberNames config).
Abbreviation buildRule := (buildRule uuid_Parse ValidateTemplate ValidateLiquid ParseDuration).

Definition trim_key (a : LogAttrFilter) : LogAttrFilter := {| la_key := TrimSpace (la_key a); la_op := la_op a; la_value := la_value a |}.
Definition test (l : LogRow) (a : Attr) : bool := attrClause config (trim_key (decoded a)) l.

Lemma log_attrs_trimmed raw l' : err_map log_attr raw = inr l' -> l' = trim_key <$> raw.
Proof.
  rewrite err_map_Forall2. induction 1 as [|x y l l' Hx _ IH]; [done|]. rewrite fmap_cons, <- IH. f_equal.
  unfold log_attr in Hx. destruct (negb _); [done|]. destruct (negb _); [done|]. by injection Hx as <-.
Qed.
Lemma rule_attrs_trimmed raw l' : err_map rule_attr raw = inr l' -> of_rule <$> l' = trim_key ∘ of_rule <$> raw.
Proof.
  rewrite err_map_Forall2. induction 1 as [|x y l l' Hx _ IH]; [done|]. rewrite !fmap_cons, IH. f_equal.
  unfold rule_attr in Hx. destruct (negb _); [done|]. destruct (negb _); [done|]. by injection Hx as <-.
Qed.

(** A chip of one service asks for the service of the row. *)
Lemma test_service a l : is_service_eq a = true -> test l a = (lw_ServiceName l =s text "value" a).
Proof. unfold is_service_eq. intros [Hk Ho]%andb_true_iff. bool_prop. unfold test, decoded, trim_key. cbn [la_key la_op la_value]. by rewrite Hk, Ho. Qed.

Lemma find_service at' a : svcAttr at' = Some a -> a ∈ at' /\ is_service_eq a = true.
Proof. apply find_Some_elem. Qed.

(** The chips the dialog keeps, with the service it binds, ask for what all chips ask for. *)
Lemma kept_chips at' sn l :
  forallb (test l) (List.filter (fun a => negb (is_service_eq a && (text "value" a =s sn))) at') && (lw_ServiceName l =s sn)
  = forallb (test l) at' && (lw_ServiceName l =s sn).
Proof.
  destruct (_ =s sn) eqn:E; [|by rewrite !andb_false_r]. rewrite !andb_true_r. bool_prop. subst sn.
  induction at' as [|a at' IH]; [done|]. cbn [List.filter forallb]. destruct (is_service_eq a && _) eqn:Ea; cbn [negb forallb]; rewrite IH; [|done].
  apply andb_true_iff in Ea as [Hs Hv]. bool_prop. by rewrite test_service, Hv, String.eqb_refl.
Qed.
Lemma no_service_kept at' sn : svcAttr at' = None -> List.filter (fun a => negb (is_service_eq a && (text "value" a =s sn))) at' = at'.
Proof.
  intros Hn. apply filterb_all. intros a Ha. destruct (is_service_eq a) eqn:E; [|done]. apply list_elem_of_In in Ha.
  by rewrite (List.find_none _ _ Hn a Ha) in E.
Qed.
Lemma chip_asks_service at' a l : a ∈ at' -> is_service_eq a = true ->
  forallb (test l) at' = forallb (test l) at' && (lw_ServiceName l =s text "value" a).
Proof.
  intros Ha Hs. destruct (forallb _ _) eqn:E; [|done]. rewrite forallb_forall in E. rewrite <- test_service by done. symmetry. apply E. by apply list_elem_of_In.
Qed.


Lemma given_or_undefined s : or_undefined s ?? "" = s.
Proof. unfold or_undefined. destruct (truthy s) eqn:E; [done|]. by apply truthy_false in E as ->. Qed.
Lemma floor_of_level p f limit c : minSeverity f ∈ LEVELS -> server_floor (opts_of p f limit c) = minSeverity f.
Proof.
  intros Hm. unfold server_floor, opts_of, floor_or_undefined. cbn [lo_minSeverity]. cbn in Hm. rewrite !elem_of_cons in Hm.
  destruct Hm as [->|[->|[->|[->|[->|[->|Hm]]]]]]; [..|by apply elem_of_nil in Hm]; done.
Qed.

(** The page's query, read out. *)
Lemma page_query p f Q l : minSeverity f ∈ LEVELS -> listLogs p f = inr Q -> forcedIntegration p = None ->
  logPredicates config Q l =
    ((TrimSpace (forcedService p ?? "") =s "") || (lw_ServiceName l =s TrimSpace (forcedService p ?? "")))
    && above (minSeverity f) (lw_SeverityNumber l) && body_clause (TrimSpace (appliedQ f)) l && forallb (test l) (Logs.attrs f).
Proof.
  intros Hm HQ Hi. unfold LogRules.listLogs, parseAttrFilters in HQ. cbv zeta in HQ.
  rewrite floor_of_level in HQ by done. cbn [opts_of lo_q lo_integration lo_service] in HQ. rewrite given_or_undefined, Hi in HQ.
  change (TrimSpace (None ?? "") =s "") with true in HQ. cbv iota in HQ.
  destruct (_ <? _)%nat; [done|]. destruct (25 <? _)%nat; [done|]. destruct (err_map _ _) as [|l'] eqn:E; [done|].
  cbn [err_bind] in HQ. injection HQ as <-. apply log_attrs_trimmed in E as ->.
  unfold logPredicates. cbn [lq_Service lq_ServiceIn lq_MinSeverity lq_BodyContains lq_Attrs lq_AttrGroups fst snd].
  unfold no_groups. rewrite !andb_true_r. f_equal. rewrite <- list_fmap_compose. unfold test.
  induction (Logs.attrs f) as [|a at' IH]; [done|]. cbn [forallb]. rewrite fmap_cons. cbn [forallb]. by rewrite IH.
Qed.

(** The rule the server builds from the dialog, read out. *)
Lemma rule_built p f d i g : log_alert p f d = inr i -> buildRule i = inr g ->
  exists s, g_Spec g = SpecLog s /\ ls_min_severity s = minSeverity f /\ ls_body_contains s = TrimSpace (appliedQ f) /\
    (forall l, forallb (fun a => attrClause config a l) (of_rule <$> (ls_attrs s ?? [])) =
       forallb (test l) (List.filter (fun a => negb (is_service_eq a && (text "value" a =s trim (dl_serviceName d)))) (Logs.attrs f))) /\
    g_SystemID g = None /\ g_ServiceName g = TrimSpace (given (ri_service_name i)) /\
    parse_id uuid_Parse "integration_id" (ri_integration_id i) = inr (g_IntegrationID g).
Proof.
  intros Hi Hg. apply buildRule_Built in Hg as B. pose proof (bu_system _ _ _ _ _ _ B) as Hsys. pose proof (bu_spec _ _ _ _ _ _ B) as Hs.
  rewrite (bu_signal _ _ _ _ _ _ B), (bu_source _ _ _ _ _ _ B) in Hs. pose proof (bu_service _ _ _ _ _ _ B) as Hv.
  pose proof (bu_integration _ _ _ _ _ _ B) as Hint. unfold log_alert in Hi. destruct (_ && _ && _); [done|]. injection Hi as Hi.
  assert (E : ri_system_id i = None /\ ri_signal i = Some "log" /\ ri_source i = None /\ ri_log_spec i = Some {|
      ls_min_severity := minSeverity f; ls_body_contains := appliedQ f; ls_attrs := Some (specAttrs f d);
      ls_threshold := Z.max 1 (dl_threshold d); ls_window_seconds := Z.max 60 (windowSeconds d); ls_comparison := None |}) by by rewrite <- Hi.
  clear Hi. destruct E as (E1 & E2 & E3 & E4). rewrite E1 in Hsys. rewrite E2, E3 in Hs.
  change (nonempty (TrimSpace (given (Some "log"))) "metric") with "log" in Hs.
  change (nonempty (TrimSpace (given None)) "telemetry") with "telemetry" in Hs.
  unfold rule_spec in Hs. change ("log" =s "metric") with false in Hs. change ("log" =s "log") with true in Hs.
  change ("telemetry" =s "pushed") with false in Hs. cbv iota in Hs. rewrite E4 in Hs.
  apply err_bind_inr in Hs as (s & Hl & Hs). destruct (_ && is_none _); [done|]. injection Hs as Hs. exists s.
  unfold validateLogRuleSpec in Hl. cbv zeta in Hl. apply err_bind_inr in Hl as (c & _ & Hl). destruct (negb _); [done|].
  apply err_bind_inr in Hl as (at' & Ha & Hl). injection Hl as Hl. subst s. cbn [ls_min_severity ls_body_contains ls_attrs].
  split; [by rewrite <- Hs|]. split; [done|]. split; [done|]. split; [|split; [|done]].
  - intros l. rewrite omit_list_default, (rule_attrs_trimmed _ _ Ha). cbn [ls_attrs]. unfold specAttrs, default, id.
    generalize (List.filter (fun a => negb (is_service_eq a && (text "value" a =s trim (dl_serviceName d)))) (Logs.attrs f)) as L.
    intros L. induction L as [|a L IH]; [done|]. rewrite !fmap_cons. cbn [forallb]. by rewrite IH.
  - unfold parse_id in Hsys. by injection Hsys as <-.
Qed.

(** C15. Outside an integration, the rule made in the dialog counts exactly the logs the
    page lists, through the checks of both requests: the filter on a service or
    the tab of a service becomes the service the rule is bound to, the others its
    filters, read as the list reads them. *)
Theorem dialog_counts_what_page_shows p f d i g Q :
  forcedIntegration p = None -> forcedIntegrationId p = None -> minSeverity f ∈ LEVELS ->
  svcAttr (Logs.attrs f) = None \/ forcedService p = None ->
  dl_serviceName d = dl_serviceName (dialog p f) -> trim (dl_serviceName d) = dl_serviceName d -> TrimSpace (dl_serviceName d) = dl_serviceName d ->
  (dl_serviceName d = "" -> svcAttr (Logs.attrs f) = None) ->
  log_alert p f d = inr i -> buildRule i = inr g -> listLogs p f = inr Q ->
  forall l, counts g l = logPredicates config Q l.
Proof.
  intros H1 H2 Hm Hone Hd Ht Ht' Hne Hi Hg HQ l. rewrite (page_query p f Q l) by done.
  destruct (rule_built _ _ _ _ _ Hi Hg) as (s & Hspec & Hsev & Hb & Ha & Hsys & Hv & Hint). unfold log_alert in Hi. rewrite H2 in Hi.
  cbn [truthy_opt andb] in Hi. injection Hi as Hi.
  assert (Ei : ri_service_name i = or_undefined (trim (dl_serviceName d)) /\ ri_integration_id i = None) by by rewrite <- Hi.
  clear Hi. destruct Ei as [Ei Eint]. rewrite Ei in Hv. unfold given in Hv. rewrite given_or_undefined, Ht, Ht' in Hv.
  rewrite Eint in Hint. unfold parse_id in Hint. injection Hint as Hint.
  unfold LogRules.counts, CountLogs. rewrite Hspec, Hsys, <- Hint. unfold logPredicates.
  cbn [lq_Service lq_ServiceIn lq_MinSeverity lq_BodyContains lq_Attrs lq_AttrGroups]. rewrite (Ha l), Hsev, Hb, Hv, Ht, andb_true_r. unfold no_groups. rewrite andb_true_r.
  rewrite Hd in *. unfold dialog in *. cbn [dl_serviceName] in *. destruct (svcAttr (Logs.attrs f)) as [a|] eqn:Es.
  - destruct Hone as [?|Hf]; [done|]. rewrite Hf. change ((TrimSpace (None ?? "") =s "")) with true. cbn [orb andb].
    destruct (text "value" a =s "") eqn:Ee; [bool_prop; by specialize (Hne Ee)|]. cbn [orb].
    apply find_service in Es as [Hin Hs]. rewrite (chip_asks_service _ a l Hin Hs), <- (kept_chips _ (text "value" a) l).
    destruct (_ =s text "value" a); cbn [andb]; [by rewrite andb_true_r|by rewrite !andb_false_r].
  - rewrite no_service_kept by done. by destruct (forcedService p) as [sv|]; unfold default, id in *; rewrite ?Ht'.
Qed.

Lemma page_tests p f Q l : listLogs p f = inr Q -> logPredicates config Q l = true -> forallb (test l) (Logs.attrs f) = true.
Proof.
  intros HQ Hl. unfold LogRules.listLogs, parseAttrFilters in HQ. cbv zeta in HQ.
  destruct (_ <? _)%nat; [done|]. destruct (25 <? _)%nat; [done|]. destruct (err_map _ _) as [|l'] eqn:E; [done|].
  cbn [err_bind] in HQ. injection HQ as <-. apply log_attrs_trimmed in E as ->. unfold logPredicates in Hl. bool_prop.
  cbn [lq_Attrs] in *. match goal with H : forallb _ _ = true |- _ => revert H end. clear. unfold test.
  induction (Logs.attrs f) as [|a at' IH]; [done|]. rewrite !fmap_cons. cbn [forallb]. by intros [-> ->%IH]%andb_true_iff.
Qed.

(** In the tab of an integration the dialog binds no service unless told to, and
    drops the filter on one all the same: the rule counts the logs of every
    service of the integration, where the page lists those of one. *)
Theorem integration_rule_counts_every_service p f d i g Q v id :
  forcedIntegrationId p = Some id -> id <> "" -> Logs.attrs f = [attr "service.name" "eq" v] -> trim v = v ->
  dl_serviceName d = dl_serviceName (dialog p f) -> dl_bindService d = false ->
  log_alert p f d = inr i -> buildRule i = inr g -> listLogs p f = inr Q ->
  (forall l, logPredicates config Q l = true -> lw_ServiceName l = v) /\
  forall int svcs groups, g_IntegrationID g = Some int -> integrationSignalCheckScope int = (svcs, groups) ->
    forall l, counts g l = bool_decide (lw_ServiceName l ∈ svcs) && above (minSeverity f) (lw_SeverityNumber l)
                           && body_clause (TrimSpace (appliedQ f)) l && groups l.
Proof.
  intros Hid Hne Ha Ht Hd Hb Hi Hg HQ. split.
  - intros l Hl. apply (page_tests p f Q l HQ) in Hl. rewrite Ha in Hl. cbn [forallb] in Hl. rewrite test_service in Hl by done. bool_prop. done.
  - intros int svcs groups Hint Hscope l. destruct (rule_built _ _ _ _ _ Hi Hg) as (s & Hspec & Hsev & Hq & Hat & Hsys & Hv & _).
    specialize (Hat l). rewrite Hd, Ha in Hat. unfold dialog in Hat. cbn [dl_serviceName] in Hat. rewrite Ha in Hat.
    change (svcAttr [attr "service.name" "eq" v]) with (Some (attr "service.name" "eq" v)) in Hat. cbv beta iota in Hat.
    change (text "value" (attr "service.name" "eq" v)) with v in Hat. rewrite Ht in Hat. cbn [List.filter] in Hat.
    change (is_service_eq (attr "service.name" "eq" v)) with true in Hat.
    change (text "value" (attr "service.name" "eq" v)) with v in Hat. rewrite String.eqb_refl in Hat. cbn [andb negb forallb] in Hat.
    unfold log_alert in Hi. rewrite Hid, Hb in Hi. assert (Hi' : truthy_opt (Some id) = true) by by destruct id. rewrite Hi' in Hi. cbn [andb negb] in Hi.
    injection Hi as Hi. assert (Ei : ri_service_name i = None) by by rewrite <- Hi. rewrite Ei in Hv.
    unfold LogRules.counts, CountLogs. rewrite Hspec, Hsys, Hint, Hscope. destruct svcs as [|s0 svcs].
    + rewrite bool_decide_false by (by apply not_elem_of_nil). done.
    + unfold logPredicates. cbn [lq_Service lq_ServiceIn lq_MinSeverity lq_BodyContains lq_Attrs lq_AttrGroups].
      rewrite Hat, Hsev, Hq, Hv. change (TrimSpace (given None) =s "") with true. cbn [orb andb]. by rewrite andb_true_r.
Qed.

(** In the tab of a service, a rule that is not to change the service's health is
    not confined to the service either, though the dialog still names it. *)
Theorem unbound_rule_leaves_service p f d i g :
  forcedIntegrationId p = None -> svcAttr (Logs.attrs f) = None -> trim (dl_serviceName d) = "" ->
  log_alert p f d = inr i -> buildRule i = inr g ->
  forall l, counts g l = above (minSeverity f) (lw_SeverityNumber l) && body_clause (TrimSpace (appliedQ f)) l && forallb (test l) (Logs.attrs f).
Proof.
  intros Hid Ha Ht Hi Hg l. destruct (rule_built _ _ _ _ _ Hi Hg) as (s & Hspec & Hsev & Hq & Hat & Hsys & Hv & Hint).
  unfold log_alert in Hi. rewrite Hid in Hi. cbn [truthy_opt andb] in Hi. injection Hi as Hi.
  assert (Ei : ri_service_name i = or_undefined (trim (dl_serviceName d)) /\ ri_integration_id i = None) by by rewrite <- Hi.
  destruct Ei as [Ei Eint]. rewrite Ei, Ht in Hv. rewrite Eint in Hint. unfold parse_id in Hint. injection Hint as Hint.
  unfold LogRules.counts, CountLogs. rewrite Hspec, Hsys, <- Hint. unfold logPredicates.
  cbn [lq_Service lq_ServiceIn lq_MinSeverity lq_BodyContains lq_Attrs lq_AttrGroups]. rewrite (Hat l), Hsev, Hq, Hv, no_service_kept by done.
  change (TrimSpace (given (or_undefined "")) =s "") with true. cbn [orb andb]. unfold no_groups. by rewrite andb_true_r.
Qed.

End agree.

(** *** What the server says to it *)

Definition valid_attr (a : RuleAttrFilter) : bool := attrKeyRe (TrimSpace (ra_key a)) && bool_decide (ra_op a ∈ validAttrOps).
Lemma rule_attrs_valid l : (exists l', err_map rule_attr l = inr l' /\ length l' = length l) <-> forallb valid_attr l = true.
Proof.
  rewrite forallb_forall. split.
  - intros (l' & Hm & _) a Ha. apply err_map_Forall2 in Hm. apply list_elem_of_In in Ha.
    apply list_elem_of_lookup in Ha as [i Hi]. destruct (Forall2_lookup_l _ _ _ _ _ Hm Hi) as (b & _ & Hb).
    unfold rule_attr, valid_attr in *. destruct (attrKeyRe _); [|done]. by destruct (bool_decide _).
  - induction l as [|a l IH]; intros H; [by exists []|]. destruct IH as (l' & Hm & Hl); [intros x Hx; apply H; by right|].
    specialize (H a ltac:(by left)). unfold valid_attr in H. apply andb_true_iff in H as [H1 H2]. cbn [err_map].
    assert (Ha : rule_attr a = inr {| ra_key := TrimSpace (ra_key a); ra_op := ra_op a; ra_value := ra_value a |})
      by (unfold rule_attr; by rewrite H1, H2).
    rewrite Ha, Hm. cbn. eexists. split; [done|]. cbn. by f_equal.
Qed.

(** The server takes the log rule of the dialog exactly when its window is within
    45 days, every filter has a valid name and operator, and it has a criterion
    or a scope; the dialog itself asks for none of the three. *)
Theorem dialog_rule_accepted_iff ParseDuration p f d i :
  log_alert p f d = inr i ->
  let svc := TrimSpace (given (ri_service_name i)) in
  (exists s, rule_spec ParseDuration "log" "telemetry" svc (ri_integration_id i) i = inr s) <->
  (windowSeconds d <= MaxCheckWindowSeconds)%Z /\ forallb valid_attr (specAttrs f d) = true /\
  (minSeverity f <> 0%Z \/ TrimSpace (appliedQ f) <> "" \/ specAttrs f d <> [] \/ svc <> "" \/ ri_integration_id i <> None).
Proof.
  intros Hi. unfold log_alert in Hi. destruct (_ && _ && _); [done|]. injection Hi as Hi. intros svc.
  assert (Hs : ri_log_spec i = Some {|
      ls_min_severity := minSeverity f; ls_body_contains := appliedQ f; ls_attrs := Some (specAttrs f d);
      ls_threshold := Z.max 1 (dl_threshold d); ls_window_seconds := Z.max 60 (windowSeconds d); ls_comparison := None |}) by by rewrite <- Hi.
  set (q := TrimSpace (appliedQ f)). set (int := ri_integration_id i) in *.
  assert (Hw : window_ok (Z.max 60 (windowSeconds d)) = (windowSeconds d <=? MaxCheckWindowSeconds)%Z).
  { unfold window_ok, MaxCheckWindowSeconds. destruct (Z.leb_spec (windowSeconds d) 3888000); lia. }
  change (rule_spec ParseDuration "log" "telemetry" svc int i) with
    (match ri_log_spec i with
     | None => inl "log_spec is required for a log rule"
     | Some l => err_bind (validateLogRuleSpec l) (fun s =>
         if (ls_min_severity s =? 0)%Z && (ls_body_contains s =s "") && is_none (ls_attrs s) && (svc =s "") && is_none int
         then inl "a log rule needs at least one match criterion (min severity, text, or attribute) or a service/integration scope"
         else inr (SpecLog s))
     end).
  rewrite Hs. unfold validateLogRuleSpec. cbn [ls_comparison ls_window_seconds ls_attrs ls_threshold ls_min_severity ls_body_contains given].
  cbn [default String.eqb orb err_bind]. rewrite Hw. clear Hi Hs Hw.
  change ((given None =s "") || (given None =s "at_least")) with true. unfold id. cbv iota. cbn [err_bind].
  destruct (Z.leb_spec (windowSeconds d) MaxCheckWindowSeconds) as [Hw|Hw]; cbn [negb err_bind].
  2: { split; [by intros [? ?]|]. intros [? _]. lia. }
  pose proof (rule_attrs_valid (specAttrs f d)) as Hv.
  destruct (err_map rule_attr (specAttrs f d)) as [m|l'] eqn:E; cbn [err_bind].
  { split; [by intros [? ?]|]. intros (_ & HV & _). apply Hv in HV as (? & ? & ?). congruence. }
  assert (HV : forallb valid_attr (specAttrs f d) = true).
  { apply Hv. exists l'. split; [done|]. apply err_map_Forall2 in E. symmetry. by eapply Forall2_length. }
  assert (Hl : is_none (omit_list l') = bool_decide (specAttrs f d = [])).
  { apply err_map_Forall2 in E. destruct E; [done|]. by rewrite bool_decide_false. }
  cbn [ls_min_severity ls_body_contains ls_attrs]. rewrite Hl. fold q.
  assert (Hint : is_none int = bool_decide (int = None)) by by destruct int.
  rewrite Hint. destruct (Z.eqb_spec (minSeverity f) 0) as [Hm|Hm]; cbn [andb]; [|split; [intros _; tauto|intros _; by eexists]].
  destruct (String.eqb_spec q "") as [Hq|Hq]; cbn [andb]; [|split; [intros _; tauto|intros _; by eexists]].
  destruct (bool_decide_reflect (specAttrs f d = [])) as [Ha|Ha]; cbn [andb]; [|split; [intros _; tauto|intros _; by eexists]].
  destruct (String.eqb_spec svc "") as [Hsv|Hsv]; cbn [andb]; [|split; [intros _; tauto|intros _; by eexists]].
  case_bool_decide as Hi; [|split; [intros _; tauto|intros _; by eexists]].
  split; [by intros [? ?]|]. intros (_ & _ & H). tauto.
Qed.

(** ** Witnesses *)

Section witnesses.
#[local] Instance toy_db : ClickHouse := {|
  Float64 := Z; positionCaseInsensitive := includes; hasTokenCaseInsensitive := includes;
  startsWithUTF8 := startsWith; endsWithUTF8 := String.eqb; lower := fun s => s; match_ := String.eqb;
  ParseFloat := fun s => Some (Z.of_nat (String.length s)); toFloat64OrNull := fun s => Some (Z.of_nat (String.length s));
  float_lt := Z.ltb; float_eq := Z.eqb |}.
Local Definition no_scope : Props := {| forcedIntegration := None; forcedIntegrationId := None; forcedService := None |}.
Local Definition chips : Filters :=
  {| appliedQ := "failed"; minSeverity := 17; attrs := [attr "service.name" "eq" "billing"; attr " http.status_code" "gte" "500"] |}.
Local Definition named : Dialog := {|
  dl_bindService := false; dl_name := "Order errors"; dl_severity := "warning"; dl_threshold := 1; dl_windowN := 5; dl_windowUnit := "minutes";
  dl_serviceName := "billing"; dl_channelIDs := [] |}.
Local Definition config : EnvironmentConfig := {| ec_Key := ""; ec_Aliases := [] |}.
Local Definition nothing (_ : string) : list string * (LogRow -> bool) := ([], no_groups).
Local Definition fine (_ : string) : bool := true.

Lemma dialog_counts_what_page_shows_witness :
  exists i g Q, log_alert no_scope chips named = inr i /\ buildRule Some fine fine fine i = inr g /\
    listLogs nothing no_scope chips = inr Q /\
    forall l, counts nothing (fun _ => []) config g l = logPredicates config Q l.
Proof.
  do 3 eexists. split; [by vm_compute|]. split; [by vm_compute|]. split; [by vm_compute|].
  eapply (dialog_counts_what_page_shows config nothing nothing (fun _ => []) Some fine fine fine no_scope chips named);
    [done|done|in_cons|by right|by_compute|by_compute|by_compute|intros Hv; by vm_compute in Hv|by_compute..].
Defined.

Lemma dialog_rule_accepted_iff_witness :
  exists i, log_alert no_scope chips (dialog no_scope chips) = inr i /\
  let svc := TrimSpace (given (ri_service_name i)) in
  (exists s, rule_spec (fun _ => true) "log" "telemetry" svc (ri_integration_id i) i = inr s) <->
  (windowSeconds (dialog no_scope chips) <= MaxCheckWindowSeconds)%Z /\ forallb valid_attr (specAttrs chips (dialog no_scope chips)) = true /\
  (minSeverity chips <> 0%Z \/ TrimSpace (appliedQ chips) <> "" \/ specAttrs chips (dialog no_scope chips) <> [] \/ svc <> "" \/ ri_integration_id i <> None).
Proof. eexists. split; [reflexivity|]. apply (dialog_rule_accepted_iff (fun _ => true) no_scope chips (dialog no_scope chips)). reflexivity. Defined.
End witnesses.
