(* ===== verification/Metrics.v ===== *)
(** * The metric explorer

    components/metrics/MetricsExplorer.tsx: the scope of the page, its deep link
    (what lib/metricCheckHref.ts writes, Checks.v), the chips, the requests and
    the rows of the catalogue.  The list of groups is the one of Rollup.v. *)

From S2P Require Import Prelude JsString JsUri JsArray Host Types Json JsonParse Checks Client Endpoints Rollup.

Local Open Scope char_scope.
Local Open Scope string_scope.
Local Open Scope list_scope.

Record MetricCatalogEntry := {
  ce_name : string;
  ce_type : string;
  ce_unit : option string;
  ce_aggregation : string;
  ce_value : num;
  ce_spark : list num;
  ce_series_count : Z;
  ce_point_count : Z;
  ce_last_seen : string;
  ce_rule_count : Z;
  ce_threshold : option num;
  ce_severity : option string
}.
Record MetricCatalogRichResponse := {
  cr_window : Window; cr_step_seconds : Z; cr_total_series : Z; cr_rule_count : Z;
  cr_metrics : option (list MetricCatalogEntry)
}.

Definition TYPE_TABS : list (string * string) :=
  [("All", "all"); ("Counter", "counter"); ("Gauge", "gauge"); ("Histogram", "histogram")].
Definition GROUP_DIMS : list (string * string) :=
  [("service", "Service"); ("integration", "Integration"); ("type", "Type"); ("attribute", "Attribute")].

(** ** The scope *)

Record Scope := { serviceProp : option string; integrationProp : option string }.
Definition or_else (a b : option string) : option string := if truthy_opt a then a else b.
Definition mounted_scope (p : Scope) : bool := truthy_opt (serviceProp p) || truthy_opt (integrationProp p).
Definition url_scope (k : string) (p : Scope) (ps : params) : string := if mounted_scope p then "" else usp_get ps k ?? "".
Definition some_text (s : string) : option string := if truthy s then Some s else None.
Definition service (p : Scope) (ps : params) : option string := or_else (serviceProp p) (some_text (url_scope "service" p ps)).
Definition integration (p : Scope) (ps : params) : option string := or_else (integrationProp p) (some_text (url_scope "integration" p ps)).
Definition scopedByUrl (p : Scope) (ps : params) : bool := truthy (url_scope "service" p ps) || truthy (url_scope "integration" p ps).
Definition clearUrlScope (ps : params) : params := usp_delete "integration" (usp_delete "service" ps).
(** The chip of a scope that arrived in the address. *)
Definition scope_chip (p : Scope) (ps : params) : option (string * string) :=
  if scopedByUrl p ps
  then Some (if truthy (url_scope "service" p ps) then ("service", url_scope "service" p ps)
             else ("integration", url_scope "integration" p ps))
  else None.
Definition allowGroups (p : Scope) (ps : params) : bool := negb (truthy_opt (service p ps)) && negb (truthy_opt (integration p ps)).
Definition grouped (p : Scope) (ps : params) (by_ key : string) : bool :=
  allowGroups p ps && negb (by_ =s "none") && (negb (by_ =s "attribute") || negb (key =s "")).

(** ** The deep link *)

Definition hydrate_query (ps : params) : string := usp_get ps "metric" ?? "".

Section link.
Context (round : string -> num) (String_of : json -> string).

Definition truthy_json (j : json) : bool :=
  match j with
  | JNull => false | JBool b => b | JNum n => negb (n_mant n =? 0)%Z | JStr s => truthy s | JArr _ | JObj _ => true
  end.
Definition String_ (j : json) : string := match j with JStr s => s | JNum n => show_num n | JBool b => if b then "true" else "false" | _ => String_of j end.
Definition field (k : string) (j : json) : json := match j with JObj m => omap_get k m ?? JNull | _ => JNull end.

(** [a.op || "eq"]; an operator that is neither text nor falsy is outside of the model. *)
Definition op_of (j : json) : option string :=
  if truthy_json j then match j with JStr s => Some s | _ => None end else Some "eq".
Definition chip_of (a : json) : option LogAttrFilter :=
  match op_of (field "op" a) with
  | Some o => Some {| la_key := String_ (field "key" a); la_op := o; la_value := String_ (field "value" a) |}
  | None => None
  end.
Definition hydrate_chips (ps : params) : option (list LogAttrFilter) :=
  let raw := usp_get ps "mattr" ?? "" in
  if negb (truthy raw) then Some []
  else match JSON_parse round raw with
  | Some (JArr l) => mapM chip_of (List.filter (fun a => truthy_json (field "key" a) && truthy_json (field "value" a)) l)
  | _ => Some []
  end.
End link.

(** ** The chips *)

#[export] Instance LogAttrFilter_eq_dec : EqDecision LogAttrFilter.
Proof. solve_decision. Defined.

Definition addChip (f : LogAttrFilter) (cur : list LogAttrFilter) : list LogAttrFilter :=
  if List.existsb (fun c => (la_key c =s la_key f) && (la_op c =s la_op f) && (la_value c =s la_value f)) cur then cur else cur ++ [f].
Definition removeChip (i : nat) (cur : list LogAttrFilter) : list LogAttrFilter := take i cur ++ drop (S i) cur.
Definition is_eq (key value : string) (c : LogAttrFilter) : bool := (la_key c =s key) && (la_op c =s "eq") && (la_value c =s value).
Definition isEqFilterActive (key value : string) (chips : list LogAttrFilter) : bool := List.existsb (is_eq key value) chips.
(** The first match is removed, or the filter appended. *)
Fixpoint drop_first (p : LogAttrFilter -> bool) (l : list LogAttrFilter) : list LogAttrFilter :=
  match l with [] => [] | c :: l => if p c then l else c :: drop_first p l end.
Definition toggleEqFilter (key value : string) (cur : list LogAttrFilter) : list LogAttrFilter :=
  if isEqFilterActive key value cur then drop_first (is_eq key value) cur
  else cur ++ [{| la_key := key; la_op := "eq"; la_value := value |}].

(** ** Requests *)

Definition filter_json (f : LogAttrFilter) : json :=
  JObj [("key", JStr (la_key f)); ("op", JStr (la_op f)); ("value", JStr (la_value f))].
Record MQuery := { mq_window : string; mq_text : string; mq_type : string; mq_chips : list LogAttrFilter }.
Definition catalog_request (p : Scope) (ps : params) (q : MQuery) : Request :=
  metricCatalog (Some (mq_window q)) {|
    mo_q := Some (mq_text q); mo_key := None; mo_type := Some (mq_type q); mo_service := service p ps;
    mo_integration := integration p ps; mo_limit := Some 100%Z; mo_attrs := Some (filter_json <$> mq_chips q) |}.
Definition groups_request (by_ key : string) (q : MQuery) : Request :=
  metricGroups (Some (mq_window q)) by_ {|
    mo_q := some_text (mq_text q); mo_key := Some key; mo_type := Some (mq_type q); mo_service := None;
    mo_integration := None; mo_limit := None; mo_attrs := Some (filter_json <$> mq_chips q) |}.
(** [loadGroupMetrics]. *)
Definition group_request (p : Scope) (ps : params) (by_ key : string) (q : MQuery) (g : string) : Request :=
  let eq := {| la_key := key; la_op := "eq"; la_value := g |} in
  metricCatalog (Some (mq_window q)) {|
    mo_q := some_text (mq_text q); mo_key := None;
    mo_type := Some (if by_ =s "type" then g else mq_type q);
    mo_service := if by_ =s "service" then Some g else service p ps;
    mo_integration := if by_ =s "integration" then Some g else None;
    mo_limit := None;
    mo_attrs := Some (filter_json <$> (if by_ =s "attribute" then mq_chips q ++ [eq] else mq_chips q)) |}.

(** ** The rows *)

Section rows.
Context `{Host}.
Definition visible (query : string) (metrics : list MetricCatalogEntry) : list MetricCatalogEntry :=
  if truthy query then List.filter (fun m => includes (toLowerCase (ce_name m)) (toLowerCase query)) metrics else metrics.
End rows.
Definition metrics_of (resp : option MetricCatalogRichResponse) : list MetricCatalogEntry := (resp ≫= cr_metrics) ?? [].
Definition focusedMetric (selected : option MetricCatalogEntry) (query : string) (resp : option MetricCatalogRichResponse) : string :=
  match selected with
  | Some m => ce_name m
  | None => let q := trim query in if truthy q && List.existsb (fun m => ce_name m =s q) (metrics_of resp) then q else ""
  end.
(** The effect that binds the selected metric to its fresh row, and the click on a row. *)
Definition rebind (resp : option MetricCatalogRichResponse) (cur : option MetricCatalogEntry) : option MetricCatalogEntry :=
  match cur with
  | None => None
  | Some c => match List.find (fun m => ce_name m =s ce_name c) (metrics_of resp) with Some m => Some m | None => Some c end
  end.
Definition click_row (m : MetricCatalogEntry) (cur : option MetricCatalogEntry) : option MetricCatalogEntry :=
  match cur with Some c => if ce_name c =s ce_name m then None else Some m | None => Some m end.
Definition capped (resp : option MetricCatalogRichResponse) : bool := (100 <=? length (metrics_of resp))%nat.

(** ** The catalogue as an event machine

    A change of the query sends a request; none is ever cancelled. *)

Record Catalogue := {
  ct_query : MQuery; ct_resp : option MetricCatalogRichResponse; ct_loading : bool; ct_error : option string;
  ct_flights : list (nat * MQuery); ct_sent : nat
}.
Definition ask (q : MQuery) (st : Catalogue) : Catalogue := {|
  ct_query := q; ct_resp := ct_resp st; ct_loading := true; ct_error := None;
  ct_flights := ct_flights st ++ [(ct_sent st, q)]; ct_sent := S (ct_sent st) |}.
Definition landed (i : nat) (r : string + MetricCatalogRichResponse) (st : Catalogue) : Catalogue :=
  if List.existsb (fun f => Nat.eqb f.1 i) (ct_flights st) then {|
    ct_query := ct_query st; ct_resp := match r with inr a => Some a | inl _ => ct_resp st end; ct_loading := false;
    ct_error := match r with inl m => Some m | inr _ => ct_error st end;
    ct_flights := List.filter (fun f => negb (Nat.eqb f.1 i)) (ct_flights st); ct_sent := ct_sent st |}
  else st.
Definition catalogue_opened (q : MQuery) : Catalogue :=
  ask q {| ct_query := q; ct_resp := None; ct_loading := true; ct_error := None; ct_flights := []; ct_sent := 0 |}.

(** ** A check's link opens the slice the check judges *)

Lemma not_truthy_text o : truthy_opt o = false -> o ?? "" = "".
Proof. by destruct o as [[|]|]. Qed.

Section opens.
Context (round : string -> num) (String_of : json -> string).

Definition attr_json (a : RuleAttrFilter) : json :=
  JObj [("key", JStr (ra_key a)); ("op", JStr (ra_op a)); ("value", JStr (ra_value a))].
Definition carried (a : RuleAttrFilter) : bool := truthy (ra_key a) && truthy (ra_value a).
Definition as_chip (a : RuleAttrFilter) : LogAttrFilter :=
  {| la_key := ra_key a; la_op := if truthy (ra_op a) then ra_op a else "eq"; la_value := ra_value a |}.

Lemma attr_json_printable a : printable (attr_json a).
Proof. clear. cbn. split; [|done]. repeat (constructor; [set_solver|]). constructor. Qed.

Lemma attrs_printable l : printable (JArr (attr_json <$> l)).
Proof. clear. cbn [printable]. apply foldr_Forall. induction l; constructor; auto using attr_json_printable. Qed.

Lemma chips_read_back (l : list RuleAttrFilter) ps :
  usp_get ps "mattr" = (match l with [] => None | _ => Some (stringify (JArr (attr_json <$> l))) end) ->
  Forall (fun a => carried a = true) l -> hydrate_chips round String_of ps = Some (as_chip <$> l).
Proof.
  intros Hg Hl. unfold hydrate_chips. rewrite Hg. destruct l as [|a l]; [done|]. unfold default, id.
  change (truthy (stringify (JArr (attr_json <$> a :: l)))) with true. cbv iota. cbn [negb].
  rewrite parse_stringify by apply attrs_printable.
  clear Hg. induction Hl as [|b m Hb _ IH]; [done|]. rewrite fmap_cons. cbn [List.filter].
  unfold carried in Hb. change (truthy_json (field "key" (attr_json b)) && truthy_json (field "value" (attr_json b))) with (truthy (ra_key b) && truthy (ra_value b)).
  rewrite Hb. cbn [mapM]. rewrite IH. unfold chip_of. change (field "op" (attr_json b)) with (JStr (ra_op b)). unfold op_of. cbn [truthy_json].
  rewrite fmap_cons. destruct (truthy (ra_op b)) eqn:E; cbn; do 2 f_equal; unfold as_chip; by rewrite E.
Qed.

(** C39. The link of a metric check opens the explorer on the metric of the rule, with the
    predicates of the rule that have a value as chips, confined to the service or
    the integration of the check; a predicate without a value does not travel. *)
Theorem check_link_opens_slice `{Host} rule inst scope now href :
  metricCheckHref rule inst scope now = Some href ->
  let ps := query_of href in
  let page := {| serviceProp := None; integrationProp := None |} in
  hydrate_query ps = trim (ms_metric_name (ar_spec rule)) /\
  hydrate_chips round String_of ps = Some (as_chip <$> List.filter carried (ms_attrs (ar_spec rule) ?? [])) /\
  service page ps = some_text ((scope ≫= cl_service) ?? "") /\
  integration page ps = (if truthy_opt (scope ≫= cl_service) then None else some_text ((scope ≫= cl_integration) ?? "")).
Proof.
  unfold metricCheckHref. destruct (_ || _); [done|]. destruct (truthy (trim _)) eqn:Hm; [|done]. cbn [negb].
  set (l := List.filter _ _). cbv zeta. intros Hh. apply (f_equal (fun o => o ?? "")) in Hh. unfold default, id in Hh. rewrite <- Hh. clear Hh.
  assert (Hq : forall ps, query_of (tpl ["/metrics?"; usp_toString ps]) = ps).
  { intros ps. cbn [tpl foldr]. rewrite sapp_nil_r. change ("/metrics?" +:+ usp_toString ps) with ("/metrics" +:+ String "?" (usp_toString ps)).
    rewrite query_of_cut by done. apply usp_parse_toString. }
  rewrite Hq. clear Hq.
  set (p0 := usp_set "metric" _ []). set (p1 := match l with [] => p0 | _ => _ end).
  set (p2 := if truthy_opt (scope ≫= cl_service) then _ else _). set (p3 := match inst with Some _ => _ | None => _ end).
  assert (H3 : forall k, "range" <> k -> usp_get p3 k = usp_get p2 k).
  { intros k Hk. unfold p3. destruct inst as [x|]; [|done]. destruct (truthy (ai_started_at x)); [by apply usp_get_set_ne|done]. }
  assert (H2 : forall k, "service" <> k -> "integration" <> k -> usp_get p2 k = usp_get p1 k).
  { intros k Hs Hi. unfold p2. destruct (truthy_opt (scope ≫= cl_service)); [by apply usp_get_set_ne|]. destruct (truthy_opt (scope ≫= cl_integration)); [by apply usp_get_set_ne|done]. }
  assert (H1 : forall k, "mattr" <> k -> "metric" <> k -> usp_get p1 k = None).
  { intros k Ha Hk. unfold p1. destruct l; [by apply usp_get_set_ne|]. rewrite usp_get_set_ne by done. by apply usp_get_set_ne. }
  split_and!.
  - unfold hydrate_query. rewrite H3, H2 by done. unfold p1. destruct l; [by unfold p0; rewrite usp_get_set|].
    rewrite usp_get_set_ne by done. unfold p0. by rewrite usp_get_set.
  - apply chips_read_back.
    + rewrite H3, H2 by done. unfold p1. destruct l; [done|]. apply usp_get_set.
    + apply Forall_forall. intros a [_ Ha]%filterb_elem. exact Ha.
  - unfold service, url_scope. cbn [mounted_scope serviceProp integrationProp or_else truthy_opt orb]. rewrite H3 by done.
    unfold p2. destruct (truthy_opt (scope ≫= cl_service)) eqn:Es.
    + rewrite usp_get_set. done.
    + rewrite (not_truthy_text (scope ≫= cl_service)) by done. destruct (truthy_opt (scope ≫= cl_integration)); [rewrite usp_get_set_ne by done|]; by rewrite H1.
  - unfold integration, url_scope. cbn [mounted_scope serviceProp integrationProp or_else truthy_opt orb]. rewrite H3 by done.
    unfold p2. destruct (truthy_opt (scope ≫= cl_service)) eqn:Es.
    + rewrite usp_get_set_ne by done. by rewrite H1.
    + destruct (truthy_opt (scope ≫= cl_integration)) eqn:Ei; [by rewrite usp_get_set|].
      rewrite (not_truthy_text (scope ≫= cl_integration)) by done. by rewrite H1.
Qed.
End opens.

(** ** Chips *)

Lemma is_eq_iff key value c : is_eq key value c = true <-> c = {| la_key := key; la_op := "eq"; la_value := value |}.
Proof.
  destruct c as [k o v]. unfold is_eq. cbn. rewrite !andb_true_iff, !String.eqb_eq. split; [by intros [[-> ->] ->]|by intros [= -> -> ->]].
Qed.
Lemma drop_first_elem p l c : c ∈ drop_first p l -> c ∈ l.
Proof. induction l as [|d l IH]; [done|]. cbn. destruct (p d); [by right|]. rewrite !elem_of_cons. tauto. Qed.
Lemma drop_first_NoDup p l : NoDup l -> NoDup (drop_first p l).
Proof.
  induction 1 as [|d l Hd Hl IH]; [constructor|]. cbn. destruct (p d); [done|]. constructor; [|done]. contradict Hd. by eapply drop_first_elem.
Qed.
Lemma active_elem key value l : isEqFilterActive key value l = true <-> {| la_key := key; la_op := "eq"; la_value := value |} ∈ l.
Proof.
  unfold isEqFilterActive. rewrite existsb_elem. split; [by intros (c & Hc & ->%is_eq_iff)|].
  intros Hc. eexists. split; [exact Hc|]. by apply is_eq_iff.
Qed.
Lemma dropped_not_elem key value l : NoDup l ->
  {| la_key := key; la_op := "eq"; la_value := value |} ∉ drop_first (is_eq key value) l.
Proof.
  induction 1 as [|d l Hd Hl IH]; [by intros ?%elem_of_nil|]. cbn. destruct (is_eq key value d) eqn:E.
  - apply is_eq_iff in E. by subst d.
  - intros [<-|?]%elem_of_cons; [|done]. by rewrite (proj2 (is_eq_iff _ _ _)) in E.
Qed.

(** The chips stay distinct, and a click on a value of the drawer turns its filter
    on or off and leaves the others alone. *)
Theorem toggled_filter_flips key value chips :
  NoDup chips ->
  NoDup (toggleEqFilter key value chips) /\
  isEqFilterActive key value (toggleEqFilter key value chips) = negb (isEqFilterActive key value chips) /\
  (forall c, c <> {| la_key := key; la_op := "eq"; la_value := value |} -> (c ∈ toggleEqFilter key value chips <-> c ∈ chips)).
Proof.
  intros HN. unfold toggleEqFilter. destruct (isEqFilterActive key value chips) eqn:E.
  - split; [by apply drop_first_NoDup|]. split.
    + apply not_true_iff_false. rewrite active_elem. by apply dropped_not_elem.
    + intros c Hc. split; [apply drop_first_elem|]. clear HN E. induction chips as [|d l IH]; [done|]. cbn.
      destruct (is_eq key value d) eqn:Ed; rewrite !elem_of_cons; [|tauto]. apply is_eq_iff in Ed. subst d. by intros [?|?].
  - assert (Hn : {| la_key := key; la_op := "eq"; la_value := value |} ∉ chips) by (by rewrite <- active_elem, E).
    split; [|split].
    + apply NoDup_app. split; [done|]. split; [|apply NoDup_singleton]. intros c Hc Hs. apply list_elem_of_singleton in Hs. by subst c.
    + apply active_elem, elem_of_app. right. by apply list_elem_of_singleton.
    + intros c Hc. rewrite elem_of_app, list_elem_of_singleton. tauto.
Qed.

Lemma addChip_NoDup f chips : NoDup chips -> NoDup (addChip f chips) /\ f ∈ addChip f chips.
Proof.
  intros HN. unfold addChip. destruct (List.existsb _ chips) eqn:E.
  - split; [done|]. apply existsb_elem in E as (c & Hc & Hf). bool_prop. destruct c, f. cbn in *. by subst.
  - split; [|apply elem_of_app; right; by apply list_elem_of_singleton].
    apply NoDup_app. split; [done|]. split; [|apply NoDup_singleton]. intros c Hc Hs. apply list_elem_of_singleton in Hs. subst c.
    assert (Ht : List.existsb (fun c => (la_key c =s la_key f) && (la_op c =s la_op f) && (la_value c =s la_value f)) chips = true).
    { apply existsb_elem. exists f. by rewrite !String.eqb_refl. }
    congruence.
Qed.

(** ** Scope *)

(** Where the page is mounted decides; elsewhere the scope of the address holds until
    it is cleared, which touches nothing else. *)
Theorem scope_of_the_page p ps :
  (mounted_scope p = true -> service p ps = or_else (serviceProp p) None /\ integration p ps = or_else (integrationProp p) None /\ scope_chip p ps = None) /\
  (scope_chip p (clearUrlScope ps) = None) /\
  (forall k, k <> "service" -> k <> "integration" -> usp_get (clearUrlScope ps) k = usp_get ps k) /\
  (allowGroups p ps = true -> service p ps = None \/ service p ps = Some "").
Proof.
  split_and!.
  - intros Hm. unfold service, integration, scope_chip, scopedByUrl, url_scope. by rewrite Hm.
  - unfold scope_chip, scopedByUrl, url_scope, clearUrlScope. destruct (mounted_scope p); [done|].
    rewrite usp_get_delete, usp_get_delete_ne, usp_get_delete by done. done.
  - intros k Hs Hi. unfold clearUrlScope. by rewrite !usp_get_delete_ne by done.
  - unfold allowGroups. intros [Hs _]%andb_true_iff. apply negb_true_iff in Hs. destruct (service p ps) as [[|]|]; [by right|done|by left].
Qed.

(** ** Answers that overtake one another *)

(** Typing on: the answer to the earlier text, when it comes last, is the catalogue
    on screen, with no request under way and no error. *)
Theorem older_catalogue_stays q1 q2 r1 r2 :
  let st := landed 0 (inr r1) (landed 1 (inr r2) (ask q2 (catalogue_opened q1))) in
  ct_query st = q2 /\ ct_resp st = Some r1 /\ ct_flights st = [] /\ ct_loading st = false /\ ct_error st = None.
Proof. by repeat split. Qed.

Section witness.
Local Definition late_check : AlertRule := {|
  ar_id := "r"; ar_environment_mode := None; ar_environments := None; ar_organization_id := "o"; ar_integration_id := None; ar_system_id := None;
  ar_service_name := Some "billing"; ar_group_id := None; ar_name := "late files"; ar_description := ""; ar_runbook := None; ar_signal := "metric";
  ar_spec := {| ms_metric_name := "file.mtime"; ms_aggregation := "age"; ms_operator := "gt"; ms_threshold := Num 3600 0; ms_for_window := "5m";
                ms_attrs := Some [{| ra_key := "path"; ra_op := "eq"; ra_value := "/in" |}; {| ra_key := "host"; ra_op := "exists"; ra_value := "" |}];
                ms_split_by := None; ms_fire_on_no_data := None |};
  ar_log_spec := None; ar_trace_error_spec := None; ar_trace_latency_spec := None; ar_trace_volume_spec := None; ar_trace_attribute_spec := None;
  ar_severity := "warning"; ar_evaluation_seconds := 60; ar_enabled := true; ar_source := "telemetry"; ar_display_on_service := false; ar_unit := None;
  ar_resolve_mode := "auto"; ar_channel_ids := []; ar_title_template := None; ar_body_template := None; ar_notification_config := None;
  ar_created_at := ""; ar_updated_at := "" |}.

Local Definition billing : option CheckLinkScope := Some {| cl_service := Some "billing"; cl_integration := None |}.

Lemma check_link_opens_slice_witness :
  exists href, metricCheckHref (H := plain_host) late_check None billing 0 = Some href /\
  let ps := query_of href in
  let page := {| serviceProp := None; integrationProp := None |} in
  hydrate_query ps = trim (ms_metric_name (ar_spec late_check)) /\
  hydrate_chips (fun _ => Num 0 0) (fun _ => "") ps = Some (as_chip <$> List.filter carried (ms_attrs (ar_spec late_check) ?? [])) /\
  service page ps = some_text ((billing ≫= cl_service) ?? "") /\
  integration page ps = (if truthy_opt (billing ≫= cl_service) then None
                         else some_text ((billing ≫= cl_integration) ?? "")).
Proof.
  eexists. split; [reflexivity|].
  exact (check_link_opens_slice (fun _ => Num 0 0) (fun _ => "") (H := plain_host) late_check None billing 0 _ eq_refl).
Defined.
End witness.
