(* ===== verification/Troubles.v ===== *)
(** * The error pages

    pages/StuckMessages.tsx: what is failing in the organization, grouped by
    systems, integrations and the services of neither.  pages/IntegrationErrors.tsx:
    what is failing in one integration.  The buckets of checks are those of
    Checks.v. *)

From S2P Require Import Prelude JsString JsUri JsArray Host Types Checks Csv Feed.

Local Open Scope string_scope.
Local Open Scope list_scope.

(** [new Set(l)], in the order of the first occurrences. *)
Definition set_add (acc : list string) (x : string) : list string := if bool_decide (x ∈ acc) then acc else acc ++ [x].
Definition set_of (l : list string) : list string := foldl set_add [] l.

Record Counts := { n_failing_checks : Z; n_services_unhealthy : Z; n_services_errors : Z; n_open_errors : Z }.
Record ErrorsFeedResponse := {
  ef_failing_checks : option (list FailingCheck);
  ef_open_errors : option (list OpenServiceError);
  ef_services : option (list ServiceSummary);
  ef_counts : option Counts
}.

(** ** Everything in trouble *)

Record IntegrationGroup := { ig_ref : IntegrationRef; ig_serviceNames : list string; ig_checks : list FailingCheck }.
Record SystemChecks := { sc_id : string; sc_name : string; sc_checks : list FailingCheck }.

Definition or_text (o : option string) (d : string) : string := if truthy_opt o then o ?? "" else d.

Section page.
Context (services : list ServiceSummary) (checks : list FailingCheck) (openErrors : list OpenServiceError).

Definition buckets : CheckBuckets := bucketChecks checks.
Definition openByService : list (string * OpenServiceError) := omap_of ((fun e => (oe_service_name e, e)) <$> openErrors).
Definition summaryByName : list (string * ServiceSummary) := omap_of ((fun s => (ss_service_name s, s)) <$> services).

Definition troubled : list string :=
  set_of ((ss_service_name <$> services) ++ omap_keys (cb_byService buckets) ++ omap_keys openByService).

Definition is_system (name : string) : bool := match omap_get name summaryByName with Some s => ss_is_system s ?? false | None => false end.
Definition ints (name : string) : list IntegrationRef := match omap_get name summaryByName with Some s => ss_integrations s | None => [] end.

Definition add_service (name : string) (m : list (string * IntegrationGroup)) (ig : IntegrationRef) : list (string * IntegrationGroup) :=
  let g := omap_get (ir_id ig) m ?? {| ig_ref := ig; ig_serviceNames := []; ig_checks := [] |} in
  omap_set (ir_id ig) {| ig_ref := ig_ref g; ig_serviceNames := ig_serviceNames g ++ [name]; ig_checks := ig_checks g |} m.

(** The three lists of the loop over the names. *)
Record Split := { sp_systems : list string; sp_integrations : list (string * IntegrationGroup); sp_others : list string }.
Definition place (out : Split) (name : string) : Split :=
  if is_system name then
    {| sp_systems := sp_systems out ++ [name]; sp_integrations := sp_integrations out; sp_others := sp_others out |}
  else match ints name with
  | [] => {| sp_systems := sp_systems out; sp_integrations := sp_integrations out; sp_others := sp_others out ++ [name] |}
  | l => {| sp_systems := sp_systems out; sp_integrations := foldl (add_service name) (sp_integrations out) l; sp_others := sp_others out |}
  end.
Definition split_troubled : Split := foldl place {| sp_systems := []; sp_integrations := []; sp_others := [] |} troubled.

(** Checks bound to an integration join its group, or open one. *)
Definition add_checks (m : list (string * IntegrationGroup)) (e : string * list FailingCheck) : list (string * IntegrationGroup) :=
  let '(id, list_) := e in
  let g := omap_get id m ?? {|
    ig_ref := {| ir_id := id; ir_slug := ""; ir_name := or_text (head list_ ≫= fc_integration_name) "integration" |};
    ig_serviceNames := []; ig_checks := [] |} in
  omap_set id {| ig_ref := ig_ref g; ig_serviceNames := ig_serviceNames g; ig_checks := ig_checks g ++ list_ |} m.
Definition integrations : list (string * IntegrationGroup) := foldl add_checks (sp_integrations split_troubled) (cb_byIntegration buckets).

Definition systemChecks : list SystemChecks :=
  (fun e => {| sc_id := e.1; sc_name := or_text (head e.2 ≫= fc_system_name) "system"; sc_checks := e.2 |}) <$> cb_bySystem buckets.
Definition globalChecks : list FailingCheck := cb_global buckets.

Section host.
Context `{Host}.
Definition systemNames : list string := sort localeCompare (sp_systems split_troubled).
Definition otherNames : list string := sort localeCompare (sp_others split_troubled).
Definition integrationGroups : list IntegrationGroup :=
  (fun g => {| ig_ref := ig_ref g; ig_serviceNames := sort localeCompare (set_of (ig_serviceNames g)); ig_checks := ig_checks g |})
    <$> sort (cmp_on (fun g => ir_name (ig_ref g)) localeCompare) (omap_values integrations).
End host.

(** The rows of the block of a service. *)
Definition block_checks (name : string) : list FailingCheck := omap_get name (cb_byService buckets) ?? [].
Definition block_error (name : string) : option OpenServiceError := omap_get name openByService.

Definition unackedTraces : Z := foldl (fun sum e => sum + oe_error_traces e)%Z 0%Z openErrors.
Definition allClear (loading : bool) (error : option string) : bool :=
  negb loading && negb (truthy_opt error)
  && match checks with [] => true | _ => false end && match openErrors with [] => true | _ => false end
  && match services with [] => true | _ => false end.
End page.

(** The one-line count of a block. *)
Definition block_detail (formatNumber : Z -> string) (checks : list FailingCheck) (openErr : option OpenServiceError) (summary : option ServiceSummary) : string :=
  let n := Z.of_nat (length checks) in
  let parts :=
    (match checks with [] => [] | _ => [tpl [show_Z n; " failing "; plural n "check"]] end)
    ++ (match openErr with Some e => [tpl [formatNumber (oe_error_traces e); " unacked "; plural (oe_error_traces e) "error"]] | None => [] end)
    ++ (match checks, openErr, summary with
        | [], None, Some s =>
            if (0 <? ss_error_trace_count s)%Z
            then [tpl [formatNumber (ss_error_trace_count s); " error "; plural (ss_error_trace_count s) "trace"; " in window"]] else []
        | _, _, _ => []
        end) in
  join " · " parts.

(** What a check governs, with the link to it: the text and the path. *)
Definition Target (c : FailingCheck) : string * string :=
  if (fc_target_kind c =s "system") && truthy_opt (fc_system_id c) then
    (or_text (fc_system_name c) "system", tpl ["/systems/"; fc_system_id c ?? ""])
  else if (fc_target_kind c =s "integration") && truthy_opt (fc_integration_id c) then
    (or_text (fc_integration_name c) "integration", tpl ["/integrations/"; fc_integration_id c ?? ""; "/settings"])
  else if (fc_target_kind c =s "service") && truthy_opt (fc_service_name c) then
    (fc_service_name c ?? "", tpl ["/services/"; encodeURIComponent (fc_service_name c ?? "")])
  else ("Org-wide", "/alerts").

(** ** One integration *)

Definition TRACE_PREVIEW : nat := 15.
Record DelayedRow := { dr_traceId : string; dr_rule : string; dr_severity : severity; dr_since : string }.
(** A firing of the page, with what the row shows. *)
Record FiringRow := { fr_firing : TraceCompletionFiring; fr_rule_name : string; fr_started_at : string }.

Definition delayed_step (m : list (string * DelayedRow)) (f : FiringRow) : list (string * DelayedRow) :=
  let fi := fr_firing f in
  if negb (bool_decide (tf_state fi = fs_firing)) || truthy_opt (tf_handled_at fi) then m
  else
    let row := {| dr_traceId := tf_trace_id fi; dr_rule := fr_rule_name f; dr_severity := tf_severity fi; dr_since := fr_started_at f |} in
    match omap_get (tf_trace_id fi) m with
    | Some prev => if (sevRank (dr_severity prev) <? sevRank (tf_severity fi))%Z then omap_set (tf_trace_id fi) row m else m
    | None => omap_set (tf_trace_id fi) row m
    end.
Definition delayed (firings : list FiringRow) : list DelayedRow := omap_values (foldl delayed_step [] firings).

Record IntegrationPage := {
  ie_detail : option IntegrationDetail; ie_checks : list FailingCheck; ie_openErrors : list OpenServiceError;
  ie_firings : list FiringRow; ie_errorTraces : list TraceSearchResult; ie_error : option string; ie_loading : bool
}.
Definition page_opened : IntegrationPage := {|
  ie_detail := None; ie_checks := []; ie_openErrors := []; ie_firings := []; ie_errorTraces := []; ie_error := None; ie_loading := true |}.

Definition members (d : IntegrationDetail) : list string := ss_service_name <$> (id_services d ?? []).
Definition concerns (id : string) (d : IntegrationDetail) (c : FailingCheck) : bool :=
  bool_decide (fc_integration_id c = Some id)
  || ((fc_target_kind c =s "service") && truthy_opt (fc_service_name c) && bool_decide ((fc_service_name c ?? "") ∈ members d)).

(** What has landed. *)
Inductive Landed :=
| DetailIs (r : string + IntegrationDetail)
| FiringsAre (r : option (list FiringRow))
| FeedIs (r : option ErrorsFeedResponse)
| MessagesAre (r : option (list TraceSearchResult)).

Definition land (id : string) (st : IntegrationPage) (e : Landed) : IntegrationPage :=
  match e with
  | DetailIs r => {|
      ie_detail := match r with inr d => Some d | inl _ => ie_detail st end; ie_checks := ie_checks st; ie_openErrors := ie_openErrors st;
      ie_firings := ie_firings st; ie_errorTraces := ie_errorTraces st;
      ie_error := match r with inl m => Some m | inr _ => ie_error st end; ie_loading := false |}
  | FiringsAre r => {|
      ie_detail := ie_detail st; ie_checks := ie_checks st; ie_openErrors := ie_openErrors st;
      ie_firings := match r with Some l => l | None => ie_firings st end; ie_errorTraces := ie_errorTraces st;
      ie_error := ie_error st; ie_loading := ie_loading st |}
  | FeedIs r =>
      match ie_detail st, r with
      | Some d, Some f => {|
          ie_detail := ie_detail st; ie_checks := List.filter (concerns id d) (ef_failing_checks f ?? []);
          ie_openErrors := List.filter (fun e => bool_decide (oe_service_name e ∈ members d)) (ef_open_errors f ?? []);
          ie_firings := ie_firings st; ie_errorTraces := ie_errorTraces st; ie_error := ie_error st; ie_loading := ie_loading st |}
      | _, _ => st
      end
  | MessagesAre r =>
      match ie_detail st, r with
      | Some _, Some l => {|
          ie_detail := ie_detail st; ie_checks := ie_checks st; ie_openErrors := ie_openErrors st; ie_firings := ie_firings st;
          ie_errorTraces := take TRACE_PREVIEW (List.filter tr_has_error l); ie_error := ie_error st; ie_loading := ie_loading st |}
      | _, _ => st
      end
  end.

Definition failedCount (st : IntegrationPage) : Z := (ie_detail st ≫= id_error_message_count) ?? 0%Z.
Definition delayedCount (st : IntegrationPage) : Z := (ie_detail st ≫= id_delayed_message_count) ?? Z.of_nat (length (delayed (ie_firings st))).
Definition all_clear (st : IntegrationPage) : bool :=
  match ie_checks st with [] => true | _ => false end && match ie_openErrors st with [] => true | _ => false end
  && (failedCount st =? 0)%Z && (delayedCount st =? 0)%Z.
(** "All clear", on a page that has its integration. *)
Definition says_all_clear (st : IntegrationPage) : bool := match ie_detail st with Some _ => all_clear st | None => false end.

(** ** Nothing in trouble is hidden *)

Lemma set_add_elem acc x y : y ∈ set_add acc x <-> y ∈ acc \/ y = x.
Proof.
  unfold set_add. case_bool_decide; [|by rewrite elem_of_app, list_elem_of_singleton]. split; [by left|]. by intros [?| ->].
Qed.
Lemma set_of_elem l x : x ∈ set_of l <-> x ∈ l.
Proof.
  unfold set_of. assert (H : forall acc, x ∈ foldl set_add acc l <-> x ∈ acc \/ x ∈ l); [|rewrite H; set_solver].
  induction l as [|y l IH]; intros acc; cbn; [set_solver|]. rewrite IH, set_add_elem, elem_of_cons. tauto.
Qed.
Lemma set_of_NoDup l : NoDup (set_of l).
Proof.
  unfold set_of. assert (H : forall acc, NoDup acc -> NoDup (foldl set_add acc l)); [|apply H; constructor].
  induction l as [|y l IH]; intros acc HN; cbn; [done|]. apply IH. unfold set_add. case_bool_decide; [done|].
  apply NoDup_app. split; [done|]. split; [|apply NoDup_singleton]. intros z Hz Hs. apply list_elem_of_singleton in Hs. by subst.
Qed.

Definition in_group (m : list (string * IntegrationGroup)) (id name : string) : Prop :=
  exists g, omap_get id m = Some g /\ name ∈ ig_serviceNames g.
Definition check_in (m : list (string * IntegrationGroup)) (id : string) (c : FailingCheck) : Prop :=
  exists g, omap_get id m = Some g /\ c ∈ ig_checks g.

Lemma add_service_in name m ig : in_group (add_service name m ig) (ir_id ig) name.
Proof.
  unfold add_service, in_group. rewrite omap_get_set, decide_True by done. eexists. split; [done|]. cbn. apply elem_of_app. right. by apply list_elem_of_singleton.
Qed.
Lemma add_service_keeps name m ig id x : in_group m id x -> in_group (add_service name m ig) id x.
Proof.
  intros (g & Hg & Hx). unfold add_service, in_group. rewrite omap_get_set. case_decide as E; [|eauto]. subst.
  rewrite Hg. eexists. split; [done|]. cbn. apply elem_of_app. by left.
Qed.
Lemma add_services_in name l m ig : ig ∈ l -> in_group (foldl (add_service name) m l) (ir_id ig) name.
Proof.
  revert m. induction l as [|x l IH]; intros m; [by intros ?%elem_of_nil|]. cbn. intros [<-|Hi]%elem_of_cons; [|by apply IH].
  clear IH. pose proof (add_service_in name m ig) as H. revert H. generalize (add_service name m ig) as m'. induction l as [|y l IH]; intros m' H; [done|].
  cbn. apply IH. by apply add_service_keeps.
Qed.
Lemma add_services_keep name l m id x : in_group m id x -> in_group (foldl (add_service name) m l) id x.
Proof. revert m. induction l as [|y l IH]; intros m H; [done|]. cbn. apply IH. by apply add_service_keeps. Qed.

Lemma add_checks_keep m e id x : in_group m id x -> in_group (add_checks m e) id x.
Proof.
  destruct e as [k l]. intros (g & Hg & Hx). unfold add_checks, in_group. rewrite omap_get_set. case_decide as E; [|eauto]. subst.
  rewrite Hg. by eexists.
Qed.
Lemma add_checks_keep_check m e id c : check_in m id c -> check_in (add_checks m e) id c.
Proof.
  destruct e as [k l]. intros (g & Hg & Hx). unfold add_checks, check_in. rewrite omap_get_set. case_decide as E; [|eauto]. subst.
  rewrite Hg. eexists. split; [done|]. cbn. apply elem_of_app. by left.
Qed.
Lemma add_checks_in m id l c : c ∈ l -> check_in (add_checks m (id, l)) id c.
Proof.
  intros Hc. unfold add_checks, check_in. rewrite omap_get_set, decide_True by done. eexists. split; [done|]. cbn. apply elem_of_app. by right.
Qed.

Section hidden.
Context `{Host} (services : list ServiceSummary) (checks : list FailingCheck) (openErrors : list OpenServiceError).
Notation split := (split_troubled services checks openErrors).
Notation names := (troubled services checks openErrors).

Definition placed (out : Split) (name : string) : Prop :=
  if is_system services name then name ∈ sp_systems out
  else match ints services name with
  | [] => name ∈ sp_others out
  | l => forall ig, ig ∈ l -> in_group (sp_integrations out) (ir_id ig) name
  end.

Lemma place_placed out name : placed (place services out name) name.
Proof.
  unfold placed, place. destruct (is_system services name); cbn; [apply elem_of_app; right; by apply list_elem_of_singleton|].
  destruct (ints services name) as [|i l] eqn:E; cbn; [apply elem_of_app; right; by apply list_elem_of_singleton|].
  intros ig Hi. by apply (add_services_in name (i :: l)).
Qed.
Lemma place_keeps out x name : placed out name -> placed (place services out x) name.
Proof.
  unfold placed, place. destruct (is_system services name), (is_system services x); cbn; try done.
  - intros. apply elem_of_app. by left.
  - intros Hs. by destruct (ints services x).
  - destruct (ints services name) as [|i l], (ints services x) as [|j l']; cbn; try done.
    + intros. apply elem_of_app. by left.
    + intros Hg ig Hi. by apply (add_services_keep x (j :: l')), Hg.
Qed.
Lemma all_placed name : name ∈ names -> placed split name.
Proof.
  unfold split_troubled. generalize {| sp_systems := []; sp_integrations := []; sp_others := [] |} as out.
  induction names as [|x l IH]; intros out; [by intros ?%elem_of_nil|]. cbn. intros [<-|Hx]%elem_of_cons; [|by apply IH].
  clear IH. pose proof (place_placed out name) as Hp. revert Hp. generalize (place services out name) as out'.
  induction l as [|y l IH]; intros out' Hp; [done|]. cbn. apply IH. by apply place_keeps.
Qed.

Lemma in_group_integrations id name : in_group (sp_integrations split) id name -> in_group (integrations services checks openErrors) id name.
Proof.
  unfold integrations. generalize (sp_integrations split) as m. induction (cb_byIntegration (buckets checks)) as [|e l IH]; intros m Hg; [done|].
  cbn. apply IH. by apply add_checks_keep.
Qed.
Lemma checks_of_integration id l c : (id, l) ∈ cb_byIntegration (buckets checks) -> c ∈ l -> check_in (integrations services checks openErrors) id c.
Proof.
  unfold integrations. generalize (sp_integrations split) as m. induction (cb_byIntegration (buckets checks)) as [|e r IH]; intros m; [by intros ?%elem_of_nil|].
  cbn. intros [<-|Hi]%elem_of_cons Hc; [|by apply IH]. clear IH. pose proof (add_checks_in m id l c Hc) as Hp. revert Hp.
  generalize (add_checks m (id, l)) as m'. induction r as [|y r IH]; intros m' Hp; [done|]. cbn. apply IH. by apply add_checks_keep_check.
Qed.

(** A block of the service is on the page. *)
Definition block_shown (name : string) : Prop :=
  name ∈ systemNames services checks openErrors \/ name ∈ otherNames services checks openErrors \/
  exists g, g ∈ integrationGroups services checks openErrors /\ name ∈ ig_serviceNames g.

Lemma group_shown id name : in_group (integrations services checks openErrors) id name ->
  exists g, g ∈ integrationGroups services checks openErrors /\ name ∈ ig_serviceNames g.
Proof.
  intros (g & Hg & Hn). apply omap_get_elem in Hg. unfold integrationGroups. eexists. split.
  - apply list_elem_of_fmap. exists g. split; [done|]. apply sort_elem. unfold omap_values. by apply (list_elem_of_fmap_2 snd) in Hg.
  - cbn. by rewrite sort_elem, set_of_elem.
Qed.

Lemma troubled_shown name : name ∈ names -> block_shown name.
Proof.
  intros Hn. apply all_placed in Hn. unfold placed in Hn. unfold block_shown, systemNames, otherNames. rewrite !sort_elem.
  destruct (is_system services name); [by left|]. destruct (ints services name) as [|ig l]; [by right; left|].
  right. right. apply group_shown with (ir_id ig). apply in_group_integrations, Hn. by left.
Qed.

Lemma bucket_keys_NoDup : NoDup (omap_keys (cb_byService (buckets checks))).
Proof.
  unfold buckets, bucketChecks. induction checks as [|c l IH] using rev_ind; [constructor|]. rewrite foldl_app. cbn.
  unfold bucket_check. repeat case_if; cbn [cb_byService]; try done. unfold omap_push. by apply omap_set_NoDup.
Qed.

Lemma openByService_has e : e ∈ openErrors -> is_Some (block_error openErrors (oe_service_name e)).
Proof.
  intros He. unfold block_error, openByService. apply omap_of_has. rewrite <- list_fmap_compose. by apply (list_elem_of_fmap_2 oe_service_name).
Qed.

(** C24. Nothing that fails is hidden: every failing check is a row of a block on the page,
    of an integration, of a system or of the organization; every service with an
    open error has a block with an error row; every service in trouble has a block. *)
Theorem nothing_in_trouble_is_hidden :
  (forall c, c ∈ checks ->
     (exists name, block_shown name /\ c ∈ block_checks checks name) \/
     (exists g, g ∈ integrationGroups services checks openErrors /\ c ∈ ig_checks g) \/
     (exists s, s ∈ systemChecks checks /\ c ∈ sc_checks s) \/ c ∈ globalChecks checks) /\
  (forall e, e ∈ openErrors -> block_shown (oe_service_name e) /\ is_Some (block_error openErrors (oe_service_name e))) /\
  (forall s, s ∈ services -> block_shown (ss_service_name s)).
Proof.
  split; [|split].
  - intros c Hc. destruct (buckets_lose_nothing checks) as [Hp _]. rewrite <- Hp in Hc. unfold all_bucketed in Hc.
    rewrite !elem_of_app, !elem_of_concat in Hc.
    assert (Hv : forall (m : list (string * list FailingCheck)) l, l ∈ omap_values m -> exists k, (k, l) ∈ m).
    { intros m l (kv & -> & Hkv)%list_elem_of_fmap. exists kv.1. by destruct kv. }
    destruct Hc as [Hc|[(l & Hl & Hc)|[(l & Hl & Hc)|(l & Hl & Hc)]]]; [by do 3 right|..].
    + left. apply Hv in Hl as [k Hk]. exists k. split.
      * apply troubled_shown. unfold troubled. apply set_of_elem. rewrite !elem_of_app. right. left. by apply (list_elem_of_fmap_2 fst) in Hk.
      * unfold block_checks. by rewrite (omap_elem_get k l) by (done || apply bucket_keys_NoDup).
    + right. left. apply Hv in Hl as [k Hk]. destruct (checks_of_integration k l c Hk Hc) as (g & Hg & Hcg).
      apply omap_get_elem, (list_elem_of_fmap_2 snd) in Hg. unfold integrationGroups. eexists. split.
      * apply list_elem_of_fmap. exists g. split; [done|]. by apply sort_elem.
      * done.
    + right. right. left. apply Hv in Hl as [k Hk]. unfold systemChecks. eexists. split; [by apply list_elem_of_fmap_2|done].
  - intros e He. pose proof (openByService_has e He) as Hb. split; [|done]. apply troubled_shown. unfold troubled.
    apply set_of_elem. rewrite !elem_of_app. right. right. unfold block_error in Hb. destruct Hb as [x Hx].
    apply omap_get_elem, (list_elem_of_fmap_2 fst) in Hx. done.
  - intros s Hs. apply troubled_shown. unfold troubled. apply set_of_elem. rewrite !elem_of_app. left. by apply list_elem_of_fmap_2.
Qed.
End hidden.

(** A system that fails by a check of its own is listed, and not counted: the tile
    "Systems in trouble" counts services alone. *)
Theorem system_checks_are_not_counted `{Host} checks :
  (forall c, c ∈ checks -> fc_target_kind c = "system" /\ truthy_opt (fc_system_id c) = true) ->
  systemNames [] checks [] = [] /\ concat (sc_checks <$> systemChecks checks) ≡ₚ checks.
Proof.
  intros Hc. destruct (buckets_lose_nothing checks) as [Hp _]. unfold all_bucketed in Hp.
  assert (Hb : cb_global (bucketChecks checks) = [] /\ cb_byService (bucketChecks checks) = [] /\ cb_byIntegration (bucketChecks checks) = []).
  { clear Hp. unfold bucketChecks. induction checks as [|c l IH] using rev_ind; [done|]. rewrite foldl_app. cbn [foldl].
    destruct (Hc c) as [Hk Hi]; [apply elem_of_app; right; by apply list_elem_of_singleton|].
    unfold bucket_check. rewrite Hk, Hi. cbn. apply IH. intros d Hd. apply Hc, elem_of_app. by left. }
  destruct Hb as (Hg & Hs & Hi). rewrite Hg, Hs, Hi in Hp. cbn in Hp. split.
  - unfold systemNames, split_troubled, troubled, buckets. rewrite Hs. done.
  - rewrite <- Hp at 2. unfold systemChecks, buckets. rewrite <- list_fmap_compose. done.
Qed.

(** ** Delayed messages of an integration *)

Definition counts_as_delayed (f : FiringRow) : bool :=
  bool_decide (tf_state (fr_firing f) = fs_firing) && negb (truthy_opt (tf_handled_at (fr_firing f))).
Definition row_of (f : FiringRow) : DelayedRow :=
  {| dr_traceId := tf_trace_id (fr_firing f); dr_rule := fr_rule_name f; dr_severity := tf_severity (fr_firing f); dr_since := fr_started_at f |}.

Lemma delayed_step_get m f id :
  omap_get id (delayed_step m f) =
    if counts_as_delayed f && (tf_trace_id (fr_firing f) =s id) then
      match omap_get id m with
      | Some prev => if (sevRank (dr_severity prev) <? sevRank (tf_severity (fr_firing f)))%Z then Some (row_of f) else Some prev
      | None => Some (row_of f)
      end
    else omap_get id m.
Proof.
  unfold delayed_step, counts_as_delayed.
  destruct (bool_decide _); cbn [negb orb andb]; [|done]. destruct (truthy_opt _); cbn [negb andb]; [done|].
  fold (row_of f). destruct (String.eqb_spec (tf_trace_id (fr_firing f)) id) as [<-|Hne].
  - destruct (omap_get _ m) as [prev|] eqn:Hg; [destruct (_ <? _)%Z; [|done]|]; by rewrite omap_get_set, decide_True.
  - destruct (omap_get _ m) as [prev|] eqn:Hg; [destruct (_ <? _)%Z; [|done]|]; by rewrite omap_get_set, decide_False.
Qed.
Lemma delayed_step_NoDup m f : NoDup (omap_keys m) -> NoDup (omap_keys (delayed_step m f)).
Proof.
  intros HN. unfold delayed_step. destruct (_ || _); [done|].
  destruct (omap_get _ m); [destruct (_ <? _)%Z; [|done]|]; by apply omap_set_NoDup.
Qed.

(** What the fold knows of a trace: the row of one of its open firings, of the
    highest severity. *)
Lemma delayed_get firings id :
  match omap_get id (foldl delayed_step [] firings) with
  | Some row => exists f, f ∈ firings /\ counts_as_delayed f = true /\ tf_trace_id (fr_firing f) = id /\ row = row_of f /\
      forall g, g ∈ firings -> counts_as_delayed g = true -> tf_trace_id (fr_firing g) = id ->
        (sevRank (tf_severity (fr_firing g)) <= sevRank (dr_severity row))%Z
  | None => forall g, g ∈ firings -> counts_as_delayed g = true -> tf_trace_id (fr_firing g) <> id
  end.
Proof.
  induction firings as [|f l IH] using rev_ind; [by intros g ?%elem_of_nil|]. rewrite foldl_app. cbn [foldl]. rewrite delayed_step_get.
  destruct (counts_as_delayed f && (tf_trace_id (fr_firing f) =s id)) eqn:Ef.
  - apply andb_true_iff in Ef as [Hf Hi]. apply String.eqb_eq in Hi. destruct (omap_get id (foldl delayed_step [] l)) as [prev|].
    + destruct IH as (f0 & Hf0 & Hc0 & Hi0 & -> & Hmax). destruct (Z.ltb_spec (sevRank (dr_severity (row_of f0))) (sevRank (tf_severity (fr_firing f)))) as [Hlt|Hge].
      * exists f. split; [apply elem_of_app; right; by apply list_elem_of_singleton|]. split; [done|]. split; [done|]. split; [done|].
        intros g [Hg| ->%list_elem_of_singleton]%elem_of_app Hc Hgi; [specialize (Hmax g Hg Hc Hgi); cbn in *; lia|done].
      * exists f0. split; [apply elem_of_app; by left|]. split; [done|]. split; [done|]. split; [done|].
        intros g [Hg| ->%list_elem_of_singleton]%elem_of_app Hc Hgi; [by apply Hmax|exact Hge].
    + exists f. split; [apply elem_of_app; right; by apply list_elem_of_singleton|]. split; [done|]. split; [done|]. split; [done|].
      intros g [Hg| ->%list_elem_of_singleton]%elem_of_app Hc Hgi; [by destruct (IH g Hg Hc)|done].
  - assert (Hno : counts_as_delayed f = true -> tf_trace_id (fr_firing f) <> id).
    { intros Hc Hi. rewrite Hc, Hi, String.eqb_refl in Ef. done. }
    destruct (omap_get id (foldl delayed_step [] l)) as [row|].
    + destruct IH as (f0 & Hf0 & Hc0 & Hi0 & Hr & Hmax). exists f0. split; [apply elem_of_app; by left|]. repeat (split; [done|]).
      intros g [Hg| ->%list_elem_of_singleton]%elem_of_app Hc Hgi; [by apply Hmax|by destruct (Hno Hc)].
    + intros g [Hg| ->%list_elem_of_singleton]%elem_of_app Hc; [by apply IH|by apply Hno].
Qed.

Lemma delayed_keys_NoDup firings : NoDup (omap_keys (foldl delayed_step [] firings)).
Proof. induction firings as [|f l IH] using rev_ind; [constructor|]. rewrite foldl_app. by apply delayed_step_NoDup. Qed.

(** The delayed messages are the traces with an open firing that nobody handled, one
    row each, and the row is one of those firings with the highest severity. *)
Theorem delayed_rows_are_worst_firings firings :
  NoDup (dr_traceId <$> delayed firings) /\
  (forall f, f ∈ firings -> counts_as_delayed f = true -> exists row, row ∈ delayed firings /\ dr_traceId row = tf_trace_id (fr_firing f) /\
     (sevRank (tf_severity (fr_firing f)) <= sevRank (dr_severity row))%Z) /\
  (forall row, row ∈ delayed firings -> exists f, f ∈ firings /\ counts_as_delayed f = true /\ row = row_of f).
Proof.
  set (m := foldl delayed_step [] firings).
  assert (Hm : forall k row, (k, row) ∈ m -> omap_get k m = Some row) by (intros; by apply omap_elem_get; [apply delayed_keys_NoDup|]).
  assert (Hk : dr_traceId <$> delayed firings = omap_keys m).
  { unfold delayed, omap_values, omap_keys. fold m. rewrite <- list_fmap_compose. apply list_fmap_ext. intros i [k row] Hi. cbn.
    apply list_elem_of_lookup_2, Hm in Hi. pose proof (delayed_get firings k) as Hd. fold m in Hd. rewrite Hi in Hd.
    by destruct Hd as (f & _ & _ & <- & -> & _). }
  split; [rewrite Hk; apply delayed_keys_NoDup|]. split.
  - intros f Hf Hc. pose proof (delayed_get firings (tf_trace_id (fr_firing f))) as Hd. fold m in Hd.
    destruct (omap_get _ m) as [row|] eqn:Hg; [|by destruct (Hd f Hf Hc)]. destruct Hd as (f0 & _ & _ & Hi & -> & Hmax).
    exists (row_of f0). split; [|split; [exact Hi|by apply Hmax]]. unfold delayed. by apply omap_get_elem, (list_elem_of_fmap_2 snd) in Hg.
  - intros row (kv & -> & Hkv)%list_elem_of_fmap. fold m in Hkv. destruct kv as [k row]. apply Hm in Hkv.
    pose proof (delayed_get firings k) as Hd. fold m in Hd. rewrite Hkv in Hd. destruct Hd as (f & ? & ? & _ & ? & _). by exists f.
Qed.

(** The row keeps the first of the firings of one severity, not the earliest. *)
Theorem delayed_since_is_not_earliest f g :
  counts_as_delayed f = true -> counts_as_delayed g = true -> tf_trace_id (fr_firing f) = tf_trace_id (fr_firing g) ->
  tf_severity (fr_firing f) = tf_severity (fr_firing g) -> delayed [f; g] = [row_of f].
Proof.
  intros Hf Hg Hi Hs. unfold delayed. cbn [foldl].
  assert (H1 : delayed_step [] f = [(tf_trace_id (fr_firing f), row_of f)]).
  { unfold delayed_step. unfold counts_as_delayed in Hf. apply andb_true_iff in Hf as [-> Hh]. apply negb_true_iff in Hh. by rewrite Hh. }
  rewrite H1. unfold delayed_step. unfold counts_as_delayed in Hg. apply andb_true_iff in Hg as [-> Hh]. apply negb_true_iff in Hh. rewrite Hh, <- Hi. cbn.
  rewrite decide_True by done. cbn. rewrite Hs, Z.ltb_irrefl. done.
Qed.

(** ** "All clear" without an answer *)

(** When the feed of errors fails, or is late, the page of an integration without
    failed or delayed messages says "All clear", whatever checks fail: the badge of
    the tab may count them at the same time. *)
Theorem failed_feed_reads_all_clear id d n firings :
  id_error_message_count d = Some 0%Z -> id_delayed_message_count d = Some 0%Z -> id_failing_check_count d = Some n -> (0 < n)%Z ->
  id_open_error_count d = None ->
  let st := foldl (land id) page_opened [DetailIs (inr d); FiringsAre firings; FeedIs None; MessagesAre None] in
  says_all_clear st = true /\ ie_error st = None /\ ie_loading st = false /\ integrationProblemCount (ie_detail st) = n.
Proof.
  intros H1 H2 H3 Hn H4. cbn. unfold all_clear, failedCount, delayedCount. cbn. rewrite H1, H2, H3, H4. repeat split. cbn. lia.
Qed.
