(* ===== verification/Shell.v ===== *)
(** * The application shell

    The sidebar and the breadcrumb ([components/AppShell.tsx], [lib/breadcrumb.tsx]) over
    the routes of [App.tsx]: what a caller is offered, that every entry opens, and the
    trail a path shows. *)

From S2P Require Import Prelude JsString JsUri JsArray Types Session.

Local Open Scope char_scope.
Local Open Scope string_scope.
Local Open Scope list_scope.

(** ** Routes *)

Inductive Access := Anyone | RequireOrgAdmin | RequireOperator.
#[export] Instance Access_eq_dec : EqDecision Access.
Proof. solve_decision. Defined.

(** The routes without parameters, with the guard around each page.  A redirect to the
    dashboard is the dashboard for whoever follows it. *)
Definition static_routes : list (string * Access) := [
  ("/", Anyone); ("/setup", Anyone); ("/health", Anyone); ("/services", Anyone); ("/systems", Anyone); ("/integrations/new", Anyone);
  ("/integrations", Anyone); ("/monitoring-templates", Anyone); ("/proposals", Anyone); ("/system-types", Anyone);
  ("/developers", Anyone); ("/service-facets", Anyone); ("/tags", Anyone); ("/metadata-fields", Anyone); ("/schemas", Anyone);
  ("/maps", Anyone); ("/usage", RequireOrgAdmin); ("/search", Anyone); ("/logs", Anyone); ("/metrics", Anyone);
  ("/topology", Anyone); ("/stuck", Anyone); ("/alerts", Anyone); ("/settings", RequireOrgAdmin); ("/account", Anyone);
  ("/operator", RequireOperator) ].

Definition admits (c : CurrentUserContext) (a : Access) : bool :=
  match a with Anyone => true | RequireOrgAdmin => can (cc_roles c) "org.manage" | RequireOperator => cc_isOperator c end.

(** Where a path takes a caller: its page, the dashboard when the guard refuses, and the
    page that says it is not found. *)
Inductive Landing := Page (path : string) | Bounced | NotFound.
Definition land (c : CurrentUserContext) (path : string) : Landing :=
  match omap_get path static_routes with
  | Some a => if admits c a then Page path else Bounced
  | None => NotFound
  end.

(** ** The sidebar *)

Record NavigationReach := {
  nr_integrations : bool; nr_services : bool; nr_systems : bool; nr_topology : bool; nr_messages : bool; nr_metrics : bool;
  nr_logs : bool; nr_errors : bool; nr_unrestricted : bool;
  nr_integration_metrics : option (list string); nr_integration_logs : option (list string) }.

Record NavItem := {
  to : string; nav_label : string; adminOnly : bool; requiresWrite : bool; operatorOnly : bool; hidden : bool;
  reach : option (NavigationReach -> bool) }.
Record NavGroup := { header : string; items : list NavItem }.

Definition plain_item (path label : string) (field : option (NavigationReach -> bool)) : NavItem :=
  {| to := path; nav_label := label; adminOnly := false; requiresWrite := false; operatorOnly := false; hidden := false; reach := field |}.
Definition write_item (path label : string) (hide : bool) : NavItem :=
  {| to := path; nav_label := label; adminOnly := false; requiresWrite := true; operatorOnly := false; hidden := hide; reach := None |}.
Definition admin_item (path label : string) : NavItem :=
  {| to := path; nav_label := label; adminOnly := true; requiresWrite := false; operatorOnly := false; hidden := false; reach := None |}.
Definition operator_item (path label : string) : NavItem :=
  {| to := path; nav_label := label; adminOnly := false; requiresWrite := false; operatorOnly := true; hidden := false; reach := None |}.

Definition navGroups : list NavGroup := [
  {| header := "Monitor"; items := [
       plain_item "/health" "Dashboard" None;
       plain_item "/integrations" "Integrations" (Some nr_integrations);
       plain_item "/services" "Services" (Some nr_services);
       plain_item "/systems" "Systems" (Some nr_systems);
       plain_item "/topology" "Topology" (Some nr_topology);
       plain_item "/search" "Messages" (Some nr_messages);
       plain_item "/metrics" "Metrics" (Some nr_metrics);
       plain_item "/logs" "Logs" (Some nr_logs);
       plain_item "/stuck" "Errors" (Some nr_errors) ] |};
  {| header := "Configure"; items := [
       write_item "/alerts" "Alerts" false;
       write_item "/proposals" "Proposals" false;
       write_item "/monitoring-templates" "Templates" false;
       write_item "/system-types" "System types" false;
       write_item "/service-facets" "Service facets" false;
       write_item "/tags" "Tags" false;
       write_item "/metadata-fields" "Metadata fields" false;
       write_item "/schemas" "Schemas" true;
       write_item "/maps" "Maps" true ] |};
  {| header := "Admin"; items := [
       admin_item "/usage" "Usage";
       admin_item "/settings" "Settings";
       operator_item "/operator" "Operator" ] |};
  {| header := "Developers"; items := [plain_item "/developers" "API & MCP" None] |} ].

Definition offered (c : CurrentUserContext) (r : option NavigationReach) (it : NavItem) : bool :=
  negb (hidden it) &&
  (negb (adminOnly it) || can (cc_roles c) "org.manage") &&
  (negb (requiresWrite it) || can (cc_roles c) "integration.write") &&
  (negb (operatorOnly it) || cc_isOperator c) &&
  match reach it, r with Some field, Some r => field r | _, _ => true end.

Definition visibleGroups (c : CurrentUserContext) (r : option NavigationReach) : list NavGroup :=
  List.filter (fun g => (0 <? length (items g))%nat)
    ((fun g => {| header := header g; items := List.filter (offered c r) (items g) |}) <$> navGroups).

(** ** Breadcrumbs *)

Record Crumb := { crumb_label : string; crumb_to : option string }.
Definition at_ (label : string) : Crumb := {| crumb_label := label; crumb_to := None |}.
Definition via (label path : string) : Crumb := {| crumb_label := label; crumb_to := Some path |}.

Definition seg (p : string) (i : nat) : string := let s := split "/" p !! i ?? "" in decodeURIComponent s ?? s.

Definition trailForPath (p : string) (leaf : option string) (product : string) : list Crumb :=
  let under := startsWith p in
  if (p =s "/") || under "/health" then [at_ "Dashboard"]
  else if under "/integrations/new" then [via "Integrations" "/integrations"; at_ "New integration"]
  else if under "/integrations/" then [via "Integrations" "/integrations"; at_ (or_str leaf "Integration")]
  else if under "/integrations" then [at_ "Integrations"]
  else if under "/services/" then [via "Services" "/services"; at_ (or_str leaf (or_str (Some (seg p 2)) "Service"))]
  else if under "/services" then [at_ "Services"]
  else if under "/systems/" then [via "Systems" "/systems"; at_ (or_str leaf "System")]
  else if under "/systems" then [at_ "Systems"]
  else if under "/service-facets/" then [via "Service facets" "/service-facets"; at_ (or_str leaf (seg p 2))]
  else if under "/service-facets" then [at_ "Service facets"]
  else if under "/traces/" then
    let id := seg p 2 in
    [at_ "Trace"; at_ (or_str leaf (if (12 <? String.length id)%nat then slice_to 12 id +:+ "…" else id))]
  else if under "/search" then [at_ "Messages"]
  else if under "/logs" then [at_ "Logs"]
  else if under "/metrics" then [at_ "Metrics"]
  else if under "/maps" then [at_ "Maps"]
  else if under "/tags" then [at_ "Tags"]
  else if under "/metadata-fields" then [at_ "Metadata fields"]
  else if under "/system-types" then [at_ "System types"]
  else if under "/proposals" then [at_ "Proposals"]
  else if under "/developers" then [at_ "API & MCP"]
  else if under "/schemas" then [at_ "Schemas"]
  else if under "/topology" then [at_ "Topology"]
  else if under "/stuck" then [at_ "Errors"]
  else if under "/alerts" then [at_ "Alerts"]
  else if under "/settings" then [at_ "Settings"]
  else if under "/account" then [at_ "Account"]
  else [at_ product].

(** The context the pages write to, and what a page asks of it through the two hooks:
    nothing, or a label and a trail that may be absent. *)
Record BreadcrumbCtx := { leaf : option string; trail : option (list Crumb) }.
Definition no_crumbs : BreadcrumbCtx := {| leaf := None; trail := None |}.

Record PageVisit := { pv_path : string; pv_leaf : option (option string); pv_trail : option (option (list Crumb)) }.

Definition useBreadcrumbLeaf (label : option string) (s : BreadcrumbCtx) : BreadcrumbCtx :=
  {| leaf := (let t := trim (label ?? "") in if truthy t then Some t else None); trail := trail s |}.
Definition clear_leaf (s : BreadcrumbCtx) : BreadcrumbCtx := {| leaf := None; trail := trail s |}.
Definition useBreadcrumbTrail (t : option (list Crumb)) (s : BreadcrumbCtx) : BreadcrumbCtx :=
  {| leaf := leaf s; trail := match t with Some (c :: cs) => Some (c :: cs) | _ => None end |}.
Definition clear_trail (s : BreadcrumbCtx) : BreadcrumbCtx := {| leaf := leaf s; trail := None |}.

Definition uses {A} (hook : A -> BreadcrumbCtx -> BreadcrumbCtx) (o : option A) (s : BreadcrumbCtx) : BreadcrumbCtx :=
  match o with Some a => hook a s | None => s end.
Definition mount (pv : PageVisit) (s : BreadcrumbCtx) : BreadcrumbCtx := uses useBreadcrumbTrail (pv_trail pv) (uses useBreadcrumbLeaf (pv_leaf pv) s).
Definition unmount (pv : PageVisit) (s : BreadcrumbCtx) : BreadcrumbCtx := uses (fun _ => clear_trail) (pv_trail pv) (uses (fun _ => clear_leaf) (pv_leaf pv) s).

(** The open page and the context.  Another page is opened after the clean-ups of the
    old one; while a page is open its label and its trail may change, and the effect
    that depends on them runs again after its own clean-up.  A route with a parameter
    keeps its page when only the parameter changes. *)
Record Tab := { open : PageVisit; ctx : BreadcrumbCtx }.
Definition first_page (pv : PageVisit) : Tab := {| open := pv; ctx := mount pv no_crumbs |}.

Inductive shell_step : Tab -> Tab -> Prop :=
| Navigate t pv : shell_step t {| open := pv; ctx := mount pv (unmount (open t) (ctx t)) |}
| Repath t path :
    shell_step t {| open := {| pv_path := path; pv_leaf := pv_leaf (open t); pv_trail := pv_trail (open t) |}; ctx := ctx t |}
| Relabel t label label' : pv_leaf (open t) = Some label -> label <> label' ->
    shell_step t {| open := {| pv_path := pv_path (open t); pv_leaf := Some label'; pv_trail := pv_trail (open t) |};
                    ctx := useBreadcrumbLeaf label' (clear_leaf (ctx t)) |}
| Retrail t old new : pv_trail (open t) = Some old -> old <> new ->
    shell_step t {| open := {| pv_path := pv_path (open t); pv_leaf := pv_leaf (open t); pv_trail := Some new |};
                    ctx := useBreadcrumbTrail new (clear_trail (ctx t)) |}.

Definition Breadcrumb (product : string) (t : Tab) : list Crumb :=
  match trail (ctx t) with Some cs => cs | None => trailForPath (pv_path (open t)) (leaf (ctx t)) product end.

(** ** Lemmas and theorems *)

(** What is shown belongs to the open page alone: whatever was open before, the context
    is the one the page would have found on its own. *)
Lemma crumbs_of_open_page pv t : rtc shell_step (first_page pv) t -> ctx t = mount (open t) no_crumbs.
Proof.
  apply (rtc_ind_r (fun t => ctx t = mount (open t) no_crumbs)); [done|]. clear t. intros t t' _ Hs IH.
  inversion Hs as [? pv'|? path|? label label' Hl|? old new Ht]; subst; cbn [ctx open]; rewrite IH; destruct (open t) as [p [l|] [tr|]]; cbn in *;
    simplify_eq; done.
Qed.

Theorem breadcrumb_forgets product pv t :
  rtc shell_step (first_page pv) t -> Breadcrumb product t = Breadcrumb product (first_page (open t)).
Proof. intros H. unfold Breadcrumb, first_page. cbn [ctx open]. by rewrite (crumbs_of_open_page _ _ H). Qed.

(** *** Entries open *)

Lemma offered_routes :
  forallb (fun it => match omap_get (to it) static_routes with
    | Some Anyone => true
    | Some RequireOrgAdmin => adminOnly it
    | Some RequireOperator => operatorOnly it
    | None => false end) (concat (items <$> navGroups)) = true.
Proof. by_compute. Qed.

(** C33. Every entry the sidebar offers opens its page: no entry leads to a page that is not
    found, and none to a guard that sends the caller back to the dashboard. *)
Theorem entries_open c r g it :
  g ∈ visibleGroups c r -> it ∈ items g -> land c (to it) = Page (to it).
Proof.
  intros [Hg _]%filterb_elem Hit. apply list_elem_of_fmap in Hg as (g0 & -> & Hg0). cbn [items] in Hit.
  apply filterb_elem in Hit as [Hit Ho]. pose proof offered_routes as Hr. rewrite forallb_forall in Hr.
  specialize (Hr it). unfold land. unfold offered in Ho. rewrite !andb_true_iff in Ho. destruct Ho as [[[[_ Ha] _] Hop] _].
  assert (Hin : In it (concat (items <$> navGroups))).
  { apply list_elem_of_In, elem_of_concat. exists (items g0). split; [by apply list_elem_of_fmap_2|done]. }
  specialize (Hr Hin). destruct (omap_get (to it) static_routes) as [[]|]; cbn [admits]; [done| | |done].
  - rewrite Hr in Ha. cbn [negb orb] in Ha. by rewrite Ha.
  - rewrite Hr in Hop. cbn [negb orb] in Hop. by rewrite Hop.
Qed.

(** *** Trails *)

Ltac trail_cases := unfold trailForPath; repeat match goal with |- context [if ?b then _ else _] => destruct b end.

Definition static_anyone (p : string) : bool := bool_decide (omap_get p static_routes = Some Anyone).

(** A trail has at least one crumb, only the crumbs before the last are links, and every
    link is the path of a page anyone may open. *)
Theorem trails_are_sound p leaf product :
  exists front last, trailForPath p leaf product = front ++ [last] /\ crumb_to last = None /\
    forall c path, c ∈ front -> crumb_to c = Some path -> omap_get path static_routes = Some Anyone.
Proof.
  assert (Hone : forall c, crumb_to c = None -> exists front last, [c] = front ++ [last] /\ crumb_to last = None /\
    forall c path, c ∈ front -> crumb_to c = Some path -> omap_get path static_routes = Some Anyone).
  { intros c Hc. exists [], c. split; [done|]. split; [done|]. by intros ? ? ?%elem_of_nil. }
  assert (Htwo : forall a c, crumb_to c = None -> match crumb_to a with Some path => omap_get path static_routes = Some Anyone | None => True end ->
    exists front last, [a; c] = front ++ [last] /\ crumb_to last = None /\
    forall c path, c ∈ front -> crumb_to c = Some path -> omap_get path static_routes = Some Anyone).
  { intros a c Hc Ha. exists [a], c. split; [done|]. split; [done|]. intros ? path ->%list_elem_of_singleton E. by rewrite E in Ha. }
  unfold trailForPath. cbv zeta.
  repeat match goal with |- context [if ?b then _ else _] => lazymatch b with Nat.ltb _ _ => fail | truthy_opt _ => fail | _ => destruct b end end;
    first [apply Hone; reflexivity | apply Htwo; reflexivity].
Qed.

(** The crumb of an entry is its label, but for the three pages the trail does not know;
    they show the name of the product. *)
Definition unknown_to_trail : list string := ["/monitoring-templates"; "/usage"; "/operator"].

Theorem entry_trails it leaf product :
  it ∈ concat (items <$> navGroups) ->
  trailForPath (to it) leaf product =
    [at_ (if bool_decide (to it ∈ unknown_to_trail) then product else nav_label it)].
Proof.
  revert it. apply Forall_forall. repeat (constructor; [reflexivity|]). constructor.
Qed.

(** A viewer, with the role the session makes of one, is left with two sections, not
    only the monitoring one. *)
Theorem viewer_sections c r :
  cc_roles c = [{| ro_slug := Some "viewer"; ro_name := displayRole "viewer" |}] -> cc_isOperator c = false ->
  header <$> visibleGroups c r = ["Monitor"; "Developers"].
Proof.
  intros Hr Ho. unfold visibleGroups, navGroups. cbn [fmap list_fmap header items List.filter].
  unfold offered, plain_item, write_item, admin_item, operator_item.
  cbn [hidden adminOnly requiresWrite operatorOnly reach negb andb orb]. rewrite Hr, Ho.
  change (can _ "integration.write") with false. change (can _ "org.manage") with false. by cbn.
Qed.

(** ** Examples *)

Example trail_of_a_service :
  trailForPath "/services/orders%2Fapi/metrics" None "Sluicio" = [via "Services" "/services"; at_ "orders/api"].
Proof. reflexivity. Qed.

Definition some_viewer : CurrentUserContext := {|
  cc_user := {| us_id := "u"; us_email := "u@x"; us_name := "U"; us_initials := "U"; us_isOperator := false; us_isDemo := Some false;
                us_mustResetPassword := Some false; us_memberships := [] |};
  cc_organization := om_organization no_organization; cc_roles := om_roles no_organization; cc_memberships := [no_organization];
  cc_isOperator := false; cc_managed := false; cc_emailDisabled := false; cc_orgManagementDisabled := false |}.

Lemma viewer_sections_witness : header <$> visibleGroups some_viewer None = ["Monitor"; "Developers"].
Proof. by apply (viewer_sections some_viewer None). Defined.

Lemma entries_open_witness : land some_viewer "/developers" = Page "/developers".
Proof.
  refine (entries_open some_viewer None (List.last (visibleGroups some_viewer None) {| header := ""; items := [] |}) (plain_item "/developers" "API & MCP" None) _ _).
  - apply list_elem_of_In. vm_compute. tauto.
  - apply list_elem_of_In. vm_compute. tauto.
Defined.

(** The name set by one page is gone on the next. *)
Definition on_integration : PageVisit := {| pv_path := "/integrations/7"; pv_leaf := Some (Some " Orders "); pv_trail := None |}.
Definition on_services : PageVisit := {| pv_path := "/services/api"; pv_leaf := Some None; pv_trail := None |}.
Lemma breadcrumb_forgets_witness :
  let t := {| open := on_services; ctx := mount on_services (unmount on_integration (mount on_integration no_crumbs)) |} in
  Breadcrumb "Sluicio" (first_page on_integration) = [via "Integrations" "/integrations"; at_ "Orders"] /\
  Breadcrumb "Sluicio" t = [via "Services" "/services"; at_ "api"].
Proof.
  split; [reflexivity|]. refine (breadcrumb_forgets "Sluicio" on_integration _ _).
  apply rtc_once. exact (Navigate (first_page on_integration) on_services).
Defined.
