(* ===== verification/PolicyExpr.v ===== *)
(** * Access policy expressions

    The boolean tree of an access policy: the editor and the preview of
    [pages/Settings.tsx], and the validation and evaluation of
    services/cell-api/internal/identity/policies_expr.go, which decide what a saved tree
    grants. *)

From S2P Require Import Prelude JsString JsArray Host.

Local Open Scope char_scope.
Local Open Scope string_scope.
Local Open Scope list_scope.

(** ** The tree

    A field that is [undefined] in the editor is absent from the request, and an absent
    or empty field is the empty value on the server. *)
Inductive PolicyExpr :=
| Expr (op : option string) (children : option (list PolicyExpr)) (attr match_ value : option string) (values : option (list string)).

Definition op (e : PolicyExpr) := let 'Expr o _ _ _ _ _ := e in o.
Definition children (e : PolicyExpr) := let 'Expr _ c _ _ _ _ := e in c.
Definition attr (e : PolicyExpr) := let 'Expr _ _ a _ _ _ := e in a.
Definition match_ (e : PolicyExpr) := let 'Expr _ _ _ m _ _ := e in m.
Definition value (e : PolicyExpr) := let 'Expr _ _ _ _ v _ := e in v.
Definition values (e : PolicyExpr) := let 'Expr _ _ _ _ _ vs := e in vs.

Section ind.
Context (P : PolicyExpr -> Prop).
Hypothesis HExpr : forall o c a m v vs, Forall P (c ?? []) -> P (Expr o c a m v vs).

Fixpoint PolicyExpr_ind' (e : PolicyExpr) : P e :=
  match e with
  | Expr o c a m v vs => HExpr o c a m v vs
      (match c return Forall P (c ?? []) with
       | None => List.Forall_nil P
       | Some l => (fix go l : Forall P l :=
           match l with [] => List.Forall_nil P | x :: l => proj2 (Forall_cons P x l) (conj (PolicyExpr_ind' x) (go l)) end) l
       end)
  end.
End ind.

Definition leaf (m v : string) : PolicyExpr := Expr None None None (Some m) (Some v) None.
Definition group (o : string) (l : list PolicyExpr) : PolicyExpr := Expr (Some o) (Some l) None None None None.

(** ** The editor *)

Record ExprMatch := { em_value : string; em_attrOnly : bool; em_noValue : bool; em_list : bool }.
Definition EXPR_MATCHES : list ExprMatch := [
  {| em_value := "equals"; em_attrOnly := false; em_noValue := false; em_list := false |};
  {| em_value := "not_equals"; em_attrOnly := false; em_noValue := false; em_list := false |};
  {| em_value := "prefix"; em_attrOnly := false; em_noValue := false; em_list := false |};
  {| em_value := "suffix"; em_attrOnly := false; em_noValue := false; em_list := false |};
  {| em_value := "contains"; em_attrOnly := false; em_noValue := false; em_list := false |};
  {| em_value := "regex"; em_attrOnly := false; em_noValue := false; em_list := false |};
  {| em_value := "in"; em_attrOnly := false; em_noValue := false; em_list := true |};
  {| em_value := "exists"; em_attrOnly := true; em_noValue := true; em_list := false |};
  {| em_value := "not_exists"; em_attrOnly := true; em_noValue := true; em_list := false |} ].

Definition emptyLeaf : PolicyExpr := leaf "equals" "".
Definition parseList (text : string) : list string := List.filter truthy (trim <$> split "," text).

Inductive NodeType := TGroup | TNot | TLeaf.
Definition is_op (e : PolicyExpr) : bool := bool_decide (op e ∈ [Some "and"; Some "or"; Some "not"]).
Definition nodeType (e : PolicyExpr) : NodeType :=
  if bool_decide (op e = Some "not") then TNot else if is_op e then TGroup else TLeaf.

Definition setType (t : NodeType) (node : PolicyExpr) : PolicyExpr :=
  match t with
  | TLeaf => emptyLeaf
  | TNot =>
      let first := match children node with Some (c :: _) => c | _ => if is_op node then emptyLeaf else node end in
      group "not" [if is_op node then first else node]
  | TGroup =>
      let kids := match children node with Some l => l | None => if is_op node then [] else [node] end in
      group (if bool_decide (op node = Some "or") then "or" else "and") (match kids with [] => [emptyLeaf] | _ => kids end)
  end.

(** The fields of a leaf. *)
Definition set_subject (to_attr : bool) (node : PolicyExpr) : PolicyExpr :=
  let 'Expr o c a m v vs := node in Expr o c (if to_attr then Some (a ?? "") else None) m v vs.
Definition set_attr (s : string) (node : PolicyExpr) : PolicyExpr := let 'Expr o c _ m v vs := node in Expr o c (Some s) m v vs.
Definition set_value (s : string) (node : PolicyExpr) : PolicyExpr := let 'Expr o c a m _ vs := node in Expr o c a m (Some s) vs.
Definition set_values (l : list string) (node : PolicyExpr) : PolicyExpr := let 'Expr o c a m v _ := node in Expr o c a m v (Some l).
Definition set_match (m' : string) (node : PolicyExpr) : PolicyExpr :=
  let 'Expr o c a _ v vs := node in
  match List.find (fun x => em_value x =s m') EXPR_MATCHES with
  | Some meta =>
      if em_noValue meta then Expr o c a (Some m') None None
      else if em_list meta then
        Expr o c a (Some m') None (Some (match vs with Some l => l | None => if truthy_opt v then [v ?? ""] else [] end))
      else Expr o c a (Some m') (Some (match v with Some s => s | None => match vs with Some (s :: _) => s | _ => "" end end)) None
  | None => Expr o c a (Some m') (Some (match v with Some s => s | None => match vs with Some (s :: _) => s | _ => "" end end)) None
  end.
(** The operators the list of a leaf offers. *)
Definition offered_matches (node : PolicyExpr) : list string :=
  em_value <$> List.filter (fun x => negb (em_attrOnly x) || bool_decide (attr node <> None)) EXPR_MATCHES.

(** The children of an operator. *)
Definition kids (node : PolicyExpr) : list PolicyExpr := children node ?? [].
Definition with_children (l : list PolicyExpr) (node : PolicyExpr) : PolicyExpr := let 'Expr o _ a m v vs := node in Expr o (Some l) a m v vs.
Definition setChild (i : nat) (next node : PolicyExpr) : PolicyExpr := with_children (<[i:=next]> (kids node)) node.
Definition removeChild (i : nat) (node : PolicyExpr) : PolicyExpr := with_children (delete i (kids node)) node.
Definition set_op (o : string) (node : PolicyExpr) : PolicyExpr := let 'Expr _ c a m v vs := node in Expr (Some o) c a m v vs.
Definition add_condition (node : PolicyExpr) : PolicyExpr := with_children (kids node ++ [emptyLeaf]) node.
Definition add_group (node : PolicyExpr) : PolicyExpr := with_children (kids node ++ [group "and" [emptyLeaf]]) node.

(** One action of the editor, at the node or under it.  The list of operators shows what
    fits the leaf, a value is edited where it is shown, and the child of a NOT has no
    button to remove it. *)
Inductive edit : PolicyExpr -> PolicyExpr -> Prop :=
| EType e t : edit e (setType t e)
| ESubject e b : nodeType e = TLeaf -> edit e (set_subject b e)
| EAttr e s : nodeType e = TLeaf -> attr e <> None -> edit e (set_attr s e)
| EMatch e m : nodeType e = TLeaf -> m ∈ offered_matches e -> edit e (set_match m e)
| EValue e s m : nodeType e = TLeaf -> match_ e = Some m -> m ∉ ["in"; "exists"; "not_exists"] -> edit e (set_value s e)
| EValues e l : nodeType e = TLeaf -> match_ e = Some "in" -> edit e (set_values l e)
| EOp e o : nodeType e = TGroup -> o ∈ ["and"; "or"] -> edit e (set_op o e)
| EAddCondition e : nodeType e = TGroup -> edit e (add_condition e)
| EAddGroup e : nodeType e = TGroup -> edit e (add_group e)
| ERemoveChild e i : nodeType e = TGroup -> edit e (removeChild i e)
| EChild e i c c' : nodeType e <> TLeaf -> kids e !! i = Some c -> edit c c' -> edit e (setChild i c' e).

(** The tree a new policy starts with. *)
Definition first_tree : PolicyExpr := group "and" [leaf "prefix" ""].

(** *** The preview *)

Definition OP_TEXT : list (string * string) := [
  ("equals", "="); ("not_equals", "≠"); ("prefix", "prefix"); ("suffix", "suffix"); ("contains", "contains");
  ("regex", "matches"); ("in", "in"); ("exists", "exists"); ("not_exists", "not set") ].

Definition QT_ : string := String (ascii_of_nat 34) "".
Definition describe_leaf (a m v : option string) (vs : option (list string)) (nameSubject : string) : string :=
  let subject := if truthy_opt a then a ?? "" else nameSubject in
  let o := match omap_get (m ?? "") OP_TEXT with Some t => t | None => m ?? "?" end in
  if bool_decide (m = Some "exists") || bool_decide (m = Some "not_exists") then tpl [subject; " "; o]
  else if bool_decide (m = Some "in") then tpl [subject; " in ["; join ", " (vs ?? []); "]"]
  else tpl [subject; " "; o; " "; QT_; v ?? ""; QT_].

Fixpoint describeExpr (e : PolicyExpr) (depth : nat) (nameSubject : string) : string :=
  let 'Expr o c a m v vs := e in
  if bool_decide (o = Some "and") || bool_decide (o = Some "or") then
    let joined := join (if bool_decide (o = Some "and") then " AND " else " OR ")
      (match c with Some l => List.map (fun x => describeExpr x (S depth) nameSubject) l | None => [] end) in
    if (0 <? depth)%nat then tpl ["("; joined; ")"] else joined
  else if bool_decide (o = Some "not") then
    tpl ["NOT "; match c with Some (x :: _) => describeExpr x (S depth) nameSubject | _ => describe_leaf None None None None nameSubject end]
  else describe_leaf a m v vs nameSubject.

(** ** The server: validation *)

Definition exprMaxDepth : nat := 24.
Definition exprMaxNodes : nat := 256.

(** [strings.ToLower], for the comparison with the three operators: no letter outside
    ASCII has one of their letters as its lower case. *)
Definition ToLower : string -> string := map_chars lower_char.

Definition isOperator (e : PolicyExpr) : bool := truthy_opt (op e).

Inductive ExprError :=
| TooDeep | TooLarge | NeedsChild (o : string) | NotNeedsOne | UnknownOperator (o : string) | OperatorHasLeafFields
| LeafHasChildren | RequiresValue (m : string) | InvalidRegex | InNeedsValues | AttributeOnly (m : string) | TakesNoValue (m : string)
| NoMatch | UnknownMatch (m : string) | NoTree | AttributeLeaf (a : string).

Section server.
(** [regexp.Compile] succeeds, and [MatchString] of the compiled expression. *)
Context (Compile : string -> bool) (MatchString : string -> string -> bool).

Definition validate_leaf (a m v : string) (vs : list string) : ExprError + unit :=
  if bool_decide (m ∈ ["equals"; "not_equals"; "prefix"; "suffix"; "contains"]) then if v =s "" then inl (RequiresValue m) else inr tt
  else if m =s "regex" then if v =s "" then inl (RequiresValue m) else if Compile v then inr tt else inl InvalidRegex
  else if m =s "in" then match vs with [] => inl InNeedsValues | _ => inr tt end
  else if (m =s "exists") || (m =s "not_exists") then
    if a =s "" then inl (AttributeOnly m)
    else if negb (v =s "") || (0 <? length vs)%nat then inl (TakesNoValue m) else inr tt
  else if m =s "" then inl NoMatch
  else inl (UnknownMatch m).

Definition check_arity (o : string) (n : nat) : ExprError + unit :=
  let lo := ToLower o in
  if (lo =s "and") || (lo =s "or") then if (n =? 0)%nat then inl (NeedsChild lo) else inr tt
  else if lo =s "not" then if (n =? 1)%nat then inr tt else inl NotNeedsOne
  else inl (UnknownOperator o).

(** The count of nodes goes through the traversal. *)
Fixpoint validateExprNode (e : PolicyExpr) (depth count : nat) : ExprError + nat :=
  let 'Expr o c a m v vs := e in
  let count := S count in
  if (exprMaxDepth <? depth)%nat then inl TooDeep
  else if (exprMaxNodes <? count)%nat then inl TooLarge
  else if truthy_opt o then
    let* _ := check_arity (o ?? "") (length (c ?? [])) in
    if truthy_opt m || truthy_opt a || truthy_opt v || (0 <? length (vs ?? []))%nat then inl OperatorHasLeafFields
    else match c with
         | Some l => (fix go l count := match l with
                                        | [] => inr count
                                        | x :: l => let* count := validateExprNode x (S depth) count in go l count
                                        end) l count
         | None => inr count
         end
  else if (0 <? length (c ?? []))%nat then inl LeafHasChildren
  else let* _ := validate_leaf (a ?? "") (m ?? "") (v ?? "") (vs ?? []) in inr count.

Definition ValidateExpr (root : option PolicyExpr) : ExprError + unit :=
  match root with
  | None => inl NoTree
  | Some e => let* _ := validateExprNode e 1 0 in inr tt
  end.

Fixpoint forbidAttrLeaves (e : PolicyExpr) : ExprError + unit :=
  let 'Expr o c a m v vs := e in
  if truthy_opt o then
    match c with
    | Some l => (fix go l := match l with [] => inr tt | x :: l => let* _ := forbidAttrLeaves x in go l end) l
    | None => inr tt
    end
  else if truthy_opt a then inl (AttributeLeaf (a ?? "")) else inr tt.
Definition validateNameOnlyExpr (root : option PolicyExpr) : ExprError + unit :=
  let* _ := ValidateExpr root in match root with Some e => forbidAttrLeaves e | None => inr tt end.

(** ** The server: evaluation *)

Section eval.
Context (universe : list string) (attrs : string -> string -> option string).

Definition matchLeaf (m v : string) (vs : list string) (subject : option string) : bool :=
  if m =s "exists" then bool_decide (is_Some subject)
  else if m =s "not_exists" then negb (bool_decide (is_Some subject))
  else if m =s "not_equals" then negb (bool_decide (subject = Some v))
  else match subject with
       | None => false
       | Some s =>
           if m =s "equals" then s =s v
           else if m =s "prefix" then startsWith s v
           else if m =s "suffix" then endsWith s v
           else if m =s "contains" then includes s v
           else if m =s "regex" then MatchString v s
           else if m =s "in" then bool_decide (s ∈ vs)
           else false
       end.

Definition evalLeaf (a m v : string) (vs : list string) : gset string :=
  if (m =s "regex") && negb (Compile v) then ∅
  else list_to_set (List.filter (fun name => matchLeaf m v vs (if a =s "" then Some name else attrs name a)) universe).

Fixpoint evalExpr (e : PolicyExpr) : gset string :=
  let 'Expr o c a m v vs := e in
  if truthy_opt o then
    let lo := ToLower (o ?? "") in
    let rs := match c with Some l => List.map evalExpr l | None => [] end in
    if lo =s "and" then match rs with [] => ∅ | r :: rs => foldl (fun acc next => acc ∩ next) r rs end
    else if lo =s "or" then foldl (fun acc next => acc ∪ next) ∅ rs
    else if lo =s "not" then match rs with [inner] => list_to_set universe ∖ inner | _ => ∅ end
    else ∅
  else evalLeaf (a ?? "") (m ?? "") (v ?? "") (vs ?? []).

(** The reference: what the tree says of one name, as a formula. *)
Fixpoint holds (name : string) (e : PolicyExpr) : bool :=
  let 'Expr o c a m v vs := e in
  if truthy_opt o then
    let lo := ToLower (o ?? "") in
    let bs := match c with Some l => List.map (holds name) l | None => [] end in
    if lo =s "and" then forallb id bs
    else if lo =s "or" then existsb id bs
    else negb (existsb id bs)
  else matchLeaf (m ?? "") (v ?? "") (vs ?? []) (if (a ?? "") =s "" then Some name else attrs name (a ?? "")).
End eval.
End server.

(** ** What the editor makes *)

Definition leaf_shape (m : string) (v : option string) (vs : option (list string)) : bool :=
  if bool_decide (m ∈ ["exists"; "not_exists"]) then bool_decide (v = None) && bool_decide (vs = None)
  else if m =s "in" then bool_decide (v = None) && bool_decide (vs <> None)
  else bool_decide (m ∈ ["equals"; "not_equals"; "prefix"; "suffix"; "contains"; "regex"]) && bool_decide (v <> None) && bool_decide (vs = None).

(** A tree as the editor keeps it: an operator has its children and nothing else, a NOT
    one child, and a leaf the value its operator takes. *)
Fixpoint shaped (e : PolicyExpr) : bool :=
  let 'Expr o c a m v vs := e in
  match o with
  | Some o =>
      bool_decide (o ∈ ["and"; "or"; "not"]) && bool_decide (a = None) && bool_decide (m = None) && bool_decide (v = None) && bool_decide (vs = None) &&
      match c with Some l => forallb id (List.map shaped l) && (negb (o =s "not") || (length l =? 1)%nat) | None => false end
  | None => bool_decide (c = None) && match m with Some m => leaf_shape m v vs | None => false end
  end.

Lemma forallb_id_map {A} (f : A -> bool) l : forallb id (List.map f l) = true <-> Forall (fun x => f x = true) l.
Proof.
  induction l as [|x l IH]; cbn [List.map forallb]; [split; [constructor|done]|].
  rewrite andb_true_iff, IH, Forall_cons. done.
Qed.

Lemma shaped_group o l : shaped (group o l) = true <->
  o ∈ ["and"; "or"; "not"] /\ Forall (fun x => shaped x = true) l /\ (o = "not" -> length l = 1%nat).
Proof.
  unfold group. cbn [shaped]. rewrite !(bool_decide_eq_true_2 (None = None)) by done. rewrite !andb_true_r, !andb_true_iff, bool_decide_eq_true, forallb_id_map.
  rewrite orb_true_iff, negb_true_iff, Nat.eqb_eq. destruct (o =s "not") eqn:E; bool_prop; naive_solver.
Qed.

(** The two forms of a shaped tree. *)
Lemma shaped_cases e : shaped e = true ->
  (exists o l, e = group o l /\ shaped (group o l) = true) \/
  (exists a m v vs, e = Expr None None a (Some m) v vs /\ leaf_shape m v vs = true).
Proof.
  destruct e as [[o|] c a m v vs]; intros H; generalize H; cbn [shaped]; rewrite !andb_true_iff, ?bool_decide_eq_true.
  - intros [[[[[_ ->] ->] ->] ->] Hc]. destruct c as [l|]; [|done]. left. by exists o, l.
  - intros [-> Hm]. destruct m as [m|]; [|done]. right. by exists a, m, v, vs.
Qed.

Lemma nodeType_leaf a m v vs c : nodeType (Expr None c a m v vs) = TLeaf.
Proof. done. Qed.
Lemma nodeType_group o l : o ∈ ["and"; "or"; "not"] -> nodeType (group o l) = if o =s "not" then TNot else TGroup.
Proof. rewrite !elem_of_cons, elem_of_nil. by intros [->|[->|[->|[]]]]. Qed.
Lemma is_op_group o l : o ∈ ["and"; "or"; "not"] -> is_op (group o l) = true.
Proof. rewrite !elem_of_cons, elem_of_nil. by intros [->|[->|[->|[]]]]. Qed.

Lemma setType_shaped t e : shaped e = true -> shaped (setType t e) = true.
Proof.
  intros He. destruct t; cbn [setType].
  - apply shaped_group. split; [case_bool_decide; rewrite !elem_of_cons; tauto|]. split; [|case_bool_decide; done].
    apply shaped_cases in He as [(o & l & -> & Hg)|(a & m & v & vs & -> & Hl)].
    + apply shaped_group in Hg as (Ho & Hl & _). cbn [children group]. destruct l; [by repeat constructor|done].
    + cbn [children]. change (is_op _) with false. cbn iota. constructor; [|constructor]. exact Hl.
  - apply shaped_group. split; [rewrite !elem_of_cons; tauto|]. split; [|done]. constructor; [|constructor].
    pose proof He as He'. apply shaped_cases in He' as [(o & l & -> & Hg)|(a & m & v & vs & -> & Hl)].
    + apply shaped_group in Hg as (Ho & Hl & _). rewrite is_op_group by done. cbn [children group].
      destruct l as [|x l]; [done|]. by apply Forall_cons in Hl as [? _].
    + done.
  - done.
Qed.

Lemma shaped_leaf e : shaped e = true -> nodeType e = TLeaf ->
  exists a m v vs, e = Expr None None a (Some m) v vs /\ leaf_shape m v vs = true.
Proof.
  intros [(o & l & -> & Hg)|?]%shaped_cases Ht; [|done]. apply shaped_group in Hg as (Ho & _).
  rewrite nodeType_group in Ht by done. by destruct (o =s "not").
Qed.
Lemma shaped_op e : shaped e = true -> nodeType e <> TLeaf ->
  exists o l, e = group o l /\ o ∈ ["and"; "or"; "not"] /\ Forall (fun x => shaped x = true) l /\ (o = "not" -> length l = 1%nat) /\
    (nodeType e = TGroup -> o <> "not").
Proof.
  intros [(o & l & -> & Hg)|(a & m & v & vs & -> & _)]%shaped_cases Ht; [|by destruct Ht].
  apply shaped_group in Hg as (Ho & Hl & Hn). exists o, l. split_and!; [done..|]. rewrite nodeType_group by done. by intros ? ->.
Qed.

Lemma set_match_shaped m e : shaped e = true -> nodeType e = TLeaf -> m ∈ offered_matches e -> shaped (set_match m e) = true.
Proof.
  intros He Ht Hm. destruct (shaped_leaf e He Ht) as (a & m0 & v & vs & -> & _).
  apply list_elem_of_fmap in Hm as (x & -> & [Hx _]%filterb_elem). unfold EXPR_MATCHES in Hx.
  rewrite !elem_of_cons, elem_of_nil in Hx.
  repeat (destruct Hx as [->|Hx]; [destruct v, vs; reflexivity|]). done.
Qed.

(** The same group with other children. *)
Lemma regroup o l l' : o ∈ ["and"; "or"; "not"] -> Forall (fun x => shaped x = true) l' -> (o = "not" -> length l' = 1%nat) ->
  shaped (with_children l' (group o l)) = true.
Proof. intros ? ? ?. by apply shaped_group. Qed.

(** Whatever is done in the editor, the tree keeps its shape. *)
Lemma edit_shaped e e' : edit e e' -> shaped e = true -> shaped e' = true.
Proof.
  induction 1 as [e t|e b Ht|e s Ht Ha|e m Ht Hm|e s m Ht Hm Hn|e l Ht Hm|e o Ht Ho|e Ht|e Ht|e i Ht|e i c c' Ht Hk He IH]; intros Hs;
    [by apply setType_shaped| | |by apply set_match_shaped| | | | | | |];
    try (destruct (shaped_leaf e Hs Ht) as (a & m0 & v & vs & -> & Hl));
    try (destruct (shaped_op e Hs) as (o' & l & -> & Ho' & Hl & Hn & Hg); [congruence|]).
  - exact Hl.
  - exact Hl.
  - cbn in Hm. injection Hm as ->. cbn [set_value shaped]. rewrite bool_decide_true by done. cbn [andb]. revert Hl. unfold leaf_shape.
    rewrite bool_decide_false by set_solver. destruct (m =s "in") eqn:E; [bool_prop; set_solver|].
    rewrite !andb_true_iff. intros [[Hm' _] Hvs]. by rewrite Hm', Hvs.
  - cbn in Hm. injection Hm as ->. cbn [set_values shaped]. rewrite bool_decide_true by done. cbn [andb]. revert Hl. unfold leaf_shape.
    rewrite bool_decide_false by set_solver. cbn [String.eqb Ascii.eqb Bool.eqb]. rewrite !andb_true_iff. intros [Hv _]. by rewrite Hv.
  - apply shaped_group. split; [set_solver|]. split; [done|]. intros ->. set_solver.
  - apply regroup; [done| |intros E; by destruct (Hg Ht)]. apply Forall_app. split; [done|by repeat constructor].
  - apply regroup; [done| |intros E; by destruct (Hg Ht)]. apply Forall_app. split; [done|by repeat constructor].
  - apply regroup; [done| |intros E; by destruct (Hg Ht)]. by apply Forall_delete.
  - cbn in Hk. apply regroup; [done| |by rewrite length_insert]. apply Forall_insert; [done|]. apply IH.
    rewrite Forall_lookup in Hl. by eapply Hl.
Qed.

(** ** What the server accepts of it *)

Section accepted.
Context (Compile : string -> bool).

Definition leaf_complete (a : option string) (m : string) (v : option string) (vs : option (list string)) : bool :=
  if bool_decide (m ∈ ["exists"; "not_exists"]) then truthy_opt a
  else if m =s "in" then negb (bool_decide ((vs ?? []) = []))
  else truthy_opt v && (negb (m =s "regex") || Compile (v ?? "")).

(** Nothing is left blank: no empty group, value or list, no EXISTS without its key, no
    expression that does not compile. *)
Fixpoint complete (e : PolicyExpr) : bool :=
  let 'Expr o c a m v vs := e in
  match o with
  | Some _ => (0 <? length (c ?? []))%nat && forallb id (match c with Some l => List.map complete l | None => [] end)
  | None => leaf_complete a (m ?? "") v vs
  end.

Fixpoint depth (e : PolicyExpr) : nat := let 'Expr _ c _ _ _ _ := e in S (list_max (match c with Some l => List.map depth l | None => [] end)).
Fixpoint size (e : PolicyExpr) : nat := let 'Expr _ c _ _ _ _ := e in S (list_sum (match c with Some l => List.map size l | None => [] end)).

Lemma validate_leaf_complete a m v vs : leaf_shape m v vs = true ->
  (validate_leaf Compile (a ?? "") m (v ?? "") (vs ?? []) = inr tt <-> leaf_complete a m v vs = true).
Proof.
  unfold leaf_shape, leaf_complete, validate_leaf, truthy_opt, truthy.
  destruct (decide (m ∈ ["exists"; "not_exists"])) as [Hm|Hm].
  { rewrite (bool_decide_eq_true_2 _ Hm). rewrite andb_true_iff, !bool_decide_eq_true. intros [-> ->].
    rewrite !elem_of_cons, elem_of_nil in Hm. destruct Hm as [->|[->|[]]]; cbn; destruct (a ?? ""); split; done. }
  rewrite (bool_decide_eq_false_2 _ Hm). destruct (m =s "in") eqn:Ei.
  { bool_prop. subst m. intros _. cbn. destruct (vs ?? []); split; done. }
  rewrite !andb_true_iff, !bool_decide_eq_true. intros [[Hin Hv] ->]. destruct v as [v|]; [|done]. cbn [default].
  rewrite !elem_of_cons, elem_of_nil in Hin.
  unfold default, id. destruct Hin as [->|[->|[->|[->|[->|[->|[]]]]]]]; destruct v as [|x v]; cbn; try (destruct (Compile _)); split; naive_solver.
Qed.

Lemma validate_leaf_cases a m v vs : validate_leaf Compile a m v vs = inr tt \/ exists err, validate_leaf Compile a m v vs = inl err.
Proof. destruct (validate_leaf Compile a m v vs) as [err|[]]; eauto. Qed.

Lemma check_arity_shape o n : o ∈ ["and"; "or"; "not"] -> (o = "not" -> n = 1%nat) ->
  (check_arity o n = inr tt <-> (0 < n)%nat).
Proof.
  rewrite !elem_of_cons, elem_of_nil. unfold check_arity. intros [->|[->|[->|[]]]] Hn; cbn.
  - destruct (Nat.eqb_spec n 0); split; intros; (done || lia).
  - destruct (Nat.eqb_spec n 0); split; intros; (done || lia).
  - rewrite Hn by done. split; intros; (done || lia).
Qed.

Definition go_all (depth : nat) : list PolicyExpr -> nat -> ExprError + nat :=
  fix go l count := match l with [] => inr count | x :: l => let* count := validateExprNode Compile x depth count in go l count end.

Lemma validate_group o l d c : truthy o = true ->
  validateExprNode Compile (group o l) d c =
    if (exprMaxDepth <? d)%nat then inl TooDeep else if (exprMaxNodes <? S c)%nat then inl TooLarge
    else let* _ := check_arity o (length l) in go_all (S d) l (S c).
Proof. intros Ho. unfold group. cbn [validateExprNode]. unfold truthy_opt. unfold default, id. rewrite Ho. done. Qed.

Lemma err_bind_tt {E B} (x : E + unit) (k : E + B) y : (let* _ := x in k) = inr y <-> x = inr tt /\ k = inr y.
Proof. destruct x as [e|[]]; cbn; naive_solver. Qed.

(** The children, one after the other. *)
Lemma go_all_iff d l : Forall (fun e => forall d c c', shaped e = true ->
    validateExprNode Compile e d c = inr c' <-> complete e = true /\ (d + depth e <= S exprMaxDepth)%nat /\ c' = (c + size e)%nat /\ (c' <= exprMaxNodes)%nat) l ->
  Forall (fun x => shaped x = true) l -> forall c c', (c <= exprMaxNodes)%nat ->
  go_all d l c = inr c' <-> Forall (fun x => complete x = true) l /\ Forall (fun x => d + depth x <= S exprMaxDepth)%nat l /\
    c' = (c + list_sum (size <$> l))%nat /\ (c' <= exprMaxNodes)%nat.
Proof.
  induction l as [|x l IH]; intros Hx Hs c c' Hc.
  - cbn [go_all fmap list_fmap]. cbn [list_sum foldr]. split; [intros [= <-]|intros (_ & _ & -> & _)]; [|f_equal; lia].
    split; [constructor|]. split; [constructor|]. lia.
  - apply Forall_cons in Hx as [Hx Hl]. apply Forall_cons in Hs as [Hsx Hsl]. cbn [go_all fmap list_fmap]. fold (go_all d).
    rewrite err_bind_inr, !Forall_cons. change (list_sum (size x :: ?m)) with (size x + list_sum m)%nat.
    split.
    + intros (c1 & H1 & H2). apply (Hx d c c1 Hsx) in H1 as (? & ? & -> & ?). apply IH in H2 as (? & ? & -> & ?); [|done..].
      split_and!; try done; lia.
    + intros ([? ?] & [? ?] & -> & ?). exists (c + size x)%nat. split; [apply Hx; [done|]; split_and!; [done|done|done|lia]|].
      apply IH; [done|done|lia|]. split_and!; try done; lia.
Qed.

Lemma list_max_le_Forall l n : (list_max l <= n)%nat <-> Forall (fun x => x <= n)%nat l.
Proof. apply list_max_le. Qed.

Lemma validate_iff e : forall d c c', shaped e = true ->
  validateExprNode Compile e d c = inr c' <->
  complete e = true /\ (d + depth e <= S exprMaxDepth)%nat /\ c' = (c + size e)%nat /\ (c' <= exprMaxNodes)%nat.
Proof.
  induction e as [o ch a m v vs IH] using PolicyExpr_ind'. intros d c c' Hs.
  apply shaped_cases in Hs as [(o' & l & E & Hg)|(a' & m' & v' & vs' & E & Hl)].
  - unfold group in E. simplify_eq. apply shaped_group in Hg as (Ho & Hl & Hn). fold (group o' l).
    assert (Ht : truthy o' = true) by (rewrite !elem_of_cons, elem_of_nil in Ho; by destruct Ho as [->|[->|[->|[]]]]).
    rewrite validate_group by done. cbn [complete depth size group]. cbn [default] in IH. unfold default, id in IH |- *.
    rewrite andb_true_iff, Nat.ltb_lt, forallb_id_map.
    destruct (Nat.ltb_spec exprMaxDepth d) as [Hd|Hd]; [split; [done|intros (_ & ? & _); lia]|].
    destruct (Nat.ltb_spec exprMaxNodes (S c)) as [Hc|Hc]; [split; [done|intros (_ & _ & ? & ?); lia]|].
    rewrite err_bind_tt, check_arity_shape by done. rewrite (go_all_iff (S d) l IH Hl (S c) c') by done.
    assert (Hm : (d + S (list_max (List.map depth l)) <= S exprMaxDepth)%nat <-> Forall (fun x => S d + depth x <= S exprMaxDepth)%nat l).
    { transitivity (list_max (List.map depth l) <= exprMaxDepth - d)%nat; [lia|]. rewrite list_max_le, List.Forall_map.
      split; intros HF; (eapply Forall_impl; [exact HF|]); cbv beta; intros; unfold exprMaxDepth in *; lia. }
    rewrite Hm. change (List.map size l) with (size <$> l). replace (c + S (list_sum (size <$> l)))%nat with (S c + list_sum (size <$> l))%nat by lia. tauto.
  - simplify_eq. cbn [validateExprNode complete depth size]. change (truthy_opt None) with false. cbn iota.
    change (0 <? length (None ?? []))%nat with false. cbn iota. unfold default at 1 2, id.
    change (list_max []) with 0%nat. change (list_sum []) with 0%nat.
    destruct (Nat.ltb_spec exprMaxDepth d) as [Hd|Hd]; [split; [done|intros (_ & ? & _); lia]|].
    destruct (Nat.ltb_spec exprMaxNodes (S c)) as [Hc|Hc]; [split; [done|intros (_ & _ & ? & ?); lia]|].
    rewrite err_bind_tt. rewrite (validate_leaf_complete a' m' v' vs' Hl). split.
    + intros [? [= <-]]. split_and!; [done|lia..].
    + intros (? & ? & -> & ?). split; [done|]. f_equal. lia.
Qed.

(** C10. Every tree reached in the editor from the one a new policy starts with has the shape
    the server wants.  The server refuses it only for what is left blank or for its size:
    it accepts the tree exactly when it is complete and has at most 24 levels and 256
    nodes. *)
Theorem editor_trees_accepted_iff e :
  rtc edit first_tree e ->
  (ValidateExpr Compile (Some e) = inr tt <-> complete e = true /\ (depth e <= 24)%nat /\ (size e <= 256)%nat).
Proof.
  intros He. assert (Hs : shaped e = true).
  { revert He. apply (rtc_ind_r (fun e => shaped e = true)); [reflexivity|]. intros; by eapply edit_shaped. }
  unfold ValidateExpr. rewrite err_bind_inr. split.
  - intros (c & Hv & _). apply validate_iff in Hv as (? & ? & -> & ?); [|done]. unfold exprMaxDepth, exprMaxNodes in *. split_and!; [done|lia..].
  - intros (? & ? & ?). exists (size e). split; [|done]. apply validate_iff; [done|]. unfold exprMaxDepth, exprMaxNodes. split_and!; [done|lia..].
Qed.
End accepted.

(** ** What a tree grants *)

Section grants.
Context (Compile : string -> bool) (MatchString : string -> string -> bool) (universe : list string) (attrs : string -> string -> option string).
Notation eval := (evalExpr Compile MatchString universe attrs).
Notation sat := (holds MatchString attrs).

Lemma elem_foldl_inter (rs : list (gset string)) r x : x ∈ foldl (fun acc next => acc ∩ next) r rs <-> x ∈ r /\ Forall (fun s => x ∈ s) rs.
Proof.
  revert r. induction rs as [|s rs IH]; intros r; cbn [foldl]; [split; [by split|tauto]|].
  rewrite IH, elem_of_intersection, Forall_cons. tauto.
Qed.
Lemma elem_foldl_union (rs : list (gset string)) r x : x ∈ foldl (fun acc next => acc ∪ next) r rs <-> x ∈ r \/ Exists (fun s => x ∈ s) rs.
Proof.
  revert r. induction rs as [|s rs IH]; intros r; cbn [foldl].
  - split; [by left|]. intros [?|Hx]; [done|]. by apply Exists_nil in Hx.
  - rewrite IH, elem_of_union, Exists_cons. tauto.
Qed.
Lemma existsb_id_map {A} (f : A -> bool) l : existsb id (List.map f l) = true <-> Exists (fun x => f x = true) l.
Proof.
  induction l as [|x l IH]; cbn [List.map existsb]; [split; [done|by intros ?%Exists_nil]|].
  rewrite orb_true_iff, IH, Exists_cons. done.
Qed.

(** A node the server accepts, at whatever place of a tree. *)
Definition accepted (e : PolicyExpr) : Prop := exists d c c', validateExprNode Compile e d c = inr c'.

Lemma accepted_children d l c c' : go_all Compile d l c = inr c' -> Forall accepted l.
Proof.
  revert c. induction l as [|x l IH]; intros c; [constructor|]. cbn [go_all]. fold (go_all Compile d).
  intros (c1 & H1 & H2)%err_bind_inr. constructor; [by exists d, c, c1|by eapply IH].
Qed.

Lemma accepted_op o ch a m v vs : truthy_opt o = true -> accepted (Expr o ch a m v vs) ->
  check_arity (o ?? "") (length (ch ?? [])) = inr tt /\ Forall accepted (ch ?? []).
Proof.
  intros Ho (d & c & c' & H). cbn [validateExprNode] in H. rewrite Ho in H.
  destruct (exprMaxDepth <? d)%nat; [done|]. destruct (exprMaxNodes <? S c)%nat; [done|].
  apply err_bind_tt in H as [Ha H]. split; [done|]. destruct ch as [l|]; [|constructor].
  destruct (_ || _) in H; [done|]. by eapply accepted_children.
Qed.

Lemma accepted_leaf o ch a m v vs : truthy_opt o = false -> accepted (Expr o ch a m v vs) ->
  validate_leaf Compile (a ?? "") (m ?? "") (v ?? "") (vs ?? []) = inr tt.
Proof.
  intros Ho (d & c & c' & H). cbn [validateExprNode] in H. rewrite Ho in H.
  destruct (exprMaxDepth <? d)%nat; [done|]. destruct (exprMaxNodes <? S c)%nat; [done|].
  destruct (0 <? length (ch ?? []))%nat; [done|]. by apply err_bind_tt in H as [? _].
Qed.

Lemma regex_compiles a m v vs : validate_leaf Compile a m v vs = inr tt -> (m =s "regex") && negb (Compile v) = false.
Proof.
  destruct (m =s "regex") eqn:E; [|done]. bool_prop. subst m. unfold validate_leaf. cbn [andb].
  destruct (Compile v) eqn:Ec; [done|]. rewrite bool_decide_false by set_solver. cbn. by destruct (v =s "").
Qed.

Lemma eval_node name e : accepted e -> name ∈ eval e <-> name ∈ universe /\ sat name e = true.
Proof.
  induction e as [o ch a m v vs IH] using PolicyExpr_ind'. intros Ha. cbn [evalExpr holds].
  destruct (truthy_opt o) eqn:Ho.
  - apply accepted_op in Ha as [Har Hch]; [|done].
    assert (Hx : Forall (fun x => name ∈ eval x <-> name ∈ universe /\ sat name x = true) (ch ?? [])).
    { apply Forall_forall. intros x Hin. rewrite Forall_forall in IH, Hch. by apply IH, Hch. }
    clear IH Hch. revert Har. unfold check_arity. destruct ch as [l|].
    2:{ cbn. repeat case_goal; done. }
    unfold default, id in *. change (default [] (Some l)) with l in *.
    destruct (ToLower (match o with Some s => s | None => "" end) =s "and") eqn:E1; [|destruct (ToLower (match o with Some s => s | None => "" end) =s "or") eqn:E2];
      cbn [orb]; [| |destruct (ToLower (match o with Some s => s | None => "" end) =s "not") eqn:E3; [|done]].
    + destruct l as [|x l]; [done|]. intros _. cbn [List.map]. apply Forall_cons in Hx as [Hx Hl].
      rewrite elem_foldl_inter, Hx. cbn [forallb]. rewrite andb_true_iff, (forallb_id_map (sat name)), Forall_map.
      rewrite !Forall_forall in *. split; [|naive_solver]. intros [[? ?] Hall]. split; [done|]. split; [done|]. intros y Hy. by apply Hl, Hall.
    + intros _. rewrite elem_foldl_union, (existsb_id_map (sat name)), Exists_fmap, !Exists_exists.
      rewrite Forall_forall in Hx. split; [intros [?|(y & Hy & Hin)]; [set_solver|]|intros (? & y & Hy & ?)].
      * apply Hx in Hin as [? ?]; [|done]. split; [done|]. by exists y.
      * right. exists y. split; [done|]. by apply Hx.
    + destruct l as [|x [|]]; [done| |done]. intros _. cbn [List.map existsb id]. rewrite orb_false_r.
      apply Forall_cons in Hx as [Hx _]. rewrite elem_of_difference, elem_of_list_to_set, Hx. destruct (sat name x); naive_solver.
  - apply accepted_leaf, regex_compiles in Ha; [|done]. unfold evalLeaf. rewrite Ha. by rewrite elem_of_list_to_set, filterb_elem.
Qed.

(** C9. A saved tree means what it says: it grants exactly the names of the organization for
    which the tree is true, read as a formula of and, or and not over its conditions. *)
Theorem tree_grants_what_it_says e name :
  ValidateExpr Compile (Some e) = inr tt ->
  name ∈ evalExpr Compile MatchString universe attrs e <-> name ∈ universe /\ holds MatchString attrs name e = true.
Proof.
  intros H. apply eval_node. unfold ValidateExpr in H. apply err_bind_inr in H as (c & H & _). by exists 1%nat, 0%nat, c.
Qed.
End grants.

(** ** Examples *)

Definition any_regexp (s : string) : bool := true.
Definition equal_regexp (re s : string) : bool := s =s re.

Definition orders_not_test : PolicyExpr := group "and" [leaf "prefix" "orders"; group "not" [leaf "suffix" "-test"]].

(** Typed in the editor: the condition, a second one, and its switch to NOT. *)
Lemma orders_not_test_typed : rtc edit first_tree orders_not_test.
Proof.
  assert (Hc : forall l i c c', edit c c' -> l !! i = Some c -> edit (group "and" l) (group "and" (<[i:=c']> l))).
  { intros l i c c' He Hi. by refine (EChild (group "and" l) i c c' _ Hi He). }
  eapply rtc_l; [apply (Hc _ 0 (leaf "prefix" "")); [by apply (EValue _ "orders" "prefix"); [| |set_solver]|done]|].
  eapply rtc_l; [apply EAddCondition; reflexivity|].
  eapply rtc_l; [apply (Hc _ 1 emptyLeaf); [apply (EMatch _ "suffix"); [done|apply list_elem_of_In; vm_compute; tauto]|done]|].
  eapply rtc_l; [apply (Hc _ 1 (leaf "suffix" "")); [by apply (EValue _ "-test" "suffix"); [| |set_solver]|done]|].
  eapply rtc_l; [apply (Hc _ 1 (leaf "suffix" "-test")); [exact (EType _ TNot)|done]|]. apply rtc_refl.
Qed.

Lemma editor_trees_accepted_iff_witness : ValidateExpr any_regexp (Some orders_not_test) = inr tt.
Proof. apply (editor_trees_accepted_iff any_regexp _ orders_not_test_typed). split_and!; [reflexivity|vm_compute; lia..]. Defined.

Lemma tree_grants_what_it_says_witness :
  "orders-api" ∈ evalExpr any_regexp equal_regexp ["orders-api"; "orders-test"; "billing"] (fun _ _ => None) orders_not_test.
Proof.
  apply (tree_grants_what_it_says any_regexp equal_regexp _ _ orders_not_test "orders-api"); [reflexivity|].
  split; [apply elem_of_cons; by left|reflexivity].
Defined.

(** A tree the server would refuse does not resolve to nothing when it stands under a
    NOT: it resolves to everything. *)
Example not_of_malformed :
  ValidateExpr any_regexp (Some (group "not" [leaf "starts" "x"])) = inl (UnknownMatch "starts") /\
  evalExpr any_regexp equal_regexp ["orders"; "billing"] (fun _ _ => None) (group "not" [leaf "starts" "x"]) = {["orders"; "billing"]}.
Proof. split; [reflexivity|vm_compute; reflexivity]. Qed.

(** Turning a group into a NOT keeps its first condition only, and turning it into a
    condition keeps none. *)
Example type_switch_loses :
  setType TNot (group "or" [leaf "equals" "a"; leaf "equals" "b"]) = group "not" [leaf "equals" "a"] /\
  setType TLeaf (group "or" [leaf "equals" "a"; leaf "equals" "b"]) = emptyLeaf.
Proof. split; reflexivity. Qed.

(** An attribute condition whose key is left blank is accepted, as a condition on the
    name. *)
Example blank_key_matches_names :
  let e := set_value "prod" (set_subject true emptyLeaf) in
  shaped e = true /\ ValidateExpr any_regexp (Some e) = inr tt /\
  evalExpr any_regexp equal_regexp ["prod"; "orders"] (fun name key => if (name =s "orders") && (key =s "env") then Some "prod" else None) e = {["prod"]}.
Proof. split_and!; vm_compute; reflexivity. Qed.

Example preview_of_tree : describeExpr orders_not_test 0 "service" = tpl ["service prefix "; QT_; "orders"; QT_; " AND NOT service suffix "; QT_; "-test"; QT_].
Proof. reflexivity. Qed.
