(* ===== verification/Policies.v ===== *)
(** * Access policies

    The policies of a team in [pages/Settings.tsx]: how a policy is described, the form
    that edits one and the requests it sends, and what identity/policies.go of the cell
    API validates, stores and grants for them. *)

From S2P Require Import Prelude JsString JsArray Host RuleServer PolicyExpr.

Local Open Scope char_scope.
Local Open Scope string_scope.
Local Open Scope list_scope.

(** ** Data *)

Record AccessPolicy := {
  ap_id : string; ap_kind : string; ap_target_service_name : option string; ap_target_integration_id : option string;
  ap_target_system_kind : option string; ap_target_system_id : option string; ap_attribute_match : list (string * string);
  ap_conditions : option PolicyExpr; ap_signals : option (list string); ap_grant_services : option bool }.

Record AccessPolicyInput := {
  pi_kind : string; pi_target_service_name : string; pi_target_integration_id : string; pi_target_system_kind : string;
  pi_attribute_match : list (string * string); pi_conditions : option PolicyExpr; pi_signals : option (list string);
  pi_grant_services : option bool }.

(** ** Descriptions *)

Definition attrs_text (l : list (string * string)) : string := join ", " ((fun kv => tpl [kv.1; "="; kv.2]) <$> l).

(** [undefined] for a kind the switch does not know. *)
Definition describePolicy (p : AccessPolicy) : option string :=
  let k := ap_kind p in
  if k =s "all_org" then Some "Everything in the org (wildcard)"
  else if k =s "system" then
    let named := match ap_conditions p with Some e => "named " +:+ describeExpr e 0 "name" | None => "" end in
    let kinded := if truthy_opt (ap_target_system_kind p) then tpl ["All "; ap_target_system_kind p ?? ""; " systems"] else "All flagged systems" in
    Some (if truthy named then tpl [kinded; " "; named] else kinded)
  else if k =s "service" then Some ("Service " +:+ (ap_target_service_name p ?? "undefined"))
  else if k =s "integration" then
    match ap_conditions p with
    | Some e => Some ("Integrations whose " +:+ describeExpr e 0 "name")
    | None => Some (tpl ["All services in integration "; slice_to 8 (ap_target_integration_id p ?? ""); "…"])
    end
  else if k =s "attributes" then Some ("Where " +:+ or_str (Some (attrs_text (ap_attribute_match p))) "(no attrs)")
  else if k =s "compound" then
    let target := if truthy_opt (ap_target_service_name p) then "service " +:+ (ap_target_service_name p ?? "")
                  else tpl ["integration "; slice_to 8 (ap_target_integration_id p ?? ""); "…"] in
    Some (tpl [target; " where "; attrs_text (ap_attribute_match p)])
  else if k =s "expression" then Some (match ap_conditions p with Some e => describeExpr e 0 "service" | None => "(empty expression)" end)
  else None.

Definition withSignals (p : AccessPolicy) (text : string) : string :=
  match ap_signals p with Some (s :: l) => tpl [text; " — "; join ", " (s :: l); " only"] | _ => text end.

(** ** The form *)

Definition ALL_SIGNALS : list string := ["traces"; "logs"; "metrics"; "messages"].

Record PolicyForm := {
  kind : string; serviceName : string; integrationID : string; integrationIDs : list string; grantServices : bool;
  systemKind : string; attrPairs : list (string * string); expr : PolicyExpr; signals : list string; byPattern : bool }.

(** The fields as the drawer opens, on the policy it edits or on none. *)
Definition seed (policy : option AccessPolicy) : PolicyForm :=
  let get {A} (f : AccessPolicy -> option A) := match policy with Some p => f p | None => None end in
  {| kind := get (fun p => Some (ap_kind p)) ?? "attributes";
     serviceName := get ap_target_service_name ?? "";
     integrationID := get ap_target_integration_id ?? "";
     integrationIDs := [];
     grantServices := get ap_grant_services ?? false;
     systemKind := get ap_target_system_kind ?? "";
     attrPairs := (get (fun p => Some (ap_attribute_match p)) ?? []) ++ [("", "")];
     expr := get ap_conditions ?? first_tree;
     signals := (match get ap_signals with Some (s :: l) => dedupe (s :: l) | _ => ALL_SIGNALS end);
     byPattern := match policy with
                  | Some p => bool_decide (ap_conditions p <> None) && ((ap_kind p =s "integration") || (ap_kind p =s "system"))
                  | None => false
                  end |}.

Section form.
Context (policy : option AccessPolicy) (f : PolicyForm).

Definition patternable : bool := (kind f =s "integration") || (kind f =s "system").
Definition usePattern : bool := patternable && byPattern f.
Definition wantsService : bool := (kind f =s "service") || (kind f =s "compound").
Definition wantsIntegration : bool := ((kind f =s "integration") && negb usePattern) || (kind f =s "compound").
Definition picksSeveral : bool := (kind f =s "integration") && negb usePattern && bool_decide (policy = None).
Definition wantsAttrs : bool := (kind f =s "attributes") || (kind f =s "compound").
Definition wantsSystem : bool := kind f =s "system".
Definition wantsExpr : bool := (kind f =s "expression") || usePattern.

(** A row counts when both sides are filled in; the last of two rows with one key wins.
    Assigning to [__proto__] adds no property. *)
Definition attr_rows : list (string * string) :=
  List.filter (fun kv => truthy kv.1 && truthy kv.2 && negb (kv.1 =s "__proto__")) ((fun kv => (trim kv.1, trim kv.2)) <$> attrPairs f).

Definition body : AccessPolicyInput := {|
  pi_kind := kind f;
  pi_target_service_name := if wantsService then trim (serviceName f) else "";
  pi_target_integration_id := if wantsIntegration then trim (integrationID f) else "";
  pi_target_system_kind := if wantsSystem then trim (systemKind f) else "";
  pi_attribute_match := if wantsAttrs then omap_of attr_rows else [];
  pi_conditions := if wantsExpr then Some (expr f) else None;
  pi_signals := if (length (signals f) <? 4)%nat then Some (signals f) else None;
  pi_grant_services := if kind f =s "integration" then Some (grantServices f) else None |}.

Inductive Submit :=
| Refused (message : string)
| Update (id : string) (b : AccessPolicyInput)
| CreateEach (ids : list string) (b : AccessPolicyInput)
| Create (b : AccessPolicyInput).

Definition submit : Submit :=
  if (if picksSeveral then bool_decide (integrationIDs f = []) else wantsIntegration && negb (truthy (trim (integrationID f)))) then
    Refused (if picksSeveral then "Pick at least one integration for this policy." else "Pick an integration for this policy.")
  else match policy with
       | Some p => Update (ap_id p) body
       | None => if picksSeveral then CreateEach (integrationIDs f) body else Create body
       end.
End form.

(** The boxes; the form cannot be submitted when none is ticked. *)
Definition toggle_signal (sig : string) (checked : bool) (f : PolicyForm) : PolicyForm :=
  {| kind := kind f; serviceName := serviceName f; integrationID := integrationID f; integrationIDs := integrationIDs f;
     grantServices := grantServices f; systemKind := systemKind f; attrPairs := attrPairs f; expr := expr f;
     signals := (if checked then (if bool_decide (sig ∈ signals f) then signals f else signals f ++ [sig])
                 else List.filter (fun s => negb (s =s sig)) (signals f));
     byPattern := byPattern f |}.
Definition can_submit (f : PolicyForm) : bool := negb (bool_decide (signals f = [])).

(** One policy per picked integration, in turn, up to the first that fails: what was
    granted, and the selection and the error left on the form. *)
Section each.
Context (post : string -> string + unit) (name_of : string -> string).
Fixpoint create_each (todo done : list string) : list string * option (string * string) :=
  match todo with
  | [] => (done, None)
  | id :: rest => match post id with inr _ => create_each rest (done ++ [id]) | inl message => (done, Some (id, message)) end
  end.
Definition create_all (ids : list string) : list string * list string * option string :=
  match create_each ids [] with
  | (done, None) => (done, ids, None)
  | (done, Some (id, message)) =>
      (done, List.filter (fun x => negb (bool_decide (x ∈ done))) ids,
       Some (tpl [if (0 <? length done)%nat then tpl ["Granted "; show_Z (Z.of_nat (length done)); " of "; show_Z (Z.of_nat (length ids)); ". "] else "";
                  name_of id; ": "; message]))
  end.
End each.

(** ** The server *)

#[export] Instance PolicyExpr_eq_dec : EqDecision PolicyExpr.
Proof.
  refine (fix go e1 e2 := let _ : EqDecision PolicyExpr := @go in
    match e1, e2 with
    | Expr o c a m v vs, Expr o' c' a' m' v' vs' =>
        cast_if_and (decide (c = c')) (decide ((o, a, m, v, vs) = (o', a', m', v', vs')))
    end); abstract congruence.
Defined.


(** A map is written to JSON in the order of its keys. *)
Definition json_map (l : list (string * string)) : list (string * string) := sort (cmp_on fst string_cmp) (omap_of l).

(** A tree as it is stored: empty fields are left out. *)
Fixpoint stored_tree (e : PolicyExpr) : PolicyExpr :=
  let 'Expr o c a m v vs := e in
  Expr (omit (given o)) (match c with Some (x :: l) => Some (List.map stored_tree (x :: l)) | _ => None end)
       (omit (given a)) (omit (given m)) (omit (given v)) (match vs with Some (x :: l) => Some (x :: l) | _ => None end).

(** The request as the handler decodes it. *)
Record ServerInput := {
  si_Kind : string; si_TargetServiceName : string; si_TargetIntegrationID : string; si_TargetSystemKind : string; si_TargetSystemID : string;
  si_AttributeMatch : list (string * string); si_Conditions : option PolicyExpr; si_Signals : list string; si_GrantServices : bool }.

Definition decode (b : AccessPolicyInput) : ServerInput := {|
  si_Kind := pi_kind b; si_TargetServiceName := pi_target_service_name b; si_TargetIntegrationID := pi_target_integration_id b;
  si_TargetSystemKind := pi_target_system_kind b; si_TargetSystemID := ""; si_AttributeMatch := pi_attribute_match b;
  si_Conditions := pi_conditions b; si_Signals := pi_signals b ?? []; si_GrantServices := pi_grant_services b ?? false |}.

Inductive PolicyError := Message (text : string) | InTree (e : ExprError) | BadId (field : string) | PolicyExists | PolicyNotFound.

Section rows.
(** [regexp.Compile] succeeds, [uuid.Parse] with the canonical text, [strings.ToLower]. *)
Context (Compile : string -> bool) (uuid_Parse : string -> option string) (StringsToLower : string -> string).

Definition validSignal (s : string) : bool := bool_decide (s ∈ ALL_SIGNALS).

Definition check_signals (l : list string) : PolicyError + list string :=
  let* l := err_map (fun s => let s := StringsToLower (TrimSpace s) in
    if validSignal s then inr s else inl (Message (tpl ["unknown signal "; s]))) l in
  let l := dedupe l in
  inr (if (length l =? length ALL_SIGNALS)%nat then [] else l).

Definition in_tree (r : ExprError + unit) : PolicyError + unit := match r with inl e => inl (InTree e) | inr tt => inr tt end.

Definition refuse (b : bool) (text : string) : PolicyError + unit := if b then inl (Message text) else inr tt.

(** The checks of one kind. *)
Definition check_kind (i : ServerInput) : PolicyError + unit :=
  let k := si_Kind i in
  let attrs := negb (bool_decide (si_AttributeMatch i = [])) in
  let svc := truthy (si_TargetServiceName i) in
  let int := truthy (si_TargetIntegrationID i) in
  let cond := bool_decide (si_Conditions i <> None) in
  if k =s "service" then
    let* _ := refuse (negb svc) "service policy requires target_service_name" in
    refuse (int || attrs) "service policy must not set integration/attributes"
  else if k =s "integration" then
    let* _ := refuse (negb int && negb cond) "integration policy requires target_integration_id or conditions" in
    let* _ := refuse (int && cond) "integration policy takes target_integration_id or conditions, not both" in
    let* _ := refuse (svc || attrs) "integration policy must not set service/attributes" in
    if cond then in_tree (validateNameOnlyExpr Compile (si_Conditions i)) else inr tt
  else if k =s "attributes" then
    let* _ := refuse (negb attrs) "attributes policy requires at least one attribute_match kv" in
    refuse (svc || int) "attributes policy must not set service/integration"
  else if k =s "compound" then
    let* _ := refuse (negb svc && negb int) "compound policy requires target_service_name or target_integration_id" in
    refuse (negb attrs) "compound policy requires attribute_match"
  else if k =s "all_org" then refuse (svc || int || attrs) "all_org policy must not set targets/attributes"
  else if k =s "system" then
    let* _ := refuse (svc || int || attrs) "system policy must not set service/integration/attributes" in
    if cond then in_tree (validateNameOnlyExpr Compile (si_Conditions i)) else inr tt
  else if k =s "expression" then
    let* _ := refuse (svc || int || attrs) "expression policy must not set service/integration/attributes" in
    in_tree (ValidateExpr Compile (si_Conditions i))
  else inl (Message ("invalid policy kind: " +:+ k)).

Definition validatePolicyInput (i : ServerInput) : PolicyError + ServerInput :=
  let* sigs := (match si_Signals i with [] => inr [] | l => check_signals l end) in
  let i := {| si_Kind := si_Kind i; si_TargetServiceName := TrimSpace (si_TargetServiceName i);
              si_TargetIntegrationID := TrimSpace (si_TargetIntegrationID i);
              si_TargetSystemKind := StringsToLower (TrimSpace (si_TargetSystemKind i)); si_TargetSystemID := TrimSpace (si_TargetSystemID i);
              si_AttributeMatch := si_AttributeMatch i; si_Conditions := si_Conditions i; si_Signals := sigs; si_GrantServices := si_GrantServices i |} in
  let sys := si_Kind i =s "system" in
  let* _ := refuse (negb sys && truthy (si_TargetSystemKind i)) "target_system_kind only applies to a system policy" in
  let* _ := refuse (negb sys && truthy (si_TargetSystemID i)) "target_system_id only applies to a system policy" in
  let* _ := refuse (truthy (si_TargetSystemKind i) && truthy (si_TargetSystemID i)) "system policy takes target_system_kind OR target_system_id, not both" in
  let* _ := check_kind i in inr i.

Definition parse_target (field s : string) : PolicyError + option string :=
  if s =s "" then inr None else match uuid_Parse s with Some id => inr (Some id) | None => inl (BadId field) end.

(** The columns of a row, and the row as the next read gives it back. *)
Definition buildPolicyArgs (id : string) (i : ServerInput) : PolicyError + AccessPolicy :=
  let* i := validatePolicyInput i in
  let* int := parse_target "target_integration_id" (si_TargetIntegrationID i) in
  let* sys := parse_target "target_system_id" (si_TargetSystemID i) in
  inr {| ap_id := id; ap_kind := si_Kind i; ap_target_service_name := omit (si_TargetServiceName i); ap_target_integration_id := int;
         ap_target_system_kind := omit (si_TargetSystemKind i); ap_target_system_id := sys;
         ap_attribute_match := json_map (si_AttributeMatch i); ap_conditions := stored_tree <$> si_Conditions i;
         ap_signals := omit_list (si_Signals i); ap_grant_services := Some (si_GrantServices i) |}.

(** Two rows of one shape: signals are compared as sets, and neither the id nor
    grant_services is. *)
Definition signalSetEqual (a b : list string) : bool := (length a =? length b)%nat && forallb (fun s => bool_decide (s ∈ a)) b.
Definition same_shape (p q : AccessPolicy) : bool :=
  bool_decide (ap_kind p = ap_kind q) && bool_decide (ap_target_service_name p = ap_target_service_name q) &&
  bool_decide (ap_target_integration_id p = ap_target_integration_id q) && bool_decide (ap_target_system_kind p = ap_target_system_kind q) &&
  bool_decide (ap_target_system_id p = ap_target_system_id q) && bool_decide (ap_attribute_match p = ap_attribute_match q) &&
  bool_decide (ap_conditions p = ap_conditions q) && signalSetEqual (ap_signals p ?? []) (ap_signals q ?? []).

(** [UpdatePolicy] over the policies of the team. *)
Definition UpdatePolicy (existing : list AccessPolicy) (id : string) (i : ServerInput) : PolicyError + AccessPolicy :=
  let* row := buildPolicyArgs id i in
  if negb (existsb (fun p => ap_id p =s id) existing) then inl PolicyNotFound
  else if existsb (fun p => negb (ap_id p =s id) && same_shape p row) existing then inl PolicyExists
  else inr row.

(** The services a system policy grants: those of the systems its name pattern accepts,
    within its kind, or those of its kind or of its one system. *)
Definition grants_systems (MatchString : string -> string -> bool) (systems : list (string * string))
    (expandSystem : string -> option string -> list string) (p : AccessPolicy) : list string :=
  match ap_conditions p with
  | Some e =>
      let accepted := evalExpr Compile MatchString (snd <$> systems) (fun _ _ => None) e in
      concat ((fun s => expandSystem (given (ap_target_system_kind p)) (Some s.1)) <$> List.filter (fun s => bool_decide (s.2 ∈ accepted)) systems)
  | None => expandSystem (given (ap_target_system_kind p)) (ap_target_system_id p)
  end.

(** A row as a request that gives every field of it. *)
Definition as_input (p : AccessPolicy) : ServerInput := {|
  si_Kind := ap_kind p; si_TargetServiceName := given (ap_target_service_name p); si_TargetIntegrationID := given (ap_target_integration_id p);
  si_TargetSystemKind := given (ap_target_system_kind p); si_TargetSystemID := given (ap_target_system_id p);
  si_AttributeMatch := ap_attribute_match p; si_Conditions := ap_conditions p; si_Signals := ap_signals p ?? [];
  si_GrantServices := ap_grant_services p ?? false |}.

(** ** Rows the server stores *)

Class ServerLaws : Prop := {
  uuid_canonical s u : uuid_Parse s = Some u -> uuid_Parse u = Some u;
  uuid_trimmed s u : uuid_Parse s = Some u -> TrimSpace u = u /\ u <> "";
  lower_trimmed s : TrimSpace s = s -> TrimSpace (StringsToLower s) = StringsToLower s;
  lower_idem s : StringsToLower (StringsToLower s) = StringsToLower s;
  lower_nil : StringsToLower "" = "";
  lower_signals s : s ∈ ALL_SIGNALS -> StringsToLower s = s }.

Lemma validate_leaf_stored (a m v : option string) (vs : option (list string)) :
  validate_leaf Compile (omit (given a) ?? "") (omit (given m) ?? "") (omit (given v) ?? "") (match vs with Some (x :: l) => Some (x :: l) | _ => None end ?? []) =
  validate_leaf Compile (a ?? "") (m ?? "") (v ?? "") (vs ?? []).
Proof.
  change (?o ?? "") with (given o). rewrite !given_omit. f_equal. by destruct vs as [[]|].
Qed.

Lemma truthy_stored o : truthy_opt (omit (given o)) = truthy_opt o.
Proof. unfold truthy_opt. change (?o ?? "") with (given o). by rewrite given_omit. Qed.

Lemma validate_stored e : forall d c, validateExprNode Compile (stored_tree e) d c = validateExprNode Compile e d c.
Proof.
  induction e as [o ch a m v vs IH] using PolicyExpr_ind'. intros d c. cbn [stored_tree validateExprNode].
  rewrite !truthy_stored, validate_leaf_stored. change (omit (given o) ?? "") with (given (omit (given o))). rewrite given_omit. fold (given o).
  assert (Hlen : length (match ch with Some (x :: l) => Some (List.map stored_tree (x :: l)) | _ => None end ?? []) = length (ch ?? [])).
  { destruct ch as [[|x l]|]; [done| |done]. cbn. by rewrite length_map. }
  assert (Hvs : length (match vs with Some (x :: l) => Some (x :: l) | _ => None end ?? []) = length (vs ?? [])) by (by destruct vs as [[]|]).
  rewrite Hlen, Hvs.
  assert (Hgo : forall count, match (match ch with Some (x :: l) => Some (List.map stored_tree (x :: l)) | _ => None end) with
      Some l => go_all Compile (S d) l count | None => inr count end = match ch with Some l => go_all Compile (S d) l count | None => inr count end).
  { destruct ch as [l|]; [|done]. cbn [default] in IH. unfold default, id in IH. intros count.
    transitivity (go_all Compile (S d) (List.map stored_tree l) count); [by destruct l|].
    clear Hlen Hvs. revert count. induction IH as [|x l Hx Hl IHl]; intros count; [done|]. cbn [List.map go_all]. fold (go_all Compile (S d)).
    rewrite Hx. destruct (validateExprNode Compile x (S d) count); cbn [err_bind]; [done|]. apply IHl. }
  unfold go_all in Hgo. by rewrite Hgo.
Qed.

Lemma name_only_stored e : forbidAttrLeaves (stored_tree e) = forbidAttrLeaves e.
Proof.
  induction e as [o ch a m v vs IH] using PolicyExpr_ind'. cbn [stored_tree forbidAttrLeaves]. rewrite !truthy_stored.
  change (omit (given a) ?? "") with (given (omit (given a))). rewrite given_omit. fold (given a).
  destruct (truthy_opt o); [|done]. destruct ch as [l|]; [|done]. cbn [default] in IH. unfold default, id in IH.
  transitivity ((fix go l := match l with [] => inr tt | x :: l => let* _ := forbidAttrLeaves x in go l end) (List.map stored_tree l) : ExprError + unit); [by destruct l|].
  induction IH as [|x l Hx Hl IHl]; [done|]. cbn [List.map]. rewrite Hx. destruct (forbidAttrLeaves x); cbn [err_bind]; [done|]. exact IHl.
Qed.

Lemma ValidateExpr_stored c : ValidateExpr Compile (stored_tree <$> c) = ValidateExpr Compile c.
Proof. destruct c as [e|]; [|done]. cbn. by rewrite validate_stored. Qed.
Lemma validateNameOnly_stored c : validateNameOnlyExpr Compile (stored_tree <$> c) = validateNameOnlyExpr Compile c.
Proof. unfold validateNameOnlyExpr. rewrite ValidateExpr_stored. destruct c as [e|]; [|done]. cbn. by rewrite name_only_stored. Qed.

Lemma stored_tree_idem e : stored_tree (stored_tree e) = stored_tree e.
Proof.
  induction e as [o ch a m v vs IH] using PolicyExpr_ind'. cbn [stored_tree]. rewrite !given_omit. f_equal.
  - destruct ch as [[|x l]|]; [done| |done]. cbn [default] in IH. unfold default, id in IH. cbn [List.map]. f_equal.
    apply Forall_cons in IH as [Hx Hl]. f_equal; [done|]. rewrite List.map_map. apply List.map_ext_in.
    intros y Hy%list_elem_of_In. rewrite Forall_forall in Hl. by apply Hl.
  - by destruct vs as [[]|].
Qed.

Lemma json_map_idem l : json_map (json_map l) = json_map l.
Proof.
  unfold json_map. rewrite omap_of_id; [apply sort_id, sort_sorted; exact _|]. rewrite sort_perm. apply omap_of_NoDup.
Qed.
Lemma json_map_nil l : json_map l = [] <-> l = [].
Proof.
  split; [|by intros ->]. intros H. assert (Hp := sort_perm (cmp_on fst string_cmp) (omap_of l)). fold (json_map l) in Hp. rewrite H in Hp.
  apply Permutation_nil_l in Hp. destruct l as [|x l] using rev_ind; [done|]. rewrite omap_of_app in Hp.
  assert (Hk : x.1 ∈ omap_keys (omap_set x.1 x.2 (omap_of l))).
  { apply (list_elem_of_fmap_2 fst _ (x.1, x.2)). apply omap_get_elem. rewrite omap_get_set. by rewrite decide_True. }
  rewrite <- Hp in Hk. by apply elem_of_nil in Hk.
Qed.

Lemma check_kind_ext i j :
  si_Kind j = si_Kind i -> (si_AttributeMatch j = [] <-> si_AttributeMatch i = []) ->
  truthy (si_TargetServiceName j) = truthy (si_TargetServiceName i) -> truthy (si_TargetIntegrationID j) = truthy (si_TargetIntegrationID i) ->
  si_Conditions j = stored_tree <$> si_Conditions i -> check_kind j = check_kind i.
Proof.
  intros Hk Ha Hs Hi Hc. unfold check_kind. rewrite Hk, Hs, Hi, Hc, ValidateExpr_stored, validateNameOnly_stored.
  rewrite (bool_decide_ext _ _ Ha). by destruct (si_Conditions i).
Qed.

(** What a request is after it was checked. *)
Record checked (i : ServerInput) : Prop := {
  ch_name : TrimSpace (si_TargetServiceName i) = si_TargetServiceName i;
  ch_lower : StringsToLower (TrimSpace (si_TargetSystemKind i)) = si_TargetSystemKind i;
  ch_signals : si_Signals i = [] \/ (check_signals (si_Signals i) = inr (si_Signals i) /\ (length (si_Signals i) < 4)%nat /\ NoDup (si_Signals i));
  ch_kind : (si_Kind i =s "system") = false -> si_TargetSystemKind i = "" /\ si_TargetSystemID i = "";
  ch_one : si_TargetSystemKind i = "" \/ si_TargetSystemID i = "";
  ch_rules : check_kind i = inr tt }.

Context `{Laws : ServerLaws}.

Lemma dedupe_id l : NoDup l -> dedupe l = l.
Proof. intros H. apply dedupe_from_id; [done|]. by intros x _ ?%elem_of_nil. Qed.

Lemma check_signals_inv l l' : check_signals l = inr l' ->
  l' = [] \/ (check_signals l' = inr l' /\ (length l' < 4)%nat /\ NoDup l').
Proof.
  unfold check_signals. intros (m & Hm & [= H])%err_bind_inr.
  assert (Hv : Forall (fun s => s ∈ ALL_SIGNALS) m).
  { clear H. apply err_map_Forall2 in Hm. induction Hm as [|x y xs ys Hxy _ IH]; [by apply Forall_nil|]. apply Forall_cons. split; [|done].
    unfold validSignal in Hxy. case_bool_decide; [|done]. by simplify_eq. }
  destruct (dedupe_from_spec [] m) as [Hnd Hin]. fold (dedupe m) in Hnd, Hin.
  assert (Hsub : forall x, x ∈ dedupe m -> x ∈ ALL_SIGNALS) by (intros x Hx; rewrite Forall_forall in Hv; by apply Hv, Hin).
  assert (Hlen : (length (dedupe m) <= length ALL_SIGNALS)%nat) by (by apply submseteq_length, NoDup_submseteq).
  change (length ALL_SIGNALS) with 4%nat in Hlen.
  change (length ALL_SIGNALS) with 4%nat in H |- *.
  destruct (Nat.eqb_spec (length (dedupe m)) 4) as [|Hne]; [by left|]. right. subst l'.
  split; [|split; [lia|done]]. rewrite err_map_id.
  - cbn [err_bind]. rewrite dedupe_id by done. destruct (Nat.eqb_spec (length (dedupe m)) 4) as [E|]; [lia|done].
  - apply Forall_forall. intros x Hx. apply Hsub in Hx. assert (Ht : TrimSpace x = x).
    { unfold ALL_SIGNALS in Hx. rewrite !elem_of_cons, elem_of_nil in Hx. by destruct Hx as [->|[->|[->|[->|[]]]]]. }
    rewrite Ht, lower_signals by done. unfold validSignal. by rewrite bool_decide_true.
Qed.

Lemma refuse_inr b t : refuse b t = inr tt <-> b = false.
Proof. by destruct b. Qed.

Lemma validated i i' : validatePolicyInput i = inr i' -> checked i' /\ TrimSpace (si_TargetIntegrationID i') = si_TargetIntegrationID i' /\
  TrimSpace (si_TargetSystemID i') = si_TargetSystemID i'.
Proof.
  unfold validatePolicyInput. intros (sigs & Hs & H)%err_bind_inr.
  apply err_bind_tt in H as [H1 H]. apply err_bind_tt in H as [H2 H]. apply err_bind_tt in H as [H3 H]. apply err_bind_tt in H as [H4 [= <-]].
  rewrite refuse_inr in H1, H2, H3. cbn [si_TargetSystemKind si_TargetSystemID] in H1, H2, H3.
  split; [|by cbn [si_TargetIntegrationID si_TargetSystemID]; rewrite !TrimSpace_idem].
  split; cbn [si_TargetServiceName si_TargetSystemKind si_TargetSystemID si_Signals si_Kind].
  - apply TrimSpace_idem.
  - by rewrite lower_trimmed by apply TrimSpace_idem; rewrite lower_idem.
  - destruct (si_Signals i) as [|s l]; [left; congruence|]. by eapply check_signals_inv.
  - intros E. cbn [si_Kind] in H1, H2. rewrite E in H1, H2. cbn [negb andb] in H1, H2. unfold truthy in H1, H2. rewrite negb_false_iff, String.eqb_eq in H1, H2. done.
  - rewrite andb_false_iff in H3. unfold truthy in H3. rewrite !negb_false_iff, !String.eqb_eq in H3. done.
  - done.
Qed.

Lemma parse_target_inv field s o : parse_target field s = inr o -> o = None /\ s = "" \/ exists u, o = Some u /\ s <> "" /\ uuid_Parse u = Some u /\ TrimSpace u = u /\ u <> "".
Proof.
  unfold parse_target. destruct (String.eqb_spec s ""); [intros [= <-]; by left|]. destruct (uuid_Parse s) as [u|] eqn:E; [|done]. intros [= <-].
  right. exists u. destruct (uuid_trimmed _ _ E). by pose proof (uuid_canonical _ _ E).
Qed.
Lemma parse_target_given field s o : parse_target field s = inr o -> parse_target field (given o) = inr o /\ TrimSpace (given o) = given o /\
  truthy (given o) = truthy s.
Proof.
  intros [[-> ->]|(u & -> & Hs & Hu & Ht & Hne)]%parse_target_inv; [done|]. cbn [given default]. unfold parse_target, given, default, id, truthy.
  apply String.eqb_neq in Hne, Hs. by rewrite Hne, Hs, Hu.
Qed.

(** Storing is stable: a row sent back in full, every field as it was read, is accepted
    and stored unchanged. *)
Theorem rows_repost id i p :
  buildPolicyArgs id i = inr p -> buildPolicyArgs id (as_input p) = inr p.
Proof.
  unfold buildPolicyArgs at 1. intros (i' & (Hc & Hti & Hts)%validated & H)%err_bind_inr.
  apply err_bind_inr in H as (int & Hint & H). apply err_bind_inr in H as (sys & Hsys & [= <-]).
  destruct (parse_target_given _ _ _ Hint) as (Pi & Ti & Ri). destruct (parse_target_given _ _ _ Hsys) as (Ps & Ts & Rs). destruct Hc as [H1 H2 H3 H4 H5 H6].
  unfold buildPolicyArgs, as_input, validatePolicyInput.
  cbn [ap_kind ap_target_service_name ap_target_integration_id ap_target_system_kind ap_target_system_id ap_attribute_match ap_conditions ap_signals ap_grant_services
       si_Kind si_TargetServiceName si_TargetIntegrationID si_TargetSystemKind si_TargetSystemID si_AttributeMatch si_Conditions si_Signals si_GrantServices].
  rewrite !given_omit, H1, H2, Ti, Ts, Rs.
  assert (Hsig : match omit_list (si_Signals i') ?? [] with [] => inr [] | l => check_signals l end = inr (si_Signals i') :> PolicyError + list string).
  { destruct (si_Signals i') as [|s l] eqn:E; [done|]. destruct H3 as [?|[? _]]; done. }
  rewrite Hsig. cbn [err_bind].
  assert (R1 : refuse (negb (si_Kind i' =s "system") && truthy (si_TargetSystemKind i')) "target_system_kind only applies to a system policy" = inr tt).
  { apply refuse_inr. destruct (si_Kind i' =s "system"); [done|]. destruct H4 as [-> _]; done. }
  assert (R2 : refuse (negb (si_Kind i' =s "system") && truthy (si_TargetSystemID i')) "target_system_id only applies to a system policy" = inr tt).
  { apply refuse_inr. destruct (si_Kind i' =s "system"); [done|]. destruct H4 as [_ ->]; done. }
  assert (R3 : refuse (truthy (si_TargetSystemKind i') && truthy (si_TargetSystemID i')) "system policy takes target_system_kind OR target_system_id, not both" = inr tt).
  { apply refuse_inr. destruct H5 as [->| ->]; [done|by rewrite andb_false_r]. }
  rewrite R1, R2, R3. cbn [err_bind]. erewrite check_kind_ext; [rewrite H6| | | | |]; cbn [si_Kind si_AttributeMatch si_TargetServiceName si_TargetIntegrationID si_Conditions]; try done.
  - cbn [err_bind si_TargetIntegrationID si_TargetSystemID si_TargetServiceName si_TargetSystemKind si_AttributeMatch si_Conditions si_Signals si_GrantServices si_Kind].
    rewrite Pi, Ps. cbn [err_bind]. do 2 f_equal; [by rewrite json_map_idem|].
    destruct (si_Conditions i'); [|done]. cbn. by rewrite stored_tree_idem.
  - apply json_map_nil.
Qed.

(** ** Editing a row *)

Definition stored (p : AccessPolicy) : Prop := buildPolicyArgs (ap_id p) (as_input p) = inr p.

Definition tidy (s : string) : bool := trim s =s s.

(** What the form can carry: no single system, a pattern only where it is shown, the
    services only with an integration, an integration in a compound policy, and texts
    without white space around them. *)
Definition editable (p : AccessPolicy) : bool :=
  bool_decide (ap_target_system_id p = None) &&
  (bool_decide (ap_conditions p = None) || bool_decide (ap_kind p ∈ ["integration"; "system"; "expression"])) &&
  (negb (ap_grant_services p ?? false) || (ap_kind p =s "integration")) &&
  (negb (ap_kind p =s "compound") || bool_decide (ap_target_integration_id p <> None)) &&
  (tidy (given (ap_target_service_name p)) && tidy (given (ap_target_integration_id p)) && tidy (given (ap_target_system_kind p))) &&
  forallb (fun kv => truthy kv.1 && truthy kv.2 && tidy kv.1 && tidy kv.2 && negb (kv.1 =s "__proto__")) (ap_attribute_match p).

(** What a row of each kind leaves empty. *)
Record row_shape (p : AccessPolicy) : Prop := {
  rs_kind : ap_kind p ∈ ["service"; "integration"; "attributes"; "compound"; "all_org"; "system"; "expression"];
  rs_service : ap_kind p ∉ ["service"; "compound"] -> given (ap_target_service_name p) = "";
  rs_integration : ap_kind p ∉ ["integration"; "compound"] -> given (ap_target_integration_id p) = "";
  rs_attrs : ap_kind p ∉ ["attributes"; "compound"] -> ap_attribute_match p = [];
  rs_system : ap_kind p <> "system" -> given (ap_target_system_kind p) = "";
  rs_one : ap_kind p = "integration" -> (ap_conditions p = None <-> given (ap_target_integration_id p) <> "");
  rs_expr : ap_kind p = "expression" -> ap_conditions p <> None;
  rs_keys : NoDup (fst <$> ap_attribute_match p);
  rs_signals : ap_signals p = None \/ exists s l, ap_signals p = Some (s :: l) /\ (length (s :: l) < 4)%nat /\ NoDup (s :: l) /\ check_signals (s :: l) = inr (s :: l);
  rs_grant : ap_grant_services p <> None;
  rs_id : ap_target_integration_id p <> Some "";
  rs_target : ap_target_system_id p = None \/ given (ap_target_system_kind p) = "" }.

Lemma refuse_kind b t (x : PolicyError + unit) : (let* _ := refuse b t in x) = inr tt -> b = false /\ x = inr tt.
Proof. by intros [Hr%refuse_inr Hx]%err_bind_tt. Qed.

Lemma kind_rules i : check_kind i = inr tt ->
  si_Kind i ∈ ["service"; "integration"; "attributes"; "compound"; "all_org"; "system"; "expression"] /\
  (si_Kind i ∉ ["service"; "compound"] -> si_TargetServiceName i = "") /\
  (si_Kind i ∉ ["integration"; "compound"] -> si_TargetIntegrationID i = "") /\
  (si_Kind i ∉ ["attributes"; "compound"] -> si_AttributeMatch i = []) /\
  (si_Kind i = "integration" -> (si_Conditions i = None <-> si_TargetIntegrationID i <> "")) /\
  (si_Kind i = "expression" -> si_Conditions i <> None).
Proof.
  unfold check_kind, truthy.
  repeat match goal with |- (if ?b =s ?t then _ else _) = _ -> _ => destruct (String.eqb_spec b t) as [E|]; [rewrite E|] end; [..|done];
    intros H; repeat (apply refuse_kind in H as [? H]); try apply refuse_inr in H;
    repeat match goal with
    | Hx : (_ || _) = false |- _ => apply orb_false_iff in Hx as [? ?]
    | Hx : negb _ = false |- _ => apply negb_false_iff in Hx
    | Hx : bool_decide _ = true |- _ => apply bool_decide_eq_true in Hx
    | Hx : (_ =s _) = true |- _ => apply String.eqb_eq in Hx
    end.
  all: split_and!; try set_solver; try done; try (intros Hn; exfalso; apply Hn; set_solver).
  - intros _. rewrite andb_false_iff in *. rewrite !negb_involutive in *. destruct (si_Conditions i) as [e|]; cbn in *.
    + split; [done|]. intros Hne. apply String.eqb_neq in Hne. rewrite Hne in *. naive_solver.
    + split; [|done]. intros _ E'. rewrite E' in *. naive_solver.
  - intros _ E'. by rewrite E' in H.
Qed.

Lemma stored_shape p : stored p -> row_shape p.
Proof.
  unfold stored, buildPolicyArgs. intros (i & (Hc & Hti & Hts)%validated & H)%err_bind_inr.
  apply err_bind_inr in H as (int & Hint & H). apply err_bind_inr in H as (sys & Hsys & [= H]).
  destruct (parse_target_given _ _ _ Hint) as (_ & _ & Ri). destruct Hc as [H1 H2 H3 H4 H5 H6].
  destruct (kind_rules i H6) as (K1 & K2 & K3 & K4 & K5 & K6). rewrite <- H. clear H.
  split; cbn [ap_kind ap_target_service_name ap_target_integration_id ap_target_system_kind ap_attribute_match ap_conditions ap_signals ap_grant_services ap_target_system_id]; rewrite ?given_omit; try done.
  - intros Hk. apply K3 in Hk. rewrite Hk in Hint. by injection Hint as <-.
  - intros Hk. by apply json_map_nil, K4.
  - intros Hk. destruct (H4 (proj2 (String.eqb_neq _ _) Hk)) as [-> _]. done.
  - intros Hk. unfold truthy in Ri. rewrite <- String.eqb_neq, <- negb_true_iff, Ri, negb_true_iff, String.eqb_neq, <- K5 by done. by destruct (si_Conditions i).
  - intros Hk. specialize (K6 Hk). by destruct (si_Conditions i).
  - unfold json_map. rewrite sort_perm. apply omap_of_NoDup.
  - destruct (si_Signals i) as [|s l]; [by left|]. destruct H3 as [?|(? & ? & ?)]; [done|]. right. by exists s, l.
  - intros ->. by apply parse_target_inv in Hint as [[? _]|(u & [= <-] & _ & _ & _ & ?)].
  - destruct H5 as [->|E]; [by right|]. left. rewrite E in Hsys. by injection Hsys as <-.
Qed.

Lemma attrs_kept l : NoDup (fst <$> l) -> forallb (fun kv => truthy kv.1 && truthy kv.2 && tidy kv.1 && tidy kv.2 && negb (kv.1 =s "__proto__")) l = true ->
  omap_of (List.filter (fun kv => truthy kv.1 && truthy kv.2 && negb (kv.1 =s "__proto__")) ((fun kv => (trim kv.1, trim kv.2)) <$> l ++ [("", "")])) = l.
Proof.
  intros Hnd Hall. rewrite fmap_app, List.filter_app. change (List.filter _ (_ <$> [("", "")])) with (@nil (string * string)). rewrite app_nil_r.
  assert (Hm : (fun kv : string * string => (trim kv.1, trim kv.2)) <$> l = l).
  { clear Hnd. induction l as [|[k v] l IH]; [done|]. cbn [forallb fst snd] in Hall. rewrite !andb_true_iff in Hall. destruct Hall as [[[[[? ?] Hk] Hv] ?] Hl].
    cbn [fmap list_fmap fst snd]. unfold tidy in Hk, Hv. apply String.eqb_eq in Hk, Hv. rewrite Hk, Hv. f_equal. by apply IH. }
  rewrite Hm, filterb_all; [by apply omap_of_id|]. intros kv Hkv%list_elem_of_In. rewrite forallb_forall in Hall. specialize (Hall kv Hkv).
  rewrite !andb_true_iff in Hall. rewrite !andb_true_iff. tauto.
Qed.

Lemma not_either k a b : (k =s a) || (k =s b) = false -> k ∉ [a; b].
Proof. intros [?%String.eqb_neq ?%String.eqb_neq]%orb_false_iff. rewrite !elem_of_cons, elem_of_nil. tauto. Qed.

(** A field that is sent for some kinds only, and empty for the others. *)
Lemma sent_when {A} (b : bool) (x d : A) : (b = false -> x = d) -> (if b then x else d) = x.
Proof. destruct b; [done|]. intros H. by rewrite H. Qed.

Lemma pattern_kinds p : row_shape p -> editable p = true ->
  (if (ap_kind p =s "expression") || (((ap_kind p =s "integration") || (ap_kind p =s "system")) &&
      (bool_decide (ap_conditions p <> None) && ((ap_kind p =s "integration") || (ap_kind p =s "system"))))
   then Some (ap_conditions p ?? first_tree) else None) = ap_conditions p.
Proof.
  intros [_ _ _ _ _ _ R7 _ _ _ _ _] He. unfold editable in He. rewrite !andb_true_iff in He. destruct He as [[[[[_ E2] _] _] _] _].
  destruct (String.eqb_spec (ap_kind p) "expression") as [Ek|Hk]; cbn [orb].
  { specialize (R7 Ek). by destruct (ap_conditions p). }
  destruct (ap_conditions p) as [e|]; [|by rewrite andb_false_r].
  rewrite bool_decide_false in E2 by done. cbn [orb] in E2. apply bool_decide_eq_true in E2. rewrite !elem_of_cons, elem_of_nil in E2.
  by destruct E2 as [->|[->|[Ek|[]]]].
Qed.

Lemma integration_sent p : row_shape p ->
  (if (ap_kind p =s "integration") && negb (((ap_kind p =s "integration") || (ap_kind p =s "system")) &&
      (bool_decide (ap_conditions p <> None) && ((ap_kind p =s "integration") || (ap_kind p =s "system")))) || (ap_kind p =s "compound")
   then given (ap_target_integration_id p) else "") = given (ap_target_integration_id p).
Proof.
  intros [_ _ R3 _ _ R6 _ _ _ _ _ _]. apply sent_when. intros [E1 E2]%orb_false_iff. apply String.eqb_neq in E2.
  destruct (String.eqb_spec (ap_kind p) "integration") as [Ek|Hk].
  - cbn [orb andb] in E1. rewrite negb_false_iff, andb_true_r, bool_decide_eq_true in E1.
    specialize (R6 Ek). destruct (decide (given (ap_target_integration_id p) = "")) as [|Hne]; [done|]. by apply R6 in Hne.
  - apply R3. rewrite !elem_of_cons, elem_of_nil. tauto.
Qed.

Lemma signals_sent p : row_shape p ->
  (if (length match ap_signals p with Some (s :: l) => dedupe (s :: l) | _ => ALL_SIGNALS end <? 4)%nat
   then Some match ap_signals p with Some (s :: l) => dedupe (s :: l) | _ => ALL_SIGNALS end else None) ?? [] = ap_signals p ?? [].
Proof.
  intros [_ _ _ _ _ _ _ _ R9 _ _ _]. destruct R9 as [->|(s & l & -> & Hlen & Hnd & _)]; [done|]. rewrite dedupe_id by done. apply Nat.ltb_lt in Hlen. by rewrite Hlen.
Qed.

(** The request of an untouched form is the row, in full. *)
Lemma untouched_request p : row_shape p -> editable p = true -> decode (body (seed (Some p))) = as_input p.
Proof.
  intros Hr He. pose proof (pattern_kinds p Hr He) as Hc. pose proof (integration_sent p Hr) as Hi. pose proof (signals_sent p Hr) as Hs.
  destruct Hr as [R1 R2 _ R4 R5 _ _ R8 _ R10 _ _]. unfold editable in He. rewrite !andb_true_iff in He.
  destruct He as [[[[[E1 _] E3] _] [[T1 T2] T3]] E6]. unfold tidy in T1, T2, T3. rewrite String.eqb_eq in T1, T2, T3.
  apply bool_decide_eq_true in E1.
  unfold decode, body, as_input, seed. cbn [kind serviceName integrationID grantServices systemKind attrPairs expr signals byPattern default
    pi_kind pi_target_service_name pi_target_integration_id pi_target_system_kind pi_attribute_match pi_conditions pi_signals pi_grant_services].
  unfold attr_rows. cbn [attrPairs]. unfold wantsService, wantsIntegration, wantsAttrs, wantsSystem, wantsExpr, usePattern, patternable. cbn [kind byPattern].
  change (ap_target_service_name p ?? "") with (given (ap_target_service_name p)). change (ap_target_integration_id p ?? "") with (given (ap_target_integration_id p)).
  change (ap_target_system_kind p ?? "") with (given (ap_target_system_kind p)). rewrite T1, T2, T3, E1, attrs_kept, Hs by done.
  change (id (ap_kind p)) with (ap_kind p). change (id (ap_attribute_match p)) with (ap_attribute_match p). rewrite Hc, Hi.
  rewrite (sent_when (_ || _) (given (ap_target_service_name p))) by (intros E; by apply R2, not_either).
  rewrite (sent_when (_ || _) (ap_attribute_match p)) by (intros E; by apply R4, not_either).
  rewrite (sent_when (_ =s _) (given (ap_target_system_kind p))) by (intros E; by apply R5, String.eqb_neq).
  f_equal. destruct (ap_kind p =s "integration"); [by destruct (ap_grant_services p)|].
  rewrite orb_false_r, negb_true_iff in E3. by rewrite E3.
Qed.

(** C11. The form opened on a row and saved as it is.  For a row it can carry, the request
    is accepted and leaves the row as it was. *)
Theorem untouched_save_keeps_policy p existing :
  stored p -> editable p = true -> p ∈ existing ->
  (forall q, q ∈ existing -> ap_id q <> ap_id p -> same_shape q p = false) ->
  exists b, submit (Some p) (seed (Some p)) = Update (ap_id p) b /\ UpdatePolicy existing (ap_id p) (decode b) = inr p.
Proof.
  intros Hst He Hin Hdup. pose proof (stored_shape p Hst) as Hr. exists (body (seed (Some p))). split.
  - unfold submit, picksSeveral. rewrite bool_decide_false by done. rewrite andb_false_r.
    assert (Hw : wantsIntegration (seed (Some p)) && negb (truthy (trim (integrationID (seed (Some p))))) = false); [|by rewrite Hw].
    apply not_true_iff_false. rewrite andb_true_iff. intros [Hw Ht]. unfold wantsIntegration, usePattern, patternable in Hw. cbn [seed kind byPattern integrationID] in Hw, Ht.
    unfold editable in He. rewrite !andb_true_iff in He. destruct He as [[[[[_ _] _] E4] [[_ T2] _]] _]. unfold tidy in T2. apply String.eqb_eq in T2.
    change (ap_target_integration_id p ?? "") with (given (ap_target_integration_id p)) in Ht. rewrite T2 in Ht. unfold truthy in Ht.
    rewrite negb_involutive, String.eqb_eq in Ht.
    change (Some (ap_kind p) ?? "attributes") with (ap_kind p) in Hw. apply orb_true_iff in Hw as [Hw|Hw].
    + apply andb_true_iff in Hw as [Hk Hw]. rewrite Hk in Hw. cbn [orb andb] in Hw. rewrite andb_true_r, negb_true_iff, bool_decide_eq_false in Hw.
      apply String.eqb_eq in Hk. apply Hw. intros Hn. by apply (rs_one p Hr Hk) in Hn.
    + rewrite Hw in E4. cbn [negb orb] in E4. apply bool_decide_eq_true in E4. apply (rs_id p Hr).
      destruct (ap_target_integration_id p) as [s|]; [|done]. cbn in Ht. by subst s.
  - rewrite untouched_request by done. unfold UpdatePolicy. unfold stored in Hst. rewrite Hst. cbn [err_bind].
    assert (E1 : existsb (fun q => ap_id q =s ap_id p) existing = true) by (apply existsb_elem; exists p; by rewrite String.eqb_refl).
    assert (E2 : existsb (fun q => negb (ap_id q =s ap_id p) && same_shape q p) existing = false).
    { apply not_true_iff_false. intros (q & Hq & Hs)%existsb_elem. apply andb_true_iff in Hs as [Hne Hs]. apply negb_true_iff, String.eqb_neq in Hne.
      by rewrite (Hdup q Hq Hne) in Hs. }
    by rewrite E1, E2.
Qed.

(** A grant of one system, saved from the form without a change, becomes a grant of
    every system: the request has no field for the system. *)
Theorem system_grant_widens p sys MatchString systems expandSystem :
  stored p -> ap_kind p = "system" -> ap_target_system_id p = Some sys -> ap_conditions p = None ->
  exists b q, submit (Some p) (seed (Some p)) = Update (ap_id p) b /\ buildPolicyArgs (ap_id p) (decode b) = inr q /\
    grants_systems MatchString systems expandSystem p = expandSystem "" (Some sys) /\
    grants_systems MatchString systems expandSystem q = expandSystem "" None.
Proof.
  intros Hst Hk Hsys Hc. pose proof (stored_shape p Hst) as Hr.
  pose proof (signals_sent p Hr) as Hs. pose proof (rs_signals p Hr) as R9. destruct (rs_target p Hr) as [E|Esk]; [congruence|].
  exists (body (seed (Some p))), {| ap_id := ap_id p; ap_kind := "system"; ap_target_service_name := None; ap_target_integration_id := None;
    ap_target_system_kind := None; ap_target_system_id := None; ap_attribute_match := []; ap_conditions := None; ap_signals := ap_signals p;
    ap_grant_services := Some false |}.
  split; [|split; [|split]].
  - unfold submit, picksSeveral, wantsIntegration. cbn [seed kind]. by rewrite Hk.
  - unfold decode, body, seed. cbn [kind serviceName integrationID grantServices systemKind attrPairs expr signals byPattern
      pi_kind pi_target_service_name pi_target_integration_id pi_target_system_kind pi_attribute_match pi_conditions pi_signals pi_grant_services].
    rewrite Hs. unfold wantsService, wantsIntegration, wantsAttrs, wantsSystem, wantsExpr, usePattern, patternable. cbn [kind byPattern].
    change (ap_target_system_kind p ?? "") with (given (ap_target_system_kind p)). rewrite Hk, Hc, Esk.
    change (Some "system" ?? "attributes") with "system". cbn [String.eqb Ascii.eqb Bool.eqb orb andb negb].
    unfold buildPolicyArgs, validatePolicyInput.
    cbn [si_Kind si_TargetServiceName si_TargetIntegrationID si_TargetSystemKind si_TargetSystemID si_AttributeMatch si_Conditions si_Signals si_GrantServices].
    change (trim "") with "". change (TrimSpace "") with "". rewrite lower_nil.
    destruct R9 as [->|(s & l & -> & _ & _ & Hcs)]; [reflexivity|]. change (Some (s :: l) ?? []) with (s :: l).
    cbv beta iota. rewrite Hcs. reflexivity.
  - unfold grants_systems. by rewrite Hc, Esk, Hsys.
  - done.
Qed.
End rows.

(** ** Granting several integrations *)

Section each_facts.
Context (post : string -> string + unit) (name_of : string -> string).
Definition granted (id : string) : Prop := exists u, post id = inr u.

Lemma create_each_split todo done0 : exists done rest,
  todo = done ++ rest /\ Forall granted done /\
  match rest with
  | [] => create_each post todo done0 = (done0 ++ done, None)
  | id :: _ => exists m, post id = inl m /\ create_each post todo done0 = (done0 ++ done, Some (id, m))
  end.
Proof.
  revert done0. induction todo as [|id todo IH]; intros done0.
  - exists [], []. split_and!; [done|constructor|]. cbn. by rewrite app_nil_r.
  - cbn [create_each]. destruct (post id) as [m|u] eqn:E.
    + exists [], (id :: todo). split_and!; [done|constructor|]. exists m. by rewrite app_nil_r.
    + destruct (IH (done0 ++ [id])) as (d & rest & -> & Hd & Hr). exists (id :: d), rest. split_and!; [done|constructor; [by exists u|done]|].
      rewrite <- (assoc_L (++)) in Hr. exact Hr.
Qed.

(** The picked integrations are granted in turn up to the first refusal; then those
    granted leave the selection, and it starts with the one refused, so a retry sends no
    policy twice. *)
Theorem retry_resumes ids done left err :
  NoDup ids -> create_all post name_of ids = (done, left, err) ->
  Forall granted done /\
  match err with
  | None => done = ids
  | Some _ => ids = done ++ left /\ exists id rest m, left = id :: rest /\ post id = inl m
  end.
Proof.
  intros Hnd. unfold create_all. destruct (create_each_split ids []) as (d & rest & -> & Hd & Hr). destruct rest as [|id rest].
  - rewrite Hr. intros [= <- <- <-]. by rewrite app_nil_r.
  - destruct Hr as (m & Hm & Hr). rewrite Hr. intros [= <- <- <-]. split; [done|].
    assert (Hl : List.filter (fun x => negb (bool_decide (x ∈ d))) (d ++ id :: rest) = id :: rest).
    { apply NoDup_app in Hnd as (_ & Hdis & _). rewrite List.filter_app. replace (List.filter _ d) with (@nil string).
      - cbn [app]. apply filterb_all. intros x Hx. rewrite bool_decide_false; [done|]. intros Hxd. by apply (Hdis x).
      - symmetry. destruct (List.filter _ d) as [|z l] eqn:E; [done|]. assert (Hz : z ∈ z :: l) by (apply elem_of_cons; by left).
        rewrite <- E in Hz. apply filterb_elem in Hz as [Hz Hf]. by rewrite bool_decide_true in Hf. }
    rewrite Hl. split; [done|]. by exists id, rest, m.
Qed.
End each_facts.

(** ** Examples *)

Definition same_uuid (s : string) : option string := if TrimSpace s =s s then if s =s "" then None else Some s else None.
Lemma id_laws : ServerLaws same_uuid (fun s => s).
Proof.
  split; try done; unfold same_uuid.
  - intros s u. case_goal; [|done]. case_goal; [done|]. intros [= <-]. bool_prop. by rewrite Heqb, String.eqb_refl, (proj2 (String.eqb_neq _ _) Heqb0).
  - intros s u. case_goal; [|done]. case_goal; [done|]. intros [= <-]. bool_prop. done.
Qed.

Definition payments_policy : AccessPolicy := {|
  ap_id := "p1"; ap_kind := "compound"; ap_target_service_name := Some "orders"; ap_target_integration_id := Some "i-7";
  ap_target_system_kind := None; ap_target_system_id := None; ap_attribute_match := [("env", "prod")]; ap_conditions := None;
  ap_signals := Some ["logs"]; ap_grant_services := Some false |}.
Definition one_system : AccessPolicy := {|
  ap_id := "p2"; ap_kind := "system"; ap_target_service_name := None; ap_target_integration_id := None;
  ap_target_system_kind := None; ap_target_system_id := Some "s-1"; ap_attribute_match := []; ap_conditions := None;
  ap_signals := None; ap_grant_services := Some false |}.

Lemma rows_repost_witness : buildPolicyArgs any_regexp same_uuid (fun s => s) "p1" (as_input payments_policy) = inr payments_policy.
Proof. refine (@rows_repost any_regexp same_uuid (fun s => s) id_laws "p1" (as_input payments_policy) payments_policy _). vm_compute. reflexivity. Defined.

Lemma untouched_save_keeps_policy_witness :
  exists b, submit (Some payments_policy) (seed (Some payments_policy)) = Update "p1" b /\
    UpdatePolicy any_regexp same_uuid (fun s => s) [payments_policy; one_system] "p1" (decode b) = inr payments_policy.
Proof.
  refine (@untouched_save_keeps_policy any_regexp same_uuid (fun s => s) id_laws payments_policy [payments_policy; one_system] _ _ _ _).
  - vm_compute. reflexivity.
  - vm_compute. reflexivity.
  - apply elem_of_cons. by left.
  - intros q. rewrite !elem_of_cons, elem_of_nil. intros [->|[->|[]]]; [done|]. intros _. vm_compute. reflexivity.
Defined.

Definition two_systems : string -> option string -> list string := fun _ id => match id with Some s => [s] | None => ["s-1"; "s-2"] end.
Lemma system_grant_widens_witness :
  exists b q, submit (Some one_system) (seed (Some one_system)) = Update "p2" b /\
    buildPolicyArgs any_regexp same_uuid (fun s => s) "p2" (decode b) = inr q /\
    grants_systems any_regexp equal_regexp [] two_systems one_system = ["s-1"] /\ grants_systems any_regexp equal_regexp [] two_systems q = ["s-1"; "s-2"].
Proof.
  refine (@system_grant_widens any_regexp same_uuid (fun s => s) id_laws one_system "s-1" equal_regexp [] two_systems _ _ _ _); [|done..].
  vm_compute. reflexivity.
Defined.

Lemma retry_resumes_witness :
  create_all (fun id => if id =s "b" then inl "taken" else inr tt) (fun id => id) ["a"; "b"; "c"] = (["a"], ["b"; "c"], Some "Granted 1 of 3. b: taken") /\
  Forall (granted (fun id => if id =s "b" then inl "taken" else inr tt)) ["a"].
Proof.
  split; [vm_compute; reflexivity|].
  refine (proj1 (retry_resumes (fun id => if id =s "b" then inl "taken" else inr tt) (fun id => id) ["a"; "b"; "c"] ["a"] ["b"; "c"] _ _ eq_refl)).
  apply (bool_decide_unpack _). vm_compute. exact I.
Defined.

(** The grant of one system is described as the grant of all. *)
Example one_system_described : describePolicy one_system = Some "All flagged systems".
Proof. reflexivity. Qed.

(** With no box ticked the request has an empty list, which the server reads as all four
    signals; the button is disabled then. *)
Example no_signal_is_all :
  let f := foldr (fun s f => toggle_signal s false f) (seed (Some one_system)) ALL_SIGNALS in
  pi_signals (body f) = Some [] /\ can_submit f = false.
Proof. split; reflexivity. Qed.
