(* ===== verification/Boards.v ===== *)
(** * Dashboards, columns and tables

    [lib/dashboardItems.ts], [lib/dashboardPick.ts] and the board of
    [pages/Health.tsx] (which cards a dashboard shows, and removing one);
    [lib/columnLayout.ts] (the columns of the integrations table);
    [lib/useTableSort.ts]. *)

From S2P Require Import Prelude JsString JsArray Host Types Checks.

Local Open Scope char_scope.
Local Open Scope string_scope.
Local Open Scope list_scope.

(** ** [lib/dashboardItems.ts] *)

Definition matchesIncludeRule (it : Integration) (rule : option DashboardIncludeRule) : bool :=
  match rule with
  | None => true
  | Some rule =>
      if dr_kind rule =s "tag" then existsb (fun t => tg_slug t =s dr_value rule) (i_tags it ?? [])
      else bool_decide (omap_get (dr_key rule ?? "") (i_metadata_values it ?? []) = Some (dr_value rule))
  end.

(** [includeRule] is absent or [null] when there is none. *)
Definition include_rule (d : Dashboard) : option DashboardIncludeRule := mjoin (da_includeRule d).

Definition ruleIntegrations (dashboard : Dashboard) (integrations : list Integration) : list Integration :=
  match da_autoIncludeAll dashboard, include_rule dashboard with
  | true, Some rule => List.filter (fun i => matchesIncludeRule i (Some rule)) integrations
  | _, _ => integrations
  end.

(** [now] is [new Date().toISOString()]. *)
Definition integration_item (now defaultWidgetType : string) (overrideById : list (string * DashboardItem)) (idx : nat) (id : string) : DashboardItem :=
  let existing := omap_get id overrideById in {|
    di_id := (di_id <$> existing) ?? tpl ["draft-"; id];
    di_entityKind := "integration";
    di_integrationId := id;
    di_systemName := None;
    di_systemId := None;
    di_widgetType := (di_widgetType <$> existing) ?? defaultWidgetType;
    di_position := (di_position <$> existing) ?? Z.of_nat idx;
    di_createdAt := (di_createdAt <$> existing) ?? now |}.

Definition items_by_integration (d : Dashboard) : list (string * DashboardItem) :=
  omap_of ((fun i => (di_integrationId i, i)) <$> da_items d).

(** The integrations of the cards, overridden ones first. *)
Definition materialized_ids (dashboard : Dashboard) (integrations : list Integration) : list string :=
  let overrides := di_integrationId <$> sort (cmp_by di_position) (da_items dashboard) in
  let rest := i_id <$> sort (cmp_desc (fun i => i_trace_count i ?? 0%Z))
    (List.filter (fun i => negb (bool_decide (i_id i ∈ overrides))) integrations) in
  List.filter (fun id => bool_decide (id ∈ i_id <$> integrations)) (overrides ++ rest).

Definition is_integration (i : DashboardItem) : bool := di_entityKind i =s "integration".

Definition materializeItems (now : string) (dashboard : Dashboard) (integrations : list Integration) : list DashboardItem :=
  if negb (da_autoIncludeAll dashboard) then da_items dashboard
  else imap (integration_item now (da_defaultWidgetType dashboard) (items_by_integration dashboard)) (materialized_ids dashboard integrations)
    ++ List.filter (fun i => negb (is_integration i)) (da_items dashboard).

Record DashboardItemRequest := {
  dq_entityKind : option string; dq_integrationId : option string; dq_systemName : option string;
  dq_systemId : option string; dq_widgetType : string; dq_position : Z }.

Definition toItemRequest (i : DashboardItem) : DashboardItemRequest :=
  if di_entityKind i =s "system_entity" then {|
    dq_entityKind := Some "system_entity"; dq_integrationId := None; dq_systemName := None; dq_systemId := di_systemId i;
    dq_widgetType := "system_health"; dq_position := di_position i |}
  else if di_entityKind i =s "system" then {|
    dq_entityKind := Some "system"; dq_integrationId := None; dq_systemName := di_systemName i; dq_systemId := None;
    dq_widgetType := "system_health"; dq_position := di_position i |}
  else {|
    dq_entityKind := Some "integration"; dq_integrationId := Some (di_integrationId i); dq_systemName := None; dq_systemId := None;
    dq_widgetType := di_widgetType i; dq_position := di_position i |}.

(** ** The cards of a board: [pages/Health.tsx] *)

Record ComposedCard := { cc_integration : Integration; cc_widget : string }.

Definition card_order `{Host} : ComposedCard -> ComposedCard -> Z :=
  byHealthThenName (fun c => i_status (cc_integration c)) (fun c => i_name (cc_integration c)).

Definition by_id (integrations : list Integration) : list (string * Integration) :=
  omap_of ((fun i => (i_id i, i)) <$> integrations).

(** The cards before they are ordered. *)
Definition cards_of (integrations : list Integration) (dashboard : option Dashboard) : list ComposedCard :=
  match dashboard with
  | None => (fun i => {| cc_integration := i; cc_widget := "traffic_sparkline" |}) <$> integrations
  | Some d =>
      if da_autoIncludeAll d then
        (fun i => {| cc_integration := i;
                     cc_widget := (di_widgetType <$> omap_get (i_id i) (items_by_integration d)) ?? da_defaultWidgetType d |})
        <$> ruleIntegrations d integrations
      else omap (fun i => (fun it => {| cc_integration := it; cc_widget := di_widgetType i |})
                          <$> omap_get (di_integrationId i) (by_id integrations)) (da_items d)
  end.

Definition composeCards `{Host} (integrations : list Integration) (dashboard : option Dashboard) : list ComposedCard :=
  sort card_order (cards_of integrations dashboard).

Definition set_items (autoIncludeAll : bool) (items : list DashboardItem) (d : Dashboard) : Dashboard := {|
  da_canManage := da_canManage d; da_groupId := da_groupId d; da_id := da_id d; da_name := da_name d; da_isDefault := da_isDefault d;
  da_autoIncludeAll := autoIncludeAll; da_defaultWidgetType := da_defaultWidgetType d; da_position := da_position d; da_mine := da_mine d;
  da_environments := da_environments d; da_includeRule := da_includeRule d; da_items := items;
  da_createdAt := da_createdAt d; da_updatedAt := da_updatedAt d |}.

Definition without (integrationId : string) (items : list DashboardItem) : list DashboardItem :=
  List.filter (fun i => negb (di_integrationId i =s integrationId)) items.

(** [removeCard], in edit mode. *)
Definition removeCard (now : string) (integrations : list Integration) (integrationId : string) (d : Dashboard) : Dashboard :=
  set_items false (without integrationId (materializeItems now d integrations)) d.

(** The items [quickRemove] saves, with [autoIncludeAll: false]. *)
Definition quickRemove_items (now : string) (integrations : list Integration) (integrationId : string) (target : Dashboard) : list DashboardItem :=
  without integrationId (materializeItems now target (ruleIntegrations target integrations)).

(** ** Removing a card *)

Lemma omap_filter_imap {A B C} (h : nat -> A -> B) (p : B -> bool) (f : B -> option C) (k : A -> option C) l :
  (forall n x, (if p (h n x) then f (h n x) else None) = k x) -> omap f (List.filter p (imap h l)) = omap k l.
Proof.
  intros H. revert h H. induction l as [|x l IH]; intros h H; [done|]. csimpl. pose proof (H 0%nat x) as Hx.
  destruct (p (h 0%nat x)) eqn:Ep; csimpl; rewrite <- Hx; [|apply IH; intros n y; apply (H (S n))].
  destruct (f (h 0%nat x)); [f_equal|]; apply IH; intros n y; apply (H (S n)).
Qed.

Lemma by_id_get l i : NoDup (i_id <$> l) -> i ∈ l -> omap_get (i_id i) (by_id l) = Some i.
Proof.
  intros Hnd Hi. unfold by_id. rewrite omap_of_id by by rewrite <- list_fmap_compose. apply omap_elem_get.
  - unfold omap_keys. by rewrite <- list_fmap_compose.
  - apply list_elem_of_fmap. by exists i.
Qed.

Lemma by_id_none l id : id ∉ i_id <$> l -> omap_get id (by_id l) = None.
Proof.
  intros H. destruct (omap_get id (by_id l)) as [x|] eqn:E; [|done]. exfalso. apply H.
  apply omap_get_elem, omap_of_elem, list_elem_of_fmap in E as (y & [= -> ->] & Hy). by apply list_elem_of_fmap_2.
Qed.

(** Each integration has at most one item. *)
Definition one_item_each (integrations : list Integration) (d : Dashboard) : Prop :=
  NoDup (List.filter (fun id => bool_decide (id ∈ i_id <$> integrations)) (di_integrationId <$> da_items d)).

Lemma materialized_ids_perm d l : NoDup (i_id <$> l) -> one_item_each l d -> materialized_ids d l ≡ₚ i_id <$> l.
Proof.
  intros Hnd H1. unfold materialized_ids. cbn zeta. set (ov := di_integrationId <$> sort _ (da_items d)).
  assert (Hov : ov ≡ₚ di_integrationId <$> da_items d) by (unfold ov; by rewrite sort_perm).
  set (rest := i_id <$> sort _ _).
  assert (Hrest : forall id, id ∈ rest <-> id ∈ i_id <$> l /\ id ∉ ov).
  { intros id. unfold rest. rewrite !list_elem_of_fmap. split.
    - intros (i & -> & Hi). apply sort_elem, filterb_elem in Hi as [Hi Hn]. apply negb_true_iff, bool_decide_eq_false in Hn. eauto.
    - intros [(i & -> & Hi) Hn]. exists i. split; [done|]. apply sort_elem, filterb_elem. split; [done|].
      by apply negb_true_iff, bool_decide_eq_false. }
  rewrite List.filter_app. apply NoDup_Permutation; [|done|].
  - apply NoDup_app. split; [|split].
    + rewrite (filterb_perm _ _ _ Hov). exact H1.
    + intros id [Hi _]%filterb_elem [Hj _]%filterb_elem. by apply Hrest in Hj as [_ ?].
    + apply filterb_NoDup. unfold rest. rewrite sort_perm. by apply filterb_map_NoDup.
  - intros id. rewrite elem_of_app, !filterb_elem, !bool_decide_eq_true, Hrest. split; [tauto|]. intros Hid.
    destruct (decide (id ∈ ov)); tauto.
Qed.

(** The card of an integration on an auto-include dashboard. *)
Definition auto_card (d : Dashboard) (i : Integration) : ComposedCard := {|
  cc_integration := i;
  cc_widget := (di_widgetType <$> omap_get (i_id i) (items_by_integration d)) ?? da_defaultWidgetType d |}.

Definition other_cards (id : string) : list ComposedCard -> list ComposedCard :=
  List.filter (fun c => negb (i_id (cc_integration c) =s id)).

(** The items that pin no integration hold no integration's id. *)
Definition systems_apart (integrations : list Integration) (d : Dashboard) : Prop :=
  forall i, i ∈ da_items d -> is_integration i = false -> di_integrationId i ∉ i_id <$> integrations.

Lemma manual_cards now d integrations l r :
  NoDup (i_id <$> integrations) -> NoDup (i_id <$> l) -> (forall i, i ∈ l -> i ∈ integrations) ->
  one_item_each l d -> systems_apart integrations d -> da_autoIncludeAll d = true ->
  cards_of integrations (Some (set_items false (without r (materializeItems now d l)) d)) ≡ₚ other_cards r (auto_card d <$> l).
Proof.
  intros Hnd Hl Hsub H1 Hsys Ha. unfold cards_of. cbn [da_autoIncludeAll set_items da_items]. unfold materializeItems.
  rewrite Ha. cbn [negb]. unfold without. rewrite List.filter_app, omap_app.
  set (g := fun i : DashboardItem => _ <$> omap_get (di_integrationId i) (by_id integrations)).
  assert (Hs : forall m, (forall i, i ∈ m -> di_integrationId i ∉ i_id <$> integrations) -> omap g m = []).
  { induction m as [|i m IH]; intros Hm; [done|]. csimpl. unfold g at 1. rewrite by_id_none by (apply Hm; in_cons).
    apply IH. intros j Hj. apply Hm. in_cons. }
  rewrite (Hs (List.filter _ (List.filter _ _))).
  2:{ intros i [[Hi Hn]%filterb_elem _]%filterb_elem. apply Hsys; [done|]. by apply negb_true_iff in Hn. }
  rewrite app_nil_r.
  rewrite (omap_filter_imap _ _ _ (fun id => if negb (id =s r) then
      (fun it => {| cc_integration := it; cc_widget := (di_widgetType <$> omap_get id (items_by_integration d)) ?? da_defaultWidgetType d |})
      <$> omap_get id (by_id integrations) else None)) by done.
  rewrite (materialized_ids_perm d l Hl H1). clear H1 Hl Hs g.
  induction l as [|i l IH]; [done|]. csimpl. rewrite (by_id_get integrations i Hnd) by (apply Hsub; in_cons).
  assert (IH' := IH (fun j Hj => Hsub j (list_elem_of_further _ _ _ Hj))).
  unfold other_cards in *. csimpl. destruct (i_id i =s r); cbn [negb]; [exact IH'|]. csimpl. by rewrite IH'.
Qed.

(** Removing a card with its small cross from a dashboard that shows every
    integration, or those of its rule, leaves the other cards exactly as they
    were, each with its widget; what is saved is an explicit list. *)
Theorem quick_remove_keeps_others now d integrations id :
  NoDup (i_id <$> integrations) -> one_item_each (ruleIntegrations d integrations) d -> systems_apart integrations d ->
  da_autoIncludeAll d = true ->
  cards_of integrations (Some (set_items false (quickRemove_items now integrations id d) d))
  ≡ₚ other_cards id (cards_of integrations (Some d)).
Proof.
  intros Hnd H1 Hs Ha.
  assert (Hsub : forall i, i ∈ ruleIntegrations d integrations -> i ∈ integrations).
  { intros i. unfold ruleIntegrations. destruct (da_autoIncludeAll d), (include_rule d); try done. by intros [? _]%filterb_elem. }
  assert (Hnd' : NoDup (i_id <$> ruleIntegrations d integrations)).
  { unfold ruleIntegrations. destruct (da_autoIncludeAll d), (include_rule d); try done. by apply filterb_map_NoDup. }
  unfold quickRemove_items. rewrite (manual_cards now d integrations _ id Hnd Hnd' Hsub H1 Hs Ha).
  unfold cards_of at 1. rewrite Ha. done.
Qed.

(** Removing a card in edit mode adds cards: on a dashboard with a rule, the
    draft then shows every other integration, those the rule leaves out
    included. *)
Theorem draft_remove_ignores_rule now d integrations id :
  NoDup (i_id <$> integrations) -> one_item_each integrations d -> systems_apart integrations d ->
  da_autoIncludeAll d = true ->
  cards_of integrations (Some (removeCard now integrations id d)) ≡ₚ other_cards id (auto_card d <$> integrations).
Proof. intros Hnd H1 Hs Ha. unfold removeCard. by apply manual_cards. Qed.

(** ** Saving a board *)

Definition known_kind (i : DashboardItem) : Prop :=
  di_entityKind i = "integration" \/ di_entityKind i = "system" \/ di_entityKind i = "system_entity".

Definition pins_integration (q : DashboardItemRequest) : bool := bool_decide (dq_entityKind q = Some "integration").

Lemma toItemRequest_kind i : known_kind i ->
  dq_entityKind (toItemRequest i) = Some (di_entityKind i) /\ dq_position (toItemRequest i) = di_position i /\
  (di_entityKind i = "integration" -> dq_integrationId (toItemRequest i) = Some (di_integrationId i)
     /\ dq_widgetType (toItemRequest i) = di_widgetType i) /\
  (di_entityKind i = "system" -> dq_systemName (toItemRequest i) = di_systemName i) /\
  (di_entityKind i = "system_entity" -> dq_systemId (toItemRequest i) = di_systemId i).
Proof. unfold toItemRequest. intros [H|[H|H]]; rewrite H; cbn; repeat split; intros; done. Qed.

(** Saving a board loses nothing: every item is sent with its own kind,
    place and target, and the items pinning systems are sent as they were, also
    when an auto-include board is first written out as a list. *)
Theorem save_keeps_items now d integrations :
  Forall known_kind (da_items d) ->
  List.filter (fun q => negb (pins_integration q)) (toItemRequest <$> materializeItems now d integrations)
    = toItemRequest <$> List.filter (fun i => negb (is_integration i)) (da_items d) /\
  forall i, i ∈ materializeItems now d integrations ->
    dq_entityKind (toItemRequest i) = Some (di_entityKind i) /\ dq_position (toItemRequest i) = di_position i /\
    (di_entityKind i = "integration" -> dq_integrationId (toItemRequest i) = Some (di_integrationId i)
       /\ dq_widgetType (toItemRequest i) = di_widgetType i) /\
    (di_entityKind i = "system" -> dq_systemName (toItemRequest i) = di_systemName i) /\
    (di_entityKind i = "system_entity" -> dq_systemId (toItemRequest i) = di_systemId i).
Proof.
  intros Hk.
  assert (Hitems : forall l, Forall known_kind l ->
    List.filter (fun q => negb (pins_integration q)) (toItemRequest <$> l) = toItemRequest <$> List.filter (fun i => negb (is_integration i)) l).
  { induction 1 as [|i l Hi Hl IH]; [done|]. rewrite fmap_cons. cbn [List.filter].
    destruct (toItemRequest_kind i Hi) as [Hq _].
    assert (Hp : pins_integration (toItemRequest i) = is_integration i).
    { unfold pins_integration, is_integration. rewrite Hq. destruct (di_entityKind i =s "integration") eqn:E; bool_prop.
      - by rewrite E, bool_decide_true.
      - by rewrite bool_decide_false by congruence. }
    rewrite Hp. destruct (is_integration i); cbn [negb]; rewrite ?fmap_cons, IH; done. }
  assert (Hmat : Forall known_kind (materializeItems now d integrations)).
  { unfold materializeItems. destruct (da_autoIncludeAll d); [|done]. cbn [negb]. apply Forall_app. split.
    - apply Forall_forall. intros i Hi. apply elem_of_lookup_imap in Hi as (n & id & -> & _). by left.
    - apply Forall_forall. intros i [Hi _]%filterb_elem. rewrite Forall_forall in Hk. by apply Hk. }
  split; [|intros i Hi; apply toItemRequest_kind; rewrite Forall_forall in Hmat; by apply Hmat].
  rewrite Hitems by done. f_equal. unfold materializeItems. destruct (da_autoIncludeAll d); [|done]. cbn [negb].
  rewrite List.filter_app. rewrite filterb_none, filterb_all; [done| |].
  - by intros i [_ Hi]%filterb_elem.
  - intros i Hi. apply elem_of_lookup_imap in Hi as (n & id & -> & _). done.
Qed.

(** ** [lib/dashboardPick.ts] *)

Definition dashboard_order `{Host} : Dashboard -> Dashboard -> Z :=
  cmp_or (cmp_desc (fun d => if da_isDefault d then 1 else 0)%Z) (cmp_or (cmp_by da_position) (cmp_on da_createdAt localeCompare)).
Definition orderDashboards `{Host} (dashboards : list Dashboard) : list Dashboard := sort dashboard_order dashboards.

Definition pickActiveDashboard `{Host} (dashboards : list Dashboard) (rememberedId : option string) : option Dashboard :=
  match dashboards with
  | [] => None
  | _ =>
      let remembered := if truthy_opt rememberedId then List.find (fun d => da_id d =s rememberedId ?? "") dashboards else None in
      let ordered := orderDashboards dashboards in
      match List.find da_isDefault ordered with
      | Some d => Some d
      | None => match remembered with Some d => Some d | None => head ordered end
      end
  end.

(** The default dashboard leads the tabs and is the one opened, whatever
    was remembered; without a default the remembered one is opened, and without
    either the first tab.  A page with dashboards always opens one. *)
Theorem default_dashboard_wins `{H : Host} `{!HostLaws H} dashboards rememberedId :
  (forall d, d ∈ dashboards -> da_isDefault d = true ->
     head (orderDashboards dashboards) = pickActiveDashboard dashboards rememberedId /\
     exists p, pickActiveDashboard dashboards rememberedId = Some p /\ da_isDefault p = true) /\
  ((forall d, d ∈ dashboards -> da_isDefault d = false) ->
     forall d, List.find (fun x => da_id x =s rememberedId ?? "") dashboards = Some d -> rememberedId <> Some "" -> rememberedId <> None ->
     pickActiveDashboard dashboards rememberedId = Some d) /\
  (dashboards <> [] -> exists p, pickActiveDashboard dashboards rememberedId = Some p /\ p ∈ dashboards).
Proof.
  assert (Hin : forall x, x ∈ orderDashboards dashboards <-> x ∈ dashboards) by (intros; apply sort_elem).
  split; [|split].
  - intros d Hd Hdef. destruct dashboards as [|d0 l]; [by apply elem_of_nil in Hd|]. unfold pickActiveDashboard.
    destruct (orderDashboards (d0 :: l)) as [|x m] eqn:Em; [by apply Hin, elem_of_nil in Hd|].
    destruct (sort_head_least _ _ _ _ Em) as [Hx Hle].
    assert (Hxd : da_isDefault x = true).
    { specialize (Hle d Hd). unfold dashboard_order, cmp_or, cmp_desc in Hle. rewrite Hdef in Hle. by destruct (da_isDefault x). }
    cbn [List.find]. rewrite Hxd. split; [done|]. by exists x.
  - intros Hno d Hd H1 H2. destruct dashboards as [|d0 l]; [done|]. unfold pickActiveDashboard.
    destruct (List.find da_isDefault _) as [x|] eqn:Ef.
    { apply find_Some_elem in Ef as [Hx Hy]. apply Hin, Hno in Hx. congruence. }
    assert (Ht : truthy_opt rememberedId = true).
    { destruct rememberedId as [r|]; [|done]. unfold truthy_opt. apply truthy_spec. change (Some r ?? "") with r. congruence. }
    by rewrite Ht, Hd.
  - intros Hne. destruct dashboards as [|d0 l]; [done|]. unfold pickActiveDashboard.
    destruct (List.find da_isDefault _) as [x|] eqn:Ef.
    { apply find_Some_elem in Ef as [Hx _]. exists x. split; [done|]. by apply Hin. }
    destruct (if truthy_opt rememberedId then _ else None) as [x|] eqn:Er.
    { destruct (truthy_opt rememberedId); [|done]. apply find_Some_elem in Er as [Hx _]. by exists x. }
    destruct (orderDashboards (d0 :: l)) as [|x m] eqn:Em.
    + assert (d0 ∈ @nil Dashboard) as Hx; [rewrite Hin; in_cons|by apply elem_of_nil in Hx].
    + exists x. split; [done|]. apply Hin. in_cons.
Qed.

(** ** [lib/columnLayout.ts] *)

Record ColumnLayout := { cl_order : list string; cl_hidden : list string }.
Record LayoutSources := {
  ls_session : option ColumnLayout; ls_colsParam : option string; ls_saved : option ColumnLayout;
  ls_legacy : option string; ls_defaultOrder : list string }.

Definition parts (raw : string) : list string := List.filter truthy (split "," raw).

Definition resolveColumnOrder (s : LayoutSources) : list string :=
  let base := List.filter (fun id => bool_decide (id ∈ ls_defaultOrder s))
    match ls_session s, ls_colsParam s with
    | Some l, _ => cl_order l
    | None, Some c => parts c
    | None, None => (cl_order <$> ls_saved s) ?? []
    end in
  base ++ List.filter (fun id => negb (bool_decide (id ∈ base))) (ls_defaultOrder s).

(** The hidden set, as the list of its members. *)
Definition resolveHiddenColumns (s : LayoutSources) : list string :=
  let fromVisibleList raw := List.filter (fun id => negb (bool_decide (id ∈ parts raw))) (ls_defaultOrder s) in
  let known l := List.filter (fun id => bool_decide (id ∈ ls_defaultOrder s)) l in
  match ls_session s, ls_colsParam s, ls_saved s, ls_legacy s with
  | Some l, _, _, _ => known (cl_hidden l)
  | None, Some c, _, _ => fromVisibleList c
  | None, None, Some l, _ => known (cl_hidden l)
  | None, None, None, Some raw => fromVisibleList raw
  | None, None, None, None => []
  end.

(** [pages/Integrations.tsx], [applyColumnLayout]: the visible columns in order,
    written to [?cols=] and to the local storage. *)
Definition cols_raw (order hidden : list string) : string :=
  join "," (List.filter (fun id => negb (bool_decide (id ∈ hidden))) order).

(** [orderedVisibleDefs]: what the table renders. *)
Definition visible_columns (s : LayoutSources) : list string :=
  List.filter (fun id => negb (bool_decide (id ∈ resolveHiddenColumns s))) (resolveColumnOrder s).

Definition column_id (id : string) : Prop := id <> "" /\ no_char "," id = true.

Lemma parts_join l : Forall column_id l -> parts (join "," l) = l.
Proof.
  intros H. unfold parts. destruct l as [|x l]; [done|]. rewrite split_join; [|done|].
  - apply filterb_all. intros y Hy. rewrite Forall_forall in H. apply truthy_spec. by apply H.
  - eapply Forall_impl; [exact H|]. by intros y [_ ?].
Qed.

(** A column layout travels: after somebody orders and hides columns, the
    table of that visit, the saved layout on a later visit, and the link opened by
    anyone show the same columns in the same order; a saved layout shows a column
    added later. *)
Theorem column_layout_travels order hidden saved legacy defaultOrder :
  order ≡ₚ defaultOrder -> NoDup defaultOrder -> Forall column_id defaultOrder ->
  let l := {| cl_order := order; cl_hidden := hidden |} in
  let visible := List.filter (fun id => negb (bool_decide (id ∈ hidden))) order in
  let sources session cols saved legacy := {| ls_session := session; ls_colsParam := cols; ls_saved := saved;
    ls_legacy := legacy; ls_defaultOrder := defaultOrder |} in
  (forall cols, visible_columns (sources (Some l) cols saved legacy) = visible) /\
  visible_columns (sources None (Some (cols_raw order hidden)) saved legacy) = visible /\
  visible_columns (sources None None (Some l) legacy) = visible /\
  (forall new, new ∉ defaultOrder -> new ∉ hidden ->
     visible_columns {| ls_session := None; ls_colsParam := None; ls_saved := Some l; ls_legacy := legacy;
                        ls_defaultOrder := defaultOrder ++ [new] |} = visible ++ [new]).
Proof.
  intros Hp Hnd Hid. cbn zeta.
  assert (Hsub : forall id, id ∈ order <-> id ∈ defaultOrder) by (intros; by rewrite Hp).
  (** what a layout that stores the hidden columns shows *)
  assert (Hstored : forall dflt, (forall id, id ∈ defaultOrder -> id ∈ dflt) ->
    let base := List.filter (fun id => bool_decide (id ∈ dflt)) order in
    List.filter (fun id => negb (bool_decide (id ∈ List.filter (fun id => bool_decide (id ∈ dflt)) hidden)))
      (base ++ List.filter (fun id => negb (bool_decide (id ∈ base))) dflt)
    = List.filter (fun id => negb (bool_decide (id ∈ hidden))) (order ++ List.filter (fun id => negb (bool_decide (id ∈ order))) dflt)).
  { intros dflt Hd. cbn zeta.
    rewrite (filterb_all (fun id => bool_decide (id ∈ dflt)) order) by (intros x Hx; by apply bool_decide_true, Hd, Hsub).
    apply filterb_ext_in. intros x Hx. f_equal. apply bool_decide_ext. rewrite filterb_elem, bool_decide_eq_true.
    assert (x ∈ dflt); [|tauto]. apply elem_of_app in Hx as [Hx|[Hx _]%filterb_elem]; [by apply Hd, Hsub|done]. }
  assert (Hnone : List.filter (fun id => negb (bool_decide (id ∈ order))) defaultOrder = []).
  { apply filterb_none. intros x Hx. by apply negb_false_iff, bool_decide_true, Hsub. }
  assert (Hsame : forall cols, visible_columns {| ls_session := Some {| cl_order := order; cl_hidden := hidden |}; ls_colsParam := cols;
      ls_saved := saved; ls_legacy := legacy; ls_defaultOrder := defaultOrder |}
    = List.filter (fun id => negb (bool_decide (id ∈ hidden))) order).
  { intros cols. unfold visible_columns, resolveHiddenColumns, resolveColumnOrder. cbn [ls_session ls_defaultOrder cl_order cl_hidden].
    rewrite (Hstored defaultOrder) by done. by rewrite Hnone, app_nil_r. }
  split; [exact Hsame|]. split; [|split].
  - unfold visible_columns, resolveHiddenColumns, resolveColumnOrder. cbn [ls_session ls_colsParam ls_defaultOrder].
    unfold cols_raw. set (vis := List.filter (fun id => negb (bool_decide (id ∈ hidden))) order).
    assert (Hv : forall x, x ∈ vis -> x ∈ defaultOrder) by (intros x [Hx _]%filterb_elem; by apply Hsub).
    rewrite parts_join.
    2:{ apply Forall_forall. intros x Hx. rewrite Forall_forall in Hid. by apply Hid, Hv. }
    rewrite (filterb_all (fun id => bool_decide (id ∈ defaultOrder)) vis) by (intros x Hx; by apply bool_decide_true, Hv).
    rewrite List.filter_app. rewrite filterb_all, filterb_none; [by rewrite app_nil_r| |].
    + intros x [Hx Hn]%filterb_elem. apply negb_false_iff, bool_decide_true, filterb_elem. done.
    + intros x Hx. apply negb_true_iff, bool_decide_false. intros [_ Hn]%filterb_elem.
      by apply negb_true_iff, bool_decide_eq_false in Hn.
  - unfold visible_columns, resolveHiddenColumns, resolveColumnOrder. cbn [ls_session ls_colsParam ls_saved ls_defaultOrder fmap option_fmap option_map default cl_order cl_hidden].
    change (id order) with order. rewrite (Hstored defaultOrder) by done. by rewrite Hnone, app_nil_r.
  - intros new Hn Hh. unfold visible_columns, resolveHiddenColumns, resolveColumnOrder.
    cbn [ls_session ls_colsParam ls_saved ls_defaultOrder fmap option_fmap option_map default cl_order cl_hidden].
    change (id order) with order. rewrite (Hstored (defaultOrder ++ [new])) by (intros id Hi; apply elem_of_app; by left).
    rewrite (List.filter_app _ defaultOrder), Hnone. cbn [app List.filter].
    rewrite (bool_decide_false (new ∈ order)) by by rewrite Hsub. cbn [negb]. rewrite List.filter_app. cbn [List.filter].
    by rewrite (bool_decide_false (new ∈ hidden)).
Qed.

(** The stored list of visible columns alone restores which columns are
    visible, not their order. *)
Example legacy_order_ex :
  visible_columns {| ls_session := None; ls_colsParam := None; ls_saved := None; ls_legacy := Some (cols_raw ["b"; "a"; "c"] ["c"]);
                     ls_defaultOrder := ["a"; "b"; "c"] |} = ["a"; "b"].
Proof. by_compute. Qed.

(** ** [lib/useTableSort.ts] *)

(** The numbers a table compares are counts and milliseconds. *)
Inductive SortValue := SV_empty | SV_string (s : string) | SV_number (n : Z) | SV_bool (b : bool).

Definition sv_empty (v : SortValue) : bool := match v with SV_empty => true | SV_string s => s =s "" | _ => false end.
Definition sv_String (v : SortValue) : string :=
  match v with SV_empty => "null" | SV_string s => s | SV_number n => show_Z n | SV_bool b => if b then "true" else "false" end.

Section table.
(** [localeCompare] with [numeric] and [sensitivity: base]. *)
Context (collate : string -> string -> Z).

Definition compareSortValues (a b : SortValue) : Z :=
  if sv_empty a && sv_empty b then 0
  else if sv_empty a then 1
  else if sv_empty b then -1
  else match a, b with
       | SV_number x, SV_number y => x - y
       | SV_bool x, SV_bool y => if Bool.eqb x y then 0 else if x then 1 else -1
       | _, _ => collate (sv_String a) (sv_String b)
       end.

Record SortState := { so_key : string; so_desc : bool }.

Definition toggleSort (key : string) (curr : option SortState) : option SortState :=
  match curr with
  | None => Some {| so_key := key; so_desc := false |}
  | Some c => if negb (so_key c =s key) then Some {| so_key := key; so_desc := false |}
              else if negb (so_desc c) then Some {| so_key := key; so_desc := true |} else None
  end.

Definition sortedRows {T} (keyFns : string -> option (T -> SortValue)) (rows : list T) (sort_ : option SortState) : list T :=
  match sort_ with
  | None => rows
  | Some s => match keyFns (so_key s) with
              | None => rows
              | Some fn => let base := sort (cmp_on fn compareSortValues) rows in if so_desc s then rev base else base
              end
  end.

Lemma sort_empties_last {T} (fn : T -> SortValue) rows :
  let base := sort (cmp_on fn compareSortValues) rows in
  base = List.filter (fun r => negb (sv_empty (fn r))) base ++ List.filter (fun r => sv_empty (fn r)) base.
Proof.
  cbn zeta. induction rows as [|x rows IH]; [done|]. cbn [sort]. rewrite IH. clear IH.
  set (A := List.filter (fun r => negb (sv_empty (fn r))) _). set (B := List.filter (fun r => sv_empty (fn r)) _).
  assert (HA : Forall (fun r => sv_empty (fn r) = false) A).
  { apply Forall_forall. intros r [_ Hr]%filterb_elem. by apply negb_true_iff. }
  assert (HB : Forall (fun r => sv_empty (fn r) = true) B) by (apply Forall_forall; by intros r [_ Hr]%filterb_elem).
  clearbody A B. clear rows.
  assert (Hsplit : forall C D : list T, Forall (fun r => sv_empty (fn r) = false) C -> Forall (fun r => sv_empty (fn r) = true) D ->
    C ++ D = List.filter (fun r => negb (sv_empty (fn r))) (C ++ D) ++ List.filter (fun r => sv_empty (fn r)) (C ++ D)).
  { intros C D HC HD. rewrite Forall_forall in HC, HD. rewrite !List.filter_app.
    rewrite (filterb_all _ C), (filterb_none _ D), (filterb_none _ C), (filterb_all _ D), app_nil_r; auto.
    - intros r Hr. by apply negb_false_iff, HD.
    - intros r Hr. by apply negb_true_iff, HC. }
  destruct (sv_empty (fn x)) eqn:Ex.
  - assert (Hins : insert_by (cmp_on fn compareSortValues) x (A ++ B) = A ++ x :: B).
    { induction HA as [|a A Ha HA IH]; cbn [app].
      - destruct B as [|b B]; [done|]. cbn [insert_by]. apply Forall_cons in HB as [Hb _].
        unfold cmp_on, compareSortValues. rewrite Ex, Hb. done.
      - cbn [insert_by]. unfold cmp_on at 1, compareSortValues at 1. rewrite Ex, Ha. cbn. by rewrite IH. }
    rewrite Hins. apply Hsplit; [done|by constructor].
  - assert (Hins : exists A', insert_by (cmp_on fn compareSortValues) x (A ++ B) = A' ++ B /\ Forall (fun r => sv_empty (fn r) = false) A').
    { induction HA as [|a A Ha HA IH]; cbn [app].
      - exists [x]. split; [|by constructor]. destruct B as [|b B]; [done|]. cbn [insert_by]. apply Forall_cons in HB as [Hb _].
        unfold cmp_on, compareSortValues. rewrite Ex, Hb. done.
      - cbn [insert_by]. destruct (_ <=? 0)%Z.
        + exists (x :: a :: A). split; [done|by repeat constructor].
        + destruct IH as (A' & -> & HA'). exists (a :: A'). split; [done|by constructor]. }
    destruct Hins as (A' & -> & HA'). by apply Hsplit.
Qed.
End table.

(** A click on a header sorts ascending with the empty cells last, a second
    one descending and a third restores the order of the list; descending is the
    reverse, so there the empty cells come first. *)
Theorem empty_cells_by_direction {T} collate (keyFns : string -> option (T -> SortValue)) rows key fn :
  keyFns key = Some fn ->
  let s1 := toggleSort key None in
  let s2 := toggleSort key s1 in
  let s3 := toggleSort key s2 in
  let full r := negb (sv_empty (fn r)) in
  let empty r := sv_empty (fn r) in
  (exists A B, sortedRows collate keyFns rows s1 = A ++ B /\ sortedRows collate keyFns rows s2 = rev B ++ rev A /\
     Forall (fun r => full r = true) A /\ Forall (fun r => empty r = true) B /\ A ++ B ≡ₚ rows) /\
  sortedRows collate keyFns rows s3 = rows.
Proof.
  intros Hk. cbn zeta. unfold toggleSort. cbn [so_key so_desc]. rewrite String.eqb_refl. cbn [negb so_key so_desc].
  rewrite String.eqb_refl. cbn [negb]. split; [|done]. unfold sortedRows. cbn [so_key so_desc]. rewrite Hk.
  pose proof (sort_empties_last collate fn rows) as H. cbn zeta in H |- *.
  set (base := sort _ rows) in *. assert (Hp : base ≡ₚ rows) by apply sort_perm.
  eexists _, _. split; [exact H|]. split; [rewrite H at 1; apply rev_app_distr|]. split; [|split].
  - apply Forall_forall. by intros r [_ Hr]%filterb_elem.
  - apply Forall_forall. by intros r [_ Hr]%filterb_elem.
  - by rewrite <- H.
Qed.

(** ** Examples *)

Definition ex_integration (id name country : string) : Integration := {|
  i_id := id; i_service_facets := None; i_organization_id := "o"; i_slug := id; i_name := name; i_description := "";
  i_badge_public := None; i_rule_match := None; i_message_columns := None; i_message_filters := None; i_created_at := ""; i_updated_at := "";
  i_status := Some "ok"; i_service_count := None; i_services := None; i_unhealthy_count := None; i_trace_count := Some 1%Z;
  i_error_trace_count := None; i_delayed_trace_count := None; i_traffic_series := None; i_p95_duration_ms := None;
  i_metadata_values := Some [("country", country)]; i_tags := None; i_declared_environments := None; i_environments := None |}.

Definition ex_item (kind integ : string) (sys : option string) (pos : Z) : DashboardItem := {|
  di_id := "i"; di_entityKind := kind; di_integrationId := integ; di_systemName := None; di_systemId := sys;
  di_widgetType := "kpi"; di_position := pos; di_createdAt := "t" |}.

(** Shows the integrations of Sweden; pins one system. *)
Definition ex_dashboard : Dashboard := {|
  da_canManage := None; da_groupId := None; da_id := "d"; da_name := "D"; da_isDefault := true; da_autoIncludeAll := true;
  da_defaultWidgetType := "traffic_sparkline"; da_position := 0; da_mine := true; da_environments := None;
  da_includeRule := Some (Some {| dr_kind := "metadata"; dr_key := Some "country"; dr_value := "SE" |});
  da_items := [ex_item "system_entity" "" (Some "s1") 1; ex_item "integration" "b" None 0];
  da_createdAt := "t"; da_updatedAt := "t" |}.

Definition ex_integrations : list Integration := [ex_integration "a" "A" "SE"; ex_integration "b" "B" "SE"; ex_integration "c" "C" "NO"].

Lemma ex_ids : NoDup (i_id <$> ex_integrations).
Proof. apply (bool_decide_unpack _). vm_compute. exact I. Qed.

Lemma ex_apart : systems_apart ex_integrations ex_dashboard.
Proof.
  intros i Hi Hn. cbn in Hi. apply elem_of_cons in Hi as [->|Hi]; [|apply list_elem_of_singleton in Hi as ->; discriminate].
  apply (bool_decide_unpack _). vm_compute. exact I.
Qed.

Definition card_ids (l : list ComposedCard) : list string := (fun c => i_id (cc_integration c)) <$> l.

Lemma quick_remove_keeps_others_witness :
  card_ids (cards_of ex_integrations (Some ex_dashboard)) = ["a"; "b"] /\
  cards_of ex_integrations (Some (set_items false (quickRemove_items "t" ex_integrations "a" ex_dashboard) ex_dashboard))
  ≡ₚ other_cards "a" (cards_of ex_integrations (Some ex_dashboard)).
Proof.
  split; [vm_compute; reflexivity|].
  apply (quick_remove_keeps_others "t" ex_dashboard ex_integrations "a" ex_ids); [|exact ex_apart|reflexivity].
  apply (bool_decide_unpack _). vm_compute. exact I.
Defined.

Lemma draft_remove_ignores_rule_witness :
  card_ids (cards_of ex_integrations (Some ex_dashboard)) = ["a"; "b"] /\
  cards_of ex_integrations (Some (removeCard "t" ex_integrations "a" ex_dashboard))
  ≡ₚ other_cards "a" (auto_card ex_dashboard <$> ex_integrations) /\
  card_ids (other_cards "a" (auto_card ex_dashboard <$> ex_integrations)) = ["b"; "c"].
Proof.
  split; [vm_compute; reflexivity|]. split; [|vm_compute; reflexivity].
  apply (draft_remove_ignores_rule "t" ex_dashboard ex_integrations "a" ex_ids); [|exact ex_apart|reflexivity].
  apply (bool_decide_unpack _). vm_compute. exact I.
Defined.

Lemma save_keeps_items_witness :
  Forall known_kind (da_items ex_dashboard) /\
  List.filter (fun q => negb (pins_integration q)) (toItemRequest <$> materializeItems "t" ex_dashboard ex_integrations)
  = [{| dq_entityKind := Some "system_entity"; dq_integrationId := None; dq_systemName := None; dq_systemId := Some "s1";
        dq_widgetType := "system_health"; dq_position := 1 |}].
Proof.
  assert (H : Forall known_kind (da_items ex_dashboard)) by (constructor; [by right; right|constructor; [by left|constructor]]).
  split; [exact H|]. exact (proj1 (save_keeps_items "t" ex_dashboard ex_integrations H)).
Defined.

Lemma default_dashboard_wins_witness :
  HostLaws plain_host /\ exists p, pickActiveDashboard (H := plain_host) [ex_dashboard] (Some "x") = Some p /\ p ∈ [ex_dashboard].
Proof.
  split; [exact plain_host_laws|].
  exact (proj2 (proj2 (@default_dashboard_wins plain_host plain_host_laws [ex_dashboard] (Some "x"))) ltac:(discriminate)).
Defined.

Lemma column_layout_travels_witness :
  ["b"; "a"; "c"] ≡ₚ ["a"; "b"; "c"] /\
  visible_columns {| ls_session := None; ls_colsParam := Some (cols_raw ["b"; "a"; "c"] ["c"]); ls_saved := None; ls_legacy := None;
                     ls_defaultOrder := ["a"; "b"; "c"] |} = ["b"; "a"].
Proof.
  assert (Hp : ["b"; "a"; "c"] ≡ₚ ["a"; "b"; "c"]) by constructor. split; [exact Hp|].
  refine (proj1 (proj2 (column_layout_travels ["b"; "a"; "c"] ["c"] None None ["a"; "b"; "c"] Hp _ _))).
  - apply (bool_decide_unpack _). vm_compute. exact I.
  - repeat constructor; discriminate.
Defined.

Definition ex_keys (k : string) : option (string -> SortValue) := if k =s "name" then Some SV_string else None.

Lemma empty_cells_by_direction_witness :
  sortedRows string_cmp ex_keys ["b"; ""; "a"] (toggleSort "name" (toggleSort "name" None)) = [""; "b"; "a"] /\
  sortedRows string_cmp ex_keys ["b"; ""; "a"] (toggleSort "name" (toggleSort "name" (toggleSort "name" None))) = ["b"; ""; "a"].
Proof.
  split; [vm_compute; reflexivity|].
  exact (proj2 (empty_cells_by_direction string_cmp ex_keys ["b"; ""; "a"] "name" SV_string eq_refl)).
Defined.
