(* ===== verification/DashboardServer.v ===== *)
(** * What the server keeps of a dashboard

    internal/dashboards and internal/api/handlers_dashboards.go of
    services/cell-api: who sees a dashboard, who may change it, what a request is
    checked for and what is stored.  internal/configtransfer imports dashboards past
    them.

    The tables are those of every organization.  A statement of SQL is the
    operation its text states.  A list of dashboards is in the order of the table:
    the page orders it again.  The items of a dashboard are read by position; the
    order of items at the same position is the database's, so the reading is an
    argument.  [uuid.Parse], the identifiers the database draws and the time are
    arguments. *)

From S2P Require Import Prelude JsString JsArray Host Types Boards RuleServer.

Local Open Scope char_scope.
Local Open Scope string_scope.
Local Open Scope list_scope.

(** ** internal/dashboards/types.go *)

Record Item := {
  it_ID : string; it_EntityKind : string; it_IntegrationID : option string; it_SystemName : string; it_SystemID : option string;
  it_WidgetType : string; it_Position : Z; it_CreatedAt : string }.
Record IncludeRule := { ir_Kind : string; ir_Key : string; ir_Value : string }.

(** A row of the table, with its items. *)
Record Row := {
  rw_ID : string; rw_OrganizationID : string; rw_OwnerUserID : option string; rw_Name : string; rw_IsDefault : bool;
  rw_AutoIncludeAll : bool; rw_DefaultWidgetType : string; rw_Position : Z; rw_GroupID : option string;
  rw_Environments : list string; rw_IncludeRule : option IncludeRule; rw_Items : list Item;
  rw_CreatedAt : string; rw_UpdatedAt : string }.

Record ItemRequest := {
  iq_EntityKind : string; iq_IntegrationID : string; iq_SystemName : string; iq_SystemID : string;
  iq_WidgetType : string; iq_Position : Z }.
(** [CreateRequest] and [UpdateRequest] have the same fields. *)
Record DashboardRequest := {
  dq_Name : string; dq_IsDefault : bool; dq_AutoIncludeAll : bool; dq_DefaultWidgetType : string; dq_Position : Z;
  dq_Environments : list string; dq_IncludeRule : option IncludeRule; dq_GroupID : option string; dq_Items : list ItemRequest }.

Definition WidgetTrafficSparkline : string := "traffic_sparkline".
Definition WidgetSystemHealth : string := "system_health".
Definition AllWidgetTypes : list string := [WidgetTrafficSparkline; "error_count"; "latency_p95"].
Definition IsValidWidgetType (s : string) : bool := bool_decide (s ∈ AllWidgetTypes).

(** [len(s) > n]. *)
Definition longer (n : nat) (s : string) : bool := (n <? String.length s)%nat.
Lemma longer_false n s : longer n s = false <-> (String.length s <= n)%nat.
Proof. apply Nat.ltb_ge. Qed.
#[global] Arguments longer : simpl never.

(** The rule with its texts trimmed, which is what is stored. *)
Definition rule_Validate (r : option IncludeRule) : string + option IncludeRule :=
  match r with
  | None => inr None
  | Some r =>
      let key := TrimSpace (ir_Key r) in
      let value := TrimSpace (ir_Value r) in
      let bounded key :=
        if longer 200 key || longer 200 value then inl "includeRule values must be 200 characters or fewer"
        else inr (Some {| ir_Kind := ir_Kind r; ir_Key := key; ir_Value := value |}) in
      if ir_Kind r =s "metadata" then
        if (key =s "") || (value =s "") then inl "a metadata rule needs a field and a value" else bounded key
      else if ir_Kind r =s "tag" then
        if value =s "" then inl "a tag rule needs a tag" else bounded ""
      else inl (tpl ["includeRule.kind must be "; in_quotes "metadata"; " or "; in_quotes "tag"])
  end.

Fixpoint clean_loop (seen l : list string) : string + list string :=
  match l with
  | [] => inr []
  | e :: l =>
      let e := TrimSpace e in
      if longer 128 e then inl "environment name must be 128 characters or fewer"
      else if bool_decide (e ∈ seen) then clean_loop seen l
      else let* rest := clean_loop (e :: seen) l in inr (e :: rest)
  end.
Definition cleanEnvironments (l : list string) : string + list string :=
  if (20 <? length l)%nat then inl "at most 20 environments per dashboard" else clean_loop [] l.

Definition item_kind (i : ItemRequest) : string := nonempty (iq_EntityKind i) "integration".

Section validate.
Context (uuid_Parse : string -> option string).

Definition target_Validate (i : ItemRequest) (what : string) (target_ok : bool) (missing other : string) (other_set : bool) : string + unit :=
  if negb target_ok then inl missing
  else if negb (iq_IntegrationID i =s "") then inl (tpl [what; " item must not set integrationId"])
  else if other_set then inl (tpl [what; " item must not set "; other])
  else if negb (iq_WidgetType i =s "") && negb (iq_WidgetType i =s WidgetSystemHealth)
  then inl (tpl [what; " item must use the system_health widget"]) else inr tt.
Definition item_Validate (i : ItemRequest) : string + unit :=
  let kind := item_kind i in
  if kind =s "system_entity" then
    target_Validate i kind (match uuid_Parse (TrimSpace (iq_SystemID i)) with Some _ => true | None => false end)
      "system_entity item requires a valid systemId" "systemName" (negb (iq_SystemName i =s ""))
  else if kind =s "system" then
    target_Validate i kind (negb (TrimSpace (iq_SystemName i) =s ""))
      "system item requires systemName" "systemId" (negb (iq_SystemID i =s ""))
  else if kind =s "integration" then
    match uuid_Parse (iq_IntegrationID i) with
    | None => inl "integrationId must be a UUID"
    | Some _ =>
        if negb (iq_SystemID i =s "") then inl "integration item must not set systemId"
        else if IsValidWidgetType (nonempty (iq_WidgetType i) WidgetTrafficSparkline) then inr tt
        else inl (tpl ["unknown widgetType "; in_quotes (iq_WidgetType i)])
    end
  else inl (tpl ["unknown entityKind "; in_quotes (iq_EntityKind i)]).

Fixpoint items_Validate (n : Z) (l : list ItemRequest) : string + unit :=
  match l with
  | [] => inr tt
  | i :: l => match item_Validate i with
              | inl m => inl (tpl ["items["; show_Z n; "]: "; m])
              | inr _ => items_Validate (n + 1) l
              end
  end.

(** [Validate], with the rule it has trimmed. *)
Definition request_Validate (r : DashboardRequest) : string + option IncludeRule :=
  if TrimSpace (dq_Name r) =s "" then inl "name is required"
  else if longer 200 (dq_Name r) then inl "name must be 200 characters or fewer"
  else if negb (IsValidWidgetType (nonempty (dq_DefaultWidgetType r) WidgetTrafficSparkline))
  then inl (tpl ["unknown defaultWidgetType "; in_quotes (dq_DefaultWidgetType r)])
  else
    let* _ := items_Validate 0 (dq_Items r) in
    let* _ := cleanEnvironments (dq_Environments r) in
    rule_Validate (dq_IncludeRule r).
End validate.

(** ** internal/dashboards/store.go *)

(** The dashboards, the integrations there are (of any organization), the
    systems with their organization, the teams with theirs. *)
Record Tables := {
  t_dashboards : list Row; t_integrations : list string; t_systems : list (string * string); t_groups : list (string * string) }.
Definition set_dashboards (l : list Row) (t : Tables) : Tables :=
  {| t_dashboards := l; t_integrations := t_integrations t; t_systems := t_systems t; t_groups := t_groups t |}.

(** [ErrNotFound], a validation error, an error of the database. *)
Inductive StoreError := NotFound | Invalid (m : string) | Failed.

(** The range of INT. *)
Definition int4 (z : Z) : bool := (-2147483648 <=? z)%Z && (z <=? 2147483647)%Z.
Definition is_some_in (o : option string) (l : list (option string)) : bool := match o with Some _ => bool_decide (o ∈ l) | None => false end.

Section store.
Context (uuid_Parse : string -> option string).
(** The identifier drawn for the [n]th item; the time of the transaction. *)
Context (draw : nat -> string) (now : string).

(** The row of an item: the error is that of the check that fails. *)
Definition item_row (org : string) (t : Tables) (n : nat) (i : ItemRequest) : StoreError + Item :=
  let kind := item_kind i in
  let row integration name system widget := {| it_ID := draw n; it_EntityKind := kind; it_IntegrationID := integration; it_SystemName := name;
    it_SystemID := system; it_WidgetType := widget; it_Position := iq_Position i; it_CreatedAt := now |} in
  if kind =s "system_entity" then
    match uuid_Parse (TrimSpace (iq_SystemID i)) with
    | None => inl (Invalid "system_entity item requires a valid systemId")
    | Some sid => if bool_decide ((sid, org) ∈ t_systems t) then inr (row None "" (Some sid) WidgetSystemHealth)
                  else inl (Invalid "unknown systemId")
    end
  else if kind =s "system" then
    let name := TrimSpace (iq_SystemName i) in
    if name =s "" then inl (Invalid "system item requires systemName") else inr (row None name None WidgetSystemHealth)
  else
    match uuid_Parse (iq_IntegrationID i) with
    | None => inl (Invalid "integrationId must be a UUID")
    | Some id => inr (row (Some id) "" None (nonempty (iq_WidgetType i) WidgetTrafficSparkline))
    end.
(** What the constraints of the table refuse: an integration there is not, an
    item pinned twice, a position out of range, a kind or a widget out of the
    vocabulary. *)
Definition constraints_ok (t : Tables) (before : list Item) (i : Item) : bool :=
  (match it_IntegrationID i with Some id => bool_decide (id ∈ t_integrations t) | None => true end)
  && negb (is_some_in (it_IntegrationID i) (it_IntegrationID <$> before))
  && negb (negb (it_SystemName i =s "") && bool_decide (it_SystemName i ∈ it_SystemName <$> before))
  && negb (is_some_in (it_SystemID i) (it_SystemID <$> before))
  && int4 (it_Position i)
  && bool_decide (it_EntityKind i ∈ ["integration"; "system"; "system_entity"])
  && bool_decide (it_WidgetType i ∈ AllWidgetTypes ++ [WidgetSystemHealth]).

Fixpoint insertItems (org : string) (t : Tables) (before : list Item) (l : list ItemRequest) : StoreError + list Item :=
  match l with
  | [] => inr before
  | q :: l =>
      let* i := item_row org t (length before) q in
      if constraints_ok t before i then insertItems org t (before ++ [i]) l else inl Failed
  end.

(** [owner_user_id IS NOT DISTINCT FROM] the caller. *)
Definition clears (org : string) (owner : option string) (keep : option string) (r : Row) : bool :=
  (rw_OrganizationID r =s org) && bool_decide (rw_OwnerUserID r = owner) && negb (bool_decide (Some (rw_ID r) = keep)) && rw_IsDefault r.
Definition undefault (r : Row) : Row := {|
  rw_ID := rw_ID r; rw_OrganizationID := rw_OrganizationID r; rw_OwnerUserID := rw_OwnerUserID r; rw_Name := rw_Name r; rw_IsDefault := false;
  rw_AutoIncludeAll := rw_AutoIncludeAll r; rw_DefaultWidgetType := rw_DefaultWidgetType r; rw_Position := rw_Position r;
  rw_GroupID := rw_GroupID r; rw_Environments := rw_Environments r; rw_IncludeRule := rw_IncludeRule r; rw_Items := rw_Items r;
  rw_CreatedAt := rw_CreatedAt r; rw_UpdatedAt := now |}.
Definition clearDefaults (org : string) (owner keep : option string) (l : list Row) : list Row :=
  (fun r => if clears org owner keep r then undefault r else r) <$> l.

(** [id] is the identifier drawn for the row. *)
Definition Create (org id : string) (owner : option string) (r : DashboardRequest) (t : Tables) : StoreError + (Row * Tables) :=
  match request_Validate uuid_Parse r with
  | inl m => inl (Invalid m)
  | inr rule =>
      match cleanEnvironments (dq_Environments r) with
      | inl m => inl (Invalid m)
      | inr envs =>
          if negb (int4 (dq_Position r)) then inl Failed
          else
            let l := if dq_IsDefault r then clearDefaults org owner None (t_dashboards t) else t_dashboards t in
            let* items := insertItems org t [] (dq_Items r) in
            let row := {|
              rw_ID := id; rw_OrganizationID := org; rw_OwnerUserID := owner; rw_Name := dq_Name r; rw_IsDefault := dq_IsDefault r;
              rw_AutoIncludeAll := dq_AutoIncludeAll r; rw_DefaultWidgetType := nonempty (dq_DefaultWidgetType r) WidgetTrafficSparkline;
              rw_Position := dq_Position r; rw_GroupID := dq_GroupID r; rw_Environments := envs; rw_IncludeRule := rule; rw_Items := items;
              rw_CreatedAt := now; rw_UpdatedAt := now |} in
            inr (row, set_dashboards (l ++ [row]) t)
      end
  end.

Definition is_row (org id : string) (r : Row) : bool := (rw_OrganizationID r =s org) && (rw_ID r =s id).
Definition Get (org id : string) (t : Tables) : option Row := List.find (is_row org id) (t_dashboards t).
Definition replaced (q : DashboardRequest) (rule : option IncludeRule) (envs : list string) (items : list Item) (r : Row) : Row := {|
  rw_ID := rw_ID r; rw_OrganizationID := rw_OrganizationID r; rw_OwnerUserID := rw_OwnerUserID r; rw_Name := dq_Name q;
  rw_IsDefault := dq_IsDefault q; rw_AutoIncludeAll := dq_AutoIncludeAll q;
  rw_DefaultWidgetType := nonempty (dq_DefaultWidgetType q) WidgetTrafficSparkline; rw_Position := dq_Position q;
  rw_GroupID := rw_GroupID r; rw_Environments := envs; rw_IncludeRule := rule; rw_Items := items;
  rw_CreatedAt := rw_CreatedAt r; rw_UpdatedAt := now |}.

Definition Update (org id : string) (owner : option string) (q : DashboardRequest) (t : Tables) : StoreError + (Row * Tables) :=
  match request_Validate uuid_Parse q with
  | inl m => inl (Invalid m)
  | inr rule =>
      match cleanEnvironments (dq_Environments q) with
      | inl m => inl (Invalid m)
      | inr envs =>
          let l := if dq_IsDefault q then clearDefaults org owner (Some id) (t_dashboards t) else t_dashboards t in
          if negb (int4 (dq_Position q)) then inl Failed
          else match Get org id t with
               | None => inl NotFound
               | Some r =>
                   let* items := insertItems org t [] (dq_Items q) in
                   let f r := replaced q rule envs items r in
                   inr (f r, set_dashboards ((fun r => if is_row org id r then f r else r) <$> l) t)
               end
      end
  end.
Definition Delete (org id : string) (t : Tables) : StoreError + Tables :=
  match Get org id t with
  | None => inl NotFound
  | Some _ => inr (set_dashboards (List.filter (fun r => negb (is_row org id r)) (t_dashboards t)) t)
  end.
End store.

(** ** internal/configtransfer/import.go

    [importDashboards] writes rows of its own, past the store.  A bundle names teams
    and integrations; here they are the identifiers the resolver finds for the names.
    The rule is what [scanDashboard] reads of the JSON the bundle holds. *)

Record BundleItem := {
  bi_WidgetType : string; bi_Position : Z; bi_EntityKind : string; bi_Integration : option string; bi_SystemName : option string }.
Record BundleDashboard := {
  bd_Name : string; bd_IsDefault : bool; bd_AutoIncludeAll : bool; bd_DefaultWidgetType : string; bd_Position : Z;
  bd_Group : option string; bd_Items : list BundleItem; bd_Environments : list string; bd_IncludeRule : option IncludeRule }.

Section import.
Context (draw : nat -> string) (now : string).

Definition imported_item (n : nat) (i : BundleItem) : Item := {|
  it_ID := draw n; it_EntityKind := bi_EntityKind i; it_IntegrationID := bi_Integration i; it_SystemName := given (bi_SystemName i);
  it_SystemID := None; it_WidgetType := bi_WidgetType i; it_Position := bi_Position i; it_CreatedAt := now |}.
(** [chk_dashboard_item_shape] of a row without a system identifier. *)
Definition shape_ok (i : BundleItem) : bool :=
  ((bi_EntityKind i =s "integration") && negb (is_none (bi_Integration i)) && is_none (bi_SystemName i)) ||
  ((bi_EntityKind i =s "system") && negb (is_none (bi_SystemName i)) && is_none (bi_Integration i) && (bi_WidgetType i =s WidgetSystemHealth)).
Definition item_allowed (t : Tables) (before : list Item) (i : BundleItem) : bool :=
  shape_ok i && bool_decide (bi_WidgetType i ∈ AllWidgetTypes ++ [WidgetSystemHealth]) && int4 (bi_Position i) &&
  match bi_Integration i with Some id => bool_decide (id ∈ t_integrations t) | None => true end &&
  negb (bool_decide ((bi_Integration i, given (bi_SystemName i)) ∈ (fun x => (it_IntegrationID x, it_SystemName x)) <$> before)).
Fixpoint importItems (t : Tables) (before : list Item) (l : list BundleItem) : option (list Item) :=
  match l with
  | [] => Some before
  | i :: l => if item_allowed t before i then importItems t (before ++ [imported_item (length before) i]) l else None
  end.

Definition imported (org id : string) (owner : option string) (created : string) (d : BundleDashboard) (items : list Item) : Row := {|
  rw_ID := id; rw_OrganizationID := org; rw_OwnerUserID := owner; rw_Name := bd_Name d; rw_IsDefault := bd_IsDefault d;
  rw_AutoIncludeAll := bd_AutoIncludeAll d; rw_DefaultWidgetType := bd_DefaultWidgetType d; rw_Position := bd_Position d;
  rw_GroupID := bd_Group d; rw_Environments := bd_Environments d; rw_IncludeRule := bd_IncludeRule d; rw_Items := items;
  rw_CreatedAt := created; rw_UpdatedAt := now |}.
(** [upsert] on the name.  [id] is the identifier drawn for a new row, which is the
    caller's own, or the row the query found: one of those of that name. *)
Definition importDashboard (org : string) (actor : option string) (replace : bool) (id : string) (d : BundleDashboard) (t : Tables) : option Tables :=
  if negb (bool_decide (bd_DefaultWidgetType d ∈ AllWidgetTypes) && int4 (bd_Position d)) then None
  else match importItems t [] (bd_Items d) with
       | None => None
       | Some items =>
           match List.filter (fun r => (rw_OrganizationID r =s org) && (rw_Name r =s bd_Name d)) (t_dashboards t) with
           | [] => if bool_decide (id ∈ rw_ID <$> t_dashboards t) then None
                   else Some (set_dashboards (t_dashboards t ++ [imported org id actor now d items]) t)
           | found => if replace && bool_decide (id ∈ rw_ID <$> found)
                      then Some (set_dashboards ((fun r => if is_row org id r then imported org id (rw_OwnerUserID r) (rw_CreatedAt r) d items else r)
                                                   <$> t_dashboards t) t)
                      else None
           end
       end.
End import.

(** ** internal/api/handlers_dashboards.go *)

(** [middleware.Principal], with the teams [callerGroupRoles] finds. *)
Record Principal := { pr_Role : string; pr_BaseRole : string; pr_groups : list (string * string) }.
Record Access := { ax_orgWrite : bool; ax_scopeCapped : bool; ax_roles : list (string * string) }.
Definition CanWrite (role : string) : bool := (role =s "admin") || (role =s "editor").
Definition ScopeCapped (p : Principal) : bool := negb (pr_BaseRole p =s "") && negb (pr_BaseRole p =s pr_Role p).
(** [None] without authentication; [entitled] is [FeatureRBACAdvanced]. *)
Definition dashboardAccessCtx (entitled : bool) (p : option Principal) : Access :=
  match p with
  | None => {| ax_orgWrite := true; ax_scopeCapped := false; ax_roles := [] |}
  | Some p => {|
      ax_orgWrite := CanWrite (pr_Role p); ax_scopeCapped := ScopeCapped p;
      ax_roles := if entitled then pr_groups p else (fun g => (g.1, "viewer")) <$> pr_groups p |}
  end.

Definition canSeeTeamScoped (groupID : option string) (a : Access) : bool :=
  match groupID with
  | None => true
  | Some g => ax_orgWrite a || omap_has g (ax_roles a)
  end.
Definition canManageTeamScoped (groupID : option string) (a : Access) : bool :=
  if ax_orgWrite a then true
  else if ax_scopeCapped a then false
  else match groupID with
       | None => false
       | Some g => match omap_get g (ax_roles a) with Some role => CanWrite role | None => false end
       end.
Definition canSeeDashboard (r : Row) (a : Access) : bool := canSeeTeamScoped (rw_GroupID r) a.
Definition canManageDashboard (r : Row) (a : Access) : bool := canManageTeamScoped (rw_GroupID r) a.

Definition uuid_Nil : string := "00000000-0000-0000-0000-000000000000".
Definition item_to_wire (i : Item) : DashboardItem := {|
  di_id := it_ID i; di_entityKind := it_EntityKind i; di_integrationId := it_IntegrationID i ?? uuid_Nil;
  di_systemName := omit (it_SystemName i); di_systemId := it_SystemID i; di_widgetType := it_WidgetType i;
  di_position := it_Position i; di_createdAt := it_CreatedAt i |}.
Definition rule_to_wire (r : IncludeRule) : DashboardIncludeRule :=
  {| dr_kind := ir_Kind r; dr_key := omit (ir_Key r); dr_value := ir_Value r |}.

Section handlers.
Context (uuid_Parse : string -> option string) (draw : nat -> string) (now : string).
(** [ORDER BY position ASC, created_at ASC] on the items of a dashboard. *)
Context (by_position : list Item -> list Item).

Definition to_wire (canManage : bool) (r : Row) : Dashboard := {|
  da_canManage := Some canManage; da_groupId := Some <$> rw_GroupID r; da_id := rw_ID r; da_name := rw_Name r;
  da_isDefault := rw_IsDefault r; da_autoIncludeAll := rw_AutoIncludeAll r; da_defaultWidgetType := rw_DefaultWidgetType r;
  da_position := rw_Position r; da_mine := false; da_environments := Some (rw_Environments r);
  da_includeRule := Some ∘ rule_to_wire <$> rw_IncludeRule r; da_items := item_to_wire <$> by_position (rw_Items r);
  da_createdAt := rw_CreatedAt r; da_updatedAt := rw_UpdatedAt r |}.

(** An answer: the status and the message of an error, or the value. *)
Abbreviation Answer A := (sum (Z * string) A).
Definition store_error (what : string) (e : StoreError) : Z * string :=
  match e with NotFound => (404%Z, "dashboard not found") | Invalid m => (400%Z, m) | Failed => (500%Z, tpl [what; " failed"]) end.

Definition listDashboards (org : string) (a : Access) (t : Tables) : list Dashboard :=
  (fun r => to_wire (canManageDashboard r a) r)
  <$> List.filter (fun r => canSeeDashboard r a) (List.filter (fun r => rw_OrganizationID r =s org) (t_dashboards t)).
Definition getDashboard (org : string) (a : Access) (path : string) (t : Tables) : Answer Dashboard :=
  match uuid_Parse path with
  | None => inl (400%Z, "invalid dashboard id")
  | Some id =>
      match Get org id t with
      | None => inl (404%Z, "dashboard not found")
      | Some r => if canSeeDashboard r a then inr (to_wire (canManageDashboard r a) r) else inl (404%Z, "dashboard not found")
      end
  end.

(** The body is [None] when it is not JSON of the right types; [id] is the
    identifier drawn for the dashboard. *)
Definition may_create (a : Access) (r : DashboardRequest) : Answer unit :=
  if ax_orgWrite a then inr tt
  else match dq_GroupID r with
       | None => inl (403%Z, "org-wide dashboards require an org-wide editor role")
       | Some g => if canManageTeamScoped (Some g) a then inr tt else inl (403%Z, "you need an editor role in that team")
       end.
Definition createDashboard (org id : string) (a : Access) (body : option DashboardRequest) (t : Tables) : Answer (Dashboard * Tables) :=
  match body with
  | None => inl (400%Z, "invalid JSON body")
  | Some r =>
      let* _ := may_create a r in
      if match dq_GroupID r with Some g => negb (bool_decide ((g, org) ∈ t_groups t)) | None => false end
      then inl (400%Z, "unknown team")
      else match Create uuid_Parse draw now org id None r t with
           | inl e => inl (store_error "create" e)
           | inr (row, t) => inr (to_wire true row, t)
           end
  end.
Definition requireManageDashboard (org : string) (a : Access) (id : string) (t : Tables) : Answer Row :=
  match Get org id t with
  | None => inl (404%Z, "dashboard not found")
  | Some r => if negb (canSeeDashboard r a) then inl (404%Z, "dashboard not found")
              else if canManageDashboard r a then inr r else inl (403%Z, "you don't manage this dashboard")
  end.
Definition updateDashboard (org : string) (a : Access) (path : string) (body : option DashboardRequest) (t : Tables) : Answer (Dashboard * Tables) :=
  match uuid_Parse path with
  | None => inl (400%Z, "invalid dashboard id")
  | Some id =>
      let* _ := requireManageDashboard org a id t in
      match body with
      | None => inl (400%Z, "invalid JSON body")
      | Some q => match Update uuid_Parse draw now org id None q t with
                  | inl e => inl (store_error "update" e)
                  | inr (row, t) => inr (to_wire true row, t)
                  end
      end
  end.
Definition deleteDashboard (org : string) (a : Access) (path : string) (t : Tables) : Answer Tables :=
  match uuid_Parse path with
  | None => inl (400%Z, "invalid dashboard id")
  | Some id =>
      let* _ := requireManageDashboard org a id t in
      match Delete org id t with inl e => inl (store_error "delete" e) | inr t => inr t end
  end.
End handlers.

(** ** What holds of the tables *)

(** What the schema and the vocabulary say of an item. *)
Definition item_ok (t : Tables) (org : string) (i : Item) : Prop :=
  int4 (it_Position i) = true /\
  ((it_EntityKind i = "integration" /\ it_SystemName i = "" /\ it_SystemID i = None /\ IsValidWidgetType (it_WidgetType i) = true /\
    exists id, it_IntegrationID i = Some id /\ id ∈ t_integrations t) \/
   (it_EntityKind i = "system" /\ it_IntegrationID i = None /\ it_SystemID i = None /\ it_WidgetType i = WidgetSystemHealth /\
    it_SystemName i <> "" /\ TrimSpace (it_SystemName i) = it_SystemName i) \/
   (it_EntityKind i = "system_entity" /\ it_IntegrationID i = None /\ it_SystemName i = "" /\ it_WidgetType i = WidgetSystemHealth /\
    exists id, it_SystemID i = Some id /\ (id, org) ∈ t_systems t)).
(** What an item pins. *)
Definition pin (i : Item) : option string * string * option string := (it_IntegrationID i, it_SystemName i, it_SystemID i).
Definition items_ok (t : Tables) (org : string) (l : list Item) : Prop := Forall (item_ok t org) l /\ NoDup (pin <$> l).

Definition trimmed (s : string) : Prop := TrimSpace s = s.
Definition environments_ok (l : list string) : Prop :=
  NoDup l /\ (length l <= 20)%nat /\ Forall (fun e => trimmed e /\ (String.length e <= 128)%nat) l.
Definition rule_ok (r : IncludeRule) : Prop :=
  trimmed (ir_Key r) /\ trimmed (ir_Value r) /\ ir_Value r <> "" /\ (String.length (ir_Key r) <= 200)%nat /\ (String.length (ir_Value r) <= 200)%nat /\
  ((ir_Kind r = "metadata" /\ ir_Key r <> "") \/ (ir_Kind r = "tag" /\ ir_Key r = "")).
Record row_ok (t : Tables) (r : Row) : Prop := {
  ro_owner : rw_OwnerUserID r = None;
  ro_name : TrimSpace (rw_Name r) <> "" /\ (String.length (rw_Name r) <= 200)%nat;
  ro_widget : IsValidWidgetType (rw_DefaultWidgetType r) = true;
  ro_position : int4 (rw_Position r) = true;
  ro_environments : environments_ok (rw_Environments r);
  ro_rule : match rw_IncludeRule r with Some rule => rule_ok rule | None => True end;
  ro_items : items_ok t (rw_OrganizationID r) (rw_Items r)
}.
Record consistent (t : Tables) : Prop := {
  cs_ids : NoDup (rw_ID <$> t_dashboards t);
  cs_default : forall r s, r ∈ t_dashboards t -> s ∈ t_dashboards t -> rw_IsDefault r = true -> rw_IsDefault s = true ->
    rw_OrganizationID r = rw_OrganizationID s -> r = s;
  cs_rows : Forall (row_ok t) (t_dashboards t)
}.

(** What holds of the rows whoever wrote them: the handlers or an import. *)
Definition item_sound (t : Tables) (i : Item) : Prop :=
  int4 (it_Position i) = true /\ it_WidgetType i ∈ AllWidgetTypes ++ [WidgetSystemHealth] /\
  ((it_EntityKind i = "integration" /\ it_SystemName i = "" /\ it_SystemID i = None /\ exists id, it_IntegrationID i = Some id /\ id ∈ t_integrations t) \/
   (it_EntityKind i = "system" /\ it_IntegrationID i = None /\ it_SystemID i = None /\ it_WidgetType i = WidgetSystemHealth) \/
   (it_EntityKind i = "system_entity" /\ it_IntegrationID i = None /\ it_SystemName i = "" /\ it_WidgetType i = WidgetSystemHealth /\
    exists id, it_SystemID i = Some id /\ id ∈ (t_systems t).*1)).
Record row_sound (t : Tables) (r : Row) : Prop := {
  rs_widget : IsValidWidgetType (rw_DefaultWidgetType r) = true;
  rs_position : int4 (rw_Position r) = true;
  rs_items : Forall (item_sound t) (rw_Items r) /\ NoDup (pin <$> rw_Items r)
}.
Record sound (t : Tables) : Prop := {
  so_ids : NoDup (rw_ID <$> t_dashboards t);
  so_rows : Forall (row_sound t) (t_dashboards t)
}.

Lemma clean_loop_ok seen l out : clean_loop seen l = inr out ->
  NoDup out /\ (length out <= length l)%nat /\ Forall (fun e => e ∉ seen /\ trimmed e /\ (String.length e <= 128)%nat) out.
Proof.
  revert seen out. induction l as [|e l IH]; intros seen out; cbn [clean_loop].
  { intros [= <-]. split; [constructor|]. split; [done|constructor]. }
  destruct (longer _ _) eqn:E1; [done|]. apply longer_false in E1. case_bool_decide as E2.
  { intros H. destruct (IH _ _ H) as (H1 & H2 & H3). split; [done|]. split; [cbn; lia|done]. }
  intros H. err_inv. injection H as <-. match goal with H : clean_loop _ _ = inr ?x |- _ => destruct (IH _ _ H) as (H1 & H2 & H3) end.
  split; [|split; [cbn; lia|]].
  - constructor; [|done]. intros Hin. rewrite Forall_forall in H3. destruct (H3 _ Hin) as [Hn _]. apply Hn. by left.
  - constructor; [split; [done|]; split; [apply TrimSpace_idem|done]|]. eapply Forall_impl; [exact H3|].
    cbn. intros y [Hn ?]. split; [|done]. intros ?. apply Hn. by right.
Qed.
Lemma cleaned_ok l out : cleanEnvironments l = inr out -> environments_ok out.
Proof.
  unfold cleanEnvironments. destruct (_ <? _)%nat eqn:E; [done|]. apply Nat.ltb_ge in E. intros (H1 & H2 & H3)%clean_loop_ok.
  split; [done|]. split; [lia|]. eapply Forall_impl; [exact H3|]. by cbn; intros ? [_ ?].
Qed.
(** Environments that are in order are stored as they are. *)
Lemma clean_loop_id seen l : NoDup l -> Forall (fun e => e ∉ seen /\ trimmed e /\ (String.length e <= 128)%nat) l -> clean_loop seen l = inr l.
Proof.
  revert seen. induction l as [|e l IH]; intros seen Hn Hf; [done|]. apply NoDup_cons in Hn as [He Hn].
  apply Forall_cons in Hf as [(H1 & H2 & H3) Hf]. cbn [clean_loop]. unfold trimmed in H2. rewrite H2.
  rewrite (proj2 (longer_false _ _) H3), bool_decide_false by done. rewrite IH; [done..|].
  apply Forall_forall. intros x Hx. rewrite Forall_forall in Hf. destruct (Hf x Hx) as [? ?]. split; [|done].
  intros [->|?]%elem_of_cons; done.
Qed.
Lemma cleaned_id l : environments_ok l -> cleanEnvironments l = inr l.
Proof.
  intros (H1 & H2 & H3). unfold cleanEnvironments. rewrite (proj2 (Nat.ltb_ge _ _) H2). apply clean_loop_id; [done|].
  eapply Forall_impl; [exact H3|]. cbn. intros x ?. split; [apply not_elem_of_nil|done].
Qed.

Lemma rule_Validate_ok o o' : rule_Validate o = inr o' -> match o' with Some r => rule_ok r | None => True end.
Proof.
  unfold rule_Validate. destruct o as [[kind key value]|]; [|by intros [= <-]]. cbn [ir_Kind ir_Key ir_Value].
  destruct (kind =s "metadata") eqn:Ek.
  - destruct (_ || _) eqn:E; [done|]. destruct (longer _ _ || _) eqn:El; [done|]. intros [= <-].
    apply orb_false_iff in E as [E1 E2], El as [L1 L2]. apply String.eqb_neq in E1, E2. apply longer_false in L1, L2. apply String.eqb_eq in Ek.
    repeat split; cbn; try apply TrimSpace_idem; try done. by left.
  - destruct (kind =s "tag") eqn:Et; [|done]. destruct (_ =s "") eqn:E; [done|]. destruct (_ || _) eqn:El; [done|]. intros [= <-]. apply String.eqb_neq in E. apply String.eqb_eq in Et.
    apply orb_false_iff in El as [L1 L2]. apply longer_false in L1, L2. repeat split; cbn; try apply TrimSpace_idem; try done; try lia; by right.
Qed.
Lemma rule_Validate_id r : rule_ok r -> rule_Validate (Some r) = inr (Some r).
Proof.
  destruct r as [kind key value]. unfold rule_ok, trimmed. cbn. intros (H1 & H2 & H3 & H4 & H5 & H6). rewrite H1, H2.
  apply longer_false in H4, H5. apply String.eqb_neq in H3. rewrite H3.
  destruct H6 as [[-> H6]|[-> ->]]; cbn; [|change (longer 200 "") with false; by rewrite H5].
  apply String.eqb_neq in H6. by rewrite H6, H4, H5.
Qed.

(** *** Items *)

Lemma item_kinds q i m : item_Validate m q = inr i ->
  item_kind q = "system_entity" \/ item_kind q = "system" \/
  (item_kind q = "integration" /\ IsValidWidgetType (nonempty (iq_WidgetType q) WidgetTrafficSparkline) = true).
Proof.
  unfold item_Validate. cbv zeta. destruct (item_kind q =s "system_entity") eqn:E1; [bool_prop; by left|].
  destruct (item_kind q =s "system") eqn:E2; [bool_prop; right; by left|].
  destruct (item_kind q =s "integration") eqn:E3; [|done]. destruct (m _); [|done]. destruct (negb _); [done|].
  destruct (IsValidWidgetType _) eqn:E4; [|done]. bool_prop. right. by right.
Qed.

Section items.
Context (uuid_Parse : string -> option string) (draw : nat -> string) (now org : string) (t : Tables).
Abbreviation item_row := (item_row uuid_Parse draw now org t).
Abbreviation insertItems := (insertItems uuid_Parse draw now org t).

Lemma item_row_ok n q before i : item_Validate uuid_Parse q = inr tt -> item_row n q = inr i -> constraints_ok t before i = true ->
  item_ok t org i /\ pin i ∉ pin <$> before.
Proof.
  intros Hv%item_kinds Hr Hc. unfold constraints_ok in Hc.
  apply andb_true_iff in Hc as [[[[[[C1 C2]%andb_true_iff C3]%andb_true_iff C4]%andb_true_iff C5]%andb_true_iff _]%andb_true_iff _].
  apply negb_true_iff in C2, C3, C4. unfold item_row in Hr. cbv zeta in Hr.
  assert (Hpin : forall b, b ∈ before -> pin b = pin i ->
    it_IntegrationID i = None /\ it_SystemName i = "" /\ it_SystemID i = None).
  { intros b Hb [= P1 P2 P3]. unfold is_some_in in *. split; [|split].
    - destruct (it_IntegrationID i); [|done]. exfalso. apply bool_decide_eq_false in C2. apply C2. rewrite <- P1. by apply list_elem_of_fmap_2.
    - destruct (it_SystemName i =s "") eqn:E; [by bool_prop|]. exfalso. cbn in C3. apply bool_decide_eq_false in C3. apply C3.
      rewrite <- P2. by apply list_elem_of_fmap_2.
    - destruct (it_SystemID i); [|done]. exfalso. apply bool_decide_eq_false in C4. apply C4. rewrite <- P3. by apply list_elem_of_fmap_2. }
  destruct Hv as [K|[K|[K W]]]; rewrite K in Hr; cbn in Hr.
  - destruct (uuid_Parse _) as [sid|]; [|done]. destruct (decide ((sid, org) ∈ t_systems t)) as [B|B];
      [rewrite bool_decide_true in Hr by done|by rewrite bool_decide_false in Hr]. injection Hr as <-. split.
    + split; [done|]. right; right. repeat split; try done. by exists sid.
    + intros (b & E & Hb)%list_elem_of_fmap. destruct (Hpin b Hb (eq_sym E)) as (_ & _ & [=]).
  - destruct (_ =s "") eqn:E; [done|]. injection Hr as <-. bool_prop. split.
    + split; [done|]. right; left. repeat split; try done. apply TrimSpace_idem.
    + intros (b & E' & Hb)%list_elem_of_fmap. destruct (Hpin b Hb (eq_sym E')) as (_ & H' & _). by cbn in H'.
  - destruct (uuid_Parse _) as [id|]; [|done]. injection Hr as <-. split.
    + split; [done|]. left. repeat split; try done. exists id. split; [done|]. by apply bool_decide_eq_true in C1.
    + intros (b & E & Hb)%list_elem_of_fmap. destruct (Hpin b Hb (eq_sym E)) as ([=] & _).
Qed.

Lemma items_valid n l q : items_Validate uuid_Parse n l = inr tt -> q ∈ l -> item_Validate uuid_Parse q = inr tt.
Proof.
  revert n. induction l as [|x l IH]; intros n H Hq; [by apply elem_of_nil in Hq|]. cbn [items_Validate] in H.
  destruct (item_Validate _ x) as [m|[]] eqn:E; [done|]. apply elem_of_cons in Hq as [->|Hq]; [done|by eapply IH].
Qed.
Lemma insertItems_ok before l out : (forall q, q ∈ l -> item_Validate uuid_Parse q = inr tt) -> items_ok t org before ->
  insertItems before l = inr out -> items_ok t org out.
Proof.
  revert before. induction l as [|q l IH]; intros before Hl Hb; cbn [DashboardServer.insertItems]; [by intros [= <-]|].
  destruct (item_row (length before) q) as [|i] eqn:E; [done|]. cbn. destruct (constraints_ok t before i) eqn:C; [|done].
  destruct (item_row_ok (length before) q before i) as [H1 H2]; [apply Hl; in_cons|done|done|]. apply IH; [intros x Hx; apply Hl; in_cons|].
  destruct Hb as [B1 B2]. split; [apply Forall_app; by split; [|constructor]|].
  rewrite fmap_app. apply NoDup_app. split; [done|]. split; [|apply NoDup_singleton]. by intros x Hx ->%list_elem_of_singleton.
Qed.
End items.

(** *** Requests *)

Lemma request_inv uuid_Parse r rule : request_Validate uuid_Parse r = inr rule ->
  (TrimSpace (dq_Name r) <> "" /\ (String.length (dq_Name r) <= 200)%nat) /\
  IsValidWidgetType (nonempty (dq_DefaultWidgetType r) WidgetTrafficSparkline) = true /\
  (forall q, q ∈ dq_Items r -> item_Validate uuid_Parse q = inr tt) /\
  (exists envs, cleanEnvironments (dq_Environments r) = inr envs) /\
  match rule with Some r => rule_ok r | None => True end.
Proof.
  unfold request_Validate. destruct (_ =s "") eqn:E1; [done|]. destruct (longer _ _) eqn:E2; [done|]. destruct (IsValidWidgetType _) eqn:E3; [|done].
  cbn [negb]. intros H. apply err_bind_inr in H as ([] & H1 & H). apply err_bind_inr in H as (envs & H2 & H).
  apply longer_false in E2. bool_prop. split; [done|]. split; [done|]. split; [intros q; by eapply items_valid|]. split; [by exists envs|].
  by apply (rule_Validate_ok (dq_IncludeRule r)).
Qed.

Lemma cleared_elem now org owner keep l r : r ∈ clearDefaults now org owner keep l <->
  exists s, s ∈ l /\ r = if clears org owner keep s then undefault now s else s.
Proof. unfold clearDefaults. rewrite list_elem_of_fmap. split; intros (s & H1 & H2); by exists s. Qed.
Lemma row_undefault_ok now t r : row_ok t r -> row_ok t (undefault now r).
Proof. intros []. by constructor. Qed.

(** Rewriting rows that keep their identifiers and organizations. *)
Lemma mapped_consistent t f : consistent t ->
  (forall r, rw_ID (f r) = rw_ID r /\ rw_OrganizationID (f r) = rw_OrganizationID r) ->
  (forall r s, r ∈ t_dashboards t -> s ∈ t_dashboards t -> rw_IsDefault (f r) = true -> rw_IsDefault (f s) = true ->
     rw_OrganizationID r = rw_OrganizationID s -> r = s) ->
  (forall r, r ∈ t_dashboards t -> row_ok t (f r)) -> consistent (set_dashboards (f <$> t_dashboards t) t).
Proof.
  intros [H1 H2 H3] Hf Hd Hok. split; cbn [t_dashboards set_dashboards].
  - rewrite <- list_fmap_compose. erewrite list_fmap_ext; [exact H1|]. intros i r _. apply Hf.
  - intros r s (r' & -> & Hr)%list_elem_of_fmap (s' & -> & Hs)%list_elem_of_fmap Dr Ds E.
    rewrite (proj2 (Hf r')), (proj2 (Hf s')) in E. by rewrite (Hd r' s').
  - apply Forall_forall. intros r (r' & -> & Hr)%list_elem_of_fmap. destruct (Hok r' Hr). by constructor.
Qed.

Lemma Get_inv org id t r : Get org id t = Some r -> r ∈ t_dashboards t /\ rw_OrganizationID r = org /\ rw_ID r = id.
Proof. intros [H1 H2]%find_Some_elem. unfold is_row in H2. by bool_prop. Qed.
Lemma Get_row org id t r : NoDup (rw_ID <$> t_dashboards t) -> r ∈ t_dashboards t -> is_row org id r = true -> Get org id t = Some r.
Proof.
  intros Hn Hr Hi. unfold Get. destruct (List.find _ _) as [s|] eqn:E.
  - apply find_Some_elem in E as [Hs Hi']. unfold is_row in *. bool_prop. f_equal. apply (NoDup_map_eq rw_ID (t_dashboards t)); congruence.
  - exfalso. eapply List.find_none in E; [|by apply list_elem_of_In]. congruence.
Qed.

Lemma created_consistent uuid_Parse draw now org id r t row t' : consistent t -> id ∉ rw_ID <$> t_dashboards t ->
  Create uuid_Parse draw now org id None r t = inr (row, t') -> consistent t'.
Proof.
  intros [H1 H2 H3] Hid. unfold Create. destruct (request_Validate _ _) as [|rule] eqn:Ev; [done|]. apply request_inv in Ev as (V1 & V2 & V3 & _ & V5).
  destruct (cleanEnvironments _) as [|envs] eqn:Ec; [done|]. apply cleaned_ok in Ec. destruct (int4 _) eqn:Ei; [|done]. cbn [negb].
  intros H. apply err_bind_inr in H as (items & Hi & H). injection H as Hrow <-.
  apply insertItems_ok in Hi; [|done|by split; [constructor|apply NoDup_nil]].
  set (l := if dq_IsDefault r then _ else _).
  assert (Hl : rw_ID <$> l = rw_ID <$> t_dashboards t).
  { subst l. destruct (dq_IsDefault r); [|done]. unfold clearDefaults. rewrite <- list_fmap_compose. apply list_fmap_ext. intros i s _. cbn. by destruct (clears _ _ _ s). }
  assert (Hel : forall s, s ∈ l -> exists s', s' ∈ t_dashboards t /\ rw_OrganizationID s = rw_OrganizationID s' /\ row_ok t s /\
      (rw_IsDefault s = true -> s = s' /\ (dq_IsDefault r = true -> rw_OrganizationID s' <> org))).
  { rewrite Forall_forall in H3. subst l. destruct (dq_IsDefault r); intros s Hs.
    - apply cleared_elem in Hs as (s' & Hs' & ->). exists s'. split; [done|]. pose proof (H3 s' Hs') as Ho. unfold clears.
      destruct (_ && _) eqn:E; (split; [done|]); (split; [by try apply row_undefault_ok|]); [done|]. intros Hd. split; [done|]. intros _ Eo.
      rewrite Eo, String.eqb_refl, (ro_owner _ _ Ho), bool_decide_true, bool_decide_false, Hd in E; done.
    - exists s. split; [done|]. split; [done|]. split; [by apply H3|]. by intros _. }
  rewrite Hrow. split; cbn [t_dashboards set_dashboards].
  - rewrite fmap_app, Hl. apply NoDup_app. split; [done|]. split; [|apply NoDup_singleton]. rewrite <- Hrow. by intros x Hx ->%list_elem_of_singleton.
  - intros a b [Ha| ->%list_elem_of_singleton]%elem_of_app [Hb| ->%list_elem_of_singleton]%elem_of_app Da Db E; [| | |done].
    + destruct (Hel a Ha) as (a' & Ha' & _ & _ & Fa), (Hel b Hb) as (b' & Hb' & _ & _ & Fb).
      destruct (Fa Da) as [-> _], (Fb Db) as [-> _]. by apply H2.
    + destruct (Hel a Ha) as (a' & _ & _ & _ & Fa). destruct (Fa Da) as [-> Fa']. exfalso. rewrite <- Hrow in Db, E. cbn in Db, E. by apply Fa'.
    + destruct (Hel b Hb) as (b' & _ & _ & _ & Fb). destruct (Fb Db) as [-> Fb']. exfalso. rewrite <- Hrow in Da, E. cbn in Da, E. by apply Fb'.
  - apply Forall_app. split.
    + apply Forall_forall. intros s Hs. destruct (Hel s Hs) as (_ & _ & _ & [] & _). by constructor.
    + constructor; [|constructor]. rewrite <- Hrow. by constructor.
Qed.

Lemma Update_inv uuid_Parse draw now org id q t row t' : Update uuid_Parse draw now org id None q t = inr (row, t') ->
  exists rule envs items r,
    request_Validate uuid_Parse q = inr rule /\ cleanEnvironments (dq_Environments q) = inr envs /\
    insertItems uuid_Parse draw now org t [] (dq_Items q) = inr items /\ int4 (dq_Position q) = true /\ Get org id t = Some r /\
    row = replaced now q rule envs items r /\
    t' = set_dashboards ((fun r =>
           let s := if dq_IsDefault q && clears org None (Some id) r then undefault now r else r in
           if is_row org id s then replaced now q rule envs items s else s) <$> t_dashboards t) t.
Proof.
  unfold Update. destruct (request_Validate _ _) as [|rule] eqn:Ev; [done|]. destruct (cleanEnvironments _) as [|envs] eqn:Ec; [done|].
  destruct (int4 _) eqn:Ei; [|done]. cbn [negb]. destruct (Get _ _ _) as [r|] eqn:Eg; [|done].
  intros H. apply err_bind_inr in H as (items & Hi & H). injection H as <- <-. exists rule, envs, items, r.
  do 6 (split; [done|]). f_equal. destruct (dq_IsDefault q); cbn [andb]; [|done]. unfold clearDefaults. by rewrite <- list_fmap_compose.
Qed.
Lemma request_items_ok uuid_Parse draw now org q t rule items : request_Validate uuid_Parse q = inr rule ->
  insertItems uuid_Parse draw now org t [] (dq_Items q) = inr items -> items_ok t org items.
Proof. intros (_ & _ & H & _)%request_inv Hi. eapply insertItems_ok; [exact H| |exact Hi]. split; [constructor|apply NoDup_nil; done]. Qed.

Lemma Update_consistent uuid_Parse draw now org id q t row t' : consistent t ->
  Update uuid_Parse draw now org id None q t = inr (row, t') -> consistent t'.
Proof.
  intros Hc (rule & envs & items & r & V & E & I & P & G & -> & ->)%Update_inv.
  pose proof (request_items_ok _ _ _ _ _ _ _ _ V I) as HI. apply request_inv in V as (V1 & V2 & _ & _ & V5). apply cleaned_ok in E.
  apply Get_inv in G as (G1 & G2 & G3). destruct Hc as [H1 H2 H3]. pose proof (Forall_forall (row_ok t) (t_dashboards t)) as [HF _].
  specialize (HF H3). apply mapped_consistent; [by split| | |]; cbv zeta.
  - intros s. by destruct (_ && _); case_if.
  - intros a b Ha Hb. set (f := fun s : Row => if dq_IsDefault q && clears org None (Some id) s then undefault now s else s).
    assert (Hf : forall s, s ∈ t_dashboards t -> rw_IsDefault (if is_row org id (f s) then replaced now q rule envs items (f s) else f s) = true ->
      (is_row org id s = true /\ dq_IsDefault q = true) \/
      (is_row org id s = false /\ rw_IsDefault s = true /\ (dq_IsDefault q = true -> rw_OrganizationID s <> org))).
    { intros s Hs. assert (Hr : is_row org id (f s) = is_row org id s) by (unfold f; by destruct (_ && _)). rewrite Hr.
      destruct (is_row org id s) eqn:Er; cbn; [by left|]. intros Hd. right. split; [done|]. unfold f in Hd. destruct (_ && _) eqn:Ec; [done|].
      split; [done|]. intros Hq Ho. rewrite Hq in Ec. cbn in Ec. unfold clears in Ec. unfold is_row in Er.
      rewrite Ho, String.eqb_refl in Er, Ec. cbn in Er. bool_prop.
      rewrite (ro_owner _ _ (HF s Hs)), bool_decide_true, Hd, bool_decide_false in Ec by congruence. done. }
    change (?x -> ?y -> _) with (rw_IsDefault (if is_row org id (f a) then replaced now q rule envs items (f a) else f a) = true ->
      rw_IsDefault (if is_row org id (f b) then replaced now q rule envs items (f b) else f b) = true -> rw_OrganizationID a = rw_OrganizationID b -> a = b).
    intros Da Db Eo. apply (Hf a Ha) in Da. apply (Hf b Hb) in Db. unfold is_row in Da, Db.
    destruct Da as [[Da Qa]|(Na & Da & Qa)], Db as [[Db Qb]|(Nb & Db & Qb)].
    + bool_prop. apply (NoDup_map_eq rw_ID (t_dashboards t)); congruence.
    + exfalso. bool_prop. apply Qb; congruence.
    + exfalso. bool_prop. apply Qa; congruence.
    + by apply H2.
  - intros s Hs. pose proof (HF s Hs) as Ho. assert (Ho' : row_ok t (if dq_IsDefault q && clears org None (Some id) s then undefault now s else s)).
    { destruct (_ && _); [by apply row_undefault_ok|done]. }
    revert Ho'. generalize (if dq_IsDefault q && clears org None (Some id) s then undefault now s else s). intros u Hu.
    destruct (is_row org id u) eqn:Er; [|done]. unfold is_row in Er. bool_prop. constructor; try done; [apply (ro_owner _ _ Hu)|].
    cbn [rw_OrganizationID rw_Items replaced]. congruence.
Qed.

(** Fewer rows, and items dropped with what they pin. *)
Definition with_items (f : list Item -> list Item) (r : Row) : Row := {|
  rw_ID := rw_ID r; rw_OrganizationID := rw_OrganizationID r; rw_OwnerUserID := rw_OwnerUserID r; rw_Name := rw_Name r;
  rw_IsDefault := rw_IsDefault r; rw_AutoIncludeAll := rw_AutoIncludeAll r; rw_DefaultWidgetType := rw_DefaultWidgetType r;
  rw_Position := rw_Position r; rw_GroupID := rw_GroupID r; rw_Environments := rw_Environments r; rw_IncludeRule := rw_IncludeRule r;
  rw_Items := f (rw_Items r); rw_CreatedAt := rw_CreatedAt r; rw_UpdatedAt := rw_UpdatedAt r |}.
Definition without_group (g : string) (r : Row) : Row := {|
  rw_ID := rw_ID r; rw_OrganizationID := rw_OrganizationID r; rw_OwnerUserID := rw_OwnerUserID r; rw_Name := rw_Name r;
  rw_IsDefault := rw_IsDefault r; rw_AutoIncludeAll := rw_AutoIncludeAll r; rw_DefaultWidgetType := rw_DefaultWidgetType r;
  rw_Position := rw_Position r; rw_GroupID := (if bool_decide (rw_GroupID r = Some g) then None else rw_GroupID r);
  rw_Environments := rw_Environments r; rw_IncludeRule := rw_IncludeRule r;
  rw_Items := rw_Items r; rw_CreatedAt := rw_CreatedAt r; rw_UpdatedAt := rw_UpdatedAt r |}.
Definition not_in (o : option string) (id : string) : bool := negb (bool_decide (o = Some id)).
Definition drop_integration (id : string) (t : Tables) : Tables := {|
  t_dashboards := with_items (List.filter (fun i => not_in (it_IntegrationID i) id)) <$> t_dashboards t;
  t_integrations := List.filter (fun x => negb (x =s id)) (t_integrations t); t_systems := t_systems t; t_groups := t_groups t |}.
Definition drop_system (id : string) (t : Tables) : Tables := {|
  t_dashboards := with_items (List.filter (fun i => not_in (it_SystemID i) id)) <$> t_dashboards t;
  t_integrations := t_integrations t; t_systems := List.filter (fun x => negb (x.1 =s id)) (t_systems t); t_groups := t_groups t |}.
Definition drop_group (id : string) (t : Tables) : Tables := {|
  t_dashboards := without_group id <$> t_dashboards t;
  t_integrations := t_integrations t; t_systems := t_systems t; t_groups := List.filter (fun x => negb (x.1 =s id)) (t_groups t) |}.

(** Everything the handlers, the foreign keys and, when [imports], the import of a
    bundle do to the tables, the migration's row first. *)
Section reachable.
Context (uuid_Parse : string -> option string) (by_position : list Item -> list Item) (imports : bool).
Abbreviation createDashboard := (createDashboard uuid_Parse).
Abbreviation updateDashboard := (updateDashboard uuid_Parse).
Definition seeded (id now : string) : Row := {|
  rw_ID := id; rw_OrganizationID := "00000000-0000-0000-0000-000000000001"; rw_OwnerUserID := None; rw_Name := "All integrations";
  rw_IsDefault := true; rw_AutoIncludeAll := true; rw_DefaultWidgetType := "traffic_sparkline"; rw_Position := 0; rw_GroupID := None;
  rw_Environments := []; rw_IncludeRule := None; rw_Items := []; rw_CreatedAt := now; rw_UpdatedAt := now |}.
Inductive reachable : Tables -> Prop :=
| re_migrated id now integrations systems groups :
    reachable {| t_dashboards := [seeded id now]; t_integrations := integrations; t_systems := systems; t_groups := groups |}
| re_create t draw now org id a body d t' : reachable t -> id ∉ rw_ID <$> t_dashboards t ->
    createDashboard draw now by_position org id a body t = inr (d, t') -> reachable t'
| re_update t draw now org path a body d t' : reachable t -> updateDashboard draw now by_position org a path body t = inr (d, t') -> reachable t'
| re_delete t org path a t' : reachable t -> deleteDashboard uuid_Parse org a path t = inr t' -> reachable t'
| re_integration t id : reachable t -> reachable {| t_dashboards := t_dashboards t; t_integrations := id :: t_integrations t;
    t_systems := t_systems t; t_groups := t_groups t |}
| re_system t id org : reachable t -> reachable {| t_dashboards := t_dashboards t; t_integrations := t_integrations t;
    t_systems := (id, org) :: t_systems t; t_groups := t_groups t |}
| re_group t id org : reachable t -> reachable {| t_dashboards := t_dashboards t; t_integrations := t_integrations t;
    t_systems := t_systems t; t_groups := (id, org) :: t_groups t |}
| re_no_integration t id : reachable t -> reachable (drop_integration id t)
| re_no_system t id : reachable t -> reachable (drop_system id t)
| re_no_group t id : reachable t -> reachable (drop_group id t)
| re_import t draw now org actor replace id d t' : imports = true -> reachable t ->
    importDashboard draw now org actor replace id d t = Some t' -> reachable t'.
End reachable.

(** *** Every table the handlers leave *)

Lemma row_items_ok t t' r f : row_ok t r -> (items_ok t (rw_OrganizationID r) (rw_Items r) -> items_ok t' (rw_OrganizationID r) (f (rw_Items r))) ->
  row_ok t' (with_items f r).
Proof. intros [] H. constructor; try done. by apply H. Qed.
Lemma rows_consistent t t' f : consistent t -> t_dashboards t' = f <$> t_dashboards t ->
  (forall r, rw_ID (f r) = rw_ID r /\ rw_OrganizationID (f r) = rw_OrganizationID r /\ rw_IsDefault (f r) = rw_IsDefault r) ->
  (forall r, row_ok t r -> row_ok t' (f r)) -> consistent t'.
Proof.
  intros [H1 H2 H3] Ht Hf Hok. split; rewrite Ht.
  - rewrite <- list_fmap_compose. erewrite list_fmap_ext; [exact H1|]. intros i r _. apply Hf.
  - intros r s (r' & -> & Hr)%list_elem_of_fmap (s' & -> & Hs)%list_elem_of_fmap. destruct (Hf r') as (_ & -> & ->), (Hf s') as (_ & -> & ->).
    intros D1 D2 D3. f_equal. by apply H2.
  - apply Forall_fmap. eapply Forall_impl; [exact H3|]. exact Hok.
Qed.
Lemma more_consistent t t' : consistent t -> t_dashboards t' = t_dashboards t -> t_integrations t ⊆ t_integrations t' ->
  t_systems t ⊆ t_systems t' -> consistent t'.
Proof.
  intros H E Hi Hs. apply (rows_consistent t t' id); [done|by rewrite list_fmap_id|done|]. intros r []. constructor; try done.
  unfold id. destruct ro_items0 as [Hf Hn]. split; [|done]. eapply Forall_impl; [exact Hf|].
  intros i [Hp [(?&?&?&?&x&?&?)|[?|(?&?&?&?&x&?&?)]]]; (split; [done|]); [left|by right; left|right; right]; repeat split; try done; exists x; auto.
Qed.
(** Dropping what is gone: the items that stay pin what is left. *)
Lemma dropped_items_ok t t' org p l : (forall i, item_ok t org i -> p i = true -> item_ok t' org i) ->
  items_ok t org l -> items_ok t' org (List.filter p l).
Proof.
  intros H [Hf Hn]. split; [|by apply filterb_map_NoDup]. apply Forall_forall. intros i [Hi Hp]%filterb_elem.
  rewrite Forall_forall in Hf. by apply H; [apply Hf|].
Qed.

Lemma deleted_consistent org id t t' : consistent t -> Delete org id t = inr t' -> consistent t'.
Proof.
  intros [H1 H2 H3]. unfold Delete. destruct (Get _ _ _); [|done]. intros [= <-]. split; cbn [t_dashboards set_dashboards].
  - by apply filterb_map_NoDup.
  - intros u v [Hr _]%filterb_elem [Hs _]%filterb_elem. by apply H2.
  - apply Forall_forall. intros u [Hr _]%filterb_elem. rewrite Forall_forall in H3. destruct (H3 u Hr). by constructor.
Qed.

Lemma updateDashboard_inv uuid_Parse draw now by_position org a path body d t' t :
  updateDashboard uuid_Parse draw now by_position org a path body t = inr (d, t') ->
  exists id q r row, uuid_Parse path = Some id /\ body = Some q /\ Get org id t = Some r /\ canSeeDashboard r a = true /\ canManageDashboard r a = true /\
    Update uuid_Parse draw now org id None q t = inr (row, t') /\ d = to_wire by_position true row.
Proof.
  unfold updateDashboard, requireManageDashboard. destruct (uuid_Parse path) as [id|]; [|done]. destruct (Get org id t) as [r|] eqn:Eg; [|done].
  destruct (canSeeDashboard r a) eqn:E1; [|done]. destruct (canManageDashboard r a) eqn:E2; [|done]. cbn.
  destruct body as [q|]; [|done]. destruct (Update _ _ _ _ _ _ _ _) as [|[row t1]] eqn:Eu; [done|]. intros [= <- <-]. by exists id, q, r, row.
Qed.

Lemma dashboards_reachable_consistent uuid_Parse by_position t : reachable uuid_Parse by_position false t -> consistent t.
Proof.
  induction 1 as [id now ints sys grps|t draw now org id a body d t' _ IH Hid H|t draw now org path a body d t' _ IH H|t org path a t' _ IH H
    |t id _ IH|t id org _ IH|t id org _ IH|t id _ IH|t id _ IH|t id _ IH|t draw now org actor replace id d t' Hf]; [..|done].
  - split; cbn [t_dashboards].
    + apply NoDup_singleton.
    + by intros r s ->%list_elem_of_singleton ->%list_elem_of_singleton.
    + apply Forall_singleton. constructor; try done.
      * split; [by compute|]. apply longer_false. by_compute.
      * split; [apply NoDup_nil; done|]. split; [cbn; lia|constructor].
      * split; [constructor|apply NoDup_nil; done].
  - unfold createDashboard in H. destruct body as [r|]; [|done]. apply err_bind_inr in H as (_ & _ & H). case_match; [done|].
    destruct (Create _ _ _ _ _ _ _ _) as [|[row t1]] eqn:E; [done|]. injection H as _ <-. by eapply created_consistent.
  - apply updateDashboard_inv in H as (id & q & r & row & _ & _ & _ & _ & _ & H & _). by eapply Update_consistent.
  - unfold deleteDashboard in H. destruct (uuid_Parse path) as [id|]; [|done]. apply err_bind_inr in H as (_ & _ & H).
    destruct (Delete _ _ _) eqn:E; [done|]. injection H as <-. by eapply deleted_consistent.
  - eapply more_consistent; [exact IH|done..| |]; cbn; [by apply list_subseteq_cons|done].
  - eapply more_consistent; [exact IH|done..| |]; cbn; [done|by apply list_subseteq_cons].
  - by eapply more_consistent.
  - eapply rows_consistent; [exact IH|reflexivity|done|]. intros r Hr. apply (row_items_ok t); [done|]. apply dropped_items_ok.
    intros i [Hp [(?&?&?&?&x&Hx&?)|[?|?]]] Hn; (split; [done|]); [left|by right; left|by right; right]. repeat split; try done. exists x.
    split; [done|]. apply filterb_elem. split; [done|]. unfold not_in in Hn. rewrite Hx in Hn. apply negb_true_iff, bool_decide_eq_false in Hn.
    apply negb_true_iff, String.eqb_neq. congruence.
  - eapply rows_consistent; [exact IH|reflexivity|done|]. intros r Hr. apply (row_items_ok t); [done|]. apply dropped_items_ok.
    intros i [Hp [?|[?|(?&?&?&?&x&Hx&?)]]] Hn; (split; [done|]); [by left|by right; left|right; right]. repeat split; try done. exists x.
    split; [done|]. apply filterb_elem. split; [done|]. unfold not_in in Hn. rewrite Hx in Hn. apply negb_true_iff, bool_decide_eq_false in Hn.
    apply negb_true_iff, String.eqb_neq. cbn. congruence.
  - eapply rows_consistent; [exact IH|reflexivity|done|]. intros r []. by constructor.
Qed.

(** *** Rows the import wrote *)

Lemma item_ok_sound t org i : item_ok t org i -> item_sound t i.
Proof.
  intros [P H]. split; [done|]. destruct H as [(K&N&S&W&x&I&Hx)|[(K&I&S&W&_)|(K&I&N&W&x&S&Hx)]].
  - split; [apply elem_of_app; left; by apply bool_decide_eq_true in W|]. left. repeat split; try done. by exists x.
  - rewrite W. split; [by apply (bool_decide_unpack _)|]. right; left. done.
  - rewrite W. split; [by apply (bool_decide_unpack _)|]. right; right. repeat split; try done. exists x. split; [done|].
    change x with (x, org).1. by apply list_elem_of_fmap_2.
Qed.
Lemma items_ok_sound t org l : items_ok t org l -> Forall (item_sound t) l /\ NoDup (pin <$> l).
Proof. intros [H1 H2]. split; [|done]. eapply Forall_impl; [exact H1|]. intros i. apply item_ok_sound. Qed.

Lemma importItems_sound draw now t before l out : Forall (item_sound t) before /\ NoDup (pin <$> before) /\ Forall (fun i => it_SystemID i = None) before ->
  importItems draw now t before l = Some out -> Forall (item_sound t) out /\ NoDup (pin <$> out).
Proof.
  revert before. induction l as [|i l IH]; intros before (H1 & H2 & H3); cbn [importItems]; [by intros [= <-]|].
  destruct (item_allowed t before i) eqn:E; [|done]. apply IH. unfold item_allowed in E.
  apply andb_true_iff in E as [[[[Es Ew]%andb_true_iff Ei]%andb_true_iff Ef]%andb_true_iff En]. apply bool_decide_eq_true in Ew.
  split; [|split].
  - apply Forall_app. split; [done|]. apply Forall_singleton. split; [done|]. split; [done|]. unfold shape_ok in Es. cbn.
    apply orb_true_iff in Es as [[[Ek E1]%andb_true_iff E2]%andb_true_iff|[[[Ek E1]%andb_true_iff E2]%andb_true_iff E3]%andb_true_iff];
      apply String.eqb_eq in Ek.
    + left. destruct (bi_Integration i) as [x|]; [|done]. destruct (bi_SystemName i); [done|]. apply bool_decide_eq_true in Ef.
      repeat split; try done. by exists x.
    + right; left. destruct (bi_Integration i); [done|]. by bool_prop.
  - rewrite fmap_app. apply NoDup_app. split; [done|]. split; [|apply NoDup_singleton]. intros x Hx ->%list_elem_of_singleton.
    apply list_elem_of_fmap in Hx as (y & Ey & Hy). apply negb_true_iff, bool_decide_eq_false in En. apply En.
    injection Ey as E1 E2 _. apply list_elem_of_fmap. exists y. by rewrite E1, E2.
  - apply Forall_app. split; [done|]. by apply Forall_singleton.
Qed.

Lemma sound_rows t t' f : sound t -> t_dashboards t' = f <$> t_dashboards t -> (forall r, r ∈ t_dashboards t -> rw_ID (f r) = rw_ID r) ->
  (forall r, row_sound t r -> row_sound t' (f r)) -> sound t'.
Proof.
  intros [H1 H2] Ht Hf Hok. split; rewrite Ht.
  - rewrite <- list_fmap_compose. erewrite list_fmap_ext; [exact H1|]. intros i r Hr. apply Hf. by eapply list_elem_of_lookup_2.
  - apply Forall_fmap. eapply Forall_impl; [exact H2|]. exact Hok.
Qed.
Lemma sound_same t t' : t_integrations t' = t_integrations t -> t_systems t' = t_systems t -> forall r, row_sound t r -> row_sound t' r.
Proof. intros E1 E2 r [W P [F N]]. split; [done|done|]. split; [|done]. eapply Forall_impl; [exact F|]. intros i. unfold item_sound. by rewrite E1, E2. Qed.
Lemma dashboards_sound_snoc t r : sound t -> rw_ID r ∉ rw_ID <$> t_dashboards t -> row_sound t r -> sound (set_dashboards (t_dashboards t ++ [r]) t).
Proof.
  intros [H1 H2] Hid Hr. split; cbn [t_dashboards set_dashboards].
  - rewrite fmap_app. apply NoDup_app. split; [done|]. split; [|apply NoDup_singleton]. by intros x Hx ->%list_elem_of_singleton.
  - apply Forall_app. split; [|apply Forall_singleton; by apply (sound_same t)]. eapply Forall_impl; [exact H2|]. by apply sound_same.
Qed.
Lemma dashboards_sound_filter t f : sound t -> sound (set_dashboards (List.filter f (t_dashboards t)) t).
Proof.
  intros [H1 H2]. split; cbn [t_dashboards set_dashboards]; [by apply filterb_map_NoDup|]. rewrite Forall_forall in H2.
  apply Forall_forall. intros r [Hr _]%filterb_elem. apply (sound_same t); [done|done|]. by apply H2.
Qed.

Lemma created_sound uuid_Parse draw now org id r t row t' : sound t -> id ∉ rw_ID <$> t_dashboards t ->
  Create uuid_Parse draw now org id None r t = inr (row, t') -> sound t'.
Proof.
  intros H Hid. unfold Create. destruct (request_Validate _ _) as [|rule] eqn:Ev; [done|].
  destruct (cleanEnvironments _) as [|envs]; [done|]. destruct (int4 _) eqn:Ei; [|done]. cbn [negb].
  intros E. apply err_bind_inr in E as (items & Hi & E). injection E as _ <-. apply (request_items_ok _ _ _ _ _ _ _ _ Ev) in Hi.
  apply request_inv in Ev as (_ & V2 & _). set (l := if dq_IsDefault r then _ else _).
  assert (Hl : sound (set_dashboards l t)).
  { subst l. destruct (dq_IsDefault r); [|by destruct t]. unfold clearDefaults. eapply sound_rows; [exact H|reflexivity| |].
    - intros s _. cbv beta. by destruct (clears _ _ _ s).
    - intros s Hs. apply (sound_same t); [done|done|]. cbv beta. destruct (clears _ _ _ s); [by destruct Hs|done]. }
  assert (Hids : rw_ID <$> l = rw_ID <$> t_dashboards t).
  { subst l. destruct (dq_IsDefault r); [|done]. unfold clearDefaults. rewrite <- list_fmap_compose. apply list_fmap_ext. intros i s _. cbn. by destruct (clears _ _ _ s). }
  set (row0 := {| rw_ID := id; rw_OrganizationID := _; rw_OwnerUserID := _; rw_Name := _; rw_IsDefault := _; rw_AutoIncludeAll := _; rw_DefaultWidgetType := _;
    rw_Position := _; rw_GroupID := _; rw_Environments := _; rw_IncludeRule := _; rw_Items := _; rw_CreatedAt := _; rw_UpdatedAt := _ |}).
  apply (dashboards_sound_snoc (set_dashboards l t) row0 Hl); [cbn; by rewrite Hids|]. apply (sound_same t); [done|done|]. split; [done|done|]. by apply items_ok_sound in Hi.
Qed.
Lemma updated_sound uuid_Parse draw now org id q t row t' : sound t -> Update uuid_Parse draw now org id None q t = inr (row, t') -> sound t'.
Proof.
  intros H (rule & envs & items & r & V & _ & I & P & _ & _ & ->)%Update_inv. pose proof (request_items_ok _ _ _ _ _ _ _ _ V I) as HI.
  apply request_inv in V as (_ & V2 & _). apply items_ok_sound in HI. eapply sound_rows; [exact H|reflexivity| |].
  - intros s _. cbv beta zeta. by destruct (_ && _); case_if.
  - intros s Hs. apply (sound_same t); [done|done|]. cbv beta zeta.
    assert (Hu : row_sound t (if dq_IsDefault q && clears org None (Some id) s then undefault now s else s)) by (destruct (_ && _); [by destruct Hs|done]).
    revert Hu. generalize (if dq_IsDefault q && clears org None (Some id) s then undefault now s else s). intros u Hu. case_if; [|done]. by split.
Qed.
Lemma imported_sound draw now org actor replace id d t t' : sound t -> importDashboard draw now org actor replace id d t = Some t' -> sound t'.
Proof.
  intros H. unfold importDashboard. destruct (_ && _) eqn:E; [|done]. apply andb_true_iff in E as [Ew Ep]. cbn [negb].
  destruct (importItems _ _ _ _ _) as [items|] eqn:Ei; [|done]. apply importItems_sound in Ei; [|by split; [constructor|split; [apply NoDup_nil|constructor]]].
  intros E. destruct (List.filter _ _).
  - case_bool_decide as Hid; [done|]. injection E as <-. apply dashboards_sound_snoc; [done|done|]. by split.
  - destruct (_ && _); [|done]. injection E as <-. eapply sound_rows; [exact H|reflexivity| |].
    + intros s _. cbv beta. destruct (is_row org id s) eqn:Er; [|done]. unfold is_row in Er. bool_prop. by cbn.
    + intros s Hs. apply (sound_same t); [done|done|]. cbv beta. case_if; [by split|done].
Qed.

(** Items dropped with what they pin. *)
Lemma sound_dropped t t' f : (forall i, item_sound t i -> f i = true -> item_sound t' i) -> t_dashboards t' = with_items (List.filter f) <$> t_dashboards t ->
  sound t -> sound t'.
Proof.
  intros H Ht Hs. eapply sound_rows; [exact Hs|exact Ht|done|]. intros r [W P [F N]]. split; [done|done|]. cbn. split; [|by apply filterb_map_NoDup].
  rewrite Forall_forall in F. apply Forall_forall. intros i [Hi Hf]%filterb_elem. by apply H; [apply F|].
Qed.
Lemma sound_more t t' : sound t -> t_dashboards t' = t_dashboards t -> t_integrations t ⊆ t_integrations t' -> t_systems t ⊆ t_systems t' -> sound t'.
Proof.
  intros H E Hi Hs. apply (sound_rows t t' id); [done|by rewrite list_fmap_id|done|]. intros r [W P [F N]]. split; [done|done|]. split; [|done].
  eapply Forall_impl; [exact F|]. intros i (?&?&[(?&?&?&x&?&?)|[?|(?&?&?&?&x&?&((y & z) & -> & ?)%list_elem_of_fmap)]]); (split; [done|]); (split; [done|]).
  - left. repeat split; try done. exists x. auto.
  - by right; left.
  - right; right. repeat split; try done. exists y. split; [done|]. change y with (y, z).1. apply list_elem_of_fmap_2. by apply Hs.
Qed.

Lemma dashboards_reachable_sound uuid_Parse by_position imports t : reachable uuid_Parse by_position imports t -> sound t.
Proof.
  induction 1 as [id now ints sys grps|t draw now org id a body d t' _ IH Hid H|t draw now org path a body d t' _ IH H|t org path a t' _ IH H
    |t id _ IH|t id org _ IH|t id org _ IH|t id _ IH|t id _ IH|t id _ IH|t draw now org actor replace id d t' _ _ IH H].
  - split; cbn [t_dashboards]; [apply NoDup_singleton|]. apply Forall_singleton. split; [done|done|]. split; [constructor|apply NoDup_nil; done].
  - unfold createDashboard in H. destruct body as [r|]; [|done]. apply err_bind_inr in H as (_ & _ & H). case_match; [done|].
    destruct (Create _ _ _ _ _ _ _ _) as [|[row t1]] eqn:E; [done|]. injection H as _ <-. by eapply created_sound.
  - apply updateDashboard_inv in H as (id & q & r & row & _ & _ & _ & _ & _ & H & _). by eapply updated_sound.
  - unfold deleteDashboard in H. destruct (uuid_Parse path) as [id|]; [|done]. apply err_bind_inr in H as (_ & _ & H).
    destruct (Delete _ _ _) eqn:E; [done|]. injection H as <-. unfold Delete in E. destruct (Get _ _ _); [|done]. injection E as <-. by apply dashboards_sound_filter.
  - eapply sound_more; [exact IH|done..| |]; cbn; [by apply list_subseteq_cons|done].
  - eapply sound_more; [exact IH|done..| |]; cbn; [done|by apply list_subseteq_cons].
  - by eapply sound_more.
  - eapply sound_dropped; [|reflexivity|exact IH]. intros i (Hp & Hw & [(?&?&?&x&Hx&?)|[?|?]]) Hn; (split; [done|]); (split; [done|]); [left|by right; left|by right; right].
    repeat split; try done. exists x. split; [done|]. apply filterb_elem. split; [done|]. unfold not_in in Hn. rewrite Hx in Hn.
    apply negb_true_iff, bool_decide_eq_false in Hn. apply negb_true_iff, String.eqb_neq. congruence.
  - eapply sound_dropped; [|reflexivity|exact IH]. intros i (Hp & Hw & [?|[?|(?&?&?&?&x&Hx&((y & z) & -> & ?)%list_elem_of_fmap)]]) Hn;
      (split; [done|]); (split; [done|]); [by left|by right; left|right; right].
    repeat split; try done. exists y. split; [done|]. change y with (y, z).1. apply list_elem_of_fmap_2. apply filterb_elem. split; [done|].
    unfold not_in in Hn. rewrite Hx in Hn. apply negb_true_iff, bool_decide_eq_false in Hn. apply negb_true_iff, String.eqb_neq. cbn in Hn |- *. congruence.
  - eapply sound_rows; [exact IH|reflexivity|done|]. intros r [W P I]. by split.
  - by eapply imported_sound.
Qed.

(** C13. Whatever requests are made, by whomever, and whatever integrations, systems,
    teams and bundles come and go: identifiers are distinct, a dashboard's position and
    widget are in order, and every item pins one integration or system, none of them
    twice, that exists where it is named by its identifier.  As long as no bundle is
    imported, an organization also has at most one default dashboard, names,
    environments and rules are in order, and a pinned system is of the dashboard's
    organization. *)
Theorem tables_stay_consistent uuid_Parse by_position imports t :
  reachable uuid_Parse by_position imports t -> sound t /\ (imports = false -> consistent t).
Proof. intros H. split; [by eapply dashboards_reachable_sound|]. intros ->. by eapply dashboards_reachable_consistent. Qed.

(** *** Who changes what *)

Lemma list_elem org a by_position t e : e ∈ listDashboards by_position org a t <->
  exists r, r ∈ t_dashboards t /\ rw_OrganizationID r = org /\ canSeeDashboard r a = true /\ e = to_wire by_position (canManageDashboard r a) r.
Proof.
  unfold listDashboards. rewrite list_elem_of_fmap. split.
  - intros (r & -> & [[Hr Ho]%filterb_elem Hs]%filterb_elem). bool_prop. by exists r.
  - intros (r & Hr & Ho & Hs & ->). exists r. split; [done|]. rewrite !filterb_elem. split; [|done]. split; [done|]. by apply String.eqb_eq.
Qed.

(** A row after an update of [id]: the row itself keeps its identity, its
    team and its owner; another row may only lose the default flag, and only in
    the same organization. *)
Definition after_update (org id now : string) (s s' : Row) : Prop :=
  if is_row org id s then rw_ID s' = rw_ID s /\ rw_OrganizationID s' = rw_OrganizationID s /\ rw_GroupID s' = rw_GroupID s /\
    rw_OwnerUserID s' = rw_OwnerUserID s /\ rw_CreatedAt s' = rw_CreatedAt s
  else s' = s \/ (s' = undefault now s /\ rw_OrganizationID s = org /\ rw_IsDefault s = true).
Definition manages (a : Access) (r : Row) : Prop :=
  ax_orgWrite a = true \/
  (ax_scopeCapped a = false /\ exists g role, rw_GroupID r = Some g /\ omap_get g (ax_roles a) = Some role /\ CanWrite role = true).

Lemma canManage_manages r a : canManageDashboard r a = true <-> manages a r.
Proof.
  unfold canManageDashboard, canManageTeamScoped, manages. destruct (ax_orgWrite a); [split; [by left|done]|].
  destruct (ax_scopeCapped a); [split; [done|by intros [?|[? _]]]|]. split.
  - destruct (rw_GroupID r) as [g|]; [|done]. destruct (omap_get g _) as [role|] eqn:E; [|done]. intros H. right. split; [done|]. by exists g, role.
  - by intros [?|[_ (g & role & -> & -> & ?)]].
Qed.

(** C40. A request that changes a dashboard, or deletes one, is granted only to an
    editor of the organization, or to an editor of the dashboard's team with a
    token whose scope is not cut down; it changes that dashboard, which keeps its
    team, and takes the default flag from others of the organization. *)
Theorem only_managers_change uuid_Parse draw now by_position org a path t :
  (forall body d t', updateDashboard uuid_Parse draw now by_position org a path body t = inr (d, t') ->
     exists id r, uuid_Parse path = Some id /\ Get org id t = Some r /\ manages a r /\ da_id d = id /\
       Forall2 (after_update org id now) (t_dashboards t) (t_dashboards t')) /\
  (forall t', deleteDashboard uuid_Parse org a path t = inr t' ->
     exists id r, uuid_Parse path = Some id /\ Get org id t = Some r /\ manages a r /\
       t_dashboards t' = List.filter (fun s => negb (is_row org id s)) (t_dashboards t)).
Proof.
  split.
  - intros body d t' H. apply updateDashboard_inv in H as (id & q & r & row & Hp & _ & Hg & _ & Hm & Hu & ->).
    apply canManage_manages in Hm. exists id, r. do 3 (split; [done|]).
    apply Update_inv in Hu as (rule & envs & items & r' & _ & _ & _ & _ & Hg' & -> & ->).
    split; [by apply Get_inv in Hg' as (_ & _ & ?)|]. cbn [t_dashboards set_dashboards]. apply Forall2_fmap_r, Forall_Forall2_diag, Forall_forall.
    intros s _. unfold after_update, compose. cbv beta zeta.
    assert (Hr : forall b : bool, is_row org id (if b then undefault now s else s) = is_row org id s) by by intros [].
    rewrite Hr. destruct (is_row org id s); [by destruct (_ && _)|]. destruct (_ && _) eqn:E; [|by left]. right. split; [done|].
    apply andb_true_iff in E as [_ E]. unfold clears in E. by bool_prop.
  - intros t' H. unfold deleteDashboard, requireManageDashboard in H. destruct (uuid_Parse path) as [id|]; [|done].
    destruct (Get org id t) as [r|] eqn:Eg; [|done]. destruct (canSeeDashboard r a); [|done]. destruct (canManageDashboard r a) eqn:E; [|done].
    cbn in H. unfold Delete in H. rewrite Eg in H. injection H as <-. apply canManage_manages in E. by exists id, r.
Qed.

(** The default that is saved is the only one. *)
Lemma updated_default uuid_Parse draw now org id q t row t' : consistent t -> Update uuid_Parse draw now org id None q t = inr (row, t') ->
  dq_IsDefault q = true ->
  row ∈ t_dashboards t' /\ rw_OrganizationID row = org /\ rw_ID row = id /\ rw_IsDefault row = true /\
  forall s, s ∈ t_dashboards t' -> rw_OrganizationID s = org -> rw_IsDefault s = true -> s = row.
Proof.
  intros Hc Hu Hq. pose proof (Update_consistent _ _ _ _ _ _ _ _ _ Hc Hu) as Hc'. destruct Hc as [N _ _].
  apply Update_inv in Hu as (rule & envs & items & r' & _ & _ & _ & _ & Hg & -> & Ht). set (row := replaced now q rule envs items r') in *.
  apply Get_inv in Hg as (G1 & G2 & G3).
  assert (Hr : row ∈ t_dashboards t').
  { rewrite Ht. cbn [t_dashboards set_dashboards]. apply list_elem_of_fmap. exists r'. split; [|done]. cbv zeta.
    assert (Hi : is_row org id r' = true) by (unfold is_row; by rewrite G2, G3, !String.eqb_refl).
    destruct (_ && _) eqn:E; [|by rewrite Hi]. exfalso. apply andb_true_iff in E as [_ E]. unfold clears in E. rewrite G3 in E.
    rewrite (bool_decide_true (Some id = Some id)), andb_false_r in E by done. done. }
  do 4 (split; [done|]). intros s Hs Ho Hd. apply (cs_default _ Hc'); try done. rewrite Ho. by symmetry.
Qed.

(** Setting a dashboard as one's default sets it for the whole organization:
    nobody sees another default, and whoever does not see this one has none. *)
Theorem default_is_everyones uuid_Parse draw now by_position org a path q d t t' :
  consistent t -> updateDashboard uuid_Parse draw now by_position org a path (Some q) t = inr (d, t') -> dq_IsDefault q = true ->
  da_isDefault d = true /\
  forall b e, e ∈ listDashboards by_position org b t' ->
    (da_isDefault e = true -> da_id e = da_id d) /\
    ((forall r, Get org (da_id d) t' = Some r -> canSeeDashboard r b = false) -> da_isDefault e = false).
Proof.
  intros Hc H Hq. apply updateDashboard_inv in H as (id & q' & r & row & _ & [= <-] & _ & _ & _ & Hu & ->).
  pose proof (Update_consistent _ _ _ _ _ _ _ _ _ Hc Hu) as Hc'.
  destruct (updated_default _ _ _ _ _ _ _ _ _ Hc Hu Hq) as (R1 & R2 & R3 & R4 & Hone).
  split; [done|]. intros b e (s & Hs & Ho & Hsee & ->)%list_elem. split; [by intros ->%Hone|].
  intros Hno. destruct (rw_IsDefault s) eqn:Ed; [|done]. rewrite (Hone s) in Hsee by done.
  rewrite (Hno row) in Hsee; [done|]. cbn [da_id to_wire]. apply (Get_row org _ t' row); [apply Hc'|done|].
  unfold is_row. by rewrite R2, !String.eqb_refl.
Qed.

(** *** Sending a dashboard back *)

(** What [json.Decode] makes of an item the page sends. *)
Definition decode_item (q : DashboardItemRequest) : ItemRequest := {|
  iq_EntityKind := given (dq_entityKind q); iq_IntegrationID := given (dq_integrationId q); iq_SystemName := given (dq_systemName q);
  iq_SystemID := given (dq_systemId q); iq_WidgetType := dq_widgetType q; iq_Position := dq_position q |}.
Definition resent (i : Item) : ItemRequest := decode_item (toItemRequest (item_to_wire i)).
(** Two items that differ in their identifier and date. *)
Definition same_item (a b : Item) : Prop :=
  it_EntityKind a = it_EntityKind b /\ pin a = pin b /\ it_WidgetType a = it_WidgetType b /\ it_Position a = it_Position b.
(** The identifiers of the database are in canonical form. *)
Definition canonical (uuid_Parse : string -> option string) (t : Tables) : Prop :=
  (forall id, id ∈ t_integrations t -> uuid_Parse id = Some id) /\
  (forall id org, (id, org) ∈ t_systems t -> uuid_Parse id = Some id /\ TrimSpace id = id).

Lemma valid_widget w : IsValidWidgetType w = true -> w <> "" /\ w ∈ AllWidgetTypes ++ [WidgetSystemHealth].
Proof.
  intros H. split; [intros ->; by vm_compute in H|]. apply bool_decide_eq_true in H. apply elem_of_app. by left.
Qed.
Lemma nonempty_id s d : s <> "" -> nonempty s d = s.
Proof. unfold nonempty. intros H%String.eqb_neq. by rewrite H. Qed.

Section repost.
Context (uuid_Parse : string -> option string) (draw : nat -> string) (now org : string) (t : Tables) (Hcan : canonical uuid_Parse t).

Lemma resent_valid i : item_ok t org i -> item_Validate uuid_Parse (resent i) = inr tt.
Proof.
  destruct i as [id kind int name sys widget pos created]. destruct Hcan as [H1 H2].
  intros [_ [(K&N&S&W&x&I&Hx)|[(K&I&S&W&N&T)|(K&I&N&W&x&S&Hx)]]]; cbn in *; subst; unfold item_Validate, resent, item_kind; cbn.
  - rewrite (H1 x Hx). destruct (valid_widget _ W) as [Hw _]. rewrite (nonempty_id _ _ Hw). by rewrite W.
  - rewrite given_omit, T. apply String.eqb_neq in N. by rewrite N.
  - destruct (H2 x org Hx) as [E1 E2]. by rewrite E2, E1.
Qed.
Lemma resent_row n i : item_ok t org i -> exists i', item_row uuid_Parse draw now org t n (resent i) = inr i' /\ same_item i i'.
Proof.
  destruct i as [id kind int name sys widget pos created]. destruct Hcan as [H1 H2].
  intros [_ [(K&N&S&W&x&I&Hx)|[(K&I&S&W&N&T)|(K&I&N&W&x&S&Hx)]]]; cbn in *; subst; unfold item_row, resent, item_kind; cbn.
  - rewrite (H1 x Hx). destruct (valid_widget _ W) as [Hw _]. rewrite (nonempty_id _ _ Hw). by eexists.
  - rewrite given_omit, T. apply String.eqb_neq in N. rewrite N. by eexists.
  - destruct (H2 x org Hx) as [E1 E2]. rewrite E2, E1, bool_decide_true by done. by eexists.
Qed.
Lemma constraints_hold before i : Forall (item_ok t org) before -> item_ok t org i -> pin i ∉ pin <$> before -> constraints_ok t before i = true.
Proof.
  intros Hb Hi Hn. rewrite Forall_forall in Hb.
  assert (Hne : forall b, b ∈ before -> pin b = pin i -> False) by (intros b Hin E; apply Hn; rewrite <- E; by apply list_elem_of_fmap_2).
  unfold constraints_ok, is_some_in. destruct i as [id kind int name sys widget pos created].
  destruct Hi as [P [(K&N&S&W&x&I&Hx)|[(K&I&S&W&N&T)|(K&I&N&W&x&S&Hx)]]]; cbn in *; subst; rewrite P.
  - rewrite bool_decide_true by done. rewrite bool_decide_false.
    2:{ intros (b & E & Hin)%list_elem_of_fmap. apply (Hne b Hin). unfold pin. cbn. rewrite <- E.
        destruct (Hb b Hin) as [_ [(_ & -> & -> & _)|[(_ & E' & _)|(_ & E' & _)]]]; [done|by rewrite E' in E|by rewrite E' in E]. }
    destruct (valid_widget _ W) as [_ Hw]. by rewrite (bool_decide_true _ Hw).
  - rewrite (proj2 (String.eqb_neq _ _) N). rewrite bool_decide_false; [by compute|].
    intros (b & E & Hin)%list_elem_of_fmap. apply (Hne b Hin). unfold pin. cbn. rewrite <- E.
    destruct (Hb b Hin) as [_ [(_ & E' & _)|[(_ & -> & -> & _)|(_ & _ & E' & _)]]]; [by rewrite E' in E|done|by rewrite E' in E].
  - rewrite (bool_decide_false (Some x ∈ it_SystemID <$> before)); [by compute|].
    intros (b & E & Hin)%list_elem_of_fmap. apply (Hne b Hin). unfold pin. cbn. rewrite <- E.
    destruct (Hb b Hin) as [_ [(_ & _ & E' & _)|[(_ & _ & E' & _)|(_ & -> & -> & _)]]]; [by rewrite E' in E|by rewrite E' in E|done].
Qed.
Lemma same_ok i i' : item_ok t org i -> same_item i i' -> item_ok t org i'.
Proof. unfold item_ok, same_item, pin. intros H (E1 & [= E2 E3 E4] & E5 & E6). by rewrite <- E1, <- E2, <- E3, <- E4, <- E5, <- E6. Qed.
Lemma same_pins l l' : Forall2 same_item l l' -> pin <$> l = pin <$> l'.
Proof. induction 1 as [|a b l l' (_ & E & _) _ IH]; [done|]. cbn. by rewrite E, IH. Qed.

Lemma repost_from l before0 before : items_ok t org (before0 ++ l) -> Forall2 same_item before0 before ->
  exists out, insertItems uuid_Parse draw now org t before (resent <$> l) = inr out /\ Forall2 same_item (before0 ++ l) out.
Proof.
  revert before0 before. induction l as [|i l IH]; intros before0 before Hok Hs; cbn [fmap list_fmap DashboardServer.insertItems].
  { exists before. by rewrite app_nil_r. }
  destruct Hok as [Hf Hn]. assert (Hi : item_ok t org i) by (rewrite Forall_forall in Hf; apply Hf, elem_of_app; right; in_cons).
  destruct (resent_row (length before) i Hi) as (i' & E & Hi'). rewrite E. cbn.
  assert (Hok' : item_ok t org i') by by eapply same_ok.
  rewrite constraints_hold; [|clear IH| done|].
  - destruct (IH (before0 ++ [i]) (before ++ [i'])) as (out & E1 & E2).
    + rewrite <- app_assoc. by split.
    + apply Forall2_app; [done|by constructor; [|constructor]].
    + exists out. split; [done|]. by rewrite <- app_assoc in E2.
  - apply Forall_app in Hf as [Hf _]. apply Forall_forall. intros b (k & Hk)%list_elem_of_lookup.
    destruct (Forall2_lookup_r _ _ _ _ _ Hs Hk) as (a & Ha & Hab). eapply same_ok; [|exact Hab]. rewrite Forall_forall in Hf.
    apply Hf. by eapply list_elem_of_lookup_2.
  - rewrite <- (same_pins _ _ Hs). destruct Hi' as (_ & <- & _). rewrite fmap_app, fmap_cons in Hn. apply NoDup_app in Hn as (_ & Hn & _).
    intros H. apply (Hn _ H). by left.
Qed.
Lemma repost_items l : items_ok t org l -> exists out, insertItems uuid_Parse draw now org t [] (resent <$> l) = inr out /\ Forall2 same_item l out.
Proof. intros H. by apply (repost_from l [] []). Qed.
End repost.

(** ** Instances *)

Definition plain_uuid (s : string) : option string := if (s =s "") || negb (TrimSpace s =s s) then None else Some s.
Definition ex_row (id name : string) (is_default : bool) (group : option string) : Row := {|
  rw_ID := id; rw_OrganizationID := "org"; rw_OwnerUserID := None; rw_Name := name; rw_IsDefault := is_default; rw_AutoIncludeAll := true;
  rw_DefaultWidgetType := "traffic_sparkline"; rw_Position := 0; rw_GroupID := group; rw_Environments := []; rw_IncludeRule := None;
  rw_Items := []; rw_CreatedAt := "2026-01-01"; rw_UpdatedAt := "2026-01-01" |}.
Definition ex_tables : Tables := {|
  t_dashboards := [ex_row "d1" "All integrations" true None; ex_row "d2" "Payments" false (Some "g1")];
  t_integrations := ["i1"]; t_systems := []; t_groups := [("g1", "org")] |}.
Definition team_editor : Access := {| ax_orgWrite := false; ax_scopeCapped := false; ax_roles := [("g1", "editor")] |}.
Definition org_viewer : Access := {| ax_orgWrite := false; ax_scopeCapped := false; ax_roles := [] |}.
Definition ex_request : DashboardRequest := {|
  dq_Name := "Payments"; dq_IsDefault := true; dq_AutoIncludeAll := true; dq_DefaultWidgetType := "traffic_sparkline"; dq_Position := 0;
  dq_Environments := []; dq_IncludeRule := None; dq_GroupID := None; dq_Items := [] |}.

Lemma ex_row_ok id name b g : TrimSpace name <> "" -> longer 200 name = false -> row_ok ex_tables (ex_row id name b g).
Proof.
  intros H1 H2%longer_false. constructor; try done.
  - split; [apply NoDup_nil; done|]. split; [cbn; lia|constructor].
  - split; [constructor|apply NoDup_nil; done].
Qed.
Lemma ex_consistent : consistent ex_tables.
Proof.
  split.
  - apply (bool_decide_unpack _). vm_compute. exact I.
  - cbn [t_dashboards ex_tables]. intros r s Hr Hs Dr Ds _.
    assert (H : forall x, x ∈ [ex_row "d1" "All integrations" true None; ex_row "d2" "Payments" false (Some "g1")] -> rw_IsDefault x = true ->
      x = ex_row "d1" "All integrations" true None).
    { intros x [->|[->|Hx%elem_of_nil]%elem_of_cons]%elem_of_cons; [done|by intros [=]|done]. }
    by rewrite (H r), (H s).
  - apply Forall_cons. split; [|apply Forall_singleton]; apply ex_row_ok; [by compute|by_compute|by compute|by_compute].
Qed.

(** A cell after its migration, a dashboard made with an item, and made the default. *)
Local Definition seed_org : string := "00000000-0000-0000-0000-000000000001".
Local Definition org_editor : Access := {| ax_orgWrite := true; ax_scopeCapped := false; ax_roles := [] |}.
Local Definition by_pos : list Item -> list Item := sort (cmp_by it_Position).
Local Definition migrated : Tables :=
  {| t_dashboards := [seeded "d1" "2026-01-01"]; t_integrations := ["i1"; "i2"]; t_systems := []; t_groups := [] |}.
Local Definition pinning (is_default : bool) (items : list ItemRequest) : DashboardRequest := {|
  dq_Name := "Payments"; dq_IsDefault := is_default; dq_AutoIncludeAll := false; dq_DefaultWidgetType := ""; dq_Position := 1;
  dq_Environments := [" prod"; "prod"]; dq_IncludeRule := None; dq_GroupID := None; dq_Items := items |}.
Local Definition pinned (id : string) : ItemRequest := {|
  iq_EntityKind := ""; iq_IntegrationID := id; iq_SystemName := ""; iq_SystemID := ""; iq_WidgetType := ""; iq_Position := 0 |}.
Local Definition posted := createDashboard plain_uuid (fun _ => "x") "t1" by_pos seed_org "d2" org_editor (Some (pinning false [pinned "i1"; pinned "i2"])) migrated.
Local Definition worked : Tables := match posted with
  | inr (_, t) => match updateDashboard plain_uuid (fun _ => "y") "t2" by_pos seed_org org_editor "d2" (Some (pinning true [pinned "i1"])) t with
                  | inr (_, t) => t | inl _ => migrated end
  | inl _ => migrated end.
Local Lemma worked_reachable imports : reachable plain_uuid by_pos imports worked.
Proof.
  destruct posted as [m|[d1 t1]] eqn:E1; [vm_compute in E1; discriminate E1|].
  destruct (updateDashboard plain_uuid (fun _ => "y") "t2" by_pos seed_org org_editor "d2" (Some (pinning true [pinned "i1"])) t1) as [m|[d2 t2]] eqn:E2.
  { vm_compute in E1. injection E1 as _ <-. vm_compute in E2. discriminate E2. }
  assert (E : worked = t2) by (unfold worked; by rewrite E1, E2). rewrite E. eapply re_update; [|exact E2]. eapply re_create; [| |exact E1].
  - apply (re_migrated plain_uuid by_pos imports "d1" "2026-01-01" ["i1"; "i2"] [] []).
  - apply (bool_decide_unpack _). by_compute.
Qed.

(** A bundle with a default dashboard, imported by [u1]. *)
Local Definition bundled : BundleDashboard := {|
  bd_Name := "On call"; bd_IsDefault := true; bd_AutoIncludeAll := true; bd_DefaultWidgetType := "error_count"; bd_Position := 0; bd_Group := None;
  bd_Items := []; bd_Environments := []; bd_IncludeRule := None |}.
Local Definition after_import : Tables := importDashboard (fun _ => "z") "t3" seed_org (Some "u1") false "d3" bundled worked ?? worked.
Local Lemma dashboards_import_reachable : reachable plain_uuid by_pos true after_import.
Proof.
  apply (re_import plain_uuid by_pos true worked (fun _ => "z") "t3" seed_org (Some "u1") false "d3" bundled); [done|apply worked_reachable|by_compute].
Qed.

(** The import leaves two defaults, and making another dashboard the default does not
    take the flag from the imported one, which has an owner. *)
Theorem import_leaves_default_dashboards :
  (rw_ID <$> List.filter rw_IsDefault (t_dashboards after_import)) = ["d2"; "d3"] /\ ~ consistent after_import /\
  match updateDashboard plain_uuid (fun _ => "y") "t4" by_pos seed_org org_editor "d1" (Some (pinning true [])) after_import with
  | inr (_, t) => rw_ID <$> List.filter rw_IsDefault (t_dashboards t)
  | inl _ => []
  end = ["d1"; "d3"].
Proof.
  split; [by_compute|]. split; [|by_compute]. intros [_ _ H]. rewrite Forall_forall in H.
  destruct (H (imported "t3" seed_org "d3" (Some "u1") "t3" bundled [])) as [E _ _ _ _ _ _]; [|done].
  assert (E : last (t_dashboards after_import) = Some (imported "t3" seed_org "d3" (Some "u1") "t3" bundled [])) by by_compute.
  apply last_Some in E as (l & ->). apply elem_of_app. right. by left.
Qed.

Lemma tables_stay_consistent_witness :
  (reachable plain_uuid by_pos false worked /\ consistent worked) /\ (reachable plain_uuid by_pos true after_import /\ sound after_import).
Proof.
  split; (split; [apply worked_reachable || exact dashboards_import_reachable|]).
  - by apply (tables_stay_consistent plain_uuid by_pos false worked (worked_reachable false)).
  - by apply (tables_stay_consistent plain_uuid by_pos true after_import dashboards_import_reachable).
Defined.

(** An editor of one team changes the team's dashboard, and deletes it. *)
Lemma only_managers_change_witness :
  (exists d t', updateDashboard plain_uuid (fun _ => "x") "now" by_pos "org" team_editor "d2" (Some ex_request) ex_tables = inr (d, t') /\
     exists id r, plain_uuid "d2" = Some id /\ Get "org" id ex_tables = Some r /\ manages team_editor r /\ da_id d = id /\
       Forall2 (after_update "org" id "now") (t_dashboards ex_tables) (t_dashboards t')) /\
  (exists t', deleteDashboard plain_uuid "org" team_editor "d2" ex_tables = inr t' /\
     exists id r, plain_uuid "d2" = Some id /\ Get "org" id ex_tables = Some r /\ manages team_editor r /\
       t_dashboards t' = List.filter (fun s => negb (is_row "org" id s)) (t_dashboards ex_tables)).
Proof.
  destruct (only_managers_change plain_uuid (fun _ => "x") "now" by_pos "org" team_editor "d2" ex_tables) as [Hu Hd]. split.
  - destruct (updateDashboard plain_uuid (fun _ => "x") "now" by_pos "org" team_editor "d2" (Some ex_request) ex_tables) as [m|[d t']] eqn:E;
      [vm_compute in E; discriminate E|]. exists d, t'. split; [reflexivity|]. by apply (Hu (Some ex_request) d t').
  - destruct (deleteDashboard plain_uuid "org" team_editor "d2" ex_tables) as [m|t'] eqn:E; [vm_compute in E; discriminate E|].
    exists t'. split; [reflexivity|]. by apply Hd.
Defined.

(** An editor of one team makes the team's dashboard the default, and a
    reader outside the team is left without one. *)
Lemma default_is_everyones_witness : exists d t',
  updateDashboard plain_uuid (fun _ => "x") "now" (sort (cmp_by it_Position)) "org" team_editor "d2" (Some ex_request) ex_tables = inr (d, t') /\
  (da_isDefault <$> listDashboards (sort (cmp_by it_Position)) "org" org_viewer ex_tables) = [true] /\
  (da_isDefault <$> listDashboards (sort (cmp_by it_Position)) "org" org_viewer t') = [false] /\
  forall e, e ∈ listDashboards (sort (cmp_by it_Position)) "org" org_viewer t' -> da_isDefault e = false.
Proof.
  destruct (updateDashboard plain_uuid (fun _ => "x") "now" (sort (cmp_by it_Position)) "org" team_editor "d2" (Some ex_request) ex_tables)
    as [m|[d t']] eqn:E; [vm_compute in E; discriminate|]. exists d, t'. split; [reflexivity|].
  destruct (default_is_everyones plain_uuid (fun _ => "x") "now" (sort (cmp_by it_Position)) "org" team_editor "d2" ex_request d ex_tables t'
    ex_consistent E eq_refl) as [_ H].
  assert (Ed : da_id d = "d2") by (vm_compute in E; injection E as <- _; reflexivity).
  split; [vm_compute; reflexivity|]. split; [vm_compute in E; injection E as _ <-; vm_compute; reflexivity|].
  intros e He. apply (H org_viewer e He). rewrite Ed. intros r Hr.
  vm_compute in E. injection E as _ <-. vm_compute in Hr. injection Hr as <-. reflexivity.
Defined.
