(* ===== verification/DashboardPage.v ===== *)
(** * The dashboard page

    pages/Health.tsx: the page that shows a dashboard and edits it.  What it draws
    (cards, systems, tabs, key figures), its editor (cards, environments, the rule
    that picks integrations), and the page itself as a machine over the requests it
    sends; with DashboardServer.v, what those requests do.

    Boards.v holds the order of the cards and the removal of one. *)

From S2P Require Import Prelude JsString JsArray Host Types Checks Environment Format RuleServer Boards DashboardServer.
From S2P Require Trim.

Local Open Scope char_scope.
Local Open Scope string_scope.
Local Open Scope list_scope.

(** ** Environments *)

(** [useKnownEnvironments]; a failed request also ends loaded. *)
Record KnownEnvironments := { ke_environments : list string; ke_production : list string; ke_loaded : bool }.
Definition unknown_environments : KnownEnvironments := {| ke_environments := []; ke_production := []; ke_loaded := false |}.
Definition knownEnvironments (r : option (list string * list string)) : KnownEnvironments :=
  match r with
  | Some (envs, production) => {| ke_environments := envs; ke_production := production; ke_loaded := true |}
  | None => {| ke_environments := []; ke_production := []; ke_loaded := true |}
  end.

Definition includes_token (l : list string) : bool := bool_decide (PRODUCTION_TOKEN ∈ l).
Definition is_nil {A} (l : list A) : bool := match l with [] => true | _ => false end.
Definition effectiveEnvs (viewEnv : option string) (envDashSource : list string) (known : KnownEnvironments) : list string :=
  match viewEnv with
  | Some e => [e]
  | None =>
      let expanded := expandProduction envDashSource (ke_production known) in
      if is_nil expanded && includes_token envDashSource then [PRODUCTION_TOKEN] else expanded
  end.
Definition waitingForRoles (viewEnv : option string) (envDashSource : list string) (known : KnownEnvironments) : bool :=
  (match viewEnv with None => true | Some _ => false end) && includes_token envDashSource && negb (ke_loaded known).
(** What is asked of [api.listIntegrations]: [env] and [environments]. *)
Definition asked_envs (envs : list string) : option (list string) := match envs with [] => None | _ => Some envs end.
Definition asked_rows (envs : list string) : bool := (1 <? length envs)%nat.

(** [DashboardEnvironmentsEditor]: the boxes, [None] when it shows nothing, and a
    click. *)
Definition add_known (names : list string) (e : string) : list string :=
  if negb (e =s PRODUCTION_TOKEN) && negb (bool_decide (e ∈ names)) then names ++ [e] else names.
Definition editor_boxes (known : KnownEnvironments) (value : list string) : option (list string) :=
  match foldl add_known (ke_environments known) value with
  | [] => None
  | names => Some (if negb (is_nil (ke_production known)) || includes_token value then PRODUCTION_TOKEN :: names else names)
  end.
Definition tick (e : string) (checked : bool) (value : list string) : list string :=
  if checked then value ++ [e] else List.filter (fun x => negb (x =s e)) value.

(** [EnvironmentSwitch]: the names offered, [None] when it shows nothing. *)
Definition switch_names (known : KnownEnvironments) (dashboardEnvs : list string) (viewEnv : option string) : option (list string) :=
  let names := foldl add_known (ke_environments known) (dashboardEnvs ++ match viewEnv with Some e => [e] | None => [] end) in
  if is_nil names || bool_decide (names = [""]) then None else Some names.
Definition own_label (dashboardEnvs : list string) : string :=
  match dashboardEnvs with [] => "all environments" | _ => join ", " (environmentLabel <$> dashboardEnvs) end.

(** ** What is drawn *)

(** components/primitives/pipForStatus.ts *)
Definition pipForStatus (status : option string) : string :=
  match status with
  | Some s => if s =s "ok" then "ok" else if s =s "quiet" then "muted"
              else if (s =s "errors") || (s =s "unhealthy") then "err" else "muted"
  | None => "muted"
  end.
Definition PIP_RANK (k : string) : Z := if k =s "err" then 3 else if k =s "warn" then 2 else if k =s "ok" then 1 else 0.
Definition dashboardPipTitle (kind : string) : string :=
  if kind =s "err" then "One or more integrations unhealthy or degraded"
  else if kind =s "warn" then "One or more integrations degraded"
  else if kind =s "ok" then "All integrations healthy" else "No active integrations".
Definition systemPip (status : option string) : string :=
  match status with
  | Some s => if s =s "unhealthy" then "err" else if s =s "errors" then "warn" else if s =s "quiet" then "muted"
              else if s =s "ok" then "ok" else "muted"
  | None => "muted"
  end.

(** The system services of the board, and the systems. *)
Record SystemCard := { sc_name : string; sc_summary : option ServiceSummary }.
Definition systemCards `{Host} (visibleSource : option Dashboard) (systems : list ServiceSummary) : list SystemCard :=
  let byName := omap_of ((fun s => (ss_service_name s, s)) <$> systems) in
  sort (byHealthThenName (fun c => ss_status <$> sc_summary c) sc_name)
    ((fun i => {| sc_name := di_systemName i ?? ""; sc_summary := omap_get (di_systemName i ?? "") byName |})
     <$> List.filter (fun i => di_entityKind i =s "system") ((da_items <$> visibleSource) ?? [])).
Record EntityCard := { ec_id : string; ec_system : option System }.
Definition entity_cards (visibleSource : option Dashboard) (systemEntities : list System) : list EntityCard :=
  let byId := omap_of ((fun s => (sy_id s, s)) <$> systemEntities) in
  (fun i => {| ec_id := di_systemId i ?? ""; ec_system := omap_get (di_systemId i ?? "") byId |})
  <$> List.filter (fun i => (di_entityKind i =s "system_entity") && truthy_opt (di_systemId i)) ((da_items <$> visibleSource) ?? []).
Definition can_edit (visibleSource : option Dashboard) : bool := (visibleSource ≫= da_canManage) ?? true.
Definition has_system (c : EntityCard) : bool := match ec_system c with Some _ => true | None => false end.
Definition systemEntityCards `{Host} (visibleSource : option Dashboard) (systemEntities : list System) : list EntityCard :=
  sort (byHealthThenName (fun c => ec_system c ≫= sy_status) (fun c => (sy_name <$> ec_system c) ?? ec_id c))
    (List.filter (fun c => has_system c || can_edit visibleSource) (entity_cards visibleSource systemEntities)).

(** The pip of a tab: the worst of the cards of the dashboard. *)
Definition worse (worst : string) (c : ComposedCard) : string :=
  let k := pipForStatus (i_status (cc_integration c)) in if (PIP_RANK worst <? PIP_RANK k)%Z then k else worst.
Definition dashboard_pip `{Host} (integrations : list Integration) (d : Dashboard) : string :=
  foldl worse "muted" (composeCards integrations (Some d)).
Definition statusByDashboard `{Host} (dashboards : list Dashboard) (integrations : list Integration) : list (string * string) :=
  omap_of ((fun d => (da_id d, dashboard_pip integrations d)) <$> dashboards).

(** [summariseSystems] and [summarise]; [successRate] is a numerator and a
    denominator. *)
Record SystemsSummary := { ys_total : Z; ys_running : Z; ys_ok : Z; ys_quiet : Z; ys_err : Z }.
Definition count_if {A} (p : A -> bool) (l : list A) : Z := Z.of_nat (length (List.filter p l)).
Definition status_is (s : string) (o : option string) : bool := bool_decide (o = Some s).
Definition failing (o : option string) : bool := status_is "errors" o || status_is "unhealthy" o.
Definition summariseSystems (systems : list System) : SystemsSummary :=
  let total := Z.of_nat (length systems) in
  let err := count_if (fun s => failing (sy_status s)) systems in {|
    ys_total := total; ys_running := total - err; ys_ok := count_if (fun s => status_is "ok" (sy_status s)) systems;
    ys_quiet := count_if (fun s => status_is "quiet" (sy_status s)) systems; ys_err := err |}.

Record DashSummary := {
  ds_total : Z; ds_running : Z; ds_ok : Z; ds_quiet : Z; ds_err : Z; ds_messages : Z; ds_errors : Z; ds_delayed : Z;
  ds_delayedIntegrations : Z; ds_successRate : Z * Z; ds_messagesSeries : list Z }.
Fixpoint add_series (a b : list Z) : list Z :=
  match a, b with
  | [], _ => b
  | _, [] => a
  | x :: a, y :: b => (x + y)%Z :: add_series a b
  end.
Definition total_of {A} (f : A -> Z) (l : list A) : Z := foldl (fun n x => n + f x)%Z 0%Z l.
Definition summarise (ints : list Integration) : DashSummary :=
  let err := count_if (fun i => failing (i_status i)) ints in
  let messages := total_of (fun i => i_trace_count i ?? 0%Z) ints in
  let errors := total_of (fun i => i_error_trace_count i ?? 0%Z) ints in
  let delayed := total_of (fun i => i_delayed_trace_count i ?? 0%Z) ints in
  let total := Z.of_nat (length ints) in {|
    ds_total := total; ds_running := total - err; ds_ok := count_if (fun i => status_is "ok" (i_status i)) ints;
    ds_quiet := count_if (fun i => status_is "quiet" (i_status i)) ints; ds_err := err; ds_messages := messages; ds_errors := errors;
    ds_delayed := delayed; ds_delayedIntegrations := count_if (fun i => 0 <? i_delayed_trace_count i ?? 0)%Z ints;
    ds_successRate := (if (0 <? messages)%Z then (Z.max 0 (messages - (errors + delayed)), messages) else (1, 1))%Z;
    ds_messagesSeries := foldl (fun series i => add_series series (i_traffic_series i ?? [])) [] ints |}.

(** [CardEnvironmentRows]: the pip, the label and the words of each row. *)
Record EnvironmentRow := { er_pip : string; er_label : string; er_status : EnvironmentStatus + string }.
Definition card_environment_rows (it : Integration) (envs : list string) : list EnvironmentRow :=
  let byEnv := omap_of ((fun e => (es_environment e, e)) <$> (i_environments it ?? [])) in
  (fun env => let e := omap_get env byEnv in {|
     er_pip := pipForStatus (Some ((es_status <$> e) ?? "quiet")); er_label := environmentLabel env;
     er_status := match e with Some e => inl e | None => inr "no traffic" end |}) <$> envs.

(** ** Editing *)

Definition synthesizeItem (now integrationId widgetType : string) (position : Z) : DashboardItem := {|
  di_id := tpl ["draft-"; integrationId]; di_entityKind := "integration"; di_integrationId := integrationId; di_systemName := None;
  di_systemId := None; di_widgetType := widgetType; di_position := position; di_createdAt := now |}.
Definition synthesizeSystemEntityItem (now systemId : string) (position : Z) : DashboardItem := {|
  di_id := tpl ["draft-sysent-"; systemId]; di_entityKind := "system_entity"; di_integrationId := ""; di_systemName := None;
  di_systemId := Some systemId; di_widgetType := "system_health"; di_position := position; di_createdAt := now |}.

Definition with_items_of (items : list DashboardItem) (d : Dashboard) : Dashboard := set_items (da_autoIncludeAll d) items d.
Definition items_count (d : Dashboard) : Z := Z.of_nat (length (da_items d)).
Definition set_widget (widget : string) (i : DashboardItem) : DashboardItem := {|
  di_id := di_id i; di_entityKind := di_entityKind i; di_integrationId := di_integrationId i; di_systemName := di_systemName i;
  di_systemId := di_systemId i; di_widgetType := widget; di_position := di_position i; di_createdAt := di_createdAt i |}.
Definition pins (integrationId : string) (i : DashboardItem) : bool := di_integrationId i =s integrationId.
Definition pins_system (name : string) (i : DashboardItem) : bool := (di_entityKind i =s "system") && bool_decide (di_systemName i = Some name).
Definition pins_entity (id : string) (i : DashboardItem) : bool := (di_entityKind i =s "system_entity") && bool_decide (di_systemId i = Some id).
(** Changes the first item that meets a test. *)
Fixpoint update_first (p : DashboardItem -> bool) (f : DashboardItem -> DashboardItem) (l : list DashboardItem) : list DashboardItem :=
  match l with [] => [] | i :: l => if p i then f i :: l else i :: update_first p f l end.

Definition setCardWidget (now integrationId widget : string) (d : Dashboard) : Dashboard :=
  with_items_of (if existsb (pins integrationId) (da_items d) then update_first (pins integrationId) (set_widget widget) (da_items d)
                 else da_items d ++ [synthesizeItem now integrationId widget (items_count d)]) d.
Definition addCard (now integrationId : string) (d : Dashboard) : Dashboard :=
  if existsb (pins integrationId) (da_items d) then d
  else with_items_of (da_items d ++ [synthesizeItem now integrationId (da_defaultWidgetType d) (items_count d)]) d.
Definition addSystemEntity (now id : string) (d : Dashboard) : Dashboard :=
  if existsb (pins_entity id) (da_items d) then d
  else with_items_of (da_items d ++ [synthesizeSystemEntityItem now id (items_count d)]) d.
Definition removeSystem (name : string) (d : Dashboard) : Dashboard :=
  with_items_of (List.filter (fun i => negb (pins_system name i)) (da_items d)) d.
Definition removeSystemEntity (id : string) (d : Dashboard) : Dashboard :=
  with_items_of (List.filter (fun i => negb (pins_entity id i)) (da_items d)) d.

(** What the editor bar changes with [updateDraft]. *)
Inductive Patch := PName (s : string) | PAuto (b : bool) | PRule (r : option DashboardIncludeRule) | PEnvironments (l : list string)
  | PDefault (b : bool) | PWidget (w : string).
Definition updateDraft (p : Patch) (d : Dashboard) : Dashboard :=
  let patched name is_default auto widget envs rule := {|
    da_canManage := da_canManage d; da_groupId := da_groupId d; da_id := da_id d; da_name := name; da_isDefault := is_default;
    da_autoIncludeAll := auto; da_defaultWidgetType := widget; da_position := da_position d; da_mine := da_mine d;
    da_environments := envs; da_includeRule := rule; da_items := da_items d; da_createdAt := da_createdAt d; da_updatedAt := da_updatedAt d |} in
  match p with
  | PName s => patched s (da_isDefault d) (da_autoIncludeAll d) (da_defaultWidgetType d) (da_environments d) (da_includeRule d)
  | PAuto b => patched (da_name d) (da_isDefault d) b (da_defaultWidgetType d) (da_environments d) (da_includeRule d)
  | PRule r => patched (da_name d) (da_isDefault d) (da_autoIncludeAll d) (da_defaultWidgetType d) (da_environments d) (Some r)
  | PEnvironments l => patched (da_name d) (da_isDefault d) (da_autoIncludeAll d) (da_defaultWidgetType d) (Some l) (da_includeRule d)
  | PDefault b => patched (da_name d) b (da_autoIncludeAll d) (da_defaultWidgetType d) (da_environments d) (da_includeRule d)
  | PWidget w => patched (da_name d) (da_isDefault d) (da_autoIncludeAll d) w (da_environments d) (da_includeRule d)
  end.

(** Everything an editor can do to the draft. *)
Inductive DraftEdit := Patched (p : Patch) | Widget (id w : string) | RemoveCard (id : string) | AddCard (id : string)
  | AddEntity (id : string) | RemoveEntity (id : string) | RemoveSystem (name : string).
Definition edit_draft (now : string) (integrations : list Integration) (e : DraftEdit) (d : Dashboard) : Dashboard :=
  match e with
  | Patched p => updateDraft p d
  | Widget id w => setCardWidget now id w d
  | RemoveCard id => removeCard now integrations id d
  | AddCard id => addCard now id d
  | AddEntity id => addSystemEntity now id d
  | RemoveEntity id => removeSystemEntity id d
  | RemoveSystem name => removeSystem name d
  end.

(** The integrations and the systems the pickers offer. *)
Definition candidates (integrations : list Integration) (cards : list ComposedCard) : list Integration :=
  List.filter (fun i => negb (bool_decide (i_id i ∈ (fun c => i_id (cc_integration c)) <$> cards))) integrations.
Definition entityCandidates (systemEntities : list System) (pinned : list EntityCard) : list System :=
  List.filter (fun s => negb (bool_decide (sy_id s ∈ ec_id <$> pinned))) systemEntities.

(** [IncludeRuleEditor] *)
Definition rule_tags `{Host} (integrations : list Integration) : list (string * string) :=
  sort (cmp_on snd localeCompare) (omap_of ((fun t => (tg_slug t, tg_name t)) <$> integrations ≫= (fun i => i_tags i ?? []))).
Record FieldChoice := { fc_key : string; fc_label : string; fc_options : option (list string) }.
Definition valuesForField (fields : list FieldChoice) (integrations : list Integration) (key : string) : list string :=
  let options := (List.find (fun f => fc_key f =s key) fields ≫= fc_options) ?? [] in
  let seen := foldl push_new [] (options ++ List.filter truthy (omap (fun i => omap_get key (i_metadata_values i ?? [])) integrations)) in
  sort Trim.unit_cmp seen.
Definition rule_selector (rule : option DashboardIncludeRule) : string :=
  match rule with
  | None => ""
  | Some r => if dr_kind r =s "tag" then "tag" else tpl ["meta:"; dr_key r ?? ""]
  end.
(** A choice in the first list, whose values are [""], ["tag"] and
    ["meta:"] before a key, and in the second. *)
Definition choose_selector `{Host} (fields : list FieldChoice) (integrations : list Integration) (v : string) : option DashboardIncludeRule :=
  if v =s "" then None
  else if v =s "tag" then Some {| dr_kind := "tag"; dr_key := None; dr_value := (fst <$> head (rule_tags integrations)) ?? "" |}
  else let key := String.substring 5 (String.length v) v in
       Some {| dr_kind := "metadata"; dr_key := Some key; dr_value := head (valuesForField fields integrations key) ?? "" |}.
Definition choose_value (v : string) (r : DashboardIncludeRule) : DashboardIncludeRule :=
  {| dr_kind := dr_kind r; dr_key := dr_key r; dr_value := v |}.
Definition rule_editor_shown `{Host} (fields : list FieldChoice) (integrations : list Integration) : bool :=
  negb (is_nil fields && is_nil (rule_tags integrations)).

(** ** Requests *)

Definition decode_rule (r : DashboardIncludeRule) : IncludeRule :=
  {| ir_Kind := dr_kind r; ir_Key := given (dr_key r); ir_Value := dr_value r |}.
(** The bodies of the requests, as the server decodes them. *)
Definition saveDraft_request (d : Dashboard) : DashboardRequest := {|
  dq_Name := da_name d; dq_IsDefault := da_isDefault d; dq_AutoIncludeAll := da_autoIncludeAll d;
  dq_DefaultWidgetType := da_defaultWidgetType d; dq_Position := da_position d; dq_Environments := da_environments d ?? [];
  dq_IncludeRule := (if da_autoIncludeAll d then decode_rule <$> include_rule d else None); dq_GroupID := None;
  dq_Items := (fun i => decode_item (toItemRequest i)) <$> da_items d |}.
Definition quickRemove_request (now : string) (integrations : list Integration) (integrationId : string) (target : Dashboard) : DashboardRequest := {|
  dq_Name := da_name target; dq_IsDefault := da_isDefault target; dq_AutoIncludeAll := false;
  dq_DefaultWidgetType := da_defaultWidgetType target; dq_Position := da_position target; dq_Environments := da_environments target ?? [];
  dq_IncludeRule := None; dq_GroupID := None;
  dq_Items := (fun i => decode_item (toItemRequest i)) <$> quickRemove_items now integrations integrationId target |}.
(** [roles] is the production environments, [None] when they cannot be read. *)
Definition createDashboard_request (name : string) (start_with_all : bool) (groupId : option string) (roles : option (list string)) : DashboardRequest := {|
  dq_Name := name; dq_IsDefault := false; dq_AutoIncludeAll := start_with_all; dq_DefaultWidgetType := "traffic_sparkline"; dq_Position := 0;
  dq_Environments := match roles with Some (_ :: _) => [PRODUCTION_TOKEN] | _ => [] end; dq_IncludeRule := None;
  dq_GroupID := (if truthy_opt groupId then groupId else None); dq_Items := [] |}.

(** [NewDashboardDialog]: the team it opens with, whether it can be sent, and
    what [onCreate] gets. *)
Definition dialog_team (orgWide : bool) (editorGroups : list string) : string := if orgWide then "" else head editorGroups ?? "".
Definition dialog_valid (orgWide : bool) (name groupId : string) : bool :=
  truthy (trim name) && (orgWide || negb (groupId =s "")).
Definition dialog_sent (name groupId : string) : string * option string := (trim name, if truthy groupId then Some groupId else None).

(** ** The page *)

Inductive Sent := SaveSent (id : string) (body : DashboardRequest) | RemoveSent (id : string) (body : DashboardRequest)
  | DeleteSent (id : string) | CreateSent (body : DashboardRequest).
Record Page := {
  pg_loading : bool;                       (** the list is being fetched *)
  pg_dashboards : option (list Dashboard); pg_error : option string; pg_activeId : option string;
  pg_editing : bool; pg_draft : option Dashboard; pg_saving : bool; pg_newOpen : bool;
  pg_remembered : option string;           (** the local storage *)
  pg_sent : option Sent }.

Definition find_dashboard (id : option string) (l : option (list Dashboard)) : option Dashboard :=
  match id with Some id => List.find (fun d => da_id d =s id) (l ?? []) | None => None end.
Definition active (st : Page) : option Dashboard := find_dashboard (pg_activeId st) (pg_dashboards st).
Definition visibleSource (st : Page) : option Dashboard := if pg_editing st then pg_draft st else active st.

Definition set_active (id : option string) (st : Page) : Page := {|
  pg_loading := pg_loading st; pg_dashboards := pg_dashboards st; pg_error := pg_error st; pg_activeId := id; pg_editing := pg_editing st;
  pg_draft := pg_draft st; pg_saving := pg_saving st; pg_newOpen := pg_newOpen st; pg_remembered := pg_remembered st; pg_sent := pg_sent st |}.
Definition set_draft (editing : bool) (draft : option Dashboard) (st : Page) : Page := {|
  pg_loading := pg_loading st; pg_dashboards := pg_dashboards st; pg_error := pg_error st; pg_activeId := pg_activeId st; pg_editing := editing;
  pg_draft := draft; pg_saving := pg_saving st; pg_newOpen := pg_newOpen st; pg_remembered := pg_remembered st; pg_sent := pg_sent st |}.
Definition set_loaded (l : list Dashboard) (st : Page) : Page := {|
  pg_loading := pg_loading st; pg_dashboards := Some l; pg_error := pg_error st; pg_activeId := pg_activeId st; pg_editing := pg_editing st;
  pg_draft := pg_draft st; pg_saving := pg_saving st; pg_newOpen := pg_newOpen st; pg_remembered := pg_remembered st; pg_sent := pg_sent st |}.
Definition set_error (loading : bool) (e : option string) (st : Page) : Page := {|
  pg_loading := loading; pg_dashboards := pg_dashboards st; pg_error := e; pg_activeId := pg_activeId st; pg_editing := pg_editing st;
  pg_draft := pg_draft st; pg_saving := pg_saving st; pg_newOpen := pg_newOpen st; pg_remembered := pg_remembered st; pg_sent := pg_sent st |}.
(** A request leaves ([setSaving(true); setDashError(null)]), and is answered. *)
Definition send (r : Sent) (st : Page) : Page := {|
  pg_loading := pg_loading st; pg_dashboards := pg_dashboards st; pg_error := None; pg_activeId := pg_activeId st; pg_editing := pg_editing st;
  pg_draft := pg_draft st; pg_saving := true; pg_newOpen := pg_newOpen st; pg_remembered := pg_remembered st; pg_sent := Some r |}.
Definition answered (st : Page) : Page := {|
  pg_loading := pg_loading st; pg_dashboards := pg_dashboards st; pg_error := pg_error st; pg_activeId := pg_activeId st; pg_editing := pg_editing st;
  pg_draft := pg_draft st; pg_saving := false; pg_newOpen := pg_newOpen st; pg_remembered := pg_remembered st; pg_sent := None |}.
Definition set_newOpen (b : bool) (st : Page) : Page := {|
  pg_loading := pg_loading st; pg_dashboards := pg_dashboards st; pg_error := pg_error st; pg_activeId := pg_activeId st; pg_editing := pg_editing st;
  pg_draft := pg_draft st; pg_saving := pg_saving st; pg_newOpen := b; pg_remembered := pg_remembered st; pg_sent := pg_sent st |}.

Section page.
Context `{Host}.

(** The effects of a change of [dashboards] or [activeId], in their order: the
    pick, the local storage, the draft. *)
Definition pick (st : Page) : Page :=
  match pg_dashboards st with
  | None => st
  | Some [] => set_active None st
  | Some l =>
      if truthy_opt (pg_activeId st) && existsb (fun d => bool_decide (Some (da_id d) = pg_activeId st)) l then st
      else match pickActiveDashboard l (pg_remembered st) with Some d => set_active (Some (da_id d)) st | None => st end
  end.
Definition remember (st : Page) : Page := {|
  pg_loading := pg_loading st; pg_dashboards := pg_dashboards st; pg_error := pg_error st; pg_activeId := pg_activeId st;
  pg_editing := pg_editing st; pg_draft := pg_draft st; pg_saving := pg_saving st; pg_newOpen := pg_newOpen st;
  pg_remembered := (if truthy_opt (pg_activeId st) then pg_activeId st else pg_remembered st); pg_sent := pg_sent st |}.
Definition sync_draft (st : Page) : Page := set_draft false (active st) st.
Definition effects (st : Page) : Page := sync_draft (remember (pick st)).

(** What the server answers: the dashboard saved or created, nothing for a
    deletion, or the message of an error. *)
Inductive Answer := Saved (d : Dashboard) | Deleted | Refused (m : string).
Inductive Event :=
| Loaded (l : list Dashboard) | LoadFailed (m : string)
| Select (id : string) | EditClick | Change (e : DraftEdit) | SaveClick | CancelClick
| QuickRemove (id : string) | DeleteClick
| NewClick | NewCancel | NewCreate (name : string) (all : bool) (group : option string) (roles : option (list string))
| Answered (a : Answer).

Definition answer (r : Sent) (a : Answer) (st : Page) : Page :=
  let st' := answered st in
  match a with
  | Refused m => set_error (pg_loading st') (Some m) st'
  | Saved d =>
      match r with
      | CreateSent _ => effects (set_newOpen false (set_draft true (pg_draft st') (set_active (Some (da_id d))
                          (set_loaded ((pg_dashboards st' ?? []) ++ [d]) st'))))
      | SaveSent _ _ => effects (set_draft false (pg_draft st') (set_loaded ((fun x => if da_id x =s da_id d then d else x) <$> (pg_dashboards st' ?? [])) st'))
      | _ => effects (set_loaded ((fun x => if da_id x =s da_id d then d else x) <$> (pg_dashboards st' ?? [])) st')
      end
  | Deleted =>
      match r with
      | DeleteSent id => effects (set_draft false (pg_draft st') (set_active None
                           (set_loaded (List.filter (fun d => negb (da_id d =s id)) (pg_dashboards st' ?? [])) st')))
      | _ => st'
      end
  end.

(** [now] is the time, [integrations] those on screen.  An event whose control
    is not offered does nothing; a confirmation is given. *)
Definition step (now : string) (integrations : list Integration) (st : Page) (e : Event) : Page :=
  match e with
  | Loaded l => if pg_loading st then effects (set_loaded l (set_error false (pg_error st) st)) else st
  | LoadFailed m => if pg_loading st then set_error false (Some m) st else st
  | Select id =>
      if existsb (fun d => da_id d =s id) (pg_dashboards st ?? [])
      then if bool_decide (pg_activeId st = Some id) then st else effects (set_active (Some id) st) else st
  | EditClick =>
      match active st with
      | Some d => if negb (pg_editing st) && (da_canManage d ?? true) then set_draft true (pg_draft st) st else st
      | None => st
      end
  | Change e => if pg_editing st then set_draft true (edit_draft now integrations e <$> pg_draft st) st else st
  | SaveClick =>
      match pg_draft st with
      | Some d => if pg_editing st && negb (pg_saving st) then send (SaveSent (da_id d) (saveDraft_request d)) st else st
      | None => st
      end
  | CancelClick => if pg_editing st && negb (pg_saving st) then set_draft false (active st) st else st
  | QuickRemove id =>
      match active st with
      | Some d => if pg_editing st && negb (pg_saving st) then send (RemoveSent (da_id d) (quickRemove_request now integrations id d)) st else st
      | None => st
      end
  | DeleteClick =>
      match active st with
      | Some d =>
          if pg_editing st && negb (pg_saving st) then
            if (length (pg_dashboards st ?? []) <=? 1)%nat
            then set_error (pg_loading st) (Some "Can't delete your only dashboard. Rename it or create another first.") st
            else send (DeleteSent (da_id d)) st
          else st
      | None => st
      end
  | NewClick => set_newOpen true st
  | NewCancel => if pg_saving st then st else set_newOpen false st
  | NewCreate name all group roles =>
      if pg_newOpen st && negb (pg_saving st) then send (CreateSent (createDashboard_request name all group roles)) st else st
  | Answered a => match pg_sent st with Some r => answer r a st | None => st end
  end.

Definition opened (remembered : option string) : Page := {|
  pg_loading := true; pg_dashboards := None; pg_error := None; pg_activeId := None; pg_editing := false; pg_draft := None;
  pg_saving := false; pg_newOpen := false; pg_remembered := remembered; pg_sent := None |}.
End page.

(** ** What holds of the page *)

Definition ids_of (l : list Dashboard) : list string := da_id <$> l.
(** Identifiers are distinct and none is empty. *)
Definition ids_ok (l : list Dashboard) : Prop := NoDup (ids_of l) /\ "" ∉ ids_of l.

(** The open dashboard is one of those loaded, the draft is its draft and,
    outside of edit mode, its copy; one request is under way at a time. *)
Record good (st : Page) : Prop := {
  gd_saving : pg_saving st = match pg_sent st with Some _ => true | None => false end;
  gd_ids : ids_ok (pg_dashboards st ?? []);
  gd_active : pg_activeId st = da_id <$> active st /\ (pg_activeId st = None <-> pg_dashboards st ?? [] = []);
  gd_draft : pg_editing st = false -> pg_draft st = active st;
  gd_draft_id : da_id <$> pg_draft st = pg_activeId st;
  gd_editing : pg_editing st = true -> pg_draft st <> None
}.

(** What the server promises of an answer: it lists and creates dashboards with
    identifiers of their own, and answers a save with the dashboard saved. *)
Definition honest (st : Page) (e : Event) : Prop :=
  match e with
  | Loaded l => ids_ok l
  | Answered (Saved d) =>
      match pg_sent st with
      | Some (SaveSent id _) | Some (RemoveSent id _) => da_id d = id
      | Some (CreateSent _) => da_id d <> "" /\ da_id d ∉ ids_of (pg_dashboards st ?? [])
      | _ => False
      end
  | Answered Deleted => exists id, pg_sent st = Some (DeleteSent id)
  | _ => True
  end.
Inductive runs `{Host} : Page -> Page -> Prop :=
| runs_none st : runs st st
| runs_step st st' now integrations e : runs st st' -> honest st' e -> runs st (step now integrations st' e).

Lemma edit_draft_id now integrations e d : da_id (edit_draft now integrations e d) = da_id d.
Proof.
  destruct e as [[]| | | | | |]; cbn; try done; unfold addCard, addSystemEntity; by case_if.
Qed.
Lemma find_id l d : NoDup (ids_of l) -> d ∈ l -> find_dashboard (Some (da_id d)) (Some l) = Some d.
Proof.
  intros Hn Hd. cbn. unfold default, id. destruct (List.find _ l) as [x|] eqn:E.
  - apply find_Some_elem in E as [Hx Hi]. bool_prop. f_equal. by apply (NoDup_map_eq da_id l).
  - exfalso. eapply List.find_none in E; [|by apply list_elem_of_In]. by rewrite String.eqb_refl in E.
Qed.
Lemma find_id_inv id l d : find_dashboard id l = Some d -> id = Some (da_id d) /\ d ∈ l ?? [].
Proof. unfold find_dashboard. destruct id as [i|]; [|done]. intros [H1 H2]%find_Some_elem. bool_prop. split; [by f_equal|done]. Qed.

Section pages.
Context `{HL : Host}.

Lemma pick_in l r d : l <> [] -> pickActiveDashboard l r = Some d -> d ∈ l.
Proof.
  unfold pickActiveDashboard. destruct l as [|x l]; [done|]. intros _. destruct (List.find da_isDefault _) as [y|] eqn:E1.
  { intros [= <-]. apply find_Some_elem in E1 as [H _]. by apply sort_elem in H. }
  destruct (if truthy_opt r then _ else None) as [y|] eqn:E2.
  { intros [= <-]. destruct (truthy_opt r); [|done]. by apply find_Some_elem in E2 as [? _]. }
  destruct (orderDashboards (x :: l)) as [|y m] eqn:E; [done|]. intros [= <-]. apply (sort_elem dashboard_order). unfold orderDashboards in E. rewrite E. by left.
Qed.
Lemma pick_some l r : l <> [] -> exists d, pickActiveDashboard l r = Some d.
Proof.
  unfold pickActiveDashboard. destruct l as [|x l]; [done|]. intros _. destruct (List.find da_isDefault _) as [y|]; [by exists y|].
  destruct (if truthy_opt r then _ else None) as [y|]; [by exists y|]. destruct (orderDashboards (x :: l)) as [|y m] eqn:E; [|by exists y].
  exfalso. apply (f_equal length) in E. unfold orderDashboards in E. by rewrite sort_length in E.
Qed.

Lemma active_truthy l d : ids_ok l -> d ∈ l -> truthy_opt (Some (da_id d)) = true.
Proof. intros [_ H] Hd. apply truthy_spec. intros E. apply H. unfold default, id in E. rewrite <- E. by apply list_elem_of_fmap_2. Qed.

(** Whatever the identifier was, the effects open a dashboard that is there. *)
Lemma pick_good st : ids_ok (pg_dashboards st ?? []) -> (pg_dashboards st = None -> pg_activeId st = None) ->
  pg_activeId (pick st) = da_id <$> active (pick st) /\ (pg_activeId (pick st) = None <-> pg_dashboards st ?? [] = []) /\
  pg_dashboards (pick st) = pg_dashboards st.
Proof.
  intros Hi Hn. unfold pick. destruct (pg_dashboards st) as [[|x l]|] eqn:Ed.
  - cbn. unfold active. cbn. by rewrite Ed.
  - assert (Hok : forall d, d ∈ x :: l -> pg_activeId (set_active (Some (da_id d)) st) = da_id <$> active (set_active (Some (da_id d)) st) /\
        (pg_activeId (set_active (Some (da_id d)) st) = None <-> x :: l = []) /\ pg_dashboards (set_active (Some (da_id d)) st) = Some (x :: l)).
    { intros d Hd. cbn [pg_activeId set_active pg_dashboards active]. unfold active. cbn [pg_activeId set_active pg_dashboards]. rewrite Ed.
      rewrite find_id by (try done; apply Hi). by split. }
    destruct (_ && _) eqn:E.
    + apply andb_true_iff in E as [_ (d & Hd & Hb)%existsb_elem]. apply bool_decide_eq_true in Hb. unfold active. rewrite <- Hb, Ed.
      rewrite find_id by (try done; apply Hi). by split.
    + destruct (pick_some (x :: l) (pg_remembered st)) as [d Hd]; [done|]. rewrite Hd. apply Hok. by apply (pick_in _ (pg_remembered st)).
  - specialize (Hn eq_refl). unfold active. rewrite Hn, Ed. by cbn.
Qed.
Lemma effects_good st : pg_saving st = match pg_sent st with Some _ => true | None => false end ->
  ids_ok (pg_dashboards st ?? []) -> (pg_dashboards st = None -> pg_activeId st = None) -> good (effects st).
Proof.
  intros Hs Hi Hn. destruct (pick_good st Hi Hn) as (P1 & P2 & P3).
  assert (Ha : active (effects st) = active (pick st)) by done.
  assert (Hp : pg_saving (pick st) = pg_saving st /\ pg_sent (pick st) = pg_sent st).
  { unfold pick. destruct (pg_dashboards st) as [[|x l]|]; [done| |done]. case_if; [done|]. by destruct (pickActiveDashboard _ _). }
  destruct Hp as [S1 S2]. split.
  - cbn. by rewrite S1, S2.
  - cbn. by rewrite P3.
  - rewrite Ha. cbn. rewrite P3. by split.
  - intros _. cbn. by rewrite Ha.
  - cbn. by rewrite P1.
  - done.
Qed.

Lemma replaced_ids d l : ids_of ((fun x => if da_id x =s da_id d then d else x) <$> l) = ids_of l.
Proof.
  unfold ids_of. rewrite <- list_fmap_compose. apply list_fmap_ext. intros i x _. cbn. destruct (da_id x =s da_id d) eqn:E; [|done]. by bool_prop.
Qed.
Lemma removed_ids_ok id l : ids_ok l -> ids_ok (List.filter (fun d => negb (da_id d =s id)) l).
Proof.
  intros [H1 H2]. split; [by apply filterb_map_NoDup|]. intros (d & E & [Hd _]%filterb_elem)%list_elem_of_fmap. apply H2. rewrite E.
  by apply list_elem_of_fmap_2.
Qed.
Lemma good_closed st : good st -> pg_dashboards st = None -> pg_activeId st = None.
Proof. intros H E. apply (gd_active _ H). by rewrite E. Qed.

Lemma good_same st st' : good st -> pg_dashboards st' = pg_dashboards st -> pg_activeId st' = pg_activeId st -> pg_editing st' = pg_editing st ->
  pg_draft st' = pg_draft st -> pg_saving st' = match pg_sent st' with Some _ => true | None => false end -> good st'.
Proof.
  intros [G1 G2 G3 G4 G5 G6] E1 E2 E3 E4 E5. assert (Ea : active st' = active st) by (unfold active; by rewrite E1, E2).
  split; rewrite ?Ea, ?E1, ?E2, ?E3, ?E4; done.
Qed.

Lemma answer_good r a st : good st -> pg_sent st = Some r -> honest st (Answered a) -> good (answer r a st).
Proof.
  intros Hg Hr Hh. pose proof Hg as [G1 G2 G3 G4 G5 G6]. cbn in Hh. rewrite Hr in Hh. destruct a as [d| |m]; cbn [answer].
  - assert (Hrep : ids_ok ((fun x => if da_id x =s da_id d then d else x) <$> (pg_dashboards st ?? []))).
    { unfold ids_ok. by rewrite replaced_ids. }
    destruct r as [id b|id b|id|b]; try done; apply effects_good; try done.
    cbn. destruct Hh as [Hh1 Hh2]. unfold ids_ok, ids_of in *. rewrite fmap_app. split.
    + apply NoDup_app. split; [apply G2|]. split; [|apply NoDup_singleton]. by intros x Hx ->%list_elem_of_singleton.
    + intros [H|H%list_elem_of_singleton]%elem_of_app; [by apply G2|done].
  - destruct Hh as [id [= ->]]. apply effects_good; [done| |done]. cbn. by apply removed_ids_ok.
  - split; try done; cbn; apply Hg.
Qed.

Lemma step_good now integrations st e : good st -> honest st e -> good (step now integrations st e).
Proof.
  intros Hg Hh. pose proof Hg as [G1 G2 G3 G4 G5 G6]. destruct e as [l|m|id| |ed| | |id| | | |name all grp roles|a]; cbn [step].
  - case_if; [|done]. apply effects_good; done.
  - case_if; [|done]. by split.
  - destruct (existsb _ _) eqn:E; [|done]. case_bool_decide; [done|]. apply effects_good; [done..|]. intros En. cbn in En.
    by rewrite En in E.
  - destruct (active st) as [d|] eqn:Ea; [|done]. destruct (_ && _) eqn:E; [|done]. apply andb_true_iff in E as [E _]. apply negb_true_iff in E.
    specialize (G4 E). split; try done; [apply (gd_active _ Hg)|]. cbn. by rewrite G4.
  - destruct (pg_editing st) eqn:E; [|done]. split; try done; cbn.
    + rewrite <- option_fmap_compose. rewrite <- G5. destruct (pg_draft st); [|done]. cbn. by rewrite edit_draft_id.
    + intros _. specialize (G6 eq_refl). by destruct (pg_draft st).
  - destruct (pg_draft st) as [d|] eqn:Ed; [|done]. case_if; [|done]. by apply (good_same st).
  - case_if; [|done]. split; try done. cbn. by destruct G3 as [-> _].
  - destruct (active st) as [d|]; [|done]. case_if; [|done]. by apply (good_same st).
  - destruct (active st) as [d|]; [|done]. case_if; [|done]. case_if; by apply (good_same st).
  - by apply (good_same st).
  - case_if; [done|]. apply (good_same st); try done; apply (gd_saving _ Hg).
  - case_if; [|done]. by apply (good_same st).
  - destruct (pg_sent st) as [r|] eqn:Er; [|done]. by apply answer_good.
Qed.

(** Whatever is clicked and whenever answers come, the page shows one of the
    dashboards it holds (and one is open as soon as there is one), the draft is
    that of the open dashboard and, when nothing is being edited, its saved copy;
    the buttons are blocked exactly while a request is under way. *)
Theorem page_stays_in_step remembered st : runs (opened remembered) st -> good st.
Proof.
  intros H. remember (opened remembered) as st0 eqn:E0. induction H as [|st st' now integrations e H IH Hh]; [|apply step_good; [by apply IH|done]].
  subst. split; try done. cbn. split; [apply NoDup_nil; done|apply not_elem_of_nil].
Qed.

(** ** The page keeps a dashboard *)

Definition keeps_one (st : Page) : Prop :=
  good st /\ pg_loading st = false /\ exists d l, pg_dashboards st = Some (d :: l) /\
  forall id, pg_sent st = Some (DeleteSent id) -> exists x, x ∈ d :: l /\ da_id x <> id.

Lemma effects_fields st : pg_dashboards (effects st) = pg_dashboards st /\ pg_sent (effects st) = pg_sent st /\ pg_loading (effects st) = pg_loading st.
Proof.
  unfold effects. cbn. unfold pick. destruct (pg_dashboards st) as [[|x l]|] eqn:E; [done| |by rewrite E].
  case_if; [by rewrite E|]. destruct (pickActiveDashboard _ _); cbn; by rewrite ?E.
Qed.
Lemma two_ids l d : ids_ok l -> d ∈ l -> (length l <=? 1)%nat = false -> exists x, x ∈ l /\ da_id x <> da_id d.
Proof.
  intros [H _] Hd. destruct l as [|a [|b l]]; [done..|]. intros _. cbn in H. apply NoDup_cons in H as [Ha _].
  destruct (decide (da_id a = da_id d)) as [E|E]; [|exists a; split; [in_cons|done]]. exists b. split; [in_cons|].
  intros E'. apply Ha. rewrite E, <- E'. in_cons.
Qed.
Lemma keeps_one_step now integrations st e : keeps_one st -> honest st e -> keeps_one (step now integrations st e).
Proof.
  intros (Hg & Hl & d & l & Hd & Hs) Hh. split; [by apply step_good|]. pose proof (gd_ids _ Hg) as Hi. rewrite Hd in Hi. cbn in Hi.
  assert (Hsame : forall st', pg_loading st' = false -> pg_dashboards st' = Some (d :: l) -> (forall id, pg_sent st' = Some (DeleteSent id) ->
      pg_sent st = Some (DeleteSent id)) ->
    pg_loading st' = false /\ exists d l, pg_dashboards st' = Some (d :: l) /\ forall id, pg_sent st' = Some (DeleteSent id) -> exists x, x ∈ d :: l /\ da_id x <> id).
  { intros st' L D S. split; [done|]. exists d, l. split; [done|]. intros id Hid. by apply Hs, S. }
  assert (Heff : forall st', pg_loading st' = false -> pg_sent st' <> Some (DeleteSent "") /\ (forall id, pg_sent st' <> Some (DeleteSent id)) ->
      (exists d l, pg_dashboards st' = Some (d :: l)) ->
    pg_loading (effects st') = false /\ exists d l, pg_dashboards (effects st') = Some (d :: l) /\
      forall id, pg_sent (effects st') = Some (DeleteSent id) -> exists x, x ∈ d :: l /\ da_id x <> id).
  { intros st' L [_ S] (d' & l' & D). destruct (effects_fields st') as (-> & -> & ->). split; [done|]. exists d', l'. split; [done|].
    intros id Hid. by apply S in Hid. }
  destruct e as [l1|m|id| |ed| | |id| | | |name all grp roles|a]; cbn [step].
  - rewrite Hl. apply Hsame; done.
  - rewrite Hl. apply Hsame; done.
  - destruct (existsb _ _); [|by apply Hsame]. case_if; [by apply Hsame|].
    destruct (effects_fields (set_active (Some id) st)) as (E1 & E2 & E3). apply Hsame; rewrite ?E1, ?E2, ?E3; done.
  - destruct (active st); [case_if|]; by apply Hsame.
  - case_if; by apply Hsame.
  - destruct (pg_draft st); [case_if|]; by apply Hsame.
  - case_if; by apply Hsame.
  - destruct (active st); [case_if|]; by apply Hsame.
  - destruct (active st) as [x|] eqn:Ea; [|by apply Hsame]. case_if; [|by apply Hsame]. destruct (_ <=? 1)%nat eqn:E; [by apply Hsame|].
    cbn. split; [done|]. exists d, l. split; [done|]. intros id [= <-]. rewrite Hd in E. unfold active in Ea.
    apply find_id_inv in Ea as [_ Hx]. rewrite Hd in Hx. by apply (two_ids (d :: l)).
  - by apply Hsame.
  - case_if; by apply Hsame.
  - case_if; by apply Hsame.
  - destruct (pg_sent st) as [r|] eqn:Er; [|apply Hsame; [done..|by rewrite Er]]. cbn in Hh. rewrite Er in Hh.
    destruct a as [x| |m]; cbn [answer].
    + destruct r; try done; apply Heff; try done; cbn; rewrite Hd; eauto.
    + destruct Hh as [k [= ->]]. destruct (Hs k eq_refl) as (x & Hx & Hne). apply Heff; [done|done|]. cbn. rewrite Hd. unfold default, id.
      destruct (List.filter _ (d :: l)) as [|y m] eqn:E; [|eauto]. exfalso. eapply elem_of_nil. rewrite <- E. apply filterb_elem. split; [exact Hx|].
      by apply negb_true_iff, String.eqb_neq.
    + apply Hsame; done.
Qed.

(** Once the list is loaded and holds a dashboard, the page always holds one:
    the last one cannot be deleted, and one is open. *)
Theorem never_without_dashboard st st' : good st -> pg_loading st = false -> pg_sent st = None -> pg_dashboards st ?? [] <> [] ->
  runs st st' -> pg_dashboards st' ?? [] <> [] /\ exists d, active st' = Some d.
Proof.
  intros Hg Hl Hs Hd Hr. assert (H0 : keeps_one st).
  { split; [done|]. split; [done|]. destruct (pg_dashboards st) as [[|d l]|]; [done| |done]. exists d, l. split; [done|]. rewrite Hs. done. }
  clear Hg Hl Hs Hd. assert (H : keeps_one st') by (induction Hr; [done|apply keeps_one_step; [by apply IHHr|done]]).
  destruct H as (Hg & _ & d & l & E & _). split; [by rewrite E|]. destruct (gd_active _ Hg) as [Ha Hn]. rewrite E in Hn.
  destruct (active st') as [x|]; [by exists x|]. cbn in Ha. exfalso. by apply Hn in Ha.
Qed.
End pages.

(** ** Edits that are lost *)

Section lost.
Context `{HL : Host}.

Lemma answered_saved r d st : good st -> pg_dashboards st <> None -> (exists b, r = RemoveSent (da_id d) b \/ r = SaveSent (da_id d) b) ->
  pg_sent st = Some r -> da_id <$> active st = Some (da_id d) ->
  pg_editing (answer r (Saved d) st) = false /\ pg_draft (answer r (Saved d) st) = Some d /\ active (answer r (Saved d) st) = Some d.
Proof.
  intros Hg Hl Hr Hs Ha. pose proof (answer_good r (Saved d) st Hg Hs) as Hg'. cbn [honest] in Hg'. rewrite Hs in Hg'.
  assert (Hg2 : good (answer r (Saved d) st)) by (apply Hg'; by destruct Hr as [b [-> | ->]]). clear Hg'.
  assert (E : pg_editing (answer r (Saved d) st) = false) by by destruct Hr as [b [-> | ->]].
  rewrite (gd_draft _ Hg2 E). split; [done|].
  assert (Hact : active (answer r (Saved d) st) = Some d); [|by split].
  destruct (active st) as [x|] eqn:Ex; [|done]. cbn in Ha. injection Ha as Hx. pose proof Ex as Ex'. unfold active in Ex'. apply find_id_inv in Ex' as [Eid Hin].
  destruct (pg_dashboards st) as [l|] eqn:El; [|done]. cbn in Hin.
  set (l' := (fun y => if da_id y =s da_id d then d else y) <$> l).
  assert (Hd : d ∈ l').
  { apply list_elem_of_fmap. exists x. split; [|done]. by rewrite Hx, String.eqb_refl. }
  assert (Hids : ids_ok l') by (unfold ids_ok, l'; rewrite replaced_ids; pose proof (gd_ids _ Hg) as Hi; by rewrite El in Hi).
  assert (Hk : pg_dashboards (answer r (Saved d) st) = Some l' /\ pg_activeId (answer r (Saved d) st) = Some (da_id d)).
  { assert (Hp : forall st', pg_dashboards st' = Some l' -> pg_activeId st' = Some (da_id d) ->
      pg_dashboards (effects st') = Some l' /\ pg_activeId (effects st') = Some (da_id d)).
    { intros st' D A. unfold effects. cbn. unfold pick. rewrite D, A. destruct l' as [|y m]; [by apply elem_of_nil in Hd|].
      rewrite (active_truthy (y :: m) d), (proj2 (existsb_elem _ _)); [cbn [andb]; by rewrite D, A| |done|done].
      exists d. split; [done|]. by apply bool_decide_true. }
    destruct Hr as [b [-> | ->]]; cbn [answer]; apply Hp; cbn; rewrite ?El; try done; by rewrite Eid, Hx. }
  destruct Hk as [K1 K2]. unfold active. rewrite K1, K2. apply find_id; [|done].
  pose proof (proj1 (gd_ids _ Hg2)) as Hn. by rewrite K1 in Hn.
Qed.

(** The small cross of a card, which is only offered while the dashboard is
    being edited, sends the saved dashboard without that card; when it is saved
    the edits are gone and edit mode is left.  What the draft held does not
    matter. *)
Theorem cross_drops_edits now integrations id st d saved :
  good st -> pg_editing st = true -> pg_saving st = false -> active st = Some d -> da_id saved = da_id d ->
  let st1 := step now integrations st (QuickRemove id) in
  let st2 := step now integrations st1 (Answered (Saved saved)) in
  pg_sent st1 = Some (RemoveSent (da_id d) (quickRemove_request now integrations id d)) /\
  pg_editing st2 = false /\ pg_draft st2 = Some saved /\ active st2 = Some saved.
Proof.
  intros Hg He Hs Ha Hid. cbv zeta. cbn [step]. rewrite Ha, He, Hs. cbn [negb andb]. split; [done|]. cbn [pg_sent send].
  set (st1 := send _ st). assert (Hg1 : good st1) by by apply (good_same st).
  assert (Ha1 : active st1 = active st) by done. rewrite <- Hid.
  apply (answered_saved (RemoveSent (da_id saved) _)); [done| | |by rewrite Hid|by rewrite Ha1, Ha; cbn; rewrite Hid].
  - intros E. unfold active in Ha. cbn in E. rewrite E in Ha. by destruct (pg_activeId st).
  - eexists. by left.
Qed.

(** A new dashboard is open, but not in edit mode, although the page asks for
    it: the effect that follows the change of the list closes the editor. *)
Theorem new_dashboard_opens_closed now integrations st d b :
  good st -> pg_sent st = Some (CreateSent b) -> da_id d <> "" -> da_id d ∉ ids_of (pg_dashboards st ?? []) ->
  let st' := step now integrations st (Answered (Saved d)) in
  active st' = Some d /\ pg_editing st' = false /\ pg_newOpen st' = false.
Proof.
  intros Hg Hs H1 H2. cbv zeta. cbn [step]. rewrite Hs.
  assert (Hg' : good (answer (CreateSent b) (Saved d) st)) by (apply answer_good; [done|done|]; cbn; by rewrite Hs).
  cbn [answer] in *. set (l := (pg_dashboards (answered st) ?? []) ++ [d]) in *.
  set (st1 := set_newOpen false _) in *.
  assert (Hd : d ∈ l) by (apply elem_of_app; right; by left).
  assert (E : pick st1 = st1).
  { unfold pick. change (pg_dashboards st1) with (Some l). change (pg_activeId st1) with (Some (da_id d)).
    assert (T : truthy_opt (Some (da_id d)) = true) by (apply truthy_spec; exact H1).
    assert (X : existsb (fun y => bool_decide (Some (da_id y) = Some (da_id d))) l = true).
    { apply existsb_elem. exists d. split; [done|]. by apply bool_decide_true. }
    rewrite T, X. clearbody l. destruct l as [|x m]; [by apply elem_of_nil in Hd|done]. }
  assert (Hn : pg_newOpen (effects st1) = false) by (unfold effects; by rewrite E).
  split; [|by split]. change (active (effects st1)) with (active (pick st1)). rewrite E. unfold active. cbn.
  apply (find_id l); [|done]. pose proof (proj1 (gd_ids _ Hg')) as Hi. destruct (effects_fields st1) as (F & _ & _). by rewrite F in Hi.
Qed.
End lost.

(** ** Adding *)

Lemma omap_get_of_snoc {V} (k k' : string) (v : V) l : omap_get k (omap_of (l ++ [(k', v)])) = if decide (k = k') then Some v else omap_get k (omap_of l).
Proof. rewrite omap_of_app. cbn. apply omap_get_set. Qed.
Lemma not_pinned id d : existsb (pins id) (da_items d) = false -> omap_get id (items_by_integration d) = None.
Proof.
  intros H. destruct (omap_get id (items_by_integration d)) as [i|] eqn:E; [|done]. exfalso. apply not_true_iff_false in H. apply H.
  apply existsb_elem. apply omap_get_elem, omap_of_elem, list_elem_of_fmap in E as (i' & [= -> ->] & Hi). exists i'.
  split; [done|]. apply String.eqb_refl.
Qed.

(** On a dashboard that shows every integration, or those of a rule, adding one
    from the picker shows nothing more: the cards, and their widgets, are the
    same.  The picker offers exactly the integrations the rule leaves out. *)
Theorem adding_to_auto_shows_nothing now d integrations id :
  da_autoIncludeAll d = true ->
  cards_of integrations (Some (addCard now id d)) = cards_of integrations (Some d) /\
  (NoDup (i_id <$> integrations) ->
   forall i, i ∈ candidates integrations (cards_of integrations (Some d)) <-> i ∈ integrations /\ matchesIncludeRule i (include_rule d) = false).
Proof.
  intros Ha. split.
  - unfold addCard. destruct (existsb _ _) eqn:E; [done|]. unfold cards_of. cbn [da_autoIncludeAll with_items_of set_items da_defaultWidgetType].
    rewrite Ha. apply list_fmap_ext. intros n i _. f_equal. unfold items_by_integration at 1. cbn [da_items set_items with_items_of].
    rewrite fmap_app. cbn [fmap list_fmap]. rewrite omap_get_of_snoc. destruct (decide _) as [->|]; [|done].
    cbn [di_integrationId synthesizeItem]. by rewrite (not_pinned _ _ E).
  - intros Hn i. unfold candidates, cards_of. rewrite Ha, filterb_elem, negb_true_iff, bool_decide_eq_false, <- list_fmap_compose.
    unfold compose. cbn [cc_integration]. unfold ruleIntegrations. rewrite Ha. destruct (include_rule d) as [r|] eqn:Er.
    + split; intros [Hi H]; (split; [done|]).
      * apply not_true_iff_false. intros Hm. apply H. apply list_elem_of_fmap. exists i. split; [done|]. by apply filterb_elem.
      * intros (j & E & [Hj Hm]%filterb_elem)%list_elem_of_fmap. assert (i = j) as -> by by apply (NoDup_map_eq i_id integrations). congruence.
    + split; [|by intros [_ ?]]. intros [Hi H]. exfalso. apply H. by apply list_elem_of_fmap_2.
Qed.

(** On a list of its own, what is added is shown, with the default widget, and
    nothing else changes. *)
Theorem adding_to_list_shows_card now d integrations i :
  da_autoIncludeAll d = false -> NoDup (i_id <$> integrations) -> i ∈ integrations -> existsb (pins (i_id i)) (da_items d) = false ->
  cards_of integrations (Some (addCard now (i_id i) d))
  = cards_of integrations (Some d) ++ [{| cc_integration := i; cc_widget := da_defaultWidgetType d |}].
Proof.
  intros Ha Hn Hi E. unfold addCard. rewrite E. unfold cards_of. cbn [da_autoIncludeAll with_items_of set_items da_items]. rewrite Ha, omap_app. f_equal.
  cbn. by rewrite by_id_get.
Qed.

(** ** Environments *)

(** A dashboard that names environments never reads all of them: without a
    production environment it asks for the token itself, which no telemetry
    carries.  Otherwise it asks, once each, for the environments it names and
    those that are production. *)
Theorem named_environments_narrow source known :
  let asked := effectiveEnvs None source known in
  (source <> [] -> asked_envs asked <> None) /\
  (asked = [PRODUCTION_TOKEN] \/
   NoDup asked /\ forall e, e ∈ asked <-> (e ∈ source /\ e <> PRODUCTION_TOKEN) \/ (PRODUCTION_TOKEN ∈ source /\ e ∈ ke_production known)).
Proof.
  cbv zeta. unfold effectiveEnvs. destruct (expandProduction_correct source (ke_production known)) as [H1 H2].
  destruct (expandProduction _ _) as [|x l] eqn:E; cbn [is_nil andb].
  - destruct (includes_token source) eqn:Ht; [split; [done|by left]|]. split; [|by right]. intros Hs. destruct source as [|e s]; [done|].
    exfalso. apply (elem_of_nil e), H2. left. split; [by left|]. intros ->. apply bool_decide_eq_false in Ht. apply Ht. by left.
  - split; [done|by right].
Qed.

Lemma add_known_spec l names e : e ∈ foldl add_known names l <-> e ∈ names \/ (e ∈ l /\ e <> PRODUCTION_TOKEN).
Proof.
  revert names. induction l as [|x l IH]; intros names; csimpl; [split; [by left|by intros [?|[?%elem_of_nil _]]]|].
  rewrite IH, elem_of_cons. assert (Hx : e ∈ add_known names x <-> e ∈ names \/ (e = x /\ e <> PRODUCTION_TOKEN)).
  { unfold add_known. destruct (x =s PRODUCTION_TOKEN) eqn:E1; bool_prop; cbn [negb andb].
    - split; [by left|]. intros [?|[-> ?]]; done.
    - case_bool_decide as E2; cbn [negb].
      + split; [by left|]. by intros [?|[-> _]].
      + rewrite elem_of_app, list_elem_of_singleton. split; [intros [?| ->]; auto|intros [?|[-> _]]; auto]. }
  rewrite Hx. tauto.
Qed.
(** The editor offers a box for every environment of the dashboard, so each of
    them can be unticked, and for every known one; except that it shows nothing at
    all when no environment is known and the dashboard names none itself: a
    dashboard of the production environments then keeps them. *)
Theorem ticked_environments_have_boxes known value :
  match editor_boxes known value with
  | Some boxes => (forall e, e ∈ ke_environments known -> e ∈ boxes) /\ (forall e, e ∈ value -> e ∈ boxes)
  | None => ke_environments known = [] /\ forall e, e ∈ value -> e = PRODUCTION_TOKEN
  end.
Proof.
  unfold editor_boxes. pose proof (add_known_spec value (ke_environments known)) as H.
  destruct (foldl add_known _ value) as [|x l] eqn:E.
  - split.
    + destruct (ke_environments known) as [|y m]; [done|]. exfalso. apply (elem_of_nil y), H. left. by left.
    + intros e He. destruct (decide (e = PRODUCTION_TOKEN)); [done|]. exfalso. apply (elem_of_nil e), H. by right.
  - split; intros e He.
    + assert (e ∈ x :: l) by (apply H; by left). case_if; [by right|done].
    + destruct (decide (e = PRODUCTION_TOKEN)) as [->|Hne].
      * assert (T : includes_token value = true) by by apply bool_decide_true. rewrite T, orb_true_r. by left.
      * assert (e ∈ x :: l) by (apply H; by right). case_if; [by right|done].
Qed.
Lemma unticked e value : e ∉ tick e false value /\ forall x, x <> e -> x ∈ tick e false value <-> x ∈ value.
Proof.
  unfold tick. split; [rewrite filterb_elem; intros [_ H]; by rewrite String.eqb_refl in H|].
  intros x Hx%String.eqb_neq. rewrite filterb_elem, Hx. tauto.
Qed.

(** ** The figures *)

Lemma count_if_split {A} (p q : A -> bool) l : (forall x, p x = true -> q x = false) -> (count_if p l + count_if q l <= Z.of_nat (length l))%Z.
Proof.
  intros H. unfold count_if. induction l as [|x l IH]; [done|]. cbn [List.filter length]. destruct (p x) eqn:E.
  - rewrite (H _ E). cbn [length]. lia.
  - destruct (q x); cbn [length]; lia.
Qed.
Lemma count_if_or {A} (p q : A -> bool) l : (forall x, p x = true -> q x = false) -> (count_if (fun x => p x || q x) l = count_if p l + count_if q l)%Z.
Proof.
  intros H. unfold count_if. induction l as [|x l IH]; [done|]. cbn [List.filter]. destruct (p x) eqn:E.
  - rewrite (H _ E). cbn [orb length]. lia.
  - destruct (q x); cbn [orb length]; lia.
Qed.
Lemma add_series_nth a b k : nth k (add_series a b) 0%Z = (nth k a 0 + nth k b 0)%Z.
Proof.
  revert b k. induction a as [|x a IH]; intros [|y b] [|k]; cbn; first [done|lia|apply IH].
Qed.
Lemma total_of_snoc {A} (f : A -> Z) l x : (total_of f (l ++ [x]) = total_of f l + f x)%Z.
Proof. unfold total_of. by rewrite foldl_app. Qed.
Lemma status_apart s s' o : s <> s' -> status_is s o = true -> status_is s' o = false.
Proof. unfold status_is. intros H ->%bool_decide_eq_true. apply bool_decide_eq_false. congruence. Qed.

(** The figures at the head of the page: each integration is counted in at
    most one state, what runs is what does not fail, each bar of the traffic is
    the sum of those of the integrations, and the rate of success is a share,
    which counts a failed or a delayed message once. *)
Theorem figures_add_up ints :
  let s := summarise ints in
  (ds_ok s + ds_quiet s + ds_err s <= ds_total s)%Z /\ (ds_ok s + ds_quiet s <= ds_running s)%Z /\
  (forall k, nth k (ds_messagesSeries s) 0%Z = total_of (fun i => nth k (i_traffic_series i ?? []) 0%Z) ints) /\
  (let '(n, d) := ds_successRate s in
   0 < d /\ 0 <= n /\ (0 <= ds_errors s + ds_delayed s -> n <= d) /\
   (0 < ds_messages s -> 0 <= ds_errors s + ds_delayed s <= ds_messages s -> d = ds_messages s /\ n + (ds_errors s + ds_delayed s) = d))%Z.
Proof.
  cbv zeta. unfold summarise. cbn [ds_ok ds_quiet ds_err ds_total ds_running ds_messagesSeries ds_successRate ds_errors ds_delayed ds_messages].
  set (F := fun i => failing (i_status i)).
  assert (H : (count_if (fun i => status_is "ok" (i_status i)) ints + count_if (fun i => status_is "quiet" (i_status i)) ints + count_if F ints
    <= Z.of_nat (length ints))%Z).
  { rewrite <- (count_if_or (fun i => status_is "ok" (i_status i))) by (intros x; by apply status_apart). apply count_if_split.
    intros x [E|E]%orb_true_iff; unfold F, failing.
    - by rewrite (status_apart "ok" "errors" _ ltac:(discriminate) E), (status_apart "ok" "unhealthy" _ ltac:(discriminate) E).
    - by rewrite (status_apart "quiet" "errors" _ ltac:(discriminate) E), (status_apart "quiet" "unhealthy" _ ltac:(discriminate) E). }
  split; [lia|]. split; [lia|]. split.
  - intros k. clear H F. induction ints as [|i l IH] using rev_ind; [by destruct k|]. rewrite foldl_app, total_of_snoc. cbn [foldl].
    rewrite add_series_nth. by rewrite IH.
  - destruct (_ <? _)%Z eqn:E.
    + apply Z.ltb_lt in E. split; [lia|]. split; [lia|]. split; [lia|]. intros _ ?. split; lia.
    + apply Z.ltb_ge in E. split; [lia|]. split; [lia|]. split; [lia|]. lia.
Qed.

Section pips.
Context `{HL : Host}.

Lemma pip_rank_cases o : (pipForStatus o = "err" /\ failing o = true) \/ (pipForStatus o = "ok" /\ failing o = false /\ o = Some "ok") \/
  (pipForStatus o = "muted" /\ failing o = false /\ o <> Some "ok").
Proof.
  unfold pipForStatus, failing, status_is. destruct o as [s|]; [|right; right; by split].
  destruct (String.eqb_spec s "ok") as [->|N1]; [right; left; by split|]. destruct (String.eqb_spec s "quiet") as [->|N2]; [right; right; by split|].
  destruct (String.eqb_spec s "errors") as [->|N3]; [by left|]. destruct (String.eqb_spec s "unhealthy") as [->|N4]; [by left|].
  right; right. rewrite !bool_decide_false by congruence. split; [done|]. split; [done|]. congruence.
Qed.
Lemma worst_of cards worst : worst = "muted" \/ worst = "ok" \/ worst = "err" ->
  let r := foldl worse worst cards in
  (r = "err" <-> worst = "err" \/ exists c, c ∈ cards /\ failing (i_status (cc_integration c)) = true) /\
  (r = "muted" <-> worst = "muted" /\ forall c, c ∈ cards -> failing (i_status (cc_integration c)) = false /\ i_status (cc_integration c) <> Some "ok") /\
  (r = "muted" \/ r = "ok" \/ r = "err").
Proof.
  revert worst. induction cards as [|c l IH]; intros worst Hw; cbv zeta; csimpl.
  { split; [split; [by left|by intros [?|(? & ?%elem_of_nil & _)]]|]. split; [|done]. split; [|by intros [? _]]. intros ?. split; [done|]. by intros ? ?%elem_of_nil. }
  assert (Hw' : (worse worst c = "muted" \/ worse worst c = "ok" \/ worse worst c = "err") /\
    (worse worst c = "err" <-> worst = "err" \/ failing (i_status (cc_integration c)) = true) /\
    (worse worst c = "muted" <-> worst = "muted" /\ failing (i_status (cc_integration c)) = false /\ i_status (cc_integration c) <> Some "ok")).
  { unfold worse. destruct (pip_rank_cases (i_status (cc_integration c))) as [[-> F]|[(-> & F & N)|(-> & F & N)]];
      destruct Hw as [->|[->| ->]]; cbn; (split; [auto|]); intuition congruence. }
  destruct Hw' as (Hc & He & Hm). destruct (IH _ Hc) as (H1 & H2 & H3).
  split; [rewrite H1, He|split; [rewrite H2, Hm|done]].
  - split; [intros [[?|?]|(x & ? & ?)]; [by left|right; exists c; split; [by left|done]|right; exists x; split; [by right|done]]|].
    intros [?|(x & [->|Hx]%elem_of_cons & ?)]; [by left; left|by left; right|right; by exists x].
  - split.
    + intros [(? & ? & ?) Hl]. split; [done|]. intros x [->|Hx]%elem_of_cons; [done|by apply Hl].
    + intros [? Hl]. split; [split; [done|apply Hl; by left]|]. intros x Hx. apply Hl. by right.
Qed.

(** The pip of a tab tells the worst of what its dashboard shows: red when
    something fails, neutral when nothing does and nothing is healthy either,
    green otherwise. *)
Theorem tab_pip_is_the_worst integrations d :
  let pip := dashboard_pip integrations d in
  (pip = "err" <-> exists c, c ∈ cards_of integrations (Some d) /\ failing (i_status (cc_integration c)) = true) /\
  (pip = "muted" <-> forall c, c ∈ cards_of integrations (Some d) ->
     failing (i_status (cc_integration c)) = false /\ i_status (cc_integration c) <> Some "ok") /\
  (pip = "muted" \/ pip = "ok" \/ pip = "err").
Proof.
  cbv zeta. unfold dashboard_pip, composeCards.
  destruct (worst_of (sort card_order (cards_of integrations (Some d))) "muted") as (H1 & H2 & H3); [by left|].
  split; [rewrite H1|split; [rewrite H2|done]].
  - split; [intros [?|(c & Hc & ?)]; [done|]; exists c; by rewrite sort_elem in Hc|]. intros (c & Hc & ?). right. exists c. by rewrite sort_elem.
  - split; [intros [_ H] c Hc; apply H; by rewrite sort_elem|]. intros H. split; [done|]. intros c Hc. apply H. by rewrite sort_elem in Hc.
Qed.
End pips.

(** ** Systems *)

Section systems.
Context `{HL : Host}.

(** A reader who may not edit the dashboard sees no card of a system that is
    not listed for him, so none that calls a system deleted; an editor sees a card
    for every system of the board. *)
Theorem readers_see_no_ghosts visibleSource systemEntities :
  let cards := systemEntityCards visibleSource systemEntities in
  (can_edit visibleSource = false -> forall c, c ∈ cards -> exists s, ec_system c = Some s /\ s ∈ systemEntities /\ sy_id s = ec_id c) /\
  (can_edit visibleSource = true -> cards ≡ₚ entity_cards visibleSource systemEntities).
Proof.
  cbv zeta. unfold systemEntityCards. split; intros He.
  - intros c [Hc Hs]%sort_elem%filterb_elem. rewrite He, orb_false_r in Hs. unfold has_system in Hs. destruct (ec_system c) as [s|] eqn:E; [|done].
    exists s. split; [done|]. apply list_elem_of_fmap in Hc as (i & -> & _). cbn in *.
    apply omap_get_elem, omap_of_elem, list_elem_of_fmap in E as (s' & [= E1 ->] & Hs'). by split.
  - rewrite sort_perm. rewrite filterb_all; [done|]. intros c _. by rewrite He, orb_true_r.
Qed.

(** What an editor reads on such a card, that the system is deleted and no
    longer exists, is not so: on a dashboard as the server stores it, the system
    exists, and is one the editor is not shown. *)
Theorem ghost_systems_exist by_position b t r systemEntities c :
  consistent t -> r ∈ t_dashboards t -> (forall l, by_position l ≡ₚ l) ->
  c ∈ systemEntityCards (Some (to_wire by_position b r)) systemEntities -> ec_system c = None ->
  (ec_id c, rw_OrganizationID r) ∈ t_systems t /\ ec_id c ∉ sy_id <$> systemEntities.
Proof.
  intros Hc Hr Hp [Hcard _]%sort_elem%filterb_elem Hn. pose proof (cs_rows _ Hc) as Hrows. rewrite Forall_forall in Hrows.
  destruct (ro_items _ _ (Hrows r Hr)) as [Hi _]. rewrite Forall_forall in Hi. unfold entity_cards in Hcard.
  apply list_elem_of_fmap in Hcard as (w & -> & [Hw Hk]%filterb_elem). cbn in Hn |- *. cbn in Hw.
  apply list_elem_of_fmap in Hw as (i & -> & Hin). rewrite Hp in Hin. apply andb_true_iff in Hk as [Hk _]. cbn in Hk. bool_prop. cbn in Hn |- *. split.
  - destruct (Hi i Hin) as [_ [(K & _)|[(K & _)|(_ & _ & _ & _ & x & -> & Hx)]]]; [congruence..|done].
  - intros (s & E & Hs)%list_elem_of_fmap. apply (f_equal is_Some) in Hn. assert (S : is_Some (omap_get (it_SystemID i ?? "") (omap_of ((fun s => (sy_id s, s)) <$> systemEntities)))).
    { apply omap_of_has. rewrite <- list_fmap_compose. apply list_elem_of_fmap. by exists s. }
    rewrite Hn in S. by destruct S.
Qed.

(** ** The rule that picks integrations *)

(** A rule chosen in the editor is one the server accepts when there is a
    value to choose, and is otherwise refused, with the dashboard that is saved
    with it. *)
Theorem chosen_rule_accepted_iff fields integrations v r :
  choose_selector fields integrations v = Some r -> v = "tag" \/ (exists key, v = "meta:" +:+ key /\ TrimSpace key <> "") ->
  longer 200 (TrimSpace (given (dr_key r))) = false -> longer 200 (TrimSpace (dr_value r)) = false ->
  (exists rule, rule_Validate (Some (decode_rule r)) = inr rule) <-> TrimSpace (dr_value r) <> "".
Proof.
  unfold choose_selector. destruct (String.eqb_spec v "") as [->|Nv]; [done|]. destruct (String.eqb_spec v "tag") as [->|Nt].
  - intros [= <-] _. cbn [dr_value dr_key]. intros _ Hl. unfold rule_Validate, decode_rule. cbn [ir_Kind ir_Key ir_Value dr_kind dr_key dr_value].
    simpl ("tag" =s _). cbv iota.
    destruct (String.eqb_spec (TrimSpace ((fst <$> head (rule_tags integrations)) ?? "")) "") as [E|E]; [split; [by intros [? [=]]|done]|].
    split; [done|]. intros _. change (longer 200 "") with false. rewrite Hl. cbn. eauto.
  - intros [= <-] [->|(key & -> & Hk)]; [done|]. cbn [dr_value dr_key given]. unfold given, default, id. intros Hl1 Hl2.
    unfold rule_Validate, decode_rule. cbn [ir_Kind ir_Key ir_Value dr_kind dr_key dr_value given]. simpl ("metadata" =s _). cbv iota.
    unfold given, default, id. assert (Ek : String.substring 5 (String.length ("meta:" +:+ key)) ("meta:" +:+ key) = key).
    { cbn. clear. assert (G : forall n, (String.length key <= n)%nat -> String.substring 0 n key = key); [|apply G; lia].
      induction key as [|c k IH]; intros [|n] Hn; cbn in *; try done; try lia. f_equal. apply IH. lia. }
    rewrite Ek in *. destruct (String.eqb_spec (TrimSpace key) "") as [?|_]; [done|]. cbn [orb].
    match goal with |- context [TrimSpace ?x =s ""] => destruct (String.eqb_spec (TrimSpace x) "") as [E|E] end; [split; [by intros [? [=]]|done]|].
    split; [done|]. intros _. rewrite Hl1, Hl2. cbn. eauto.
Qed.
End systems.

(** ** The page and the server *)

(** Two rows that differ in their dates and in the identifiers of their items;
    a rule that is not in force is dropped. *)
Definition same_board (r r' : Row) : Prop :=
  rw_ID r' = rw_ID r /\ rw_OrganizationID r' = rw_OrganizationID r /\ rw_OwnerUserID r' = rw_OwnerUserID r /\ rw_Name r' = rw_Name r /\
  rw_IsDefault r' = rw_IsDefault r /\ rw_AutoIncludeAll r' = rw_AutoIncludeAll r /\ rw_DefaultWidgetType r' = rw_DefaultWidgetType r /\
  rw_Position r' = rw_Position r /\ rw_GroupID r' = rw_GroupID r /\ rw_Environments r' = rw_Environments r /\
  rw_IncludeRule r' = (if rw_AutoIncludeAll r then rw_IncludeRule r else None) /\
  exists l, l ≡ₚ rw_Items r /\ Forall2 same_item l (rw_Items r').

Lemma decode_to_wire r : decode_rule (rule_to_wire r) = r.
Proof. destruct r as [k key v]. unfold decode_rule, rule_to_wire. cbn. by rewrite given_omit. Qed.

Section saving.
Context (uuid_Parse : string -> option string) (draw : nat -> string) (now : string) (by_position : list Item -> list Item).
Hypothesis by_position_perm : forall l, by_position l ≡ₚ l.
Abbreviation updateDashboard := (updateDashboard uuid_Parse draw now by_position).

Lemma resent_items (l : list Item) : (fun i => decode_item (toItemRequest i)) <$> (item_to_wire <$> l) = resent <$> l.
Proof. by rewrite <- list_fmap_compose. Qed.
Lemma items_valid_all n l : (forall q, q ∈ l -> item_Validate uuid_Parse q = inr tt) -> items_Validate uuid_Parse n l = inr tt.
Proof.
  revert n. induction l as [|q l IH]; intros n H; [done|]. cbn [items_Validate]. rewrite H by in_cons. apply IH. intros x Hx. apply H. in_cons.
Qed.
Lemma perm_items_ok t org l l' : l' ≡ₚ l -> items_ok t org l -> items_ok t org l'.
Proof. intros Hp [H1 H2]. split; [by rewrite Hp|]. by rewrite Hp. Qed.

Lemma saved_request_valid t b r : canonical uuid_Parse t -> row_ok t r ->
  request_Validate uuid_Parse (saveDraft_request (to_wire by_position b r)) = inr (if rw_AutoIncludeAll r then rw_IncludeRule r else None).
Proof.
  intros Hcan Hr. unfold request_Validate. cbn [saveDraft_request to_wire dq_Name dq_DefaultWidgetType dq_Environments dq_IncludeRule dq_Items
    da_name da_defaultWidgetType da_environments da_items da_autoIncludeAll]. destruct (ro_name _ _ Hr) as [N L].
  apply String.eqb_neq in N. apply longer_false in L. rewrite N, L. pose proof (ro_widget _ _ Hr) as W.
  destruct (valid_widget _ W) as [W1 _]. rewrite (nonempty_id _ _ W1), W. cbn [negb]. rewrite resent_items, items_valid_all.
  2:{ intros q (i & -> & Hi)%list_elem_of_fmap. eapply resent_valid; [exact Hcan|]. destruct (ro_items _ _ Hr) as [F _].
      rewrite Forall_forall in F. apply F. by rewrite <- (by_position_perm (rw_Items r)). }
  cbn [err_bind]. unfold default at 1, id. rewrite (cleaned_id _ (ro_environments _ _ Hr)). cbn [err_bind].
  destruct (rw_AutoIncludeAll r); [|done]. unfold include_rule. cbn [da_includeRule to_wire]. pose proof (ro_rule _ _ Hr) as Hru.
  destruct (rw_IncludeRule r) as [rule|]; [|done]. change (rule_Validate (Some (decode_rule (rule_to_wire rule))) = inr (Some rule)). rewrite decode_to_wire. by apply rule_Validate_id.
Qed.

(** C14. Opening the editor of a dashboard and saving without a change keeps it:
    the request is accepted, the row keeps every field (a rule that is not in
    force is dropped) and its items, and no other row changes. *)
Theorem untouched_save_keeps_board org a id b t r :
  consistent t -> canonical uuid_Parse t -> Get org id t = Some r -> manages a r -> uuid_Parse id = Some id ->
  exists d t', updateDashboard org a id (Some (saveDraft_request (to_wire by_position b r))) t = inr (d, t') /\
    Forall2 (fun s s' => if is_row org id s then same_board s s' else s' = s) (t_dashboards t) (t_dashboards t').
Proof.
  intros Hc Hcan Hg Hm Hid. pose proof (Get_inv _ _ _ _ Hg) as (Hin & Ho & Hi). pose proof (cs_rows _ Hc) as Hrows.
  rewrite Forall_forall in Hrows. pose proof (Hrows r Hin) as Hr. unfold DashboardServer.updateDashboard. rewrite Hid. unfold requireManageDashboard. rewrite Hg.
  assert (Hsee : canSeeDashboard r a = true).
  { unfold canSeeDashboard, canSeeTeamScoped. destruct Hm as [Hm|(_ & g & role & Hgr & E & _)].
    - destruct (rw_GroupID r); [by rewrite Hm|done].
    - rewrite Hgr. unfold omap_has. rewrite E. apply orb_true_r. }
  rewrite Hsee, (proj2 (canManage_manages r a) Hm). cbn [negb err_bind]. unfold Update. rewrite (saved_request_valid t b r Hcan Hr).
  set (q := saveDraft_request (to_wire by_position b r)).
  change (dq_Environments q) with (rw_Environments r). change (dq_Position q) with (rw_Position r). change (dq_IsDefault q) with (rw_IsDefault r).
  assert (Eq : dq_Items q = resent <$> by_position (rw_Items r)) by apply resent_items. rewrite Eq.
  rewrite (cleaned_id _ (ro_environments _ _ Hr)), (ro_position _ _ Hr). cbn [negb]. rewrite Hg.
  destruct (repost_items uuid_Parse draw now org t Hcan (by_position (rw_Items r))) as (items & E & Hitems).
  { eapply perm_items_ok; [apply by_position_perm|]. rewrite <- Ho. apply Hr. }
  rewrite E. cbn [err_bind]. eexists _, _. split; [done|]. cbn [t_dashboards set_dashboards].
  assert (Hclear : (if rw_IsDefault r then clearDefaults now org None (Some id) (t_dashboards t) else t_dashboards t) = t_dashboards t).
  { destruct (rw_IsDefault r) eqn:Ed; [|done]. unfold clearDefaults. rewrite <- (list_fmap_id (t_dashboards t)) at 2. apply list_fmap_ext.
    intros k s Hs%list_elem_of_lookup_2. destruct (clears org None (Some id) s) eqn:Ec; [|done]. exfalso. unfold clears in Ec. bool_prop.
    match goal with H : bool_decide (_ = Some id) = false |- _ => apply bool_decide_eq_false in H; apply H end.
    rewrite (cs_default _ Hc s r Hs Hin); [congruence|done|done|congruence]. }
  rewrite Hclear. apply Forall2_fmap_r, Forall_Forall2_diag, Forall_forall. intros s Hs. unfold compose. cbv beta.
  destruct (is_row org id s) eqn:Es; [|done]. assert (s = r) as ->.
  { unfold is_row in Es. bool_prop. apply (NoDup_map_eq rw_ID (t_dashboards t)); [apply Hc|done|done|congruence]. }
  repeat split; try done. destruct (valid_widget _ (ro_widget _ _ Hr)) as [W _]. cbn. by rewrite (nonempty_id _ _ W).
  exists (by_position (rw_Items r)). by split.
Qed.
End saving.

(** Choosing another default leaves the old one marked on the page, until it is
    loaded again; and saving the old one then, without a change, makes it the
    default again. *)
Theorem old_default_comes_back uuid_Parse draw now by_position org a path q A rA d t t1 :
  consistent t -> Get org A t = Some rA -> rw_IsDefault rA = true -> canSeeDashboard rA a = true ->
  updateDashboard uuid_Parse draw now by_position org a path (Some q) t = inr (d, t1) -> dq_IsDefault q = true -> da_id d <> A ->
  let page := (fun x => if da_id x =s da_id d then d else x) <$> listDashboards by_position org a t in
  exists e, e ∈ page /\ da_id e = A /\ da_isDefault e = true /\ (forall r, Get org A t1 = Some r -> rw_IsDefault r = false) /\
    forall draw' now' d2 t2, uuid_Parse A = Some A ->
      updateDashboard uuid_Parse draw' now' by_position org a A (Some (saveDraft_request e)) t1 = inr (d2, t2) ->
      forall s, s ∈ t_dashboards t2 -> rw_OrganizationID s = org -> rw_IsDefault s = true <-> rw_ID s = A.
Proof.
  intros Hc Hg Hd Hsee Hu Hq Hne. cbv zeta. apply Get_inv in Hg as (G1 & G2 & G3).
  apply updateDashboard_inv in Hu as (id & q' & r & row & _ & [= <-] & _ & _ & _ & Hu & ->). cbn [da_id to_wire] in *.
  pose proof (Update_consistent _ _ _ _ _ _ _ _ _ Hc Hu) as Hc1. destruct (updated_default _ _ _ _ _ _ _ _ _ Hc Hu Hq) as (_ & _ & _ & _ & Hone).
  exists (to_wire by_position (canManageDashboard rA a) rA). split; [|split; [done|split; [done|split]]].
  - apply list_elem_of_fmap. exists (to_wire by_position (canManageDashboard rA a) rA). cbn [da_id to_wire]. rewrite G3.
    destruct (A =s rw_ID row) eqn:E; [bool_prop; congruence|]. split; [done|]. apply list_elem. by exists rA.
  - intros s Hs. apply Get_inv in Hs as (S1 & S2 & S3). destruct (rw_IsDefault s) eqn:E; [|done]. exfalso. apply Hne. rewrite <- S3. f_equal. symmetry. by apply Hone.
  - intros draw' now' d2 t2 Hid H2 s Hs Ho. apply updateDashboard_inv in H2 as (id2 & q2 & r2 & row2 & E1 & [= <-] & _ & _ & _ & Hu2 & ->).
    assert (id2 = A) as -> by congruence. pose proof (Update_consistent _ _ _ _ _ _ _ _ _ Hc1 Hu2) as Hc2.
    destruct (updated_default _ _ _ _ _ _ _ _ _ Hc1 Hu2 Hd) as (M1 & _ & M3 & M4 & Hone2). split; [by intros ->%Hone2|].
    intros Es. assert (s = row2) as ->; [|done]. apply (NoDup_map_eq rw_ID (t_dashboards t2)); [apply Hc2|done|done|congruence].
Qed.

(** ** Instances *)

Definition ex_dashboard (id name : string) (is_default : bool) : Dashboard := {|
  da_canManage := Some true; da_groupId := None; da_id := id; da_name := name; da_isDefault := is_default; da_autoIncludeAll := true;
  da_defaultWidgetType := "traffic_sparkline"; da_position := 0; da_mine := false; da_environments := Some []; da_includeRule := None;
  da_items := []; da_createdAt := "2026-01-01"; da_updatedAt := "2026-01-01" |}.
Definition ex_boards : list Dashboard := [ex_dashboard "d1" "All integrations" true; ex_dashboard "d2" "Payments" false].
Lemma ex_boards_ok : ids_ok ex_boards.
Proof. split; [apply (bool_decide_unpack _); vm_compute; exact I|apply (bool_decide_unpack _); vm_compute; exact I]. Qed.
(** The page with both dashboards loaded; the second is open and being edited,
    under a new name. *)
Definition ex_loaded : Page := step (H := plain_host) "now" [] (opened (Some "d2")) (Loaded ex_boards).
Definition ex_open : Page := step (H := plain_host) "now" [] ex_loaded (Select "d2").
Definition ex_editing : Page :=
  step (H := plain_host) "now" [] (step (H := plain_host) "now" [] ex_open EditClick) (Change (Patched (PName "Orders"))).
Lemma ex_runs : runs (H := plain_host) (opened (Some "d2")) ex_editing.
Proof. repeat (apply runs_step; [|first [exact I|exact ex_boards_ok]]). apply runs_none. Qed.
Lemma ex_editing_good : good ex_editing.
Proof.
  unfold ex_editing, ex_open, ex_loaded. repeat (apply (step_good (HL := plain_host)); [|first [exact I|exact ex_boards_ok]]).
  split; try done. cbn. split; [apply NoDup_nil; done|apply not_elem_of_nil].
Qed.

Lemma page_stays_in_step_witness : runs (H := plain_host) (opened (Some "d2")) ex_editing /\ good ex_editing.
Proof. split; [exact ex_runs|]. exact (page_stays_in_step (HL := plain_host) (Some "d2") ex_editing ex_runs). Defined.
(** The draft has the new name; the cross of a card loses it. *)
Lemma cross_drops_edits_witness :
  (da_name <$> pg_draft ex_editing) = Some "Orders" /\
  (da_name <$> pg_draft (step (H := plain_host) "now" [] (step (H := plain_host) "now" [] ex_editing (QuickRemove "i1"))
     (Answered (Saved (ex_dashboard "d2" "Payments" false))))) = Some "Payments".
Proof.
  split; [vm_compute; reflexivity|].
  destruct (cross_drops_edits (HL := plain_host) "now" [] "i1" ex_editing (ex_dashboard "d2" "Payments" false)
    (ex_dashboard "d2" "Payments" false) ex_editing_good eq_refl eq_refl eq_refl eq_refl) as (_ & _ & H & _).
  exact (f_equal (fmap da_name) H).
Defined.
Lemma never_without_dashboard_witness : good ex_editing /\ pg_loading ex_editing = false /\ pg_dashboards ex_editing ?? [] <> [].
Proof.
  split; [exact ex_editing_good|]. split; [reflexivity|].
  exact (proj1 (never_without_dashboard (HL := plain_host) ex_editing ex_editing ex_editing_good eq_refl eq_refl ltac:(discriminate) (runs_none _))).
Defined.

Lemma ex_canonical : canonical plain_uuid ex_tables.
Proof. split; [by intros id ->%list_elem_of_singleton|by intros id org ?%elem_of_nil]. Qed.
Lemma untouched_save_keeps_board_witness : exists d t',
  updateDashboard plain_uuid (fun _ => "x") "now" (sort (cmp_by it_Position)) "org" team_editor "d2"
    (Some (saveDraft_request (to_wire (sort (cmp_by it_Position)) true (ex_row "d2" "Payments" false (Some "g1"))))) ex_tables = inr (d, t') /\
  Forall2 (fun s s' => if is_row "org" "d2" s then same_board s s' else s' = s) (t_dashboards ex_tables) (t_dashboards t').
Proof.
  refine (untouched_save_keeps_board plain_uuid (fun _ => "x") "now" (sort (cmp_by it_Position)) _ "org" team_editor "d2" true ex_tables
    (ex_row "d2" "Payments" false (Some "g1")) ex_consistent ex_canonical eq_refl _ eq_refl).
  - intros l. apply sort_perm.
  - right. split; [reflexivity|]. exists "g1", "editor". repeat split.
Defined.
(** The organization's default, shown to an editor of the organization who makes
    the other dashboard the default. *)
Definition org_editor : Access := {| ax_orgWrite := true; ax_scopeCapped := false; ax_roles := [] |}.
Lemma old_default_comes_back_witness : exists d t1 e,
  updateDashboard plain_uuid (fun _ => "x") "now" (sort (cmp_by it_Position)) "org" org_editor "d2" (Some ex_request) ex_tables = inr (d, t1) /\
  da_id e = "d1" /\ da_isDefault e = true /\ (rw_IsDefault <$> Get "org" "d1" t1) = Some false.
Proof.
  destruct (updateDashboard plain_uuid (fun _ => "x") "now" (sort (cmp_by it_Position)) "org" org_editor "d2" (Some ex_request) ex_tables)
    as [m|[d t1]] eqn:E; [vm_compute in E; discriminate|]. exists d, t1.
  assert (Ed : da_id d <> "d1") by (vm_compute in E; injection E as <- _; discriminate).
  destruct (old_default_comes_back plain_uuid (fun _ => "x") "now" (sort (cmp_by it_Position)) "org" org_editor "d2" ex_request "d1"
    (ex_row "d1" "All integrations" true None) d ex_tables t1 ex_consistent eq_refl eq_refl eq_refl E eq_refl Ed) as (e & _ & H1 & H2 & _).
  exists e. split; [reflexivity|]. split; [exact H1|]. split; [exact H2|]. vm_compute in E. injection E as _ <-. vm_compute. reflexivity.
Defined.
